(* ===== verification/_CoqProject ===== *)
-Q . S2P
Prelude.v
Crc.v
Util.v
Lf256Fifo.v
Fifo.v
CircularBuffer.v
NoosList.v
Jesd204.v
Mutex.v
Bus.v
Spi.v
I2c.v
Dispatch.v
Uart.v
Pwm.v
Timer.v
Irq.v
Gpio.v
Socket.v
AxiIo.v
AxiDmac.v
AxiClkgen.v
AxiPwm.v
Peripherals.v
Clk.v
Dma.v
Pid.v
CString.v
StrConv.v
Iiod.v
IiodConn.v
IiodSafety.v
IiodPoll.v
IiodFrame.v
IiodSession.v
IiodTransfer.v
IioValue.v
IioDevice.v
IioTrigger.v
IioBuffer.v
IioXml.v
IioApp.v
IioCapture.v
IioNetwork.v
