(* ===== verification/Prelude.v ===== *)
(** * A verification library for the core of no-OS

    no-OS is Analog Devices' set of drivers for systems without an operating
    system.  This library models the part of it that every project shares: the
    data structures and algorithms of [src/util], the hardware interfaces of
    [src/drivers/api], the JESD204 link framework of [src/jesd204], and the IIO
    daemon and application of [src/iio].  Definitions are translated function by function and
    keep the names of the C code; they are executable, so the examples evaluate
    them.

    ** How the parts fit

    A project initialises its buses and peripherals through [drivers/api],
    which checks arguments, keeps what the descriptors of a device share, and
    calls the platform's operations.  Device drivers use those interfaces, the
    helpers of [util] and, for converters, the JESD204 framework, which walks
    the drivers' callbacks through the bring-up of the links.  An IIO
    application has tables of devices and triggers, describes them in XML, and
    runs a daemon that serves them to a client over a UART or a socket: a
    command of the client becomes a call of the application's functions, which
    call the device drivers.  Here the platform, the device drivers and the
    transport are parameters: arguments of the definitions that call them.

    ** Conventions (this file)

    An integer of [w] bits is a [Z] in [uint w] or [sint w]; [wrap] and [swrap]
    are C's conversions.  An [outcome] is a value, undefined behaviour, or fuel
    that ran out; a [cmd S] is a computation on a state [S] with an outcome.
    A [heap] is a map from addresses to blocks with the list of the next
    allocations that fail, so that a theorem about every heap covers every
    failure of [calloc]; using a null or freed pointer is [Undef].  Unbounded
    loops have fuel: theorems give an amount that is enough, or say that no
    amount is (a deadlock).  [triple], with [sat] and [wp], are the Hoare
    triples of commands.  Signed arithmetic that overflows is [Undef].  A
    shared object that the code reaches by a pointer is a block of a heap.

    ** Files

    - [Crc]: [util/no_os_crc8.c], [no_os_crc16.c], [no_os_crc24.c].  The
      table-driven checksums equal the bit-serial ones; bursts of bits are
      detected wherever they begin.
    - [Util]: [util/no_os_util.c], [include/no_os_util.h].  Bit scans, fields,
      divisions, byte order, byte swaps; round trips and exact values.
    - [Lf256Fifo], [Fifo], [CircularBuffer]: [util/no_os_lf256fifo.c],
      [no_os_fifo.c], [no_os_circular_buffer.c].  Each refines a queue; the
      circular buffer also under any interleaving of the calls of one writer and
      one reader, with what it does when it is overrun.
    - [NoosList]: [util/no_os_list.c].  Every operation refines one on
      sequences; iterators, adapters, removal without leaks.
    - [Jesd204]: [jesd204/jesd204-core.c], [jesd204-fsm.c].  Topologies, rates,
      and the state machine: starting and stopping a topology makes exactly the
      callbacks of a plan, once each and in order, whatever the documented mode
      and number of retries.
    - [Mutex]: [util/no_os_mutex.c], [no_os_semaphore.c] and the FreeRTOS ones;
      the class [MutexLaws] is what the interfaces below rely on.
    - [Bus], then [Spi] and [I2c]: the table of buses that [no_os_spi.c] and
      [no_os_i2c.c] have in common, proved once, and the two interfaces: its
      invariant through every request, transfers in order, sessions without
      deadlock, and the deadlock that a missing operation causes.
    - [Dispatch], then [Uart], [Pwm], [Timer], [Irq], [Gpio], [Peripherals]
      (MDIO, TRNG, EEPROM, TDM) and [Clk]: the shape of a call to a platform
      and the tables of mutexes, proved once, and the interfaces of
      [drivers/api] and [util/no_os_clk.c].  A request is the platform's
      function or an error, and the table keeps its invariant.
    - [Socket]: [network/tcp_socket.c] over the functions of a network, which
      the class [NetLaws] describes: it closes a socket only when it is asked to,
      may fail to, and may close it on a disconnection, as the repository's
      stacks do.  Descriptors and open sockets correspond through every call;
      what is lost, and when, is said.
    - [AxiIo], [AxiDmac], [AxiClkgen]: cores of [drivers/axi_core] behind the
      platform's register access.  [axi_dmac/axi_dmac.c]: the bursts of a
      transfer cover it in order, under any sequence of interrupts.
      [clk_axi_clkgen/clk_axi_clkgen.c]: the dividers that are found are the
      closest of the allowed ones, each with the nearest output divider, and a
      rate that is set is read back.
    - [AxiPwm]: [axi_pwmgen/axi_pwm.c], a platform of [Pwm].  It keeps the
      layer's promise, so that what the layer does holds for it; what it does
      not keep, the number of the device, is shown by examples.
    - [Dma]: [drivers/api/no_os_dma.c] over [NoosList], [Irq] and [Mutex].
      Batches of transfers are served in order without a real mutex and
      deadlock with one; what removing a controller does.
    - [Pid]: [util/no_os_pid.c] against the ideal controller, with the bounds
      within which nothing overflows.
    - [CString]: the functions of the C library that the daemon's protocol
      uses.  [StrConv]: the two parsers of numbers of [util/no_os_util.c], which
      read back what is printed.
    - [Iiod]: the parser of [iio/iiod.c], which understands what a client
      prints.  [IiodConn]: the connections of [iiod.c], from [iiod_init] to
      [iiod_conn_step].  [IiodSafety]: the invariant of a connection and its
      memory safety, but for four mistakes of a client that are not checked.
      [IiodPoll]: what it means to poll a connection, and that a course of
      stages with a measure ends.  [IiodSession]: a client's command is
      answered, whatever part of the bytes the transport moves at each call; a
      newline that it refuses may be lost.  [IiodTransfer]: the same for the
      two commands that move the data of a buffer in pieces.  There the
      application's functions are arguments; the next files are their
      implementation.
    - [IioValue], [IioDevice], [IioBuffer], [IioXml]: [iio/iio.c] by parts.
      Values are printed and read back; an attribute's command reaches the one
      driver's function it names, and a trigger its handlers; buffers are
      opened, filled, read and closed without losing bytes or memory; the
      description of the context fits its block and is the document it should
      be.
    - [IioTrigger]: [iio/iio_trigger.c] over [Irq] and [IioDevice].  The
      interrupt of a line reaches the device that uses its trigger, and what
      happens when the trigger is gone.  The class [IrqLaws] is what a
      controller's platform is relied on for.
    - [IioApp]: [iio_init], [iio_step] and [iio_remove] of [iio/iio.c], over all
      of these.  Starting succeeds or gives everything back, whichever
      allocation fails, and a program that runs step by step serves its client:
      the composition of the daemon's theorems with the application's.
    - [IioCapture]: a client that opens a device of such a program, reads
      blocks and closes it gets the driver's blocks.
    - [IiodFrame]: whatever a client sends, a step of its connection leaves the
      others alone.  [IioNetwork]: the branches of [iio/iio.c] for clients over
      a network, on [Socket] and the pool of [IiodConn]: every connection,
      socket and buffer belongs to exactly one client through every step, the
      clients are served in turn, nothing is left when the program stops but
      what the network failed to close, and an eleventh client stops it.

    ** Fuel and bounds

    The loops of [Util], [Lf256Fifo], [Fifo] and [NoosList] get the number of
    turns their data allows (32 for a scan of a word, the length of a list).
    The spins of [CircularBuffer] and the waits of [Mutex] are as long as the
    theorem's fuel; where nothing can release a mutex, every fuel runs out.
    The daemon's line has at most 127 characters and a step passes through at
    most five states, so 128 is enough for both of its loops; a client is
    polled at most once more than its transport stalls, and once more for each
    call of the application that moves data of a buffer.  A mask of channels has
    32 bits, so 32 turns read it; [IioApp] needs the daemon's fuel and, because
    one thread uses the queue of connections, a single spin of its circular
    buffer, which has 44 bytes, 4 for each connection and 4 more; eleven turns
    of [accept_network_clients] are enough, since ten clients fill the pool.  A
    wait of [AxiDmac] needs one turn more than the milliseconds it lasts, and
    one of [AxiClkgen] one more than the readings for which the port is busy,
    which are fewer than half of the driver's million.  Sizes are those of the C
    arrays: 256 bytes in the ring, 10 connections, 128 characters in a line.

    ** Not modelled

    - Answers over a network, where READBUF collects the data first
      ([do_read_buff_delayed]), and to a client with a cyclic buffer: the code
      is modelled and covered by the memory-safety theorem, but not by those
      about answers.
    - [network/] other than the sockets: the stacks of Linux, lwIP and a Wi-Fi
      modem, which implement the interface that [Socket] is written against, and
      the TLS paths of [tcp_socket.c], which are calls of mbedTLS; the step of
      lwIP in [iio_step]; and [iio/iio_app].
    - [no_os_alloc.c], calls of [malloc]; [no_os_font_8x8.c] and
      [no_os_sin_lut.c], tables of constants.
    - [drivers/] other than [api] and the three FPGA cores: register maps of single
      chips and platform code, which are what the interfaces call; [legacy], [projects],
      [libraries], [tools], [tests] and [doc].
    - Concurrency within a call: a writer and a reader of the circular buffer
      interleave call by call, and a task waits for a mutex that is held.  The
      code is written for one thread with interrupts. *)
From stdpp Require Export prelude gmap list.
From Stdlib Require Export ZArith Lia Bool.
#[global] Open Scope Z_scope.

(** ** Machine integers

    A [w]-bit unsigned integer of C is an integer of [Z] in the range
    [uint w]; a signed one is in the range [sint w].  [wrap] is the
    conversion to an unsigned type, [swrap] the conversion to a signed one
    (two's complement, as every compiler the repository targets does). *)

Definition wrap (w x : Z) : Z := x mod 2 ^ w.

Definition swrap (w x : Z) : Z := (x + 2 ^ (w - 1)) mod 2 ^ w - 2 ^ (w - 1).

Definition uint (w x : Z) : Prop := 0 <= x < 2 ^ w.

Definition sint (w x : Z) : Prop := - 2 ^ (w - 1) <= x < 2 ^ (w - 1).

#[export] Instance uint_dec w x : Decision (uint w x).
Proof. unfold uint. apply _. Defined.

#[export] Instance sint_dec w x : Decision (sint w x).
Proof. unfold sint. apply _. Defined.

Abbreviation u8 := (wrap 8).
Abbreviation u16 := (wrap 16).
Abbreviation u32 := (wrap 32).
Abbreviation u64 := (wrap 64).
Abbreviation s16 := (swrap 16).
Abbreviation s32 := (swrap 32).
Abbreviation s64 := (swrap 64).

(** A C condition: an integer is true when it differs from zero. *)
Definition truthy (x : Z) : bool := negb (x =? 0).

(** Error codes, as [errno.h] and [no_os_error.h] number them. *)
Definition EIO : Z := 5.
Definition EAGAIN : Z := 11.
Definition ENOMEM : Z := 12.
Definition EFAULT : Z := 14.
Definition EBUSY : Z := 16.
Definition EINVAL : Z := 22.
Definition ENOSYS : Z := 38.
Definition ENOTCONN : Z := 107.

(** [NO_OS_EOVERRUN] of [no_os_error.h]. *)
Definition NO_OS_EOVERRUN : Z := 2000 + 1.

(** [NO_OS_IS_ERR_VALUE] of [no_os_error.h]. *)
Definition NO_OS_IS_ERR_VALUE (x : Z) : bool := x <? 0.

(** ** C computations

    An [outcome] separates the three ways a modelled body can end: with a
    value, in behaviour the C standard leaves undefined (a null or dangling
    pointer, an access out of bounds, a division by zero), or with the fuel
    of an unbounded loop used up. *)

Inductive outcome (A : Type) : Type :=
  | Done (a : A)
  | Undef
  | NoFuel.
Arguments Done {A} a.
Arguments Undef {A}.
Arguments NoFuel {A}.

#[export] Instance outcome_ret : MRet outcome := fun A a => Done a.

#[export] Instance outcome_bind : MBind outcome := fun A B k c =>
  match c with
  | Done a => k a
  | Undef => Undef
  | NoFuel => NoFuel
  end.

(** A command reads and writes a state [S] and returns an [A]. *)
Definition cmd (S A : Type) : Type := S -> outcome (A * S).

#[export] Instance cmd_ret {S} : MRet (cmd S) := fun A a s => Done (a, s).

#[export] Instance cmd_bind {S} : MBind (cmd S) := fun A B k c s =>
  match c s with
  | Done (a, s') => k a s'
  | Undef => Undef
  | NoFuel => NoFuel
  end.

Definition undef {S A} : cmd S A := fun _ => Undef.

Definition get {S} : cmd S S := fun s => Done (s, s).

Definition gets {S A} (f : S -> A) : cmd S A := fun s => Done (f s, s).

Definition put {S} (s : S) : cmd S unit := fun _ => Done (tt, s).

Definition modify {S} (f : S -> S) : cmd S unit := fun s => Done (tt, f s).

(** A pure computation as a command. *)
Definition lift {S A} (o : outcome A) : cmd S A := fun s =>
  match o with
  | Done a => Done (a, s)
  | Undef => Undef
  | NoFuel => NoFuel
  end.

(** Shifts by a count that is negative or not below the width, and divisions
    by zero, are undefined. *)
Definition shl (w x n : Z) : outcome Z :=
  if (0 <=? n) && (n <? w) then Done (wrap w (Z.shiftl x n)) else Undef.

Definition shr (w x n : Z) : outcome Z :=
  if (0 <=? n) && (n <? w) then Done (Z.shiftr x n) else Undef.

Definition udiv (x y : Z) : outcome Z := if y =? 0 then Undef else Done (x / y).

Definition umod (x y : Z) : outcome Z := if y =? 0 then Undef else Done (x mod y).

(** The result of signed arithmetic, undefined when it overflows. *)
Definition ssigned (w x : Z) : outcome Z :=
  if bool_decide (sint w x) then Done x else Undef.

(** The value of an option, undefined behaviour when there is none: a
    pointer that must not be null, an index that must be in range. *)
Definition the {S A} (o : option A) : cmd S A := fun s =>
  match o with
  | Some a => Done (a, s)
  | None => Undef
  end.

(** Running a command on a part of a larger state. *)
Definition zoom {S T A} (rd : S -> T) (wr : T -> S -> S) (c : cmd T A) : cmd S A :=
  fun s =>
  match c (rd s) with
  | Done (a, t) => Done (a, wr t s)
  | Undef => Undef
  | NoFuel => NoFuel
  end.

(** [while] with fuel: the body returns [inl] to go on with a new loop
    state and [inr] to leave the loop. *)
Fixpoint loop {S X A} (fuel : nat) (body : X -> cmd S (X + A)) (x : X) : cmd S A :=
  match fuel with
  | O => fun _ => NoFuel
  | Datatypes.S fuel =>
      r ← body x;
      match r with
      | inl x' => loop fuel body x'
      | inr a => mret a
      end
  end.

(** [for (i = lo; ...; i++)] over [n] indices. *)
Fixpoint for_up {S} (n : nat) (i : Z) (body : Z -> cmd S unit) : cmd S unit :=
  match n with
  | O => mret tt
  | Datatypes.S n => _ ← body i; for_up n (i + 1) body
  end.

(** ** A heap of typed blocks

    [next_block] is an address no live block has; [oom] tells which of the
    next calls of [calloc] fail ([true]: the call returns [NULL]; past the
    end of the list they succeed), so a theorem for every heap covers every
    behaviour of the allocator. *)

Record heap (V : Type) : Type := Heap {
  cells : gmap positive V;
  next_block : positive;
  oom : list bool
}.
Arguments Heap {V} _ _ _.
Arguments cells {V} _.
Arguments next_block {V} _.
Arguments oom {V} _.

Abbreviation ptr := (option positive).

Definition heap_ok {V} (h : heap V) : Prop :=
  forall p, is_Some (cells h !! p) -> (p < next_block h)%positive.

Definition halloc {V} (v : V) : cmd (heap V) ptr := fun h =>
  match oom h with
  | true :: rest => Done (None, Heap (cells h) (next_block h) rest)
  | _ => Done (Some (next_block h),
               Heap (<[next_block h := v]> (cells h))
                    (Pos.succ (next_block h)) (tail (oom h)))
  end.

Definition hload {V} (p : ptr) : cmd (heap V) V := fun h =>
  match p ≫= (cells h !!.) with
  | Some v => Done (v, h)
  | None => Undef
  end.

Definition hstore {V} (p : ptr) (v : V) : cmd (heap V) unit := fun h =>
  match p with
  | Some q =>
      match cells h !! q with
      | Some _ => Done (tt, Heap (<[q := v]> (cells h)) (next_block h) (oom h))
      | None => Undef
      end
  | None => Undef
  end.

(** [free(NULL)] does nothing; freeing anything but a live block is
    undefined. *)
Definition hfree {V} (p : ptr) : cmd (heap V) unit := fun h =>
  match p with
  | Some q =>
      match cells h !! q with
      | Some _ => Done (tt, Heap (delete q (cells h)) (next_block h) (oom h))
      | None => Undef
      end
  | None => Done (tt, h)
  end.

(** An allocation as a proposition: the call fails and only consumes its
    entry of [oom], or it returns a fresh block. *)
Definition alloc_fails {V} (h : heap V) : bool :=
  match oom h with true :: _ => true | _ => false end.

(** ** Arrays

    An access outside the array is undefined behaviour. *)

Definition aload {A} (i : Z) : cmd (list A) A := fun l =>
  if i <? 0 then Undef else
  match l !! Z.to_nat i with
  | Some v => Done (v, l)
  | None => Undef
  end.

Definition astore {A} (i : Z) (v : A) : cmd (list A) unit := fun l =>
  if (i <? 0) || (Z.of_nat (length l) <=? i) then Undef
  else Done (tt, <[Z.to_nat i := v]> l).

(** [memcpy] of [n] bytes from offset [off] of a block, and to it. *)
Definition mem_read {A} (l : list A) (off n : Z) : option (list A) :=
  if (0 <=? off) && (0 <=? n) && (off + n <=? Z.of_nat (length l))
  then Some (take (Z.to_nat n) (drop (Z.to_nat off) l)) else None.

Definition mem_write {A} (l : list A) (off : Z) (xs : list A) : option (list A) :=
  if (0 <=? off) && (off + Z.of_nat (length xs) <=? Z.of_nat (length l))
  then Some (list_inserts (Z.to_nat off) xs l) else None.

(** ** Tactics and lemmas *)

Create HintDb cint.
Create HintDb cmd.
Create Rewrite HintDb zbits.

(** Split every conjunction and existential of the context. *)
Ltac splits := repeat match goal with |- _ /\ _ => split end.

Ltac des_if :=
  match goal with
  | |- context [if ?b then _ else _] => destruct b eqn:?
  | H : context [if ?b then _ else _] |- _ => destruct b eqn:?
  end.

(** Comparisons of [Z] used as conditions become facts of [lia]. *)
Ltac zify_cmp :=
  repeat match goal with
  | H : (_ && _)%bool = true |- _ => apply andb_true_iff in H as [? ?]
  | H : (_ || _)%bool = false |- _ => apply orb_false_iff in H as [? ?]
  | H : negb _ = true |- _ => apply negb_true_iff in H
  | H : negb _ = false |- _ => apply negb_false_iff in H
  | H : (_ =? _) = true |- _ => apply Z.eqb_eq in H
  | H : (_ =? _) = false |- _ => apply Z.eqb_neq in H
  | H : (_ <? _) = true |- _ => apply Z.ltb_lt in H
  | H : (_ <? _) = false |- _ => apply Z.ltb_ge in H
  | H : (_ <=? _) = true |- _ => apply Z.leb_le in H
  | H : (_ <=? _) = false |- _ => apply Z.leb_gt in H
  end.

(** Unfold the constant widths of the ranges, then [lia]. *)
Ltac ulia :=
  unfold uint, sint in *;
  change (2 ^ 1) with 2 in *;
  change (2 ^ 7) with 128 in *; change (2 ^ (8 - 1)) with 128 in *;
  change (2 ^ 8) with 256 in *;
  change (2 ^ (16 - 1)) with 32768 in *;
  change (2 ^ 16) with 65536 in *;
  change (2 ^ 24) with 16777216 in *;
  change (2 ^ (32 - 1)) with 2147483648 in *;
  change (2 ^ 31) with 2147483648 in *;
  change (2 ^ 32) with 4294967296 in *;
  change (2 ^ (64 - 1)) with 9223372036854775808 in *;
  change (2 ^ 63) with 9223372036854775808 in *;
  change (2 ^ 64) with 18446744073709551616 in *;
  lia.

Lemma wrap_small w x : uint w x -> wrap w x = x.
Proof. apply Z.mod_small. Qed.

Lemma wrap_uint w x : 0 <= w -> uint w (wrap w x).
Proof. intros Hw. apply Z.mod_pos_bound. lia. Qed.

Lemma wrap_wrap w x : wrap w (wrap w x) = wrap w x.
Proof. apply Zmod_mod. Qed.

Lemma wrap_mono w v x : 0 <= w <= v -> wrap w (wrap v x) = wrap w x.
Proof.
  intros Hw. unfold wrap. apply Z.mod_mod_divide.
  exists (2 ^ (v - w)). rewrite <- Z.pow_add_r by lia. f_equal. lia.
Qed.

Lemma wrap_add_l w x y : wrap w (wrap w x + y) = wrap w (x + y).
Proof. apply Zplus_mod_idemp_l. Qed.

Lemma wrap_sub_l w x y : wrap w (wrap w x - y) = wrap w (x - y).
Proof. apply Zminus_mod_idemp_l. Qed.

Lemma pow2_split k w : 0 <= k <= w -> 2 ^ w = 2 ^ k * 2 ^ (w - k).
Proof. intros H. rewrite <- Z.pow_add_r by lia. f_equal. lia. Qed.

(** Shifting left keeps a number in range as long as the width grows. *)
Lemma uint_shiftl w k x : 0 <= k <= w -> uint (w - k) x -> uint w (Z.shiftl x k).
Proof.
  intros Hk Hx. unfold uint in *. rewrite Z.shiftl_mul_pow2, (pow2_split k w) by lia. nia.
Qed.

Lemma swrap_small w x : 0 < w -> sint w x -> swrap w x = x.
Proof.
  intros Hw Hx. unfold swrap, sint in *.
  rewrite Z.mod_small; [lia |].
  assert (2 ^ w = 2 * 2 ^ (w - 1)) as E; [| lia].
  rewrite <- Z.pow_succ_r by lia. f_equal. lia.
Qed.

Lemma swrap_sint w x : 0 < w -> sint w (swrap w x).
Proof.
  intros Hw. unfold swrap, sint.
  assert (2 ^ w = 2 * 2 ^ (w - 1)) as E.
  { rewrite <- Z.pow_succ_r by lia. f_equal. lia. }
  pose proof (Z.mod_pos_bound (x + 2 ^ (w - 1)) (2 ^ w)). lia.
Qed.

Lemma swrap_cases w x :
  0 < w ->
  swrap w x = if x mod 2 ^ w <? 2 ^ (w - 1) then x mod 2 ^ w else x mod 2 ^ w - 2 ^ w.
Proof.
  intros Hw. unfold swrap.
  assert (2 ^ w = 2 * 2 ^ (w - 1)) as E.
  { rewrite <- Z.pow_succ_r by lia. f_equal. lia. }
  pose proof (Z.mod_pos_bound x (2 ^ w)). pose proof (Z.div_mod x (2 ^ w)).
  destruct (Z.ltb_spec (x mod 2 ^ w) (2 ^ (w - 1))).
  - rewrite <- (Z.mod_unique (x + 2 ^ (w - 1)) (2 ^ w) (x / 2 ^ w) (x mod 2 ^ w + 2 ^ (w - 1))); lia.
  - rewrite <- (Z.mod_unique (x + 2 ^ (w - 1)) (2 ^ w) (x / 2 ^ w + 1) (x mod 2 ^ w - 2 ^ (w - 1))); lia.
Qed.

(** Shifting a value to the top of a wider signed type and back keeps its
    [w] low bits, sign-extended. *)
Lemma swrap_shift w k v :
  0 < w -> 0 <= k -> Z.shiftr (swrap (w + k) (Z.shiftl v k)) k = swrap w v.
Proof.
  intros Hw Hk. rewrite !swrap_cases by lia.
  rewrite Z.shiftl_mul_pow2, Z.pow_add_r, Z.shiftr_div_pow2 by lia.
  rewrite Z.mul_mod_distr_r by lia.
  replace (w + k - 1) with (w - 1 + k) by lia. rewrite (Z.pow_add_r 2 (w - 1)) by lia.
  assert (0 < 2 ^ k) by lia.
  destruct (Z.ltb_spec (v mod 2 ^ w) (2 ^ (w - 1))),
    (Z.ltb_spec (v mod 2 ^ w * 2 ^ k) (2 ^ (w - 1) * 2 ^ k)); try nia.
  - by rewrite Z.div_mul by lia.
  - rewrite <- Z.mul_sub_distr_r, Z.div_mul by lia. done.
Qed.

Lemma swrap_wrap w x : 0 < w -> swrap w (wrap w x) = swrap w x.
Proof. intros Hw. rewrite !swrap_cases by done. unfold wrap. by rewrite Zmod_mod. Qed.

Lemma uint_mono v w x : 0 <= v <= w -> uint v x -> uint w x.
Proof.
  intros Hw Hx. unfold uint in *.
  pose proof (Z.pow_le_mono_r 2 v w). lia.
Qed.

Lemma sint_mono v w x : 0 < v <= w -> sint v x -> sint w x.
Proof.
  intros Hw Hx. unfold sint in *.
  pose proof (Z.pow_le_mono_r 2 (v - 1) (w - 1)). lia.
Qed.

(** A number is in range exactly when no bit past the width is set. *)
Lemma uint_testbit w x :
  0 <= w -> uint w x <-> 0 <= x /\ forall i, w <= i -> Z.testbit x i = false.
Proof.
  intros Hw. split.
  - intros [H0 H]. split; [done |]. intros i Hi.
    destruct (decide (x = 0)) as [-> | Hn]; [apply Z.bits_0 |].
    apply Z.bits_above_log2; [lia |].
    apply Z.lt_le_trans with w; [| lia]. apply Z.log2_lt_pow2; lia.
  - intros [H0 H]. split; [done |].
    destruct (decide (x = 0)) as [-> | Hn]; [lia |].
    apply Z.log2_lt_pow2; [lia |].
    destruct (Z_lt_le_dec (Z.log2 x) w) as [Hl | Hl]; [done |].
    pose proof (Z.bit_log2 x) as Hb. rewrite (H _ Hl) in Hb.
    discriminate Hb; lia.
Qed.

Lemma uint_high w x i : 0 <= w <= i -> uint w x -> Z.testbit x i = false.
Proof. intros Hw Hx. apply uint_testbit in Hx as [_ Hx]; [apply Hx |]; lia. Qed.

Lemma uint_lor w x y : 0 <= w -> uint w x -> uint w y -> uint w (Z.lor x y).
Proof.
  intros Hw [? Hx]%uint_testbit [? Hy]%uint_testbit; [| done..].
  apply uint_testbit; [done |]. split; [by apply Z.lor_nonneg |].
  intros i Hi. by rewrite Z.lor_spec, Hx, Hy.
Qed.

Lemma uint_lxor w x y : 0 <= w -> uint w x -> uint w y -> uint w (Z.lxor x y).
Proof.
  intros Hw [? Hx]%uint_testbit [? Hy]%uint_testbit; [| done..].
  apply uint_testbit; [done |]. split; [by apply Z.lxor_nonneg |].
  intros i Hi. by rewrite Z.lxor_spec, Hx, Hy.
Qed.

Lemma uint_land w x y : 0 <= w -> 0 <= x -> uint w y -> uint w (Z.land x y).
Proof.
  intros Hw Hx [? Hy]%uint_testbit; [| done].
  apply uint_testbit; [done |]. split; [apply Z.land_nonneg; lia |].
  intros i Hi. rewrite Z.land_spec, Hy by done. apply andb_false_r.
Qed.

Lemma uint_shiftr w v x : 0 <= v -> 0 <= w -> uint (v + w) x -> uint w (Z.shiftr x v).
Proof.
  intros Hv Hw [H0 H]. split; [by apply Z.shiftr_nonneg |].
  rewrite Z.shiftr_div_pow2 by done. rewrite Z.pow_add_r in H by done.
  apply Z.div_lt_upper_bound; lia.
Qed.

Lemma testbit_wrap w x i :
  0 <= w -> Z.testbit (wrap w x) i = (i <? w) && Z.testbit x i.
Proof. intros Hw. unfold wrap. by rewrite Z.testbit_mod_pow2. Qed.

Lemma land_ones_wrap w x : 0 <= w -> Z.land x (Z.ones w) = wrap w x.
Proof. intros. by rewrite Z.land_ones. Qed.

#[export] Hint Resolve wrap_uint uint_lor uint_lxor uint_land uint_shiftr : cint.
#[export] Hint Extern 1 (_ <= _) => lia : cint.
#[export] Hint Extern 1 (uint _ _) => ulia : cint.
#[export] Hint Rewrite Z.lor_spec Z.land_spec Z.lxor_spec : zbits.
#[export] Hint Rewrite Z.shiftl_spec Z.shiftr_spec testbit_wrap
  using lia : zbits.

(** Equality of integers bit by bit: [i] is the bit under examination. *)
Ltac zbits i :=
  apply Z.bits_inj'; intros i ?; autorewrite with zbits.

Lemma shl_done w x n : 0 <= n < w -> shl w x n = Done (wrap w (Z.shiftl x n)).
Proof.
  intros H. unfold shl.
  destruct (Z.leb_spec 0 n), (Z.ltb_spec n w); done || lia.
Qed.

Lemma shr_done w x n : 0 <= n < w -> shr w x n = Done (Z.shiftr x n).
Proof.
  intros H. unfold shr.
  destruct (Z.leb_spec 0 n), (Z.ltb_spec n w); done || lia.
Qed.

Lemma udiv_done x y : y <> 0 -> udiv x y = Done (x / y).
Proof. unfold udiv. by destruct (Z.eqb_spec y 0). Qed.

Lemma umod_done x y : y <> 0 -> umod x y = Done (x mod y).
Proof. unfold umod. by destruct (Z.eqb_spec y 0). Qed.

Lemma ssigned_done w x : sint w x -> ssigned w x = Done x.
Proof. intros H. unfold ssigned. by rewrite bool_decide_true. Qed.

(** Disjoint bits add up. *)
Lemma lor_shiftl_add k x y : 0 <= k -> uint k x -> Z.lor x (Z.shiftl y k) = x + y * 2 ^ k.
Proof.
  intros Hk Hx.
  assert (Z.land x (Z.shiftl y k) = 0) as H0.
  { zbits i. rewrite Z.bits_0. destruct (Z_lt_le_dec i k).
    - by rewrite (Z.testbit_neg_r y), andb_false_r by lia.
    - by rewrite (uint_high k x) by (done || lia). }
  rewrite <- Z.shiftl_mul_pow2, Z.add_nocarry_lxor by done.
  by apply eq_sym, Z.lxor_lor.
Qed.

Lemma truthy_true x : truthy x = true <-> x <> 0.
Proof. unfold truthy. destruct (Z.eqb_spec x 0); naive_solver. Qed.

Lemma truthy_false x : truthy x = false <-> x = 0.
Proof. unfold truthy. destruct (Z.eqb_spec x 0); naive_solver. Qed.

Lemma truthy_land1 x : truthy (Z.land x 1) = Z.testbit x 0.
Proof.
  change 1 with (Z.ones 1). rewrite Z.land_ones, <- Z.bit0_mod by done.
  by destruct (Z.testbit x 0).
Qed.

Lemma iter_ext {A} (f g : A -> A) k x :
  (forall x, f x = g x) -> Nat.iter k f x = Nat.iter k g x.
Proof. intros H. induction k as [| k IH]; simpl in *; [done |]. by rewrite IH, H. Qed.

(** *** Commands *)

Lemma bind_done {S A B} (c : cmd S A) (k : A -> cmd S B) s a s' :
  c s = Done (a, s') -> (c ≫= k) s = k a s'.
Proof. unfold mbind, cmd_bind. by intros ->. Qed.

Lemma bind_assoc {S A B C} (c : cmd S A) (f : A -> cmd S B) (g : B -> cmd S C) s :
  ((c ≫= f) ≫= g) s = (c ≫= (fun a => f a ≫= g)) s.
Proof. unfold mbind, cmd_bind. by destruct (c s) as [[]| |]. Qed.

Lemma bind_nofuel {S A B} (c : cmd S A) (k : A -> cmd S B) s :
  c s = NoFuel -> (c ≫= k) s = NoFuel.
Proof. unfold mbind, cmd_bind. by intros ->. Qed.

Lemma bind_undef {S A B} (c : cmd S A) (k : A -> cmd S B) s :
  c s = Undef -> (c ≫= k) s = Undef.
Proof. unfold mbind, cmd_bind. by intros ->. Qed.

Lemma bind_inv {S A B} (c : cmd S A) (k : A -> cmd S B) s r :
  (c ≫= k) s = Done r ->
  exists a s', c s = Done (a, s') /\ k a s' = Done r.
Proof. unfold mbind, cmd_bind. destruct (c s) as [[a s']| |]; naive_solver. Qed.

Lemma lift_done {S A} (o : outcome A) (s : S) a : o = Done a -> lift o s = Done (a, s).
Proof. by intros ->. Qed.

Lemma aload_done {A} (l : list A) i v :
  0 <= i -> l !! Z.to_nat i = Some v -> aload i l = Done (v, l).
Proof.
  intros Hi Hv. unfold aload. destruct (Z.ltb_spec i 0); [lia |]. by rewrite Hv.
Qed.

Lemma astore_done {A} (l : list A) i v :
  0 <= i < Z.of_nat (length l) ->
  astore i v l = Done (tt, <[Z.to_nat i := v]> l).
Proof.
  intros Hi. unfold astore.
  destruct (Z.ltb_spec i 0), (Z.leb_spec (Z.of_nat (length l)) i); done || lia.
Qed.

Lemma mem_read_done {A} (l : list A) off n :
  0 <= off -> 0 <= n -> off + n <= Z.of_nat (length l) ->
  mem_read l off n = Some (take (Z.to_nat n) (drop (Z.to_nat off) l)).
Proof.
  intros. unfold mem_read.
  destruct (Z.leb_spec 0 off), (Z.leb_spec 0 n), (Z.leb_spec (off + n) (Z.of_nat (length l)));
    done || lia.
Qed.

Lemma mem_write_done {A} (l : list A) off xs :
  0 <= off -> off + Z.of_nat (length xs) <= Z.of_nat (length l) ->
  mem_write l off xs = Some (list_inserts (Z.to_nat off) xs l).
Proof.
  intros. unfold mem_write.
  destruct (Z.leb_spec 0 off), (Z.leb_spec (off + Z.of_nat (length xs)) (Z.of_nat (length l)));
    done || lia.
Qed.

Lemma mem_write_None {A} (l : list A) off xs :
  Z.of_nat (length l) < off + Z.of_nat (length xs) -> mem_write l off xs = None.
Proof.
  intros. unfold mem_write.
  destruct (Z.leb_spec (off + Z.of_nat (length xs)) (Z.of_nat (length l)));
    [lia | by rewrite andb_false_r].
Qed.

(** A counted loop whose turns before [a] do nothing, and one where only the
    turn [a] does something. *)
Lemma for_up_skip {S} (body : Z -> cmd S unit) k n i s :
  (forall j, i <= j < i + Z.of_nat k -> body j s = Done (tt, s)) ->
  for_up (k + n) i body s = for_up n (i + Z.of_nat k) body s.
Proof.
  revert i. induction k as [| k IH]; intros i H; [by rewrite Z.add_0_r |].
  cbn [Nat.add for_up]. erewrite bind_done by (apply H; lia). rewrite IH by (intros; apply H; lia).
  f_equal. lia.
Qed.

Lemma for_up_at {S} (body : Z -> cmd S unit) (n a : nat) s :
  (a < n)%nat -> (forall j, 0 <= j < Z.of_nat a -> body j s = Done (tt, s)) ->
  for_up n 0 body s = (_ ← body (Z.of_nat a); for_up (n - a - 1) (Z.of_nat a + 1) body) s.
Proof.
  intros Ha H. replace n with (a + Datatypes.S (n - a - 1))%nat at 1 by lia.
  by rewrite for_up_skip by (intros; apply H; lia).
Qed.

Lemma for_up_one {S} (body : Z -> cmd S unit) (n a : nat) s s' :
  (a < n)%nat -> body (Z.of_nat a) s = Done (tt, s') ->
  (forall j, 0 <= j < Z.of_nat a -> body j s = Done (tt, s)) ->
  (forall j, Z.of_nat a < j < Z.of_nat n -> body j s' = Done (tt, s')) ->
  for_up n 0 body s = Done (tt, s').
Proof.
  intros Ha Hb H1 H2. rewrite (for_up_at _ _ _ _ Ha H1), (bind_done _ _ _ _ _ Hb).
  rewrite <- (Nat.add_0_r (n - a - 1)). rewrite for_up_skip by (intros; apply H2; lia). done.
Qed.

(** A counted loop that stores [f j] at each index [j] of a range. *)
Lemma for_up_astore {A} (f : Z -> A) n i (l : list A) :
  0 <= i -> i + Z.of_nat n <= Z.of_nat (length l) ->
  for_up n i (fun j => astore j (f j)) l
  = Done (tt, take (Z.to_nat i) l ++ (f <$> seqZ i (Z.of_nat n))
              ++ drop (Z.to_nat i + n) l).
Proof.
  revert i l. induction n as [| n IH]; intros i l Hi Hn.
  - simpl. rewrite Nat.add_0_r, take_drop. done.
  - cbn [for_up]. erewrite bind_done; [| apply astore_done; lia].
    rewrite IH by (rewrite ?length_insert; lia).
    rewrite (seqZ_cons i), fmap_cons by lia.
    replace (Z.pred (Z.of_nat (S n))) with (Z.of_nat n) by lia.
    replace (Z.to_nat (i + 1)) with (S (Z.to_nat i)) by lia.
    replace (Z.succ i) with (i + 1) by lia.
    do 2 f_equal.
    assert (Z.to_nat i < length l)%nat as Hlt by lia.
    erewrite take_S_r by (by apply list_lookup_insert_eq).
    rewrite take_insert_ge, drop_insert_lt by lia.
    rewrite <- app_assoc. cbn [app]. do 4 f_equal. lia.
Qed.

(** *** Heaps *)

Lemma halloc_fail {V} (v : V) h :
  alloc_fails h = true ->
  halloc v h = Done (None, Heap (cells h) (next_block h) (tail (oom h))).
Proof. unfold alloc_fails, halloc. by destruct (oom h) as [| [] ?]. Qed.

Lemma halloc_done {V} (v : V) h :
  alloc_fails h = false ->
  halloc v h = Done (Some (next_block h),
                     Heap (<[next_block h := v]> (cells h)) (Pos.succ (next_block h))
                          (tail (oom h))).
Proof. unfold alloc_fails, halloc. by destruct (oom h) as [| [] ?]. Qed.

Lemma hload_done {V} (h : heap V) p v :
  cells h !! p = Some v -> hload (Some p) h = Done (v, h).
Proof. unfold hload. simpl. by intros ->. Qed.

Lemma hstore_done {V} (h : heap V) p v w :
  cells h !! p = Some w ->
  hstore (Some p) v h = Done (tt, Heap (<[p := v]> (cells h)) (next_block h) (oom h)).
Proof. unfold hstore. by intros ->. Qed.

Lemma hfree_done {V} (h : heap V) p w :
  cells h !! p = Some w ->
  hfree (Some p) h = Done (tt, Heap (delete p (cells h)) (next_block h) (oom h)).
Proof. unfold hfree. by intros ->. Qed.

Lemma heap_ok_fresh {V} (h : heap V) : heap_ok h -> cells h !! next_block h = None.
Proof.
  intros H. destruct (cells h !! next_block h) eqn:E; [| done].
  specialize (H (next_block h)). rewrite E in H. specialize (H (mk_is_Some _ _ eq_refl)). lia.
Qed.

Lemma heap_ok_insert {V} (h : heap V) p v n o :
  heap_ok h -> (p < n)%positive -> (next_block h <= n)%positive ->
  heap_ok (Heap (<[p := v]> (cells h)) n o).
Proof.
  intros H Hp Hn q. simpl. rewrite lookup_insert. case_decide; [by subst |].
  intros Hq. specialize (H q Hq). lia.
Qed.

Lemma heap_ok_delete {V} (h : heap V) p o :
  heap_ok h -> heap_ok (Heap (delete p (cells h)) (next_block h) o).
Proof. intros H q. simpl. rewrite lookup_delete. case_decide; [by intros [] |]. apply H. Qed.

Lemma zoom_done {S T A} (rd : S -> T) wr (c : cmd T A) s a t :
  c (rd s) = Done (a, t) -> zoom rd wr c s = Done (a, wr t s).
Proof. unfold zoom. by intros ->. Qed.

(** *** Triples

    [triple U F c Q s]: from [s], what [c] returns satisfies [Q], its behaviour
    is undefined only if [U], and it runs out of fuel only if [F].  [sat U] is
    about every finite prefix of a run, [wp] asks for a result. *)

Definition triple {S A} (U F : Prop) (c : cmd S A) (Q : A -> S -> Prop) (s : S) : Prop :=
  match c s with
  | Done (a, s') => Q a s'
  | Undef => U
  | NoFuel => F
  end.

Abbreviation sat U := (triple U True).
Abbreviation wp := (triple False False).

Section sat.
  Context {S : Type} {U F : Prop}.

Lemma sat_ret {A} (a : A) (Q : A -> S -> Prop) s : Q a s -> triple U F (mret a) Q s.
Proof. done. Qed.

Lemma sat_done {A} (c : cmd S A) Q s a s' : c s = Done (a, s') -> Q a s' -> triple U F c Q s.
Proof. unfold triple. by intros ->. Qed.

Lemma sat_bind {A B} (c : cmd S A) (k : A -> cmd S B) Q s :
  triple U F c (fun a => triple U F (k a) Q) s -> triple U F (c ≫= k) Q s.
Proof. unfold triple, mbind, cmd_bind. by destruct (c s) as [[]| |]. Qed.

Lemma sat_mono {A} (c : cmd S A) (P Q : A -> S -> Prop) s :
  triple U F c P s -> (forall a s', P a s' -> Q a s') -> triple U F c Q s.
Proof. unfold triple. destruct (c s) as [[]| |]; auto. Qed.

Lemma sat_the {A} (o : option A) (Q : A -> S -> Prop) s :
  (o = None -> U) -> (forall a, o = Some a -> Q a s) -> triple U F (the o) Q s.
Proof. unfold triple, the. destruct o; auto. Qed.

Lemma sat_lift {A} (o : outcome A) (Q : A -> S -> Prop) s :
  (o = Undef -> U) -> (o = NoFuel -> F) -> (forall a, o = Done a -> Q a s) ->
  triple U F (lift o) Q s.
Proof. unfold triple, lift. destruct o; auto. Qed.

Lemma sat_loop {X A} (I : X -> S -> Prop) fuel (body : X -> cmd S (X + A)) Q :
  F ->
  (forall x s, I x s ->
    triple U F (body x) (fun r s' => match r with inl x' => I x' s' | inr a => Q a s' end) s) ->
  forall x s, I x s -> triple U F (loop fuel body x) Q s.
Proof.
  intros HF Hb. induction fuel as [| fuel IH]; intros x s Hx; [done |]. cbn [loop].
  apply sat_bind. eapply sat_mono; [by apply Hb |]. intros [x' | a] s' H; [by apply IH | done].
Qed.

(** [while] that ends: each turn goes down. *)
Lemma sat_while {X A} (I : nat -> X -> S -> Prop) (body : X -> cmd S (X + A)) Q :
  (forall n x s, I n x s -> triple U F (body x)
    (fun r s' => match r with inl x' => exists m, (m < n)%nat /\ I m x' s' | inr a => Q a s' end) s) ->
  forall fuel n x s, (n < fuel)%nat -> I n x s -> triple U F (loop fuel body x) Q s.
Proof.
  intros Hb. induction fuel as [| fuel IH]; intros n x s Hn Hx; [lia |]. cbn [loop].
  apply sat_bind. eapply sat_mono; [by apply (Hb n) |].
  intros [x' | a] s' H; [| done]. destruct H as (m & Hm & Hi). by apply (IH m); [lia |].
Qed.

(** What a triple says of a run that ends, and of one that is undefined. *)
Lemma sat_inv {A} (c : cmd S A) Q s a s' : triple U F c Q s -> c s = Done (a, s') -> Q a s'.
Proof. unfold triple. intros H E. by rewrite E in H. Qed.

Lemma sat_undef {A} (c : cmd S A) (Q : A -> S -> Prop) s : triple U F c Q s -> c s = Undef -> U.
Proof. unfold triple. intros H E. by rewrite E in H. Qed.
End sat.
