(* ===== verification/Crc.v ===== *)
(** * CRC-8, CRC-16 and CRC-24 ([util/no_os_crc8.c], [no_os_crc16.c], [no_os_crc24.c])

    The table generators and the table-driven checksums, translated one by
    one, and the bit-serial shift register they are meant to compute.  The
    three variants are gathered in [crc_variants], so that each property is
    stated once for all of them. *)
From S2P Require Import Prelude.

(** ** The code *)

Definition NO_OS_CRC8_TABLE_SIZE : nat := 256.
Definition NO_OS_CRC16_TABLE_SIZE : nat := 256.
Definition NO_OS_CRC24_TABLE_SIZE : nat := 256.

(** The body of the inner [for (bit ...)] loop of the three generators. *)
Definition crc8_bit (polynomial currByte : Z) : Z :=
  if truthy (Z.land currByte 0x80)
  then Z.lxor (u8 (Z.shiftl currByte 1)) polynomial
  else u8 (Z.shiftl currByte 1).

Definition crc16_bit (polynomial currByte : Z) : Z :=
  if truthy (Z.land currByte 0x8000)
  then Z.lxor (u16 (Z.shiftl currByte 1)) polynomial
  else u16 (Z.shiftl currByte 1).

Definition crc24_bit (polynomial currByte : Z) : Z :=
  if truthy (Z.land currByte 0x800000)
  then Z.lxor (u32 (Z.shiftl (Z.land currByte 0x7FFFFF) 1)) polynomial
  else u32 (Z.shiftl currByte 1).

(** The generators write the table they are given; [None] is the null
    pointer, for which they return at once. *)
Definition no_os_crc8_populate_msb (polynomial : Z) (table : option (list Z))
    : outcome (option (list Z)) :=
  match table with
  | None => Done None
  | Some t =>
      match for_up NO_OS_CRC8_TABLE_SIZE 0
              (fun n => astore n (Nat.iter 8 (crc8_bit polynomial) (u8 n))) t with
      | Done (_, t') => Done (Some t')
      | Undef => Undef
      | NoFuel => NoFuel
      end
  end.

Definition no_os_crc16_populate_msb (polynomial : Z) (table : option (list Z))
    : outcome (option (list Z)) :=
  match table with
  | None => Done None
  | Some t =>
      match for_up NO_OS_CRC16_TABLE_SIZE 0
              (fun n => astore n (Nat.iter 8 (crc16_bit polynomial)
                                           (u16 (Z.shiftl n 8)))) t with
      | Done (_, t') => Done (Some t')
      | Undef => Undef
      | NoFuel => NoFuel
      end
  end.

Definition no_os_crc24_populate_msb (polynomial : Z) (table : option (list Z))
    : outcome (option (list Z)) :=
  match table with
  | None => Done None
  | Some t =>
      match for_up NO_OS_CRC24_TABLE_SIZE 0
              (fun n => astore n (Nat.iter 8 (crc24_bit polynomial)
                                           (u32 (Z.shiftl n 16)))) t with
      | Done (_, t') => Done (Some t')
      | Undef => Undef
      | NoFuel => NoFuel
      end
  end.

(** [while (nbytes--)]: the data pointer is the rest of the buffer; reading
    past its end, or past the end of the table, has no value. *)
Fixpoint no_os_crc8 (table pdata : list Z) (nbytes : nat) (crc : Z) {struct nbytes} : option Z :=
  match nbytes, pdata with
  | O, _ => Some crc
  | S n, b :: rest =>
      let idx := Z.lxor crc b in
      t ← table !! Z.to_nat idx;
      no_os_crc8 table rest n (Z.land t 0xff)
  | S _, [] => None
  end.

Fixpoint no_os_crc16 (table pdata : list Z) (nbytes : nat) (crc : Z) {struct nbytes} : option Z :=
  match nbytes, pdata with
  | O, _ => Some crc
  | S n, b :: rest =>
      let idx := Z.land (Z.lxor (Z.shiftr crc 8) b) 0xff in
      t ← table !! Z.to_nat idx;
      no_os_crc16 table rest n (Z.land (Z.lxor t (Z.shiftl crc 8)) 0xffff)
  | S _, [] => None
  end.

Fixpoint crc24_loop (table pdata : list Z) (nbytes : nat) (crc : Z) {struct nbytes} : option Z :=
  match nbytes, pdata with
  | O, _ => Some crc
  | S n, b :: rest =>
      let idx := Z.land (Z.lxor (Z.shiftr crc 16) b) 0xff in
      t ← table !! Z.to_nat idx;
      crc24_loop table rest n (Z.land (Z.lxor t (u32 (Z.shiftl crc 8))) 0xffffff)
  | S _, [] => None
  end.

Definition no_os_crc24 (table pdata : list Z) (nbytes : nat) (crc : Z) : option Z :=
  c ← crc24_loop table pdata nbytes crc;
  Some (Z.land c 0xffffff).

(** ** The specification: a shift register fed one bit at a time *)

Definition lfsr (w poly c : Z) : Z :=
  let c' := wrap w (Z.shiftl c 1) in
  if Z.testbit c (w - 1) then Z.lxor c' poly else c'.

Definition crc_bit (w poly c : Z) (b : bool) : Z :=
  lfsr w poly (Z.lxor c (Z.shiftl (Z.b2z b) (w - 1))).

(** The bits of a byte, most significant first. *)
Definition byte_bits (b : Z) : list bool :=
  Z.testbit b <$> [7; 6; 5; 4; 3; 2; 1; 0].

Definition crc_bits (w poly c : Z) (bs : list bool) : Z :=
  fold_left (crc_bit w poly) bs c.

Definition crc_msg (w poly c : Z) (data : list Z) : Z :=
  crc_bits w poly c (data ≫= byte_bits).

(** A variant of the code: its register width, its generator and its
    checksum function. *)
Record crc_variant : Type := CrcVariant {
  cv_width : Z;
  cv_populate : Z -> option (list Z) -> outcome (option (list Z));
  cv_crc : list Z -> list Z -> nat -> Z -> option Z
}.

Definition crc8 : crc_variant := CrcVariant 8 no_os_crc8_populate_msb no_os_crc8.
Definition crc16 : crc_variant := CrcVariant 16 no_os_crc16_populate_msb no_os_crc16.
Definition crc24 : crc_variant := CrcVariant 24 no_os_crc24_populate_msb no_os_crc24.

Definition crc_variants : list crc_variant := [crc8; crc16; crc24].

(** The table of a width: entry [n] is the register after eight steps from
    [n] in its top byte. *)
Definition crc_table (w poly : Z) : list Z :=
  (fun n => Nat.iter 8 (lfsr w poly) (Z.shiftl n (w - 8))) <$> seqZ 0 256.

(** ** Lemmas on the register *)

Lemma lfsr_uint w poly c :
  0 < w -> uint w poly -> uint w (lfsr w poly c).
Proof.
  intros Hw Hp. unfold lfsr. destruct (Z.testbit c (w - 1)); auto with cint.
Qed.

Lemma lfsr_lxor w poly c d :
  0 < w -> lfsr w poly (Z.lxor c d) = Z.lxor (lfsr w poly c) (lfsr w poly d).
Proof.
  intros Hw. unfold lfsr. rewrite Z.lxor_spec.
  zbits i. destruct (Z.testbit c (w - 1)), (Z.testbit d (w - 1)); simpl;
    autorewrite with zbits;
    destruct (i <? w), (Z.testbit c (i - 1)), (Z.testbit d (i - 1)), (Z.testbit poly i);
    done.
Qed.

(** Below the top bit, a step is a shift. *)
Lemma lfsr_low w poly c : 0 < w -> uint (w - 1) c -> lfsr w poly c = Z.shiftl c 1.
Proof.
  intros Hw Hc. unfold lfsr. rewrite (uint_high (w - 1)) by (done || lia).
  apply wrap_small. unfold uint in *. rewrite Z.shiftl_mul_pow2 by lia.
  replace w with (Z.succ (w - 1)) by lia. rewrite Z.pow_succ_r; lia.
Qed.

Lemma iter_lfsr_lxor w poly k c d :
  0 < w ->
  Nat.iter k (lfsr w poly) (Z.lxor c d)
  = Z.lxor (Nat.iter k (lfsr w poly) c) (Nat.iter k (lfsr w poly) d).
Proof. intros Hw. induction k as [| k IH]; simpl; [done |]. by rewrite IH, lfsr_lxor. Qed.

Lemma iter_lfsr_low w poly k c :
  Z.of_nat k <= w -> uint (w - Z.of_nat k) c ->
  Nat.iter k (lfsr w poly) c = Z.shiftl c (Z.of_nat k).
Proof.
  induction k as [| k IH]; intros Hk Hc; [by rewrite Z.shiftl_0_r |].
  cbn [Nat.iter nat_rect]. change (nat_rect _ c _ k) with (Nat.iter k (lfsr w poly) c).
  rewrite IH; [| lia | eapply uint_mono, Hc; lia].
  rewrite lfsr_low; [| lia |].
  - rewrite Z.shiftl_shiftl by lia. f_equal. lia.
  - unfold uint in *. rewrite Z.shiftl_mul_pow2 by lia.
    replace (w - 1) with (w - Z.of_nat (S k) + Z.of_nat k) by lia.
    rewrite Z.pow_add_r by lia. nia.
Qed.

(** The number whose binary digits, most significant first, are [bs]. *)
Fixpoint bits_val (bs : list bool) : Z :=
  match bs with
  | [] => 0
  | b :: bs => Z.lxor (Z.shiftl (Z.b2z b) (Z.of_nat (length bs))) (bits_val bs)
  end.

Lemma uint_b2z_shiftl b k : 0 <= k -> uint (k + 1) (Z.shiftl (Z.b2z b) k).
Proof.
  intros Hk. rewrite Z.shiftl_mul_pow2 by done. unfold uint.
  rewrite Z.pow_add_r by lia. destruct b; simpl Z.b2z; nia.
Qed.

Lemma bits_val_uint bs : uint (Z.of_nat (length bs)) (bits_val bs).
Proof.
  induction bs as [| b bs IH]; [done |]. cbn [bits_val length].
  apply uint_lxor; [lia | |].
  - rewrite Nat2Z.inj_succ. apply (uint_b2z_shiftl b (Z.of_nat (length bs))). lia.
  - eapply uint_mono, IH. lia.
Qed.

Lemma bits_val_inj bs bs' :
  length bs = length bs' -> bits_val bs = bits_val bs' -> bs = bs'.
Proof.
  revert bs'. induction bs as [| b bs IH]; intros [| b' bs']; try done.
  intros [= Hl] E. cbn [bits_val] in E. rewrite Hl in E.
  assert (b = b') as <-.
  { apply (f_equal (fun z => Z.testbit z (Z.of_nat (length bs')))) in E.
    rewrite !Z.lxor_spec, !Z.shiftl_spec, Z.sub_diag in E by lia.
    rewrite !(uint_high (Z.of_nat (length bs')) (bits_val _)) in E;
      [| lia | apply bits_val_uint | lia | rewrite <- Hl; apply bits_val_uint].
    by destruct b, b'. }
  f_equal. apply IH; [done |].
  apply (f_equal (Z.lxor (Z.shiftl (Z.b2z b) (Z.of_nat (length bs'))))) in E.
  by rewrite <- !Z.lxor_assoc, Z.lxor_nilpotent, !Z.lxor_0_l in E.
Qed.

Lemma bits_val_byte b : uint 8 b -> bits_val (byte_bits b) = b.
Proof.
  intros Hb.
  assert (Forall (fun b => bits_val (byte_bits b) = b) (seqZ 0 256)) as H.
  { apply (bool_decide_unpack _). vm_compute. exact I. }
  rewrite Forall_forall in H. apply H, elem_of_seqZ. ulia.
Qed.

(** Feeding [k] bits is [k] steps from the register with the bits added at
    its top. *)
Lemma crc_bits_iter w poly bs c :
  0 < w -> Z.of_nat (length bs) <= w ->
  crc_bits w poly c bs
  = Nat.iter (length bs) (lfsr w poly)
      (Z.lxor c (Z.shiftl (bits_val bs) (w - Z.of_nat (length bs)))).
Proof.
  intros Hw. revert c. induction bs as [| b bs IH]; intros c Hl.
  { cbn [length bits_val Nat.iter nat_rect crc_bits fold_left].
    rewrite Z.shiftl_0_l. by rewrite Z.lxor_0_r. }
  cbn [length] in *.
  change (crc_bits w poly c (b :: bs)) with (crc_bits w poly (crc_bit w poly c b) bs).
  rewrite IH by lia. rewrite Nat.iter_succ_r. f_equal. unfold crc_bit.
  replace (Z.shiftl (bits_val bs) (w - Z.of_nat (length bs)))
    with (lfsr w poly (Z.shiftl (bits_val bs) (w - Z.of_nat (S (length bs))))).
  - rewrite <- lfsr_lxor by done. f_equal. cbn [bits_val].
    rewrite Z.shiftl_lxor, Z.shiftl_shiftl, Z.lxor_assoc by lia. do 3 f_equal. lia.
  - rewrite lfsr_low; [rewrite Z.shiftl_shiftl by lia; f_equal; lia | done |].
    pose proof (bits_val_uint bs) as Hv. unfold uint in *.
    rewrite Z.shiftl_mul_pow2 by lia.
    replace (w - 1) with (Z.of_nat (length bs) + (w - Z.of_nat (S (length bs)))) by lia.
    rewrite Z.pow_add_r by lia. nia.
Qed.

Lemma crc_bits_app w poly c bs bs' :
  crc_bits w poly c (bs ++ bs') = crc_bits w poly (crc_bits w poly c bs) bs'.
Proof. apply fold_left_app. Qed.

Lemma crc_bits_uint w poly bs c :
  0 < w -> uint w poly -> uint w c -> uint w (crc_bits w poly c bs).
Proof.
  intros Hw Hp. revert c. induction bs as [| b bs IH]; intros c Hc; [done |].
  apply IH. by apply lfsr_uint.
Qed.

Lemma iter_lfsr_uint w poly k c :
  0 < w -> uint w poly -> uint w c -> uint w (Nat.iter k (lfsr w poly) c).
Proof. intros Hw Hp Hc. induction k as [| k IH]; simpl; [done |]. by apply lfsr_uint. Qed.

(** A register is its top byte above its remaining bits. *)
Lemma split_top w c b :
  8 <= w -> uint w c ->
  Z.lxor c (Z.shiftl b (w - 8))
  = Z.lxor (Z.shiftl (Z.lxor (Z.shiftr c (w - 8)) b) (w - 8)) (wrap (w - 8) c).
Proof.
  intros Hw Hc. zbits i.
  destruct (Z.ltb_spec i (w - 8)) as [Hi | Hi]; simpl.
  - rewrite !(Z.testbit_neg_r _ (i - (w - 8))) by lia.
    by rewrite xorb_false_r, xorb_false_l.
  - rewrite Z.shiftr_spec, Z.sub_add by lia. by rewrite xorb_false_r.
Qed.

(** One byte of message is one table lookup. *)
Lemma crc_byte_step w poly c b :
  8 <= w -> uint w c -> uint 8 b ->
  crc_bits w poly c (byte_bits b)
  = Z.lxor (Nat.iter 8 (lfsr w poly)
              (Z.shiftl (Z.lxor (Z.shiftr c (w - 8)) b) (w - 8)))
           (Z.shiftl (wrap (w - 8) c) 8).
Proof.
  intros Hw Hc Hb.
  rewrite crc_bits_iter by (change (length (byte_bits b)) with 8%nat; lia).
  change (length (byte_bits b)) with 8%nat. change (Z.of_nat 8) with 8.
  rewrite bits_val_byte by done. rewrite split_top by done.
  rewrite iter_lfsr_lxor by lia. f_equal.
  apply (iter_lfsr_low w poly 8); [lia |]. change (Z.of_nat 8) with 8. auto with cint.
Qed.

Lemma crc_table_lookup w poly i :
  uint 8 i ->
  crc_table w poly !! Z.to_nat i
  = Some (Nat.iter 8 (lfsr w poly) (Z.shiftl i (w - 8))).
Proof.
  intros Hi. unfold crc_table. rewrite list_lookup_fmap, lookup_seqZ_lt by ulia.
  simpl. by rewrite Z2Nat.id by ulia.
Qed.

Lemma top_byte w c b :
  8 <= w -> uint w c -> uint 8 b -> uint 8 (Z.lxor (Z.shiftr c (w - 8)) b).
Proof.
  intros Hw Hc Hb. apply uint_lxor; [lia | | done].
  apply uint_shiftr; [lia | lia |]. by replace (w - 8 + 8) with w by lia.
Qed.

(** *** The three bit steps are the register's *)

Lemma land_top w c :
  0 < w -> truthy (Z.land c (2 ^ (w - 1))) = Z.testbit c (w - 1).
Proof.
  intros Hw. unfold truthy. destruct (Z.testbit c (w - 1)) eqn:E.
  - apply negb_true_iff, Z.eqb_neq. intros H.
    apply (f_equal (fun z => Z.testbit z (w - 1))) in H.
    rewrite Z.land_spec, E, Z.pow2_bits_true, Z.bits_0 in H by lia. done.
  - apply negb_false_iff, Z.eqb_eq. zbits i. rewrite Z.bits_0, Z.pow2_bits_eqb by lia.
    destruct (Z.eqb_spec (w - 1) i) as [<- | _]; [by rewrite E | apply andb_false_r].
Qed.

Lemma crc8_bit_lfsr poly c : crc8_bit poly c = lfsr 8 poly c.
Proof.
  unfold crc8_bit, lfsr. change 0x80 with (2 ^ (8 - 1)). by rewrite land_top.
Qed.

Lemma crc16_bit_lfsr poly c : crc16_bit poly c = lfsr 16 poly c.
Proof.
  unfold crc16_bit, lfsr. change 0x8000 with (2 ^ (16 - 1)). by rewrite land_top.
Qed.

Lemma crc24_bit_lfsr poly c : uint 24 c -> crc24_bit poly c = lfsr 24 poly c.
Proof.
  intros Hc. unfold crc24_bit, lfsr. change 0x800000 with (2 ^ (24 - 1)).
  rewrite land_top by done. change 0x7FFFFF with (Z.ones 23). rewrite land_ones_wrap by done.
  destruct (Z.testbit c (24 - 1)) eqn:E; [f_equal |]; zbits i.
  - destruct (Z.ltb_spec i 24), (Z.ltb_spec i 32), (Z.ltb_spec (i - 1) 23); done || lia.
  - destruct (Z.ltb_spec i 24), (Z.ltb_spec i 32); simpl; try done; try lia.
    destruct (decide (i = 24)) as [-> | Hn]; [done |]. apply (uint_high 24); [lia | done].
Qed.

Lemma iter_crc24_bit poly k c :
  uint 24 poly -> uint 24 c ->
  Nat.iter k (crc24_bit poly) c = Nat.iter k (lfsr 24 poly) c.
Proof.
  intros Hp Hc. induction k as [| k IH]; [done |]. simpl in *. rewrite IH.
  apply crc24_bit_lfsr. by apply (iter_lfsr_uint 24 poly k c).
Qed.

(** ** The interface of a variant

    What the generic proofs use of a variant; each of the three discharges
    it from its own code. *)
Class CrcVariantOk (v : crc_variant) : Prop := {
  cv_width_ok : 8 <= cv_width v;
  cv_populate_ok poly table :
    uint (cv_width v) poly -> length table = 256%nat ->
    cv_populate v poly (Some table) = Done (Some (crc_table (cv_width v) poly));
  cv_crc_nil table data c :
    uint (cv_width v) c -> cv_crc v table data 0 c = Some c;
  cv_crc_cons table b data n c t :
    uint (cv_width v) c -> uint 8 b -> uint (cv_width v) t ->
    table !! Z.to_nat (Z.lxor (Z.shiftr c (cv_width v - 8)) b) = Some t ->
    cv_crc v table (b :: data) (S n) c
    = cv_crc v table data n
        (Z.lxor t (Z.shiftl (wrap (cv_width v - 8) c) 8))
}.

(** Filling a table of 256 entries, and the entry of a generator. *)
Lemma populate_fill {A} (f : Z -> A) (t : list A) :
  length t = 256%nat ->
  for_up 256 0 (fun n => astore n (f n)) t = Done (tt, f <$> seqZ 0 256).
Proof.
  intros Ht. rewrite for_up_astore by lia.
  rewrite drop_ge by lia. by rewrite take_0, app_nil_r.
Qed.

Lemma populate_table w poly (f : Z -> Z) :
  (forall n, uint 8 n -> f n = Nat.iter 8 (lfsr w poly) (Z.shiftl n (w - 8))) ->
  f <$> seqZ 0 256 = crc_table w poly.
Proof.
  intros Hf. unfold crc_table. apply list_fmap_ext. intros i n Hn.
  apply Hf. apply lookup_seqZ in Hn. ulia.
Qed.

(** The masks after the lookup keep the register in range and drop its old
    top byte. *)
Lemma lookup_mask w v c t :
  8 <= w <= v -> uint w t -> uint w c ->
  Z.land (Z.lxor t (wrap v (Z.shiftl c 8))) (Z.ones w)
  = Z.lxor t (Z.shiftl (wrap (w - 8) c) 8).
Proof.
  intros Hw Ht Hc. rewrite land_ones_wrap by lia. zbits i.
  destruct (Z.ltb_spec i w), (Z.ltb_spec i v), (Z.ltb_spec (i - 8) (w - 8)); try lia;
    [done | by rewrite (uint_high w t) by (done || lia)..].
Qed.

Lemma idx_mask w c b :
  8 <= w -> uint w c -> uint 8 b ->
  Z.land (Z.lxor (Z.shiftr c (w - 8)) b) 0xff = Z.lxor (Z.shiftr c (w - 8)) b.
Proof.
  intros Hw Hc Hb. change 0xff with (Z.ones 8). rewrite land_ones_wrap by done.
  by apply wrap_small, top_byte.
Qed.

#[export] Instance crc8_ok : CrcVariantOk crc8.
Proof.
  split; cbn [cv_width cv_populate cv_crc crc8 crc16 crc24]; [lia | | done |].
  - intros poly table Hp Ht. unfold no_os_crc8_populate_msb, NO_OS_CRC8_TABLE_SIZE.
    rewrite populate_fill by done. do 2 f_equal. apply populate_table. intros n Hn.
    change (8 - 8) with 0. rewrite Z.shiftl_0_r, wrap_small by done.
    apply iter_ext, crc8_bit_lfsr.
  - intros table b data n c t Hc Hb Ht E.
    change (8 - 8) with 0 in *. rewrite Z.shiftr_0_r in E. simpl. rewrite E. simpl.
    f_equal. change 0xff with (Z.ones 8). rewrite land_ones_wrap, wrap_small by done.
    unfold wrap. by rewrite Z.mod_1_r, Z.shiftl_0_l, Z.lxor_0_r.
Qed.

#[export] Instance crc16_ok : CrcVariantOk crc16.
Proof.
  split; cbn [cv_width cv_populate cv_crc crc8 crc16 crc24]; [lia | | done |].
  - intros poly table Hp Ht. unfold no_os_crc16_populate_msb, NO_OS_CRC16_TABLE_SIZE.
    rewrite populate_fill by done. do 2 f_equal. apply populate_table. intros n Hn.
    rewrite wrap_small by (rewrite Z.shiftl_mul_pow2; ulia).
    apply iter_ext, crc16_bit_lfsr.
  - intros table b data n c t Hc Hb Ht E.
    cbn [no_os_crc16]. change 8 with (16 - 8) at 1.
    rewrite (idx_mask 16), E by done. simpl. f_equal.
    rewrite <- (lookup_mask 16 24) by (done || lia). change 0xffff with (Z.ones 16).
    f_equal. f_equal. symmetry. apply wrap_small. rewrite Z.shiftl_mul_pow2; ulia.
Qed.

Lemma crc24_loop_uint table data n c c' :
  uint 24 c -> crc24_loop table data n c = Some c' -> uint 24 c'.
Proof.
  revert data c. induction n as [| n IH]; intros data c Hc; simpl; [by intros [= <-] |].
  destruct data as [| b data]; [done |]. intros (t & _ & H)%bind_Some. eapply IH, H.
  change 0xffffff with (Z.ones 24). rewrite land_ones_wrap by done. auto with cint.
Qed.

Lemma no_os_crc24_loop table data n c :
  uint 24 c -> no_os_crc24 table data n c = crc24_loop table data n c.
Proof.
  intros Hc. unfold no_os_crc24. destruct (crc24_loop _ _ _ _) as [c' |] eqn:E; [| done].
  simpl. apply crc24_loop_uint in E; [| done]. f_equal.
  change 0xffffff with (Z.ones 24). by rewrite land_ones_wrap, wrap_small.
Qed.

#[export] Instance crc24_ok : CrcVariantOk crc24.
Proof.
  split; cbn [cv_width cv_populate cv_crc crc8 crc16 crc24]; [lia | | |].
  - intros poly table Hp Ht. unfold no_os_crc24_populate_msb, NO_OS_CRC24_TABLE_SIZE.
    rewrite populate_fill by done. do 2 f_equal. apply populate_table. intros n Hn.
    assert (uint 24 (Z.shiftl n 16)) as H by (rewrite Z.shiftl_mul_pow2; ulia).
    rewrite wrap_small by (eapply uint_mono, H; done). by apply (iter_crc24_bit poly 8).
  - intros table data c Hc. by rewrite no_os_crc24_loop.
  - intros table b data n c t Hc Hb Ht E.
    rewrite !no_os_crc24_loop; [| | done].
    + cbn [crc24_loop]. change 16 with (24 - 8) at 1.
      rewrite (idx_mask 24), E by done. simpl. f_equal.
      change 0xffffff with (Z.ones 24). by apply (lookup_mask 24 32).
    + rewrite <- (lookup_mask 24 32), land_ones_wrap by done. auto with cint.
Qed.

Lemma crc_variants_ok v : v ∈ crc_variants -> CrcVariantOk v.
Proof.
  unfold crc_variants. rewrite !elem_of_cons, elem_of_nil. intros [-> | [-> | [-> | []]]]; apply _.
Qed.

Section variant.
  Context (v : crc_variant) {Hv : CrcVariantOk v}.
  Abbreviation w := (cv_width v).

Lemma cv_crc_msg poly data c :
  uint w poly -> Forall (uint 8) data -> uint w c ->
  cv_crc v (crc_table w poly) data (length data) c = Some (crc_msg w poly c data).
Proof.
  intros Hp Hd. pose proof cv_width_ok as Hw. revert c.
  induction Hd as [| b data Hb Hd IH]; intros c Hc; [by apply cv_crc_nil |].
  set (idx := Z.lxor (Z.shiftr c (w - 8)) b).
  assert (uint 8 idx) as Hi by by apply top_byte.
  cbn [length]. erewrite cv_crc_cons; [| done | done | | by apply crc_table_lookup].
  - rewrite <- crc_byte_step by done. rewrite IH.
    + unfold crc_msg. cbn [mbind list_bind]. by rewrite crc_bits_app.
    + apply crc_bits_uint; done || lia.
  - apply iter_lfsr_uint; [lia | done |].
    apply uint_shiftl; [lia |]. by replace (w - (w - 8)) with 8 by lia.
Qed.
End variant.

Lemma lfsr_inj0 w poly d :
  0 < w -> uint w poly -> Z.testbit poly 0 = true -> uint w d ->
  lfsr w poly d = 0 -> d = 0.
Proof.
  intros Hw Hp H0 Hd. unfold lfsr. destruct (Z.testbit d (w - 1)) eqn:Ht; intros E.
  - apply (f_equal (fun z => Z.testbit z 0)) in E.
    rewrite Z.lxor_spec, testbit_wrap, Z.shiftl_spec_low, H0, Z.bits_0 in E by lia.
    by rewrite andb_false_r in E.
  - zbits i. rewrite Z.bits_0. destruct (Z.ltb_spec (i + 1) w) as [Hi | Hi].
    + apply (f_equal (fun z => Z.testbit z (i + 1))) in E.
      rewrite testbit_wrap, Z.shiftl_spec, Z.bits_0, Z.add_simpl_r in E by lia.
      by destruct (Z.ltb_spec (i + 1) w); [| lia].
    + destruct (decide (i = w - 1)) as [-> | Hn]; [done |].
      apply (uint_high w); [lia | done].
Qed.

(** With an odd polynomial a step loses nothing. *)
Lemma iter_lfsr_inj w poly k c d :
  0 < w -> uint w poly -> Z.testbit poly 0 = true -> uint w c -> uint w d ->
  Nat.iter k (lfsr w poly) c = Nat.iter k (lfsr w poly) d -> c = d.
Proof.
  intros Hw Hp H0 Hc Hd E. apply Z.lxor_eq.
  assert (Nat.iter k (lfsr w poly) (Z.lxor c d) = 0) as E0.
  { by rewrite iter_lfsr_lxor, E, Z.lxor_nilpotent by done. }
  assert (uint w (Z.lxor c d)) as Hcd by auto with cint.
  clear E. induction k as [| k IH]; [done |]. apply IH.
  apply (lfsr_inj0 w poly); try done. by apply (iter_lfsr_uint w poly k).
Qed.

Lemma crc_bits_inj w poly bs c d :
  0 < w -> uint w poly -> Z.testbit poly 0 = true -> uint w c -> uint w d ->
  crc_bits w poly c bs = crc_bits w poly d bs -> c = d.
Proof.
  intros Hw Hp H0. revert c d.
  induction bs as [| b bs IH]; intros c d Hc Hd E; [done |].
  apply IH in E; [| by apply lfsr_uint..].
  assert (uint w (Z.shiftl (Z.b2z b) (w - 1))) as Hb.
  { replace w with (w - 1 + 1) at 1 by lia. apply uint_b2z_shiftl. lia. }
  apply (iter_lfsr_inj w poly 1) in E; [| by auto with cint..].
  apply (f_equal (fun z => Z.lxor z (Z.shiftl (Z.b2z b) (w - 1)))) in E.
  by rewrite !Z.lxor_assoc, !Z.lxor_nilpotent, !Z.lxor_0_r in E.
Qed.

(** ** Properties *)

(** C27: for every polynomial, message and initial value, generating the
    table with [no_os_crcN_populate_msb] and running [no_os_crcN] over the
    message gives the bit-serial CRC of the message, for N = 8, 16 and 24. *)
Theorem crc_table_driven v poly table data crc :
  v ∈ crc_variants -> uint (cv_width v) poly -> length table = 256%nat ->
  Forall (uint 8) data -> uint (cv_width v) crc ->
  exists t, cv_populate v poly (Some table) = Done (Some t) /\
    cv_crc v t data (length data) crc = Some (crc_msg (cv_width v) poly crc data).
Proof.
  intros Hv%crc_variants_ok Hp Ht Hd Hc. eexists.
  split; [by apply cv_populate_ok | by apply cv_crc_msg].
Qed.

Lemma crc_table_driven_witness :
  let data := [0x31; 0x32; 0x33] in
  exists t, cv_populate crc16 0x755B (Some (replicate 256 0)) = Done (Some t) /\
    cv_crc crc16 t data (length data) 0xFFFF
    = Some (crc_msg (cv_width crc16) 0x755B 0xFFFF data).
Proof.
  intros data. apply (crc_table_driven crc16 0x755B (replicate 256 0) data 0xFFFF).
  - unfold crc_variants. set_solver.
  - vm_compute. split; discriminate || reflexivity.
  - reflexivity.
  - repeat constructor; vm_compute; discriminate.
  - vm_compute. split; discriminate || reflexivity.
Defined.

(** C34: with a polynomial that has the constant term, a burst of errors no
    longer than the register is always detected, wherever it begins: two
    messages whose bits differ, but only within a window of [w] bits, have
    different checksums. *)
Theorem crc_detects_burst v poly table t msg msg' pre x y post crc :
  v ∈ crc_variants -> uint (cv_width v) poly -> Z.testbit poly 0 = true ->
  length table = 256%nat -> cv_populate v poly (Some table) = Done (Some t) ->
  Forall (uint 8) msg -> Forall (uint 8) msg' -> uint (cv_width v) crc ->
  (msg ≫= byte_bits) = pre ++ x ++ post -> (msg' ≫= byte_bits) = pre ++ y ++ post ->
  length x = length y -> Z.of_nat (length x) <= cv_width v -> x <> y ->
  cv_crc v t msg (length msg) crc <> cv_crc v t msg' (length msg') crc.
Proof.
  intros Hv%crc_variants_ok Hp H0 Ht Et Hm Hm' Hc Ebits Ebits' Hl Hw Hne.
  pose proof cv_width_ok as Hw8.
  rewrite cv_populate_ok in Et by done. injection Et as <-. rewrite !cv_crc_msg by done.
  unfold crc_msg. rewrite Ebits, Ebits', !crc_bits_app.
  intros [= E]. set (c := crc_bits _ poly crc _) in E.
  assert (uint (cv_width v) c) as Huc by (apply crc_bits_uint; done || lia).
  apply crc_bits_inj in E; [| lia | done | done | by apply crc_bits_uint; lia || done..].
  rewrite !crc_bits_iter, <- Hl in E by lia.
  assert (forall bs, length bs = length x ->
            uint (cv_width v) (Z.lxor c (Z.shiftl (bits_val bs) (cv_width v - Z.of_nat (length x))))) as Hu.
  { intros bs Hb. apply uint_lxor; [lia | done |]. apply uint_shiftl; [lia |].
    rewrite Z.sub_sub_distr, Z.sub_diag, <- Hb. apply bits_val_uint. }
  apply iter_lfsr_inj in E; [| lia | done | done | by apply Hu..].
  apply Hne, bits_val_inj; [done |].
  apply (f_equal (Z.lxor c)) in E. rewrite <- !Z.lxor_assoc, !Z.lxor_nilpotent, !Z.lxor_0_l in E.
  rewrite !Z.shiftl_mul_pow2 in E by lia. by apply Z.mul_reg_r in E; [| lia].
Qed.

(** Eight bits over two bytes: the last four of the first and the first four of
    the second. *)
Lemma crc_detects_burst_witness :
  let t := crc_table (cv_width crc8) 0x07 in
  cv_crc crc8 t [1; 0x2a; 0x53; 4] 4 0 <> cv_crc crc8 t [1; 0x25; 0xc3; 4] 4 0.
Proof.
  intros t. apply (crc_detects_burst crc8 0x07 (replicate 256 0) t [1; 0x2a; 0x53; 4] [1; 0x25; 0xc3; 4]
    (take 12 ([1; 0x2a] ≫= byte_bits)) (byte_bits 0xa5) (byte_bits 0x5c) (drop 4 ([0x53; 4] ≫= byte_bits)) 0).
  - unfold crc_variants. set_solver.
  - vm_compute. split; discriminate || reflexivity.
  - reflexivity.
  - reflexivity.
  - vm_compute. reflexivity.
  - repeat constructor; vm_compute; discriminate.
  - repeat constructor; vm_compute; discriminate.
  - vm_compute. split; discriminate || reflexivity.
  - reflexivity.
  - reflexivity.
  - reflexivity.
  - vm_compute. discriminate.
  - discriminate.
Defined.
