(* ===== verification/Util.v ===== *)
(** * Generic helpers ([util/no_os_util.c], [include/no_os_util.h])

    Bit scans, fields, rational arithmetic, byte order and sign extension.
    A function that can reach a shift or a division the C standard leaves
    undefined returns an [outcome]. *)
From S2P Require Import Prelude.

(** ** Bit scans *)

(** [while (word)]: a 32-bit word becomes zero after at most 32 shifts. *)
Fixpoint find_first_loop (fuel : nat) (word first_set_bit : Z) : outcome Z :=
  if truthy word then
    match fuel with
    | O => NoFuel
    | S fuel =>
        if truthy (Z.land word 0x1) then Done first_set_bit
        else find_first_loop fuel (Z.shiftr word 1) (u32 (first_set_bit + 1))
    end
  else Done 32.

Definition no_os_find_first_set_bit (word : Z) : outcome Z :=
  find_first_loop 32 word 0.

Fixpoint find_last_loop (fuel : nat) (word bit last_set_bit : Z) : outcome Z :=
  if truthy word then
    match fuel with
    | O => NoFuel
    | S fuel =>
        find_last_loop fuel (Z.shiftr word 1) (u32 (bit + 1))
          (if truthy (Z.land word 0x1) then bit else last_set_bit)
    end
  else Done last_set_bit.

Definition no_os_find_last_set_bit (word : Z) : outcome Z :=
  find_last_loop 32 word 0 32.

Definition no_os_log_base_2 (x : Z) : outcome Z :=
  r ← no_os_find_last_set_bit x; Done (s32 r).

(** [no_os_test_bit] of the header: [addr] is an array of [int], which is
    indexed by [pos / 32] but shifted by the whole [pos]. *)
Definition no_os_test_bit (pos : Z) (addr : list Z) : outcome Z :=
  match addr !! Z.to_nat (Z.quot pos 32) with
  | Some x => if pos <? 0 then Undef else y ← shr 32 x pos; Done (Z.land y 1)
  | None => Undef
  end.

(** [no_os_field_prep] and [no_os_field_get] *)
Definition no_os_field_prep (mask val : Z) : outcome Z :=
  k ← no_os_find_first_set_bit mask;
  x ← shl 32 val k;
  Done (Z.land x mask).

Definition no_os_field_get (mask word : Z) : outcome Z :=
  k ← no_os_find_first_set_bit mask;
  shr 32 (Z.land word mask) k.

(** [while (word)] of [no_os_hweight8]. *)
Fixpoint hweight8_loop (fuel : nat) (word count : Z) : outcome Z :=
  if truthy word then
    match fuel with
    | O => NoFuel
    | S fuel =>
        hweight8_loop fuel (Z.shiftr word 1)
          (if truthy (Z.land word 0x1) then u32 (count + 1) else count)
    end
  else Done count.

Definition no_os_hweight8 (word : Z) : outcome Z := hweight8_loop 8 word 0.

Definition no_os_hweight16 (word : Z) : outcome Z :=
  hi ← no_os_hweight8 (u8 (Z.shiftr word 8));
  lo ← no_os_hweight8 (u8 word);
  Done (u32 (hi + lo)).

Definition no_os_hweight32 (word : Z) : outcome Z :=
  hi ← no_os_hweight16 (u16 (Z.shiftr word 16));
  lo ← no_os_hweight16 (u16 word);
  Done (u32 (hi + lo)).

(** ** Searching and arithmetic *)

(** [abs(x - val)], with the overflows of the subtraction and of [abs]. *)
Definition abs_diff (x val : Z) : outcome Z :=
  d ← ssigned 32 (x - val);
  ssigned 32 (Z.abs d).

(** [for (i = 1; i < size; i++)] over the rest of the array. *)
Fixpoint find_closest_loop (n : nat) (val : Z) (array : list Z) (i diff ret : Z)
    : outcome Z :=
  match n with
  | O => Done ret
  | S n =>
      match array !! Z.to_nat i with
      | None => Undef
      | Some x =>
          d ← abs_diff x val;
          if d <? diff then find_closest_loop n val array (i + 1) d i
          else find_closest_loop n val array (i + 1) diff ret
      end
  end.

Definition no_os_find_closest (val : Z) (array : list Z) (size : Z) : outcome Z :=
  match array !! 0%nat with
  | None => Undef
  | Some x0 =>
      diff ← abs_diff x0 val;
      find_closest_loop (Z.to_nat (size - 1)) val array 1 diff 0
  end.

(** [while (b != 0)]; 65 rounds are enough for 32-bit operands. *)
Fixpoint gcd_loop (fuel : nat) (a b : Z) : outcome Z :=
  if b =? 0 then Done a else
  match fuel with
  | O => NoFuel
  | S fuel => gcd_loop fuel b (a mod b)
  end.

Definition no_os_max (x y : Z) : Z := if y <? x then x else y.

Definition no_os_min (x y : Z) : Z := if x <? y then x else y.

Definition no_os_clamp (val min_val max_val : Z) : Z :=
  no_os_max (no_os_min val max_val) min_val.

Definition no_os_greatest_common_divisor (a b : Z) : outcome Z :=
  if (a =? 0) || (b =? 0) then Done (no_os_max a b) else gcd_loop 65 a b.

Definition no_os_lowest_common_multiple (a b : Z) : outcome Z :=
  if truthy a && truthy b then
    g ← no_os_greatest_common_divisor a b;
    q ← udiv a g;
    Done (u32 (q * b))
  else Done 0.

(** The two results are [*best_numerator] and [*best_denominator]. *)
Definition no_os_rational_best_approximation
    (given_numerator given_denominator max_numerator max_denominator : Z)
    : outcome (Z * Z) :=
  gcd ← no_os_greatest_common_divisor given_numerator given_denominator;
  n ← udiv given_numerator gcd;
  d ← udiv given_denominator gcd;
  if (max_numerator <? n) || (max_denominator <? d) then Done (0, 0)
  else Done (n, d).

(** Divisions: the remainder and the quotient, in the order of the C
    function's result and output parameter. *)
Definition no_os_do_div (n base : Z) : outcome (Z * Z) :=
  m ← umod n base;
  q ← udiv n base;
  Done (m, q).

Definition no_os_div64_u64_rem (dividend divisor : Z) : outcome (Z * Z) :=
  r ← umod dividend divisor;
  q ← udiv dividend divisor;
  Done (q, r).

Definition no_os_div_u64_rem (dividend divisor : Z) : outcome (Z * Z) :=
  mq ← no_os_do_div dividend divisor;
  Done (mq.2, u32 mq.1).

(** Signed division truncates towards zero. *)
Definition no_os_div_s64_rem (dividend divisor : Z) : outcome (Z * Z) :=
  if divisor =? 0 then Undef else
  q ← ssigned 64 (Z.quot dividend divisor);
  Done (q, s32 (Z.rem dividend divisor)).

Definition no_os_div_u64 (dividend divisor : Z) : outcome Z :=
  qr ← no_os_div_u64_rem dividend divisor; Done qr.1.

Definition no_os_div_s64 (dividend divisor : Z) : outcome Z :=
  qr ← no_os_div_s64_rem dividend divisor; Done qr.1.

Definition no_os_mul_u32_u32 (a b : Z) : Z := u64 (a * b).

Definition no_os_mul_u64_u32_shr (a mul shift : Z) : outcome Z :=
  let al := u32 a in
  let ah := u32 (Z.shiftr a 32) in
  ret ← shr 64 (no_os_mul_u32_u32 al mul) shift;
  if truthy ah then
    x ← shl 64 (no_os_mul_u32_u32 ah mul) (u32 (32 - shift));
    Done (u64 (ret + x))
  else Done ret.

(** [value << shift] happens in [int] for a 16-bit value. *)
Definition no_os_sign_extend16 (value index : Z) : outcome Z :=
  let shift := u8 (15 - index) in
  if shift <? 32 then
    x ← ssigned 32 (Z.shiftl value shift);
    Done (s16 (Z.shiftr (s16 x) shift))
  else Undef.

Definition no_os_sign_extend32 (value index : Z) : outcome Z :=
  let shift := u8 (31 - index) in
  x ← shl 32 value shift;
  shr 32 (s32 x) shift.

(** ** Byte order

    [buf] is the array the pointer argument designates. *)

Definition no_os_put_unaligned_be16 (val : Z) : cmd (list Z) unit :=
  _ ← astore 1 (Z.land val 0xFF);
  astore 0 (u8 (Z.shiftr val 8)).

Definition no_os_get_unaligned_be16 : cmd (list Z) Z :=
  b1 ← aload 1; b0 ← aload 0;
  mret (u16 (Z.lor b1 (Z.shiftl b0 8))).

Definition no_os_put_unaligned_le16 (val : Z) : cmd (list Z) unit :=
  _ ← astore 0 (Z.land val 0xFF);
  astore 1 (u8 (Z.shiftr val 8)).

Definition no_os_get_unaligned_le16 : cmd (list Z) Z :=
  b0 ← aload 0; b1 ← aload 1;
  mret (u16 (Z.lor b0 (Z.shiftl b1 8))).

Definition no_os_put_unaligned_be24 (val : Z) : cmd (list Z) unit :=
  _ ← astore 2 (Z.land val 0xFF);
  _ ← astore 1 (Z.land (Z.shiftr val 8) 0xFF);
  astore 0 (u8 (Z.shiftr val 16)).

Definition no_os_get_unaligned_be24 : cmd (list Z) Z :=
  b2 ← aload 2; b1 ← aload 1; b0 ← aload 0;
  mret (Z.lor (Z.lor b2 (Z.shiftl b1 8)) (u32 (Z.shiftl b0 16))).

Definition no_os_put_unaligned_le24 (val : Z) : cmd (list Z) unit :=
  _ ← astore 0 (Z.land val 0xFF);
  _ ← astore 1 (Z.land (Z.shiftr val 8) 0xFF);
  astore 2 (u8 (Z.shiftr val 16)).

Definition no_os_get_unaligned_le24 : cmd (list Z) Z :=
  b0 ← aload 0; b1 ← aload 1; b2 ← aload 2;
  mret (Z.lor (Z.lor b0 (Z.shiftl b1 8)) (u32 (Z.shiftl b2 16))).

Definition no_os_put_unaligned_be32 (val : Z) : cmd (list Z) unit :=
  _ ← astore 3 (Z.land val 0xFF);
  _ ← astore 2 (Z.land (Z.shiftr val 8) 0xFF);
  _ ← astore 1 (Z.land (Z.shiftr val 16) 0xFF);
  astore 0 (u8 (Z.shiftr val 24)).

Definition no_os_get_unaligned_be32 : cmd (list Z) Z :=
  b3 ← aload 3; b2 ← aload 2; b1 ← aload 1; b0 ← aload 0;
  mret (Z.lor (Z.lor (Z.lor b3 (Z.shiftl b2 8)) (u32 (Z.shiftl b1 16)))
              (u32 (Z.shiftl b0 24))).

Definition no_os_put_unaligned_le32 (val : Z) : cmd (list Z) unit :=
  _ ← astore 0 (Z.land val 0xFF);
  _ ← astore 1 (Z.land (Z.shiftr val 8) 0xFF);
  _ ← astore 2 (Z.land (Z.shiftr val 16) 0xFF);
  astore 3 (u8 (Z.shiftr val 24)).

Definition no_os_get_unaligned_le32 : cmd (list Z) Z :=
  b0 ← aload 0; b1 ← aload 1; b2 ← aload 2; b3 ← aload 3;
  mret (Z.lor (Z.lor (Z.lor b0 (Z.shiftl b1 8)) (u32 (Z.shiftl b2 16)))
              (u32 (Z.shiftl b3 24))).

(** [no_os_is_big_endian] reads the first byte of the 16-bit 0x0100 as the
    host stores it. *)
Definition no_os_is_big_endian (host_stores_msb_first : bool) : bool :=
  let a := 0x0100 in
  let memory := if host_stores_msb_first
                then [Z.shiftr a 8; Z.land a 0xFF]
                else [Z.land a 0xFF; Z.shiftr a 8] in
  truthy (nth 0 memory 0).

(** [for (j = step; j > 0; j--) *p++ = temp[j - 1]] *)
Fixpoint memswap_chunk (j : nat) (temp : list Z) (p : Z) : cmd (list Z) unit :=
  match j with
  | O => mret tt
  | S j =>
      t ← the (temp !! j);
      _ ← astore p t;
      memswap_chunk j temp (p + 1)
  end.

(** [memcpy(temp, p, step)] *)
Fixpoint memcpy_from (n : nat) (p : Z) : cmd (list Z) (list Z) :=
  match n with
  | O => mret []
  | S n => b ← aload p; rest ← memcpy_from n (p + 1); mret (b :: rest)
  end.

(** [for (i = 0; i < bytes; i += step)]; at most [bytes] rounds. *)
Fixpoint memswap_loop (fuel : nat) (bytes step i : Z) : cmd (list Z) unit :=
  if i <? bytes then
    match fuel with
    | O => fun _ => NoFuel
    | S fuel =>
        temp ← memcpy_from (Z.to_nat step) i;
        _ ← memswap_chunk (Z.to_nat step) temp i;
        memswap_loop fuel bytes step (i + step)
    end
  else mret tt.

Definition no_os_memswap64 (bytes step : Z) : cmd (list Z) unit :=
  if (step <? 2) || (8 <? step) || (bytes <? step) || truthy (bytes mod step)
  then mret tt
  else memswap_loop (Z.to_nat bytes) bytes step 0.

(** ** Macros of the header *)

Definition NO_OS_BIT (x : Z) : outcome Z :=
  if (0 <=? x) && (x <? 32) then ssigned 32 (Z.shiftl 1 x) else Undef.

Definition NO_OS_DIV_ROUND_UP (x y : Z) : outcome Z := udiv (x + y - 1) y.

Definition NO_OS_DIV_ROUND_CLOSEST (x y : Z) : outcome Z := udiv (x + y / 2) y.

Definition NO_OS_BITS_PER_LONG : Z := 32.

Definition NO_OS_GENMASK (h l : Z) : outcome Z :=
  let t := u32 (Z.lnot 0) in
  t ← shl 32 t (NO_OS_BITS_PER_LONG - (h - l + 1));
  shr 32 t (NO_OS_BITS_PER_LONG - (h + 1)).

Definition no_os_bswap_constant_32 (x : Z) : Z :=
  Z.lor (Z.lor (Z.lor (Z.shiftr (Z.land x 0xff000000) 24)
                      (Z.shiftr (Z.land x 0x00ff0000) 8))
               (Z.shiftl (Z.land x 0x0000ff00) 8))
        (u32 (Z.shiftl (Z.land x 0x000000ff) 24)).

Definition no_os_bswap_constant_16 (x : Z) : Z :=
  Z.lor (Z.shiftr (Z.land x 0xff00) 8) (Z.shiftl (Z.land x 0x00ff) 8).

Definition no_os_bit_swap_constant_8 (x : Z) : Z :=
  Z.lor (Z.lor (Z.lor (Z.lor (Z.lor (Z.lor (Z.lor
    (Z.shiftr (Z.land x 0x80) 7) (Z.shiftr (Z.land x 0x40) 5))
    (Z.shiftr (Z.land x 0x20) 3)) (Z.shiftr (Z.land x 0x10) 1))
    (Z.shiftl (Z.land x 0x08) 1)) (Z.shiftl (Z.land x 0x04) 3))
    (Z.shiftl (Z.land x 0x02) 5)) (Z.shiftl (Z.land x 0x01) 7).

Definition no_os_bcd2bin (x : Z) : Z := Z.land x 0x0f + Z.shiftr x 4 * 10.

Definition no_os_bin2bcd (x : Z) : Z := Z.shiftl (x / 10) 4 + x mod 10.

(** ** Specifications *)

(** A reader and a writer of an [n]-byte number, and the order of its bytes:
    [co_msb_first] tells whether the most significant byte comes first. *)
Record codec : Type := Codec {
  co_bytes : nat;
  co_msb_first : bool;
  co_put : Z -> cmd (list Z) unit;
  co_get : cmd (list Z) Z
}.

Definition codecs : list codec :=
  [ Codec 2 true no_os_put_unaligned_be16 no_os_get_unaligned_be16;
    Codec 2 false no_os_put_unaligned_le16 no_os_get_unaligned_le16;
    Codec 3 true no_os_put_unaligned_be24 no_os_get_unaligned_be24;
    Codec 3 false no_os_put_unaligned_le24 no_os_get_unaligned_le24;
    Codec 4 true no_os_put_unaligned_be32 no_os_get_unaligned_be32;
    Codec 4 false no_os_put_unaligned_le32 no_os_get_unaligned_le32 ].

(** The base-256 digits of a number, least significant first, and back. *)
Fixpoint digits (n : nat) (v : Z) : list Z :=
  match n with
  | O => []
  | S n => v mod 256 :: digits n (v / 256)
  end.

Fixpoint undigits (ds : list Z) : Z :=
  match ds with
  | [] => 0
  | d :: ds => d + 256 * undigits ds
  end.

Definition ordered (msb_first : bool) (ds : list Z) : list Z :=
  if msb_first then reverse ds else ds.

(** The buffer cut into pieces of [k] bytes, each reversed. *)
Fixpoint swap_chunks (n k : nat) (l : list Z) : list Z :=
  match n with
  | O => l
  | S n => reverse (take k l) ++ swap_chunks n k (drop k l)
  end.

(** ** Lemmas *)

Lemma shiftr1_uint f x : uint (Z.of_nat (S f)) x -> uint (Z.of_nat f) (Z.shiftr x 1).
Proof.
  intros H. apply uint_shiftr; [lia | lia |].
  by replace (1 + Z.of_nat f) with (Z.of_nat (S f)) by lia.
Qed.

Lemma testbit_shiftr1 x j : 0 <= j -> Z.testbit (Z.shiftr x 1) j = Z.testbit x (j + 1).
Proof. intros Hj. by rewrite Z.shiftr_spec. Qed.

Lemma bit0_false_shiftr_nz x : x <> 0 -> Z.testbit x 0 = false -> Z.shiftr x 1 <> 0.
Proof.
  intros Hx H0 H. apply Hx. zbits i. rewrite Z.bits_0.
  destruct (decide (i = 0)) as [-> | Hi]; [done |].
  replace i with (i - 1 + 1) by lia. rewrite <- testbit_shiftr1, H by lia.
  apply Z.bits_0.
Qed.

Lemma find_first_loop_spec f word b :
  uint (Z.of_nat f) word -> word <> 0 -> 0 <= b -> b + Z.of_nat f <= 32 ->
  exists k, find_first_loop f word b = Done (b + k) /\ 0 <= k < Z.of_nat f /\
    Z.testbit word k = true /\ forall j, 0 <= j < k -> Z.testbit word j = false.
Proof.
  revert word b. induction f as [| f IH]; intros word b Hw Hn Hb Hf.
  { exfalso. unfold uint in Hw. simpl in Hw. lia. }
  cbn [find_first_loop]. rewrite (proj2 (truthy_true word) Hn), truthy_land1.
  destruct (Z.testbit word 0) eqn:H0.
  - exists 0. rewrite Z.add_0_r. splits; [done | lia | lia | done | lia].
  - destruct (IH (Z.shiftr word 1) (b + 1)) as (k & E & Hk & Ht & Hj);
      [by apply shiftr1_uint | by apply bit0_false_shiftr_nz | lia | lia |].
    rewrite wrap_small, E by ulia. exists (k + 1). splits; try lia.
    + f_equal. lia.
    + by rewrite <- testbit_shiftr1 by lia.
    + intros j Hjk. destruct (decide (j = 0)) as [-> | Hj0]; [done |].
      replace j with (j - 1 + 1) by lia. rewrite <- testbit_shiftr1 by lia.
      apply Hj. lia.
Qed.

Lemma find_first_set_bit_spec word :
  uint 32 word -> word <> 0 ->
  exists k, no_os_find_first_set_bit word = Done k /\ 0 <= k < 32 /\
    Z.testbit word k = true /\ forall j, 0 <= j < k -> Z.testbit word j = false.
Proof. intros Hw Hn. by apply (find_first_loop_spec 32 word 0). Qed.

Lemma find_last_loop_spec f word b last :
  uint (Z.of_nat f) word -> 0 <= b -> b + Z.of_nat f <= 32 ->
  find_last_loop f word b last
  = Done (if truthy word then b + Z.log2 word else last).
Proof.
  revert word b last. induction f as [| f IH]; intros word b last Hw Hb Hf.
  { unfold uint in Hw. simpl in Hw. by replace word with 0 by lia. }
  cbn [find_last_loop]. destruct (truthy word) eqn:Ht; [| done].
  apply truthy_true in Ht. rewrite truthy_land1, IH;
    [| by apply shiftr1_uint | rewrite wrap_small by ulia; lia..].
  f_equal. rewrite wrap_small by ulia. unfold uint in Hw.
  destruct (truthy (Z.shiftr word 1)) eqn:Hs.
  - apply truthy_true in Hs. rewrite Z.log2_shiftr by lia.
    assert (Z.shiftr word 1 > 0) as Hp by (pose proof (Z.shiftr_nonneg word 1); lia).
    rewrite Z.shiftr_div_pow2 in Hp by done. change (2 ^ 1) with 2 in Hp.
    assert (2 <= word) as H2 by (destruct (Z_lt_le_dec word 2); [rewrite Z.div_small in Hp |]; lia).
    assert (1 <= Z.log2 word) as Hl by (apply (Z.log2_le_mono 2) in H2; done). lia.
  - apply truthy_false in Hs.
    assert (word = 1) as ->; [| simpl; lia].
    rewrite Z.shiftr_div_pow2 in Hs by done. change (2 ^ 1) with 2 in Hs.
    apply Z.div_small_iff in Hs; lia.
Qed.

Lemma find_last_set_bit_spec word :
  uint 32 word ->
  no_os_find_last_set_bit word = Done (if truthy word then Z.log2 word else 32).
Proof. intros Hw. apply (find_last_loop_spec 32 word 0 32); [done | lia | lia]. Qed.

(** The number of set bits among bits [i], ..., [i + n - 1]. *)
Definition popcount (i : Z) (n : nat) (x : Z) : Z :=
  foldr Z.add 0 ((fun j => Z.b2z (Z.testbit x j)) <$> seqZ i (Z.of_nat n)).

Lemma popcount_S i n x : popcount i (S n) x = Z.b2z (Z.testbit x i) + popcount (i + 1) n x.
Proof.
  unfold popcount. rewrite seqZ_cons by lia. simpl.
  by replace (Z.pred (Z.of_nat (S n))) with (Z.of_nat n) by lia.
Qed.

Lemma popcount_app i n m x :
  popcount i (n + m) x = popcount i n x + popcount (i + Z.of_nat n) m x.
Proof.
  revert i. induction n as [| n IH]; intros i.
  - by rewrite Z.add_0_r.
  - cbn [Nat.add]. rewrite !popcount_S, IH, Z.add_assoc. do 2 f_equal. lia.
Qed.

Lemma popcount_bits i j n x y :
  (forall k, 0 <= k < Z.of_nat n -> Z.testbit x (i + k) = Z.testbit y (j + k)) ->
  popcount i n x = popcount j n y.
Proof.
  revert i j. induction n as [| n IH]; intros i j H; [done |].
  rewrite !popcount_S. f_equal.
  - f_equal. rewrite <- (Z.add_0_r i), <- (Z.add_0_r j). apply H. lia.
  - apply IH. intros k Hk. rewrite <- !Z.add_assoc. apply H. lia.
Qed.

Lemma popcount_bound i n x : 0 <= popcount i n x <= Z.of_nat n.
Proof.
  revert i. induction n as [| n IH]; intros i; [done |].
  rewrite popcount_S. specialize (IH (i + 1)). destruct (Z.testbit x i); simpl; lia.
Qed.

Lemma hweight8_loop_spec f word count :
  uint (Z.of_nat f) word -> 0 <= count -> count + Z.of_nat f < 2 ^ 32 ->
  hweight8_loop f word count = Done (count + popcount 0 f word).
Proof.
  revert word count. induction f as [| f IH]; intros word count Hw Hc Hf.
  { unfold uint in Hw. simpl in Hw. replace word with 0 by lia. simpl. by rewrite Z.add_0_r. }
  cbn [hweight8_loop]. destruct (truthy word) eqn:Ht.
  - rewrite truthy_land1, popcount_S, IH; [| by apply shiftr1_uint | |].
    + rewrite (popcount_bits 0 1 f (Z.shiftr word 1) word).
      * rewrite wrap_small by ulia. change (0 + 1) with 1.
        destruct (Z.testbit word 0); simpl Z.b2z; f_equal; lia.
      * intros k Hk. rewrite Z.shiftr_spec by lia. f_equal. lia.
    + rewrite wrap_small by ulia. destruct (Z.testbit word 0); lia.
    + rewrite wrap_small by ulia. destruct (Z.testbit word 0); lia.
  - apply truthy_false in Ht as ->. rewrite (popcount_bits 0 0 _ 0 (Z.shiftr 0 0)) by done.
    assert (forall i n, popcount i n 0 = 0) as H0.
    { intros i n. revert i. induction n as [| n IHn]; intros i; [done |].
      by rewrite popcount_S, IHn, Z.bits_0. }
    by rewrite H0, Z.add_0_r.
Qed.

Lemma hweight8_spec word : uint 8 word -> no_os_hweight8 word = Done (popcount 0 8 word).
Proof. intros H. by apply (hweight8_loop_spec 8 word 0). Qed.

(** The two halves of a word, as the C code splits it. *)
Lemma popcount_halves n x :
  popcount 0 n (wrap (Z.of_nat n) (Z.shiftr x (Z.of_nat n))) + popcount 0 n (wrap (Z.of_nat n) x)
  = popcount 0 (n + n) x.
Proof.
  rewrite (popcount_app 0 n n), Z.add_comm. f_equal; apply popcount_bits; intros k Hk;
    rewrite testbit_wrap, ?Z.shiftr_spec by lia;
    (destruct (Z.ltb_spec (0 + k) (Z.of_nat n)); [| lia]); simpl; f_equal; lia.
Qed.

Lemma hweight16_spec word : uint 16 word -> no_os_hweight16 word = Done (popcount 0 16 word).
Proof.
  intros H. unfold no_os_hweight16. rewrite !hweight8_spec by auto with cint.
  cbn [mbind outcome_bind]. pose proof (popcount_halves 8 word) as E.
  change (Z.of_nat 8) with 8 in E. rewrite E.
  pose proof (popcount_bound 0 (8 + 8) word). by rewrite wrap_small by ulia.
Qed.

Lemma hweight32_spec word : uint 32 word -> no_os_hweight32 word = Done (popcount 0 32 word).
Proof.
  intros H. unfold no_os_hweight32. rewrite !hweight16_spec by auto with cint.
  cbn [mbind outcome_bind]. pose proof (popcount_halves 16 word) as E.
  change (Z.of_nat 16) with 16 in E. rewrite E.
  pose proof (popcount_bound 0 (16 + 16) word). by rewrite wrap_small by ulia.
Qed.

(** *** Euclid *)

Lemma mod_half b r : 0 < r < b -> 2 * (b mod r) < b.
Proof.
  intros H. pose proof (Z.mod_pos_bound b r). pose proof (Z.div_mod b r).
  assert (1 <= b / r) by (apply Z.div_le_lower_bound; lia). nia.
Qed.

Lemma gcd_loop_spec n fuel a b :
  0 <= a -> 0 <= b < 2 ^ Z.of_nat n -> (2 * n <= fuel)%nat ->
  gcd_loop fuel a b = Done (Z.gcd a b).
Proof.
  revert fuel a b. induction n as [| n IH]; intros fuel a b Ha Hb Hf.
  { simpl in Hb. replace b with 0 by lia. rewrite Z.gcd_0_r, Z.abs_eq by done.
    by destruct fuel. }
  destruct fuel as [| [| fuel]]; [lia.. |].
  cbn [gcd_loop]. destruct (Z.eqb_spec b 0) as [-> | Hb0].
  { by rewrite Z.gcd_0_r, Z.abs_eq. }
  pose proof (Z.mod_pos_bound a b).
  destruct (Z.eqb_spec (a mod b) 0) as [Hr | Hr].
  { by rewrite (Z.gcd_comm a b), <- Z.gcd_mod, Hr, Z.gcd_0_l, Z.abs_eq by lia. }
  pose proof (Z.mod_pos_bound b (a mod b)). pose proof (mod_half b (a mod b)).
  rewrite IH; [| lia | | lia].
  - f_equal. by rewrite (Z.gcd_comm (a mod b)), Z.gcd_mod, Z.gcd_mod, Z.gcd_comm by done.
  - rewrite Nat2Z.inj_succ, Z.pow_succ_r in Hb by lia. lia.
Qed.

Lemma gcd_spec a b :
  uint 32 a -> uint 32 b -> no_os_greatest_common_divisor a b = Done (Z.gcd a b).
Proof.
  intros Ha Hb. unfold no_os_greatest_common_divisor, no_os_max.
  destruct (Z.eqb_spec a 0) as [-> | Ha0]; cbn [orb].
  { rewrite Z.gcd_0_l, Z.abs_eq by ulia. destruct (Z.ltb_spec b 0); f_equal; ulia. }
  destruct (Z.eqb_spec b 0) as [-> | Hb0]; cbn [orb].
  { rewrite Z.gcd_0_r, Z.abs_eq by ulia. destruct (Z.ltb_spec 0 a); f_equal; ulia. }
  apply (gcd_loop_spec 32 65 a b); [ulia | change (Z.of_nat 32) with 32; ulia | lia].
Qed.

Lemma gcd_nonzero a b : a <> 0 \/ b <> 0 -> Z.gcd a b <> 0.
Proof. intros H E. apply Z.gcd_eq_0 in E. lia. Qed.

(** *** Fields *)

Lemma field_prep_done mask val k :
  no_os_find_first_set_bit mask = Done k -> 0 <= k < 32 ->
  no_os_field_prep mask val = Done (Z.land (u32 (Z.shiftl val k)) mask).
Proof. intros E Hk. unfold no_os_field_prep. rewrite E. simpl. by rewrite shl_done. Qed.

Lemma field_get_done mask word k :
  no_os_find_first_set_bit mask = Done k -> 0 <= k < 32 ->
  no_os_field_get mask word = Done (Z.shiftr (Z.land word mask) k).
Proof. intros E Hk. unfold no_os_field_get. rewrite E. simpl. by rewrite shr_done. Qed.

(** *** Byte order *)

Lemma digits_undigits ds : Forall (uint 8) ds -> digits (length ds) (undigits ds) = ds.
Proof.
  induction 1 as [| d ds Hd _ IH]; [done |]. cbn [length digits undigits].
  rewrite (Z.mul_comm 256), Z_mod_plus_full, Z.div_add, Z.mod_small, Z.div_small by ulia.
  by rewrite Z.add_0_l, IH.
Qed.

Lemma undigits_digits n v : uint (8 * Z.of_nat n) v -> undigits (digits n v) = v.
Proof.
  revert v. induction n as [| n IH]; intros v Hv.
  - unfold uint in Hv. simpl in Hv. simpl. lia.
  - cbn [digits undigits]. rewrite IH.
    + pose proof (Z.div_mod v 256). lia.
    + unfold uint in *. rewrite (pow2_split 8) in Hv by lia. split; [apply Z.div_pos; lia |].
      apply Z.div_lt_upper_bound; [lia |]. change (2 ^ 8) with 256 in Hv.
      replace (8 * Z.of_nat n) with (8 * Z.of_nat (S n) - 8) by lia. lia.
Qed.

Lemma length_digits n v : length (digits n v) = n.
Proof. revert v. induction n as [| n IH]; intros v; simpl; by rewrite ?IH. Qed.

Lemma digits_uint n v : Forall (uint 8) (digits n v).
Proof.
  revert v. induction n as [| n IH]; intros v; simpl; constructor; [| done].
  by apply (wrap_uint 8).
Qed.

Lemma ordered_ordered m ds : ordered m (ordered m ds) = ds.
Proof. destruct m; [apply reverse_involutive | done]. Qed.

Lemma ordered_length m ds : length (ordered m ds) = length ds.
Proof. destruct m; [apply length_reverse | done]. Qed.

Lemma ordered_uint m ds : Forall (uint 8) ds -> Forall (uint 8) (ordered m ds).
Proof. destruct m; [apply Forall_reverse | done]. Qed.

Lemma land_ff v : Z.land v 0xFF = v mod 256.
Proof. by apply (land_ones_wrap 8). Qed.

Lemma shiftr_byte v k : 0 <= k -> Z.shiftr v (8 + k) = Z.shiftr (v / 256) k.
Proof.
  intros Hk. change 256 with (2 ^ 8). by rewrite <- Z.shiftr_div_pow2, Z.shiftr_shiftr.
Qed.

Lemma u8_byte v : u8 v = v mod 256.
Proof. done. Qed.

(** Run the stores of a writer, or the loads of a reader, on a buffer whose
    first cells are known. *)
Ltac run_cells :=
  repeat (erewrite bind_done; [| first [ by apply astore_done; simpl; lia
                                       | by apply aload_done; [lia | reflexivity] ]]);
  first [ rewrite astore_done by (simpl; lia) | idtac ].

Ltac byte_shifts v :=
  change 24 with (8 + (8 + (8 + 0))); change 16 with (8 + (8 + 0));
  change (Z.shiftr v 8) with (Z.shiftr v (8 + 0));
  rewrite ?shiftr_byte, ?Z.shiftr_0_r, ?land_ff by lia.

Lemma codec_put c val buf :
  c ∈ codecs -> (co_bytes c <= length buf)%nat ->
  co_put c val buf
  = Done (tt, ordered (co_msb_first c) (digits (co_bytes c) val) ++ drop (co_bytes c) buf).
Proof.
  unfold codecs. rewrite !elem_of_cons, elem_of_nil.
  intros H Hl. destruct_or! H; subst c; cbn [co_put co_bytes co_msb_first] in *;
    destruct buf as [| ? [| ? buf]]; try (simpl in Hl; lia);
    try (destruct buf as [| ? buf]; [simpl in Hl; lia |]);
    try (destruct buf as [| ? buf]; [simpl in Hl; lia |]); try done;
    unfold no_os_put_unaligned_be16, no_os_put_unaligned_le16, no_os_put_unaligned_be24,
      no_os_put_unaligned_le24, no_os_put_unaligned_be32, no_os_put_unaligned_le32;
    run_cells; simpl; byte_shifts val; try done.
Qed.

Lemma join2 b0 b1 :
  uint 8 b0 -> uint 8 b1 -> Z.lor b0 (Z.shiftl b1 8) = b0 + 256 * (b1 + 256 * 0).
Proof. intros H0 H1. rewrite lor_shiftl_add by done. ulia. Qed.

Lemma join3 b0 b1 b2 :
  uint 8 b0 -> uint 8 b1 -> uint 8 b2 ->
  Z.lor (Z.lor b0 (Z.shiftl b1 8)) (u32 (Z.shiftl b2 16))
  = b0 + 256 * (b1 + 256 * (b2 + 256 * 0)).
Proof.
  intros H0 H1 H2. rewrite join2, wrap_small by (done || rewrite ?Z.shiftl_mul_pow2; ulia).
  rewrite lor_shiftl_add; ulia.
Qed.

Lemma join4 b0 b1 b2 b3 :
  uint 8 b0 -> uint 8 b1 -> uint 8 b2 -> uint 8 b3 ->
  Z.lor (Z.lor (Z.lor b0 (Z.shiftl b1 8)) (u32 (Z.shiftl b2 16))) (u32 (Z.shiftl b3 24))
  = b0 + 256 * (b1 + 256 * (b2 + 256 * (b3 + 256 * 0))).
Proof.
  intros H0 H1 H2 H3. rewrite join3, wrap_small by (done || rewrite ?Z.shiftl_mul_pow2; ulia).
  rewrite lor_shiftl_add; ulia.
Qed.

Lemma codec_get c bs rest :
  c ∈ codecs -> length bs = co_bytes c -> Forall (uint 8) bs ->
  co_get c (ordered (co_msb_first c) bs ++ rest)
  = Done (undigits bs, ordered (co_msb_first c) bs ++ rest).
Proof.
  unfold codecs. rewrite !elem_of_cons, elem_of_nil.
  intros H Hl Hb. destruct_or! H; subst c; cbn [co_get co_bytes co_msb_first] in *;
    destruct bs as [| b0 [| b1 bs]]; try done;
    try (destruct bs as [| b2 bs]; try done);
    try (destruct bs as [| b3 bs]; try done);
    try (destruct bs as [| b4 bs]; try done);
    rewrite ?Forall_cons in Hb; destruct_and? Hb; cbn [ordered reverse rev_append app undigits];
    unfold no_os_get_unaligned_be16, no_os_get_unaligned_le16, no_os_get_unaligned_be24,
      no_os_get_unaligned_le24, no_os_get_unaligned_be32, no_os_get_unaligned_le32.
  all: run_cells; unfold mret, cmd_ret; do 2 f_equal;
    first [ by apply join4 | by apply join3 | rewrite join2 by done; apply wrap_small; ulia ].
Qed.

(** *** Swapping *)

Lemma memcpy_from_done n p (l : list Z) :
  0 <= p -> p + Z.of_nat n <= Z.of_nat (length l) ->
  memcpy_from n p l = Done (take n (drop (Z.to_nat p) l), l).
Proof.
  revert p. induction n as [| n IH]; intros p Hp Hl; [done |].
  cbn [memcpy_from].
  destruct (lookup_lt_is_Some_2 l (Z.to_nat p)) as [b Hb]; [lia |].
  erewrite bind_done by (by apply aload_done).
  erewrite bind_done by (apply IH; lia).
  rewrite (drop_S _ _ _ Hb). simpl. unfold mret, cmd_ret.
  by replace (Z.to_nat (p + 1)) with (S (Z.to_nat p)) by lia.
Qed.

Lemma memswap_chunk_done j temp p (l : list Z) :
  0 <= p -> (j <= length temp)%nat -> p + Z.of_nat j <= Z.of_nat (length l) ->
  memswap_chunk j temp p l
  = Done (tt, take (Z.to_nat p) l ++ reverse (take j temp) ++ drop (Z.to_nat p + j) l).
Proof.
  revert p l. induction j as [| j IH]; intros p l Hp Hj Hl.
  { simpl. by rewrite Nat.add_0_r, take_drop. }
  cbn [memswap_chunk].
  destruct (lookup_lt_is_Some_2 temp j) as [t Ht]; [lia |].
  rewrite Ht. cbn [the]. erewrite bind_done by done.
  erewrite bind_done by (apply astore_done; lia).
  rewrite IH by (rewrite ?length_insert; lia).
  rewrite (take_S_r _ _ _ Ht), reverse_app. simpl.
  replace (Z.to_nat (p + 1)) with (S (Z.to_nat p)) by lia.
  assert (Z.to_nat p < length l)%nat as Hlt by lia.
  erewrite take_S_r by (by apply list_lookup_insert_eq).
  rewrite take_insert_ge, drop_insert_lt, <- app_assoc by lia.
  by rewrite Nat.add_succ_comm.
Qed.

Lemma length_swap_chunks n k l :
  length (swap_chunks n k l) = length l.
Proof.
  revert l. induction n as [| n IH]; intros l; simpl; [done |].
  rewrite length_app, length_reverse, IH, <- length_app. by rewrite take_drop.
Qed.

(** The loop from byte [i] on rewrites the rest of the buffer. *)
Lemma memswap_loop_done n fuel bytes step i (l : list Z) :
  0 < step -> 0 <= i -> bytes = i + Z.of_nat n * step -> bytes <= Z.of_nat (length l) ->
  (n <= fuel)%nat ->
  memswap_loop fuel bytes step i l
  = Done (tt, take (Z.to_nat i) l ++ swap_chunks n (Z.to_nat step) (drop (Z.to_nat i) l)).
Proof.
  revert fuel i l. induction n as [| n IH]; intros fuel i l Hs Hi Hb Hl Hf.
  { simpl. rewrite take_drop. destruct fuel; simpl;
      by destruct (Z.ltb_spec i bytes); [lia |]. }
  destruct fuel as [| fuel]; [lia |]. cbn [memswap_loop].
  destruct (Z.ltb_spec i bytes); [| lia].
  assert (i + step <= Z.of_nat (length l)) as Hil by nia.
  erewrite bind_done by (apply memcpy_from_done; lia).
  erewrite bind_done.
  2: { apply memswap_chunk_done; [lia | | lia]. rewrite length_take, length_drop. lia. }
  set (c := take (Z.to_nat step) (drop (Z.to_nat i) l)).
  assert (length c = Z.to_nat step) as Hc.
  { subst c. rewrite length_take, length_drop. lia. }
  rewrite (take_ge c) by lia.
  rewrite IH; [| lia | lia | lia | | lia].
  - do 2 f_equal. cbn [swap_chunks]. fold c. rewrite drop_drop.
    replace (Z.to_nat (i + step)) with (Z.to_nat i + Z.to_nat step)%nat by lia.
    rewrite app_assoc, take_app_length', drop_app_length'; [by rewrite app_assoc | |];
      rewrite length_app, length_take, length_reverse; lia.
  - rewrite !length_app, length_take, length_reverse, length_drop. lia.
Qed.

(** *** Least common multiple, closest element *)

Lemma lcm_spec a b :
  uint 32 a -> uint 32 b -> no_os_lowest_common_multiple a b = Done (u32 (Z.lcm a b)).
Proof.
  intros Ha Hb. unfold no_os_lowest_common_multiple.
  destruct (truthy a) eqn:Ta, (truthy b) eqn:Tb; cbn [andb];
    rewrite ?truthy_true, ?truthy_false in *; subst; rewrite ?Z.lcm_0_l, ?Z.lcm_0_r; try done.
  rewrite gcd_spec by done. cbn [mbind outcome_bind].
  pose proof (gcd_nonzero a b (or_introl Ta)).
  rewrite udiv_done by done. cbn [mbind outcome_bind]. do 2 f_equal.
  unfold Z.lcm. pose proof (Z.gcd_nonneg a b).
  rewrite Z.lcm_equiv2, Z.lcm_equiv1 by done.
  rewrite Z.abs_eq; [done |]. apply Z.div_pos; [apply Z.mul_nonneg_nonneg |]; ulia.
Qed.

(** The distance [abs(x - val)] does not overflow. *)
Definition close_ok (val x : Z) : Prop := sint 32 (x - val) /\ - 2 ^ 31 < x - val.

Lemma abs_diff_done x val : close_ok val x -> abs_diff x val = Done (Z.abs (x - val)).
Proof.
  intros [Hs Hl]. unfold abs_diff. rewrite ssigned_done by done. simpl.
  apply ssigned_done. ulia.
Qed.

(** Going on from index [i] with the best index [ret] of the elements seen. *)
Lemma find_closest_loop_spec n val array i ret xr :
  Forall (close_ok val) array -> 0 <= i -> i + Z.of_nat n <= Z.of_nat (length array) ->
  array !! Z.to_nat ret = Some xr -> 0 <= ret < i ->
  (forall j x, 0 <= j < i -> array !! Z.to_nat j = Some x ->
     Z.abs (xr - val) <= Z.abs (x - val) /\ (j < ret -> Z.abs (xr - val) < Z.abs (x - val))) ->
  exists r xr', find_closest_loop n val array i (Z.abs (xr - val)) ret = Done r /\
    0 <= r < i + Z.of_nat n /\ array !! Z.to_nat r = Some xr' /\
    forall j x, 0 <= j < i + Z.of_nat n -> array !! Z.to_nat j = Some x ->
      Z.abs (xr' - val) <= Z.abs (x - val) /\ (j < r -> Z.abs (xr' - val) < Z.abs (x - val)).
Proof.
  revert i ret xr. induction n as [| n IH]; intros i ret xr Ha Hi Hn Hr Hri Hmin.
  { exists ret, xr. rewrite Z.add_0_r. auto with lia. }
  cbn [find_closest_loop].
  destruct (lookup_lt_is_Some_2 array (Z.to_nat i)) as [x Hx]; [lia |]. rewrite Hx.
  rewrite abs_diff_done by (by eapply Forall_lookup_1). cbn [mbind outcome_bind].
  replace (i + Z.of_nat (S n)) with (i + 1 + Z.of_nat n) by lia.
  destruct (Z.ltb_spec (Z.abs (x - val)) (Z.abs (xr - val))).
  - apply (IH (i + 1) i x); try done; try lia.
    intros j y Hj Hy. destruct (decide (j = i)) as [-> | Hji]; [split; [simplify_eq; lia | lia] |].
    destruct (Hmin j y); [lia | done |]. lia.
  - apply (IH (i + 1) ret xr); try done; try lia.
    intros j y Hj Hy. destruct (decide (j = i)) as [-> | Hji]; [split; [simplify_eq; lia | lia] |].
    apply Hmin; [lia | done].
Qed.

(** ** Properties *)

(** on a 32-bit word [no_os_find_first_set_bit] returns the index of the
    lowest set bit and [no_os_find_last_set_bit] (and [no_os_log_base_2]) that
    of the highest, which is the integer logarithm; both return 32 on zero. *)
Theorem bit_scan_correct word :
  uint 32 word ->
  if decide (word = 0)
  then no_os_find_first_set_bit word = Done 32 /\ no_os_find_last_set_bit word = Done 32
  else no_os_log_base_2 word = Done (Z.log2 word) /\
    no_os_find_last_set_bit word = Done (Z.log2 word) /\
    exists k, no_os_find_first_set_bit word = Done k /\ 0 <= k < 32 /\
      Z.testbit word k = true /\ forall j, 0 <= j < k -> Z.testbit word j = false.
Proof.
  intros Hw. pose proof (find_last_set_bit_spec word Hw) as Hl. case_decide as Hn.
  - by subst.
  - rewrite (proj2 (truthy_true word) Hn) in Hl. splits; [| done |].
    + unfold no_os_log_base_2. rewrite Hl. simpl. f_equal. apply swrap_small; [done |].
      destruct (decide (Z.log2 word < 32)); [pose proof (Z.log2_nonneg word); ulia |].
      assert (2 ^ 32 <= word); [| ulia].
      etransitivity; [| apply Z.log2_spec; ulia]. apply Z.pow_le_mono_r; lia.
    + by apply find_first_set_bit_spec.
Qed.

Lemma bit_scan_correct_witness :
  if decide (40 = 0)
  then no_os_find_first_set_bit 40 = Done 32 /\ no_os_find_last_set_bit 40 = Done 32
  else no_os_log_base_2 40 = Done (Z.log2 40) /\
    no_os_find_last_set_bit 40 = Done (Z.log2 40) /\
    exists k, no_os_find_first_set_bit 40 = Done k /\ 0 <= k < 32 /\
      Z.testbit 40 k = true /\ forall j, 0 <= j < k -> Z.testbit 40 j = false.
Proof. apply (bit_scan_correct 40). vm_compute. split; discriminate || reflexivity. Defined.

(** For every nonzero mask, [no_os_field_prep] puts a value under the
    mask only, [no_os_field_get] reads it back (cut to the mask), and getting
    a field of a word then preparing it gives the word under the mask; with a
    zero mask both shift by 32, which is undefined. *)
Theorem field_roundtrip mask val word :
  uint 32 mask -> uint 32 val -> uint 32 word ->
  if decide (mask = 0)
  then no_os_field_prep mask val = Undef /\ no_os_field_get mask word = Undef
  else exists k f g, no_os_find_first_set_bit mask = Done k /\
    no_os_field_prep mask val = Done f /\ Z.land f (Z.lnot mask) = 0 /\
    no_os_field_get mask f = Done (Z.land val (Z.shiftr mask k)) /\
    no_os_field_get mask word = Done g /\
    no_os_field_prep mask g = Done (Z.land word mask).
Proof.
  intros Hm Hv Hw. case_decide as Hn; [by subst |].
  destruct (find_first_set_bit_spec mask Hm Hn) as (k & E & Hk & Ht & Hlow).
  exists k. eexists. eexists. split; [done |].
  rewrite (field_prep_done _ _ k) by done. split; [done |]. rewrite !(field_get_done _ _ k) by done.
  rewrite (field_prep_done _ _ k) by done.
  splits; [| f_equal | done | f_equal]; zbits i.
  - rewrite Z.bits_0, Z.lnot_spec by done.
    by destruct (Z.testbit mask i); rewrite ?andb_false_r.
  - replace (i + k - k) with i by lia. destruct (Z.ltb_spec (i + k) 32); simpl.
    + rewrite <- andb_assoc. f_equal. by destruct (Z.testbit mask (i + k)).
    + by rewrite (uint_high 32 mask (i + k)), andb_false_r by (done || lia).
  - destruct (Z_lt_le_dec i k) as [Hi | Hi].
    + rewrite Hlow by lia. by rewrite !andb_false_r.
    + rewrite Z.shiftr_spec by lia. replace (i - k + k) with i by lia.
      rewrite Z.land_spec. destruct (Z.ltb_spec i 32); simpl.
      * by destruct (Z.testbit mask i); rewrite ?andb_false_r, ?andb_true_r.
      * by rewrite (uint_high 32 mask i), andb_false_r by (done || lia).
Qed.

Lemma field_roundtrip_witness :
  if decide (0x0FF0 = 0)
  then no_os_field_prep 0x0FF0 0x5A = Undef /\ no_os_field_get 0x0FF0 0xABCD = Undef
  else exists k f g, no_os_find_first_set_bit 0x0FF0 = Done k /\
    no_os_field_prep 0x0FF0 0x5A = Done f /\ Z.land f (Z.lnot 0x0FF0) = 0 /\
    no_os_field_get 0x0FF0 f = Done (Z.land 0x5A (Z.shiftr 0x0FF0 k)) /\
    no_os_field_get 0x0FF0 0xABCD = Done g /\
    no_os_field_prep 0x0FF0 g = Done (Z.land 0xABCD 0x0FF0).
Proof.
  apply (field_roundtrip 0x0FF0 0x5A 0xABCD); vm_compute; split; discriminate || reflexivity.
Defined.

(** C35: on 32-bit operands the Euclidean loop terminates with the greatest
    common divisor, and [no_os_lowest_common_multiple] is the least common
    multiple modulo 2^32, exact when it fits. *)
Theorem gcd_lcm_correct a b :
  uint 32 a -> uint 32 b ->
  no_os_greatest_common_divisor a b = Done (Z.gcd a b) /\
  no_os_lowest_common_multiple a b = Done (u32 (Z.lcm a b)) /\
  (Z.lcm a b < 2 ^ 32 -> no_os_lowest_common_multiple a b = Done (Z.lcm a b)).
Proof.
  intros Ha Hb. splits; [by apply gcd_spec | by apply lcm_spec |].
  intros Hl. rewrite lcm_spec by done. f_equal. apply wrap_small.
  split; [apply Z.lcm_nonneg | done].
Qed.

Lemma gcd_lcm_correct_witness :
  no_os_greatest_common_divisor 12 18 = Done (Z.gcd 12 18) /\
  no_os_lowest_common_multiple 12 18 = Done (u32 (Z.lcm 12 18)) /\
  (Z.lcm 12 18 < 2 ^ 32 -> no_os_lowest_common_multiple 12 18 = Done (Z.lcm 12 18)).
Proof. apply (gcd_lcm_correct 12 18); vm_compute; split; discriminate || reflexivity. Defined.

(** [no_os_rational_best_approximation] reduces the fraction when both
    reduced terms are within the limits and gives 0/0 otherwise (no smaller
    approximation is tried); on 0/0 it divides by zero. *)
Theorem rational_best_approximation_spec n d max_n max_d :
  uint 32 n -> uint 32 d ->
  no_os_rational_best_approximation n d max_n max_d =
  if decide (n = 0 /\ d = 0) then Undef else
  if decide (n / Z.gcd n d <= max_n /\ d / Z.gcd n d <= max_d)
  then Done (n / Z.gcd n d, d / Z.gcd n d) else Done (0, 0).
Proof.
  intros Hn Hd. unfold no_os_rational_best_approximation.
  rewrite gcd_spec by done. cbn [mbind outcome_bind].
  case_decide as H0; [destruct H0; by subst |].
  assert (Z.gcd n d <> 0) by (apply gcd_nonzero; lia).
  rewrite !udiv_done by done. cbn [mbind outcome_bind].
  case_decide; destruct (Z.ltb_spec max_n (n / Z.gcd n d)),
    (Z.ltb_spec max_d (d / Z.gcd n d)); done || lia.
Qed.

Lemma rational_best_approximation_spec_witness :
  no_os_rational_best_approximation 6 8 10 10 =
  if decide (6 = 0 /\ 8 = 0) then Undef else
  if decide (6 / Z.gcd 6 8 <= 10 /\ 8 / Z.gcd 6 8 <= 10)
  then Done (6 / Z.gcd 6 8, 8 / Z.gcd 6 8) else Done (0, 0).
Proof.
  apply (rational_best_approximation_spec 6 8 10 10);
    vm_compute; split; discriminate || reflexivity.
Defined.

(** [no_os_hweight32] counts the set bits of a word. *)
Theorem hweight32_correct word :
  uint 32 word ->
  no_os_hweight32 word
  = Done (foldr Z.add 0 ((fun j => Z.b2z (Z.testbit word j)) <$> seqZ 0 32)).
Proof. apply hweight32_spec. Qed.

Lemma hweight32_correct_witness :
  no_os_hweight32 0xF00F1
  = Done (foldr Z.add 0 ((fun j => Z.b2z (Z.testbit 0xF00F1 j)) <$> seqZ 0 32)).
Proof. apply (hweight32_correct 0xF00F1). vm_compute. split; discriminate || reflexivity. Defined.

(** Every [no_os_put_unaligned_*] writes the base-256 digits of the value
    in its byte order into the first bytes of the buffer and leaves the rest
    alone, the matching [no_os_get_unaligned_*] reads the number back, and
    reading then writing restores any bytes. *)
Theorem unaligned_roundtrip c val bs buf :
  c ∈ codecs -> uint (8 * Z.of_nat (co_bytes c)) val ->
  (co_bytes c <= length buf)%nat -> length bs = co_bytes c -> Forall (uint 8) bs ->
  let written := ordered (co_msb_first c) (digits (co_bytes c) val) ++ drop (co_bytes c) buf in
  co_put c val buf = Done (tt, written) /\
  co_get c written = Done (val, written) /\
  exists v, co_get c (bs ++ buf) = Done (v, bs ++ buf) /\
    co_put c v (bs ++ buf) = Done (tt, bs ++ buf).
Proof.
  intros Hc Hv Hl Hbs Hb written. splits; [by apply codec_put | |].
  - unfold written. rewrite codec_get; [by rewrite undigits_digits | done | apply length_digits | apply digits_uint].
  - exists (undigits (ordered (co_msb_first c) bs)).
    pose proof (codec_get c (ordered (co_msb_first c) bs) buf Hc) as G.
    rewrite ordered_ordered, ordered_length in G.
    rewrite G by (done || by apply ordered_uint). split; [done |].
    rewrite codec_put by (done || rewrite length_app; lia).
    do 2 f_equal. rewrite <- Hbs, drop_app_length. f_equal.
    rewrite <- (ordered_length (co_msb_first c) bs), digits_undigits by by apply ordered_uint.
    apply ordered_ordered.
Qed.

Lemma unaligned_roundtrip_witness :
  let c := Codec 4 true no_os_put_unaligned_be32 no_os_get_unaligned_be32 in
  let buf := [9; 9; 9; 9; 7] in
  let written := ordered (co_msb_first c) (digits (co_bytes c) 0x12345678)
                 ++ drop (co_bytes c) buf in
  co_put c 0x12345678 buf = Done (tt, written) /\
  co_get c written = Done (0x12345678, written) /\
  exists v, co_get c ([1; 2; 3; 4] ++ buf) = Done (v, [1; 2; 3; 4] ++ buf) /\
    co_put c v ([1; 2; 3; 4] ++ buf) = Done (tt, [1; 2; 3; 4] ++ buf).
Proof.
  intros c buf. apply (unaligned_roundtrip c 0x12345678 [1; 2; 3; 4] buf).
  - unfold codecs. set_solver.
  - vm_compute. split; discriminate || reflexivity.
  - vm_compute. lia.
  - reflexivity.
  - repeat constructor; vm_compute; discriminate.
Defined.

(** sign extension from bit [index]: the result is the low [index + 1]
    bits read as a two's-complement number, for 16 and for 32 bits. *)
Theorem sign_extend_correct value index :
  (uint 16 value -> 0 <= index <= 15 ->
     no_os_sign_extend16 value index = Done (swrap (index + 1) value)) /\
  (uint 32 value -> 0 <= index <= 31 ->
     no_os_sign_extend32 value index = Done (swrap (index + 1) value)).
Proof.
  split; intros Hv Hi.
  - unfold no_os_sign_extend16. rewrite wrap_small by ulia.
    destruct (Z.ltb_spec (15 - index) 32); [| lia].
    rewrite ssigned_done; cbn [mbind outcome_bind].
    + replace 16 with (index + 1 + (15 - index)) by lia.
      rewrite swrap_shift by lia. f_equal. apply swrap_small; [lia |].
      apply (sint_mono (index + 1)); [lia |]. apply swrap_sint. lia.
    + rewrite Z.shiftl_mul_pow2 by lia.
      assert (2 ^ (15 - index) <= 2 ^ 15) by (apply Z.pow_le_mono_r; lia).
      assert (0 < 2 ^ (15 - index)) by lia. change (2 ^ 15) with 32768 in *.
      assert (value * 2 ^ (15 - index) <= 65535 * 32768) by (apply Z.mul_le_mono_nonneg; ulia).
      assert (0 <= value * 2 ^ (15 - index)) by (apply Z.mul_nonneg_nonneg; ulia).
      ulia.
  - unfold no_os_sign_extend32. rewrite wrap_small by ulia.
    rewrite shl_done by lia. cbn [mbind outcome_bind]. rewrite shr_done by lia.
    rewrite swrap_wrap by done. f_equal.
    replace 32 with (index + 1 + (31 - index)) by lia. by rewrite swrap_shift by lia.
Qed.

Lemma sign_extend_correct_witness :
  no_os_sign_extend16 0x2C 5 = Done (swrap (5 + 1) 0x2C) /\
  no_os_sign_extend32 0x80F 11 = Done (swrap (11 + 1) 0x80F).
Proof.
  split; [apply (sign_extend_correct 0x2C 5) | apply (sign_extend_correct 0x80F 11)];
    vm_compute; split; discriminate || reflexivity.
Defined.

(** The two-part multiplication computes [floor(a * mul / 2^shift)]
    modulo 2^64 for every shift up to 32. *)
Theorem mul_u64_u32_shr_correct a mul shift :
  uint 64 a -> uint 32 mul -> 0 <= shift <= 32 ->
  no_os_mul_u64_u32_shr a mul shift = Done (u64 (Z.shiftr (a * mul) shift)).
Proof.
  intros Ha Hm Hs. unfold no_os_mul_u64_u32_shr, no_os_mul_u32_u32.
  set (al := u32 a). set (ah := u32 (Z.shiftr a 32)).
  assert (a = ah * 2 ^ 32 + al) as Ea.
  { subst al ah. rewrite (wrap_small 32 (Z.shiftr a 32)) by (apply uint_shiftr; done || lia).
    rewrite Z.shiftr_div_pow2 by done. unfold wrap. pose proof (Z.div_mod a (2 ^ 32)). lia. }
  assert (uint 32 al) as Hal by (by apply wrap_uint).
  assert (uint 32 ah) as Hah by (by apply wrap_uint).
  assert (forall x, uint 32 x -> uint 64 (x * mul)) as Hmul.
  { intros x Hx. assert (x * mul <= (2 ^ 32 - 1) * (2 ^ 32 - 1)) by (apply Z.mul_le_mono_nonneg; ulia).
    assert (0 <= x * mul) by (apply Z.mul_nonneg_nonneg; ulia). ulia. }
  rewrite !(wrap_small 64 (_ * mul)) by by apply Hmul.
  rewrite shr_done by lia. cbn [mbind outcome_bind].
  assert (Z.shiftr (a * mul) shift = Z.shiftr (al * mul) shift + ah * mul * 2 ^ (32 - shift)) as E.
  { rewrite Ea, !Z.shiftr_div_pow2, (pow2_split shift 32) by lia.
    rewrite <- Z.div_add by lia. f_equal. ring. }
  destruct (truthy ah) eqn:Tah.
  - rewrite (wrap_small 32 (32 - shift)) by ulia. rewrite shl_done by lia.
    cbn [mbind outcome_bind]. rewrite E, Z.shiftl_mul_pow2 by lia. f_equal.
    unfold wrap. by rewrite Zplus_mod_idemp_r.
  - apply truthy_false in Tah. rewrite E, Tah, Z.add_0_r. f_equal. symmetry.
    apply wrap_small. specialize (Hmul al Hal). unfold uint in *.
    rewrite Z.shiftr_div_pow2 by lia. split; [apply Z.div_pos; lia |].
    eapply Z.le_lt_trans; [| apply Hmul].
    apply Z.div_le_upper_bound; [lia |]. nia.
Qed.

Lemma mul_u64_u32_shr_correct_witness :
  no_os_mul_u64_u32_shr 0x123456789ABC 1000 20 = Done (u64 (Z.shiftr (0x123456789ABC * 1000) 20)).
Proof.
  apply (mul_u64_u32_shr_correct 0x123456789ABC 1000 20);
    vm_compute; split; discriminate || reflexivity.
Defined.

(** With a step of 2 to 8 that divides the length, [no_os_memswap64]
    reverses every piece of [step] bytes of the buffer and returns without a
    stray access; with any other arguments it changes nothing. *)
Theorem memswap64_correct bytes step (buf : list Z) :
  uint 32 bytes -> uint 32 step -> bytes <= Z.of_nat (length buf) ->
  no_os_memswap64 bytes step buf =
  Done (tt, if decide (2 <= step <= 8 /\ step <= bytes /\ bytes mod step = 0)
            then swap_chunks (Z.to_nat (bytes / step)) (Z.to_nat step) buf else buf).
Proof.
  intros Hb Hs Hl. unfold no_os_memswap64.
  destruct (Z.ltb_spec step 2), (Z.ltb_spec 8 step), (Z.ltb_spec bytes step); cbn [orb];
    try (case_decide; [lia | done]).
  destruct (truthy (bytes mod step)) eqn:T.
  - apply truthy_true in T. case_decide; [lia | done].
  - apply truthy_false in T. case_decide as H2.
    + rewrite (memswap_loop_done (Z.to_nat (bytes / step))); try lia.
      * done.
      * pose proof (Z.div_mod bytes step). pose proof (Z.div_pos bytes step). lia.
      * apply Z2Nat.inj_le; [apply Z.div_pos; lia | lia |]. apply Z.div_le_upper_bound; nia.
    + lia.
Qed.

Lemma memswap64_correct_witness :
  no_os_memswap64 6 3 [1; 2; 3; 4; 5; 6; 7] =
  Done (tt, if decide (2 <= 3 <= 8 /\ 3 <= 6 /\ 6 mod 3 = 0)
            then swap_chunks (Z.to_nat (6 / 3)) (Z.to_nat 3) [1; 2; 3; 4; 5; 6; 7]
            else [1; 2; 3; 4; 5; 6; 7]).
Proof.
  apply (memswap64_correct 6 3 [1; 2; 3; 4; 5; 6; 7]);
    vm_compute; [split; discriminate || reflexivity.. | discriminate].
Defined.

(** [no_os_find_closest] returns the first index whose element is
    nearest to the value, when no distance overflows an [int]. *)
Theorem find_closest_correct val array :
  array <> [] -> Forall (close_ok val) array ->
  exists r x, no_os_find_closest val array (Z.of_nat (length array)) = Done r /\
    array !! Z.to_nat r = Some x /\ 0 <= r < Z.of_nat (length array) /\
    forall j y, 0 <= j < Z.of_nat (length array) -> array !! Z.to_nat j = Some y ->
      Z.abs (x - val) <= Z.abs (y - val) /\ (j < r -> Z.abs (x - val) < Z.abs (y - val)).
Proof.
  intros Hn Ha. destruct array as [| x0 array]; [done |].
  unfold no_os_find_closest. cbn [lookup list_lookup].
  rewrite abs_diff_done by by inversion Ha. cbn [mbind outcome_bind].
  destruct (find_closest_loop_spec (length array) val (x0 :: array) 1 0 x0)
    as (r & x & E & Hr & Hx & Hmin); try done.
  - simpl. lia.
  - intros j y Hj. replace j with 0 by lia. intros [= <-]. lia.
  - exists r, x. replace (Z.to_nat (Z.of_nat (length (x0 :: array)) - 1)) with (length array) by (simpl; lia).
    replace (Z.of_nat (length (x0 :: array))) with (1 + Z.of_nat (length array)) by (simpl; lia).
    done.
Qed.

Lemma find_closest_correct_witness :
  exists r x, no_os_find_closest 10 [3; 12; 8; 30] (Z.of_nat (length [3; 12; 8; 30])) = Done r /\
    [3; 12; 8; 30] !! Z.to_nat r = Some x /\ 0 <= r < Z.of_nat (length [3; 12; 8; 30]) /\
    forall j y, 0 <= j < Z.of_nat (length [3; 12; 8; 30]) -> [3; 12; 8; 30] !! Z.to_nat j = Some y ->
      Z.abs (x - 10) <= Z.abs (y - 10) /\ (j < r -> Z.abs (x - 10) < Z.abs (y - 10)).
Proof.
  apply (find_closest_correct 10 [3; 12; 8; 30]); [discriminate |].
  repeat constructor; vm_compute; discriminate || reflexivity.
Defined.
