(* ===== verification/Lf256Fifo.v ===== *)
(** * The 256-byte ring of [util/no_os_lf256fifo.c]

    Two 8-bit indices over a 256-byte array; the code relies on their
    wrap-around.  The descriptor and its array are blocks of a heap. *)
From S2P Require Import Prelude.

(** ** The code *)

Record lf256fifo : Type := LfFifo {
  lf_data : ptr;
  ffilled : Z;
  fempty : Z
}.

Record lf_mem : Type := LfMem {
  lf_fifos : heap lf256fifo;
  lf_bufs : heap (list Z)
}.

Definition on_fifos {A} : cmd (heap lf256fifo) A -> cmd lf_mem A :=
  zoom lf_fifos (fun h m => LfMem h (lf_bufs m)).

Definition on_bufs {A} : cmd (heap (list Z)) A -> cmd lf_mem A :=
  zoom lf_bufs (fun h m => LfMem (lf_fifos m) h).

(** The result is the return code and what [*fifo] was set to. *)
Definition lf256fifo_init (fifo_is_null : bool) : cmd lf_mem (Z * ptr) :=
  if fifo_is_null then mret (- EINVAL, None) else
  b ← on_fifos (halloc (LfFifo None 0 0));
  match b with
  | None => mret (- ENOMEM, None)
  | Some _ =>
      d ← on_bufs (halloc (replicate 256 0));
      _ ← on_fifos (hstore b (LfFifo d 0 0));
      match d with
      | None => _ ← on_fifos (hfree b); mret (- ENOMEM, None)
      | Some _ => mret (0, b)
      end
  end.

(** [fempty + 1] is computed in [int], so it can be 256. *)
Definition lf256fifo_is_full (fifo : ptr) : cmd lf_mem bool :=
  f ← on_fifos (hload fifo);
  mret (fempty f + 1 =? ffilled f).

Definition lf256fifo_is_empty (fifo : ptr) : cmd lf_mem bool :=
  f ← on_fifos (hload fifo);
  mret (fempty f =? ffilled f).

(** The second component is what [*c] was set to. *)
Definition lf256fifo_read (fifo : ptr) : cmd lf_mem (Z * option Z) :=
  e ← lf256fifo_is_empty fifo;
  if (e : bool) then mret (-1, None) else
  f ← on_fifos (hload fifo);
  buf ← on_bufs (hload (lf_data f));
  c ← the (buf !! Z.to_nat (ffilled f));
  _ ← on_fifos (hstore fifo (LfFifo (lf_data f) (u8 (ffilled f + 1)) (fempty f)));
  mret (0, Some c).

Definition lf256fifo_write (fifo : ptr) (c : Z) : cmd lf_mem Z :=
  full ← lf256fifo_is_full fifo;
  if (full : bool) then mret (-1) else
  f ← on_fifos (hload fifo);
  buf ← on_bufs (hload (lf_data f));
  _ ← the (buf !! Z.to_nat (fempty f));
  _ ← on_bufs (hstore (lf_data f) (<[Z.to_nat (fempty f) := c]> buf));
  _ ← on_fifos (hstore fifo (LfFifo (lf_data f) (ffilled f) (u8 (fempty f + 1))));
  mret 0.

Definition lf256fifo_flush (fifo : ptr) : cmd lf_mem unit :=
  f ← on_fifos (hload fifo);
  on_fifos (hstore fifo (LfFifo (lf_data f) (fempty f) (fempty f))).

(** The array is freed, the descriptor is not. *)
Definition lf256fifo_remove (fifo : ptr) : cmd lf_mem unit :=
  match fifo with
  | None => mret tt
  | Some _ =>
      f ← on_fifos (hload fifo);
      match lf_data f with
      | None => mret tt
      | Some _ => on_bufs (hfree (lf_data f))
      end
  end.

(** ** Specification *)

(** The bytes between the two indices, oldest first. *)
Definition lf_contents (f : lf256fifo) (buf : list Z) : list Z :=
  (fun k => buf !!! Z.to_nat ((ffilled f + k) mod 256))
    <$> seqZ 0 ((fempty f - ffilled f) mod 256).

(** In memory [m], [p] is a FIFO that reads from index [i] and holds [q]. *)
Definition lf_rep (m : lf_mem) (p : positive) (i : Z) (q : list Z) : Prop :=
  exists f b buf, cells (lf_fifos m) !! p = Some f /\ lf_data f = Some b /\
    cells (lf_bufs m) !! b = Some buf /\ length buf = 256%nat /\
    uint 8 (ffilled f) /\ uint 8 (fempty f) /\ i = ffilled f /\ q = lf_contents f buf.

(** ** Lemmas *)

Lemma lf_contents_length f buf :
  Z.of_nat (length (lf_contents f buf)) = (fempty f - ffilled f) mod 256.
Proof.
  unfold lf_contents. rewrite length_fmap, length_seqZ.
  pose proof (Z.mod_pos_bound (fempty f - ffilled f) 256). lia.
Qed.

Lemma lf_contents_read d i e buf :
  uint 8 i -> uint 8 e -> e <> i -> length buf = 256%nat ->
  exists c, buf !! Z.to_nat i = Some c /\
    lf_contents (LfFifo d i e) buf = c :: lf_contents (LfFifo d (u8 (i + 1)) e) buf.
Proof.
  intros Hi He Hne Hl. unfold lf_contents. cbn [ffilled fempty].
  destruct (lookup_lt_is_Some_2 buf (Z.to_nat i)) as [c Hc]; [ulia |].
  exists c. split; [done |]. unfold wrap. change (2 ^ 8) with 256.
  set (n := (e - i) mod 256).
  assert (n <> 0 /\ 0 <= n < 256) as [Hn0 Hn].
  { subst n. unfold uint in *. pose proof (Z.div_mod (e - i) 256).
    pose proof (Z.mod_pos_bound (e - i) 256). ulia. }
  rewrite Zminus_mod_idemp_r. replace (e - (i + 1)) with (e - i - 1) by lia.
  rewrite <- Zminus_mod_idemp_l. fold n. rewrite (Z.mod_small (n - 1)) by lia.
  rewrite seqZ_cons by lia. cbn [fmap list_fmap]. f_equal.
  - rewrite Z.add_0_r, Z.mod_small by ulia. by apply list_lookup_total_correct.
  - rewrite <- (fmap_add_seqZ 1 0), <- list_fmap_compose. apply list_fmap_ext.
    intros _ k _. unfold compose. by rewrite Zplus_mod_idemp_l, Z.add_assoc.
Qed.

Lemma lf_contents_write d i e buf c :
  uint 8 i -> uint 8 e -> (e - i) mod 256 < 255 -> length buf = 256%nat ->
  lf_contents (LfFifo d i (u8 (e + 1))) (<[Z.to_nat e := c]> buf)
  = lf_contents (LfFifo d i e) buf ++ [c].
Proof.
  intros Hi He Hn Hl. unfold lf_contents. cbn [ffilled fempty].
  unfold wrap. change (2 ^ 8) with 256.
  rewrite Zminus_mod_idemp_l. replace (e + 1 - i) with (e - i + 1) by lia.
  rewrite <- Zplus_mod_idemp_l. set (n := (e - i) mod 256) in *.
  assert (0 <= n) as Hn0 by (subst n; apply Z.mod_pos_bound; lia).
  rewrite (Z.mod_small (n + 1)) by lia. rewrite seqZ_app, fmap_app by lia.
  assert ((i + n) mod 256 = e) as Ee.
  { subst n. rewrite Zplus_mod_idemp_r. replace (i + (e - i)) with e by lia.
    apply Z.mod_small. ulia. }
  f_equal.
  - apply list_fmap_ext. intros _ k Hk%list_elem_of_lookup_2%elem_of_seqZ.
    apply list_lookup_total_insert_ne. intros E.
    apply Z2Nat.inj in E; [| ulia | apply Z.mod_pos_bound; lia].
    rewrite <- Ee in E. unfold uint in *.
    pose proof (Z.div_mod (i + n) 256). pose proof (Z.div_mod (i + k) 256). lia.
  - rewrite Z.add_0_l, (seqZ_cons n) by lia. cbn [fmap list_fmap]. f_equal.
    rewrite Ee. apply list_lookup_total_insert_eq. ulia.
Qed.

(** Full, for the code, is 255 bytes with a read index above zero. *)
Lemma lf_full_iff i e :
  uint 8 i -> uint 8 e -> (e + 1 =? i) = true <-> (e - i) mod 256 = 255 /\ i <> 0.
Proof.
  intros Hi He. rewrite Z.eqb_eq. unfold uint in *. change (2 ^ 8) with 256 in *.
  pose proof (Z.div_mod (e - i) 256). pose proof (Z.mod_pos_bound (e - i) 256). lia.
Qed.

(** Run a command of the ring on a memory whose blocks are known. *)
Ltac lf_run :=
  repeat (erewrite bind_done; [| first
    [ by apply zoom_done, hload_done; simplify_map_eq
    | by eapply zoom_done, hstore_done; simplify_map_eq
    | reflexivity ]]; cbn [lf_fifos lf_bufs cells lf_data ffilled fempty the]).

(** Replacing the descriptor or the array of a memory. *)
Definition lf_upd (m : lf_mem) (p b : positive) (f : lf256fifo) (buf : list Z) : lf_mem :=
  LfMem (Heap (<[p := f]> (cells (lf_fifos m))) (next_block (lf_fifos m)) (oom (lf_fifos m)))
        (Heap (<[b := buf]> (cells (lf_bufs m))) (next_block (lf_bufs m)) (oom (lf_bufs m))).

Section run.
  Context (m : lf_mem) (p b : positive) (buf : list Z) (i e : Z).
  Hypothesis Hf : cells (lf_fifos m) !! p = Some (LfFifo (Some b) i e).
  Hypothesis Hb : cells (lf_bufs m) !! b = Some buf.
  Hypothesis Hl : length buf = 256%nat.
  Hypothesis Hi : uint 8 i.
  Hypothesis He : uint 8 e.

Lemma lf_rep_here : lf_rep m p i (lf_contents (LfFifo (Some b) i e) buf).
Proof. exists (LfFifo (Some b) i e), b, buf. done. Qed.

Lemma lf_rep_upd i' e' buf' :
  length buf' = 256%nat -> uint 8 i' -> uint 8 e' ->
  lf_rep (lf_upd m p b (LfFifo (Some b) i' e') buf') p i'
    (lf_contents (LfFifo (Some b) i' e') buf').
Proof.
  intros. exists (LfFifo (Some b) i' e'), b, buf'. unfold lf_upd. simpl.
  splits; try done; by simplify_map_eq.
Qed.

Lemma lf_write_run c :
  lf256fifo_write (Some p) c m =
  if e + 1 =? i then Done (-1, m)
  else Done (0, lf_upd m p b (LfFifo (Some b) i (u8 (e + 1))) (<[Z.to_nat e := c]> buf)).
Proof using Hf Hb Hl He.
  unfold lf256fifo_write, lf256fifo_is_full. destruct m as [F B]. rewrite bind_assoc. lf_run.
  destruct (e + 1 =? i); [done |]. lf_run.
  destruct (lookup_lt_is_Some_2 buf (Z.to_nat e)) as [x Hx]; [ulia |].
  rewrite Hx. lf_run. done.
Qed.

Lemma lf_read_run :
  lf256fifo_read (Some p) m =
  if e =? i then Done ((-1, None), m)
  else match buf !! Z.to_nat i with
       | Some x => Done ((0, Some x), LfMem
           (Heap (<[p := LfFifo (Some b) (u8 (i + 1)) e]> (cells (lf_fifos m)))
                 (next_block (lf_fifos m)) (oom (lf_fifos m))) (lf_bufs m))
       | None => Undef
       end.
Proof using Hf Hb.
  unfold lf256fifo_read, lf256fifo_is_empty. destruct m as [F B]. rewrite bind_assoc. lf_run.
  destruct (e =? i); [done |]. lf_run. destruct (buf !! Z.to_nat i); [| done]. by lf_run.
Qed.

End run.

(** ** Properties *)

(** C31: while fewer than 255 bytes are held a write appends its byte; a
    write to a ring of 255 bytes is refused and changes nothing, unless the
    read index is 0; a read returns the oldest byte and fails only on an empty
    ring; a flush empties the ring. *)
Theorem lf256fifo_is_queue m p i q c :
  lf_rep m p i q ->
  (Z.of_nat (length q) < 255 -> exists m', lf256fifo_write (Some p) c m = Done (0, m') /\
     lf_rep m' p i (q ++ [c])) /\
  (length q = 255%nat -> i <> 0 -> lf256fifo_write (Some p) c m = Done (-1, m)) /\
  match q with
  | [] => lf256fifo_read (Some p) m = Done ((-1, None), m)
  | x :: q' => exists m', lf256fifo_read (Some p) m = Done ((0, Some x), m') /\
      lf_rep m' p (u8 (i + 1)) q'
  end /\
  exists m' i', lf256fifo_flush (Some p) m = Done (tt, m') /\ lf_rep m' p i' [].
Proof.
  intros (f & b & buf & Hf & Hd & Hb & Hl & Hi & He & -> & ->).
  destruct f as [d i e]. cbn [lf_data ffilled fempty] in *. subst d.
  pose proof (lf_contents_length (LfFifo (Some b) i e) buf) as Hlen.
  pose proof (lf_full_iff i e Hi He) as Hfull. cbn [ffilled fempty] in Hlen.
  splits.
  - intros Hn. rewrite (lf_write_run m p b buf i e) by done.
    assert ((e + 1 =? i) = false) as -> by (apply not_true_is_false; rewrite Hfull; lia).
    eexists. split; [done |]. rewrite <- lf_contents_write by (done || lia).
    apply lf_rep_upd; [by rewrite length_insert | done | by apply wrap_uint].
  - intros Hn Hi0. rewrite (lf_write_run m p b buf i e) by done.
    assert ((e + 1 =? i) = true) as -> by (rewrite Hfull; lia). done.
  - rewrite (lf_read_run m p b buf i e) by done. destruct (Z.eqb_spec e i) as [-> | Hne].
    + rewrite Z.sub_diag in Hlen. by destruct (lf_contents _ _).
    + destruct (lf_contents_read (Some b) i e buf) as (x & Hx & ->); [done.. |].
      rewrite Hx. eexists. split; [done |].
      exists (LfFifo (Some b) (u8 (i + 1)) e), b, buf. simpl.
      splits; try done; [by simplify_map_eq | by apply wrap_uint..].
  - eexists. exists e. unfold lf256fifo_flush. destruct m as [F B]. lf_run.
    unfold on_fifos. erewrite zoom_done; [| by eapply hstore_done; simplify_map_eq].
    split; [done |]. exists (LfFifo (Some b) e e), b, buf. simpl.
    splits; try done; [by simplify_map_eq |].
    unfold lf_contents. simpl. by rewrite Z.sub_diag.
Qed.

(** The wrap-around is missed when the read index is 0: the 256th byte
    written is accepted and the ring then reads as empty, all 256 bytes lost. *)
Theorem lf256fifo_overflow_at_zero m p q c :
  lf_rep m p 0 q -> length q = 255%nat ->
  exists m', lf256fifo_write (Some p) c m = Done (0, m') /\ lf_rep m' p 0 [].
Proof.
  intros (f & b & buf & Hf & Hd & Hb & Hl & Hi & He & Hi0 & ->) Hq.
  destruct f as [d i e]. cbn [lf_data ffilled fempty] in *. subst d. subst i.
  pose proof (lf_contents_length (LfFifo (Some b) 0 e) buf) as Hlen. simpl in Hlen.
  rewrite Hq, Z.sub_0_r, Z.mod_small in Hlen by ulia.
  rewrite (lf_write_run m p b buf 0 e) by done.
  destruct (Z.eqb_spec (e + 1) 0); [lia |]. eexists. split; [done |].
  replace e with 255 by lia.
  pose proof (lf_rep_upd m p b 0 0 (<[Z.to_nat 255 := c]> buf)) as H.
  apply H; [by rewrite length_insert | done..].
Qed.

(** A ring with a byte in it, and one that holds 255 bytes from index 0. *)
Definition lf_example (e : Z) : lf_mem :=
  LfMem (Heap {[1%positive := LfFifo (Some 1%positive) 0 e]} 2%positive [])
        (Heap {[1%positive := replicate 256 7]} 2%positive []).

Lemma lf_example_rep e :
  uint 8 e ->
  lf_rep (lf_example e) 1 0
    (lf_contents (LfFifo (Some 1%positive) 0 e) (replicate 256 7)).
Proof. intros He. exists (LfFifo (Some 1%positive) 0 e), 1%positive, (replicate 256 7). done. Qed.

Lemma lf256fifo_is_queue_witness :
  lf256fifo_read (Some 1%positive) (lf_example 1)
    = Done ((0, Some 7), LfMem
        (Heap {[1%positive := LfFifo (Some 1%positive) 1 1]} 2%positive [])
        (lf_bufs (lf_example 1))) /\
  exists m', lf256fifo_write (Some 1%positive) 9 (lf_example 1) = Done (0, m') /\
    lf_rep m' 1 0 [7; 9].
Proof.
  split; [vm_compute; reflexivity |].
  apply (lf256fifo_is_queue (lf_example 1) 1 0 [7] 9); [| simpl; lia].
  apply (lf_example_rep 1). vm_compute. split; [discriminate | reflexivity].
Defined.

Lemma lf256fifo_overflow_at_zero_witness :
  exists m', lf256fifo_write (Some 1%positive) 9 (lf_example 255) = Done (0, m') /\
    lf_rep m' 1 0 [].
Proof.
  apply (lf256fifo_overflow_at_zero (lf_example 255) 1
    (lf_contents (LfFifo (Some 1%positive) 0 255) (replicate 256 7))).
  - apply lf_example_rep. vm_compute. split; [discriminate | reflexivity].
  - vm_compute. reflexivity.
Defined.
