(* ===== verification/Fifo.v ===== *)
(** * The linked FIFO of [util/no_os_fifo.c]

    Elements and the byte arrays they own are blocks of two heaps, so a
    failing [no_os_calloc], a leak and a use after free are all visible.
    The specification is a queue of byte strings. *)
From S2P Require Import Prelude.

(** ** The code *)

Record no_os_fifo_element : Type := FifoElem {
  fifo_next : ptr;
  fifo_data : ptr;
  fifo_len : Z
}.

Record fifo_mem : Type := FifoMem {
  elems : heap no_os_fifo_element;
  bufs : heap (list Z)
}.

Definition on_elems {A} : cmd (heap no_os_fifo_element) A -> cmd fifo_mem A :=
  zoom elems (fun h m => FifoMem h (bufs m)).

Definition on_bufs {A} : cmd (heap (list Z)) A -> cmd fifo_mem A :=
  zoom bufs (fun h m => FifoMem (elems m) h).

(** [memcpy] reads [len] bytes of [buff]: undefined when it has fewer. *)
Definition fifo_new_element (buff : list Z) (len : Z) : cmd fifo_mem ptr :=
  q ← on_elems (halloc (FifoElem None None 0));
  match q with
  | None => mret None
  | Some _ =>
      _ ← on_elems (hstore q (FifoElem None None len));
      d ← on_bufs (halloc (replicate (Z.to_nat len) 0));
      _ ← on_elems (hstore q (FifoElem None d len));
      match d with
      | None => _ ← on_elems (hfree q); mret None
      | Some _ =>
          if Z.of_nat (length buff) <? len then undef else
          _ ← on_bufs (hstore d (take (Z.to_nat len) buff));
          mret q
      end
  end.

(** One turn of [while (p_fifo->next)]. *)
Definition get_last_step (p : ptr) : cmd fifo_mem (ptr + ptr) :=
  e ← on_elems (hload p);
  mret (match fifo_next e with None => inr p | Some n => inl (Some n) end).

Definition no_os_fifo_get_last (fuel : nat) (p_fifo : ptr) : cmd fifo_mem ptr :=
  match p_fifo with
  | None => mret None
  | Some _ => loop fuel get_last_step p_fifo
  end.

(** The result is the return code and the new value of [*p_fifo]. *)
Definition no_os_fifo_insert (fuel : nat) (p_fifo : ptr) (buff : list Z) (len : Z) :
  cmd fifo_mem (Z * ptr) :=
  if len <=? 0 then mret (-1, p_fifo) else
  q ← fifo_new_element buff len;
  match q with
  | None => mret (-1, p_fifo)
  | Some _ =>
      match p_fifo with
      | None => mret (0, q)
      | Some _ =>
          p ← no_os_fifo_get_last fuel p_fifo;
          e ← on_elems (hload p);
          _ ← on_elems (hstore p (FifoElem q (fifo_data e) (fifo_len e)));
          mret (0, p_fifo)
      end
  end.

Definition no_os_fifo_remove (p_fifo : ptr) : cmd fifo_mem ptr :=
  match p_fifo with
  | None => mret None
  | Some _ =>
      e ← on_elems (hload p_fifo);
      _ ← on_bufs (hfree (fifo_data e));
      _ ← on_elems (hfree p_fifo);
      mret (fifo_next e)
  end.

(** ** Specification *)

(** From [p] the memory holds a chain of elements at the addresses [ns]
    (element, array), whose bytes are [q]. *)
Fixpoint fifo_seg (m : fifo_mem) (p : ptr) (ns : list (positive * positive))
    (q : list (list Z)) : Prop :=
  match ns, q with
  | [], [] => p = None
  | (a, b) :: ns, d :: q =>
      p = Some a /\ cells (bufs m) !! b = Some d /\
      exists n, cells (elems m) !! a = Some (FifoElem n (Some b) (Z.of_nat (length d))) /\
        fifo_seg m n ns q
  | _, _ => False
  end.

(** The FIFO at [p] holds [q]; apart from its own blocks the heaps have the
    blocks [F] and [G] and no others, so a leak would show. *)
Definition fifo_rep (F G : gset positive) (m : fifo_mem) (p : ptr) (q : list (list Z)) : Prop :=
  exists ns, fifo_seg m p ns q /\ NoDup ns.*1 /\ NoDup ns.*2 /\
    heap_ok (elems m) /\ heap_ok (bufs m) /\
    dom (cells (elems m)) = list_to_set ns.*1 ∪ F /\ list_to_set ns.*1 ## F /\
    dom (cells (bufs m)) = list_to_set ns.*2 ∪ G /\ list_to_set ns.*2 ## G.

(** ** Lemmas *)

Lemma fifo_seg_frame m m' p ns q :
  (forall a, a ∈ ns.*1 -> cells (elems m') !! a = cells (elems m) !! a) ->
  (forall b, b ∈ ns.*2 -> cells (bufs m') !! b = cells (bufs m) !! b) ->
  fifo_seg m p ns q -> fifo_seg m' p ns q.
Proof.
  revert p q. induction ns as [| [a b] ns IH]; intros p [| d q] Ha Hb; simpl; try done.
  intros (-> & Hd & n & Hn & Hs). split; [done |]. split; [rewrite Hb; set_solver |].
  exists n. split; [rewrite Ha; set_solver |].
  apply IH; [intros; apply Ha | intros; apply Hb | done]; set_solver.
Qed.

Lemma fifo_seg_dom m p ns q :
  fifo_seg m p ns q ->
  (forall a, a ∈ ns.*1 -> is_Some (cells (elems m) !! a)) /\
  (forall b, b ∈ ns.*2 -> is_Some (cells (bufs m) !! b)).
Proof.
  revert p q. induction ns as [| [a b] ns IH]; intros p [| d q]; simpl; try done.
  - intros _. split; set_solver.
  - intros (-> & Hd & n & Hn & Hs). specialize (IH _ _ Hs) as [? ?].
    split; intros x [-> | Hx]%elem_of_cons; eauto.
Qed.

(** Walking a non-empty chain ends on its last element, the memory unchanged. *)
Lemma fifo_get_last_run fuel m a b ns q p :
  fifo_seg m p ((a, b) :: ns) q -> (length ns < fuel)%nat ->
  no_os_fifo_get_last fuel p m = Done (Some (List.last (a :: ns.*1) 1%positive), m).
Proof.
  intros Hs Hf. unfold no_os_fifo_get_last.
  assert (p = Some a) as -> by (destruct q; naive_solver).
  revert a b q ns Hs Hf. induction fuel as [| fuel IH]; intros a b q ns Hs Hf; [lia |].
  destruct q as [| d q]; [done |]. destruct Hs as (_ & _ & n & Hn & Hs).
  cbn [loop].
  rewrite (bind_done _ _ m (match n with None => inr (Some a) | Some n => inl (Some n) end) m).
  2: { unfold get_last_step. erewrite bind_done by by apply zoom_done, hload_done.
       by destruct m, n. }
  destruct ns as [| [a' b'] ns], q as [| d' q]; try done.
  - by rewrite Hs.
  - destruct Hs as (-> & Hs).
    by rewrite (IH a' b' (d' :: q) ns) by (simpl in *; done || lia).
Qed.

Lemma last_elem_of (l : list positive) d : l <> [] -> List.last l d ∈ l.
Proof.
  intros Hl. rewrite (app_removelast_last d Hl) at 2. set_solver.
Qed.

(** Linking a new last element. *)
Lemma fifo_seg_link m m' p ns q a b n d :
  fifo_seg m p ns q -> ns <> [] -> NoDup ns.*1 ->
  (forall x, x ∈ ns.*1 -> x <> List.last ns.*1 1%positive ->
     cells (elems m') !! x = cells (elems m) !! x) ->
  (forall e, cells (elems m) !! List.last ns.*1 1%positive = Some e ->
     cells (elems m') !! List.last ns.*1 1%positive
     = Some (FifoElem n (fifo_data e) (fifo_len e))) ->
  (forall x, x ∈ ns.*2 -> cells (bufs m') !! x = cells (bufs m) !! x) ->
  fifo_seg m' n [(a, b)] [d] ->
  fifo_seg m' p (ns ++ [(a, b)]) (q ++ [d]).
Proof.
  revert p q. induction ns as [| [a1 b1] ns IH]; intros p [| d1 q]; try done.
  intros (-> & Hd & n1 & Hn & Hs) _ Hnd He Hl Hb Hnew.
  cbn [fmap list_fmap fst snd app] in *. apply NoDup_cons in Hnd as [Ha1 Hnd].
  split; [done |]. split; [rewrite Hb; set_solver |].
  destruct ns as [| [a2 b2] ns].
  - destruct q; [| done]. exists n. simpl in *. rewrite (Hl _ Hn). done.
  - exists n1. split.
    + rewrite He; [done | set_solver |]. intros E. apply Ha1. rewrite E.
      change (List.last (a1 :: ((a2, b2) :: ns).*1) 1%positive)
        with (List.last ((a2, b2) :: ns).*1 1%positive).
      by apply last_elem_of.
    + apply IH; try done; intros x Hx; [| apply Hb; set_solver].
      apply He. set_solver.
Qed.

(** The two allocations of an insertion: the element, then its bytes. *)
Definition insert_fails (m : fifo_mem) : bool := alloc_fails (elems m) || alloc_fails (bufs m).

(** A new element is unlinked and holds a copy of the bytes; when an
    allocation fails nothing stays allocated. *)
Lemma fifo_new_element_run m buff len :
  heap_ok (elems m) -> heap_ok (bufs m) -> 0 < len <= Z.of_nat (length buff) ->
  exists r m', fifo_new_element buff len m = Done (r, m') /\
    heap_ok (elems m') /\ heap_ok (bufs m') /\
    if insert_fails m
    then r = None /\ cells (elems m') = cells (elems m) /\ cells (bufs m') = cells (bufs m)
    else exists a b, r = Some a /\ cells (elems m) !! a = None /\ cells (bufs m) !! b = None /\
      cells (elems m') = <[a := FifoElem None (Some b) len]> (cells (elems m)) /\
      cells (bufs m') = <[b := take (Z.to_nat len) buff]> (cells (bufs m)).
Proof.
  destruct m as [E B]. cbn [elems bufs]. intros HE HB Hlen.
  unfold fifo_new_element, insert_fails. cbn [elems bufs].
  pose proof (heap_ok_fresh E HE) as HfE. pose proof (heap_ok_fresh B HB) as HfB.
  destruct (alloc_fails E) eqn:EE; cbn [orb].
  { erewrite bind_done by by apply zoom_done, halloc_fail.
    eexists _, _. split; [done |]. done. }
  erewrite bind_done by by apply zoom_done, halloc_done. cbn [elems bufs].
  erewrite bind_done by by eapply zoom_done, hstore_done; simplify_map_eq.
  cbn [elems bufs cells next_block oom]. rewrite insert_insert_eq.
  destruct (alloc_fails B) eqn:EB.
  - erewrite bind_done by by apply zoom_done, halloc_fail. cbn [elems bufs].
    erewrite bind_done by by eapply zoom_done, hstore_done; simplify_map_eq.
    cbn [elems bufs cells next_block oom]. rewrite insert_insert_eq.
    erewrite bind_done by by eapply zoom_done, hfree_done; simplify_map_eq.
    eexists _, _. split; [done |]. cbn [elems bufs cells next_block oom].
    rewrite delete_insert_id by done. splits; try done.
    intros x Hx. specialize (HE x Hx). simpl. lia.
  - erewrite bind_done by by apply zoom_done, halloc_done. cbn [elems bufs].
    erewrite bind_done by by eapply zoom_done, hstore_done; simplify_map_eq.
    cbn [elems bufs cells next_block oom]. rewrite insert_insert_eq.
    destruct (Z.ltb_spec (Z.of_nat (length buff)) len); [lia |].
    erewrite bind_done by by eapply zoom_done, hstore_done; simplify_map_eq.
    cbn [elems bufs cells next_block oom]. rewrite insert_insert_eq.
    eexists _, _. split; [done |]. cbn [elems bufs cells].
    splits; [apply heap_ok_insert; done || lia.. |].
    by eexists _, _.
Qed.

Lemma fifo_seg_length m p ns q : fifo_seg m p ns q -> length ns = length q.
Proof.
  revert p q. induction ns as [| [a b] ns IH]; intros p [| d q]; try done.
  intros (_ & _ & n & _ & Hs). simpl. f_equal. by eapply IH.
Qed.

(** The second half of an insertion into a non-empty queue: a fresh element
    is hung on the last one. *)
Lemma fifo_hang fuel m m1 p ns q a b d :
  fifo_seg m p ns q -> ns <> [] -> NoDup ns.*1 -> (length q < fuel)%nat ->
  cells (elems m) !! a = None -> cells (bufs m) !! b = None ->
  heap_ok (elems m1) ->
  cells (elems m1) = <[a := FifoElem None (Some b) (Z.of_nat (length d))]> (cells (elems m)) ->
  cells (bufs m1) = <[b := d]> (cells (bufs m)) ->
  exists m2, (p' ← no_os_fifo_get_last fuel p;
              e ← on_elems (hload p');
              _ ← on_elems (hstore p' (FifoElem (Some a) (fifo_data e) (fifo_len e)));
              mret (0, p)) m1 = Done ((0, p), m2) /\
    fifo_seg m2 p (ns ++ [(a, b)]) (q ++ [d]) /\ heap_ok (elems m2) /\ bufs m2 = bufs m1 /\
    dom (cells (elems m2)) = dom (cells (elems m1)).
Proof.
  intros Hs Hne Hnd Hf Ha Hb Hok HE HB.
  destruct (fifo_seg_dom _ _ _ _ Hs) as [HdE HdB].
  set (x := List.last ns.*1 1%positive).
  assert (x ∈ ns.*1) as Hx by (apply last_elem_of; by destruct ns).
  destruct (HdE x Hx) as [ex Hex].
  assert (forall y, y ∈ ns.*1 -> y <> a) as Hya.
  { intros y Hy ->. apply HdE in Hy as [? Hy]. by rewrite Ha in Hy. }
  assert (forall y, y ∈ ns.*2 -> y <> b) as Hyb.
  { intros y Hy ->. apply HdB in Hy as [? Hy]. by rewrite Hb in Hy. }
  assert (cells (elems m1) !! x = Some ex) as Hex1 by (rewrite HE, lookup_insert_ne; naive_solver).
  eexists. rewrite (bind_done _ _ m1 (Some x) m1).
  2: { destruct ns as [| [a1 b1] ns]; [done |].
       apply (fifo_get_last_run fuel m1 a1 b1 ns q).
       - apply (fifo_seg_frame m); [| | done]; intros y Hy;
           [rewrite HE | rewrite HB]; rewrite lookup_insert_ne; naive_solver.
       - apply fifo_seg_length in Hs. simpl in Hs. lia. }
  erewrite bind_done by (eapply zoom_done, hload_done; exact Hex1).
  destruct m1 as [E1 B1]. cbn [elems bufs] in *.
  erewrite bind_done by by eapply zoom_done, hstore_done.
  split; [done |]. cbn [elems bufs cells]. splits; [| | done |].
  - apply (fifo_seg_link m _ _ _ _ _ _ (Some a)); try done; cbn [elems bufs cells].
    + intros y Hy Hyx. rewrite lookup_insert_ne, HE, lookup_insert_ne; naive_solver.
    + intros e He. fold x in He |- *. by simplify_map_eq.
    + intros y Hy. rewrite HB, lookup_insert_ne; naive_solver.
    + simpl. split; [done |]. rewrite HB, lookup_insert_eq. split; [done |].
      exists None. rewrite lookup_insert_ne, HE, lookup_insert_eq; naive_solver.
  - apply heap_ok_insert; [done | by apply Hok | done].
  - rewrite dom_insert_L. apply elem_of_dom_2 in Hex1. set_solver.
Qed.

(** The blocks of a queue with one more element. *)
Lemma NoDup_snoc (l : list positive) a : NoDup l -> a ∉ l -> NoDup (l ++ [a]).
Proof.
  intros Hl Ha. apply NoDup_app. splits; [done | set_solver | apply NoDup_singleton].
Qed.

Lemma blocks_snoc (l : list positive) (D F : gset positive) a :
  D = list_to_set l ∪ F -> list_to_set l ## F -> a ∉ D -> NoDup l ->
  NoDup (l ++ [a]) /\ {[a]} ∪ D = list_to_set (l ++ [a]) ∪ F /\ list_to_set (l ++ [a]) ## F.
Proof.
  intros -> Hd Ha Hl. rewrite list_to_set_app_L. simpl.
  splits; [apply NoDup_snoc; set_solver | set_solver | set_solver].
Qed.

(** ** Properties *)

(** C30: insertion appends its bytes to the queue, or, when an allocation
    fails or the length is 0, returns -1 and leaves the queue as it was, with
    no block leaked. *)
Theorem no_os_fifo_insert_correct F G m p q buff len fuel :
  fifo_rep F G m p q -> 0 <= len <= Z.of_nat (length buff) -> (length q < fuel)%nat ->
  exists p' m', if (len =? 0) || insert_fails m
    then no_os_fifo_insert fuel p buff len m = Done ((-1, p'), m') /\ p' = p /\
         fifo_rep F G m' p q
    else no_os_fifo_insert fuel p buff len m = Done ((0, p'), m') /\
         fifo_rep F G m' p' (q ++ [take (Z.to_nat len) buff]).
Proof.
  intros (ns & Hs & Hn1 & Hn2 & HE & HB & HdE & HFE & HdB & HGB) Hlen Hf.
  unfold no_os_fifo_insert. destruct (Z.eqb_spec len 0) as [-> | Hl0]; cbn [orb].
  { exists p, m. splits; try done. by exists ns. }
  destruct (Z.leb_spec len 0); [lia |].
  destruct (fifo_new_element_run m buff len) as (r & m1 & Hr & HE1 & HB1 & Hc); [done || lia.. |].
  rewrite (bind_done _ _ _ _ _ Hr). destruct (insert_fails m).
  { destruct Hc as (-> & Hc1 & Hc2). exists p, m1. splits; try done.
    exists ns. rewrite Hc1, Hc2. splits; try done.
    by apply (fifo_seg_frame m); [rewrite Hc1 | rewrite Hc2 |]. }
  destruct Hc as (a & b & -> & Ha & Hb & Hc1 & Hc2).
  assert (a ∉ dom (cells (elems m))) as Ha' by by apply not_elem_of_dom.
  assert (b ∉ dom (cells (bufs m))) as Hb' by by apply not_elem_of_dom.
  destruct (blocks_snoc _ _ _ a HdE HFE Ha' Hn1) as (Hn1' & HdE' & HFE').
  destruct (blocks_snoc _ _ _ b HdB HGB Hb' Hn2) as (Hn2' & HdB' & HGB').
  rewrite <- dom_insert_L with (x := FifoElem None (Some b) len), <- Hc1 in HdE'.
  rewrite <- dom_insert_L with (x := take (Z.to_nat len) buff), <- Hc2 in HdB'.
  set (d := take (Z.to_nat len) buff) in *.
  assert (len = Z.of_nat (length d)) as Hd by (subst d; rewrite length_take; lia).
  destruct (decide (ns = [])) as [-> | Hne].
  - destruct q as [| ? ?]; [| done]. simpl in Hs. subst p. exists (Some a), m1. split; [done |].
    exists [(a, b)]. splits; try done.
    split; [done |]. rewrite Hc1, Hc2, <- Hd, !lookup_insert_eq. split; [done |]. by exists None.
  - assert (exists a1, p = Some a1) as [a1 ->].
    { destruct ns as [| [? ?] ?], q; try done. destruct Hs as (-> & _). by eexists. }
    rewrite Hd in Hc1.
    destruct (fifo_hang fuel m m1 (Some a1) ns q a b d) as (m2 & Hr2 & Hs2 & HE2 & HB2 & HD2);
      [done.. |].
    exists (Some a1), m2. split; [exact Hr2 |].
    exists (ns ++ [(a, b)]). by rewrite HB2, HD2, !fmap_app.
Qed.

(** Removal drops the oldest bytes and frees both blocks of their
    element; on the empty queue it does nothing. *)
Theorem no_os_fifo_remove_correct F G m p q :
  fifo_rep F G m p q ->
  exists p' m', no_os_fifo_remove p m = Done (p', m') /\ fifo_rep F G m' p' (tail q).
Proof.
  intros (ns & Hs & Hn1 & Hn2 & HE & HB & HdE & HFE & HdB & HGB).
  destruct ns as [| [a b] ns], q as [| d q]; try done.
  { simpl in Hs. subst p. exists None, m. split; [done |]. by exists []. }
  destruct Hs as (-> & Hd & n & Hn & Hs). destruct m as [E B]. cbn [elems bufs] in *.
  apply NoDup_cons in Hn1 as [Ha Hn1]. apply NoDup_cons in Hn2 as [Hb Hn2].
  eexists n, _. unfold no_os_fifo_remove.
  erewrite bind_done by by apply zoom_done, hload_done.
  cbn [fifo_data].
  erewrite bind_done by by eapply zoom_done, hfree_done.
  cbn [elems bufs]. erewrite bind_done by by eapply zoom_done, hfree_done.
  split; [done |]. exists ns. cbn [elems bufs cells fmap list_fmap fst snd list_to_set tail] in *.
  splits; try done; try by apply heap_ok_delete.
  - apply (fifo_seg_frame (FifoMem E B)); [| | done]; simpl;
      intros x Hx; rewrite lookup_delete_ne; set_solver.
  - rewrite dom_delete_L, HdE. set_solver.
  - set_solver.
  - rewrite dom_delete_L, HdB. set_solver.
  - set_solver.
Qed.

(** An empty heap whose second allocation fails. *)
Definition fifo_example (o : list bool) : fifo_mem :=
  FifoMem (Heap ∅ 1%positive o) (Heap ∅ 1%positive []).

Lemma fifo_example_rep o : fifo_rep ∅ ∅ (fifo_example o) None [].
Proof.
  exists []. simpl. splits; try done; try set_solver; try constructor; intros p [? Hp]; done.
Qed.

Lemma no_os_fifo_insert_correct_witness :
  exists p' m', no_os_fifo_insert 5 None [1; 2; 3] 2 (fifo_example []) = Done ((0, p'), m') /\
    fifo_rep ∅ ∅ m' p' [[1; 2]].
Proof.
  apply (no_os_fifo_insert_correct ∅ ∅ (fifo_example []) None [] [1; 2; 3] 2 5);
    [apply fifo_example_rep | simpl; lia | simpl; lia].
Defined.

Definition fifo_one : fifo_mem :=
  FifoMem (Heap {[1%positive := FifoElem None (Some 1%positive) 2]} 2%positive [])
          (Heap {[1%positive := [1; 2]]} 2%positive []).

Lemma fifo_one_rep : fifo_rep ∅ ∅ fifo_one (Some 1%positive) [[1; 2]].
Proof.
  exists [(1, 1)]%positive. unfold fifo_one. cbn [elems bufs cells fmap list_fmap fst snd].
  assert (forall V (v : V), heap_ok (Heap {[1%positive := v]} 2%positive [])) as Hok.
  { intros V v p [? Hp]. simpl in Hp. apply lookup_singleton_Some in Hp as [<- _]. done. }
  splits; [| apply NoDup_singleton | apply NoDup_singleton | apply Hok | apply Hok | | | |];
    set_solver.
Qed.

Lemma no_os_fifo_remove_correct_witness :
  exists p' m', no_os_fifo_remove (Some 1%positive) fifo_one = Done (p', m') /\
    fifo_rep ∅ ∅ m' p' [].
Proof. apply (no_os_fifo_remove_correct ∅ ∅ fifo_one _ [[1; 2]]), fifo_one_rep. Defined.
