(* ===== verification/CircularBuffer.v ===== *)
(** * The circular buffer of [util/no_os_circular_buffer.c]

    Read and write positions are an index and a count of the laps made; a
    transfer is prepared, done by the caller (a copy, or a DMA engine) and
    ended.  The specification counts bytes since the start: [h] is every byte
    written so far, and the reader is at byte [R] of it. *)
From S2P Require Import Prelude.

(** ** The code *)

Record no_os_cb_ptr : Type := CbPtr {
  idx : Z;
  spin_count : Z;
  async_started : bool;
  async_size : Z
}.

Record no_os_circular_buffer : Type := Cb {
  cb_sz : Z;
  cb_buff : ptr;
  write : no_os_cb_ptr;
  read : no_os_cb_ptr
}.

Record cb_mem : Type := CbMem {
  descs : heap no_os_circular_buffer;
  arrs : heap (list Z)
}.

Definition on_descs {A} : cmd (heap no_os_circular_buffer) A -> cmd cb_mem A :=
  zoom descs (fun h m => CbMem h (arrs m)).

Definition on_arrs {A} : cmd (heap (list Z)) A -> cmd cb_mem A :=
  zoom arrs (fun h m => CbMem (descs m) h).

Definition cb_ptr0 : no_os_cb_ptr := CbPtr 0 0 false 0.

Definition no_os_cb_cfg (desc buff : ptr) (size : Z) : cmd cb_mem Z :=
  match desc with
  | None => mret (- EINVAL)
  | Some _ => _ ← on_descs (hstore desc (Cb size buff cb_ptr0 cb_ptr0)); mret 0
  end.

(** The result is the return code and what [*desc] was set to, which is the
    freed descriptor when the second allocation fails. *)
Definition no_os_cb_init (desc_is_null : bool) (buff_size : Z) :
  cmd cb_mem (Z * option ptr) :=
  if desc_is_null || negb (truthy buff_size) then mret (- EINVAL, None) else
  ldesc ← on_descs (halloc (Cb 0 None cb_ptr0 cb_ptr0));
  match ldesc with
  | None => mret (- ENOMEM, None)
  | Some _ =>
      b ← on_arrs (halloc (replicate (Z.to_nat buff_size) 0));
      _ ← on_descs (hstore ldesc (Cb buff_size b cb_ptr0 cb_ptr0));
      match b with
      | None => _ ← on_descs (hfree ldesc); mret (- ENOMEM, Some ldesc)
      | Some _ => mret (0, Some ldesc)
      end
  end.

Definition no_os_cb_remove (desc : ptr) : cmd cb_mem Z :=
  match desc with
  | None => mret (-1)
  | Some _ =>
      d ← on_descs (hload desc);
      _ ← match cb_buff d with None => mret tt | Some _ => on_arrs (hfree (cb_buff d)) end;
      _ ← on_descs (hfree desc);
      mret 0
  end.

(** The result is the return code and what [*size] was set to. *)
Definition cb_size_of (d : no_os_circular_buffer) : Z * Z :=
  let nb_spins :=
    if spin_count (read d) <? spin_count (write d)
    then u32 (spin_count (write d) - spin_count (read d))
    else u32 (0xFFFFFFFF - spin_count (read d) + spin_count (write d) + 1) in
  let size :=
    if 0 <? nb_spins
    then u32 (cb_sz d + idx (write d) - idx (read d))
    else u32 (idx (write d) - idx (read d)) in
  if cb_sz d <? size then (- NO_OS_EOVERRUN, cb_sz d) else (0, size).

Definition no_os_cb_size (desc : ptr) (size_is_null : bool) : cmd cb_mem (Z * option Z) :=
  match desc with
  | None => mret (- EINVAL, None)
  | Some _ =>
      if size_is_null then mret (- EINVAL, None) else
      d ← on_descs (hload desc);
      mret ((cb_size_of d).1, Some (cb_size_of d).2)
  end.

Definition cb_sel (is_read : bool) (d : no_os_circular_buffer) : no_os_cb_ptr :=
  if is_read then read d else write d.

Definition cb_upd (is_read : bool) (p : no_os_cb_ptr) (d : no_os_circular_buffer) :
  no_os_circular_buffer :=
  if is_read then Cb (cb_sz d) (cb_buff d) (write d) p
  else Cb (cb_sz d) (cb_buff d) p (read d).

(** The result is the return code and, when they are set, the address the
    transfer starts at (a block and an offset) and its size. *)
Definition cb_start (desc : ptr) (d : no_os_circular_buffer) (ret requested_size : Z)
    (is_read : bool) : cmd cb_mem (Z * option (ptr * Z * Z)) :=
  let p := cb_sel is_read d in
  let n := Z.min requested_size (u32 (cb_sz d - idx p)) in
  _ ← on_descs (hstore desc (cb_upd is_read (CbPtr (idx p) (spin_count p) true n) d));
  mret (ret, Some (cb_buff d, idx p, n)).

Definition no_os_cb_prepare_async_operation (desc : ptr) (requested_size : Z)
    (null_args is_read : bool) : cmd cb_mem (Z * option (ptr * Z * Z)) :=
  match desc with
  | None => mret (- EINVAL, None)
  | Some _ =>
      if null_args then mret (- EINVAL, None) else
      d ← on_descs (hload desc);
      if async_started (cb_sel is_read d) then mret (- EBUSY, None) else
      if is_read then
        let '(ret, available_size) := cb_size_of d in
        let d :=
          if ret =? - NO_OS_EOVERRUN
          then cb_upd true (CbPtr (idx (write d)) (u32 (spin_count (write d) - 1))
                                  (async_started (read d)) (async_size (read d))) d
          else d in
        _ ← on_descs (hstore desc d);
        if available_size =? 0 then mret (0, None) else
        let requested_size := Z.min requested_size available_size in
        if requested_size =? 0 then mret (- EAGAIN, None) else
        cb_start desc d ret requested_size true
      else cb_start desc d 0 requested_size false
  end.

Definition no_os_cb_end_async_operation (desc : ptr) (is_read : bool) : cmd cb_mem Z :=
  match desc with
  | None => mret (- EINVAL)
  | Some _ =>
      d ← on_descs (hload desc);
      let p := cb_sel is_read d in
      if negb (async_started p) then mret (-1) else
      let new_val := u32 (idx p + async_size p) in
      if cb_sz d <=? new_val then
        new_val ← lift (umod new_val (cb_sz d));
        _ ← on_descs (hstore desc
              (cb_upd is_read (CbPtr new_val (u32 (spin_count p + 1)) false 0) d));
        mret 0
      else
        _ ← on_descs (hstore desc
              (cb_upd is_read (CbPtr new_val (spin_count p) false 0) d));
        mret 0
  end.

(** The locals of [no_os_cb_operation] that live across its loop; [cb_at] is
    [buff], uninitialised at first, and [cb_data] the caller's bytes. *)
Record cb_loop : Type := CbLoop {
  cb_i : Z;
  cb_at : option (ptr * Z);
  cb_avail : Z;
  cb_sticky : bool;
  cb_data : list Z
}.

(** [do prepare while (ret == -EBUSY || ret == -EAGAIN)] *)
Definition cb_prepare_spin (spins : nat) (desc : ptr) (n : Z) (is_read : bool)
    (at0 : option (ptr * Z)) (avail0 : Z) : cmd cb_mem (Z * option (ptr * Z) * Z) :=
  loop spins (fun '(a, v) =>
    r ← no_os_cb_prepare_async_operation desc n false is_read;
    let '(ret, out) := r in
    let '(a, v) := match out with Some (b, off, v) => (Some (b, off), v) | None => (a, v) end in
    mret (if (ret =? - EBUSY) || (ret =? - EAGAIN) then inl (a, v) else inr (ret, a, v)))
  (at0, avail0).

(** [memcpy] between the caller's bytes at [i] and the buffer at [a]. *)
Definition cb_copy (is_read : bool) (a : option (ptr * Z)) (n i : Z) (data : list Z) :
  cmd cb_mem (list Z) :=
  match a with
  | None => undef
  | Some (b, off) =>
      arr ← on_arrs (hload b);
      if is_read then
        xs ← the (mem_read arr off n);
        the (mem_write data i xs)
      else
        xs ← the (mem_read data i n);
        arr ← the (mem_write arr off xs);
        _ ← on_arrs (hstore b arr);
        mret data
  end.

Definition cb_step (spins : nat) (desc : ptr) (size : Z) (is_read : bool) (l : cb_loop) :
  cmd cb_mem (cb_loop + Z * list Z) :=
  if cb_i l <? size then
    r ← cb_prepare_spin spins desc (u32 (size - cb_i l)) is_read (cb_at l) (cb_avail l);
    let '(ret, a, v) := r in
    if v =? 0 then mret (inr (-1, cb_data l)) else
    data ← cb_copy is_read a v (cb_i l) (cb_data l);
    _ ← no_os_cb_end_async_operation desc is_read;
    mret (inl (CbLoop (u32 (cb_i l + v)) a v
                 (if ret =? - NO_OS_EOVERRUN then true else cb_sticky l) data))
  else mret (inr (if cb_sticky l then - NO_OS_EOVERRUN else 0, cb_data l)).

(** The result is the return code and the caller's bytes. *)
Definition no_os_cb_operation (spins fuel : nat) (desc : ptr) (data : option (list Z))
    (size : Z) (is_read : bool) : cmd cb_mem (Z * list Z) :=
  match desc, data with
  | Some _, Some data =>
      if negb (truthy size) then mret (- EINVAL, data) else
      loop fuel (cb_step spins desc size is_read) (CbLoop 0 None 0 false data)
  | _, _ => mret (- EINVAL, default [] data)
  end.

Definition no_os_cb_prepare_async_write (desc : ptr) (size_to_write : Z) (null_args : bool) :=
  no_os_cb_prepare_async_operation desc size_to_write null_args false.

Definition no_os_cb_prepare_async_read (desc : ptr) (size_to_read : Z) (null_args : bool) :=
  no_os_cb_prepare_async_operation desc size_to_read null_args true.

Definition no_os_cb_end_async_write (desc : ptr) : cmd cb_mem Z :=
  no_os_cb_end_async_operation desc false.

Definition no_os_cb_end_async_read (desc : ptr) : cmd cb_mem Z :=
  no_os_cb_end_async_operation desc true.

Definition no_os_cb_write (spins fuel : nat) (desc : ptr) (data : option (list Z)) (size : Z) :
  cmd cb_mem (Z * list Z) :=
  no_os_cb_operation spins fuel desc data size false.

Definition no_os_cb_read (spins fuel : nat) (desc : ptr) (data : option (list Z)) (size : Z) :
  cmd cb_mem (Z * list Z) :=
  no_os_cb_operation spins fuel desc data size true.

(** ** Specification *)

(** A position after [n] bytes; [a] bytes of a transfer are in flight. *)
Definition cb_pos (s n : Z) (a : option Z) : no_os_cb_ptr :=
  CbPtr (n mod s) (u32 (n / s)) (bool_decide (is_Some a)) (default 0 a).

(** The ring holds bytes [lo] to [length h] of the history. *)
Definition cb_holds (s : Z) (arr h : list Z) (lo : Z) : Prop :=
  forall k, 0 <= k -> lo <= k < Z.of_nat (length h) ->
    arr !! Z.to_nat (k mod s) = h !! Z.to_nat k.

(** [p] is a buffer of [s] bytes; [h] was written to it, [R] bytes of it
    read; [a] and [r] are the sizes of the pending transfers.  The region of a
    pending write no longer holds the bytes it overwrites. *)
Definition cb_rep (m : cb_mem) (p b : positive) (s : Z) (h : list Z) (R : Z)
    (a r : option Z) : Prop :=
  exists arr,
    cells (descs m) !! p =
      Some (Cb s (Some b) (cb_pos s (Z.of_nat (length h)) a) (cb_pos s R r)) /\
    cells (arrs m) !! b = Some arr /\
    0 < s <= 2 ^ 31 /\ Z.of_nat (length arr) = s /\ 0 <= R <= Z.of_nat (length h) /\
    cb_holds s arr h (Z.of_nat (length h) + default 0 a - s).

(** ** Lemmas *)

Lemma cb_holds_weaken s arr h lo lo' : lo <= lo' -> cb_holds s arr h lo -> cb_holds s arr h lo'.
Proof. intros ? H k ? ?. apply H; lia. Qed.

Section ring.
  Context (s : Z).
  Hypothesis Hs : 0 < s.

(** Inside a region that does not wrap, positions are consecutive. *)
Lemma mod_window W a k : W mod s + a <= s -> W <= k < W + a -> k mod s = W mod s + (k - W).
Proof.
  intros Ha Hk. pose proof (Z.div_mod W s). pose proof (Z.mod_pos_bound W s).
  symmetry. apply (Z.mod_unique_pos k s (W / s)); lia.
Qed.

(** Of the [s] positions before the end of the region, the others are outside. *)
Lemma mod_outside W a k :
  W mod s + a <= s -> 0 <= a -> W + a - s <= k < W ->
  k mod s < W mod s \/ W mod s + a <= k mod s.
Proof.
  intros Ha Ha0 Hk. pose proof (Z.div_mod W s). pose proof (Z.mod_pos_bound W s).
  destruct (Z_lt_le_dec (W mod s + (k + s - W)) s).
  - right. rewrite <- (Z.mod_unique_pos k s (W / s - 1) (W mod s + (k + s - W))); lia.
  - left. rewrite <- (Z.mod_unique_pos k s (W / s) (W mod s + (k - W))); lia.
Qed.

Lemma pos_advance W a :
  0 <= a -> W mod s + a <= s ->
  if s <=? W mod s + a
  then (W + a) mod s = (W mod s + a) mod s /\ (W + a) / s = W / s + 1
  else (W + a) mod s = W mod s + a /\ (W + a) / s = W / s.
Proof.
  intros Ha Hle. pose proof (Z.div_mod W s). pose proof (Z.mod_pos_bound W s).
  destruct (Z.leb_spec s (W mod s + a)).
  - assert (W mod s + a = s) as -> by lia. rewrite Z.mod_same by lia. split.
    + symmetry. apply (Z.mod_unique_pos _ s (W / s + 1)); lia.
    + symmetry. apply (Z.div_unique_pos _ s _ 0); lia.
  - split; symmetry.
    + apply (Z.mod_unique_pos _ s (W / s)); lia.
    + apply (Z.div_unique_pos _ s _ (W mod s + a)); lia.
Qed.

(** What the reader finds in its region. *)
Lemma cb_holds_read arr h lo R n :
  cb_holds s arr h lo -> Z.of_nat (length arr) = s -> 0 <= n ->
  0 <= R -> lo <= R -> R mod s + n <= s -> R + n <= Z.of_nat (length h) ->
  take (Z.to_nat n) (drop (Z.to_nat (R mod s)) arr)
  = take (Z.to_nat n) (drop (Z.to_nat R) h).
Proof.
  intros Hh Hl Hn HR Hlo Hw Hle. apply list_eq. intros i.
  destruct (decide (i < Z.to_nat n)%nat) as [Hi | Hi].
  - rewrite !lookup_take_lt, !lookup_drop by done.
    pose proof (Z.mod_pos_bound R s).
    replace (Z.to_nat R + i)%nat with (Z.to_nat (R + Z.of_nat i)) by lia.
    rewrite <- Hh by lia. f_equal. rewrite (mod_window R n (R + Z.of_nat i)) by lia. lia.
  - by rewrite !lookup_take_ge by lia.
Qed.

(** Filling the region of a write, then counting it as written. *)
Lemma cb_holds_write arr h xs :
  Z.of_nat (length h) mod s + Z.of_nat (length xs) <= s ->
  Z.of_nat (length arr) = s ->
  cb_holds s arr h (Z.of_nat (length h) + Z.of_nat (length xs) - s) ->
  cb_holds s (list_inserts (Z.to_nat (Z.of_nat (length h) mod s)) xs arr) (h ++ xs)
    (Z.of_nat (length (h ++ xs)) - s).
Proof.
  intros Hw Hl Hh k Hk0 Hk. rewrite length_app in Hk.
  set (W := Z.of_nat (length h)) in *. pose proof (Z.mod_pos_bound W s Hs).
  pose proof (Z.mod_pos_bound k s Hs).
  destruct (Z_lt_le_dec k W).
  - rewrite lookup_app_l by lia. rewrite <- Hh by lia.
    destruct (mod_outside W (Z.of_nat (length xs)) k) as [Hx | Hx]; [lia.. | |].
    + apply list_lookup_inserts_lt. lia.
    + apply list_lookup_inserts_ge. lia.
  - rewrite lookup_app_r by lia. rewrite (mod_window W (Z.of_nat (length xs)) k) by lia.
    rewrite list_lookup_inserts by lia. f_equal. lia.
Qed.

End ring.

(** [nb_spins] is the difference of the lap counts in 32 bits. *)
Lemma cb_size_of_eq s b W R a r :
  cb_size_of (Cb s b (cb_pos s W a) (cb_pos s R r)) =
  let v := if 0 <? u32 (W / s - R / s) then u32 (s + W mod s - R mod s)
           else u32 (W mod s - R mod s) in
  if s <? v then (- NO_OS_EOVERRUN, s) else (0, v).
Proof.
  unfold cb_size_of, cb_pos. cbn [spin_count read write idx cb_sz].
  assert ((if u32 (R / s) <? u32 (W / s) then u32 (u32 (W / s) - u32 (R / s))
           else u32 (0xFFFFFFFF - u32 (R / s) + u32 (W / s) + 1)) = u32 (W / s - R / s)) as ->;
    [| done].
  unfold wrap. change (2 ^ 32) with 4294967296. rewrite (Zminus_mod (W / s)).
  destruct (_ <? _); [done |].
  replace (_ - _ + _ + 1) with
    ((W / s) mod 4294967296 - (R / s) mod 4294967296 + 1 * 4294967296) by lia.
  by rewrite Z.mod_add.
Qed.

(** Without an overrun the size is the number of unread bytes. *)
Lemma cb_size_of_ok s b W R a r :
  0 < s <= 2 ^ 31 -> 0 <= R -> 0 <= W - R <= s ->
  cb_size_of (Cb s b (cb_pos s W a) (cb_pos s R r)) = (0, W - R).
Proof.
  intros Hs HR Hd. rewrite cb_size_of_eq. cbv zeta.
  pose proof (Z.div_mod W s). pose proof (Z.mod_pos_bound W s).
  pose proof (Z.div_mod R s). pose proof (Z.mod_pos_bound R s).
  assert (W / s - R / s = 0 \/ W / s - R / s = 1) as [E | E] by nia; rewrite E.
  - change (0 <? u32 0) with false. cbv iota.
    replace (W mod s - R mod s) with (W - R) by nia. rewrite wrap_small by ulia.
    destruct (Z.ltb_spec s (W - R)); [lia | done].
  - change (0 <? u32 1) with true. cbv iota.
    replace (s + W mod s - R mod s) with (W - R) by nia. rewrite wrap_small by ulia.
    destruct (Z.ltb_spec s (W - R)); [lia | done].
Qed.

(** *** Runs of the operations *)

Definition set_desc (m : cb_mem) (p : positive) (d : no_os_circular_buffer) : cb_mem :=
  CbMem (Heap (<[p := d]> (cells (descs m))) (next_block (descs m)) (oom (descs m))) (arrs m).

Definition set_arr (m : cb_mem) (b : positive) (arr : list Z) : cb_mem :=
  CbMem (descs m) (Heap (<[b := arr]> (cells (arrs m))) (next_block (arrs m)) (oom (arrs m))).

Lemma desc_load m p d :
  cells (descs m) !! p = Some d -> on_descs (hload (Some p)) m = Done (d, m).
Proof. intros H. unfold on_descs, on_arrs. erewrite zoom_done by by apply hload_done. by destruct m. Qed.

Lemma desc_store m p d d' :
  cells (descs m) !! p = Some d -> on_descs (hstore (Some p) d') m = Done (tt, set_desc m p d').
Proof. intros H. unfold on_descs, on_arrs. by erewrite zoom_done by by eapply hstore_done. Qed.

Lemma arr_load m b arr :
  cells (arrs m) !! b = Some arr -> on_arrs (hload (Some b)) m = Done (arr, m).
Proof. intros H. unfold on_descs, on_arrs. erewrite zoom_done by by apply hload_done. by destruct m. Qed.

Lemma arr_store m b arr arr' :
  cells (arrs m) !! b = Some arr -> on_arrs (hstore (Some b) arr') m = Done (tt, set_arr m b arr').
Proof. intros H. unfold on_descs, on_arrs. by erewrite zoom_done by by eapply hstore_done. Qed.

Lemma set_desc_look m p d : cells (descs (set_desc m p d)) !! p = Some d.
Proof. apply lookup_insert_eq. Qed.

Lemma set_arr_look m b arr : cells (arrs (set_arr m b arr)) !! b = Some arr.
Proof. apply lookup_insert_eq. Qed.

(** Starting a transfer of [n > 0] bytes at a position. *)
Lemma cb_start_run m p d ret n is_read W :
  cells (descs m) !! p = Some d -> 0 < cb_sz d <= 2 ^ 31 -> 0 < n ->
  cb_sel is_read d = cb_pos (cb_sz d) W None ->
  let a := Z.min n (cb_sz d - W mod cb_sz d) in
  cb_start (Some p) d ret n is_read m
  = Done ((ret, Some (cb_buff d, W mod cb_sz d, a)),
          set_desc m p (cb_upd is_read (cb_pos (cb_sz d) W (Some a)) d)).
Proof.
  intros Hp Hs Hn Hsel a. unfold cb_start. rewrite Hsel. cbn [idx spin_count cb_pos].
  pose proof (Z.mod_pos_bound W (cb_sz d)).
  rewrite (wrap_small 32) by ulia. by erewrite bind_done by by eapply desc_store.
Qed.

(** Ending one. *)
Lemma end_run m p d is_read W a :
  cells (descs m) !! p = Some d -> 0 < cb_sz d <= 2 ^ 31 ->
  cb_sel is_read d = cb_pos (cb_sz d) W (Some a) ->
  0 <= a -> W mod cb_sz d + a <= cb_sz d ->
  no_os_cb_end_async_operation (Some p) is_read m
  = Done (0, set_desc m p (cb_upd is_read (cb_pos (cb_sz d) (W + a) None) d)).
Proof.
  intros Hp Hs Hsel Ha Hw. unfold no_os_cb_end_async_operation.
  erewrite bind_done by by apply desc_load. rewrite Hsel.
  cbn [async_started async_size idx spin_count cb_pos default from_option id].
  rewrite bool_decide_true by done. cbn [negb].
  pose proof (Z.mod_pos_bound W (cb_sz d)). rewrite (wrap_small 32) by ulia.
  pose proof (pos_advance (cb_sz d) ltac:(lia) W a Ha Hw) as Hadv.
  destruct (cb_sz d <=? W mod cb_sz d + a); destruct Hadv as [Hm Hq].
  - erewrite bind_done by (apply lift_done, umod_done; lia).
    erewrite bind_done by by eapply desc_store. unfold cb_pos. rewrite Hm, Hq.
    by rewrite wrap_add_l.
  - erewrite bind_done by by eapply desc_store. unfold cb_pos. by rewrite Hm, Hq.
Qed.

Section ops.
  Context (p b : positive) (s : Z).

(** A prepared write claims the bytes up to the end of the array. *)
Lemma prepare_write_run m h R r n :
  cb_rep m p b s h R None r -> 0 < n ->
  let W := Z.of_nat (length h) in
  let a := Z.min n (s - W mod s) in
  exists m', no_os_cb_prepare_async_operation (Some p) n false false m
    = Done ((0, Some (Some b, W mod s, a)), m') /\ arrs m' = arrs m /\
    cb_rep m' p b s h R (Some a) r.
Proof.
  intros (arr & Hp & Hb & Hs & Hl & HR & Hh) Hn W a. fold W in Hp, HR, Hh.
  unfold no_os_cb_prepare_async_operation. erewrite bind_done by by apply desc_load.
  cbn [cb_sel write cb_pos async_started]. rewrite bool_decide_false by by intros [].
  erewrite cb_start_run by done. cbn [cb_buff cb_sz].
  eexists. split; [done |]. split; [done |]. exists arr. rewrite set_desc_look.
  fold W. splits; try (done || lia). eapply cb_holds_weaken; [| done].
  cbn [default from_option id]. pose proof (Z.mod_pos_bound W s). subst a. lia.
Qed.

(** A prepared read of a buffer that has unread bytes and was not overrun. *)
Lemma prepare_read_run m h R a n :
  cb_rep m p b s h R a None -> 0 < n -> 0 < Z.of_nat (length h) - R <= s ->
  let v := Z.min (Z.min n (Z.of_nat (length h) - R)) (s - R mod s) in
  exists m', no_os_cb_prepare_async_operation (Some p) n false true m
    = Done ((0, Some (Some b, R mod s, v)), m') /\ arrs m' = arrs m /\
    cb_rep m' p b s h R a (Some v).
Proof.
  intros (arr & Hp & Hb & Hs & Hl & HR & Hh) Hn Hd v.
  unfold no_os_cb_prepare_async_operation. erewrite bind_done by by apply desc_load.
  cbn [cb_sel read cb_pos async_started]. rewrite bool_decide_false by by intros [].
  rewrite cb_size_of_ok by lia. change (0 =? - NO_OS_EOVERRUN) with false. cbv iota.
  erewrite bind_done by by eapply desc_store.
  destruct (Z.eqb_spec (Z.of_nat (length h) - R) 0); [lia |].
  destruct (Z.eqb_spec (Z.min n (Z.of_nat (length h) - R)) 0); [lia |].
  erewrite cb_start_run by (apply set_desc_look || done || lia). cbn [cb_buff cb_sz].
  eexists. split; [done |]. split; [done |]. exists arr. rewrite set_desc_look.
  splits; done || lia.
Qed.

(** Of an empty one: nothing is prepared and 0 is returned. *)
Lemma prepare_read_empty m h a n :
  cb_rep m p b s h (Z.of_nat (length h)) a None ->
  exists m', no_os_cb_prepare_async_operation (Some p) n false true m = Done ((0, None), m') /\
    arrs m' = arrs m /\ cb_rep m' p b s h (Z.of_nat (length h)) a None.
Proof.
  intros (arr & Hp & Hb & Hs & Hl & HR & Hh).
  unfold no_os_cb_prepare_async_operation. erewrite bind_done by by apply desc_load.
  cbn [cb_sel read cb_pos async_started]. rewrite bool_decide_false by by intros [].
  rewrite cb_size_of_ok by lia. change (0 =? - NO_OS_EOVERRUN) with false. cbv iota.
  erewrite bind_done by by eapply desc_store. rewrite Z.sub_diag.
  eexists. split; [done |]. split; [done |]. exists arr.
  rewrite set_desc_look. splits; done || lia.
Qed.

(** Of one whose overrun the size computation notices: the reader is moved to
    the oldest byte still held. *)
Lemma prepare_read_overrun m h R a n :
  cb_rep m p b s h R a None -> 0 < n -> s <= Z.of_nat (length h) ->
  cb_size_of (Cb s (Some b) (cb_pos s (Z.of_nat (length h)) a) (cb_pos s R None))
    = (- NO_OS_EOVERRUN, s) ->
  let R := Z.of_nat (length h) - s in
  let v := Z.min (Z.min n s) (s - R mod s) in
  exists m', no_os_cb_prepare_async_operation (Some p) n false true m
    = Done ((- NO_OS_EOVERRUN, Some (Some b, R mod s, v)), m') /\ arrs m' = arrs m /\
    cb_rep m' p b s h R a (Some v).
Proof.
  intros (arr & Hp & Hb & Hs & Hl & HR & Hh) Hn Hge Hsz R' v.
  unfold no_os_cb_prepare_async_operation. erewrite bind_done by by apply desc_load.
  cbn [cb_sel read cb_pos async_started]. rewrite bool_decide_false by by intros [].
  fold (cb_pos s (Z.of_nat (length h)) a) (cb_pos s R None). rewrite Hsz.
  change (- NO_OS_EOVERRUN =? - NO_OS_EOVERRUN) with true. cbv iota.
  cbn [write read idx spin_count cb_pos async_started async_size].
  assert (cb_upd true (CbPtr (Z.of_nat (length h) mod s)
            (u32 (u32 (Z.of_nat (length h) / s) - 1)) false
            (default 0 None)) (Cb s (Some b) (cb_pos s (Z.of_nat (length h)) a) (cb_pos s R None))
          = Cb s (Some b) (cb_pos s (Z.of_nat (length h)) a) (cb_pos s R' None)) as ->.
  { unfold cb_upd, cb_pos. cbn [cb_sz cb_buff write]. f_equal. rewrite wrap_sub_l. subst R'.
    replace (Z.of_nat (length h) - s) with (Z.of_nat (length h) + (-1) * s) by lia.
    rewrite Z.mod_add, Z.div_add by lia. done. }
  erewrite bind_done by by eapply desc_store.
  destruct (Z.eqb_spec s 0); [lia |]. destruct (Z.eqb_spec (Z.min n s) 0); [lia |].
  erewrite cb_start_run by (apply set_desc_look || done || lia). cbn [cb_buff cb_sz].
  eexists. split; [done |]. split; [done |]. exists arr. rewrite set_desc_look.
  splits; done || lia.
Qed.

Lemma cb_prepare_spin_run spins m m' n is_read at0 avail0 ret out :
  no_os_cb_prepare_async_operation (Some p) n false is_read m = Done ((ret, out), m') ->
  ret <> - EBUSY -> ret <> - EAGAIN ->
  cb_prepare_spin (S spins) (Some p) n is_read at0 avail0 m
  = Done ((match out with Some (b, off, v) => (ret, Some (b, off), v)
           | None => (ret, at0, avail0) end), m').
Proof.
  intros H H1 H2. unfold cb_prepare_spin. cbn [loop]. rewrite bind_assoc, (bind_done _ _ _ _ _ H).
  apply Z.eqb_neq in H1, H2.
  destruct out as [[[b' off] v] |]; rewrite H1, H2; done.
Qed.

(** Ending a write whose region was filled with [xs]. *)
Lemma end_write_run m h R r arr xs :
  cells (descs m) !! p =
    Some (Cb s (Some b) (cb_pos s (Z.of_nat (length h)) (Some (Z.of_nat (length xs)))) (cb_pos s R r)) ->
  cells (arrs m) !! b = Some arr -> 0 < s <= 2 ^ 31 -> Z.of_nat (length arr) = s ->
  0 <= R <= Z.of_nat (length h) -> Z.of_nat (length h) mod s + Z.of_nat (length xs) <= s ->
  cb_holds s arr (h ++ xs) (Z.of_nat (length (h ++ xs)) - s) ->
  exists m', no_os_cb_end_async_operation (Some p) false m = Done (0, m') /\
    arrs m' = arrs m /\ cb_rep m' p b s (h ++ xs) R None r.
Proof.
  intros Hp Hb Hs Hl HR Hw Hh. eexists. split; [by eapply end_run; try done; simpl; lia |].
  split; [done |]. exists arr. rewrite set_desc_look, length_app, Nat2Z.inj_add in *.
  splits; try (done || lia). by rewrite Z.add_0_r.
Qed.

Lemma end_read_run m h R a v :
  cb_rep m p b s h R a (Some v) -> 0 <= v -> R mod s + v <= s -> R + v <= Z.of_nat (length h) ->
  exists m', no_os_cb_end_async_operation (Some p) true m = Done (0, m') /\
    arrs m' = arrs m /\ cb_rep m' p b s h (R + v) a None.
Proof.
  intros (arr & Hp & Hb & Hs & Hl & HR & Hh) Hv Hw Hle. eexists.
  split; [by eapply end_run; try done; simpl; lia |]. split; [done |]. exists arr.
  rewrite set_desc_look. splits; done || lia.
Qed.
End ops.

(** *** One turn of the copy loop *)

Section turns.
  Context (p b : positive) (s : Z) (spins : nat) (size : Z).

(** Without a transfer in flight the region of the next one is intact. *)
Lemma write_turn m h R r l :
  cb_rep m p b s h R None r -> 0 <= cb_i l < size -> size < 2 ^ 32 ->
  size <= Z.of_nat (length (cb_data l)) ->
  let v := Z.min (size - cb_i l) (s - Z.of_nat (length h) mod s) in
  exists m', cb_step (S spins) (Some p) size false l m
    = Done (inl (CbLoop (cb_i l + v) (Some (Some b, Z.of_nat (length h) mod s)) v
                   (cb_sticky l) (cb_data l)), m') /\
    cb_rep m' p b s
      (h ++ take (Z.to_nat v) (drop (Z.to_nat (cb_i l)) (cb_data l))) R None r.
Proof.
  intros Hrep Hi Hsz Hd v. unfold cb_step. destruct (Z.ltb_spec (cb_i l) size); [| lia].
  rewrite (wrap_small 32) by ulia.
  destruct (prepare_write_run p b s m h R r (size - cb_i l) Hrep) as (m1 & Hr & Ha & Hrep1); [lia |].
  fold v in Hr, Hrep1.
  erewrite bind_done by (eapply cb_prepare_spin_run; done). cbv iota.
  destruct Hrep1 as (arr & Hp & Hb & Hs & Hl & HR & Hh).
  pose proof (Z.mod_pos_bound (Z.of_nat (length h)) s).
  destruct (Z.eqb_spec v 0); [lia |]. unfold cb_copy. rewrite bind_assoc.
  erewrite bind_done by by apply arr_load. rewrite bind_assoc.
  rewrite mem_read_done by lia. erewrite bind_done by done.
  set (xs := take (Z.to_nat v) (drop (Z.to_nat (cb_i l)) (cb_data l))).
  assert (Z.of_nat (length xs) = v) as Hxs by (subst xs; rewrite length_take, length_drop; lia).
  rewrite bind_assoc, mem_write_done by lia. erewrite bind_done by done. rewrite bind_assoc.
  erewrite bind_done by by eapply arr_store. erewrite bind_done by done.
  destruct (end_write_run p b s (set_arr m1 b (list_inserts (Z.to_nat (Z.of_nat (length h) mod s)) xs arr))
    h R r (list_inserts (Z.to_nat (Z.of_nat (length h) mod s)) xs arr) xs) as (m2 & Hr2 & _ & Hrep2).
  - by rewrite Hxs.
  - apply set_arr_look.
  - done.
  - by rewrite length_inserts.
  - done.
  - lia.
  - apply cb_holds_write; try lia. rewrite Hxs. done.
  - rewrite (bind_done _ _ _ _ _ Hr2). exists m2. split; [| done].
    rewrite (wrap_small 32) by ulia. done.
Qed.

(** A turn of a read that has unread bytes, from the position [R'] the
    preparation leaves the reader at. *)
Lemma read_turn_at m m1 h R' a l ret v :
  (forall at0 avail0, cb_prepare_spin (S spins) (Some p) (size - cb_i l) true at0 avail0 m
    = Done ((ret, Some (Some b, R' mod s), v), m1)) ->
  cb_rep m1 p b s h R' a (Some v) ->
  0 < v <= size - cb_i l -> R' mod s + v <= s -> R' + v <= Z.of_nat (length h) ->
  Z.of_nat (length h) + default 0 a - s <= R' ->
  0 <= cb_i l < size -> size < 2 ^ 32 -> size <= Z.of_nat (length (cb_data l)) ->
  exists m', cb_step (S spins) (Some p) size true l m
    = Done (inl (CbLoop (cb_i l + v) (Some (Some b, R' mod s)) v
              (if ret =? - NO_OS_EOVERRUN then true else cb_sticky l)
              (list_inserts (Z.to_nat (cb_i l)) (take (Z.to_nat v) (drop (Z.to_nat R') h))
                 (cb_data l))), m') /\
    cb_rep m' p b s h (R' + v) a None.
Proof.
  intros Hr Hrep Hv Hw Hle Hlo Hi Hsz Hd. unfold cb_step.
  destruct (Z.ltb_spec (cb_i l) size); [| lia]. rewrite (wrap_small 32) by ulia.
  rewrite (bind_done _ _ _ _ _ (Hr _ _)). cbv iota. destruct (Z.eqb_spec v 0); [lia |].
  destruct (end_read_run p b s m1 h R' a v Hrep) as (m2 & Hr2 & _ & Hrep2); [lia.. |].
  destruct Hrep as (arr & Hp & Hb & Hs & Hl & HR & Hh).
  pose proof (Z.mod_pos_bound R' s).
  unfold cb_copy. rewrite bind_assoc. erewrite bind_done by by apply arr_load. rewrite bind_assoc.
  rewrite mem_read_done by lia. erewrite bind_done by done.
  rewrite (cb_holds_read s ltac:(lia) arr h _ R' v Hh) by (done || lia).
  rewrite mem_write_done by (rewrite ?length_take, ?length_drop; lia).
  erewrite bind_done by done. rewrite (bind_done _ _ _ _ _ Hr2). exists m2. split; [| done].
  rewrite (wrap_small 32) by ulia. done.
Qed.

Lemma read_turn m h R a l :
  cb_rep m p b s h R a None -> 0 < Z.of_nat (length h) - R ->
  Z.of_nat (length h) + default 0 a - R <= s -> 0 <= default 0 a ->
  0 <= cb_i l < size -> size < 2 ^ 32 -> size <= Z.of_nat (length (cb_data l)) ->
  let v := Z.min (Z.min (size - cb_i l) (Z.of_nat (length h) - R)) (s - R mod s) in
  exists m', cb_step (S spins) (Some p) size true l m
    = Done (inl (CbLoop (cb_i l + v) (Some (Some b, R mod s)) v (cb_sticky l)
              (list_inserts (Z.to_nat (cb_i l)) (take (Z.to_nat v) (drop (Z.to_nat R) h))
                 (cb_data l))), m') /\
    cb_rep m' p b s h (R + v) a None.
Proof.
  intros Hrep Hne Hd Ha Hi Hsz Hl v.
  destruct (prepare_read_run p b s m h R a (size - cb_i l) Hrep) as (m1 & Hr & _ & Hrep1); [lia.. |].
  fold v in Hr, Hrep1. assert (0 < s) as Hs by (destruct Hrep as (? & ? & ? & ? & ?); lia).
  pose proof (Z.mod_pos_bound R s Hs).
  apply (read_turn_at m m1 h R a l 0 v); try done; try lia.
  intros at0 avail0. by apply (cb_prepare_spin_run p spins _ _ _ _ _ _ _ _ Hr).
Qed.
End turns.

(** *** The copy loops *)

Lemma write_loop p b s spins size R r fuel : forall m h l,
  cb_rep m p b s h R None r -> 0 <= cb_i l <= size -> size < 2 ^ 32 ->
  size <= Z.of_nat (length (cb_data l)) -> size - cb_i l < Z.of_nat fuel -> cb_sticky l = false ->
  exists m', loop fuel (cb_step (S spins) (Some p) size false) l m = Done ((0, cb_data l), m') /\
    cb_rep m' p b s
      (h ++ take (Z.to_nat (size - cb_i l)) (drop (Z.to_nat (cb_i l)) (cb_data l))) R None r.
Proof.
  induction fuel as [| fuel IH]; intros m h l Hrep Hi Hsz Hd Hf Hst; [lia |]. cbn [loop].
  destruct (decide (cb_i l = size)) as [E | E].
  { exists m. rewrite E, Z.sub_diag. simpl. rewrite app_nil_r. split; [| done].
    unfold cb_step. by rewrite E, Z.ltb_irrefl, Hst. }
  assert (0 < s) as Hs by (destruct Hrep as (? & ? & ? & ? & ?); lia).
  pose proof (Z.mod_pos_bound (Z.of_nat (length h)) s Hs).
  destruct (write_turn p b s spins size m h R r l Hrep) as (m1 & Hr & Hrep1); [lia.. |].
  rewrite (bind_done _ _ _ _ _ Hr). cbv iota.
  set (v := Z.min _ _) in *.
  destruct (IH _ _ (CbLoop (cb_i l + v) (Some (Some b, Z.of_nat (length h) mod s)) v
                      (cb_sticky l) (cb_data l)) Hrep1) as (m2 & Hr2 & Hrep2);
    [simpl; lia.. | done |].
  exists m2. split; [exact Hr2 |]. cbn [cb_i cb_data] in Hrep2.
  rewrite <- app_assoc in Hrep2.
  replace (Z.to_nat (cb_i l + v)) with (Z.to_nat (cb_i l) + Z.to_nat v)%nat in Hrep2 by lia.
  rewrite <- drop_drop, take_take_drop in Hrep2.
  replace (Z.to_nat v + Z.to_nat (size - (cb_i l + v)))%nat
    with (Z.to_nat (size - cb_i l)) in Hrep2 by lia. done.
Qed.

Lemma inserts_inserts (i : nat) (xs ys l : list Z) :
  list_inserts (i + length xs) ys (list_inserts i xs l) = list_inserts i (xs ++ ys) l.
Proof.
  apply list_eq. intros j.
  destruct (decide (j < i)%nat).
  { rewrite !list_lookup_inserts_lt by lia. done. }
  destruct (decide (i + length (xs ++ ys) <= j)%nat) as [Hge | Hlt].
  { rewrite length_app in Hge. rewrite !list_lookup_inserts_ge; rewrite ?length_app; lia || done. }
  rewrite length_app in Hlt.
  destruct (decide (j < length l)%nat) as [Hj | Hj].
  2: { by rewrite !lookup_ge_None_2 by (rewrite ?length_inserts; lia). }
  rewrite (list_lookup_inserts _ i (xs ++ ys) j) by (rewrite ?length_app; lia).
  destruct (decide (j < i + length xs)%nat).
  - rewrite list_lookup_inserts_lt, list_lookup_inserts by lia.
    by rewrite lookup_app_l by lia.
  - rewrite list_lookup_inserts by (rewrite ?length_inserts; lia).
    rewrite lookup_app_r by lia. f_equal. lia.
Qed.

(** Two consecutive chunks of the history make one. *)
Lemma chunks_join i R v w (h l : list Z) :
  0 <= i -> 0 <= R -> 0 <= v -> 0 <= w -> R + v <= Z.of_nat (length h) ->
  list_inserts (Z.to_nat (i + v)) (take (Z.to_nat w) (drop (Z.to_nat (R + v)) h))
    (list_inserts (Z.to_nat i) (take (Z.to_nat v) (drop (Z.to_nat R) h)) l)
  = list_inserts (Z.to_nat i) (take (Z.to_nat (v + w)) (drop (Z.to_nat R) h)) l.
Proof.
  intros. rewrite !Z2Nat.inj_add by lia. rewrite <- drop_drop, <- take_take_drop.
  rewrite <- inserts_inserts. do 2 f_equal. rewrite length_take, length_drop. lia.
Qed.

Lemma read_loop p b s spins size h a fuel : forall m R l,
  cb_rep m p b s h R a None -> 0 <= cb_i l <= size -> size < 2 ^ 32 ->
  size <= Z.of_nat (length (cb_data l)) -> size - cb_i l < Z.of_nat fuel ->
  size - cb_i l <= Z.of_nat (length h) - R ->
  Z.of_nat (length h) + default 0 a - R <= s -> 0 <= default 0 a ->
  exists m', loop fuel (cb_step (S spins) (Some p) size true) l m
    = Done ((if cb_sticky l then - NO_OS_EOVERRUN else 0,
             list_inserts (Z.to_nat (cb_i l))
               (take (Z.to_nat (size - cb_i l)) (drop (Z.to_nat R) h)) (cb_data l)), m') /\
    cb_rep m' p b s h (R + (size - cb_i l)) a None.
Proof.
  induction fuel as [| fuel IH]; intros m R l Hrep Hi Hsz Hl Hf Hn Hd Ha; [lia |]. cbn [loop].
  destruct (decide (cb_i l = size)) as [E | E].
  { exists m. rewrite E, Z.sub_diag, Z.add_0_r. simpl. split; [| done].
    unfold cb_step. rewrite E, Z.ltb_irrefl. done. }
  assert (0 < s /\ 0 <= R) as [Hs HR] by (destruct Hrep as (? & ? & ? & ? & ?); lia).
  pose proof (Z.mod_pos_bound R s Hs).
  destruct (read_turn p b s spins size m h R a l Hrep) as (m1 & Hr & Hrep1); [lia.. |].
  rewrite (bind_done _ _ _ _ _ Hr). cbv iota. set (v := Z.min _ _) in *.
  destruct (IH _ _ (CbLoop (cb_i l + v) (Some (Some b, R mod s)) v (cb_sticky l)
      (list_inserts (Z.to_nat (cb_i l)) (take (Z.to_nat v) (drop (Z.to_nat R) h)) (cb_data l)))
      Hrep1) as (m2 & Hr2 & Hrep2);
    [cbn [cb_i cb_data]; rewrite ?length_inserts; lia.. |].
  exists m2. rewrite Hr2. cbn [cb_i cb_data cb_sticky] in *. split.
  - rewrite chunks_join by lia. by replace (v + (size - (cb_i l + v))) with (size - cb_i l) by lia.
  - by replace (R + (size - cb_i l)) with (R + v + (size - (cb_i l + v))) by lia.
Qed.

(** The reader is behind by more than the buffer and its index below the
    writer's: the case [no_os_cb_size] recognises. *)
Lemma cb_size_of_overrun s b W R a r :
  0 < s <= 2 ^ 31 -> 0 <= R -> s < W - R -> W / s - R / s < 2 ^ 32 ->
  cb_size_of (Cb s b (cb_pos s W a) (cb_pos s R r)) =
  if R mod s <? W mod s then (- NO_OS_EOVERRUN, s) else (0, s + W mod s - R mod s).
Proof.
  intros Hs HR Hd Hq. rewrite cb_size_of_eq. cbv zeta.
  pose proof (Z.div_mod W s). pose proof (Z.mod_pos_bound W s).
  pose proof (Z.div_mod R s). pose proof (Z.mod_pos_bound R s).
  assert (1 <= W / s - R / s) as Hq1 by nia.
  rewrite (wrap_small 32 (W / s - R / s)) by (unfold uint; lia).
  destruct (Z.ltb_spec 0 (W / s - R / s)); [| lia]. rewrite wrap_small by ulia.
  destruct (Z.ltb_spec (R mod s) (W mod s)), (Z.ltb_spec s (s + W mod s - R mod s)); done || lia.
Qed.

(** *** Runs of the interface, when nothing is overrun *)

Lemma cb_size_run m p b s h R a r :
  cb_rep m p b s h R a r -> Z.of_nat (length h) - R <= s ->
  no_os_cb_size (Some p) false m = Done ((0, Some (Z.of_nat (length h) - R)), m).
Proof.
  intros (arr & Hp & _ & Hs & _ & HR & _) Hd. unfold no_os_cb_size.
  rewrite (bind_done _ _ _ _ _ (desc_load _ _ _ Hp)). by rewrite cb_size_of_ok by lia.
Qed.

Lemma cb_write_run m p b s h R r data size spins fuel :
  cb_rep m p b s h R None r -> 0 < size < 2 ^ 32 -> size <= Z.of_nat (length data) ->
  size < Z.of_nat fuel ->
  exists m', no_os_cb_write (S spins) fuel (Some p) (Some data) size m = Done ((0, data), m') /\
    cb_rep m' p b s (h ++ take (Z.to_nat size) data) R None r.
Proof.
  intros Hrep Hsz Hd Hf. unfold no_os_cb_write, no_os_cb_operation, truthy.
  destruct (Z.eqb_spec size 0); [lia |].
  destruct (write_loop p b s spins size R r fuel m h (CbLoop 0 None 0 false data))
    as (m' & Hr & Hrep'); simpl; try done; try lia.
  exists m'. simpl in *. by rewrite Z.sub_0_r in Hrep'.
Qed.

Lemma cb_read_run m p b s h R a data size spins fuel :
  cb_rep m p b s h R a None -> 0 < size < 2 ^ 32 -> size <= Z.of_nat (length data) ->
  size < Z.of_nat fuel -> 0 <= default 0 a ->
  size <= Z.of_nat (length h) - R -> Z.of_nat (length h) + default 0 a - R <= s ->
  exists m', no_os_cb_read (S spins) fuel (Some p) (Some data) size m
    = Done ((0, list_inserts 0 (take (Z.to_nat size) (drop (Z.to_nat R) h)) data), m') /\
    cb_rep m' p b s h (R + size) a None.
Proof.
  intros Hrep Hsz Hd Hf Ha Hn Hok. unfold no_os_cb_read, no_os_cb_operation, truthy.
  destruct (Z.eqb_spec size 0); [lia |]. cbn [negb].
  destruct (read_loop p b s spins size h a fuel m R (CbLoop 0 None 0 false data))
    as (m' & Hr & Hrep'); simpl; try done; try lia.
  exists m'. simpl in *. by rewrite Z.sub_0_r in *.
Qed.

(** A read of an empty buffer. *)
Lemma cb_read_empty m p b s h data size spins fuel :
  cb_rep m p b s h (Z.of_nat (length h)) None None -> 0 < size < 2 ^ 32 ->
  exists m', no_os_cb_read (S spins) (S fuel) (Some p) (Some data) size m = Done ((-1, data), m') /\
    cb_rep m' p b s h (Z.of_nat (length h)) None None.
Proof.
  intros Hrep Hsz. unfold no_os_cb_read, no_os_cb_operation, truthy.
  destruct (Z.eqb_spec size 0); [lia |]. cbn [negb loop].
  destruct (prepare_read_empty p b s m h None (u32 (size - 0)) Hrep) as (m1 & Hr & _ & Hrep1).
  exists m1. split; [| done].
  assert (cb_step (S spins) (Some p) size true (CbLoop 0 None 0 false data) m = Done (inr (-1, data), m1)) as Hst.
  { unfold cb_step. cbn [cb_i cb_at cb_avail]. destruct (Z.ltb_spec 0 size); [| lia].
    by erewrite bind_done by (by eapply cb_prepare_spin_run). }
  by rewrite (bind_done _ _ _ _ _ Hst).
Qed.

(** *** What the operations leave alone *)

Section frame.
  Context (p b : positive) (c0 : cb_mem).

(** Other descriptors and other arrays are as in [c0], and nothing was
    allocated. *)
Record framed (c : cb_mem) : Prop := Framed {
  fr_descs : forall q, q <> p -> cells (descs c) !! q = cells (descs c0) !! q;
  fr_arrs : forall q, q <> b -> cells (arrs c) !! q = cells (arrs c0) !! q;
  fr_next : next_block (arrs c) = next_block (arrs c0);
  fr_oom : oom (arrs c) = oom (arrs c0);
  fr_desc : exists d, cells (descs c) !! p = Some d /\ cb_buff d = Some b
}.

Definition at_ok (a : option (ptr * Z)) : Prop :=
  match a with Some (q, _) => q = Some b | None => True end.

Lemma framed_load c : framed c ->
  sat True (on_descs (hload (Some p))) (fun d c' => framed c' /\ cb_buff d = Some b) c.
Proof using.
  intros H. destruct (fr_desc c H) as (d & Hd & Hb). by eapply sat_done; [apply (desc_load c p d Hd) |].
Qed.

Lemma framed_store c d : framed c -> cb_buff d = Some b ->
  sat True (on_descs (hstore (Some p) d)) (fun _ c' => framed c') c.
Proof using.
  intros [H1 H2 H3 H4 (d0 & Hd & _)] Hb. eapply sat_done; [apply (desc_store c p d0 d Hd) |].
  constructor; try done.
  - intros q Hq. cbn. rewrite lookup_insert_ne by done. by apply H1.
  - exists d. by rewrite set_desc_look.
Qed.

Lemma framed_start c d ret n is_read : framed c -> cb_buff d = Some b ->
  sat True (cb_start (Some p) d ret n is_read)
    (fun r c' => framed c' /\ at_ok (fst <$> r.2)) c.
Proof using.
  intros H Hb. unfold cb_start. apply sat_bind.
  eapply sat_mono; [apply framed_store; [done | by destruct is_read] |]. intros [] c' H'. by apply sat_ret.
Qed.

Lemma framed_prepare c n nl is_read : framed c ->
  sat True (no_os_cb_prepare_async_operation (Some p) n nl is_read)
    (fun r c' => framed c' /\ at_ok (fst <$> r.2)) c.
Proof using.
  intros H. unfold no_os_cb_prepare_async_operation. destruct nl; [by apply sat_ret |].
  apply sat_bind. eapply sat_mono; [by apply framed_load |]. intros d c' [H' Hb].
  destruct (async_started _); [by apply sat_ret |]. destruct is_read; [| by apply framed_start].
  destruct (cb_size_of d) as [ret v]. set (d' := if _ =? _ then _ else d).
  assert (cb_buff d' = Some b) as Hb' by (subst d'; by destruct (_ =? _)).
  apply sat_bind. eapply sat_mono; [by apply framed_store |]. intros [] c2 H2.
  destruct (v =? 0); [by apply sat_ret |]. destruct (_ =? 0); [by apply sat_ret |]. by apply framed_start.
Qed.

Lemma framed_end c is_read : framed c ->
  sat True (no_os_cb_end_async_operation (Some p) is_read) (fun _ c' => framed c') c.
Proof using.
  intros H. unfold no_os_cb_end_async_operation. apply sat_bind.
  eapply sat_mono; [by apply framed_load |]. intros d c' [H' Hb].
  destruct (negb _); [by apply sat_ret |].
  destruct (_ <=? _); [apply sat_bind, sat_lift; [done.. |]; intros n _ |]; apply sat_bind;
    (eapply sat_mono; [apply framed_store; [done | by destruct is_read] |]); intros [] c2 H2; by apply sat_ret.
Qed.

Lemma framed_copy c is_read a n i data : framed c -> at_ok a ->
  sat True (cb_copy is_read a n i data) (fun _ c' => framed c') c.
Proof using.
  intros H Ha. destruct a as [[q off] |]; [| done]. cbn in Ha. subst q. unfold cb_copy.
  assert (forall arr, sat True (on_arrs (hstore (Some b) arr)) (fun _ c' => framed c') c) as Hst.
  { intros arr. destruct (cells (arrs c) !! b) as [arr0 |] eqn:E.
    - eapply sat_done; [apply (arr_store c b arr0 arr E) |]. destruct H as [H1 H2 H3 H4 H5].
      constructor; try done. intros q Hq. cbn. rewrite lookup_insert_ne by done. by apply H2.
    - unfold triple, on_arrs, zoom, hstore. by rewrite E. }
  apply sat_bind. destruct (cells (arrs c) !! b) as [arr |] eqn:E.
  - eapply sat_done; [apply (arr_load c b arr E) |]. destruct is_read.
    + apply sat_bind, sat_the; [done |]. intros xs _. by apply sat_the.
    + apply sat_bind, sat_the; [done |]. intros xs _. apply sat_bind, sat_the; [done |].
      intros arr' _. apply sat_bind. eapply sat_mono; [apply Hst |]. intros [] c' H'. by apply sat_ret.
  - unfold triple, on_arrs, zoom, hload. cbn. by rewrite E.
Qed.

(** A whole transfer. *)
Lemma framed_operation c spins fuel data size is_read : framed c ->
  sat True (no_os_cb_operation spins fuel (Some p) data size is_read) (fun _ c' => framed c') c.
Proof using.
  intros H. unfold no_os_cb_operation. destruct data as [data |]; [| by apply sat_ret].
  destruct (negb _); [by apply sat_ret |].
  apply (sat_loop (fun l c => framed c /\ at_ok (cb_at l))); [done | | done].
  clear c H. intros l c [H Ha]. unfold cb_step. destruct (_ <? _); [| by apply sat_ret].
  apply sat_bind. unfold cb_prepare_spin.
  eapply sat_mono with (P := fun r c => framed c /\ at_ok r.1.2).
  { apply (sat_loop (fun x c => framed c /\ at_ok x.1)); [done | | done].
    intros [a v] c1 [H1 Ha1]. apply sat_bind. eapply sat_mono; [by apply framed_prepare |].
    intros [ret out] c2 [H2 Ha2]. destruct out as [[[q off] w] |]; cbn in Ha1, Ha2 |- *;
      destruct (_ || _); by split. }
  intros [[ret a] v] c1 [H1 Ha1]. cbn in Ha1. destruct (v =? 0); [by apply sat_ret |].
  apply sat_bind. eapply sat_mono; [by apply framed_copy |]. intros data' c2 H2.
  apply sat_bind. eapply sat_mono; [by apply framed_end |]. intros z c3 H3. by apply sat_ret.
Qed.
End frame.

Lemma cb_rep_framed p b c s h R a r : cb_rep c p b s h R a r -> framed p b c c.
Proof. intros (arr & Hp & _). constructor; try done. by eexists. Qed.

(** *** A descriptor whose array was freed *)

Lemma on_descs_arrs {A} (c : cmd (heap no_os_circular_buffer) A) x m m1 B :
  on_descs c m = Done (x, m1) -> on_descs c (CbMem (descs m) B) = Done (x, CbMem (descs m1) B).
Proof.
  unfold on_descs, zoom. cbn. destruct (c (descs m)) as [[y D] | |]; [| done..].
  intros [= <- <-]. done.
Qed.

(** Preparing does not look at the array. *)
Lemma prepare_arrs p n is_read x m m1 B :
  no_os_cb_prepare_async_operation (Some p) n false is_read m = Done (x, m1) ->
  no_os_cb_prepare_async_operation (Some p) n false is_read (CbMem (descs m) B)
  = Done (x, CbMem (descs m1) B).
Proof.
  unfold no_os_cb_prepare_async_operation. intros (d & m2 & Hl & H)%bind_inv.
  rewrite (bind_done _ _ _ _ _ (on_descs_arrs _ _ _ _ B Hl)).
  assert (forall d ret n is_read x m m1, cb_start (Some p) d ret n is_read m = Done (x, m1) ->
    cb_start (Some p) d ret n is_read (CbMem (descs m) B) = Done (x, CbMem (descs m1) B)) as Hstart.
  { clear. intros d ret n is_read x m m1 ([] & m2 & Hs & H)%bind_inv. unfold cb_start.
    rewrite (bind_done _ _ _ _ _ (on_descs_arrs _ _ _ _ B Hs)). injection H as <- <-. done. }
  destruct (async_started _); [by injection H as <- <- |]. destruct is_read; [| by apply Hstart].
  destruct (cb_size_of d) as [ret v]. apply bind_inv in H as ([] & m3 & Hs & H).
  rewrite (bind_done _ _ _ _ _ (on_descs_arrs _ _ _ _ B Hs)).
  destruct (v =? 0); [by injection H as <- <- |]. destruct (_ =? 0); [by injection H as <- <- |].
  by apply Hstart.
Qed.

(** A transfer that finds something to do uses the freed block. *)
Lemma freed_step p b spins size is_read ret off v m m1 B l :
  no_os_cb_prepare_async_operation (Some p) (u32 (size - cb_i l)) false is_read m
    = Done ((ret, Some (Some b, off, v)), m1) ->
  ret <> - EBUSY -> ret <> - EAGAIN -> v <> 0 -> cb_i l < size -> cells B !! b = None ->
  cb_step (S spins) (Some p) size is_read l (CbMem (descs m) B) = Undef.
Proof.
  intros Hr H1 H2 Hv Hi HB. unfold cb_step. destruct (Z.ltb_spec (cb_i l) size); [| lia].
  apply (prepare_arrs _ _ _ _ _ _ B) in Hr.
  erewrite bind_done by (by eapply cb_prepare_spin_run). cbv iota. apply Z.eqb_neq in Hv as ->.
  unfold cb_copy. unfold mbind, cmd_bind, on_arrs, zoom, hload. cbn. by rewrite HB.
Qed.

Lemma freed_read p b s c h R data n spins fuel B :
  cb_rep c p b s h R None None -> cells B !! b = None -> 0 < n < 2 ^ 32 ->
  0 < Z.of_nat (length h) - R <= s ->
  no_os_cb_read (S spins) (S fuel) (Some p) (Some data) n (CbMem (descs c) B) = Undef.
Proof.
  intros Hrep HB Hn Hd. unfold no_os_cb_read, no_os_cb_operation, truthy.
  destruct (Z.eqb_spec n 0); [lia |]. cbn [negb loop]. rewrite bind_undef; [done |].
  destruct (prepare_read_run p b s c h R None (u32 (n - 0)) Hrep) as (c1 & Hr & _);
    [rewrite Z.sub_0_r, wrap_small; ulia | lia |].
  assert (0 < s) by (destruct Hrep as (? & ? & ? & ? & ?); lia). pose proof (Z.mod_pos_bound R s).
  eapply (freed_step p b); [exact Hr | done | done | | cbn; lia | done].
  rewrite Z.sub_0_r, wrap_small by ulia. lia.
Qed.

Lemma freed_write p b s c h R r data n spins fuel B :
  cb_rep c p b s h R None r -> cells B !! b = None -> 0 < n < 2 ^ 32 ->
  no_os_cb_write (S spins) (S fuel) (Some p) (Some data) n (CbMem (descs c) B) = Undef.
Proof.
  intros Hrep HB Hn. unfold no_os_cb_write, no_os_cb_operation, truthy.
  destruct (Z.eqb_spec n 0); [lia |]. cbn [negb loop]. rewrite bind_undef; [done |].
  destruct (prepare_write_run p b s c h R r (u32 (n - 0)) Hrep) as (c1 & Hr & _);
    [rewrite Z.sub_0_r, wrap_small; ulia |].
  assert (0 < s) by (destruct Hrep as (? & ? & ? & ? & ?); lia).
  pose proof (Z.mod_pos_bound (Z.of_nat (length h)) s).
  eapply (freed_step p b); [exact Hr | done | done | | cbn; lia | done].
  rewrite Z.sub_0_r, wrap_small by ulia. lia.
Qed.

(** ** Properties *)

(** The size is the number of unread bytes as long as at most a buffer
    of them is unread.  Past that the overrun is reported when the write index
    is ahead of the read index; when it is not, the code cannot tell how many
    laps it lost and reports the distance of the indices as if nothing were
    lost. *)
Theorem no_os_cb_size_correct m p b s h R a r :
  cb_rep m p b s h R a r ->
  let W := Z.of_nat (length h) in
  (W - R <= s -> no_os_cb_size (Some p) false m = Done ((0, Some (W - R)), m)) /\
  (s < W - R -> W / s - R / s < 2 ^ 32 ->
     no_os_cb_size (Some p) false m =
     Done (if R mod s <? W mod s then ((- NO_OS_EOVERRUN, Some s), m)
           else ((0, Some (s + W mod s - R mod s)), m))).
Proof.
  intros Hrep W. split; intros Hd; [by eapply cb_size_run |]. intros Hq.
  destruct Hrep as (arr & Hp & _ & Hs & _ & HR & _). fold W in Hp, HR. unfold no_os_cb_size.
  rewrite (bind_done _ _ _ _ _ (desc_load _ _ _ Hp)).
  rewrite cb_size_of_overrun by lia. by destruct (_ <? _).
Qed.

(** A write of [size] bytes into a buffer with no write pending takes
    them all, whatever the size of the buffer, and returns 0; the last buffer
    of them is what the ring holds. *)
Theorem no_os_cb_write_correct m p b s h R r data size spins fuel :
  cb_rep m p b s h R None r -> 0 < size < 2 ^ 32 -> size <= Z.of_nat (length data) ->
  size < Z.of_nat fuel ->
  exists m', no_os_cb_write (S spins) fuel (Some p) (Some data) size m = Done ((0, data), m') /\
    cb_rep m' p b s (h ++ take (Z.to_nat size) data) R None r.
Proof. apply cb_write_run. Qed.

(** A read of no more bytes than are unread returns 0 and the oldest
    unread bytes; after an overrun that the indices show, it returns
    -NO_OS_EOVERRUN and the oldest bytes the ring still holds. *)
Theorem no_os_cb_read_correct m p b s h R a data size spins fuel :
  cb_rep m p b s h R a None -> 0 < size < 2 ^ 32 -> size <= Z.of_nat (length data) ->
  size < Z.of_nat fuel -> 0 <= default 0 a ->
  let W := Z.of_nat (length h) in
  (size <= W - R -> W + default 0 a - R <= s ->
   exists m', no_os_cb_read (S spins) fuel (Some p) (Some data) size m
     = Done ((0, list_inserts 0 (take (Z.to_nat size) (drop (Z.to_nat R) h)) data), m') /\
     cb_rep m' p b s h (R + size) a None) /\
  (s < W - R -> W / s - R / s < 2 ^ 32 -> R mod s < W mod s -> a = None -> size <= s ->
   exists m', no_os_cb_read (S spins) fuel (Some p) (Some data) size m
     = Done ((- NO_OS_EOVERRUN,
              list_inserts 0 (take (Z.to_nat size) (drop (Z.to_nat (W - s)) h)) data), m') /\
     cb_rep m' p b s h (W - s + size) a None).
Proof.
  intros Hrep Hsz Hd Hf Ha W. split; [by intros; apply cb_read_run |].
  unfold no_os_cb_read, no_os_cb_operation, truthy. destruct (Z.eqb_spec size 0); [lia |]. cbn [negb].
  intros Hov Hq Hlt -> Hss. simpl in Ha.
  assert (0 < s <= 2 ^ 31 /\ 0 <= R) as [Hs HR] by (destruct Hrep as (? & ? & ? & ? & ?); lia).
  destruct fuel as [| fuel]; [lia |]. cbn [loop].
  destruct (prepare_read_overrun p b s m h R None size Hrep) as (m1 & Hr & _ & Hrep1); [lia.. | |].
  { rewrite cb_size_of_overrun by (done || lia). fold W. by apply Z.ltb_lt in Hlt as ->. }
  fold W in Hr, Hrep1. set (v := Z.min _ _) in *.
  pose proof (Z.mod_pos_bound (W - s) s).
  destruct (read_turn_at p b s spins size m m1 h (W - s) None (CbLoop 0 None 0 false data)
              (- NO_OS_EOVERRUN) v) as (m2 & Hr2 & Hrep2); cbn [cb_i cb_data default from_option id]; try done; try lia.
  { intros at0 avail0. rewrite Z.sub_0_r.
    by apply (cb_prepare_spin_run p spins _ _ _ _ _ _ _ _ Hr). }
  rewrite (bind_done _ _ _ _ _ Hr2). rewrite Z.eqb_refl. cbv iota.
  destruct (read_loop p b s spins size h None fuel m2 (W - s + v)
    (CbLoop (0 + v) (Some (Some b, (W - s) mod s)) v true
       (list_inserts 0 (take (Z.to_nat v) (drop (Z.to_nat (W - s)) h)) data)) Hrep2)
    as (m3 & Hr3 & Hrep3); cbn [cb_i cb_data default from_option id]; rewrite ?length_inserts; try lia.
  exists m3. cbn [cb_i cb_data cb_sticky] in Hr3, Hrep3. split.
  + etrans; [exact Hr3 |]. change 0%nat with (Z.to_nat 0) at 2. rewrite chunks_join by lia.
    by replace (v + (size - (0 + v))) with size by lia.
  + by replace (W - s + size) with (W - s + v + (size - (0 + v))) by lia.
Qed.

(** *** Reading past the unread bytes *)

(** The preparation that finds the buffer empty leaves [buff] and
    [available_size] as the turn before set them, so the loop goes on copying
    the same bytes. *)
Lemma stale_turn p b s spins size m h l arr off xs :
  cb_rep m p b s h (Z.of_nat (length h)) None None -> cells (arrs m) !! b = Some arr ->
  mem_read arr off (cb_avail l) = Some xs -> cb_at l = Some (Some b, off) -> cb_avail l <> 0 ->
  cb_i l < size ->
  exists m', arrs m' = arrs m /\ cb_rep m' p b s h (Z.of_nat (length h)) None None /\
    cb_step (S spins) (Some p) size true l m
    = match mem_write (cb_data l) (cb_i l) xs with
      | Some data => Done (inl (CbLoop (u32 (cb_i l + cb_avail l)) (cb_at l) (cb_avail l)
                                  (cb_sticky l) data), m')
      | None => Undef
      end.
Proof.
  intros Hrep Hb Hxs Hat Hav Hi.
  destruct (prepare_read_empty p b s m h None (u32 (size - cb_i l)) Hrep) as (m1 & Hr & Ha & Hrep1).
  exists m1. splits; [done.. |]. unfold cb_step. destruct (Z.ltb_spec (cb_i l) size); [| lia].
  erewrite bind_done by (eapply cb_prepare_spin_run; done). cbv iota.
  destruct (Z.eqb_spec (cb_avail l) 0); [done |]. rewrite Hat. unfold cb_copy.
  rewrite bind_assoc. erewrite bind_done by (apply arr_load; by rewrite Ha).
  rewrite bind_assoc, Hxs. erewrite bind_done by done.
  destruct (mem_write (cb_data l) (cb_i l) xs) as [data |]; [| done].
  erewrite bind_done by done. destruct Hrep1 as (arr1 & Hp & _).
  erewrite bind_done; [done |]. unfold no_os_cb_end_async_operation.
  erewrite bind_done by by apply desc_load. done.
Qed.

Lemma concat_replicate_S (k : nat) (xs : list Z) :
  concat (replicate (S k) xs) = xs ++ concat (replicate k xs).
Proof. done. Qed.

Lemma stale_loop p b s spins size h arr off d xs fuel : forall m l,
  cb_rep m p b s h (Z.of_nat (length h)) None None -> cells (arrs m) !! b = Some arr ->
  mem_read arr off d = Some xs -> Z.of_nat (length xs) = d ->
  cb_at l = Some (Some b, off) -> cb_avail l = d -> 0 < d -> cb_sticky l = false ->
  0 <= cb_i l <= size -> size < 2 ^ 32 -> Z.of_nat (length (cb_data l)) = size ->
  size - cb_i l < Z.of_nat fuel ->
  if (size - cb_i l) mod d =? 0
  then exists m', loop fuel (cb_step (S spins) (Some p) size true) l m
         = Done ((0, list_inserts (Z.to_nat (cb_i l))
                       (concat (replicate (Z.to_nat ((size - cb_i l) / d)) xs)) (cb_data l)), m')
  else loop fuel (cb_step (S spins) (Some p) size true) l m = Undef.
Proof.
  induction fuel as [| fuel IH]; intros m l Hrep Hb Hxs Hlx Hat Hav Hd Hst Hi Hsz Hl Hf; [lia |].
  cbn [loop]. destruct (decide (cb_i l = size)) as [E | E].
  { rewrite E, Z.sub_diag, Z.mod_0_l, Z.div_0_l by lia. simpl. exists m. unfold cb_step.
    by rewrite E, Z.ltb_irrefl, Hst. }
  rewrite <- Hav in Hxs.
  destruct (stale_turn p b s spins size m h l arr off xs) as (m1 & Ha & Hrep1 & Hr); [done || lia.. |].
  rewrite Hav in Hxs, Hr. destruct (Z_le_gt_dec (cb_i l + d) size) as [Hle | Hgt].
  - rewrite mem_write_done, wrap_small in Hr by (done || lia || ulia).
    rewrite (bind_done _ _ _ _ _ Hr). cbv iota.
    specialize (IH m1 (CbLoop (cb_i l + d) (cb_at l) d (cb_sticky l)
                         (list_inserts (Z.to_nat (cb_i l)) xs (cb_data l))) Hrep1).
    rewrite Ha in IH. cbn [cb_i cb_at cb_avail cb_sticky cb_data] in IH.
    specialize (IH Hb Hxs Hlx Hat eq_refl Hd Hst ltac:(lia) Hsz).
    rewrite length_inserts in IH. specialize (IH Hl ltac:(lia)).
    replace (size - cb_i l) with (size - (cb_i l + d) + 1 * d) by lia.
    rewrite Z.mod_add, Z.div_add by lia.
    destruct (_ =? 0); [| exact IH]. destruct IH as [m' IH]. exists m'. etrans; [exact IH |].
    assert (0 <= (size - (cb_i l + d)) / d) by (apply Z.div_pos; lia).
    replace (Z.to_nat ((size - (cb_i l + d)) / d + 1))
      with (S (Z.to_nat ((size - (cb_i l + d)) / d))) by lia.
    rewrite concat_replicate_S, <- inserts_inserts. do 4 f_equal. lia.
  - rewrite mem_write_None in Hr by lia.
    rewrite (Z.mod_small (size - cb_i l) d) by lia. destruct (Z.eqb_spec (size - cb_i l) 0); [lia |].
    unfold mbind, cmd_bind. by rewrite Hr.
Qed.

Lemma length_copies (k : nat) (xs : list Z) :
  length (concat (replicate k xs)) = (k * length xs)%nat.
Proof. induction k as [| k IH]; [done |]. rewrite concat_replicate_S, length_app, IH. done. Qed.

Lemma inserts_all (ys l : list Z) : length ys = length l -> list_inserts 0 ys l = ys.
Proof.
  intros H. apply list_eq. intros j. destruct (decide (j < length ys)%nat).
  - rewrite list_lookup_inserts by lia. f_equal. lia.
  - by rewrite !lookup_ge_None_2 by (rewrite ?length_inserts; lia).
Qed.

(** A read of more bytes than are unread does not fail: when the unread
    bytes [xs] do not wrap, it returns 0 and fills the caller's [size] bytes
    with copies of [xs], and when the last copy does not fit it writes past the
    end of the caller's bytes. *)
Theorem no_os_cb_read_short m p b s h R data size spins fuel :
  cb_rep m p b s h R None None -> 0 < size < 2 ^ 32 -> Z.of_nat (length data) = size ->
  size < Z.of_nat fuel ->
  let d := Z.of_nat (length h) - R in
  0 < d < size -> d <= s -> R mod s + d <= s ->
  if size mod d =? 0
  then exists m', no_os_cb_read (S spins) fuel (Some p) (Some data) size m
         = Done ((0, concat (replicate (Z.to_nat (size / d)) (drop (Z.to_nat R) h))), m')
  else no_os_cb_read (S spins) fuel (Some p) (Some data) size m = Undef.
Proof.
  intros Hrep Hsz Hl Hf d Hd Hds Hw. unfold no_os_cb_read, no_os_cb_operation, truthy.
  destruct (Z.eqb_spec size 0); [lia |]. cbn [negb].
  destruct fuel as [| fuel]; [lia |]. cbn [loop].
  assert (0 < s /\ 0 <= R) as [Hs HR] by (destruct Hrep as (? & ? & ? & ? & ?); lia).
  destruct (read_turn p b s spins size m h R None (CbLoop 0 None 0 false data) Hrep)
    as (m1 & Hr & Hrep1); cbn [cb_i cb_data default from_option id]; try lia.
  cbn [cb_i cb_data cb_sticky] in Hr, Hrep1.
  rewrite !Z.sub_0_r, (Z.min_r size), Z.min_l in Hr by lia.
  rewrite !Z.sub_0_r, (Z.min_r size), Z.min_l in Hrep1 by lia. fold d in Hr, Hrep1.
  rewrite (bind_done _ _ _ _ _ Hr). cbv iota.
  replace (R + d) with (Z.of_nat (length h)) in Hrep1 by lia.
  assert (exists arr1, cells (arrs m1) !! b = Some arr1 /\
            mem_read arr1 (R mod s) d = Some (drop (Z.to_nat R) h)) as (arr1 & Hb1 & Hx).
  { destruct Hrep1 as (arr1 & _ & Hb1 & _ & Hl1 & _ & Hh1). exists arr1. split; [done |].
    pose proof (Z.mod_pos_bound R s). rewrite mem_read_done by lia.
    rewrite (cb_holds_read s ltac:(lia) arr1 h _ R d Hh1) by (simpl; lia).
    rewrite take_ge; [done |]. rewrite length_drop. lia. }
  set (xs := drop (Z.to_nat R) h) in *.
  assert (Z.of_nat (length xs) = d) as Hlx by (subst xs; rewrite length_drop; lia).
  rewrite (take_ge xs) by lia.
  pose proof (stale_loop p b s spins size h arr1 (R mod s) d xs fuel m1
    (CbLoop (0 + d) (Some (Some b, R mod s)) d false (list_inserts (Z.to_nat 0) xs data))
    Hrep1 Hb1 Hx Hlx eq_refl eq_refl) as Hst.
  cbn [cb_i cb_data] in Hst. rewrite length_inserts in Hst.
  specialize (Hst ltac:(lia) eq_refl ltac:(lia) ltac:(lia) Hl ltac:(lia)).
  assert (size mod d = (size - (0 + d)) mod d) as ->.
  { rewrite <- (Z.mod_add (size - (0 + d)) 1) by lia. f_equal. lia. }
  destruct ((size - (0 + d)) mod d =? 0) eqn:Em; [| exact Hst].
  destruct Hst as [m' Hst]. exists m'. etrans; [exact Hst |]. do 3 f_equal.
  apply Z.eqb_eq in Em. pose proof (Z.div_mod (size - (0 + d)) d).
  assert (size / d = (size - (0 + d)) / d + 1) as ->.
  { rewrite <- Z.div_add by lia. f_equal. lia. }
  assert (0 <= (size - (0 + d)) / d) by (apply Z.div_pos; lia).
  set (k := (size - (0 + d)) / d) in *.
  replace (Z.to_nat (k + 1)) with (S (Z.to_nat k)) by lia.
  replace (Z.to_nat (0 + d)) with (0 + length xs)%nat by lia. change (Z.to_nat 0) with 0%nat.
  rewrite inserts_inserts, <- concat_replicate_S. apply inserts_all.
  rewrite length_copies. nia.
Qed.

(** *** A writer and a reader that transfer asynchronously *)

(** The buffer, the regions the two sides hold between preparing and ending
    (an offset and a size), and the bytes sent and received so far. *)
Record cb_sys : Type := CbSys {
  sys_mem : cb_mem;
  sys_wclaim : option (Z * Z);
  sys_rclaim : option (Z * Z);
  sys_sent : list Z;
  sys_got : list Z
}.

(** One step of either side, in any order: a call of the interface, as a whole,
    and stores anywhere in the region of a pending write.  The writer asks for no
    more bytes than the reader has freed. *)
Inductive cb_sys_step (p b : positive) (s : Z) : cb_sys -> cb_sys -> Prop :=
  | sys_prepare_write m m' rc sent got n off v :
      0 < n <= s - (Z.of_nat (length sent) - Z.of_nat (length got)) ->
      no_os_cb_prepare_async_write (Some p) n false m = Done ((0, Some (Some b, off, v)), m') ->
      cb_sys_step p b s (CbSys m None rc sent got) (CbSys m' (Some (off, v)) rc sent got)
  | sys_fill m rc sent got off v arr i x :
      cells (arrs m) !! b = Some arr -> off <= i < off + v ->
      cb_sys_step p b s (CbSys m (Some (off, v)) rc sent got)
        (CbSys (set_arr m b (<[Z.to_nat i := x]> arr)) (Some (off, v)) rc sent got)
  | sys_end_write m m' rc sent got off v arr xs :
      cells (arrs m) !! b = Some arr -> mem_read arr off v = Some xs ->
      no_os_cb_end_async_write (Some p) m = Done (0, m') ->
      cb_sys_step p b s (CbSys m (Some (off, v)) rc sent got) (CbSys m' None rc (sent ++ xs) got)
  | sys_prepare_read m m' wc sent got n off v :
      0 < n ->
      no_os_cb_prepare_async_read (Some p) n false m = Done ((0, Some (Some b, off, v)), m') ->
      cb_sys_step p b s (CbSys m wc None sent got) (CbSys m' wc (Some (off, v)) sent got)
  | sys_prepare_read_none m m' wc sent got n :
      0 < n ->
      no_os_cb_prepare_async_read (Some p) n false m = Done ((0, None), m') ->
      cb_sys_step p b s (CbSys m wc None sent got) (CbSys m' wc None sent got)
  | sys_end_read m m' wc sent got off v arr xs :
      cells (arrs m) !! b = Some arr -> mem_read arr off v = Some xs ->
      no_os_cb_end_async_read (Some p) m = Done (0, m') ->
      cb_sys_step p b s (CbSys m wc (Some (off, v)) sent got) (CbSys m' wc None sent (got ++ xs)).

(** A claim is the region the descriptor has in flight at position [n]. *)
Definition claim_ok (s n : Z) (c : option (Z * Z)) : Prop :=
  match c with
  | None => True
  | Some (off, v) => off = n mod s /\ 0 <= v /\ n mod s + v <= s
  end.

Definition cb_sys_inv (p b : positive) (s : Z) (y : cb_sys) : Prop :=
  let W := Z.of_nat (length (sys_sent y)) in
  let R := Z.of_nat (length (sys_got y)) in
  cb_rep (sys_mem y) p b s (sys_sent y) R (snd <$> sys_wclaim y) (snd <$> sys_rclaim y) /\
  sys_got y = take (length (sys_got y)) (sys_sent y) /\
  claim_ok s W (sys_wclaim y) /\ claim_ok s R (sys_rclaim y) /\
  W + default 0 (snd <$> sys_wclaim y) - R <= s /\
  R + default 0 (snd <$> sys_rclaim y) <= W.

(** Stores in the region of a pending write touch no byte that is held. *)
Lemma cb_rep_fill m p b s h R v r arr i x :
  cb_rep m p b s h R (Some v) r -> cells (arrs m) !! b = Some arr ->
  Z.of_nat (length h) mod s + v <= s ->
  Z.of_nat (length h) mod s <= i < Z.of_nat (length h) mod s + v ->
  cb_rep (set_arr m b (<[Z.to_nat i := x]> arr)) p b s h R (Some v) r.
Proof.
  intros (arr' & Hp & Hb & Hs & Hl & HR & Hh) Hb' Hw Hi.
  assert (arr' = arr) as -> by congruence.
  exists (<[Z.to_nat i := x]> arr). rewrite set_arr_look, length_insert.
  splits; try (done || lia). intros k Hk0 Hk. cbn [default from_option id] in *.
  pose proof (Z.mod_pos_bound (Z.of_nat (length h)) s). pose proof (Z.mod_pos_bound k s).
  destruct (mod_outside s ltac:(lia) (Z.of_nat (length h)) v k); try lia;
    rewrite list_lookup_insert_ne by lia; apply Hh; lia.
Qed.

Lemma cb_rep_fill_bytes m p b s h R v r arr xs :
  cb_rep m p b s h R (Some v) r -> cells (arrs m) !! b = Some arr ->
  Z.of_nat (length h) mod s + v <= s -> Z.of_nat (length xs) <= v ->
  cb_rep (set_arr m b (list_inserts (Z.to_nat (Z.of_nat (length h) mod s)) xs arr)) p b s h R (Some v) r.
Proof.
  intros (arr' & Hp & Hb & Hs & Hl & HR & Hh) Hb' Hw Hx.
  assert (arr' = arr) as -> by congruence.
  exists (list_inserts (Z.to_nat (Z.of_nat (length h) mod s)) xs arr). rewrite set_arr_look, length_inserts.
  splits; try (done || lia). intros k Hk0 Hk. cbn [default from_option id] in *.
  pose proof (Z.mod_pos_bound (Z.of_nat (length h)) s). pose proof (Z.mod_pos_bound k s).
  destruct (mod_outside s ltac:(lia) (Z.of_nat (length h)) v k); try lia;
    [rewrite list_lookup_inserts_lt by lia | rewrite list_lookup_inserts_ge by lia]; apply Hh; lia.
Qed.

Lemma inserts_same (l : list Z) (off n : nat) :
  (off + n <= length l)%nat -> list_inserts off (take n (drop off l)) l = l.
Proof.
  intros H. apply list_eq. intros j.
  destruct (decide (j < off)%nat); [by rewrite list_lookup_inserts_lt |].
  assert (length (take n (drop off l)) = n) as Hn by (rewrite length_take, length_drop; lia).
  destruct (decide (j < off + n)%nat).
  - rewrite list_lookup_inserts by lia. rewrite lookup_take_lt, lookup_drop by lia. f_equal. lia.
  - apply list_lookup_inserts_ge. lia.
Qed.

(** Ending a write hands over the bytes of its region. *)
Lemma cb_rep_end_write m m' p b s h R v r arr xs :
  cb_rep m p b s h R (Some v) r -> cells (arrs m) !! b = Some arr ->
  mem_read arr (Z.of_nat (length h) mod s) v = Some xs -> 0 <= v ->
  Z.of_nat (length h) mod s + v <= s ->
  no_os_cb_end_async_write (Some p) m = Done (0, m') ->
  cb_rep m' p b s (h ++ xs) R None r /\ Z.of_nat (length xs) = v.
Proof.
  intros (arr' & Hp & Hb & Hs & Hl & HR & Hh) Hb' Hx Hv Hw Hend.
  assert (arr' = arr) as -> by congruence.
  pose proof (Z.mod_pos_bound (Z.of_nat (length h)) s).
  rewrite mem_read_done in Hx by lia. injection Hx as Hx.
  assert (Z.of_nat (length xs) = v) as Hlx by (rewrite <- Hx, length_take, length_drop; lia).
  split; [| done]. rewrite <- Hlx in Hp.
  destruct (end_write_run p b s m h R r arr xs) as (m2 & Hr & _ & Hrep2); try (done || lia).
  - rewrite <- (inserts_same arr (Z.to_nat (Z.of_nat (length h) mod s)) (Z.to_nat v)) by lia.
    rewrite Hx. apply cb_holds_write; try lia. by rewrite Hlx.
  - unfold no_os_cb_end_async_write in Hend. congruence.
Qed.

(** A whole block: prepared, filled by the writer and ended. *)
Lemma cb_block_write m p b s h R r bytes :
  cb_rep m p b s h R None r -> bytes <> [] ->
  let W := Z.of_nat (length h) in
  W mod s + Z.of_nat (length bytes) <= s ->
  exists m1 arr m2, no_os_cb_prepare_async_write (Some p) (Z.of_nat (length bytes)) false m
      = Done ((0, Some (Some b, W mod s, Z.of_nat (length bytes))), m1) /\
    cells (arrs m1) !! b = Some arr /\
    mem_write arr (W mod s) bytes = Some (list_inserts (Z.to_nat (W mod s)) bytes arr) /\
    no_os_cb_end_async_write (Some p) (set_arr m1 b (list_inserts (Z.to_nat (W mod s)) bytes arr))
      = Done (0, m2) /\ framed p b m m2 /\ cb_rep m2 p b s (h ++ bytes) R None r.
Proof.
  intros Hrep Hne W Hw.
  assert (0 < Z.of_nat (length bytes)) by (destruct bytes; [done | cbn; lia]).
  destruct (prepare_write_run p b s m h R r (Z.of_nat (length bytes)) Hrep) as (m1 & Hr & Ha & Hrep1); [lia |].
  fold W in Hr, Hrep1. rewrite Z.min_l in Hr, Hrep1 by lia.
  destruct (Hrep1) as (arr & Hp & Hb & Hs & Hl & HR & _).
  pose proof (Z.mod_pos_bound W s).
  pose proof (cb_rep_fill_bytes _ _ _ _ _ _ _ _ arr bytes Hrep1 Hb Hw ltac:(lia)) as Hrep2. fold W in Hrep2.
  set (m1' := set_arr m1 b _) in *. destruct (Hrep2) as (arr2 & Hp2 & Hb2 & _).
  unfold m1' in Hb2. rewrite set_arr_look in Hb2. injection Hb2 as <-.
  assert (exists m2, no_os_cb_end_async_write (Some p) m1' = Done (0, m2)) as (m2 & He)
    by (eexists; by eapply end_run; try done; cbn; lia).
  exists m1, arr, m2. splits; try done; [by apply mem_write_done; lia | |].
  { pose proof (cb_rep_framed _ _ _ _ _ _ _ _ Hrep) as Hfr.
    destruct (sat_inv _ _ _ _ _ (framed_prepare p b _ _ _ _ _ Hfr) Hr) as [[F1 F2 F3 F4 F5] _].
    assert (framed p b m m1') as Hfr1; [| exact (sat_inv _ _ _ _ _ (framed_end p b _ _ _ Hfr1) He)].
    constructor; try done. intros q Hq. cbn. rewrite lookup_insert_ne by done. by apply F2. }
  apply (cb_rep_end_write m1' m2 p b s h R (Z.of_nat (length bytes)) r
    (list_inserts (Z.to_nat (W mod s)) bytes arr) bytes Hrep2); try done; [| | lia].
  - apply set_arr_look.
  - fold W. rewrite mem_read_done by (rewrite ?length_inserts; lia). f_equal. apply list_eq. intros k.
    destruct (decide (k < length bytes)%nat).
    + rewrite lookup_take_lt, lookup_drop, list_lookup_inserts by lia. f_equal. lia.
    + rewrite lookup_take_ge by lia. by rewrite lookup_ge_None_2 by lia.
Qed.

(** Ending a read of the next [v] bytes. *)
Lemma cb_rep_end_read m m' p b s h R a v arr xs :
  cb_rep m p b s h R a (Some v) -> cells (arrs m) !! b = Some arr ->
  mem_read arr (R mod s) v = Some xs -> 0 <= v -> R mod s + v <= s ->
  R + v <= Z.of_nat (length h) -> Z.of_nat (length h) + default 0 a - R <= s ->
  no_os_cb_end_async_read (Some p) m = Done (0, m') ->
  cb_rep m' p b s h (R + v) a None /\ xs = take (Z.to_nat v) (drop (Z.to_nat R) h).
Proof.
  intros Hrep Hb Hx Hv Hw Hle Hfl Hend.
  destruct (end_read_run p b s m h R a v Hrep Hv Hw Hle) as (m2 & Hr & _ & Hrep2).
  unfold no_os_cb_end_async_read in Hend. assert (m2 = m') as -> by congruence.
  split; [done |]. destruct Hrep as (arr' & Hp & Hb' & Hs & Hl & HR & Hh).
  assert (arr' = arr) as -> by congruence. pose proof (Z.mod_pos_bound R s).
  rewrite mem_read_done in Hx by lia. injection Hx as <-.
  apply (cb_holds_read s ltac:(lia) arr h _ R v Hh); lia.
Qed.

(** A prepared read, empty buffer included. *)
Lemma prepare_read_any m p b s h R a n :
  cb_rep m p b s h R a None -> 0 < n -> Z.of_nat (length h) - R <= s ->
  let v := Z.min (Z.min n (Z.of_nat (length h) - R)) (s - R mod s) in
  exists m', no_os_cb_prepare_async_read (Some p) n false m
    = Done ((0, if Z.of_nat (length h) =? R then None else Some (Some b, R mod s, v)), m') /\
    cb_rep m' p b s h R a (if Z.of_nat (length h) =? R then None else Some v).
Proof.
  intros Hrep Hn Hd v. unfold no_os_cb_prepare_async_read.
  assert (R <= Z.of_nat (length h)) by (destruct Hrep as (? & ? & ? & ? & ? & ? & ?); lia).
  destruct (Z.eqb_spec (Z.of_nat (length h)) R) as [<- | Hne].
  - destruct (prepare_read_empty p b s m h a n Hrep) as (m1 & Hr & _ & Hrep1). eauto.
  - destruct (prepare_read_run p b s m h R a n Hrep) as (m1 & Hr & _ & Hrep1); [lia.. |]. eauto.
Qed.

Lemma claim_nonneg s n c : claim_ok s n c -> 0 <= default 0 (snd <$> c).
Proof. destruct c as [[off v] |]; simpl; lia. Qed.

Lemma cb_sys_step_inv p b s y y' : cb_sys_step p b s y y' -> cb_sys_inv p b s y -> cb_sys_inv p b s y'.
Proof.
  destruct 1 as [m m' rc sent got n off v Hn Hr | m rc sent got off v arr i x Hb Hi
    | m m' rc sent got off v arr xs Hb Hx Hr | m m' wc sent got n off v Hn Hr
    | m m' wc sent got n Hn Hr | m m' wc sent got off v arr xs Hb Hx Hr];
    intros (Hrep & Hgot & Hwc & Hrc & Hfl & Hle);
    pose proof (claim_nonneg _ _ _ Hwc) as Hwc0;
    unfold cb_sys_inv; cbn [sys_mem sys_wclaim sys_rclaim sys_sent sys_got fmap option_fmap
      option_map snd default from_option id claim_ok] in *;
    assert (0 < s /\ (length got <= length sent)%nat) as [Hs Hls]
      by (destruct Hrep as (? & ? & ? & ? & ? & ? & ?); lia);
    pose proof (Z.mod_pos_bound (Z.of_nat (length sent)) s Hs);
    pose proof (Z.mod_pos_bound (Z.of_nat (length got)) s Hs).
  - destruct (prepare_write_run p b s m sent (Z.of_nat (length got)) (snd <$> rc) n Hrep)
      as (m1 & Hr1 & _ & Hrep1); [lia |].
    unfold no_os_cb_prepare_async_write in Hr. rewrite Hr1 in Hr. injection Hr as <- <- <-.
    splits; done || lia.
  - destruct Hwc as (-> & Hv & Hw). splits; try done. by apply cb_rep_fill.
  - destruct Hwc as (-> & Hv & Hw).
    destruct (cb_rep_end_write _ _ _ _ _ _ _ _ _ _ _ Hrep Hb Hx Hv Hw Hr) as [Hrep1 Hlx].
    rewrite length_app. splits; try done; try lia. by rewrite take_app_le by lia.
  - destruct (prepare_read_any m p b s sent _ _ n Hrep Hn) as (m1 & Hr1 & Hrep1); [lia |].
    rewrite Hr1 in Hr. destruct (Z.eqb_spec (Z.of_nat (length sent)) (Z.of_nat (length got)));
      [done |]. injection Hr as <- <- <-. splits; done || lia.
  - destruct (prepare_read_any m p b s sent _ _ n Hrep Hn) as (m1 & Hr1 & Hrep1); [lia |].
    rewrite Hr1 in Hr. destruct (_ =? _); [| done]. injection Hr as <-. splits; done || lia.
  - destruct Hrc as (-> & Hv & Hw).
    destruct (cb_rep_end_read m m' p b s sent _ _ v arr xs Hrep Hb Hx Hv Hw Hle) as [Hrep1 ->];
      [lia | done |].
    rewrite Nat2Z.id, length_app, length_take, length_drop.
    rewrite Nat.min_l by lia. rewrite Nat2Z.inj_add, Z2Nat.id by lia.
    splits; try (done || lia). rewrite Hgot at 1. by rewrite take_take_drop.
Qed.

(** C13: one writer and one reader whose calls and transfers come in any order,
    each call as a whole, never lose, repeat or tear a byte: as long as the
    writer asks for no more than the reader has freed, what was received is a
    prefix of what was sent, at most a buffer behind, and the region a pending
    read holds has the next bytes in it.  Within a call of the other side they
    would not be safe: [cb_size_torn]. *)
Theorem no_os_cb_async_fifo p b s m y :
  cb_rep m p b s [] 0 None None -> rtc (cb_sys_step p b s) (CbSys m None None [] []) y ->
  sys_got y = take (length (sys_got y)) (sys_sent y) /\
  Z.of_nat (length (sys_sent y)) - Z.of_nat (length (sys_got y)) <= s /\
  forall off v arr, sys_rclaim y = Some (off, v) -> cells (arrs (sys_mem y)) !! b = Some arr ->
    mem_read arr off v = Some (take (Z.to_nat v) (drop (length (sys_got y)) (sys_sent y))).
Proof.
  intros Hrep Hrtc.
  assert (cb_sys_inv p b s y) as (Hrep' & Hgot & Hwc & Hrc & Hfl & Hle).
  { assert (cb_sys_inv p b s (CbSys m None None [] [])) as H0.
    { assert (0 < s) by (destruct Hrep as (? & ? & ? & ? & ?); lia).
      unfold cb_sys_inv. simpl. splits; done || lia. }
    revert H0. clear Hrep. induction Hrtc as [| y y1 y2 Hst _ IH]; [done |].
    intros Hy. eapply IH, cb_sys_step_inv; done. }
  pose proof (claim_nonneg _ _ _ Hwc).
  splits; [done | lia |]. intros off v arr Hrcl Hb. rewrite Hrcl in Hrc, Hle.
  destruct Hrc as (-> & Hv & Hw). simpl in Hle.
  destruct Hrep' as (arr' & _ & Hb' & Hs & Hl & HR & Hh). assert (arr' = arr) as -> by congruence.
  pose proof (Z.mod_pos_bound (Z.of_nat (length (sys_got y))) s).
  rewrite mem_read_done by lia. rewrite (cb_holds_read s ltac:(lia) arr _ _ _ v Hh) by lia.
  by rewrite Nat2Z.id.
Qed.

(** A writer that ends its transfer at the end of the buffer counts the lap
    before it moves the index: a reader that comes in between finds an overrun
    where three bytes of four are unread, and gives them up. *)
Example cb_size_torn :
  let mid := Cb 4 (Some 1%positive) (CbPtr 3 1 true 1) (CbPtr 0 0 false 0) in
  let arr := Heap {[1%positive := [5; 6; 7; 8]]} 2%positive [] in
  cb_size_of mid = (- NO_OS_EOVERRUN, 4) /\
  exists d, no_os_cb_prepare_async_read (Some 1%positive) 3 false (CbMem (Heap {[1%positive := mid]} 2%positive []) arr)
    = Done ((- NO_OS_EOVERRUN, Some (Some 1%positive, 3, 1)), CbMem (Heap {[1%positive := d]} 2%positive []) arr).
Proof. split; [reflexivity |]. eexists. vm_compute. reflexivity. Qed.

(** *** The life of a buffer *)

(** What a buffer that was just allocated is. *)
Definition new_cb (m : cb_mem) (size : Z) : cb_mem :=
  CbMem (Heap (<[next_block (descs m) := Cb size (Some (next_block (arrs m))) cb_ptr0 cb_ptr0]>
                (cells (descs m))) (Pos.succ (next_block (descs m))) (tail (oom (descs m))))
        (Heap (<[next_block (arrs m) := replicate (Z.to_nat size) 0]> (cells (arrs m)))
              (Pos.succ (next_block (arrs m))) (tail (oom (arrs m)))).

Lemma cb_init_run m size :
  alloc_fails (descs m) = false -> alloc_fails (arrs m) = false -> 0 < size <= 2 ^ 31 ->
  no_os_cb_init false size m = Done ((0, Some (Some (next_block (descs m)))), new_cb m size) /\
  cb_rep (new_cb m size) (next_block (descs m)) (next_block (arrs m)) size [] 0 None None.
Proof.
  destruct m as [D A]. cbn [descs arrs]. intros ED EA Hs. split.
  - unfold no_os_cb_init, truthy. destruct (Z.eqb_spec size 0); [lia |]. cbn [negb orb].
    erewrite bind_done by by apply zoom_done, halloc_done. cbn [descs arrs].
    erewrite bind_done by by apply zoom_done, halloc_done. cbn [descs arrs].
    erewrite bind_done by (eapply zoom_done, hstore_done; apply lookup_insert_eq).
    unfold new_cb. cbn [descs arrs cells next_block oom]. by rewrite insert_insert_eq.
  - eexists. unfold new_cb. cbn [descs arrs cells]. rewrite !lookup_insert_eq. unfold cb_pos.
    rewrite Z.mod_0_l, Z.div_0_l, length_replicate by lia.
    splits; try (done || simpl; lia). intros k ? Hk. simpl in Hk. lia.
Qed.

Lemma cb_remove_run m p b s h R a r :
  cb_rep m p b s h R a r ->
  no_os_cb_remove (Some p) m = Done (0,
    CbMem (Heap (delete p (cells (descs m))) (next_block (descs m)) (oom (descs m)))
          (Heap (delete b (cells (arrs m))) (next_block (arrs m)) (oom (arrs m)))).
Proof.
  intros (arr & Hp & Hb & _). unfold no_os_cb_remove.
  erewrite bind_done by by apply desc_load. cbn [cb_buff].
  erewrite bind_done by by eapply zoom_done, hfree_done.
  by erewrite bind_done by by eapply zoom_done, hfree_done.
Qed.

(** a new buffer is empty; when the descriptor or the array cannot be
    allocated -ENOMEM is returned and nothing stays allocated; removing a
    buffer frees both its blocks. *)
Theorem no_os_cb_init_correct m size :
  heap_ok (descs m) -> heap_ok (arrs m) -> 0 < size <= 2 ^ 31 ->
  exists m' out, no_os_cb_init false size m
    = Done ((if alloc_fails (descs m) || alloc_fails (arrs m) then - ENOMEM else 0, out), m') /\
    if alloc_fails (descs m) || alloc_fails (arrs m)
    then cells (descs m') = cells (descs m) /\ cells (arrs m') = cells (arrs m)
    else exists p b, out = Some (Some p) /\ cb_rep m' p b size [] 0 None None /\
      exists m'', no_os_cb_remove (Some p) m' = Done (0, m'') /\
        cells (descs m'') = cells (descs m) /\ cells (arrs m'') = cells (arrs m).
Proof.
  intros HD HA Hs. pose proof (heap_ok_fresh _ HD) as HfD. pose proof (heap_ok_fresh _ HA) as HfA.
  destruct (alloc_fails (descs m)) eqn:ED; cbn [orb]; [| destruct (alloc_fails (arrs m)) eqn:EA].
  - destruct m as [D A]. unfold no_os_cb_init, truthy. destruct (Z.eqb_spec size 0); [lia |]. cbn [negb orb].
    erewrite bind_done by by apply zoom_done, halloc_fail. by eexists _, _.
  - destruct m as [D A]. unfold no_os_cb_init, truthy. destruct (Z.eqb_spec size 0); [lia |].
    cbn [negb orb descs arrs] in *.
    erewrite bind_done by by apply zoom_done, halloc_done. cbn [descs arrs].
    erewrite bind_done by by apply zoom_done, halloc_fail. cbn [descs arrs].
    erewrite bind_done by (eapply zoom_done, hstore_done; apply lookup_insert_eq).
    cbn [descs arrs cells next_block oom]. rewrite insert_insert_eq.
    erewrite bind_done by (eapply zoom_done, hfree_done; apply lookup_insert_eq).
    eexists _, _. split; [done |]. cbn [descs arrs cells]. by rewrite delete_insert_id.
  - destruct (cb_init_run m size ED EA Hs) as [E Hrep]. eexists _, _. split; [exact E |].
    eexists _, _. split; [done |]. split; [exact Hrep |]. eexists. split; [by eapply cb_remove_run |].
    unfold new_cb. cbn [descs arrs cells]. by rewrite !delete_insert_id.
Qed.

(** *** Instances *)

Definition cb_example (w r : Z) (arr : list Z) : cb_mem :=
  CbMem (Heap {[1%positive := Cb 4 (Some 1%positive) (cb_pos 4 w None) (cb_pos 4 r None)]}
           2%positive [])
        (Heap {[1%positive := arr]} 2%positive []).

Lemma cb_example_rep h R arr :
  length arr = 4%nat -> 0 <= R <= Z.of_nat (length h) ->
  cb_holds 4 arr h (Z.of_nat (length h) - 4) ->
  cb_rep (cb_example (Z.of_nat (length h)) R arr) 1 1 4 h R None None.
Proof.
  intros Hl HR Hh. exists arr. unfold cb_example. cbn [descs arrs cells].
  rewrite !lookup_singleton_eq. splits; try (done || lia). by rewrite Z.add_0_r.
Qed.

(** Six bytes written, three unread; ten written and nine unread. *)
Lemma cb_example_six :
  cb_rep (cb_example 6 3 [14; 15; 12; 13]) 1 1 4 [10; 11; 12; 13; 14; 15] 3 None None.
Proof.
  apply (cb_example_rep [10; 11; 12; 13; 14; 15]); [done | simpl; lia |].
  intros k Hk0 Hk. simpl in Hk.
  assert (k = 2 \/ k = 3 \/ k = 4 \/ k = 5) as [-> | [-> | [-> | ->]]] by lia; done.
Qed.

Lemma cb_example_two :
  cb_rep (cb_example 2 0 [10; 11; 0; 0]) 1 1 4 [10; 11] 0 None None.
Proof.
  apply (cb_example_rep [10; 11]); [done | simpl; lia |].
  intros k Hk0 Hk. simpl in Hk. assert (k = 0 \/ k = 1) as [-> | ->] by lia; done.
Qed.

Lemma no_os_cb_size_correct_witness :
  no_os_cb_size (Some 1%positive) false (cb_example 6 3 [14; 15; 12; 13])
  = Done ((0, Some 3), cb_example 6 3 [14; 15; 12; 13]).
Proof.
  refine (proj1 (no_os_cb_size_correct _ _ _ _ _ _ _ _ cb_example_six) _).
  vm_compute. discriminate.
Defined.

Lemma no_os_cb_write_correct_witness :
  exists m', no_os_cb_write 1 10 (Some 1%positive) (Some [1; 2; 3; 4; 5]) 5
      (cb_example 6 3 [14; 15; 12; 13]) = Done ((0, [1; 2; 3; 4; 5]), m') /\
    cb_rep m' 1 1 4 ([10; 11; 12; 13; 14; 15] ++ [1; 2; 3; 4; 5]) 3 None None.
Proof.
  apply (no_os_cb_write_correct _ _ _ _ _ _ _ [1; 2; 3; 4; 5] 5 0 10 cb_example_six); simpl; lia.
Defined.

Lemma no_os_cb_read_correct_witness :
  exists m', no_os_cb_read 1 10 (Some 1%positive) (Some [0; 0; 7]) 2
      (cb_example 6 3 [14; 15; 12; 13]) = Done ((0, [13; 14; 7]), m') /\
    cb_rep m' 1 1 4 [10; 11; 12; 13; 14; 15] 5 None None.
Proof.
  refine (proj1 (no_os_cb_read_correct _ _ _ _ _ _ _ [0; 0; 7] 2 0 10 cb_example_six
    _ _ _ _) _ _); simpl; lia.
Defined.

Lemma no_os_cb_read_short_witness :
  exists m', no_os_cb_read 1 10 (Some 1%positive) (Some [0; 0; 0; 0]) 4
      (cb_example 2 0 [10; 11; 0; 0]) = Done ((0, [10; 11; 10; 11]), m').
Proof.
  refine (no_os_cb_read_short _ _ _ _ _ _ [0; 0; 0; 0] 4 0 10 cb_example_two _ _ _ _ _ _);
    vm_compute; done || (split; done).
Defined.

(** The writer prepares three bytes and stores one; the reader finds nothing
    yet; the writer ends; the reader prepares two. *)
Lemma cb_example_run :
  rtc (cb_sys_step 1 1 4) (CbSys (cb_example 0 0 [0; 0; 0; 0]) None None [] [])
    (CbSys (CbMem
        (Heap {[1%positive := Cb 4 (Some 1%positive) (cb_pos 4 3 None) (cb_pos 4 0 (Some 2))]}
           2%positive [])
        (Heap {[1%positive := [0; 8; 0; 0]]} 2%positive []))
      None (Some (0, 2)) [0; 8; 0] []).
Proof.
  eapply rtc_l. { eapply (sys_prepare_write _ _ _ _ _ _ _ _ 3); [simpl; lia |]. vm_compute. reflexivity. }
  eapply rtc_l. { eapply (sys_fill _ _ _ _ _ _ _ _ _ _ 1 8); [vm_compute; reflexivity |].
    vm_compute. by split. }
  eapply rtc_l. { eapply (sys_prepare_read_none _ _ _ _ _ _ _ _ 2); [lia |]. vm_compute. reflexivity. }
  eapply rtc_l. { eapply sys_end_write; vm_compute; reflexivity. }
  eapply rtc_l. { eapply (sys_prepare_read _ _ _ _ _ _ _ _ 2); [lia |]. vm_compute. reflexivity. }
  apply rtc_refl.
Qed.

Lemma no_os_cb_async_fifo_witness :
  mem_read [0; 8; 0; 0] 0 2 = Some [0; 8].
Proof.
  assert (cb_rep (cb_example 0 0 [0; 0; 0; 0]) 1 1 4 [] 0 None None) as Hrep.
  { apply (cb_example_rep []); [done | simpl; lia |]. intros k ? Hk. simpl in Hk. lia. }
  refine (proj2 (proj2 (no_os_cb_async_fifo 1 1 4 _ _ Hrep cb_example_run)) 0 2 _ _ _);
    reflexivity.
Defined.

Lemma no_os_cb_init_correct_witness :
  exists m' out, no_os_cb_init false 4
      (CbMem (Heap ∅ 1%positive []) (Heap ∅ 1%positive [true])) = Done ((- ENOMEM, out), m') /\
    cells (descs m') = ∅ /\ cells (arrs m') = ∅.
Proof.
  apply (no_os_cb_init_correct (CbMem (Heap ∅ 1%positive []) (Heap ∅ 1%positive [true])) 4);
    [intros p [? Hp]; done | intros p [? Hp]; done | lia].
Defined.
