(* ===== verification/NoosList.v ===== *)
(** * The doubly linked list of [util/no_os_list.c]

    Elements, lists, descriptors and iterators are blocks of four heaps.
    The operations are proved to implement sequences: one refinement theorem
    covers every operation of a list, others the iterators and the adapters. *)
From S2P Require Import Prelude.
From Stdlib Require Import Sorting.Sorted.

(** ** Data *)

Record no_os_list_elem : Type := Elem {
  el_data : Z;
  el_prev : ptr;
  el_next : ptr
}.

Record no_os_iterator : Type := Iter {
  it_list : ptr;
  it_elem : ptr
}.

(** [struct _list_desc] *)
Record list_desc_priv : Type := ListDesc {
  ld_first : ptr;
  ld_last : ptr;
  nb_elements : Z;
  comparator : Z -> Z -> Z;
  nb_iterators : Z;
  l_it : no_os_iterator
}.

Inductive no_os_adapter_type : Type :=
  | NO_OS_LIST_DEFAULT
  | NO_OS_LIST_QUEUE
  | NO_OS_LIST_STACK
  | NO_OS_LIST_PRIORITY_LIST.

(** The functions an adapter's pointers can name. *)
Inductive push_fn : Type := Push_add_find | Push_add_last.
Inductive pop_fn : Type := Pop_get_first | Pop_get_last.
Inductive read_fn : Type := Read_first | Read_last.
Inductive swap_fn : Type := Swap_edit_first | Swap_edit_last.

Record no_os_list_desc : Type := Desc {
  push : push_fn;
  pop : pop_fn;
  top_next : read_fn;
  back : read_fn;
  swap : swap_fn;
  priv_desc : ptr
}.

Record list_mem : Type := ListMem {
  m_elems : heap no_os_list_elem;
  m_lists : heap list_desc_priv;
  m_descs : heap no_os_list_desc;
  m_iters : heap no_os_iterator
}.

Definition on_elems {A} : cmd (heap no_os_list_elem) A -> cmd list_mem A :=
  zoom m_elems (fun h m => ListMem h (m_lists m) (m_descs m) (m_iters m)).

Definition on_lists {A} : cmd (heap list_desc_priv) A -> cmd list_mem A :=
  zoom m_lists (fun h m => ListMem (m_elems m) h (m_descs m) (m_iters m)).

Definition on_descs {A} : cmd (heap no_os_list_desc) A -> cmd list_mem A :=
  zoom m_descs (fun h m => ListMem (m_elems m) (m_lists m) h (m_iters m)).

Definition on_iters {A} : cmd (heap no_os_iterator) A -> cmd list_mem A :=
  zoom m_iters (fun h m => ListMem (m_elems m) (m_lists m) (m_descs m) h).

(** A [struct no_os_list_desc *]: a descriptor on the heap, or the local one
    of [no_os_iterator_insert], of which only [priv_desc] is set. *)
Inductive desc_ref : Type :=
  | DescNull
  | DescAt (p : positive)
  | DescLocal (priv : ptr).

(** A [struct no_os_iterator *]: one on the heap, or the [l_it] of a list. *)
Inductive iter_ref : Type :=
  | ItNull
  | ItAt (p : positive)
  | ItOf (l : ptr).

Definition priv_of (d : desc_ref) : cmd list_mem ptr :=
  match d with
  | DescNull => undef
  | DescAt p => x ← on_descs (hload (Some p)); mret (priv_desc x)
  | DescLocal priv => mret priv
  end.

Definition load_list (l : ptr) : cmd list_mem list_desc_priv := on_lists (hload l).

Definition set_ends (l f e : ptr) : cmd list_mem unit :=
  x ← load_list l;
  on_lists (hstore l (ListDesc f e (nb_elements x) (comparator x) (nb_iterators x) (l_it x))).

Definition set_nb (l : ptr) (n : Z) : cmd list_mem unit :=
  x ← load_list l;
  on_lists (hstore l (ListDesc (ld_first x) (ld_last x) n (comparator x) (nb_iterators x) (l_it x))).

Definition set_nb_iterators (l : ptr) (n : Z) : cmd list_mem unit :=
  x ← load_list l;
  on_lists (hstore l (ListDesc (ld_first x) (ld_last x) (nb_elements x) (comparator x) n (l_it x))).

Definition load_iter (it : iter_ref) : cmd list_mem no_os_iterator :=
  match it with
  | ItNull => undef
  | ItAt p => on_iters (hload (Some p))
  | ItOf l => x ← load_list l; mret (l_it x)
  end.

Definition set_it_elem (it : iter_ref) (e : ptr) : cmd list_mem unit :=
  match it with
  | ItNull => undef
  | ItAt p =>
      x ← on_iters (hload (Some p));
      on_iters (hstore (Some p) (Iter (it_list x) e))
  | ItOf l =>
      x ← load_list l;
      on_lists (hstore l (ListDesc (ld_first x) (ld_last x) (nb_elements x) (comparator x)
                            (nb_iterators x) (Iter (it_list (l_it x)) e)))
  end.

Definition load_elem (e : ptr) : cmd list_mem no_os_list_elem := on_elems (hload e).

Definition set_data (e : ptr) (d : Z) : cmd list_mem unit :=
  x ← load_elem e; on_elems (hstore e (Elem d (el_prev x) (el_next x))).

Definition set_prev (e p : ptr) : cmd list_mem unit :=
  x ← load_elem e; on_elems (hstore e (Elem (el_data x) p (el_next x))).

Definition set_next (e n : ptr) : cmd list_mem unit :=
  x ← load_elem e; on_elems (hstore e (Elem (el_data x) (el_prev x) n)).

(** ** The code *)

(** A difference of [int32_t] pointers: the distance of the addresses
    divided by four. *)
Definition no_os_default_comparator (data1 data2 : Z) : Z :=
  s32 (Z.shiftr (s64 (data1 - data2)) 2).

Definition create_element (data : Z) (prev next : ptr) : cmd list_mem ptr :=
  elem ← on_elems (halloc (Elem 0 None None));
  match elem with
  | None => mret None
  | Some _ => _ ← on_elems (hstore elem (Elem data prev next)); mret elem
  end.

Definition no_os_update_links (prev elem next : ptr) : cmd list_mem unit :=
  _ ← match prev with
      | Some _ => set_next prev (match elem with Some _ => elem | None => next end)
      | None => mret tt
      end;
  _ ← match elem with
      | Some _ => _ ← set_prev elem prev; set_next elem next
      | None => mret tt
      end;
  match next with
  | Some _ => set_prev next (match elem with Some _ => elem | None => prev end)
  | None => mret tt
  end.

Definition no_os_update_desc (list new_first new_last : ptr) : cmd list_mem unit :=
  l ← load_list list;
  if bool_decide (new_first = ld_first l) then
    if bool_decide (new_first = None) || bool_decide (new_last = None)
    then set_ends list new_last new_last
    else set_ends list (ld_first l) new_last
  else
    if bool_decide (new_last = None) || bool_decide (new_first = None)
    then set_ends list new_first new_first
    else set_ends list new_first (ld_last l).

(** The five pointers and the list they work on. *)
Definition no_os_set_adapter (type : no_os_adapter_type) (priv : ptr) : no_os_list_desc :=
  match type with
  | NO_OS_LIST_PRIORITY_LIST =>
      Desc Push_add_find Pop_get_first Read_first Read_last Swap_edit_first priv
  | NO_OS_LIST_QUEUE =>
      Desc Push_add_last Pop_get_first Read_first Read_last Swap_edit_first priv
  | NO_OS_LIST_DEFAULT | NO_OS_LIST_STACK =>
      Desc Push_add_last Pop_get_last Read_last Read_first Swap_edit_last priv
  end.

(** The result is the return code and what [*list_desc] was set to. *)
Definition no_os_list_init (list_desc_is_null : bool) (type : no_os_adapter_type)
    (cmp : option (Z -> Z -> Z)) : cmd list_mem (Z * desc_ref) :=
  if list_desc_is_null then mret (-1, DescNull) else
  l_desc ← on_descs (halloc (Desc Push_add_last Pop_get_last Read_last Read_first
                               Swap_edit_last None));
  match l_desc with
  | None => mret (-1, DescNull)
  | Some p =>
      list ← on_lists (halloc (ListDesc None None 0 no_os_default_comparator 0
                                 (Iter None None)));
      match list with
      | None => _ ← on_descs (hfree l_desc); mret (-1, DescNull)
      | Some _ =>
          _ ← on_lists (hstore list (ListDesc None None 0
                (default no_os_default_comparator cmp) 0 (Iter list None)));
          _ ← on_descs (hstore l_desc (no_os_set_adapter type list));
          mret (0, DescAt p)
      end
  end.

(** The result is the return code and what [*out_size] was set to. *)
Definition no_os_list_get_size (list_desc : desc_ref) (out_is_null : bool) :
  cmd list_mem (Z * option Z) :=
  match list_desc with
  | DescNull => mret (-1, None)
  | _ =>
      if out_is_null then mret (-1, None) else
      list ← priv_of list_desc;
      l ← load_list list;
      mret (0, Some (nb_elements l))
  end.

Definition no_os_list_add_first (list_desc : desc_ref) (data : Z) : cmd list_mem Z :=
  match list_desc with
  | DescNull => mret (-1)
  | _ =>
      list ← priv_of list_desc;
      l ← load_list list;
      let next := ld_first l in
      elem ← create_element data None next;
      match elem with
      | None => mret (-1)
      | Some _ =>
          _ ← no_os_update_links None elem next;
          _ ← no_os_update_desc list elem (ld_last l);
          l ← load_list list;
          _ ← set_nb list (u32 (nb_elements l + 1));
          mret 0
      end
  end.

Definition no_os_list_add_last (list_desc : desc_ref) (data : Z) : cmd list_mem Z :=
  match list_desc with
  | DescNull => mret (-1)
  | _ =>
      list ← priv_of list_desc;
      l ← load_list list;
      let prev := ld_last l in
      elem ← create_element data prev None;
      match elem with
      | None => mret (-1)
      | Some _ =>
          _ ← no_os_update_links prev elem None;
          _ ← no_os_update_desc list (ld_first l) elem;
          l ← load_list list;
          _ ← set_nb list (u32 (nb_elements l + 1));
          mret 0
      end
  end.

(** [while (steps > 0 && elem)]: [forward] is [dir > 0]. *)
Fixpoint walk (steps : nat) (forward : bool) (elem : ptr) {struct steps} : cmd list_mem ptr :=
  match steps, elem with
  | S steps, Some _ =>
      e ← load_elem elem;
      walk steps forward (if forward then el_next e else el_prev e)
  | _, _ => mret elem
  end.

(** [abs] of an [int32_t], undefined for the least one. *)
Definition abs32 (x : Z) : outcome Z := ssigned 32 (Z.abs x).

Definition no_os_iterator_move (iter : iter_ref) (steps : Z) : cmd list_mem Z :=
  match iter with
  | ItNull => mret (-1)
  | _ =>
      n ← lift (abs32 steps);
      it ← load_iter iter;
      elem ← walk (Z.to_nat n) (negb (steps <? 0)) (it_elem it);
      match elem with
      | None => mret (-1)
      | Some _ => _ ← set_it_elem iter elem; mret 0
      end
  end.

Definition no_os_iterator_move_to_idx (iter : iter_ref) (idx : Z) : cmd list_mem Z :=
  match iter with
  | ItNull => mret (-1)
  | _ =>
      n ← lift (abs32 idx);
      it ← load_iter iter;
      l ← load_list (it_list it);
      elem ← walk (Z.to_nat n) (negb (idx <? 0)) (if idx <? 0 then ld_last l else ld_first l);
      match elem with
      | None => mret (-1)
      | Some _ => _ ← set_it_elem iter elem; mret 0
      end
  end.

(** One turn of the search loops: [f] is the test that ends them. *)
Definition search_step (f : Z -> bool) (elem : ptr) : cmd list_mem (ptr + ptr) :=
  match elem with
  | None => mret (inr None)
  | Some _ =>
      e ← load_elem elem;
      mret (if f (el_data e) then inr elem else inl (el_next e))
  end.

Definition no_os_iterator_find (fuel : nat) (iter : iter_ref) (cmp_data : Z) : cmd list_mem Z :=
  match iter with
  | ItNull => mret (-1)
  | _ =>
      it ← load_iter iter;
      l ← load_list (it_list it);
      elem ← loop fuel (search_step (fun d => comparator l d cmp_data =? 0)) (ld_first l);
      match elem with
      | None => mret (-1)
      | Some _ => _ ← set_it_elem iter elem; mret 0
      end
  end.

Definition no_os_iterator_edit (iter : iter_ref) (new_data : Z) : cmd list_mem Z :=
  match iter with
  | ItNull => mret (-1)
  | _ => it ← load_iter iter; _ ← set_data (it_elem it) new_data; mret 0
  end.

(** The result is the return code and what [*data] was set to. *)
Definition no_os_iterator_get (iter : iter_ref) (data_is_null : bool) :
  cmd list_mem (Z * option Z) :=
  match iter with
  | ItNull => mret (-1, None)
  | _ =>
      it ← load_iter iter;
      if bool_decide (it_elem it = None) || data_is_null then mret (-1, None) else
      e ← load_elem (it_elem it);
      _ ← no_os_update_links (el_prev e) None (el_next e);
      l ← load_list (it_list it);
      _ ← if bool_decide (it_elem it = ld_first l)
          then no_os_update_desc (it_list it) (el_next e) (ld_last l)
          else if bool_decide (it_elem it = ld_last l)
          then no_os_update_desc (it_list it) (ld_first l) (el_prev e)
          else mret tt;
      l ← load_list (it_list it);
      _ ← set_nb (it_list it) (u32 (nb_elements l - 1));
      let next := if bool_decide (it_elem it = ld_last l) then el_prev e else el_next e in
      _ ← on_elems (hfree (it_elem it));
      _ ← set_it_elem iter next;
      mret (0, Some (el_data e))
  end.

Definition no_os_iterator_read (iter : iter_ref) (data_is_null : bool) :
  cmd list_mem (Z * option Z) :=
  match iter with
  | ItNull => mret (-1, None)
  | _ =>
      it ← load_iter iter;
      if bool_decide (it_elem it = None) || data_is_null then mret (-1, None) else
      e ← load_elem (it_elem it);
      mret (0, Some (el_data e))
  end.

Definition no_os_iterator_insert (iter : iter_ref) (data : Z) (after : bool) :
  cmd list_mem Z :=
  match iter with
  | ItNull => mret (-1)
  | _ =>
      it ← load_iter iter;
      let list_desc := DescLocal (it_list it) in
      l ← load_list (it_list it);
      if after && bool_decide (it_elem it = ld_last l) then no_os_list_add_last list_desc data else
      if negb after && bool_decide (it_elem it = ld_first l)
      then no_os_list_add_first list_desc data else
      e ← load_elem (it_elem it);
      let prev := if after then it_elem it else el_prev e in
      let next := if after then el_next e else it_elem it in
      elem ← create_element data prev next;
      match elem with
      | None => mret (-1)
      | Some _ =>
          _ ← no_os_update_links prev elem next;
          l ← load_list (it_list it);
          _ ← set_nb (it_list it) (u32 (nb_elements l + 1));
          mret 0
      end
  end.

(** [list->l_it.elem = elem] *)
Definition seek (list elem : ptr) : cmd list_mem unit := set_it_elem (ItOf list) elem.

Definition no_os_list_add_idx (list_desc : desc_ref) (data idx : Z) : cmd list_mem Z :=
  match list_desc with
  | DescNull => mret (-1)
  | _ =>
      list ← priv_of list_desc;
      l ← load_list list;
      if (nb_elements l =? 0) || (idx =? 0) then no_os_list_add_first list_desc data else
      if nb_elements l =? idx then no_os_list_add_last list_desc data else
      _ ← seek list (ld_first l);
      r ← no_os_iterator_move (ItOf list) (s32 idx);
      if negb (r =? 0) then mret (-1) else
      no_os_iterator_insert (ItOf list) data false
  end.

Definition no_os_list_add_find (fuel : nat) (list_desc : desc_ref) (data : Z) : cmd list_mem Z :=
  match list_desc with
  | DescNull => mret (-1)
  | _ =>
      list ← priv_of list_desc;
      l ← load_list list;
      elem ← loop fuel (search_step (fun d => 0 <? comparator l d data)) (ld_first l);
      match elem with
      | None => _ ← seek list (ld_last l); no_os_iterator_insert (ItOf list) data true
      | Some _ => _ ← seek list elem; no_os_iterator_insert (ItOf list) data false
      end
  end.

Definition no_os_list_edit_first (list_desc : desc_ref) (new_data : Z) : cmd list_mem Z :=
  match list_desc with
  | DescNull => mret (-1)
  | _ =>
      list ← priv_of list_desc;
      l ← load_list list;
      _ ← set_data (ld_first l) new_data;
      mret 0
  end.

Definition no_os_list_edit_last (list_desc : desc_ref) (new_data : Z) : cmd list_mem Z :=
  match list_desc with
  | DescNull => mret (-1)
  | _ =>
      list ← priv_of list_desc;
      l ← load_list list;
      _ ← set_data (ld_last l) new_data;
      mret 0
  end.

Definition no_os_list_edit_idx (list_desc : desc_ref) (new_data idx : Z) : cmd list_mem Z :=
  match list_desc with
  | DescNull => mret (-1)
  | _ =>
      list ← priv_of list_desc;
      l ← load_list list;
      _ ← seek list (ld_first l);
      r ← no_os_iterator_move (ItOf list) (s32 idx);
      if negb (r =? 0) then mret (-1) else no_os_iterator_edit (ItOf list) new_data
  end.

Definition no_os_list_edit_find (fuel : nat) (list_desc : desc_ref) (new_data cmp_data : Z) :
  cmd list_mem Z :=
  match list_desc with
  | DescNull => mret (-1)
  | _ =>
      list ← priv_of list_desc;
      l ← load_list list;
      _ ← seek list (ld_first l);
      r ← no_os_iterator_find fuel (ItOf list) cmp_data;
      if negb (r =? 0) then mret (-1) else no_os_iterator_edit (ItOf list) new_data
  end.

(** The results of the reads and gets are the return code and what [*data]
    was set to; they set it to [NULL] first. *)
Definition no_os_list_read_first (list_desc : desc_ref) (data_is_null : bool) :
  cmd list_mem (Z * option Z) :=
  match list_desc with
  | DescNull => mret (-1, None)
  | _ =>
      if data_is_null then mret (-1, None) else
      list ← priv_of list_desc;
      l ← load_list list;
      match ld_first l with
      | None => mret (-1, Some 0)
      | Some _ => e ← load_elem (ld_first l); mret (0, Some (el_data e))
      end
  end.

Definition no_os_list_read_last (list_desc : desc_ref) (data_is_null : bool) :
  cmd list_mem (Z * option Z) :=
  match list_desc with
  | DescNull => mret (-1, None)
  | _ =>
      if data_is_null then mret (-1, None) else
      list ← priv_of list_desc;
      l ← load_list list;
      match ld_last l with
      | None => mret (-1, Some 0)
      | Some _ => e ← load_elem (ld_last l); mret (0, Some (el_data e))
      end
  end.

(** [*data] is [NULL] before the call and stays so when it does not set it. *)
Definition or_null (r : Z * option Z) : Z * option Z := (r.1, Some (default 0 r.2)).

Definition no_os_list_read_idx (list_desc : desc_ref) (data_is_null : bool) (idx : Z) :
  cmd list_mem (Z * option Z) :=
  match list_desc with
  | DescNull => mret (-1, None)
  | _ =>
      if data_is_null then mret (-1, None) else
      list ← priv_of list_desc;
      match list with
      | None => mret (-1, Some 0)
      | Some _ =>
          l ← load_list list;
          if nb_elements l <=? idx then mret (-1, Some 0) else
          _ ← seek list (ld_first l);
          r ← no_os_iterator_move (ItOf list) (s32 idx);
          if negb (r =? 0) then mret (-1, Some 0) else
          r ← no_os_iterator_read (ItOf list) false;
          mret (or_null r)
      end
  end.

Definition no_os_list_read_find (fuel : nat) (list_desc : desc_ref) (data_is_null : bool)
    (cmp_data : Z) : cmd list_mem (Z * option Z) :=
  match list_desc with
  | DescNull => mret (-1, None)
  | _ =>
      if data_is_null then mret (-1, None) else
      list ← priv_of list_desc;
      match list with
      | None => mret (-1, Some 0)
      | Some _ =>
          l ← load_list list;
          _ ← seek list (ld_first l);
          r ← no_os_iterator_find fuel (ItOf list) cmp_data;
          if negb (r =? 0) then mret (-1, Some 0) else
          r ← no_os_iterator_read (ItOf list) false;
          mret (or_null r)
      end
  end.

Definition no_os_list_get_first (list_desc : desc_ref) (data_is_null : bool) :
  cmd list_mem (Z * option Z) :=
  match list_desc with
  | DescNull => mret (-1, None)
  | _ =>
      if data_is_null then mret (-1, None) else
      list ← priv_of list_desc;
      l ← load_list list;
      if negb (truthy (nb_elements l)) then mret (-1, Some 0) else
      e ← load_elem (ld_first l);
      _ ← no_os_update_links (el_prev e) None (el_next e);
      _ ← no_os_update_desc list (el_next e) (ld_last l);
      l' ← load_list list;
      _ ← set_nb list (u32 (nb_elements l' - 1));
      _ ← on_elems (hfree (ld_first l));
      mret (0, Some (el_data e))
  end.

Definition no_os_list_get_last (list_desc : desc_ref) (data_is_null : bool) :
  cmd list_mem (Z * option Z) :=
  match list_desc with
  | DescNull => mret (-1, None)
  | _ =>
      if data_is_null then mret (-1, None) else
      list ← priv_of list_desc;
      l ← load_list list;
      if negb (truthy (nb_elements l)) then mret (-1, Some 0) else
      e ← load_elem (ld_last l);
      _ ← no_os_update_links (el_prev e) None (el_next e);
      _ ← no_os_update_desc list (ld_first l) (el_prev e);
      l' ← load_list list;
      _ ← set_nb list (u32 (nb_elements l' - 1));
      _ ← on_elems (hfree (ld_last l));
      mret (0, Some (el_data e))
  end.

Definition no_os_list_get_idx (list_desc : desc_ref) (data_is_null : bool) (idx : Z) :
  cmd list_mem (Z * option Z) :=
  match list_desc with
  | DescNull => mret (-1, None)
  | _ =>
      if data_is_null then mret (-1, None) else
      list ← priv_of list_desc;
      l ← load_list list;
      _ ← seek list (ld_first l);
      r ← no_os_iterator_move (ItOf list) (s32 idx);
      if negb (r =? 0) then mret (-1, Some 0) else
      r ← no_os_iterator_get (ItOf list) false;
      mret (or_null r)
  end.

Definition no_os_list_get_find (fuel : nat) (list_desc : desc_ref) (data_is_null : bool)
    (cmp_data : Z) : cmd list_mem (Z * option Z) :=
  match list_desc with
  | DescNull => mret (-1, None)
  | _ =>
      if data_is_null then mret (-1, None) else
      list ← priv_of list_desc;
      l ← load_list list;
      _ ← seek list (ld_first l);
      r ← no_os_iterator_find fuel (ItOf list) cmp_data;
      if negb (r =? 0) then mret (-1, Some 0) else
      r ← no_os_iterator_get (ItOf list) false;
      mret (or_null r)
  end.

(** The loop of [no_os_list_remove] goes on while an element is returned. *)
Definition remove_step (list_desc : desc_ref) (_ : unit) : cmd list_mem (unit + unit) :=
  r ← no_os_list_get_first list_desc false;
  mret (if r.1 =? 0 then inl tt else inr tt).

Definition no_os_list_remove (fuel : nat) (list_desc : desc_ref) : cmd list_mem Z :=
  match list_desc with
  | DescNull => mret (-1)
  | DescLocal _ => undef
  | DescAt p =>
      list ← priv_of list_desc;
      l ← load_list list;
      if negb (nb_iterators l =? 0) then mret (-1) else
      _ ← loop fuel (remove_step list_desc) tt;
      _ ← on_lists (hfree list);
      _ ← on_descs (hfree (Some p));
      mret 0
  end.

(** The result is the return code and what [*iter] was set to. *)
Definition no_os_iterator_init (list_desc : desc_ref) (start : bool) :
  cmd list_mem (Z * iter_ref) :=
  match list_desc with
  | DescNull => mret (-1, ItNull)
  | _ =>
      it ← on_iters (halloc (Iter None None));
      match it with
      | None => mret (-1, ItNull)
      | Some p =>
          list ← priv_of list_desc;
          l ← load_list list;
          _ ← set_nb_iterators list (u32 (nb_iterators l + 1));
          _ ← on_iters (hstore it (Iter list (if start then ld_first l else ld_last l)));
          mret (0, ItAt p)
      end
  end.

Definition no_os_iterator_remove (iter : iter_ref) : cmd list_mem Z :=
  match iter with
  | ItNull => mret (-1)
  | ItOf _ => undef
  | ItAt p =>
      it ← load_iter iter;
      l ← load_list (it_list it);
      _ ← set_nb_iterators (it_list it) (u32 (nb_iterators l - 1));
      _ ← on_iters (hfree (Some p));
      mret 0
  end.

(** Calls through the pointers of a descriptor. *)
Definition call_push (fuel : nat) (p : positive) (data : Z) : cmd list_mem Z :=
  d ← on_descs (hload (Some p));
  match push d with
  | Push_add_find => no_os_list_add_find fuel (DescAt p) data
  | Push_add_last => no_os_list_add_last (DescAt p) data
  end.

Definition call_pop (p : positive) : cmd list_mem (Z * option Z) :=
  d ← on_descs (hload (Some p));
  match pop d with
  | Pop_get_first => no_os_list_get_first (DescAt p) false
  | Pop_get_last => no_os_list_get_last (DescAt p) false
  end.

Definition call_read (sel : no_os_list_desc -> read_fn) (p : positive) :
  cmd list_mem (Z * option Z) :=
  d ← on_descs (hload (Some p));
  match sel d with
  | Read_first => no_os_list_read_first (DescAt p) false
  | Read_last => no_os_list_read_last (DescAt p) false
  end.

Definition call_swap (p : positive) (new_data : Z) : cmd list_mem Z :=
  d ← on_descs (hload (Some p));
  match swap d with
  | Swap_edit_first => no_os_list_edit_first (DescAt p) new_data
  | Swap_edit_last => no_os_list_edit_last (DescAt p) new_data
  end.

(** ** Specification *)

Definition linsert {A} (k : nat) (x : A) (l : list A) : list A := take k l ++ x :: drop k l.

(** The element before position [k]. *)
Definition before {A} (l : list A) (k : nat) : option A :=
  match k with O => None | S k => l !! k end.

(** [E] holds a chain of elements at the addresses [ps] with the data [ds]. *)
Definition dll (E : gmap positive no_os_list_elem) (ps : list positive) (ds : list Z) : Prop :=
  NoDup ps /\ length ps = length ds /\
  forall k p d, ps !! k = Some p -> ds !! k = Some d ->
    E !! p = Some (Elem d (before ps k) (ps !! S k)).

(** The descriptor of list [l] describes that chain. *)
Definition lrep (l : positive) (L : list_desc_priv) (E : gmap positive no_os_list_elem)
    (ps : list positive) (ds : list Z) : Prop :=
  dll E ps ds /\ ld_first L = head ps /\ ld_last L = last ps /\
  nb_elements L = Z.of_nat (length ds) /\ Z.of_nat (length ds) < 2 ^ 32 /\
  it_list (l_it L) = Some l.

(** ** Lemmas on sequences *)

Section seqs.
  Context {A : Type}.
  Implicit Types (l : list A) (x : A) (k i : nat).

Lemma linsert_length k x l : length (linsert k x l) = S (length l).
Proof. unfold linsert. rewrite length_app, length_take. simpl. rewrite length_drop. lia. Qed.

Lemma linsert_lt k x l i : (i < k)%nat -> (k <= length l)%nat -> linsert k x l !! i = l !! i.
Proof.
  intros Hi Hk. unfold linsert. rewrite lookup_app_l by (rewrite length_take; lia).
  by rewrite lookup_take_lt.
Qed.

Lemma linsert_eq k x l : (k <= length l)%nat -> linsert k x l !! k = Some x.
Proof.
  intros Hk. unfold linsert. rewrite lookup_app_r by (rewrite length_take; lia).
  rewrite length_take, Nat.min_l, Nat.sub_diag by lia. done.
Qed.

Lemma linsert_gt k x l i : (k <= i)%nat -> (k <= length l)%nat -> linsert k x l !! S i = l !! i.
Proof.
  intros Hi Hk. unfold linsert. rewrite lookup_app_r by (rewrite length_take; lia).
  rewrite length_take, Nat.min_l by lia. replace (S i - k)%nat with (S (i - k)) by lia.
  simpl. rewrite lookup_drop. f_equal. lia.
Qed.

Lemma linsert_elem k x l y : y ∈ linsert k x l <-> y = x \/ y ∈ l.
Proof.
  unfold linsert. rewrite <- (take_drop k l) at 3. set_solver.
Qed.

Lemma linsert_NoDup k x l : NoDup l -> x ∉ l -> NoDup (linsert k x l).
Proof.
  intros Hl Hx. unfold linsert. rewrite <- (take_drop k l) in Hl, Hx.
  apply NoDup_app in Hl as (H1 & H2 & H3). apply NoDup_app. splits; [done | |].
  - intros y Hy. rewrite elem_of_cons. intros [-> | Hd]; [set_solver |]. by eapply H2.
  - apply NoDup_cons. split; [set_solver | done].
Qed.

Lemma linsert_0 x l : linsert 0 x l = x :: l.
Proof. done. Qed.

Lemma linsert_length_end x l : linsert (length l) x l = l ++ [x].
Proof. unfold linsert. by rewrite take_ge, drop_ge by lia. Qed.

Lemma delete_NoDup l k : NoDup l -> NoDup (delete k l).
Proof. intros H. eapply sublist_NoDup; [done |]. apply sublist_delete. Qed.

Lemma delete_elem l k x y : NoDup l -> l !! k = Some x -> y ∈ delete k l <-> y ∈ l /\ y <> x.
Proof.
  intros Hl Hk. rewrite !list_elem_of_lookup. split.
  - intros [i Hi]. destruct (decide (i < k)%nat).
    + rewrite list_lookup_delete_lt in Hi by done. split; [eauto |].
      intros ->. apply (NoDup_lookup l i k x) in Hl; done || lia.
    + rewrite list_lookup_delete_ge in Hi by lia. split; [eauto |].
      intros ->. apply (NoDup_lookup l (S i) k x) in Hl; done || lia.
  - intros [[i Hi] Hne]. destruct (decide (i < k)%nat).
    + exists i. by rewrite list_lookup_delete_lt.
    + assert (i <> k) by (intros ->; congruence).
      exists (pred i). rewrite list_lookup_delete_ge by lia. by replace (S (pred i)) with i by lia.
Qed.

Lemma delete_length l k : (k < length l)%nat -> length (delete k l) = pred (length l).
Proof. intros H. rewrite length_delete; [lia |]. by apply lookup_lt_is_Some. Qed.
End seqs.

(** Two positions of a chain hold different addresses. *)
Lemma NoDup_ne (ps : list positive) i j p q :
  NoDup ps -> ps !! i = Some p -> ps !! j = Some q -> i <> j -> p <> q.
Proof. intros Hn Hp Hq Hij ->. by apply Hij, (NoDup_lookup ps i j q). Qed.

(** What [no_os_update_links] does to the elements. *)
Definition links (prev elem next : ptr) (E : gmap positive no_os_list_elem) :
  gmap positive no_os_list_elem :=
  let E := match prev with
    | Some q => alter (fun x => Elem (el_data x) (el_prev x)
                  (match elem with Some _ => elem | None => next end)) q E
    | None => E end in
  let E := match elem with
    | Some q => alter (fun x => Elem (el_data x) prev next) q E
    | None => E end in
  match next with
  | Some q => alter (fun x => Elem (el_data x)
                (match elem with Some _ => elem | None => prev end) (el_next x)) q E
  | None => E
  end.

Lemma links_ne prev elem next E p :
  prev <> Some p -> elem <> Some p -> next <> Some p -> links prev elem next E !! p = E !! p.
Proof.
  intros. unfold links.
  destruct next, elem, prev; rewrite ?lookup_alter_ne by congruence; done.
Qed.

Lemma links_dom prev elem next E : dom (links prev elem next E) = dom E.
Proof. unfold links. destruct next, elem, prev; by rewrite ?dom_alter_L. Qed.

Lemma links_prev q elem next E x :
  E !! q = Some x -> elem <> Some q -> next <> Some q ->
  links (Some q) elem next E !! q
  = Some (Elem (el_data x) (el_prev x) (match elem with Some _ => elem | None => next end)).
Proof.
  intros Hx He Hn. unfold links. destruct next, elem;
    rewrite ?lookup_alter_ne by congruence; rewrite lookup_alter_eq, Hx; done.
Qed.

Lemma links_elem prev e next E x :
  E !! e = Some x -> prev <> Some e -> next <> Some e ->
  links prev (Some e) next E !! e = Some (Elem (el_data x) prev next).
Proof.
  intros Hx He Hn. unfold links. destruct next, prev;
    rewrite ?lookup_alter_ne by congruence; rewrite lookup_alter_eq;
    rewrite ?lookup_alter_ne by congruence; rewrite Hx; done.
Qed.

Lemma links_next prev elem n E x :
  E !! n = Some x -> prev <> Some n -> elem <> Some n ->
  links prev elem (Some n) E !! n
  = Some (Elem (el_data x) (match elem with Some _ => elem | None => prev end) (el_next x)).
Proof.
  intros Hx He Hn. unfold links. rewrite lookup_alter_eq.
  destruct elem, prev; rewrite ?lookup_alter_ne by congruence; rewrite Hx; done.
Qed.

Section chain.
  Context (E : gmap positive no_os_list_elem) (ps : list positive) (ds : list Z).
  Hypothesis H : dll E ps ds.

Lemma dll_dom p : p ∈ ps -> is_Some (E !! p).
Proof.
  destruct H as (Hn & Hl & He). intros [k Hk]%list_elem_of_lookup.
  destruct (lookup_lt_is_Some_2 ds k) as [d Hd]; [apply lookup_lt_Some in Hk; lia |].
  rewrite (He k p d); done.
Qed.

Lemma dll_fresh e : E !! e = None -> e ∉ ps.
Proof. intros He Hin. apply dll_dom in Hin as [x Hx]. congruence. Qed.

Lemma dll_look k p : ps !! k = Some p -> exists d, ds !! k = Some d /\
  E !! p = Some (Elem d (before ps k) (ps !! S k)).
Proof.
  destruct H as (Hn & Hl & He). intros Hk.
  destruct (lookup_lt_is_Some_2 ds k) as [d Hd]; [apply lookup_lt_Some in Hk; lia |].
  exists d. split; [done |]. by apply He.
Qed.

Lemma dll_pos_ne k e q : e ∉ ps -> (ps !! k = Some q \/ before ps k = Some q) -> q <> e.
Proof.
  intros He Hq ->. apply He. apply list_elem_of_lookup.
  destruct Hq as [Hq | Hq]; [eauto |]. destruct k; [done | eauto].
Qed.

(** Hanging a fresh element at position [k]. *)
Lemma dll_insert k e d :
  (k <= length ps)%nat -> E !! e = None ->
  dll (links (before ps k) (Some e) (ps !! k) (<[e := Elem d (before ps k) (ps !! k)]> E))
    (linsert k e ps) (linsert k d ds).
Proof.
  intros Hk Hfresh. pose proof (dll_fresh e Hfresh) as He. destruct H as (Hn & Hl & _).
  assert (before ps k <> Some e /\ ps !! k <> Some e) as [Hbe Hne].
  { split; intros E'; by apply (dll_pos_ne k e e He); auto. }
  split; [by apply linsert_NoDup |]. split; [rewrite !linsert_length; lia |].
  intros j p dj Hp Hd. destruct (lt_eq_lt_dec j k) as [[Hj | ->] | Hj].
  - rewrite linsert_lt in Hp by lia. rewrite linsert_lt in Hd by lia. destruct (dll_look j p Hp) as (d' & Hd' & Hlook).
    assert (d' = dj) as -> by congruence.
    assert (p <> e) as Hpe by (apply (dll_pos_ne j); auto).
    assert (ps !! k <> Some p) as Hnp.
    { intros Hkp. by apply (NoDup_ne ps j k p p Hn); try lia. }
    replace (before (linsert k e ps) j) with (before ps j)
      by (destruct j; [done | simpl; by rewrite linsert_lt by lia]).
    destruct (decide (S j = k)) as [<- | Hjk].
    + rewrite linsert_eq by lia. cbn [before]. rewrite Hp.
      erewrite links_prev; [| by rewrite lookup_insert_ne | congruence | done]. done.
    + rewrite links_ne, lookup_insert_ne by (try congruence; destruct k as [| k]; try lia; simpl;
        intros E'; apply (NoDup_ne ps j k p p Hn); done || lia).
      by rewrite linsert_lt by lia.
  - rewrite linsert_eq in Hp by lia. rewrite linsert_eq in Hd by lia. simplify_eq.
    erewrite links_elem by (try done; apply lookup_insert_eq).
    rewrite linsert_gt by lia.
    replace (before (linsert k p ps) k) with (before ps k)
      by (destruct k; [done | simpl; by rewrite linsert_lt by lia]). done.
  - destruct j as [| j]; [lia |]. rewrite linsert_gt in Hp by lia. rewrite linsert_gt in Hd by lia.
    destruct (dll_look j p Hp) as (d' & Hd' & Hlook). assert (d' = dj) as -> by congruence.
    assert (p <> e) as Hpe by (apply (dll_pos_ne j); auto).
    assert (before ps k <> Some p) as Hbp.
    { destruct k as [| k]; [done |]. simpl. intros Hkp. by apply (NoDup_ne ps j k p p Hn); try lia. }
    rewrite linsert_gt by lia. cbn [before]. destruct (decide (j = k)) as [-> | Hjk].
    + rewrite linsert_eq, Hp by lia.
      erewrite links_next; [| by rewrite lookup_insert_ne | done | congruence]. done.
    + rewrite links_ne, lookup_insert_ne
        by (try congruence; intros E'; apply (NoDup_ne ps j k p p Hn); done || lia).
      destruct j as [| j]; [lia |]. by rewrite linsert_gt by lia.
Qed.

(** Unhanging the element at position [k]. *)
Lemma dll_delete k e :
  ps !! k = Some e ->
  dll (base.delete e (links (before ps k) None (ps !! S k) E)) (delete k ps) (delete k ds).
Proof.
  intros Hk. destruct H as (Hn & Hl & _). pose proof (lookup_lt_Some _ _ _ Hk) as Hlt.
  split; [by apply delete_NoDup |]. split; [rewrite !delete_length; lia |].
  intros j p dj Hp Hd. destruct (decide (j < k)%nat) as [Hj | Hj].
  - rewrite list_lookup_delete_lt in Hp by lia. rewrite list_lookup_delete_lt in Hd by lia.
    destruct (dll_look j p Hp) as (d' & Hd' & Hlook). assert (d' = dj) as -> by congruence.
    rewrite lookup_delete_ne by (apply (NoDup_ne ps k j e p Hn); done || lia).
    replace (before (delete k ps) j) with (before ps j)
      by (destruct j; [done | simpl; by rewrite list_lookup_delete_lt by lia]).
    assert (ps !! S k <> Some p) by (intros ?; apply (NoDup_ne ps j (S k) p p Hn); done || lia).
    destruct (decide (S j = k)) as [<- | Hjk].
    + cbn [before]. rewrite Hp. erewrite links_prev by done.
      by rewrite list_lookup_delete_ge by lia.
    + rewrite links_ne, list_lookup_delete_lt by (try done; try lia; destruct k as [| k]; try lia;
        simpl; intros ?; apply (NoDup_ne ps j k p p Hn); done || lia). done.
  - rewrite list_lookup_delete_ge in Hp by lia. rewrite list_lookup_delete_ge in Hd by lia.
    destruct (dll_look (S j) p Hp) as (d' & Hd' & Hlook). assert (d' = dj) as -> by congruence.
    rewrite lookup_delete_ne by (apply (NoDup_ne ps k (S j) e p Hn); done || lia).
    rewrite list_lookup_delete_ge by lia.
    assert (before ps k <> Some p).
    { destruct k as [| k]; [done |]. simpl. intros ?. apply (NoDup_ne ps (S j) k p p Hn); done || lia. }
    destruct (decide (j = k)) as [-> | Hjk].
    + rewrite Hp. erewrite links_next by done.
      destruct k as [| k]; [done |]. simpl. by rewrite list_lookup_delete_lt by lia.
    + rewrite links_ne by (try done; intros ?; apply (NoDup_ne ps (S j) (S k) p p Hn); done || lia).
      destruct j as [| j]; [lia |]. simpl. by rewrite list_lookup_delete_ge by lia.
Qed.

(** Replacing the data at position [k]. *)
Lemma dll_edit k e d :
  ps !! k = Some e ->
  dll (<[e := Elem d (before ps k) (ps !! S k)]> E) ps (<[k := d]> ds).
Proof.
  intros Hk. destruct H as (Hn & Hl & _). split; [done |]. split; [by rewrite length_insert |].
  intros j p dj Hp Hd. destruct (decide (j = k)) as [-> | Hjk].
  - rewrite list_lookup_insert_eq in Hd by (rewrite <- Hl; by eapply lookup_lt_Some).
    simplify_eq. by rewrite lookup_insert_eq.
  - rewrite list_lookup_insert_ne in Hd by done. destruct (dll_look j p Hp) as (d' & Hd' & Hlook).
    rewrite lookup_insert_ne by (apply (NoDup_ne ps k j e p Hn); done).
    by assert (d' = dj) as -> by congruence.
Qed.
End chain.

(** ** Runs *)

(** The memory [m] with list [l] at [L], the elements [h], the iterators [its]. *)
Definition st (m : list_mem) (l : positive) (L : list_desc_priv) (h : heap no_os_list_elem)
    (its : heap no_os_iterator) : list_mem :=
  ListMem h (Heap (<[l := L]> (cells (m_lists m))) (next_block (m_lists m)) (oom (m_lists m)))
    (m_descs m) its.

Lemma st_id m l L : cells (m_lists m) !! l = Some L -> st m l L (m_elems m) (m_iters m) = m.
Proof. intros H. unfold st. rewrite insert_id by done. by destruct m as [? [? ? ?] ? ?]. Qed.

(** The descriptors that name list [l]. *)
Definition desc_of (m : list_mem) (d : desc_ref) (l : positive) : Prop :=
  match d with
  | DescNull => False
  | DescAt p => exists x, cells (m_descs m) !! p = Some x /\ priv_desc x = Some l
  | DescLocal priv => priv = Some l
  end.

(** [E] as the contents of heap [h]. *)
Definition with_cells {V} (h : heap V) (E : gmap positive V) : heap V :=
  Heap E (next_block h) (oom h).

Definition upd_desc (L : list_desc_priv) (f e : ptr) : list_desc_priv :=
  ListDesc f e (nb_elements L) (comparator L) (nb_iterators L) (l_it L).

(** What [no_os_update_desc] sets the ends to. *)
Definition new_ends (L : list_desc_priv) (new_first new_last : ptr) : list_desc_priv :=
  if bool_decide (new_first = ld_first L) then
    if bool_decide (new_first = None) || bool_decide (new_last = None)
    then upd_desc L new_last new_last else upd_desc L (ld_first L) new_last
  else
    if bool_decide (new_last = None) || bool_decide (new_first = None)
    then upd_desc L new_first new_first else upd_desc L new_first (ld_last L).

Definition upd_nb (L : list_desc_priv) (n : Z) : list_desc_priv :=
  ListDesc (ld_first L) (ld_last L) n (comparator L) (nb_iterators L) (l_it L).

Definition upd_nit (L : list_desc_priv) (n : Z) : list_desc_priv :=
  ListDesc (ld_first L) (ld_last L) (nb_elements L) (comparator L) n (l_it L).

Definition upd_it (L : list_desc_priv) (it : no_os_iterator) : list_desc_priv :=
  ListDesc (ld_first L) (ld_last L) (nb_elements L) (comparator L) (nb_iterators L) it.

Section runs.
  Context (m : list_mem) (l : positive).
  Implicit Types (L : list_desc_priv) (h : heap no_os_list_elem) (its : heap no_os_iterator).

Lemma priv_of_run d L h its : desc_of m d l -> priv_of d (st m l L h its) = Done (Some l, st m l L h its).
Proof.
  destruct d as [| p | priv]; [done | | by intros ->]. intros (x & Hx & Hp).
  unfold priv_of, on_descs. erewrite bind_done by by apply zoom_done, hload_done. by rewrite Hp.
Qed.

Lemma load_list_run L h its : load_list (Some l) (st m l L h its) = Done (L, st m l L h its).
Proof.
  unfold load_list, on_lists. by erewrite zoom_done by by apply hload_done, lookup_insert_eq.
Qed.

Lemma store_list_run L L' h its :
  on_lists (hstore (Some l) L') (st m l L h its) = Done (tt, st m l L' h its).
Proof.
  unfold on_lists. erewrite zoom_done by by eapply hstore_done, lookup_insert_eq.
  unfold st. simpl. by rewrite insert_insert_eq.
Qed.

Lemma set_ends_run L h its f e :
  set_ends (Some l) f e (st m l L h its) = Done (tt, st m l (upd_desc L f e) h its).
Proof. unfold set_ends. rewrite (bind_done _ _ _ _ _ (load_list_run _ _ _)). apply store_list_run. Qed.

Lemma set_nb_run L h its n :
  set_nb (Some l) n (st m l L h its) = Done (tt, st m l (upd_nb L n) h its).
Proof. unfold set_nb. rewrite (bind_done _ _ _ _ _ (load_list_run _ _ _)). apply store_list_run. Qed.

Lemma update_desc_run L h its nf nl :
  no_os_update_desc (Some l) nf nl (st m l L h its) = Done (tt, st m l (new_ends L nf nl) h its).
Proof.
  unfold no_os_update_desc, new_ends. rewrite (bind_done _ _ _ _ _ (load_list_run _ _ _)).
  repeat des_if; apply set_ends_run.
Qed.

Lemma load_elem_run L h its e x :
  cells h !! e = Some x -> load_elem (Some e) (st m l L h its) = Done (x, st m l L h its).
Proof. intros H. unfold load_elem, on_elems. by erewrite zoom_done by by apply hload_done. Qed.

Lemma store_elem_run L h its e x y :
  cells h !! e = Some x ->
  on_elems (hstore (Some e) y) (st m l L h its)
  = Done (tt, st m l L (with_cells h (<[e := y]> (cells h))) its).
Proof. intros H. unfold on_elems. by erewrite zoom_done by by eapply hstore_done. Qed.

Lemma alter_insert_eq f (E : gmap positive no_os_list_elem) e x :
  E !! e = Some x -> <[e := f x]> E = alter f e E.
Proof.
  intros H. apply map_eq. intros i. destruct (decide (i = e)) as [-> | Hne].
  - by rewrite lookup_insert_eq, lookup_alter_eq, H.
  - by rewrite lookup_insert_ne, lookup_alter_ne.
Qed.

Lemma set_next_run L h its e n :
  is_Some (cells h !! e) ->
  set_next (Some e) n (st m l L h its)
  = Done (tt, st m l L (with_cells h (alter (fun x => Elem (el_data x) (el_prev x) n) e (cells h))) its).
Proof.
  intros [x H]. unfold set_next. rewrite (bind_done _ _ _ _ _ (load_elem_run _ _ _ _ _ H)).
  erewrite store_elem_run by done. by erewrite <- alter_insert_eq by done.
Qed.

Lemma set_prev_run L h its e p :
  is_Some (cells h !! e) ->
  set_prev (Some e) p (st m l L h its)
  = Done (tt, st m l L (with_cells h (alter (fun x => Elem (el_data x) p (el_next x)) e (cells h))) its).
Proof.
  intros [x H]. unfold set_prev. rewrite (bind_done _ _ _ _ _ (load_elem_run _ _ _ _ _ H)).
  erewrite store_elem_run by done. by erewrite <- alter_insert_eq by done.
Qed.

Lemma set_data_run L h its e d x :
  cells h !! e = Some x ->
  set_data (Some e) d (st m l L h its)
  = Done (tt, st m l L (with_cells h (<[e := Elem d (el_prev x) (el_next x)]> (cells h))) its).
Proof.
  intros H. unfold set_data. rewrite (bind_done _ _ _ _ _ (load_elem_run _ _ _ _ _ H)).
  by erewrite store_elem_run by done.
Qed.

Lemma alter_is_Some f (E : gmap positive no_os_list_elem) e q :
  is_Some (E !! q) -> is_Some (alter f e E !! q).
Proof. intros H. apply elem_of_dom. rewrite dom_alter_L. by apply elem_of_dom. Qed.

Lemma update_links_run L h its prev elem next :
  (forall q, prev = Some q \/ elem = Some q \/ next = Some q -> is_Some (cells h !! q)) ->
  no_os_update_links prev elem next (st m l L h its)
  = Done (tt, st m l L (with_cells h (links prev elem next (cells h))) its).
Proof.
  intros Hdom. unfold no_os_update_links.
  set (E1 := match prev with Some q => alter (fun x => Elem (el_data x) (el_prev x)
                  (match elem with Some _ => elem | None => next end)) q (cells h)
             | None => cells h end).
  rewrite (bind_done _ _ _ tt (st m l L (with_cells h E1) its)).
  2: { destruct prev as [q |]; [apply set_next_run; auto | by destruct h]. }
  assert (forall q, elem = Some q \/ next = Some q -> is_Some (E1 !! q)) as Hdom1.
  { intros q Hq. subst E1. destruct prev; [apply alter_is_Some |]; apply Hdom; tauto. }
  set (E2 := match elem with Some q => alter (fun x => Elem (el_data x) prev next) q E1
             | None => E1 end).
  rewrite (bind_done _ _ _ tt (st m l L (with_cells h E2) its)).
  2: { destruct elem as [q |]; [| done].
       erewrite bind_done by (apply set_prev_run; simpl; auto).
       rewrite set_next_run by (apply alter_is_Some; simpl; auto).
       do 3 f_equal. unfold with_cells. simpl. f_equal. subst E2. apply map_eq. intros i.
       destruct (decide (i = q)) as [-> | Hi].
       - rewrite !lookup_alter_eq. by destruct (E1 !! q).
       - by rewrite !lookup_alter_ne. }
  destruct next as [q |]; [| done]. rewrite set_prev_run; [done |].
  simpl. subst E2. destruct elem; [apply alter_is_Some |]; auto.
Qed.

(** A new element, or the failed allocation. *)
Lemma create_element_run L h its d p n :
  create_element d p n (st m l L h its) =
  if alloc_fails h then Done (None, st m l L (Heap (cells h) (next_block h) (tail (oom h))) its)
  else Done (Some (next_block h),
    st m l L (Heap (<[next_block h := Elem d p n]> (cells h)) (Pos.succ (next_block h))
                (tail (oom h))) its).
Proof.
  unfold create_element, on_elems. destruct (alloc_fails h) eqn:E.
  - by erewrite bind_done by by apply zoom_done, halloc_fail.
  - erewrite bind_done by by apply zoom_done, halloc_done. cbn [m_elems].
    erewrite bind_done by by eapply zoom_done, hstore_done, lookup_insert_eq.
    unfold st. simpl. by rewrite insert_insert_eq.
Qed.

Lemma free_elem_run L h its e :
  is_Some (cells h !! e) ->
  on_elems (hfree (Some e)) (st m l L h its)
  = Done (tt, st m l L (with_cells h (base.delete e (cells h))) its).
Proof. intros [x H]. unfold on_elems. by erewrite zoom_done by by eapply hfree_done. Qed.

(** Where an iterator of the list stands: [l_it], or one on the heap. *)
Definition iter_at (it : iter_ref) L its (e : ptr) : Prop :=
  match it with
  | ItNull => False
  | ItOf p => p = Some l /\ l_it L = Iter (Some l) e
  | ItAt p => cells its !! p = Some (Iter (Some l) e)
  end.

Definition put_L (it : iter_ref) L (e : ptr) : list_desc_priv :=
  match it with ItOf _ => upd_it L (Iter (it_list (l_it L)) e) | _ => L end.

Definition put_its (it : iter_ref) its (e : ptr) : heap no_os_iterator :=
  match it with ItAt p => with_cells its (<[p := Iter (Some l) e]> (cells its)) | _ => its end.

Lemma load_iter_run it L h its e :
  iter_at it L its e -> load_iter it (st m l L h its) = Done (Iter (Some l) e, st m l L h its).
Proof.
  destruct it as [| p | p]; [done | |].
  - intros H. unfold load_iter, on_iters. by erewrite zoom_done by by apply hload_done.
  - intros [-> H]. unfold load_iter. rewrite (bind_done _ _ _ _ _ (load_list_run _ _ _)).
    by rewrite H.
Qed.

Lemma set_it_elem_run it L h its e e' :
  iter_at it L its e ->
  set_it_elem it e' (st m l L h its) = Done (tt, st m l (put_L it L e') h (put_its it its e')).
Proof.
  destruct it as [| p | p]; [done | |].
  - intros H. unfold set_it_elem, on_iters. erewrite bind_done by by apply zoom_done, hload_done.
    by erewrite zoom_done by by eapply hstore_done.
  - intros [-> H]. unfold set_it_elem. rewrite (bind_done _ _ _ _ _ (load_list_run _ _ _)).
    by rewrite store_list_run.
Qed.

Lemma iter_at_put it L its e e' : iter_at it L its e -> iter_at it (put_L it L e') (put_its it its e') e'.
Proof.
  destruct it; simpl; [done | by rewrite lookup_insert_eq |].
  intros [-> ->]. done.
Qed.
End runs.

(** *** Changing the length of a list *)

(** List [l] holds [ds] at the addresses [ps]; the other elements are [F]. *)
Definition lst (l : positive) (L : list_desc_priv) (h : heap no_os_list_elem)
    (ps : list positive) (ds : list Z) (F : gset positive) : Prop :=
  lrep l L (cells h) ps ds /\ heap_ok h /\
  dom (cells h) = list_to_set ps ∪ F /\ list_to_set ps ## F.

(** The settings the operations keep. *)
Definition same_cfg (L L' : list_desc_priv) : Prop :=
  comparator L' = comparator L /\ nb_iterators L' = nb_iterators L /\ l_it L' = l_it L.

Definition tail_oom (h : heap no_os_list_elem) : heap no_os_list_elem :=
  Heap (cells h) (next_block h) (tail (oom h)).

(** The heap after an element with data [d] was hung at position [k]. *)
Definition grow (h : heap no_os_list_elem) (ps : list positive) (k : nat) (d : Z) :
  heap no_os_list_elem :=
  Heap (links (before ps k) (Some (next_block h)) (ps !! k)
         (<[next_block h := Elem d (before ps k) (ps !! k)]> (cells h)))
    (Pos.succ (next_block h)) (tail (oom h)).

Definition shrink (h : heap no_os_list_elem) (ps : list positive) (k : nat) (e : positive) :
  heap no_os_list_elem :=
  with_cells h (base.delete e (links (before ps k) None (ps !! S k) (cells h))).

Section lists.
  Context (l : positive) (L : list_desc_priv) (h : heap no_os_list_elem)
    (ps : list positive) (ds : list Z) (F : gset positive).
  Hypothesis H : lst l L h ps ds F.

Lemma lst_dll : dll (cells h) ps ds.
Proof. apply H. Qed.

Lemma lst_length : length ps = length ds.
Proof. apply lst_dll. Qed.

Lemma lst_fresh : cells h !! next_block h = None.
Proof. apply heap_ok_fresh, H. Qed.

Lemma lst_first : ld_first L = ps !! 0%nat.
Proof. destruct H as ((_ & -> & _) & _). by destruct ps. Qed.

Lemma lst_last : ld_last L = before ps (length ps).
Proof.
  destruct H as ((_ & _ & -> & _) & _). rewrite last_lookup. by destruct ps.
Qed.

Lemma lst_grow L' k d :
  (k <= length ps)%nat -> same_cfg L L' -> Z.of_nat (length ds) + 1 < 2 ^ 32 ->
  ld_first L' = linsert k (next_block h) ps !! 0%nat ->
  ld_last L' = before (linsert k (next_block h) ps) (S (length ps)) ->
  nb_elements L' = Z.of_nat (length ds) + 1 ->
  lst l L' (grow h ps k d) (linsert k (next_block h) ps) (linsert k d ds) F.
Proof.
  intros Hk (_ & _ & Hit) Hlen Hf Hl Hnb.
  pose proof lst_fresh as Hfresh. destruct H as ((Hdll & _ & _ & _ & _ & Hil) & Hok & Hdom & HF).
  assert (next_block h ∉ F) as HnF.
  { intros Hin. assert (next_block h ∈ dom (cells h)) as Hd by (rewrite Hdom; set_solver).
    apply elem_of_dom in Hd as [? ?]. congruence. }
  split.
  - unfold lrep. splits.
    + by apply dll_insert.
    + rewrite Hf. by destruct (linsert _ _ _).
    + rewrite Hl, last_lookup, linsert_length. by destruct (linsert _ _ _).
    + rewrite Hnb, linsert_length. lia.
    + rewrite linsert_length. lia.
    + by rewrite Hit.
  - unfold grow. cbn [cells]. rewrite links_dom, dom_insert_L, Hdom. splits.
    + intros q Hq. simpl in *. apply elem_of_dom in Hq. rewrite links_dom, dom_insert_L in Hq.
      apply elem_of_union in Hq as [->%elem_of_singleton | Hq%elem_of_dom]; [lia |].
      apply Hok in Hq. lia.
    + apply set_eq. intros x. rewrite !elem_of_union, !elem_of_list_to_set, elem_of_singleton,
        linsert_elem. tauto.
    + intros x. rewrite elem_of_list_to_set, linsert_elem. set_solver.
Qed.

Lemma lst_shrink L' k e :
  ps !! k = Some e -> same_cfg L L' ->
  ld_first L' = delete k ps !! 0%nat ->
  ld_last L' = before (delete k ps) (length (delete k ps)) ->
  nb_elements L' = Z.of_nat (length ds) - 1 ->
  lst l L' (shrink h ps k e) (delete k ps) (delete k ds) F.
Proof.
  intros Hk (_ & _ & Hit) Hf Hl Hnb. pose proof (lookup_lt_Some _ _ _ Hk) as Hlt.
  destruct H as ((Hdll & _ & _ & _ & Hlen & Hil) & Hok & Hdom & HF).
  pose proof Hdll as (Hnd & Hll & _).
  assert (forall x, x ∈ delete k ps <-> x ∈ ps /\ x <> e) as Hin
    by by intros; apply delete_elem.
  split.
  - unfold lrep. splits.
    + by apply dll_delete.
    + rewrite Hf. by destruct (delete _ _).
    + rewrite Hl, last_lookup. by destruct (delete _ _).
    + rewrite Hnb, delete_length by lia. lia.
    + rewrite delete_length by lia. lia.
    + by rewrite Hit.
  - unfold shrink. cbn [cells with_cells]. rewrite dom_delete_L, links_dom, Hdom. splits.
    + intros q Hq. simpl in *. apply elem_of_dom in Hq. rewrite dom_delete_L, links_dom in Hq.
      apply elem_of_difference in Hq as [Hq _]. by apply elem_of_dom, Hok in Hq.
    + assert (e ∉ F) as HeF by (apply list_elem_of_lookup_2 in Hk; set_solver).
      apply set_eq. intros x. rewrite elem_of_difference, !elem_of_union, !elem_of_list_to_set,
        elem_of_singleton, Hin. set_solver.
    + intros x. rewrite elem_of_list_to_set, Hin. set_solver.
Qed.

(** Only the internal iterator or the count of iterators changes. *)
Lemma lst_upd_it e : lst l (upd_it L (Iter (Some l) e)) h ps ds F.
Proof. destruct H as ((? & ? & ? & ? & ? & ?) & ? & ? & ?). by unfold lst, lrep; splits. Qed.

Lemma lst_put_L it its e0 e : iter_at l it L its e0 -> lst l (put_L it L e) h ps ds F.
Proof.
  destruct it; simpl; [done.. |]. intros [_ ->]. apply lst_upd_it.
Qed.

Lemma lst_upd_nit n : lst l (upd_nit L n) h ps ds F.
Proof. destruct H as ((? & ? & ? & ? & ? & ?) & ? & ? & ?). by unfold lst, lrep; splits. Qed.

Lemma lst_tail_oom : lst l L (tail_oom h) ps ds F.
Proof. destruct H as ((? & ? & ? & ? & ? & ?) & ? & ? & ?). by unfold lst, lrep; splits. Qed.

Lemma lst_edit k e d :
  ps !! k = Some e ->
  lst l L (with_cells h (<[e := Elem d (before ps k) (ps !! S k)]> (cells h))) ps (<[k := d]> ds) F.
Proof.
  intros Hk. destruct H as ((Hdll & ? & ? & Hnb & Hlen & ?) & Hok & Hdom & HF).
  assert (is_Some (cells h !! e)) as He by by eapply dll_dom, list_elem_of_lookup_2.
  split; [| split; [| split; [| done]]].
  - unfold lrep. rewrite length_insert. splits; try done. by apply dll_edit.
  - apply heap_ok_insert; [done | by apply Hok | done].
  - cbn [cells with_cells]. apply elem_of_dom in He. rewrite dom_insert_L, Hdom. set_solver.
Qed.
End lists.

Lemma same_cfg_refl L : same_cfg L L.
Proof. done. Qed.

Lemma new_ends_cfg L f e : same_cfg L (new_ends L f e).
Proof. unfold new_ends. by repeat des_if. Qed.

Lemma new_ends_nb L f e : nb_elements (new_ends L f e) = nb_elements L.
Proof. unfold new_ends. by repeat des_if. Qed.

(** *** The operations on a list *)

Lemma desc_match {A} m d l (x y : A) :
  desc_of m d l -> match d with DescNull => x | _ => y end = y.
Proof. by destruct d. Qed.

Lemma iter_match {A} l it L its e (x y : A) :
  iter_at l it L its e -> match it with ItNull => x | _ => y end = y.
Proof. by destruct it. Qed.

(** The two outcomes of adding [d] at position [k]. *)
Definition added (l : positive) (L : list_desc_priv) (h : heap no_os_list_elem)
    (ps : list positive) (ds : list Z) (F : gset positive) (k : nat) (d : Z)
    (L' : list_desc_priv) (h' : heap no_os_list_elem) : Prop :=
  if alloc_fails h then L' = L /\ h' = tail_oom h
  else same_cfg L L' /\ h' = grow h ps k d /\
    lst l L' h' (linsert k (next_block h) ps) (linsert k d ds) F.

Section ops.
  Context (m : list_mem) (l : positive) (L : list_desc_priv) (h : heap no_os_list_elem)
    (its : heap no_os_iterator) (ps : list positive) (ds : list Z) (F : gset positive).
  Hypothesis H : lst l L h ps ds F.

(** Creating an element between two neighbours and linking it. *)
Lemma link_run k d {A} (kt : ptr -> cmd list_mem A) (k1 : cmd list_mem A) :
  (k <= length ps)%nat -> alloc_fails h = false ->
  (forall s, kt (Some (next_block h)) s
     = (_ ← no_os_update_links (before ps k) (Some (next_block h)) (ps !! k); k1) s) ->
  (elem ← create_element d (before ps k) (ps !! k); kt elem) (st m l L h its)
  = k1 (st m l L (grow h ps k d) its).
Proof.
  intros Hk Ha Hkt. erewrite bind_done by (rewrite create_element_run, Ha; done).
  rewrite Hkt. erewrite bind_done; [done |]. rewrite update_links_run; [done |].
  pose proof (lst_dll _ _ _ _ _ _ H) as Hdll. cbn [cells].
  intros q Hq. apply elem_of_dom. rewrite dom_insert_L.
  destruct Hq as [Hq | [Hq | Hq]]; [| set_solver |].
  - destruct k as [| k]; [done |]. apply elem_of_union_r, elem_of_dom.
    by eapply dll_dom, list_elem_of_lookup_2.
  - apply elem_of_union_r, elem_of_dom. by eapply dll_dom, list_elem_of_lookup_2.
Qed.

Lemma nb_wrap : Z.of_nat (length ds) + 1 < 2 ^ 32 ->
  u32 (nb_elements L + 1) = Z.of_nat (length ds) + 1.
Proof.
  destruct H as ((_ & _ & _ & -> & _ & _) & _). intros ?. apply wrap_small. unfold uint. lia.
Qed.

Lemma next_notin : next_block h ∉ ps.
Proof. eapply dll_fresh; [apply (lst_dll _ _ _ _ _ _ H) | apply (lst_fresh _ _ _ _ _ _ H)]. Qed.

Lemma new_ends_first f e :
  f <> ld_first L -> ld_first (new_ends L f e) = f /\
  ld_last (new_ends L f e)
  = if bool_decide (e = None) || bool_decide (f = None) then f else ld_last L.
Proof. intros Hf. unfold new_ends. rewrite bool_decide_false by done. by des_if. Qed.

Lemma new_ends_last f e :
  f = ld_first L -> ld_last (new_ends L f e) = e /\
  ld_first (new_ends L f e)
  = if bool_decide (f = None) || bool_decide (e = None) then e else ld_first L.
Proof. intros Hf. unfold new_ends. rewrite bool_decide_true by done. by des_if. Qed.

Lemma add_first_ends k L' :
  L' = new_ends L (Some (next_block h)) (ld_last L) -> k = 0%nat ->
  ld_first L' = linsert k (next_block h) ps !! 0%nat /\
  ld_last L' = before (linsert k (next_block h) ps) (S (length ps)).
Proof.
  intros -> ->. destruct (new_ends_first (Some (next_block h)) (ld_last L)) as [-> ->].
  { rewrite (lst_first _ _ _ _ _ _ H). intros E. apply next_notin.
    rewrite list_elem_of_lookup. eauto. }
  split; [done |]. rewrite (lst_last _ _ _ _ _ _ H), linsert_0.
  destruct ps as [| p0 ps0] eqn:Eps; [done |]. cbn [length before]. simpl.
  destruct (lookup_lt_is_Some_2 (p0 :: ps0) (length ps0)) as [q Hq]; [simpl; lia |].
  by rewrite Hq.
Qed.

Lemma add_last_ends k L' :
  L' = new_ends L (ld_first L) (Some (next_block h)) -> k = length ps ->
  ld_first L' = linsert k (next_block h) ps !! 0%nat /\
  ld_last L' = before (linsert k (next_block h) ps) (S (length ps)).
Proof.
  intros -> ->. destruct (new_ends_last (ld_first L) (Some (next_block h))) as [-> ->]; [done |].
  rewrite (lst_first _ _ _ _ _ _ H), linsert_length_end. split.
  - by destruct ps.
  - cbn [before]. by rewrite lookup_app_r, Nat.sub_diag by lia.
Qed.

Lemma add_first_run d data :
  desc_of m d l -> Z.of_nat (length ds) + 1 < 2 ^ 32 ->
  exists L' h', no_os_list_add_first d data (st m l L h its)
    = Done (if alloc_fails h then -1 else 0, st m l L' h' its) /\
    added l L h ps ds F 0 data L' h'.
Proof.
  intros Hd Hlen. unfold no_os_list_add_first, added. erewrite desc_match by done.
  rewrite (bind_done _ _ _ _ _ (priv_of_run _ _ _ _ _ _ Hd)).
  rewrite (bind_done _ _ _ _ _ (load_list_run _ _ _ _ _)).
  rewrite (lst_first _ _ _ _ _ _ H). destruct (alloc_fails h) eqn:Ha.
  { erewrite bind_done by (rewrite create_element_run, Ha; done). by eexists _, _. }
  erewrite (link_run 0) by (done || lia).
  rewrite (bind_done _ _ _ _ _ (update_desc_run _ _ _ _ _ _ _)).
  rewrite (bind_done _ _ _ _ _ (load_list_run _ _ _ _ _)).
  rewrite (bind_done _ _ _ _ _ (set_nb_run _ _ _ _ _ _)).
  eexists _, _. split; [done |]. split; [apply new_ends_cfg |]. split; [done |].
  destruct (add_first_ends 0 _ eq_refl eq_refl) as [Hf Hl].
  apply (lst_grow l L); try done; try lia; [apply new_ends_cfg |].
  simpl. rewrite new_ends_nb. by apply nb_wrap.
Qed.

Lemma add_last_run d data :
  desc_of m d l -> Z.of_nat (length ds) + 1 < 2 ^ 32 ->
  exists L' h', no_os_list_add_last d data (st m l L h its)
    = Done (if alloc_fails h then -1 else 0, st m l L' h' its) /\
    added l L h ps ds F (length ps) data L' h'.
Proof.
  intros Hd Hlen. unfold no_os_list_add_last, added. erewrite desc_match by done.
  rewrite (bind_done _ _ _ _ _ (priv_of_run _ _ _ _ _ _ Hd)).
  rewrite (bind_done _ _ _ _ _ (load_list_run _ _ _ _ _)).
  rewrite (lst_last _ _ _ _ _ _ H).
  replace None with (ps !! length ps) by (apply lookup_ge_None_2; lia).
  destruct (alloc_fails h) eqn:Ha.
  { erewrite bind_done by (rewrite create_element_run, Ha; done). by eexists _, _. }
  erewrite (link_run (length ps)) by (done || lia).
  rewrite (bind_done _ _ _ _ _ (update_desc_run _ _ _ _ _ _ _)).
  rewrite (bind_done _ _ _ _ _ (load_list_run _ _ _ _ _)).
  rewrite (bind_done _ _ _ _ _ (set_nb_run _ _ _ _ _ _)).
  eexists _, _. split; [done |]. split; [apply new_ends_cfg |]. split; [done |].
  destruct (add_last_ends (length ps) _ eq_refl eq_refl) as [Hf Hl].
  pose proof (lst_length _ _ _ _ _ _ H).
  apply (lst_grow l L); try done; try lia; [apply new_ends_cfg |].
  simpl. rewrite new_ends_nb. by apply nb_wrap.
Qed.
End ops.

(** *** Taking elements out *)

Definition removed (l : positive) (L : list_desc_priv) (h : heap no_os_list_elem)
    (ps : list positive) (ds : list Z) (F : gset positive) (k : nat)
    (L' : list_desc_priv) (h' : heap no_os_list_elem) : Prop :=
  exists e, ps !! k = Some e /\ same_cfg L L' /\ h' = shrink h ps k e /\
    lst l L' h' (delete k ps) (delete k ds) F.

(** The ends after taking out the element at position [k], wherever it is. *)
Definition cut_ends (L : list_desc_priv) (e prev next : ptr) : list_desc_priv :=
  if bool_decide (e = ld_first L) then new_ends L next (ld_last L)
  else if bool_decide (e = ld_last L) then new_ends L (ld_first L) prev
  else L.

Lemma cut_ends_cfg L e p n : same_cfg L (cut_ends L e p n).
Proof. unfold cut_ends. repeat des_if; (apply new_ends_cfg || done). Qed.

Lemma cut_ends_nb L e p n : nb_elements (cut_ends L e p n) = nb_elements L.
Proof. unfold cut_ends. repeat des_if; (apply new_ends_nb || done). Qed.

Section cut.
  Context (m : list_mem) (l : positive) (L : list_desc_priv) (h : heap no_os_list_elem)
    (its : heap no_os_iterator) (ps : list positive) (ds : list Z) (F : gset positive).
  Hypothesis H : lst l L h ps ds F.

Lemma lst_NoDup : NoDup ps.
Proof. apply (lst_dll _ _ _ _ _ _ H). Qed.

(** Cutting the first element is what [no_os_list_get_first] does. *)
Lemma cut_first e : ps !! 0%nat = Some e -> cut_ends L (Some e) None (ps !! 1%nat)
  = new_ends L (ps !! 1%nat) (ld_last L).
Proof.
  intros He. unfold cut_ends. by rewrite (lst_first _ _ _ _ _ _ H), He, bool_decide_true.
Qed.

(** Cutting the last one, [no_os_list_get_last]; with one element the two agree. *)
Lemma cut_last k e : ps !! k = Some e -> S k = length ps -> cut_ends L (Some e) (before ps k) None
  = new_ends L (ld_first L) (before ps k).
Proof.
  intros He Hk. pose proof (lst_first _ _ _ _ _ _ H) as Hf.
  pose proof (lst_last _ _ _ _ _ _ H) as Hl. rewrite <- Hk in Hl. cbn [before] in Hl.
  unfold cut_ends. destruct k as [| k].
  - rewrite Hf, He, bool_decide_true by done. rewrite Hl, He.
    unfold new_ends. rewrite Hf, He. cbn [before].
    rewrite (bool_decide_false (None = Some e)), (bool_decide_true (Some e = Some e)) by done.
    by rewrite (bool_decide_true (None = None)), orb_true_r by done.
  - rewrite Hf, Hl, He, bool_decide_false, bool_decide_true; [done.. |].
    intros E. by apply (NoDup_ne ps (S k) 0 e e lst_NoDup).
Qed.

Lemma cut_ends_ok k e L1 :
  ps !! k = Some e -> L1 = cut_ends L (Some e) (before ps k) (ps !! S k) ->
  ld_first L1 = delete k ps !! 0%nat /\
  ld_last L1 = before (delete k ps) (length (delete k ps)).
Proof.
  intros Hk ->. pose proof (lookup_lt_Some _ _ _ Hk) as Hlt.
  pose proof (lst_first _ _ _ _ _ _ H) as Hf. pose proof (lst_last _ _ _ _ _ _ H) as Hl.
  pose proof lst_NoDup as Hnd.
  rewrite delete_length by done. unfold cut_ends. rewrite Hf, Hl.
  destruct k as [| k].
  - rewrite Hk, bool_decide_true by done. rewrite <- Hl.
    destruct (new_ends_first L (ps !! 1%nat) (ld_last L)) as [-> ->].
    { rewrite Hf. intros E. rewrite Hk in E. by apply (NoDup_ne ps 1 0 e e Hnd). }
    rewrite Hl. destruct ps as [| p0 [| p1 ps0]]; try done. simpl.
    destruct (lookup_lt_is_Some_2 (p0 :: p1 :: ps0) (S (length ps0))) as [q Hq]; [simpl; lia |].
    simpl in Hq. by rewrite Hq.
  - rewrite bool_decide_false by (intros E; symmetry in E; by apply (NoDup_ne ps 0 (S k) e e Hnd)).
    destruct (decide (S (S k) = length ps)) as [Hlast | Hlast].
    + rewrite <- Hlast. cbn [before]. rewrite Hk, bool_decide_true by done.
      destruct (new_ends_last L (ps !! 0%nat) (ps !! k)) as [-> ->]; [done |].
      destruct (lookup_lt_is_Some_2 ps k) as [q Hq]; [lia |].
      destruct (lookup_lt_is_Some_2 ps 0) as [q0 Hq0]; [lia |]. rewrite Hq, Hq0. simpl.
      rewrite Hf, Hq0. simpl. by rewrite !list_lookup_delete_lt by lia.
    + rewrite bool_decide_false.
      2: { destruct (length ps) as [| n] eqn:En; [lia |]. cbn [before]. intros E. symmetry in E.
           apply (NoDup_ne ps n (S k) e e Hnd); done || lia. }
      rewrite Hf, Hl, list_lookup_delete_lt by lia. split; [done |].
      destruct (length ps) as [| [| n]] eqn:En; [lia.. |]. simpl.
      by rewrite list_lookup_delete_ge by lia.
Qed.

Lemma nb_wrap_sub : (0 < length ds)%nat ->
  u32 (nb_elements L - 1) = Z.of_nat (length ds) - 1.
Proof.
  destruct H as ((_ & _ & _ & -> & ? & _) & _). intros ?. apply wrap_small. unfold uint. lia.
Qed.

(** The heap after the unlinking and the release. *)
Lemma cut_removed k e L' :
  ps !! k = Some e -> same_cfg L L' ->
  ld_first L' = delete k ps !! 0%nat ->
  ld_last L' = before (delete k ps) (length (delete k ps)) ->
  nb_elements L' = u32 (nb_elements L - 1) ->
  removed l L h ps ds F k L' (shrink h ps k e).
Proof.
  intros Hk Hc Hf Hl Hnb. exists e. splits; try done. apply (lst_shrink l L); try done.
  rewrite Hnb. apply nb_wrap_sub. rewrite <- (lst_length _ _ _ _ _ _ H).
  apply lookup_lt_Some in Hk. lia.
Qed.

Lemma unlink_run k e L0 : ps !! k = Some e ->
  no_os_update_links (before ps k) None (ps !! S k) (st m l L0 h its)
  = Done (tt, st m l L0 (with_cells h (links (before ps k) None (ps !! S k) (cells h))) its).
Proof.
  intros Hk. apply update_links_run. intros q Hq.
  eapply dll_dom; [apply (lst_dll _ _ _ _ _ _ H) |]. apply list_elem_of_lookup.
  destruct Hq as [Hq | [Hq | Hq]]; [destruct k; [done | eauto] | done | eauto].
Qed.

Lemma unlinked_is_Some k e : ps !! k = Some e ->
  is_Some (links (before ps k) None (ps !! S k) (cells h) !! e).
Proof.
  intros Hk. apply elem_of_dom. rewrite links_dom. apply elem_of_dom.
  eapply dll_dom; [apply (lst_dll _ _ _ _ _ _ H) |]. by eapply list_elem_of_lookup_2.
Qed.

Lemma free_cut_run k e L0 : ps !! k = Some e ->
  on_elems (hfree (Some e))
    (st m l L0 (with_cells h (links (before ps k) None (ps !! S k) (cells h))) its)
  = Done (tt, st m l L0 (shrink h ps k e) its).
Proof. intros Hk. rewrite free_elem_run; [done |]. by apply unlinked_is_Some. Qed.

Lemma look_at k x : ds !! k = Some x -> exists e, ps !! k = Some e /\
  cells h !! e = Some (Elem x (before ps k) (ps !! S k)).
Proof.
  intros Hx. pose proof (lst_length _ _ _ _ _ _ H) as Hlen.
  destruct (lookup_lt_is_Some_2 ps k) as [e He]; [apply lookup_lt_Some in Hx; lia |].
  destruct (dll_look _ _ _ (lst_dll _ _ _ _ _ _ H) _ _ He) as (d' & Hd' & Hlook).
  exists e. split; [done |]. by assert (d' = x) as -> by congruence.
Qed.

Lemma nb_eq : nb_elements L = Z.of_nat (length ds).
Proof. apply H. Qed.

Lemma nb_nonzero k x : ds !! k = Some x -> truthy (nb_elements L) = true.
Proof. intros Hx. apply lookup_lt_Some in Hx. apply truthy_true. rewrite nb_eq. lia. Qed.

Lemma nb_zero : ds = [] -> truthy (nb_elements L) = false.
Proof. intros E. rewrite nb_eq, E. done. Qed.

Lemma get_first_run d :
  desc_of m d l ->
  match head ds with
  | None => no_os_list_get_first d false (st m l L h its) = Done ((-1, Some 0), st m l L h its)
  | Some x => exists L' h', no_os_list_get_first d false (st m l L h its)
      = Done ((0, Some x), st m l L' h' its) /\ removed l L h ps ds F 0 L' h'
  end.
Proof.
  intros Hd. unfold no_os_list_get_first. rewrite !(desc_match _ _ _ _ _ Hd).
  pose proof (lst_first _ _ _ _ _ _ H) as Hf. rewrite head_lookup.
  destruct (ds !! 0%nat) as [x |] eqn:Ex.
  - destruct (look_at 0 x Ex) as (e & He & Hlook). eexists _, _. split.
    + rewrite (bind_done _ _ _ _ _ (priv_of_run _ _ _ _ _ _ Hd)).
      rewrite (bind_done _ _ _ _ _ (load_list_run _ _ _ _ _)).
      rewrite (nb_nonzero _ _ Ex), Hf, He. cbn [negb].
      rewrite (bind_done _ _ _ _ _ (load_elem_run _ _ _ _ _ _ _ Hlook)). cbn [el_prev el_next].
      rewrite (bind_done _ _ _ _ _ (unlink_run 0 e _ He)).
      rewrite (bind_done _ _ _ _ _ (update_desc_run _ _ _ _ _ _ _)).
      rewrite (bind_done _ _ _ _ _ (load_list_run _ _ _ _ _)).
      rewrite (bind_done _ _ _ _ _ (set_nb_run _ _ _ _ _ _)).
      rewrite (bind_done _ _ _ _ _ (free_cut_run 0 e _ He)).
      done.
    + rewrite <- (cut_first e He). destruct (cut_ends_ok 0 e _ He eq_refl) as [Hf1 Hl1].
      apply cut_removed; try done; [apply cut_ends_cfg |]. simpl. by rewrite cut_ends_nb.
  - rewrite (bind_done _ _ _ _ _ (priv_of_run _ _ _ _ _ _ Hd)).
    rewrite (bind_done _ _ _ _ _ (load_list_run _ _ _ _ _)).
    rewrite nb_zero; [done |]. by destruct ds.
Qed.

Lemma get_last_run d :
  desc_of m d l ->
  match last ds with
  | None => no_os_list_get_last d false (st m l L h its) = Done ((-1, Some 0), st m l L h its)
  | Some x => exists L' h', no_os_list_get_last d false (st m l L h its)
      = Done ((0, Some x), st m l L' h' its) /\ removed l L h ps ds F (pred (length ds)) L' h'
  end.
Proof.
  intros Hd. unfold no_os_list_get_last. rewrite !(desc_match _ _ _ _ _ Hd).
  pose proof (lst_last _ _ _ _ _ _ H) as Hl. pose proof (lst_length _ _ _ _ _ _ H) as Hlen.
  rewrite last_lookup. set (k := pred (length ds)). destruct (ds !! k) as [x |] eqn:Ex.
  - pose proof (lookup_lt_Some _ _ _ Ex). destruct (look_at k x Ex) as (e & He & Hlook).
    assert (S k = length ps) as Hk by lia. rewrite <- Hk in Hl. cbn [before] in Hl.
    assert (ps !! S k = None) as Hn by (apply lookup_ge_None_2; lia).
    eexists _, _. split.
    + rewrite (bind_done _ _ _ _ _ (priv_of_run _ _ _ _ _ _ Hd)).
      rewrite (bind_done _ _ _ _ _ (load_list_run _ _ _ _ _)).
      rewrite (nb_nonzero _ _ Ex), Hl, He. cbn [negb].
      rewrite (bind_done _ _ _ _ _ (load_elem_run _ _ _ _ _ _ _ Hlook)). cbn [el_prev el_next].
      rewrite (bind_done _ _ _ _ _ (unlink_run k e _ He)).
      rewrite (bind_done _ _ _ _ _ (update_desc_run _ _ _ _ _ _ _)).
      rewrite (bind_done _ _ _ _ _ (load_list_run _ _ _ _ _)).
      rewrite (bind_done _ _ _ _ _ (set_nb_run _ _ _ _ _ _)).
      rewrite (bind_done _ _ _ _ _ (free_cut_run k e _ He)).
      done.
    + rewrite <- (cut_last k e He Hk). destruct (cut_ends_ok k e _ He eq_refl) as [Hf1 Hl1].
      rewrite Hn in Hf1, Hl1. apply cut_removed; try done; [apply cut_ends_cfg |].
      simpl. by rewrite cut_ends_nb.
  - rewrite (bind_done _ _ _ _ _ (priv_of_run _ _ _ _ _ _ Hd)).
    rewrite (bind_done _ _ _ _ _ (load_list_run _ _ _ _ _)).
    rewrite nb_zero; [done |]. apply lookup_ge_None in Ex. apply nil_length_inv. lia.
Qed.
End cut.

(** *** Moving and searching *)

(** The position [steps] away from [k], when there is one. *)
Definition moved (n k : nat) (steps : Z) : option nat :=
  let t := Z.of_nat k + steps in
  if (0 <=? t) && (t <? Z.of_nat n) then Some (Z.to_nat t) else None.

(** The position of the first datum that satisfies [f]. *)
Fixpoint find_idx (f : Z -> bool) (ds : list Z) : option nat :=
  match ds with
  | [] => None
  | d :: ds => if f d then Some O else S <$> find_idx f ds
  end.

Lemma find_idx_lt f ds i : find_idx f ds = Some i -> (i < length ds)%nat.
Proof.
  revert i. induction ds as [| d ds IH]; simpl; [done |]. intros i.
  destruct (f d); [intros [= <-]; lia |].
  destruct (find_idx f ds) as [j |]; [| done]. intros [= <-]. specialize (IH j eq_refl). lia.
Qed.

(** It is what [find_idx] should be: the test holds there and nowhere before. *)
Lemma find_idx_spec f ds :
  match find_idx f ds with
  | Some i => exists d, ds !! i = Some d /\ f d = true /\
      forall j x, (j < i)%nat -> ds !! j = Some x -> f x = false
  | None => forall x, x ∈ ds -> f x = false
  end.
Proof.
  induction ds as [| d ds IH]; simpl; [by intros x ?%elem_of_nil |].
  destruct (f d) eqn:Ed; [exists d; splits; try done; lia |].
  destruct (find_idx f ds) as [i |]; simpl.
  - destruct IH as (x & Hx & Hf & Hb). exists x. splits; [done.. |].
    intros [| j] y Hj; simpl; [congruence |]. apply Hb. lia.
  - intros x [-> | Hx]%elem_of_cons; auto.
Qed.

Section iters.
  Context (m : list_mem) (l : positive) (L : list_desc_priv) (h : heap no_os_list_elem)
    (its : heap no_os_iterator) (ps : list positive) (ds : list Z) (F : gset positive).
  Hypothesis H : lst l L h ps ds F.

Lemma load_at k e : ps !! k = Some e -> exists x, ds !! k = Some x /\
  load_elem (Some e) (st m l L h its)
  = Done (Elem x (before ps k) (ps !! S k), st m l L h its).
Proof.
  intros He. destruct (dll_look _ _ _ (lst_dll _ _ _ _ _ _ H) _ _ He) as (x & Hx & Hlook).
  exists x. split; [done |]. by apply load_elem_run.
Qed.

Lemma walk_fwd n : forall k,
  walk n true (ps !! k) (st m l L h its) = Done (ps !! (k + n)%nat, st m l L h its).
Proof.
  induction n as [| n IH]; intros k; simpl; [by rewrite Nat.add_0_r |].
  destruct (ps !! k) as [e |] eqn:He.
  - destruct (load_at k e He) as (x & _ & Hr). rewrite (bind_done _ _ _ _ _ Hr). cbn [el_next].
    rewrite IH. do 3 f_equal. lia.
  - apply lookup_ge_None in He. by rewrite lookup_ge_None_2 by lia.
Qed.

Lemma walk_bwd n : forall k, (k < length ps)%nat ->
  walk n false (ps !! k) (st m l L h its)
  = Done (if (n <=? k)%nat then ps !! (k - n)%nat else None, st m l L h its).
Proof.
  induction n as [| n IH]; intros k Hk; [by rewrite Nat.sub_0_r |]. cbn [walk].
  destruct (lookup_lt_is_Some_2 ps k Hk) as [e He]. rewrite He.
  destruct (load_at k e He) as (x & _ & Hr). rewrite (bind_done _ _ _ _ _ Hr). cbn [el_prev].
  destruct k as [| k]; [by destruct n |]. cbn [before]. rewrite IH by lia. done.
Qed.

Lemma walk_run k steps : (k < length ps)%nat -> 
  walk (Z.to_nat (Z.abs steps)) (negb (steps <? 0)) (ps !! k) (st m l L h its)
  = Done (match moved (length ps) k steps with Some t => ps !! t | None => None end, st m l L h its).
Proof.
  intros Hk. unfold moved. destruct (Z.ltb_spec steps 0); cbn [negb].
  - rewrite walk_bwd by done.
    destruct (Z.leb_spec 0 (Z.of_nat k + steps)), (Z.ltb_spec (Z.of_nat k + steps) (Z.of_nat (length ps)));
      cbn [andb]; try lia.
    + rewrite (proj2 (Nat.leb_le _ _)) by lia. do 3 f_equal. lia.
    + by rewrite (proj2 (Nat.leb_gt _ _)) by lia.
  - rewrite walk_fwd.
    destruct (Z.leb_spec 0 (Z.of_nat k + steps)), (Z.ltb_spec (Z.of_nat k + steps) (Z.of_nat (length ps)));
      cbn [andb]; try lia.
    + do 3 f_equal. lia.
    + by rewrite lookup_ge_None_2 by lia.
Qed.

Lemma abs32_done x : sint 32 x -> x <> - 2 ^ 31 -> abs32 x = Done (Z.abs x).
Proof. intros Hx Hne. apply ssigned_done. ulia. Qed.

(** A move succeeds exactly when the target is inside the list; otherwise the
    iterator stays. *)
Lemma iterator_move_run it k steps :
  iter_at l it L its (ps !! k) -> (k < length ps)%nat -> sint 32 steps -> steps <> - 2 ^ 31 ->
  no_os_iterator_move it steps (st m l L h its)
  = match moved (length ps) k steps with
    | Some t => Done (0, st m l (put_L it L (ps !! t)) h (put_its l it its (ps !! t)))
    | None => Done (-1, st m l L h its)
    end.
Proof.
  intros Hit Hk Hs Hne. unfold no_os_iterator_move. rewrite (iter_match _ _ _ _ _ _ _ Hit).
  rewrite (bind_done _ _ _ _ _ (lift_done _ _ _ (abs32_done _ Hs Hne))).
  rewrite (bind_done _ _ _ _ _ (load_iter_run _ _ _ _ _ _ _ Hit)). cbn [it_elem].
  rewrite (bind_done _ _ _ _ _ (walk_run k steps Hk)).
  unfold moved. destruct (_ && _) eqn:E; [| done]. zify_cmp.
  destruct (lookup_lt_is_Some_2 ps (Z.to_nat (Z.of_nat k + steps))) as [e He]; [lia |].
  rewrite He. by rewrite (bind_done _ _ _ _ _ (set_it_elem_run _ _ _ _ _ _ _ _ Hit)).
Qed.

(** [no_os_iterator_move_to_idx] counts from the front, or, for a negative
    index, from the back, where 0 is the last element. *)
Lemma iterator_move_to_idx_run it e idx :
  iter_at l it L its e -> ps <> [] -> sint 32 idx -> idx <> - 2 ^ 31 ->
  no_os_iterator_move_to_idx it idx (st m l L h its)
  = match moved (length ps) (if idx <? 0 then pred (length ps) else 0%nat) idx with
    | Some t => Done (0, st m l (put_L it L (ps !! t)) h (put_its l it its (ps !! t)))
    | None => Done (-1, st m l L h its)
    end.
Proof.
  intros Hit Hps Hs Hne. unfold no_os_iterator_move_to_idx. rewrite (iter_match _ _ _ _ _ _ _ Hit).
  rewrite (bind_done _ _ _ _ _ (lift_done _ _ _ (abs32_done _ Hs Hne))).
  rewrite (bind_done _ _ _ _ _ (load_iter_run _ _ _ _ _ _ _ Hit)). cbn [it_list].
  rewrite (bind_done _ _ _ _ _ (load_list_run _ _ _ _ _)).
  rewrite (lst_first _ _ _ _ _ _ H), (lst_last _ _ _ _ _ _ H).
  assert (0 < length ps)%nat by (destruct ps; [done | simpl; lia]).
  replace (before ps (length ps)) with (ps !! pred (length ps)) by by destruct (length ps); [lia |].
  set (k := if idx <? 0 then pred (length ps) else 0%nat).
  replace (if idx <? 0 then ps !! pred (length ps) else ps !! 0%nat) with (ps !! k)
    by (subst k; by destruct (idx <? 0)).
  erewrite bind_done by (apply walk_run; subst k; destruct (idx <? 0); lia).
  unfold moved. destruct (_ && _) eqn:E; [| done]. zify_cmp.
  destruct (lookup_lt_is_Some_2 ps (Z.to_nat (Z.of_nat k + idx))) as [e' He]; [lia |].
  rewrite He. by rewrite (bind_done _ _ _ _ _ (set_it_elem_run _ _ _ _ _ _ _ _ Hit)).
Qed.

(** The searches stop at the first datum that passes the test. *)
Lemma search_run f fuel : forall k, (k <= length ds)%nat -> (length ds < k + fuel)%nat ->
  loop fuel (search_step f) (ps !! k) (st m l L h its)
  = Done (match find_idx f (drop k ds) with Some i => ps !! (k + i)%nat | None => None end,
          st m l L h its).
Proof.
  pose proof (lst_length _ _ _ _ _ _ H) as Hlen.
  induction fuel as [| fuel IH]; intros k Hk Hf; [lia |]. cbn [loop].
  destruct (ps !! k) as [e |] eqn:He.
  - destruct (load_at k e He) as (x & Hx & Hr). pose proof (lookup_lt_Some _ _ _ He).
    rewrite (drop_S ds x k Hx). cbn [find_idx search_step]. rewrite bind_assoc.
    rewrite (bind_done _ _ _ _ _ Hr). cbn [el_data el_next].
    destruct (f x).
    + erewrite bind_done by done. by rewrite Nat.add_0_r, He.
    + erewrite bind_done by done. cbv iota. rewrite IH by lia.
      destruct (find_idx f (drop (S k) ds)); [| done]. cbn [fmap option_fmap option_map].
      do 3 f_equal. lia.
  - apply lookup_ge_None in He. by rewrite drop_ge by lia.
Qed.

Lemma iterator_find_run it e c fuel :
  iter_at l it L its e -> (length ds < fuel)%nat ->
  no_os_iterator_find fuel it c (st m l L h its)
  = match find_idx (fun d => comparator L d c =? 0) ds with
    | Some i => Done (0, st m l (put_L it L (ps !! i)) h (put_its l it its (ps !! i)))
    | None => Done (-1, st m l L h its)
    end.
Proof.
  intros Hit Hf. unfold no_os_iterator_find. rewrite (iter_match _ _ _ _ _ _ _ Hit).
  rewrite (bind_done _ _ _ _ _ (load_iter_run _ _ _ _ _ _ _ Hit)). cbn [it_list].
  rewrite (bind_done _ _ _ _ _ (load_list_run _ _ _ _ _)), (lst_first _ _ _ _ _ _ H).
  erewrite bind_done by (apply search_run; lia). rewrite drop_0.
  destruct (find_idx _ ds) as [i |] eqn:Ei; [| done].
  pose proof (find_idx_lt _ _ _ Ei). pose proof (lst_length _ _ _ _ _ _ H).
  destruct (lookup_lt_is_Some_2 ps i) as [e' He]; [lia |]. rewrite Nat.add_0_l, He.
  by rewrite (bind_done _ _ _ _ _ (set_it_elem_run _ _ _ _ _ _ _ _ Hit)).
Qed.

Lemma iterator_edit_run it k e d :
  iter_at l it L its (Some e) -> ps !! k = Some e ->
  exists h', no_os_iterator_edit it d (st m l L h its) = Done (0, st m l L h' its) /\
    next_block h' = next_block h /\ oom h' = oom h /\ lst l L h' ps (<[k := d]> ds) F.
Proof.
  intros Hit He. unfold no_os_iterator_edit. rewrite (iter_match _ _ _ _ _ _ _ Hit).
  rewrite (bind_done _ _ _ _ _ (load_iter_run _ _ _ _ _ _ _ Hit)). cbn [it_elem].
  destruct (dll_look _ _ _ (lst_dll _ _ _ _ _ _ H) _ _ He) as (x & Hx & Hlook).
  rewrite (bind_done _ _ _ _ _ (set_data_run _ _ _ _ _ _ _ _ Hlook)).
  eexists. split; [done |]. cbn [el_prev el_next]. splits; [done.. |]. by apply lst_edit.
Qed.

Lemma iterator_read_run it k e :
  iter_at l it L its (Some e) -> ps !! k = Some e ->
  no_os_iterator_read it false (st m l L h its) = Done ((0, ds !! k), st m l L h its).
Proof.
  intros Hit He. unfold no_os_iterator_read. rewrite (iter_match _ _ _ _ _ _ _ Hit).
  rewrite (bind_done _ _ _ _ _ (load_iter_run _ _ _ _ _ _ _ Hit)). cbn [it_elem].
  rewrite bool_decide_false by done. cbn [orb].
  destruct (load_at k e He) as (x & Hx & Hr). by rewrite (bind_done _ _ _ _ _ Hr), Hx.
Qed.

(** The datum is taken out and the iterator moves to the element after it,
    to none when it was the last. *)
Lemma iterator_get_run it k e :
  iter_at l it L its (Some e) -> ps !! k = Some e ->
  exists L' h', no_os_iterator_get it false (st m l L h its)
    = Done ((0, ds !! k), st m l (put_L it L' (ps !! S k)) h' (put_its l it its (ps !! S k))) /\
    removed l L h ps ds F k L' h'.
Proof.
  intros Hit He. destruct (load_at k e He) as (x & Hx & Hr).
  destruct (cut_ends_ok _ _ _ _ _ _ H k e _ He eq_refl) as [Hf1 Hl1].
  exists (upd_nb (cut_ends L (Some e) (before ps k) (ps !! S k)) (u32 (nb_elements L - 1))),
    (shrink h ps k e). split.
  - unfold no_os_iterator_get. rewrite !(iter_match _ _ _ _ _ _ _ Hit).
    rewrite (bind_done _ _ _ _ _ (load_iter_run _ _ _ _ _ _ _ Hit)). cbn [it_elem it_list].
    rewrite bool_decide_false by done. cbn [orb].
    rewrite (bind_done _ _ _ _ _ Hr). cbn [el_prev el_next el_data].
    rewrite (bind_done _ _ _ _ _ (unlink_run _ _ _ _ _ _ _ _ H k e _ He)).
    rewrite (bind_done _ _ _ _ _ (load_list_run _ _ _ _ _)).
    set (L1 := cut_ends L (Some e) (before ps k) (ps !! S k)) in *.
    set (h1 := with_cells h (links (before ps k) None (ps !! S k) (cells h))).
    rewrite (bind_done _ _ _ tt (st m l L1 h1 its)).
    2: { subst L1. unfold cut_ends. repeat case_bool_decide; (apply update_desc_run || done). }
    rewrite (bind_done _ _ _ _ _ (load_list_run _ _ _ _ _)).
    rewrite (bind_done _ _ _ _ _ (set_nb_run _ _ _ _ _ _)).
    rewrite (bind_done _ _ _ _ _ (free_cut_run _ _ _ _ _ _ _ _ H k e _ He)).
    assert (nb_elements L1 = nb_elements L) as -> by apply cut_ends_nb.
    rewrite bool_decide_false.
    2: { rewrite Hl1. intros E. symmetry in E.
         destruct (length (delete k ps)) as [| n]; [done |]. cbn [before] in E.
         apply list_elem_of_lookup_2 in E.
         by apply (delete_elem ps k e e (lst_NoDup _ _ _ _ _ _ H) He) in E as [_ []]. }
    erewrite bind_done; [by rewrite Hx |]. apply set_it_elem_run with (e := Some e).
    destruct it as [| p | p]; [done.. |]. destruct Hit as [-> Hit]. split; [done |].
    rewrite <- Hit. apply (cut_ends_cfg L).
  - apply (cut_removed _ _ _ _ _ _ H); try done. apply cut_ends_cfg.
Qed.

(** The position an insertion at [k] takes. *)
Lemma iterator_insert_run it k e d after :
  iter_at l it L its (Some e) -> ps !! k = Some e -> Z.of_nat (length ds) + 1 < 2 ^ 32 ->
  exists L' h', no_os_iterator_insert it d after (st m l L h its)
    = Done (if alloc_fails h then -1 else 0, st m l L' h' its) /\
    added l L h ps ds F (if after then S k else k) d L' h'.
Proof.
  intros Hit He Hlen. unfold no_os_iterator_insert. rewrite (iter_match _ _ _ _ _ _ _ Hit).
  pose proof (lookup_lt_Some _ _ _ He) as Hk. pose proof (lst_NoDup _ _ _ _ _ _ H) as Hnd.
  destruct (load_at k e He) as (x & Hx & Hr).
  setoid_rewrite (bind_done _ _ _ _ _ (load_iter_run _ _ _ _ _ _ _ Hit)). cbn [it_elem it_list].
  setoid_rewrite (bind_done _ _ _ _ _ (load_list_run _ _ _ _ _)).
  rewrite (lst_first _ _ _ _ _ _ H), (lst_last _ _ _ _ _ _ H).
  destruct (after && bool_decide (Some e = before ps (length ps))) eqn:Ea.
  { apply andb_true_iff in Ea as [-> E%bool_decide_eq_true].
    assert (S k = length ps) as Hkl.
    { destruct (length ps) as [| n] eqn:En; [lia |]. cbn [before] in E. symmetry in E.
      destruct (decide (n = k)); [lia |]. exfalso. by apply (NoDup_ne ps n k e e Hnd). }
    destruct (add_last_run m l L h its ps ds F H (DescLocal (Some l)) d) as (L' & h' & ? & ?);
      [done.. |]. exists L', h'. by rewrite Hkl. }
  destruct (negb after && bool_decide (Some e = ps !! 0%nat)) eqn:Eb.
  { apply andb_true_iff in Eb as [Eaf E%bool_decide_eq_true]. destruct after; [done |].
    assert (k = 0%nat) as Hkl.
    { destruct (decide (k = 0%nat)); [done |]. exfalso. symmetry in E.
      by apply (NoDup_ne ps 0 k e e Hnd); try done; lia. }
    destruct (add_first_run m l L h its ps ds F H (DescLocal (Some l)) d) as (L' & h' & ? & ?);
      [done.. |]. exists L', h'. by rewrite Hkl. }
  setoid_rewrite (bind_done _ _ _ _ _ Hr). cbn [el_prev el_next].
  set (t := if after then S k else k).
  replace (if after then Some e else before ps k) with (before ps t) by (subst t; by destruct after).
  replace (if after then ps !! S k else Some e) with (ps !! t) by (subst t; by destruct after).
  unfold added. destruct (alloc_fails h) eqn:Ha.
  { eexists _, _. erewrite bind_done by (rewrite create_element_run, Ha; done). done. }
  assert (t <= length ps)%nat as Ht by (subst t; destruct after; lia).
  eexists _, _. split.
  - erewrite (link_run m l L h its ps ds F H t d) by done. rewrite (bind_done _ _ _ _ _ (load_list_run _ _ _ _ _)).
    by rewrite (bind_done _ _ _ _ _ (set_nb_run _ _ _ _ _ _)).
  - split; [done |]. split; [done |]. pose proof (lst_length _ _ _ _ _ _ H) as Hll.
    assert (0 < t < length ps)%nat as Ht'.
    { subst t. destruct after; cbn [andb negb] in *.
      - split; [lia |]. destruct (decide (S k = length ps)) as [E | E]; [| lia].
        rewrite <- E in Ea. cbn [before] in Ea. by rewrite He, bool_decide_true in Ea.
      - split; [| lia]. destruct k; [| lia]. by rewrite He, bool_decide_true in Eb. }
    apply (lst_grow l L); try done; [| | simpl; by apply (nb_wrap _ _ _ _ _ _ H)].
    + simpl. rewrite linsert_lt by lia. apply (lst_first _ _ _ _ _ _ H).
    + simpl. rewrite (lst_last _ _ _ _ _ _ H). destruct (length ps) as [| n] eqn:En; [lia |].
      cbn [before]. by rewrite linsert_gt by lia.
Qed.
End iters.

(** ** The abstract list *)

Inductive list_op : Type :=
  | Add_first (d : Z) | Add_last (d : Z) | Add_idx (d : Z) (i : nat) | Add_find (d : Z)
  | Edit_first (d : Z) | Edit_last (d : Z) | Edit_idx (d : Z) (i : nat) | Edit_find (d c : Z)
  | Rd_first | Rd_last | Rd_idx (i : nat) | Rd_find (c : Z)
  | Get_first | Get_last | Get_idx (i : nat) | Get_find (c : Z)
  | Get_size.

(** The call of each operation; the second result is what [*data] is set to. *)
Definition list_run (fuel : nat) (d : desc_ref) (op : list_op) : cmd list_mem (Z * option Z) :=
  match op with
  | Add_first x => r ← no_os_list_add_first d x; mret (r, None)
  | Add_last x => r ← no_os_list_add_last d x; mret (r, None)
  | Add_idx x i => r ← no_os_list_add_idx d x (Z.of_nat i); mret (r, None)
  | Add_find x => r ← no_os_list_add_find fuel d x; mret (r, None)
  | Edit_first x => r ← no_os_list_edit_first d x; mret (r, None)
  | Edit_last x => r ← no_os_list_edit_last d x; mret (r, None)
  | Edit_idx x i => r ← no_os_list_edit_idx d x (Z.of_nat i); mret (r, None)
  | Edit_find x c => r ← no_os_list_edit_find fuel d x c; mret (r, None)
  | Rd_first => no_os_list_read_first d false
  | Rd_last => no_os_list_read_last d false
  | Rd_idx i => no_os_list_read_idx d false (Z.of_nat i)
  | Rd_find c => no_os_list_read_find fuel d false c
  | Get_first => no_os_list_get_first d false
  | Get_last => no_os_list_get_last d false
  | Get_idx i => no_os_list_get_idx d false (Z.of_nat i)
  | Get_find c => no_os_list_get_find fuel d false c
  | Get_size => no_os_list_get_size d false
  end.

(** What an operation means for the sequence: it allocates and inserts, or it
    returns a code and a datum and leaves a sequence, or it dereferences a
    null pointer. *)
Inductive list_res : Type :=
  | Adds (k : nat) (d : Z)
  | Returns (r : Z) (o : option Z) (ds : list Z)
  | Crashes.

Definition edit_at (ds : list Z) (d : Z) (o : option nat) : list_res :=
  match o with Some i => Returns 0 None (<[i := d]> ds) | None => Returns (-1) None ds end.

Definition read_at (ds : list Z) (o : option nat) : list_res :=
  match o with Some i => Returns 0 (ds !! i) ds | None => Returns (-1) (Some 0) ds end.

Definition get_at (ds : list Z) (o : option nat) : list_res :=
  match o with Some i => Returns 0 (ds !! i) (delete i ds) | None => Returns (-1) (Some 0) ds end.

(** Position [i], if the sequence has it; the first match of [c]; the ends. *)
Definition at_idx (ds : list Z) (i : nat) : option nat :=
  if (i <? length ds)%nat then Some i else None.

Definition at_match (cmp : Z -> Z -> Z) (ds : list Z) (c : Z) : option nat :=
  find_idx (fun d => cmp d c =? 0) ds.

Definition at_end (ds : list Z) : option nat := at_idx ds (pred (length ds)).

Definition list_spec (cmp : Z -> Z -> Z) (op : list_op) (ds : list Z) : list_res :=
  match op with
  | Add_first x => Adds 0 x
  | Add_last x => Adds (length ds) x
  | Add_idx x i =>
      if (length ds =? 0)%nat then Adds 0 x else
      if (i <=? length ds)%nat then Adds i x else Returns (-1) None ds
  | Add_find x => Adds (default (length ds) (find_idx (fun d => 0 <? cmp d x) ds)) x
  | Edit_first x => match ds with [] => Crashes | _ => edit_at ds x (Some 0%nat) end
  | Edit_last x => match ds with [] => Crashes | _ => edit_at ds x (at_end ds) end
  | Edit_idx x i => edit_at ds x (at_idx ds i)
  | Edit_find x c => edit_at ds x (at_match cmp ds c)
  | Rd_first => read_at ds (at_idx ds 0)
  | Rd_last => read_at ds (at_end ds)
  | Rd_idx i => read_at ds (at_idx ds i)
  | Rd_find c => read_at ds (at_match cmp ds c)
  | Get_first => get_at ds (at_idx ds 0)
  | Get_last => get_at ds (at_end ds)
  | Get_idx i => get_at ds (at_idx ds i)
  | Get_find c => get_at ds (at_match cmp ds c)
  | Get_size => Returns 0 (Some (Z.of_nat (length ds))) ds
  end.

(** Indices are passed on as [int32_t]. *)
Definition op_ok (op : list_op) : Prop :=
  match op with
  | Add_idx _ i | Edit_idx _ i | Rd_idx i | Get_idx i => Z.of_nat i < 2 ^ 31
  | _ => True
  end.

(** What is proved of a run that starts in [st m l L h its]. *)
Definition op_post (m : list_mem) (l : positive) (L : list_desc_priv) (h : heap no_os_list_elem)
    (its : heap no_os_iterator) (ds : list Z) (F : gset positive) (res : list_res)
    (r : outcome ((Z * option Z) * list_mem)) : Prop :=
  let keeps L' h' ds' := comparator L' = comparator L /\ nb_iterators L' = nb_iterators L /\
    exists ps', lst l L' h' ps' ds' F in
  match res with
  | Adds k x => exists L' h', r = Done ((if alloc_fails h then -1 else 0, None), st m l L' h' its) /\
      keeps L' h' (if alloc_fails h then ds else linsert k x ds)
  | Returns c o ds' => exists L' h', r = Done ((c, o), st m l L' h' its) /\ keeps L' h' ds'
  | Crashes => r = Undef
  end.

(** The result of an operation that sets no [*data]. *)
Definition ret_none (o : outcome (Z * list_mem)) : outcome ((Z * option Z) * list_mem) :=
  match o with Done (r, s) => Done ((r, None), s) | Undef => Undef | NoFuel => NoFuel end.

Lemma ret_none_eq (c : cmd list_mem Z) s : (r ← c; mret (r, None)) s = ret_none (c s).
Proof. unfold mbind, cmd_bind, ret_none. by destruct (c s) as [[]| |]. Qed.

Section spec.
  Context (m : list_mem) (l : positive) (L : list_desc_priv) (h : heap no_os_list_elem)
    (its : heap no_os_iterator) (ps : list positive) (ds : list Z) (F : gset positive)
    (d : desc_ref).
  Hypothesis H : lst l L h ps ds F.
  Hypothesis Hd : desc_of m d l.

Lemma post_added k x (o : outcome (Z * list_mem)) L0 :
  comparator L0 = comparator L -> nb_iterators L0 = nb_iterators L -> lst l L0 h ps ds F ->
  (exists L' h', o = Done (if alloc_fails h then -1 else 0, st m l L' h' its) /\
     added l L0 h ps ds F k x L' h') ->
  op_post m l L h its ds F (Adds k x) (ret_none o).
Proof.
  intros E1 E2 H0 (L' & h' & -> & Ha). exists L', h'. split; [done |]. rewrite <- E1, <- E2.
  unfold added in Ha. destruct (alloc_fails h).
  - destruct Ha as [-> ->]. splits; try done. exists ps. by apply lst_tail_oom.
  - destruct Ha as ((? & ? & ?) & _ & ?). splits; try done. by eexists.
Qed.

Lemma post_same r o L0 :
  comparator L0 = comparator L -> nb_iterators L0 = nb_iterators L -> lst l L0 h ps ds F ->
  op_post m l L h its ds F (Returns r o ds) (Done ((r, o), st m l L0 h its)).
Proof. intros. exists L0, h. splits; try done. by exists ps. Qed.

(** The memory with the internal iterator at position [o], else at [e]. *)
Definition st_at (o : option nat) (e : ptr) : list_mem :=
  st m l (upd_it L (Iter (Some l) (match o with Some i => ps !! i | None => e end))) h its.

Lemma seek_run e : seek (Some l) e (st m l L h its) = Done (tt, st_at None e).
Proof.
  unfold seek, set_it_elem. rewrite (bind_done _ _ _ _ _ (load_list_run _ _ _ _ _)).
  rewrite store_list_run. unfold upd_it.
  assert (it_list (l_it L) = Some l) as -> by apply H. done.
Qed.

Definition code (o : option nat) : Z := match o with Some _ => 0 | None => -1 end.

Lemma goto_run i : Z.of_nat i < 2 ^ 31 ->
  no_os_iterator_move (ItOf (Some l)) (s32 (Z.of_nat i)) (st_at None (ps !! 0%nat))
  = Done (code (at_idx ds i), st_at (at_idx ds i) (ps !! 0%nat)).
Proof.
  intros Hi. rewrite swrap_small by ulia. pose proof (lst_length _ _ _ _ _ _ H) as Hlen.
  unfold at_idx. rewrite <- Hlen.
  assert (iter_at l (ItOf (Some l)) (upd_it L (Iter (Some l) (ps !! 0%nat))) its (ps !! 0%nat))
    as Hit by done.
  pose proof (lst_upd_it _ _ _ _ _ _ H (ps !! 0%nat)) as H'.
  destruct (decide (length ps = 0%nat)) as [E | E].
  - rewrite E. unfold no_os_iterator_move, st_at. rewrite lookup_ge_None_2 by lia.
    rewrite lookup_ge_None_2 in Hit by lia.
    rewrite (bind_done _ _ _ _ _ (lift_done _ _ _ (abs32_done (Z.of_nat i) ltac:(ulia) ltac:(lia)))).
    rewrite (bind_done _ _ _ _ _ (load_iter_run _ _ _ _ _ _ _ Hit)). cbn [it_elem].
    by destruct (Z.to_nat (Z.abs (Z.of_nat i))), i.
  - unfold st_at. rewrite (iterator_move_run _ _ _ _ _ _ _ _ H' _ 0) by (done || lia || ulia).
    unfold moved. cbn [Z.of_nat]. rewrite Z.add_0_l, (proj2 (Z.leb_le 0 _)) by lia.
    destruct (Nat.ltb_spec i (length ps)), (Z.ltb_spec (Z.of_nat i) (Z.of_nat (length ps)));
      try lia; cbn [andb code]; [| done]. by rewrite Nat2Z.id.
Qed.

Lemma find_run c e fuel : (length ds < fuel)%nat ->
  no_os_iterator_find fuel (ItOf (Some l)) c (st_at None e)
  = Done (code (at_match (comparator L) ds c), st_at (at_match (comparator L) ds c) e).
Proof.
  intros Hf. unfold st_at, at_match. pose proof (lst_upd_it _ _ _ _ _ _ H e) as H'.
  rewrite (iterator_find_run _ _ _ _ _ _ _ _ H' _ e) by done.
  cbn [comparator upd_it]. by destruct (find_idx _ ds).
Qed.

Section tails.
  Context (o : option nat) (e : ptr).
  Hypothesis Ho : forall i, o = Some i -> (i < length ds)%nat.

Lemma target i : o = Some i -> exists p, ps !! i = Some p /\
  iter_at l (ItOf (Some l)) (upd_it L (Iter (Some l) (ps !! i))) its (Some p).
Proof.
  intros ->. pose proof (lst_length _ _ _ _ _ _ H).
  destruct (lookup_lt_is_Some_2 ps i) as [p Hp]; [specialize (Ho i eq_refl); lia |].
  exists p. by rewrite Hp.
Qed.

Lemma edit_tail x (r : outcome (Z * list_mem)) :
  r = (if negb (code o =? 0) then mret (-1) else no_os_iterator_edit (ItOf (Some l)) x)
          (st_at o e) ->
  op_post m l L h its ds F (edit_at ds x o) (ret_none r).
Proof.
  intros ->. pose proof target as Ht. unfold st_at. destruct o as [i |]; cbn [code].
  - destruct (Ht i eq_refl) as (p & Hp & Hit). pose proof (lst_upd_it _ _ _ _ _ _ H (ps !! i)) as H'.
    destruct (iterator_edit_run m _ _ _ its _ _ _ H' _ i p x Hit Hp) as (h' & Hr & _ & _ & Hl).
    cbn [Z.eqb negb]. rewrite Hr.
    exists (upd_it L (Iter (Some l) (ps !! i))), h'. splits; try done. by exists ps.
  - apply post_same; try done. by apply lst_upd_it.
Qed.

Lemma read_tail (r : outcome ((Z * option Z) * list_mem)) :
  r = (if negb (code o =? 0) then mret (-1, Some 0)
         else r ← no_os_iterator_read (ItOf (Some l)) false; mret (or_null r)) (st_at o e) ->
  op_post m l L h its ds F (read_at ds o) r.
Proof.
  intros ->. pose proof target as Ht. unfold st_at. destruct o as [i |]; cbn [code].
  - destruct (Ht i eq_refl) as (p & Hp & Hit). pose proof (lst_upd_it _ _ _ _ _ _ H (ps !! i)) as H'.
    cbn [Z.eqb negb].
    rewrite (bind_done _ _ _ _ _ (iterator_read_run _ _ _ _ its _ _ _ H' _ i p Hit Hp)).
    destruct (lookup_lt_is_Some_2 ds i) as [x Hx]; [by apply Ho |]. unfold read_at. rewrite Hx.
    by apply post_same.
  - apply post_same; try done. by apply lst_upd_it.
Qed.

Lemma get_tail (r : outcome ((Z * option Z) * list_mem)) :
  r = (if negb (code o =? 0) then mret (-1, Some 0)
         else r ← no_os_iterator_get (ItOf (Some l)) false; mret (or_null r)) (st_at o e) ->
  op_post m l L h its ds F (get_at ds o) r.
Proof.
  intros ->. pose proof target as Ht. unfold st_at. destruct o as [i |]; cbn [code].
  - destruct (Ht i eq_refl) as (p & Hp & Hit). pose proof (lst_upd_it _ _ _ _ _ _ H (ps !! i)) as H'.
    destruct (iterator_get_run m _ _ _ its _ _ _ H' _ i p Hit Hp) as (L' & h' & Hr & Hrem).
    destruct Hrem as (e' & _ & (Hc1 & Hc2 & Hc3) & _ & Hl).
    cbn [Z.eqb negb]. rewrite (bind_done _ _ _ _ _ Hr).
    destruct (lookup_lt_is_Some_2 ds i) as [x Hx]; [by apply Ho |]. unfold get_at. rewrite Hx.
    eexists _, _. split; [done |]. cbn [put_L comparator nb_iterators upd_it].
    splits; try done. eexists. apply (lst_put_L _ _ _ _ _ _ Hl (ItOf (Some l)) its (Some p)).
    split; [done |]. rewrite Hc3. simpl. by rewrite Hp.
  - apply post_same; try done. by apply lst_upd_it.
Qed.
End tails.

Lemma at_idx_lt n i : at_idx ds n = Some i -> (i < length ds)%nat.
Proof. unfold at_idx. destruct (Nat.ltb_spec n (length ds)); naive_solver. Qed.

Lemma at_match_lt cmp c i : at_match cmp ds c = Some i -> (i < length ds)%nat.
Proof. apply find_idx_lt. Qed.

(** *** Each operation *)

Ltac start := rewrite ?(desc_match _ _ _ _ _ Hd);
  rewrite ?(bind_done _ _ _ _ _ (priv_of_run _ _ _ _ _ _ Hd));
  rewrite ?(bind_done _ _ _ _ _ (load_list_run _ _ _ _ _));
  rewrite ?(bind_done _ _ _ _ _ (seek_run _)).

Lemma add_idx_post x i : Z.of_nat i < 2 ^ 31 -> Z.of_nat (length ds) + 1 < 2 ^ 32 ->
  op_post m l L h its ds F (list_spec (comparator L) (Add_idx x i) ds)
    (ret_none (no_os_list_add_idx d x (Z.of_nat i) (st m l L h its))).
Proof.
  intros Hi Hlen. pose proof (lst_length _ _ _ _ _ _ H) as Hll. cbn [list_spec].
  assert (no_os_list_add_idx d x (Z.of_nat i) (st m l L h its) =
    if (Z.of_nat (length ds) =? 0) || (Z.of_nat i =? 0) then no_os_list_add_first d x (st m l L h its)
    else if Z.of_nat (length ds) =? Z.of_nat i then no_os_list_add_last d x (st m l L h its)
    else (if negb (code (at_idx ds i) =? 0) then mret (-1)
          else no_os_iterator_insert (ItOf (Some l)) x false) (st_at (at_idx ds i) (ps !! 0%nat))) as ->.
  { unfold no_os_list_add_idx. start. rewrite (nb_eq _ _ _ _ _ _ H), (lst_first _ _ _ _ _ _ H).
    destruct (_ || _); [done |]. destruct (_ =? _); [done |].
    rewrite (bind_done _ _ _ _ _ (seek_run _)). by rewrite (bind_done _ _ _ _ _ (goto_run i Hi)). }
  destruct (Nat.eqb_spec (length ds) 0), (Z.eqb_spec (Z.of_nat (length ds)) 0); try lia; cbn [orb].
  { apply (post_added _ _ _ L); try done. by apply (add_first_run m l L h its ps ds F). }
  destruct (Z.eqb_spec (Z.of_nat i) 0).
  { assert (i = 0%nat) as -> by lia. apply (post_added _ _ _ L); try done.
    by apply (add_first_run m l L h its ps ds F). }
  destruct (Z.eqb_spec (Z.of_nat (length ds)) (Z.of_nat i)).
  { assert (i = length ds) as -> by lia. rewrite Nat.leb_refl, <- Hll.
    apply (post_added _ _ _ L); try done. by apply (add_last_run m l L h its ps ds F). }
  unfold at_idx. destruct (Nat.ltb_spec i (length ds)), (Nat.leb_spec i (length ds)); try lia.
  - pose proof (lst_upd_it _ _ _ _ _ _ H (ps !! i)) as H'.
    apply (post_added _ _ _ (upd_it L (Iter (Some l) (ps !! i)))); try done.
    destruct (lookup_lt_is_Some_2 ps i) as [e He]; [lia |].
    apply (iterator_insert_run m _ _ _ its _ _ _ H' _ i e x false); try done.
    split; [done |]. by rewrite He.
  - apply post_same; try done. by apply lst_upd_it.
Qed.

Lemma add_find_post x fuel : (length ds < fuel)%nat -> Z.of_nat (length ds) + 1 < 2 ^ 32 ->
  op_post m l L h its ds F (list_spec (comparator L) (Add_find x) ds)
    (ret_none (no_os_list_add_find fuel d x (st m l L h its))).
Proof.
  intros Hf Hlen. pose proof (lst_length _ _ _ _ _ _ H) as Hll. cbn [list_spec].
  pose proof (search_run m l L h its ps ds F H (fun y => 0 <? comparator L y x) fuel 0
    ltac:(lia) ltac:(lia)) as Hsr. rewrite drop_0 in Hsr.
  set (o := find_idx (fun y => 0 <? comparator L y x) ds) in *.
  assert (no_os_list_add_find fuel d x (st m l L h its) =
    match o with
    | Some i => no_os_iterator_insert (ItOf (Some l)) x false (st_at o None)
    | None => no_os_iterator_insert (ItOf (Some l)) x true (st_at None (ld_last L))
    end) as ->.
  { unfold no_os_list_add_find. start. rewrite (lst_first _ _ _ _ _ _ H).
    rewrite (bind_done _ _ _ _ _ Hsr). destruct o as [i |] eqn:Eo.
    - apply find_idx_lt in Eo. destruct (lookup_lt_is_Some_2 ps i) as [e He]; [lia |].
      rewrite Nat.add_0_l, He. rewrite (bind_done _ _ _ _ _ (seek_run _)). unfold st_at.
      by rewrite He.
    - by rewrite (bind_done _ _ _ _ _ (seek_run _)). }
  destruct o as [i |] eqn:Eo; cbn [default from_option id].
  - apply find_idx_lt in Eo. pose proof (lst_upd_it _ _ _ _ _ _ H (ps !! i)) as H'.
    apply (post_added _ _ _ (upd_it L (Iter (Some l) (ps !! i)))); try done.
    destruct (lookup_lt_is_Some_2 ps i) as [e He]; [lia |].
    apply (iterator_insert_run m _ _ _ its _ _ _ H' _ i e x false); try done.
    split; [done |]. by rewrite He.
  - pose proof (lst_upd_it _ _ _ _ _ _ H (ld_last L)) as H'.
    apply (post_added _ _ _ (upd_it L (Iter (Some l) (ld_last L)))); try done.
    assert (no_os_iterator_insert (ItOf (Some l)) x true (st_at None (ld_last L))
      = no_os_list_add_last (DescLocal (Some l)) x (st_at None (ld_last L))) as ->.
    { unfold no_os_iterator_insert, st_at.
      assert (iter_at l (ItOf (Some l)) (upd_it L (Iter (Some l) (ld_last L))) its (ld_last L))
        as Hit by done.
      rewrite (bind_done _ _ _ _ _ (load_iter_run _ _ _ _ _ _ _ Hit)). cbn [it_elem it_list].
      rewrite (bind_done _ _ _ _ _ (load_list_run _ _ _ _ _)). cbn [ld_last upd_it].
      by rewrite bool_decide_true. }
    rewrite <- Hll. by apply (add_last_run m l _ h its ps ds F H').
Qed.

Lemma edit_first_post x :
  op_post m l L h its ds F (list_spec (comparator L) (Edit_first x) ds)
    (ret_none (no_os_list_edit_first d x (st m l L h its))).
Proof.
  unfold no_os_list_edit_first. start. rewrite (lst_first _ _ _ _ _ _ H). cbn [list_spec].
  destruct (ps !! 0%nat) as [e |] eqn:He.
  - destruct (dll_look _ _ _ (lst_dll _ _ _ _ _ _ H) _ _ He) as (y & Hy & Hlook).
    rewrite (bind_done _ _ _ _ _ (set_data_run _ _ _ _ _ _ _ _ Hlook)).
    assert (forall A (a b : A), match ds with [] => a | _ => b end = b) as Hm
      by (intros; by destruct ds). rewrite Hm.
    eexists _, _. split; [done |]. splits; try done. exists ps. by apply (lst_edit _ _ _ _ _ _ H 0).
  - assert (ds = []) as E.
    { apply nil_length_inv. rewrite <- (lst_length _ _ _ _ _ _ H). apply lookup_ge_None in He. lia. }
    replace (match ds with [] => Crashes | _ => _ end) with Crashes by by rewrite E. done.
Qed.

Lemma edit_last_post x :
  op_post m l L h its ds F (list_spec (comparator L) (Edit_last x) ds)
    (ret_none (no_os_list_edit_last d x (st m l L h its))).
Proof.
  unfold no_os_list_edit_last. start. rewrite (lst_last _ _ _ _ _ _ H). cbn [list_spec].
  pose proof (lst_length _ _ _ _ _ _ H) as Hll.
  destruct (before ps (length ps)) as [e |] eqn:He.
  - destruct (length ps) as [| n] eqn:En; [done |]. cbn [before] in He.
    destruct (dll_look _ _ _ (lst_dll _ _ _ _ _ _ H) _ _ He) as (y & Hy & Hlook).
    rewrite (bind_done _ _ _ _ _ (set_data_run _ _ _ _ _ _ _ _ Hlook)).
    assert (at_end ds = Some n) as ->.
    { unfold at_end, at_idx. rewrite <- Hll. cbn [pred]. by rewrite (proj2 (Nat.ltb_lt _ _)) by lia. }
    assert (forall A (a b : A), match ds with [] => a | _ => b end = b) as Hm
      by (intros; by destruct ds). rewrite Hm.
    eexists _, _. split; [done |]. splits; try done. exists ps. by apply (lst_edit _ _ _ _ _ _ H n).
  - assert (ds = []) as E.
    { apply nil_length_inv. rewrite <- Hll. destruct (length ps) as [| n] eqn:En; [done |].
      cbn [before] in He. apply lookup_ge_None in He. lia. }
    replace (match ds with [] => Crashes | _ => _ end) with Crashes by by rewrite E. done.
Qed.

Lemma read_ends_post (e : ptr) k o :
  e = ps !! k -> o = at_idx ds k ->
  op_post m l L h its ds F (read_at ds o)
    (match e with
     | None => mret (-1, Some 0)
     | Some _ => x ← load_elem e; mret (0, Some (el_data x))
     end (st m l L h its)).
Proof.
  intros -> ->. pose proof (lst_length _ _ _ _ _ _ H) as Hll. unfold at_idx.
  destruct (ps !! k) as [e |] eqn:He.
  - destruct (dll_look _ _ _ (lst_dll _ _ _ _ _ _ H) _ _ He) as (y & Hy & Hlook).
    rewrite (bind_done _ _ _ _ _ (load_elem_run _ _ _ _ _ _ _ Hlook)).
    apply lookup_lt_Some in He. rewrite (proj2 (Nat.ltb_lt _ _)) by lia.
    unfold read_at. rewrite Hy. by apply post_same.
  - apply lookup_ge_None in He. rewrite (proj2 (Nat.ltb_ge _ _)) by lia. by apply post_same.
Qed.

(** The operations that seek first. *)
Ltac seeks := start; rewrite ?(lst_first _ _ _ _ _ _ H);
  rewrite ?(bind_done _ _ _ _ _ (seek_run _)).

Lemma list_run_post fuel op :
  op_ok op -> Z.of_nat (length ds) + 1 < 2 ^ 32 -> (length ds < fuel)%nat ->
  op_post m l L h its ds F (list_spec (comparator L) op ds) (list_run fuel d op (st m l L h its)).
Proof.
  intros Hop Hlen Hf. pose proof (lst_length _ _ _ _ _ _ H) as Hll.
  pose proof (nb_eq _ _ _ _ _ _ H) as Hnb.
  destruct op as [x | x | x i | x | x | x | x i | x c | | | i | c | | | i | c |];
    cbn [list_run op_ok] in *; rewrite ?ret_none_eq.
  - apply (post_added _ _ _ L); try done. by apply (add_first_run m l L h its ps ds F).
  - cbn [list_spec]. rewrite <- Hll. apply (post_added _ _ _ L); try done.
    by apply (add_last_run m l L h its ps ds F).
  - by apply add_idx_post.
  - by apply add_find_post.
  - apply edit_first_post.
  - apply edit_last_post.
  - apply (edit_tail _ (ps !! 0%nat)); [apply at_idx_lt |].
    unfold no_os_list_edit_idx. seeks. by rewrite (bind_done _ _ _ _ _ (goto_run i Hop)).
  - apply (edit_tail _ (ps !! 0%nat)); [apply at_match_lt |].
    unfold no_os_list_edit_find. seeks. by rewrite (bind_done _ _ _ _ _ (find_run c (ps !! 0%nat) fuel Hf)).
  - unfold no_os_list_read_first. rewrite !(desc_match _ _ _ _ _ Hd). start.
    apply (read_ends_post _ 0); [apply (lst_first _ _ _ _ _ _ H) | done].
  - unfold no_os_list_read_last. rewrite !(desc_match _ _ _ _ _ Hd). start.
    apply (read_ends_post _ (pred (length ds))); [| done].
    rewrite (lst_last _ _ _ _ _ _ H), Hll. destruct (length ds) eqn:E; [| done].
    cbn [before pred]. symmetry. apply lookup_ge_None_2. lia.
  - unfold no_os_list_read_idx. rewrite !(desc_match _ _ _ _ _ Hd). start. rewrite Hnb.
    destruct (Z.leb_spec (Z.of_nat (length ds)) (Z.of_nat i)).
    + cbn [list_spec]. unfold at_idx. rewrite (proj2 (Nat.ltb_ge _ _)) by lia. by apply post_same.
    + apply (read_tail _ (ps !! 0%nat)); [apply at_idx_lt |].
      seeks. by rewrite (bind_done _ _ _ _ _ (goto_run i Hop)).
  - unfold no_os_list_read_find. rewrite !(desc_match _ _ _ _ _ Hd).
    apply (read_tail _ (ps !! 0%nat)); [apply at_match_lt |].
    seeks. by rewrite (bind_done _ _ _ _ _ (find_run c (ps !! 0%nat) fuel Hf)).
  - pose proof (get_first_run m l L h its ps ds F H d Hd) as Hr. rewrite head_lookup in Hr.
    cbn [list_spec]. unfold at_idx. destruct (ds !! 0%nat) as [x |] eqn:Ex.
    + apply lookup_lt_Some in Ex as Hlt. rewrite (proj2 (Nat.ltb_lt _ _)) by lia.
      destruct Hr as (L' & h' & -> & e & _ & (? & ? & ?) & _ & ?). unfold get_at. rewrite Ex.
      exists L', h'. splits; try done. by eexists.
    + rewrite Hr. apply lookup_ge_None in Ex. rewrite (proj2 (Nat.ltb_ge _ _)) by lia.
      by apply post_same.
  - pose proof (get_last_run m l L h its ps ds F H d Hd) as Hr. rewrite last_lookup in Hr.
    cbn [list_spec]. unfold at_end, at_idx. destruct (ds !! pred (length ds)) as [x |] eqn:Ex.
    + apply lookup_lt_Some in Ex as Hlt. rewrite (proj2 (Nat.ltb_lt _ _)) by lia.
      destruct Hr as (L' & h' & -> & e & _ & (? & ? & ?) & _ & ?). unfold get_at. rewrite Ex.
      exists L', h'. splits; try done. by eexists.
    + rewrite Hr. apply lookup_ge_None in Ex. rewrite (proj2 (Nat.ltb_ge _ _)) by lia.
      by apply post_same.
  - unfold no_os_list_get_idx. rewrite !(desc_match _ _ _ _ _ Hd).
    apply (get_tail _ (ps !! 0%nat)); [apply at_idx_lt |].
    seeks. by rewrite (bind_done _ _ _ _ _ (goto_run i Hop)).
  - unfold no_os_list_get_find. rewrite !(desc_match _ _ _ _ _ Hd).
    apply (get_tail _ (ps !! 0%nat)); [apply at_match_lt |].
    seeks. by rewrite (bind_done _ _ _ _ _ (find_run c (ps !! 0%nat) fuel Hf)).
  - unfold no_os_list_get_size. rewrite !(desc_match _ _ _ _ _ Hd). start. rewrite Hnb.
    by apply post_same.
Qed.
End spec.

(** ** Properties *)

(** The list behind [d] is [l], compares with [cmp], has [n] iterators and
    holds [ds]; the elements of other lists are [F], so a leak would show. *)
Definition list_rep (m : list_mem) (d : desc_ref) (l : positive) (cmp : Z -> Z -> Z) (n : Z)
    (ds : list Z) (F : gset positive) : Prop :=
  exists L ps, cells (m_lists m) !! l = Some L /\ desc_of m d l /\
    lst l L (m_elems m) ps ds F /\ comparator L = cmp /\ nb_iterators L = n.

(** Nothing but list [l] and the elements differs. *)
Definition same_rest (l : positive) (m m' : list_mem) : Prop :=
  m_descs m' = m_descs m /\ m_iters m' = m_iters m /\
  base.delete l (cells (m_lists m')) = base.delete l (cells (m_lists m)).

Lemma st_rep m d l L h ps ds F L0 :
  cells (m_lists m) !! l = Some L0 -> desc_of m d l -> lst l L h ps ds F ->
  let m' := st m l L h (m_iters m) in
  list_rep m' d l (comparator L) (nb_iterators L) ds F /\ same_rest l m m'.
Proof.
  intros HL Hd H m'. split.
  - exists L, ps. unfold m', st. cbn [m_lists m_elems cells]. rewrite lookup_insert_eq.
    by destruct d.
  - unfold same_rest, m', st. cbn [m_descs m_iters m_lists cells]. by rewrite delete_insert_eq.
Qed.

Lemma list_op_refines m d l cmp n ds F op fuel :
  list_rep m d l cmp n ds F -> op_ok op -> Z.of_nat (length ds) + 1 < 2 ^ 32 ->
  (length ds < fuel)%nat ->
  match list_spec cmp op ds with
  | Adds k x =>
      let fails := alloc_fails (m_elems m) in
      exists m', list_run fuel d op m = Done ((if fails then -1 else 0, None), m') /\
        list_rep m' d l cmp n (if fails then ds else linsert k x ds) F /\ same_rest l m m'
  | Returns c o ds' =>
      exists m', list_run fuel d op m = Done ((c, o), m') /\
        list_rep m' d l cmp n ds' F /\ same_rest l m m'
  | Crashes => list_run fuel d op m = Undef
  end.
Proof.
  intros (L & ps & HL & Hd & H & <- & <-) Hop Hlen Hf.
  pose proof (list_run_post m l L (m_elems m) (m_iters m) ps ds F d H Hd fuel op Hop Hlen Hf) as Hp.
  rewrite (st_id _ _ _ HL) in Hp. destruct (list_spec _ _ _) as [k x | c o ds' |]; [| | done].
  - destruct Hp as (L' & h' & Hr & Hc & Hn & ps' & Hl). eexists. split; [exact Hr |].
    rewrite <- Hc, <- Hn. by eapply st_rep.
  - destruct Hp as (L' & h' & Hr & Hc & Hn & ps' & Hl). eexists. split; [exact Hr |].
    rewrite <- Hc, <- Hn. by eapply st_rep.
Qed.

(** C11: every operation of a list does to the memory what [list_spec] says
    it does to a sequence: same return code, same datum, and a list that
    represents the new sequence with the same comparator and iterators, the
    elements in place and in no other place.  An operation that adds an element
    fails with -1, and changes nothing, exactly when its allocation fails. *)
Theorem list_refines m d l cmp n ds F op fuel :
  list_rep m d l cmp n ds F -> op_ok op -> Z.of_nat (length ds) + 1 < 2 ^ 32 ->
  (length ds < fuel)%nat ->
  match list_spec cmp op ds with
  | Adds k x =>
      let fails := alloc_fails (m_elems m) in
      exists m', list_run fuel d op m = Done ((if fails then -1 else 0, None), m') /\
        list_rep m' d l cmp n (if fails then ds else linsert k x ds) F /\ same_rest l m m'
  | Returns c o ds' =>
      exists m', list_run fuel d op m = Done ((c, o), m') /\
        list_rep m' d l cmp n ds' F /\ same_rest l m m'
  | Crashes => list_run fuel d op m = Undef
  end.
Proof. apply list_op_refines. Qed.

(** *** Iterators *)

(** The iterator [it] stands on position [k] of the list. *)
Definition iter_rep (m : list_mem) (d : desc_ref) (l : positive) (cmp : Z -> Z -> Z) (n : Z)
    (ds : list Z) (F : gset positive) (it : iter_ref) (k : nat) : Prop :=
  exists L ps e, cells (m_lists m) !! l = Some L /\ desc_of m d l /\
    lst l L (m_elems m) ps ds F /\ comparator L = cmp /\ nb_iterators L = n /\
    ps !! k = Some e /\ iter_at l it L (m_iters m) (Some e).

Lemma st_iter_rep m d l L h its ps ds F L0 it k e :
  cells (m_lists m) !! l = Some L0 -> desc_of m d l -> lst l L h ps ds F ->
  ps !! k = Some e -> iter_at l it L its (Some e) ->
  iter_rep (st m l L h its) d l (comparator L) (nb_iterators L) ds F it k.
Proof.
  intros HL Hd H Hk Hit. exists L, ps, e. unfold st. cbn [m_lists m_elems m_iters cells].
  rewrite lookup_insert_eq. by destruct d.
Qed.

Lemma iter_at_cfg l it L L' its e : same_cfg L L' -> iter_at l it L its e -> iter_at l it L' its e.
Proof. intros (_ & _ & E). destruct it; simpl; [done.. |]. by rewrite E. Qed.

Lemma put_L_cfg it L e : comparator (put_L it L e) = comparator L /\
  nb_iterators (put_L it L e) = nb_iterators L.
Proof. by destruct it. Qed.

(** An iterator on position [k] moves to position [k + steps] when the
    list has it and stays with -1 when it has not; it reads and edits the
    datum there; an insertion puts the datum before or after it and leaves it on
    its element; a removal returns the datum and leaves it on the element after,
    and, at the end of the list, on no element, where a read fails. *)
Theorem iterator_correct m d l cmp n ds F it k steps x after :
  iter_rep m d l cmp n ds F it k -> sint 32 steps -> steps <> - 2 ^ 31 ->
  Z.of_nat (length ds) + 1 < 2 ^ 32 ->
  match moved (length ds) k steps with
  | Some t => exists m', no_os_iterator_move it steps m = Done (0, m') /\
      iter_rep m' d l cmp n ds F it t
  | None => no_os_iterator_move it steps m = Done (-1, m)
  end /\
  no_os_iterator_read it false m = Done ((0, ds !! k), m) /\
  (exists m', no_os_iterator_edit it x m = Done (0, m') /\
     iter_rep m' d l cmp n (<[k := x]> ds) F it k) /\
  (let fails := alloc_fails (m_elems m) in
   exists m', no_os_iterator_insert it x after m = Done (if fails then -1 else 0, m') /\
     iter_rep m' d l cmp n (if fails then ds else linsert (if after then S k else k) x ds) F it
       (if fails || after then k else S k)) /\
  exists m', no_os_iterator_get it false m = Done ((0, ds !! k), m') /\
    list_rep m' d l cmp n (delete k ds) F /\
    if (S k <? length ds)%nat then iter_rep m' d l cmp n (delete k ds) F it k
    else no_os_iterator_read it false m' = Done ((-1, None), m').
Proof.
  intros (L & ps & e & HL & Hd & H & <- & <- & Hk & Hit) Hs Hne Hlen.
  pose proof (lst_length _ _ _ _ _ _ H) as Hll. pose proof (lookup_lt_Some _ _ _ Hk) as Hlt.
  pose proof (st_id _ _ _ HL) as Em.
  assert (iter_at l it L (m_iters m) (ps !! k)) as Hit' by by rewrite Hk.
  splits.
  - pose proof (iterator_move_run m l L (m_elems m) (m_iters m) ps ds F H it k steps
      Hit' Hlt Hs Hne) as Hr. rewrite Em, Hll in Hr.
    destruct (moved (length ds) k steps) as [t |] eqn:Et; [| done].
    eexists. split; [exact Hr |].
    assert (t < length ps)%nat as Ht.
    { unfold moved in Et. destruct (_ && _) eqn:E; [| done]. zify_cmp. injection Et as <-. lia. }
    destruct (lookup_lt_is_Some_2 ps t Ht) as [e' He'].
    destruct (put_L_cfg it L (ps !! t)) as [<- <-]. rewrite He'. eapply st_iter_rep; try done.
    + by eapply lst_put_L.
    + by eapply iter_at_put.
  - pose proof (iterator_read_run m l L (m_elems m) (m_iters m) ps ds F H it k e Hit Hk) as Hr.
    by rewrite Em in Hr.
  - destruct (iterator_edit_run m l L (m_elems m) (m_iters m) ps ds F H it k e x Hit Hk)
      as (h' & Hr & _ & _ & Hl). rewrite Em in Hr. eexists. split; [exact Hr |].
    by eapply st_iter_rep.
  - destruct (iterator_insert_run m l L (m_elems m) (m_iters m) ps ds F H it k e x after Hit Hk Hlen)
      as (L' & h' & Hr & Ha). rewrite Em in Hr. eexists. split; [exact Hr |].
    unfold added in Ha. destruct (alloc_fails (m_elems m)); cbn [orb].
    + destruct Ha as [-> ->]. eapply (st_iter_rep m d l L _ (m_iters m) ps); done.
    + destruct Ha as (Hc & _ & Hl). pose proof Hc as (<- & <- & _).
      eapply st_iter_rep; try done; [| by eapply iter_at_cfg].
      destruct after; [by rewrite linsert_lt by lia | by rewrite linsert_gt by lia].
  - destruct (iterator_get_run m l L (m_elems m) (m_iters m) ps ds F H it k e Hit Hk)
      as (L' & h' & Hr & e' & Hk' & Hc & _ & Hl). rewrite Em in Hr.
    pose proof Hc as (Hc1 & Hc2 & _). destruct (put_L_cfg it L' (ps !! S k)) as [Hp1 Hp2].
    pose proof (iter_at_cfg _ _ _ _ _ _ Hc Hit) as Hit2.
    pose proof (lst_put_L _ _ _ _ _ _ Hl it (m_iters m) (Some e) (ps !! S k) Hit2) as Hl2.
    pose proof (iter_at_put _ _ _ _ _ (ps !! S k) Hit2) as Hit3.
    exists (st m l (put_L it L' (ps !! S k)) h' (put_its l it (m_iters m) (ps !! S k))).
    split; [exact Hr |]. split; [| destruct (Nat.ltb_spec (S k) (length ds))].
    + exists (put_L it L' (ps !! S k)), (delete k ps). unfold st. cbn [m_lists m_elems cells].
      rewrite lookup_insert_eq, Hp1, Hp2. by destruct d.
    + destruct (lookup_lt_is_Some_2 ps (S k)) as [e2 He2]; [lia |]. rewrite He2 in *.
      rewrite <- Hc1, <- Hc2, <- Hp1, <- Hp2. eapply st_iter_rep; try done.
      by rewrite list_lookup_delete_ge by lia.
    + rewrite (lookup_ge_None_2 ps (S k)) in * by lia. unfold no_os_iterator_read.
      rewrite (iter_match _ _ _ _ _ _ _ Hit3).
      rewrite (bind_done _ _ _ _ _ (load_iter_run _ _ _ _ _ _ _ Hit3)). done.
Qed.

(** *** Adapters *)

(** [DescAt p] is an adapter of type [t]. *)
Definition adapter (m : list_mem) (p : positive) (t : no_os_adapter_type) (l : positive) : Prop :=
  cells (m_descs m) !! p = Some (no_os_set_adapter t (Some l)).

Lemma load_desc m p t l : adapter m p t l ->
  on_descs (hload (Some p)) m = Done (no_os_set_adapter t (Some l), m).
Proof.
  intros H. unfold on_descs. erewrite zoom_done by by apply hload_done. by destruct m.
Qed.

Lemma priority_sorted cmp x ds :
  (forall a b, 0 < cmp a b -> cmp b a <= 0) -> Sorted (fun a b => cmp a b <= 0) ds ->
  Sorted (fun a b => cmp a b <= 0)
    (linsert (default (length ds) (find_idx (fun d => 0 <? cmp d x) ds)) x ds).
Proof.
  intros Htot. unfold linsert.
  induction ds as [| d ds IH]; intros Hs; cbn [find_idx]; [by repeat constructor |].
  destruct (Z.ltb_spec 0 (cmp d x)) as [Hc | Hc]; cbn [default from_option id].
  { cbn [take drop app]. constructor; [done |]. constructor. by apply Htot. }
  apply Sorted_inv in Hs as [Hs Hhd]. specialize (IH Hs).
  assert (default (length (d :: ds)) (S <$> find_idx (fun d => 0 <? cmp d x) ds)
    = S (default (length ds) (find_idx (fun d => 0 <? cmp d x) ds))) as ->
    by by destruct (find_idx _ ds).
  cbn [take drop app]. constructor; [done |].
  destruct (default _ _) as [| k]; cbn [take app]; [by constructor |].
  destruct ds as [| d1 ds]; [by constructor |]. constructor. by inversion Hhd.
Qed.

Lemma linsert_perm {A} k (x : A) ds : linsert k x ds ≡ₚ x :: ds.
Proof. unfold linsert. rewrite <- (take_drop k ds) at 3. by rewrite Permutation_middle. Qed.

(** What a read or a removal of one end returns. *)
Definition end_ret (o : option Z) : Z * option Z :=
  match o with Some x => (0, Some x) | None => (-1, Some 0) end.

Lemma read_at_idx ds k o :
  ds !! k = o -> read_at ds (at_idx ds k) = Returns (end_ret o).1 (end_ret o).2 ds.
Proof.
  intros <-. unfold at_idx. destruct (Nat.ltb_spec k (length ds)) as [Hk | Hk]; simpl.
  - destruct (lookup_lt_is_Some_2 ds k Hk) as [x Hx]. by rewrite Hx.
  - by rewrite (lookup_ge_None_2 ds k).
Qed.

Lemma get_at_idx ds k o :
  ds !! k = o -> get_at ds (at_idx ds k) = Returns (end_ret o).1 (end_ret o).2
    (match o with Some _ => delete k ds | None => ds end).
Proof.
  intros <-. unfold at_idx. destruct (Nat.ltb_spec k (length ds)) as [Hk | Hk]; simpl.
  - destruct (lookup_lt_is_Some_2 ds k Hk) as [x Hx]. by rewrite Hx.
  - by rewrite (lookup_ge_None_2 ds k).
Qed.

Lemma front_back (ds : list Z) : ds !! 0%nat = head ds /\ ds !! pred (length ds) = last ds /\
  match head ds with Some _ => delete 0%nat ds | None => ds end = tail ds /\
  match last ds with Some _ => delete (pred (length ds)) ds | None => ds end = removelast ds.
Proof.
  rewrite head_lookup, last_lookup. splits; [done.. | by destruct ds |].
  rewrite removelast_firstn_len. destruct (ds !! pred (length ds)) as [x |] eqn:E.
  - rewrite delete_take_drop. apply lookup_lt_Some in E. rewrite drop_ge by lia. apply app_nil_r.
  - apply lookup_ge_None in E. assert (ds = []) as -> by (apply nil_length_inv; lia). done.
Qed.

(** One end of a list: reads, removals and edits through [list_op_refines]. *)
Lemma ends_run m d l cmp n ds F x fuel (b : bool) :
  list_rep m d l cmp n ds F -> Z.of_nat (length ds) + 1 < 2 ^ 32 -> (length ds < fuel)%nat ->
  let o := if b then head ds else last ds in
  (exists m', (if b then no_os_list_read_first d false m else no_os_list_read_last d false m)
     = Done (end_ret o, m') /\ list_rep m' d l cmp n ds F) /\
  (exists m', (if b then no_os_list_get_first d false m else no_os_list_get_last d false m)
     = Done (end_ret o, m') /\
     list_rep m' d l cmp n (if b then tail ds else removelast ds) F /\ same_rest l m m') /\
  (ds <> [] ->
   exists m', (if b then no_os_list_edit_first d x m else no_os_list_edit_last d x m)
     = Done (0, m') /\
     list_rep m' d l cmp n (<[(if b then 0%nat else pred (length ds)) := x]> ds) F).
Proof.
  intros H Hlen Hf o. destruct (front_back ds) as (E1 & E2 & E3 & E4).
  assert (forall op, op_ok op -> _) as Href
    by exact (fun op Hop => list_op_refines m d l cmp n ds F op fuel H Hop Hlen Hf).
  splits.
  - specialize (Href (if b then Rd_first else Rd_last) ltac:(by destruct b)).
    subst o. destruct b; cbn [list_spec list_run] in Href; unfold at_end in Href;
      erewrite read_at_idx in Href by done; destruct Href as (m' & Hr & Hl & _); exists m';
      rewrite Hr, ?E1, ?E2; (split; [by destruct (end_ret _) | done]).
  - specialize (Href (if b then Get_first else Get_last) ltac:(by destruct b)).
    subst o. destruct b; cbn [list_spec list_run] in Href; unfold at_end in Href;
      erewrite get_at_idx in Href by done; destruct Href as (m' & Hr & Hl & Hs); exists m';
      rewrite ?E1, ?E2 in Hr; rewrite ?E1, ?E3, ?E2, ?E4 in Hl; rewrite Hr;
      (split; [by destruct (end_ret _) | done]).
  - intros Hne. specialize (Href (if b then Edit_first x else Edit_last x) ltac:(by destruct b)).
    assert (at_end ds = Some (pred (length ds))) as Hend.
    { unfold at_end, at_idx. rewrite (proj2 (Nat.ltb_lt _ _)); [done |].
      destruct ds; [done | simpl; lia]. }
    destruct b; cbn [list_spec list_run] in Href; rewrite ?Hend in Href;
      (destruct ds as [| d0 ds0] eqn:Eds; [done |]); rewrite <- Eds in *;
      cbn [edit_at] in Href; destruct Href as (m' & Hr & Hl & _); exists m';
      rewrite ret_none_eq in Hr; unfold ret_none in Hr; (split; [| done]).
    + by destruct (no_os_list_edit_first d x m) as [[] | |]; simplify_eq.
    + by destruct (no_os_list_edit_last d x m) as [[] | |]; simplify_eq.
Qed.

(** Which end an adapter pops. *)
Definition front (t : no_os_adapter_type) : bool :=
  match t with NO_OS_LIST_QUEUE | NO_OS_LIST_PRIORITY_LIST => true | _ => false end.

(** The calls through an adapter's pointers behave as its type says.  A
    push adds to the end of a stack or a queue, and to its place in a priority
    list, which it keeps sorted; a pop takes the end of a stack and the front of
    the others, which [top_next] reads and [swap] replaces; [back] reads the
    other end. *)
Theorem adapter_correct m p l t cmp n ds F x fuel :
  adapter m p t l -> list_rep m (DescAt p) l cmp n ds F ->
  Z.of_nat (length ds) + 1 < 2 ^ 32 -> (length ds < fuel)%nat -> alloc_fails (m_elems m) = false ->
  (exists m' ds', call_push fuel p x m = Done (0, m') /\
     list_rep m' (DescAt p) l cmp n ds' F /\ adapter m' p t l /\ ds' ≡ₚ x :: ds /\
     match t with
     | NO_OS_LIST_PRIORITY_LIST =>
         (forall a b, 0 < cmp a b -> cmp b a <= 0) ->
         Sorted (fun a b => cmp a b <= 0) ds -> Sorted (fun a b => cmp a b <= 0) ds'
     | _ => ds' = ds ++ [x]
     end) /\
  let top := if front t then head ds else last ds in
  let bottom := if front t then last ds else head ds in
  (exists m', call_read top_next p m = Done (end_ret top, m') /\
     list_rep m' (DescAt p) l cmp n ds F) /\
  (exists m', call_read back p m = Done (end_ret bottom, m') /\
     list_rep m' (DescAt p) l cmp n ds F) /\
  (exists m', call_pop p m = Done (end_ret top, m') /\ adapter m' p t l /\
     list_rep m' (DescAt p) l cmp n (if front t then tail ds else removelast ds) F) /\
  (ds <> [] -> exists m', call_swap p x m = Done (0, m') /\
     list_rep m' (DescAt p) l cmp n
       (<[(if front t then 0%nat else pred (length ds)) := x]> ds) F).
Proof.
  intros Ht H Hlen Hf Ha. pose proof (load_desc _ _ _ _ Ht) as Hd.
  assert (forall m', same_rest l m m' -> adapter m' p t l) as Hk.
  { intros m' (E & _). unfold adapter. by rewrite E. }
  destruct (ends_run m (DescAt p) l cmp n ds F x fuel (front t) H Hlen Hf) as (Hread & Hget & Hedit).
  destruct (ends_run m (DescAt p) l cmp n ds F x fuel (negb (front t)) H Hlen Hf) as (Hback & _).
  assert (forall op, op_ok op -> _) as Href
    by exact (fun op Hop => list_op_refines m (DescAt p) l cmp n ds F op fuel H Hop Hlen Hf).
  rewrite Ha in Href. splits.
  - unfold call_push. rewrite (bind_done _ _ _ _ _ Hd).
    set (op := match t with NO_OS_LIST_PRIORITY_LIST => Add_find x | _ => Add_last x end).
    specialize (Href op ltac:(by destruct t)).
    assert (exists k, list_spec cmp op ds = Adds k x /\
      match t with NO_OS_LIST_PRIORITY_LIST =>
        k = default (length ds) (find_idx (fun d => 0 <? cmp d x) ds) | _ => k = length ds end)
      as (k & Ek & Hkt) by (destruct t; eexists; done).
    rewrite Ek in Href. destruct Href as (m' & Hr & Hl & Hs). exists m', (linsert k x ds).
    split; [| split; [done |]; split; [by apply Hk |]; split; [apply linsert_perm |]].
    + subst op. destruct t; cbn [list_run no_os_set_adapter push] in *;
        rewrite ret_none_eq in Hr; unfold ret_none in Hr;
        match type of Hr with match ?c with _ => _ end = _ => by destruct c as [[] | |]; simplify_eq end.
    + destruct t; subst k; try apply linsert_length_end.
      intros Hc Hs'. by apply priority_sorted.
  - intros top bottom. splits.
    1, 2: unfold call_read; rewrite (bind_done _ _ _ _ _ Hd); by destruct t.
    2: { intros Hne. unfold call_swap. rewrite (bind_done _ _ _ _ _ Hd).
         specialize (Hedit Hne). by destruct t. }
    unfold call_pop. rewrite (bind_done _ _ _ _ _ Hd).
    destruct Hget as (m' & Hr & Hl & Hs). exists m'. specialize (Hk m' Hs). by destruct t.
Qed.

(** *** The life of a list *)

(** a new list is empty, without iterators, with the adapter of its type
    and the comparator given or the default one; when an allocation fails -1 is
    returned and no block is left. *)
Theorem no_os_list_init_correct m t cmp :
  heap_ok (m_descs m) -> heap_ok (m_lists m) -> heap_ok (m_elems m) ->
  if alloc_fails (m_descs m) || alloc_fails (m_lists m)
  then exists m' out, no_os_list_init false t cmp m = Done ((-1, out), m') /\
    cells (m_descs m') = cells (m_descs m) /\ cells (m_lists m') = cells (m_lists m) /\
    m_elems m' = m_elems m
  else exists m' p l, no_os_list_init false t cmp m = Done ((0, DescAt p), m') /\
    cells (m_descs m) !! p = None /\ cells (m_lists m) !! l = None /\ adapter m' p t l /\
    list_rep m' (DescAt p) l (default no_os_default_comparator cmp) 0 [] (dom (cells (m_elems m))).
Proof.
  destruct m as [E Ls D I]. cbn [m_descs m_lists m_elems m_iters]. intros HD HL HE.
  unfold no_os_list_init. pose proof (heap_ok_fresh D HD). pose proof (heap_ok_fresh Ls HL).
  destruct (alloc_fails D) eqn:ED; cbn [orb].
  { erewrite bind_done by by apply zoom_done, halloc_fail. by eexists _, _. }
  erewrite bind_done by by apply zoom_done, halloc_done. cbn [m_lists m_descs].
  destruct (alloc_fails Ls) eqn:EL.
  - erewrite bind_done by by apply zoom_done, halloc_fail. cbn [m_lists m_descs].
    erewrite bind_done by by eapply zoom_done, hfree_done, lookup_insert_eq.
    eexists _, _. split; [done |]. cbn [m_lists m_descs cells]. by rewrite delete_insert_id.
  - erewrite bind_done by by apply zoom_done, halloc_done. cbn [m_lists m_descs].
    erewrite bind_done by by eapply zoom_done, hstore_done, lookup_insert_eq.
    erewrite bind_done by by eapply zoom_done, hstore_done, lookup_insert_eq.
    eexists _, _, _. split; [done |]. splits; [done.. | |].
    + unfold adapter. cbn [m_descs cells]. apply lookup_insert_eq.
    + eexists _, []. cbn [m_descs m_lists m_elems cells desc_of]. rewrite !lookup_insert_eq.
      split; [done |]. split; [eexists; split; [done | by destruct t] |]. split; [| done].
      unfold lst, lrep, dll. splits; try done; try set_solver. constructor.
Qed.

(** Emptying a list from the front. *)
Lemma remove_loop p l cmp n F fuel : forall m ds,
  list_rep m (DescAt p) l cmp n ds F -> Z.of_nat (length ds) + 1 < 2 ^ 32 ->
  (length ds < fuel)%nat ->
  exists m', loop fuel (remove_step (DescAt p)) tt m = Done (tt, m') /\
    list_rep m' (DescAt p) l cmp n [] F /\ same_rest l m m'.
Proof.
  induction fuel as [| fuel IH]; intros m ds H Hlen Hf; [lia |]. cbn [loop].
  destruct (ends_run m (DescAt p) l cmp n ds F 0 (S fuel) true H Hlen Hf)
    as (_ & (m1 & Hr & Hl & Hs) & _).
  unfold remove_step at 2. rewrite bind_assoc, (bind_done _ _ _ _ _ Hr).
  destruct ds as [| x ds]; cbn [head end_ret tail] in *.
  - exists m1. split; [done |]. by split.
  - erewrite bind_done by done. cbn [fst Z.eqb]. simpl in Hlen, Hf.
    destruct (IH m1 ds Hl) as (m2 & Hr2 & Hl2 & Hs2); [lia.. |].
    exists m2. split; [exact Hr2 |]. split; [done |].
    destruct Hs as (? & ? & ?), Hs2 as (? & ? & ?). unfold same_rest. splits; congruence.
Qed.

Lemma list_remove_run m p l cmp n ds F fuel :
  list_rep m (DescAt p) l cmp n ds F -> Z.of_nat (length ds) + 1 < 2 ^ 32 ->
  (length ds < fuel)%nat ->
  if n =? 0
  then exists m', no_os_list_remove fuel (DescAt p) m = Done (0, m') /\
    dom (cells (m_elems m')) = F /\ cells (m_lists m') = base.delete l (cells (m_lists m)) /\
    cells (m_descs m') = base.delete p (cells (m_descs m)) /\ m_iters m' = m_iters m
  else no_os_list_remove fuel (DescAt p) m = Done (-1, m).
Proof.
  intros H Hlen Hf. pose proof H as (L & ps & HL & Hd & Hl & Hcmp & Hn).
  assert (forall k : ptr -> list_desc_priv -> cmd list_mem Z,
    (list ← priv_of (DescAt p); l' ← load_list list; k list l') m = k (Some l) L m) as Hstart.
  { intros k. rewrite <- (st_id _ _ _ HL).
    rewrite (bind_done _ _ _ _ _ (priv_of_run _ _ _ _ _ _ Hd)).
    by rewrite (bind_done _ _ _ _ _ (load_list_run _ _ _ _ _)). }
  unfold no_os_list_remove. rewrite Hstart, Hn. destruct (Z.eqb_spec n 0); [| done]. cbn [negb].
  destruct (remove_loop p l cmp n F fuel m ds H Hlen Hf) as (m1 & Hr & Hl1 & Hs1 & Hs2 & Hs3).
  rewrite (bind_done _ _ _ _ _ Hr). destruct Hl1 as (L1 & ps1 & HL1 & Hd1 & Hl1 & _).
  destruct m1 as [E1 Ls1 D1 I1]. cbn [m_elems m_lists m_descs m_iters] in *.
  erewrite bind_done by by eapply zoom_done, hfree_done. cbn [m_elems m_lists m_descs m_iters].
  destruct Hd1 as (x & Hx & _). cbn [m_descs] in Hx.
  erewrite bind_done by by eapply zoom_done, hfree_done.
  eexists. split; [done |]. cbn [m_elems m_lists m_descs m_iters cells]. rewrite Hs1.
  splits; try done. destruct Hl1 as ((Hdll & _) & _ & -> & _).
  assert (ps1 = []) as -> by by apply nil_length_inv; destruct Hdll as (_ & -> & _). set_solver.
Qed.

(** A list with iterators is not removed; one without is, with all its
    elements, its description and its adapter. *)
Theorem no_os_list_remove_correct m p l cmp n ds F fuel :
  list_rep m (DescAt p) l cmp n ds F -> Z.of_nat (length ds) + 1 < 2 ^ 32 ->
  (length ds < fuel)%nat ->
  if n =? 0
  then exists m', no_os_list_remove fuel (DescAt p) m = Done (0, m') /\
    dom (cells (m_elems m')) = F /\ cells (m_lists m') = base.delete l (cells (m_lists m)) /\
    cells (m_descs m') = base.delete p (cells (m_descs m)) /\ m_iters m' = m_iters m
  else no_os_list_remove fuel (DescAt p) m = Done (-1, m).
Proof. apply list_remove_run. Qed.

(** the default comparator takes any two data less than four apart for
    equal in one direction, so a list of small integers cannot be searched or
    ordered with it. *)
Theorem default_comparator_coarse a b :
  0 <= a < 2 ^ 33 -> 0 <= b < 2 ^ 33 ->
  (no_os_default_comparator a b = 0 <-> 0 <= a - b < 4) /\
  no_os_default_comparator a b = (a - b) / 4.
Proof.
  intros Ha Hb. assert (no_os_default_comparator a b = (a - b) / 4) as ->.
  { unfold no_os_default_comparator. rewrite (swrap_small 64) by ulia.
    rewrite Z.shiftr_div_pow2 by lia. change (2 ^ 2) with 4. apply swrap_small; [lia |].
    change (2 ^ 33) with 8589934592 in *.
    pose proof (Z.div_mod (a - b) 4). pose proof (Z.mod_pos_bound (a - b) 4). ulia. }
  split; [| done]. pose proof (Z.div_mod (a - b) 4). pose proof (Z.mod_pos_bound (a - b) 4). lia.
Qed.

(** *** Instances *)

(** A queue or another adapter with two elements, 5 and 7, and an iterator on
    the first of them. *)
Definition list_example (t : no_os_adapter_type) : list_mem :=
  ListMem
    (Heap (<[1%positive := Elem 5 None (Some 2%positive)]>
             {[2%positive := Elem 7 (Some 1%positive) None]}) 3%positive [])
    (Heap {[1%positive := ListDesc (Some 1%positive) (Some 2%positive) 2 Z.sub 0
                            (Iter (Some 1%positive) None)]} 2%positive [])
    (Heap {[1%positive := no_os_set_adapter t (Some 1%positive)]} 2%positive [])
    (Heap {[1%positive := Iter (Some 1%positive) (Some 1%positive)]} 2%positive []).

Lemma list_example_lst t :
  lst 1 (ListDesc (Some 1%positive) (Some 2%positive) 2 Z.sub 0 (Iter (Some 1%positive) None))
    (m_elems (list_example t)) [1; 2]%positive [5; 7] ∅.
Proof.
  unfold lst, lrep, dll. splits; try done.
  - repeat constructor; set_solver.
  - intros [| [| k]] p x Hp Hx; simplify_eq/=; done.
  - intros q Hq. cbn [m_elems list_example cells next_block] in *.
    rewrite lookup_insert in Hq. case_decide; [lia |].
    rewrite lookup_singleton in Hq. case_decide; [lia |]. by destruct Hq.
Qed.

Lemma list_example_rep t : list_rep (list_example t) (DescAt 1) 1 Z.sub 0 [5; 7] ∅.
Proof.
  eexists _, _. split; [reflexivity |]. split; [| split; [apply list_example_lst | done]].
  eexists. split; [reflexivity | by destruct t].
Qed.

Lemma list_example_iter t : iter_rep (list_example t) (DescAt 1) 1 Z.sub 0 [5; 7] ∅ (ItAt 1) 0.
Proof.
  eexists _, _, 1%positive. split; [reflexivity |].
  split; [| split; [apply list_example_lst | done]]. eexists. split; [reflexivity | by destruct t].
Qed.

Lemma list_refines_witness :
  exists m', list_run 5 (DescAt 1) (Get_find 7) (list_example NO_OS_LIST_QUEUE)
    = Done ((0, Some 7), m') /\
    list_rep m' (DescAt 1) 1 Z.sub 0 [5] ∅ /\ same_rest 1 (list_example NO_OS_LIST_QUEUE) m'.
Proof.
  refine (list_refines _ _ _ _ _ _ _ (Get_find 7) 5 (list_example_rep NO_OS_LIST_QUEUE) _ _ _);
    vm_compute; try done; lia.
Defined.

Lemma iterator_correct_witness :
  exists m', no_os_iterator_move (ItAt 1) 1 (list_example NO_OS_LIST_QUEUE) = Done (0, m') /\
    iter_rep m' (DescAt 1) 1 Z.sub 0 [5; 7] ∅ (ItAt 1) 1.
Proof.
  refine (proj1 (iterator_correct _ _ _ _ _ _ _ _ _ 1 0 false
    (list_example_iter NO_OS_LIST_QUEUE) _ _ _)); vm_compute; done || (split; done).
Defined.

Lemma adapter_correct_witness :
  exists m', call_pop 1 (list_example NO_OS_LIST_STACK) = Done ((0, Some 7), m') /\
    adapter m' 1 NO_OS_LIST_STACK 1 /\ list_rep m' (DescAt 1) 1 Z.sub 0 [5] ∅.
Proof.
  refine (proj1 (proj2 (proj2 (proj2 (adapter_correct _ 1 1 NO_OS_LIST_STACK _ _ _ _ 0 5 _
    (list_example_rep NO_OS_LIST_STACK) _ _ _))))); vm_compute; try done; lia.
Defined.

Lemma no_os_list_init_correct_witness :
  exists m' out, no_os_list_init false NO_OS_LIST_QUEUE None
      (ListMem (Heap ∅ 1%positive []) (Heap ∅ 1%positive [true]) (Heap ∅ 1%positive [])
         (Heap ∅ 1%positive [])) = Done ((-1, out), m') /\
    cells (m_descs m') = ∅ /\ cells (m_lists m') = ∅ /\ m_elems m' = Heap ∅ 1%positive [].
Proof.
  refine (no_os_list_init_correct (ListMem (Heap ∅ 1%positive []) (Heap ∅ 1%positive [true])
    (Heap ∅ 1%positive []) (Heap ∅ 1%positive [])) NO_OS_LIST_QUEUE None _ _ _);
    intros p [? Hp]; done.
Defined.

Lemma no_os_list_remove_correct_witness :
  exists m', no_os_list_remove 5 (DescAt 1) (list_example NO_OS_LIST_QUEUE) = Done (0, m') /\
    dom (cells (m_elems m')) = ∅ /\
    cells (m_lists m') = base.delete 1%positive (cells (m_lists (list_example NO_OS_LIST_QUEUE))) /\
    cells (m_descs m') = base.delete 1%positive (cells (m_descs (list_example NO_OS_LIST_QUEUE))) /\
    m_iters m' = m_iters (list_example NO_OS_LIST_QUEUE).
Proof.
  refine (no_os_list_remove_correct _ _ _ _ _ _ _ 5 (list_example_rep NO_OS_LIST_QUEUE) _ _);
    vm_compute; try done; lia.
Defined.

Lemma default_comparator_coarse_witness : no_os_default_comparator 3 1 = 0.
Proof.
  apply (default_comparator_coarse 3 1); vm_compute; split; done.
Defined.
