(* ===== verification/Jesd204.v ===== *)
(** * The JESD204 framework of [jesd204/]

    Device registration, topologies, link rates ([jesd204-core.c]) and the
    state machine that drives the devices of a topology through the bring-up
    operations and back ([jesd204-fsm.c]).

    Devices, topologies, top devices, device arrays and link arrays are blocks
    of heaps.  The drivers' callbacks are parameters: commands on the whole
    memory and on a world of their own. *)
From S2P Require Import Prelude Util.

(** ** Data *)

Inductive jesd204_version : Type :=
  | JESD204_VERSION_A | JESD204_VERSION_B | JESD204_VERSION_C.

Definition version_code (v : jesd204_version) : Z :=
  match v with JESD204_VERSION_A => 0 | JESD204_VERSION_B => 1 | JESD204_VERSION_C => 2 end.

Inductive jesd204_encoder : Type :=
  | JESD204_ENCODER_UNKNOWN | JESD204_ENCODER_8B10B | JESD204_ENCODER_64B66B
  | JESD204_ENCODER_64B80B.

Definition encoder_code (e : jesd204_encoder) : Z :=
  match e with
  | JESD204_ENCODER_UNKNOWN => 0 | JESD204_ENCODER_8B10B => 1
  | JESD204_ENCODER_64B66B => 2 | JESD204_ENCODER_64B80B => 3
  end.

Record jesd204_sysref : Type := Sysref {
  sysref_mode : Z;
  capture_falling_edge : Z;
  valid_falling_edge : Z;
  lmfc_offset : Z
}.

(** [jesd_version] and [jesd_encoder] are bytes that hold the codes of the
    enumerations. *)
Record jesd204_link : Type := Link {
  link_id : Z;
  error : Z;
  sample_rate : Z;
  sample_rate_div : Z;
  is_transmit : bool;
  num_lanes : Z;
  num_converters : Z;
  octets_per_frame : Z;
  frames_per_multiframe : Z;
  num_of_multiblocks_in_emb : Z;
  bits_per_sample : Z;
  converter_resolution : Z;
  jesd_version : Z;
  jesd_encoder : Z;
  subclass : Z;
  device_id : Z;
  bank_id : Z;
  scrambling : Z;
  high_density : Z;
  ctrl_words_per_frame_clk : Z;
  ctrl_bits_per_sample : Z;
  samples_per_conv_frame : Z;
  lane_ids : ptr;
  sysref : jesd204_sysref;
  dac_adj_resolution_steps : Z;
  dac_adj_direction : Z;
  dac_phase_adj : Z
}.

(** What [calloc] leaves in a link. *)
Definition link0 : jesd204_link :=
  Link 0 0 0 0 false 0 0 0 0 0 0 0 0 0 0 0 0 0 0 0 0 0 None (Sysref 0 0 0 0) 0 0 0.

Record jesd204_link_opaque : Type := LinkOpaque {
  link : jesd204_link;
  lo_jdev_top : ptr;
  link_idx : Z
}.

Definition JESD204_MAX_LINKS : Z := 16.
Definition JESD204_MAX_TOPOLOGY_LINKS : Z := 16.

Record jesd204_dev_top : Type := DevTop {
  top_jdev : ptr;
  jdev_sysref : ptr;
  jdev_sysref_sec : ptr;
  top_link_ids : list Z;
  num_links : Z;
  active_links : ptr
}.

Record jesd204_dev : Type := Dev {
  dev_data : ptr;
  priv : ptr;
  is_top : bool;
  topology : ptr
}.

Record jesd204_topology_dev : Type := TopoDev {
  td_jdev : ptr;
  is_top_device : bool;
  is_sysref_provider : bool;
  link_ids : list Z;
  links_number : Z
}.

Record jesd204_topology : Type := Topo {
  dev_top : ptr;
  topo_devs : ptr;
  devs_number : Z
}.

Inductive jesd204_state_op_reason : Type :=
  | JESD204_STATE_OP_REASON_INIT | JESD204_STATE_OP_REASON_UNINIT.

(** The operations, in the order of the bring-up. *)
Inductive jesd204_dev_op : Type :=
  | JESD204_OP_DEVICE_INIT | JESD204_OP_LINK_INIT | JESD204_OP_LINK_SUPPORTED
  | JESD204_OP_LINK_PRE_SETUP | JESD204_OP_CLK_SYNC_STAGE1 | JESD204_OP_CLK_SYNC_STAGE2
  | JESD204_OP_CLK_SYNC_STAGE3 | JESD204_OP_LINK_SETUP | JESD204_OP_OPT_SETUP_STAGE1
  | JESD204_OP_OPT_SETUP_STAGE2 | JESD204_OP_OPT_SETUP_STAGE3 | JESD204_OP_OPT_SETUP_STAGE4
  | JESD204_OP_OPT_SETUP_STAGE5 | JESD204_OP_CLOCKS_ENABLE | JESD204_OP_LINK_ENABLE
  | JESD204_OP_LINK_RUNNING | JESD204_OP_OPT_POST_RUNNING_STAGE.

Definition dev_ops : list jesd204_dev_op :=
  [JESD204_OP_DEVICE_INIT; JESD204_OP_LINK_INIT; JESD204_OP_LINK_SUPPORTED;
   JESD204_OP_LINK_PRE_SETUP; JESD204_OP_CLK_SYNC_STAGE1; JESD204_OP_CLK_SYNC_STAGE2;
   JESD204_OP_CLK_SYNC_STAGE3; JESD204_OP_LINK_SETUP; JESD204_OP_OPT_SETUP_STAGE1;
   JESD204_OP_OPT_SETUP_STAGE2; JESD204_OP_OPT_SETUP_STAGE3; JESD204_OP_OPT_SETUP_STAGE4;
   JESD204_OP_OPT_SETUP_STAGE5; JESD204_OP_CLOCKS_ENABLE; JESD204_OP_LINK_ENABLE;
   JESD204_OP_LINK_RUNNING; JESD204_OP_OPT_POST_RUNNING_STAGE].

#[export] Instance jesd204_dev_op_eq_dec : EqDecision jesd204_dev_op.
Proof. solve_decision. Defined.

(** ** Link rates *)

(** [unsigned long], 32 or 64 bits wide. *)
Section rates.
  Context (long_bits : Z).

Definition jesd204_link_validate_params (lnk : jesd204_link) : Z :=
  if negb (truthy (num_lanes lnk)) then - EINVAL else
  if negb (truthy (num_converters lnk)) then - EINVAL else
  if negb (truthy (bits_per_sample lnk)) then - EINVAL else
  if negb (truthy (sample_rate lnk)) then - EINVAL else 0.

(** The encoding ratio, [None] for the [return -EINVAL] of the switch. *)
Definition encoding (lnk : jesd204_link) : option (Z * Z) :=
  if jesd_version lnk =? version_code JESD204_VERSION_C then
    if jesd_encoder lnk =? encoder_code JESD204_ENCODER_64B66B then Some (66, 64) else
    if jesd_encoder lnk =? encoder_code JESD204_ENCODER_8B10B then Some (10, 8) else
    if jesd_encoder lnk =? encoder_code JESD204_ENCODER_64B80B then Some (80, 64) else None
  else Some (10, 8).

(** The results are the return code and what the pointer is set to. *)
Definition jesd204_link_get_rate (lnk : jesd204_link) : outcome (Z * option Z) :=
  let ret := jesd204_link_validate_params lnk in
  if truthy ret then Done (ret, None) else
  match encoding lnk with
  | None => Done (- EINVAL, None)
  | Some (encoding_n, encoding_d) =>
      let div := if truthy (sample_rate_div lnk) then sample_rate_div lnk else 1 in
      let rate := u64 (u64 (num_converters lnk * bits_per_sample lnk * encoding_n)
                       * sample_rate lnk) in
      r ← no_os_do_div rate (u64 (num_lanes lnk * encoding_d * div));
      Done (0, Some r.2)
  end.

Definition jesd204_link_get_rate_khz (lnk : jesd204_link) : outcome (Z * option Z) :=
  r ← jesd204_link_get_rate lnk;
  match r with
  | (ret, Some lane_rate_hz) =>
      if truthy ret then Done (ret, None)
      else Done (ret, Some (wrap long_bits (u64 (lane_rate_hz + 1000 / 2) / 1000)))
  | (ret, None) => Done (ret, None)
  end.

(** The divisor of the device clock, [None] for [return -EINVAL]. *)
Definition clock_div (lnk : jesd204_link) : option Z :=
  if jesd_version lnk =? version_code JESD204_VERSION_C then
    if jesd_encoder lnk =? encoder_code JESD204_ENCODER_64B66B then Some 66 else
    if jesd_encoder lnk =? encoder_code JESD204_ENCODER_8B10B then Some 40 else
    if jesd_encoder lnk =? encoder_code JESD204_ENCODER_64B80B then Some 80 else None
  else Some 40.

Definition jesd204_link_get_device_clock (lnk : jesd204_link) : outcome (Z * option Z) :=
  r ← jesd204_link_get_rate lnk;
  match r with
  | (ret, Some lane_rate_hz) =>
      if truthy ret then Done (ret, None) else
      match clock_div lnk with
      | None => Done (- EINVAL, None)
      | Some encoding_n =>
          q ← no_os_do_div lane_rate_hz encoding_n;
          Done (ret, Some (wrap long_bits q.2))
      end
  | (ret, None) => Done (ret, None)
  end.

Definition jesd204_link_get_lmfc_lemc_rate (lnk : jesd204_link) : outcome (Z * option Z) :=
  r ← jesd204_link_get_rate lnk;
  match r with
  | (ret, Some lane_rate_hz) =>
      if truthy ret then Done (ret, None) else
      let F := octets_per_frame lnk in
      let K := frames_per_multiframe lnk in
      let E := num_of_multiblocks_in_emb lnk in
      let enc := jesd_encoder lnk in
      if jesd_version lnk =? version_code JESD204_VERSION_C then
        if (enc =? encoder_code JESD204_ENCODER_64B66B)
           || (enc =? encoder_code JESD204_ENCODER_64B80B) then
          let bkw := if enc =? encoder_code JESD204_ENCODER_64B80B then 80 else 66 in
          if truthy E then
            q ← no_os_do_div lane_rate_hz (u32 (bkw * 32 * E));
            Done (0, Some (wrap long_bits q.2))
          else
            q ← no_os_do_div (u64 (lane_rate_hz * 8)) (u32 (bkw * F * K));
            Done (0, Some (wrap long_bits q.2))
        else if enc =? encoder_code JESD204_ENCODER_8B10B then
          q ← no_os_do_div lane_rate_hz (10 * F * K);
          Done (0, Some (wrap long_bits q.2))
        else Done (- EINVAL, None)
      else
        q ← no_os_do_div lane_rate_hz (10 * F * K);
        Done (0, Some (wrap long_bits q.2))
  | (ret, None) => Done (ret, None)
  end.
End rates.

Definition jesd204_copy_link_params (dst src : jesd204_link) : jesd204_link :=
  Link (link_id dst) (error dst) (sample_rate dst) (sample_rate_div dst)
    (is_transmit src) (num_lanes src) (num_converters src) (octets_per_frame src)
    (frames_per_multiframe src) (num_of_multiblocks_in_emb src) (bits_per_sample src)
    (converter_resolution src) (jesd_version src) (jesd_encoder src) (subclass src)
    (device_id src) (bank_id src) (scrambling src) (high_density src)
    (ctrl_words_per_frame_clk src) (ctrl_bits_per_sample src) (samples_per_conv_frame src)
    (lane_ids dst) (sysref src) (dac_adj_resolution_steps src) (dac_adj_direction src)
    (dac_phase_adj src).

(** ** Memory *)

(** [W] is the drivers' world: registers, private data, a log of the calls. *)
Record jmem (W : Type) : Type := JMem {
  jdevs : heap jesd204_dev;
  jprivs : heap Z;
  jtops : heap jesd204_topology;
  jdtops : heap jesd204_dev_top;
  jtdevs : heap (list jesd204_topology_dev);
  jlinks : heap (list jesd204_link_opaque);
  world : W
}.
Arguments JMem {W} _ _ _ _ _ _ _.
Arguments jdevs {W} _.
Arguments jprivs {W} _.
Arguments jtops {W} _.
Arguments jdtops {W} _.
Arguments jtdevs {W} _.
Arguments jlinks {W} _.
Arguments world {W} _.

(** A link is passed to a callback as the address of an element of an array. *)
Definition link_ref : Type := (ptr * Z)%type.

Inductive jesd204_state_op_mode : Type :=
  | JESD204_STATE_OP_MODE_PER_LINK
  | JESD204_STATE_OP_MODE_PER_DEVICE.

(** Nothing reads the [mode]. *)
Record jesd204_state_op (W : Type) : Type := StateOp {
  mode : jesd204_state_op_mode;
  per_device : option (ptr -> jesd204_state_op_reason -> cmd (jmem W) Z);
  per_link : option (ptr -> jesd204_state_op_reason -> link_ref -> cmd (jmem W) Z);
  post_state_sysref : bool
}.
Arguments StateOp {W} _ _ _ _.
Arguments mode {W} _.
Arguments per_device {W} _.
Arguments per_link {W} _.
Arguments post_state_sysref {W} _.

(** Nor [max_num_links] and [num_retries]. *)
Record jesd204_dev_data (W : Type) : Type := DevData {
  sysref_cb : option (ptr -> cmd (jmem W) Z);
  sizeof_priv : Z;
  max_num_links : Z;
  num_retries : Z;
  state_ops : jesd204_dev_op -> jesd204_state_op W
}.
Arguments DevData {W} _ _ _ _ _.
Arguments max_num_links {W} _.
Arguments num_retries {W} _.
Arguments sysref_cb {W} _.
Arguments sizeof_priv {W} _.
Arguments state_ops {W} _.

Section jesd.
  Context {W : Type}.

(** The constant driver data, by address. *)
  Context (driver : positive -> jesd204_dev_data W).

Definition on_jdevs {A} : cmd (heap jesd204_dev) A -> cmd (jmem W) A :=
  zoom jdevs (fun h m => JMem h (jprivs m) (jtops m) (jdtops m) (jtdevs m) (jlinks m) (world m)).
Definition on_jprivs {A} : cmd (heap Z) A -> cmd (jmem W) A :=
  zoom jprivs (fun h m => JMem (jdevs m) h (jtops m) (jdtops m) (jtdevs m) (jlinks m) (world m)).
Definition on_jtops {A} : cmd (heap jesd204_topology) A -> cmd (jmem W) A :=
  zoom jtops (fun h m => JMem (jdevs m) (jprivs m) h (jdtops m) (jtdevs m) (jlinks m) (world m)).
Definition on_jdtops {A} : cmd (heap jesd204_dev_top) A -> cmd (jmem W) A :=
  zoom jdtops (fun h m => JMem (jdevs m) (jprivs m) (jtops m) h (jtdevs m) (jlinks m) (world m)).
Definition on_jtdevs {A} : cmd (heap (list jesd204_topology_dev)) A -> cmd (jmem W) A :=
  zoom jtdevs (fun h m => JMem (jdevs m) (jprivs m) (jtops m) (jdtops m) h (jlinks m) (world m)).
Definition on_jlinks {A} : cmd (heap (list jesd204_link_opaque)) A -> cmd (jmem W) A :=
  zoom jlinks (fun h m => JMem (jdevs m) (jprivs m) (jtops m) (jdtops m) (jtdevs m) h (world m)).

Definition load_jdev (p : ptr) : cmd (jmem W) jesd204_dev := on_jdevs (hload p).
Definition load_topo (p : ptr) : cmd (jmem W) jesd204_topology := on_jtops (hload p).
Definition load_dtop (p : ptr) : cmd (jmem W) jesd204_dev_top := on_jdtops (hload p).

(** The driver data of a device: [jdev->dev_data]. *)
Definition data_of (jdev : ptr) : cmd (jmem W) (jesd204_dev_data W) :=
  d ← load_jdev jdev; p ← the (dev_data d); mret (driver p).

(** ** Registration *)

(** The result is the return code and what [*jdev] was set to; a failed
    allocation of the private data is not an error. *)
Definition jesd204_dev_register (jdev_is_null : bool) (dev_data : ptr) :
  cmd (jmem W) (Z * ptr) :=
  if jdev_is_null then mret (- EINVAL, None) else
  match dev_data with
  | None => mret (- EINVAL, None)
  | Some _ =>
      dev ← on_jdevs (halloc (Dev None None false None));
      match dev with
      | None => mret (- ENOMEM, None)
      | Some _ =>
          p ← on_jprivs (halloc 0);
          _ ← on_jdevs (hstore dev (Dev dev_data p false None));
          mret (0, dev)
      end
  end.

Definition jesd204_dev_unregister (jdev : ptr) : cmd (jmem W) Z :=
  match jdev with
  | None => mret (- EINVAL)
  | Some _ =>
      d ← load_jdev jdev;
      _ ← on_jprivs (hfree (priv d));
      _ ← on_jdevs (hfree jdev);
      mret 0
  end.

(** ** Topologies *)

Definition jesd204_dev_alloc_links (jdev_top : ptr) : cmd (jmem W) Z :=
  t ← load_dtop jdev_top;
  links ← on_jlinks (halloc (replicate (Z.to_nat (num_links t)) (LinkOpaque link0 None 0)));
  match links with
  | None => mret (- ENOMEM)
  | Some _ =>
      _ ← on_jdtops (hstore jdev_top
            (DevTop (top_jdev t) (jdev_sysref t) (jdev_sysref_sec t) (top_link_ids t)
               (num_links t) links));
      _ ← for_up (Z.to_nat (num_links t)) 0 (fun i =>
            t ← load_dtop jdev_top;
            id ← the (if i <? 0 then None else top_link_ids t !! Z.to_nat i);
            on_jlinks (
              ls ← hload links;
              _ ← the (ls !! Z.to_nat i);
              hstore links (<[Z.to_nat i := LinkOpaque
                (Link id 0 0 0 false 0 0 0 0 0 0 0 0 0 0 0 0 0 0 0 0 0 None (Sysref 0 0 0 0) 0 0 0)
                jdev_top i]> ls)));
      mret 0
  end.

(** [top->dev_top->link_ids[l] = devs[i].link_ids[l]] for each link. *)
Definition copy_link_ids (jdev_top : ptr) (td : jesd204_topology_dev) : cmd (jmem W) unit :=
  for_up (Z.to_nat (links_number td)) 0 (fun l =>
    t ← load_dtop jdev_top;
    id ← the (if l <? 0 then None else link_ids td !! Z.to_nat l);
    _ ← the (top_link_ids t !! Z.to_nat l);
    on_jdtops (hstore jdev_top
      (DevTop (top_jdev t) (jdev_sysref t) (jdev_sysref_sec t)
         (<[Z.to_nat l := id]> (top_link_ids t)) (num_links t) (active_links t)))).

(** One turn of the loop over the caller's array: [d] is the index of the next
    free entry of [top->devs]. *)
Definition topology_init_dev (top dtop : ptr) (td : jesd204_topology_dev) (d : Z) :
  cmd (jmem W) Z :=
  if is_top_device td then
    t ← load_dtop dtop;
    _ ← on_jdtops (hstore dtop
          (DevTop (td_jdev td) (jdev_sysref t) (jdev_sysref_sec t) (top_link_ids t)
             (num_links t) (active_links t)));
    j ← load_jdev (td_jdev td);
    _ ← on_jdevs (hstore (td_jdev td) (Dev (dev_data j) (priv j) true top));
    t ← load_dtop dtop;
    _ ← on_jdtops (hstore dtop
          (DevTop (top_jdev t) (jdev_sysref t) (jdev_sysref_sec t) (top_link_ids t)
             (links_number td) (active_links t)));
    _ ← copy_link_ids dtop td;
    _ ← jesd204_dev_alloc_links dtop;
    mret d
  else
    tp ← load_topo top;
    _ ← on_jtdevs (
          ds ← hload (topo_devs tp);
          _ ← the (ds !! Z.to_nat d);
          hstore (topo_devs tp) (<[Z.to_nat d := td]> ds));
    _ ← if is_sysref_provider td then
          t ← load_dtop dtop;
          on_jdtops (hstore dtop
            (DevTop (top_jdev t) (td_jdev td) (jdev_sysref_sec t) (top_link_ids t)
               (num_links t) (active_links t)))
        else mret tt;
    mret (d + 1).

Fixpoint topology_init_loop (top dtop : ptr) (devs : list jesd204_topology_dev) (n : nat)
    (d : Z) : cmd (jmem W) Z :=
  match n, devs with
  | O, _ => mret d
  | S n, td :: devs => d ← topology_init_dev top dtop td d; topology_init_loop top dtop devs n d
  | S _, [] => undef
  end.

Definition td0 : jesd204_topology_dev := TopoDev None false false (replicate 16 0) 0.

(** [devs_number] is an [unsigned int]: with none, [devs_number - 1] is its
    greatest value and the array cannot be had. *)
Definition jesd204_topology_init (topology_is_null : bool)
    (devs : option (list jesd204_topology_dev)) (devs_number : Z) : cmd (jmem W) (Z * ptr) :=
  if topology_is_null then mret (- EINVAL, None) else
  match devs with
  | None => mret (- EINVAL, None)
  | Some devs =>
      top ← on_jtops (halloc (Topo None None 0));
      match top with
      | None => mret (- ENOMEM, None)
      | Some _ =>
          dtop ← on_jdtops (halloc (DevTop None None None (replicate 16 0) 0 None));
          match dtop with
          | None => _ ← on_jtops (hfree top); mret (- ENOMEM, None)
          | Some _ =>
              let n := u32 (devs_number - 1) in
              tds ← on_jtdevs (halloc (replicate (Z.to_nat n) td0));
              _ ← on_jtops (hstore top (Topo dtop tds n));
              _ ← topology_init_loop top dtop devs (Z.to_nat devs_number) 0;
              mret (0, top)
          end
      end
  end.

(** The device and link arrays are not freed. *)
Definition jesd204_topology_remove (topology : ptr) : cmd (jmem W) Z :=
  match topology with
  | None => mret (- EINVAL)
  | Some _ =>
      t ← load_topo topology;
      _ ← on_jdtops (hfree (dev_top t));
      _ ← on_jtops (hfree topology);
      mret 0
  end.

Definition jesd204_dev_get_topology_top_dev (jdev : ptr) : cmd (jmem W) ptr :=
  d ← load_jdev jdev; t ← load_topo (topology d); mret (dev_top t).

(** ** SYSREF *)

(** The callback of the provider [prov]. *)
Definition call_sysref (prov : ptr) : cmd (jmem W) Z :=
  d ← load_jdev prov;
  match dev_data d with
  | None => mret (- EFAULT)
  | Some p => f ← the (sysref_cb (driver p)); f prov
  end.

Definition jesd204_sysref_async (jdev : ptr) : cmd (jmem W) Z :=
  jdev_top ← jesd204_dev_get_topology_top_dev jdev;
  match jdev_top with
  | None => mret (- EFAULT)
  | Some _ =>
      t ← load_dtop jdev_top;
      match jdev_sysref t with
      | None => mret 0
      | Some _ => call_sysref (jdev_sysref t)
      end
  end.

Definition jesd204_sysref_async_force (jdev : ptr) : cmd (jmem W) Z :=
  jdev_top ← jesd204_dev_get_topology_top_dev jdev;
  match jdev_top with
  | None => mret (- EFAULT)
  | Some _ =>
      t ← load_dtop jdev_top;
      match jdev_sysref t with
      | Some _ => jesd204_sysref_async jdev
      | None =>
          match jdev_sysref_sec t with
          | None => mret 0
          | Some _ => call_sysref (jdev_sysref_sec t)
          end
      end
  end.

Definition jesd204_dev_is_top (jdev : ptr) : cmd (jmem W) bool :=
  match jdev with None => mret false | Some _ => d ← load_jdev jdev; mret (is_top d) end.

Definition jesd204_dev_priv (jdev : ptr) : cmd (jmem W) ptr :=
  d ← load_jdev jdev; mret (priv d).

(** ** The state machine *)

(** [topology->devs[dev]], the top device and [jdev_top->link_ids[lnk_id]],
    read anew at every use. *)
Definition topo_dev (topology : ptr) (dev : Z) : cmd (jmem W) jesd204_topology_dev :=
  t ← load_topo topology;
  ds ← on_jtdevs (hload (topo_devs t));
  the (if dev <? 0 then None else ds !! Z.to_nat dev).

Definition top_link_id (jdev_top : ptr) (lnk_id : Z) : cmd (jmem W) Z :=
  t ← load_dtop jdev_top;
  the (if lnk_id <? 0 then None else top_link_ids t !! Z.to_nat lnk_id).

(** [&jdev_top->active_links[lnk_id].link] *)
Definition link_at (jdev_top : ptr) (lnk_id : Z) : cmd (jmem W) link_ref :=
  t ← load_dtop jdev_top;
  _ ← the (active_links t);
  mret (active_links t, lnk_id).

(** The element of [per_device_op_done], which has 16. *)
Definition get_done (done : list bool) (dev : Z) : option bool :=
  if dev <? 0 then None else done !! Z.to_nat dev.

Section fsm.
  Context (topology jdev_top : ptr) (reason : jesd204_state_op_reason) (op : jesd204_dev_op).

(** The calls of device [dev] for link [lnk_id]: its device callback, unless
    it was called already, and its link callback. *)
Definition fsm_dev_link (dev lnk_id : Z) (done : list bool) : cmd (jmem W) (list bool) :=
  td ← topo_dev topology dev;
  dd ← data_of (td_jdev td);
  done ← match per_device (state_ops dd op) with
    | None => mret done
    | Some f =>
        b ← the (get_done done dev);
        if (b : bool) then mret done else
        _ ← f (td_jdev td) reason;
        mret (<[Z.to_nat dev := true]> done)
    end;
  td ← topo_dev topology dev;
  dd ← data_of (td_jdev td);
  _ ← match per_link (state_ops dd op) with
    | None => mret 0
    | Some f => lnk ← link_at jdev_top lnk_id; f (td_jdev td) reason lnk
    end;
  mret done.

(** The body of the innermost loop. *)
Definition fsm_lnk_dev (dev lnk_id lnk_dev : Z) (done : list bool) : cmd (jmem W) (list bool) :=
  td ← topo_dev topology dev;
  a ← the (if lnk_dev <? 0 then None else link_ids td !! Z.to_nat lnk_dev);
  b ← top_link_id jdev_top lnk_id;
  if a =? b then fsm_dev_link dev lnk_id done else mret done.
End fsm.

(** The loops run with the flags as their state.  [for_below] is
    [for (i = 0; i < bound; i++)], which reads its bound at every turn;
    [for_down] is [for (i = bound - 1; i >= 0; i--)], which reads it once, as
    an [int]. *)
Definition body_cmd : Type := Z -> list bool -> cmd (jmem W) (list bool).

Fixpoint for_each (idxs : list Z) (body : body_cmd) (done : list bool) :
  cmd (jmem W) (list bool) :=
  match idxs with
  | [] => mret done
  | i :: idxs => done ← body i done; for_each idxs body done
  end.

Fixpoint for_below_from (fuel : nat) (i : Z) (bound : cmd (jmem W) Z) (body : body_cmd)
    (done : list bool) : cmd (jmem W) (list bool) :=
  match fuel with
  | O => fun _ => NoFuel
  | S fuel =>
      n ← bound;
      if i <? n then done ← body i done; for_below_from fuel (i + 1) bound body done
      else mret done
  end.

Definition loop_cmd : Type :=
  cmd (jmem W) Z -> body_cmd -> list bool -> cmd (jmem W) (list bool).

Definition for_below (fuel : nat) : loop_cmd := fun bound body =>
  for_below_from fuel 0 bound body.

Definition for_down : loop_cmd := fun bound body done =>
  n ← bound; for_each (reverse (seqZ 0 (s32 (n - 1) + 1))) body done.

Definition devs_bound (topology : ptr) : cmd (jmem W) Z :=
  t ← load_topo topology; mret (devs_number t).
Definition links_bound (jdev_top : ptr) : cmd (jmem W) Z :=
  t ← load_dtop jdev_top; mret (num_links t).
Definition dev_links_bound (topology : ptr) (dev : Z) : cmd (jmem W) Z :=
  td ← topo_dev topology dev; mret (links_number td).

(** The loop over the devices, [loop] being the loop the caller uses. *)
Definition fsm_devs (loop : loop_cmd) (topology jdev_top : ptr)
    (reason : jesd204_state_op_reason) (op : jesd204_dev_op) (lnk_id : Z) (done : list bool) :
  cmd (jmem W) (list bool) :=
  loop (devs_bound topology) (fun dev done =>
    loop (dev_links_bound topology dev) (fun lnk_dev =>
      fsm_lnk_dev topology jdev_top reason op dev lnk_id lnk_dev) done) done.

(** The top device's own callbacks; the result tells whether there is one. *)
Definition fsm_top_link (jdev_top : ptr) (reason : jesd204_state_op_reason)
    (op : jesd204_dev_op) (lnk_id : Z) : cmd (jmem W) bool :=
  t ← load_dtop jdev_top;
  dd ← data_of (top_jdev t);
  match per_link (state_ops dd op) with
  | None => mret false
  | Some f => lnk ← link_at jdev_top lnk_id; _ ← f (top_jdev t) reason lnk; mret true
  end.

Definition fsm_top_device (jdev_top : ptr) (reason : jesd204_state_op_reason)
    (op : jesd204_dev_op) : cmd (jmem W) bool :=
  t ← load_dtop jdev_top;
  dd ← data_of (top_jdev t);
  match per_device (state_ops dd op) with
  | None => mret false
  | Some f => _ ← f (top_jdev t) reason; mret true
  end.

(** [if (post_state_sysref) jesd204_sysref_async(...)], after a call that was
    made. *)
Definition fsm_sysref (jdev_top : ptr) (op : jesd204_dev_op) (called : bool) :
  cmd (jmem W) unit :=
  if called then
    t ← load_dtop jdev_top;
    dd ← data_of (top_jdev t);
    if post_state_sysref (state_ops dd op)
    then _ ← jesd204_sysref_async (top_jdev t); mret tt
    else mret tt
  else mret tt.

(** [per_device_op_done], cleared for the [n] devices there are: clearing more
    than 16 writes past it. *)
Definition fsm_clear (n : Z) : cmd (jmem W) (list bool) :=
  if 16 <? n then undef else mret (replicate (Z.to_nat n) false).

Definition fsm_start_op (fuel : nat) (topology jdev_top : ptr) (op : jesd204_dev_op) :
  cmd (jmem W) unit :=
  let reason := JESD204_STATE_OP_REASON_INIT in
  n ← devs_bound topology;
  done ← fsm_clear n;
  _ ← for_below fuel (links_bound jdev_top) (fun lnk_id done =>
        done ← fsm_devs (for_below fuel) topology jdev_top reason op lnk_id done;
        called ← fsm_top_link jdev_top reason op lnk_id;
        _ ← fsm_sysref jdev_top op called;
        mret done) done;
  called ← fsm_top_device jdev_top reason op;
  fsm_sysref jdev_top op called.

Definition fsm_stop_op (topology jdev_top : ptr) (op : jesd204_dev_op) : cmd (jmem W) unit :=
  let reason := JESD204_STATE_OP_REASON_UNINIT in
  n ← devs_bound topology;
  done ← fsm_clear (s32 (n - 1) + 1);
  _ ← fsm_top_device jdev_top reason op;
  _ ← for_down (links_bound jdev_top) (fun lnk_id done =>
        _ ← fsm_top_link jdev_top reason op lnk_id;
        fsm_devs for_down topology jdev_top reason op lnk_id done) done;
  mret tt.

Fixpoint fsm_ops (ops : list jesd204_dev_op) (body : jesd204_dev_op -> cmd (jmem W) unit) :
  cmd (jmem W) unit :=
  match ops with
  | [] => mret tt
  | op :: ops => _ ← body op; fsm_ops ops body
  end.

(** [link_idx] is not used. *)
Definition jesd204_fsm_start (fuel : nat) (topology : ptr) (link_idx : Z) : cmd (jmem W) Z :=
  t ← load_topo topology;
  _ ← fsm_ops dev_ops (fsm_start_op fuel topology (dev_top t));
  mret 0.

Definition jesd204_fsm_stop (topology : ptr) (link_idx : Z) : cmd (jmem W) Z :=
  t ← load_topo topology;
  _ ← fsm_ops (reverse dev_ops) (fsm_stop_op topology (dev_top t));
  mret 0.
End jesd.

(** ** Link rates: theorems *)

(** The fields of a link are in the range of their C types. *)
Definition link_wf (lnk : jesd204_link) : Prop :=
  uint 64 (sample_rate lnk) /\ uint 32 (sample_rate_div lnk) /\ uint 8 (num_lanes lnk) /\
  uint 8 (num_converters lnk) /\ uint 8 (octets_per_frame lnk) /\
  uint 16 (frames_per_multiframe lnk) /\ uint 8 (num_of_multiblocks_in_emb lnk) /\
  uint 8 (bits_per_sample lnk) /\ uint 8 (samples_per_conv_frame lnk).

#[export] Instance link_wf_dec lnk : Decision (link_wf lnk).
Proof. unfold link_wf. apply _. Defined.

(** The divider in force. *)
Definition rate_div (lnk : jesd204_link) : Z :=
  if truthy (sample_rate_div lnk) then sample_rate_div lnk else 1.

(** M N' n fs and L d div: the lane rate is their quotient. *)
Definition rate_num (lnk : jesd204_link) (n : Z) : Z :=
  num_converters lnk * bits_per_sample lnk * n * sample_rate lnk.
Definition rate_den (lnk : jesd204_link) (d : Z) : Z := num_lanes lnk * d * rate_div lnk.

Lemma validate_spec lnk :
  jesd204_link_validate_params lnk = 0 <->
  num_lanes lnk <> 0 /\ num_converters lnk <> 0 /\ bits_per_sample lnk <> 0 /\
  sample_rate lnk <> 0.
Proof.
  unfold jesd204_link_validate_params, truthy, EINVAL.
  destruct (Z.eqb_spec (num_lanes lnk) 0), (Z.eqb_spec (num_converters lnk) 0),
    (Z.eqb_spec (bits_per_sample lnk) 0), (Z.eqb_spec (sample_rate lnk) 0); simpl; lia.
Qed.

Lemma validate_cases lnk :
  jesd204_link_validate_params lnk = 0 \/ jesd204_link_validate_params lnk = - EINVAL.
Proof. unfold jesd204_link_validate_params. repeat des_if; auto. Qed.

(** The four encodings. *)
Lemma encoding_cases lnk n d :
  encoding lnk = Some (n, d) ->
  (n = 66 /\ d = 64) \/ (n = 10 /\ d = 8) \/ (n = 80 /\ d = 64).
Proof. unfold encoding. repeat des_if; naive_solver. Qed.

Lemma clock_div_some lnk n d :
  encoding lnk = Some (n, d) ->
  exists c, clock_div lnk = Some c /\ 40 <= c <= 80.
Proof. unfold encoding, clock_div. repeat des_if; intros; simplify_eq; eexists; split; (done || lia). Qed.

Lemma rate_div_pos lnk : link_wf lnk -> 1 <= rate_div lnk < 2 ^ 32.
Proof.
  intros (_ & H & _). unfold rate_div, truthy, uint in *.
  destruct (Z.eqb_spec (sample_rate_div lnk) 0); simpl; lia.
Qed.

Lemma rate_den_range lnk n d :
  link_wf lnk -> jesd204_link_validate_params lnk = 0 -> encoding lnk = Some (n, d) ->
  d <= rate_den lnk d < 2 ^ 48.
Proof.
  intros Hwf (HL & _)%validate_spec Henc%encoding_cases.
  pose proof (rate_div_pos lnk Hwf) as Hd. destruct Hwf as (_ & _ & HL8 & _).
  unfold rate_den, uint in *.
  assert (1 * d <= num_lanes lnk * d <= 255 * 64) by nia.
  assert (d * 1 <= num_lanes lnk * d * rate_div lnk <= 255 * 64 * 2 ^ 32) by nia. lia.
Qed.

Lemma no_os_do_div_done n base : base <> 0 -> no_os_do_div n base = Done (n mod base, n / base).
Proof.
  intros H. unfold no_os_do_div. rewrite umod_done, udiv_done by done. done.
Qed.

Lemma get_rate_run lnk n d :
  link_wf lnk -> jesd204_link_validate_params lnk = 0 -> encoding lnk = Some (n, d) ->
  rate_num lnk n < 2 ^ 64 ->
  jesd204_link_get_rate lnk = Done (0, Some (rate_num lnk n / rate_den lnk d)).
Proof.
  intros Hwf Hval Henc Hov. pose proof (rate_den_range lnk n d Hwf Hval Henc) as Hden.
  pose proof (encoding_cases lnk n d Henc) as Hc.
  unfold jesd204_link_get_rate. rewrite Hval, Henc. cbn [truthy negb Z.eqb].
  fold (rate_div lnk). fold (rate_den lnk d).
  rewrite (wrap_small 64 (rate_den lnk d)) by (unfold uint; lia).
  rewrite no_os_do_div_done by lia. cbn -[Z.pow].
  destruct Hwf as (Hs & _ & _ & HM & _ & _ & _ & HB & _). unfold uint in *.
  apply validate_spec in Hval as (_ & _ & _ & Hs0).
  rewrite (wrap_small 64 (num_converters lnk * _ * _)), (wrap_small 64 (_ * sample_rate lnk)).
  - done.
  - unfold uint. unfold rate_num in Hov. split; [| lia]. nia.
  - unfold uint. assert (num_converters lnk * bits_per_sample lnk <= 255 * 255) by nia.
    assert (0 <= num_converters lnk * bits_per_sample lnk) by nia.
    assert (num_converters lnk * bits_per_sample lnk * n <= 255 * 255 * 80) by nia. nia.
Qed.

Lemma rate_num_nonneg lnk n d :
  link_wf lnk -> encoding lnk = Some (n, d) -> 0 <= rate_num lnk n.
Proof.
  intros (Hs & _ & _ & HM & _ & _ & _ & HB & _) H%encoding_cases. unfold rate_num, uint in *.
  repeat apply Z.mul_nonneg_nonneg; lia.
Qed.

Lemma rate_bound lnk n d :
  link_wf lnk -> jesd204_link_validate_params lnk = 0 -> encoding lnk = Some (n, d) ->
  rate_num lnk n < 2 ^ 64 -> 0 <= rate_num lnk n / rate_den lnk d < 2 ^ 61.
Proof.
  intros Hwf Hval Henc Hov. pose proof (rate_den_range lnk n d Hwf Hval Henc) as Hden.
  pose proof (rate_num_nonneg lnk n d Hwf Henc).
  pose proof (encoding_cases lnk n d Henc).
  split; [apply Z.div_pos; lia |]. apply Z.div_lt_upper_bound; [lia |].
  assert (8 * 2 ^ 61 <= rate_den lnk d * 2 ^ 61) by nia. lia.
Qed.

(** For link parameters that pass the validation and a known encoding
    n/d, and as long as M N' n fs fits 64 bits, the lane rate is the exact
    quotient M N' n fs / (L d div) rounded down, the rate in kHz is that
    quotient rounded to the nearest, and the device clock is the lane rate over
    40, 66 or 80 with a single rounding of the whole quotient. *)
Theorem jesd204_rates_correct long_bits lnk n d :
  link_wf lnk -> jesd204_link_validate_params lnk = 0 -> encoding lnk = Some (n, d) ->
  rate_num lnk n < 2 ^ 64 ->
  jesd204_link_get_rate lnk = Done (0, Some (rate_num lnk n / rate_den lnk d)) /\
  jesd204_link_get_rate_khz long_bits lnk =
    Done (0, Some (wrap long_bits ((rate_num lnk n / rate_den lnk d + 500) / 1000))) /\
  exists c, clock_div lnk = Some c /\ (c = 40 \/ c = n) /\
    jesd204_link_get_device_clock long_bits lnk =
      Done (0, Some (wrap long_bits (rate_num lnk n / (rate_den lnk d * c)))).
Proof.
  intros Hwf Hval Henc Hov. pose proof (get_rate_run lnk n d Hwf Hval Henc Hov) as Hr.
  pose proof (rate_bound lnk n d Hwf Hval Henc Hov) as Hb.
  pose proof (rate_den_range lnk n d Hwf Hval Henc) as Hd.
  destruct (clock_div_some lnk n d Henc) as (c & Hc & Hc').
  splits; [done | |].
  - unfold jesd204_link_get_rate_khz. rewrite Hr. cbn -[Z.pow Z.div].
    rewrite (wrap_small 64) by (change (1000 / 2) with 500; unfold uint; lia). done.
  - exists c. splits; [done | |].
    + revert Hc Henc. unfold clock_div, encoding. repeat des_if; intros; simplify_eq; auto.
    + unfold jesd204_link_get_device_clock. rewrite Hr. cbn -[Z.pow Z.div no_os_do_div].
      rewrite Hc, no_os_do_div_done by lia. cbn -[Z.pow Z.div].
      rewrite Z.div_div by (pose proof (encoding_cases lnk n d Henc); lia). done.
Qed.

Definition link_9680 : jesd204_link :=
  Link 0 0 1000000000 0 false 4 2 1 32 1 16 14 0 1 1 0 0 1 0 0 2 1 None (Sysref 1 0 0 0) 0 0 0.

Lemma jesd204_rates_correct_witness :
  jesd204_link_get_rate link_9680 = Done (0, Some 10000000000).
Proof.
  refine (proj1 (jesd204_rates_correct 64 link_9680 10 8 _ _ _ _)).
  - unfold link_wf, uint. simpl. lia.
  - reflexivity.
  - reflexivity.
  - reflexivity.
Defined.

(** The standard's relations between the parameters of a link: F octets hold
    the samples of a frame, and with the 64-bit encodings an extended
    multiblock of E multiblocks of 32 blocks of 8 octets is a multiframe. *)
Definition link_octets_ok (lnk : jesd204_link) : Prop :=
  8 * num_lanes lnk * octets_per_frame lnk
  = num_converters lnk * bits_per_sample lnk * samples_per_conv_frame lnk /\
  0 < octets_per_frame lnk /\ 0 < frames_per_multiframe lnk /\ 0 < samples_per_conv_frame lnk.

Definition link_emb_ok (lnk : jesd204_link) : Prop :=
  256 * num_of_multiblocks_in_emb lnk = octets_per_frame lnk * frames_per_multiframe lnk.

(** The frame clock over K: fs / (div S K). *)
Definition frame_clock_over_K (lnk : jesd204_link) : Z :=
  sample_rate lnk
  / (rate_div lnk * samples_per_conv_frame lnk * frames_per_multiframe lnk).

(** The encoding is 8b/10b: [link_emb_ok] does not matter. *)
Definition is_8b10b (lnk : jesd204_link) : bool :=
  negb (jesd_version lnk =? version_code JESD204_VERSION_C)
  || (jesd_encoder lnk =? encoder_code JESD204_ENCODER_8B10B).

(** Two quotients with proportional terms are equal. *)
Lemma div_cross a b c d : 0 < b -> 0 < d -> a * d = c * b -> a / b = c / d.
Proof.
  intros Hb Hd H.
  rewrite <- (Z.div_mul_cancel_r a b d), H, (Z.mul_comm b d), Z.div_mul_cancel_r by lia. done.
Qed.

(** Dividing a rounded quotient instead of the exact one loses less than
    one when the second divisor exceeds the factor. *)
Lemma div_floor_factor a b k e :
  0 <= a -> 0 < b -> 0 < k <= e ->
  (k * a) / (b * e) - 1 <= (k * (a / b)) / e <= (k * a) / (b * e).
Proof.
  intros Ha Hb Hk. rewrite <- Z.div_div by lia.
  pose proof (Z.div_mod a b ltac:(lia)) as E. pose proof (Z.mod_pos_bound a b ltac:(lia)) as M.
  assert (k * (a / b) <= k * a / b) as H1 by (apply Z.div_le_lower_bound; nia).
  assert (k * a / b <= k * (a / b) + k) as H2.
  { apply Z.lt_le_incl, Z.div_lt_upper_bound; [lia |]. nia. }
  split.
  - assert (k * a / b / e <= (k * (a / b) + k) / e) by (apply Z.div_le_mono; lia).
    assert ((k * (a / b) + k) / e <= (k * (a / b) + 1 * e) / e) by (apply Z.div_le_mono; lia).
    rewrite Z.div_add in * by lia. lia.
  - apply Z.div_le_mono; lia.
Qed.

(** M N' n S fs = 8 L F n fs, which turns every rate into one of frames. *)
Lemma rate_num_frames lnk n :
  link_octets_ok lnk ->
  rate_num lnk n * samples_per_conv_frame lnk
  = 8 * num_lanes lnk * octets_per_frame lnk * n * sample_rate lnk.
Proof. intros (H & _). unfold rate_num. rewrite H. ring. Qed.

Lemma lmfc_8b10b_run long_bits lnk n d :
  link_wf lnk -> jesd204_link_validate_params lnk = 0 -> encoding lnk = Some (n, d) ->
  rate_num lnk n < 2 ^ 64 -> is_8b10b lnk = true ->
  octets_per_frame lnk * frames_per_multiframe lnk <> 0 ->
  jesd204_link_get_lmfc_lemc_rate long_bits lnk
  = Done (0, Some (wrap long_bits
      (rate_num lnk n / rate_den lnk d
       / (10 * octets_per_frame lnk * frames_per_multiframe lnk)))).
Proof.
  intros Hwf Hval Henc Hov H8 HFK. pose proof (get_rate_run lnk n d Hwf Hval Henc Hov) as Hr.
  unfold jesd204_link_get_lmfc_lemc_rate. rewrite Hr. cbn -[Z.pow Z.div no_os_do_div].
  assert (10 * octets_per_frame lnk * frames_per_multiframe lnk <> 0) by nia.
  unfold is_8b10b in H8. revert H8. cbn -[Z.pow Z.div no_os_do_div].
  destruct (Z.eqb_spec (jesd_version lnk) 2); simpl.
  - intros ->%Z.eqb_eq. cbn -[Z.pow Z.div no_os_do_div Z.mul].
    by rewrite no_os_do_div_done.
  - by rewrite no_os_do_div_done.
Qed.

(** What remains when the encoding is not 8b/10b. *)
Lemma enc64_cases lnk n d :
  encoding lnk = Some (n, d) -> is_8b10b lnk = false ->
  jesd_version lnk = 2 /\ d = 64 /\
  ((jesd_encoder lnk = 2 /\ n = 66) \/ (jesd_encoder lnk = 3 /\ n = 80)).
Proof.
  unfold encoding, is_8b10b. simpl.
  destruct (Z.eqb_spec (jesd_version lnk) 2), (Z.eqb_spec (jesd_encoder lnk) 2),
    (Z.eqb_spec (jesd_encoder lnk) 1), (Z.eqb_spec (jesd_encoder lnk) 3);
    simpl; intros; simplify_eq; auto.
Qed.

Lemma lmfc_64b_run long_bits lnk n d :
  link_wf lnk -> jesd204_link_validate_params lnk = 0 -> encoding lnk = Some (n, d) ->
  rate_num lnk n < 2 ^ 64 -> is_8b10b lnk = false ->
  octets_per_frame lnk * frames_per_multiframe lnk <> 0 ->
  jesd204_link_get_lmfc_lemc_rate long_bits lnk
  = Done (0, Some (wrap long_bits
      (if truthy (num_of_multiblocks_in_emb lnk)
       then rate_num lnk n / rate_den lnk d / (n * 32 * num_of_multiblocks_in_emb lnk)
       else 8 * (rate_num lnk n / rate_den lnk d)
            / (n * (octets_per_frame lnk * frames_per_multiframe lnk))))).
Proof.
  intros Hwf Hval Henc Hov H8 HFK. pose proof (get_rate_run lnk n d Hwf Hval Henc Hov) as Hr.
  pose proof (rate_bound lnk n d Hwf Hval Henc Hov) as Hb.
  pose proof (enc64_cases lnk n d Henc H8) as (Hv & -> & Hn).
  destruct Hwf as (_ & _ & _ & _ & HF & HK & HE8 & _). unfold uint in *.
  assert (0 < octets_per_frame lnk * frames_per_multiframe lnk <= 255 * 65535) by nia.
  unfold jesd204_link_get_lmfc_lemc_rate. rewrite Hr, Hv. cbn -[Z.pow Z.div no_os_do_div].
  assert (exists bkw, n = bkw /\ (bkw = 66 \/ bkw = 80) /\
    ((jesd_encoder lnk =? 2) || (jesd_encoder lnk =? 3) = true) /\
    (if jesd_encoder lnk =? 3 then 80 else 66) = bkw) as (bkw & -> & Hbkw & -> & ->).
  { destruct Hn as [[-> ->] | [-> ->]]; eexists; splits; by auto. }
  unfold truthy. destruct (Z.eqb_spec (num_of_multiblocks_in_emb lnk) 0) as [HE | HE];
    cbn -[Z.pow Z.div no_os_do_div Z.mul wrap].
  - rewrite <- Z.mul_assoc, (Z.mul_comm _ 8), !wrap_small by (unfold uint; lia).
    by rewrite no_os_do_div_done by lia.
  - rewrite (wrap_small 32) by (unfold uint; lia).
    by rewrite no_os_do_div_done by lia.
Qed.

(** With link parameters that agree with each other as the standard
    requires, the LMFC (or LEMC) rate that is computed from the lane rate, the
    encoding and the block sizes is the frame clock over K, fs / (div S K)
    rounded down, for every encoding; only a 64-bit encoding with no E given
    may round once more, and then the result is at most one less. *)
Theorem jesd204_lmfc_frame_clock long_bits lnk n d :
  link_wf lnk -> jesd204_link_validate_params lnk = 0 -> encoding lnk = Some (n, d) ->
  rate_num lnk n < 2 ^ 64 -> link_octets_ok lnk ->
  (is_8b10b lnk = true \/ num_of_multiblocks_in_emb lnk = 0 \/ link_emb_ok lnk) ->
  exists r, jesd204_link_get_lmfc_lemc_rate long_bits lnk = Done (0, Some (wrap long_bits r)) /\
    if negb (is_8b10b lnk) && (num_of_multiblocks_in_emb lnk =? 0)
    then frame_clock_over_K lnk - 1 <= r <= frame_clock_over_K lnk
    else r = frame_clock_over_K lnk.
Proof.
  intros Hwf Hval Henc Hov Hoct Hemb.
  pose proof (rate_num_frames lnk n Hoct) as Hfr. destruct Hoct as (_ & HF & HK & HS).
  pose proof (rate_den_range lnk n d Hwf Hval Henc) as Hden.
  pose proof (encoding_cases lnk n d Henc) as Hc. pose proof (rate_div_pos lnk Hwf) as Hdiv.
  pose proof (rate_num_nonneg lnk n d Hwf Henc) as Hnum.
  assert (octets_per_frame lnk * frames_per_multiframe lnk <> 0) as HFK by nia.
  assert (rate_num lnk n
          * (rate_div lnk * samples_per_conv_frame lnk * frames_per_multiframe lnk)
          = sample_rate lnk * (8 * num_lanes lnk * rate_div lnk * n)
            * (octets_per_frame lnk * frames_per_multiframe lnk)) as Hx.
  { transitivity (rate_num lnk n * samples_per_conv_frame lnk
                  * (rate_div lnk * frames_per_multiframe lnk)); [ring |]. rewrite Hfr. ring. }
  unfold frame_clock_over_K.
  destruct (is_8b10b lnk) eqn:H8; cbn [negb andb].
  - eexists. split; [by apply (lmfc_8b10b_run long_bits lnk n d) |].
    assert (n = 10 /\ d = 8) as [-> ->].
    { revert Henc H8. unfold encoding, is_8b10b. simpl.
      destruct (Z.eqb_spec (jesd_version lnk) 2), (Z.eqb_spec (jesd_encoder lnk) 2),
        (Z.eqb_spec (jesd_encoder lnk) 1), (Z.eqb_spec (jesd_encoder lnk) 3);
        simpl; intros; simplify_eq; (done || lia). }
    rewrite Z.div_div by nia. apply div_cross; [nia | nia |].
    rewrite Hx. unfold rate_den. ring.
  - pose proof (enc64_cases lnk n d Henc H8) as (_ & -> & Hn).
    eexists. split; [by apply (lmfc_64b_run long_bits lnk n 64) |].
    unfold truthy. destruct (Z.eqb_spec (num_of_multiblocks_in_emb lnk) 0) as [HE | HE]; simpl.
    + set (e := n * (octets_per_frame lnk * frames_per_multiframe lnk)) in *.
      assert (8 <= e) by (unfold e; nia).
      replace (sample_rate lnk / (rate_div lnk * samples_per_conv_frame lnk * frames_per_multiframe lnk))
        with ((8 * rate_num lnk n) / (rate_den lnk 64 * e)).
      { apply div_floor_factor; lia. }
      apply div_cross; [nia | nia |].
      rewrite <- Z.mul_assoc, Hx. unfold rate_den, e. ring.
    + destruct Hemb as [Hemb | [Hemb | Hemb]]; [done | done |]. unfold link_emb_ok in Hemb.
      assert (0 < num_of_multiblocks_in_emb lnk) by nia.
      rewrite Z.div_div by nia. apply div_cross; [nia | nia |].
      rewrite Hx, <- Hemb. unfold rate_den. ring.
Qed.

Definition link_64b66b : jesd204_link :=
  Link 0 0 2000000000 0 false 4 8 4 64 1 16 16 2 2 1 0 0 1 0 0 0 1 None (Sysref 1 0 0 0) 0 0 0.

Lemma jesd204_lmfc_frame_clock_witness :
  exists r, jesd204_link_get_lmfc_lemc_rate 64 link_64b66b = Done (0, Some (wrap 64 r)) /\
    r = 31250000.
Proof.
  refine (jesd204_lmfc_frame_clock 64 link_64b66b 66 64 _ _ _ _ _ _).
  - unfold link_wf, uint. simpl. lia.
  - reflexivity.
  - reflexivity.
  - reflexivity.
  - unfold link_octets_ok. simpl. lia.
  - right; right. unfold link_emb_ok. reflexivity.
Defined.

(** ** The state machine: theorems

    A view is what the state machine reads of the memory: it stays the same
    when the callbacks leave the topology alone.  [v_drv] is the driver data
    of each device. *)

Record tview : Type := TView {
  v_topo : positive;
  v_dtop : positive;
  v_tdp : positive;
  v_devs : list jesd204_topology_dev;
  v_top : jesd204_dev_top;
  v_drv : positive -> positive
}.

Definition n_devs (V : tview) : Z := Z.of_nat (length (v_devs V)).

Record tview_ok (V : tview) : Prop := TViewOk {
  ok_devs : n_devs V <= 16;
  ok_dev : forall i td, v_devs V !! i = Some td ->
    is_Some (td_jdev td) /\ length (link_ids td) = 16%nat /\ 0 <= links_number td <= 16;
  ok_top : is_Some (top_jdev (v_top V));
  ok_links : is_Some (active_links (v_top V));
  ok_ids : length (top_link_ids (v_top V)) = 16%nat;
  ok_num : 0 <= num_links (v_top V) <= 16
}.

(** The devices of a topology: the top device and the others by index. *)
Inductive who : Type := Top | Sub (dev : Z).

Inductive call : Type :=
  | CallDevice (w : who)
  | CallLink (w : who) (lnk : Z)
  | CallSysref.

#[export] Instance who_eq_dec : EqDecision who.
Proof. solve_decision. Defined.
#[export] Instance call_eq_dec : EqDecision call.
Proof. solve_decision. Defined.

Definition zlookup {A} (l : list A) (i : Z) : option A :=
  if i <? 0 then None else l !! Z.to_nat i.

Definition who_jdev (V : tview) (w : who) : ptr :=
  match w with
  | Top => top_jdev (v_top V)
  | Sub dev => zlookup (v_devs V) dev ≫= td_jdev
  end.

Record topo_view {W} (V : tview) (m : jmem W) : Prop := TopoView {
  view_topo : cells (jtops m) !! v_topo V
              = Some (Topo (Some (v_dtop V)) (Some (v_tdp V)) (n_devs V));
  view_dtop : cells (jdtops m) !! v_dtop V = Some (v_top V);
  view_devs : cells (jtdevs m) !! v_tdp V = Some (v_devs V);
  view_jdev : forall w p, who_jdev V w = Some p ->
    exists d, cells (jdevs m) !! p = Some d /\ dev_data d = Some (v_drv V p)
}.

(** Link [k] of device [dev] is the top device's link [l]. *)
Definition match_at (V : tview) (dev l k : Z) : bool :=
  match zlookup (v_devs V) dev with
  | Some td => bool_decide (zlookup (link_ids td) k = zlookup (top_link_ids (v_top V)) l)
  | None => false
  end.

(** How many links of device [dev] are the top device's link [l]. *)
Definition matches (V : tview) (dev l : Z) : nat :=
  match zlookup (v_devs V) dev with
  | Some td => length (filter (fun k => match_at V dev l k = true) (seqZ 0 (links_number td)))
  | None => 0
  end.

(** The device has one of the links. *)
Definition seen (V : tview) (dev : Z) (ls : list Z) : bool :=
  existsb (fun l => negb (matches V dev l =? 0)%nat) ls.

Section plan.
  Context {W : Type} (driver : positive -> jesd204_dev_data W) (V : tview).

Definition ops_of (w : who) (op : jesd204_dev_op) : jesd204_state_op W :=
  match who_jdev V w with
  | Some p => state_ops (driver (v_drv V p)) op
  | None => StateOp JESD204_STATE_OP_MODE_PER_LINK None None false
  end.

Definition has_device (w : who) (op : jesd204_dev_op) : bool :=
  bool_decide (is_Some (per_device (ops_of w op))).
Definition has_link (w : who) (op : jesd204_dev_op) : bool :=
  bool_decide (is_Some (per_link (ops_of w op))).

Definition exec_call (reason : jesd204_state_op_reason) (op : jesd204_dev_op) (c : call) :
  cmd (jmem W) unit :=
  match c with
  | CallDevice w =>
      match per_device (ops_of w op) with
      | Some f => _ ← f (who_jdev V w) reason; mret tt
      | None => mret tt
      end
  | CallLink w l =>
      match per_link (ops_of w op) with
      | Some f => _ ← f (who_jdev V w) reason (active_links (v_top V), l); mret tt
      | None => mret tt
      end
  | CallSysref => _ ← jesd204_sysref_async driver (top_jdev (v_top V)); mret tt
  end.

Fixpoint exec_calls (reason : jesd204_state_op_reason) (op : jesd204_dev_op) (cs : list call) :
  cmd (jmem W) unit :=
  match cs with
  | [] => mret tt
  | c :: cs => _ ← exec_call reason op c; exec_calls reason op cs
  end.

(** The calls of a plan for each element of a list, given those before it. *)
Fixpoint plan_over (f : list Z -> Z -> list call) (before idxs : list Z) : list call :=
  match idxs with
  | [] => []
  | i :: idxs => f before i ++ plan_over f (before ++ [i]) idxs
  end.

(** The calls of device [dev] for link [l] after the links of [before]: its
    device callback if none of those was its own, and its link callback. *)
Definition dev_calls (op : jesd204_dev_op) (before : list Z) (l dev : Z) : list call :=
  (if has_device (Sub dev) op && negb (seen V dev before) && (0 <? matches V dev l)%nat
   then [CallDevice (Sub dev)] else [])
  ++ (if has_link (Sub dev) op then replicate (matches V dev l) (CallLink (Sub dev) l) else []).

Definition sysref_calls (op : jesd204_dev_op) : list call :=
  if post_state_sysref (ops_of Top op) then [CallSysref] else [].

Definition top_link_calls (op : jesd204_dev_op) (l : Z) : list call :=
  if has_link Top op then [CallLink Top l] else [].
Definition top_device_calls (op : jesd204_dev_op) : list call :=
  if has_device Top op then [CallDevice Top] else [].

(** The plans of one operation. *)
Definition start_plan (op : jesd204_dev_op) : list call :=
  plan_over (fun before l =>
      plan_over (fun _ dev => dev_calls op before l dev) [] (seqZ 0 (n_devs V))
      ++ top_link_calls op l ++ (if has_link Top op then sysref_calls op else []))
    [] (seqZ 0 (num_links (v_top V)))
  ++ top_device_calls op ++ (if has_device Top op then sysref_calls op else []).

Definition stop_plan (op : jesd204_dev_op) : list call :=
  top_device_calls op
  ++ plan_over (fun before l =>
       top_link_calls op l
       ++ plan_over (fun _ dev => dev_calls op before l dev) [] (reverse (seqZ 0 (n_devs V))))
     [] (reverse (seqZ 0 (num_links (v_top V)))).

Fixpoint exec_plan (reason : jesd204_state_op_reason) (plan : jesd204_dev_op -> list call)
    (ops : list jesd204_dev_op) : cmd (jmem W) unit :=
  match ops with
  | [] => mret tt
  | op :: ops => _ ← exec_calls reason op (plan op); exec_plan reason plan ops
  end.

(** The callbacks leave the view as it is. *)
Definition preserves_view : Prop :=
  forall reason op c m m', topo_view V m ->
    exec_call reason op c m = Done (tt, m') -> topo_view V m'.
End plan.

Lemma zlookup_Some {A} (l : list A) i x : zlookup l i = Some x -> 0 <= i < Z.of_nat (length l).
Proof.
  unfold zlookup. destruct (Z.ltb_spec i 0); [done |]. intros ?%lookup_lt_Some. lia.
Qed.

Lemma zlookup_is_Some {A} (l : list A) i :
  0 <= i < Z.of_nat (length l) -> exists x, zlookup l i = Some x /\ l !! Z.to_nat i = Some x.
Proof.
  intros Hi. unfold zlookup. destruct (Z.ltb_spec i 0); [lia |].
  destruct (lookup_lt_is_Some_2 l (Z.to_nat i)) as [x Hx]; [lia |]. by exists x.
Qed.

Section runs.
  Context {W : Type} (driver : positive -> jesd204_dev_data W) (V : tview).
  Context (HV : tview_ok V) (Hpres : preserves_view driver V).
  Context (r : jesd204_state_op_reason) (op : jesd204_dev_op).

(** In every memory with the view, [c] makes the calls [cs] and returns [a]. *)
Definition runs {A} (c : cmd (jmem W) A) (cs : list call) (a : A) : Prop :=
  forall m, topo_view V m ->
    c m = (exec_calls driver V r op cs ≫= fun _ => mret a) m.

Lemma exec_calls_view cs m m' u :
  topo_view V m -> exec_calls driver V r op cs m = Done (u, m') -> topo_view V m'.
Proof using Hpres.
  revert m. induction cs as [| c cs IH]; intros m Hm.
  - by intros [= <- <-].
  - intros ([] & m1 & H1 & H2)%bind_inv. apply IH in H2; [done |]. by eapply Hpres.
Qed.

Lemma exec_calls_app cs cs' m :
  exec_calls driver V r op (cs ++ cs') m
  = (exec_calls driver V r op cs ≫= fun _ => exec_calls driver V r op cs') m.
Proof.
  revert m. induction cs as [| c cs IH]; intros m; simpl; [done |].
  rewrite bind_assoc. unfold mbind, cmd_bind in *. destruct (exec_call _ _ _ _ _ m) as [[]| |]; auto.
Qed.

Lemma runs_ret {A} (a : A) : runs (mret a) [] a.
Proof. by intros m Hm. Qed.

Lemma runs_bind {A B} (c : cmd (jmem W) A) (k : A -> cmd (jmem W) B) cs cs' a b :
  runs c cs a -> runs (k a) cs' b -> runs (c ≫= k) (cs ++ cs') b.
Proof using Hpres.
  intros Hc Hk m Hm. unfold runs in *. unfold mbind, cmd_bind at 1. rewrite (Hc m Hm).
  unfold mbind, cmd_bind at 2. rewrite exec_calls_app. unfold mbind, cmd_bind.
  destruct (exec_calls driver V r op cs m) as [[[] m1]| |] eqn:E; try done. cbn.
  apply (Hk m1). by eapply exec_calls_view.
Qed.

(** A read that makes no call. *)
Definition reads {A} (c : cmd (jmem W) A) (a : A) : Prop :=
  forall m, topo_view V m -> c m = Done (a, m).

Lemma runs_read {A B} (c : cmd (jmem W) A) (k : A -> cmd (jmem W) B) a cs b :
  reads c a -> runs (k a) cs b -> runs (c ≫= k) cs b.
Proof. intros Hc Hk m Hm. rewrite (bind_done _ _ _ _ _ (Hc m Hm)). by apply Hk. Qed.

Lemma reads_bind {A B} (c : cmd (jmem W) A) (k : A -> cmd (jmem W) B) a b :
  reads c a -> reads (k a) b -> reads (c ≫= k) b.
Proof. intros Hc Hk m Hm. rewrite (bind_done _ _ _ _ _ (Hc m Hm)). by apply Hk. Qed.

Lemma reads_the {A} (o : option A) a : o = Some a -> reads (the o) a.
Proof. by intros -> m Hm. Qed.

Lemma reads_ret {A} (a : A) : reads (mret a) a.
Proof. by intros m Hm. Qed.

Lemma runs_call c : runs (exec_call driver V r op c) [c] tt.
Proof.
  intros m Hm. simpl. unfold mbind, cmd_bind.
  by destruct (exec_call _ _ _ _ _ m) as [[[] ?]| |].
Qed.

(** A callback, whose result is ignored. *)
Definition calls {A} (c : cmd (jmem W) A) (x : call) : Prop :=
  forall m, topo_view V m -> (c ≫= fun _ => mret tt) m = exec_call driver V r op x m.

Lemma runs_calls {A B} (c : cmd (jmem W) A) (k : A -> cmd (jmem W) B) x cs b :
  calls c x -> (forall z, runs (k z) cs b) -> runs (c ≫= k) (x :: cs) b.
Proof using Hpres.
  intros Hc Hk m Hm. specialize (Hc m Hm). revert Hc.
  cbn [exec_calls]. rewrite bind_assoc. unfold mbind, cmd_bind.
  destruct (c m) as [[z m1]| |]; intros Hc; rewrite <- Hc; cbn; [| done..].
  apply Hk. by eapply Hpres.
Qed.

Lemma calls_device w f :
  per_device (ops_of driver V w op) = Some f -> calls (f (who_jdev V w) r) (CallDevice w).
Proof. intros Hf m Hm. simpl. by rewrite Hf. Qed.

Lemma calls_link w f l :
  per_link (ops_of driver V w op) = Some f ->
  calls (f (who_jdev V w) r (active_links (v_top V), l)) (CallLink w l).
Proof. intros Hf m Hm. simpl. by rewrite Hf. Qed.

Lemma calls_sysref : calls (jesd204_sysref_async driver (top_jdev (v_top V))) CallSysref.
Proof. done. Qed.

(** *** Loops *)

(** [st before] is the state of the loop after the indices of [before]. *)
Lemma runs_for_each body (f : list Z -> Z -> list call) st before idxs :
  (forall pre i post, before ++ idxs = pre ++ i :: post -> (length before <= length pre)%nat ->
     runs (body i (st pre)) (f pre i) (st (pre ++ [i]))) ->
  runs (for_each idxs body (st before)) (plan_over f before idxs) (st (before ++ idxs)).
Proof using Hpres.
  revert before. induction idxs as [| i idxs IH]; intros before H; simpl.
  - rewrite app_nil_r. apply runs_ret.
  - apply (runs_bind _ _ _ _ (st (before ++ [i]))); [by eapply H |].
    replace (before ++ i :: idxs) with ((before ++ [i]) ++ idxs) by by rewrite <- app_assoc.
    apply IH. intros pre j post E Hl. rewrite length_app in Hl.
    apply (H pre j post); [by rewrite <- E, <- app_assoc | lia].
Qed.

Lemma runs_for_below_from bound n fuel i body (f : list Z -> Z -> list call) st before :
  reads bound n -> i <= n -> n - i < Z.of_nat fuel ->
  (forall pre j post, before ++ seqZ i (n - i) = pre ++ j :: post ->
     (length before <= length pre)%nat ->
     runs (body j (st pre)) (f pre j) (st (pre ++ [j]))) ->
  runs (for_below_from fuel i bound body (st before)) (plan_over f before (seqZ i (n - i)))
       (st (before ++ seqZ i (n - i))).
Proof using Hpres.
  intros Hb. revert i before.
  induction fuel as [| fuel IH]; intros i before Hi Hn H; cbn [for_below_from]; [lia |].
  apply (runs_read _ _ n); [done |]. destruct (Z.ltb_spec i n) as [Hlt | Hge].
  - rewrite (seqZ_cons i) in * by lia. replace (Z.succ i) with (i + 1) in * by lia.
    replace (Z.pred (n - i)) with (n - (i + 1)) in * by lia. cbn [plan_over].
    apply (runs_bind _ _ _ _ (st (before ++ [i]))); [by eapply H |].
    replace (before ++ i :: seqZ (i + 1) (n - (i + 1)))
      with ((before ++ [i]) ++ seqZ (i + 1) (n - (i + 1))) by by rewrite <- app_assoc.
    apply IH; [lia | lia |]. intros pre j post E Hl. rewrite length_app in Hl.
    apply (H pre j post); [by rewrite <- E, <- app_assoc | lia].
  - rewrite seqZ_nil by lia. simpl. rewrite app_nil_r. apply runs_ret.
Qed.

(** What both kinds of loop promise: the body runs for the indices of
    [idxs n] in their order, [n] being what the bound reads. *)
Definition loop_ok (loop : loop_cmd) (idxs : Z -> list Z) : Prop :=
  forall bound n body f st,
    reads bound n -> 0 <= n <= 16 ->
    (forall pre i post, idxs n = pre ++ i :: post ->
       runs (body i (st pre)) (f pre i) (st (pre ++ [i]))) ->
    runs (loop bound body (st [])) (plan_over f [] (idxs n)) (st (idxs n)).

Definition upto (n : Z) : list Z := seqZ 0 n.
Definition downto (n : Z) : list Z := reverse (seqZ 0 n).

Lemma for_below_ok fuel : (16 < fuel)%nat -> loop_ok (for_below fuel) upto.
Proof using Hpres.
  intros Hf bound n body f st Hb Hn H. unfold for_below, upto in *.
  pose proof (runs_for_below_from bound n fuel 0 body f st []) as R.
  rewrite Z.sub_0_r in R. apply R; [done | lia | lia |].
  intros pre j post E _. by apply (H pre j post).
Qed.

Lemma for_down_ok : loop_ok for_down downto.
Proof using Hpres.
  intros bound n body f st Hb Hn H. unfold for_down, downto in *.
  apply (runs_read _ _ n); [done |].
  rewrite swrap_small by ulia. replace (n - 1 + 1) with n by lia.
  apply (runs_for_each _ _ _ []). intros pre i post E _. by apply (H pre i post).
Qed.

(** *** Reads *)

Abbreviation topology_p := (Some (v_topo V)).
Abbreviation dtop_p := (Some (v_dtop V)).

Lemma reads_topo : reads (load_topo topology_p) (Topo dtop_p (Some (v_tdp V)) (n_devs V)).
Proof.
  intros m [H _ _ _]. unfold load_topo, on_jtops. erewrite zoom_done by by apply hload_done.
  by destruct m.
Qed.

Lemma reads_dtop : reads (load_dtop dtop_p) (v_top V).
Proof.
  intros m [_ H _ _]. unfold load_dtop, on_jdtops. erewrite zoom_done by by apply hload_done.
  by destruct m.
Qed.

Lemma reads_topo_dev dev td :
  zlookup (v_devs V) dev = Some td -> reads (topo_dev topology_p dev) td.
Proof.
  intros Hd. apply (reads_bind _ _ _ _ reads_topo). cbn [topo_devs].
  apply (reads_bind _ _ (v_devs V)).
  - intros m [_ _ H _]. unfold on_jtdevs. erewrite zoom_done by by apply hload_done.
    by destruct m.
  - by apply reads_the.
Qed.

Lemma reads_data w p :
  who_jdev V w = Some p -> reads (data_of driver (Some p)) (driver (v_drv V p)).
Proof.
  intros Hw m Hm. destruct (view_jdev V m Hm w p Hw) as (d & Hd & Hdd).
  unfold data_of. rewrite (bind_done _ _ _ d m).
  - rewrite Hdd. done.
  - unfold load_jdev, on_jdevs. erewrite zoom_done by by apply hload_done. by destruct m.
Qed.

Lemma ops_of_jdev w p :
  who_jdev V w = Some p -> ops_of driver V w op = state_ops (driver (v_drv V p)) op.
Proof. intros Hw. unfold ops_of. by rewrite Hw. Qed.

Lemma reads_link_at l : reads (link_at dtop_p l) (active_links (v_top V), l).
Proof.
  apply (reads_bind _ _ _ _ reads_dtop). destruct (ok_links V HV) as [p Hp].
  apply (reads_bind _ _ p); [by apply reads_the |]. apply reads_ret.
Qed.

Lemma reads_link_id l id :
  zlookup (top_link_ids (v_top V)) l = Some id -> reads (top_link_id dtop_p l) id.
Proof. intros Hl. apply (reads_bind _ _ _ _ reads_dtop). by apply reads_the. Qed.

Lemma sub_jdev dev td :
  zlookup (v_devs V) dev = Some td ->
  exists p, td_jdev td = Some p /\ who_jdev V (Sub dev) = Some p.
Proof.
  intros Hd. assert (Hd' := Hd). unfold zlookup in Hd'. destruct (dev <? 0) eqn:E; [done |].
  destruct (ok_dev V HV _ td Hd') as ([p Hp] & _). exists p. split; [done |].
  simpl. rewrite Hd. done.
Qed.

(** The link callback of a device, if there is one. *)
Lemma runs_opt_link {B} w p l (k : Z -> cmd (jmem W) B) cs b :
  who_jdev V w = Some p -> (forall z, runs (k z) cs b) ->
  runs (match per_link (state_ops (driver (v_drv V p)) op) with
        | None => mret 0
        | Some f => lnk ← link_at dtop_p l; f (Some p) r lnk
        end ≫= k)
       ((if has_link driver V w op then [CallLink w l] else []) ++ cs) b.
Proof using HV Hpres.
  intros Hw Hk. unfold has_link. rewrite (ops_of_jdev w p Hw).
  destruct (per_link _) as [f |] eqn:Hf.
  - rewrite bool_decide_true by done.
    intros m Hm. rewrite bind_assoc. revert m Hm.
    apply (runs_read _ _ _ _ _ (reads_link_at l)). apply runs_calls; [| done].
    rewrite <- Hw. apply calls_link. by rewrite (ops_of_jdev w p Hw).
  - rewrite bool_decide_false by by intros []. simpl.
    by apply (runs_read _ _ _ _ _ (reads_ret 0)).
Qed.

(** *** The flags *)

(** [per_device_op_done] when [g] tells whose callback was called. *)
Definition flags (g : Z -> bool) : list bool := g <$> seqZ 0 (n_devs V).

Lemma flags_ext g g' :
  (forall dev, 0 <= dev < n_devs V -> g dev = g' dev) -> flags g = flags g'.
Proof.
  intros H. apply list_fmap_ext. intros i dev (-> & Hi)%lookup_seqZ. apply H. lia.
Qed.

Lemma flags_get g dev : 0 <= dev < n_devs V -> get_done (flags g) dev = Some (g dev).
Proof.
  intros Hd. unfold get_done, flags. destruct (Z.ltb_spec dev 0); [lia |].
  rewrite list_lookup_fmap. rewrite lookup_seqZ_lt by lia. simpl. do 2 f_equal. lia.
Qed.

Lemma flags_set g dev b :
  0 <= dev < n_devs V ->
  <[Z.to_nat dev := b]> (flags g) = flags (fun d => if d =? dev then b else g d).
Proof.
  intros Hd. apply list_eq. intros i. unfold flags.
  rewrite list_lookup_insert, length_fmap, length_seqZ, !list_lookup_fmap.
  destruct (decide (i < Z.to_nat (n_devs V))%nat) as [Hi | Hi].
  - rewrite lookup_seqZ_lt by lia. simpl.
    destruct (Z.eqb_spec (0 + Z.of_nat i) dev); case_decide; (done || lia).
  - rewrite lookup_seqZ_ge by lia. rewrite decide_False by lia. done.
Qed.

Lemma flags_init : flags (fun _ => false) = replicate (Z.to_nat (n_devs V)) false.
Proof.
  apply list_eq. intros i. unfold flags. rewrite list_lookup_fmap.
  destruct (decide (i < Z.to_nat (n_devs V))%nat).
  - rewrite lookup_seqZ_lt by lia. rewrite lookup_replicate_2 by lia. done.
  - rewrite lookup_seqZ_ge by lia. symmetry. apply lookup_replicate_None. lia.
Qed.

(** *** One device and one link *)

Lemma runs_flags c cs g g' :
  runs c cs (flags g) -> (forall dev, 0 <= dev < n_devs V -> g dev = g' dev) ->
  runs c cs (flags g').
Proof. intros Hc H. by rewrite <- (flags_ext g g'). Qed.

Lemma runs_dev_link dev td l g :
  zlookup (v_devs V) dev = Some td ->
  runs (fsm_dev_link driver topology_p dtop_p r op dev l (flags g))
    ((if has_device driver V (Sub dev) op && negb (g dev) then [CallDevice (Sub dev)] else [])
     ++ (if has_link driver V (Sub dev) op then [CallLink (Sub dev) l] else []))
    (flags (fun d => if d =? dev then g d || has_device driver V (Sub dev) op else g d)).
Proof using HV Hpres.
  intros Hd. destruct (sub_jdev dev td Hd) as (p & Hp & Hw).
  pose proof (zlookup_Some _ _ _ Hd) as Hr. fold (n_devs V) in Hr.
  unfold fsm_dev_link. apply (runs_read _ _ td); [by apply reads_topo_dev |].
  rewrite Hp. apply (runs_read _ _ _ _ _ (reads_data _ _ Hw)).
  apply (runs_bind _ _ _ _ (flags (fun d => if d =? dev then g d || has_device driver V (Sub dev) op else g d))).
  - unfold has_device. rewrite (ops_of_jdev _ _ Hw).
    destruct (per_device _) as [f |] eqn:Hf.
    + rewrite bool_decide_true by done. rewrite flags_get by lia. cbn [andb].
      apply (runs_read _ _ (g dev)); [by apply reads_the |].
      destruct (g dev) eqn:Hg; cbn [negb].
      * eapply runs_flags; [apply runs_ret |].
        intros d _. destruct (Z.eqb_spec d dev) as [-> |]; [by rewrite Hg | done].
      * apply runs_calls.
        -- rewrite <- Hw. apply calls_device. by rewrite (ops_of_jdev _ _ Hw).
        -- intros _. rewrite flags_set by lia. eapply runs_flags; [apply runs_ret |].
           intros d _. cbn. destruct (d =? dev); by rewrite ?orb_true_r.
    + rewrite bool_decide_false by by intros []. cbn [andb].
      eapply runs_flags; [apply runs_ret |].
      intros d _. destruct (d =? dev); by rewrite ?orb_false_r.
  - rewrite <- (app_nil_r (if has_link driver V (Sub dev) op then _ else _)).
    apply (runs_read _ _ td); [by apply reads_topo_dev |].
    rewrite Hp. apply (runs_read _ _ _ _ _ (reads_data _ _ Hw)).
    apply runs_opt_link; [done |]. intros _. apply runs_ret.
Qed.

Lemma runs_lnk_dev dev td l k g :
  zlookup (v_devs V) dev = Some td -> 0 <= l < num_links (v_top V) -> 0 <= k < links_number td ->
  runs (fsm_lnk_dev driver topology_p dtop_p r op dev l k (flags g))
    (if match_at V dev l k then
       (if has_device driver V (Sub dev) op && negb (g dev) then [CallDevice (Sub dev)] else [])
       ++ (if has_link driver V (Sub dev) op then [CallLink (Sub dev) l] else [])
     else [])
    (flags (fun d => if (d =? dev) && match_at V dev l k
                     then g d || has_device driver V (Sub dev) op else g d)).
Proof using HV Hpres.
  intros Hd Hl Hk. assert (Hd' := Hd). unfold zlookup in Hd'. destruct (dev <? 0) eqn:E; [done |].
  destruct (ok_dev V HV _ td Hd') as (_ & Hlen & Hnum).
  destruct (zlookup_is_Some (link_ids td) k) as (a & Ha & _); [lia |].
  destruct (zlookup_is_Some (top_link_ids (v_top V)) l) as (b & Hb & _).
  { pose proof (ok_ids V HV). pose proof (ok_num V HV). lia. }
  unfold fsm_lnk_dev. apply (runs_read _ _ td); [by apply reads_topo_dev |].
  apply (runs_read _ _ a); [by apply reads_the |].
  apply (runs_read _ _ b); [by apply reads_link_id |].
  unfold match_at. rewrite Hd, Ha, Hb.
  destruct (Z.eqb_spec a b) as [-> | Hab].
  - rewrite bool_decide_true by done.
    eapply runs_flags; [by apply (runs_dev_link dev td) |]. intros d _. simpl. by rewrite andb_true_r.
  - rewrite bool_decide_false by congruence.
    eapply runs_flags; [apply runs_ret |]. intros d _. by rewrite andb_false_r.
Qed.

(** The calls for the links of one device: the device callback once, if it was
    not called, and the link callback for every match. *)
Lemma plan_over_matches (mt : Z -> bool) b s (D : call) L pre ks :
  plan_over (fun pre k => if mt k
      then (if b && negb (s || existsb mt pre) then [D] else []) ++ L else []) pre ks
  = (if b && negb (s || existsb mt pre)
        && (0 <? length (filter (fun k => mt k = true) ks))%nat then [D] else [])
    ++ concat (replicate (length (filter (fun k => mt k = true) ks)) L).
Proof.
  revert pre. induction ks as [| k ks IH]; intros pre.
  - cbn. by rewrite andb_false_r.
  - cbn [plan_over]. rewrite IH, existsb_app, filter_cons. cbn [existsb].
    rewrite orb_false_r. destruct (mt k) eqn:Hk.
    + rewrite decide_True by done. rewrite !orb_true_r. cbn. rewrite andb_false_r.
      cbn. by rewrite andb_true_r, app_assoc.
    + rewrite decide_False by done. by rewrite orb_false_r.
Qed.

Lemma concat_replicate_if {A} n (b : bool) (x : A) :
  concat (replicate n (if b then [x] else [])) = if b then replicate n x else [].
Proof. induction n as [| n IH]; [by destruct b |]. cbn. rewrite IH. by destruct b. Qed.

Section loops.
  Context (loop : loop_cmd (W := W)) (idxs : Z -> list Z).
  Context (Hloop : loop_ok loop idxs) (Hidxs : forall n, idxs n ≡ₚ seqZ 0 n).

Lemma idxs_range n i : i ∈ idxs n -> 0 <= i < n.
Proof using Hidxs. rewrite Hidxs. intros Hi%elem_of_seqZ. lia. Qed.

Lemma matches_idxs dev l td :
  zlookup (v_devs V) dev = Some td ->
  length (filter (fun k => match_at V dev l k = true) (idxs (links_number td)))
  = matches V dev l.
Proof using Hidxs. intros Hd. unfold matches. by rewrite Hd, Hidxs. Qed.

Lemma seen_snoc dev before l :
  seen V dev (before ++ [l]) = seen V dev before || (0 <? matches V dev l)%nat.
Proof.
  unfold seen. rewrite existsb_app. cbn [existsb]. rewrite orb_false_r. f_equal.
  by destruct (matches V dev l).
Qed.

Lemma existsb_filter (f : Z -> bool) ks :
  existsb f ks = (0 <? length (filter (fun k => f k = true) ks))%nat.
Proof.
  induction ks as [| k ks IH]; [done |]. cbn [existsb]. rewrite IH, filter_cons.
  destruct (f k); [by rewrite decide_True | by rewrite decide_False].
Qed.

Lemma runs_dev dev td l before g :
  zlookup (v_devs V) dev = Some td -> 0 <= l < num_links (v_top V) ->
  g dev = has_device driver V (Sub dev) op && seen V dev before ->
  runs (loop (dev_links_bound topology_p dev)
          (fun k => fsm_lnk_dev driver topology_p dtop_p r op dev l k) (flags g))
    (dev_calls driver V op before l dev)
    (flags (fun d => if d =? dev
                     then has_device driver V (Sub dev) op && seen V dev (before ++ [l])
                     else g d)).
Proof using All.
  intros Hd Hl Hg. set (hd := has_device driver V (Sub dev) op) in *.
  set (st pre := flags (fun d =>
    if d =? dev then g d || (hd && existsb (match_at V dev l) pre) else g d)).
  assert (Hd' := Hd). unfold zlookup in Hd'. destruct (dev <? 0) eqn:E; [done |].
  destruct (ok_dev V HV _ td Hd') as (_ & _ & Hnum).
  unshelve epose proof (Hloop (dev_links_bound topology_p dev) (links_number td)
    (fun k => fsm_lnk_dev driver topology_p dtop_p r op dev l k)
    (fun pre k => if match_at V dev l k
       then (if hd && negb (g dev || existsb (match_at V dev l) pre)
             then [CallDevice (Sub dev)] else [])
            ++ (if has_link driver V (Sub dev) op then [CallLink (Sub dev) l] else [])
       else []) st _ Hnum _) as R.
  - apply (reads_bind _ _ td); [by apply reads_topo_dev | apply reads_ret].
  - intros pre k post Epre. eapply runs_flags.
    + assert (0 <= k < links_number td) as Hk.
      { apply idxs_range. rewrite Epre. set_solver. }
      pose proof (runs_lnk_dev dev td l k (fun d => if d =? dev
        then g d || (hd && existsb (match_at V dev l) pre) else g d) Hd Hl Hk) as R.
      cbv beta in R. fold hd in R. rewrite Z.eqb_refl in R.
      replace (hd && negb (g dev || (hd && existsb (match_at V dev l) pre)))
        with (hd && negb (g dev || existsb (match_at V dev l) pre)) in R by by destruct hd.
      exact R.
    + intros d _. cbn. rewrite existsb_app. cbn [existsb]. fold hd.
      destruct (d =? dev), (match_at V dev l k), (g d), hd, (existsb (match_at V dev l) pre); done.
  - rewrite plan_over_matches, concat_replicate_if, (matches_idxs dev l td Hd) in R.
    cbn [existsb] in R. rewrite orb_false_r in R.
    replace (hd && negb (g dev)) with (hd && negb (seen V dev before)) in R
      by by rewrite Hg; destruct hd.
    eapply runs_flags.
    + replace (flags g) with (st []); [exact R |].
      apply flags_ext. intros d _. cbn. rewrite andb_false_r, orb_false_r. by destruct (d =? dev).
    + intros d _. cbn. destruct (Z.eqb_spec d dev) as [-> |]; [| done].
      rewrite existsb_filter, (matches_idxs dev l td Hd), seen_snoc, Hg.
      by destruct hd, (seen V dev before).
Qed.

Lemma runs_devs l before :
  0 <= l < num_links (v_top V) ->
  runs (fsm_devs driver loop topology_p dtop_p r op l
          (flags (fun d => has_device driver V (Sub d) op && seen V d before)))
    (plan_over (fun _ dev => dev_calls driver V op before l dev) [] (idxs (n_devs V)))
    (flags (fun d => has_device driver V (Sub d) op && seen V d (before ++ [l]))).
Proof using All.
  intros Hl. set (g bf d := has_device driver V (Sub d) op && seen V d bf).
  set (st (pre : list Z) := flags (fun d => g (if bool_decide (d ∈ pre) then before ++ [l] else before) d)).
  unshelve epose proof (Hloop (devs_bound topology_p) (n_devs V)
    (fun dev => loop (dev_links_bound topology_p dev)
       (fun k => fsm_lnk_dev driver topology_p dtop_p r op dev l k))
    (fun _ dev => dev_calls driver V op before l dev) st _ _ _) as R.
  - apply (reads_bind _ _ _ _ reads_topo), reads_ret.
  - pose proof (ok_devs V HV). unfold n_devs in *. lia.
  - intros pre dev post Epre.
    assert (0 <= dev < n_devs V) as Hdev by (apply idxs_range; rewrite Epre; set_solver).
    assert (dev ∉ pre) as Hnew.
    { assert (NoDup (idxs (n_devs V))) as Hnd by (rewrite Hidxs; apply NoDup_seqZ).
      rewrite Epre in Hnd. apply NoDup_app in Hnd as (_ & Hnd & _). intros Hin.
      apply (Hnd dev Hin). set_solver. }
    destruct (zlookup_is_Some (v_devs V) dev Hdev) as (td & Htd & _).
    eapply runs_flags.
    + apply (runs_dev dev td l before); [done | done |]. by rewrite bool_decide_false.
    + intros d _. cbn. unfold g. destruct (Z.eqb_spec d dev) as [-> |].
      * rewrite bool_decide_true; [done | set_solver].
      * destruct (bool_decide_reflect (d ∈ pre)) as [Hin | Hin];
          [rewrite bool_decide_true by set_solver | rewrite bool_decide_false by set_solver]; done.
  - eapply runs_flags.
    + exact R.
    + intros d Hd. cbn. rewrite bool_decide_true; [done |].
      rewrite Hidxs. apply elem_of_seqZ. lia.
Qed.
End loops.

(** *** One operation *)

Lemma runs_top_link l :
  runs (fsm_top_link driver dtop_p r op l) (top_link_calls driver V op l)
       (has_link driver V Top op).
Proof using HV Hpres.
  unfold fsm_top_link. apply (runs_read _ _ _ _ _ reads_dtop).
  destruct (ok_top V HV) as [p Hp]. assert (who_jdev V Top = Some p) as Hw by done.
  rewrite Hp. apply (runs_read _ _ _ _ _ (reads_data _ _ Hw)).
  unfold top_link_calls, has_link. rewrite (ops_of_jdev _ _ Hw).
  destruct (per_link _) as [f |] eqn:Hf.
  - rewrite bool_decide_true by done. apply (runs_read _ _ _ _ _ (reads_link_at l)).
    apply runs_calls; [| intros _; apply runs_ret].
    rewrite <- Hw. apply calls_link. by rewrite (ops_of_jdev _ _ Hw).
  - rewrite bool_decide_false by by intros []. apply runs_ret.
Qed.

Lemma runs_top_device :
  runs (fsm_top_device driver dtop_p r op) (top_device_calls driver V op)
       (has_device driver V Top op).
Proof using HV Hpres.
  unfold fsm_top_device. apply (runs_read _ _ _ _ _ reads_dtop).
  destruct (ok_top V HV) as [p Hp]. assert (who_jdev V Top = Some p) as Hw by done.
  rewrite Hp. apply (runs_read _ _ _ _ _ (reads_data _ _ Hw)).
  unfold top_device_calls, has_device. rewrite (ops_of_jdev _ _ Hw).
  destruct (per_device _) as [f |] eqn:Hf.
  - rewrite bool_decide_true by done.
    apply runs_calls; [| intros _; apply runs_ret].
    rewrite <- Hw. apply calls_device. by rewrite (ops_of_jdev _ _ Hw).
  - rewrite bool_decide_false by by intros []. apply runs_ret.
Qed.

Lemma runs_sysref (called : bool) :
  runs (fsm_sysref driver dtop_p op called) (if called then sysref_calls driver V op else []) tt.
Proof using HV Hpres.
  unfold fsm_sysref. destruct called; [| apply runs_ret].
  apply (runs_read _ _ _ _ _ reads_dtop).
  destruct (ok_top V HV) as [p Hp]. assert (who_jdev V Top = Some p) as Hw by done.
  pose proof calls_sysref as Hs. rewrite Hp in Hs |- *.
  apply (runs_read _ _ _ _ _ (reads_data _ _ Hw)).
  unfold sysref_calls. rewrite (ops_of_jdev _ _ Hw).
  destruct (post_state_sysref _); [| apply runs_ret].
  apply runs_calls; [done |]. intros _. apply runs_ret.
Qed.

Lemma reads_devs_bound : reads (devs_bound topology_p) (n_devs V).
Proof. apply (reads_bind _ _ _ _ reads_topo), reads_ret. Qed.

Lemma reads_links_bound : reads (links_bound dtop_p) (num_links (v_top V)).
Proof. apply (reads_bind _ _ _ _ reads_dtop), reads_ret. Qed.

Lemma reads_clear :
  reads (fsm_clear (n_devs V)) (flags (fun d => has_device driver V (Sub d) op && seen V d [])).
Proof using HV.
  intros m _. unfold fsm_clear. pose proof (ok_devs V HV).
  destruct (Z.ltb_spec 16 (n_devs V)); [lia |]. rewrite <- flags_init.
  rewrite (flags_ext _ (fun d => has_device driver V (Sub d) op && seen V d [])); [done |].
  intros d _. by rewrite andb_false_r.
Qed.

(** The state of the loop over the links. *)
Definition link_state (before : list Z) : list bool :=
  flags (fun d => has_device driver V (Sub d) op && seen V d before).

Lemma upto_perm n : upto n ≡ₚ seqZ 0 n.
Proof. done. Qed.

Lemma downto_perm n : downto n ≡ₚ seqZ 0 n.
Proof. apply reverse_Permutation. Qed.

Lemma runs_cast {A} (c : cmd (jmem W) A) cs cs' a : runs c cs a -> cs = cs' -> runs c cs' a.
Proof. by intros ? <-. Qed.

Lemma runs_start_op fuel :
  (16 < fuel)%nat -> r = JESD204_STATE_OP_REASON_INIT ->
  runs (fsm_start_op driver fuel topology_p dtop_p op) (start_plan driver V op) tt.
Proof using All.
  intros Hf Hr. unfold fsm_start_op. rewrite <- Hr.
  apply (runs_read _ _ _ _ _ reads_devs_bound), (runs_read _ _ _ _ _ reads_clear).
  apply (runs_bind _ _ _ _ (link_state (upto (num_links (v_top V))))).
  - apply (for_below_ok fuel Hf _ _ _ _ link_state reads_links_bound); [apply (ok_num V HV) |].
    intros pre l post Epre.
    assert (0 <= l < num_links (v_top V)) as Hl.
    { assert (l ∈ upto (num_links (v_top V))) as Hin by (rewrite Epre; set_solver).
      apply elem_of_seqZ in Hin. lia. }
    apply (runs_bind _ _ _ _ _ _ (runs_devs _ _ (for_below_ok fuel Hf) upto_perm l pre Hl)).
    apply (runs_bind _ _ _ _ _ _ (runs_top_link l)).
    eapply runs_cast.
    + eapply (runs_bind _ _ _ []); [apply runs_sysref | apply runs_ret].
    + apply app_nil_r.
  - apply (runs_bind _ _ _ _ _ _ runs_top_device), runs_sysref.
Qed.

Lemma runs_stop_op :
  r = JESD204_STATE_OP_REASON_UNINIT ->
  runs (fsm_stop_op driver topology_p dtop_p op) (stop_plan driver V op) tt.
Proof using All.
  intros Hr. unfold fsm_stop_op. rewrite <- Hr.
  pose proof (ok_devs V HV) as Hn. assert (0 <= n_devs V) by (unfold n_devs; lia).
  apply (runs_read _ _ _ _ _ reads_devs_bound).
  rewrite swrap_small by ulia. replace (n_devs V - 1 + 1) with (n_devs V) by lia.
  apply (runs_read _ _ _ _ _ reads_clear).
  apply (runs_bind _ _ _ _ _ _ runs_top_device).
  eapply runs_cast; [| apply app_nil_r].
  apply (runs_bind _ _ _ _ (link_state (downto (num_links (v_top V)))) tt); [| apply runs_ret].
  apply (for_down_ok _ _ _ _ link_state reads_links_bound); [apply (ok_num V HV) |].
  intros pre l post Epre.
  assert (0 <= l < num_links (v_top V)) as Hl.
  { assert (l ∈ downto (num_links (v_top V))) as Hin by (rewrite Epre; set_solver).
    rewrite downto_perm in Hin. apply elem_of_seqZ in Hin. lia. }
  apply (runs_bind _ _ _ _ _ _ (runs_top_link l)).
  apply (runs_devs _ _ for_down_ok downto_perm l pre Hl).
Qed.
End runs.

(** ** Contracts *)

Section contract.
  Context {W : Type} (driver : positive -> jesd204_dev_data W) (V : tview).
  Context (HV : tview_ok V) (Hpres : preserves_view driver V).

Lemma fsm_ops_plan reason body plan ops m :
  (forall op, runs driver V reason op (body op) (plan op) tt) -> topo_view V m ->
  fsm_ops ops body m = exec_plan driver V reason plan ops m.
Proof using Hpres.
  intros H. revert m. induction ops as [| op ops IH]; intros m Hm; [done |].
  cbn [fsm_ops exec_plan]. unfold mbind, cmd_bind. rewrite (H op m Hm).
  unfold mbind, cmd_bind.
  destruct (exec_calls driver V reason op (plan op) m) as [[[] m1]| |] eqn:E; [| done..].
  cbn. apply IH. by eapply (exec_calls_view driver V Hpres).
Qed.

(** C9: for a topology of at most 16 devices and 16 links whose callbacks leave
    it alone, starting makes exactly the calls of the plan, operation by
    operation in the order of the enumeration, and returns 0 whatever the
    callbacks return.  Both callbacks of an operation are called whatever its
    [mode], and once, whatever [num_retries] says. *)
Theorem jesd204_fsm_start_plan fuel link_idx m :
  (16 < fuel)%nat -> topo_view V m ->
  jesd204_fsm_start driver fuel (Some (v_topo V)) link_idx m
  = (exec_plan driver V JESD204_STATE_OP_REASON_INIT (start_plan driver V) dev_ops
     ≫= fun _ => mret 0) m.
Proof using HV Hpres.
  intros Hf Hm. unfold jesd204_fsm_start.
  rewrite (bind_done _ _ _ _ _ (reads_topo V m Hm)). unfold mbind, cmd_bind. cbn [dev_top].
  rewrite (fsm_ops_plan JESD204_STATE_OP_REASON_INIT _ (start_plan driver V)); [done | | done].
  intros op. by apply runs_start_op.
Qed.

(** C10: stopping the same topology makes exactly the calls of the stop plan,
    operation by operation in the reverse order of the enumeration, and returns
    0; here too whatever the [mode] and [num_retries]. *)
Theorem jesd204_fsm_stop_plan link_idx m :
  topo_view V m ->
  jesd204_fsm_stop driver (Some (v_topo V)) link_idx m
  = (exec_plan driver V JESD204_STATE_OP_REASON_UNINIT (stop_plan driver V) (reverse dev_ops)
     ≫= fun _ => mret 0) m.
Proof using HV Hpres.
  intros Hm. unfold jesd204_fsm_stop.
  rewrite (bind_done _ _ _ _ _ (reads_topo V m Hm)). unfold mbind, cmd_bind. cbn [dev_top].
  rewrite (fsm_ops_plan JESD204_STATE_OP_REASON_UNINIT _ (stop_plan driver V)); [done | | done].
  intros op. by apply runs_stop_op.
Qed.
End contract.

(** ** The plans *)

(** How often a call occurs in a plan. *)
Definition count (c : call) (cs : list call) : nat := count_occ call_eq_dec cs c.

Lemma count_app c cs cs' : count c (cs ++ cs') = (count c cs + count c cs')%nat.
Proof. apply count_occ_app. Qed.

Lemma count_one c x : count c [x] = if bool_decide (c = x) then 1%nat else 0%nat.
Proof.
  unfold count. simpl. destruct (call_eq_dec x c) as [-> | H].
  - by rewrite bool_decide_true.
  - by rewrite bool_decide_false by congruence.
Qed.

Lemma count_if c (b : bool) x :
  count c (if b then [x] else []) = if b && bool_decide (c = x) then 1%nat else 0%nat.
Proof. destruct b; [apply count_one | done]. Qed.

Lemma count_replicate c n x :
  count c (replicate n x) = if bool_decide (c = x) then n else 0%nat.
Proof.
  unfold count. induction n as [| n IH]; simpl; [by case_bool_decide |]. rewrite IH.
  destruct (call_eq_dec x c); case_bool_decide; congruence.
Qed.

Section counts.
  Context {W : Type} (driver : positive -> jesd204_dev_data W) (V : tview).
  Context (op : jesd204_dev_op).

Definition links_of : list Z := seqZ 0 (num_links (v_top V)).

Definition in_range (i n : Z) : bool := (0 <=? i) && (i <? n).

(** How often starting or stopping makes a call, SYSREF apart. *)
Definition expected (c : call) : nat :=
  match c with
  | CallDevice Top => if has_device driver V Top op then 1 else 0
  | CallDevice (Sub dev) =>
      if has_device driver V (Sub dev) op && seen V dev (links_of) then 1 else 0
  | CallLink Top l =>
      if has_link driver V Top op && in_range l (num_links (v_top V)) then 1 else 0
  | CallLink (Sub dev) l =>
      if has_link driver V (Sub dev) op && in_range l (num_links (v_top V))
      then matches V dev l else 0
  | CallSysref => 0
  end.

(** The device a call is made on. *)
Definition on_sub (c : call) : option Z :=
  match c with CallDevice (Sub d) => Some d | CallLink (Sub d) _ => Some d | _ => None end.

Lemma matches_out dev l : in_range dev (n_devs V) = false -> matches V dev l = 0%nat.
Proof.
  intros H. unfold matches, zlookup. unfold in_range in H.
  destruct (Z.ltb_spec dev 0); [done |].
  destruct (Z.leb_spec 0 dev), (Z.ltb_spec dev (n_devs V)); try done; try lia.
  rewrite lookup_ge_None_2; [done |]. unfold n_devs in *. lia.
Qed.

Lemma count_dev_calls c before l dev :
  count c (dev_calls driver V op before l dev)
  = match c with
    | CallDevice (Sub d) =>
        if bool_decide (d = dev) && has_device driver V (Sub dev) op
           && negb (seen V dev before) && (0 <? matches V dev l)%nat then 1%nat else 0%nat
    | CallLink (Sub d) l' =>
        if bool_decide (d = dev) && has_link driver V (Sub dev) op && bool_decide (l' = l)
        then matches V dev l else 0%nat
    | _ => 0%nat
    end.
Proof.
  unfold dev_calls. rewrite count_app, count_if.
  destruct (has_link driver V (Sub dev) op); [rewrite count_replicate |];
    destruct c as [[| d] | [| d] l' |]; rewrite ?andb_true_r, ?andb_false_r; simpl;
    repeat case_bool_decide; simplify_eq; rewrite ?andb_true_r, ?andb_false_r; simpl; try done;
    try (by repeat case_match); by rewrite ?Nat.add_0_r.
Qed.

(** The devices of one link: each call is made on its own device's turn. *)
Lemma count_devs c before l pre ds :
  NoDup ds ->
  count c (plan_over (fun _ dev => dev_calls driver V op before l dev) pre ds)
  = match on_sub c with
    | Some d => if bool_decide (d ∈ ds) then count c (dev_calls driver V op before l d) else 0%nat
    | None => 0%nat
    end.
Proof.
  intros Hnd. revert pre. induction Hnd as [| dev ds Hnew Hnd IH]; intros pre; cbn [plan_over].
  - by destruct (on_sub c).
  - rewrite count_app, IH. destruct (on_sub c) as [d |] eqn:Hc.
    + destruct (decide (d = dev)) as [-> | Hne].
      * rewrite (bool_decide_false (dev ∈ ds)), bool_decide_true by set_solver. lia.
      * rewrite (bool_decide_ext (d ∈ dev :: ds) (d ∈ ds)) by set_solver.
        rewrite (count_dev_calls _ _ _ dev).
        destruct c as [[| d'] | [| d'] l' |]; simplify_eq/=; by rewrite bool_decide_false.
    + rewrite count_dev_calls. by destruct c as [[| d'] | [| d'] l' |].
Qed.

(** What the loop over the links [ls] contributes, after those of [before]. *)
Definition links_count (c : call) (before ls : list Z) : nat :=
  match c with
  | CallDevice (Sub d) =>
      if has_device driver V (Sub d) op && negb (seen V d before) && seen V d ls then 1 else 0
  | CallLink Top l => if has_link driver V Top op && bool_decide (l ∈ ls) then 1 else 0
  | CallLink (Sub d) l =>
      if has_link driver V (Sub d) op && bool_decide (l ∈ ls) then matches V d l else 0
  | _ => 0
  end.

Lemma links_count_step c (before ls ds : list Z) l :
  l ∉ ls -> NoDup ds -> ds ≡ₚ seqZ 0 (n_devs V) ->
  links_count c before (l :: ls)
  = (count c (plan_over (fun _ dev => dev_calls driver V op before l dev) [] ds)
     + count c (top_link_calls driver V op l)
     + links_count c (before ++ [l]) ls)%nat.
Proof.
  intros Hl Hnd Hds. rewrite count_devs by done. unfold top_link_calls. rewrite count_if.
  assert (forall d, d ∉ ds -> matches V d l = 0%nat) as Hout.
  { intros d Hd. apply matches_out. unfold in_range. rewrite Hds, elem_of_seqZ in Hd.
    destruct (Z.leb_spec 0 d), (Z.ltb_spec d (n_devs V)); done || lia. }
  destruct c as [[| d] | [| d] l' |]; cbn [on_sub links_count];
    rewrite ?count_dev_calls, ?bool_decide_false, ?andb_false_r by done; try done.
  - rewrite (bool_decide_true (d = d)) by done. unfold seen. cbn [existsb]. rewrite existsb_app. cbn [existsb].
    fold (seen V d before). fold (seen V d ls). rewrite orb_false_r.
    case_bool_decide as Hd.
    + destruct (has_device _ _ _ _), (seen V d before), (matches V d l), (seen V d ls); done.
    + rewrite (Hout d Hd).
      destruct (has_device _ _ _ _), (seen V d before), (seen V d ls); done.
  - destruct (has_link driver V Top op); [| done]. cbn [andb].
    destruct (decide (l' = l)) as [-> | Hne].
    + by rewrite (bool_decide_true (l ∈ l :: ls)), (bool_decide_true (CallLink _ _ = _)),
        (bool_decide_false (l ∈ ls)) by set_solver.
    + rewrite (bool_decide_false (CallLink _ _ = _)) by congruence.
      by rewrite (bool_decide_ext (l' ∈ l :: ls) (l' ∈ ls)) by set_solver.
  - rewrite (bool_decide_true (d = d)) by done. cbn [andb].
    destruct (has_link driver V (Sub d) op); cbn [andb]; [| by case_bool_decide].
    destruct (decide (l' = l)) as [-> | Hne].
    + rewrite (bool_decide_true (l ∈ l :: ls)), (bool_decide_true (l = l)),
        (bool_decide_false (l ∈ ls)) by set_solver.
      case_bool_decide as Hd; [lia |]. rewrite (Hout d Hd). lia.
    + rewrite (bool_decide_false (l' = l)) by done.
      rewrite (bool_decide_ext (l' ∈ l :: ls) (l' ∈ ls)) by set_solver.
      by destruct (bool_decide (d ∈ ds)).
Qed.

Lemma count_links c (f : list Z -> Z -> list call) before ls ds :
  c <> CallSysref -> NoDup ls -> NoDup ds -> ds ≡ₚ seqZ 0 (n_devs V) ->
  (forall before l, count c (f before l)
     = (count c (plan_over (fun _ dev => dev_calls driver V op before l dev) [] ds)
        + count c (top_link_calls driver V op l))%nat) ->
  count c (plan_over f before ls) = links_count c before ls.
Proof.
  intros Hc Hls Hnd Hds Hf. revert before. induction Hls as [| l ls Hl Hls IH]; intros before.
  - cbn. destruct c as [[| d] | [| d] l' |]; cbn; try done; by rewrite andb_false_r.
  - cbn [plan_over]. rewrite count_app, Hf, IH. symmetry. by apply links_count_step.
Qed.

Lemma seen_perm d ls ls' : ls ≡ₚ ls' -> seen V d ls = seen V d ls'.
Proof.
  intros H. apply eq_true_iff_eq. unfold seen. rewrite !existsb_exists.
  split; intros (l & Hl & Hm); exists l; split; try done; apply list_elem_of_In;
    apply list_elem_of_In in Hl; by rewrite H in Hl || rewrite <- H in Hl.
Qed.

Lemma links_count_perm c ls ls' :
  ls ≡ₚ ls' -> links_count c [] ls = links_count c [] ls'.
Proof.
  intros H. destruct c as [[| d] | [| d] l |]; cbn [links_count]; try done.
  - by rewrite (seen_perm d ls ls').
  - by rewrite (bool_decide_ext (l ∈ ls) (l ∈ ls')) by by rewrite H.
  - by rewrite (bool_decide_ext (l ∈ ls) (l ∈ ls')) by by rewrite H.
Qed.

Lemma expected_split c :
  c <> CallSysref ->
  expected c = (links_count c [] links_of + count c (top_device_calls driver V op))%nat.
Proof.
  intros Hc. unfold top_device_calls. rewrite count_if.
  assert (forall l, in_range l (num_links (v_top V)) = bool_decide (l ∈ links_of)) as Hin.
  { intros l. unfold in_range, links_of. apply eq_true_iff_eq. rewrite bool_decide_eq_true.
    rewrite elem_of_seqZ, andb_true_iff, Z.leb_le, Z.ltb_lt. lia. }
  destruct c as [[| d] | [| d] l |]; cbn [links_count expected]; rewrite <- ?Hin; try done.
  - rewrite bool_decide_true by done. by destruct (has_device _ _ _ _).
  - rewrite bool_decide_false, andb_false_r by done. cbn [seen existsb negb].
    by rewrite Nat.add_0_r, andb_true_r.
  - by rewrite (bool_decide_false (CallLink _ _ = _)), (andb_false_r (has_device _ _ _ _)) by done.
  - by rewrite (bool_decide_false (CallLink _ _ = _)), (andb_false_r (has_device _ _ _ _)) by done.
Qed.

Lemma count_sysref c (b : bool) :
  c <> CallSysref -> count c (if b then sysref_calls driver V op else []) = 0%nat.
Proof.
  intros Hc. destruct b; [| done]. unfold sysref_calls. rewrite count_if.
  by rewrite bool_decide_false, andb_false_r.
Qed.

Lemma count_plan_zero c f before ls :
  (forall before l, count c (f before l) = 0%nat) -> count c (plan_over f before ls) = 0%nat.
Proof.
  intros H. revert before. induction ls as [| l ls IH]; intros before; [done |].
  cbn [plan_over]. by rewrite count_app, H, IH.
Qed.

Lemma count_start c :
  c <> CallSysref -> count c (start_plan driver V op) = expected c.
Proof.
  intros Hc. unfold start_plan. rewrite !count_app, (count_sysref c _ Hc), expected_split by done.
  rewrite (count_links c _ [] _ (seqZ 0 (n_devs V))); try apply NoDup_seqZ; [unfold links_of; lia | done | done |].
  intros before l. rewrite !count_app, (count_sysref c _ Hc). lia.
Qed.

Lemma count_stop c :
  c <> CallSysref -> count c (stop_plan driver V op) = expected c.
Proof.
  intros Hc. unfold stop_plan. rewrite !count_app, expected_split by done.
  rewrite (count_links c _ [] _ (reverse (seqZ 0 (n_devs V)))).
  - rewrite (links_count_perm c _ links_of) by apply reverse_Permutation. lia.
  - done.
  - rewrite reverse_Permutation; apply NoDup_seqZ.
  - rewrite reverse_Permutation; apply NoDup_seqZ.
  - apply reverse_Permutation.
  - intros before l. rewrite count_app. lia.
Qed.

Lemma count_stop_sysref : count CallSysref (stop_plan driver V op) = 0%nat.
Proof.
  unfold stop_plan, top_device_calls. rewrite count_app, count_if.
  rewrite bool_decide_false, andb_false_r by done.
  apply count_plan_zero. intros before l. unfold top_link_calls. rewrite count_app, count_if.
  rewrite bool_decide_false, andb_false_r by done.
  apply count_plan_zero. intros _ d. by rewrite count_dev_calls.
Qed.

Lemma count_filter c cs :
  count c (filter (fun c => c <> CallSysref) cs)
  = if bool_decide (c = CallSysref) then 0%nat else count c cs.
Proof.
  induction cs as [| x cs IH]; [by case_bool_decide |].
  rewrite filter_cons.
  destruct (decide (x <> CallSysref)) as [Hx | Hx]; unfold count in *; cbn [count_occ].
  - destruct (call_eq_dec x c) as [-> |]; [| done]. rewrite IH.
    by rewrite bool_decide_false.
  - apply dec_stable in Hx as ->. rewrite IH.
    destruct (call_eq_dec CallSysref c) as [<- |]; [by rewrite bool_decide_true | done].
Qed.

(** The plans call everything once: in starting an operation, each device
    callback is called once if the device has one of the top device's links,
    and each link callback once per connection of its device to that link, the
    top device's own once per link; and stopping makes exactly the same calls,
    in another order and without SYSREF. *)
Theorem fsm_plans_once :
  (forall c, c <> CallSysref -> count c (start_plan driver V op) = expected c) /\
  stop_plan driver V op ≡ₚ filter (fun c => c <> CallSysref) (start_plan driver V op).
Proof.
  split; [apply count_start |]. apply (Permutation_count_occ call_eq_dec). intros c.
  fold (count c (stop_plan driver V op)).
  fold (count c (filter (fun c => c <> CallSysref) (start_plan driver V op))).
  rewrite count_filter. case_bool_decide as Hc.
  - subst c. apply count_stop_sysref.
  - by rewrite count_start, count_stop.
Qed.
End counts.

(** ** Topologies: theorems *)

Definition hset {V} (p : positive) (v : V) (h : heap V) : heap V :=
  Heap (<[p := v]> (cells h)) (next_block h) (oom h).

Lemma hset_hset {V} p (v w : V) h : hset p v (hset p w h) = hset p v h.
Proof. unfold hset. cbn. by rewrite insert_insert_eq. Qed.

Lemma hload_hset {V} p (v : V) h : hload (Some p) (hset p v h) = Done (v, hset p v h).
Proof. apply hload_done. cbn. by rewrite lookup_insert_eq. Qed.

Lemma hstore_hset {V} p (v w : V) h : hstore (Some p) v (hset p w h) = Done (tt, hset p v h).
Proof. rewrite (hstore_done _ p v w) by (cbn; by rewrite lookup_insert_eq). by rewrite <- (hset_hset p v w h). Qed.

Definition halloc_heap {V} (v : V) (h : heap V) : heap V :=
  Heap (<[next_block h := v]> (cells h)) (Pos.succ (next_block h)) (tail (oom h)).

Lemma hset_halloc {V} (v w : V) h : hset (next_block h) v (halloc_heap w h) = halloc_heap v h.
Proof. unfold hset, halloc_heap. cbn. by rewrite insert_insert_eq. Qed.

Section topo.
  Context {W : Type} (m : jmem W) (top dtop tds : positive) (n : Z).
  Context (Htop : cells (jtops m) !! top = Some (Topo (Some dtop) (Some tds) n)).

(** The memory with the device array [arr], the top device [dt], the devices
    [jd] and the link arrays [lk]. *)
Definition upd (arr : list jesd204_topology_dev) (dt : jesd204_dev_top)
    (jd : heap jesd204_dev) (lk : heap (list jesd204_link_opaque)) : jmem W :=
  JMem jd (jprivs m) (jtops m) (hset dtop dt (jdtops m)) (hset tds arr (jtdevs m)) lk (world m).

Lemma upd_load_dtop arr dt jd lk :
  load_dtop (Some dtop) (upd arr dt jd lk) = Done (dt, upd arr dt jd lk).
Proof. unfold load_dtop, on_jdtops. by erewrite zoom_done by apply hload_hset. Qed.

Lemma upd_store_dtop arr dt dt' jd lk :
  on_jdtops (hstore (Some dtop) dt') (upd arr dt jd lk) = Done (tt, upd arr dt' jd lk).
Proof. unfold on_jdtops. by erewrite zoom_done by apply hstore_hset. Qed.

Lemma upd_load_topo arr dt jd lk :
  load_topo (Some top) (upd arr dt jd lk)
  = Done (Topo (Some dtop) (Some tds) n, upd arr dt jd lk).
Proof using Htop. unfold load_topo, on_jtops. by erewrite zoom_done by by apply hload_done. Qed.

Definition set_sysref (td : jesd204_topology_dev) (dt : jesd204_dev_top) : jesd204_dev_top :=
  if is_sysref_provider td
  then DevTop (top_jdev dt) (td_jdev td) (jdev_sysref_sec dt) (top_link_ids dt) (num_links dt)
         (active_links dt)
  else dt.

Lemma init_dev_sub td d arr dt jd lk :
  is_top_device td = false -> 0 <= d < Z.of_nat (length arr) ->
  topology_init_dev (Some top) (Some dtop) td d (upd arr dt jd lk)
  = Done (d + 1, upd (<[Z.to_nat d := td]> arr) (set_sysref td dt) jd lk).
Proof using Htop.
  intros Ht Hd. unfold topology_init_dev. rewrite Ht.
  rewrite (bind_done _ _ _ _ _ (upd_load_topo _ _ _ _)). cbn [topo_devs].
  destruct (lookup_lt_is_Some_2 arr (Z.to_nat d)) as [old Hold]; [lia |].
  rewrite (bind_done _ _ _ tt (upd (<[Z.to_nat d := td]> arr) dt jd lk)).
  - unfold set_sysref. destruct (is_sysref_provider td); [| done].
    rewrite (bind_done _ _ _ tt (upd (<[Z.to_nat d := td]> arr)
      (DevTop (top_jdev dt) (td_jdev td) (jdev_sysref_sec dt) (top_link_ids dt) (num_links dt)
         (active_links dt)) jd lk)); [done |].
    by rewrite (bind_done _ _ _ _ _ (upd_load_dtop _ _ _ _)), upd_store_dtop.
  - unfold on_jtdevs. erewrite zoom_done; [done |].
    rewrite (bind_done _ _ _ _ _ (hload_hset tds arr (jtdevs m))), Hold. apply hstore_hset.
Qed.

(** The loop over devices that are not the top device copies them in order. *)
Lemma init_loop_sub xs rest k pre post d dt jd lk :
  Forall (fun td => is_top_device td = false) xs ->
  d = Z.of_nat (length pre) -> (length xs <= length post)%nat ->
  topology_init_loop (Some top) (Some dtop) (xs ++ rest) (length xs + k) d
    (upd (pre ++ post) dt jd lk)
  = topology_init_loop (Some top) (Some dtop) rest k (d + Z.of_nat (length xs))
    (upd (pre ++ xs ++ drop (length xs) post) (foldl (fun dt td => set_sysref td dt) dt xs) jd lk).
Proof using Htop.
  intros Hxs. revert pre post d dt. induction Hxs as [| td xs Htd Hxs IH]; intros pre post d dt Hd Hl.
  - cbn. by rewrite Z.add_0_r.
  - destruct post as [| old post]; cbn in Hl; [lia |].
    cbn [length app Nat.add topology_init_loop foldl].
    assert (0 <= d < Z.of_nat (length (pre ++ old :: post))) as Hr by (rewrite length_app; cbn; lia).
    rewrite (bind_done _ _ _ _ _ (init_dev_sub td d _ dt jd lk Htd Hr)).
    rewrite insert_app_r_alt by lia. replace (Z.to_nat d - length pre)%nat with 0%nat by lia.
    cbn [insert list_insert]. replace (pre ++ td :: post) with ((pre ++ [td]) ++ post)
      by by rewrite <- app_assoc.
    rewrite IH by (rewrite ?length_app; cbn; lia). rewrite <- !app_assoc. cbn [app drop].
    f_equal. lia.
Qed.

(** *** The top device *)

Definition set_ids (t : jesd204_topology_dev) (dt : jesd204_dev_top) (j : nat) : jesd204_dev_top :=
  DevTop (top_jdev dt) (jdev_sysref dt) (jdev_sysref_sec dt)
    (take j (link_ids t) ++ drop j (top_link_ids dt)) (num_links dt) (active_links dt).

Lemma copy_link_ids_run t arr dt jd lk :
  length (link_ids t) = 16%nat -> length (top_link_ids dt) = 16%nat -> 0 <= links_number t <= 16 ->
  copy_link_ids (Some dtop) t (upd arr dt jd lk)
  = Done (tt, upd arr (set_ids t dt (Z.to_nat (links_number t))) jd lk).
Proof.
  intros Hids Htids Hn. unfold copy_link_ids.
  enough (forall k j, (j + k = Z.to_nat (links_number t))%nat ->
    for_up k (Z.of_nat j) (fun l =>
      t0 ← load_dtop (Some dtop);
      id ← the (if l <? 0 then None else link_ids t !! Z.to_nat l);
      _ ← the (top_link_ids t0 !! Z.to_nat l);
      on_jdtops (hstore (Some dtop)
        (DevTop (top_jdev t0) (jdev_sysref t0) (jdev_sysref_sec t0)
           (<[Z.to_nat l := id]> (top_link_ids t0)) (num_links t0) (active_links t0))))
      (upd arr (set_ids t dt j) jd lk)
    = Done (tt, upd arr (set_ids t dt (Z.to_nat (links_number t))) jd lk)) as H.
  { specialize (H (Z.to_nat (links_number t)) 0%nat eq_refl).
    replace (set_ids t dt 0) with dt in H by by destruct dt. exact H. }
  induction k as [| k IH]; intros j Hj.
  - cbn. by replace j with (Z.to_nat (links_number t)) by lia.
  - cbn [for_up]. destruct (lookup_lt_is_Some_2 (link_ids t) j) as [id Hid]; [lia |].
    destruct (lookup_lt_is_Some_2 (top_link_ids dt) j) as [old Hold]; [lia |].
    assert (length (take j (link_ids t)) = j) as Hlen by (rewrite length_take; lia).
    rewrite (bind_done _ _ _ tt (upd arr (set_ids t dt (S j)) jd lk)).
    + replace (Z.of_nat j + 1) with (Z.of_nat (S j)) by lia. apply IH. lia.
    + rewrite (bind_done _ _ _ _ _ (upd_load_dtop _ _ _ _)).
      destruct (Z.ltb_spec (Z.of_nat j) 0); [lia |]. rewrite Nat2Z.id, Hid.
      cbn [set_ids top_link_ids top_jdev jdev_sysref jdev_sysref_sec num_links active_links].
      rewrite (drop_S _ old) by done.
      rewrite list_lookup_middle by done.
      rewrite (bind_done _ _ _ id (upd arr (set_ids t dt j) jd lk)) by done.
      rewrite (bind_done _ _ _ old (upd arr (set_ids t dt j) jd lk)) by done.
      rewrite insert_app_r_alt by lia. replace (j - length (take j (link_ids t)))%nat with 0%nat by lia.
      cbn [insert list_insert].
      unfold set_ids. rewrite (take_S_r _ j id) by done. rewrite <- app_assoc.
      apply upd_store_dtop.
Qed.

(** The link structures of a top device at [dtop] with the link ids [ids]. *)
Definition new_link (ids : list Z) (i : Z) : jesd204_link_opaque :=
  LinkOpaque (Link (default 0 (ids !! Z.to_nat i)) 0 0 0 false 0 0 0 0 0 0 0 0 0 0 0 0 0 0 0 0 0
                None (Sysref 0 0 0 0) 0 0 0) (Some dtop) i.

Definition new_links (ids : list Z) (num : Z) : list jesd204_link_opaque :=
  new_link ids <$> seqZ 0 num.

Lemma new_links_S ids j id :
  ids !! j = Some id ->
  new_links ids (Z.of_nat (S j)) = new_links ids (Z.of_nat j)
    ++ [LinkOpaque (Link id 0 0 0 false 0 0 0 0 0 0 0 0 0 0 0 0 0 0 0 0 0
          None (Sysref 0 0 0 0) 0 0 0) (Some dtop) (Z.of_nat j)].
Proof.
  intros Hid. unfold new_links.
  replace (Z.of_nat (S j)) with (Z.of_nat j + 1) by lia.
  rewrite seqZ_app by lia. rewrite fmap_app, Z.add_0_l, (seqZ_cons _ 1) by lia.
  rewrite (seqZ_nil _ (Z.pred 1)) by lia. f_equal.
  cbn [fmap list_fmap]. unfold new_link. by rewrite Nat2Z.id, Hid.
Qed.

Definition set_links (p : ptr) (dt : jesd204_dev_top) : jesd204_dev_top :=
  DevTop (top_jdev dt) (jdev_sysref dt) (jdev_sysref_sec dt) (top_link_ids dt) (num_links dt) p.

Lemma alloc_links_loop arr dt jd lk p k j :
  0 <= num_links dt <= Z.of_nat (length (top_link_ids dt)) ->
  Z.of_nat j + Z.of_nat k = num_links dt ->
  for_up k (Z.of_nat j) (fun i =>
    t ← load_dtop (Some dtop);
    id ← the (if i <? 0 then None else top_link_ids t !! Z.to_nat i);
    on_jlinks (
      ls ← hload (Some p);
      _ ← the (ls !! Z.to_nat i);
      hstore (Some p) (<[Z.to_nat i := LinkOpaque
        (Link id 0 0 0 false 0 0 0 0 0 0 0 0 0 0 0 0 0 0 0 0 0 None (Sysref 0 0 0 0) 0 0 0)
        (Some dtop) i]> ls)))
    (upd arr dt jd (hset p (new_links (top_link_ids dt) (Z.of_nat j)
                            ++ replicate k (LinkOpaque link0 None 0)) lk))
  = Done (tt, upd arr dt jd (hset p (new_links (top_link_ids dt) (num_links dt)) lk)).
Proof.
  intros Hn. revert j. induction k as [| k IH]; intros j Hj.
  - cbn. rewrite app_nil_r. by replace (Z.of_nat j) with (num_links dt) by lia.
  - cbn [for_up]. destruct (lookup_lt_is_Some_2 (top_link_ids dt) j) as [id Hid]; [lia |].
    set (lk' := hset p _ lk). assert (length (new_links (top_link_ids dt) (Z.of_nat j)) = j) as Hlen.
    { unfold new_links. rewrite length_fmap, length_seqZ. lia. }
    rewrite (bind_done _ _ _ tt (upd arr dt jd (hset p (new_links (top_link_ids dt) (Z.of_nat (S j))
                            ++ replicate k (LinkOpaque link0 None 0)) lk))).
    + replace (Z.of_nat j + 1) with (Z.of_nat (S j)) by lia. apply IH. lia.
    + rewrite (bind_done _ _ _ _ _ (upd_load_dtop _ _ _ _)).
      destruct (Z.ltb_spec (Z.of_nat j) 0); [lia |]. rewrite Nat2Z.id, Hid.
      rewrite (bind_done _ _ _ id (upd arr dt jd lk')) by done.
      unfold on_jlinks. erewrite zoom_done; [done |]. unfold lk'. cbn [upd jlinks].
      rewrite (bind_done _ _ _ _ _ (hload_hset p _ lk)).
      cbn [replicate]. rewrite list_lookup_middle by done.
      rewrite (bind_done (the (Some _)) _ _ (LinkOpaque link0 None 0)
        (hset p (new_links (top_link_ids dt) (Z.of_nat j)
                 ++ LinkOpaque link0 None 0 :: replicate k (LinkOpaque link0 None 0)) lk)) by done.
      rewrite insert_app_r_alt by lia.
      replace (j - length (new_links (top_link_ids dt) (Z.of_nat j)))%nat with 0%nat by lia.
      cbn [insert list_insert]. rewrite hstore_hset, (new_links_S _ _ id), <- app_assoc by done.
      done.
Qed.

Lemma alloc_links_run arr dt jd lk :
  alloc_fails lk = false -> 0 <= num_links dt <= Z.of_nat (length (top_link_ids dt)) ->
  jesd204_dev_alloc_links (Some dtop) (upd arr dt jd lk)
  = Done (0, upd arr (set_links (Some (next_block lk)) dt) jd
               (halloc_heap (new_links (top_link_ids dt) (num_links dt)) lk)).
Proof.
  intros Ha Hn. unfold jesd204_dev_alloc_links.
  rewrite (bind_done _ _ _ _ _ (upd_load_dtop _ _ _ _)).
  set (ls := replicate _ _).
  rewrite (bind_done _ _ _ (Some (next_block lk)) (upd arr dt jd (halloc_heap ls lk))).
  2: { unfold on_jlinks. by erewrite zoom_done by by apply halloc_done. }
  rewrite (bind_done _ _ _ _ _ (upd_store_dtop _ _ _ _ _)).
  change (DevTop _ _ _ _ _ _) with (set_links (Some (next_block lk)) dt).
  pose proof (alloc_links_loop arr (set_links (Some (next_block lk)) dt) jd
    (Heap (cells lk) (Pos.succ (next_block lk)) (tail (oom lk))) (next_block lk)
    (Z.to_nat (num_links dt)) 0 Hn ltac:(cbn; lia)) as R.
  by rewrite (bind_done _ _ _ _ _ R).
Qed.

(** The top device's turn. *)
Definition set_top (t : jesd204_topology_dev) (p : positive) (dt : jesd204_dev_top) :
    jesd204_dev_top :=
  DevTop (td_jdev t) (jdev_sysref dt) (jdev_sysref_sec dt)
    (take (Z.to_nat (links_number t)) (link_ids t)
     ++ drop (Z.to_nat (links_number t)) (top_link_ids dt)) (links_number t) (Some p).

Lemma init_dev_top t d arr dt jd lk jp dev :
  is_top_device t = true -> td_jdev t = Some jp -> cells jd !! jp = Some dev ->
  length (link_ids t) = 16%nat -> length (top_link_ids dt) = 16%nat -> 0 <= links_number t <= 16 ->
  alloc_fails lk = false ->
  topology_init_dev (Some top) (Some dtop) t d (upd arr dt jd lk)
  = Done (d, upd arr (set_top t (next_block lk) dt)
      (hset jp (Dev (dev_data dev) (priv dev) true (Some top)) jd)
      (halloc_heap (new_links (take (Z.to_nat (links_number t)) (link_ids t)
         ++ drop (Z.to_nat (links_number t)) (top_link_ids dt)) (links_number t)) lk)).
Proof.
  intros Ht Hjp Hdev Hids Htids Hn Ha. unfold topology_init_dev. rewrite Ht, Hjp.
  rewrite (bind_done _ _ _ _ _ (upd_load_dtop _ _ _ _)), (bind_done _ _ _ _ _ (upd_store_dtop _ _ _ _ _)).
  set (dt1 := DevTop _ _ _ _ _ _).
  rewrite (bind_done _ _ _ dev (upd arr dt1 jd lk)).
  2: { unfold load_jdev, on_jdevs. by erewrite zoom_done by by apply hload_done. }
  set (jd' := hset jp _ jd). rewrite (bind_done _ _ _ tt (upd arr dt1 jd' lk)).
  2: { unfold on_jdevs. by erewrite zoom_done by by eapply hstore_done. }
  rewrite (bind_done _ _ _ _ _ (upd_load_dtop _ _ _ _)), (bind_done _ _ _ _ _ (upd_store_dtop _ _ _ _ _)).
  set (dt2 := DevTop _ _ _ _ _ _).
  rewrite (bind_done _ _ _ _ _ (copy_link_ids_run t arr dt2 jd' lk Hids Htids Hn)).
  erewrite bind_done; [| apply alloc_links_run; [done |]; cbn;
    rewrite length_app, length_take, length_drop; lia].
  unfold set_top. by rewrite Hjp.
Qed.
(** The SYSREF provider of a topology: the last device that says it is one. *)
Definition last_sysref (xs : list jesd204_topology_dev) : ptr :=
  foldl (fun o td => if is_sysref_provider td then td_jdev td else o) None xs.

Lemma foldl_set_sysref xs dt :
  foldl (fun dt td => set_sysref td dt) dt xs
  = DevTop (top_jdev dt) (foldl (fun o td => if is_sysref_provider td then td_jdev td else o)
                            (jdev_sysref dt) xs)
      (jdev_sysref_sec dt) (top_link_ids dt) (num_links dt) (active_links dt).
Proof.
  revert dt. induction xs as [| td xs IH]; intros dt; cbn [foldl]; [by destruct dt |].
  rewrite IH. unfold set_sysref. by destruct (is_sysref_provider td).
Qed.

(** The link ids and the top device of a topology of the devices [A ++ t :: B],
    [t] being the top device. *)
Definition ids_of (t : jesd204_topology_dev) : list Z :=
  take (Z.to_nat (links_number t)) (link_ids t) ++ replicate (16 - Z.to_nat (links_number t)) 0.

Definition dtop_of (A : list jesd204_topology_dev) t B (links : positive) : jesd204_dev_top :=
  DevTop (td_jdev t) (last_sysref (A ++ B)) None (ids_of t) (links_number t) (Some links).

Lemma init_loop_run A t B jd lk jp dev :
  Forall (fun td => is_top_device td = false) A ->
  Forall (fun td => is_top_device td = false) B ->
  is_top_device t = true -> td_jdev t = Some jp -> cells jd !! jp = Some dev ->
  length (link_ids t) = 16%nat -> 0 <= links_number t <= 16 -> alloc_fails lk = false ->
  topology_init_loop (Some top) (Some dtop) (A ++ t :: B) (length A + S (length B)) 0
    (upd (replicate (length A + length B) td0) (DevTop None None None (replicate 16 0) 0 None) jd lk)
  = Done (Z.of_nat (length A + length B),
      upd (A ++ B) (dtop_of A t B (next_block lk))
        (hset jp (Dev (dev_data dev) (priv dev) true (Some top)) jd)
        (halloc_heap (new_links (ids_of t) (links_number t)) lk)).
Proof using Htop.
  intros HA HB Ht Hjp Hdev Hids Hnum Ha.
  pose proof (init_loop_sub A (t :: B) (S (length B)) [] (replicate (length A + length B) td0)
    0 (DevTop None None None (replicate 16 0) 0 None) jd lk HA eq_refl) as R.
  rewrite length_replicate in R. specialize (R ltac:(lia)). cbn [app length] in R. rewrite R. clear R.
  rewrite drop_replicate, foldl_set_sysref.
  cbn [topology_init_loop top_jdev jdev_sysref jdev_sysref_sec top_link_ids num_links active_links].
  erewrite bind_done; [| by apply (init_dev_top t _ _ _ jd lk jp dev)].
  replace (length A + length B - length A)%nat with (length B) by lia.
  set (dt1 := set_top _ _ _). set (jd' := hset jp _ jd). set (lk' := halloc_heap _ lk).
  pose proof (init_loop_sub B [] 0 A (replicate (length B) td0) (0 + Z.of_nat (length A)) dt1 jd' lk'
    HB eq_refl) as R.
  rewrite length_replicate in R. specialize (R ltac:(lia)).
  rewrite app_nil_r, Nat.add_0_r in R. rewrite R. clear R. cbn [topology_init_loop].
  rewrite drop_replicate, Nat.sub_diag, app_nil_r, foldl_set_sysref.
  unfold mret, cmd_ret, dt1, lk', dtop_of, last_sysref, ids_of, set_top. rewrite foldl_app.
  cbn -[replicate take drop]. rewrite drop_replicate. do 2 f_equal. lia.
Qed.
End topo.

(** C33: with one top device, wherever it is in the caller's array, and no
    allocation failing, [jesd204_topology_init] returns 0 and a topology with
    the other devices in their order, the top device's links numbered and
    pointing back to it, the last provider of SYSREF, and the top device marked
    as such; nothing else changes. *)
Theorem jesd204_topology_init_correct {W} (m : jmem W) A t B jp dev :
  let top := next_block (jtops m) in
  let dtop := next_block (jdtops m) in
  let n := Z.of_nat (length (A ++ t :: B)) in
  Forall (fun td => is_top_device td = false) (A ++ B) -> is_top_device t = true ->
  td_jdev t = Some jp -> cells (jdevs m) !! jp = Some dev ->
  length (link_ids t) = 16%nat -> 0 <= links_number t <= 16 -> n < 2 ^ 32 ->
  alloc_fails (jtops m) = false -> alloc_fails (jdtops m) = false ->
  alloc_fails (jtdevs m) = false -> alloc_fails (jlinks m) = false ->
  jesd204_topology_init false (Some (A ++ t :: B)) n m
  = Done ((0, Some top),
      JMem (hset jp (Dev (dev_data dev) (priv dev) true (Some top)) (jdevs m)) (jprivs m)
        (halloc_heap (Topo (Some dtop) (Some (next_block (jtdevs m))) (n - 1)) (jtops m))
        (halloc_heap (dtop_of A t B (next_block (jlinks m))) (jdtops m))
        (halloc_heap (A ++ B) (jtdevs m))
        (halloc_heap (new_links dtop (ids_of t) (links_number t)) (jlinks m)) (world m)).
Proof.
  intros top dtop n [HA HB]%Forall_app Ht Hjp Hdev Hids Hnum Hn Ha1 Ha2 Ha3 Ha4.
  set (tds := next_block (jtdevs m)).
  assert (n = Z.of_nat (length A + S (length B))) as En by (unfold n; rewrite length_app; cbn; lia).
  set (dt0 := DevTop None None None (replicate 16 0) 0 None).
  set (tp := Topo (Some dtop) (Some tds) (n - 1)).
  set (m1 := JMem (jdevs m) (jprivs m) (halloc_heap tp (jtops m)) (halloc_heap dt0 (jdtops m))
    (halloc_heap (replicate (length A + length B) td0) (jtdevs m)) (jlinks m) (world m)).
  unfold jesd204_topology_init.
  rewrite (bind_done _ _ _ (Some top)
    (JMem (jdevs m) (jprivs m) (halloc_heap (Topo None None 0) (jtops m)) (jdtops m) (jtdevs m)
       (jlinks m) (world m))) by (unfold on_jtops; by erewrite zoom_done by by apply halloc_done).
  rewrite (bind_done _ _ _ (Some dtop)
    (JMem (jdevs m) (jprivs m) (halloc_heap (Topo None None 0) (jtops m)) (halloc_heap dt0 (jdtops m))
       (jtdevs m) (jlinks m) (world m))) by (unfold on_jdtops; by erewrite zoom_done by by apply halloc_done).
  rewrite (wrap_small 32) by (unfold uint; lia).
  replace (Z.to_nat (n - 1)) with (length A + length B)%nat by lia.
  rewrite (bind_done _ _ _ (Some tds)
    (JMem (jdevs m) (jprivs m) (halloc_heap (Topo None None 0) (jtops m)) (halloc_heap dt0 (jdtops m))
       (halloc_heap (replicate (length A + length B) td0) (jtdevs m)) (jlinks m) (world m)))
    by (unfold on_jtdevs; by erewrite zoom_done by by apply halloc_done).
  rewrite (bind_done _ _ _ tt m1).
  2: { unfold on_jtops. erewrite zoom_done; [done |].
       apply (hstore_hset top tp (Topo None None 0)
         (Heap (cells (jtops m)) (Pos.succ top) (tail (oom (jtops m))))). }
  replace (Z.to_nat n) with (length A + S (length B))%nat by lia.
  assert (cells (jtops m1) !! top = Some tp) as Htop by (cbn; by rewrite lookup_insert_eq).
  pose proof (init_loop_run m1 top dtop tds (n - 1) Htop A t B (jdevs m) (jlinks m) jp dev
    HA HB Ht Hjp Hdev Hids Hnum Ha4) as R.
  assert (upd m1 dtop tds (replicate (length A + length B) td0) dt0 (jdevs m) (jlinks m) = m1) as Em1
    by (unfold upd, m1, dtop, tds; cbn [jdtops jtdevs]; by rewrite !hset_halloc).
  fold dt0 in R. rewrite Em1 in R. rewrite (bind_done _ _ _ _ _ R).
  unfold upd, m1, dtop, tds. cbn [jdtops jtdevs jprivs jtops world]. by rewrite !hset_halloc.
Qed.

(** The topology [jesd204_topology_init] builds has the view the state machine
    needs, when the devices are registered ones. *)
Definition view_of (top dtop tds links : positive) (A : list jesd204_topology_dev) t B
    (drv : positive -> positive) : tview :=
  TView top dtop tds (A ++ B) (dtop_of A t B links) drv.

Lemma topology_init_view {W} (m : jmem W) A t B jp dev drv jd jl :
  let top := next_block (jtops m) in
  let dtop := next_block (jdtops m) in
  let tds := next_block (jtdevs m) in
  let n := Z.of_nat (length (A ++ t :: B)) in
  td_jdev t = Some jp -> cells (jdevs m) !! jp = Some dev -> dev_data dev = Some (drv jp) ->
  (forall td p, td ∈ A ++ B -> td_jdev td = Some p ->
     exists d, cells (jdevs m) !! p = Some d /\ dev_data d = Some (drv p)) ->
  topo_view (view_of top dtop tds jl A t B drv)
    (JMem (hset jp (Dev (dev_data dev) (priv dev) true (Some top)) (jdevs m)) (jprivs m)
        (halloc_heap (Topo (Some dtop) (Some tds) (n - 1)) (jtops m))
        (halloc_heap (dtop_of A t B jl) (jdtops m)) (halloc_heap (A ++ B) (jtdevs m)) jd (world m)).
Proof.
  intros top dtop tds n Hjp Hdev Hdd Hsub. split; cbn.
  - rewrite lookup_insert_eq. unfold n_devs, n. cbn. do 2 f_equal. rewrite !length_app. cbn. lia.
  - by rewrite lookup_insert_eq.
  - by rewrite lookup_insert_eq.
  - intros w p Hw. rewrite lookup_insert. case_decide as Hp.
    + subst p. eexists. split; [done |]. cbn. exact Hdd.
    + destruct w as [| i]; cbn in Hw; [congruence |].
      unfold zlookup in Hw. destruct (i <? 0); [done |].
      destruct ((A ++ B) !! Z.to_nat i) as [td |] eqn:Htd; [| done].
      apply (Hsub td p); [by eapply list_elem_of_lookup_2 | done].
Qed.

(** ** An example: two devices, two links and callbacks that write a log *)

Definition log_world : Type := list (Z * Z).

Definition set_world {W} (w : W) (m : jmem W) : jmem W :=
  JMem (jdevs m) (jprivs m) (jtops m) (jdtops m) (jtdevs m) (jlinks m) w.

Definition log (x : Z * Z) : cmd (jmem log_world) Z := fun m =>
  Done (0, set_world (world m ++ [x]) m).

Definition ptr_code (p : ptr) : Z := match p with Some p => Z.pos p | None => 0 end.

Definition log_driver (p : positive) : jesd204_dev_data log_world :=
  DevData (Some (fun jdev => log (ptr_code jdev, -2))) 0 0 0 (fun op =>
    StateOp JESD204_STATE_OP_MODE_PER_LINK (Some (fun jdev _ => log (ptr_code jdev, -1)))
      (Some (fun jdev _ lnk => log (ptr_code jdev, lnk.2)))
      (bool_decide (op = JESD204_OP_LINK_RUNNING))).

(** Whatever it does to the memory is in the world. *)
Definition logs {A} (c : cmd (jmem log_world) A) : Prop :=
  forall m a m', c m = Done (a, m') -> exists w, m' = set_world w m.

Lemma logs_ret {A} (a : A) : logs (mret a).
Proof. intros m a' m' [= <- <-]. exists (world m). by destruct m. Qed.

Lemma logs_bind {A B} (c : cmd _ A) (k : A -> cmd _ B) :
  logs c -> (forall a, logs (k a)) -> logs (c ≫= k).
Proof.
  intros Hc Hk m b m' (a & m1 & H1 & H2)%bind_inv.
  destruct (Hc _ _ _ H1) as [w1 ->]. destruct (Hk _ _ _ _ H2) as [w2 ->]. by exists w2.
Qed.

Lemma logs_log x : logs (log x).
Proof. intros m a m' [= <- <-]. by eexists. Qed.

Lemma logs_the {A} (o : option A) : logs (the o).
Proof. intros m a m' H. destruct o; [| done]. injection H as <- <-. exists (world m). by destruct m. Qed.

Lemma logs_load p : logs (load_jdev p) /\ logs (load_topo p) /\ logs (load_dtop p).
Proof.
  splits; intros m a m'; unfold load_jdev, load_topo, load_dtop, on_jdevs, on_jtops, on_jdtops,
    zoom, hload; destruct (p ≫= _); try done; intros [= <- <-]; exists (world m); by destruct m.
Qed.

Lemma logs_sysref p : logs (jesd204_sysref_async log_driver p).
Proof.
  unfold jesd204_sysref_async, jesd204_dev_get_topology_top_dev.
  apply logs_bind.
  { apply logs_bind; [apply logs_load |]. intros d.
    apply logs_bind; [apply logs_load |]. intros t. apply logs_ret. }
  intros [jt |]; [| apply logs_ret]. apply logs_bind; [apply logs_load |]. intros t.
  destruct (jdev_sysref t) as [q |]; [| apply logs_ret]. unfold call_sysref.
  apply logs_bind; [apply logs_load |]. intros d. destruct (dev_data d); [| apply logs_ret].
  exact (logs_log _).
Qed.

Lemma logs_call V reason op c : logs (exec_call log_driver V reason op c).
Proof.
  destruct c as [w | w l |]; cbn [exec_call].
  - unfold ops_of. destruct (who_jdev V w) as [p |]; [| apply logs_ret].
    apply logs_bind; [apply logs_log | intros; apply logs_ret].
  - unfold ops_of. destruct (who_jdev V w) as [p |]; [| apply logs_ret].
    apply logs_bind; [apply logs_log | intros; apply logs_ret].
  - apply logs_bind; [apply logs_sysref | intros; apply logs_ret].
Qed.

Lemma log_preserves V : preserves_view log_driver V.
Proof. intros reason op c m m' [? ? ? ?] Hc. destruct (logs_call _ _ _ _ _ _ _ Hc) as [w ->]. by split. Qed.

(** Device 3 is the top device, with links 7 and 9; device 1 has both and gives
    SYSREF, device 2 has link 9. *)
Definition ids16 (l : list Z) : list Z := l ++ replicate (16 - length l) 0.

Definition ex_dev1 : jesd204_topology_dev := TopoDev (Some 1%positive) false true (ids16 [7; 9]) 2.
Definition ex_dev2 : jesd204_topology_dev := TopoDev (Some 2%positive) false false (ids16 [9]) 1.
Definition ex_dev3 : jesd204_topology_dev := TopoDev (Some 3%positive) true false (ids16 [7; 9]) 2.

Definition ex_jdevs : heap jesd204_dev :=
  Heap (list_to_map ((fun p => (p, Dev (Some p) None false None)) <$> [1; 2; 3]%positive)) 4 [].

Definition ex_mem : jmem log_world :=
  JMem ex_jdevs (Heap ∅ 1 []) (Heap ∅ 1 []) (Heap ∅ 1 []) (Heap ∅ 1 []) (Heap ∅ 1 []) [].

(** The memory after [jesd204_topology_init]. *)
Definition ex_init : jmem log_world :=
  JMem (hset 3 (Dev (Some 3%positive) None true (Some 1%positive)) ex_jdevs) (Heap ∅ 1 [])
    (halloc_heap (Topo (Some 1%positive) (Some 1%positive) 2) (Heap ∅ 1 []))
    (halloc_heap (dtop_of [ex_dev1] ex_dev3 [ex_dev2] 1) (Heap ∅ 1 []))
    (halloc_heap [ex_dev1; ex_dev2] (Heap ∅ 1 []))
    (halloc_heap (new_links 1 (ids16 [7; 9]) 2) (Heap ∅ 1 [])) [].

Definition ex_view : tview := view_of 1 1 1 1 [ex_dev1] ex_dev3 [ex_dev2] (fun p => p).

Lemma ex_view_ok : tview_ok ex_view.
Proof.
  split; cbn; try done; try lia.
  intros i td. destruct i as [| [| i]]; cbn; intros; simplify_eq/=; by eauto with lia.
Qed.

Lemma ex_init_view : topo_view ex_view ex_init.
Proof.
  apply (topology_init_view ex_mem [ex_dev1] ex_dev3 [ex_dev2] 3 (Dev (Some 3%positive) None false None)
    (fun p => p)); try done.
  intros td p Htd Hp. cbn [app] in Htd. apply elem_of_cons in Htd as [-> | Htd].
  - cbn in Hp. simplify_eq. by eexists.
  - apply list_elem_of_singleton in Htd as ->. cbn in Hp. simplify_eq. by eexists.
Qed.

Lemma jesd204_topology_init_correct_witness :
  jesd204_topology_init false (Some [ex_dev1; ex_dev3; ex_dev2]) 3 ex_mem
  = Done ((0, Some 1%positive), ex_init).
Proof.
  refine (jesd204_topology_init_correct ex_mem [ex_dev1] ex_dev3 [ex_dev2] 3
    (Dev (Some 3%positive) None false None) _ _ _ _ _ _ _ _ _ _ _);
    try reflexivity; try (cbn; lia).
  repeat constructor.
Defined.

(** The callbacks of the clocks enabling operation in starting it. *)
Lemma jesd204_fsm_start_plan_witness :
  exists m', jesd204_fsm_start log_driver 17 (Some 1%positive) 0 ex_init = Done (0, m') /\
    take 9 (world m')
    = [(1, -1); (1, 0); (3, 0); (1, 1); (2, -1); (2, 1); (3, 1); (3, -1); (1, -1)].
Proof.
  eexists. split.
  - refine (eq_trans (jesd204_fsm_start_plan log_driver ex_view ex_view_ok (log_preserves ex_view)
      17 0 ex_init _ ex_init_view) _); [lia |].
    vm_compute. reflexivity.
  - vm_compute. reflexivity.
Defined.

Lemma jesd204_fsm_stop_plan_witness :
  exists m', jesd204_fsm_stop log_driver (Some 1%positive) 0 ex_init = Done (0, m') /\
    take 8 (world m')
    = [(3, -1); (3, 1); (2, -1); (2, 1); (1, -1); (1, 1); (3, 0); (1, 0)].
Proof.
  eexists. split.
  - refine (eq_trans (jesd204_fsm_stop_plan log_driver ex_view ex_view_ok (log_preserves ex_view)
      0 ex_init ex_init_view) _).
    vm_compute. reflexivity.
  - vm_compute. reflexivity.
Defined.
