(* ===== verification/Mutex.v ===== *)
(** * Mutexes and semaphores

    The interface the drivers' layer uses ([no_os_mutex.h],
    [no_os_semaphore.h]) as a class with its laws, and the two
    implementations the repository has: the default one, which does nothing
    ([util/no_os_mutex.c], [util/no_os_semaphore.c]), and the one of the
    FreeRTOS platform ([freertos_mutex.c], [freertos_semaphore.c]), whose
    semaphore calls are parameters with their documented behaviour. *)
From S2P Require Import Prelude.

(** ** The interface *)

(** [mutex_init] gets the value of the slot it is given the address of and
    returns the new one. *)
Class Mutex (M : Type) : Type := {
  no_os_mutex_init : ptr -> cmd M ptr;
  no_os_mutex_lock : ptr -> cmd M unit;
  no_os_mutex_unlock : ptr -> cmd M unit;
  no_os_mutex_remove : ptr -> cmd M unit
}.

Class Semaphore (M : Type) : Type := {
  no_os_semaphore_init : ptr -> cmd M ptr;
  no_os_semaphore_take : ptr -> cmd M unit;
  no_os_semaphore_give : ptr -> cmd M unit;
  no_os_semaphore_remove : ptr -> cmd M unit
}.

(** The laws: [mview] tells which mutexes exist and whether they are locked.
    A null mutex is never locked.  Locking a locked mutex waits for another
    task, which a single task never sees the end of. *)
Class MutexLaws (M : Type) `{Mutex M} : Type := {
  mview : M -> gmap positive bool;
  init_set p s : no_os_mutex_init (Some p) s = Done (Some p, s);
  init_null s : exists p s', no_os_mutex_init None s = Done (p, s') /\
    match p with
    | None => mview s' = mview s
    | Some q => mview s !! q = None /\ mview s' = <[q := false]> (mview s)
    end;
  null_lock s : no_os_mutex_lock None s = Done (tt, s);
  null_unlock s : no_os_mutex_unlock None s = Done (tt, s);
  null_remove s : no_os_mutex_remove None s = Done (tt, s);
  lock_free p s : mview s !! p = Some false ->
    exists s', no_os_mutex_lock (Some p) s = Done (tt, s') /\ mview s' = <[p := true]> (mview s);
  lock_held p s : mview s !! p = Some true -> no_os_mutex_lock (Some p) s = NoFuel;
  unlock_any p s : is_Some (mview s !! p) ->
    exists s', no_os_mutex_unlock (Some p) s = Done (tt, s') /\ mview s' = <[p := false]> (mview s);
  remove_any p s : is_Some (mview s !! p) ->
    exists s', no_os_mutex_remove (Some p) s = Done (tt, s') /\ mview s' = delete p (mview s)
}.

(** ** The default: nothing *)

Definition mutex_nop (mutex : ptr) : cmd unit unit := mret tt.
Definition mutex_init_nop (mutex : ptr) : cmd unit ptr := mret mutex.
Definition semaphore_nop (semaphore : ptr) : cmd unit unit := mret tt.
Definition semaphore_init_nop (semaphore : ptr) : cmd unit ptr := mret semaphore.

#[export] Instance weak_mutex : Mutex unit := {|
  no_os_mutex_init := mutex_init_nop;
  no_os_mutex_lock := mutex_nop;
  no_os_mutex_unlock := mutex_nop;
  no_os_mutex_remove := mutex_nop
|}.

#[export] Instance weak_semaphore : Semaphore unit := {|
  no_os_semaphore_init := semaphore_init_nop;
  no_os_semaphore_take := semaphore_nop;
  no_os_semaphore_give := semaphore_nop;
  no_os_semaphore_remove := semaphore_nop
|}.

(** There is no mutex but the null one. *)
Lemma no_mutex {P : Prop} (p : positive) (b : bool) : (∅ : gmap positive bool) !! p = Some b -> P.
Proof. by rewrite lookup_empty. Qed.

#[export] Instance weak_mutex_laws : MutexLaws unit.
Proof.
  refine {| mview _ := ∅ |}; try done.
  - intros s. by exists None, s.
  - intros p s [b H]. by apply (no_mutex p b).
  - intros p s [b H]. by apply (no_mutex p b).
Defined.

(** ** FreeRTOS *)

(** The kernel's binary semaphores, as FreeRTOS documents them: a new one is
    taken; giving makes it available; taking with [portMAX_DELAY] waits until it
    is.  The laws are those of a kernel that has the memory for a new one. *)
Class Rtos (R : Type) : Type := {
  xSemaphoreCreateBinary : cmd R ptr;
  xSemaphoreCreate : cmd R ptr;
  xSemaphoreGive : ptr -> cmd R unit;
  xSemaphoreTake : ptr -> cmd R unit;
  vSemaphoreDelete : ptr -> cmd R unit
}.

Class RtosLaws (R : Type) `{Rtos R} : Type := {
  available : R -> gmap positive bool;
  create_binary s : exists p s', xSemaphoreCreateBinary s = Done (Some p, s') /\
    available s !! p = None /\ available s' = <[p := false]> (available s);
  give_any p s : is_Some (available s !! p) ->
    exists s', xSemaphoreGive (Some p) s = Done (tt, s') /\
      available s' = <[p := true]> (available s);
  take_available p s : available s !! p = Some true ->
    exists s', xSemaphoreTake (Some p) s = Done (tt, s') /\
      available s' = <[p := false]> (available s);
  take_waits p s : available s !! p = Some false -> xSemaphoreTake (Some p) s = NoFuel;
  delete_any p s : is_Some (available s !! p) ->
    exists s', vSemaphoreDelete (Some p) s = Done (tt, s') /\
      available s' = delete p (available s)
}.

(** The blocks of [mutexTmp] and the kernel. *)
Record freertos (R : Type) : Type := Freertos {
  fr_heap : heap unit;
  fr_kernel : R
}.
Arguments Freertos {R} _ _.
Arguments fr_heap {R} _.
Arguments fr_kernel {R} _.

Section freertos.
  Context {R : Type} `{Rtos R}.

Definition kernel {A} : cmd R A -> cmd (freertos R) A :=
  zoom fr_kernel (fun k s => Freertos (fr_heap s) k).

(** The block [mutexTmp] points to is allocated and forgotten. *)
Definition freertos_mutex_init (mutex : ptr) : cmd (freertos R) ptr :=
  match mutex with
  | Some _ => mret mutex
  | None =>
      _ ← zoom fr_heap (fun h s => Freertos h (fr_kernel s)) (halloc tt);
      mutex ← kernel xSemaphoreCreateBinary;
      _ ← kernel (xSemaphoreGive mutex);
      mret mutex
  end.

Definition freertos_mutex_lock (mutex : ptr) : cmd (freertos R) unit :=
  match mutex with Some _ => kernel (xSemaphoreTake mutex) | None => mret tt end.

Definition freertos_mutex_unlock (mutex : ptr) : cmd (freertos R) unit :=
  match mutex with Some _ => kernel (xSemaphoreGive mutex) | None => mret tt end.

Definition freertos_mutex_remove (mutex : ptr) : cmd (freertos R) unit :=
  match mutex with Some _ => kernel (vSemaphoreDelete mutex) | None => mret tt end.

#[export] Instance freertos_mutex : Mutex (freertos R) := {|
  no_os_mutex_init := freertos_mutex_init;
  no_os_mutex_lock := freertos_mutex_lock;
  no_os_mutex_unlock := freertos_mutex_unlock;
  no_os_mutex_remove := freertos_mutex_remove
|}.

Definition freertos_semaphore_init (semaphore : ptr) : cmd (freertos R) ptr :=
  match semaphore with
  | Some _ => mret semaphore
  | None =>
      _ ← zoom fr_heap (fun h s => Freertos h (fr_kernel s)) (halloc tt);
      semaphore ← kernel xSemaphoreCreate;
      _ ← kernel (xSemaphoreGive semaphore);
      mret semaphore
  end.

Definition freertos_semaphore_take (semaphore : ptr) : cmd (freertos R) unit :=
  match semaphore with Some _ => kernel (xSemaphoreTake semaphore) | None => mret tt end.

Definition freertos_semaphore_give (semaphore : ptr) : cmd (freertos R) unit :=
  match semaphore with Some _ => kernel (xSemaphoreGive semaphore) | None => mret tt end.

Definition freertos_semaphore_remove (semaphore : ptr) : cmd (freertos R) unit :=
  match semaphore with Some _ => kernel (vSemaphoreDelete semaphore) | None => mret tt end.

#[export] Instance freertos_semaphore : Semaphore (freertos R) := {|
  no_os_semaphore_init := freertos_semaphore_init;
  no_os_semaphore_take := freertos_semaphore_take;
  no_os_semaphore_give := freertos_semaphore_give;
  no_os_semaphore_remove := freertos_semaphore_remove
|}.

(** The FreeRTOS mutexes obey the laws: a locked mutex is an unavailable
    semaphore. *)
Context {L : RtosLaws R}.

Definition locked (s : freertos R) : gmap positive bool := negb <$> available (fr_kernel s).

Lemma kernel_done {A} (c : cmd R A) s a k :
  c (fr_kernel s) = Done (a, k) -> kernel c s = Done (a, Freertos (fr_heap s) k).
Proof. intros Hc. unfold kernel. by erewrite zoom_done. Qed.

Lemma freertos_take_law p s :
  locked s !! p = Some false ->
  exists s', freertos_mutex_lock (Some p) s = Done (tt, s') /\ locked s' = <[p := true]> (locked s).
Proof.
  unfold locked. rewrite lookup_fmap. intros ([] & Hp & ?)%fmap_Some; [| done].
  destruct (take_available p _ Hp) as (k & Hk & Hv). eexists. split.
  - by apply kernel_done.
  - cbn. by rewrite Hv, fmap_insert.
Qed.

Lemma freertos_give_law p s :
  is_Some (locked s !! p) ->
  exists s', freertos_mutex_unlock (Some p) s = Done (tt, s') /\ locked s' = <[p := false]> (locked s).
Proof.
  unfold locked. rewrite lookup_fmap, fmap_is_Some. intros Hp.
  destruct (give_any p _ Hp) as (k & Hk & Hv). eexists. split.
  - by apply kernel_done.
  - cbn. by rewrite Hv, fmap_insert.
Qed.

Lemma freertos_init_law s :
  exists p s', freertos_mutex_init None s = Done (p, s') /\
    match p with
    | None => locked s' = locked s
    | Some q => locked s !! q = None /\ locked s' = <[q := false]> (locked s)
    end.
Proof.
  destruct (create_binary (fr_kernel s)) as (p & k1 & Hc & Hnew & Hv1).
  destruct (give_any p k1) as (k2 & Hg & Hv2); [rewrite Hv1; by rewrite lookup_insert_eq |].
  assert (exists h q, halloc tt (fr_heap s) = Done (q, h)) as (h & q & Hh).
  { destruct (alloc_fails (fr_heap s)) eqn:E;
      [rewrite (halloc_fail _ _ E) | rewrite (halloc_done _ _ E)]; eauto. }
  exists (Some p), (Freertos h k2). splits.
  - unfold freertos_mutex_init.
    rewrite (bind_done _ _ _ q (Freertos h (fr_kernel s))) by (by erewrite zoom_done).
    rewrite (bind_done _ _ _ (Some p) (Freertos h k1)) by by apply kernel_done.
    by rewrite (bind_done _ _ _ tt (Freertos h k2)) by by apply kernel_done.
  - unfold locked. by rewrite lookup_fmap, Hnew.
  - unfold locked. cbn. by rewrite Hv2, Hv1, insert_insert_eq, fmap_insert.
Qed.

Lemma freertos_wait_law p s :
  locked s !! p = Some true -> freertos_mutex_lock (Some p) s = NoFuel.
Proof.
  unfold locked. rewrite lookup_fmap. intros ([] & Hp & ?)%fmap_Some; [done |].
  cbn. unfold kernel, zoom. by rewrite take_waits.
Qed.

Lemma freertos_delete_law p s :
  is_Some (locked s !! p) ->
  exists s', freertos_mutex_remove (Some p) s = Done (tt, s') /\ locked s' = delete p (locked s).
Proof.
  unfold locked. rewrite lookup_fmap, fmap_is_Some. intros Hp.
  destruct (delete_any p _ Hp) as (k & Hk & Hv). eexists. split.
  - by apply kernel_done.
  - cbn. by rewrite Hv, fmap_delete.
Qed.

#[export] Instance freertos_mutex_laws : MutexLaws (freertos R).
Proof.
  refine {| mview := locked; init_set p s := eq_refl; init_null := freertos_init_law;
            null_lock s := eq_refl; null_unlock s := eq_refl; null_remove s := eq_refl;
            lock_free := freertos_take_law; lock_held := freertos_wait_law;
            unlock_any := freertos_give_law; remove_any := freertos_delete_law |}.
Defined.
End freertos.

(** ** A kernel for the examples: semaphores in a map *)

Record sim_kernel : Type := SimKernel { sim_sems : gmap positive bool }.

Definition sim_create : cmd sim_kernel ptr := fun k =>
  let p := fresh (dom (sim_sems k)) in Done (Some p, SimKernel (<[p := false]> (sim_sems k))).

Definition sim_set (b : bool) (p : ptr) : cmd sim_kernel unit := fun k =>
  match p ≫= (sim_sems k !!.), p with
  | Some _, Some q => Done (tt, SimKernel (<[q := b]> (sim_sems k)))
  | _, _ => Undef
  end.

Definition sim_take (p : ptr) : cmd sim_kernel unit := fun k =>
  match p ≫= (sim_sems k !!.) with
  | Some true => sim_set false p k
  | Some false => NoFuel
  | None => Undef
  end.

Definition sim_delete (p : ptr) : cmd sim_kernel unit := fun k =>
  match p ≫= (sim_sems k !!.), p with
  | Some _, Some q => Done (tt, SimKernel (delete q (sim_sems k)))
  | _, _ => Undef
  end.

#[export] Instance sim_rtos : Rtos sim_kernel := {|
  xSemaphoreCreateBinary := sim_create;
  xSemaphoreCreate := sim_create;
  xSemaphoreGive := sim_set true;
  xSemaphoreTake := sim_take;
  vSemaphoreDelete := sim_delete
|}.

#[export] Program Instance sim_rtos_laws : RtosLaws sim_kernel := {| available := sim_sems |}.
Next Obligation.
  intros s. eexists _, _. splits; [done | | done]. apply not_elem_of_dom, is_fresh.
Qed.
Next Obligation.
  intros p s [b Hb]. cbn. unfold sim_set. cbn. rewrite Hb. by eexists.
Qed.
Next Obligation.
  intros p s Hp. cbn. unfold sim_take, sim_set. cbn. rewrite Hp. by eexists.
Qed.
Next Obligation. intros p s Hp. cbn. unfold sim_take. cbn. by rewrite Hp. Qed.
Next Obligation.
  intros p s [b Hb]. cbn. unfold sim_delete. cbn. rewrite Hb. by eexists.
Qed.

(** ** Brackets *)

(** The lock around a call: what the drivers' layer does with its mutexes. *)
Section bracket.
  Context {M S : Type} `{ML : MutexLaws M}.
  Context (getm : S -> M) (setm : M -> S -> S).

Definition with_mutex {A} : cmd M A -> cmd S A := zoom getm setm.

(** [get_mutex] reads the mutex anew before it is locked and before it is
    unlocked, as the code does. *)
Definition locked_call {A} (get_mutex : cmd S ptr) (c : cmd S A) : cmd S A :=
  mutex ← get_mutex;
  _ ← with_mutex (no_os_mutex_lock mutex);
  r ← c;
  mutex ← get_mutex;
  _ ← with_mutex (no_os_mutex_unlock mutex);
  mret r.

(** A null mutex or one that exists and is free. *)
Definition unlocked (m : M) (mutex : ptr) : Prop :=
  match mutex with None => True | Some p => mview m !! p = Some false end.

Context (getset : forall m s, getm (setm m s) = m).
Context (setset : forall m m' s, setm m (setm m' s) = setm m s).

Lemma with_mutex_done {A} (c : cmd M A) s a m :
  c (getm s) = Done (a, m) -> with_mutex c s = Done (a, setm m s).
Proof. intros Hc. unfold with_mutex. by erewrite zoom_done. Qed.

(** The lock reads the mutex whatever the state of the mutexes. *)
Definition reads_mutex (get_mutex : cmd S ptr) (s : S) (mutex : ptr) : Prop :=
  forall m, get_mutex (setm m s) = Done (mutex, setm m s).

(** Locking a free mutex succeeds; if the call leaves the mutexes as it found
    them, so does the bracket. *)
Lemma locked_call_run {A} get_mutex mutex (c : cmd S A) s r s' :
  setm (getm s) s = s -> reads_mutex get_mutex s mutex -> reads_mutex get_mutex s' mutex ->
  unlocked (getm s) mutex ->
  (forall m, exists m', c (setm m s) = Done (r, setm m' s') /\ mview m' = mview m) ->
  exists m', locked_call get_mutex c s = Done (r, setm m' s') /\ mview m' = mview (getm s).
Proof using All.
  intros Hs Hg Hg' Hfree Hc. unfold locked_call.
  pose proof (Hg (getm s)) as Hg0. rewrite Hs in Hg0. rewrite (bind_done _ _ _ _ _ Hg0).
  assert (exists m1, no_os_mutex_lock mutex (getm s) = Done (tt, m1) /\
    (forall m2, mview m2 = mview m1 -> exists m3, no_os_mutex_unlock mutex m2 = Done (tt, m3) /\
       mview m3 = mview (getm s))) as (m1 & Hl & Hu).
  { destruct mutex as [p |].
    - destruct (lock_free p (getm s) Hfree) as (m1 & Hl & Hv1). exists m1. split; [done |].
      intros m2 Hv2. destruct (unlock_any p m2) as (m3 & Hu & Hv3).
      { by rewrite Hv2, Hv1, lookup_insert_eq. }
      exists m3. split; [done |]. rewrite Hv3, Hv2, Hv1, insert_insert_eq. by apply insert_id.
    - exists (getm s). split; [apply null_lock |]. intros m2 Hv2. exists m2.
      split; [apply null_unlock | done]. }
  rewrite (bind_done _ _ _ _ _ (with_mutex_done _ _ _ _ Hl)).
  destruct (Hc m1) as (m2 & Hr & Hv2). rewrite (bind_done _ _ _ _ _ Hr), (bind_done _ _ _ _ _ (Hg' _)).
  destruct (Hu m2 Hv2) as (m3 & Hm3 & Hv3). exists m3. split; [| done].
  rewrite <- (getset m2 s') in Hm3.
  rewrite (bind_done _ _ _ _ _ (with_mutex_done _ _ _ _ Hm3)). by rewrite setset.
Qed.

(** The lock of a null mutex does nothing. *)
Lemma locked_call_null {A} get_mutex (c : cmd S A) s r s' :
  (forall s, setm (getm s) s = s) ->
  get_mutex s = Done (None, s) -> c s = Done (r, s') -> get_mutex s' = Done (None, s') ->
  locked_call get_mutex c s = Done (r, s').
Proof using ML.
  intros Hid Hg Hc Hg'. unfold locked_call. rewrite (bind_done _ _ _ _ _ Hg).
  rewrite (bind_done _ _ _ tt s) by by rewrite (with_mutex_done _ _ _ _ (null_lock (getm s))), Hid.
  rewrite (bind_done _ _ _ _ _ Hc), (bind_done _ _ _ _ _ Hg').
  by rewrite (bind_done _ _ _ tt s')
    by by rewrite (with_mutex_done _ _ _ _ (null_unlock (getm s'))), Hid.
Qed.

(** Locking a mutex the task holds already never ends. *)
Lemma locked_call_held {A} get_mutex p (c : cmd S A) s :
  get_mutex s = Done (Some p, s) -> mview (getm s) !! p = Some true ->
  locked_call get_mutex c s = NoFuel.
Proof using ML.
  intros Hg Hp. unfold locked_call. rewrite (bind_done _ _ _ _ _ Hg).
  unfold mbind, cmd_bind, with_mutex, zoom. by rewrite lock_held.
Qed.
End bracket.
