(* ===== verification/Bus.v ===== *)
(** * Shared buses

    What [no_os_spi.c] and [no_os_i2c.c] have in common: a table of buses that
    their descriptors share, created with the first descriptor of a device and
    freed with the last, each with a mutex that serialises the transfers.  The
    two interfaces instantiate it in [Spi] and [I2c]. *)
From S2P Require Import Prelude Mutex.

(** ** Interfaces *)

(** A bus descriptor [B] and a device descriptor [D]. *)
Class BusDesc (B : Type) : Type := {
  bus_mutex : B -> ptr;
  bus_id : B -> Z;
  slaves : B -> Z;
  set_slaves : Z -> B -> B
}.

Class BusDescLaws (B : Type) `{BusDesc B} : Prop := {
  set_slaves_mutex n b : bus_mutex (set_slaves n b) = bus_mutex b;
  set_slaves_id n b : bus_id (set_slaves n b) = bus_id b;
  set_slaves_slaves n b : slaves (set_slaves n b) = n
}.

Class DevDesc (D : Type) : Type := {
  bus_of : D -> ptr;
  set_bus : ptr -> D -> D;
  ops_of : D -> ptr
}.

Class DevDescLaws (D : Type) `{DevDesc D} : Prop := {
  set_bus_of p d : bus_of (set_bus p d) = p
}.

(** ** Memory *)

(** [table] is the static array of bus pointers; [world] is the platform's. *)
Record bus_mem (B D M W : Type) : Type := BusMem {
  table : list ptr;
  buses : heap B;
  descs : heap D;
  mutexes : M;
  world : W
}.
Arguments BusMem {B D M W} _ _ _ _ _.
Arguments table {B D M W} _.
Arguments buses {B D M W} _.
Arguments descs {B D M W} _.
Arguments mutexes {B D M W} _.
Arguments world {B D M W} _.

(** What the platform's operations work on: the device descriptors, which they
    allocate and free, and a world of their own. *)
Definition platform (D W : Type) : Type := (heap D * W)%type.

Section bus.
  Context {B D M W : Type} {BD : BusDesc B} {DD : DevDesc D} {MM : Mutex M}.
  Abbreviation mem := (bus_mem B D M W).

Definition set_mutexes (x : M) (m : mem) : mem :=
  BusMem (table m) (buses m) (descs m) x (world m).

Definition on_table {A} : cmd (list ptr) A -> cmd mem A :=
  zoom table (fun t m => BusMem t (buses m) (descs m) (mutexes m) (world m)).
Definition on_buses {A} : cmd (heap B) A -> cmd mem A :=
  zoom buses (fun h m => BusMem (table m) h (descs m) (mutexes m) (world m)).
Definition on_descs {A} : cmd (heap D) A -> cmd mem A :=
  zoom descs (fun h m => BusMem (table m) (buses m) h (mutexes m) (world m)).
Definition on_mutexes {A} : cmd M A -> cmd mem A := zoom mutexes set_mutexes.
Definition on_platform {A} : cmd (platform D W) A -> cmd mem A :=
  zoom (fun m => (descs m, world m))
       (fun p m => BusMem (table m) (buses m) p.1 (mutexes m) p.2).

(** [no_os_spibus_init], [no_os_i2cbus_init]: [mk] is the descriptor with its
    mutex. *)
Definition bus_init (id : Z) (mk : ptr -> B) : cmd mem Z :=
  bus ← on_buses (halloc (mk None));
  match bus with
  | None => mret (- ENOMEM)
  | Some _ =>
      mutex ← on_mutexes (no_os_mutex_init None);
      _ ← on_buses (hstore bus (mk mutex));
      _ ← on_table (astore id bus);
      mret 0
  end.

(** [no_os_spibus_remove], [no_os_i2cbus_remove] *)
Definition bus_remove (bus_number : Z) : cmd mem unit :=
  bus ← on_table (aload bus_number);
  b ← on_buses (hload bus);
  _ ← on_buses (hstore bus (if 0 <? slaves b then set_slaves (slaves b - 1) b else b));
  b ← on_buses (hload bus);
  if slaves b =? 0 then
    _ ← on_mutexes (no_os_mutex_remove (bus_mutex b));
    _ ← on_buses (hfree bus);
    on_table (astore bus_number None)
  else mret tt.

(** The end of the two [init] functions: the descriptor gets its bus, which
    counts it, and the fields the platform does not set. *)
Definition attach_desc (id : Z) (desc : ptr) (fields : D -> D) : cmd mem unit :=
  bus ← on_table (aload id);
  d ← on_descs (hload desc);
  _ ← on_descs (hstore desc (set_bus bus d));
  b ← on_buses (hload bus);
  _ ← on_buses (hstore bus (set_slaves (u8 (slaves b + 1)) b));
  d ← on_descs (hload desc);
  on_descs (hstore desc (fields d)).

(** The two [init] functions after their checks: the bus, the platform's
    [init], and the descriptor. *)
Definition bus_attach (id : Z) (init_bus : cmd mem Z) (init : cmd (platform D W) (Z * ptr))
    (fields : D -> D) : cmd mem (Z * ptr) :=
  bus ← on_table (aload id);
  ret ← match bus with None => init_bus | Some _ => mret 0 end;
  if truthy ret then mret (ret, None) else
  r ← on_platform init;
  if truthy r.1 then mret r else
  _ ← attach_desc id r.2 fields;
  mret (0, r.2).

(** [if (desc->bus) no_os_...bus_remove(desc->bus->device_id)] *)
Definition bus_detach (desc : ptr) : cmd mem unit :=
  d ← on_descs (hload desc);
  match bus_of d with
  | None => mret tt
  | Some _ => b ← on_buses (hload (bus_of d)); bus_remove (bus_id b)
  end.

(** [desc->bus->mutex] *)
Definition desc_mutex (desc : ptr) : cmd mem ptr :=
  d ← on_descs (hload desc);
  b ← on_buses (hload (bus_of d));
  mret (bus_mutex b).

(** A transfer of the platform under the bus's lock. *)
Definition locked_transfer {A} (desc : ptr) (op : cmd mem A) : cmd mem A :=
  locked_call mutexes set_mutexes (desc_mutex desc) op.

(** ** Reading and writing *)

Lemma mem_eta (m : mem) :
  BusMem (table m) (buses m) (descs m) (mutexes m) (world m) = m.
Proof. by destruct m. Qed.

Lemma table_run {A} (c : cmd (list ptr) A) (m : mem) a t :
  c (table m) = Done (a, t) ->
  on_table c m = Done (a, BusMem t (buses m) (descs m) (mutexes m) (world m)).
Proof. intros Hc. unfold on_table. by erewrite zoom_done. Qed.

Lemma buses_run {A} (c : cmd (heap B) A) (m : mem) a h :
  c (buses m) = Done (a, h) ->
  on_buses c m = Done (a, BusMem (table m) h (descs m) (mutexes m) (world m)).
Proof. intros Hc. unfold on_buses. by erewrite zoom_done. Qed.

Lemma descs_run {A} (c : cmd (heap D) A) (m : mem) a h :
  c (descs m) = Done (a, h) ->
  on_descs c m = Done (a, BusMem (table m) (buses m) h (mutexes m) (world m)).
Proof. intros Hc. unfold on_descs. by erewrite zoom_done. Qed.

Lemma mutexes_run {A} (c : cmd M A) (m : mem) a x :
  c (mutexes m) = Done (a, x) ->
  on_mutexes c m = Done (a, BusMem (table m) (buses m) (descs m) x (world m)).
Proof. intros Hc. unfold on_mutexes. by erewrite zoom_done. Qed.

Lemma table_load (m : mem) i p :
  0 <= i -> table m !! Z.to_nat i = Some p -> on_table (aload i) m = Done (p, m).
Proof. intros Hi Hp. rewrite (table_run _ m _ _ (aload_done _ _ _ Hi Hp)). by rewrite mem_eta. Qed.

Lemma buses_load (m : mem) p b :
  cells (buses m) !! p = Some b -> on_buses (hload (Some p)) m = Done (b, m).
Proof. intros Hp. rewrite (buses_run _ m _ _ (hload_done _ _ _ Hp)). by rewrite mem_eta. Qed.

Lemma descs_load (m : mem) p d :
  cells (descs m) !! p = Some d -> on_descs (hload (Some p)) m = Done (d, m).
Proof. intros Hp. rewrite (descs_run _ m _ _ (hload_done _ _ _ Hp)). by rewrite mem_eta. Qed.

(** ** The invariant

    [live] are the device descriptors that were initialised and not removed,
    each with its bus.  Every bus of the table is alive, belongs to its entry,
    counts its live descriptors and has a free mutex of its own; every live
    descriptor points to a bus of the table; and no bus is lost. *)

Context {BL : BusDescLaws B} {DL : DevDescLaws D} {ML : MutexLaws M}.

Definition live_on (live : list (positive * positive)) (b : positive) : Z :=
  Z.of_nat (length (filter (fun x => x.2 = b) live)).

Record bus_ok (n : nat) (live : list (positive * positive)) (m : mem) : Prop := BusOk {
  ok_len : length (table m) = n;
  ok_heap : heap_ok (buses m);
  ok_nodup : NoDup live.*1;
  ok_table : forall i b, table m !! i = Some (Some b) ->
    exists B, cells (buses m) !! b = Some B /\ bus_id B = Z.of_nat i /\
      slaves B = live_on live b /\ unlocked (mutexes m) (bus_mutex B);
  ok_live : forall d b, (d, b) ∈ live ->
    (exists i, table m !! i = Some (Some b)) /\
    exists D, cells (descs m) !! d = Some D /\ bus_of D = Some b;
  ok_owned : forall b, is_Some (cells (buses m) !! b) -> exists i, table m !! i = Some (Some b);
  ok_mutex : forall b1 b2 B1 B2 q,
    cells (buses m) !! b1 = Some B1 -> cells (buses m) !! b2 = Some B2 ->
    bus_mutex B1 = Some q -> bus_mutex B2 = Some q -> b1 = b2
}.

Lemma live_on_fresh live b : (forall d, (d, b) ∉ live) -> live_on live b = 0.
Proof.
  intros H. unfold live_on. replace (filter _ live) with (@nil (positive * positive)); [done |].
  symmetry. induction live as [| [d b'] live IH]; [done |].
  rewrite filter_cons. rewrite decide_False.
  - apply IH. intros d' Hd. apply (H d'). by right.
  - cbn. intros ->. apply (H d). by left.
Qed.

Lemma live_on_cons live d b b' :
  live_on ((d, b) :: live) b' = live_on live b' + (if decide (b = b') then 1 else 0).
Proof.
  unfold live_on. rewrite filter_cons. cbn. destruct (decide (b = b')); cbn; lia.
Qed.

(** A bus is in one entry of the table. *)
Lemma bus_entry n live m i j b :
  bus_ok n live m -> table m !! i = Some (Some b) -> table m !! j = Some (Some b) -> i = j.
Proof.
  intros Hm Hi Hj. destruct (ok_table _ _ _ Hm _ _ Hi) as (B1 & HB1 & Hid1 & _).
  destruct (ok_table _ _ _ Hm _ _ Hj) as (B2 & HB2 & Hid2 & _).
  rewrite HB1 in HB2. simplify_eq. lia.
Qed.

(** A new bus: nothing is attached to it, its mutex is new. *)
Lemma bus_init_ok n live m id mk :
  bus_ok n live m -> 0 <= id -> table m !! Z.to_nat id = Some None ->
  alloc_fails (buses m) = false ->
  (forall p, bus_id (mk p) = id /\ slaves (mk p) = 0 /\ bus_mutex (mk p) = p) ->
  exists m', bus_init id mk m = Done (0, m') /\ bus_ok n live m' /\ descs m' = descs m /\
    world m' = world m /\ table m' = <[Z.to_nat id := Some (next_block (buses m))]> (table m).
Proof.
  intros Hm Hid Hnone Ha Hmk. set (b := next_block (buses m)).
  assert (cells (buses m) !! b = None) as Hfresh by apply (heap_ok_fresh _ (ok_heap _ _ _ Hm)).
  destruct (init_null (mutexes m)) as (q & x & Hq & Hqv).
  set (t := <[Z.to_nat id := Some b]> (table m)).
  set (h := Heap (<[b := mk q]> (cells (buses m))) (Pos.succ b) (tail (oom (buses m)))).
  exists (BusMem t h (descs m) x (world m)). splits; try done.
  - unfold bus_init. rewrite (bind_done _ _ _ _ _ (buses_run _ _ _ _ (halloc_done _ _ Ha))). cbn iota.
    erewrite bind_done; [| apply mutexes_run; exact Hq]. cbn [table buses descs mutexes world].
    erewrite bind_done.
    2: { apply buses_run. eapply hstore_done. cbn. by rewrite lookup_insert_eq. }
    cbn [table buses descs mutexes world cells next_block oom].
    erewrite bind_done.
    2: { apply table_run, astore_done. apply lookup_lt_Some in Hnone. cbn. lia. }
    cbn. rewrite insert_insert_eq. done.
  - destruct (Hmk q) as (Hmid & Hms & Hmm).
    assert (forall p B, cells (buses m) !! p = Some B -> p <> b) as Hne by congruence.
    assert (forall d, (d, b) ∉ live) as Hnl.
    { intros d Hd. destruct (ok_live _ _ _ Hm d b Hd) as [[i Hi] _].
      destruct (ok_table _ _ _ Hm i b Hi) as (B' & HB & _). congruence. }
    assert (forall B', cells (buses m) !! b = Some B' -> False) as Hnb by congruence.
    assert (Z.to_nat id < length (table m))%nat as Hlen by by apply lookup_lt_Some in Hnone.
    split; cbn.
    + unfold t. rewrite length_insert. apply Hm.
    + apply heap_ok_insert; [apply Hm | fold b; lia | fold b; lia].
    + apply Hm.
    + intros i p. unfold t. rewrite list_lookup_insert. case_decide as Hi.
      * destruct Hi as [<- _]. intros [= <-]. exists (mk q). rewrite lookup_insert_eq.
        splits; [done | lia | by rewrite Hms, live_on_fresh |].
        rewrite Hmm. destruct q as [q |]; cbn; [| done]. destruct Hqv as [_ ->]. by rewrite lookup_insert_eq.
      * intros Hp. destruct (ok_table _ _ _ Hm i p Hp) as (B' & HB & H1' & H2' & H3').
        exists B'. rewrite lookup_insert_ne by (by apply not_eq_sym, (Hne _ _ HB)). splits; try done.
        destruct (bus_mutex B') as [q' |]; cbn in *; [| done].
        destruct q as [q |]; [destruct Hqv as [Hqn ->]; rewrite lookup_insert_ne by congruence; done |
                              by rewrite Hqv].
    + intros d p Hd. destruct (ok_live _ _ _ Hm d p Hd) as [[i Hi] HD]. split; [| done].
      exists i. unfold t. rewrite list_lookup_insert_ne; [done |]. intros <-. congruence.
    + intros p. rewrite lookup_insert. case_decide as Hp.
      * subst p. intros _. exists (Z.to_nat id). unfold t. by rewrite list_lookup_insert_eq.
      * intros HB. destruct (ok_owned _ _ _ Hm p HB) as [i Hi]. exists i.
        unfold t. rewrite list_lookup_insert_ne; [done |]. intros <-. congruence.
    + intros b1 b2 B1 B2 q0. rewrite !lookup_insert.
      assert (forall p B', cells (buses m) !! p = Some B' -> bus_mutex B' = q -> q = Some q0 -> False) as Hold.
      { intros p B' HB Hq1 ->. destruct Hqv as [Hqn _].
        destruct (ok_owned _ _ _ Hm p) as [i Hi]; [by eexists |].
        destruct (ok_table _ _ _ Hm i p Hi) as (B2' & HB2 & _ & _ & Hu). rewrite HB in HB2. simplify_eq.
        rewrite Hq1 in Hu. cbn in Hu. congruence. }
      do 2 case_decide; intros; simplify_eq; rewrite ?Hmm in *; try done.
      * exfalso. eapply Hold; [done | | done]. congruence.
      * exfalso. eapply Hold; [done | | done]. congruence.
      * by eapply (ok_mutex _ _ _ Hm).
Qed.

(** The other live descriptors are as they were. *)
Definition keeps_live (live : list (positive * positive)) (h h' : heap D) : Prop :=
  forall d b, (d, b) ∈ live -> cells h' !! d = cells h !! d.

(** Replacing the record of the bus [b], which keeps its id and mutex. *)
Lemma bus_replace n live live' (m : mem) h' w' i b (B0 B1 : B) :
  bus_ok n live m -> table m !! i = Some (Some b) -> cells (buses m) !! b = Some B0 ->
  bus_id B1 = bus_id B0 -> bus_mutex B1 = bus_mutex B0 -> slaves B1 = live_on live' b ->
  NoDup live'.*1 ->
  (forall b', b' <> b -> live_on live' b' = live_on live b') ->
  (forall d b', (d, b') ∈ live' -> (exists j, table m !! j = Some (Some b')) /\
     exists D0, cells h' !! d = Some D0 /\ bus_of D0 = Some b') ->
  bus_ok n live' (BusMem (table m)
    (Heap (<[b := B1]> (cells (buses m))) (next_block (buses m)) (oom (buses m))) h' (mutexes m) w').
Proof using BL DL ML.
  intros Hm Hi HB Hid Hmu Hsl Hnd Hoth Hlive. split; cbn.
  - apply Hm.
  - apply heap_ok_insert; [apply Hm | | lia]. apply (ok_heap _ _ _ Hm). by eexists.
  - done.
  - intros j p Hj. destruct (ok_table _ _ _ Hm j p Hj) as (B2 & HB2 & Hid2 & Hs2 & Hu2).
    rewrite lookup_insert. case_decide as Hp.
    + subst p. rewrite HB in HB2. simplify_eq. exists B1. rewrite Hid, Hmu. by splits.
    + exists B2. splits; try done. by rewrite Hoth.
  - done.
  - intros p. rewrite lookup_insert. case_decide as Hp; [subst p; intros _; by exists i |].
    apply (ok_owned _ _ _ Hm).
  - intros b1 b2 C1 C2 q. rewrite !lookup_insert.
    do 2 case_decide; intros; simplify_eq; rewrite ?Hmu in *; try done;
      by eapply (ok_mutex _ _ _ Hm).
Qed.

Lemma live_elem (live : list (positive * positive)) (d b : positive) :
  (d, b) ∈ live -> d ∈ live.*1.
Proof. intros Hd. apply list_elem_of_fmap. by exists (d, b). Qed.

(** The descriptor is attached to the bus of its entry. *)
Lemma attach_desc_run n live (m : mem) id b p d fields :
  bus_ok n live m -> 0 <= id -> table m !! Z.to_nat id = Some (Some b) ->
  live_on live b < 255 -> cells (descs m) !! p = Some d -> p ∉ live.*1 ->
  (forall d, bus_of (fields d) = bus_of d) ->
  exists m', attach_desc id (Some p) fields m = Done (tt, m') /\
    bus_ok n ((p, b) :: live) m' /\ table m' = table m /\ world m' = world m /\
    cells (descs m') = <[p := fields (set_bus (Some b) d)]> (cells (descs m)).
Proof using BL DL ML.
  intros Hm Hid Hb Hlt Hp Hnew Hf.
  destruct (ok_table _ _ _ Hm _ _ Hb) as (B0 & HB & HBid & HBs & HBm).
  assert (0 <= live_on live b) as Hge by (unfold live_on; lia).
  set (B1 := set_slaves (u8 (slaves B0 + 1)) B0).
  set (h' := Heap (<[p := fields (set_bus (Some b) d)]> (cells (descs m))) (next_block (descs m))
               (oom (descs m))).
  eexists. split; [| split; [apply (bus_replace n live ((p, b) :: live) m h' (world m) (Z.to_nat id)
    b B0 B1 Hm Hb HB) | done]].
  - unfold attach_desc. rewrite (bind_done _ _ _ _ _ (table_load m id (Some b) Hid Hb)).
    rewrite (bind_done _ _ _ _ _ (descs_load m p d Hp)).
    erewrite bind_done; [| by eapply descs_run, hstore_done].
    erewrite bind_done; [| by apply buses_load].
    erewrite bind_done; [| by eapply buses_run, hstore_done].
    erewrite bind_done; [| apply descs_load; cbn; by rewrite lookup_insert_eq].
    erewrite descs_run; [| eapply hstore_done; cbn; by rewrite lookup_insert_eq].
    cbn. rewrite insert_insert_eq. done.
  - apply set_slaves_id.
  - apply set_slaves_mutex.
  - unfold B1. rewrite set_slaves_slaves, live_on_cons, decide_True by done.
    rewrite wrap_small by (ulia). lia.
  - cbn. constructor; [done | apply Hm].
  - intros b' Hb'. rewrite live_on_cons, decide_False by congruence. lia.
  - intros d' b' [Hd | Hd]%elem_of_cons.
    + simplify_eq. split; [by exists (Z.to_nat id) |]. exists (fields (set_bus (Some b) d)).
      cbn. rewrite lookup_insert_eq, Hf. split; [done | apply set_bus_of].
    + destruct (ok_live _ _ _ Hm d' b' Hd) as [Hj (D0 & HD & HDb)]. split; [done |].
      exists D0. cbn. rewrite lookup_insert_ne; [done |].
      intros ->. apply Hnew. by eapply live_elem.
Qed.

(** The platform changes its descriptors, but not the live ones. *)
Lemma platform_ok n live (m : mem) h' w' :
  bus_ok n live m -> keeps_live live (descs m) h' ->
  bus_ok n live (BusMem (table m) (buses m) h' (mutexes m) w').
Proof.
  intros Hm Hk. split; cbn; try apply Hm.
  intros d b Hd. destruct (ok_live _ _ _ Hm d b Hd) as [Hj (D0 & HD & HDb)].
  split; [done |]. exists D0. by rewrite (Hk d b Hd).
Qed.

Lemma on_platform_run {A} (c : cmd (platform D W) A) (m : mem) a h' w' :
  c (descs m, world m) = Done (a, (h', w')) ->
  on_platform c m = Done (a, BusMem (table m) (buses m) h' (mutexes m) w').
Proof. intros Hc. unfold on_platform. by rewrite (zoom_done _ _ _ m a (h', w')). Qed.

(** What the platform's [init] promises: an error, or a new descriptor. *)
Definition init_promise live (h h' : heap D) (r : Z * ptr) : Prop :=
  keeps_live live h h' /\
  (r.1 = 0 -> exists p d, r.2 = Some p /\ cells h' !! p = Some d /\ p ∉ live.*1).

Lemma bus_attach_ok n live (m : mem) id mk fields init r h' w' :
  bus_ok n live m -> 0 <= id < Z.of_nat n ->
  (table m !! Z.to_nat id = Some None -> alloc_fails (buses m) = false) ->
  (forall b, table m !! Z.to_nat id = Some (Some b) -> live_on live b < 255) ->
  (forall p, bus_id (mk p) = id /\ slaves (mk p) = 0 /\ bus_mutex (mk p) = p) ->
  (forall d, bus_of (fields d) = bus_of d) ->
  init (descs m, world m) = Done (r, (h', w')) -> init_promise live (descs m) h' r ->
  exists m', bus_attach id (bus_init id mk) init fields m = Done (r, m') /\
    if truthy r.1 then bus_ok n live m' /\ descs m' = h'
    else exists p b, r.2 = Some p /\ table m' !! Z.to_nat id = Some (Some b) /\
      bus_ok n ((p, b) :: live) m' /\
      (forall b', table m !! Z.to_nat id = Some (Some b') -> b = b') /\
      exists d, cells (descs m') = <[p := fields (set_bus (Some b) d)]> (cells h').
Proof using BL DL ML.
  intros Hm Hid Ha Hlt Hmk Hf Hinit [Hkeep Hpr].
  assert (exists b m1, (bus ← on_table (aload id);
      match bus with None => bus_init id mk | Some _ => mret 0 end) m = Done (0, m1) /\
    bus_ok n live m1 /\ descs m1 = descs m /\ world m1 = world m /\
    table m1 !! Z.to_nat id = Some (Some b) /\ live_on live b < 255 /\
    (forall b', table m !! Z.to_nat id = Some (Some b') -> b = b'))
    as (b & m1 & Hbus & Hm1 & Hd1 & Hw1 & Ht1 & Hl1 & Hsame).
  { destruct (table m !! Z.to_nat id) as [slot |] eqn:Hslot.
    2: { apply lookup_ge_None in Hslot. rewrite (ok_len _ _ _ Hm) in Hslot. lia. }
    rewrite (bind_done _ _ _ _ _ (table_load m id slot (proj1 Hid) Hslot)).
    destruct slot as [b |].
    - exists b, m. splits; try done; naive_solver.
    - destruct (bus_init_ok n live m id mk Hm (proj1 Hid) Hslot (Ha eq_refl) Hmk)
        as (m1 & Hi & Hm1 & Hd1 & Hw1 & Ht1).
      assert (Z.to_nat id < length (table m))%nat by by apply lookup_lt_Some in Hslot.
      exists (next_block (buses m)), m1. splits; try done.
      + by rewrite Ht1, list_lookup_insert_eq.
      + rewrite live_on_fresh; [lia |]. intros d Hd.
        destruct (ok_live _ _ _ Hm d _ Hd) as [[i Hi'] _].
        destruct (ok_table _ _ _ Hm i _ Hi') as (B' & HB & _).
        rewrite (heap_ok_fresh _ (ok_heap _ _ _ Hm)) in HB. done. }
  unfold bus_attach. rewrite <- (bind_assoc (on_table (aload id))).
  rewrite (bind_done _ _ _ _ _ Hbus). cbn [truthy negb Z.eqb].
  rewrite <- Hd1, <- Hw1 in Hinit. rewrite <- Hd1 in Hkeep.
  rewrite (bind_done _ _ _ _ _ (on_platform_run _ _ _ _ _ Hinit)).
  set (m2 := BusMem (table m1) (buses m1) h' (mutexes m1) w').
  assert (bus_ok n live m2) as Hm2 by by apply platform_ok.
  destruct (truthy r.1) eqn:Hr; [by exists m2 |].
  apply truthy_false in Hr. destruct (Hpr Hr) as (p & d & Hp & Hd & Hnew).
  destruct (attach_desc_run n live m2 id b p d fields Hm2 (proj1 Hid) Ht1 Hl1 Hd Hnew Hf)
    as (m3 & Hrun & Hm3 & Ht3 & _ & Hd3). rewrite Hp.
  rewrite (bind_done _ _ _ _ _ Hrun). exists m3. split.
  - destruct r as [? ?]. cbn in *. by subst.
  - exists p, b. splits; try done; [by rewrite Ht3 | by exists d].
Qed.

(** Out of memory for the bus: nothing has changed. *)
Lemma bus_attach_nomem n live (m : mem) id mk fields init :
  bus_ok n live m -> 0 <= id -> table m !! Z.to_nat id = Some None ->
  alloc_fails (buses m) = true ->
  exists m', bus_attach id (bus_init id mk) init fields m = Done ((- ENOMEM, None), m') /\
    bus_ok n live m' /\ table m' = table m /\ descs m' = descs m /\ world m' = world m.
Proof.
  intros Hm Hid Hslot Ha. eexists. split.
  - unfold bus_attach. rewrite (bind_done _ _ _ _ _ (table_load m id None Hid Hslot)).
    set (h := Heap (cells (buses m)) (next_block (buses m)) (tail (oom (buses m)))).
    rewrite (bind_done _ _ _ (- ENOMEM) (BusMem (table m) h (descs m) (mutexes m) (world m)));
      [done |]. unfold bus_init.
    by rewrite (bind_done _ _ _ _ _ (buses_run _ _ _ _ (halloc_fail _ _ Ha))).
  - splits; try done. destruct Hm. by split.
Qed.

(** ** Removal *)

(** The descriptor [d] no longer uses its bus. *)
Definition drop_live (d : positive) (live : list (positive * positive)) :
    list (positive * positive) := filter (fun x => x.1 <> d) live.

Lemma drop_live_elem d live d' b : (d', b) ∈ drop_live d live <-> d' <> d /\ (d', b) ∈ live.
Proof. unfold drop_live. rewrite list_elem_of_filter. naive_solver. Qed.

Lemma drop_live_cons d d' b' live :
  drop_live d ((d', b') :: live)
  = if decide (d' = d) then drop_live d live else (d', b') :: drop_live d live.
Proof.
  unfold drop_live. rewrite filter_cons. cbn [fst].
  destruct (decide (d' = d)); [by rewrite decide_False by (intros Hx; by apply Hx) |].
  by rewrite decide_True.
Qed.

Lemma drop_live_notin d live : d ∉ live.*1 -> drop_live d live = live.
Proof.
  induction live as [| [d' b'] live IH]; [done |]. rewrite fmap_cons.
  intros [Hne Hni]%not_elem_of_cons. cbn in Hne.
  rewrite drop_live_cons, decide_False, IH by congruence. done.
Qed.

Lemma drop_live_NoDup d live : NoDup live.*1 -> NoDup (drop_live d live).*1.
Proof.
  induction live as [| [d' b'] live IH]; [done |]. rewrite fmap_cons.
  intros [Hn Hnd]%NoDup_cons. rewrite drop_live_cons. case_decide; [auto |].
  rewrite fmap_cons. constructor; [| auto]. intros ([? b] & Heq & Hin)%list_elem_of_fmap.
  cbn in *. subst. apply Hn, (live_elem _ _ b). by apply drop_live_elem in Hin as [_ ?].
Qed.

Lemma live_on_drop live d b b' :
  NoDup live.*1 -> (d, b) ∈ live ->
  live_on (drop_live d live) b' = live_on live b' - (if decide (b = b') then 1 else 0).
Proof.
  induction live as [| [d0 b0] live IH]; [by intros _ ?%elem_of_nil |].
  rewrite fmap_cons, drop_live_cons. intros [Hn Hnd]%NoDup_cons [Hd | Hd]%elem_of_cons.
  - simplify_eq. rewrite decide_True, drop_live_notin, live_on_cons by done. lia.
  - rewrite decide_False; [rewrite !live_on_cons, IH by done; lia |].
    intros ->. apply Hn. by eapply live_elem.
Qed.

(** Freeing the bus [b], which nothing uses any more. *)
Lemma bus_free_ok n live (m : mem) i b B0 x :
  bus_ok n live m -> table m !! i = Some (Some b) -> cells (buses m) !! b = Some B0 ->
  (forall d, (d, b) ∉ live) ->
  (mview x = match bus_mutex B0 with Some q => delete q (mview (mutexes m))
                                   | None => mview (mutexes m) end) ->
  bus_ok n live (BusMem (<[i := None]> (table m))
    (Heap (delete b (cells (buses m))) (next_block (buses m)) (oom (buses m))) (descs m) x (world m)).
Proof.
  intros Hm Hi HB Hno Hx. split; cbn.
  - rewrite length_insert. apply Hm.
  - apply heap_ok_delete, Hm.
  - apply Hm.
  - intros j p. rewrite list_lookup_insert. case_decide as Hj; [done |]. intros Hp.
    assert (p <> b) as Hne.
    { intros ->. apply Hj. split; [by apply (bus_entry n live m _ _ b)|]. by eapply lookup_lt_Some. }
    destruct (ok_table _ _ _ Hm j p Hp) as (B1 & HB1 & Hid1 & Hs1 & Hu1).
    exists B1. rewrite lookup_delete_ne by done. splits; try done.
    destruct (bus_mutex B1) as [q1 |] eqn:Hq1; cbn in *; [| done].
    rewrite Hx. destruct (bus_mutex B0) as [q0 |] eqn:Hq0; [| done].
    rewrite lookup_delete_ne; [done |]. intros ->. apply Hne.
    by eapply (ok_mutex _ _ _ Hm).
  - intros d p Hd. destruct (ok_live _ _ _ Hm d p Hd) as [[j Hj] HD]. split; [| done].
    exists j. rewrite list_lookup_insert_ne; [done |]. intros <-. apply (Hno d). congruence.
  - intros p. rewrite lookup_delete. case_decide as Hp; [by intros [] |]. intros HB1.
    destruct (ok_owned _ _ _ Hm p HB1) as [j Hj]. exists j.
    rewrite list_lookup_insert_ne; [done |]. intros <-. congruence.
  - intros b1 b2 C1 C2 q. rewrite !lookup_delete.
    do 2 case_decide; intros; simplify_eq. by eapply (ok_mutex _ _ _ Hm).
Qed.

(** A live descriptor releases its bus: the count goes down, and the last one
    frees the bus and clears its entry. *)
Lemma bus_detach_ok n live (m : mem) d b :
  bus_ok n live m -> (d, b) ∈ live -> live_on live b < 256 ->
  exists m' i, bus_detach (Some d) m = Done (tt, m') /\ bus_ok n (drop_live d live) m' /\
    descs m' = descs m /\ world m' = world m /\ table m !! i = Some (Some b) /\
    table m' = (if live_on live b =? 1 then <[i := None]> (table m) else table m) /\
    (is_Some (cells (buses m') !! b) <-> live_on live b <> 1).
Proof using BL DL ML.
  intros Hm Hd Hlt. destruct (ok_live _ _ _ Hm d b Hd) as [[i Hi] (D0 & HD & HDb)].
  destruct (ok_table _ _ _ Hm i b Hi) as (B0 & HB & HBid & HBs & HBm).
  pose proof (ok_nodup _ _ _ Hm) as Hnd.
  assert (1 <= live_on live b) as Hge.
  { pose proof (live_on_drop live d b b Hnd Hd) as E. rewrite decide_True in E by done.
    unfold live_on in E at 1. lia. }
  set (B1 := set_slaves (slaves B0 - 1) B0).
  set (m1 := BusMem (table m) (Heap (<[b := B1]> (cells (buses m))) (next_block (buses m))
    (oom (buses m))) (descs m) (mutexes m) (world m)).
  assert (bus_ok n (drop_live d live) m1) as Hm1.
  { apply (bus_replace n live _ m (descs m) (world m) i b B0 B1 Hm Hi HB).
    - apply set_slaves_id.
    - apply set_slaves_mutex.
    - unfold B1. rewrite set_slaves_slaves, (live_on_drop live d b b) by done.
      rewrite decide_True by done. lia.
    - by apply drop_live_NoDup.
    - intros b' Hb'. rewrite (live_on_drop live d b b'), decide_False by congruence. lia.
    - intros d' b' [_ Hd']%drop_live_elem. by apply (ok_live _ _ _ Hm). }
  assert (bus_detach (Some d) m
    = (if slaves B1 =? 0 then
         _ ← on_mutexes (no_os_mutex_remove (bus_mutex B1));
         _ ← on_buses (hfree (Some b));
         on_table (astore (Z.of_nat i) None)
       else mret tt) m1) as ->.
  { unfold bus_detach. rewrite (bind_done _ _ _ _ _ (descs_load m d D0 HD)), HDb.
    rewrite (bind_done _ _ _ _ _ (buses_load m b B0 HB)), HBid. unfold bus_remove.
    rewrite (bind_done _ _ _ (Some b) m) by (apply table_load; [lia | by rewrite Nat2Z.id]).
    rewrite (bind_done _ _ _ _ _ (buses_load m b B0 HB)).
    destruct (Z.ltb_spec 0 (slaves B0)); [| lia].
    rewrite (bind_done _ _ _ tt m1) by (by eapply buses_run, hstore_done).
    by rewrite (bind_done _ _ _ B1 m1) by (apply buses_load; cbn; by rewrite lookup_insert_eq). }
  assert (slaves B1 = live_on live b - 1) as -> by (unfold B1; rewrite set_slaves_slaves; lia).
  destruct (Z.eqb_spec (live_on live b) 1) as [Hlast | Hmore].
  - rewrite Hlast. change (1 - 1 =? 0) with true. change (1 =? 1) with true. cbv iota.
    assert (exists x, no_os_mutex_remove (bus_mutex B1) (mutexes m1) = Done (tt, x) /\
      mview x = match bus_mutex B1 with Some q => delete q (mview (mutexes m1))
                                      | None => mview (mutexes m1) end) as (x & Hx & Hv).
    { unfold B1. rewrite set_slaves_mutex. destruct (bus_mutex B0) as [q |].
      - apply remove_any. by exists false.
      - exists (mutexes m). split; [apply null_remove | done]. }
    assert (cells (buses m1) !! b = Some B1) as HB1 by (cbn; by rewrite lookup_insert_eq).
    eexists _, i. split; [| split; [apply (bus_free_ok n _ m1 i b B1 x Hm1 Hi HB1); [| exact Hv] |]].
    + erewrite bind_done by (by apply mutexes_run).
      erewrite bind_done by (by eapply buses_run, hfree_done).
      erewrite table_run by (apply astore_done; apply lookup_lt_Some in Hi; cbn; lia).
      by rewrite Nat2Z.id.
    + intros d' [Hne Hd']%drop_live_elem.
      assert (live_on (drop_live d live) b = 0) as H0.
      { rewrite (live_on_drop live d b b), decide_True by done. lia. }
      assert ((d', b) ∈ filter (fun x => x.2 = b) (drop_live d live)) as Hin.
      { apply list_elem_of_filter. split; [done |]. by apply drop_live_elem. }
      unfold live_on in H0. destruct (filter _ _); [by apply elem_of_nil in Hin | done].
    + splits; try done. cbn. rewrite lookup_delete_eq. split; [by intros [] | lia].
  - destruct (Z.eqb_spec (live_on live b - 1) 0); [lia |].
    exists m1, i. splits; try done. cbn. by rewrite lookup_insert_eq.
Qed.

(** ** Transfers *)

Lemma desc_mutex_run n live (m : mem) d b :
  bus_ok n live m -> (d, b) ∈ live ->
  exists q, unlocked (mutexes m) q /\ reads_mutex set_mutexes (desc_mutex (Some d)) m q.
Proof.
  intros Hm Hd. destruct (ok_live _ _ _ Hm d b Hd) as [[i Hi] (D0 & HD & HDb)].
  destruct (ok_table _ _ _ Hm i b Hi) as (B0 & HB & _ & _ & HBm).
  exists (bus_mutex B0). split; [done |]. intros x. unfold desc_mutex.
  rewrite (bind_done _ _ _ D0 (set_mutexes x m)) by by apply descs_load.
  rewrite HDb. by rewrite (bind_done _ _ _ B0 (set_mutexes x m)) by by apply buses_load.
Qed.

(** What [desc->bus->mutex] is. *)
Lemma desc_mutex_get (m : mem) d D0 b B0 :
  cells (descs m) !! d = Some D0 -> bus_of D0 = Some b -> cells (buses m) !! b = Some B0 ->
  desc_mutex (Some d) m = Done (bus_mutex B0, m).
Proof.
  intros HD HDb HB. unfold desc_mutex. rewrite (bind_done _ _ _ _ _ (descs_load m d D0 HD)), HDb.
  by rewrite (bind_done _ _ _ _ _ (buses_load m b B0 HB)).
Qed.

(** A transfer on a live descriptor is the platform's, under the bus's lock; it
    ends with the lock free again. *)
Lemma transfer_ok {A} n live (m : mem) d b (op : cmd (platform D W) A) r h' w' :
  bus_ok n live m -> (d, b) ∈ live ->
  op (descs m, world m) = Done (r, (h', w')) -> keeps_live live (descs m) h' ->
  exists m', locked_transfer (Some d) (on_platform op) m = Done (r, m') /\ bus_ok n live m' /\
    descs m' = h' /\ world m' = w' /\ table m' = table m /\ buses m' = buses m /\
    mview (mutexes m') = mview (mutexes m).
Proof using BL DL ML.
  intros Hm Hd Hop Hk. pose proof (platform_ok n live m h' w' Hm Hk) as Hm1.
  set (m1 := BusMem (table m) (buses m) h' (mutexes m) w') in *.
  destruct (desc_mutex_run n live m d b Hm Hd) as (q & Hq & Hr).
  destruct (desc_mutex_run n live m1 d b Hm1 Hd) as (q1 & Hq1 & Hr1).
  assert (q1 = q) as ->.
  { destruct (ok_live _ _ _ Hm d b Hd) as [[i Hi] (D0 & HD & HDb)].
    destruct (ok_table _ _ _ Hm i b Hi) as (B0 & HB & _).
    assert (forall x : M, desc_mutex (Some d) (set_mutexes x m) = Done (bus_mutex B0, set_mutexes x m) /\
      desc_mutex (Some d) (set_mutexes x m1) = Done (bus_mutex B0, set_mutexes x m1)) as Hb.
    { intros x. unfold desc_mutex. split.
      - rewrite (bind_done _ _ _ D0 (set_mutexes x m)) by by apply descs_load.
        rewrite HDb. by rewrite (bind_done _ _ _ B0 (set_mutexes x m)) by by apply buses_load.
      - rewrite (bind_done _ _ _ D0 (set_mutexes x m1))
          by (apply descs_load; cbn; by rewrite (Hk d b Hd)).
        rewrite HDb. by rewrite (bind_done _ _ _ B0 (set_mutexes x m1)) by by apply buses_load. }
    specialize (Hb (mutexes m)) as [Hb1 Hb2].
    pose proof (Hr (mutexes m)) as Hx. pose proof (Hr1 (mutexes m)) as Hx1.
    rewrite Hb1 in Hx. rewrite Hb2 in Hx1. congruence. }
  destruct (locked_call_run mutexes set_mutexes (fun _ _ => eq_refl) (fun _ _ _ => eq_refl)
    (desc_mutex (Some d)) q (on_platform op) m r m1) as (x & Hrun & Hv); try done.
  - by destruct m.
  - intros x. exists x. split; [| done].
    rewrite (on_platform_run op (set_mutexes x m) r h' w'); done.
  - exists (set_mutexes x m1). splits; try done.
    destruct Hm1. split; try done. intros i p Hp. destruct (ok_table0 i p Hp) as (B1 & ? & ? & ? & Hu).
    exists B1. splits; try done. destruct (bus_mutex B1); [| done]. cbn in *. by rewrite Hv.
Qed.

(** Nothing is attached at the start. *)
Lemma bus_ok_empty n (h : heap D) (x : M) (w : W) :
  bus_ok n [] (BusMem (replicate n None) (Heap ∅ 1 []) h x w).
Proof.
  split; cbn.
  - apply length_replicate.
  - intros p [v Hv]. cbn in Hv. by apply lookup_empty_Some in Hv.
  - constructor.
  - intros i b Hb. apply lookup_replicate in Hb as [Hb _]. done.
  - intros d b Hd. by apply elem_of_nil in Hd.
  - intros b [v Hv]. by apply lookup_empty_Some in Hv.
  - intros b1 b2 B1 B2 q Hb. by apply lookup_empty_Some in Hb.
Qed.
End bus.
