(* ===== verification/Spi.v ===== *)
(** * SPI: [drivers/api/no_os_spi.c]

    The bus-independent SPI layer: it checks its arguments, keeps the table of
    buses ([Bus]) and calls the platform's operations, which are parameters. *)
From S2P Require Import Prelude Mutex Bus.

(** ** Data *)

Definition SPI_MAX_BUS_NUMBER : Z := 8.

(** [mode] and [bit_order] hold the numbers of their enumerations. *)
Record no_os_spibus_desc : Type := SpiBus {
  sb_mutex : ptr;
  slave_number : Z;
  sb_device_id : Z;
  sb_max_speed_hz : Z;
  sb_mode : Z;
  sb_bit_order : Z;
  sb_platform_ops : ptr;
  sb_extra : ptr
}.

Record no_os_platform_spi_delays : Type := SpiDelays { cs_delay_first : Z; cs_delay_last : Z }.

Record no_os_spi_desc : Type := SpiDesc {
  sd_bus : ptr;
  sd_device_id : Z;
  sd_max_speed_hz : Z;
  sd_chip_select : Z;
  sd_mode : Z;
  sd_bit_order : Z;
  sd_platform_ops : ptr;
  sd_platform_delays : no_os_platform_spi_delays;
  sd_extra : ptr;
  sd_parent : ptr
}.

Record no_os_spi_init_param : Type := SpiParam {
  sp_device_id : Z;
  sp_max_speed_hz : Z;
  sp_chip_select : Z;
  sp_mode : Z;
  sp_bit_order : Z;
  sp_platform_ops : ptr;
  sp_platform_delays : no_os_platform_spi_delays;
  sp_extra : ptr;
  sp_parent : ptr
}.

(** The buffers are addresses of the platform's world. *)
Record no_os_spi_msg : Type := SpiMsg {
  tx_buff : ptr;
  rx_buff : ptr;
  bytes_number : Z;
  cs_change : Z;
  cs_change_delay : Z;
  msg_cs_delay_first : Z;
  msg_cs_delay_last : Z
}.

#[export] Instance spi_bus_desc : BusDesc no_os_spibus_desc := {|
  bus_mutex := sb_mutex;
  bus_id := sb_device_id;
  slaves := slave_number;
  set_slaves n b := SpiBus (sb_mutex b) n (sb_device_id b) (sb_max_speed_hz b) (sb_mode b)
                      (sb_bit_order b) (sb_platform_ops b) (sb_extra b)
|}.

#[export] Instance spi_bus_laws : BusDescLaws no_os_spibus_desc.
Proof. by split. Qed.

#[export] Instance spi_dev_desc : DevDesc no_os_spi_desc := {|
  bus_of := sd_bus;
  set_bus p d := SpiDesc p (sd_device_id d) (sd_max_speed_hz d) (sd_chip_select d) (sd_mode d)
                   (sd_bit_order d) (sd_platform_ops d) (sd_platform_delays d) (sd_extra d)
                   (sd_parent d);
  ops_of := sd_platform_ops
|}.

#[export] Instance spi_dev_laws : DevDescLaws no_os_spi_desc.
Proof. by split. Qed.

(** A platform's operations; a function pointer may be null.  The callback and
    the context of an asynchronous transfer are addresses. *)
Record no_os_spi_platform_ops (W : Type) : Type := SpiOps {
  init : option (no_os_spi_init_param -> cmd (platform no_os_spi_desc W) (Z * ptr));
  write_and_read : option (ptr -> ptr -> Z -> cmd (platform no_os_spi_desc W) Z);
  transfer : option (ptr -> list no_os_spi_msg -> Z -> cmd (platform no_os_spi_desc W) Z);
  dma_transfer_sync :
    option (ptr -> list no_os_spi_msg -> Z -> cmd (platform no_os_spi_desc W) Z);
  dma_transfer_async :
    option (ptr -> list no_os_spi_msg -> Z -> ptr -> ptr -> cmd (platform no_os_spi_desc W) Z);
  remove : option (ptr -> cmd (platform no_os_spi_desc W) Z)
}.
Arguments SpiOps {W} _ _ _ _ _ _.
Arguments init {W} _.
Arguments write_and_read {W} _.
Arguments transfer {W} _.
Arguments dma_transfer_sync {W} _.
Arguments dma_transfer_async {W} _.
Arguments remove {W} _.

(** ** Operations *)

Section spi.
  Context {M W : Type} {MM : Mutex M}.
  Context (driver : positive -> no_os_spi_platform_ops W).
  Abbreviation mem := (bus_mem no_os_spibus_desc no_os_spi_desc M W).

Definition new_spibus (param : no_os_spi_init_param) (mutex : ptr) : no_os_spibus_desc :=
  SpiBus mutex 0 (sp_device_id param) (sp_max_speed_hz param) (sp_mode param) (sp_bit_order param)
    (sp_platform_ops param) (sp_extra param).

Definition no_os_spibus_init (param : no_os_spi_init_param) : cmd mem Z :=
  bus_init (sp_device_id param) (new_spibus param).

Definition no_os_spibus_remove (bus_number : Z) : cmd mem unit := bus_remove bus_number.

(** The fields that [no_os_spi_init] copies after the bus. *)
Definition spi_fields (param : no_os_spi_init_param) (d : no_os_spi_desc) : no_os_spi_desc :=
  SpiDesc (sd_bus d) (sd_device_id d) (sd_max_speed_hz d) (sd_chip_select d) (sd_mode d)
    (sd_bit_order d) (sp_platform_ops param) (sp_platform_delays param) (sd_extra d)
    (sp_parent param).

(** The result is the return code and what [*desc] was set to. *)
Definition no_os_spi_init (param : option no_os_spi_init_param) : cmd mem (Z * ptr) :=
  match param with
  | None => mret (- EINVAL, None)
  | Some param =>
      match sp_platform_ops param with
      | None => mret (- EINVAL, None)
      | Some ops =>
          match init (driver ops) with
          | None => mret (- ENOSYS, None)
          | Some f =>
              if SPI_MAX_BUS_NUMBER <? sp_device_id param then mret (- EINVAL, None) else
              bus_attach (sp_device_id param) (no_os_spibus_init param) (f param)
                (spi_fields param)
          end
      end
  end.

(** [if (!desc || !desc->platform_ops) return -EINVAL;] and the rest with the
    platform's operations. *)
Definition with_ops (desc : ptr) (k : no_os_spi_platform_ops W -> cmd mem Z) : cmd mem Z :=
  match desc with
  | None => mret (- EINVAL)
  | Some _ =>
      d ← on_descs (hload desc);
      match sd_platform_ops d with
      | None => mret (- EINVAL)
      | Some ops => k (driver ops)
      end
  end.

Definition no_os_spi_remove (desc : ptr) : cmd mem Z :=
  with_ops desc (fun ops =>
    _ ← bus_detach desc;
    match remove ops with
    | None => mret (- ENOSYS)
    | Some f => on_platform (f desc)
    end).

Definition no_os_spi_write_and_read (desc : ptr) (data : ptr) (bytes_number : Z) : cmd mem Z :=
  with_ops desc (fun ops =>
    match write_and_read ops with
    | None => mret (- ENOSYS)
    | Some f => locked_transfer desc (on_platform (f desc data bytes_number))
    end).

(** The message is refused: no buffer, or two different ones. *)
Definition bad_msg (msg : no_os_spi_msg) : bool :=
  negb (bool_decide (rx_buff msg = tx_buff msg)) || bool_decide (tx_buff msg = None).

(** The loop over the messages from [i] on; [n] of them are left. *)
Fixpoint transfer_loop (desc : ptr) (msgs : list no_os_spi_msg) (n : nat) (i : nat) (ret : Z) :
  cmd mem Z :=
  match n with
  | O => mret ret
  | S n =>
      msg ← the (msgs !! i);
      if bad_msg msg then mret (- EINVAL) else
      ret ← no_os_spi_write_and_read desc (rx_buff msg) (u16 (bytes_number msg));
      if NO_OS_IS_ERR_VALUE ret then mret ret else transfer_loop desc msgs n (S i) ret
  end.

Definition no_os_spi_transfer (desc : ptr) (msgs : list no_os_spi_msg) (len : Z) : cmd mem Z :=
  with_ops desc (fun ops =>
    match transfer ops with
    | Some f => on_platform (f desc msgs len)
    | None => locked_transfer desc (transfer_loop desc msgs (Z.to_nat len) 0 0)
    end).

Definition no_os_spi_transfer_dma_sync (desc : ptr) (msgs : option (list no_os_spi_msg))
    (len : Z) : cmd mem Z :=
  with_ops desc (fun ops =>
    match msgs with
    | None => mret (- EINVAL)
    | Some msgs =>
        if len =? 0 then mret (- EINVAL) else
        match dma_transfer_sync ops with
        | Some f => on_platform (f desc msgs len)
        | None => mret (- ENOSYS)
        end
    end).

Definition no_os_spi_transfer_dma_async (desc : ptr) (msgs : option (list no_os_spi_msg))
    (len : Z) (callback ctx : ptr) : cmd mem Z :=
  with_ops desc (fun ops =>
    match msgs with
    | None => mret (- EINVAL)
    | Some msgs =>
        if len =? 0 then mret (- EINVAL) else
        match dma_transfer_async ops with
        | Some f => on_platform (f desc msgs len callback ctx)
        | None => mret (- ENOSYS)
        end
    end).

(** ** Theorems *)

Context {ML : MutexLaws M}.

(** The table has nine entries. *)
Abbreviation spi_ok := (bus_ok (B := no_os_spibus_desc) (D := no_os_spi_desc) (W := W) 9).

Lemma with_ops_run m d D0 ops k :
  cells (descs m) !! d = Some D0 -> sd_platform_ops D0 = Some ops ->
  with_ops (Some d) k m = k (driver ops) m.
Proof.
  intros HD Ho. unfold with_ops. rewrite (bind_done _ _ _ _ _ (descs_load m d D0 HD)).
  by rewrite Ho.
Qed.

(** C28: initialising a device of one of the nine buses, whether its bus exists
    or not, either fails with the platform's error and attaches nothing, or
    returns the new descriptor attached to the one bus of its device, whose
    count goes up; without memory for a new bus it fails with -ENOMEM.  In
    every case the table keeps its invariant: each bus counts its live
    descriptors and has a free mutex of its own, and none is lost. *)
Theorem no_os_spi_init_correct live m param ops f r h' w' :
  spi_ok live m -> sp_platform_ops param = Some ops -> init (driver ops) = Some f ->
  0 <= sp_device_id param <= 8 ->
  (forall b, table m !! Z.to_nat (sp_device_id param) = Some (Some b) -> live_on live b < 255) ->
  f param (descs m, world m) = Done (r, (h', w')) -> init_promise live (descs m) h' r ->
  exists r' m', no_os_spi_init (Some param) m = Done (r', m') /\
    if bool_decide (table m !! Z.to_nat (sp_device_id param) = Some None) && alloc_fails (buses m)
    then r' = (- ENOMEM, None) /\ spi_ok live m'
    else r' = r /\
      if truthy r.1 then spi_ok live m'
      else exists p b, r.2 = Some p /\
        table m' !! Z.to_nat (sp_device_id param) = Some (Some b) /\
        spi_ok ((p, b) :: live) m' /\
        (forall b', table m !! Z.to_nat (sp_device_id param) = Some (Some b') -> b = b').
Proof using ML.
  intros Hm Ho Hf Hid Hlt Hrun Hpr. unfold no_os_spi_init, SPI_MAX_BUS_NUMBER. rewrite Ho, Hf.
  destruct (Z.ltb_spec 8 (sp_device_id param)); [lia |].
  destruct (bool_decide_reflect (table m !! Z.to_nat (sp_device_id param) = Some None)) as [Hn | Hn];
    [destruct (alloc_fails (buses m)) eqn:Ha |]; cbn [andb].
  - destruct (bus_attach_nomem 9 live m (sp_device_id param) (new_spibus param) (spi_fields param)
      (f param) Hm (proj1 Hid) Hn Ha) as (m' & Hr & Hm' & _). by exists (- ENOMEM, None), m'.
  - destruct (bus_attach_ok 9 live m (sp_device_id param) (new_spibus param) (spi_fields param)
      (f param) r h' w') as (m' & Hr & Hm'); try done; [lia |]. exists r, m'.
    split; [done |]. split; [done |]. destruct (truthy r.1); [apply Hm' | naive_solver].
  - destruct (bus_attach_ok 9 live m (sp_device_id param) (new_spibus param) (spi_fields param)
      (f param) r h' w') as (m' & Hr & Hm'); try done; [lia |]. exists r, m'.
    split; [done |]. split; [done |]. destruct (truthy r.1); [apply Hm' | naive_solver].
Qed.

(** C32: removing a live descriptor gives its bus back: the bus, its entry and
    its mutex go with the last of its descriptors and stay otherwise, and the
    invariant holds for the descriptors that remain; the result is the
    platform's.  With no operation to remove a device the result is -ENOSYS,
    but the bus has been given back all the same. *)
Theorem no_os_spi_remove_correct live m d b D0 ops :
  spi_ok live m -> (d, b) ∈ live -> live_on live b < 256 ->
  cells (descs m) !! d = Some D0 -> sd_platform_ops D0 = Some ops ->
  (forall f, remove (driver ops) = Some f -> exists r h' w',
     f (Some d) (descs m, world m) = Done (r, (h', w')) /\
     keeps_live (drop_live d live) (descs m) h') ->
  exists r m', no_os_spi_remove (Some d) m = Done (r, m') /\ spi_ok (drop_live d live) m' /\
    (is_Some (cells (buses m') !! b) <-> live_on live b <> 1) /\
    match remove (driver ops) with
    | None => r = - ENOSYS
    | Some f => fst <$> (match f (Some d) (descs m, world m) with Done x => Some x | _ => None end)
                = Some r
    end.
Proof using ML.
  intros Hm Hd Hlt HD Ho Hrem. unfold no_os_spi_remove. rewrite (with_ops_run m d D0 ops) by done.
  destruct (bus_detach_ok 9 live m d b Hm Hd Hlt) as (m1 & i & Hdet & Hm1 & Hd1 & Hw1 & _ & _ & Hb1).
  rewrite (bind_done _ _ _ _ _ Hdet). destruct (remove (driver ops)) as [f |]; [| by exists (- ENOSYS), m1].
  destruct (Hrem f eq_refl) as (r & h' & w' & Hf & Hk).
  rewrite <- Hd1 in Hk. assert (Hf' := Hf). rewrite <- Hd1, <- Hw1 in Hf'.
  eexists r, _. split; [by apply (on_platform_run _ _ _ h' w') |].
  splits; [by apply platform_ok | apply Hb1 | by rewrite Hf].
Qed.

(** The platform sends the messages one by one, with the lengths the layer
    passes on, until one is refused or fails. *)
Fixpoint send_all (f : ptr -> ptr -> Z -> cmd (platform no_os_spi_desc W) Z) (desc : ptr)
    (msgs : list no_os_spi_msg) (ret : Z) : cmd (platform no_os_spi_desc W) Z :=
  match msgs with
  | [] => mret ret
  | msg :: msgs =>
      if bad_msg msg then mret (- EINVAL) else
      ret ← f desc (rx_buff msg) (u16 (bytes_number msg));
      if ret <? 0 then mret ret else send_all f desc msgs ret
  end.

(** Its operations leave the live descriptors alone. *)
Definition op_promise {A} live (c : cmd (platform no_os_spi_desc W) A) : Prop :=
  forall h w r h' w', c (h, w) = Done (r, (h', w')) -> keeps_live live h h'.

Lemma write_and_read_run live m d b D0 ops f data n r h' w' :
  spi_ok live m -> (d, b) ∈ live -> cells (descs m) !! d = Some D0 ->
  sd_platform_ops D0 = Some ops -> write_and_read (driver ops) = Some f ->
  f (Some d) data n (descs m, world m) = Done (r, (h', w')) -> keeps_live live (descs m) h' ->
  exists m', no_os_spi_write_and_read (Some d) data n m = Done (r, m') /\ spi_ok live m' /\
    descs m' = h' /\ world m' = w' /\ table m' = table m /\ buses m' = buses m /\
    mview (mutexes m') = mview (mutexes m).
Proof using ML.
  intros Hm Hd HD Ho Hf Hrun Hk. unfold no_os_spi_write_and_read.
  rewrite (with_ops_run m d D0 ops), Hf by done. by apply (transfer_ok 9 live m d b).
Qed.

Lemma transfer_loop_run live d b D0 ops f msgs0 :
  (d, b) ∈ live -> sd_platform_ops D0 = Some ops -> write_and_read (driver ops) = Some f ->
  (forall data n, op_promise live (f (Some d) data n)) ->
  forall msgs i ret m r h' w',
  spi_ok live m -> cells (descs m) !! d = Some D0 -> drop i msgs0 = msgs ->
  send_all f (Some d) msgs ret (descs m, world m) = Done (r, (h', w')) ->
  exists m', transfer_loop (Some d) msgs0 (length msgs) i ret m = Done (r, m') /\
    spi_ok live m' /\ descs m' = h' /\ world m' = w' /\ table m' = table m /\ buses m' = buses m /\
    mview (mutexes m') = mview (mutexes m).
Proof using ML.
  intros Hd Ho Hf Hkeep msgs. induction msgs as [| msg msgs IH];
    intros i ret m r h' w' Hm HD Hmsgs Hsend; cbn [send_all length transfer_loop] in *.
  - injection Hsend as <- <- <-. exists m. by splits.
  - assert (msgs0 !! i = Some msg) as Hmsg.
    { rewrite <- (Nat.add_0_r i), <- lookup_drop, Hmsgs. done. }
    assert (drop (S i) msgs0 = msgs) as Hmsgs' by (by rewrite <- drop_drop_comm || by
      (replace (S i) with (i + 1)%nat by lia; rewrite <- drop_drop, Hmsgs)).
    rewrite Hmsg, (bind_done (the (Some msg)) _ _ msg m) by done.
    destruct (bad_msg msg); [injection Hsend as <- <- <-; exists m; by splits |].
    apply bind_inv in Hsend as (ret1 & [h1 w1] & Hf1 & Hrest).
    destruct (write_and_read_run live m d b D0 ops f (rx_buff msg) (u16 (bytes_number msg)) ret1 h1 w1
      Hm Hd HD Ho Hf Hf1 (Hkeep _ _ _ _ _ _ _ Hf1)) as (m1 & Hr1 & Hm1 & Hd1 & Hw1 & Ht1 & Hb1 & Hv1).
    rewrite (bind_done _ _ _ _ _ Hr1). unfold NO_OS_IS_ERR_VALUE.
    destruct (ret1 <? 0).
    + injection Hrest as <- <- <-. exists m1. by splits.
    + assert (cells (descs m1) !! d = Some D0) as HD1.
      { rewrite Hd1. rewrite (Hkeep _ _ _ _ _ _ _ Hf1 d b Hd). done. }
      rewrite <- Hd1, <- Hw1 in Hrest.
      destruct (IH (S i) ret1 m1 r h' w' Hm1 HD1 Hmsgs' Hrest)
        as (m2 & Hr2 & Hm2 & Hd2 & Hw2 & Ht2 & Hb2 & Hv2).
      exists m2. splits; try done; congruence.
Qed.

(** Where the mutexes are null, as without an operating system, a transfer
    of messages that the platform has no operation for sends them in their
    order, each with the low 16 bits of its length, and stops at the first one
    that is refused or fails, whose result it returns. *)
Theorem no_os_spi_transfer_in_order live m d b D0 B0 ops f msgs r h' w' :
  spi_ok live m -> (d, b) ∈ live -> cells (descs m) !! d = Some D0 ->
  cells (buses m) !! b = Some B0 -> sb_mutex B0 = None ->
  sd_platform_ops D0 = Some ops -> transfer (driver ops) = None ->
  write_and_read (driver ops) = Some f ->
  (forall data n, op_promise live (f (Some d) data n)) ->
  send_all f (Some d) msgs 0 (descs m, world m) = Done (r, (h', w')) ->
  exists m', no_os_spi_transfer (Some d) msgs (Z.of_nat (length msgs)) m = Done (r, m') /\
    spi_ok live m' /\ descs m' = h' /\ world m' = w'.
Proof using ML.
  intros Hm Hd HD HB Hnull Ho Ht Hf Hkeep Hsend.
  destruct (transfer_loop_run live d b D0 ops f msgs Hd Ho Hf Hkeep msgs 0 0 m r h' w' Hm HD eq_refl
    Hsend) as (m' & Hrun & Hm' & Hd' & Hw' & _ & Hb' & _).
  exists m'. splits; try done. unfold no_os_spi_transfer.
  rewrite (with_ops_run m d D0 ops), Ht, Nat2Z.id by done.
  destruct (ok_live _ _ _ Hm d b Hd) as [_ (D1 & HD1 & HDb)]. rewrite HD in HD1. simplify_eq.
  destruct (ok_live _ _ _ Hm' d b Hd) as [_ (D2 & HD2 & HDb2)].
  apply (locked_call_null mutexes set_mutexes); [by intros [] | | done |].
  - pose proof (desc_mutex_get m d D1 b B0 HD HDb HB) as G. cbn in G. by rewrite Hnull in G.
  - rewrite <- Hb' in HB. pose proof (desc_mutex_get m' d D2 b B0 HD2 HDb2 HB) as G. cbn in G.
    by rewrite Hnull in G.
Qed.

(** Where the bus has a mutex, such a transfer never ends: it locks the bus
    and then calls [no_os_spi_write_and_read], which waits for the same lock. *)
Theorem no_os_spi_transfer_deadlock live m d b D0 B0 q ops f msg msgs len :
  spi_ok live m -> (d, b) ∈ live -> cells (descs m) !! d = Some D0 ->
  cells (buses m) !! b = Some B0 -> sb_mutex B0 = Some q ->
  sd_platform_ops D0 = Some ops -> transfer (driver ops) = None ->
  write_and_read (driver ops) = Some f -> bad_msg msg = false -> 0 < len ->
  no_os_spi_transfer (Some d) (msg :: msgs) len m = NoFuel.
Proof using ML.
  intros Hm Hd HD HB Hq Ho Ht Hf Hmsg Hlen. unfold no_os_spi_transfer.
  destruct (ok_live _ _ _ Hm d b Hd) as [[i Hi] (D1 & HD1 & HDb)]. rewrite HD in HD1. simplify_eq.
  destruct (ok_table _ _ _ Hm i b Hi) as (B1 & HB1 & _ & _ & Hfree). rewrite HB in HB1. simplify_eq.
  cbn in Hfree. rewrite Hq in Hfree. cbn in Hfree.
  rewrite (with_ops_run m d D1 ops), Ht by done. unfold locked_transfer, locked_call.
  rewrite (bind_done _ _ _ _ _ (desc_mutex_get m d D1 b B1 HD HDb HB)). cbn [bus_mutex spi_bus_desc].
  rewrite Hq. destruct (lock_free q (mutexes m) Hfree) as (x & Hx & Hv).
  rewrite (bind_done _ _ _ tt (set_mutexes x m)) by by apply with_mutex_done.
  destruct (Z.to_nat len) as [| n] eqn:E; [lia |]. cbn [transfer_loop].
  set (m1 := set_mutexes x m).
  assert (no_os_spi_write_and_read (Some d) (rx_buff msg) (u16 (bytes_number msg)) m1 = NoFuel) as Hw.
  { unfold no_os_spi_write_and_read. rewrite (with_ops_run m1 d D1 ops), Hf by done.
    apply (locked_call_held mutexes set_mutexes _ q).
    - pose proof (desc_mutex_get m1 d D1 b B1 HD HDb HB) as G. cbn in G. by rewrite Hq in G.
    - cbn. by rewrite Hv, lookup_insert_eq. }
  apply bind_nofuel. rewrite (bind_done _ _ _ msg m1), Hmsg by done. by apply bind_nofuel.
Qed.
End spi.

(** ** An example: a platform that logs its transfers *)

Definition sim_init (param : no_os_spi_init_param) :
  cmd (platform no_os_spi_desc (list (ptr * Z))) (Z * ptr) :=
  p ← zoom fst (fun h s => (h, s.2)) (halloc (SpiDesc None (sp_device_id param)
        (sp_max_speed_hz param) (sp_chip_select param) (sp_mode param) (sp_bit_order param) None
        (SpiDelays 0 0) None None));
  match p with None => mret (- ENOMEM, None) | Some _ => mret (0, p) end.

Definition sim_write_and_read (desc data : ptr) (n : Z) :
  cmd (platform no_os_spi_desc (list (ptr * Z))) Z :=
  _ ← modify (fun s => (s.1, s.2 ++ [(data, n)])); mret 0.

Definition sim_remove (desc : ptr) : cmd (platform no_os_spi_desc (list (ptr * Z))) Z :=
  _ ← zoom fst (fun h s => (h, s.2)) (hfree desc); mret 0.

Definition sim_driver (p : positive) : no_os_spi_platform_ops (list (ptr * Z)) :=
  SpiOps (Some sim_init) (Some sim_write_and_read) None None None (Some sim_remove).

Definition ex_param : no_os_spi_init_param :=
  SpiParam 2 1000000 0 0 0 (Some 1%positive) (SpiDelays 5 6) None None.

Definition ex_mem {M} (x : M) : bus_mem no_os_spibus_desc no_os_spi_desc M (list (ptr * Z)) :=
  BusMem (replicate 9 None) (Heap ∅ 1 []) (Heap ∅ 1 []) x [].

Lemma ex_attached {M} {MM : Mutex M} {ML : MutexLaws M} (x : M) :
  exists b m', no_os_spi_init sim_driver (Some ex_param) (ex_mem x) = Done ((0, Some 1%positive), m') /\
    bus_ok 9 [(1%positive, b)] m' /\ table m' !! 2%nat = Some (Some b).
Proof.
  destruct (bus_attach_ok 9 [] (ex_mem x) 2 (new_spibus ex_param) (spi_fields ex_param)
    (sim_init ex_param) (0, Some 1%positive)
    (Heap {[ 1%positive := SpiDesc None 2 1000000 0 0 0 None (SpiDelays 0 0) None None ]} 2 []) [])
    as (m' & Hrun & p & b & Hp & Ht & Hok & _ & _); try done.
  - apply bus_ok_empty.
  - split; [intros d b Hd; by apply elem_of_nil in Hd |]. intros _.
    eexists 1%positive, _. cbn. splits; [done | by rewrite lookup_singleton_eq |].
    by intros Hd%elem_of_nil.
  - cbn in Hp. injection Hp as <-. by exists b, m'.
Qed.

(** With a null mutex, and with one of FreeRTOS. *)
Definition ex_null : bus_mem no_os_spibus_desc no_os_spi_desc unit (list (ptr * Z)) :=
  match no_os_spi_init sim_driver (Some ex_param) (ex_mem tt) with
  | Done (_, m) => m | _ => ex_mem tt end.

Definition ex_freertos0 : freertos sim_kernel := Freertos (Heap ∅ 1 []) (SimKernel ∅).

Definition ex_freertos :
    bus_mem no_os_spibus_desc no_os_spi_desc (freertos sim_kernel) (list (ptr * Z)) :=
  match no_os_spi_init sim_driver (Some ex_param) (ex_mem ex_freertos0) with
  | Done (_, m) => m | _ => ex_mem ex_freertos0 end.

Definition ex_desc : no_os_spi_desc :=
  SpiDesc (Some 1%positive) 2 1000000 0 0 0 (Some 1%positive) (SpiDelays 5 6) None None.

Lemma ex_null_ok : bus_ok 9 [(1%positive, 1%positive)] ex_null.
Proof.
  destruct (ex_attached tt) as (b & m' & Hrun & Hok & Ht). unfold ex_null. rewrite Hrun.
  vm_compute in Hrun. injection Hrun as <-. by injection Ht as <-.
Qed.

Lemma ex_freertos_ok : bus_ok 9 [(1%positive, 1%positive)] ex_freertos.
Proof.
  destruct (ex_attached ex_freertos0) as (b & m' & Hrun & Hok & Ht). unfold ex_freertos. rewrite Hrun.
  vm_compute in Hrun. injection Hrun as <-. by injection Ht as <-.
Qed.

Definition ex_msg (p : positive) (n : Z) : no_os_spi_msg := SpiMsg (Some p) (Some p) n 0 0 0 0.

Lemma no_os_spi_init_correct_witness :
  exists m', no_os_spi_init sim_driver (Some ex_param) (ex_mem ex_freertos0)
             = Done ((0, Some 1%positive), m').
Proof.
  destruct (no_os_spi_init_correct sim_driver [] (ex_mem ex_freertos0) ex_param 1%positive sim_init
    (0, Some 1%positive)
    (Heap {[ 1%positive := SpiDesc None 2 1000000 0 0 0 None (SpiDelays 0 0) None None ]} 2 []) [])
    as (r' & m' & Hrun & Hr).
  - apply bus_ok_empty.
  - reflexivity.
  - reflexivity.
  - split; cbn; lia.
  - intros b H. discriminate H.
  - reflexivity.
  - split; [intros d b Hd; by apply elem_of_nil in Hd |]. intros _.
    eexists 1%positive, _. cbn. splits; [done | by rewrite lookup_singleton_eq |].
    by intros Hd%elem_of_nil.
  - destruct Hr as [-> _]. by exists m'.
Defined.

Lemma no_os_spi_remove_correct_witness :
  exists m', no_os_spi_remove sim_driver (Some 1%positive) ex_freertos = Done (0, m') /\
    bus_ok 9 [] m' /\ ~ is_Some (cells (buses m') !! 1%positive).
Proof.
  destruct (no_os_spi_remove_correct sim_driver [(1%positive, 1%positive)] ex_freertos 1 1 ex_desc 1)
    as (r & m' & Hrun & Hok & Hb & Hr).
  - apply ex_freertos_ok.
  - by left.
  - vm_compute. reflexivity.
  - vm_compute. reflexivity.
  - reflexivity.
  - intros f [= <-]. eexists 0, _, _. split; [vm_compute; reflexivity |].
    intros d b [Hne [Hd | Hd%elem_of_nil]%elem_of_cons]%drop_live_elem; [congruence | done].
  - assert (r = 0) as -> by (vm_compute in Hr; congruence). exists m'. splits; [done | done |].
    rewrite Hb. intros H. by apply H.
Defined.

Lemma no_os_spi_transfer_in_order_witness :
  exists m', no_os_spi_transfer sim_driver (Some 1%positive) [ex_msg 7 3; ex_msg 8 65537] 2 ex_null
             = Done (0, m') /\ world m' = [(Some 7%positive, 3); (Some 8%positive, 1)].
Proof.
  destruct (no_os_spi_transfer_in_order sim_driver [(1%positive, 1%positive)] ex_null 1 1 ex_desc
    (SpiBus None 1 2 1000000 0 0 (Some 1%positive) None) 1 sim_write_and_read
    [ex_msg 7 3; ex_msg 8 65537] 0 (descs ex_null) [(Some 7%positive, 3); (Some 8%positive, 1)])
    as (m' & Hrun & _ & _ & Hw).
  - apply ex_null_ok.
  - by left.
  - vm_compute. reflexivity.
  - vm_compute. reflexivity.
  - reflexivity.
  - reflexivity.
  - reflexivity.
  - reflexivity.
  - intros data n h w r h' w' [= <- <- <-] d b Hd. reflexivity.
  - vm_compute. reflexivity.
  - by exists m'.
Defined.

Lemma no_os_spi_transfer_deadlock_witness :
  no_os_spi_transfer sim_driver (Some 1%positive) [ex_msg 7 3] 1 ex_freertos = NoFuel.
Proof.
  refine (no_os_spi_transfer_deadlock sim_driver [(1%positive, 1%positive)] ex_freertos 1 1 ex_desc
    (SpiBus (Some 1%positive) 1 2 1000000 0 0 (Some 1%positive) None) 1 1 sim_write_and_read
    (ex_msg 7 3) [] 1 ex_freertos_ok _ _ _ _ _ _ _ _ _).
  - by left.
  - vm_compute. reflexivity.
  - vm_compute. reflexivity.
  - reflexivity.
  - reflexivity.
  - reflexivity.
  - reflexivity.
  - reflexivity.
  - lia.
Defined.
