(* ===== verification/I2c.v ===== *)
(** * I2C: [drivers/api/no_os_i2c.c]

    The bus-independent I2C layer: argument checks, the table of buses ([Bus])
    and the platform's operations, which are parameters.  The theorem is about
    whole sessions: any sequence of initialisations, transfers and removals. *)
From stdpp Require Import relations.
From S2P Require Import Prelude Mutex Bus.

(** ** Data *)

Definition I2C_MAX_BUS_NUMBER : Z := 4.

Record no_os_i2cbus_desc : Type := I2cBus {
  ib_mutex : ptr;
  ib_slave_number : Z;
  ib_device_id : Z;
  ib_max_speed_hz : Z;
  ib_platform_ops : ptr;
  ib_extra : ptr
}.

Record no_os_i2c_desc : Type := I2cDesc {
  id_bus : ptr;
  id_device_id : Z;
  id_max_speed_hz : Z;
  id_slave_address : Z;
  id_platform_ops : ptr;
  id_extra : ptr
}.

Record no_os_i2c_init_param : Type := I2cParam {
  ip_device_id : Z;
  ip_max_speed_hz : Z;
  ip_slave_address : Z;
  ip_platform_ops : ptr;
  ip_extra : ptr
}.

#[export] Instance i2c_bus_desc : BusDesc no_os_i2cbus_desc := {|
  bus_mutex := ib_mutex;
  bus_id := ib_device_id;
  slaves := ib_slave_number;
  set_slaves n b := I2cBus (ib_mutex b) n (ib_device_id b) (ib_max_speed_hz b) (ib_platform_ops b)
                      (ib_extra b)
|}.

#[export] Instance i2c_bus_laws : BusDescLaws no_os_i2cbus_desc.
Proof. by split. Qed.

#[export] Instance i2c_dev_desc : DevDesc no_os_i2c_desc := {|
  bus_of := id_bus;
  set_bus p d := I2cDesc p (id_device_id d) (id_max_speed_hz d) (id_slave_address d)
                   (id_platform_ops d) (id_extra d);
  ops_of := id_platform_ops
|}.

#[export] Instance i2c_dev_laws : DevDescLaws no_os_i2c_desc.
Proof. by split. Qed.

(** A platform's operations; a function pointer may be null. *)
Record no_os_i2c_platform_ops (W : Type) : Type := I2cOps {
  i2c_ops_init : option (no_os_i2c_init_param -> cmd (platform no_os_i2c_desc W) (Z * ptr));
  i2c_ops_write : option (ptr -> ptr -> Z -> Z -> cmd (platform no_os_i2c_desc W) Z);
  i2c_ops_read : option (ptr -> ptr -> Z -> Z -> cmd (platform no_os_i2c_desc W) Z);
  i2c_ops_remove : option (ptr -> cmd (platform no_os_i2c_desc W) Z)
}.
Arguments I2cOps {W} _ _ _ _.
Arguments i2c_ops_init {W} _.
Arguments i2c_ops_write {W} _.
Arguments i2c_ops_read {W} _.
Arguments i2c_ops_remove {W} _.

(** ** Operations *)

Section i2c.
  Context {M W : Type} {MM : Mutex M}.
  Context (driver : positive -> no_os_i2c_platform_ops W).
  Abbreviation mem := (bus_mem no_os_i2cbus_desc no_os_i2c_desc M W).

Definition new_i2cbus (param : no_os_i2c_init_param) (mutex : ptr) : no_os_i2cbus_desc :=
  I2cBus mutex 0 (ip_device_id param) (ip_max_speed_hz param) (ip_platform_ops param)
    (ip_extra param).

Definition no_os_i2cbus_init (param : no_os_i2c_init_param) : cmd mem Z :=
  bus_init (ip_device_id param) (new_i2cbus param).

Definition no_os_i2cbus_remove (bus_number : Z) : cmd mem unit := bus_remove bus_number.

Definition i2c_fields (param : no_os_i2c_init_param) (d : no_os_i2c_desc) : no_os_i2c_desc :=
  I2cDesc (id_bus d) (id_device_id d) (id_max_speed_hz d) (id_slave_address d)
    (ip_platform_ops param) (id_extra d).

(** The result is the return code and what [*desc] was set to. *)
Definition no_os_i2c_init (param : option no_os_i2c_init_param) : cmd mem (Z * ptr) :=
  match param with
  | None => mret (- EINVAL, None)
  | Some param =>
      match ip_platform_ops param with
      | None => mret (- EINVAL, None)
      | Some ops =>
          match i2c_ops_init (driver ops) with
          | None => mret (- ENOSYS, None)
          | Some f =>
              if I2C_MAX_BUS_NUMBER <? ip_device_id param then mret (- EINVAL, None) else
              bus_attach (ip_device_id param) (no_os_i2cbus_init param) (f param)
                (i2c_fields param)
          end
      end
  end.

Definition i2c_with_ops (desc : ptr) (k : no_os_i2c_platform_ops W -> cmd mem Z) : cmd mem Z :=
  match desc with
  | None => mret (- EINVAL)
  | Some _ =>
      d ← on_descs (hload desc);
      match id_platform_ops d with
      | None => mret (- EINVAL)
      | Some ops => k (driver ops)
      end
  end.

Definition no_os_i2c_remove (desc : ptr) : cmd mem Z :=
  i2c_with_ops desc (fun ops =>
    _ ← bus_detach desc;
    match i2c_ops_remove ops with
    | None => mret (- ENOSYS)
    | Some f => on_platform (f desc)
    end).

Definition no_os_i2c_write (desc data : ptr) (bytes_number stop_bit : Z) : cmd mem Z :=
  i2c_with_ops desc (fun ops =>
    match i2c_ops_write ops with
    | None => mret (- ENOSYS)
    | Some f => locked_transfer desc (on_platform (f desc data bytes_number stop_bit))
    end).

Definition no_os_i2c_read (desc data : ptr) (bytes_number stop_bit : Z) : cmd mem Z :=
  i2c_with_ops desc (fun ops =>
    match i2c_ops_read ops with
    | None => mret (- ENOSYS)
    | Some f => locked_transfer desc (on_platform (f desc data bytes_number stop_bit))
    end).

(** ** Sessions *)

Context {ML : MutexLaws M}.

(** What a platform promises: its operations end, they leave the other
    descriptors alone, and a new descriptor is new. *)
Definition keeps_cells (h h' : heap no_os_i2c_desc) : Prop :=
  forall q, is_Some (cells h !! q) -> cells h' !! q = cells h !! q.

Record driver_ok (ops : no_os_i2c_platform_ops W) : Prop := DriverOk {
  ok_init f param h w : i2c_ops_init ops = Some f ->
    exists r h' w', f param (h, w) = Done (r, (h', w')) /\ keeps_cells h h' /\
      (r.1 = 0 -> exists p d, r.2 = Some p /\ cells h !! p = None /\ cells h' !! p = Some d);
  ok_write f d data n stop h w : i2c_ops_write ops = Some f ->
    exists r h' w', f d data n stop (h, w) = Done (r, (h', w')) /\ keeps_cells h h';
  ok_read f d data n stop h w : i2c_ops_read ops = Some f ->
    exists r h' w', f d data n stop (h, w) = Done (r, (h', w')) /\ keeps_cells h h';
  ok_remove f d h w : i2c_ops_remove ops = Some f -> is_Some (cells h !! d) ->
    exists r h' w', f (Some d) (h, w) = Done (r, (h', w')) /\
      (forall q, q <> d -> is_Some (cells h !! q) -> cells h' !! q = cells h !! q)
}.

Inductive i2c_request : Type :=
  | RInit (param : no_os_i2c_init_param)
  | RWrite (desc : positive) (data : ptr) (bytes_number stop_bit : Z)
  | RRead (desc : positive) (data : ptr) (bytes_number stop_bit : Z)
  | RRemove (desc : positive).

Definition i2c_run (req : i2c_request) : cmd mem (Z * ptr) :=
  match req with
  | RInit param => no_os_i2c_init (Some param)
  | RWrite d data n stop => r ← no_os_i2c_write (Some d) data n stop; mret (r, None)
  | RRead d data n stop => r ← no_os_i2c_read (Some d) data n stop; mret (r, None)
  | RRemove d => r ← no_os_i2c_remove (Some d); mret (r, None)
  end.

(** The client uses descriptors it holds, fewer than 255 of them. *)
Definition allowed (live : list (positive * positive)) (req : i2c_request) : Prop :=
  match req with
  | RInit param => 0 <= ip_device_id param /\ (length live < 255)%nat
  | RWrite d _ _ _ | RRead d _ _ _ | RRemove d => d ∈ live.*1
  end.

(** What the request does to the descriptors the client holds; [m'] is the
    memory after it. *)
Definition held_after (live : list (positive * positive)) (req : i2c_request) (r : Z * ptr)
    (m' : mem) : list (positive * positive) :=
  match req with
  | RInit param =>
      if truthy r.1 then live else
      match r.2, table m' !! Z.to_nat (ip_device_id param) with
      | Some p, Some (Some b) => (p, b) :: live
      | _, _ => live
      end
  | RRemove d => drop_live d live
  | _ => live
  end.

Inductive i2c_step : list (positive * positive) * mem -> list (positive * positive) * mem -> Prop :=
  | i2c_step_intro live m req r m' :
      allowed live req -> i2c_run req m = Done (r, m') ->
      i2c_step (live, m) (held_after live req r m', m').

(** The invariant of a session: that of the table, and live descriptors with
    a platform. *)
Record session_ok (x : list (positive * positive) * mem) : Prop := SessionOk {
  so_bus : bus_ok 5 x.1 x.2;
  so_ops : forall d b, (d, b) ∈ x.1 -> exists D0 ops,
    cells (descs x.2) !! d = Some D0 /\ id_platform_ops D0 = Some ops
}.

Lemma i2c_with_ops_run m d D0 ops k :
  cells (descs m) !! d = Some D0 -> id_platform_ops D0 = Some ops ->
  i2c_with_ops (Some d) k m = k (driver ops) m.
Proof.
  intros HD Ho. unfold i2c_with_ops. rewrite (bind_done _ _ _ _ _ (descs_load m d D0 HD)).
  by rewrite Ho.
Qed.

Lemma live_keeps live (m : mem) h' :
  bus_ok 5 live m -> keeps_cells (descs m) h' -> keeps_live live (descs m) h'.
Proof.
  intros Hm Hk d b Hd. apply Hk. destruct (ok_live _ _ _ Hm d b Hd) as [_ (D0 & HD & _)]. by exists D0.
Qed.

(** Live descriptors keep their platform as long as their contents stay. *)
Lemma ops_keep live live' (m m' : mem) :
  session_ok (live, m) -> bus_ok 5 live' m' -> (forall x, x ∈ live' -> x ∈ live) ->
  (forall d b, (d, b) ∈ live' -> cells (descs m') !! d = cells (descs m) !! d) ->
  session_ok (live', m').
Proof.
  intros [Hm Ho] Hm' Hsub Hk. split; [done |]. intros d b Hd. cbn in *.
  rewrite (Hk d b Hd). apply (Ho d b). by apply Hsub.
Qed.

Lemma live_on_le live b : live_on live b <= Z.of_nat (length live).
Proof. unfold live_on. pose proof (length_filter (fun x => x.2 = b) live). lia. Qed.

Lemma transfer_step live m d b D0 ops (op : cmd (platform no_os_i2c_desc W) Z) r h' w' :
  session_ok (live, m) -> (d, b) ∈ live -> cells (descs m) !! d = Some D0 ->
  id_platform_ops D0 = Some ops -> op (descs m, world m) = Done (r, (h', w')) ->
  keeps_cells (descs m) h' ->
  exists m', locked_transfer (Some d) (on_platform op) m = Done (r, m') /\ session_ok (live, m').
Proof using ML.
  intros Hs Hd HD Ho Hop Hk. pose proof (live_keeps live m h' (so_bus _ Hs) Hk) as Hkl.
  destruct (transfer_ok 5 live m d b op r h' w' (so_bus _ Hs) Hd Hop Hkl)
    as (m' & Hrun & Hm' & Hd' & _). exists m'. split; [done |].
  apply (ops_keep live live m m' Hs Hm'); [done |]. intros d1 b1 H1. rewrite Hd'. by eapply Hkl.
Qed.

Context (Hdrv : forall p, driver_ok (driver p)).

Lemma write_read_step live m d (sel : no_os_i2c_platform_ops W -> option
    (ptr -> ptr -> Z -> Z -> cmd (platform no_os_i2c_desc W) Z)) data n stop :
  (forall ops f h w, sel (driver ops) = Some f ->
     exists r h' w', f (Some d) data n stop (h, w) = Done (r, (h', w')) /\ keeps_cells h h') ->
  session_ok (live, m) -> d ∈ live.*1 ->
  exists r m', i2c_with_ops (Some d) (fun ops =>
    match sel ops with
    | None => mret (- ENOSYS)
    | Some f => locked_transfer (Some d) (on_platform (f (Some d) data n stop))
    end) m = Done (r, m') /\ session_ok (live, m').
Proof using ML.
  intros Hsel Hs ([d' b] & -> & Hd)%list_elem_of_fmap. cbn [fst] in *.
  destruct (so_ops _ Hs d' b Hd) as (D0 & ops & HD & Ho).
  rewrite (i2c_with_ops_run m d' D0 ops) by done.
  destruct (sel (driver ops)) as [f |] eqn:Hf; [| by exists (- ENOSYS), m].
  destruct (Hsel ops f (descs m) (world m) Hf) as (r & h' & w' & Hrun & Hk).
  exists r. by apply (transfer_step live m d' b D0 ops _ r h' w').
Qed.

Lemma remove_step live m d :
  session_ok (live, m) -> d ∈ live.*1 -> (length live < 256)%nat ->
  exists r m', no_os_i2c_remove (Some d) m = Done (r, m') /\ session_ok (drop_live d live, m').
Proof using ML Hdrv.
  intros Hs ([d' b] & -> & Hd)%list_elem_of_fmap Hlen. cbn [fst] in *.
  destruct (so_ops _ Hs d' b Hd) as (D0 & ops & HD & Ho). pose proof (live_on_le live b) as Hle.
  unfold no_os_i2c_remove. rewrite (i2c_with_ops_run m d' D0 ops) by done.
  destruct (bus_detach_ok 5 live m d' b (so_bus _ Hs) Hd) as (m1 & i & Hdet & Hm1 & Hd1 & Hw1 & _);
    [cbn in *; lia |].
  assert (session_ok (drop_live d' live, m1)) as Hs1.
  { apply (ops_keep live (drop_live d' live) m m1 Hs Hm1).
    - intros [d1 b1] H1. by apply drop_live_elem in H1 as [_ ?].
    - intros d1 b1 _. by rewrite Hd1. }
  rewrite (bind_done _ _ _ _ _ Hdet).
  destruct (i2c_ops_remove (driver ops)) as [f |] eqn:Hf; [| by exists (- ENOSYS), m1].
  destruct (ok_remove _ (Hdrv ops) f d' (descs m1) (world m1) Hf) as (r & h' & w' & Hrun & Hk).
  { rewrite Hd1. by exists D0. }
  eexists r, _. split; [by apply (on_platform_run _ _ _ h' w') |].
  assert (keeps_live (drop_live d' live) (descs m1) h') as Hkl.
  { intros d1 b1 H1. assert (H1' := H1). apply drop_live_elem in H1' as [Hne _]. apply Hk; [done |].
    destruct (so_ops _ Hs1 d1 b1 H1) as (D1 & _ & HD1 & _). by exists D1. }
  apply (ops_keep (drop_live d' live) (drop_live d' live) m1 _ Hs1); [by apply platform_ok | done |].
  intros d1 b1 H1. by eapply Hkl.
Qed.

Lemma init_step live m param :
  session_ok (live, m) -> allowed live (RInit param) ->
  exists r m', no_os_i2c_init (Some param) m = Done (r, m') /\
    session_ok (held_after live (RInit param) r m', m').
Proof using ML Hdrv.
  intros Hs [Hid Hlen]. pose proof (so_bus _ Hs) as Hm. cbn in Hm. unfold no_os_i2c_init, I2C_MAX_BUS_NUMBER.
  destruct (ip_platform_ops param) as [ops |] eqn:Ho; [| by exists (- EINVAL, None), m].
  destruct (i2c_ops_init (driver ops)) as [f |] eqn:Hf; [| by exists (- ENOSYS, None), m].
  destruct (Z.ltb_spec 4 (ip_device_id param)); [by exists (- EINVAL, None), m |].
  set (id := ip_device_id param) in *.
  destruct (decide (table m !! Z.to_nat id = Some None /\ alloc_fails (buses m) = true)) as [[Hn Ha] | Hno].
  - destruct (bus_attach_nomem 5 live m id (new_i2cbus param) (i2c_fields param) (f param) Hm Hid Hn Ha)
      as (m' & Hr & Hm' & _ & Hd' & _).
    exists (- ENOMEM, None), m'. split; [done |]. cbn.
    apply (ops_keep live live m m' Hs Hm'); [done |]. intros d b _. by rewrite Hd'.
  - destruct (ok_init _ (Hdrv ops) f param (descs m) (world m) Hf) as (r & h' & w' & Hrun & Hk & Hnew).
    destruct (bus_attach_ok 5 live m id (new_i2cbus param) (i2c_fields param) (f param) r h' w')
      as (m' & Hr & Hm'); try done.
    + lia.
    + intros Hn. destruct (alloc_fails (buses m)); [| done]. exfalso. by apply Hno.
    + intros b _. pose proof (live_on_le live b). lia.
    + split; [by apply live_keeps |]. intros H0. destruct (Hnew H0) as (p & d & Hp & Hpn & Hpd).
      exists p, d. splits; try done. intros ([p' b] & Hpe & Hin)%list_elem_of_fmap. cbn in Hpe. subst p'.
      destruct (so_ops _ Hs p b Hin) as (D1 & _ & HD1 & _). cbn in HD1. congruence.
    + exists r, m'. split; [done |]. cbn [held_after]. destruct (truthy r.1) eqn:Htr.
      * destruct Hm' as [Hm' Hd']. apply (ops_keep live live m m' Hs Hm'); [done |].
        intros d b Hd. rewrite Hd'. by eapply (live_keeps live m).
      * destruct Hm' as (p & b & -> & Ht & Hm' & _ & d & Hd'). fold id. rewrite Ht.
        split; [done |]. intros d1 b1 Hd1. cbn in Hd1. cbn. rewrite Hd', lookup_insert.
        case_decide as Hp; [subst d1; eexists _, ops; by split |].
        apply elem_of_cons in Hd1 as [Hd1 | Hd1]; [congruence |].
        rewrite (live_keeps live m h' Hm Hk d1 b1 Hd1). by apply (so_ops _ Hs d1 b1).
Qed.

Lemma request_step live m req :
  session_ok (live, m) -> allowed live req -> (length live < 256)%nat ->
  exists r m', i2c_run req m = Done (r, m') /\ session_ok (held_after live req r m', m').
Proof using ML Hdrv.
  intros Hs Ha Hlen. destruct req as [param | d data n stop | d data n stop | d]; cbn [i2c_run].
  - by apply init_step.
  - destruct (write_read_step live m d i2c_ops_write data n stop) as (r & m' & Hr & Hs'); try done.
    + intros ops f h w Hf. by apply (ok_write _ (Hdrv ops)).
    + exists (r, None), m'. split; [| done]. unfold no_os_i2c_write. by rewrite (bind_done _ _ _ _ _ Hr).
  - destruct (write_read_step live m d i2c_ops_read data n stop) as (r & m' & Hr & Hs'); try done.
    + intros ops f h w Hf. by apply (ok_read _ (Hdrv ops)).
    + exists (r, None), m'. split; [| done]. unfold no_os_i2c_read. by rewrite (bind_done _ _ _ _ _ Hr).
  - destruct (remove_step live m d) as (r & m' & Hr & Hs'); try done.
    exists (r, None), m'. split; [| done]. by rewrite (bind_done _ _ _ _ _ Hr).
Qed.

Lemma drop_live_length d live : (length (drop_live d live) <= length live)%nat.
Proof. apply length_filter. Qed.

Lemma session_reach live m :
  forall x, rtc i2c_step x (live, m) -> session_ok x -> (length x.1 < 256)%nat ->
  session_ok (live, m) /\ (length live < 256)%nat.
Proof using ML Hdrv.
  intros x Hx. remember (live, m) as y eqn:Hy. induction Hx as [x | x y z Hstep _ IH]; [by subst |].
  intros Hs Hlen. destruct Hstep as [live0 m0 req r m1 Ha Hrun].
  destruct (request_step live0 m0 req Hs Ha Hlen) as (r' & m' & Hrun' & Hs').
  rewrite Hrun in Hrun'. injection Hrun' as <- <-. apply IH; [done | done |]. cbn in *.
  destruct req as [param | | | d]; cbn [held_after]; try done.
  - destruct Ha as [_ Ha]. repeat case_match; cbn in *; lia.
  - pose proof (drop_live_length d live0). lia.
Qed.

(** C26: whatever sequence of initialisations, writes, reads and removals
    clients make of a platform that keeps its promises, with at most 255
    descriptors at a time, each bus counts its live descriptors and has a free
    mutex, and the next request ends with a result: no lock is ever left held
    and no freed bus is ever used. *)
Theorem i2c_session_live h0 x0 w0 live m req :
  rtc i2c_step ([], BusMem (replicate 5 None) (Heap ∅ 1 []) h0 x0 w0) (live, m) ->
  allowed live req ->
  bus_ok 5 live m /\ exists r m', i2c_run req m = Done (r, m').
Proof using ML Hdrv.
  intros Hx Ha. destruct (session_reach live m _ Hx) as [Hs Hlen].
  - split; [apply bus_ok_empty |]. intros d b Hd. by apply elem_of_nil in Hd.
  - cbn. lia.
  - split; [apply (so_bus _ Hs) |].
    destruct (request_step live m req Hs Ha Hlen) as (r & m' & Hr & _). by exists r, m'.
Qed.
End i2c.

(** ** An example: a platform that counts the bytes it moves *)

Abbreviation sim := (cmd (platform no_os_i2c_desc Z)).

Definition i2c_sim_init (param : no_os_i2c_init_param) : sim (Z * ptr) := fun s =>
  let p := fresh (dom (cells s.1)) in
  let d := I2cDesc None (ip_device_id param) (ip_max_speed_hz param) (ip_slave_address param) None
             None in
  Done ((0, Some p), (Heap (<[p := d]> (cells s.1)) (next_block s.1) (oom s.1), s.2)).

Definition i2c_sim_transfer (desc data : ptr) (n stop : Z) : sim Z :=
  _ ← modify (fun s => (s.1, s.2 + n)); mret 0.

Definition i2c_sim_remove (desc : ptr) : sim Z :=
  _ ← zoom fst (fun h s => (h, s.2)) (hfree desc); mret 0.

Definition i2c_sim_driver (p : positive) : no_os_i2c_platform_ops Z :=
  I2cOps (Some i2c_sim_init) (Some i2c_sim_transfer) (Some i2c_sim_transfer) (Some i2c_sim_remove).

Lemma i2c_sim_driver_ok p : driver_ok (i2c_sim_driver p).
Proof.
  split.
  - intros f param h w [= <-]. eexists _, _, _. split; [reflexivity |].
    pose proof (is_fresh (dom (cells h))) as Hfr. rewrite not_elem_of_dom in Hfr. cbn. split.
    + intros q [v Hq]. cbn. rewrite lookup_insert_ne by congruence. done.
    + intros _. eexists _, _. splits; [reflexivity | exact Hfr | by rewrite lookup_insert_eq].
  - intros f d data n stop h w [= <-]. by eexists _, _, _.
  - intros f d data n stop h w [= <-]. by eexists _, _, _.
  - intros f d h w [= <-] [v Hd]. unfold i2c_sim_remove, hfree, mbind, cmd_bind, zoom; cbn. rewrite Hd.
    eexists _, _, _. split; [reflexivity |]. intros q Hq _. cbn. by rewrite lookup_delete_ne.
Qed.

Definition i2c_ex_param : no_os_i2c_init_param := I2cParam 2 400000 80 (Some 1%positive) None.

Definition i2c_ex_rtos : freertos sim_kernel := Freertos (Heap ∅ 1 []) (SimKernel ∅).

Lemma i2c_session_live_witness :
  exists live (m : bus_mem no_os_i2cbus_desc no_os_i2c_desc (freertos sim_kernel) Z) r m',
    length live = 1%nat /\ bus_ok 5 live m /\
    i2c_run i2c_sim_driver (RWrite 1 None 3 1) m = Done (r, m').
Proof.
  pose (m0 := BusMem (replicate 5 None) (Heap ∅ 1 []) (Heap ∅ 1 []) i2c_ex_rtos 0
    : bus_mem no_os_i2cbus_desc no_os_i2c_desc (freertos sim_kernel) Z).
  destruct (i2c_run i2c_sim_driver (RInit i2c_ex_param) m0) as [[r1 m1] | |] eqn:Hrun;
    [| vm_compute in Hrun; discriminate..].
  exists (held_after [] (RInit i2c_ex_param) r1 m1), m1.
  destruct (i2c_session_live i2c_sim_driver i2c_sim_driver_ok (Heap ∅ 1 []) i2c_ex_rtos 0
    (held_after [] (RInit i2c_ex_param) r1 m1) m1 (RWrite 1 None 3 1)) as (Hok & r & m' & Hr).
  - eapply rtc_l; [| apply rtc_refl]. apply i2c_step_intro; [| exact Hrun].
    split; [cbn; lia | cbn; lia].
  - vm_compute in Hrun. injection Hrun as <- <-. cbn. by left.
  - exists r, m'. split; [| done]. vm_compute in Hrun. by injection Hrun as <- <-.
Defined.
