(* ===== verification/Dispatch.v ===== *)
(** * Dispatch to a platform

    The shape that the interfaces of [drivers/api] share: an operation checks
    the descriptor and the platform's function pointer and calls it; some keep
    a static table of mutexes, one per device, that the descriptors of the
    device copy. *)
From S2P Require Import Prelude Mutex Bus.

(** ** Calls *)

(** [if (!desc || !desc->platform_ops || ...) return -EINVAL;]
    [if (!desc->platform_ops->op) return -ENOSYS;]: [valid] is what else is
    checked, [sel] the function pointer, [k] the rest. *)
Definition dispatch {S D Ops F} (load : ptr -> cmd S D) (ops_of : D -> ptr)
    (driver : positive -> Ops) (sel : Ops -> option F) (desc : ptr) (valid : bool)
    (k : F -> cmd S Z) : cmd S Z :=
  match desc with
  | None => mret (- EINVAL)
  | Some _ =>
      d ← load desc;
      match ops_of d with
      | None => mret (- EINVAL)
      | Some ops =>
          if negb valid then mret (- EINVAL) else
          match sel (driver ops) with
          | None => mret (- ENOSYS)
          | Some f => k f
          end
      end
  end.

(** The checks of the [init] functions. *)
Definition dispatch_init {S P Ops F} (ops_of : P -> ptr) (driver : positive -> Ops)
    (sel : Ops -> option F) (param : option P) (valid : P -> bool)
    (k : P -> F -> cmd S (Z * ptr)) : cmd S (Z * ptr) :=
  match param with
  | None => mret (- EINVAL, None)
  | Some param =>
      match ops_of param with
      | None => mret (- EINVAL, None)
      | Some ops =>
          if negb (valid param) then mret (- EINVAL, None) else
          match sel (driver ops) with
          | None => mret (- ENOSYS, None)
          | Some f => k param f
          end
      end
  end.

(** [ret = init(desc, param); if (ret) return ret;] and the rest with the new
    descriptor. *)
Definition init_with {S} (init : cmd S (Z * ptr)) (k : ptr -> cmd S unit) : cmd S (Z * ptr) :=
  r ← init;
  if truthy r.1 then mret r else
  _ ← k r.2;
  mret (0, r.2).

Definition present {A} (p : option A) : bool := match p with Some _ => true | None => false end.

(** What a call on the descriptor [d] comes to: it has no operations, an
    argument is not valid, the platform lacks the operation, or the call. *)
Definition dispatch_result {S D Ops F} (ops_of : D -> ptr) (driver : positive -> Ops)
    (sel : Ops -> option F) (d : D) (valid : bool) (k : F -> cmd S Z) : cmd S Z :=
  match ops_of d with
  | None => mret (- EINVAL)
  | Some ops =>
      if valid then match sel (driver ops) with Some f => k f | None => mret (- ENOSYS) end
      else mret (- EINVAL)
  end.

Lemma dispatch_run {S D Ops F} (load : ptr -> cmd S D) ops_of (driver : positive -> Ops)
    (sel : Ops -> option F) p valid k s d :
  load (Some p) s = Done (d, s) ->
  dispatch load ops_of driver sel (Some p) valid k s
  = dispatch_result ops_of driver sel d valid k s.
Proof.
  intros Hl. unfold dispatch, dispatch_result. rewrite (bind_done _ _ _ _ _ Hl).
  destruct (ops_of d); [| done]. by destruct valid.
Qed.

(** ** Descriptors without a mutex: the platform's memory is all there is *)

Definition dev_load {D W} (desc : ptr) : cmd (platform D W) D :=
  zoom fst (fun h s => (h, s.2)) (hload desc).

Definition dev_store {D W} (desc : ptr) (d : D) : cmd (platform D W) unit :=
  zoom fst (fun h s => (h, s.2)) (hstore desc d).

Definition dev_update {D W} (desc : ptr) (f : D -> D) : cmd (platform D W) unit :=
  d ← dev_load desc; dev_store desc (f d).

Lemma dev_load_done {D W} (s : platform D W) p d :
  cells s.1 !! p = Some d -> dev_load (Some p) s = Done (d, s).
Proof.
  intros Hp. unfold dev_load. rewrite (zoom_done _ _ _ _ _ _ (hload_done _ _ _ Hp)).
  by destruct s.
Qed.

Lemma dev_update_done {D W} (s : platform D W) p d f :
  cells s.1 !! p = Some d ->
  dev_update (Some p) f s
  = Done (tt, (Heap (<[p := f d]> (cells s.1)) (next_block s.1) (oom s.1), s.2)).
Proof.
  intros Hp. unfold dev_update. rewrite (bind_done _ _ _ _ _ (dev_load_done s p d Hp)).
  unfold dev_store. by rewrite (zoom_done _ _ _ _ _ _ (hstore_done _ _ (f d) _ Hp)).
Qed.

(** ** A table of mutexes *)

Record slot_mem (D M W : Type) : Type := SlotMem {
  slots : list ptr;
  devs : heap D;
  slot_mutexes : M;
  dev_world : W
}.
Arguments SlotMem {D M W} _ _ _ _.
Arguments slots {D M W} _.
Arguments devs {D M W} _.
Arguments slot_mutexes {D M W} _.
Arguments dev_world {D M W} _.

Class SlotDesc (D : Type) : Type := {
  desc_mutex_of : D -> ptr;
  set_desc_mutex : ptr -> D -> D;
  desc_slot : D -> Z;
  desc_ops : D -> ptr;
  set_desc_ops : ptr -> D -> D
}.

Class SlotDescLaws (D : Type) `{SlotDesc D} : Prop := {
  mutex_set p d : desc_mutex_of (set_desc_mutex p d) = p;
  slot_set p d : desc_slot (set_desc_mutex p d) = desc_slot d;
  ops_set_mutex p d : desc_ops (set_desc_mutex p d) = desc_ops d;
  slot_set_ops p d : desc_slot (set_desc_ops p d) = desc_slot d;
  ops_set p d : desc_ops (set_desc_ops p d) = p
}.

Section slots.
  Context {D M W : Type} {SD : SlotDesc D} {MM : Mutex M}.
  Abbreviation mem := (slot_mem D M W).

Definition set_slot_mutexes (x : M) (m : mem) : mem :=
  SlotMem (slots m) (devs m) x (dev_world m).
Definition on_slots {A} : cmd (list ptr) A -> cmd mem A :=
  zoom slots (fun t m => SlotMem t (devs m) (slot_mutexes m) (dev_world m)).
Definition on_devs {A} : cmd (heap D) A -> cmd mem A :=
  zoom devs (fun h m => SlotMem (slots m) h (slot_mutexes m) (dev_world m)).
Definition on_slot_mutexes {A} : cmd M A -> cmd mem A := zoom slot_mutexes set_slot_mutexes.
Definition on_dev {A} : cmd (platform D W) A -> cmd mem A :=
  zoom (fun m => (devs m, dev_world m))
       (fun p m => SlotMem (slots m) p.1 (slot_mutexes m) p.2).

(** [no_os_mutex_init(&table[id]); desc->mutex = table[id];] *)
Definition slot_init (id : Z) (desc : ptr) : cmd mem unit :=
  mutex ← on_slots (aload id);
  mutex ← on_slot_mutexes (no_os_mutex_init mutex);
  _ ← on_slots (astore id mutex);
  mutex ← on_slots (aload id);
  d ← on_devs (hload desc);
  on_devs (hstore desc (set_desc_mutex mutex d)).

(** [desc->platform_ops = ops;] *)
Definition slot_set_ops_of (ops : ptr) (desc : ptr) : cmd mem unit :=
  d ← on_devs (hload desc); on_devs (hstore desc (set_desc_ops ops d)).

(** The descriptor's new mutex after its operations. *)
Definition slot_attach (id : Z) (ops : ptr) (init : cmd (platform D W) (Z * ptr)) :
  cmd mem (Z * ptr) :=
  init_with (on_dev init) (fun desc => _ ← slot_set_ops_of ops desc; slot_init id desc).

(** [no_os_mutex_remove(desc->mutex); table[desc->id] = NULL;] *)
Definition slot_remove (desc : ptr) : cmd mem unit :=
  d ← on_devs (hload desc);
  _ ← on_slot_mutexes (no_os_mutex_remove (desc_mutex_of d));
  d ← on_devs (hload desc);
  on_slots (astore (desc_slot d) None).

(** [desc->mutex] *)
Definition slot_mutex (desc : ptr) : cmd mem ptr :=
  d ← on_devs (hload desc); mret (desc_mutex_of d).

Definition slot_locked {A} (desc : ptr) (op : cmd mem A) : cmd mem A :=
  locked_call slot_mutexes set_slot_mutexes (slot_mutex desc) op.

(** [no_os_mutex_lock(desc->mutex)] on its own, and the unlock. *)
Definition slot_lock (desc : ptr) : cmd mem unit :=
  mutex ← slot_mutex desc; on_slot_mutexes (no_os_mutex_lock mutex).

Definition slot_unlock (desc : ptr) : cmd mem unit :=
  mutex ← slot_mutex desc; on_slot_mutexes (no_os_mutex_unlock mutex).

Definition slot_dispatch {Ops F} (driver : positive -> Ops) (sel : Ops -> option F) (desc : ptr)
    (valid : bool) (k : F -> cmd mem Z) : cmd mem Z :=
  dispatch (fun p => on_devs (hload p)) desc_ops driver sel desc valid k.

(** *** Reading and writing *)

Lemma slot_mem_eta (m : mem) : SlotMem (slots m) (devs m) (slot_mutexes m) (dev_world m) = m.
Proof. by destruct m. Qed.

Lemma slots_load (m : mem) i p :
  0 <= i -> slots m !! Z.to_nat i = Some p -> on_slots (aload i) m = Done (p, m).
Proof.
  intros Hi Hp. unfold on_slots. rewrite (zoom_done _ _ _ _ _ _ (aload_done _ _ _ Hi Hp)).
  by rewrite slot_mem_eta.
Qed.

Lemma slots_store (m : mem) i p :
  0 <= i -> (Z.to_nat i < length (slots m))%nat ->
  on_slots (astore i p) m
  = Done (tt, SlotMem (<[Z.to_nat i := p]> (slots m)) (devs m) (slot_mutexes m) (dev_world m)).
Proof.
  intros Hi Hlt. unfold on_slots. erewrite zoom_done by (apply astore_done; lia). done.
Qed.

Lemma devs_load (m : mem) p d :
  cells (devs m) !! p = Some d -> on_devs (hload (Some p)) m = Done (d, m).
Proof.
  intros Hp. unfold on_devs. rewrite (zoom_done _ _ _ _ _ _ (hload_done _ _ _ Hp)).
  by rewrite slot_mem_eta.
Qed.

Lemma devs_store (m : mem) p d d0 :
  cells (devs m) !! p = Some d0 ->
  on_devs (hstore (Some p) d) m
  = Done (tt, SlotMem (slots m) (Heap (<[p := d]> (cells (devs m))) (next_block (devs m))
                (oom (devs m))) (slot_mutexes m) (dev_world m)).
Proof. intros Hp. unfold on_devs. by rewrite (zoom_done _ _ _ _ _ _ (hstore_done _ _ d _ Hp)). Qed.

Lemma on_dev_run {A} (c : cmd (platform D W) A) (m : mem) a h w :
  c (devs m, dev_world m) = Done (a, (h, w)) ->
  on_dev c m = Done (a, SlotMem (slots m) h (slot_mutexes m) w).
Proof. intros Hc. unfold on_dev, zoom. by rewrite Hc. Qed.

Lemma slot_dispatch_run {Ops F} (driver : positive -> Ops) (sel : Ops -> option F) (m : mem) p d
    valid k :
  cells (devs m) !! p = Some d ->
  slot_dispatch driver sel (Some p) valid k m
  = dispatch_result desc_ops driver sel d valid k m.
Proof.
  intros Hp. unfold slot_dispatch. apply dispatch_run. by apply devs_load.
Qed.
(** *** The invariant

    [live] are the descriptors in use, each with the state of its mutex: no two
    of them share a device, each has the mutex of its device's entry, an entry
    without a live descriptor is null, and no mutex is in two entries. *)

Context {SL : SlotDescLaws D} {ML : MutexLaws M}.

(** A mutex is null or in the state [held]. *)
Definition mutex_is (x : M) (held : bool) (p : ptr) : Prop :=
  match p with None => True | Some q => mview x !! q = Some held end.

Record slots_ok (n : nat) (live : gmap positive bool) (m : mem) : Prop := SlotsOk {
  slots_len : length (slots m) = n;
  slots_live : forall d held, live !! d = Some held -> exists D0,
    cells (devs m) !! d = Some D0 /\ 0 <= desc_slot D0 /\
    slots m !! Z.to_nat (desc_slot D0) = Some (desc_mutex_of D0) /\
    mutex_is (slot_mutexes m) held (desc_mutex_of D0) /\ is_Some (desc_ops D0);
  slots_excl : forall d1 d2 D1 D2, is_Some (live !! d1) -> is_Some (live !! d2) ->
    cells (devs m) !! d1 = Some D1 -> cells (devs m) !! d2 = Some D2 ->
    desc_slot D1 = desc_slot D2 -> d1 = d2;
  slots_used : forall i q, slots m !! i = Some (Some q) -> exists d D0,
    is_Some (live !! d) /\ cells (devs m) !! d = Some D0 /\ desc_slot D0 = Z.of_nat i;
  slots_inj : forall i j q, slots m !! i = Some (Some q) -> slots m !! j = Some (Some q) -> i = j
}.

(** The platform leaves the live descriptors alone. *)
Definition keeps_devs (live : gmap positive bool) (h h' : heap D) : Prop :=
  forall d, is_Some (live !! d) -> cells h' !! d = cells h !! d.

Lemma slots_platform n live (m : mem) h' w' :
  slots_ok n live m -> keeps_devs live (devs m) h' ->
  slots_ok n live (SlotMem (slots m) h' (slot_mutexes m) w').
Proof.
  intros Hm Hk. split; cbn.
  - apply Hm.
  - intros d held Hd. rewrite (Hk d) by done. by apply (slots_live n live m Hm).
  - intros d1 d2 D1 D2 H1 H2. rewrite (Hk d1), (Hk d2) by done. by apply (slots_excl n live m Hm).
  - intros i q Hi. destruct (slots_used n live m Hm i q Hi) as (d & D0 & Hd & HD & Hs).
    exists d, D0. by rewrite (Hk d).
  - apply Hm.
Qed.

(** The state of the mutexes changes at [d] only. *)
Lemma slots_mutexes n live (m : mem) x d held :
  slots_ok n live m -> is_Some (live !! d) ->
  (forall D0, cells (devs m) !! d = Some D0 ->
     mview x = match desc_mutex_of D0 with Some q => <[q := held]> (mview (slot_mutexes m))
                                         | None => mview (slot_mutexes m) end) ->
  slots_ok n (<[d := held]> live) (set_slot_mutexes x m).
Proof.
  intros Hm Hd Hx.
  assert (forall d', is_Some (<[d := held]> live !! d') <-> is_Some (live !! d')) as Hiff.
  { intros d'. rewrite lookup_insert_is_Some. destruct (decide (d = d')); naive_solver. }
  destruct Hd as [h0 Hd]. destruct (slots_live n live m Hm d h0 Hd) as (D0 & HD & Hs0 & Hs & Hq & Ho).
  specialize (Hx D0 HD). split; cbn.
  - apply Hm.
  - intros d' held'. rewrite lookup_insert. case_decide as Heq.
    + subst d'. intros [= <-]. exists D0. splits; try done.
      destruct (desc_mutex_of D0); cbn; [| done]. by rewrite Hx, lookup_insert_eq.
    + intros Hd'. destruct (slots_live n live m Hm d' held' Hd') as (D1 & HD1 & ? & Hs1 & Hq1 & ?).
      exists D1. splits; try done. destruct (desc_mutex_of D1) as [q1 |] eqn:E1; [| done]. cbn in *.
      rewrite Hx. destruct (desc_mutex_of D0) as [q0 |] eqn:E0; [| done].
      rewrite lookup_insert_ne; [done |]. intros ->. apply Heq.
      pose proof (slots_inj n live m Hm _ _ _ Hs Hs1).
      eapply (slots_excl n live m Hm d d'); eauto. lia.
  - intros d1 d2 D1 D2. rewrite !Hiff. by apply (slots_excl n live m Hm).
  - intros i q Hi. destruct (slots_used n live m Hm i q Hi) as (d' & D1 & ? & ? & ?).
    exists d', D1. by rewrite Hiff.
  - apply Hm.
Qed.

(** *** Attaching *)

Definition no_live_on (live : gmap positive bool) (h : heap D) (id : Z) : Prop :=
  forall d D0, is_Some (live !! d) -> cells h !! d = Some D0 -> desc_slot D0 <> id.

(** What the layer relies on: a failing [init] leaves the descriptors in use
    alone, and a successful one returns another descriptor, for the device. *)
Definition slot_promise (id : Z) (live : gmap positive bool) (h h' : heap D) (r : Z * ptr) : Prop :=
  keeps_devs live h h' /\
  (r.1 = 0 -> exists p d, r.2 = Some p /\ live !! p = None /\ cells h' !! p = Some d /\
     desc_slot d = id).

Lemma unused_slot n live (m : mem) id :
  slots_ok n live m -> 0 <= id < Z.of_nat n -> no_live_on live (devs m) id ->
  slots m !! Z.to_nat id = Some None.
Proof.
  intros Hm Hid Hno. destruct (slots m !! Z.to_nat id) as [[q |] |] eqn:E; [| done |].
  - destruct (slots_used n live m Hm _ q E) as (d & D0 & Hd & HD & Hs). exfalso.
    apply (Hno d D0 Hd HD). lia.
  - apply lookup_ge_None in E. rewrite (slots_len n live m Hm) in E. lia.
Qed.

(** The memory after a descriptor [p] of the device [id] got the mutex [q]. *)
Lemma slots_add n live (m : mem) id p d q x :
  slots_ok n live m -> 0 <= id < Z.of_nat n -> no_live_on live (devs m) id ->
  live !! p = None -> cells (devs m) !! p = Some d -> desc_slot d = id -> is_Some (desc_ops d) ->
  match q with
  | None => mview x = mview (slot_mutexes m)
  | Some q => mview (slot_mutexes m) !! q = None /\ mview x = <[q := false]> (mview (slot_mutexes m))
  end ->
  (forall i q', q = Some q' -> slots m !! i <> Some (Some q')) ->
  slots_ok n (<[p := false]> live)
    (SlotMem (<[Z.to_nat id := q]> (slots m))
       (Heap (<[p := set_desc_mutex q d]> (cells (devs m))) (next_block (devs m)) (oom (devs m)))
       x (dev_world m)).
Proof using SL.
  intros Hm Hid Hno Hp Hd Hslot Hops Hx Hnew.
  assert (Z.to_nat id < length (slots m))%nat as Hlt by (rewrite (slots_len n live m Hm); lia).
  assert (forall d' D1, p <> d' -> is_Some (<[p := false]> live !! d') ->
    <[p := set_desc_mutex q d]> (cells (devs m)) !! d' = Some D1 ->
    is_Some (live !! d') /\ cells (devs m) !! d' = Some D1 /\ desc_slot D1 <> id) as Hold.
  { intros d' D1 Hne. rewrite !lookup_insert_ne by done. intros Hl HD. splits; try done. by eapply Hno. }
  split; cbn.
  - rewrite length_insert. apply Hm.
  - intros d' held. rewrite lookup_insert. case_decide as Heq.
    + subst d'. intros [= <-]. exists (set_desc_mutex q d). rewrite lookup_insert_eq.
      rewrite slot_set, mutex_set, ops_set_mutex, Hslot, list_lookup_insert_eq by done.
      splits; try done; [lia |]. destruct q; [| done]. cbn. destruct Hx as [_ ->].
      by rewrite lookup_insert_eq.
    + intros Hl. destruct (slots_live n live m Hm d' held Hl) as (D1 & HD1 & H0 & Hs1 & Hq1 & Ho1).
      exists D1. rewrite lookup_insert_ne by done. splits; try done.
      * rewrite list_lookup_insert_ne; [done |].
        assert (desc_slot D1 <> id) by (by eapply Hno). lia.
      * destruct (desc_mutex_of D1) as [q1 |]; [| done]. cbn in *. destruct q as [q |].
        -- destruct Hx as [Hnone ->]. rewrite lookup_insert_ne; congruence.
        -- by rewrite Hx.
  - intros d1 d2 D1 D2 H1 H2 HD1 HD2 Heq.
    destruct (decide (p = d1)) as [<- | Hne1], (decide (p = d2)) as [<- | Hne2]; [done | | |].
    + destruct (Hold d2 D2 Hne2 H2 HD2) as (_ & _ & Hs2). rewrite lookup_insert_eq in HD1.
      injection HD1 as <-. rewrite slot_set in Heq. congruence.
    + destruct (Hold d1 D1 Hne1 H1 HD1) as (_ & _ & Hs1). rewrite lookup_insert_eq in HD2.
      injection HD2 as <-. rewrite slot_set in Heq. congruence.
    + destruct (Hold d1 D1 Hne1 H1 HD1) as (? & ? & _), (Hold d2 D2 Hne2 H2 HD2) as (? & ? & _).
      by eapply (slots_excl n live m Hm).
  - intros i q'. rewrite list_lookup_insert. case_decide as Hi.
    + intros _. exists p, (set_desc_mutex q d). rewrite !lookup_insert_eq, slot_set. splits; [done.. | lia].
    + intros Hs. destruct (slots_used n live m Hm i q' Hs) as (d' & D1 & Hl & HD1 & Hs1).
      assert (p <> d') by (intros <-; rewrite Hp in Hl; by destruct Hl).
      exists d', D1. rewrite !lookup_insert_ne by done. done.
  - intros i j q'. rewrite !list_lookup_insert. do 2 case_decide; intros; simplify_eq; try lia.
    + exfalso. by eapply Hnew.
    + exfalso. by eapply Hnew.
    + by eapply (slots_inj n live m Hm).
Qed.

(** A new descriptor of a device that no live one uses joins the table. *)
Lemma slot_attach_ok n live (m : mem) id ops init r h' w' :
  slots_ok n live m -> 0 <= id < Z.of_nat n -> no_live_on live (devs m) id -> is_Some ops ->
  init (devs m, dev_world m) = Done (r, (h', w')) -> slot_promise id live (devs m) h' r ->
  exists m', slot_attach id ops init m = Done (r, m') /\ dev_world m' = w' /\
    if truthy r.1 then slots_ok n live m'
    else exists p, r.2 = Some p /\ live !! p = None /\ slots_ok n (<[p := false]> live) m' /\
      exists D0 mutex, cells h' !! p = Some D0 /\ desc_slot D0 = id /\
        cells (devs m') !! p = Some (set_desc_mutex mutex (set_desc_ops ops D0)).
Proof using SL ML.
  intros Hm Hid Hno Hops Hinit [Hk Hpr]. unfold slot_attach, init_with.
  rewrite (bind_done _ _ _ _ _ (on_dev_run init m r h' w' Hinit)).
  pose proof (slots_platform n live m h' w' Hm Hk) as Hm1.
  set (m1 := SlotMem (slots m) h' (slot_mutexes m) w') in *.
  destruct (truthy r.1) eqn:Hr; [by exists m1 |]. apply truthy_false in Hr.
  destruct (Hpr Hr) as (p & d & Hp & Hlp & Hd & Hslot). rewrite Hp.
  set (m2 := SlotMem (slots m) (Heap (<[p := set_desc_ops ops d]> (cells h')) (next_block h') (oom h'))
    (slot_mutexes m) w').
  assert (slot_set_ops_of ops (Some p) m1 = Done (tt, m2)) as Hset.
  { unfold slot_set_ops_of. rewrite (bind_done _ _ _ _ _ (devs_load m1 p d Hd)).
    by rewrite (devs_store m1 p _ d). }
  assert (keeps_devs live (devs m1) (devs m2)) as Hk2.
  { intros d' Hd'. cbn. rewrite lookup_insert_ne; [done |]. intros <-. rewrite Hlp in Hd'. by destruct Hd'. }
  pose proof (slots_platform n live m1 (devs m2) w' Hm1 Hk2) as Hm2. fold m2 in Hm2.
  assert (no_live_on live (devs m2) id) as Hno2.
  { intros d' D1 Hd'. rewrite (Hk2 d' Hd'). unfold m1; cbn. rewrite (Hk d' Hd'). by apply Hno. }
  assert (cells (devs m2) !! p = Some (set_desc_ops ops d)) as Hd2 by (cbn; by rewrite lookup_insert_eq).
  pose proof (unused_slot n live m2 id Hm2 Hid Hno2) as Hnone.
  assert (Z.to_nat id < length (slots m2))%nat as Hlt by (rewrite (slots_len n live m2 Hm2); lia).
  destruct (init_null (slot_mutexes m2)) as (q & x & Hx & Hq).
  pose (m3 := SlotMem (<[Z.to_nat id := q]> (slots m2))
    (Heap (<[p := set_desc_mutex q (set_desc_ops ops d)]> (cells (devs m2))) (next_block (devs m2))
       (oom (devs m2))) x (dev_world m2)).
  assert (slot_init id (Some p) m2 = Done (tt, m3)) as Hinit2.
  { unfold slot_init. rewrite (bind_done _ _ _ _ _ (slots_load m2 id None (proj1 Hid) Hnone)).
    rewrite (bind_done _ _ _ q (set_slot_mutexes x m2))
      by (unfold on_slot_mutexes; by rewrite (zoom_done _ _ _ _ _ _ Hx)).
    set (m2' := SlotMem (<[Z.to_nat id := q]> (slots m2)) (devs m2) x (dev_world m2)).
    rewrite (bind_done _ _ _ tt m2') by (apply slots_store; [apply Hid | done]).
    rewrite (bind_done _ _ _ q m2') by (apply slots_load; [lia | by apply list_lookup_insert_eq]).
    rewrite (bind_done _ _ _ _ _ (devs_load m2' p _ Hd2)). by eapply (devs_store m2'). }
  exists m3. split; [| split; [done |]].
  - rewrite (bind_done _ _ _ tt m3) by by rewrite (bind_done _ _ _ _ _ Hset).
    destruct r as [r1 r2]. cbn in *. by subst.
  - exists p. splits; [done | done | |].
    + apply (slots_add n live m2 id p (set_desc_ops ops d) q x); try done.
      * by rewrite slot_set_ops.
      * by rewrite ops_set.
      * intros i q' -> Hi. destruct Hq as [Hq _].
        destruct (slots_used n live m2 Hm2 i q' Hi) as (d' & D1 & [hd Hl] & HD1 & Hs1).
        destruct (slots_live n live m2 Hm2 d' hd Hl) as (D2 & HD2 & _ & Hs2 & Hq2 & _).
        rewrite HD1 in HD2. injection HD2 as <-. rewrite Hs1, Nat2Z.id, Hi in Hs2.
        injection Hs2 as Hs2. rewrite <- Hs2 in Hq2. cbn in *. congruence.
    + exists d, q. splits; try done. cbn. by rewrite lookup_insert_eq.
Qed.

(** *** Detaching *)

(** A live descriptor gives its mutex and its entry back. *)
Lemma slot_remove_ok n live (m : mem) d held :
  slots_ok n live m -> live !! d = Some held ->
  exists m', slot_remove (Some d) m = Done (tt, m') /\ slots_ok n (delete d live) m' /\
    devs m' = devs m /\ dev_world m' = dev_world m.
Proof using ML.
  intros Hm Hd. destruct (slots_live n live m Hm d held Hd) as (D0 & HD & H0 & Hs & Hq & Ho).
  assert (exists x, no_os_mutex_remove (desc_mutex_of D0) (slot_mutexes m) = Done (tt, x) /\
    mview x = match desc_mutex_of D0 with Some q => delete q (mview (slot_mutexes m))
                                        | None => mview (slot_mutexes m) end) as (x & Hx & Hv).
  { destruct (desc_mutex_of D0) as [q |]; [apply remove_any; by exists held |].
    exists (slot_mutexes m). split; [apply null_remove | done]. }
  assert (Z.to_nat (desc_slot D0) < length (slots m))%nat as Hlt by by apply lookup_lt_Some in Hs.
  exists (SlotMem (<[Z.to_nat (desc_slot D0) := None]> (slots m)) (devs m) x (dev_world m)).
  split; [| split; [| by split]].
  - unfold slot_remove. rewrite (bind_done _ _ _ _ _ (devs_load m d D0 HD)).
    rewrite (bind_done _ _ _ tt (set_slot_mutexes x m))
      by (unfold on_slot_mutexes; by rewrite (zoom_done _ _ _ _ _ _ Hx)).
    rewrite (bind_done _ _ _ _ _ (devs_load (set_slot_mutexes x m) d D0 HD)).
    by apply (slots_store (set_slot_mutexes x m)).
  - split; cbn.
    + rewrite length_insert. apply Hm.
    + intros d' held'. rewrite lookup_delete_Some. intros [Hne Hd'].
      destruct (slots_live n live m Hm d' held' Hd') as (D1 & HD1 & H1 & Hs1 & Hq1 & Ho1).
      assert (desc_slot D0 <> desc_slot D1) as Hslot.
      { intros Heq. apply Hne. by eapply (slots_excl n live m Hm). }
      exists D1. rewrite list_lookup_insert_ne by lia. splits; try done.
      destruct (desc_mutex_of D1) as [q1 |] eqn:E1; [| done]. cbn in *. rewrite Hv.
      destruct (desc_mutex_of D0) as [q0 |]; [| done]. rewrite lookup_delete_ne; [done |].
      intros ->. apply Hslot. pose proof (slots_inj n live m Hm _ _ _ Hs Hs1). lia.
    + intros d1 d2 D1 D2 [? H1] [? H2]. apply lookup_delete_Some in H1 as [_ H1], H2 as [_ H2].
      by apply (slots_excl n live m Hm).
    + intros i q. rewrite list_lookup_insert. case_decide as Hi; [done |]. intros Hs1.
      destruct (slots_used n live m Hm i q Hs1) as (d' & D1 & Hl & HD1 & Hs').
      exists d', D1. rewrite lookup_delete_ne; [done |]. intros <-. rewrite HD in HD1.
      injection HD1 as <-. apply Hi. split; [lia | done].
    + intros i j q. rewrite !list_lookup_insert. do 2 case_decide; try done.
      by apply (slots_inj n live m Hm).
Qed.

(** *** Locking *)

Lemma slot_mutex_run (m : mem) d D0 x :
  cells (devs m) !! d = Some D0 ->
  slot_mutex (Some d) (set_slot_mutexes x m) = Done (desc_mutex_of D0, set_slot_mutexes x m).
Proof.
  intros HD. unfold slot_mutex. by rewrite (bind_done _ _ _ _ _ (devs_load (set_slot_mutexes x m) d D0 HD)).
Qed.

(** An operation under the lock of a live descriptor that is free is the
    operation, and the lock is free again. *)
Lemma slot_locked_ok {A} n live (m : mem) d (op : cmd (platform D W) A) r h' w' :
  slots_ok n live m -> live !! d = Some false ->
  op (devs m, dev_world m) = Done (r, (h', w')) -> keeps_devs live (devs m) h' ->
  exists m', slot_locked (Some d) (on_dev op) m = Done (r, m') /\ slots_ok n live m' /\
    devs m' = h' /\ dev_world m' = w'.
Proof using ML.
  intros Hm Hd Hop Hk. destruct (slots_live n live m Hm d false Hd) as (D0 & HD & _ & _ & Hq & _).
  set (m1 := SlotMem (slots m) h' (slot_mutexes m) w').
  assert (cells (devs m1) !! d = Some D0) as HD1 by (cbn; by rewrite (Hk d)).
  destruct (locked_call_run slot_mutexes set_slot_mutexes (fun _ _ => eq_refl) (fun _ _ _ => eq_refl)
    (slot_mutex (Some d)) (desc_mutex_of D0) (on_dev op) m r m1) as (x & Hrun & Hv).
  - by destruct m.
  - intros x. by apply slot_mutex_run.
  - intros x. by apply slot_mutex_run.
  - done.
  - intros x. exists x. split; [| done]. by apply (on_dev_run op (set_slot_mutexes x m)).
  - exists (set_slot_mutexes x m1). splits; try done.
    rewrite <- (insert_id live d false Hd).
    apply (slots_mutexes n live m1 x d false); [by apply slots_platform | by exists false |].
    intros D1 HD1'. rewrite HD1 in HD1'. injection HD1' as <-.
    destruct (desc_mutex_of D0); [| done]. rewrite Hv. symmetry. by apply insert_id.
Qed.

Lemma set_slot_mutexes_eta (m : mem) : set_slot_mutexes (slot_mutexes m) m = m.
Proof. by destruct m. Qed.

Lemma slot_mutex_get (m : mem) d D0 :
  cells (devs m) !! d = Some D0 -> slot_mutex (Some d) m = Done (desc_mutex_of D0, m).
Proof. intros HD. rewrite <- (set_slot_mutexes_eta m). by apply slot_mutex_run. Qed.

Lemma slot_lock_ok n live (m : mem) d :
  slots_ok n live m -> live !! d = Some false ->
  exists m', slot_lock (Some d) m = Done (tt, m') /\ slots_ok n (<[d := true]> live) m' /\
    devs m' = devs m /\ dev_world m' = dev_world m.
Proof using ML.
  intros Hm Hd. destruct (slots_live n live m Hm d false Hd) as (D0 & HD & _ & _ & Hq & _).
  assert (exists x, no_os_mutex_lock (desc_mutex_of D0) (slot_mutexes m) = Done (tt, x) /\
    mview x = match desc_mutex_of D0 with Some q => <[q := true]> (mview (slot_mutexes m))
                                        | None => mview (slot_mutexes m) end) as (x & Hx & Hv).
  { destruct (desc_mutex_of D0) as [q |]; [by apply lock_free |].
    exists (slot_mutexes m). split; [apply null_lock | done]. }
  exists (set_slot_mutexes x m). splits; try done.
  - unfold slot_lock. rewrite (bind_done _ _ _ _ _ (slot_mutex_get m d D0 HD)).
    unfold on_slot_mutexes. by rewrite (zoom_done _ _ _ _ _ _ Hx).
  - apply slots_mutexes; [done | by exists false |]. intros D1 HD1. by simplify_eq.
Qed.

Lemma slot_unlock_ok n live (m : mem) d held :
  slots_ok n live m -> live !! d = Some held ->
  exists m', slot_unlock (Some d) m = Done (tt, m') /\ slots_ok n (<[d := false]> live) m' /\
    devs m' = devs m /\ dev_world m' = dev_world m.
Proof using ML.
  intros Hm Hd. destruct (slots_live n live m Hm d held Hd) as (D0 & HD & _ & _ & Hq & _).
  assert (exists x, no_os_mutex_unlock (desc_mutex_of D0) (slot_mutexes m) = Done (tt, x) /\
    mview x = match desc_mutex_of D0 with Some q => <[q := false]> (mview (slot_mutexes m))
                                        | None => mview (slot_mutexes m) end) as (x & Hx & Hv).
  { destruct (desc_mutex_of D0) as [q |]; [apply unlock_any; by exists held |].
    exists (slot_mutexes m). split; [apply null_unlock | done]. }
  exists (set_slot_mutexes x m). splits; try done.
  - unfold slot_unlock. rewrite (bind_done _ _ _ _ _ (slot_mutex_get m d D0 HD)).
    unfold on_slot_mutexes. by rewrite (zoom_done _ _ _ _ _ _ Hx).
  - apply slots_mutexes; [done | by exists held |]. intros D1 HD1. by simplify_eq.
Qed.

(** A lock that is held already is waited for in vain. *)
Lemma slot_lock_held n live (m : mem) d D0 q :
  slots_ok n live m -> live !! d = Some true -> cells (devs m) !! d = Some D0 ->
  desc_mutex_of D0 = Some q -> slot_lock (Some d) m = NoFuel.
Proof using ML.
  intros Hm Hd HD Hq. destruct (slots_live n live m Hm d true Hd) as (D1 & HD1 & _ & _ & Hq1 & _).
  simplify_eq. rewrite Hq in Hq1. unfold slot_lock. rewrite (bind_done _ _ _ _ _ (slot_mutex_get m d D0 HD)).
  rewrite Hq. unfold on_slot_mutexes, zoom. by rewrite lock_held.
Qed.

Lemma slots_ok_empty n (h : heap D) (x : M) (w : W) :
  slots_ok n ∅ (SlotMem (replicate n None) h x w).
Proof.
  split; cbn.
  - apply length_replicate.
  - intros d held Hd. by apply lookup_empty_Some in Hd.
  - intros d1 d2 D1 D2 [? Hd]. by apply lookup_empty_Some in Hd.
  - intros i q Hi. by apply lookup_replicate in Hi as [Hi _].
  - intros i j q Hi. by apply lookup_replicate in Hi as [Hi _].
Qed.
End slots.
