(* ===== verification/Uart.v ===== *)
(** * UART: [drivers/api/no_os_uart.c]

    The bus-independent UART layer over [Dispatch]: a static table with a mutex
    for each device, and transfers under the mutex. *)
From S2P Require Import Prelude Mutex Bus Dispatch.

(** ** Data *)

Definition UART_MAX_NUMBER : Z := 10.

(** [size], [parity] and [stop] hold the numbers of their enumerations. *)
Record no_os_uart_init_param : Type := UartParam {
  up_device_id : Z;
  up_irq_id : Z;
  asynchronous_rx : bool;
  up_baud_rate : Z;
  up_size : Z;
  up_parity : Z;
  up_stop : Z;
  up_platform_ops : ptr;
  up_extra : ptr
}.

Record no_os_uart_desc : Type := UartDesc {
  ud_mutex : ptr;
  ud_device_id : Z;
  ud_irq_id : Z;
  ud_rx_fifo : ptr;
  ud_baud_rate : Z;
  ud_platform_ops : ptr;
  ud_extra : ptr
}.

#[export] Instance uart_slot_desc : SlotDesc no_os_uart_desc := {|
  desc_mutex_of := ud_mutex;
  set_desc_mutex p d := UartDesc p (ud_device_id d) (ud_irq_id d) (ud_rx_fifo d) (ud_baud_rate d)
                          (ud_platform_ops d) (ud_extra d);
  desc_slot := ud_device_id;
  desc_ops := ud_platform_ops;
  set_desc_ops p d := UartDesc (ud_mutex d) (ud_device_id d) (ud_irq_id d) (ud_rx_fifo d)
                        (ud_baud_rate d) p (ud_extra d)
|}.

#[export] Instance uart_slot_laws : SlotDescLaws no_os_uart_desc.
Proof. by split. Qed.

(** The buffers are addresses of the platform's world. *)
Record no_os_uart_platform_ops (W : Type) : Type := UartOps {
  uart_ops_init : option (no_os_uart_init_param -> cmd (platform no_os_uart_desc W) (Z * ptr));
  uart_ops_read : option (ptr -> ptr -> Z -> cmd (platform no_os_uart_desc W) Z);
  uart_ops_write : option (ptr -> ptr -> Z -> cmd (platform no_os_uart_desc W) Z);
  uart_ops_read_nonblocking : option (ptr -> ptr -> Z -> cmd (platform no_os_uart_desc W) Z);
  uart_ops_write_nonblocking : option (ptr -> ptr -> Z -> cmd (platform no_os_uart_desc W) Z);
  uart_ops_remove : option (ptr -> cmd (platform no_os_uart_desc W) Z);
  uart_ops_get_errors : option (ptr -> cmd (platform no_os_uart_desc W) Z)
}.
Arguments UartOps {W} _ _ _ _ _ _ _.
Arguments uart_ops_init {W} _.
Arguments uart_ops_read {W} _.
Arguments uart_ops_write {W} _.
Arguments uart_ops_read_nonblocking {W} _.
Arguments uart_ops_write_nonblocking {W} _.
Arguments uart_ops_remove {W} _.
Arguments uart_ops_get_errors {W} _.

(** ** Operations *)

Section uart.
  Context {M W : Type} {MM : Mutex M}.
  Context (driver : positive -> no_os_uart_platform_ops W).
  Abbreviation mem := (slot_mem no_os_uart_desc M W).
  Abbreviation transfer_fun := (ptr -> ptr -> Z -> cmd (platform no_os_uart_desc W) Z).

Definition no_os_uart_init (param : option no_os_uart_init_param) : cmd mem (Z * ptr) :=
  dispatch_init up_platform_ops driver uart_ops_init param
    (fun p => up_device_id p <? UART_MAX_NUMBER + 1)
    (fun p f => slot_attach (up_device_id p) (up_platform_ops p) (f p)).

Definition no_os_uart_remove (desc : ptr) : cmd mem Z :=
  slot_dispatch driver uart_ops_remove desc true (fun f =>
    _ ← slot_remove desc; on_dev (f desc)).

(** The return type is unsigned, the error codes are negative. *)
Definition no_os_uart_get_errors (desc : ptr) : cmd mem Z :=
  r ← slot_dispatch driver uart_ops_get_errors desc true (fun f => on_dev (f desc));
  mret (u32 r).

Definition uart_transfer (sel : no_os_uart_platform_ops W -> option transfer_fun)
    (desc data : ptr) (bytes_number : Z) : cmd mem Z :=
  slot_dispatch driver sel desc (present data) (fun f =>
    slot_locked desc (on_dev (f desc data bytes_number))).

Definition no_os_uart_read : ptr -> ptr -> Z -> cmd mem Z := uart_transfer uart_ops_read.

Definition no_os_uart_write : ptr -> ptr -> Z -> cmd mem Z := uart_transfer uart_ops_write.

Definition no_os_uart_read_nonblocking : ptr -> ptr -> Z -> cmd mem Z :=
  uart_transfer uart_ops_read_nonblocking.

Definition no_os_uart_write_nonblocking : ptr -> ptr -> Z -> cmd mem Z :=
  uart_transfer uart_ops_write_nonblocking.

(** ** Sessions *)

Inductive uart_request : Type :=
  | UInit (param : no_os_uart_init_param)
  | URead (desc : positive) (data : ptr) (n : Z)
  | UWrite (desc : positive) (data : ptr) (n : Z)
  | UReadNonblocking (desc : positive) (data : ptr) (n : Z)
  | UWriteNonblocking (desc : positive) (data : ptr) (n : Z)
  | URemove (desc : positive).

Definition no_ptr {S} (c : cmd S Z) : cmd S (Z * ptr) := r ← c; mret (r, None).

Definition uart_run (req : uart_request) : cmd mem (Z * ptr) :=
  match req with
  | UInit param => no_os_uart_init (Some param)
  | URead d data n => no_ptr (no_os_uart_read (Some d) data n)
  | UWrite d data n => no_ptr (no_os_uart_write (Some d) data n)
  | UReadNonblocking d data n => no_ptr (no_os_uart_read_nonblocking (Some d) data n)
  | UWriteNonblocking d data n => no_ptr (no_os_uart_write_nonblocking (Some d) data n)
  | URemove d => no_ptr (no_os_uart_remove (Some d))
  end.

(** The platform's function that a request should come to, with the buffer
    that must not be null. *)
Definition uart_fun (ops : no_os_uart_platform_ops W) (req : uart_request) :
    option (cmd (platform no_os_uart_desc W) (Z * ptr)) * bool :=
  match req with
  | UInit param => ((fun f => f param) <$> uart_ops_init ops, up_device_id param <=? UART_MAX_NUMBER)
  | URead d data n => ((fun f => no_ptr (f (Some d) data n)) <$> uart_ops_read ops, present data)
  | UWrite d data n => ((fun f => no_ptr (f (Some d) data n)) <$> uart_ops_write ops, present data)
  | UReadNonblocking d data n =>
      ((fun f => no_ptr (f (Some d) data n)) <$> uart_ops_read_nonblocking ops, present data)
  | UWriteNonblocking d data n =>
      ((fun f => no_ptr (f (Some d) data n)) <$> uart_ops_write_nonblocking ops, present data)
  | URemove d => ((fun f => no_ptr (f (Some d))) <$> uart_ops_remove ops, true)
  end.

(** The descriptors in use after a request with the given result. *)
Definition uart_live (ops : no_os_uart_platform_ops W) (live : gset positive) (req : uart_request)
    (r : Z * ptr) : gset positive :=
  match req with
  | UInit _ => match r.2 with Some p => if truthy r.1 then live else {[ p ]} ∪ live | None => live end
  | URemove d => if present (uart_ops_remove ops) then live ∖ {[ d ]} else live
  | _ => live
  end.

(** The client uses descriptors it has, and no two of one device. *)
Definition uart_allowed (live : gset positive) (m : mem) (req : uart_request) (ops : positive) :
    Prop :=
  match req with
  | UInit param => 0 <= up_device_id param /\ up_platform_ops param = Some ops /\
      no_live_on (gset_to_gmap false live) (devs m) (up_device_id param)
  | URead d _ _ | UWrite d _ _ | UReadNonblocking d _ _ | UWriteNonblocking d _ _ | URemove d =>
      d ∈ live /\ exists D0, cells (devs m) !! d = Some D0 /\ ud_platform_ops D0 = Some ops
  end.

(** What the platform's function promises. *)
Definition uart_promise (live : gset positive) (req : uart_request) (h h' : heap no_os_uart_desc)
    (r : Z * ptr) : Prop :=
  match req with
  | UInit param => slot_promise (up_device_id param) (gset_to_gmap false live) h h' r
  | URemove d => keeps_devs (gset_to_gmap false (live ∖ {[ d ]})) h h'
  | _ => keeps_devs (gset_to_gmap false live) h h'
  end.

Context {ML : MutexLaws M}.

Abbreviation uart_ok live := (slots_ok 11 (gset_to_gmap false live)).

Lemma no_ptr_run {S} (c : cmd S Z) s r s' : c s = Done (r, s') -> no_ptr c s = Done ((r, None), s').
Proof. intros Hc. unfold no_ptr. by rewrite (bind_done _ _ _ _ _ Hc). Qed.

Lemma no_ptr_inv {S} (c : cmd S Z) s r s' :
  no_ptr c s = Done (r, s') -> exists r0, c s = Done (r0, s') /\ r = (r0, None).
Proof.
  unfold no_ptr. intros (r0 & s0 & Hc & [= <- <-])%bind_inv. by exists r0.
Qed.

Lemma live_lookup (live : gset positive) d : d ∈ live -> gset_to_gmap false live !! d = Some false.
Proof. intros Hd. by rewrite lookup_gset_to_gmap_Some. Qed.

Lemma uart_transfer_ok live (m : mem) d D0 ops sel data n :
  uart_ok live m -> d ∈ live -> cells (devs m) !! d = Some D0 -> ud_platform_ops D0 = Some ops ->
  (forall f, sel (driver ops) = Some f -> present data = true -> exists r h' w',
     f (Some d) data n (devs m, dev_world m) = Done (r, (h', w')) /\
     keeps_devs (gset_to_gmap false live) (devs m) h') ->
  exists r m', uart_transfer sel (Some d) data n m = Done (r, m') /\ uart_ok live m' /\
    match sel (driver ops), present data with
    | _, false => r = - EINVAL /\ m' = m
    | None, true => r = - ENOSYS /\ m' = m
    | Some f, true => f (Some d) data n (devs m, dev_world m) = Done (r, (devs m', dev_world m'))
    end.
Proof using ML.
  intros Hm Hd HD Ho Hf. unfold uart_transfer. rewrite (slot_dispatch_run driver sel m d D0) by done.
  unfold dispatch_result. cbn [desc_ops uart_slot_desc]. rewrite Ho.
  destruct (present data); [| exists (- EINVAL), m; by destruct (sel (driver ops))].
  destruct (sel (driver ops)) as [f |]; [| by exists (- ENOSYS), m].
  destruct (Hf f eq_refl eq_refl) as (r & h' & w' & Hrun & Hk).
  destruct (slot_locked_ok 11 (gset_to_gmap false live) m d (f (Some d) data n) r h' w' Hm
    (live_lookup live d Hd) Hrun Hk) as (m' & Hl & Hm' & Hd' & Hw').
  exists r, m'. splits; try done. by rewrite Hd', Hw'.
Qed.

Lemma uart_init_ok live (m : mem) param ops :
  uart_ok live m -> uart_allowed live m (UInit param) ops ->
  (forall f, uart_ops_init (driver ops) = Some f -> up_device_id param <= UART_MAX_NUMBER ->
     exists r h' w', f param (devs m, dev_world m) = Done (r, (h', w')) /\
     uart_promise live (UInit param) (devs m) h' r) ->
  exists r m', no_os_uart_init (Some param) m = Done (r, m') /\
    uart_ok (uart_live (driver ops) live (UInit param) r) m' /\
    match uart_ops_init (driver ops), up_device_id param <=? UART_MAX_NUMBER with
    | _, false => r = (- EINVAL, None)
    | None, true => r = (- ENOSYS, None)
    | Some f, true => exists h', f param (devs m, dev_world m) = Done (r, (h', dev_world m'))
    end.
Proof using ML.
  intros Hm (H0 & Ho & Hno) Hf. unfold no_os_uart_init, dispatch_init. rewrite Ho.
  unfold UART_MAX_NUMBER in *.
  destruct (Z.ltb_spec (up_device_id param) (10 + 1)), (Z.leb_spec (up_device_id param) 10);
    try lia; cbn [negb].
  2: { exists (- EINVAL, None), m. by destruct (uart_ops_init (driver ops)). }
  destruct (uart_ops_init (driver ops)) as [f |]; [| by exists (- ENOSYS, None), m].
  destruct (Hf f eq_refl) as (r & h' & w' & Hrun & Hpr); [lia |].
  destruct (slot_attach_ok 11 (gset_to_gmap false live) m (up_device_id param) (Some ops) (f param)
    r h' w' Hm) as (m' & Hr & Hw' & Hm'); try done.
  exists r, m'. splits; [done | | by exists h'; rewrite Hw']. unfold uart_live.
  destruct (truthy r.1); [by destruct r.2 |]. destruct Hm' as (p & -> & _ & Hm' & _).
  by rewrite gset_to_gmap_union_singleton.
Qed.

Lemma uart_remove_ok live (m : mem) d ops :
  uart_ok live m -> uart_allowed live m (URemove d) ops ->
  (forall f, uart_ops_remove (driver ops) = Some f ->
     exists r h' w', f (Some d) (devs m, dev_world m) = Done (r, (h', w')) /\
     keeps_devs (gset_to_gmap false (live ∖ {[ d ]})) (devs m) h') ->
  exists r m', no_os_uart_remove (Some d) m = Done (r, m') /\
    uart_ok (uart_live (driver ops) live (URemove d) (r, None)) m' /\
    match uart_ops_remove (driver ops) with
    | None => r = - ENOSYS
    | Some f => exists h', f (Some d) (devs m, dev_world m) = Done (r, (h', dev_world m'))
    end.
Proof using ML.
  intros Hm (Hd & D0 & HD & Ho) Hf. unfold no_os_uart_remove.
  rewrite (slot_dispatch_run driver _ m d D0) by done. unfold dispatch_result. cbn [desc_ops uart_slot_desc].
  rewrite Ho. cbn [uart_live].
  destruct (uart_ops_remove (driver ops)) as [f |]; [| by exists (- ENOSYS), m].
  destruct (Hf f eq_refl) as (r & h' & w' & Hrun & Hk).
  destruct (slot_remove_ok 11 _ m d false Hm (live_lookup live d Hd)) as (m1 & Hrem & Hm1 & Hd1 & Hw1).
  rewrite <- gset_to_gmap_difference_singleton in Hm1.
  rewrite (bind_done _ _ _ _ _ Hrem). rewrite <- Hd1 in Hk. assert (Hrun1 := Hrun).
  rewrite <- Hd1, <- Hw1 in Hrun1. eexists r, _.
  splits; [by apply on_dev_run | by apply slots_platform | by exists h'].
Qed.

(** With at most one descriptor in use per device, every request does
    exactly what the platform's function does (or fails with -EINVAL for a null
    buffer or a device past the table, with -ENOSYS for a missing function),
    and keeps the table: each descriptor in use has the free mutex of its
    device, and no other entry is taken. *)
Theorem uart_request_correct live (m : mem) req ops :
  uart_ok live m -> uart_allowed live m req ops ->
  (forall c, uart_fun (driver ops) req = (Some c, true) -> exists r h' w',
     c (devs m, dev_world m) = Done (r, (h', w')) /\ uart_promise live req (devs m) h' r) ->
  exists r m', uart_run req m = Done (r, m') /\
    uart_ok (uart_live (driver ops) live req r) m' /\
    match uart_fun (driver ops) req with
    | (_, false) => r = (- EINVAL, None)
    | (None, true) => r = (- ENOSYS, None)
    | (Some c, true) => exists h', c (devs m, dev_world m) = Done (r, (h', dev_world m'))
    end.
Proof using ML.
  assert (forall d data n (sel : no_os_uart_platform_ops W -> option transfer_fun),
    uart_ok live m -> d ∈ live /\ (exists D0, cells (devs m) !! d = Some D0 /\ ud_platform_ops D0 = Some ops) ->
    (forall c, ((fun f => no_ptr (f (Some d) data n)) <$> sel (driver ops), present data) = (Some c, true) ->
       exists r h' w', c (devs m, dev_world m) = Done (r, (h', w')) /\
       keeps_devs (gset_to_gmap false live) (devs m) h') ->
    exists r m', no_ptr (uart_transfer sel (Some d) data n) m = Done (r, m') /\ uart_ok live m' /\
      match ((fun f => no_ptr (f (Some d) data n)) <$> sel (driver ops), present data) with
      | (_, false) => r = (- EINVAL, None)
      | (None, true) => r = (- ENOSYS, None)
      | (Some c, true) => exists h', c (devs m, dev_world m) = Done (r, (h', dev_world m'))
      end) as Htransfer.
  { intros d data n sel Hm (Hd & D0 & HD & Ho) Hc.
    destruct (uart_transfer_ok live m d D0 ops sel data n Hm Hd HD Ho) as (r & m' & Hr & Hm' & Hres).
    - intros f Hf Hp. rewrite Hf, Hp in Hc.
      destruct (Hc _ eq_refl) as (r & h' & w' & (r0 & Hr0 & ->)%no_ptr_inv & Hk). by exists r0, h', w'.
    - exists (r, None), m'. splits; [by apply no_ptr_run | done |].
      destruct (sel (driver ops)) as [f |], (present data); cbn;
        [eexists; by apply no_ptr_run | destruct Hres; by subst..]. }
  intros Hm Ha Hc.
  destruct req as [param | d data n | d data n | d data n | d data n | d]; [| by apply Htransfer.. |];
    cbn [uart_run uart_fun] in *.
  - destruct (uart_init_ok live m param ops Hm Ha) as (r & m' & Hr & Hm' & Hres).
    + intros f Hf Hid. apply Hc. rewrite Hf. apply Z.leb_le in Hid. by rewrite Hid.
    + exists r, m'. splits; try done. destruct (uart_ops_init (driver ops)), (_ <=? _); done.
  - destruct (uart_remove_ok live m d ops Hm Ha) as (r & m' & Hr & Hm' & Hres).
    + intros f Hf. rewrite Hf in Hc.
      destruct (Hc _ eq_refl) as (r & h' & w' & (r0 & Hr0 & ->)%no_ptr_inv & Hk). by exists r0, h', w'.
    + exists (r, None), m'. splits; [by apply no_ptr_run | done |].
      destruct (uart_ops_remove (driver ops)); cbn; [| by subst].
      destruct Hres as (h' & ?). eexists. by apply no_ptr_run.
Qed.
End uart.

(** ** An example: a platform that counts the bytes it moves *)

Definition uart_sim_init (param : no_os_uart_init_param) :
  cmd (platform no_os_uart_desc Z) (Z * ptr) :=
  p ← zoom fst (fun h s => (h, s.2)) (halloc (UartDesc None (up_device_id param) (up_irq_id param)
        None (up_baud_rate param) None None));
  match p with None => mret (- ENOMEM, None) | Some _ => mret (0, p) end.

Definition uart_sim_transfer (desc data : ptr) (n : Z) : cmd (platform no_os_uart_desc Z) Z :=
  _ ← modify (fun s => (s.1, s.2 + n)); mret n.

Definition uart_sim_remove (desc : ptr) : cmd (platform no_os_uart_desc Z) Z :=
  _ ← zoom fst (fun h s => (h, s.2)) (hfree desc); mret 0.

Definition uart_sim_driver (p : positive) : no_os_uart_platform_ops Z :=
  UartOps (Some uart_sim_init) (Some uart_sim_transfer) (Some uart_sim_transfer) None None
    (Some uart_sim_remove) None.

Definition uart_ex_param : no_os_uart_init_param :=
  UartParam 3 0 false 115200 3 0 0 (Some 1%positive) None.

Definition uart_ex_mem : slot_mem no_os_uart_desc (freertos sim_kernel) Z :=
  SlotMem (replicate 11 None) (Heap ∅ 1 []) (Freertos (Heap ∅ 1 []) (SimKernel ∅)) 0.

(** Initialisation, and then a write. *)
Lemma uart_request_correct_witness :
  exists m1 m2, uart_run uart_sim_driver (UInit uart_ex_param) uart_ex_mem
                = Done ((0, Some 1%positive), m1) /\
    uart_run uart_sim_driver (UWrite 1 (Some 9%positive) 5) m1 = Done ((5, None), m2) /\
    dev_world m2 = 5.
Proof.
  destruct (uart_request_correct uart_sim_driver ∅ uart_ex_mem (UInit uart_ex_param) 1)
    as (r & m1 & Hr & Hm1 & Hres).
  - apply slots_ok_empty.
  - split; [cbn; lia |]. split; [done |]. intros d D0 [? Hd]. by apply lookup_gset_to_gmap_Some in Hd as [? _].
  - intros c [= <-]. eexists _, _, _. split; [vm_compute; reflexivity |]. split.
    + intros d [? Hd]. by apply lookup_gset_to_gmap_Some in Hd as [? _].
    + intros _. eexists _, _. splits; [reflexivity | done | vm_compute; reflexivity | done].
  - assert (r = (0, Some 1%positive)) as ->.
    { destruct Hres as (h' & Hc). vm_compute in Hc. congruence. }
    assert (cells (devs m1) !! 1%positive
      = Some (UartDesc (Some 1%positive) 3 0 None 115200 (Some 1%positive) None)) as HD.
    { clear -Hr. vm_compute in Hr. injection Hr as <-. reflexivity. }
    assert (dev_world m1 = 0) as Hw.
    { clear -Hr. vm_compute in Hr. by injection Hr as <-. }
    destruct (uart_request_correct uart_sim_driver ({[ 1%positive ]} ∪ ∅) m1
      (UWrite 1 (Some 9%positive) 5) 1) as (r & m2 & Hr2 & _ & Hres2).
    + exact Hm1.
    + split; [set_solver |]. eexists. by split.
    + intros c [= <-]. eexists (5, None), _, _. split; [vm_compute; reflexivity |]. by intros d Hd.
    + exists m1, m2. destruct Hres2 as (h' & Hc). cbn in Hc. injection Hc as <- _ Hw2.
      splits; [done | done |]. by rewrite <- Hw2, Hw.
Defined.
