(* ===== verification/Pwm.v ===== *)
(** * PWM: [drivers/api/no_os_pwm.c]

    The layer over the platforms' PWM generators: the calls, the table of
    mutexes, and what enabling and disabling do to the mutex. *)
From S2P Require Import Prelude Mutex Bus Dispatch.

(** ** Data *)

Definition PWM_MAX_NUMBER : Z := 4.

Inductive no_os_pwm_polarity : Type :=
  | NO_OS_PWM_POLARITY_HIGH
  | NO_OS_PWM_POLARITY_LOW.

Record no_os_pwm_init_param : Type := PwmParam {
  pp_id : Z;
  pp_period_ns : Z;
  pp_duty_cycle_ns : Z;
  pp_phase_ns : Z;
  pp_polarity : no_os_pwm_polarity;
  pp_pwm_gpio : ptr;
  pp_irq_id : Z;
  pp_pwm_callback : ptr;
  pp_platform_ops : ptr;
  pp_extra : ptr
}.

Record no_os_pwm_desc : Type := PwmDesc {
  pd_mutex : ptr;
  pd_id : Z;
  pd_period_ns : Z;
  pd_duty_cycle_ns : Z;
  pd_phase_ns : Z;
  pd_polarity : no_os_pwm_polarity;
  pd_enabled : bool;
  pd_pwm_gpio : ptr;
  pd_irq_id : Z;
  pd_pwm_callback : ptr;
  pd_platform_ops : ptr;
  pd_extra : ptr
}.

#[export] Instance pwm_slot_desc : SlotDesc no_os_pwm_desc := {|
  desc_mutex_of := pd_mutex;
  set_desc_mutex p d := PwmDesc p (pd_id d) (pd_period_ns d) (pd_duty_cycle_ns d) (pd_phase_ns d)
                          (pd_polarity d) (pd_enabled d) (pd_pwm_gpio d) (pd_irq_id d)
                          (pd_pwm_callback d) (pd_platform_ops d) (pd_extra d);
  desc_slot := pd_id;
  desc_ops := pd_platform_ops;
  set_desc_ops p d := PwmDesc (pd_mutex d) (pd_id d) (pd_period_ns d) (pd_duty_cycle_ns d)
                        (pd_phase_ns d) (pd_polarity d) (pd_enabled d) (pd_pwm_gpio d) (pd_irq_id d)
                        (pd_pwm_callback d) p (pd_extra d)
|}.

#[export] Instance pwm_slot_laws : SlotDescLaws no_os_pwm_desc.
Proof. by split. Qed.

(** Results are returned through addresses of the platform's world. *)
Record no_os_pwm_platform_ops (W : Type) : Type := PwmOps {
  pwm_ops_init : option (no_os_pwm_init_param -> cmd (platform no_os_pwm_desc W) (Z * ptr));
  pwm_ops_enable : option (ptr -> cmd (platform no_os_pwm_desc W) Z);
  pwm_ops_disable : option (ptr -> cmd (platform no_os_pwm_desc W) Z);
  pwm_ops_set_period : option (ptr -> Z -> cmd (platform no_os_pwm_desc W) Z);
  pwm_ops_get_period : option (ptr -> ptr -> cmd (platform no_os_pwm_desc W) Z);
  pwm_ops_set_duty_cycle : option (ptr -> Z -> cmd (platform no_os_pwm_desc W) Z);
  pwm_ops_get_duty_cycle : option (ptr -> ptr -> cmd (platform no_os_pwm_desc W) Z);
  pwm_ops_set_phase : option (ptr -> Z -> cmd (platform no_os_pwm_desc W) Z);
  pwm_ops_get_phase : option (ptr -> ptr -> cmd (platform no_os_pwm_desc W) Z);
  pwm_ops_set_polarity :
    option (ptr -> no_os_pwm_polarity -> cmd (platform no_os_pwm_desc W) Z);
  pwm_ops_get_polarity : option (ptr -> ptr -> cmd (platform no_os_pwm_desc W) Z);
  pwm_ops_remove : option (ptr -> cmd (platform no_os_pwm_desc W) Z)
}.
Arguments PwmOps {W} _ _ _ _ _ _ _ _ _ _ _ _.
Arguments pwm_ops_init {W} _.
Arguments pwm_ops_enable {W} _.
Arguments pwm_ops_disable {W} _.
Arguments pwm_ops_set_period {W} _.
Arguments pwm_ops_get_period {W} _.
Arguments pwm_ops_set_duty_cycle {W} _.
Arguments pwm_ops_get_duty_cycle {W} _.
Arguments pwm_ops_set_phase {W} _.
Arguments pwm_ops_get_phase {W} _.
Arguments pwm_ops_set_polarity {W} _.
Arguments pwm_ops_get_polarity {W} _.
Arguments pwm_ops_remove {W} _.

(** ** Operations *)

Section pwm.
  Context {M W : Type} {MM : Mutex M}.
  Context (driver : positive -> no_os_pwm_platform_ops W).
  Abbreviation mem := (slot_mem no_os_pwm_desc M W).

(** The device number is not compared with the size of the table. *)
Definition no_os_pwm_init (param : option no_os_pwm_init_param) : cmd mem (Z * ptr) :=
  dispatch_init pp_platform_ops driver pwm_ops_init param (fun _ => true)
    (fun p f => slot_attach (pp_id p) (pp_platform_ops p) (f p)).

Definition no_os_pwm_remove (desc : ptr) : cmd mem Z :=
  slot_dispatch driver pwm_ops_remove desc true (fun f =>
    _ ← slot_remove desc; on_dev (f desc)).

(** The mutex is locked and stays so. *)
Definition no_os_pwm_enable (desc : ptr) : cmd mem Z :=
  slot_dispatch driver pwm_ops_enable desc true (fun f =>
    _ ← slot_lock desc; on_dev (f desc)).

Definition no_os_pwm_disable (desc : ptr) : cmd mem Z :=
  slot_dispatch driver pwm_ops_disable desc true (fun f =>
    _ ← slot_unlock desc; on_dev (f desc)).

Definition no_os_pwm_set_period (desc : ptr) (period_ns : Z) : cmd mem Z :=
  slot_dispatch driver pwm_ops_set_period desc true (fun f => on_dev (f desc period_ns)).

Definition no_os_pwm_get_period (desc period_ns : ptr) : cmd mem Z :=
  slot_dispatch driver pwm_ops_get_period desc true (fun f => on_dev (f desc period_ns)).

Definition no_os_pwm_set_duty_cycle (desc : ptr) (duty_cycle_ns : Z) : cmd mem Z :=
  slot_dispatch driver pwm_ops_set_duty_cycle desc true (fun f => on_dev (f desc duty_cycle_ns)).

Definition no_os_pwm_get_duty_cycle (desc duty_cycle_ns : ptr) : cmd mem Z :=
  slot_dispatch driver pwm_ops_get_duty_cycle desc true (fun f => on_dev (f desc duty_cycle_ns)).

Definition no_os_pwm_set_phase (desc : ptr) (phase_ns : Z) : cmd mem Z :=
  slot_dispatch driver pwm_ops_set_phase desc true (fun f => on_dev (f desc phase_ns)).

Definition no_os_pwm_get_phase (desc phase_ns : ptr) : cmd mem Z :=
  slot_dispatch driver pwm_ops_get_phase desc true (fun f => on_dev (f desc phase_ns)).

Definition no_os_pwm_set_polarity (desc : ptr) (polarity : no_os_pwm_polarity) : cmd mem Z :=
  slot_dispatch driver pwm_ops_set_polarity desc true (fun f => on_dev (f desc polarity)).

Definition no_os_pwm_get_polarity (desc polarity : ptr) : cmd mem Z :=
  slot_dispatch driver pwm_ops_get_polarity desc true (fun f => on_dev (f desc polarity)).

(** ** Enabling and disabling *)

(** A client switches the generator on ([true]) and off. *)
Fixpoint pwm_switch (desc : ptr) (l : list bool) : cmd mem unit :=
  match l with
  | [] => mret tt
  | on :: l =>
      _ ← (if on : bool then no_os_pwm_enable desc else no_os_pwm_disable desc);
      pwm_switch desc l
  end.

(** It never enables what is enabled. *)
Fixpoint never_twice (on : bool) (l : list bool) : bool :=
  match l with
  | [] => true
  | b :: l => negb (on && b) && never_twice b l
  end.

Context {ML : MutexLaws M} (ops : positive).

(** What a platform promises of a generator, on the states [ready] of which one
    is on and the other one off. *)
Record pwm_promise (ready : bool -> platform no_os_pwm_desc W -> Prop) (live : gset positive) (d : ptr) : Prop := PwmPromise {
  pwm_enables : exists f, pwm_ops_enable (driver ops) = Some f /\ forall b h w, ready b (h, w) -> exists r h' w',
    f d (h, w) = Done (r, (h', w')) /\ ready true (h', w') /\ forall q, q ∈ live -> cells h' !! q = cells h !! q;
  pwm_disables : exists f, pwm_ops_disable (driver ops) = Some f /\ forall b h w, ready b (h, w) -> exists r h' w',
    f d (h, w) = Done (r, (h', w')) /\ ready false (h', w') /\ forall q, q ∈ live -> cells h' !! q = cells h !! q
}.

Context (ready : bool -> platform no_os_pwm_desc W -> Prop).

Lemma keeps_devs_dom (live : gmap positive bool) (h h' : heap no_os_pwm_desc) :
  (forall q, q ∈ dom live -> cells h' !! q = cells h !! q) -> keeps_devs live h h'.
Proof. intros Hk q Hq. apply Hk. by apply elem_of_dom. Qed.

Lemma no_os_pwm_enable_ok n live (m : mem) d D0 out :
  slots_ok n live m -> live !! d = Some false -> cells (devs m) !! d = Some D0 ->
  pd_platform_ops D0 = Some ops -> pwm_promise ready (dom live) (Some d) -> ready out (devs m, dev_world m) ->
  exists r m', no_os_pwm_enable (Some d) m = Done (r, m') /\ slots_ok n (<[d := true]> live) m' /\
    cells (devs m') !! d = Some D0 /\ ready true (devs m', dev_world m').
Proof using ML.
  intros Hm Hd HD Ho [(f & Hf & Hrun) _] Hrd. unfold no_os_pwm_enable.
  rewrite (slot_dispatch_run driver _ m d D0) by done. unfold dispatch_result. cbn [desc_ops pwm_slot_desc].
  rewrite Ho, Hf. destruct (slot_lock_ok n live m d Hm Hd) as (m1 & Hl & Hm1 & Hd1 & Hw1).
  rewrite <- Hd1, <- Hw1 in Hrd. destruct (Hrun out (devs m1) (dev_world m1) Hrd) as (r & h' & w' & Hr & Hrd' & Hk).
  rewrite (bind_done _ _ _ _ _ Hl). eexists r, _. split; [by apply on_dev_run |]. split.
  - apply slots_platform; [done |]. apply keeps_devs_dom. intros q.
    rewrite dom_insert_lookup_L by done. apply Hk.
  - cbn. rewrite Hk by (by apply elem_of_dom; exists false). by rewrite Hd1.
Qed.

Lemma no_os_pwm_disable_ok n live (m : mem) d D0 on out :
  slots_ok n live m -> live !! d = Some on -> cells (devs m) !! d = Some D0 ->
  pd_platform_ops D0 = Some ops -> pwm_promise ready (dom live) (Some d) -> ready out (devs m, dev_world m) ->
  exists r m', no_os_pwm_disable (Some d) m = Done (r, m') /\ slots_ok n (<[d := false]> live) m' /\
    cells (devs m') !! d = Some D0 /\ ready false (devs m', dev_world m').
Proof using ML.
  intros Hm Hd HD Ho [_ (f & Hf & Hrun)] Hrd. unfold no_os_pwm_disable.
  rewrite (slot_dispatch_run driver _ m d D0) by done. unfold dispatch_result. cbn [desc_ops pwm_slot_desc].
  rewrite Ho, Hf. destruct (slot_unlock_ok n live m d on Hm Hd) as (m1 & Hl & Hm1 & Hd1 & Hw1).
  rewrite <- Hd1, <- Hw1 in Hrd. destruct (Hrun out (devs m1) (dev_world m1) Hrd) as (r & h' & w' & Hr & Hrd' & Hk).
  rewrite (bind_done _ _ _ _ _ Hl). eexists r, _. split; [by apply on_dev_run |]. split.
  - apply slots_platform; [done |]. apply keeps_devs_dom. intros q.
    rewrite dom_insert_lookup_L by done. apply Hk.
  - cbn. rewrite Hk by (by apply elem_of_dom; exists on). by rewrite Hd1.
Qed.

Lemma last_cons_default (b on : bool) l : List.last (b :: l) on = List.last l b.
Proof. revert b on. induction l as [| c l IH]; [done |]. intros b on. exact (eq_trans (IH c on) (eq_sym (IH c b))). Qed.

(** A client that switches a PWM on and off, with a real mutex. *)
Lemma pwm_switch_run n live (m : mem) d D0 q on out l :
  slots_ok n live m -> live !! d = Some on -> cells (devs m) !! d = Some D0 ->
  pd_platform_ops D0 = Some ops -> pd_mutex D0 = Some q -> pwm_promise ready (dom live) (Some d) ->
  ready out (devs m, dev_world m) ->
  if never_twice on l
  then exists m', pwm_switch (Some d) l m = Done (tt, m') /\
    slots_ok n (<[d := List.last l on]> live) m' /\ ready (List.last l out) (devs m', dev_world m')
  else pwm_switch (Some d) l m = NoFuel.
Proof using ML.
  revert live m on out. induction l as [| b l IH]; intros live m on out Hm Hd HD Ho Hq Hp Hrd; cbn [never_twice pwm_switch].
  - exists m. split; [done |]. cbn. by rewrite insert_id.
  - assert (forall b m', slots_ok n (<[d := b]> live) m' -> cells (devs m') !! d = Some D0 -> ready b (devs m', dev_world m') ->
      if never_twice b l then exists m'', pwm_switch (Some d) l m' = Done (tt, m'') /\
        slots_ok n (<[d := List.last (b :: l) on]> live) m'' /\ ready (List.last (b :: l) out) (devs m'', dev_world m'')
      else pwm_switch (Some d) l m' = NoFuel) as Hrest.
    { intros b' m' Hm' HD' Hrd'. specialize (IH (<[d := b']> live) m' b' b' Hm').
      rewrite dom_insert_lookup_L in IH by done. rewrite lookup_insert_eq in IH.
      specialize (IH eq_refl HD' Ho Hq Hp Hrd'). destruct (never_twice b' l); [| done].
      destruct IH as (m'' & Hr & Hm'' & Hrd''). exists m''. split; [done |].
      rewrite insert_insert_eq in Hm''. by rewrite !last_cons_default. }
    destruct b, on; cbn [andb negb].
    + apply bind_nofuel. unfold no_os_pwm_enable. destruct (pwm_enables _ _ _ Hp) as (f & Hf & _).
      rewrite (slot_dispatch_run driver _ m d D0) by done. unfold dispatch_result.
      cbn [desc_ops pwm_slot_desc]. rewrite Ho, Hf. apply bind_nofuel. by eapply slot_lock_held.
    + destruct (no_os_pwm_enable_ok n live m d D0 out Hm Hd HD Ho Hp Hrd) as (r & m' & Hr & Hm' & HD' & Hrd').
      rewrite (bind_done _ _ _ _ _ Hr). by apply (Hrest true).
    + destruct (no_os_pwm_disable_ok n live m d D0 true out Hm Hd HD Ho Hp Hrd) as (r & m' & Hr & Hm' & HD' & Hrd').
      rewrite (bind_done _ _ _ _ _ Hr). by apply (Hrest false).
    + destruct (no_os_pwm_disable_ok n live m d D0 false out Hm Hd HD Ho Hp Hrd) as (r & m' & Hr & Hm' & HD' & Hrd').
      rewrite (bind_done _ _ _ _ _ Hr). by apply (Hrest false).
Qed.

(** A client that switches a PWM on and off is served to the end exactly when it
    never enables a generator that is enabled already: the mutex is held from
    enabling to disabling, so a second enabling waits for ever (and no other
    descriptor is affected). *)
Theorem pwm_switch_live n live (m : mem) d D0 q on out l :
  slots_ok n live m -> live !! d = Some on -> cells (devs m) !! d = Some D0 ->
  pd_platform_ops D0 = Some ops -> pd_mutex D0 = Some q -> pwm_promise ready (dom live) (Some d) ->
  ready out (devs m, dev_world m) ->
  (exists m', pwm_switch (Some d) l m = Done (tt, m')) <-> never_twice on l = true.
Proof using ML.
  intros Hm Hd HD Ho Hq Hp Hrd. pose proof (pwm_switch_run n live m d D0 q on out l Hm Hd HD Ho Hq Hp Hrd) as H.
  destruct (never_twice on l).
  - split; [done |]. intros _. destruct H as (m' & H & _). by exists m'.
  - rewrite H. split; [intros (? & ?); done | done].
Qed.
End pwm.

(** ** An example: a platform that keeps the state of its output *)

Definition pwm_sim_set (b : bool) (desc : ptr) : cmd (platform no_os_pwm_desc bool) Z :=
  _ ← modify (fun s => (s.1, b)); mret 0.

Definition pwm_sim_driver (p : positive) : no_os_pwm_platform_ops bool :=
  PwmOps None (Some (pwm_sim_set true)) (Some (pwm_sim_set false)) None None None None None None None
    None None.

Definition pwm_ex_desc : no_os_pwm_desc :=
  PwmDesc (Some 1%positive) 2 1000 500 0 NO_OS_PWM_POLARITY_HIGH false None 0 None (Some 1%positive)
    None.

Definition pwm_ex_mem : slot_mem no_os_pwm_desc (freertos sim_kernel) bool :=
  SlotMem [None; None; Some 1%positive; None; None] (Heap {[ 1%positive := pwm_ex_desc ]} 2 [])
    (Freertos (Heap {[ 1%positive := tt ]} 2 []) (SimKernel {[ 1%positive := true ]})) false.

Lemma pwm_ex_ok : slots_ok 5 {[ 1%positive := false ]} pwm_ex_mem.
Proof.
  split.
  - done.
  - intros d held [<- <-]%lookup_singleton_Some. exists pwm_ex_desc. splits; by try eexists.
  - intros d1 d2 D1 D2 [? [-> _]%lookup_singleton_Some] [? [-> _]%lookup_singleton_Some]. done.
  - intros i q Hi. cbn in Hi. exists 1%positive, pwm_ex_desc.
    destruct i as [| [| [| [| [|]]]]]; by try (splits; by try eexists).
  - intros i j q Hi Hj. cbn in *.
    destruct i as [| [| [| [| [|]]]]], j as [| [| [| [| [|]]]]]; done.
Qed.

(** On, off and on again is served; on twice is not. *)
Lemma pwm_switch_live_witness :
  ((exists m, pwm_switch pwm_sim_driver (Some 1%positive) [true; false; true] pwm_ex_mem = Done (tt, m)) <-> true = true) /\
  ((exists m, pwm_switch pwm_sim_driver (Some 1%positive) [true; true] pwm_ex_mem = Done (tt, m)) <-> false = true).
Proof.
  assert (pwm_promise pwm_sim_driver 1 (fun b s => s.2 = b \/ b = false) (dom ({[ 1%positive := false ]} : gmap positive bool))
    (Some 1%positive)) as Hp.
  { split; (eexists; split; [reflexivity |]); intros b h w _; eexists _, _, _; splits; try done; by left + right. }
  split.
  - exact (pwm_switch_live pwm_sim_driver 1 _ 5 {[ 1%positive := false ]} pwm_ex_mem 1 pwm_ex_desc 1
      false false [true; false; true] pwm_ex_ok eq_refl eq_refl eq_refl eq_refl Hp (or_intror eq_refl)).
  - exact (pwm_switch_live pwm_sim_driver 1 _ 5 {[ 1%positive := false ]} pwm_ex_mem 1 pwm_ex_desc 1
      false false [true; true] pwm_ex_ok eq_refl eq_refl eq_refl eq_refl Hp (or_intror eq_refl)).
Defined.

(** A device number past the table: the platform may take it, the layer then
    writes past the end of the table. *)
Lemma pwm_init_out_of_table {M W} {MM : Mutex M} (driver : positive -> no_os_pwm_platform_ops W)
    (m : slot_mem no_os_pwm_desc M W) param ops f p h' w' D0 :
  pp_platform_ops param = Some ops -> pwm_ops_init (driver ops) = Some f ->
  length (slots m) = 5%nat -> PWM_MAX_NUMBER < pp_id param ->
  f param (devs m, dev_world m) = Done ((0, Some p), (h', w')) -> cells h' !! p = Some D0 ->
  no_os_pwm_init driver (Some param) m = Undef.
Proof.
  intros Ho Hf Hlen Hid Hrun HD. unfold no_os_pwm_init, dispatch_init. rewrite Ho, Hf.
  cbn [negb]. unfold slot_attach, init_with, PWM_MAX_NUMBER in *.
  rewrite (bind_done _ _ _ _ _ (on_dev_run _ m _ _ _ Hrun)). cbn [fst snd truthy negb Z.eqb].
  apply bind_undef.
  set (m1 := SlotMem (slots m) h' (slot_mutexes m) w').
  set (m2 := SlotMem (slots m) (Heap (<[p := set_desc_ops (Some ops) D0]> (cells h')) (next_block h')
    (oom h')) (slot_mutexes m) w').
  rewrite (bind_done _ _ _ tt m2).
  - apply bind_undef. unfold on_slots, zoom, aload, m2. cbn [slots].
    destruct (Z.ltb_spec (pp_id param) 0); [done |]. rewrite lookup_ge_None_2; [done | lia].
  - unfold slot_set_ops_of. rewrite (bind_done _ _ _ _ _ (devs_load m1 p D0 HD)).
    by rewrite (devs_store m1 p _ D0).
Qed.
