(* ===== verification/Timer.v ===== *)
(** * Timers: [drivers/api/no_os_timer.c]

    The layer over the platforms' timers: a descriptor with the mutex of its
    device, counter and frequency access, elapsed time. *)
From S2P Require Import Prelude Mutex Bus Dispatch.

(** ** Data *)

Definition TIMER_MAX_TABLE : Z := 4.

Record no_os_timer_desc : Type := TimerDesc {
  td_mutex : ptr;
  td_id : Z;
  td_freq_hz : Z;
  td_ticks_count : Z;
  td_platform_ops : ptr;
  td_extra : ptr
}.

Record no_os_timer_init_param : Type := TimerParam {
  tp_id : Z;
  tp_freq_hz : Z;
  tp_ticks_count : Z;
  tp_platform_ops : ptr;
  tp_extra : ptr
}.

#[export] Instance timer_slot_desc : SlotDesc no_os_timer_desc := {|
  desc_mutex_of := td_mutex;
  set_desc_mutex p d := TimerDesc p (td_id d) (td_freq_hz d) (td_ticks_count d) (td_platform_ops d)
                          (td_extra d);
  desc_slot := td_id;
  desc_ops := td_platform_ops;
  set_desc_ops p d := TimerDesc (td_mutex d) (td_id d) (td_freq_hz d) (td_ticks_count d) p (td_extra d)
|}.

#[export] Instance timer_slot_laws : SlotDescLaws no_os_timer_desc.
Proof. by split. Qed.

(** Results are returned through addresses of the platform's world. *)
Record no_os_timer_platform_ops (W : Type) : Type := TimerOps {
  timer_ops_init : option (no_os_timer_init_param -> cmd (platform no_os_timer_desc W) (Z * ptr));
  timer_ops_start : option (ptr -> cmd (platform no_os_timer_desc W) Z);
  timer_ops_stop : option (ptr -> cmd (platform no_os_timer_desc W) Z);
  timer_ops_counter_get : option (ptr -> ptr -> cmd (platform no_os_timer_desc W) Z);
  timer_ops_counter_set : option (ptr -> Z -> cmd (platform no_os_timer_desc W) Z);
  timer_ops_count_clk_get : option (ptr -> ptr -> cmd (platform no_os_timer_desc W) Z);
  timer_ops_count_clk_set : option (ptr -> Z -> cmd (platform no_os_timer_desc W) Z);
  timer_ops_get_elapsed_time_nsec : option (ptr -> ptr -> cmd (platform no_os_timer_desc W) Z);
  timer_ops_remove : option (ptr -> cmd (platform no_os_timer_desc W) Z)
}.
Arguments TimerOps {W} _ _ _ _ _ _ _ _ _.
Arguments timer_ops_init {W} _.
Arguments timer_ops_start {W} _.
Arguments timer_ops_stop {W} _.
Arguments timer_ops_counter_get {W} _.
Arguments timer_ops_counter_set {W} _.
Arguments timer_ops_count_clk_get {W} _.
Arguments timer_ops_count_clk_set {W} _.
Arguments timer_ops_get_elapsed_time_nsec {W} _.
Arguments timer_ops_remove {W} _.

(** ** Operations *)

Section timer.
  Context {M W : Type} {MM : Mutex M}.
  Context (driver : positive -> no_os_timer_platform_ops W).
  Abbreviation mem := (slot_mem no_os_timer_desc M W).

(** The device number is not compared with the size of the table. *)
Definition no_os_timer_init (param : option no_os_timer_init_param) : cmd mem (Z * ptr) :=
  dispatch_init tp_platform_ops driver timer_ops_init param (fun _ => true)
    (fun p f => slot_attach (tp_id p) (tp_platform_ops p) (f p)).

Definition no_os_timer_remove (desc : ptr) : cmd mem Z :=
  slot_dispatch driver timer_ops_remove desc true (fun f =>
    _ ← slot_remove desc; on_dev (f desc)).

Definition no_os_timer_start (desc : ptr) : cmd mem Z :=
  slot_dispatch driver timer_ops_start desc true (fun f => on_dev (f desc)).

(** The mutex, which nothing locks, is unlocked. *)
Definition no_os_timer_stop (desc : ptr) : cmd mem Z :=
  slot_dispatch driver timer_ops_stop desc true (fun f =>
    _ ← slot_unlock desc; on_dev (f desc)).

Definition no_os_timer_counter_get (desc counter : ptr) : cmd mem Z :=
  slot_dispatch driver timer_ops_counter_get desc (present counter) (fun f => on_dev (f desc counter)).

Definition no_os_timer_counter_set (desc : ptr) (new_val : Z) : cmd mem Z :=
  slot_dispatch driver timer_ops_counter_set desc true (fun f => on_dev (f desc new_val)).

Definition no_os_timer_count_clk_get (desc freq_hz : ptr) : cmd mem Z :=
  slot_dispatch driver timer_ops_count_clk_get desc (present freq_hz) (fun f => on_dev (f desc freq_hz)).

Definition no_os_timer_count_clk_set (desc : ptr) (freq_hz : Z) : cmd mem Z :=
  slot_dispatch driver timer_ops_count_clk_set desc true (fun f => on_dev (f desc freq_hz)).

Definition no_os_timer_get_elapsed_time_nsec (desc elapsed_time : ptr) : cmd mem Z :=
  slot_dispatch driver timer_ops_get_elapsed_time_nsec desc true (fun f => on_dev (f desc elapsed_time)).
End timer.
