(* ===== verification/Irq.v ===== *)
(** * Interrupt controllers: [drivers/api/no_os_irq.c]

    Calls to the platform's controller and the count of its users. *)
From S2P Require Import Prelude Mutex Bus Dispatch.

(** ** Data *)

Inductive no_os_irq_event : Type :=
  | NO_OS_EVT_GPIO
  | NO_OS_EVT_UART_TX_COMPLETE
  | NO_OS_EVT_UART_RX_COMPLETE
  | NO_OS_EVT_UART_ERROR
  | NO_OS_EVT_RTC
  | NO_OS_EVT_XINT
  | NO_OS_EVT_TIM_ELAPSED
  | NO_OS_EVT_TIM_PWM_PULSE_FINISHED
  | NO_OS_EVT_DMA_RX_COMPLETE
  | NO_OS_EVT_DMA_RX_HALF_COMPLETE
  | NO_OS_EVT_DMA_TX_COMPLETE
  | NO_OS_EVT_USB.

Inductive no_os_irq_trig_level : Type :=
  | NO_OS_IRQ_LEVEL_LOW
  | NO_OS_IRQ_LEVEL_HIGH
  | NO_OS_IRQ_EDGE_FALLING
  | NO_OS_IRQ_EDGE_RISING
  | NO_OS_IRQ_EDGE_BOTH.

Inductive no_os_irq_peripheral : Type :=
  | NO_OS_GPIO_IRQ
  | NO_OS_UART_IRQ
  | NO_OS_RTC_IRQ
  | NO_OS_TIM_IRQ
  | NO_OS_TDM_DMA_IRQ
  | NO_OS_TIM_DMA_IRQ
  | NO_OS_SPI_DMA_IRQ
  | NO_OS_DMA_IRQ
  | NO_OS_USB_IRQ.

Record no_os_irq_init_param : Type := IrqParam {
  qp_irq_ctrl_id : Z;
  qp_platform_ops : ptr;
  qp_extra : ptr
}.

Record no_os_irq_ctrl_desc : Type := IrqDesc {
  qd_irq_ctrl_id : Z;
  qd_platform_ops : ptr;
  qd_ref : Z;
  qd_extra : ptr
}.

(** The function and its context are addresses. *)
Record no_os_callback_desc : Type := CallbackDesc {
  cb_callback : ptr;
  cb_ctx : ptr;
  cb_event : no_os_irq_event;
  cb_peripheral : no_os_irq_peripheral;
  cb_handle : Z
}.

Record no_os_irq_platform_ops (W : Type) : Type := IrqOps {
  irq_ops_init : option (no_os_irq_init_param -> cmd (platform no_os_irq_ctrl_desc W) (Z * ptr));
  irq_ops_register_callback :
    option (ptr -> Z -> option no_os_callback_desc -> cmd (platform no_os_irq_ctrl_desc W) Z);
  irq_ops_unregister_callback :
    option (ptr -> Z -> option no_os_callback_desc -> cmd (platform no_os_irq_ctrl_desc W) Z);
  irq_ops_global_enable : option (ptr -> cmd (platform no_os_irq_ctrl_desc W) Z);
  irq_ops_global_disable : option (ptr -> cmd (platform no_os_irq_ctrl_desc W) Z);
  irq_ops_trigger_level_set :
    option (ptr -> Z -> no_os_irq_trig_level -> cmd (platform no_os_irq_ctrl_desc W) Z);
  irq_ops_enable : option (ptr -> Z -> cmd (platform no_os_irq_ctrl_desc W) Z);
  irq_ops_disable : option (ptr -> Z -> cmd (platform no_os_irq_ctrl_desc W) Z);
  irq_ops_set_priority : option (ptr -> Z -> Z -> cmd (platform no_os_irq_ctrl_desc W) Z);
  irq_ops_remove : option (ptr -> cmd (platform no_os_irq_ctrl_desc W) Z);
  irq_ops_clear_pending : option (ptr -> Z -> cmd (platform no_os_irq_ctrl_desc W) Z)
}.
Arguments IrqOps {W} _ _ _ _ _ _ _ _ _ _ _.
Arguments irq_ops_init {W} _.
Arguments irq_ops_register_callback {W} _.
Arguments irq_ops_unregister_callback {W} _.
Arguments irq_ops_global_enable {W} _.
Arguments irq_ops_global_disable {W} _.
Arguments irq_ops_trigger_level_set {W} _.
Arguments irq_ops_enable {W} _.
Arguments irq_ops_disable {W} _.
Arguments irq_ops_set_priority {W} _.
Arguments irq_ops_remove {W} _.
Arguments irq_ops_clear_pending {W} _.

(** ** Operations *)

Section irq.
  Context {W : Type} (driver : positive -> no_os_irq_platform_ops W).
  Abbreviation mem := (platform no_os_irq_ctrl_desc W).

Definition set_ref (n : Z) (d : no_os_irq_ctrl_desc) : no_os_irq_ctrl_desc :=
  IrqDesc (qd_irq_ctrl_id d) (qd_platform_ops d) n (qd_extra d).

Definition set_irq_ops (p : ptr) (d : no_os_irq_ctrl_desc) : no_os_irq_ctrl_desc :=
  IrqDesc (qd_irq_ctrl_id d) p (qd_ref d) (qd_extra d).

Definition irq_dispatch {F} (sel : no_os_irq_platform_ops W -> option F) (desc : ptr)
    (k : F -> cmd mem Z) : cmd mem Z :=
  dispatch dev_load qd_platform_ops driver sel desc true k.

Definition no_os_irq_ctrl_init (param : option no_os_irq_init_param) : cmd mem (Z * ptr) :=
  dispatch_init qp_platform_ops driver irq_ops_init param (fun _ => true)
    (fun p f => init_with (f p) (fun desc =>
       _ ← dev_update desc (fun d => set_ref (u32 (qd_ref d + 1)) d);
       dev_update desc (set_irq_ops (qp_platform_ops p)))).

Definition no_os_irq_ctrl_remove (desc : ptr) : cmd mem Z :=
  irq_dispatch irq_ops_remove desc (fun f =>
    _ ← dev_update desc (fun d => set_ref (u32 (qd_ref d - 1)) d);
    d ← dev_load desc;
    if truthy (qd_ref d) then mret 0 else f desc).

Definition no_os_irq_register_callback (desc : ptr) (irq_id : Z)
    (callback : option no_os_callback_desc) : cmd mem Z :=
  irq_dispatch irq_ops_register_callback desc (fun f => f desc irq_id callback).

Definition no_os_irq_unregister_callback (desc : ptr) (irq_id : Z)
    (callback : option no_os_callback_desc) : cmd mem Z :=
  irq_dispatch irq_ops_unregister_callback desc (fun f => f desc irq_id callback).

Definition no_os_irq_global_enable (desc : ptr) : cmd mem Z :=
  irq_dispatch irq_ops_global_enable desc (fun f => f desc).

Definition no_os_irq_global_disable (desc : ptr) : cmd mem Z :=
  irq_dispatch irq_ops_global_disable desc (fun f => f desc).

Definition no_os_irq_trigger_level_set (desc : ptr) (irq_id : Z) (trig : no_os_irq_trig_level) :
  cmd mem Z :=
  irq_dispatch irq_ops_trigger_level_set desc (fun f => f desc irq_id trig).

Definition no_os_irq_enable (desc : ptr) (irq_id : Z) : cmd mem Z :=
  irq_dispatch irq_ops_enable desc (fun f => f desc irq_id).

Definition no_os_irq_disable (desc : ptr) (irq_id : Z) : cmd mem Z :=
  irq_dispatch irq_ops_disable desc (fun f => f desc irq_id).

Definition no_os_irq_set_priority (desc : ptr) (irq_id priority_level : Z) : cmd mem Z :=
  irq_dispatch irq_ops_set_priority desc (fun f => f desc irq_id priority_level).

Definition no_os_irq_clear_pending (desc : ptr) (irq_id : Z) : cmd mem Z :=
  irq_dispatch irq_ops_clear_pending desc (fun f => f desc irq_id).

(** ** The users of a controller *)

(** The users come ([true]) and go. *)
Fixpoint irq_users (param : no_os_irq_init_param) (p : positive) (l : list bool) : cmd mem (list Z) :=
  match l with
  | [] => mret []
  | true :: l =>
      r ← no_os_irq_ctrl_init (Some param);
      rs ← irq_users param p l; mret (r.1 :: rs)
  | false :: l =>
      r ← no_os_irq_ctrl_remove (Some p);
      rs ← irq_users param p l; mret (r :: rs)
  end.

(** [n] users before and [l] after: nobody goes who has not come. *)
Fixpoint balanced (n : nat) (l : list bool) : Prop :=
  match l with
  | [] => True
  | true :: l => balanced (S n) l
  | false :: l => exists n', n = S n' /\ balanced n' l
  end.

Fixpoint users_after (n : nat) (l : list bool) : nat :=
  match l with
  | [] => n
  | true :: l => users_after (S n) l
  | false :: l => users_after (pred n) l
  end.

(** What the platform should see: it is initialised for every user and removed
    when the last one goes, and only then. *)
Fixpoint platform_after (fw gw : W -> W) (n : nat) (l : list bool) (w : W) : W :=
  match l with
  | [] => w
  | true :: l => platform_after fw gw (S n) l (fw w)
  | false :: l => platform_after fw gw (pred n) l (if decide (n = 1%nat) then gw w else w)
  end.

(** The results: those of the platform's removal for the last user. *)
Fixpoint results_after (gr : Z) (n : nat) (l : list bool) : list Z :=
  match l with
  | [] => []
  | true :: l => 0 :: results_after gr (S n) l
  | false :: l => (if decide (n = 1%nat) then gr else 0) :: results_after gr (pred n) l
  end.

(** The memory with the count [n] in the controller [p]. *)
Definition with_ref (p : positive) (D0 : no_os_irq_ctrl_desc) (n : nat) (h : heap no_os_irq_ctrl_desc) :
  heap no_os_irq_ctrl_desc :=
  Heap (<[p := set_ref (Z.of_nat n) D0]> (cells h)) (next_block h) (oom h).

Lemma with_ref_twice p D0 n n' h : with_ref p D0 n (with_ref p D0 n' h) = with_ref p D0 n h.
Proof. unfold with_ref. cbn. by rewrite insert_insert_eq. Qed.

Lemma with_ref_load p D0 n h (w : W) :
  dev_load (Some p) (with_ref p D0 n h, w) = Done (set_ref (Z.of_nat n) D0, (with_ref p D0 n h, w)).
Proof. apply dev_load_done. cbn. by rewrite lookup_insert_eq. Qed.

Lemma with_ref_update p D0 n n' h (w : W) f :
  f (set_ref (Z.of_nat n) D0) = set_ref (Z.of_nat n') D0 ->
  dev_update (Some p) f (with_ref p D0 n h, w) = Done (tt, (with_ref p D0 n' h, w)).
Proof.
  intros Hf. rewrite (dev_update_done _ p (set_ref (Z.of_nat n) D0))
    by (cbn; by rewrite lookup_insert_eq).
  rewrite Hf. cbn. unfold with_ref. by rewrite insert_insert_eq.
Qed.

(** On a platform with one controller, whatever the order in which fewer
    than 2^32 users come and go, the count is that of the users, initialising
    reaches the platform for every user, and the controller is removed exactly
    when its last user goes. *)
Theorem irq_users_correct param ops p D0 f g fw gw gr n l h w :
  qp_platform_ops param = Some ops -> qd_platform_ops D0 = Some ops ->
  irq_ops_init (driver ops) = Some f -> irq_ops_remove (driver ops) = Some g ->
  (forall s, f param s = Done ((0, Some p), (s.1, fw s.2))) ->
  (forall s, g (Some p) s = Done (gr, (s.1, gw s.2))) ->
  Z.of_nat (n + length l) < 2 ^ 32 -> balanced n l ->
  irq_users param p l (with_ref p D0 n h, w)
  = Done (results_after gr n l, (with_ref p D0 (users_after n l) h, platform_after fw gw n l w)).
Proof.
  intros Hpo HDo Hf Hg Hfs Hgs. revert n w. induction l as [| [] l IH]; intros n w Hlen Hbal.
  - done.
  - cbn [irq_users results_after users_after platform_after]. cbn [length balanced] in *.
    rewrite (bind_done _ _ _ (0, Some p) (with_ref p D0 (S n) h, fw w)).
    + rewrite (bind_done _ _ _ _ _ (IH (S n) (fw w) ltac:(lia) Hbal)). done.
    + unfold no_os_irq_ctrl_init, dispatch_init, init_with. rewrite Hpo, Hf. cbn [negb].
      rewrite (bind_done _ _ _ _ _ (Hfs _)). cbn [fst snd truthy negb Z.eqb].
      rewrite (bind_done _ _ _ tt (with_ref p D0 (S n) h, fw w)); [done |].
      rewrite (bind_done _ _ _ tt (with_ref p D0 (S n) h, fw w)).
      * apply with_ref_update. unfold set_irq_ops, set_ref. cbn. by rewrite HDo.
      * apply with_ref_update. unfold set_ref. cbn. f_equal. rewrite wrap_small by ulia. lia.
  - cbn [irq_users results_after users_after platform_after]. cbn [length balanced] in *.
    destruct Hbal as (n' & -> & Hbal). cbn [pred].
    rewrite (bind_done _ _ _ (if decide (S n' = 1%nat) then gr else 0)
      (with_ref p D0 n' h, if decide (S n' = 1%nat) then gw w else w)).
    + rewrite (bind_done _ _ _ _ _ (IH n' _ ltac:(lia) Hbal)). done.
    + unfold no_os_irq_ctrl_remove, irq_dispatch.
      rewrite (dispatch_run _ _ _ _ _ _ _ _ _ (with_ref_load p D0 (S n') h w)).
      unfold dispatch_result. cbn [qd_platform_ops set_ref]. rewrite HDo, Hg.
      rewrite (bind_done _ _ _ tt (with_ref p D0 n' h, w)).
      2: { apply with_ref_update. unfold set_ref. cbn. f_equal. rewrite wrap_small by ulia. lia. }
      rewrite (bind_done _ _ _ _ _ (with_ref_load p D0 n' h w)). cbn [qd_ref set_ref].
      destruct n' as [| n']; [by rewrite Hgs, decide_True |].
      rewrite decide_False by lia. by destruct (truthy (Z.of_nat (S n'))) eqn:E.
Qed.
End irq.

(** ** An example: a platform that counts its calls *)

Definition irq_sim_driver (p : positive) : no_os_irq_platform_ops (Z * Z) :=
  IrqOps (Some (fun _ s => Done ((0, Some 1%positive), (s.1, (s.2.1 + 1, s.2.2))))) None None None None
    None None None None (Some (fun _ s => Done (0, (s.1, (s.2.1, s.2.2 + 1))))) None.

Lemma irq_users_correct_witness :
  exists s, irq_users irq_sim_driver (IrqParam 0 (Some 1%positive) None) 1 [true; true; false; false]
      (with_ref 1 (IrqDesc 0 (Some 1%positive) 0 None) 0 (Heap ∅ 2 []), (0, 0))
    = Done ([0; 0; 0; 0], s) /\ s.2 = (2, 1).
Proof.
  eexists. split.
  - rewrite (irq_users_correct irq_sim_driver (IrqParam 0 (Some 1%positive) None) 1 1
      (IrqDesc 0 (Some 1%positive) 0 None) _ _ (fun w => (w.1 + 1, w.2)) (fun w => (w.1, w.2 + 1)) 0 0
      [true; true; false; false] (Heap ∅ 2 []) (0, 0) eq_refl eq_refl eq_refl eq_refl);
      [reflexivity | reflexivity | reflexivity | vm_compute; reflexivity |].
    cbn. by repeat eexists.
  - reflexivity.
Defined.
