(* ===== verification/Gpio.v ===== *)
(** * GPIO: [drivers/api/no_os_gpio.c]

    Pins, which may be optional: a null descriptor stands for a pin that the
    board does not have, and every operation on it succeeds. *)
From S2P Require Import Prelude Mutex Bus Dispatch.

(** ** Data *)

Inductive no_os_gpio_pull_up : Type :=
  | NO_OS_PULL_NONE
  | NO_OS_PULL_UP
  | NO_OS_PULL_DOWN
  | NO_OS_PULL_UP_WEAK
  | NO_OS_PULL_DOWN_WEAK.

Record no_os_gpio_init_param : Type := GpioParam {
  gp_port : Z;
  gp_number : Z;
  gp_pull : no_os_gpio_pull_up;
  gp_platform_ops : ptr;
  gp_extra : ptr
}.

Record no_os_gpio_desc : Type := GpioDesc {
  gd_port : Z;
  gd_number : Z;
  gd_pull : no_os_gpio_pull_up;
  gd_platform_ops : ptr;
  gd_extra : ptr
}.

(** Values are returned through addresses of the platform's world. *)
Record no_os_gpio_platform_ops (W : Type) : Type := GpioOps {
  gpio_ops_get : option (no_os_gpio_init_param -> cmd (platform no_os_gpio_desc W) (Z * ptr));
  gpio_ops_get_optional :
    option (no_os_gpio_init_param -> cmd (platform no_os_gpio_desc W) (Z * ptr));
  gpio_ops_remove : option (ptr -> cmd (platform no_os_gpio_desc W) Z);
  gpio_ops_direction_input : option (ptr -> cmd (platform no_os_gpio_desc W) Z);
  gpio_ops_direction_output : option (ptr -> Z -> cmd (platform no_os_gpio_desc W) Z);
  gpio_ops_get_direction : option (ptr -> ptr -> cmd (platform no_os_gpio_desc W) Z);
  gpio_ops_set_value : option (ptr -> Z -> cmd (platform no_os_gpio_desc W) Z);
  gpio_ops_get_value : option (ptr -> ptr -> cmd (platform no_os_gpio_desc W) Z)
}.
Arguments GpioOps {W} _ _ _ _ _ _ _ _.
Arguments gpio_ops_get {W} _.
Arguments gpio_ops_get_optional {W} _.
Arguments gpio_ops_remove {W} _.
Arguments gpio_ops_direction_input {W} _.
Arguments gpio_ops_direction_output {W} _.
Arguments gpio_ops_get_direction {W} _.
Arguments gpio_ops_set_value {W} _.
Arguments gpio_ops_get_value {W} _.

(** ** Operations *)

Section gpio.
  Context {W : Type} (driver : positive -> no_os_gpio_platform_ops W).
  Abbreviation mem := (platform no_os_gpio_desc W).

Definition set_gpio_ops (p : ptr) (d : no_os_gpio_desc) : no_os_gpio_desc :=
  GpioDesc (gd_port d) (gd_number d) (gd_pull d) p (gd_extra d).

Definition no_os_gpio_get (param : option no_os_gpio_init_param) : cmd mem (Z * ptr) :=
  dispatch_init gp_platform_ops driver gpio_ops_get param (fun _ => true)
    (fun p f => init_with (f p) (fun desc => dev_update desc (set_gpio_ops (gp_platform_ops p)))).

Definition no_os_gpio_get_optional (param : option no_os_gpio_init_param) : cmd mem (Z * ptr) :=
  match param with
  | None => mret (0, None)
  | Some p =>
      if gp_number p =? -1 then mret (0, None) else
      dispatch_init gp_platform_ops driver gpio_ops_get_optional param (fun _ => true)
        (fun p f => init_with (f p) (fun desc => dev_update desc (set_gpio_ops (gp_platform_ops p))))
  end.

(** [if (desc) { ... } return 0;] *)
Definition gpio_dispatch {F} (sel : no_os_gpio_platform_ops W -> option F) (desc : ptr)
    (k : F -> cmd mem Z) : cmd mem Z :=
  match desc with
  | None => mret 0
  | Some _ => dispatch dev_load gd_platform_ops driver sel desc true k
  end.

Definition no_os_gpio_remove (desc : ptr) : cmd mem Z :=
  gpio_dispatch gpio_ops_remove desc (fun f => f desc).

Definition no_os_gpio_direction_input (desc : ptr) : cmd mem Z :=
  gpio_dispatch gpio_ops_direction_input desc (fun f => f desc).

Definition no_os_gpio_direction_output (desc : ptr) (value : Z) : cmd mem Z :=
  gpio_dispatch gpio_ops_direction_output desc (fun f => f desc value).

Definition no_os_gpio_get_direction (desc direction : ptr) : cmd mem Z :=
  gpio_dispatch gpio_ops_get_direction desc (fun f => f desc direction).

Definition no_os_gpio_set_value (desc : ptr) (value : Z) : cmd mem Z :=
  gpio_dispatch gpio_ops_set_value desc (fun f => f desc value).

(** The pointer that is tested is that of [gpio_ops_set_value]; calling a null
    pointer is undefined. *)
Definition no_os_gpio_get_value (desc value : ptr) : cmd mem Z :=
  gpio_dispatch (fun ops => (fun _ => gpio_ops_get_value ops) <$> gpio_ops_set_value ops) desc
    (fun f => f ← the f; f desc value).

(** ** Requests *)

Inductive gpio_request : Type :=
  | GRemove
  | GInput
  | GOutput (value : Z)
  | GDirection (direction : ptr)
  | GSet (value : Z)
  | GGet (value : ptr).

Definition gpio_run (desc : ptr) (req : gpio_request) : cmd mem Z :=
  match req with
  | GRemove => no_os_gpio_remove desc
  | GInput => no_os_gpio_direction_input desc
  | GOutput v => no_os_gpio_direction_output desc v
  | GDirection p => no_os_gpio_get_direction desc p
  | GSet v => no_os_gpio_set_value desc v
  | GGet p => no_os_gpio_get_value desc p
  end.

(** The platform's function for a request. *)
Definition gpio_fun (ops : no_os_gpio_platform_ops W) (desc : ptr) (req : gpio_request) :
    option (cmd mem Z) :=
  match req with
  | GRemove => (fun f => f desc) <$> gpio_ops_remove ops
  | GInput => (fun f => f desc) <$> gpio_ops_direction_input ops
  | GOutput v => (fun f => f desc v) <$> gpio_ops_direction_output ops
  | GDirection p => (fun f => f desc p) <$> gpio_ops_get_direction ops
  | GSet v => (fun f => f desc v) <$> gpio_ops_set_value ops
  | GGet p => (fun f => f desc p) <$> gpio_ops_get_value ops
  end.

(** A pin: a descriptor of the memory with its platform, or none. *)
Definition pin_of (s : mem) (desc : ptr) (ops : option positive) : Prop :=
  match desc with
  | None => ops = None
  | Some p => exists d, cells s.1 !! p = Some d /\ gd_platform_ops d = ops /\ is_Some ops
  end.

Lemma gpio_dispatch_run {F} (sel : no_os_gpio_platform_ops W -> option F) s p ops k :
  pin_of s (Some p) (Some ops) ->
  gpio_dispatch sel (Some p) k s
  = match sel (driver ops) with Some f => k f s | None => Done (- ENOSYS, s) end.
Proof.
  intros (d & Hd & Ho & _). cbn [gpio_dispatch].
  rewrite (dispatch_run _ _ _ _ _ _ _ _ _ (dev_load_done s p d Hd)). unfold dispatch_result.
  rewrite Ho. by destruct (sel (driver ops)).
Qed.

(** A pin that was asked for as optional and that the board lacks is a null
    descriptor, on which every request succeeds and changes nothing; on any
    other pin a request is the platform's function, or -ENOSYS without one.
    The exception is reading a pin, which is answered with -ENOSYS where the
    platform can only read and is undefined where it can only write. *)
Theorem gpio_request_correct (s : mem) param req desc ops :
  pin_of s desc ops ->
  (param = None \/ gp_number <$> param = Some (-1) -> no_os_gpio_get_optional param s = Done ((0, None), s)) /\
  gpio_run desc req s
  = match ops with
    | None => Done (0, s)
    | Some ops =>
        match req, gpio_ops_set_value (driver ops), gpio_fun (driver ops) desc req with
        | GGet _, None, Some _ => Done (- ENOSYS, s)
        | GGet _, Some _, None => Undef
        | _, _, Some f => f s
        | _, _, None => Done (- ENOSYS, s)
        end
    end.
Proof.
  intros Hpin. split.
  - intros [-> | Hn]; [done |]. destruct param as [p |]; [| done]. cbn in *. by injection Hn as ->.
  - destruct desc as [p |]; cbn in Hpin.
    + assert (exists q, ops = Some q) as [q ->] by (destruct Hpin as (d & _ & _ & [q ->]); by exists q).
      destruct req; cbn [gpio_run gpio_fun];
        unfold no_os_gpio_remove, no_os_gpio_direction_input, no_os_gpio_direction_output,
          no_os_gpio_get_direction, no_os_gpio_set_value, no_os_gpio_get_value;
        rewrite (gpio_dispatch_run _ s p q) by done;
        repeat first [done | case_match; simplify_option_eq].
      all: try by repeat match goal with H : _ <$> ?x = _ |- _ => destruct x; simplify_eq/= end.
    + subst ops. by destruct req.
Qed.
End gpio.

(** ** An example: a platform that can only read its pins, whose value it
    writes to the address it is given *)

Definition gpio_sim_driver (p : positive) : no_os_gpio_platform_ops (gmap positive Z) :=
  GpioOps None None None None None None None
    (Some (fun _ value s => match value with
                            | Some q => Done (0, (s.1, <[q := 1]> s.2))
                            | None => Undef
                            end)).

Definition gpio_ex_desc : no_os_gpio_desc := GpioDesc 0 13 NO_OS_PULL_NONE (Some 1%positive) None.

Lemma gpio_request_correct_witness :
  gpio_run gpio_sim_driver (Some 1%positive) (GGet (Some 5%positive))
    (Heap {[ 1%positive := gpio_ex_desc ]} 2 [], ∅)
  = Done (- ENOSYS, (Heap {[ 1%positive := gpio_ex_desc ]} 2 [], ∅)).
Proof.
  refine (proj2 (gpio_request_correct gpio_sim_driver (Heap {[ 1%positive := gpio_ex_desc ]} 2 [], ∅)
    None (GGet (Some 5%positive)) (Some 1%positive) (Some 1%positive) _)).
  exists gpio_ex_desc. split; [reflexivity | split; [reflexivity | by eexists]].
Defined.
