(* ===== verification/Socket.v ===== *)
(** * TCP sockets: [network/tcp_socket.c]

    A descriptor for each socket of a network interface, whose functions are
    those of a stack or of a modem.  These are the paths without TLS: builds
    with [DISABLE_SECURE_SOCKET], and sockets without [secure_init_param] in the
    others. *)
From S2P Require Import Prelude Bus Dispatch.

(** ** Data *)

Inductive socket_protocol : Type := PROTOCOL_TCP | PROTOCOL_UDP.

Record socket_address : Type := SocketAddress { sa_addr : list Z; sa_port : Z }.

(** The functions that [tcp_socket.c] uses; those that give an identifier or
    data return them with the result. *)
Record network_interface (W : Type) : Type := NetworkInterface {
  net_open : socket_protocol -> Z -> cmd W (Z * Z);
  net_close : Z -> cmd W Z;
  net_connect : Z -> socket_address -> cmd W Z;
  net_disconnect : Z -> cmd W Z;
  net_send : Z -> list Z -> cmd W Z;
  net_recv : Z -> Z -> cmd W (Z * list Z);
  net_bind : Z -> Z -> cmd W Z;
  net_listen : Z -> Z -> cmd W Z;
  net_accept : Z -> cmd W (Z * Z)
}.
Arguments NetworkInterface {W} _ _ _ _ _ _ _ _ _.
Arguments net_open {W} _.
Arguments net_close {W} _.
Arguments net_connect {W} _.
Arguments net_disconnect {W} _.
Arguments net_send {W} _.
Arguments net_recv {W} _.
Arguments net_bind {W} _.
Arguments net_listen {W} _.
Arguments net_accept {W} _.

Record tcp_socket_desc : Type := TcpSocket { ts_id : Z; ts_net : ptr }.

Record tcp_socket_init_param : Type := TcpSocketInit { tp_net : ptr; tp_max_buff_size : Z }.

(** ** Operations *)

Section sockets.
  (** The interfaces, and the build's [DEFAULT_CONNECTION_BUFFER_SIZE]. *)
  Context {W : Type} (nets : positive -> network_interface W) (default_size : Z).
  Abbreviation mem := (platform tcp_socket_desc W).

Definition on_net {A} : cmd W A -> cmd mem A := zoom snd (fun w s => (s.1, w)).

Definition on_sockets {A} : cmd (heap tcp_socket_desc) A -> cmd mem A := zoom fst (fun h s => (h, s.2)).

(** [desc->net] and [desc->id]. *)
Definition net_of (desc : ptr) : cmd mem (network_interface W * Z) :=
  d ← dev_load desc;
  n ← the (ts_net d);
  mret (nets n, ts_id d).

Definition socket_init (param : option tcp_socket_init_param) : cmd mem (Z * ptr) :=
  match param with
  | None => mret (-1, None)
  | Some param =>
      ldesc ← on_sockets (halloc (TcpSocket 0 None));
      match ldesc with
      | None => mret (-1, None)
      | Some _ =>
          _ ← dev_update ldesc (fun d => TcpSocket (ts_id d) (tp_net param));
          let buff_size := if truthy (tp_max_buff_size param) then tp_max_buff_size param else default_size in
          n ← net_of ldesc;
          r ← on_net (net_open n.1 PROTOCOL_TCP buff_size);
          if NO_OS_IS_ERR_VALUE r.1 then
            _ ← on_sockets (hfree ldesc); mret (r.1, None)
          else
            _ ← dev_update ldesc (fun d => TcpSocket r.2 (ts_net d));
            mret (0, ldesc)
      end
  end.

Definition socket_remove (desc : ptr) : cmd mem Z :=
  match desc with
  | None => mret (-1)
  | Some _ =>
      n ← net_of desc;
      ret ← on_net (net_close n.1 n.2);
      if NO_OS_IS_ERR_VALUE ret then mret ret else
      _ ← on_sockets (hfree desc);
      mret 0
  end.

Definition socket_connect (desc : ptr) (addr : option socket_address) : cmd mem Z :=
  match desc, addr with
  | Some _, Some addr =>
      n ← net_of desc;
      ret ← on_net (net_connect n.1 n.2 addr);
      if NO_OS_IS_ERR_VALUE ret then mret ret else mret 0
  | _, _ => mret (-1)
  end.

Definition socket_disconnect (desc : ptr) : cmd mem Z :=
  match desc with
  | None => mret (-1)
  | Some _ => n ← net_of desc; on_net (net_disconnect n.1 n.2)
  end.

Definition socket_send (desc : ptr) (data : list Z) : cmd mem Z :=
  match desc with
  | None => mret (-1)
  | Some _ => n ← net_of desc; on_net (net_send n.1 n.2 data)
  end.

Definition socket_recv (desc : ptr) (len : Z) : cmd mem (Z * list Z) :=
  match desc with
  | None => mret (-1, [])
  | Some _ => n ← net_of desc; on_net (net_recv n.1 n.2 len)
  end.

(** These do not check the descriptor. *)
Definition socket_bind (desc : ptr) (port : Z) : cmd mem Z :=
  n ← net_of desc; on_net (net_bind n.1 n.2 port).

Definition socket_listen (desc : ptr) (back_log : Z) : cmd mem Z :=
  n ← net_of desc; on_net (net_listen n.1 n.2 back_log).

(** Without memory for the client's descriptor it is the server that is closed. *)
Definition socket_accept (desc : ptr) : cmd mem (Z * ptr) :=
  n ← net_of desc;
  r ← on_net (net_accept n.1 n.2);
  if NO_OS_IS_ERR_VALUE r.1 then mret (r.1, None) else
  new_client ← on_sockets (halloc (TcpSocket 0 None));
  match new_client with
  | None =>
      _ ← on_net (net_close n.1 n.2);
      mret (- ENOMEM, None)
  | Some _ =>
      d ← dev_load desc;
      _ ← dev_update new_client (fun c => TcpSocket (ts_id c) (ts_net d));
      _ ← dev_update new_client (fun c => TcpSocket r.2 (ts_net c));
      mret (0, new_client)
  end.
End sockets.

(** ** What a network is relied on for *)

(** Its open sockets are a set of identifiers: opening and accepting add one
    that is not in use, closing takes one away or fails, disconnecting may take
    one away, and nothing else does; in particular no socket is closed that
    nobody asked to close. *)
Class NetLaws {W} (n : network_interface W) (opened : W -> gset Z) : Prop := {
  open_law proto size w : exists r id w', net_open n proto size w = Done ((r, id), w') /\
    if r <? 0 then opened w' = opened w else ((id ∉ opened w) /\ opened w' = {[id]} ∪ opened w);
  close_law id w : exists r w', net_close n id w = Done (r, w') /\
    (opened w' = opened w ∖ {[id]} \/ r < 0 /\ opened w' = opened w);
  connect_law id a w : exists r w', net_connect n id a w = Done (r, w') /\ opened w' = opened w;
  disconnect_law id w : exists r w', net_disconnect n id w = Done (r, w') /\
    (opened w' = opened w ∖ {[id]} \/ opened w' = opened w);
  send_law id data w : exists r w', net_send n id data w = Done (r, w') /\ opened w' = opened w /\
    r <= Z.of_nat (length data);
  recv_law id len w : exists r w', net_recv n id len w = Done (r, w') /\ opened w' = opened w /\
    (0 <= len -> r.1 <= len /\ (0 <= r.1 -> r.1 = Z.of_nat (length r.2)));
  bind_law id port w : exists r w', net_bind n id port w = Done (r, w') /\ opened w' = opened w;
  listen_law id b w : exists r w', net_listen n id b w = Done (r, w') /\ opened w' = opened w;
  accept_law id w : exists r c w', net_accept n id w = Done ((r, c), w') /\
    if r <? 0 then opened w' = opened w else ((c ∉ opened w) /\ opened w' = {[c]} ∪ opened w)
}.

(** A network that closes every open socket it is asked to. *)
Definition always_closes {W} (n : network_interface W) (opened : W -> gset Z) : Prop :=
  forall id w r w', id ∈ opened w -> net_close n id w = Done (r, w') -> 0 <= r.

Section live.
  Context {W : Type} (nets : positive -> network_interface W) (default_size : Z) (net : positive).
  Context (opened : W -> gset Z) {HN : NetLaws (nets net) opened}.
  Abbreviation mem := (platform tcp_socket_desc W).

(** The descriptors [own] have an open socket each, no two the same; the open
    sockets are those and [lost], which no descriptor has. *)
Record sockets_ok (own : gset positive) (lost : gset Z) (s : mem) : Prop := SocketsOk {
  so_heap : heap_ok s.1;
  so_net : map_Forall (fun _ d => ts_net d = Some net) (cells s.1);
  so_live : own ⊆ dom (cells s.1);
  so_inj : forall p q d e, p ∈ own -> q ∈ own ->
    cells s.1 !! p = Some d -> cells s.1 !! q = Some e -> ts_id d = ts_id e -> p = q;
  so_lost : forall p d, p ∈ own -> cells s.1 !! p = Some d -> ts_id d ∉ lost;
  so_open : forall id, id ∈ opened s.2 <-> id ∈ lost \/ exists p d, p ∈ own /\ cells s.1 !! p = Some d /\ ts_id d = id
}.

(** A descriptor with a socket of its own, or whose socket was closed and whose
    identifier nobody else has got since. *)
Definition usable (own : gset positive) (s : mem) (p : positive) : Prop :=
  exists d, cells s.1 !! p = Some d /\ (p ∈ own \/ ts_id d ∉ opened s.2).

Lemma net_of_run own lost (s : mem) p d :
  sockets_ok own lost s -> cells s.1 !! p = Some d -> net_of nets (Some p) s = Done ((nets net, ts_id d), s).
Proof using.
  intros Hs Hp. unfold net_of. rewrite (bind_done _ _ _ _ _ (dev_load_done s p d Hp)).
  by rewrite (so_net _ _ _ Hs p d Hp).
Qed.

Lemma on_net_run {A} (c : cmd W A) (s : mem) a w : c s.2 = Done (a, w) -> on_net c s = Done (a, (s.1, w)).
Proof using. intros H. unfold on_net. by rewrite (zoom_done _ _ _ _ _ _ H). Qed.

(** What leaves the open sockets alone. *)
Lemma sockets_ok_world own lost h w w' :
  sockets_ok own lost (h, w) -> opened w' = opened w -> sockets_ok own lost (h, w').
Proof using. intros [Hh Hn Hl Hi Hlo Ho] E. split; cbn [fst snd] in *; try done. intros id. by rewrite E. Qed.

Lemma sockets_ok_memory own lost h w o :
  sockets_ok own lost (h, w) -> sockets_ok own lost (Heap (cells h) (next_block h) o, w).
Proof using. by intros []. Qed.

Lemma sockets_ok_live own lost s p : sockets_ok own lost s -> p ∈ own -> exists d, cells s.1 !! p = Some d.
Proof using. intros Hs Hp. by apply elem_of_dom, (so_live _ _ _ Hs). Qed.

Lemma sockets_ok_open own lost s p d :
  sockets_ok own lost s -> p ∈ own -> cells s.1 !! p = Some d -> ts_id d ∈ opened s.2.
Proof using. intros Hs Ho Hp. apply (so_open _ _ _ Hs). right. by exists p, d. Qed.

Lemma own_usable own lost s p : sockets_ok own lost s -> p ∈ own -> usable own s p.
Proof using. intros Hs Hp. destruct (sockets_ok_live _ _ _ _ Hs Hp) as [d Hd]. exists d. auto. Qed.

(** One more socket, with a descriptor or without, and one less. *)
Lemma sockets_ok_add own lost h w o id w' :
  sockets_ok own lost (h, w) -> id ∉ opened w -> opened w' = {[id]} ∪ opened w ->
  sockets_ok ({[next_block h]} ∪ own) lost
    (Heap (<[next_block h := TcpSocket id (Some net)]> (cells h)) (Pos.succ (next_block h)) o, w').
Proof using.
  clear HN nets. intros [Hh Hn Hl Hi Hlo Ho] Hid E. pose proof (heap_ok_fresh _ Hh) as Hf. cbn [fst snd] in *.
  assert (next_block h ∉ own) as Hown by (intros H%Hl; by apply not_elem_of_dom in Hf).
  assert (forall q d, q ∈ own -> cells h !! q = Some d -> ts_id d <> id) as Hne.
  { intros q d Hq Hd <-. apply Hid, Ho. right. by exists q, d. }
  split; cbn [fst snd cells].
  - apply (heap_ok_insert h); [done | lia..].
  - by apply map_Forall_insert_2.
  - rewrite dom_insert_L. set_solver.
  - intros p q d e Hp Hq Hd He Eid.
    apply lookup_insert_Some in Hd as [[<- <-] | [Hp1 Hd]];
      apply lookup_insert_Some in He as [[<- <-] | [Hq1 He]]; cbn [ts_id] in Eid; [done | | |].
    + destruct (Hne q e ltac:(set_solver) He). done.
    + destruct (Hne p d ltac:(set_solver) Hd). done.
    + eapply Hi; [| | done..]; set_solver.
  - intros p d Hp Hd. apply lookup_insert_Some in Hd as [[<- <-] | [Hp1 Hd]]; cbn [ts_id].
    + intros Hin. apply Hid, Ho. by left.
    + eapply Hlo; [| done]. set_solver.
  - intros x. rewrite E, elem_of_union, elem_of_singleton, Ho. split.
    + intros [-> | [Hx | (p & d & Hp & Hd & <-)]]; [right | by left | right].
      * exists (next_block h); eexists. split; [set_solver |]. by rewrite lookup_insert_eq.
      * exists p, d. split; [set_solver |]. split; [| done]. rewrite lookup_insert_ne; [done |]. by intros <-.
    + intros [Hx | (p & d & Hp & Hd & <-)]; [by right; left |].
      apply lookup_insert_Some in Hd as [[<- <-] | [Hne' Hd]]; [by left |].
      right. right. exists p, d. set_solver.
Qed.

Lemma sockets_ok_lose own lost h w id w' :
  sockets_ok own lost (h, w) -> id ∉ opened w -> opened w' = {[id]} ∪ opened w ->
  sockets_ok own ({[id]} ∪ lost) (h, w').
Proof using.
  clear HN nets. intros [Hh Hn Hl Hi Hlo Ho] Hid E. split; cbn [fst snd] in *; try done.
  - intros p d Hp Hd. rewrite not_elem_of_union, not_elem_of_singleton. split; [| by eapply Hlo].
    intros <-. apply Hid, Ho. right. by exists p, d.
  - intros x. rewrite E, !elem_of_union, elem_of_singleton, Ho. tauto.
Qed.

Lemma sockets_ok_close own lost h w p d w' :
  sockets_ok own lost (h, w) -> cells h !! p = Some d -> (p ∈ own \/ ts_id d ∉ opened w) ->
  opened w' = opened w ∖ {[ts_id d]} -> sockets_ok (own ∖ {[p]}) lost (h, w').
Proof using.
  clear HN nets. intros [Hh Hn Hl Hi Hlo Ho] Hp Hown E. cbn [fst snd] in *.
  assert (forall x, x ∈ lost -> x <> ts_id d) as Hx.
  { intros x Hx ->. destruct Hown as [Hin | Hout]; [by eapply Hlo |]. apply Hout, Ho. by left. }
  split; cbn [fst snd]; try done.
  - set_solver.
  - intros q q' e e' Hq Hq'. eapply Hi; set_solver.
  - intros q e Hq. apply Hlo. set_solver.
  - intros x. rewrite E, elem_of_difference, elem_of_singleton, Ho. split.
    + intros [[Hx' | (q & e & Hq & He & <-)] Hne]; [by left | right]. exists q, e. split; [| done].
      apply elem_of_difference. split; [done |]. intros ->%elem_of_singleton. congruence.
    + intros [Hx' | (q & e & [Hq Hne]%elem_of_difference & He & <-)]; [split; [by left | by apply Hx] |].
      split; [right; by exists q, e |]. intros Eid. destruct Hown as [Hin | Hout].
      * apply Hne, elem_of_singleton. by eapply Hi.
      * apply Hout. rewrite <- Eid. apply Ho. right. by exists q, e.
Qed.

(** A descriptor without a socket is freed. *)
Lemma sockets_ok_free own lost h w p :
  sockets_ok own lost (h, w) -> p ∉ own -> sockets_ok own lost (Heap (delete p (cells h)) (next_block h) (oom h), w).
Proof using.
  clear HN nets. intros [Hh Hn Hl Hi Hlo Ho] Hp. split; cbn [fst snd cells] in *.
  - by apply heap_ok_delete.
  - by apply map_Forall_delete.
  - rewrite dom_delete_L. set_solver.
  - intros q q' e e' Hq Hq' [_ He]%lookup_delete_Some [_ He']%lookup_delete_Some. by eapply Hi.
  - intros q e Hq [_ He]%lookup_delete_Some. by eapply Hlo.
  - intros x. rewrite Ho. split; (intros [Hx | (q & e & Hq & He & <-)]; [by left | right; exists q, e; split; [done |]]).
    + by rewrite lookup_delete_ne by (intros <-; done).
    + by apply lookup_delete_Some in He as [_ He].
Qed.

(** *** Calls *)

Inductive socket_call : Type :=
  | CInit (size : Z)
  | CRemove (p : positive)
  | CConnect (p : positive) (addr : option socket_address)
  | CDisconnect (p : positive)
  | CSend (p : positive) (data : list Z)
  | CRecv (p : positive) (len : Z)
  | CBind (p : positive) (port : Z)
  | CListen (p : positive) (back_log : Z)
  | CAccept (p : positive).

Definition run_socket_call (c : socket_call) : cmd mem Z :=
  match c with
  | CInit size => r ← socket_init nets default_size (Some (TcpSocketInit (Some net) size)); mret r.1
  | CRemove p => socket_remove nets (Some p)
  | CConnect p a => socket_connect nets (Some p) a
  | CDisconnect p => socket_disconnect nets (Some p)
  | CSend p data => socket_send nets (Some p) data
  | CRecv p len => r ← socket_recv nets (Some p) len; mret r.1
  | CBind p port => socket_bind nets (Some p) port
  | CListen p b => socket_listen nets (Some p) b
  | CAccept p => r ← socket_accept nets (Some p); mret r.1
  end.

(** The descriptor of a call is usable; a client is accepted on an open socket. *)
Definition callable (own : gset positive) (s : mem) (c : socket_call) : Prop :=
  match c with
  | CInit _ => True
  | CAccept p => p ∈ own
  | CRemove p | CConnect p _ | CDisconnect p | CSend p _ | CRecv p _ | CBind p _ | CListen p _ => usable own s p
  end.

(** What a call with result [r] does to the descriptors, to those that have a
    socket, and to the sockets that nobody has. *)
Definition call_effect (c : socket_call) (r : Z) (s s' : mem) (own own' : gset positive) (lost lost' : gset Z) : Prop :=
  match c with
  | CInit _ =>
      lost' = lost /\
      if r <? 0 then cells s'.1 = cells s.1 /\ own' = own
      else r = 0 /\ dom (cells s'.1) = {[next_block s.1]} ∪ dom (cells s.1) /\ own' = {[next_block s.1]} ∪ own
  | CRemove p =>
      lost' = lost /\
      if r <? 0 then cells s'.1 = cells s.1 /\ (own' = own \/ own' = own ∖ {[p]})
      else r = 0 /\ cells s'.1 = delete p (cells s.1) /\ own' = own ∖ {[p]}
  | CDisconnect p => lost' = lost /\ cells s'.1 = cells s.1 /\ (own' = own \/ own' = own ∖ {[p]})
  | CAccept p =>
      if r <? 0 then cells s'.1 = cells s.1 /\
        (lost' = lost /\ own' = own \/
         r = - ENOMEM /\ alloc_fails s.1 = true /\ (own' = own \/ own' = own ∖ {[p]}) /\
         exists id, (id ∉ opened s.2) /\ lost' = {[id]} ∪ lost)
      else r = 0 /\ lost' = lost /\
        dom (cells s'.1) = {[next_block s.1]} ∪ dom (cells s.1) /\ own' = {[next_block s.1]} ∪ own
  | _ => cells s'.1 = cells s.1 /\ own' = own /\ lost' = lost
  end.

Lemma socket_init_run own lost size (s : mem) :
  sockets_ok own lost s ->
  exists r q s', socket_init nets default_size (Some (TcpSocketInit (Some net) size)) s = Done ((r, q), s') /\
    oom s'.1 = tail (oom s.1) /\
    if r <? 0 then q = None /\ cells s'.1 = cells s.1 /\ sockets_ok own lost s'
      else r = 0 /\ q = Some (next_block s.1) /\ sockets_ok ({[next_block s.1]} ∪ own) lost s' /\
           exists id, cells s'.1 = <[next_block s.1 := TcpSocket id (Some net)]> (cells s.1).
Proof using HN.
  destruct s as [h w]. intros Hs. pose proof (heap_ok_fresh _ (so_heap _ _ _ Hs)) as Hfresh. cbn [fst] in Hfresh.
  unfold socket_init. destruct (alloc_fails h) eqn:Ea.
  { erewrite bind_done by (eapply zoom_done, halloc_fail, Ea). eexists _, _, _. split; [done |].
    split; [done |]. split; [done |]. split; [done |]. by apply sockets_ok_memory. }
  erewrite bind_done by (eapply zoom_done, halloc_done, Ea). cbn [tp_net tp_max_buff_size].
  erewrite bind_done by (apply dev_update_done; apply lookup_insert_eq). cbn [fst snd cells next_block oom].
  erewrite bind_done.
  2:{ unfold net_of. erewrite bind_done by (apply dev_load_done; apply lookup_insert_eq). done. }
  cbn [fst snd ts_net ts_id]. set (size' := if truthy _ then _ else _).
  destruct (open_law PROTOCOL_TCP size' w) as (r & id & w' & E & Hw).
  erewrite bind_done by (eapply on_net_run, E). unfold NO_OS_IS_ERR_VALUE. cbn [fst snd].
  destruct (Z.ltb_spec r 0) as [Hr | Hr].
  - erewrite bind_done by (eapply zoom_done, hfree_done; apply lookup_insert_eq).
    eexists _, _, _. split; [done |]. rewrite (proj2 (Z.ltb_lt r 0) Hr). cbn [fst cells next_block oom].
    rewrite insert_insert_eq, delete_insert_id by done. split; [done |]. split; [done |]. split; [done |].
    eapply sockets_ok_world; [| exact Hw]. destruct Hs as [Hh Hn Hl Hi Hlo Ho]. split; try done.
    intros p Hp. specialize (Hh p Hp). cbn in *. lia.
  - destruct Hw as [Hid Hw].
    erewrite bind_done by (apply dev_update_done; apply lookup_insert_eq). cbn [fst snd cells next_block oom ts_net].
    eexists _, _, _. split; [done |]. cbn [fst cells]. rewrite !insert_insert_eq.
    split; [done |]. split; [done |]. split; [done |]. split; [by eapply sockets_ok_add |]. by exists id.
Qed.

(** The close of a descriptor's socket, which may fail. *)
Lemma net_close_run own lost (h : heap tcp_socket_desc) w p d :
  sockets_ok own lost (h, w) -> cells h !! p = Some d -> (p ∈ own \/ ts_id d ∉ opened w) ->
  exists r w', net_close (nets net) (ts_id d) w = Done (r, w') /\
    (sockets_ok (own ∖ {[p]}) lost (h, w') \/ r < 0 /\ sockets_ok own lost (h, w')).
Proof using HN.
  intros Hs Hp Hown. destruct (close_law (ts_id d) w) as (r & w' & E & Hw). exists r, w'. split; [done |].
  destruct Hw as [Hw | [Hr Hw]]; [left; by eapply sockets_ok_close | right; split; [done |]; by eapply sockets_ok_world].
Qed.

(** A client that is there, or not, or that there is no memory for: then the
    server's socket is closed and the client's is lost. *)
Lemma socket_accept_run own lost (s : mem) p :
  sockets_ok own lost s -> p ∈ own ->
  exists r q s', socket_accept nets (Some p) s = Done ((r, q), s') /\
    (r < 0 /\ q = None /\ s'.1 = s.1 /\ sockets_ok own lost s' \/
     r = 0 /\ q = Some (next_block s.1) /\ sockets_ok ({[next_block s.1]} ∪ own) lost s' /\ alloc_fails s.1 = false /\
       oom s'.1 = tail (oom s.1) /\
       (exists id, cells s'.1 = <[next_block s.1 := TcpSocket id (Some net)]> (cells s.1)) \/
     r = - ENOMEM /\ q = None /\ alloc_fails s.1 = true /\ cells s'.1 = cells s.1 /\
       exists id own', (id ∉ opened s.2) /\ (own' = own \/ own' = own ∖ {[p]}) /\
         sockets_ok own' ({[id]} ∪ lost) s').
Proof using HN.
  intros Hs Hown. destruct (sockets_ok_live _ _ _ _ Hs Hown) as [d Hp]. destruct s as [h w]. unfold socket_accept.
  rewrite (bind_done _ _ _ _ _ (net_of_run _ _ _ p d Hs Hp)). cbn [fst snd] in *.
  destruct (accept_law (ts_id d) w) as (r & id & w' & E & Hw).
  erewrite bind_done by (eapply on_net_run, E). unfold NO_OS_IS_ERR_VALUE. cbn [fst snd].
  destruct (Z.ltb_spec r 0) as [Hr | Hr].
  { eexists _, _, _. split; [done |]. left. splits; try done. by eapply sockets_ok_world. }
  destruct Hw as [Hid Hw]. destruct (alloc_fails h) eqn:Ea.
  - erewrite bind_done by (eapply zoom_done, halloc_fail, Ea). cbn [fst snd].
    pose proof (sockets_ok_memory _ _ _ _ (tail (oom h)) (sockets_ok_lose _ _ _ _ id w' Hs Hid Hw)) as Hs1.
    destruct (net_close_run _ _ _ _ p d Hs1 Hp (or_introl Hown)) as (rc & w2 & Ec & Hs2).
    erewrite bind_done by (eapply on_net_run, Ec). eexists _, _, _. split; [done |]. right. right. splits; try done.
    destruct Hs2 as [Hs2 | [_ Hs2]]; eexists id, _; (split; [done |]; split; [| exact Hs2]); auto.
  - pose proof (heap_ok_fresh _ (so_heap _ _ _ Hs)) as Hfresh. cbn [fst] in Hfresh.
    erewrite bind_done by (eapply zoom_done, halloc_done, Ea). cbn [fst snd].
    assert (cells (Heap (<[next_block h := TcpSocket 0 None]> (cells h)) (Pos.succ (next_block h)) (tail (oom h))) !! p
      = Some d) as Hp1 by (cbn; rewrite lookup_insert_ne; [done | congruence]).
    erewrite bind_done by (apply dev_load_done; exact Hp1).
    erewrite bind_done by (apply dev_update_done; apply lookup_insert_eq). cbn [fst snd cells next_block oom].
    erewrite bind_done by (apply dev_update_done; apply lookup_insert_eq). cbn [fst snd cells next_block oom ts_net].
    rewrite (so_net _ _ _ Hs p d Hp), !insert_insert_eq.
    eexists _, _, _. split; [done |]. right. left. splits; try done; [by eapply sockets_ok_add |]. by exists id.
Qed.

(** A descriptor that is removed, or kept because its socket cannot be closed;
    the socket may be gone all the same. *)
Lemma socket_remove_run own lost (s : mem) p d :
  sockets_ok own lost s -> cells s.1 !! p = Some d -> (p ∈ own \/ ts_id d ∉ opened s.2) ->
  exists r s', socket_remove nets (Some p) s = Done (r, s') /\ oom s'.1 = oom s.1 /\
    (r = 0 /\ cells s'.1 = delete p (cells s.1) /\ sockets_ok (own ∖ {[p]}) lost s' \/
     r < 0 /\ cells s'.1 = cells s.1 /\ (sockets_ok own lost s' \/ sockets_ok (own ∖ {[p]}) lost s') /\
       ~ (p ∈ own /\ always_closes (nets net) opened)).
Proof using HN.
  intros Hs Hp Hown. destruct s as [h w]. unfold socket_remove.
  rewrite (bind_done _ _ _ _ _ (net_of_run _ _ _ p d Hs Hp)). cbn [fst snd] in *.
  destruct (net_close_run _ _ _ _ p d Hs Hp Hown) as (r & w' & E & Hs').
  erewrite bind_done by (eapply on_net_run, E). unfold NO_OS_IS_ERR_VALUE. destruct (Z.ltb_spec r 0) as [Hr | Hr].
  - eexists r, _. split; [done |]. split; [done |]. right. split; [done |]. split; [done |].
    split; [tauto |]. intros [Hin Hall].
    specialize (Hall (ts_id d) w r w' (sockets_ok_open _ _ _ p d Hs Hin Hp) E). lia.
  - cbn [fst snd]. erewrite bind_done by (eapply zoom_done, hfree_done, Hp).
    eexists 0, _. split; [done |]. split; [done |]. left. split; [done |]. split; [done |].
    destruct Hs' as [Hs' | [? _]]; [| lia]. apply (sockets_ok_free _ _ _ _ p Hs').
    intros [_ Hn]%elem_of_difference. by apply Hn, elem_of_singleton.
Qed.

(** The calls that only reach the network. *)
Lemma net_call_run {A} (f : network_interface W -> Z -> cmd W A) own lost (s : mem) p d :
  sockets_ok own lost s -> cells s.1 !! p = Some d ->
  (exists a w', f (nets net) (ts_id d) s.2 = Done (a, w') /\ opened w' = opened s.2) ->
  exists a w', (n ← net_of nets (Some p); on_net (f n.1 n.2)) s = Done (a, (s.1, w')) /\
    sockets_ok own lost (s.1, w') /\ f (nets net) (ts_id d) s.2 = Done (a, w').
Proof using.
  intros Hs Hp (a & w' & E & Hw). exists a, w'. rewrite (bind_done _ _ _ _ _ (net_of_run _ _ _ p d Hs Hp)).
  splits; [by apply on_net_run | | done]. destruct s as [h w]. by eapply sockets_ok_world.
Qed.

Lemma socket_disconnect_run own lost (s : mem) p d :
  sockets_ok own lost s -> cells s.1 !! p = Some d -> (p ∈ own \/ ts_id d ∉ opened s.2) ->
  exists r w', socket_disconnect nets (Some p) s = Done (r, (s.1, w')) /\
    (sockets_ok own lost (s.1, w') \/ sockets_ok (own ∖ {[p]}) lost (s.1, w')).
Proof using HN.
  intros Hs Hp Hown. destruct s as [h w]. unfold socket_disconnect.
  rewrite (bind_done _ _ _ _ _ (net_of_run _ _ _ p d Hs Hp)). cbn [fst snd] in *.
  destruct (disconnect_law (ts_id d) w) as (r & w' & E & Hw). exists r, w'. split; [by apply on_net_run |].
  destruct Hw as [Hw | Hw]; [right; by eapply sockets_ok_close | left; by eapply sockets_ok_world].
Qed.

End live.

(** ** An instance *)

(** A network that always has a client waiting, takes and gives nothing, and
    closes a socket that is disconnected. *)
Definition sx_new (w : gset Z) : outcome ((Z * Z) * gset Z) := Done ((0, fresh w), {[fresh w]} ∪ w).

Definition sx_close (i : Z) (w : gset Z) : outcome (Z * gset Z) :=
  Done (if decide (i ∈ w) then 0 else -1, w ∖ {[i]}).

Definition sx_net (_ : positive) : network_interface (gset Z) :=
  NetworkInterface (fun _ _ => sx_new) sx_close (fun _ _ => mret 0) sx_close
    (fun _ _ => mret 0) (fun _ _ => mret (0, [])) (fun _ _ => mret 0) (fun _ _ => mret 0) (fun _ => sx_new).

#[export] Instance sx_laws : NetLaws (sx_net 1) id.
Proof.
  split; try (intros; eexists _, _; (split; [done |]); by auto).
  - intros proto size w. eexists _, _, _. split; [done |]. split; [apply is_fresh | done].
  - intros i data w. eexists _, _. split; [done |]. split; [done | lia].
  - intros i w. eexists _, _, _. split; [done |]. split; [apply is_fresh | done].
Qed.

Definition sx_state (o : list bool) : platform tcp_socket_desc (gset Z) :=
  (Heap {[1%positive := TcpSocket 5 (Some 1%positive)]} 2 o, {[5]}).

Lemma sx_ok o : sockets_ok 1 id {[1%positive]} ∅ (sx_state o).
Proof.
  split; cbn [sx_state fst snd cells next_block].
  - intros p Hp. cbn [cells next_block] in *. destruct (decide (p = 1%positive)) as [-> |]; [lia |].
    rewrite lookup_singleton_ne in Hp by done. by destruct Hp.
  - by apply map_Forall_singleton.
  - rewrite dom_singleton_L. done.
  - intros p q d e _ _ [<- _]%lookup_singleton_Some [<- _]%lookup_singleton_Some _. done.
  - set_solver.
  - intros x. unfold id. rewrite elem_of_singleton. split.
    + intros ->. right. exists 1%positive. eexists. rewrite lookup_singleton_eq. split; [set_solver | done].
    + by intros [[]%elem_of_empty | (p & d & _ & [_ <-]%lookup_singleton_Some & <-)].
Qed.


(** A socket that was disconnected was closed: its descriptor cannot be removed. *)
Example disconnected_not_removed :
  match (r ← run_socket_call sx_net 256 1 (CDisconnect 1); q ← run_socket_call sx_net 256 1 (CRemove 1); mret (r, q))
      (sx_state []) with
  | Done ((r, q), s') => r = 0 /\ q = -1 /\ size (cells s'.1) = 1%nat /\ size s'.2 = 0%nat
  | _ => False
  end.
Proof. by vm_compute. Qed.
