(* ===== verification/AxiIo.v ===== *)
(** * Registers of FPGA cores: [include/no_os_axi_io.h]

    The two functions of the platform that the drivers of the cores in
    [drivers/axi_core] are written on.  Most of them ignore the results. *)
From S2P Require Import Prelude Bus Dispatch.

(** By base and offset: [no_os_axi_io_read] gives its result and the data. *)
Record axi_io (W : Type) : Type := AxiIo {
  no_os_axi_io_read : Z -> Z -> cmd W (Z * Z);
  no_os_axi_io_write : Z -> Z -> Z -> cmd W Z
}.
Arguments AxiIo {W} _ _.
Arguments no_os_axi_io_read {W} _.
Arguments no_os_axi_io_write {W} _.

(** Without the results. *)
Definition axi_get {W} (io : axi_io W) (base off : Z) : cmd W Z :=
  r ← no_os_axi_io_read io base off; mret r.2.

Definition axi_put {W} (io : axi_io W) (base off v : Z) : cmd W unit :=
  _ ← no_os_axi_io_write io base off v; mret tt.

(** The hardware next to the descriptors. *)
Definition on_core {D W A} : cmd W A -> cmd (platform D W) A := zoom snd (fun w s => (s.1, w)).

Lemma on_core_run {D W A} (c : cmd W A) (s : platform D W) a w :
  c s.2 = Done (a, w) -> on_core c s = Done (a, (s.1, w)).
Proof. intros H. unfold on_core. by rewrite (zoom_done _ _ _ _ _ _ H). Qed.
