(* ===== verification/AxiDmac.v ===== *)
(** * The DMA controller of an FPGA: [drivers/axi_core/axi_dmac/axi_dmac.c]

    A transfer that is longer than the core's registers allow is cut into
    bursts, of which the driver submits the first and the interrupt handlers the
    others. *)
From S2P Require Import Prelude Bus Dispatch AxiIo.

(** ** Data *)

Inductive use_irq : Type := IRQ_DISABLED | IRQ_ENABLED.

Inductive dma_direction : Type := INVALID_DIR | DMA_DEV_TO_MEM | DMA_MEM_TO_DEV | DMA_MEM_TO_MEM.

#[export] Instance use_irq_eq_dec : EqDecision use_irq.
Proof. solve_decision. Defined.

#[export] Instance dma_direction_eq_dec : EqDecision dma_direction.
Proof. solve_decision. Defined.

Definition DMA_CYCLIC : Z := 1.

Inductive cyclic_transfer : Type := NO | CYCLIC.

#[export] Instance cyclic_transfer_eq_dec : EqDecision cyclic_transfer.
Proof. solve_decision. Defined.

Record axi_dma_transfer : Type := DmaTransfer {
  tr_size : Z;
  transfer_done : bool;
  tr_cyclic : cyclic_transfer;
  src_addr : Z;
  dest_addr : Z
}.

Record axi_dmac : Type := AxiDmac {
  dm_name : list Z;
  dm_base : Z;
  irq_option : use_irq;
  direction : dma_direction;
  hw_cyclic : bool;
  max_length : Z;
  transfer : axi_dma_transfer;
  init_addr : Z;
  remaining_size : Z;
  next_src_addr : Z;
  next_dest_addr : Z
}.

Record axi_dmac_init_param : Type := DmacInit { di_name : list Z; di_base : Z; di_irq_option : use_irq }.

(** *** Registers *)

Definition AXI_DMAC_REG_IRQ_MASK : Z := 0x80.
Definition AXI_DMAC_REG_IRQ_PENDING : Z := 0x84.
Definition AXI_DMAC_IRQ_SOT : Z := 1.
Definition AXI_DMAC_IRQ_EOT : Z := 2.
Definition AXI_DMAC_REG_CTRL : Z := 0x400.
Definition AXI_DMAC_CTRL_ENABLE : Z := 1.
Definition AXI_DMAC_CTRL_DISABLE : Z := 0.
Definition AXI_DMAC_REG_TRANSFER_SUBMIT : Z := 0x408.
Definition AXI_DMAC_TRANSFER_SUBMIT : Z := 1.
Definition AXI_DMAC_QUEUE_FULL : Z := 1.
Definition AXI_DMAC_REG_FLAGS : Z := 0x40c.
Definition AXI_DMAC_REG_DEST_ADDRESS : Z := 0x410.
Definition AXI_DMAC_REG_SRC_ADDRESS : Z := 0x414.
Definition AXI_DMAC_REG_X_LENGTH : Z := 0x418.
Definition AXI_DMAC_REG_Y_LENGTH : Z := 0x41c.
Definition AXI_DMAC_REG_DEST_STRIDE : Z := 0x420.
Definition AXI_DMAC_REG_SRC_STRIDE : Z := 0x424.

(** *** Assignments *)

Definition set_caps (dir : dma_direction) (cyc : bool) (len : Z) (d : axi_dmac) : axi_dmac :=
  AxiDmac (dm_name d) (dm_base d) (irq_option d) dir cyc len (transfer d) (init_addr d) (remaining_size d)
    (next_src_addr d) (next_dest_addr d).

Definition set_transfer (t : axi_dma_transfer) (d : axi_dmac) : axi_dmac :=
  AxiDmac (dm_name d) (dm_base d) (irq_option d) (direction d) (hw_cyclic d) (max_length d) t (init_addr d)
    (remaining_size d) (next_src_addr d) (next_dest_addr d).

Definition set_init_addr (a : Z) (d : axi_dmac) : axi_dmac :=
  AxiDmac (dm_name d) (dm_base d) (irq_option d) (direction d) (hw_cyclic d) (max_length d) (transfer d) a
    (remaining_size d) (next_src_addr d) (next_dest_addr d).

Definition set_next (rem src dest : Z) (d : axi_dmac) : axi_dmac :=
  AxiDmac (dm_name d) (dm_base d) (irq_option d) (direction d) (hw_cyclic d) (max_length d) (transfer d) (init_addr d)
    rem src dest.

Definition set_done (d : axi_dmac) : axi_dmac :=
  let t := transfer d in
  set_transfer (DmaTransfer (tr_size t) true (tr_cyclic t) (src_addr t) (dest_addr t)) d.

(** ** Operations *)

Section dmac.
  (** The platform, and what happens during a delay: interrupts. *)
  Context {W : Type} (io : axi_io W) (no_os_mdelay : Z -> cmd (platform axi_dmac W) unit).
  Abbreviation mem := (platform axi_dmac W).

Definition axi_dmac_read (dmac : ptr) (reg_addr : Z) : cmd mem Z :=
  d ← dev_load dmac; on_core (axi_get io (dm_base d) reg_addr).

Definition axi_dmac_write (dmac : ptr) (reg_addr reg_data : Z) : cmd mem unit :=
  d ← dev_load dmac; on_core (axi_put io (dm_base d) reg_addr reg_data).

Definition axi_dmac_is_transfer_ready (dmac : ptr) : cmd mem (Z * bool) :=
  d ← dev_load dmac; mret (0, transfer_done (transfer d)).

(** The length of the next burst, minus one. *)
Definition burst_size (d : axi_dmac) : Z :=
  if max_length d <? remaining_size d then max_length d else u32 (remaining_size d - 1).

Definition irq_sources (dmac : ptr) : cmd mem Z :=
  reg_val ← axi_dmac_read dmac AXI_DMAC_REG_IRQ_PENDING;
  _ ← axi_dmac_write dmac AXI_DMAC_REG_IRQ_PENDING reg_val;
  mret reg_val.

Definition axi_dmac_dev_to_mem_isr (dmac : ptr) : cmd mem unit :=
  reg_val ← irq_sources dmac;
  d ← dev_load dmac;
  _ ← (if truthy (Z.land reg_val AXI_DMAC_IRQ_SOT) && truthy (remaining_size d) then
         let burst := burst_size d in
         _ ← axi_dmac_write dmac AXI_DMAC_REG_DEST_ADDRESS (next_dest_addr d);
         _ ← axi_dmac_write dmac AXI_DMAC_REG_DEST_STRIDE 0;
         _ ← axi_dmac_write dmac AXI_DMAC_REG_X_LENGTH burst;
         _ ← axi_dmac_write dmac AXI_DMAC_REG_Y_LENGTH 0;
         _ ← dev_update dmac (fun d => set_next (u32 (remaining_size d - u32 (burst + 1))) (next_src_addr d)
               (u32 (next_dest_addr d + u32 (burst + 1))) d);
         axi_dmac_write dmac AXI_DMAC_REG_TRANSFER_SUBMIT AXI_DMAC_TRANSFER_SUBMIT
       else mret tt);
  d ← dev_load dmac;
  if truthy (Z.land reg_val AXI_DMAC_IRQ_EOT) && negb (truthy (remaining_size d)) then
    dev_update dmac (fun d => set_done (set_next (remaining_size d) (next_src_addr d) 0 d))
  else mret tt.

Definition axi_dmac_mem_to_dev_isr (dmac : ptr) : cmd mem unit :=
  reg_val ← irq_sources dmac;
  d ← dev_load dmac;
  _ ← (if truthy (Z.land reg_val AXI_DMAC_IRQ_SOT) then
         _ ← (if bool_decide (tr_cyclic (transfer d) = CYCLIC) &&
                 (u32 (u32 (init_addr d + tr_size (transfer d)) - 1) <=? next_src_addr d) then
                dev_update dmac (fun d => set_next (tr_size (transfer d)) (init_addr d) (next_dest_addr d) d)
              else mret tt);
         d ← dev_load dmac;
         if truthy (remaining_size d) then
           let burst := burst_size d in
           _ ← axi_dmac_write dmac AXI_DMAC_REG_SRC_ADDRESS (next_src_addr d);
           _ ← axi_dmac_write dmac AXI_DMAC_REG_SRC_STRIDE 0;
           _ ← axi_dmac_write dmac AXI_DMAC_REG_X_LENGTH burst;
           _ ← axi_dmac_write dmac AXI_DMAC_REG_Y_LENGTH 0;
           _ ← dev_update dmac (fun d => set_next (u32 (remaining_size d - u32 (burst + 1)))
                 (u32 (next_src_addr d + u32 (burst + 1))) (next_dest_addr d) d);
           axi_dmac_write dmac AXI_DMAC_REG_TRANSFER_SUBMIT AXI_DMAC_TRANSFER_SUBMIT
         else mret tt
       else mret tt);
  d ← dev_load dmac;
  if truthy (Z.land reg_val AXI_DMAC_IRQ_EOT) && negb (truthy (remaining_size d)) &&
     bool_decide (tr_cyclic (transfer d) <> CYCLIC) then
    dev_update dmac (fun d => set_done (set_next (remaining_size d) 0 (next_dest_addr d) d))
  else mret tt.

Definition axi_dmac_mem_to_mem_isr (dmac : ptr) : cmd mem unit :=
  reg_val ← irq_sources dmac;
  d ← dev_load dmac;
  _ ← (if truthy (Z.land reg_val AXI_DMAC_IRQ_SOT) && truthy (remaining_size d) then
         let burst := burst_size d in
         _ ← axi_dmac_write dmac AXI_DMAC_REG_SRC_ADDRESS (next_src_addr d);
         _ ← axi_dmac_write dmac AXI_DMAC_REG_SRC_STRIDE 0;
         _ ← axi_dmac_write dmac AXI_DMAC_REG_DEST_ADDRESS (next_dest_addr d);
         _ ← axi_dmac_write dmac AXI_DMAC_REG_DEST_STRIDE 0;
         _ ← axi_dmac_write dmac AXI_DMAC_REG_X_LENGTH burst;
         _ ← axi_dmac_write dmac AXI_DMAC_REG_Y_LENGTH 0;
         _ ← dev_update dmac (fun d => set_next (u32 (remaining_size d - u32 (burst + 1)))
               (u32 (next_src_addr d + u32 (burst + 1))) (u32 (next_dest_addr d + u32 (burst + 1))) d);
         d ← dev_load dmac;
         _ ← (if truthy (remaining_size d) then mret tt else
                dev_update dmac (fun d => set_next (remaining_size d) (u32 (next_src_addr d + u32 (burst + 1)))
                  (next_dest_addr d) d));
         axi_dmac_write dmac AXI_DMAC_REG_TRANSFER_SUBMIT AXI_DMAC_TRANSFER_SUBMIT
       else mret tt);
  d ← dev_load dmac;
  if truthy (Z.land reg_val AXI_DMAC_IRQ_EOT) && negb (truthy (remaining_size d)) &&
     (u32 (init_addr d + tr_size (transfer d)) <? next_src_addr d) then
    dev_update dmac (fun d => set_done (set_next (remaining_size d) 0 0 d))
  else mret tt.

Definition axi_dmac_detect_caps (dmac : ptr) : cmd mem Z :=
  _ ← dev_update dmac (fun d => set_caps INVALID_DIR (hw_cyclic d) 0xffffffff d);
  initial_reg_val ← axi_dmac_read dmac AXI_DMAC_REG_FLAGS;
  _ ← axi_dmac_write dmac AXI_DMAC_REG_FLAGS DMA_CYCLIC;
  reg_val ← axi_dmac_read dmac AXI_DMAC_REG_FLAGS;
  _ ← (if reg_val =? DMA_CYCLIC then dev_update dmac (fun d => set_caps (direction d) true (max_length d) d)
       else mret tt);
  _ ← axi_dmac_write dmac AXI_DMAC_REG_FLAGS initial_reg_val;
  d ← dev_load dmac;
  _ ← axi_dmac_write dmac AXI_DMAC_REG_X_LENGTH (max_length d);
  len ← axi_dmac_read dmac AXI_DMAC_REG_X_LENGTH;
  _ ← dev_update dmac (fun d => set_caps (direction d) (hw_cyclic d) len d);
  _ ← axi_dmac_write dmac AXI_DMAC_REG_DEST_ADDRESS 0xffffffff;
  dest_mem_mapped ← axi_dmac_read dmac AXI_DMAC_REG_DEST_ADDRESS;
  _ ← axi_dmac_write dmac AXI_DMAC_REG_SRC_ADDRESS 0xffffffff;
  src_mem_mapped ← axi_dmac_read dmac AXI_DMAC_REG_SRC_ADDRESS;
  let set dir := (_ ← dev_update dmac (fun d => set_caps dir (hw_cyclic d) (max_length d) d); mret 0) in
  if truthy dest_mem_mapped && negb (truthy src_mem_mapped) then set DMA_DEV_TO_MEM
  else if negb (truthy dest_mem_mapped) && truthy src_mem_mapped then set DMA_MEM_TO_DEV
  else if truthy dest_mem_mapped && truthy src_mem_mapped then set DMA_MEM_TO_MEM
  else mret (-1).

(** What [calloc] gives. *)
Definition axi_dmac0 : axi_dmac :=
  AxiDmac [] 0 IRQ_DISABLED INVALID_DIR false 0 (DmaTransfer 0 false NO 0 0) 0 0 0 0.

Definition axi_dmac_init (init : axi_dmac_init_param) : cmd mem (Z * ptr) :=
  dmac ← (zoom fst (fun h s => (h, s.2)) (halloc axi_dmac0));
  match dmac with
  | None => mret (-1, None)
  | Some _ =>
      _ ← dev_update dmac (fun d => AxiDmac (di_name init) (di_base init) (di_irq_option init) (direction d)
            (hw_cyclic d) (max_length d) (transfer d) (init_addr d) (remaining_size d) (next_src_addr d)
            (next_dest_addr d));
      status ← axi_dmac_detect_caps dmac;
      if status <? 0 then _ ← zoom fst (fun h s => (h, s.2)) (hfree dmac); mret (-1, None)
      else mret (0, dmac)
  end.

Definition axi_dmac_remove (dmac : ptr) : cmd mem Z :=
  match dmac with
  | None => mret (-1)
  | Some _ => _ ← zoom fst (fun h s => (h, s.2)) (hfree dmac); mret 0
  end.

(** The parameters of the transfer; the flag stays as the last one left it. *)
Definition take_transfer (t : axi_dma_transfer) (d : axi_dmac) : axi_dmac :=
  set_next (tr_size t) (src_addr t) (dest_addr t)
    (set_transfer (DmaTransfer (tr_size t) (transfer_done (transfer d)) (tr_cyclic t) (src_addr t) (dest_addr t)) d).

(** The addresses of the first burst. *)
Definition first_addresses (dmac : ptr) (d : axi_dmac) : cmd mem unit :=
  match direction d with
  | DMA_DEV_TO_MEM =>
      _ ← dev_update dmac (set_init_addr (next_dest_addr d));
      _ ← axi_dmac_write dmac AXI_DMAC_REG_DEST_ADDRESS (next_dest_addr d);
      axi_dmac_write dmac AXI_DMAC_REG_DEST_STRIDE 0
  | DMA_MEM_TO_DEV =>
      _ ← dev_update dmac (set_init_addr (next_src_addr d));
      _ ← axi_dmac_write dmac AXI_DMAC_REG_SRC_ADDRESS (next_src_addr d);
      axi_dmac_write dmac AXI_DMAC_REG_SRC_STRIDE 0
  | DMA_MEM_TO_MEM =>
      _ ← dev_update dmac (set_init_addr (next_src_addr d));
      _ ← axi_dmac_write dmac AXI_DMAC_REG_DEST_ADDRESS (next_dest_addr d);
      _ ← axi_dmac_write dmac AXI_DMAC_REG_DEST_STRIDE 0;
      _ ← axi_dmac_write dmac AXI_DMAC_REG_SRC_ADDRESS (next_src_addr d);
      axi_dmac_write dmac AXI_DMAC_REG_SRC_STRIDE 0
  | INVALID_DIR => mret tt
  end.

Definition submit_first (dmac : ptr) : cmd mem Z :=
  d ← dev_load dmac;
  if bool_decide (direction d = INVALID_DIR) then mret (-1) else
  _ ← first_addresses dmac d;
  let burst := burst_size d in
  let src := if bool_decide (direction d = DMA_DEV_TO_MEM) then next_src_addr d
             else u32 (next_src_addr d + u32 (burst + 1)) in
  let dest := if bool_decide (direction d = DMA_MEM_TO_DEV) then next_dest_addr d
              else u32 (next_dest_addr d + u32 (burst + 1)) in
  _ ← dev_update dmac (set_next (u32 (remaining_size d - u32 (burst + 1))) src dest);
  _ ← axi_dmac_write dmac AXI_DMAC_REG_X_LENGTH burst;
  _ ← axi_dmac_write dmac AXI_DMAC_REG_Y_LENGTH 0;
  _ ← axi_dmac_write dmac AXI_DMAC_REG_TRANSFER_SUBMIT AXI_DMAC_TRANSFER_SUBMIT;
  mret 0.

(** The cyclic flag of the core. *)
Definition set_flags (dmac : ptr) : cmd mem unit :=
  reg_val ← axi_dmac_read dmac AXI_DMAC_REG_FLAGS;
  _ ← axi_dmac_write dmac AXI_DMAC_REG_FLAGS (Z.land reg_val (u32 (Z.lnot DMA_CYCLIC)));
  d ← dev_load dmac;
  if bool_decide (direction d = DMA_MEM_TO_DEV) && bool_decide (tr_cyclic (transfer d) = CYCLIC) &&
     (u32 (remaining_size d - 1) <=? max_length d) && hw_cyclic d then
    reg_val ← axi_dmac_read dmac AXI_DMAC_REG_FLAGS;
    axi_dmac_write dmac AXI_DMAC_REG_FLAGS (Z.lor reg_val DMA_CYCLIC)
  else mret tt.

Definition enable_core (dmac : ptr) : cmd mem unit :=
  reg_val ← axi_dmac_read dmac AXI_DMAC_REG_CTRL;
  if truthy (Z.land reg_val AXI_DMAC_CTRL_ENABLE) then mret tt else
  _ ← axi_dmac_write dmac AXI_DMAC_REG_CTRL 0;
  _ ← axi_dmac_write dmac AXI_DMAC_REG_CTRL AXI_DMAC_CTRL_ENABLE;
  axi_dmac_write dmac AXI_DMAC_REG_IRQ_MASK 0.

Definition axi_dmac_transfer_start (dmac : ptr) (t : axi_dma_transfer) : cmd mem Z :=
  if tr_size t =? 0 then mret 0 else
  _ ← dev_update dmac (take_transfer t);
  d ← dev_load dmac;
  if negb (hw_cyclic d) && bool_decide (tr_cyclic t = CYCLIC) then mret (-1) else
  if (bool_decide (direction d = DMA_DEV_TO_MEM) || bool_decide (direction d = DMA_MEM_TO_MEM)) &&
     bool_decide (tr_cyclic t = CYCLIC) then mret (-1) else
  _ ← set_flags dmac;
  _ ← enable_core dmac;
  reg_val ← axi_dmac_read dmac AXI_DMAC_REG_TRANSFER_SUBMIT;
  if truthy (Z.land reg_val AXI_DMAC_QUEUE_FULL) then mret (-1) else submit_first dmac.

(** A turn of the waits; [timeout] is the milliseconds that went by. *)
Definition wait_turn (timeout_ms : Z) (more : cmd mem bool) (timeout : Z) : cmd mem (Z + Z) :=
  again ← more;
  if (again : bool) then
    _ ← no_os_mdelay 1;
    let timeout := u32 (timeout + 1) in
    if timeout =? timeout_ms then mret (inr (-1)) else mret (inl timeout)
  else mret (inr 0).

Definition axi_dmac_transfer_wait_completion (fuel : nat) (dmac : ptr) (timeout_ms : Z) : cmd mem Z :=
  d ← dev_load dmac;
  match irq_option d with
  | IRQ_ENABLED =>
      loop fuel (wait_turn timeout_ms (d ← dev_load dmac; mret (negb (transfer_done (transfer d))))) 0
  | IRQ_DISABLED =>
      loop fuel (wait_turn timeout_ms
        (reg_val ← axi_dmac_read dmac AXI_DMAC_REG_IRQ_PENDING;
         mret (negb (reg_val =? Z.lor AXI_DMAC_IRQ_SOT AXI_DMAC_IRQ_EOT)))) 0
  end.

Definition axi_dmac_transfer_stop (dmac : ptr) : cmd mem unit :=
  axi_dmac_write dmac AXI_DMAC_REG_CTRL AXI_DMAC_CTRL_DISABLE.
End dmac.

(** ** What the core is relied on for *)

(** The address registers that it has, whether it repeats a burst by itself, and
    the longest burst, minus one. *)
Record dmac_caps : Type := Caps { cap_dest : bool; cap_src : bool; cap_cyclic : bool; cap_bits : Z }.

Definition cap_len (c : dmac_caps) : Z := Z.ones (cap_bits c).

Record burst : Type := Burst { b_dest : Z; b_src : Z; b_len : Z }.

(** The registers that hold what was written to them, and the bursts that were
    submitted so far. *)
Record dmac_regs : Type := Regs { r_dest : Z; r_src : Z; r_len : Z; r_flags : Z; r_log : list burst }.

Definition regs_write (c : dmac_caps) (off v : Z) (r : dmac_regs) : dmac_regs :=
  if off =? AXI_DMAC_REG_DEST_ADDRESS then
    Regs (if cap_dest c then v else 0) (r_src r) (r_len r) (r_flags r) (r_log r)
  else if off =? AXI_DMAC_REG_SRC_ADDRESS then
    Regs (r_dest r) (if cap_src c then v else 0) (r_len r) (r_flags r) (r_log r)
  else if off =? AXI_DMAC_REG_X_LENGTH then
    Regs (r_dest r) (r_src r) (Z.land v (cap_len c)) (r_flags r) (r_log r)
  else if off =? AXI_DMAC_REG_FLAGS then
    Regs (r_dest r) (r_src r) (r_len r) (if cap_cyclic c then v else Z.ldiff v DMA_CYCLIC) (r_log r)
  else if (off =? AXI_DMAC_REG_TRANSFER_SUBMIT) && Z.testbit v 0 then
    Regs (r_dest r) (r_src r) (r_len r) (r_flags r) (r_log r ++ [Burst (r_dest r) (r_src r) (r_len r + 1)])
  else r.

(** Nothing but the driver writes these registers; what is pending may change at
    any time. *)
Class DmacLaws {W} (io : axi_io W) (base : Z) (c : dmac_caps) (regs : W -> dmac_regs) (pending : W -> Z) : Prop := {
  caps_law : 0 <= cap_bits c <= 32;
  read_law off w : exists v w', axi_get io base off w = Done (v, w') /\ regs w' = regs w /\
    (off = AXI_DMAC_REG_IRQ_PENDING -> v = pending w) /\ (off = AXI_DMAC_REG_FLAGS -> v = r_flags (regs w)) /\
    (off = AXI_DMAC_REG_DEST_ADDRESS -> v = r_dest (regs w)) /\
    (off = AXI_DMAC_REG_SRC_ADDRESS -> v = r_src (regs w)) /\ (off = AXI_DMAC_REG_X_LENGTH -> v = r_len (regs w));
  write_law off v w : exists w', axi_put io base off v w = Done (tt, w') /\
    regs w' = regs_write c off v (regs w)
}.

(** ** The bursts of a transfer *)

Section plan.
  (** The size, and the length of a burst. *)
  Context (size len : Z) (Hsize : 0 < size) (Hlen : 0 < len).

Definition bursts_of : Z := (size + len - 1) / len.
Definition last_len : Z := size - (bursts_of - 1) * len.

(** The bytes before burst [i], and its length. *)
Definition offset_of (i : Z) : Z := Z.min (i * len) size.
Definition length_of (i : Z) : Z := Z.min len (size - i * len).

(** The bursts after which a cyclic transfer starts again: a last burst of one
    byte is left out. *)
Definition period (cyc : bool) : Z :=
  if cyc && (last_len =? 1) && (1 <? bursts_of) then bursts_of - 1 else bursts_of.

Lemma last_len_range : 1 <= last_len <= len.
Proof using Hlen.
  unfold last_len, bursts_of. pose proof (Z.div_mod (size + len - 1) len ltac:(lia)) as E.
  pose proof (Z.mod_pos_bound (size + len - 1) len Hlen). nia.
Qed.

Lemma bursts_pos : 1 <= bursts_of.
Proof using Hsize Hlen. unfold bursts_of. apply Z.div_le_lower_bound; lia. Qed.

Lemma period_range cyc : 1 <= period cyc <= bursts_of.
Proof using Hsize Hlen.
  pose proof bursts_pos. unfold period. destruct (cyc && (last_len =? 1)); cbn [andb]; [| lia].
  destruct (Z.ltb_spec 1 bursts_of); lia.
Qed.

Lemma offset_last : offset_of bursts_of = size.
Proof using Hlen. pose proof last_len_range as H. unfold last_len in H. unfold offset_of. nia. Qed.

Lemma offset_before j : 0 <= j < bursts_of -> offset_of j = j * len /\ j * len < size.
Proof using Hlen.
  intros Hj. pose proof last_len_range as H. unfold last_len in H. unfold offset_of.
  assert (j * len <= (bursts_of - 1) * len) by nia. lia.
Qed.

(** Nothing is left exactly after the last burst. *)
Lemma left_zero j : 0 <= j <= bursts_of -> (size - offset_of j = 0 <-> j = bursts_of).
Proof using Hlen.
  intros Hj. split; [| intros ->; rewrite offset_last; lia].
  intros E. destruct (Z.eq_dec j bursts_of); [done |].
  pose proof (offset_before j ltac:(lia)). lia.
Qed.

(** A burst takes what fits. *)
Lemma length_of_spec j : 0 <= j < bursts_of ->
  length_of j = (if len - 1 <? size - offset_of j then len - 1 else size - offset_of j - 1) + 1 /\
  0 < length_of j <= len /\ offset_of (j + 1) = offset_of j + length_of j.
Proof using Hsize Hlen.
  intros Hj. destruct (offset_before j Hj) as [E1 E2]. unfold length_of, offset_of in *.
  destruct (Z.ltb_spec (len - 1) (size - Z.min (j * len) size)); nia.
Qed.

(** The first [k] bursts are the first bytes, in order. *)
Lemma plan_covers a k : (Z.of_nat k <= bursts_of) ->
  concat ((fun i => seqZ (a + offset_of i) (length_of i)) <$> seqZ 0 (Z.of_nat k)) = seqZ a (offset_of (Z.of_nat k)).
Proof using Hsize Hlen.
  induction k as [| k IH]; intros Hk; [unfold offset_of; by replace (Z.min _ size) with 0 by lia |].
  rewrite seqZ_S, fmap_app, concat_app, IH by lia. cbn [fmap list_fmap concat]. rewrite app_nil_r, Z.add_0_l.
  destruct (length_of_spec (Z.of_nat k) ltac:(lia)) as (_ & Hl & E).
  replace (Z.of_nat (S k)) with (Z.of_nat k + 1) by lia. rewrite E.
  symmetry. apply seqZ_app; [unfold offset_of; nia | lia].
Qed.

(** A cyclic transfer starts again when at most one byte is left. *)
Lemma period_spec j : 1 <= j <= period true ->
  (size - 1 <= offset_of j <-> j = period true).
Proof using Hsize Hlen.
  intros Hj. pose proof last_len_range as Hl. pose proof bursts_pos as Hb. pose proof (period_range true) as Hp.
  destruct (Z.eq_dec j bursts_of) as [-> | Hne].
  - rewrite offset_last. lia.
  - destruct (offset_before j ltac:(lia)) as [-> Hlt]. unfold period in *. cbn [andb] in *.
    unfold last_len in *. destruct (Z.eqb_spec (size - (bursts_of - 1) * len) 1) as [E | E]; cbn [andb] in *.
    + destruct (Z.ltb_spec 1 bursts_of); [| lia]. split; [| intros ->; lia]. intros H1.
      assert (j = bursts_of - 1 \/ j <= bursts_of - 2) as [? | Hj2] by lia; [done | nia].
    + split; [| intros ->; lia]. intros H1.
      assert (j = bursts_of - 1 \/ j <= bursts_of - 2) as [-> | Hj2] by lia; [lia | nia].
Qed.
End plan.

(** ** Runs *)

Section runs.
  Context {W : Type} (io : axi_io W) (base : Z) (caps : dmac_caps) (regs : W -> dmac_regs) (pending : W -> Z).
  Context {HD : DmacLaws io base caps regs pending} (h : heap axi_dmac) (p : positive).
  Abbreviation mem := (platform axi_dmac W).

(** The heap while the controller is [d]. *)
Definition hp (d : axi_dmac) : heap axi_dmac := Heap (<[p := d]> (cells h)) (next_block h) (oom h).

Lemma wp_load d w (Q : axi_dmac -> mem -> Prop) : Q d (hp d, w) -> wp (dev_load (Some p)) Q (hp d, w).
Proof using. intros H. eapply sat_done; [apply dev_load_done, lookup_insert_eq | done]. Qed.

Lemma wp_update f d w (Q : unit -> mem -> Prop) : Q tt (hp (f d), w) -> wp (dev_update (Some p) f) Q (hp d, w).
Proof using.
  intros H. eapply sat_done; [apply dev_update_done, lookup_insert_eq |].
  cbn [fst snd hp cells next_block oom]. by rewrite insert_insert_eq.
Qed.

Lemma wp_write off v d w (Q : unit -> mem -> Prop) :
  dm_base d = base -> (forall w', regs w' = regs_write caps off v (regs w) -> Q tt (hp d, w')) ->
  wp (axi_dmac_write io (Some p) off v) Q (hp d, w).
Proof using HD.
  intros Hb H. unfold axi_dmac_write. apply sat_bind, wp_load. rewrite Hb.
  destruct (write_law (io := io) (base := base) off v w) as (w' & E & Hw).
  eapply sat_done; [by apply on_core_run |]. by apply H.
Qed.

Lemma wp_read off d w (Q : Z -> mem -> Prop) :
  dm_base d = base ->
  (forall v w', regs w' = regs w -> (off = AXI_DMAC_REG_IRQ_PENDING -> v = pending w) ->
     (off = AXI_DMAC_REG_FLAGS -> v = r_flags (regs w)) -> (off = AXI_DMAC_REG_DEST_ADDRESS -> v = r_dest (regs w)) ->
     (off = AXI_DMAC_REG_SRC_ADDRESS -> v = r_src (regs w)) -> (off = AXI_DMAC_REG_X_LENGTH -> v = r_len (regs w)) ->
     Q v (hp d, w')) ->
  wp (axi_dmac_read io (Some p) off) Q (hp d, w).
Proof using HD.
  intros Hb H. unfold axi_dmac_read. apply sat_bind, wp_load. rewrite Hb.
  destruct (read_law (io := io) (base := base) off w) as (v & w' & E & Hw & H1 & H2 & H3 & H4 & H5).
  eapply sat_done; [by apply on_core_run |]. by apply H.
Qed.

(** The sources of an interrupt. *)
Lemma wp_irq d w (Q : Z -> mem -> Prop) :
  dm_base d = base -> (forall w', regs w' = regs w -> Q (pending w) (hp d, w')) ->
  wp (irq_sources io (Some p)) Q (hp d, w).
Proof using HD.
  intros Hb H. unfold irq_sources. apply sat_bind, wp_read; [done |]. intros v w1 E1 -> _ _ _ _; [| done].
  apply sat_bind, wp_write; [done |]. intros w2 E2. apply sat_ret, H. by rewrite E2, E1.
Qed.
End runs.

Section transfers.
  Context {W : Type} (io : axi_io W) (base : Z) (caps : dmac_caps) (regs : W -> dmac_regs) (pending : W -> Z).
  Context {HD : DmacLaws io base caps regs pending} (h : heap axi_dmac) (p : positive).
  (** The transfer, and the registers before it. *)
  Context (dir : dma_direction) (cyc : bool) (size dst src : Z) (r0 : dmac_regs).
  Abbreviation mem := (platform axi_dmac W).
  Abbreviation len := (cap_len caps + 1).
  Abbreviation nb := (bursts_of size len).
  Abbreviation per := (period size len cyc).
  Abbreviation offset := (offset_of size len).

(** Following a command on the controller. *)
Ltac dmac_step := first
  [ apply wp_load
  | apply wp_update
  | apply (wp_irq io base caps regs pending h p); [done |]; let w := fresh "w" in let E := fresh "E" in intros w E
  | apply (wp_write io base caps regs pending h p); [done |]; let w := fresh "w" in let E := fresh "E" in intros w E
  | apply sat_ret
  | apply sat_bind ].

(** What moves through memory. *)
Definition moves_dest : bool := bool_decide (dir <> DMA_MEM_TO_DEV).
Definition moves_src : bool := bool_decide (dir <> DMA_DEV_TO_MEM).

(** The core has the registers for it, and the transfer fits its memory. *)
Record transfer_fits : Prop := TransferFits {
  tf_dir : dir <> INVALID_DIR;
  tf_dest : moves_dest = cap_dest caps;
  tf_src : moves_src = cap_src caps;
  tf_size : 0 < size;
  tf_dst_fits : 0 <= dst /\ dst + size < 2 ^ 32;
  tf_src_fits : 0 <= src /\ src + size < 2 ^ 32;
  tf_past : dir = DMA_MEM_TO_MEM -> src + 2 * size < 2 ^ 32;
  tf_cyclic : cyc = true -> dir = DMA_MEM_TO_DEV
}.

(** Burst [i] of the transfer. *)
Definition burst_at (i : Z) : burst :=
  Burst (if moves_dest then dst + offset i else r_dest r0) (if moves_src then src + offset i else r_src r0)
    (length_of size len i).

(** What stays while the transfer runs. *)
Record running (dn : bool) (d : axi_dmac) : Prop := Running {
  ru_base : dm_base d = base;
  ru_dir : direction d = dir;
  ru_max : max_length d = cap_len caps;
  ru_size : tr_size (transfer d) = size;
  ru_cyclic : tr_cyclic (transfer d) = if cyc then CYCLIC else NO;
  ru_done : transfer_done (transfer d) = dn;
  ru_init : moves_src = true -> init_addr d = src
}.

Definition unmoved (w : W) : Prop :=
  (moves_dest = false -> r_dest (regs w) = r_dest r0) /\ (moves_src = false -> r_src (regs w) = r_src r0).

Definition logged (k : Z) (w : W) : Prop :=
  r_log (regs w) = r_log r0 ++ ((fun i => burst_at (i mod per)) <$> seqZ 0 k).

(** [k] bursts were submitted, up to place [j] of the period. *)
Record submitted (k j : Z) (dn : bool) (d : axi_dmac) (w : W) : Prop := Submitted {
  sb_running : running dn d;
  sb_place : 1 <= j <= per /\ j <= k /\ (k - j) mod per = 0 /\ (cyc = false -> k = j);
  sb_left : remaining_size d = size - offset j;
  sb_dest : moves_dest = true -> j < nb -> next_dest_addr d = dst + offset j;
  sb_src : moves_src = true -> j < nb \/ cyc = true -> next_src_addr d = src + offset j;
  sb_past : dir = DMA_MEM_TO_MEM -> j = nb -> dn = false -> (u32 (src + size) <? next_src_addr d) = (1 <? nb);
  sb_unmoved : unmoved w;
  sb_log : logged k w
}.

Context (Hfits : transfer_fits).

Lemma len_range : 1 <= len <= 2 ^ 32.
Proof using HD Hfits.
  pose proof (caps_law (io := io) (base := base) (c := caps)) as Hc. unfold cap_len. rewrite Z.ones_equiv.
  pose proof (Z.pow_le_mono_r 2 (cap_bits caps) 32 ltac:(lia) ltac:(lia)).
  pose proof (Z.pow_pos_nonneg 2 (cap_bits caps) ltac:(lia) ltac:(lia)). lia.
Qed.

(** The burst that is next at place [j]. *)
Lemma burst_facts d j :
  max_length d = cap_len caps -> remaining_size d = size - offset j -> 0 <= j < nb ->
  let b := length_of size len j in
  burst_size d = b - 1 /\ u32 (burst_size d + 1) = b /\ Z.land (burst_size d) (cap_len caps) + 1 = b /\
  0 < b /\ offset (j + 1) = offset j + b /\ 0 <= offset j /\ offset (j + 1) <= size /\
  u32 (remaining_size d - b) = size - offset (j + 1) /\ truthy (remaining_size d) = true.
Proof using HD Hfits.
  intros Hm Hr Hj b. pose proof len_range as Hl. pose proof (tf_size Hfits) as Hs.
  pose proof (tf_src_fits Hfits) as Hsz.
  destruct (length_of_spec size len Hs ltac:(lia) j Hj) as (Eb & Hb & Eo). fold b in Eb, Hb, Eo.
  assert (0 <= offset j) as H0 by (unfold offset_of; nia).
  assert (offset (j + 1) <= size) as H1 by (unfold offset_of; lia).
  assert (burst_size d = b - 1) as E.
  { unfold burst_size. rewrite Hm, Hr. replace (len - 1) with (cap_len caps) in Eb by lia.
    destruct (cap_len caps <? size - offset j); [lia |]. rewrite wrap_small by (unfold uint; lia). lia. }
  splits; try done.
  - rewrite E, wrap_small by (unfold uint; lia). lia.
  - rewrite E. unfold cap_len in *. rewrite Z.land_ones by apply (caps_law (io := io) (base := base) (c := caps)).
    rewrite Z.mod_small; [lia |]. rewrite Z.ones_equiv in Hb. lia.
  - lia.
  - rewrite Hr, wrap_small by (unfold uint; lia). lia.
  - rewrite Hr. apply truthy_true. lia.
Qed.

(** One more burst. *)
Lemma submitted_next k i dn d w w' b :
  running dn d -> 0 <= i < per -> 0 <= k -> i <= k -> (k - i) mod per = 0 -> (cyc = false -> k = i) ->
  logged k w -> r_log (regs w') = r_log (regs w) ++ [b] -> b = burst_at i ->
  remaining_size d = size - offset (i + 1) ->
  (moves_dest = true -> i + 1 < nb -> next_dest_addr d = dst + offset (i + 1)) ->
  (moves_src = true -> i + 1 < nb \/ cyc = true -> next_src_addr d = src + offset (i + 1)) ->
  (dir = DMA_MEM_TO_MEM -> i + 1 = nb -> dn = false -> (u32 (src + size) <? next_src_addr d) = (1 <? nb)) ->
  unmoved w' -> submitted (k + 1) (i + 1) dn d w'.
Proof using.
  intros Hr Hi Hk Hik Hmod Hcyc Hlog Elog -> Hleft Hd Hs Hp Hu. split; try done.
  - split; [lia |]. split; [lia |]. replace (k + 1 - (i + 1)) with (k - i) by lia. split; [done |].
    intros H. specialize (Hcyc H). lia.
  - unfold logged in *. rewrite Elog, Hlog, <- app_assoc. f_equal.
    replace (k + 1) with (Z.of_nat (S (Z.to_nat k))) by lia.
    rewrite seqZ_S, Z2Nat.id, fmap_app by done. f_equal. cbn [fmap list_fmap]. do 2 f_equal.
    pose proof (Z.div_mod (k - i) per ltac:(lia)) as E. rewrite Hmod in E.
    replace (0 + k) with (i + (k - i) / per * per) by lia. rewrite Z_mod_plus_full. symmetry. by apply Z.mod_small.
Qed.

(** *** Interrupts *)

Definition has_sot (pend : Z) : bool := truthy (Z.land pend AXI_DMAC_IRQ_SOT).
Definition has_eot (pend : Z) : bool := truthy (Z.land pend AXI_DMAC_IRQ_EOT).

(** The end of a transfer between memories is only seen after an interrupt
    submitted its last burst. *)
Definition can_finish : bool := negb cyc && (bool_decide (dir <> DMA_MEM_TO_MEM) || (1 <? nb)).

Definition next_count (pend k : Z) : Z := if has_sot pend && (cyc || (k <? nb)) then k + 1 else k.

Definition next_done (pend k : Z) (dn : bool) : bool := dn || (has_eot pend && (k =? nb) && can_finish).

Definition at_burst (k : Z) (dn : bool) (s : mem) : Prop :=
  exists j d w, s = (hp h p d, w) /\ submitted k j dn d w.

Lemma period_false : cyc = false -> per = nb.
Proof using. intros ->. done. Qed.

Lemma left_truthy k j dn d w : submitted k j dn d w -> truthy (remaining_size d) = negb (j =? nb).
Proof using HD Hfits.
  intros H. pose proof (sb_place _ _ _ _ _ H) as (Hj & _). pose proof (sb_left _ _ _ _ _ H) as E.
  pose proof (period_range size len (tf_size Hfits) ltac:(pose proof len_range; lia) cyc) as Hp.
  pose proof (left_zero size len ltac:(pose proof len_range; lia) j ltac:(lia)) as Hz.
  unfold truthy. rewrite E. destruct (Z.eqb_spec (size - offset j) 0), (Z.eqb_spec j nb); naive_solver.
Qed.

Lemma submitted_world k j dn d w w' : submitted k j dn d w -> regs w' = regs w -> submitted k j dn d w'.
Proof using. intros [] E. split; unfold unmoved, logged in *; rewrite ?E; done. Qed.

(** The flag at the end. *)
Lemma submitted_done k dn d w a b :
  submitted k k dn d w -> cyc = false -> k = nb -> submitted k k true (set_done (set_next (remaining_size d) a b d)) w.
Proof using.
  intros [[] Hpl Hl Hd Hs Hp Hu Hg] Hc Hk. split; try done; [intros; lia | intros _ [? | ?]; [lia | congruence]].
Qed.

(** The end of the handlers: [past] is their last condition. *)
Lemma finish_run k j dn d w pend a b (past : bool) :
  submitted k j dn d w -> cyc = false ->
  past = (bool_decide (dir <> DMA_MEM_TO_MEM) || (u32 (src + size) <? next_src_addr d)) ->
  wp (if has_eot pend && negb (truthy (remaining_size d)) && past
      then dev_update (Some p) (fun d => set_done (set_next (remaining_size d) (a d) (b d) d)) else mret tt)
    (fun _ => at_burst k (next_done pend k dn)) (hp h p d, w).
Proof using HD Hfits.
  intros H Hc ->. rewrite (left_truthy _ _ _ _ _ H). pose proof (sb_place _ _ _ _ _ H) as (Hj & _ & _ & Hk).
  specialize (Hk Hc). subst j. unfold next_done, can_finish. rewrite Hc, negb_involutive. cbn [negb andb].
  assert (at_burst k dn (hp h p d, w)) as Hkeep by (by exists k, d, w).
  destruct (has_eot pend); cbn [andb]; [| apply sat_ret; by rewrite orb_false_r].
  destruct (Z.eqb_spec k nb) as [E | E]; cbn [andb]; [| apply sat_ret; by rewrite orb_false_r].
  assert (at_burst k true (hp h p (set_done (set_next (remaining_size d) (a d) (b d) d)), w)) as Hend
    by (eexists k, _, w; split; [done |]; by eapply submitted_done).
  destruct dn; cbn [orb].
  - destruct (_ || _); [by apply wp_update | by apply sat_ret].
  - assert ((bool_decide (dir <> DMA_MEM_TO_MEM) || (u32 (src + size) <? next_src_addr d))%bool
      = (bool_decide (dir <> DMA_MEM_TO_MEM) || (1 <? nb))%bool) as ->.
    { case_bool_decide as Hd; [done |]. cbn. by apply (sb_past _ _ _ _ _ H). }
    destruct (_ || _); [by apply wp_update | by apply sat_ret].
Qed.

(** *** The three handlers *)

Lemma running_next dn a b c d : running dn d -> running dn (set_next a b c d).
Proof using. by intros []. Qed.

(** What the last three writes of a burst do, once its addresses are there. *)
Lemma regs_submit i w wa b w1 w2 w' :
  r_dest (regs wa) = b_dest (burst_at i) -> r_src (regs wa) = b_src (burst_at i) -> r_log (regs wa) = r_log (regs w) ->
  Z.land b (cap_len caps) + 1 = length_of size len i ->
  regs w1 = regs_write caps AXI_DMAC_REG_X_LENGTH b (regs wa) ->
  regs w2 = regs_write caps AXI_DMAC_REG_Y_LENGTH 0 (regs w1) ->
  regs w' = regs_write caps AXI_DMAC_REG_TRANSFER_SUBMIT AXI_DMAC_TRANSFER_SUBMIT (regs w2) ->
  r_log (regs w') = r_log (regs w) ++ [burst_at i] /\ unmoved w'.
Proof using.
  intros Hd Hs Hg Hb E1 E2 E3. unfold unmoved. rewrite E3, E2, E1. unfold regs_write. cbn -[Z.add Z.land cap_len].
  rewrite Hd, Hs, Hg, Hb. split; [done |]. cbn. split; by intros ->.
Qed.

Lemma regs_dest a w w1 w2 :
  moves_dest = true -> regs w1 = regs_write caps AXI_DMAC_REG_DEST_ADDRESS a (regs w) ->
  regs w2 = regs_write caps AXI_DMAC_REG_DEST_STRIDE 0 (regs w1) ->
  r_dest (regs w2) = a /\ r_src (regs w2) = r_src (regs w) /\ r_log (regs w2) = r_log (regs w).
Proof using Hfits. intros Hm E1 E2. rewrite E2, E1. unfold regs_write. cbn. by rewrite <- (tf_dest Hfits), Hm. Qed.

Lemma regs_src a w w1 w2 :
  moves_src = true -> regs w1 = regs_write caps AXI_DMAC_REG_SRC_ADDRESS a (regs w) ->
  regs w2 = regs_write caps AXI_DMAC_REG_SRC_STRIDE 0 (regs w1) ->
  r_src (regs w2) = a /\ r_dest (regs w2) = r_dest (regs w) /\ r_log (regs w2) = r_log (regs w).
Proof using Hfits. intros Hm E1 E2. rewrite E2, E1. unfold regs_write. cbn. by rewrite <- (tf_src Hfits), Hm. Qed.

Lemma dev_to_mem_run k dn s :
  dir = DMA_DEV_TO_MEM -> at_burst k dn s ->
  wp (axi_dmac_dev_to_mem_isr io (Some p))
    (fun _ => at_burst (next_count (pending s.2) k) (next_done (pending s.2) (next_count (pending s.2) k) dn)) s.
Proof using HD Hfits.
  intros Hdir (j & d & w & -> & H). cbn [snd].
  destruct cyc eqn:Hc; [by rewrite (tf_cyclic Hfits Hc) in Hdir |].
  pose proof (sb_running _ _ _ _ _ H) as Hr. pose proof (ru_base _ _ Hr) as Hb.
  unfold axi_dmac_dev_to_mem_isr. do 4 dmac_step. apply sat_bind.
  apply sat_mono with (P := fun _ => at_burst (next_count (pending w) k) dn).
  - rewrite (left_truthy _ _ _ _ _ H). pose proof H as [_ Hpl Hl Hd Hs Hp Hu Hg].
    destruct Hpl as (Hj & _ & Hmod & Hk). specialize (Hk Hc). subst j. rewrite (period_false Hc) in Hj.
    assert (at_burst k dn (hp h p d, w0)) as Hkeep by (exists k, d, w0; split; [done | by eapply submitted_world]).
    unfold next_count, has_sot. rewrite Hc. cbn [orb].
    destruct (truthy _); cbn [andb]; [| by apply sat_ret].
    destruct (Z.eqb_spec k nb), (Z.ltb_spec k nb); cbn [negb]; [lia | by apply sat_ret | | lia].
    assert (moves_dest = true /\ moves_src = false) as [Hmd Hms] by (unfold moves_dest, moves_src; by rewrite Hdir).
    destruct (burst_facts d k (ru_max _ _ Hr) Hl ltac:(lia)) as (B1 & B2 & B3 & B4 & B5 & B6 & B7 & B8 & _).
    do 11 dmac_step. eexists (k + 1), _, _. split; [done |].
    destruct (regs_dest _ _ _ _ Hmd E0 E1) as (F1 & F2 & F3). rewrite E in F2, F3.
    destruct (regs_submit k w w2 (burst_size d) w3 w4 w5) as [G1 G2]; [| | exact F3 | exact B3 | done | done | done |].
    + rewrite F1, (Hd Hmd) by lia. cbn. by rewrite Hmd.
    + rewrite F2. cbn. rewrite Hms. by apply Hu.
    + eapply submitted_next with (w := w); try done; try lia; cbn [set_next remaining_size next_dest_addr next_src_addr].
      * by apply running_next.
      * rewrite (period_false Hc). lia.
      * rewrite B2. exact B8.
      * intros _ _. rewrite B2, (Hd Hmd), B5 by lia. pose proof (tf_dst_fits Hfits). rewrite wrap_small by (unfold uint; lia). lia.
      * congruence.
      * congruence.
  - intros [] s' (j' & d' & w' & -> & H'). do 2 dmac_step. rewrite <- (andb_true_r (_ && _)).
    eapply (finish_run _ _ _ _ _ _ next_src_addr (fun _ => 0)); [done | done |]. by rewrite Hdir.
Qed.

Lemma mem_to_mem_run k dn s :
  dir = DMA_MEM_TO_MEM -> at_burst k dn s ->
  wp (axi_dmac_mem_to_mem_isr io (Some p))
    (fun _ => at_burst (next_count (pending s.2) k) (next_done (pending s.2) (next_count (pending s.2) k) dn)) s.
Proof using HD Hfits.
  intros Hdir (j & d & w & -> & H). cbn [snd].
  destruct cyc eqn:Hc; [by rewrite (tf_cyclic Hfits Hc) in Hdir |].
  pose proof (sb_running _ _ _ _ _ H) as Hr. pose proof (ru_base _ _ Hr) as Hb.
  assert (moves_dest = true /\ moves_src = true) as [Hmd Hms] by (unfold moves_dest, moves_src; by rewrite Hdir).
  unfold axi_dmac_mem_to_mem_isr. do 4 dmac_step. apply sat_bind.
  apply sat_mono with (P := fun _ => at_burst (next_count (pending w) k) dn).
  - rewrite (left_truthy _ _ _ _ _ H). pose proof H as [_ Hpl Hl Hd Hs Hp Hu Hg].
    destruct Hpl as (Hj & _ & Hmod & Hk). specialize (Hk Hc). subst j. rewrite (period_false Hc) in Hj.
    assert (at_burst k dn (hp h p d, w0)) as Hkeep by (exists k, d, w0; split; [done | by eapply submitted_world]).
    unfold next_count, has_sot. rewrite Hc. cbn [orb].
    destruct (truthy _); cbn [andb]; [| by apply sat_ret].
    destruct (Z.eqb_spec k nb), (Z.ltb_spec k nb); cbn [negb]; [lia | by apply sat_ret | | lia].
    destruct (burst_facts d k (ru_max _ _ Hr) Hl ltac:(lia)) as (B1 & B2 & B3 & B4 & B5 & B6 & B7 & B8 & _).
    pose proof (tf_dst_fits Hfits) as Hdf. pose proof (tf_src_fits Hfits) as Hsf. pose proof (tf_past Hfits Hdir) as Hpast.
    specialize (Hd Hmd ltac:(lia)). specialize (Hs Hms ltac:(by left)).
    assert (u32 (next_src_addr d + length_of size len k) = src + offset (k + 1)) as Es
      by (rewrite Hs, B5, wrap_small by (unfold uint; lia); lia).
    assert (u32 (next_dest_addr d + length_of size len k) = dst + offset (k + 1)) as Ed
      by (rewrite Hd, B5, wrap_small by (unfold uint; lia); lia).
    do 16 dmac_step. cbn [set_next remaining_size next_src_addr next_dest_addr]. rewrite B2, B8, Es, Ed.
    destruct (regs_src _ _ _ _ Hms E0 E1) as (F1 & F2 & F3). rewrite E in F2, F3.
    destruct (regs_dest _ _ _ _ Hmd E2 E3) as (F4 & F5 & F6). rewrite F1 in F5. rewrite F3 in F6.
    assert (forall d' w',
      dm_base d' = base -> running dn d' -> remaining_size d' = size - offset (k + 1) ->
      (k + 1 < nb -> next_src_addr d' = src + offset (k + 1)) -> next_dest_addr d' = dst + offset (k + 1) ->
      (k + 1 = nb -> src + size < next_src_addr d') ->
      regs w' = regs_write caps AXI_DMAC_REG_TRANSFER_SUBMIT AXI_DMAC_TRANSFER_SUBMIT (regs w6) ->
      at_burst (k + 1) dn (hp h p d', w')) as Hend.
    { intros d' w' _ Hr' Hl' Hs' Hd' Hp' E'. exists (k + 1), d', w'. split; [done |].
      destruct (regs_submit k w w4 (burst_size d) w5 w6 w') as [G1 G2]; [| | exact F6 | exact B3 | done | done | done |].
      - rewrite F4, Hd. cbn. by rewrite Hmd.
      - rewrite F5, Hs. cbn. by rewrite Hms.
      - eapply submitted_next with (w := w); try done; try lia.
        + rewrite (period_false Hc). lia.
        + intros _ [? | ?]; [by apply Hs' | congruence].
        + intros _ Hn _. rewrite wrap_small by (unfold uint; lia). specialize (Hp' Hn).
          destruct (Z.ltb_spec (src + size) (next_src_addr d')), (Z.ltb_spec 1 nb); lia. }
    pose proof (left_zero size len ltac:(pose proof len_range; lia) (k + 1) ltac:(lia)) as Hz.
    dmac_step. unfold truthy. destruct (Z.eqb_spec (size - offset (k + 1)) 0) as [E6 | E6]; cbn [negb].
    + do 2 dmac_step. apply Hend; try done; cbn [set_next remaining_size next_src_addr next_dest_addr]; [| lia |].
      * by do 2 apply running_next.
      * intros _. rewrite wrap_small by (unfold uint; lia). lia.
    + dmac_step. apply Hend; try done; [by apply running_next | tauto].
  - intros [] s' (j' & d' & w' & -> & H'). do 2 dmac_step.
    rewrite (ru_init _ _ (sb_running _ _ _ _ _ H') Hms), (ru_size _ _ (sb_running _ _ _ _ _ H')).
    eapply (finish_run _ _ _ _ _ _ (fun _ => 0) (fun _ => 0)); [done | done |]. by rewrite Hdir.
Qed.

(** The next burst from memory, at place [i]. *)
Lemma mem_to_dev_submit k i dn d w :
  dir = DMA_MEM_TO_DEV -> running dn d -> 0 <= i < per -> 0 <= k -> i <= k -> (k - i) mod per = 0 ->
  (cyc = false -> k = i) -> logged k w -> unmoved w -> remaining_size d = size - offset i ->
  next_src_addr d = src + offset i ->
  wp (if truthy (remaining_size d) then
        let burst := burst_size d in
        _ ← axi_dmac_write io (Some p) AXI_DMAC_REG_SRC_ADDRESS (next_src_addr d);
        _ ← axi_dmac_write io (Some p) AXI_DMAC_REG_SRC_STRIDE 0;
        _ ← axi_dmac_write io (Some p) AXI_DMAC_REG_X_LENGTH burst;
        _ ← axi_dmac_write io (Some p) AXI_DMAC_REG_Y_LENGTH 0;
        _ ← dev_update (Some p) (fun d => set_next (u32 (remaining_size d - u32 (burst + 1)))
              (u32 (next_src_addr d + u32 (burst + 1))) (next_dest_addr d) d);
        axi_dmac_write io (Some p) AXI_DMAC_REG_TRANSFER_SUBMIT AXI_DMAC_TRANSFER_SUBMIT
      else mret tt) (fun _ => at_burst (k + 1) dn) (hp h p d, w).
Proof using HD Hfits.
  intros Hdir Hr Hi Hk Hik Hmod Hc Hg Hu Hl Hs. pose proof (ru_base _ _ Hr) as Hb.
  assert (moves_dest = false /\ moves_src = true) as [Hmd Hms] by (unfold moves_dest, moves_src; by rewrite Hdir).
  pose proof (period_range size len (tf_size Hfits) ltac:(pose proof len_range; lia) cyc) as Hp.
  destruct (burst_facts d i (ru_max _ _ Hr) Hl ltac:(lia)) as (B1 & B2 & B3 & B4 & B5 & B6 & B7 & B8 & ->).
  pose proof (tf_src_fits Hfits) as Hsf. cbv zeta.
  do 11 dmac_step. exists (i + 1). eexists _, _. split; [done |].
  destruct (regs_src _ _ _ _ Hms E E0) as (F1 & F2 & F3).
  destruct (regs_submit i w w1 (burst_size d) w2 w3 w4) as [G1 G2]; [| | exact F3 | exact B3 | done | done | done |].
  - rewrite F2. cbn. rewrite Hmd. by apply Hu.
  - rewrite F1, Hs. cbn. by rewrite Hms.
  - eapply submitted_next with (w := w); try done; cbn [set_next remaining_size next_dest_addr next_src_addr].
    + by apply running_next.
    + rewrite B2. exact B8.
    + congruence.
    + intros _ _. rewrite B2, Hs, B5, wrap_small by (unfold uint; lia). lia.
    + congruence.
Qed.

Lemma mem_to_dev_run k dn s :
  dir = DMA_MEM_TO_DEV -> at_burst k dn s ->
  wp (axi_dmac_mem_to_dev_isr io (Some p))
    (fun _ => at_burst (next_count (pending s.2) k) (next_done (pending s.2) (next_count (pending s.2) k) dn)) s.
Proof using HD Hfits.
  intros Hdir (j & d & w & -> & H). cbn [snd].
  pose proof (sb_running _ _ _ _ _ H) as Hr. pose proof (ru_base _ _ Hr) as Hb.
  assert (moves_src = true) as Hms by (unfold moves_src; by rewrite Hdir).
  unfold axi_dmac_mem_to_dev_isr. do 4 dmac_step. apply sat_bind.
  apply sat_mono with (P := fun _ => at_burst (next_count (pending w) k) dn).
  - pose proof (submitted_world _ _ _ _ _ _ H E) as H0. pose proof H0 as [_ Hpl Hl Hd Hs Hp Hu Hg].
    assert (at_burst k dn (hp h p d, w0)) as Hkeep by (by exists j, d, w0).
    unfold next_count, has_sot. destruct (truthy _); cbn [andb]; [| by apply sat_ret].
    rewrite (ru_cyclic _ _ Hr), (ru_init _ _ Hr Hms), (ru_size _ _ Hr).
    apply sat_bind. destruct cyc eqn:Hc; cbn [orb].
    + pose proof (tf_src_fits Hfits) as Hsf. pose proof (period_range size len (tf_size Hfits)
        ltac:(pose proof len_range; lia) true) as Hpr. pose proof len_range as Hlr.
      specialize (Hs Hms (or_intror eq_refl)). destruct Hpl as (Hj & Hjk & Hmod & _).
      assert (per = period size len true) as Eper by (by rewrite Hc).
      pose proof (period_spec size len (tf_size Hfits) ltac:(lia) j Hj) as Hps.
      rewrite bool_decide_true by done. cbn [andb].
      assert (u32 (u32 (src + size) - 1) = src + size - 1) as ->.
      { pose proof (tf_size Hfits). rewrite (wrap_small 32 (src + size)) by (unfold uint; lia).
        rewrite wrap_small by (unfold uint; lia). lia. }
      destruct (Z.leb_spec (src + size - 1) (next_src_addr d)) as [Hle | Hgt].
      * apply wp_update, sat_bind, wp_load.
        assert (j = period size len true) as -> by (apply Hps; lia).
        apply (mem_to_dev_submit k 0); try done; try lia; rewrite ?Eper; try lia; cbn [set_next remaining_size next_src_addr].
        -- by apply running_next.
        -- replace (k - 0) with (k - period size len true + 1 * period size len true) by lia.
           by rewrite Z_mod_plus_full.
        -- congruence.
        -- rewrite (ru_size _ _ Hr). unfold offset_of. pose proof (tf_size Hfits). lia.
        -- rewrite (ru_init _ _ Hr Hms). unfold offset_of. pose proof (tf_size Hfits). lia.
      * apply sat_ret, sat_bind, wp_load. apply (mem_to_dev_submit k j); try done; try lia; rewrite ?Eper; [done | congruence].
    + rewrite bool_decide_false by done. cbn [andb]. apply sat_ret, sat_bind, wp_load.
      destruct Hpl as (Hj & _ & Hmod & Hk). specialize (Hk eq_refl). subst j.
      destruct (Z.ltb_spec k nb).
      * assert (per = period size len false) as Eper by (by rewrite Hc). change (period size len false) with nb in *.
        apply (mem_to_dev_submit k k); try done; try lia; rewrite ?Eper; try done; try lia.
        apply Hs; [done | by left].
      * rewrite (left_truthy _ _ _ _ _ H). destruct (Z.eqb_spec k nb); cbn [negb]; [by apply sat_ret | cbn in Hj; lia].
  - intros [] s' (j' & d' & w' & -> & H'). do 2 dmac_step.
    rewrite (ru_cyclic _ _ (sb_running _ _ _ _ _ H')). destruct cyc eqn:Hc.
    + rewrite bool_decide_false by (intros Hne; by apply Hne). rewrite andb_false_r. apply sat_ret. exists j', d', w'.
      split; [done |]. unfold next_done, can_finish. rewrite Hc. cbn [negb andb]. by rewrite andb_false_r, orb_false_r.
    + rewrite bool_decide_true by done.
      eapply (finish_run _ _ _ _ _ _ (fun _ => 0) next_dest_addr); [done | done |]. by rewrite Hdir.
Qed.

(** *** Starting *)

Ltac dmac_read := apply (wp_read io base caps regs pending h p); [done |];
  let v := fresh "v" in let w := fresh "w" in let E := fresh "E" in intros v w E _ _ _ _ _.

(** Registers that the flags do not change. *)
Definition same_bursts (w : W) : Prop :=
  r_dest (regs w) = r_dest r0 /\ r_src (regs w) = r_src r0 /\ r_log (regs w) = r_log r0.

Lemma same_write off v w w' :
  regs w' = regs_write caps off v (regs w) -> off = AXI_DMAC_REG_FLAGS \/ off = AXI_DMAC_REG_CTRL \/ off = AXI_DMAC_REG_IRQ_MASK ->
  same_bursts w -> same_bursts w'.
Proof using. intros E Ho H. unfold same_bursts. rewrite E. by destruct Ho as [-> | [-> | ->]]. Qed.

Lemma same_read w w' : regs w' = regs w -> same_bursts w -> same_bursts w'.
Proof using. unfold same_bursts. by intros ->. Qed.

Lemma set_flags_run d w :
  dm_base d = base -> same_bursts w ->
  wp (set_flags io (Some p)) (fun _ s => exists w', s = (hp h p d, w') /\ same_bursts w') (hp h p d, w).
Proof using HD.
  intros Hb H. unfold set_flags. apply sat_bind. dmac_read. do 4 dmac_step.
  pose proof (same_write _ _ _ _ E0 ltac:(by left) (same_read _ _ E H)) as H1.
  destruct (_ && _); [| by apply sat_ret; exists w1].
  apply sat_bind. dmac_read. dmac_step. exists w3. split; [done |].
  eapply same_write; [done | by left | by eapply same_read].
Qed.

Lemma enable_core_run d w :
  dm_base d = base -> same_bursts w ->
  wp (enable_core io (Some p)) (fun _ s => exists w', s = (hp h p d, w') /\ same_bursts w') (hp h p d, w).
Proof using HD.
  intros Hb H. unfold enable_core. apply sat_bind. dmac_read. apply (same_read _ _ E) in H.
  destruct (truthy _); [by apply sat_ret; exists w0 |]. do 5 dmac_step. exists w3. split; [done |].
  eapply same_write; [done | by right; right |]. eapply same_write; [done | by right; left |].
  eapply same_write; [done | by right; left | done].
Qed.

(** The controller when the parameters were taken. *)
Record prepared (dn : bool) (d : axi_dmac) : Prop := Prepared {
  pr_base : dm_base d = base;
  pr_dir : direction d = dir;
  pr_max : max_length d = cap_len caps;
  pr_size : tr_size (transfer d) = size;
  pr_cyclic : tr_cyclic (transfer d) = if cyc then CYCLIC else NO;
  pr_done : transfer_done (transfer d) = dn;
  pr_left : remaining_size d = size;
  pr_src : next_src_addr d = src;
  pr_dest : next_dest_addr d = dst
}.

Lemma first_addresses_run dn d w :
  prepared dn d -> same_bursts w ->
  wp (first_addresses io (Some p) d) (fun _ s => exists a w', s = (hp h p (set_init_addr a d), w') /\
      running dn (set_init_addr a d) /\ r_dest (regs w') = b_dest (burst_at 0) /\ r_src (regs w') = b_src (burst_at 0) /\
      r_log (regs w') = r_log r0) (hp h p d, w).
Proof using HD Hfits.
  intros [] (H1 & H2 & H3). pose proof (tf_dir Hfits) as Hd. pose proof (tf_size Hfits) as Hsz. unfold first_addresses.
  rewrite pr_dir0, pr_dest0, pr_src0.
  assert (offset 0 = 0) as E0 by (unfold offset_of; lia). unfold burst_at. cbn [b_dest b_src]. rewrite E0, !Z.add_0_r.
  destruct dir eqn:Edir; [done | ..].
  - assert (moves_dest = true /\ moves_src = false) as [Hmd Hms] by (unfold moves_dest, moves_src; by rewrite Edir).
    do 5 dmac_step. destruct (regs_dest _ _ _ _ Hmd E E1) as (F1 & F2 & F3). rewrite Hmd, Hms.
    eexists _, _. split; [done |]. splits; try congruence. split; cbn; congruence.
  - assert (moves_dest = false /\ moves_src = true) as [Hmd Hms] by (unfold moves_dest, moves_src; by rewrite Edir).
    do 5 dmac_step. destruct (regs_src _ _ _ _ Hms E E1) as (F1 & F2 & F3). rewrite Hmd, Hms.
    eexists _, _. split; [done |]. splits; try congruence. split; cbn; congruence.
  - assert (moves_dest = true /\ moves_src = true) as [Hmd Hms] by (unfold moves_dest, moves_src; by rewrite Edir).
    do 9 dmac_step. destruct (regs_dest _ _ _ _ Hmd E E1) as (F1 & F2 & F3).
    destruct (regs_src _ _ _ _ Hms E2 E3) as (F4 & F5 & F6). rewrite Hmd, Hms.
    eexists _, _. split; [done |]. splits; try congruence. split; cbn; congruence.
Qed.

Lemma submit_first_run dn d w :
  prepared dn d -> same_bursts w ->
  wp (submit_first io (Some p)) (fun r s => r = 0 /\ at_burst 1 dn s) (hp h p d, w).
Proof using HD Hfits.
  intros Hp Hw. unfold submit_first. do 2 dmac_step. rewrite bool_decide_false by (rewrite (pr_dir _ _ Hp); apply Hfits).
  apply sat_bind. eapply sat_mono; [by eapply first_addresses_run |].
  intros [] s (a & w' & -> & Hr & H1 & H2 & H3). rewrite (pr_dir _ _ Hp), (pr_src _ _ Hp), (pr_dest _ _ Hp).
  pose proof (tf_size Hfits) as Hsz. pose proof (period_range size len Hsz ltac:(pose proof len_range; lia) cyc) as Hpr.
  assert (offset 0 = 0) as E0 by (unfold offset_of; lia).
  destruct (burst_facts d 0 (pr_max _ _ Hp) ltac:(rewrite (pr_left _ _ Hp); lia) ltac:(lia))
    as (B1 & B2 & B3 & B4 & B5 & B6 & B7 & B8 & _).
  rewrite B2, B8. pose proof (tf_src_fits Hfits) as Hsf. pose proof (tf_dst_fits Hfits) as Hdf.
  rewrite (wrap_small 32 (src + _)), (wrap_small 32 (dst + _)) by (unfold uint; lia).
  pose proof (pr_base _ _ Hp) as Hb. do 8 dmac_step. dmac_step. split; [done |]. exists 1. eexists _, _. split; [done |].
  assert (logged 0 w) as Hg0 by (unfold logged; destruct Hw as (_ & _ & ->); cbn; by rewrite app_nil_r).
  destruct (regs_submit 0 w w' (burst_size d) w0 w1 w2) as [G1 G2]; [done | done | | exact B3 | done | done | done |].
  { rewrite H3. symmetry. apply Hw. }
  eapply (submitted_next 0 0 dn _ w w2); try done; try lia;
    cbn [set_next set_init_addr remaining_size next_dest_addr next_src_addr].
  - by apply running_next.
  - intros Hm _. unfold moves_dest in Hm. case_bool_decide; [| done]. rewrite bool_decide_false by done. lia.
  - intros Hm _. unfold moves_src in Hm. case_bool_decide; [| done]. rewrite bool_decide_false by done. lia.
  - intros Hdir Hn _. rewrite Hdir, bool_decide_false by done. rewrite wrap_small by (unfold uint; lia).
    pose proof (offset_last size len ltac:(pose proof len_range; lia)) as El. rewrite <- Hn in El at 1.
    destruct (Z.ltb_spec (src + size) (src + length_of size len 0)), (Z.ltb_spec 1 nb); lia.
Qed.

Lemma dmac_start_run d w t :
  dm_base d = base -> direction d = dir -> max_length d = cap_len caps -> (cyc = true -> hw_cyclic d = true) ->
  tr_size t = size -> tr_cyclic t = (if cyc then CYCLIC else NO) -> src_addr t = src -> dest_addr t = dst ->
  r0 = regs w ->
  wp (axi_dmac_transfer_start io (Some p) t) (fun r s =>
    r = 0 /\ at_burst 1 (transfer_done (transfer d)) s \/ r = -1 /\ r_log (regs s.2) = r_log r0) (hp h p d, w).
Proof using HD Hfits.
  intros Hb Hdir Hm Hcy Ht1 Ht2 Ht3 Ht4 Hr0. unfold axi_dmac_transfer_start. pose proof (tf_size Hfits) as Hsz.
  rewrite Ht1. destruct (Z.eqb_spec size 0); [lia |]. do 4 dmac_step. cbn [hw_cyclic direction take_transfer set_next set_transfer].
  assert (prepared (transfer_done (transfer d)) (take_transfer t d)) as Hp by by split.
  assert (same_bursts w) as Hw by (unfold same_bursts; by rewrite Hr0).
  rewrite Ht2, Hdir.
  assert ((negb (hw_cyclic d) && bool_decide ((if cyc then CYCLIC else NO) = CYCLIC))%bool = false) as ->.
  { destruct cyc; [by rewrite Hcy | by rewrite andb_false_r]. }
  assert (((bool_decide (dir = DMA_DEV_TO_MEM) || bool_decide (dir = DMA_MEM_TO_MEM)) &&
    bool_decide ((if cyc then CYCLIC else NO) = CYCLIC))%bool = false) as ->.
  { destruct cyc eqn:Hc; [by rewrite (tf_cyclic Hfits Hc) | by rewrite andb_false_r]. }
  pose proof (pr_base _ _ Hp) as Hb'.
  apply sat_bind. eapply sat_mono; [by apply set_flags_run |]. intros [] s1 (w1 & -> & H1).
  apply sat_bind. eapply sat_mono; [by apply enable_core_run |]. intros [] s2 (w2 & -> & H2).
  apply sat_bind. dmac_read. apply (same_read _ _ E) in H2.
  destruct (truthy _); [apply sat_ret; right; split; [done | apply H2] |].
  eapply sat_mono; [by eapply submit_first_run |]. by left.
Qed.

(** *** Interrupts and the hardware in between *)

Definition isr_of : cmd mem unit :=
  match dir with
  | DMA_DEV_TO_MEM => axi_dmac_dev_to_mem_isr io (Some p)
  | DMA_MEM_TO_DEV => axi_dmac_mem_to_dev_isr io (Some p)
  | _ => axi_dmac_mem_to_mem_isr io (Some p)
  end.

(** Any number of interrupts, with what was pending in each; between them the
    core does what it does. *)
Inductive irq_run : list Z -> mem -> mem -> Prop :=
  | irq_none s : irq_run [] s s
  | irq_core ps h1 w w' s' : regs w' = regs w -> irq_run ps (h1, w') s' -> irq_run ps (h1, w) s'
  | irq_next ps s s1 s' : isr_of s = Done (tt, s1) -> irq_run ps s1 s' -> irq_run (pending s.2 :: ps) s s'.

Fixpoint count_after (ps : list Z) (k : Z) : Z :=
  match ps with [] => k | pend :: ps => count_after ps (next_count pend k) end.

Fixpoint done_after (ps : list Z) (k : Z) (dn : bool) : bool :=
  match ps with
  | [] => dn
  | pend :: ps => done_after ps (next_count pend k) (next_done pend (next_count pend k) dn)
  end.

Lemma isr_run k dn s :
  at_burst k dn s ->
  wp isr_of (fun _ => at_burst (next_count (pending s.2) k) (next_done (pending s.2) (next_count (pending s.2) k) dn)) s.
Proof using HD Hfits.
  intros H. unfold isr_of. pose proof (tf_dir Hfits). destruct dir eqn:E; [done | ..].
  - rewrite <- E in *. by apply dev_to_mem_run.
  - rewrite <- E in *. by apply mem_to_dev_run.
  - rewrite <- E in *. by apply mem_to_mem_run.
Qed.

Lemma irq_runs_at ps s s' : irq_run ps s s' -> forall k dn, at_burst k dn s ->
  at_burst (count_after ps k) (done_after ps k dn) s'.
Proof using HD Hfits.
  induction 1 as [s | ps h1 w w' s' E _ IH | ps s s1 s' E _ IH]; intros k dn H; [done | |].
  - apply IH. destruct H as (j & d & w0 & [= -> ->] & H). exists j, d, w'. split; [done |]. by eapply submitted_world.
  - cbn [count_after done_after]. apply IH. exact (sat_inv _ _ _ _ _ (isr_run k dn s H) E).
Qed.

(** C21: a transfer that is started is submitted to the core burst by burst: after
    any interrupts, with whatever pending and whatever the core did in between,
    the bursts that were submitted are the first [count_after] ones of the plan,
    one more for every interrupt that reports a start while there are bursts
    left, or, for a cyclic transfer, again from the first one on, without its
    last burst if that is a single byte; the handler returns every time.  The
    flag is set by the first interrupt that reports an end, of whichever burst,
    when all of them are submitted, and is never set by a cyclic transfer or by
    one between memories that is a single burst; where an earlier transfer had
    set it, it was set all the time. *)
Theorem axi_dmac_transfer_correct d w t :
  dm_base d = base -> direction d = dir -> max_length d = cap_len caps -> (cyc = true -> hw_cyclic d = true) ->
  tr_size t = size -> tr_cyclic t = (if cyc then CYCLIC else NO) -> src_addr t = src -> dest_addr t = dst ->
  r0 = regs w ->
  exists r s1, axi_dmac_transfer_start io (Some p) t (hp h p d, w) = Done (r, s1) /\
    (r = -1 /\ r_log (regs s1.2) = r_log r0 \/
     r = 0 /\ forall ps s', irq_run ps s1 s' ->
       exists d', cells s'.1 !! p = Some d' /\ transfer_done (transfer d') = done_after ps 1 (transfer_done (transfer d)) /\
         r_log (regs s'.2) = r_log r0 ++ ((fun i => burst_at (i mod per)) <$> seqZ 0 (count_after ps 1)) /\
         exists s2, isr_of s' = Done (tt, s2)).
Proof using HD Hfits.
  intros Hb Hdir Hm Hcy Ht1 Ht2 Ht3 Ht4 Hr0.
  pose proof (dmac_start_run d w t Hb Hdir Hm Hcy Ht1 Ht2 Ht3 Ht4 Hr0) as Hs. unfold triple in Hs.
  destruct (axi_dmac_transfer_start io (Some p) t (hp h p d, w)) as [[r s1] | |]; [| done..].
  exists r, s1. split; [done |]. destruct Hs as [[-> H1] | [-> H1]]; [right | by left].
  split; [done |]. intros ps s' Hrun. pose proof (irq_runs_at ps s1 s' Hrun 1 _ H1) as H.
  pose proof (isr_run _ _ _ H) as Hi. unfold triple in Hi. destruct H as (j & d' & w' & -> & H).
  exists d'. splits; [apply lookup_insert_eq | apply (sb_running _ _ _ _ _ H) | apply (sb_log _ _ _ _ _ H) |].
  destruct (isr_of (hp h p d', w')) as [[[] s2] | |]; [by eexists | done..].
Qed.

(** Nobody sees the end of a transfer between memories that is a single burst. *)
Lemma single_never_done ps : dir = DMA_MEM_TO_MEM -> nb = 1 -> forall k, done_after ps k false = false.
Proof using.
  intros Hdir Hnb. induction ps as [| pend ps IH]; intros k; [done |]. cbn [done_after].
  unfold next_done at 1, can_finish. rewrite Hnb, bool_decide_false by (by rewrite Hdir; intros Hne; apply Hne).
  cbn [orb]. by rewrite !andb_false_r.
Qed.
End transfers.

(** ** Waiting *)

Section waiting.
  Context {W : Type} (io : axi_io W) (no_os_mdelay : Z -> cmd (platform axi_dmac W) unit) (p : positive).
  Abbreviation mem := (platform axi_dmac W).

Definition done_at (s : mem) : bool :=
  match cells s.1 !! p with Some d => transfer_done (transfer d) | None => false end.

(** [n] milliseconds in which the flag is not set. *)
Inductive delays : nat -> mem -> mem -> Prop :=
  | delays_none s : is_Some (cells s.1 !! p) -> delays 0 s s
  | delays_more n s s1 s' : is_Some (cells s.1 !! p) -> done_at s = false -> no_os_mdelay 1 s = Done (tt, s1) ->
      delays n s1 s' -> delays (S n) s s'.

Lemma delays_live n s s' : delays n s s' -> is_Some (cells s'.1 !! p).
Proof. by induction 1. Qed.

Abbreviation wait := (axi_dmac_transfer_wait_completion io no_os_mdelay).
Abbreviation turns timeout_ms := (fun fuel => loop fuel (wait_turn no_os_mdelay timeout_ms
  (d ← dev_load (Some p); mret (negb (transfer_done (transfer d)))))).

Lemma wait_turns timeout_ms n s s' : delays n s s' -> forall fuel t,
  (n < fuel)%nat -> 0 <= t -> t + Z.of_nat n <= timeout_ms -> timeout_ms < 2 ^ 32 ->
  (done_at s' = true -> t + Z.of_nat n < timeout_ms -> turns timeout_ms fuel t s = Done (0, s')) /\
  (t + Z.of_nat n = timeout_ms -> (0 < n)%nat -> turns timeout_ms fuel t s = Done (-1, s')).
Proof.
  induction 1 as [s [d Hd] | n s s1 s' [d Hd] Hn Hdel Hrest IH]; intros fuel t Hf Ht Hle Hms;
    (destruct fuel as [| fuel]; [lia |]); cbn [loop].
  - split; [| lia]. intros Hdn _. unfold done_at in Hdn. rewrite Hd in Hdn.
    rewrite (bind_done _ _ s (inr 0) s); [done |]. unfold wait_turn. rewrite bind_assoc.
    rewrite (bind_done _ _ _ _ _ (dev_load_done s p d Hd)). rewrite (bind_done _ _ s false s); [done |]. by rewrite Hdn.
  - unfold done_at in Hn. rewrite Hd in Hn.
    assert (forall r s2, (if u32 (t + 1) =? timeout_ms then mret (inr (-1)) else mret (inl (u32 (t + 1))) : cmd mem (Z + Z)) s1
      = Done (r, s2) -> wait_turn no_os_mdelay timeout_ms (d ← dev_load (Some p); mret (negb (transfer_done (transfer d)))) t s
      = Done (r, s2)) as Hturn.
    { intros r s2 E. unfold wait_turn. rewrite bind_assoc, (bind_done _ _ _ _ _ (dev_load_done s p d Hd)).
      rewrite (bind_done _ _ s true s) by (by rewrite Hn). by rewrite (bind_done _ _ _ _ _ Hdel). }
    rewrite (wrap_small 32 (t + 1)) in Hturn by (unfold uint; lia).
    destruct (Z.eqb_spec (t + 1) timeout_ms) as [Eq | Ne].
    + split; [lia |]. intros Et _. assert (n = 0%nat) as -> by lia. inversion Hrest; subst.
      by rewrite (bind_done _ _ _ _ _ (Hturn _ _ eq_refl)).
    + rewrite (bind_done _ _ _ _ _ (Hturn _ _ eq_refl)).
      destruct (IH fuel (t + 1) ltac:(lia) ltac:(lia) ltac:(lia) Hms) as [IH1 IH2].
      split; intros; [apply IH1; [done | lia] | apply IH2; lia].
Qed.

(** The wait returns with the flag, at once when it is still set, or after
    [timeout_ms] milliseconds. *)
Lemma wait_run timeout_ms n fuel s s' d :
  cells s.1 !! p = Some d -> irq_option d = IRQ_ENABLED -> delays n s s' ->
  Z.of_nat n <= timeout_ms -> 0 < timeout_ms < 2 ^ 32 -> (n < fuel)%nat ->
  (done_at s' = true -> Z.of_nat n < timeout_ms -> wait fuel (Some p) timeout_ms s = Done (0, s')) /\
  (Z.of_nat n = timeout_ms -> wait fuel (Some p) timeout_ms s = Done (-1, s')).
Proof.
  intros Hd Hi Hn Hle Hms Hf. unfold axi_dmac_transfer_wait_completion.
  rewrite (bind_done _ _ _ _ _ (dev_load_done s p d Hd)), Hi.
  destruct (wait_turns timeout_ms n s s' Hn fuel 0 Hf ltac:(lia) ltac:(lia) ltac:(lia)) as [H1 H2].
  split; intros; [apply H1; [done | lia] | apply H2; lia].
Qed.
End waiting.

(** ** Detecting the core *)

Section detect.
  Context {W : Type} (io : axi_io W) (base : Z) (caps : dmac_caps) (regs : W -> dmac_regs) (pending : W -> Z).
  Context {HD : DmacLaws io base caps regs pending}.
  Abbreviation mem := (platform axi_dmac W).

(** What moves through memory. *)
Definition dir_of : dma_direction :=
  if cap_dest caps then (if cap_src caps then DMA_MEM_TO_MEM else DMA_DEV_TO_MEM)
  else (if cap_src caps then DMA_MEM_TO_DEV else INVALID_DIR).

Definition detected (init : axi_dmac_init_param) : axi_dmac :=
  AxiDmac (di_name init) (di_base init) (di_irq_option init) dir_of (cap_cyclic caps) (cap_len caps)
    (DmaTransfer 0 false NO 0 0) 0 0 0 0.

Lemma land_caps : Z.land 0xffffffff (cap_len caps) = cap_len caps.
Proof using HD.
  pose proof (caps_law (io := io) (base := base) (c := caps)) as Hc. unfold cap_len.
  change 0xffffffff with (Z.ones 32). rewrite Z.land_comm, Z.land_ones by lia. rewrite Z.ones_equiv, Z.mod_small; [done |].
  pose proof (Z.pow_le_mono_r 2 (cap_bits caps) 32 ltac:(lia) ltac:(lia)).
  pose proof (Z.pow_pos_nonneg 2 (cap_bits caps) ltac:(lia) ltac:(lia)). lia.
Qed.

Ltac dmac_upd := apply sat_bind, wp_update.

Ltac dmac_get := apply sat_bind, (wp_read io base caps regs pending); [done |];
  let v := fresh "v" in let w := fresh "w" in let E := fresh "E" in
  let Hf := fresh "Hf" in let Hd := fresh "Hd" in let Hs := fresh "Hs" in let Hx := fresh "Hx" in
  intros v w E _ Hf Hd Hs Hx.

Ltac dmac_put := apply sat_bind, (wp_write io base caps regs pending); [done |];
  let w := fresh "w" in let E := fresh "E" in intros w E.

Ltac dmac_regs := repeat match goal with
  | E : regs ?w = _ |- context [regs ?w] => rewrite E
  | E : regs ?w = _, H : context [regs ?w] |- _ => rewrite E in H
  end.

Lemma detect_run h p w d :
  dm_base d = base -> hw_cyclic d = false ->
  wp (axi_dmac_detect_caps io (Some p)) (fun r s => exists w', r_log (regs w') = r_log (regs w) /\
    s = (hp h p (set_caps dir_of (cap_cyclic caps) (cap_len caps) d), w') /\
    r = if bool_decide (dir_of = INVALID_DIR) then -1 else 0) (hp h p d, w).
Proof using HD.
  intros Hb Hcy. unfold axi_dmac_detect_caps. dmac_upd. dmac_get. dmac_put. dmac_get.
  assert (v0 = if cap_cyclic caps then DMA_CYCLIC else 0) as ->.
  { rewrite (Hf0 eq_refl), E0. cbn. by destruct (cap_cyclic caps). }
  assert (forall (Q : unit -> mem -> Prop) d', hw_cyclic d' = false ->
    Q tt (hp h p (set_caps (direction d') (cap_cyclic caps) (max_length d') d'), w2) ->
    wp (if (if cap_cyclic caps then DMA_CYCLIC else 0) =? DMA_CYCLIC
        then dev_update (Some p) (fun d => set_caps (direction d) true (max_length d) d) else mret tt) Q (hp h p d', w2)) as Hcyc.
  { intros Q d' Hd' HQ. destruct (cap_cyclic caps); [by apply wp_update |]. apply sat_ret.
    destruct d'. cbn in *. by subst. }
  apply sat_bind, Hcyc; [done |]. cbn [set_caps direction max_length].
  dmac_put. apply sat_bind, wp_load. dmac_put. dmac_get. dmac_upd. cbn [set_caps direction max_length hw_cyclic].
  assert (v0 = cap_len caps) as -> by (rewrite (Hx1 eq_refl), E3; exact land_caps).
  dmac_put. dmac_get. dmac_put. dmac_get.
  assert (v0 = if cap_dest caps then 0xffffffff else 0) as -> by (by rewrite (Hd2 eq_refl), E5).
  assert (v1 = if cap_src caps then 0xffffffff else 0) as -> by (by rewrite (Hs3 eq_refl), E7).
  assert (r_log (regs w9) = r_log (regs w)) as Hlog by (rewrite E8, E7, E6, E5, E4, E3, E2, E1, E0, E; done).
  unfold dir_of. destruct (cap_dest caps), (cap_src caps);
    [apply sat_bind, wp_update, sat_ret.. | apply sat_ret]; exists w9; splits; try done.
Qed.

(** A controller that is initialised is what the core can do: its direction
    is that of the address registers it has, bursts are as long as the length
    register allows, and nothing is submitted; without memory, or when nothing
    is mapped, the result is [-1] and no memory is kept. *)
Theorem axi_dmac_init_correct init (h : heap axi_dmac) w :
  heap_ok h -> di_base init = base ->
  exists r q s', axi_dmac_init io init (h, w) = Done ((r, q), s') /\ r_log (regs s'.2) = r_log (regs w) /\
    if alloc_fails h || bool_decide (dir_of = INVALID_DIR) then r = -1 /\ q = None /\ cells s'.1 = cells h
    else r = 0 /\ q = Some (next_block h) /\ cells s'.1 = <[next_block h := detected init]> (cells h).
Proof using HD.
  intros Hh Hb. pose proof (heap_ok_fresh _ Hh) as Hf. unfold axi_dmac_init. destruct (alloc_fails h) eqn:Ea; cbn [orb].
  { erewrite bind_done by (eapply zoom_done, halloc_fail, Ea). by eexists _, _, _. }
  erewrite bind_done by (eapply zoom_done, halloc_done, Ea). cbn [fst snd].
  set (q := next_block h).
  set (h1 := Heap (<[q := axi_dmac0]> (cells h)) (Pos.succ q) (tail (oom h))).
  erewrite bind_done by (apply (dev_update_done (h1, w) q axi_dmac0), lookup_insert_eq). cbn [fst snd h1 cells next_block oom].
  rewrite insert_insert_eq. set (d1 := AxiDmac _ _ _ _ _ _ _ _ _ _ _).
  pose proof (detect_run (Heap (cells h) (Pos.succ q) (tail (oom h))) q w d1 Hb eq_refl) as Hd. unfold triple in Hd.
  change (Heap (<[q := d1]> (cells h)) (Pos.succ q) (tail (oom h)))
    with (hp (Heap (cells h) (Pos.succ q) (tail (oom h))) q d1).
  destruct (axi_dmac_detect_caps io (Some q) _) as [[r s2] | |] eqn:E; [| done..].
  destruct Hd as (w' & Hl & -> & ->). rewrite (bind_done _ _ _ _ _ E). case_bool_decide as Hdir.
  - change (-1 <? 0) with true. cbv iota.
    erewrite bind_done by (eapply zoom_done, hfree_done; cbn; apply lookup_insert_eq).
    eexists _, _, _. split; [done |]. cbn [fst snd hp cells]. split; [done |]. splits; try done.
    by apply delete_insert_id.
  - change (0 <? 0) with false. eexists _, _, _. split; [done |]. split; [done |]. by splits.
Qed.
End detect.

(** ** An instance *)

(** A core that reports what is next in a list. *)
Definition xx_io (caps : dmac_caps) : axi_io (dmac_regs * list Z) :=
  AxiIo
    (fun _ off w => Done ((0,
       if off =? AXI_DMAC_REG_IRQ_PENDING then default 0 (head w.2) else
       if off =? AXI_DMAC_REG_FLAGS then r_flags w.1 else if off =? AXI_DMAC_REG_DEST_ADDRESS then r_dest w.1 else
       if off =? AXI_DMAC_REG_SRC_ADDRESS then r_src w.1 else if off =? AXI_DMAC_REG_X_LENGTH then r_len w.1 else 0), w))
    (fun _ off v w => Done (0, (regs_write caps off v w.1,
       if off =? AXI_DMAC_REG_IRQ_PENDING then tail w.2 else w.2))).

#[export] Instance xx_laws caps : 0 <= cap_bits caps <= 32 -> DmacLaws (xx_io caps) 0 caps fst (fun w => default 0 (head w.2)).
Proof.
  intros Hc. split; [done | |].
  - intros off w. eexists _, w. split; [done |]. splits; try done; by intros ->.
  - intros off v w. by eexists.
Qed.

(** Writes to memory, four bytes at a time. *)
Definition xx_caps : dmac_caps := Caps true false false 2.

Definition xx_dmac : axi_dmac :=
  AxiDmac [] 0 IRQ_ENABLED DMA_DEV_TO_MEM false 3 (DmaTransfer 0 false NO 0 0) 0 0 0 0.

Definition xx_regs : dmac_regs := Regs 0 0 0 0 [].

Lemma xx_fits : transfer_fits xx_caps DMA_DEV_TO_MEM false 10 0x1000 0.
Proof. by split. Qed.

(** Ten bytes from a device, in three bursts. *)
Lemma axi_dmac_transfer_correct_witness :
  exists r s1, axi_dmac_transfer_start (xx_io xx_caps) (Some 1%positive) (DmaTransfer 10 false NO 0 0x1000)
      (hp (Heap ∅ 2 []) 1 xx_dmac, (xx_regs, [1; 3; 2])) = Done (r, s1) /\
    (r = -1 /\ r_log s1.2.1 = r_log xx_regs \/
     r = 0 /\ forall ps s', irq_run (xx_io xx_caps) fst (fun w => default 0 (head w.2)) 1 DMA_DEV_TO_MEM ps s1 s' ->
       exists d', cells s'.1 !! 1%positive = Some d' /\
         transfer_done (transfer d') = done_after xx_caps DMA_DEV_TO_MEM false 10 ps 1 false /\
         r_log s'.2.1 = [] ++ ((fun i => burst_at xx_caps DMA_DEV_TO_MEM 10 0x1000 0 xx_regs (i mod period 10 4 false))
           <$> seqZ 0 (count_after xx_caps false 10 ps 1)) /\
         exists s2, isr_of (xx_io xx_caps) 1 DMA_DEV_TO_MEM s' = Done (tt, s2)).
Proof.
  exact (axi_dmac_transfer_correct (xx_io xx_caps) 0 xx_caps fst (fun w => default 0 (head w.2))
    (HD := xx_laws xx_caps ltac:(cbn; lia)) (Heap ∅ 2 []) 1 DMA_DEV_TO_MEM false 10 0x1000 0 xx_regs xx_fits xx_dmac
    (xx_regs, [1; 3; 2]) (DmaTransfer 10 false NO 0 0x1000) eq_refl eq_refl eq_refl ltac:(done) eq_refl eq_refl eq_refl
    eq_refl eq_refl).
Defined.

Lemma axi_dmac_init_correct_witness :
  exists r q s', axi_dmac_init (xx_io xx_caps) (DmacInit [] 0 IRQ_ENABLED) (Heap ∅ 1 [], (xx_regs, [])) = Done ((r, q), s') /\
    r_log s'.2.1 = [] /\
    if alloc_fails (Heap (∅ : gmap positive axi_dmac) 1 []) || bool_decide (dir_of xx_caps = INVALID_DIR)
    then r = -1 /\ q = None /\ cells s'.1 = ∅
    else r = 0 /\ q = Some 1%positive /\
         cells s'.1 = <[1%positive := detected xx_caps (DmacInit [] 0 IRQ_ENABLED)]> ∅.
Proof.
  apply (axi_dmac_init_correct (xx_io xx_caps) 0 xx_caps fst (fun w => default 0 (head w.2))
    (HD := xx_laws xx_caps ltac:(cbn; lia)) (DmacInit [] 0 IRQ_ENABLED) (Heap ∅ 1 []) (xx_regs, [])); [| done].
  intros q [v Hv]. done.
Defined.

(** Three bursts: with the second one the end of the first is reported, which
    sets the flag although two bursts are left. *)
Example dmac_early_done :
  count_after xx_caps false 10 [1; 3] 1 = 3 /\ done_after xx_caps DMA_DEV_TO_MEM false 10 [1; 3] 1 false = true.
Proof. done. Qed.

(** A cyclic transfer of five bytes, four at a time: the fifth is never sent. *)
Example dmac_cyclic_last_byte : period 5 4 true = 1 /\ length_of 5 4 0 = 4.
Proof. done. Qed.
