(* ===== verification/AxiClkgen.v ===== *)
(** * The clock generator of an FPGA: [drivers/axi_core/clk_axi_clkgen/clk_axi_clkgen.c]

    A search for the dividers that come closest to a rate, the registers of the
    MMCM that they are written to, behind a port that may be busy, and the rate
    that is read back. *)
From S2P Require Import Prelude Util Bus Dispatch AxiIo.

(** ** Data *)

Record axi_clkgen : Type := AxiClkgen { ck_name : list Z; ck_base : Z; parent_rate : Z }.

(** The limits of the search, in kHz. *)
Record ranges : Type := Ranges { fpfd_min : Z; fpfd_max : Z; fvco_min : Z; fvco_max : Z }.

Definition AXI_REG_VERSION : Z := 0.
Definition AXI_REG_FPGA_INFO : Z := 0x1C.
Definition AXI_REG_FPGA_VOLTAGE : Z := 0x140.
Definition AXI_PCORE_VER_MAJOR (version : Z) : Z := Z.shiftr version 16.
Definition AXI_INFO_FPGA_TECH (info : Z) : Z := Z.shiftr info 24.
Definition AXI_INFO_FPGA_FAMILY (info : Z) : Z := Z.land (Z.shiftr info 16) 0xff.
Definition AXI_INFO_FPGA_SPEED_GRADE (info : Z) : Z := Z.land (Z.shiftr info 8) 0xff.
Definition AXI_INFO_FPGA_VOLTAGE (val : Z) : Z := Z.land val 0xffff.

Definition AXI_CLKGEN_REG_RESETN : Z := 0x40.
Definition AXI_CLKGEN_MMCM_RESETN : Z := 2.
Definition AXI_CLKGEN_RESETN : Z := 1.
Definition AXI_CLKGEN_REG_STATUS : Z := 0x5c.
Definition AXI_CLKGEN_STATUS : Z := 1.
Definition AXI_CLKGEN_REG_DRP_CNTRL : Z := 0x70.
Definition AXI_CLKGEN_DRP_CNTRL_SEL : Z := Z.shiftl 1 29.
Definition AXI_CLKGEN_DRP_CNTRL_READ : Z := Z.shiftl 1 28.
Definition AXI_CLKGEN_REG_DRP_STATUS : Z := 0x74.
Definition AXI_CLKGEN_DRP_STATUS_BUSY : Z := Z.shiftl 1 16.

Definition MMCM_REG_CLKOUT0_1 : Z := 0x08.
Definition MMCM_REG_CLKOUT0_2 : Z := 0x09.
Definition MMCM_REG_CLKOUT1_1 : Z := 0x0A.
Definition MMCM_REG_CLKOUT1_2 : Z := 0x0B.
Definition MMCM_REG_CLK_FB1 : Z := 0x14.
Definition MMCM_REG_CLK_FB2 : Z := 0x15.
Definition MMCM_REG_CLK_DIV : Z := 0x16.
Definition MMCM_REG_LOCK1 : Z := 0x18.
Definition MMCM_REG_LOCK2 : Z := 0x19.
Definition MMCM_REG_LOCK3 : Z := 0x1a.
Definition MMCM_REG_FILTER1 : Z := 0x4e.
Definition MMCM_REG_FILTER2 : Z := 0x4f.

Definition axi_clkgen_filter_table : list Z := [
  0x01001990; 0x01001190; 0x01009890; 0x01001890;
  0x01008890; 0x01009090; 0x01009090; 0x01009090;
  0x01009090; 0x01000890; 0x01000890; 0x01000890;
  0x08009090; 0x01001090; 0x01001090; 0x01001090;
  0x01001090; 0x01001090; 0x01001090; 0x01001090;
  0x01001090; 0x01001090; 0x01001090; 0x01008090;
  0x01008090; 0x01008090; 0x01008090; 0x01008090;
  0x01008090; 0x01008090; 0x01008090; 0x01008090;
  0x01008090; 0x01008090; 0x01008090; 0x01008090;
  0x01008090; 0x08001090; 0x08001090; 0x08001090;
  0x08001090; 0x08001090; 0x08001090; 0x08001090;
  0x08001090; 0x08001090; 0x08001090].

Definition axi_clkgen_lock_table : list Z := [
  0x060603e8; 0x060603e8; 0x080803e8; 0x0b0b03e8;
  0x0e0e03e8; 0x111103e8; 0x131303e8; 0x161603e8;
  0x191903e8; 0x1c1c03e8; 0x1f1f0384; 0x1f1f0339;
  0x1f1f02ee; 0x1f1f02bc; 0x1f1f028a; 0x1f1f0271;
  0x1f1f023f; 0x1f1f0226; 0x1f1f020d; 0x1f1f01f4;
  0x1f1f01db; 0x1f1f01c2; 0x1f1f01a9; 0x1f1f0190;
  0x1f1f0190; 0x1f1f0177; 0x1f1f015e; 0x1f1f015e;
  0x1f1f0145; 0x1f1f0145; 0x1f1f012c; 0x1f1f012c;
  0x1f1f012c; 0x1f1f0113; 0x1f1f0113; 0x1f1f0113].

(** ** The search *)

Definition axi_clkgen_lookup_filter (m : Z) : Z :=
  if m <? 47 then nth (Z.to_nat m) axi_clkgen_filter_table 0 else 0x08008090.

Definition axi_clkgen_lookup_lock (m : Z) : Z :=
  if m <? 36 then nth (Z.to_nat m) axi_clkgen_lock_table 0 else 0x1f1f00fa.

(** The best dividers so far. *)
Record best : Type := Best { best_f : Z; best_d : Z; best_m : Z; best_dout : Z }.

(** A turn of the inner loop; [inr] returns. *)
Definition try_d (fin fout m d : Z) (b : best) : outcome (best + best) :=
  match udiv (u32 (fin * m)) d with
  | Done fvco =>
      match NO_OS_DIV_ROUND_CLOSEST fvco fout with
      | Done q =>
          let dout := no_os_clamp q 1 128 in
          let f := fvco / dout in
          if Z.abs (f - fout) <? Z.abs (best_f b - fout) then
            let b := Best f d m dout in
            if best_f b =? fout then Done (inr b) else Done (inl b)
          else Done (inl b)
      | Undef => Undef
      | NoFuel => NoFuel
      end
  | Undef => Undef
  | NoFuel => NoFuel
  end.

(** A [for] loop whose body may return: [n] turns from [i] on. *)
Fixpoint for_best (body : Z -> best -> outcome (best + best)) (n : nat) (i : Z) (b : best) : outcome (best + best) :=
  match n with
  | O => Done (inl b)
  | S n => match body i b with Done (inl b) => for_best body n (i + 1) b | r => r end
  end.

(** From [lo] to [hi]. *)
Definition for_range (body : Z -> best -> outcome (best + best)) (lo hi : Z) (b : best) : outcome (best + best) :=
  for_best body (Z.to_nat (hi - lo + 1)) lo b.

Definition try_m (r : ranges) (d_min d_max fin fout m : Z) (b : best) : outcome (best + best) :=
  match NO_OS_DIV_ROUND_UP (u32 (fin * m)) (fvco_max r) with
  | Done q => for_range (try_d fin fout m) (no_os_max d_min q) (no_os_min d_max (u32 (fin * m) / fvco_min r)) b
  | Undef => Undef
  | NoFuel => NoFuel
  end.

Definition search (r : ranges) (fin fout : Z) : outcome best :=
  let none := Best 0x7fffffff 0 0 0 in
  match NO_OS_DIV_ROUND_UP fin (fpfd_max r), NO_OS_DIV_ROUND_UP (fvco_min r) fin with
  | Done dq, Done mq =>
      let d_min := no_os_max dq 1 in
      let d_max := no_os_min (fin / fpfd_min r) 80 in
      let m_min := no_os_max (u32 (mq * d_min)) 1 in
      let m_max := no_os_min (u32 (fvco_max r * d_max) / fin) 64 in
      match for_range (try_m r d_min d_max fin fout) m_min m_max none with
      | Done (inl b) | Done (inr b) => Done b
      | Undef => Undef
      | NoFuel => NoFuel
      end
  | _, _ => Undef
  end.

(** ** Operations *)

Record axi_clkgen_init_param : Type := ClkgenInit { ki_name : list Z; ki_base : Z; ki_parent_rate : Z }.

Definition AXI_FPGA_TECH_ULTRASCALE_PLUS : Z := 3.
Definition AXI_FPGA_FAMILY_ARTIX : Z := 1.
Definition AXI_FPGA_FAMILY_KINTEX : Z := 2.
Definition AXI_FPGA_SPEED_1 : Z := 10.
Definition AXI_FPGA_SPEED_1LV : Z := 14.
Definition AXI_FPGA_SPEED_2 : Z := 20.
Definition AXI_FPGA_SPEED_2LV : Z := 22.
Definition AXI_FPGA_SPEED_3 : Z := 30.

(** The limits by the kind of FPGA: of the speed grade first. *)
Definition speed_ranges (family speed_grade voltage : Z) (r : ranges) : ranges :=
  let set vco pfd := Ranges (fpfd_min r) pfd (fvco_min r) vco in
  if (AXI_FPGA_SPEED_1 <=? speed_grade) && (speed_grade <=? AXI_FPGA_SPEED_1LV) then set 1200000 450000
  else if (AXI_FPGA_SPEED_2 <=? speed_grade) && (speed_grade <=? AXI_FPGA_SPEED_2LV) then
    if ((family =? AXI_FPGA_FAMILY_KINTEX) || (family =? AXI_FPGA_FAMILY_ARTIX)) && (voltage <? 950) then set 1200000 450000
    else set 1440000 500000
  else if speed_grade =? AXI_FPGA_SPEED_3 then set 1600000 550000
  else r.

Definition tech_ranges (tech : Z) (r : ranges) : ranges :=
  if tech =? AXI_FPGA_TECH_ULTRASCALE_PLUS then Ranges (fpfd_min r) (fpfd_max r) 800000 1600000 else r.

(** The fields of a counter of the MMCM. *)
Record clk_params : Type := ClkParams { cp_low : Z; cp_high : Z; cp_edge : Z; cp_nocount : Z }.

Definition axi_clkgen_calc_clk_params (divider : Z) : clk_params :=
  let high := divider / 2 in
  ClkParams (u32 (divider - high)) high (divider mod 2) (if divider =? 1 then 1 else 0).

(** [(high << 6) | low] and [(edge << 7) | (nocount << 6)] *)
Definition counter_1 (c : clk_params) : Z := Z.lor (u32 (Z.shiftl (cp_high c) 6)) (cp_low c).
Definition counter_2 (c : clk_params) : Z := Z.lor (u32 (Z.shiftl (cp_edge c) 7)) (u32 (Z.shiftl (cp_nocount c) 6)).

(** Of the input divider. *)
Definition div_clk (c : clk_params) : Z :=
  Z.lor (Z.lor (Z.lor (u32 (Z.shiftl (cp_edge c) 13)) (u32 (Z.shiftl (cp_nocount c) 12))) (u32 (Z.shiftl (cp_high c) 6)))
    (cp_low c).

(** [(reg & 0x3f) + ((reg >> 6) & 0x3f)] *)
Definition count (reg : Z) : Z := Z.land reg 0x3f + Z.land (Z.shiftr reg 6) 0x3f.

Section clkgen.
  Context {W : Type} (io : axi_io W) (no_os_mdelay : Z -> cmd W unit).
  Abbreviation mem := (platform axi_clkgen W).

Definition axi_clkgen_write (clkgen : ptr) (reg_addr reg_val : Z) : cmd mem unit :=
  c ← dev_load clkgen; on_core (axi_put io (ck_base c) reg_addr reg_val).

Definition axi_clkgen_read (clkgen : ptr) (reg_addr : Z) : cmd mem Z :=
  c ← dev_load clkgen; on_core (axi_get io (ck_base c) reg_addr).

(** A turn of [do { ... } while ((status & BUSY) && --timeout)], with the status
    and the timeout at its end. *)
Definition busy_turn (clkgen : ptr) (timeout : Z) : cmd mem (Z + Z * Z) :=
  status ← axi_clkgen_read clkgen AXI_CLKGEN_REG_DRP_STATUS;
  if truthy (Z.land status AXI_CLKGEN_DRP_STATUS_BUSY) then
    let timeout := u32 (timeout - 1) in
    if truthy timeout then mret (inl timeout) else mret (inr (status, timeout))
  else mret (inr (status, timeout)).

(** [val] is what the caller's variable holds before, [None] when nothing. *)
Definition axi_clkgen_mmcm_read (fuel : nat) (clkgen : ptr) (reg : Z) (val : option Z) : cmd mem (option Z) :=
  '(_, timeout) ← loop fuel (busy_turn clkgen) 1000000;
  if timeout =? 0 then mret val else
  _ ← axi_clkgen_write clkgen AXI_CLKGEN_REG_DRP_CNTRL
        (Z.lor (Z.lor AXI_CLKGEN_DRP_CNTRL_SEL AXI_CLKGEN_DRP_CNTRL_READ) (u32 (Z.shiftl reg 16)));
  '(v, timeout) ← loop fuel (busy_turn clkgen) timeout;
  if timeout =? 0 then mret (Some v) else mret (Some (Z.land v 0xffff)).

Definition axi_clkgen_mmcm_write (fuel : nat) (clkgen : ptr) (reg val mask : Z) : cmd mem unit :=
  '(reg_val, timeout) ← loop fuel (busy_turn clkgen) 1000000;
  if timeout =? 0 then mret tt else
  reg_val ← (if mask =? 0xffff then mret 0 else
               v ← axi_clkgen_mmcm_read fuel clkgen reg (Some reg_val);
               v ← the v;
               mret (Z.land v (u32 (Z.lnot mask))));
  axi_clkgen_write clkgen AXI_CLKGEN_REG_DRP_CNTRL
    (Z.lor reg_val (Z.lor (Z.lor AXI_CLKGEN_DRP_CNTRL_SEL (u32 (Z.shiftl reg 16))) (Z.land val mask))).

Definition axi_clkgen_setup_ranges (clkgen : ptr) (r : ranges) : cmd mem ranges :=
  info ← axi_clkgen_read clkgen AXI_REG_FPGA_INFO;
  volt ← axi_clkgen_read clkgen AXI_REG_FPGA_VOLTAGE;
  mret (tech_ranges (AXI_INFO_FPGA_TECH info)
          (speed_ranges (AXI_INFO_FPGA_FAMILY info) (AXI_INFO_FPGA_SPEED_GRADE info) (AXI_INFO_FPGA_VOLTAGE volt) r)).

Definition axi_clkgen_calc_params (clkgen : ptr) (fin fout : Z) : cmd mem best :=
  let r := Ranges 10000 300000 600000 1200000 in
  pcore_version ← axi_clkgen_read clkgen AXI_REG_VERSION;
  r ← (if 0x04 <? AXI_PCORE_VER_MAJOR pcore_version then axi_clkgen_setup_ranges clkgen r else mret r);
  lift (search r (fin / 1000) (fout / 1000)).

Definition axi_clkgen_mmcm_enable (clkgen : ptr) (enable : bool) : cmd mem unit :=
  axi_clkgen_write clkgen AXI_CLKGEN_REG_RESETN
    (if enable then Z.lor AXI_CLKGEN_RESETN AXI_CLKGEN_MMCM_RESETN else AXI_CLKGEN_RESETN).

(** The two registers of an output, or of the feedback. *)
Definition write_counter (fuel : nat) (clkgen : ptr) (reg1 reg2 divider : Z) : cmd mem unit :=
  let c := axi_clkgen_calc_clk_params divider in
  _ ← axi_clkgen_mmcm_write fuel clkgen reg1 (counter_1 c) 0xefff;
  axi_clkgen_mmcm_write fuel clkgen reg2 (counter_2 c) 0x03ff.

(** The messages are left out. *)
Definition axi_clkgen_set_rate (fuel : nat) (clkgen : ptr) (rate : Z) : cmd mem Z :=
  c ← dev_load clkgen;
  if (parent_rate c =? 0) || (rate =? 0) then mret 0 else
  b ← axi_clkgen_calc_params clkgen (parent_rate c) rate;
  if (best_d b =? 0) || (best_dout b =? 0) || (best_m b =? 0) then mret 0 else
  let filter := axi_clkgen_lookup_filter (u32 (best_m b - 1)) in
  let lock := axi_clkgen_lookup_lock (u32 (best_m b - 1)) in
  _ ← axi_clkgen_mmcm_enable clkgen false;
  _ ← write_counter fuel clkgen MMCM_REG_CLKOUT0_1 MMCM_REG_CLKOUT0_2 (best_dout b);
  _ ← write_counter fuel clkgen MMCM_REG_CLKOUT1_1 MMCM_REG_CLKOUT1_2 (u32 (best_dout b * 4));
  _ ← axi_clkgen_mmcm_write fuel clkgen MMCM_REG_CLK_DIV (div_clk (axi_clkgen_calc_clk_params (best_d b))) 0x3fff;
  _ ← write_counter fuel clkgen MMCM_REG_CLK_FB1 MMCM_REG_CLK_FB2 (best_m b);
  _ ← axi_clkgen_mmcm_write fuel clkgen MMCM_REG_LOCK1 (Z.land lock 0x3ff) 0x3ff;
  _ ← axi_clkgen_mmcm_write fuel clkgen MMCM_REG_LOCK2
        (Z.lor (Z.shiftl (Z.land (Z.shiftr lock 16) 0x1f) 10) 0x1) 0x7fff;
  _ ← axi_clkgen_mmcm_write fuel clkgen MMCM_REG_LOCK3
        (Z.lor (Z.shiftl (Z.land (Z.shiftr lock 24) 0x1f) 10) 0x3e9) 0x7fff;
  _ ← axi_clkgen_mmcm_write fuel clkgen MMCM_REG_FILTER1 (Z.shiftr filter 16) 0x9900;
  _ ← axi_clkgen_mmcm_write fuel clkgen MMCM_REG_FILTER2 filter 0x9900;
  _ ← axi_clkgen_mmcm_enable clkgen true;
  _ ← on_core (no_os_mdelay 10);
  reg_val ← axi_clkgen_read clkgen AXI_CLKGEN_REG_STATUS;
  mret (if Z.land reg_val AXI_CLKGEN_STATUS =? 0 then -1 else 0).

(** The clamp of the result is overwritten. *)
Definition axi_clkgen_get_rate (fuel : nat) (clkgen : ptr) : cmd mem (Z * Z) :=
  v ← axi_clkgen_mmcm_read fuel clkgen MMCM_REG_CLKOUT0_1 None;
  reg ← the v;
  let dout := count reg in
  v ← axi_clkgen_mmcm_read fuel clkgen MMCM_REG_CLK_DIV (Some reg);
  reg ← the v;
  let d := count reg in
  v ← axi_clkgen_mmcm_read fuel clkgen MMCM_REG_CLK_FB1 (Some reg);
  reg ← the v;
  let m := count reg in
  if (d =? 0) || (dout =? 0) then mret (0, 0) else
  c ← dev_load clkgen;
  mret (0, u32 (u64 (parent_rate c / d * m) / dout)).

Definition axi_clkgen_init (init : axi_clkgen_init_param) : cmd mem (Z * ptr) :=
  clkgen ← zoom fst (fun h s => (h, s.2)) (halloc (AxiClkgen (ki_name init) (ki_base init) (ki_parent_rate init)));
  match clkgen with None => mret (-1, None) | Some _ => mret (0, clkgen) end.

Definition axi_clkgen_remove (clkgen : ptr) : cmd mem Z :=
  _ ← zoom fst (fun h s => (h, s.2)) (hfree clkgen); mret 0.
End clkgen.

(** ** What the core is relied on for

    The registers of the MMCM, which can be written while it is held in reset;
    the data of the last one that was read; for how many readings of its status
    the port is still busy. *)
Record mmcm : Type := Mmcm {
  mm_regs : gmap Z Z;
  mm_data : option Z;
  mm_busy : nat;
  mm_enabled : bool;
  mm_locked : bool
}.

Definition mm_reg (m : mmcm) (reg : Z) : Z := Z.land (default 0 (mm_regs m !! reg)) 0xffff.

(** What kind of core it is. *)
Record clkgen_id : Type := ClkgenId { id_version : Z; id_info : Z; id_voltage : Z }.

Definition core_read (id : clkgen_id) (off v : Z) (m m' : mmcm) : Prop :=
  m' = Mmcm (mm_regs m) (mm_data m) (if off =? AXI_CLKGEN_REG_DRP_STATUS then Nat.pred (mm_busy m) else mm_busy m)
         (mm_enabled m) (mm_locked m) /\
  (off = AXI_REG_VERSION -> v = id_version id) /\
  (off = AXI_REG_FPGA_INFO -> v = id_info id) /\
  (off = AXI_REG_FPGA_VOLTAGE -> v = id_voltage id) /\
  (off = AXI_CLKGEN_REG_STATUS -> Z.testbit v 0 = mm_locked m) /\
  (off = AXI_CLKGEN_REG_DRP_STATUS -> Z.testbit v 16 = bool_decide (mm_busy m <> 0%nat) /\
     (mm_busy m = 0%nat -> forall x, mm_data m = Some x -> Z.land v 0xffff = x)).

Definition core_write (k : nat) (off v : Z) (m m' : mmcm) : Prop :=
  let reg := Z.land (Z.shiftr v 16) 0xfff in
  (mm_busy m' <= Nat.max k (mm_busy m))%nat /\
  mm_enabled m' = (if off =? AXI_CLKGEN_REG_RESETN then Z.testbit v 1 else mm_enabled m) /\
  if (off =? AXI_CLKGEN_REG_DRP_CNTRL) && Z.testbit v 29 then
    if Z.testbit v 28 then mm_regs m' = mm_regs m /\ (mm_busy m = 0%nat -> mm_data m' = Some (mm_reg m reg))
    else mm_busy m = 0%nat -> mm_enabled m = false -> mm_regs m' = <[reg := Z.land v 0xffff]> (mm_regs m)
  else mm_regs m' = mm_regs m.

(** The port is busy for at most [k] readings after an access. *)
Class ClkgenLaws {W} (io : axi_io W) (no_os_mdelay : Z -> cmd W unit) (base : Z) (id : clkgen_id) (k : nat)
    (mm : W -> mmcm) : Prop := {
  core_read_law off w : exists v w', axi_get io base off w = Done (v, w') /\ core_read id off v (mm w) (mm w');
  core_write_law off v w : exists w', axi_put io base off v w = Done (tt, w') /\
    core_write k off v (mm w) (mm w');
  mdelay_law n w : exists w', no_os_mdelay n w = Done (tt, w') /\ mm_regs (mm w') = mm_regs (mm w) /\
    mm_enabled (mm w') = mm_enabled (mm w) /\ (mm_busy (mm w') <= mm_busy (mm w))%nat
}.

(** ** What is searched, and what is found *)

Section optimum.
  Context (r : ranges) (fin fout : Z).

(** The dividers of the loops. *)
Definition div_up (x y : Z) : Z := (x + y - 1) / y.
Definition d_lo : Z := no_os_max (div_up fin (fpfd_max r)) 1.
Definition d_hi : Z := no_os_min (fin / fpfd_min r) 80.

Definition searched (m d : Z) : Prop :=
  Z.max (div_up (fvco_min r) fin * d_lo) 1 <= m <= Z.min (fvco_max r * d_hi / fin) 64 /\
  Z.max d_lo (div_up (fin * m) (fvco_max r)) <= d <= Z.min d_hi (fin * m / fvco_min r).

(** With the output divider that is nearest for them. *)
Definition cand (m d : Z) : best :=
  let fvco := fin * m / d in
  let dout := Z.max (Z.min ((fvco + fout / 2) / fout) 128) 1 in
  Best (fvco / dout) d m dout.

Definition cost (b : best) : Z := Z.abs (best_f b - fout).

Definition none : best := Best 0x7fffffff 0 0 0.

(** The best of the dividers that were seen. *)
Definition best_of (seen : Z -> Z -> Prop) (b : best) : Prop :=
  b = none /\ (forall m d, ~ seen m d) \/
  (exists m d, seen m d /\ b = cand m d) /\ forall m d, seen m d -> cost b <= cost (cand m d).

Record search_ok : Prop := SearchOk {
  so_fin : 0 < fin < 2 ^ 32 / 1000 + 1;
  so_fout : 0 < fout < 2 ^ 32 / 1000 + 1;
  so_pfd : 0 < fpfd_min r /\ 0 < fpfd_max r;
  so_vco : 0 < fvco_min r /\ fvco_min r <= 2000000 /\ 0 < fvco_max r <= 2000000
}.

Context (Hok : search_ok).

Lemma no_os_max_eq x y : no_os_max x y = Z.max x y.
Proof using. unfold no_os_max. destruct (Z.ltb_spec y x); lia. Qed.

Lemma no_os_min_eq x y : no_os_min x y = Z.min x y.
Proof using. unfold no_os_min. destruct (Z.ltb_spec x y); lia. Qed.

Lemma d_lo_pos : 1 <= d_lo.
Proof using. unfold d_lo. rewrite no_os_max_eq. lia. Qed.

(** No candidate is as far off as the initial value. *)
Lemma cand_cost m d : 0 <= m <= 64 -> 1 <= d -> fin * m / d <= 2 ^ 31 - 2 ^ 24 -> cost (cand m d) < cost none.
Proof using Hok.
  intros Hm Hd Hv. pose proof (so_fin Hok) as Hfin. pose proof (so_fout Hok) as Hfout. unfold cost, cand, none. cbn [best_f].
  set (dout := Z.max _ 1). assert (0 <= fin * m / d) as H0 by (apply Z.div_pos; nia).
  assert (0 <= fin * m / d / dout <= fin * m / d) as H1.
  { split; [apply Z.div_pos; lia |]. apply Z.div_le_upper_bound; [lia |]. nia. }
  change (2 ^ 32 / 1000 + 1) with 4294968 in *. change (2 ^ 31 - 2 ^ 24) with 2130706432 in *. lia.
Qed.

(** The loops. *)
Lemma for_best_run (P : Z -> best -> Prop) (R : best -> Prop) body n : forall i b,
  P i b ->
  (forall j b, i <= j < i + Z.of_nat n -> P j b ->
     (exists b', body j b = Done (inl b') /\ P (j + 1) b') \/ exists b', body j b = Done (inr b') /\ R b') ->
  (exists b', for_best body n i b = Done (inl b') /\ P (i + Z.of_nat n) b') \/
  exists b', for_best body n i b = Done (inr b') /\ R b'.
Proof using.
  induction n as [| n IH]; intros i b Hb Hbody; cbn [for_best].
  - left. exists b. by rewrite Z.add_0_r.
  - destruct (Hbody i b ltac:(lia) Hb) as [(b' & -> & H) | (b' & -> & H)]; [| right; by exists b'].
    replace (i + Z.of_nat (S n)) with (i + 1 + Z.of_nat n) by lia. apply IH; [done |].
    intros j b2 Hj. apply Hbody. lia.
Qed.

Lemma for_range_run (P : Z -> best -> Prop) (R : best -> Prop) body lo hi b :
  P lo b ->
  (forall j b, lo <= j <= hi -> P j b ->
     (exists b', body j b = Done (inl b') /\ P (j + 1) b') \/ exists b', body j b = Done (inr b') /\ R b') ->
  (exists b', for_range body lo hi b = Done (inl b') /\ P (Z.max lo (hi + 1)) b') \/
  exists b', for_range body lo hi b = Done (inr b') /\ R b'.
Proof using.
  intros Hb Hbody. unfold for_range.
  destruct (for_best_run P R body (Z.to_nat (hi - lo + 1)) lo b Hb) as [(b' & E & H) | H]; [| | by right].
  { intros j b2 Hj. apply Hbody. lia. }
  left. exists b'. split; [done |]. by replace (Z.max lo (hi + 1)) with (lo + Z.of_nat (Z.to_nat (hi - lo + 1))) by lia.
Qed.

(** An exact rate ends the search. *)
Definition exact (b : best) : Prop := exists m d, searched m d /\ b = cand m d /\ best_f b = fout.

Lemma searched_bounds m d : searched m d -> 1 <= m <= 64 /\ 1 <= d <= 80 /\ fin * m / d <= fvco_max r /\ 0 <= fin * m < 2 ^ 32.
Proof using Hok.
  intros [Hm Hd]. pose proof (so_fin Hok) as Hfin. pose proof (so_vco Hok) as Hv. pose proof d_lo_pos.
  unfold d_hi in Hd. rewrite no_os_min_eq in Hd. change (2 ^ 32 / 1000 + 1) with 4294968 in Hfin.
  assert (fin * m <= 4294968 * 64) by nia.
  splits; [lia | lia | lia | lia | | nia | lia]. apply Z.div_le_upper_bound; [lia |].
  assert (div_up (fin * m) (fvco_max r) <= d) as Hq by lia. unfold div_up in Hq.
  pose proof (Z.div_mod (fin * m + fvco_max r - 1) (fvco_max r) ltac:(lia)) as E.
  pose proof (Z.mod_pos_bound (fin * m + fvco_max r - 1) (fvco_max r) ltac:(lia)). nia.
Qed.

Lemma try_d_run seen m d b :
  searched m d -> best_of seen b ->
  (exists b', try_d fin fout m d b = Done (inl b') /\ best_of (fun m' d' => seen m' d' \/ m' = m /\ d' = d) b') \/
  exists b', try_d fin fout m d b = Done (inr b') /\ exact b'.
Proof using Hok.
  intros Hs Hb. destruct (searched_bounds m d Hs) as (Hm & Hd & Hv & Hw). pose proof (so_fout Hok) as Hfout.
  pose proof (so_vco Hok) as Hvco.
  unfold try_d. rewrite (wrap_small 32) by (unfold uint; lia). rewrite udiv_done by lia.
  unfold NO_OS_DIV_ROUND_CLOSEST. rewrite udiv_done by lia. unfold no_os_clamp. rewrite no_os_max_eq, no_os_min_eq.
  cbv zeta. fold (cost b). set (c := cand m d).
  change (fin * m / d / Z.max (Z.min ((fin * m / d + fout / 2) / fout) 128) 1) with (best_f c).
  change (Best (best_f c) d m (Z.max (Z.min ((fin * m / d + fout / 2) / fout) 128) 1)) with c. fold (cost c).
  destruct (Z.ltb_spec (cost c) (cost b)) as [Hlt | Hge].
  - destruct (Z.eqb_spec (best_f c) fout) as [E | E]; [right; exists c; split; [done |]; by exists m, d |].
    left. exists c. split; [done |]. right. split; [exists m, d; by auto |].
    intros m' d' [H | [-> ->]]; [| done]. destruct Hb as [[_ Hb] | [_ Hb]]; [by destruct (Hb m' d') |].
    specialize (Hb m' d' H). lia.
  - left. exists b. split; [done |]. destruct Hb as [[-> Hb] | [(m0 & d0 & H0 & ->) Hb]].
    + pose proof (cand_cost m d ltac:(lia) ltac:(lia) ltac:(lia)) as Hc. fold c in Hc. lia.
    + right. split; [exists m0, d0; by auto |]. intros m' d' [H | [-> ->]]; [by apply Hb | done].
Qed.

Lemma best_of_ext seen seen' b : (forall m d, seen m d <-> seen' m d) -> best_of seen b -> best_of seen' b.
Proof using.
  intros E [[-> H] | [(m & d & Hs & ->) H]]; [left | right].
  - split; [done |]. intros m d Hs. apply (H m d). by apply E.
  - split; [exists m, d; by rewrite <- E |]. intros m' d' Hs'. apply H. by apply E.
Qed.

(** What was seen before the multiplier [m], and before the divider [d] of it. *)
Definition before (m d m' d' : Z) : Prop := searched m' d' /\ (m' < m \/ m' = m /\ d' < d).

Lemma try_m_run m b :
  Z.max (div_up (fvco_min r) fin * d_lo) 1 <= m <= Z.min (fvco_max r * d_hi / fin) 64 ->
  best_of (fun m' d' => searched m' d' /\ m' < m) b ->
  (exists b', try_m r d_lo d_hi fin fout m b = Done (inl b') /\ best_of (fun m' d' => searched m' d' /\ m' < m + 1) b') \/
  exists b', try_m r d_lo d_hi fin fout m b = Done (inr b') /\ exact b'.
Proof using Hok.
  intros Hm Hb. pose proof (so_fin Hok) as Hfin. pose proof (so_vco Hok) as Hv.
  change (2 ^ 32 / 1000 + 1) with 4294968 in Hfin. assert (0 <= fin * m <= 4294968 * 64) as Hfm by nia.
  unfold try_m. rewrite (wrap_small 32) by (unfold uint; lia). unfold NO_OS_DIV_ROUND_UP. rewrite udiv_done by lia.
  fold (div_up (fin * m) (fvco_max r)). rewrite no_os_max_eq, no_os_min_eq.
  set (lo := Z.max d_lo _). set (hi := Z.min d_hi _).
  destruct (for_range_run (fun d => best_of (before m d)) exact (try_d fin fout m) lo hi b) as [(b' & E & H) | H];
    [| | left | by right].
  - eapply best_of_ext; [| exact Hb]. intros m' d'. unfold before. split; [intros [? ?]; split; [done | by left] |].
    intros [Hs [? | [-> Hlt]]]; [done |]. destruct Hs as [_ Hs]. fold lo hi in Hs. lia.
  - intros d b0 Hd H. assert (searched m d) as Hs by (split; [done | fold lo hi; lia]).
    destruct (try_d_run _ m d b0 Hs H) as [(b' & E & H') | H']; [left | by right].
    exists b'. split; [done |]. eapply best_of_ext; [| exact H']. intros m' d'. unfold before. split.
    + intros [[? [? | [? ?]]] | [-> ->]]; (split; [done | lia]).
    + intros [Hs' [? | [-> ?]]]; [by left; split; [| left] |]. destruct (Z.eq_dec d' d) as [-> |]; [by right |].
      left. split; [done | right; lia].
  - exists b'. split; [done |]. eapply best_of_ext; [| exact H]. intros m' d'. unfold before. split.
    + intros [? [? | [-> ?]]]; (split; [done | lia]).
    + intros [Hs ?]. split; [done |]. destruct (Z.eq_dec m' m) as [-> |]; [| left; lia]. right. split; [done |].
      destruct Hs as [_ Hs]. fold lo hi in Hs. lia.
Qed.

Lemma d_hi_bound : uint 32 (fvco_max r * d_hi).
Proof using Hok.
  pose proof (so_fin Hok) as Hfin. pose proof (so_vco Hok) as Hv. pose proof (so_pfd Hok) as Hp.
  unfold d_hi. rewrite no_os_min_eq. pose proof (Z.div_pos fin (fpfd_min r) ltac:(lia) ltac:(lia)).
  unfold uint. assert (0 <= Z.min (fin / fpfd_min r) 80 <= 80) by lia. nia.
Qed.

Lemma div_up_bound x y : 0 < x -> 0 < y -> 0 < div_up x y /\ y * div_up x y <= x + y - 1.
Proof using.
  intros Hx Hy. unfold div_up. split; [apply Z.div_str_pos; lia | apply Z.mul_div_le; lia].
Qed.

Lemma m_lo_bound : uint 32 (div_up (fvco_min r) fin * d_lo).
Proof using Hok.
  pose proof (so_fin Hok) as Hfin. pose proof (so_vco Hok) as Hv. pose proof (so_pfd Hok) as Hp.
  change (2 ^ 32 / 1000 + 1) with 4294968 in Hfin.
  unfold d_lo. rewrite no_os_max_eq.
  destruct (div_up_bound (fvco_min r) fin) as [H1 H2]; [lia | lia |].
  destruct (div_up_bound fin (fpfd_max r)) as [H3 H4]; [lia | lia |].
  set (a := div_up (fvco_min r) fin) in *. set (b := div_up fin (fpfd_max r)) in *.
  rewrite Z.max_l by lia. assert (b <= fin) by nia. assert (a * b <= a * fin) by nia.
  split; [nia |]. change (2 ^ 32) with 4294967296. lia.
Qed.

(** The search ends, with the dividers whose rate is closest to the one that
    is asked for, of all those in the loops, or with none where the limits
    leave none; the multiplications do not overflow. *)
Lemma search_best :
  exists b, search r fin fout = Done b /\ best_of searched b.
Proof using Hok.
  pose proof (so_fin Hok) as Hfin. pose proof (so_vco Hok) as Hv. pose proof (so_pfd Hok) as Hp.
  change (2 ^ 32 / 1000 + 1) with 4294968 in Hfin.
  unfold search, NO_OS_DIV_ROUND_UP. rewrite !udiv_done by lia.
  fold (div_up fin (fpfd_max r)) (div_up (fvco_min r) fin). cbv zeta. fold d_lo d_hi none.
  rewrite !(wrap_small 32), no_os_max_eq, no_os_min_eq by (apply d_hi_bound || apply m_lo_bound).
  set (lo := Z.max _ 1). set (hi := Z.min _ 64).
  destruct (for_range_run (fun m => best_of (fun m' d' => searched m' d' /\ m' < m)) exact
              (try_m r d_lo d_hi fin fout) lo hi none) as [(b & -> & H) | (b & -> & m & d & H & -> & E)].
  - left. split; [done |]. intros m d [[Hm _] ?]. fold lo in Hm. lia.
  - intros m b Hm. by apply try_m_run.
  - exists b. split; [done |]. eapply best_of_ext; [| exact H]. intros m d. split; [by intros [? _] |].
    intros Hs. split; [done |]. destruct Hs as [Hm _]. fold lo hi in Hm. lia.
  - exists (cand m d). split; [done |]. right. split; [by exists m, d |]. intros m' d' _. unfold cost. rewrite E. lia.
Qed.

(** The limits: of the multiplier and the divider, of the rate at the phase
    detector, and of the VCO's. *)
Definition allowed (m d : Z) : Prop :=
  1 <= m <= 64 /\ 1 <= d <= 80 /\ fpfd_min r * d <= fin <= fpfd_max r * d /\
  fvco_min r * d <= fin * m <= fvco_max r * d.

(** The multiplier that the search starts with. *)
Definition m_start : Z := div_up (fvco_min r) fin * d_lo.

Lemma div_up_le x y n : 0 < y -> div_up x y <= n <-> x <= y * n.
Proof using.
  intros Hy. unfold div_up. split; intros H.
  - pose proof (Z.div_mod (x + y - 1) y ltac:(lia)). pose proof (Z.mod_pos_bound (x + y - 1) y ltac:(lia)). nia.
  - apply Z.lt_succ_r, Z.div_lt_upper_bound; lia.
Qed.

Lemma le_div x y n : 0 < y -> n <= x / y <-> y * n <= x.
Proof using.
  intros Hy. split; intros H; [| by apply Z.div_le_lower_bound].
  pose proof (Z.mul_div_le x y ltac:(lia)). nia.
Qed.

(** All of the allowed ones where the parent needs no divider for the phase
    detector, else those from that multiplier on. *)
Definition tried (m d : Z) : Prop := allowed m d /\ (fin <= fpfd_max r \/ m_start <= m).

(** They are what the loops go through. *)
Lemma searched_tried m d : searched m d <-> tried m d.
Proof using Hok.
  pose proof (so_fin Hok) as Hfin. pose proof (so_vco Hok) as Hv. pose proof (so_pfd Hok) as Hp.
  assert (fin <= fpfd_max r -> fvco_min r * d <= fin * m -> 1 <= d -> m_start <= m) as Hstart.
  { intros Hle Hm Hd. assert (d_lo = 1) as E.
    { unfold d_lo. rewrite no_os_max_eq. apply Z.max_r, div_up_le; lia. }
    unfold m_start. rewrite E, Z.mul_1_r. apply div_up_le; nia. }
  unfold searched, tried, allowed. fold m_start. rewrite !Z.max_lub_iff, !Z.min_glb_iff.
  assert (d_lo <= d <-> fin <= fpfd_max r * d /\ 1 <= d) as E1.
  { unfold d_lo. by rewrite no_os_max_eq, Z.max_lub_iff, div_up_le by lia. }
  assert (d <= d_hi <-> fpfd_min r * d <= fin /\ d <= 80) as E2.
  { unfold d_hi. by rewrite no_os_min_eq, Z.min_glb_iff, le_div by lia. }
  rewrite E1, E2, div_up_le, !le_div by lia. assert (d <= d_hi -> fvco_max r * d <= fvco_max r * d_hi) by nia. lia.
Qed.
End optimum.

(** ** The words of the port *)

Lemma truthy_land_bit x n : 0 <= n -> truthy (Z.land x (2 ^ n)) = Z.testbit x n.
Proof.
  intros Hn. destruct (Z.testbit x n) eqn:E.
  - apply truthy_true. intros H. apply (f_equal (fun y => Z.testbit y n)) in H.
    by rewrite Z.land_spec, E, Z.pow2_bits_true, Z.bits_0 in H.
  - apply truthy_false. zbits i. rewrite Z.bits_0, Z.pow2_bits_eqb by done.
    destruct (Z.eqb_spec n i) as [<- |]; [by rewrite E | apply andb_false_r].
Qed.

(** What a write leaves of the register: the bits of the mask change. *)
Definition merge (old val mask : Z) : Z := Z.lor (Z.land old (u32 (Z.lnot mask))) (Z.land val mask).

(** The word that is written to the port. *)
Section words.
  Context (rv reg x : Z) (Hrv : uint 16 rv) (Hreg : uint 12 reg) (Hx : uint 16 x).
  Abbreviation word := (Z.lor rv (Z.lor (Z.lor AXI_CLKGEN_DRP_CNTRL_SEL (u32 (Z.shiftl reg 16))) x)).

Lemma sel_bit i : 0 <= i -> Z.testbit AXI_CLKGEN_DRP_CNTRL_SEL i = (29 =? i).
Proof using. intros Hi. change AXI_CLKGEN_DRP_CNTRL_SEL with (2 ^ 29). by rewrite Z.pow2_bits_eqb. Qed.

Lemma word_sel : Z.testbit word 29 = true.
Proof using. rewrite !Z.lor_spec, sel_bit by lia. cbn [Z.eqb Pos.eqb orb]. apply orb_true_r. Qed.

Lemma word_read : Z.testbit word 28 = false.
Proof using Hrv Hreg Hx.
  rewrite !Z.lor_spec, sel_bit, testbit_wrap, Z.shiftl_spec by lia.
  by rewrite (uint_high 16 rv), (uint_high 16 x), (uint_high 12 reg) by (done || lia).
Qed.

Lemma word_reg : Z.land (Z.shiftr word 16) 0xfff = reg.
Proof using Hrv Hreg Hx.
  change 0xfff with (Z.ones 12). zbits i. rewrite Z.testbit_ones_nonneg, sel_bit by lia.
  rewrite (uint_high 16 rv), (uint_high 16 x) by (done || lia).
  destruct (Z.ltb_spec i 12); [| by rewrite andb_false_r, (uint_high 12 reg) by (done || lia)].
  replace (i + 16 - 16) with i by lia. destruct (Z.eqb_spec 29 (i + 16)), (Z.ltb_spec (i + 16) 32); try lia.
  by rewrite andb_true_r, orb_false_r.
Qed.

Lemma word_data : Z.land word 0xffff = Z.lor rv x.
Proof using Hrv Hreg Hx.
  change 0xffff with (Z.ones 16). zbits i. rewrite Z.testbit_ones_nonneg, sel_bit by lia.
  destruct (Z.ltb_spec i 16).
  - rewrite (Z.testbit_neg_r reg), andb_false_r, andb_true_r by lia. by destruct (Z.eqb_spec 29 i); [lia |].
  - rewrite andb_false_r. by rewrite (uint_high 16 rv), (uint_high 16 x) by (done || lia).
Qed.
End words.

Lemma uint_land_r w x y : 0 <= w -> uint w y -> uint w (Z.land x y).
Proof.
  intros Hw [? Hy]%uint_testbit; [| done]. apply uint_testbit; [done |]. split; [apply Z.land_nonneg; lia |].
  intros i Hi. by rewrite Z.land_spec, Hy, andb_false_r.
Qed.

Lemma mm_reg_uint m reg : uint 16 (mm_reg m reg).
Proof. by apply uint_land_r. Qed.

(** The word that asks for a register. *)
Lemma ask_word reg : uint 12 reg ->
  let w := Z.lor (Z.lor AXI_CLKGEN_DRP_CNTRL_SEL AXI_CLKGEN_DRP_CNTRL_READ) (u32 (Z.shiftl reg 16)) in
  Z.testbit w 29 = true /\ Z.testbit w 28 = true /\ Z.land (Z.shiftr w 16) 0xfff = reg.
Proof.
  intros Hreg w. unfold w. split; [by rewrite !Z.lor_spec |]. split; [by rewrite !Z.lor_spec |].
  change 0xfff with (Z.ones 12). zbits i. rewrite Z.testbit_ones_nonneg, sel_bit by lia.
  change AXI_CLKGEN_DRP_CNTRL_READ with (2 ^ 28). rewrite Z.pow2_bits_eqb by lia.
  destruct (Z.ltb_spec i 12); [| by rewrite andb_false_r, (uint_high 12 reg) by (done || lia)].
  replace (i + 16 - 16) with i by lia.
  destruct (Z.eqb_spec 29 (i + 16)), (Z.eqb_spec 28 (i + 16)), (Z.ltb_spec (i + 16) 32); try lia.
  by rewrite andb_true_r.
Qed.

(** *** Counters *)

(** What is read back of a register depends on its lower twelve bits. *)
Lemma count_low x : count x = count (Z.land x 0xfff).
Proof.
  unfold count. f_equal; [by rewrite <- Z.land_assoc |]. rewrite Z.shiftr_land, <- Z.land_assoc. done.
Qed.

Lemma merge_low old val mask : uint 16 old -> Z.land mask 0xfff = 0xfff -> Z.land (u32 (Z.lnot mask)) 0xfff = 0 ->
  Z.land (Z.land (merge old val mask) 0xffff) 0xfff = Z.land val 0xfff.
Proof.
  intros _ H1 H2. unfold merge. rewrite <- Z.land_assoc. change (Z.land 0xffff 0xfff) with 0xfff.
  by rewrite Z.land_lor_distr_l, <- !Z.land_assoc, H1, H2, Z.land_0_r, Z.lor_0_l.
Qed.

(** The fields of six bits hold dividers up to 126. *)
Lemma counter_back n : 1 <= n <= 126 ->
  count (counter_1 (axi_clkgen_calc_clk_params n)) = n /\ count (div_clk (axi_clkgen_calc_clk_params n)) = n.
Proof.
  intros Hn.
  assert (forallb (fun n => (count (counter_1 (axi_clkgen_calc_clk_params n)) =? n) &&
    (count (div_clk (axi_clkgen_calc_clk_params n)) =? n)) (seqZ 1 126) = true) as H by reflexivity.
  rewrite forallb_forall in H. specialize (H n). rewrite andb_true_iff, !Z.eqb_eq in H. apply H.
  apply list_elem_of_In, elem_of_seqZ. lia.
Qed.

(** The two dividers that no longer fit. *)
Example counter_overflow :
  map (fun n => count (Z.land (counter_1 (axi_clkgen_calc_clk_params n)) 0xefff)) [126; 127; 128] = [126; 63; 1].
Proof. reflexivity. Qed.

(** ** Runs *)

Section runs.
  Context {W : Type} (io : axi_io W) (no_os_mdelay : Z -> cmd W unit) (base : Z) (id : clkgen_id) (k : nat) (mm : W -> mmcm).
  Context {HC : ClkgenLaws io no_os_mdelay base id k mm}.
  Context (h : heap axi_clkgen) (p : positive) (c : axi_clkgen) (Hc : cells h !! p = Some c) (Hbase : ck_base c = base).
  Abbreviation mem := (platform axi_clkgen W).

Lemma wp_clkgen w (Q : axi_clkgen -> mem -> Prop) : Q c (h, w) -> wp (dev_load (Some p)) Q (h, w).
Proof using Hc. intros H. by eapply sat_done; [apply dev_load_done |]. Qed.

Lemma wp_get off w (Q : Z -> mem -> Prop) :
  (forall v w', core_read id off v (mm w) (mm w') -> Q v (h, w')) -> wp (axi_clkgen_read io (Some p) off) Q (h, w).
Proof using Hc Hbase HC.
  intros H. unfold axi_clkgen_read. apply sat_bind, wp_clkgen. rewrite Hbase.
  destruct (core_read_law off w) as (v & w' & E & Hr). eapply sat_done; [by apply on_core_run |]. by apply H.
Qed.

Lemma wp_put off v w (Q : unit -> mem -> Prop) :
  (forall w', core_write k off v (mm w) (mm w') -> Q tt (h, w')) -> wp (axi_clkgen_write io (Some p) off v) Q (h, w).
Proof using Hc Hbase HC.
  intros H. unfold axi_clkgen_write. apply sat_bind, wp_clkgen. rewrite Hbase.
  destruct (core_write_law off v w) as (w' & E & Hr). eapply sat_done; [by apply on_core_run |]. by apply H.
Qed.

(** The core when its port is free. *)
Definition idle (m : mmcm) : mmcm := Mmcm (mm_regs m) (mm_data m) 0 (mm_enabled m) (mm_locked m).

Lemma wp_busy fuel : forall t w (Q : Z * Z -> mem -> Prop),
  (mm_busy (mm w) < fuel)%nat -> Z.of_nat (mm_busy (mm w)) < t < 2 ^ 32 ->
  (forall v w', mm w' = idle (mm w) -> (forall x, mm_data (mm w) = Some x -> Z.land v 0xffff = x) ->
     Q (v, t - Z.of_nat (mm_busy (mm w))) (h, w')) ->
  wp (loop fuel (busy_turn io (Some p)) t) Q (h, w).
Proof using Hc Hbase HC.
  induction fuel as [| fuel IH]; intros t w Q Hf Ht HQ; [lia |]. cbn [loop]. apply sat_bind. unfold busy_turn.
  apply sat_bind, wp_get. intros v w1 (Hw1 & _ & _ & _ & _ & Hst). destruct (Hst eq_refl) as [Hbit Hdata]. clear Hst.
  change AXI_CLKGEN_DRP_STATUS_BUSY with (2 ^ 16). rewrite truthy_land_bit, Hbit by done.
  destruct (mm_busy (mm w)) as [| n] eqn:En.
  - rewrite bool_decide_false by lia. apply sat_ret, sat_ret. replace t with (t - Z.of_nat 0) by lia.
    apply HQ; [by rewrite Hw1 | by apply Hdata].
  - rewrite bool_decide_true by lia. rewrite (wrap_small 32) by (unfold uint; lia).
    assert (truthy (t - 1) = true) as -> by (apply truthy_true; lia).
    assert (mm_busy (mm w1) = n) as Hn by (by rewrite Hw1; cbn; rewrite ?En).
    apply sat_ret, IH; rewrite ?Hn; [lia | lia |]. intros v' w' Hw' Hd.
    replace (t - 1 - Z.of_nat n) with (t - Z.of_nat (S n)) by lia. rewrite Hw1 in Hw', Hd. by apply HQ.
Qed.

Context (fuel : nat) (Hfuel : (k < fuel)%nat) (Hk : 2 * Z.of_nat k < 1000000).

(** The port answers a request for a register. *)
Lemma wp_mmcm_read reg val w (Q : option Z -> mem -> Prop) :
  uint 12 reg -> (mm_busy (mm w) <= k)%nat ->
  (forall w', mm_regs (mm w') = mm_regs (mm w) -> mm_busy (mm w') = 0%nat -> mm_enabled (mm w') = mm_enabled (mm w) ->
     Q (Some (mm_reg (mm w) reg)) (h, w')) ->
  wp (axi_clkgen_mmcm_read io fuel (Some p) reg val) Q (h, w).
Proof using Hc Hbase HC Hfuel Hk.
  intros Hreg Hb HQ. unfold axi_clkgen_mmcm_read. apply sat_bind, wp_busy; [lia | lia |].
  intros v w1 Hw1 _. destruct (Z.eqb_spec (1000000 - Z.of_nat (mm_busy (mm w))) 0); [lia |].
  apply sat_bind, wp_put. intros w2 (Hb2 & He2 & Hr2). destruct (ask_word reg Hreg) as (E1 & E2 & E3).
  rewrite E1, E2, E3, Hw1 in Hr2. cbn in Hr2. destruct Hr2 as [Hr2 Hd2]. specialize (Hd2 eq_refl).
  rewrite Hw1 in Hb2, He2. cbn in Hb2, He2.
  apply sat_bind, wp_busy; [lia | lia |]. intros v' w3 Hw3 Hx. rewrite (Hx _ Hd2).
  destruct (Z.eqb_spec (1000000 - Z.of_nat (mm_busy (mm w)) - Z.of_nat (mm_busy (mm w2))) 0); [lia |].
  apply sat_ret. change (mm_reg (idle (mm w)) reg) with (mm_reg (mm w) reg). apply HQ; rewrite Hw3; cbn; done.
Qed.

(** And a write to a register, while the MMCM is in reset. *)
Lemma wp_mmcm_write reg val mask w (Q : unit -> mem -> Prop) :
  uint 12 reg -> uint 16 mask -> (mm_busy (mm w) <= k)%nat -> mm_enabled (mm w) = false ->
  (forall w', mm_regs (mm w') = <[reg := merge (mm_reg (mm w) reg) val mask]> (mm_regs (mm w)) ->
     (mm_busy (mm w') <= k)%nat -> mm_enabled (mm w') = false -> Q tt (h, w')) ->
  wp (axi_clkgen_mmcm_write io fuel (Some p) reg val mask) Q (h, w).
Proof using Hc Hbase HC Hfuel Hk.
  intros Hreg Hmask Hb Hen HQ. unfold axi_clkgen_mmcm_write. apply sat_bind, wp_busy; [lia | lia |].
  intros v w1 Hw1 _. destruct (Z.eqb_spec (1000000 - Z.of_nat (mm_busy (mm w))) 0); [lia |].
  pose proof (mm_reg_uint (mm w) reg) as Hold. set (old := mm_reg (mm w) reg) in *.
  set (rv := Z.land old (u32 (Z.lnot mask))).
  assert (uint 16 rv) as Hrv by (unfold rv; rewrite Z.land_comm; by apply uint_land_r).
  apply sat_bind.
  assert (forall (R : Z -> mem -> Prop),
    (forall w2, mm_regs (mm w2) = mm_regs (mm w) -> mm_busy (mm w2) = 0%nat -> mm_enabled (mm w2) = false -> R rv (h, w2)) ->
    wp (if mask =? 0xffff then mret 0 else
          v0 ← axi_clkgen_mmcm_read io fuel (Some p) reg (Some v); v0 ← the v0; mret (Z.land v0 (u32 (Z.lnot mask))))
      R (h, w1)) as Hstep.
  { intros R HR. destruct (Z.eqb_spec mask 0xffff) as [-> |].
    - apply sat_ret. assert (0 = rv) as ->; [| apply HR; by rewrite Hw1].
      symmetry. unfold rv. change (u32 (Z.lnot 0xffff)) with (Z.shiftl 0xffff 16). zbits i. rewrite Z.bits_0.
      destruct (Z.ltb_spec i 16); [by rewrite (Z.testbit_neg_r 0xffff), andb_false_r by lia |].
      by rewrite (uint_high 16 old) by (done || lia).
    - apply sat_bind, wp_mmcm_read; [done | rewrite Hw1; cbn; lia |]. intros w2 E1 E2 E3.
      apply sat_bind, sat_the; [done |]. intros a [= <-]. apply sat_ret.
      rewrite Hw1 in E1, E3 |- *. cbn in E1, E3. apply HR; congruence. }
  apply Hstep. intros w2 E1 E2 E3. apply wp_put. intros w3 (Hb3 & He3 & Hr3).
  assert (uint 16 (Z.land val mask)) as Hx by (by apply uint_land_r).
  rewrite word_sel, word_read, word_reg, word_data in Hr3 by done. cbn in Hr3. rewrite E2 in Hb3.
  apply HQ; [by rewrite Hr3, E1 | lia | by rewrite He3].
Qed.

(** *** The dividers that are chosen *)

(** The limits for the core. *)
Definition ranges_of : ranges :=
  let r := Ranges 10000 300000 600000 1200000 in
  if 0x04 <? AXI_PCORE_VER_MAJOR (id_version id) then
    tech_ranges (AXI_INFO_FPGA_TECH (id_info id))
      (speed_ranges (AXI_INFO_FPGA_FAMILY (id_info id)) (AXI_INFO_FPGA_SPEED_GRADE (id_info id))
         (AXI_INFO_FPGA_VOLTAGE (id_voltage id)) r)
  else r.

Lemma ranges_of_ok fin fout : 1000 <= fin < 2 ^ 32 -> 1000 <= fout < 2 ^ 32 -> search_ok ranges_of (fin / 1000) (fout / 1000).
Proof using.
  clear -id. assert (forall x, 1000 <= x < 2 ^ 32 -> 0 < x / 1000 < 2 ^ 32 / 1000 + 1) as Hx.
  { intros x Hx. split; [apply Z.div_str_pos; lia |]. apply Z.lt_succ_r, Z.div_le_mono; lia. }
  intros H1 H2. split; [by apply Hx | by apply Hx | |];
    unfold ranges_of, tech_ranges, speed_ranges; repeat case_match; cbn; lia.
Qed.

Definition at_rest (w w' : W) : Prop :=
  mm_regs (mm w') = mm_regs (mm w) /\ (mm_busy (mm w') <= mm_busy (mm w))%nat /\
  mm_enabled (mm w') = mm_enabled (mm w) /\ mm_locked (mm w') = mm_locked (mm w).

Lemma read_at_rest off v w w' : core_read id off v (mm w) (mm w') -> at_rest w w'.
Proof using.
  intros [E _]. unfold at_rest. rewrite E. splits; cbn; try done. clear. destruct (_ =? _); lia.
Qed.

Lemma at_rest_trans w1 w2 w3 : at_rest w1 w2 -> at_rest w2 w3 -> at_rest w1 w3.
Proof using. intros (E1 & E2 & E3 & E4) (F1 & F2 & F3 & F4). clear -E1 E2 E3 E4 F1 F2 F3 F4. unfold at_rest.
  splits; congruence || lia. Qed.

Lemma wp_calc_params fin fout w (Q : best -> mem -> Prop) :
  1000 <= fin < 2 ^ 32 -> 1000 <= fout < 2 ^ 32 ->
  (forall b w', at_rest w w' ->
     best_of (fin / 1000) (fout / 1000) (searched ranges_of (fin / 1000)) b -> Q b (h, w')) ->
  wp (axi_clkgen_calc_params io (Some p) fin fout) Q (h, w).
Proof using Hc Hbase HC.
  intros H1 H2 HQ. unfold axi_clkgen_calc_params. apply sat_bind, wp_get.
  intros v w1 Hr. pose proof (read_at_rest _ _ _ _ Hr) as Hw1. destruct Hr as (_ & Hv & _). specialize (Hv eq_refl). subst v.
  assert (forall w2, at_rest w w2 ->
    wp (lift (search ranges_of (fin / 1000) (fout / 1000)) : cmd mem best) Q (h, w2)) as Hend.
  { intros w2 Hw2. destruct (search_best ranges_of (fin / 1000) (fout / 1000)) as (b & E & Hb); [by apply ranges_of_ok |].
    rewrite E. eapply sat_done; [reflexivity |]. by apply HQ. }
  apply sat_bind. unfold ranges_of in Hend. destruct (0x04 <? _).
  - unfold axi_clkgen_setup_ranges. apply sat_bind, wp_get. intros v w2 Hr.
    pose proof (read_at_rest _ _ _ _ Hr) as Hw2. destruct Hr as (_ & _ & Hv & _). specialize (Hv eq_refl). subst v.
    apply sat_bind, wp_get. intros v w3 Hr.
    pose proof (read_at_rest _ _ _ _ Hr) as Hw3. destruct Hr as (_ & _ & _ & Hv & _). specialize (Hv eq_refl). subst v.
    apply sat_ret, Hend. eauto using at_rest_trans.
  - by apply sat_ret, Hend.
Qed.

(** *** Setting the rate, and reading it back *)

(** The rate that the registers stand for. *)
Definition rate_of (m : mmcm) : Z :=
  let n reg := count (mm_reg m reg) in
  if (n MMCM_REG_CLK_DIV =? 0) || (n MMCM_REG_CLKOUT0_1 =? 0) then 0
  else u32 (u64 (parent_rate c / n MMCM_REG_CLK_DIV * n MMCM_REG_CLK_FB1) / n MMCM_REG_CLKOUT0_1).

Lemma mm_reg_same m m' reg : mm_regs m' = mm_regs m -> mm_reg m' reg = mm_reg m reg.
Proof using. unfold mm_reg. by intros ->. Qed.

Lemma clkgen_get_run w :
  (mm_busy (mm w) <= k)%nat ->
  wp (axi_clkgen_get_rate io fuel (Some p)) (fun r s => r = (0, rate_of (mm w)) /\ s.1 = h /\
    mm_regs (mm s.2) = mm_regs (mm w)) (h, w).
Proof using Hc Hbase HC Hfuel Hk.
  intros Hb. unfold axi_clkgen_get_rate.
  apply sat_bind, wp_mmcm_read; [by split | done |]. intros w1 E1 B1 _. apply sat_bind, sat_the; [done |]. intros a [= <-].
  apply sat_bind, wp_mmcm_read; [by split | lia |]. intros w2 E2 B2 _. apply sat_bind, sat_the; [done |]. intros a [= <-].
  apply sat_bind, wp_mmcm_read; [by split | lia |]. intros w3 E3 B3 _. apply sat_bind, sat_the; [done |]. intros a [= <-].
  rewrite (mm_reg_same (mm w) (mm w1)) by done. rewrite (mm_reg_same (mm w) (mm w2)) by congruence.
  assert (mm_regs (mm w3) = mm_regs (mm w)) as E4 by congruence.
  unfold rate_of. cbv zeta. destruct (_ || _); [by apply sat_ret |]. by apply sat_bind, wp_clkgen, sat_ret.
Qed.

Lemma wp_write_counter reg1 reg2 n w (Q : unit -> mem -> Prop) :
  uint 12 reg1 -> uint 12 reg2 -> (mm_busy (mm w) <= k)%nat -> mm_enabled (mm w) = false ->
  (forall w' v, mm_regs (mm w') = <[reg2 := v]> (<[reg1 := merge (mm_reg (mm w) reg1)
       (counter_1 (axi_clkgen_calc_clk_params n)) 0xefff]> (mm_regs (mm w))) ->
     (mm_busy (mm w') <= k)%nat -> mm_enabled (mm w') = false -> Q tt (h, w')) ->
  wp (write_counter io fuel (Some p) reg1 reg2 n) Q (h, w).
Proof using Hc Hbase HC Hfuel Hk.
  intros H1 H2 Hb He HQ. unfold write_counter.
  apply sat_bind, wp_mmcm_write; [done | by split | done | done |]. intros w1 E1 B1 N1.
  apply wp_mmcm_write; [done | by split | done | done |]. intros w2 E2 B2 N2. rewrite E1 in E2. by eapply HQ.
Qed.

(** The dividers are in the registers, and the clock runs. *)
Definition programmed (b : best) (m : mmcm) : Prop :=
  mm_enabled m = true /\
  (best_dout b <= 126 -> count (mm_reg m MMCM_REG_CLKOUT0_1) = best_dout b) /\
  count (mm_reg m MMCM_REG_CLK_DIV) = best_d b /\ count (mm_reg m MMCM_REG_CLK_FB1) = best_m b.

Definition small (b : best) : Prop := 1 <= best_d b <= 80 /\ 1 <= best_m b <= 64 /\ 1 <= best_dout b.

Lemma count_reg m reg old val mask :
  mm_regs m !! reg = Some (merge old val mask) -> uint 16 old -> Z.land mask 0xfff = 0xfff ->
  Z.land (u32 (Z.lnot mask)) 0xfff = 0 -> count (mm_reg m reg) = count val.
Proof using.
  intros Hm Hold H1 H2. unfold mm_reg. rewrite Hm. unfold default, from_option, Datatypes.id.
  rewrite count_low, merge_low by done. symmetry. apply count_low.
Qed.

(** One of the writes of [set_rate]. *)
Ltac mm_put := apply sat_bind, wp_mmcm_write; [by split | by split | done | done |];
  let w := fresh "w" in let E := fresh "E" in let B := fresh "B" in let N := fresh "N" in intros w E B N.

Ltac mm_counter := apply sat_bind, wp_write_counter; [by split | by split | done | done |];
  let w := fresh "w" in let v := fresh "v" in let E := fresh "E" in let B := fresh "B" in let N := fresh "N" in
  intros w v E B N.

Ltac mm_find := repeat match goal with E : mm_regs (mm ?w) = _ |- context [mm_regs (mm ?w)] => rewrite E end;
  repeat rewrite lookup_insert_ne by done; apply lookup_insert_eq.

Lemma clkgen_set_run rate w :
  1000 <= parent_rate c < 2 ^ 32 -> 1000 <= rate < 2 ^ 32 -> (mm_busy (mm w) <= k)%nat ->
  let fin := parent_rate c / 1000 in let fout := rate / 1000 in
  wp (axi_clkgen_set_rate io no_os_mdelay fuel (Some p) rate) (fun r s => s.1 = h /\ (mm_busy (mm s.2) <= k)%nat /\
    exists b, best_of fin fout (searched ranges_of fin) b /\
      (r = 0 /\ b = none /\ mm_regs (mm s.2) = mm_regs (mm w) /\ mm_enabled (mm s.2) = mm_enabled (mm w) \/
       r = (if mm_locked (mm s.2) then 0 else -1) /\ small b /\ programmed b (mm s.2))) (h, w).
Proof using Hc Hbase HC Hfuel Hk.
  intros Hp Hr Hb fin fout. unfold axi_clkgen_set_rate. apply sat_bind, wp_clkgen.
  rewrite !(proj2 (Z.eqb_neq _ 0)) by lia. cbn [orb]. apply sat_bind, wp_calc_params; [done | done |].
  fold fin fout. intros b w0 (R1 & R2 & R3 & _) Hbest.
  assert (b = none \/ small b) as [-> | Hs].
  { destruct Hbest as [[-> _] | [(m & d & Hs & ->) _]]; [by left | right].
    destruct (searched_bounds ranges_of fin fout (ranges_of_ok _ _ Hp Hr) m d Hs) as (? & ? & _).
    unfold small, cand. cbn. lia. }
  { apply sat_ret. split; [done |]. cbn [snd]. split; [lia |]. exists none. split; [done |]. by left. }
  rewrite !(proj2 (Z.eqb_neq _ 0)) by (unfold small in Hs; lia). cbn [orb]. cbv zeta.
  set (filter := axi_clkgen_lookup_filter _). set (lock := axi_clkgen_lookup_lock _).
  unfold axi_clkgen_mmcm_enable. apply sat_bind, wp_put. intros w1 (B1 & N1 & E1). cbn in N1, E1.
  assert (mm_busy (mm w1) <= k)%nat as B1' by lia. clear B1.
  mm_counter. mm_counter. mm_put. mm_counter. mm_put. mm_put. mm_put. mm_put. mm_put.
  apply sat_bind, wp_put. intros w13 (B13 & N13 & E13). cbn in N13, E13.
  apply sat_bind. destruct (mdelay_law 10 w13) as (w14 & Ed & D1 & D2 & D3). eapply sat_done; [by apply on_core_run |].
  apply sat_bind, wp_get. intros st w15 Hst. pose proof (read_at_rest _ _ _ _ Hst) as (E15 & B15 & N15 & L15).
  destruct Hst as (_ & _ & _ & _ & Hst & _). specialize (Hst eq_refl). apply sat_ret. split; [done |]. cbn [snd].
  split; [lia |]. exists b. split; [done |]. right.
  assert (mm_enabled (mm w15) = true) as Hen by (rewrite N15, D2, N13; done).
  split; [rewrite L15, <- Hst, <- truthy_land1; unfold truthy; by change AXI_CLKGEN_STATUS with 1; destruct (_ =? _) |].
  split; [done |]. unfold programmed, small in *. split; [done |].
  splits; [intros Hdout | |]; (etransitivity; [eapply count_reg; [by mm_find | apply mm_reg_uint | done | done] |]);
    apply counter_back; lia.
Qed.

(** The rate of the VCO fits a word. *)
Lemma rate_fits fout m d : 1000 <= parent_rate c < 2 ^ 32 -> 1000 <= fout < 2 ^ 32 ->
  searched ranges_of (parent_rate c / 1000) m d -> 0 <= parent_rate c / d * m < 2 ^ 32.
Proof using.
  clear -id c. intros Hp Hf Hs. set (fin := parent_rate c / 1000) in *. pose proof (ranges_of_ok _ _ Hp Hf) as Hok.
  destruct (searched_bounds ranges_of fin (fout / 1000) Hok m d Hs) as (Hm & Hd & Hv & _).
  destruct (so_vco _ _ _ Hok) as (_ & _ & _ & Hmax).
  pose proof (Z.div_mod (parent_rate c) 1000 ltac:(lia)) as E. pose proof (Z.mod_pos_bound (parent_rate c) 1000 ltac:(lia)).
  fold fin in E. pose proof (Z.div_mod (fin * m) d ltac:(lia)) as E1. pose proof (Z.mod_pos_bound (fin * m) d ltac:(lia)).
  pose proof (Z.mul_div_le (parent_rate c) d ltac:(lia)) as E2. pose proof (Z.div_pos (parent_rate c) d ltac:(lia) ltac:(lia)).
  split; [nia |]. set (q := parent_rate c / d) in *. set (v := fin * m / d) in *.
  assert (d * (q * m) <= 1000 * (fin * m) + 1000 * m) by nia.
  assert (d * (q * m) <= d * (1000 * (v + 1) + 1000 * m)) by nia.
  assert (q * m <= 1000 * (v + 1) + 1000 * m) by nia. lia.
Qed.

End runs.

(** ** An instance *)

(** A core whose port is busy for one reading after each access. *)
Definition xx_clk_io (id : clkgen_id) : axi_io mmcm :=
  AxiIo
    (fun _ off m => Done ((0,
       if off =? AXI_REG_VERSION then id_version id else if off =? AXI_REG_FPGA_INFO then id_info id else
       if off =? AXI_REG_FPGA_VOLTAGE then id_voltage id else
       if off =? AXI_CLKGEN_REG_STATUS then Z.b2z (mm_locked m) else
       if bool_decide (mm_busy m = 0%nat) then Z.land (default 0 (mm_data m)) 0xffff else AXI_CLKGEN_DRP_STATUS_BUSY),
       Mmcm (mm_regs m) (mm_data m) (if off =? AXI_CLKGEN_REG_DRP_STATUS then Nat.pred (mm_busy m) else mm_busy m)
         (mm_enabled m) (mm_locked m)))
    (fun _ off v m =>
       let reg := Z.land (Z.shiftr v 16) 0xfff in
       Done (0,
         if off =? AXI_CLKGEN_REG_RESETN then
           Mmcm (mm_regs m) (mm_data m) (mm_busy m) (Z.testbit v 1) (Z.testbit v 1)
         else if (off =? AXI_CLKGEN_REG_DRP_CNTRL) && Z.testbit v 29 then
           if Z.testbit v 28 then Mmcm (mm_regs m) (Some (mm_reg m reg)) 1 (mm_enabled m) (mm_locked m)
           else Mmcm (<[reg := Z.land v 0xffff]> (mm_regs m)) (Some 0) 1 (mm_enabled m) (mm_locked m)
         else m)).

(** Its data has 16 bits. *)
Definition xx_view (m : mmcm) : mmcm :=
  Mmcm (mm_regs m) ((fun x => Z.land x 0xffff) <$> mm_data m) (mm_busy m) (mm_enabled m) (mm_locked m).

Definition xx_mdelay (_ : Z) : cmd mmcm unit := mret tt.

Lemma xx_read_law id off w :
  exists v w', axi_get (xx_clk_io id) 0 off w = Done (v, w') /\ core_read id off v (xx_view w) (xx_view w').
Proof.
  eexists _, _. split; [done |]. split; [done |].
  split; [by intros -> |]. split; [by intros -> |]. split; [by intros -> |].
  split; [intros ->; cbn; by destruct (mm_locked w) |]. intros ->. cbn -[Z.land Z.testbit].
  repeat case_bool_decide; try done.
  split; [by rewrite Z.land_spec, andb_false_r |]. intros _ x Hx.
  destruct (mm_data w); [| done]. injection Hx as <-. cbn -[Z.land]. by rewrite <- Z.land_assoc.
Qed.

Lemma xx_write_law id off v w :
  exists w', axi_put (xx_clk_io id) 0 off v w = Done (tt, w') /\ core_write 1 off v (xx_view w) (xx_view w').
Proof.
  eexists. split; [done |]. unfold core_write. destruct (Z.eqb_spec off AXI_CLKGEN_REG_RESETN) as [-> |].
  { cbn -[Z.testbit]. splits; [lia | done | done]. }
  destruct (_ && _); [| cbn; splits; [lia | done | done]].
  destruct (Z.testbit v 28); cbn -[Z.land Z.testbit mm_reg]; splits; [lia | done | done | | lia | done | done].
  intros _. unfold mm_reg. cbn -[Z.land]. by rewrite <- Z.land_assoc.
Qed.

#[export] Instance xx_clk_laws id : ClkgenLaws (xx_clk_io id) xx_mdelay 0 id 1 xx_view.
Proof. split; [apply xx_read_law | apply xx_write_law |]. intros n w. by exists w. Qed.

Definition xx_id : clkgen_id := ClkgenId 0x50000 0x01020a00 0.
Definition xx_clkgen : axi_clkgen := AxiClkgen [] 0 100000000.
Definition xx_mmcm : mmcm := Mmcm ∅ None 0 true true.
Definition xx_heap : heap axi_clkgen := Heap {[1%positive := xx_clkgen]} 2 [].

(** What is set, and what is read back. *)
Definition set_and_get (rate : Z) : outcome (Z * (Z * Z)) :=
  match (r ← axi_clkgen_set_rate (xx_clk_io xx_id) xx_mdelay 3 (Some 1%positive) rate;
         v ← axi_clkgen_get_rate (xx_clk_io xx_id) 3 (Some 1%positive);
         mret (r, v)) (xx_heap, xx_mmcm) with
  | Done (a, _) => Done a
  | Undef => Undef
  | NoFuel => NoFuel
  end.

(** From 100 MHz: a rate that is met, and one that is not met exactly. *)
Example clkgen_100 : set_and_get 100000000 = Done (0, (0, 100000000)).
Proof. vm_compute. reflexivity. Qed.

Example clkgen_148 : set_and_get 148500000 = Done (0, (0, 148571428)).
Proof. vm_compute. reflexivity. Qed.

(** The output divider that is nearest to the quotient need not give the nearest
    rate: for 440 MHz from 10 MHz the search takes 600 MHz, undivided, where half
    of the 640 MHz that it tries as well would be closer. *)
Example clkgen_440 :
  search (Ranges 10000 300000 600000 1200000) 10000 440000 = Done (Best 600000 1 60 1) /\
  tried (Ranges 10000 300000 600000 1200000) 10000 64 1 /\
  Z.abs (10000 * 64 / 1 / 2 - 440000) < Z.abs (600000 - 440000).
Proof. split; [vm_compute; reflexivity |]. split; [| done]. split; [| by left]. repeat split; vm_compute; congruence. Qed.

(** The output dividers 127 and 128 do not fit their register: the clock is
    locked at another rate. *)
Example clkgen_127 : set_and_get 6299000 = Done (0, (0, 12698412)).
Proof. vm_compute. reflexivity. Qed.

Example clkgen_128 : set_and_get 800000 = Done (0, (0, 600000000)).
Proof. vm_compute. reflexivity. Qed.

(** Less than a kHz is a division by zero. *)
Example clkgen_hz : set_and_get 999 = Undef.
Proof. vm_compute. reflexivity. Qed.

(** A parent below 10 MHz has no dividers, which is not an error. *)
Example clkgen_slow : search (Ranges 10000 300000 600000 1200000) 9999 1000 = Done none.
Proof. vm_compute. reflexivity. Qed.

