(* ===== verification/AxiPwm.v ===== *)
(** * The PWM generator of an FPGA: [drivers/axi_core/axi_pwmgen/axi_pwm.c]

    A platform of [Pwm]: the functions that its table of operations points to,
    what they promise to the layer, and what they do not. *)
From S2P Require Import Prelude Mutex Util Bus Dispatch Pwm AxiIo.

(** ** Data *)

Record axi_pwm_init_param : Type := AxiPwmInit { xi_base_addr : Z; xi_ref_clock_Hz : Z; xi_channel : Z }.

Record axi_pwm_desc : Type := AxiPwmDesc {
  xd_base_addr : Z;
  xd_ref_clock_Hz : Z;
  xd_channel : Z;
  ch_period : Z;
  hw_major_ver : Z
}.

Definition AXI_PWMGEN_REG_CORE_VERSION : Z := 0x00.
Definition AXI_PWMGEN_REG_SCRATCHPAD : Z := 0x08.
Definition AXI_PWMGEN_REG_CONFIG : Z := 0x10.
Definition AXI_PWMGEN_REG_NPWM : Z := 0x14.
Definition AXI_PWMGEN_CHX_PERIOD (p : axi_pwm_desc) (ch : Z) : Z :=
  if hw_major_ver p =? 1 then u32 (0x40 + u32 (12 * ch)) else u32 (0x40 + u32 (4 * ch)).
Definition AXI_PWMGEN_CHX_DUTY (p : axi_pwm_desc) (ch : Z) : Z :=
  if hw_major_ver p =? 1 then u32 (0x44 + u32 (12 * ch)) else u32 (0x80 + u32 (4 * ch)).
Definition AXI_PWMGEN_CHX_PHASE (p : axi_pwm_desc) (ch : Z) : Z :=
  if hw_major_ver p =? 1 then u32 (0x48 + u32 (12 * ch)) else u32 (0xC0 + u32 (4 * ch)).
Definition AXI_PWMGEN_TEST_DATA : Z := 0x5A0F0081.
Definition AXI_PWMGEN_LOAD_CONIG : Z := 2.
Definition AXI_PWMGEN_RESET : Z := 1.
Definition AXI_PWMGEN_CHANNEL_DISABLE : Z := 0.
Definition AXI_PWMGEN_MAX_CHANNELS (p : axi_pwm_desc) : Z := if hw_major_ver p =? 1 then 4 else 16.
Definition NSEC_PER_USEC : Z := 1000.
Definition USEC_PER_SEC : Z := 1000000.
Definition AXI_PWMGEN_VERSION_MAJOR (x : Z) : Z := Z.land (Z.shiftr x 16) 0xff.

(** What [extra] points to in parameters and descriptors, the words that results
    go to, and the hardware. *)
Record pwm_world (V : Type) : Type := PwmWorld {
  xparams : gmap positive axi_pwm_init_param;
  xdescs : heap axi_pwm_desc;
  words : heap Z;
  fabric : V
}.
Arguments PwmWorld {V} _ _ _ _.
Arguments xparams {V} _.
Arguments xdescs {V} _.
Arguments words {V} _.
Arguments fabric {V} _.

(** What [calloc] gives. *)
Definition axi_pwm_desc0 : axi_pwm_desc := AxiPwmDesc 0 0 0 0 0.
Definition no_os_pwm_desc0 : no_os_pwm_desc :=
  PwmDesc None 0 0 0 0 NO_OS_PWM_POLARITY_HIGH false None 0 None None None.

(** *** Assignments *)

Definition set_ch_period (n : Z) (x : axi_pwm_desc) : axi_pwm_desc :=
  AxiPwmDesc (xd_base_addr x) (xd_ref_clock_Hz x) (xd_channel x) n (hw_major_ver x).

Definition set_major_ver (n : Z) (x : axi_pwm_desc) : axi_pwm_desc :=
  AxiPwmDesc (xd_base_addr x) (xd_ref_clock_Hz x) (xd_channel x) (ch_period x) n.

Definition set_times (period duty phase : Z) (d : no_os_pwm_desc) : no_os_pwm_desc :=
  PwmDesc (pd_mutex d) (pd_id d) period duty phase (pd_polarity d) (pd_enabled d) (pd_pwm_gpio d) (pd_irq_id d)
    (pd_pwm_callback d) (pd_platform_ops d) (pd_extra d).

(** ** Operations *)

Section axi_pwm.
  (** The platform's registers, and the bits of its [long]. *)
  Context {V : Type} (io : axi_io V) (long_bits : Z).
  Abbreviation mem := (platform no_os_pwm_desc (pwm_world V)).

Definition on_extra {A} : cmd (heap axi_pwm_desc) A -> cmd mem A :=
  zoom (fun s => xdescs s.2) (fun h s => (s.1, PwmWorld (xparams s.2) h (words s.2) (fabric s.2))).
Definition on_words {A} : cmd (heap Z) A -> cmd mem A :=
  zoom (fun s => words s.2) (fun h s => (s.1, PwmWorld (xparams s.2) (xdescs s.2) h (fabric s.2))).
Definition on_fabric {A} : cmd V A -> cmd mem A :=
  zoom (fun s => fabric s.2) (fun v s => (s.1, PwmWorld (xparams s.2) (xdescs s.2) (words s.2) v)).

Definition axi_read (base offset : Z) : cmd mem (Z * Z) := on_fabric (no_os_axi_io_read io base offset).
Definition axi_write (base offset data : Z) : cmd mem Z := on_fabric (no_os_axi_io_write io base offset data).

(** [desc->extra] and what it points to. *)
Definition axi_desc_of (desc : ptr) : cmd mem axi_pwm_desc :=
  d ← dev_load desc; on_extra (hload (pd_extra d)).

Definition update_axi_desc (desc : ptr) (f : axi_pwm_desc -> axi_pwm_desc) : cmd mem unit :=
  d ← dev_load desc; x ← on_extra (hload (pd_extra d)); on_extra (hstore (pd_extra d) (f x)).

Definition axi_pwmgen_write_mask (base offset mask data : Z) : cmd mem Z :=
  r ← axi_read base offset;
  if truthy r.1 then mret r.1 else
  axi_write base offset (Z.lor (Z.land r.2 (u32 (Z.lnot mask))) (Z.land data mask)).

(** A period for the channel, and the load of the configuration. *)
Definition load_period (desc : ptr) (period : axi_pwm_desc -> Z) : cmd mem Z :=
  x ← axi_desc_of desc;
  ret ← axi_write (xd_base_addr x) (AXI_PWMGEN_CHX_PERIOD x (xd_channel x)) (period x);
  if truthy ret then mret ret else
  axi_write (xd_base_addr x) AXI_PWMGEN_REG_CONFIG AXI_PWMGEN_LOAD_CONIG.

Definition axi_pwm_enable (desc : ptr) : cmd mem Z := load_period desc ch_period.

Definition axi_pwm_disable (desc : ptr) : cmd mem Z := load_period desc (fun _ => AXI_PWMGEN_CHANNEL_DISABLE).

(** Nanoseconds as cycles of the clock: the product has 32 bits, the sum those of
    [long]. *)
Definition clock_count (ref_clock_Hz ns : Z) : Z :=
  let tmp := u32 (ref_clock_Hz / NSEC_PER_USEC * ns) in
  wrap long_bits (tmp + USEC_PER_SEC - 1) / USEC_PER_SEC.

Definition axi_pwm_set_period (desc : ptr) (period_ns : Z) : cmd mem Z :=
  x ← axi_desc_of desc;
  let period_cnt := clock_count (xd_ref_clock_Hz x) period_ns in
  _ ← update_axi_desc desc (set_ch_period period_cnt);
  d ← dev_load desc;
  ret ← axi_write (xd_base_addr x) (AXI_PWMGEN_CHX_PERIOD x (xd_channel x)) (if pd_enabled d then period_cnt else 0);
  if truthy ret then mret ret else
  _ ← dev_update desc (fun d => set_times period_ns (pd_duty_cycle_ns d) (pd_phase_ns d) d);
  mret 0.

Definition axi_pwm_get_period (desc period_ns : ptr) : cmd mem Z :=
  d ← dev_load desc; _ ← on_words (hstore period_ns (pd_period_ns d)); mret 0.

Definition axi_pwm_set_duty_cycle (desc : ptr) (duty_cycle_ns : Z) : cmd mem Z :=
  x ← axi_desc_of desc;
  d ← dev_load desc;
  let duty_cycle_ns := if pd_period_ns d <? duty_cycle_ns then pd_period_ns d else duty_cycle_ns in
  ret ← axi_write (xd_base_addr x) (AXI_PWMGEN_CHX_DUTY x (xd_channel x)) (clock_count (xd_ref_clock_Hz x) duty_cycle_ns);
  if truthy ret then mret ret else
  _ ← dev_update desc (fun d => set_times (pd_period_ns d) duty_cycle_ns (pd_phase_ns d) d);
  mret 0.

Definition axi_pwm_get_duty_cycle (desc duty_cycle_ns : ptr) : cmd mem Z :=
  d ← dev_load desc; _ ← on_words (hstore duty_cycle_ns (pd_duty_cycle_ns d)); mret 0.

Definition axi_pwm_set_phase (desc : ptr) (phase_ns : Z) : cmd mem Z :=
  x ← axi_desc_of desc;
  ret ← axi_write (xd_base_addr x) (AXI_PWMGEN_CHX_PHASE x (xd_channel x)) (clock_count (xd_ref_clock_Hz x) phase_ns);
  if truthy ret then mret ret else
  _ ← dev_update desc (fun d => set_times (pd_period_ns d) (pd_duty_cycle_ns d) phase_ns d);
  mret 0.

Definition axi_pwm_get_phase (desc phase_ns : ptr) : cmd mem Z :=
  d ← dev_load desc; _ ← on_words (hstore phase_ns (pd_phase_ns d)); mret 0.

(** [if (ret != 0) goto error_xdesc;] *)
Definition or_fail (c : cmd mem Z) (k : cmd mem bool) : cmd mem bool :=
  ret ← c; if truthy ret then mret false else k.

(** The hardware of [axi_pwm_init], from the number of channels to the output;
    [false] where it goes to [error_xdesc]. *)
Definition start_channel (desc : ptr) (init : axi_pwm_init_param) : cmd mem bool :=
  let base := xi_base_addr init in
  r ← axi_read base AXI_PWMGEN_REG_NPWM;
  if truthy r.1 then mret false else
  if u32 (r.2 - 1) <? xi_channel init then mret false else
  or_fail (axi_pwmgen_write_mask base AXI_PWMGEN_REG_CONFIG AXI_PWMGEN_RESET 0) (
  or_fail (axi_write base AXI_PWMGEN_REG_SCRATCHPAD AXI_PWMGEN_TEST_DATA) (
  r ← axi_read base AXI_PWMGEN_REG_CORE_VERSION;
  if truthy r.1 then mret false else
  _ ← update_axi_desc desc (set_major_ver (AXI_PWMGEN_VERSION_MAJOR r.2));
  x ← axi_desc_of desc;
  if AXI_PWMGEN_MAX_CHANNELS x <=? xd_channel x then mret false else
  r ← axi_read base AXI_PWMGEN_REG_SCRATCHPAD;
  if truthy r.1 then mret false else
  if negb (r.2 =? AXI_PWMGEN_TEST_DATA) then mret false else
  d ← dev_load desc;
  or_fail (axi_pwm_set_period desc (pd_period_ns d)) (
  d ← dev_load desc;
  or_fail (axi_pwm_set_duty_cycle desc (pd_duty_cycle_ns d)) (
  d ← dev_load desc;
  or_fail (axi_pwm_set_phase desc (pd_phase_ns d)) (
  or_fail (axi_pwm_enable desc) (mret true)))))).

Definition new_pwm_desc : cmd mem ptr := zoom fst (fun h s => (h, s.2)) (halloc no_os_pwm_desc0).
Definition free_pwm_desc (desc : ptr) : cmd mem unit := zoom fst (fun h s => (h, s.2)) (hfree desc).

Definition axi_pwm_init (param : option no_os_pwm_init_param) : cmd mem (Z * ptr) :=
  match param with
  | None => mret (-1, None)
  | Some param =>
      pwm_desc ← new_pwm_desc;
      match pwm_desc with
      | None => mret (-1, None)
      | Some _ =>
          axi_desc ← on_extra (halloc axi_pwm_desc0);
          match axi_desc with
          | None => _ ← free_pwm_desc pwm_desc; mret (-1, None)
          | Some _ =>
              axi_init ← gets (fun s => pp_extra param ≫= (xparams s.2 !!.));
              axi_init ← the axi_init;
              _ ← on_extra (hstore axi_desc
                    (AxiPwmDesc (xi_base_addr axi_init) (xi_ref_clock_Hz axi_init) (xi_channel axi_init) 0 0));
              _ ← dev_update pwm_desc (fun d =>
                    PwmDesc (pd_mutex d) (pd_id d) (pp_period_ns param) (pp_duty_cycle_ns param) (pp_phase_ns param)
                      (pp_polarity param) (pd_enabled d) (pd_pwm_gpio d) (pd_irq_id d) (pd_pwm_callback d)
                      (pd_platform_ops d) axi_desc);
              ok ← start_channel pwm_desc axi_init;
              if (ok : bool) then mret (0, pwm_desc) else
              _ ← on_extra (hfree axi_desc);
              _ ← free_pwm_desc pwm_desc;
              mret (-1, None)
          end
      end
  end.

(** [desc] is used before it is compared with [NULL]. *)
Definition axi_pwm_remove (desc : ptr) : cmd mem Z :=
  d ← dev_load desc;
  match desc with
  | None => mret (-1)
  | Some _ =>
      x ← on_extra (hload (pd_extra d));
      ret ← axi_write (xd_base_addr x) AXI_PWMGEN_REG_CONFIG AXI_PWMGEN_RESET;
      if truthy ret then mret (-1) else
      _ ← on_extra (hfree (pd_extra d));
      _ ← free_pwm_desc desc;
      mret 0
  end.

Definition axi_pwm_ops : no_os_pwm_platform_ops (pwm_world V) := {|
  pwm_ops_init := Some (fun param => axi_pwm_init (Some param));
  pwm_ops_enable := Some axi_pwm_enable;
  pwm_ops_disable := Some axi_pwm_disable;
  pwm_ops_set_period := Some axi_pwm_set_period;
  pwm_ops_get_period := Some axi_pwm_get_period;
  pwm_ops_set_duty_cycle := Some axi_pwm_set_duty_cycle;
  pwm_ops_get_duty_cycle := Some axi_pwm_get_duty_cycle;
  pwm_ops_set_phase := Some axi_pwm_set_phase;
  pwm_ops_get_phase := Some axi_pwm_get_phase;
  pwm_ops_set_polarity := None;
  pwm_ops_get_polarity := None;
  pwm_ops_remove := Some axi_pwm_remove
|}.
End axi_pwm.

(** ** What the core is relied on for

    The registers that hold what is written to them, the ones the outputs follow
    since the last load, and whether the core is in reset. *)
Record pwm_core : Type := PwmCore { pc_regs : gmap Z Z; pc_active : gmap Z Z; pc_held : bool }.

Definition core_write (off v : Z) (c : pwm_core) : pwm_core :=
  if off =? AXI_PWMGEN_REG_CONFIG then
    PwmCore (pc_regs c) (if Z.testbit v 1 then pc_regs c else pc_active c) (Z.testbit v 0)
  else PwmCore (<[off := v]> (pc_regs c)) (pc_active c) (pc_held c).

(** The result of an access is not 0 only when the access fails, which happens
    only if the platform is [faulty], and then changes nothing. *)
Class PwmCoreLaws {V} (io : axi_io V) (base npwm version : Z) (faulty : bool) (core : V -> pwm_core) : Prop := {
  pwm_read_law off v : exists r x v', no_os_axi_io_read io base off v = Done ((r, x), v') /\ core v' = core v /\
    (faulty = false -> r = 0) /\
    (r = 0 -> (off = AXI_PWMGEN_REG_NPWM -> x = npwm) /\ (off = AXI_PWMGEN_REG_CORE_VERSION -> x = version) /\
       (off = AXI_PWMGEN_REG_SCRATCHPAD -> pc_regs (core v) !! off = Some x \/ pc_regs (core v) !! off = None) /\
       (off = AXI_PWMGEN_REG_CONFIG -> x = Z.b2z (pc_held (core v))));
  pwm_write_law off x v : exists r v', no_os_axi_io_write io base off x v = Done (r, v') /\
    (faulty = false -> r = 0) /\ core v' = if truthy r then core v else core_write off x (core v)
}.

(** ** Runs *)

Section runs.
  Context {V : Type} (io : axi_io V) (lb base npwm version : Z) (faulty : bool) (core : V -> pwm_core).
  Context {HC : PwmCoreLaws io base npwm version faulty core}.
  Context (h : heap no_os_pwm_desc) (xh : heap axi_pwm_desc) (ps : gmap positive axi_pwm_init_param) (ws : heap Z) (p q : positive).
  Abbreviation mem := (platform no_os_pwm_desc (pwm_world V)).

(** The memory with the descriptor [d] and its extra [x]. *)
Definition st (d : no_os_pwm_desc) (x : axi_pwm_desc) (v : V) : mem :=
  (Heap (<[p := d]> (cells h)) (next_block h) (oom h),
   PwmWorld ps (Heap (<[q := x]> (cells xh)) (next_block xh) (oom xh)) ws v).

Lemma wp_desc d x v (Q : no_os_pwm_desc -> mem -> Prop) : Q d (st d x v) -> wp (dev_load (Some p)) Q (st d x v).
Proof using. intros H. eapply sat_done; [apply dev_load_done, lookup_insert_eq | done]. Qed.

Lemma wp_set_desc f d x v (Q : unit -> mem -> Prop) : Q tt (st (f d) x v) -> wp (dev_update (Some p) f) Q (st d x v).
Proof using.
  intros H. eapply sat_done; [apply dev_update_done, lookup_insert_eq |].
  cbn [fst snd st cells next_block oom]. by rewrite insert_insert_eq.
Qed.

Lemma wp_extra d x v (Q : axi_pwm_desc -> mem -> Prop) :
  pd_extra d = Some q -> Q x (st d x v) -> wp (axi_desc_of (Some p)) Q (st d x v).
Proof using.
  intros Hd H. unfold axi_desc_of. apply sat_bind, wp_desc. rewrite Hd.
  eapply sat_done; [eapply zoom_done, hload_done, lookup_insert_eq | done].
Qed.

Lemma wp_set_extra f d x v (Q : unit -> mem -> Prop) :
  pd_extra d = Some q -> Q tt (st d (f x) v) -> wp (update_axi_desc (Some p) f) Q (st d x v).
Proof using.
  intros Hd H. unfold update_axi_desc. apply sat_bind, wp_desc. rewrite Hd.
  apply sat_bind. eapply sat_done; [eapply zoom_done, hload_done, lookup_insert_eq |].
  eapply sat_done; [eapply zoom_done, hstore_done, lookup_insert_eq |].
  cbn [fst snd st xdescs xparams words fabric cells next_block oom]. by rewrite insert_insert_eq.
Qed.

Lemma wp_axi_read off d x v (Q : Z * Z -> mem -> Prop) :
  (forall r y v', core v' = core v -> (faulty = false -> r = 0) ->
    (r = 0 -> (off = AXI_PWMGEN_REG_NPWM -> y = npwm) /\ (off = AXI_PWMGEN_REG_CORE_VERSION -> y = version) /\
       (off = AXI_PWMGEN_REG_SCRATCHPAD -> pc_regs (core v) !! off = Some y \/ pc_regs (core v) !! off = None) /\
       (off = AXI_PWMGEN_REG_CONFIG -> y = Z.b2z (pc_held (core v)))) -> Q (r, y) (st d x v')) ->
  wp (axi_read io base off) Q (st d x v).
Proof using HC.
  intros H. destruct (pwm_read_law (io := io) (base := base) off v) as (r & y & v' & E & H1 & H2 & H3).
  eapply sat_done; [by eapply zoom_done |]. by apply H.
Qed.

Lemma wp_axi_write off y d x v (Q : Z -> mem -> Prop) :
  (forall r v', (faulty = false -> r = 0) -> core v' = (if truthy r then core v else core_write off y (core v)) ->
     Q r (st d x v')) ->
  wp (axi_write io base off y) Q (st d x v).
Proof using HC.
  intros H. destruct (pwm_write_law (io := io) (base := base) off y v) as (r & v' & E & H1 & H2).
  eapply sat_done; [by eapply zoom_done |]. by apply H.
Qed.

(** The period that is loaded. *)
Lemma load_period_run period d x v :
  pd_extra d = Some q -> xd_base_addr x = base ->
  let off := AXI_PWMGEN_CHX_PERIOD x (xd_channel x) in
  wp (load_period io (Some p) period) (fun r s => exists v', s = st d x v' /\ (faulty = false -> r = 0) /\
    (r = 0 -> core v' = core_write AXI_PWMGEN_REG_CONFIG AXI_PWMGEN_LOAD_CONIG (core_write off (period x) (core v))))
    (st d x v).
Proof using HC.
  intros Hd Hx off. unfold load_period. apply sat_bind, wp_extra; [done |]. rewrite Hx.
  apply sat_bind, wp_axi_write. intros r v1 Hr E1. destruct (truthy r) eqn:Er.
  { apply sat_ret. exists v1. splits; try done. intros ->. done. }
  apply wp_axi_write. intros r2 v2 Hr2 E2. exists v2. splits; try done. intros ->. by rewrite E2, E1.
Qed.

(** *** Setting the times *)

Lemma set_period_run ns d x v :
  pd_extra d = Some q -> xd_base_addr x = base ->
  let n := clock_count lb (xd_ref_clock_Hz x) ns in
  wp (axi_pwm_set_period io lb (Some p) ns) (fun r s => exists d' v', s = st d' (set_ch_period n x) v' /\
    (faulty = false -> r = 0) /\
    (r = 0 -> d' = set_times ns (pd_duty_cycle_ns d) (pd_phase_ns d) d /\
       core v' = core_write (AXI_PWMGEN_CHX_PERIOD x (xd_channel x)) (if pd_enabled d then n else 0) (core v))) (st d x v).
Proof using HC.
  intros Hd Hx n. unfold axi_pwm_set_period. apply sat_bind, wp_extra; [done |]. fold n. rewrite Hx.
  apply sat_bind, wp_set_extra; [done |]. apply sat_bind, wp_desc, sat_bind, wp_axi_write. intros r v1 Hr E.
  destruct (truthy r) eqn:Er; [apply sat_ret; exists d, v1; splits; try done; by intros -> |].
  apply sat_bind, wp_set_desc, sat_ret. by eexists _, v1.
Qed.

Lemma set_duty_run ns d x v :
  pd_extra d = Some q -> xd_base_addr x = base ->
  let ns' := Z.min ns (pd_period_ns d) in
  wp (axi_pwm_set_duty_cycle io lb (Some p) ns) (fun r s => exists d' v', s = st d' x v' /\
    (faulty = false -> r = 0) /\
    (r = 0 -> d' = set_times (pd_period_ns d) ns' (pd_phase_ns d) d /\
       core v' = core_write (AXI_PWMGEN_CHX_DUTY x (xd_channel x)) (clock_count lb (xd_ref_clock_Hz x) ns') (core v)))
    (st d x v).
Proof using HC.
  intros Hd Hx ns'. unfold axi_pwm_set_duty_cycle. apply sat_bind, wp_extra; [done |]. rewrite Hx.
  apply sat_bind, wp_desc. cbv zeta.
  replace (if pd_period_ns d <? ns then pd_period_ns d else ns) with ns'
    by (unfold ns'; destruct (Z.ltb_spec (pd_period_ns d) ns); clear -H; lia).
  apply sat_bind, wp_axi_write. intros r v1 Hr E.
  destruct (truthy r) eqn:Er; [apply sat_ret; exists d, v1; splits; try done; by intros -> |].
  apply sat_bind, wp_set_desc, sat_ret. by eexists _, v1.
Qed.

Lemma set_phase_run ns d x v :
  pd_extra d = Some q -> xd_base_addr x = base ->
  wp (axi_pwm_set_phase io lb (Some p) ns) (fun r s => exists d' v', s = st d' x v' /\
    (faulty = false -> r = 0) /\
    (r = 0 -> d' = set_times (pd_period_ns d) (pd_duty_cycle_ns d) ns d /\
       core v' = core_write (AXI_PWMGEN_CHX_PHASE x (xd_channel x)) (clock_count lb (xd_ref_clock_Hz x) ns) (core v)))
    (st d x v).
Proof using HC.
  intros Hd Hx. unfold axi_pwm_set_phase. apply sat_bind, wp_extra; [done |]. rewrite Hx.
  apply sat_bind, wp_axi_write. intros r v1 Hr E.
  destruct (truthy r) eqn:Er; [apply sat_ret; exists d, v1; splits; try done; by intros -> |].
  apply sat_bind, wp_set_desc, sat_ret. by eexists _, v1.
Qed.

(** *** Starting a channel *)

Definition major : Z := AXI_PWMGEN_VERSION_MAJOR version.

(** The core has the channel. *)
Definition has_channel (ch : Z) : bool := (ch <=? u32 (npwm - 1)) && (ch <? if major =? 1 then 4 else 16).

(** [n] cycles of the clock last [ns] nanoseconds, and fewer do not: the clock is
    taken in kHz, whose product with the time is kept modulo [2 ^ 32]. *)
Definition lasts (ref ns n : Z) : Prop :=
  let t := (ref / 1000 * ns) mod 2 ^ 32 in t + 999999 < 2 ^ lb -> (n - 1) * 1000000 < t <= n * 1000000.

Lemma clock_count_lasts ref ns : lasts ref ns (clock_count lb ref ns).
Proof using.
  clear. unfold lasts, clock_count, NSEC_PER_USEC, USEC_PER_SEC. change (u32 ?x) with (x mod 2 ^ 32).
  set (t := _ mod _). intros Hfit. assert (0 <= t) by (by apply Z.mod_pos_bound).
  rewrite wrap_small by (unfold uint; lia).
  pose proof (Z.div_mod (t + 1000000 - 1) 1000000 ltac:(lia)). pose proof (Z.mod_pos_bound (t + 1000000 - 1) 1000000 ltac:(lia)). lia.
Qed.

(** The output follows the descriptor. *)
Definition outputs (d : no_os_pwm_desc) (x : axi_pwm_desc) (c : pwm_core) : Prop :=
  let register off ns := exists n, pc_active c !! off = Some n /\ lasts (xd_ref_clock_Hz x) ns n in
  pc_held c = false /\ pc_active c !! AXI_PWMGEN_CHX_PERIOD x (xd_channel x) = Some (ch_period x) /\
  register (AXI_PWMGEN_CHX_PERIOD x (xd_channel x)) (pd_period_ns d) /\
  register (AXI_PWMGEN_CHX_DUTY x (xd_channel x)) (pd_duty_cycle_ns d) /\
  register (AXI_PWMGEN_CHX_PHASE x (xd_channel x)) (pd_phase_ns d).

(** The registers of a channel are apart. *)
Lemma registers_apart x ch :
  0 <= ch < AXI_PWMGEN_MAX_CHANNELS x ->
  let a := AXI_PWMGEN_CHX_PERIOD x ch in let b := AXI_PWMGEN_CHX_DUTY x ch in let c := AXI_PWMGEN_CHX_PHASE x ch in
  a <> b /\ b <> c /\ a <> c /\ 0x40 <= a /\ 0x40 <= b /\ 0x40 <= c.
Proof using.
  clear. unfold AXI_PWMGEN_MAX_CHANNELS, AXI_PWMGEN_CHX_PERIOD, AXI_PWMGEN_CHX_DUTY, AXI_PWMGEN_CHX_PHASE. intros H.
  destruct (hw_major_ver x =? 1); rewrite !(wrap_small 32) by (unfold uint; rewrite ?(wrap_small 32) by (unfold uint; lia); lia);
    lia.
Qed.

Lemma core_write_channel off y c : 0x40 <= off -> core_write off y c = PwmCore (<[off := y]> (pc_regs c)) (pc_active c) (pc_held c).
Proof using. clear. intros H. unfold core_write, AXI_PWMGEN_REG_CONFIG. by destruct (Z.eqb_spec off 0x10); [lia |]. Qed.

Lemma core_write_load c : core_write AXI_PWMGEN_REG_CONFIG AXI_PWMGEN_LOAD_CONIG c = PwmCore (pc_regs c) (pc_regs c) false.
Proof using. done. Qed.

Lemma sat_or_fail c k (Q : bool -> mem -> Prop) s :
  wp c (fun r s' => if truthy r then Q false s' else wp k Q s') s -> wp (or_fail c k) Q s.
Proof using.
  intros H. unfold or_fail. apply sat_bind. eapply sat_mono; [exact H |]. intros r s'. cbn.
  destruct (truthy r); [intros; by apply sat_ret | done].
Qed.

Lemma write_mask_run d x v :
  wp (axi_pwmgen_write_mask io base AXI_PWMGEN_REG_CONFIG AXI_PWMGEN_RESET 0) (fun r s => exists v', s = st d x v' /\
    (faulty = false -> r = 0) /\ (r = 0 -> core v' = PwmCore (pc_regs (core v)) (pc_active (core v)) false)) (st d x v).
Proof using HC.
  unfold axi_pwmgen_write_mask. apply sat_bind, wp_axi_read. intros r y v1 E1 Hr Hy. cbn [fst snd].
  destruct (truthy r) eqn:Er; [apply sat_ret; exists v1; splits; try done; by intros -> |].
  apply truthy_false in Er. destruct (Hy Er) as (_ & _ & _ & Hcfg). rewrite (Hcfg eq_refl).
  apply wp_axi_write. intros r2 v2 Hr2 E2. exists v2. splits; try done. intros ->. rewrite E2. cbn [truthy negb Z.eqb].
  by destruct (pc_held (core v)); rewrite E1.
Qed.

(** The descriptors of a channel that was started. *)
Definition started_desc (d : no_os_pwm_desc) : no_os_pwm_desc :=
  set_times (pd_period_ns d) (Z.min (pd_duty_cycle_ns d) (pd_period_ns d)) (pd_phase_ns d) d.

Definition started_extra (ref ch period : Z) : axi_pwm_desc := AxiPwmDesc base ref ch (clock_count lb ref period) major.

(** One that could not be started still has its memory. *)
Definition start_post (d : no_os_pwm_desc) (ref ch : Z) (ok : bool) (s : mem) : Prop :=
  exists d' x' v', s = st d' x' v' /\ (faulty = false -> ok = has_channel ch) /\
    (ok = true -> has_channel ch = true /\ d' = started_desc d /\ x' = started_extra ref ch (pd_period_ns d) /\
       outputs d' x' (core v')).

Lemma start_fails d ref ch r d' x' v' :
  truthy r = true -> (faulty = false -> r = 0) -> start_post d ref ch false (st d' x' v').
Proof using. intros Hr Hf. exists d', x', v'. split; [done |]. split; [| done]. intros H. by rewrite (Hf H) in Hr. Qed.

(** What the writes of a channel's registers and the load make. *)
Lemma loaded_outputs period duty phase d x c :
  0 <= xd_channel x < AXI_PWMGEN_MAX_CHANNELS x -> pc_held c = false ->
  let n := clock_count lb (xd_ref_clock_Hz x) in
  outputs (set_times period duty phase d) (set_ch_period (n period) x)
    (core_write AXI_PWMGEN_REG_CONFIG AXI_PWMGEN_LOAD_CONIG
      (core_write (AXI_PWMGEN_CHX_PERIOD x (xd_channel x)) (n period)
        (core_write (AXI_PWMGEN_CHX_PHASE x (xd_channel x)) (n phase)
          (core_write (AXI_PWMGEN_CHX_DUTY x (xd_channel x)) (n duty)
            (core_write (AXI_PWMGEN_CHX_PERIOD x (xd_channel x)) 0 c))))).
Proof using.
  intros Hch Hheld n. destruct (registers_apart x (xd_channel x) Hch) as (A1 & A2 & A3 & A4 & A5 & A6).
  set (a := AXI_PWMGEN_CHX_PERIOD x _) in *. set (b := AXI_PWMGEN_CHX_DUTY x _) in *.
  set (e := AXI_PWMGEN_CHX_PHASE x _) in *. rewrite !(core_write_channel a), (core_write_channel b), (core_write_channel e) by done.
  rewrite core_write_load. cbn [pc_regs pc_active pc_held].
  split; [done |]. split; [|split; [| split]].
  - change (<[a := n period]> (<[e := n phase]> (<[b := n duty]> (<[a := 0]> (pc_regs c)))) !! a = Some (n period)).
    by rewrite lookup_insert_eq.
  - exists (n period). split; [| apply clock_count_lasts].
    change (<[a := n period]> (<[e := n phase]> (<[b := n duty]> (<[a := 0]> (pc_regs c)))) !! a = Some (n period)).
    by rewrite lookup_insert_eq.
  - exists (n duty). split; [| apply clock_count_lasts].
    change (<[a := n period]> (<[e := n phase]> (<[b := n duty]> (<[a := 0]> (pc_regs c)))) !! b = Some (n duty)).
    by rewrite !lookup_insert_ne, lookup_insert_eq by done.
  - exists (n phase). split; [| apply clock_count_lasts].
    change (<[a := n period]> (<[e := n phase]> (<[b := n duty]> (<[a := 0]> (pc_regs c)))) !! e = Some (n phase)).
    by rewrite lookup_insert_ne, lookup_insert_eq by done.
Qed.

(** The times, and the output. *)
Lemma times_run d ref ch v :
  pd_extra d = Some q -> pd_enabled d = false -> 0 <= ch -> has_channel ch = true -> pc_held (core v) = false ->
  wp (d ← dev_load (Some p);
      or_fail (axi_pwm_set_period io lb (Some p) (pd_period_ns d)) (
      d ← dev_load (Some p);
      or_fail (axi_pwm_set_duty_cycle io lb (Some p) (pd_duty_cycle_ns d)) (
      d ← dev_load (Some p);
      or_fail (axi_pwm_set_phase io lb (Some p) (pd_phase_ns d)) (
      or_fail (axi_pwm_enable io (Some p)) (mret true)))))
    (start_post d ref ch) (st d (AxiPwmDesc base ref ch 0 major) v).
Proof using HC.
  intros Hd Hen H0 Hch Hheld. apply sat_bind, wp_desc, sat_or_fail.
  eapply sat_mono; [by apply set_period_run |]. intros r s (d1 & v1 & -> & Hf1 & H1).
  destruct (truthy r) eqn:Er; [by eapply start_fails |]. apply truthy_false in Er. destruct (H1 Er) as [-> E1]. clear H1.
  rewrite Hen in E1. apply sat_bind, wp_desc, sat_or_fail.
  eapply sat_mono; [by apply set_duty_run |]. intros r2 s (d2 & v2 & -> & Hf2 & H2).
  destruct (truthy r2) eqn:Er2; [by eapply start_fails |]. apply truthy_false in Er2. destruct (H2 Er2) as [-> E2]. clear H2.
  apply sat_bind, wp_desc, sat_or_fail.
  eapply sat_mono; [by apply set_phase_run |]. intros r3 s (d3 & v3 & -> & Hf3 & H3).
  destruct (truthy r3) eqn:Er3; [by eapply start_fails |]. apply truthy_false in Er3. destruct (H3 Er3) as [-> E3]. clear H3.
  apply sat_or_fail. eapply sat_mono; [by apply load_period_run |]. intros r4 s (v4 & -> & Hf4 & H4).
  destruct (truthy r4) eqn:Er4; [by eapply start_fails |]. apply truthy_false in Er4. specialize (H4 Er4).
  apply sat_ret. eexists _, _, v4. split; [reflexivity |]. split; [done |]. intros _. split; [done |]. split; [done |].
  split; [done |]. rewrite H4, E3, E2, E1. set (x := AxiPwmDesc base ref ch 0 major).
  assert (0 <= ch < AXI_PWMGEN_MAX_CHANNELS x) as Hmax.
  { unfold AXI_PWMGEN_MAX_CHANNELS. cbn. clear -H0 Hch. unfold has_channel in Hch. apply andb_true_iff in Hch as [_ Hch]. lia. }
  exact (loaded_outputs (pd_period_ns d) (Z.min (pd_duty_cycle_ns d) (pd_period_ns d)) (pd_phase_ns d) d x (core v) Hmax Hheld).
Qed.

(** A step that reads. *)
Lemma start_channel_run d ref ch v :
  pd_extra d = Some q -> pd_enabled d = false -> 0 <= ch ->
  wp (start_channel io lb (Some p) (AxiPwmInit base ref ch)) (start_post d ref ch) (st d (AxiPwmDesc base ref ch 0 0) v).
Proof using HC.
  intros Hd Hen H0. unfold start_channel. cbn [xi_base_addr xi_channel].
  apply sat_bind, wp_axi_read. intros r y v1 E1 Hr Hy. cbn [fst snd].
  destruct (truthy r) eqn:Er; [apply sat_ret; by eapply start_fails |]. apply truthy_false in Er.
  destruct (Hy Er) as [Hn _]. rewrite (Hn eq_refl). clear Hy Hn.
  destruct (Z.ltb_spec (u32 (npwm - 1)) ch) as [Hlt | Hge].
  { apply sat_ret. eexists _, _, v1. split; [done |]. split; [| done]. intros _. unfold has_channel.
    destruct (Z.leb_spec ch (u32 (npwm - 1))); [clear -Hlt H; lia | done]. }
  apply sat_or_fail. eapply sat_mono; [apply write_mask_run |]. intros r2 s (v2 & -> & Hr2 & E2).
  destruct (truthy r2) eqn:Er2; [by eapply start_fails |]. apply truthy_false in Er2. specialize (E2 Er2).
  apply sat_or_fail, wp_axi_write. intros r3 v3 Hr3 E3.
  destruct (truthy r3) eqn:Er3; [by eapply start_fails |].
  apply sat_bind, wp_axi_read. intros r4 y4 v4 E4 Hr4 Hy4. cbn [fst snd].
  destruct (truthy r4) eqn:Er4; [apply sat_ret; by eapply start_fails |]. apply truthy_false in Er4.
  destruct (Hy4 Er4) as (_ & Hv & _). rewrite (Hv eq_refl). clear Hy4 Hv.
  apply sat_bind, wp_set_extra; [done |]. fold major. apply sat_bind, wp_extra; [done |].
  change (set_major_ver major (AxiPwmDesc base ref ch 0 0)) with (AxiPwmDesc base ref ch 0 major).
  change (AXI_PWMGEN_MAX_CHANNELS (AxiPwmDesc base ref ch 0 major)) with (if major =? 1 then 4 else 16).
  cbn [xd_channel].
  destruct (Z.leb_spec (if major =? 1 then 4 else 16) ch) as [Hlt | Hge2].
  { apply sat_ret. eexists _, _, v4. split; [done |]. split; [| done]. intros _. unfold has_channel.
    destruct (Z.ltb_spec ch (if major =? 1 then 4 else 16)); [clear -Hlt H; lia | by rewrite andb_false_r]. }
  assert (has_channel ch = true) as Hch.
  { unfold has_channel. apply andb_true_iff. split; [by apply Z.leb_le | by apply Z.ltb_lt]. }
  apply sat_bind, wp_axi_read. intros r5 y5 v5 E5 Hr5 Hy5. cbn [fst snd].
  destruct (truthy r5) eqn:Er5; [apply sat_ret; by eapply start_fails |]. apply truthy_false in Er5.
  destruct (Hy5 Er5) as (_ & _ & Hs & _). clear Hy5. specialize (Hs eq_refl).
  rewrite E4, E3 in Hs. change (pc_regs (core_write AXI_PWMGEN_REG_SCRATCHPAD AXI_PWMGEN_TEST_DATA (core v2)))
    with (<[AXI_PWMGEN_REG_SCRATCHPAD := AXI_PWMGEN_TEST_DATA]> (pc_regs (core v2))) in Hs.
  rewrite lookup_insert_eq in Hs. destruct Hs as [[= <-] | ?]; [| done]. rewrite Z.eqb_refl. cbn [negb].
  apply times_run; try done. rewrite E5, E4, E3. cbn. by rewrite E2.
Qed.
End runs.

(** ** Initialising *)

Section init.
  Context {V : Type} (io : axi_io V) (lb base npwm version : Z) (faulty : bool) (core : V -> pwm_core).
  Context {HC : PwmCoreLaws io base npwm version faulty core}.

(** [axi_pwm_init] gives a descriptor with the parameter's times, the duty
    cycle cut to the period, whose output follows them, or [-1] and no memory;
    where the platform does not fail and there is memory it succeeds exactly
    when the core has the channel. *)
Lemma axi_pwm_init_run (h : heap no_os_pwm_desc) (w : pwm_world V) param e ref ch :
  heap_ok h -> heap_ok (xdescs w) -> pp_extra param = Some e -> xparams w !! e = Some (AxiPwmInit base ref ch) -> 0 <= ch ->
  let d := PwmDesc None 0 (pp_period_ns param) (Z.min (pp_duty_cycle_ns param) (pp_period_ns param)) (pp_phase_ns param)
             (pp_polarity param) false None 0 None None (Some (next_block (xdescs w))) in
  let x := started_extra lb base version ref ch (pp_period_ns param) in
  exists r desc s, axi_pwm_init io lb (Some param) (h, w) = Done ((r, desc), s) /\
    xparams s.2 = xparams w /\ words s.2 = words w /\
    (faulty = false -> alloc_fails h = false -> alloc_fails (xdescs w) = false ->
       r = if has_channel npwm version ch then 0 else -1) /\
    (r = -1 /\ desc = None /\ cells s.1 = cells h /\ cells (xdescs s.2) = cells (xdescs w) \/
     r = 0 /\ desc = Some (next_block h) /\ cells s.1 = <[next_block h := d]> (cells h) /\
       cells (xdescs s.2) = <[next_block (xdescs w) := x]> (cells (xdescs w)) /\ outputs lb d x (core (fabric s.2))).
Proof using HC.
  intros Hh Hx He Hps H0 d x. pose proof (heap_ok_fresh _ Hh) as Hfp. pose proof (heap_ok_fresh _ Hx) as Hfq.
  unfold axi_pwm_init, new_pwm_desc. destruct (alloc_fails h) eqn:Ea.
  { erewrite bind_done by (eapply zoom_done, halloc_fail, Ea). eexists _, _, _. split; [done |]. splits; try done. by left. }
  erewrite bind_done by (eapply zoom_done, halloc_done, Ea). cbn [fst snd]. set (p := next_block h) in *.
  destruct (alloc_fails (xdescs w)) eqn:Eb.
  { erewrite bind_done by (eapply zoom_done, halloc_fail, Eb). unfold free_pwm_desc.
    erewrite bind_done by (eapply zoom_done, hfree_done; cbn; apply lookup_insert_eq).
    eexists _, _, _. split; [done |]. cbn. splits; try done. left. splits; try done. by rewrite delete_insert_id. }
  erewrite bind_done by (eapply zoom_done, halloc_done, Eb). cbn [fst snd]. set (q := next_block (xdescs w)) in *.
  erewrite bind_done by reflexivity. cbn [fst snd xparams]. rewrite He. cbn [mbind option_bind]. rewrite Hps.
  erewrite bind_done by reflexivity.
  erewrite bind_done by (eapply zoom_done, hstore_done; cbn; apply lookup_insert_eq).
  erewrite bind_done by (eapply dev_update_done; cbn; apply lookup_insert_eq).
  cbn [fst snd cells next_block oom xdescs xparams words fabric]. rewrite !insert_insert_eq.
  set (d0 := PwmDesc _ _ _ _ _ _ _ _ _ _ _ _).
  set (h0 := Heap (cells h) (Pos.succ p) (tail (oom h))).
  set (xh0 := Heap (cells (xdescs w)) (Pos.succ q) (tail (oom (xdescs w)))).
  pose proof (start_channel_run io lb base npwm version faulty core h0 xh0 (xparams w) (words w) p q d0 ref ch (fabric w)
    eq_refl eq_refl H0) as Hrun. unfold triple, st in Hrun. cbn [cells next_block oom h0 xh0] in Hrun.
  cbn [xi_base_addr xi_ref_clock_Hz xi_channel].
  destruct (start_channel io lb (Some p) _ _) as [[ok s1] | |] eqn:E; [| done..].
  rewrite (bind_done _ _ _ _ _ E). destruct Hrun as (d' & x' & v' & -> & Hf & Hok). destruct ok.
  - destruct (Hok eq_refl) as (Hch & -> & -> & Hout). eexists _, _, _. split; [done |]. cbn. rewrite Hch.
    splits; try done. right. by splits.
  - unfold free_pwm_desc. erewrite bind_done by (eapply zoom_done, hfree_done; cbn; apply lookup_insert_eq).
    erewrite bind_done by (eapply zoom_done, hfree_done; cbn; apply lookup_insert_eq).
    eexists _, _, _. split; [done |]. cbn. split; [done |]. split; [done |].
    split; [intros Hfl _ _; by rewrite <- (Hf Hfl) |]. left. splits; try done; by rewrite delete_insert_id.
Qed.
End init.

(** A millisecond of 100 MHz: 100000 cycles. *)
Example clock_count_overflow : clock_count 64 100000000 1000000 = 1216 /\ clock_count 64 100000000 42000 = 4200.
Proof. done. Qed.

(** ** Under the layer of [Pwm] *)

Section layer.
  Context {V : Type} (io : axi_io V) (lb base npwm version : Z) (faulty : bool) (core : V -> pwm_core).
  Context {HC : PwmCoreLaws io base npwm version faulty core}.
  Context {M : Type} {MM : Mutex M} {ML : MutexLaws M}.
  Context (driver : positive -> no_os_pwm_platform_ops (pwm_world V)) (ops : positive).
  Context (Hops : driver ops = axi_pwm_ops io lb).
  Abbreviation mem := (slot_mem no_os_pwm_desc M (pwm_world V)).

(** *** Initialising *)

Lemma axi_slot_promise live (h h' : heap no_os_pwm_desc) d r desc :
  heap_ok h -> (forall p, is_Some (live !! p) -> is_Some (cells h !! p)) -> pd_id d = 0 ->
  r = -1 /\ cells h' = cells h \/ r = 0 /\ desc = Some (next_block h) /\ cells h' = <[next_block h := d]> (cells h) ->
  slot_promise 0 live h h' (r, desc).
Proof using.
  intros Hh Hlive Hd Hr. assert (live !! next_block h = None) as Hnew.
  { apply eq_None_not_Some. intros H. apply Hlive, Hh in H. lia. }
  destruct Hr as [[-> E] | (-> & -> & E)]; (split; [intros p Hp; rewrite E | done || intros _]).
  - done.
  - rewrite lookup_insert_ne; [done |]. intros <-. rewrite Hnew in Hp. by destruct Hp.
  - exists (next_block h), d. splits; try done. by rewrite E, lookup_insert_eq.
Qed.

(** C22: initialising a channel through the layer, as device 0, gives it a
    descriptor and a mutex of its own, and its output follows the parameter's
    times, the duty cycle cut to the period: the period, the active time and the
    phase are the least numbers of cycles of the clock, in kHz, that last as
    long as the parameter says, wherever kHz times ns is below [2 ^ 32] (less a
    million where [long] has 32 bits); a greater product is taken modulo
    [2 ^ 32].  Or it fails and keeps the table, which it only does when the core
    lacks the channel, the platform fails or there is no memory. *)
Theorem axi_pwm_attached n live (m : mem) param e ref ch :
  slots_ok n live m -> (0 < n)%nat -> no_live_on live (devs m) 0 -> heap_ok (devs m) -> heap_ok (xdescs (dev_world m)) ->
  pp_id param = 0 -> pp_platform_ops param = Some ops ->
  pp_extra param = Some e -> xparams (dev_world m) !! e = Some (AxiPwmInit base ref ch) -> 0 <= ch ->
  exists r desc m', no_os_pwm_init driver (Some param) m = Done ((r, desc), m') /\
    (faulty = false -> alloc_fails (devs m) = false -> alloc_fails (xdescs (dev_world m)) = false ->
       r = if has_channel npwm version ch then 0 else -1) /\
    (r = -1 /\ slots_ok n live m' \/
     r = 0 /\ exists p d q x, desc = Some p /\ live !! p = None /\ slots_ok n (<[p := false]> live) m' /\
       cells (devs m') !! p = Some d /\ pd_platform_ops d = Some ops /\ pd_extra d = Some q /\
       cells (xdescs (dev_world m')) !! q = Some x /\ xd_base_addr x = base /\ xd_ref_clock_Hz x = ref /\ xd_channel x = ch /\
       pd_period_ns d = pp_period_ns param /\ pd_phase_ns d = pp_phase_ns param /\
       pd_duty_cycle_ns d = Z.min (pp_duty_cycle_ns param) (pp_period_ns param) /\
       outputs lb d x (core (fabric (dev_world m')))).
Proof using Hops HC ML.
  intros Hm Hn Hno Hh Hx Hid Hpo He Hps H0.
  destruct (axi_pwm_init_run io lb base npwm version faulty core (devs m) (dev_world m) param e ref ch Hh Hx He Hps H0)
    as (r & desc & [h' w'] & Hrun & _ & _ & Hgood & Hres). cbn [fst snd] in *.
  destruct (slot_attach_ok n live m 0 (Some ops) (axi_pwm_init io lb (Some param)) (r, desc) h' w') as (m' & Hat & Hw & Hm');
    try done; [lia | |].
  { eapply axi_slot_promise; [done | | | naive_solver]; [| done].
    intros p [held Hp]. destruct (slots_live n live m Hm p held Hp) as (D0 & HD & _). by rewrite HD. }
  exists r, desc, m'. split.
  { unfold no_os_pwm_init, dispatch_init. rewrite Hpo, Hops. cbn [negb axi_pwm_ops pwm_ops_init]. by rewrite Hid. }
  split; [done |]. destruct Hres as [(-> & _) | (-> & -> & E1 & E2 & Hout)]; [by left | right]. split; [done |].
  destruct Hm' as (p & [= <-] & Hlp & Hm' & D0 & mutex & HD0 & _ & HD). rewrite E1, lookup_insert_eq in HD0. injection HD0 as <-.
  eexists _, _, _, _. split; [done |]. split; [done |]. split; [done |]. split; [exact HD |]. split; [done |].
  split; [done |]. rewrite Hw, E2, lookup_insert_eq. splits; done.
Qed.

(** *** Switching *)

(** The channel [x] of the descriptor [p] is on or off. *)
Definition axi_ready (p q : positive) (x : axi_pwm_desc) (b : bool) (s : platform no_os_pwm_desc (pwm_world V)) : Prop :=
  exists d, cells s.1 !! p = Some d /\ pd_extra d = Some q /\ cells (xdescs s.2) !! q = Some x /\
    (faulty = false -> pc_active (core (fabric s.2)) !! AXI_PWMGEN_CHX_PERIOD x (xd_channel x)
       = Some (if b then ch_period x else 0)).

Lemma pwm_st_id (h : heap no_os_pwm_desc) (w : pwm_world V) p q d x :
  cells h !! p = Some d -> cells (xdescs w) !! q = Some x ->
  st h (xdescs w) (xparams w) (words w) p q d x (fabric w) = (h, w).
Proof using. intros Hd Hx. unfold st. rewrite !insert_id by done. destruct h, w as [? [] ? ?]. done. Qed.

Lemma load_ready (period : axi_pwm_desc -> Z) p q x (b b' : bool) (s : platform no_os_pwm_desc (pwm_world V)) :
  xd_base_addr x = base -> 0 <= xd_channel x < AXI_PWMGEN_MAX_CHANNELS x -> period x = (if b' then ch_period x else 0) ->
  axi_ready p q x b s ->
  wp (load_period io (Some p) period) (fun _ s' => axi_ready p q x b' s' /\ cells s'.1 = cells s.1) s.
Proof using HC.
  intros Hb Hch Hper (d & Hd & Hq & Hx & _). destruct s as [h w]. cbn [fst snd] in *.
  pose proof (load_period_run io base npwm version faulty core h (xdescs w) (xparams w) (words w) p q period d x (fabric w) Hq Hb)
    as H. rewrite pwm_st_id in H by done. eapply sat_mono; [exact H |]. intros r s' (v' & -> & Hf & Hr).
  split; [| unfold st; cbn; by rewrite insert_id]. exists d. unfold st. cbn [fst snd cells xdescs fabric].
  rewrite !lookup_insert_eq. splits; try done. intros Hfl. rewrite (Hr (Hf Hfl)), core_write_load. cbn [pc_active].
  destruct (registers_apart x (xd_channel x) Hch) as (_ & _ & _ & Ha & _).
  rewrite core_write_channel by done. cbn [pc_regs]. by rewrite lookup_insert_eq, Hper.
Qed.

(** The promise to the layer. *)
Lemma axi_pwm_promise live p q x :
  xd_base_addr x = base -> 0 <= xd_channel x < AXI_PWMGEN_MAX_CHANNELS x ->
  pwm_promise driver ops (axi_ready p q x) live (Some p).
Proof using HC Hops.
  intros Hb Hch. split; rewrite Hops; (eexists; split; [reflexivity |]); intros b h w Hr.
  - pose proof (load_ready ch_period p q x b true (h, w) Hb Hch eq_refl Hr) as H. unfold triple in H.
    change (axi_pwm_enable io (Some p)) with (load_period io (Some p) ch_period).
    destruct (load_period io (Some p) _ _) as [[r [h' w']] | |]; [| done..]. destruct H as [H E].
    exists r, h', w'. splits; try done. intros d _. cbn in E. by rewrite E.
  - pose proof (load_ready (fun _ => AXI_PWMGEN_CHANNEL_DISABLE) p q x b false (h, w) Hb Hch eq_refl Hr) as H. unfold triple in H.
    change (axi_pwm_disable io (Some p)) with (load_period io (Some p) (fun _ => AXI_PWMGEN_CHANNEL_DISABLE)).
    destruct (load_period io (Some p) _ _) as [[r [h' w']] | |]; [| done..]. destruct H as [H E].
    exists r, h', w'. splits; try done. intros d _. cbn in E. by rewrite E.
Qed.

(** C23: a client of the layer that switches a channel on and off, never on twice,
    is served to the end, and the output is then as it was switched last: its
    period is the one that was set, or none.  With a real mutex, one that
    switches it on twice waits for ever. *)
Theorem axi_pwm_switched n live (m : mem) p d q x mutex on out l :
  slots_ok n live m -> live !! p = Some on -> cells (devs m) !! p = Some d ->
  pd_platform_ops d = Some ops -> pd_mutex d = Some mutex ->
  xd_base_addr x = base -> 0 <= xd_channel x < AXI_PWMGEN_MAX_CHANNELS x -> axi_ready p q x out (devs m, dev_world m) ->
  if never_twice on l
  then exists m', pwm_switch driver (Some p) l m = Done (tt, m') /\ slots_ok n (<[p := List.last l on]> live) m' /\
    (faulty = false -> pc_active (core (fabric (dev_world m'))) !! AXI_PWMGEN_CHX_PERIOD x (xd_channel x)
       = Some (if List.last l out then ch_period x else 0))
  else pwm_switch driver (Some p) l m = NoFuel.
Proof using HC Hops ML.
  intros Hm Hp Hd Ho Hmu Hb Hch Hr.
  pose proof (pwm_switch_run driver ops (axi_ready p q x) n live m p d mutex on out l Hm Hp Hd Ho Hmu
    (axi_pwm_promise (dom live) p q x Hb Hch) Hr) as H.
  destruct (never_twice on l); [| done]. destruct H as (m' & E & Hm' & (d' & _ & _ & _ & H)). by exists m'.
Qed.
End layer.

(** ** An instance *)

Definition xx_pwm_io (npwm version : Z) : axi_io pwm_core :=
  AxiIo
    (fun _ off c => Done ((0,
       if off =? AXI_PWMGEN_REG_NPWM then npwm else if off =? AXI_PWMGEN_REG_CORE_VERSION then version else
       if off =? AXI_PWMGEN_REG_CONFIG then Z.b2z (pc_held c) else default 0 (pc_regs c !! off)), c))
    (fun _ off v c => Done (0, core_write off v c)).

#[export] Instance xx_pwm_laws npwm version : PwmCoreLaws (xx_pwm_io npwm version) 0 npwm version false (fun c => c).
Proof.
  split.
  - intros off c. eexists _, _, c. split; [done |]. splits; try done. intros _. splits; try (by intros ->).
    intros ->. cbn. destruct (pc_regs c !! _); [by left | by right].
  - intros off x c. by eexists _, _.
Qed.

(** Version 2 with three channels, of which the last one is asked for: a period
    of 10 us and half of it, from 100 MHz. *)
Definition xx_pwm_param (id : Z) : no_os_pwm_init_param :=
  PwmParam id 10000 5000 0 NO_OS_PWM_POLARITY_HIGH None 0 None (Some 1%positive) (Some 1%positive).

Definition xx_pwm_driver (p : positive) : no_os_pwm_platform_ops (pwm_world pwm_core) := axi_pwm_ops (xx_pwm_io 3 0x20000) 32.

Definition xx_pwm_world : pwm_world pwm_core :=
  PwmWorld {[ 1%positive := AxiPwmInit 0 100000000 2 ]} (Heap ∅ 1 []) (Heap ∅ 1 []) (PwmCore ∅ ∅ true).

Definition xx_pwm_mem : slot_mem no_os_pwm_desc (freertos sim_kernel) (pwm_world pwm_core) :=
  SlotMem (replicate 5 None) (Heap ∅ 1 []) (Freertos (Heap ∅ 1 []) (SimKernel ∅)) xx_pwm_world.

Lemma axi_pwm_attached_witness :
  exists r desc m', no_os_pwm_init xx_pwm_driver (Some (xx_pwm_param 0)) xx_pwm_mem = Done ((r, desc), m') /\
    (false = false -> alloc_fails (devs xx_pwm_mem) = false -> alloc_fails (xdescs xx_pwm_world) = false ->
       r = if has_channel 3 0x20000 2 then 0 else -1) /\
    (r = -1 /\ slots_ok 5 ∅ m' \/
     r = 0 /\ exists p d q x, desc = Some p /\ (∅ : gmap positive bool) !! p = None /\ slots_ok 5 (<[p := false]> ∅) m' /\
       cells (devs m') !! p = Some d /\ pd_platform_ops d = Some 1%positive /\ pd_extra d = Some q /\
       cells (xdescs (dev_world m')) !! q = Some x /\ xd_base_addr x = 0 /\ xd_ref_clock_Hz x = 100000000 /\ xd_channel x = 2 /\
       pd_period_ns d = 10000 /\ pd_phase_ns d = 0 /\ pd_duty_cycle_ns d = Z.min 5000 10000 /\
       outputs 32 d x (fabric (dev_world m'))).
Proof.
  refine (axi_pwm_attached (xx_pwm_io 3 0x20000) 32 0 3 0x20000 false (fun c => c) xx_pwm_driver 1 eq_refl 5 ∅ xx_pwm_mem
    (xx_pwm_param 0) 1 100000000 2 (slots_ok_empty 5 _ _ _) ltac:(lia) _ _ _ eq_refl eq_refl eq_refl eq_refl ltac:(lia)).
  - intros d D0 [? Hd]. by apply lookup_empty_Some in Hd.
  - by intros p [? Hp].
  - by intros p [? Hp].
Defined.

(** A generator that is on. *)
Definition xx_pwm_x : axi_pwm_desc := AxiPwmDesc 0 100000000 2 1000 2.

Definition xx_pwm_on : slot_mem no_os_pwm_desc (freertos sim_kernel) (pwm_world pwm_core) :=
  SlotMem [Some 1%positive]
    (Heap {[ 1%positive := PwmDesc (Some 1%positive) 0 10000 5000 0 NO_OS_PWM_POLARITY_HIGH false None 0 None
               (Some 1%positive) (Some 1%positive) ]} 2 [])
    (Freertos (Heap {[ 1%positive := tt ]} 2 []) (SimKernel {[ 1%positive := true ]}))
    (PwmWorld ∅ (Heap {[ 1%positive := xx_pwm_x ]} 2 []) (Heap ∅ 1 [])
       (PwmCore {[ AXI_PWMGEN_CHX_PERIOD xx_pwm_x 2 := 1000 ]} {[ AXI_PWMGEN_CHX_PERIOD xx_pwm_x 2 := 1000 ]} false)).

Lemma xx_pwm_on_ok : slots_ok 1 {[ 1%positive := false ]} xx_pwm_on.
Proof.
  split.
  - done.
  - intros d held [<- <-]%lookup_singleton_Some. eexists. split; [reflexivity |]. splits; by try eexists.
  - intros d1 d2 D1 D2 [? [-> _]%lookup_singleton_Some] [? [-> _]%lookup_singleton_Some]. done.
  - intros i q Hi. cbn in Hi. destruct i as [|]; [| done]. eexists 1%positive, _. splits; try reflexivity. by eexists.
  - intros i j q Hi Hj. destruct i, j; done.
Qed.

(** Off and on again. *)
Lemma axi_pwm_switched_witness :
  exists m', pwm_switch xx_pwm_driver (Some 1%positive) [false; true; false] xx_pwm_on = Done (tt, m') /\
    slots_ok 1 (<[1%positive := false]> {[ 1%positive := false ]}) m' /\
    (false = false -> pc_active (fabric (dev_world m')) !! AXI_PWMGEN_CHX_PERIOD xx_pwm_x (xd_channel xx_pwm_x) = Some 0).
Proof.
  refine (axi_pwm_switched (xx_pwm_io 3 0x20000) 32 0 3 0x20000 false (fun c => c) xx_pwm_driver 1 eq_refl 1 _ xx_pwm_on
    1 _ 1 xx_pwm_x 1 false true [false; true; false] xx_pwm_on_ok eq_refl eq_refl eq_refl eq_refl eq_refl _ _).
  - cbn. lia.
  - eexists. by splits.
Defined.

(** *** What goes wrong *)

(** Initialised, removed, initialised and switched on, as the device [id]. *)
Definition xx_pwm_again (id : Z) : outcome Z :=
  match (r ← no_os_pwm_init xx_pwm_driver (Some (xx_pwm_param id));
         _ ← no_os_pwm_remove xx_pwm_driver r.2;
         r ← no_os_pwm_init xx_pwm_driver (Some (xx_pwm_param id));
         no_os_pwm_enable xx_pwm_driver r.2) xx_pwm_mem with
  | Done (r, _) => Done r
  | Undef => Undef
  | NoFuel => NoFuel
  end.

(** [axi_pwm_init] leaves the number of the device 0: removing device 1 deletes
    its mutex and clears the entry of device 0, and the next device 1 is given
    the mutex that is deleted. *)
Example axi_pwm_device_0 : xx_pwm_again 0 = Done 0.
Proof. vm_compute. reflexivity. Qed.

Example axi_pwm_device_1 : xx_pwm_again 1 = Undef.
Proof. vm_compute. reflexivity. Qed.

(** The period register after a period of 20 us is set on a running channel: the
    descriptor is never marked as enabled. *)
Example axi_pwm_period_lost :
  match (r ← no_os_pwm_init xx_pwm_driver (Some (xx_pwm_param 0));
         no_os_pwm_set_period xx_pwm_driver r.2 20000) xx_pwm_mem with
  | Done (r, m) => r = 0 /\ pc_regs (fabric (dev_world m)) !! AXI_PWMGEN_CHX_PERIOD xx_pwm_x 2 = Some 0
  | _ => False
  end.
Proof. vm_compute. done. Qed.
