(* ===== verification/Peripherals.v ===== *)
(** * MDIO, TRNG, EEPROM and TDM: [drivers/api/no_os_mdio.c],
    [no_os_trng.c], [no_os_eeprom.c], [no_os_tdm.c]

    Four layers that check and call, one module each. *)
From S2P Require Import Prelude Mutex Bus Dispatch.

(** ** MDIO *)

Module Mdio.
Record no_os_mdio_init_param : Type := MdioParam {
  mp_id : Z;
  mp_c45 : bool;
  mp_addr : Z;
  mp_ops : ptr;
  mp_extra : ptr
}.

Record no_os_mdio_desc : Type := MdioDesc {
  md_id : Z;
  md_c45 : bool;
  md_addr : Z;
  md_ops : ptr;
  md_extra : ptr
}.

Record no_os_mdio_ops (W : Type) : Type := MdioOps {
  mdio_init : option (no_os_mdio_init_param -> cmd (platform no_os_mdio_desc W) (Z * ptr));
  mdio_write : option (ptr -> Z -> Z -> cmd (platform no_os_mdio_desc W) Z);
  mdio_read : option (ptr -> Z -> ptr -> cmd (platform no_os_mdio_desc W) Z);
  mdio_remove : option (ptr -> cmd (platform no_os_mdio_desc W) Z)
}.
Arguments MdioOps {W} _ _ _ _.
Arguments mdio_init {W} _.
Arguments mdio_write {W} _.
Arguments mdio_read {W} _.
Arguments mdio_remove {W} _.

Section mdio.
  Context {W : Type} (driver : positive -> no_os_mdio_ops W).
  Abbreviation mem := (platform no_os_mdio_desc W).

Definition no_os_mdio_init (param : option no_os_mdio_init_param) : cmd mem (Z * ptr) :=
  dispatch_init mp_ops driver mdio_init param (fun _ => true)
    (fun p f => init_with (f p) (fun desc => dev_update desc (fun d =>
       MdioDesc (mp_id p) (mp_c45 p) (mp_addr p) (mp_ops p) (md_extra d)))).

Definition no_os_mdio_remove (desc : ptr) : cmd mem Z :=
  dispatch dev_load md_ops driver mdio_remove desc true (fun f => f desc).

Definition no_os_mdio_write (desc : ptr) (reg val : Z) : cmd mem Z :=
  dispatch dev_load md_ops driver mdio_write desc true (fun f => f desc reg val).

Definition no_os_mdio_read (desc : ptr) (reg : Z) (val : ptr) : cmd mem Z :=
  dispatch dev_load md_ops driver mdio_read desc true (fun f => f desc reg val).
End mdio.
End Mdio.

(** ** Random numbers *)

Module Trng.
Record no_os_trng_desc : Type := TrngDesc { gd_platform_ops : ptr; gd_extra : ptr }.

Record no_os_trng_init_param : Type := TrngParam {
  gp_dev_id : Z;
  gp_extra : ptr;
  gp_platform_ops : ptr
}.

Record no_os_trng_platform_ops (W : Type) : Type := TrngOps {
  trng_init : option (no_os_trng_init_param -> cmd (platform no_os_trng_desc W) (Z * ptr));
  trng_fill_buffer : option (ptr -> ptr -> Z -> cmd (platform no_os_trng_desc W) Z);
  trng_remove : option (ptr -> cmd (platform no_os_trng_desc W) Z)
}.
Arguments TrngOps {W} _ _ _.
Arguments trng_init {W} _.
Arguments trng_fill_buffer {W} _.
Arguments trng_remove {W} _.

Section trng.
  Context {W : Type} (driver : positive -> no_os_trng_platform_ops W).
  Abbreviation mem := (platform no_os_trng_desc W).

Definition no_os_trng_init (param : option no_os_trng_init_param) : cmd mem (Z * ptr) :=
  dispatch_init gp_platform_ops driver trng_init param (fun _ => true)
    (fun p f => init_with (f p) (fun desc => dev_update desc (fun d =>
       TrngDesc (gp_platform_ops p) (gd_extra d)))).

Definition no_os_trng_remove (desc : ptr) : cmd mem Z :=
  dispatch dev_load gd_platform_ops driver trng_remove desc true (fun f => f desc).

Definition no_os_trng_fill_buffer (desc buff : ptr) (len : Z) : cmd mem Z :=
  dispatch dev_load gd_platform_ops driver trng_fill_buffer desc true (fun f => f desc buff len).
End trng.
End Trng.

(** ** EEPROM *)

Module Eeprom.
Record no_os_eeprom_init_param : Type := EepromParam {
  ep_device_id : Z;
  ep_platform_ops : ptr;
  ep_extra : ptr
}.

Record no_os_eeprom_desc : Type := EepromDesc {
  ed_device_id : Z;
  ed_platform_ops : ptr;
  ed_extra : ptr
}.

Record no_os_eeprom_platform_ops (W : Type) : Type := EepromOps {
  eeprom_init : option (no_os_eeprom_init_param -> cmd (platform no_os_eeprom_desc W) (Z * ptr));
  eeprom_write : option (ptr -> Z -> ptr -> Z -> cmd (platform no_os_eeprom_desc W) Z);
  eeprom_read : option (ptr -> Z -> ptr -> Z -> cmd (platform no_os_eeprom_desc W) Z);
  eeprom_remove : option (ptr -> cmd (platform no_os_eeprom_desc W) Z)
}.
Arguments EepromOps {W} _ _ _ _.
Arguments eeprom_init {W} _.
Arguments eeprom_write {W} _.
Arguments eeprom_read {W} _.
Arguments eeprom_remove {W} _.

Section eeprom.
  Context {W : Type} (driver : positive -> no_os_eeprom_platform_ops W).
  Abbreviation mem := (platform no_os_eeprom_desc W).

Definition no_os_eeprom_init (param : option no_os_eeprom_init_param) : cmd mem (Z * ptr) :=
  dispatch_init ep_platform_ops driver eeprom_init param (fun _ => true)
    (fun p f => init_with (f p) (fun desc => dev_update desc (fun d =>
       EepromDesc (ed_device_id d) (ep_platform_ops p) (ed_extra d)))).

Definition no_os_eeprom_remove (desc : ptr) : cmd mem Z :=
  dispatch dev_load ed_platform_ops driver eeprom_remove desc true (fun f => f desc).

Definition no_os_eeprom_write (desc : ptr) (address : Z) (data : ptr) (bytes : Z) : cmd mem Z :=
  dispatch dev_load ed_platform_ops driver eeprom_write desc (present data)
    (fun f => f desc address data bytes).

Definition no_os_eeprom_read (desc : ptr) (address : Z) (data : ptr) (bytes : Z) : cmd mem Z :=
  dispatch dev_load ed_platform_ops driver eeprom_read desc (present data)
    (fun f => f desc address data bytes).
End eeprom.
End Eeprom.

(** ** TDM: nothing but the parameter of [init] is checked *)

Module Tdm.
Inductive no_os_tdm_mode : Type :=
  | NO_OS_TDM_MASTER_TX
  | NO_OS_TDM_MASTER_RX
  | NO_OS_TDM_SLAVE_TX
  | NO_OS_TDM_SLAVE_RX.

Record no_os_tdm_init_param : Type := TdmParam {
  dp_mode : no_os_tdm_mode;
  dp_data_size : Z;
  dp_data_offset : Z;
  dp_data_lsb_first : bool;
  dp_slots_per_frame : Z;
  dp_fs_active_low : bool;
  dp_fs_active_length : Z;
  dp_fs_lastbit : bool;
  dp_rising_edge_sampling : bool;
  dp_irq_id : Z;
  dp_rx_complete_callback : ptr;
  dp_rx_half_complete_callback : ptr;
  dp_platform_ops : ptr;
  dp_extra : ptr
}.

Record no_os_tdm_desc : Type := TdmDesc {
  dd_irq_id : Z;
  dd_platform_ops : ptr;
  dd_rx_fifo : ptr;
  dd_extra : ptr
}.

Record no_os_tdm_platform_ops (W : Type) : Type := TdmOps {
  tdm_ops_init : option (no_os_tdm_init_param -> cmd (platform no_os_tdm_desc W) (Z * ptr));
  tdm_ops_read : option (ptr -> ptr -> Z -> cmd (platform no_os_tdm_desc W) Z);
  tdm_ops_write : option (ptr -> ptr -> Z -> cmd (platform no_os_tdm_desc W) Z);
  tdm_ops_pause : option (ptr -> cmd (platform no_os_tdm_desc W) Z);
  tdm_ops_resume : option (ptr -> cmd (platform no_os_tdm_desc W) Z);
  tdm_ops_stop : option (ptr -> cmd (platform no_os_tdm_desc W) Z);
  tdm_ops_remove : option (ptr -> cmd (platform no_os_tdm_desc W) Z)
}.
Arguments TdmOps {W} _ _ _ _ _ _ _.
Arguments tdm_ops_init {W} _.
Arguments tdm_ops_read {W} _.
Arguments tdm_ops_write {W} _.
Arguments tdm_ops_pause {W} _.
Arguments tdm_ops_resume {W} _.
Arguments tdm_ops_stop {W} _.
Arguments tdm_ops_remove {W} _.

Section tdm.
  Context {W : Type} (driver : positive -> no_os_tdm_platform_ops W).
  Abbreviation mem := (platform no_os_tdm_desc W).

Definition no_os_tdm_init (param : option no_os_tdm_init_param) : cmd mem (Z * ptr) :=
  match param with
  | None => mret (-1, None)
  | Some p =>
      ops ← the (dp_platform_ops p);
      f ← the (tdm_ops_init (driver ops));
      r ← f p;
      if truthy r.1 then mret (-1, r.2) else
      _ ← dev_update r.2 (fun d =>
            TdmDesc (dd_irq_id d) (dp_platform_ops p) (dd_rx_fifo d) (dd_extra d));
      mret (0, r.2)
  end.

(** [desc->platform_ops->op]: a null pointer on the way is undefined. *)
Definition tdm_call {F} (sel : no_os_tdm_platform_ops W -> option F) (desc : ptr)
    (k : F -> cmd mem Z) : cmd mem Z :=
  d ← dev_load desc;
  ops ← the (dd_platform_ops d);
  f ← the (sel (driver ops));
  k f.

Definition no_os_tdm_remove (desc : ptr) : cmd mem Z := tdm_call tdm_ops_remove desc (fun f => f desc).

Definition no_os_tdm_read (desc data : ptr) (nb_samples : Z) : cmd mem Z :=
  tdm_call tdm_ops_read desc (fun f => f desc data nb_samples).

Definition no_os_tdm_pause (desc : ptr) : cmd mem Z := tdm_call tdm_ops_pause desc (fun f => f desc).

Definition no_os_tdm_resume (desc : ptr) : cmd mem Z := tdm_call tdm_ops_resume desc (fun f => f desc).

Definition no_os_tdm_stop (desc : ptr) : cmd mem Z := tdm_call tdm_ops_stop desc (fun f => f desc).

Definition no_os_tdm_write (desc data : ptr) (nb_samples : Z) : cmd mem Z :=
  tdm_call tdm_ops_write desc (fun f => f desc data nb_samples).
End tdm.
End Tdm.
