(* ===== verification/Clk.v ===== *)
(** * Clocks: [util/no_os_clk.c]

    A clock descriptor of the layer, over a platform or a device driver that
    provides the clock. *)
From S2P Require Import Prelude Mutex Bus Dispatch.

(** ** Data *)

Record no_os_clk_init_param : Type := ClkParam {
  kp_name : ptr;
  kp_hw_ch_num : Z;
  kp_platform_ops : ptr;
  kp_dev_desc : ptr
}.

Record no_os_clk_desc : Type := ClkDesc {
  kd_name : ptr;
  kd_hw_ch_num : Z;
  kd_platform_ops : ptr;
  kd_dev_desc : ptr
}.

(** [clk_init] gets what [*desc] holds and returns what it leaves there. *)
Record no_os_clk_platform_ops (W : Type) : Type := ClkOps {
  clk_init : option (ptr -> no_os_clk_init_param -> cmd (platform no_os_clk_desc W) (Z * ptr));
  clk_enable : option (ptr -> cmd (platform no_os_clk_desc W) Z);
  clk_disable : option (ptr -> cmd (platform no_os_clk_desc W) Z);
  clk_recalc_rate : option (ptr -> ptr -> cmd (platform no_os_clk_desc W) Z);
  clk_round_rate : option (ptr -> Z -> ptr -> cmd (platform no_os_clk_desc W) Z);
  clk_set_rate : option (ptr -> Z -> cmd (platform no_os_clk_desc W) Z);
  clk_remove : option (ptr -> cmd (platform no_os_clk_desc W) Z)
}.
Arguments ClkOps {W} _ _ _ _ _ _ _.
Arguments clk_init {W} _.
Arguments clk_enable {W} _.
Arguments clk_disable {W} _.
Arguments clk_recalc_rate {W} _.
Arguments clk_round_rate {W} _.
Arguments clk_set_rate {W} _.
Arguments clk_remove {W} _.

(** ** Operations *)

Section clk.
  Context {W : Type} (driver : positive -> no_os_clk_platform_ops W).
  Abbreviation mem := (platform no_os_clk_desc W).

Definition on_clks {A} : cmd (heap no_os_clk_desc) A -> cmd mem A := zoom fst (fun h s => (h, s.2)).

(** [desc] is what [*desc] holds, or none for a null [desc]; the result is the
    return code and what [*desc] holds at the end. *)
Definition no_os_clk_init (desc : option ptr) (param : option no_os_clk_init_param) :
  cmd mem (Z * ptr) :=
  match desc, param with
  | Some desc, Some param =>
      match kp_platform_ops param with
      | None => mret (- EINVAL, desc)
      | Some ops =>
          clk ← on_clks (halloc (ClkDesc (kp_name param) (kp_hw_ch_num param) (kp_platform_ops param)
                  (kp_dev_desc param)));
          match clk with
          | None => mret (- ENOMEM, desc)
          | Some _ =>
              match clk_init (driver ops) with
              | None => mret (0, clk)
              | Some f =>
                  r ← f desc param;
                  if truthy r.1 then
                    _ ← on_clks (hfree clk); mret r
                  else mret (0, clk)
              end
          end
      end
  | _, _ => mret (- EINVAL, default None desc)
  end.

(** [if (!desc || !desc->platform_ops) return -EINVAL;] *)
Definition no_os_clk_remove (desc : ptr) : cmd mem Z :=
  match desc with
  | None => mret (- EINVAL)
  | Some _ =>
      d ← dev_load desc;
      match kd_platform_ops d with
      | None => mret (- EINVAL)
      | Some ops =>
          ret ← match clk_remove (driver ops) with Some f => f desc | None => mret 0 end;
          if truthy ret then mret ret else
          _ ← on_clks (hfree desc); mret 0
      end
  end.

Definition no_os_clk_enable (desc : ptr) : cmd mem Z :=
  dispatch dev_load kd_platform_ops driver clk_enable desc true (fun f => f desc).

Definition no_os_clk_disable (desc : ptr) : cmd mem Z :=
  dispatch dev_load kd_platform_ops driver clk_disable desc true (fun f => f desc).

Definition no_os_clk_recalc_rate (desc rate : ptr) : cmd mem Z :=
  dispatch dev_load kd_platform_ops driver clk_recalc_rate desc (present rate) (fun f => f desc rate).

Definition no_os_clk_round_rate (desc : ptr) (rate : Z) (rounded_rate : ptr) : cmd mem Z :=
  dispatch dev_load kd_platform_ops driver clk_round_rate desc (present rounded_rate)
    (fun f => f desc rate rounded_rate).

Definition no_os_clk_set_rate (desc : ptr) (rate : Z) : cmd mem Z :=
  dispatch dev_load kd_platform_ops driver clk_set_rate desc true (fun f => f desc rate).
End clk.
