(* ===== verification/Dma.v ===== *)
(** * DMA controllers: [drivers/api/no_os_dma.c]

    A controller has an array of channels, each with a queue of transfers (a
    list of [NoosList]) and a mutex.  The handler of the channel's interrupt
    takes the transfers from the queue one by one.  The platform, its interrupt
    controller and the users' completion callbacks are parameters. *)
From S2P Require Import Prelude Mutex Bus Dispatch Irq NoosList.

(** ** Data *)

(** [enum no_os_dma_xfer_type], an [int] like every enumeration of C. *)
Definition MEM_TO_MEM : Z := 0.
Definition MEM_TO_DEV : Z := 1.
Definition DEV_TO_MEM : Z := 2.

(** A [struct no_os_dma_ch *]: an array of channels and an index. *)
Abbreviation ch_ptr := (option (positive * Z)).

Record no_os_dma_default_handler_data : Type := HandlerData {
  hd_desc : ptr;
  hd_channel : ch_ptr;
  hd_extra : ptr
}.

(** Addresses of data are integers, those of functions and contexts are names. *)
Record no_os_dma_xfer_desc : Type := XferDesc {
  xf_src : Z;
  xf_dst : Z;
  xf_length : Z;
  xf_type : Z;
  xf_complete_cb : ptr;
  xf_complete_ctx : ptr;
  xf_irq_priority : Z;
  xf_periph : no_os_irq_peripheral;
  xf_extra : ptr
}.

Record no_os_dma_ch : Type := DmaCh {
  ch_id : Z;
  ch_free : bool;
  ch_sg_list : desc_ref;
  ch_irq_num : Z;
  ch_irq_ctx : no_os_dma_default_handler_data;
  ch_extra : ptr;
  ch_mutex : ptr;
  ch_sync_lock : bool
}.

Record no_os_dma_desc : Type := DmaDesc {
  dd_id : Z;
  dd_num_ch : Z;
  dd_channels : ptr;
  dd_platform_ops : ptr;
  dd_irq_ctrl : ptr;
  dd_extra : ptr;
  dd_ref : Z;
  dd_mutex : ptr;
  dd_sg_handler : ptr
}.

Record no_os_dma_init_param : Type := DmaParam {
  dp_id : Z;
  dp_num_ch : Z;
  dp_platform_ops : ptr;
  dp_extra : ptr;
  dp_sg_handler : ptr;
  dp_ctx : ptr
}.

(** What the platform and the callbacks work on: the descriptors and the
    channels, the transfers at their addresses (in units of a transfer, 0 is
    [NULL]), and a world of their own. *)
Record dma_side (W : Type) : Type := DmaSide {
  dma_descs : heap no_os_dma_desc;
  dma_chs : heap (list no_os_dma_ch);
  dma_xfers : gmap Z no_os_dma_xfer_desc;
  dma_world : W
}.
Arguments DmaSide {W} _ _ _ _.
Arguments dma_descs {W} _.
Arguments dma_chs {W} _.
Arguments dma_xfers {W} _.
Arguments dma_world {W} _.

Record no_os_dma_platform_ops (W : Type) : Type := DmaOps {
  dma_init : option (no_os_dma_init_param -> cmd (dma_side W) (Z * ptr));
  dma_remove : option (ptr -> cmd (dma_side W) Z);
  dma_acquire_ch : option (ptr -> cmd (dma_side W) (Z * Z));
  dma_release_ch : option (ptr -> Z -> cmd (dma_side W) Z);
  dma_config_xfer : option (ch_ptr -> Z -> cmd (dma_side W) Z);
  dma_xfer_start : option (ptr -> ch_ptr -> cmd (dma_side W) Z);
  dma_xfer_abort : option (ptr -> ch_ptr -> cmd (dma_side W) Z);
  dma_ch_in_progress : option (ptr -> ch_ptr -> cmd (dma_side W) bool)
}.
Arguments DmaOps {W} _ _ _ _ _ _ _ _.
Arguments dma_init {W} _.
Arguments dma_remove {W} _.
Arguments dma_acquire_ch {W} _.
Arguments dma_release_ch {W} _.
Arguments dma_config_xfer {W} _.
Arguments dma_xfer_start {W} _.
Arguments dma_xfer_abort {W} _.
Arguments dma_ch_in_progress {W} _.

(** ** Memory *)

Record dma_mem (M W : Type) : Type := DmaMem {
  side : dma_side W;
  sg_lists : list_mem;
  irq_descs : heap no_os_irq_ctrl_desc;
  dma_mutexes : M
}.
Arguments DmaMem {M W} _ _ _ _.
Arguments side {M W} _.
Arguments sg_lists {M W} _.
Arguments irq_descs {M W} _.
Arguments dma_mutexes {M W} _.

Definition set_world {W} (w : W) (s : dma_side W) : dma_side W :=
  DmaSide (dma_descs s) (dma_chs s) (dma_xfers s) w.

(** The address of a channel's [irq_ctx]. *)
Definition irq_ctx_addr (ch : ch_ptr) : ptr := encode <$> ch.

(** [&desc->channels[i]] *)
Definition chan_at (channels : ptr) (i : Z) : ch_ptr := (fun b => (b, i)) <$> channels.

Definition set_sg_list (l : desc_ref) (c : no_os_dma_ch) : no_os_dma_ch :=
  DmaCh (ch_id c) (ch_free c) l (ch_irq_num c) (ch_irq_ctx c) (ch_extra c) (ch_mutex c)
    (ch_sync_lock c).

Definition set_ch_mutex (p : ptr) (c : no_os_dma_ch) : no_os_dma_ch :=
  DmaCh (ch_id c) (ch_free c) (ch_sg_list c) (ch_irq_num c) (ch_irq_ctx c) (ch_extra c) p
    (ch_sync_lock c).

Definition set_free (b : bool) (c : no_os_dma_ch) : no_os_dma_ch :=
  DmaCh (ch_id c) b (ch_sg_list c) (ch_irq_num c) (ch_irq_ctx c) (ch_extra c) (ch_mutex c)
    (ch_sync_lock c).

Definition set_sync_lock (b : bool) (c : no_os_dma_ch) : no_os_dma_ch :=
  DmaCh (ch_id c) (ch_free c) (ch_sg_list c) (ch_irq_num c) (ch_irq_ctx c) (ch_extra c)
    (ch_mutex c) b.

(** [ch->irq_ctx.desc = desc; ch->irq_ctx.channel = ch;] *)
Definition set_irq_ctx (desc : ptr) (ch : ch_ptr) (c : no_os_dma_ch) : no_os_dma_ch :=
  DmaCh (ch_id c) (ch_free c) (ch_sg_list c) (ch_irq_num c)
    (HandlerData desc ch (hd_extra (ch_irq_ctx c))) (ch_extra c) (ch_mutex c) (ch_sync_lock c).

Definition set_dd_ops (p : ptr) (d : no_os_dma_desc) : no_os_dma_desc :=
  DmaDesc (dd_id d) (dd_num_ch d) (dd_channels d) p (dd_irq_ctrl d) (dd_extra d) (dd_ref d)
    (dd_mutex d) (dd_sg_handler d).

Definition set_dd_ref (n : Z) (d : no_os_dma_desc) : no_os_dma_desc :=
  DmaDesc (dd_id d) (dd_num_ch d) (dd_channels d) (dd_platform_ops d) (dd_irq_ctrl d) (dd_extra d)
    n (dd_mutex d) (dd_sg_handler d).

Definition set_dd_mutex (p : ptr) (d : no_os_dma_desc) : no_os_dma_desc :=
  DmaDesc (dd_id d) (dd_num_ch d) (dd_channels d) (dd_platform_ops d) (dd_irq_ctrl d) (dd_extra d)
    (dd_ref d) p (dd_sg_handler d).

(** ** Operations *)

Section dma.
  Context {M W : Type} {MM : Mutex M}.
  Context (driver : positive -> no_os_dma_platform_ops W).
  Context (irq_driver : positive -> no_os_irq_platform_ops W).
  (** The users' callbacks, and the address of [default_sg_callback]. *)
  Context (complete : positive -> Z -> Z -> ptr -> cmd (dma_side W) unit).
  Context (default_handler : positive).
  (** What the uninitialised [mutex] of [no_os_dma_init] happens to hold. *)
  Context (garbage : ptr).
  Abbreviation mem := (dma_mem M W).

Definition on_side {A} : cmd (dma_side W) A -> cmd mem A :=
  zoom side (fun s m => DmaMem s (sg_lists m) (irq_descs m) (dma_mutexes m)).

Definition on_sg {A} : cmd list_mem A -> cmd mem A :=
  zoom sg_lists (fun l m => DmaMem (side m) l (irq_descs m) (dma_mutexes m)).

Definition on_irq {A} : cmd (platform no_os_irq_ctrl_desc W) A -> cmd mem A :=
  zoom (fun m => (irq_descs m, dma_world (side m)))
       (fun p m => DmaMem (set_world p.2 (side m)) (sg_lists m) p.1 (dma_mutexes m)).

Definition on_mutex {A} : cmd M A -> cmd mem A :=
  zoom dma_mutexes (fun x m => DmaMem (side m) (sg_lists m) (irq_descs m) x).

Definition on_descs {A} : cmd (heap no_os_dma_desc) A -> cmd mem A :=
  zoom (fun m => dma_descs (side m))
    (fun h m => DmaMem (DmaSide h (dma_chs (side m)) (dma_xfers (side m)) (dma_world (side m)))
                  (sg_lists m) (irq_descs m) (dma_mutexes m)).

Definition on_chs {A} : cmd (heap (list no_os_dma_ch)) A -> cmd mem A :=
  zoom (fun m => dma_chs (side m))
    (fun h m => DmaMem (DmaSide (dma_descs (side m)) h (dma_xfers (side m)) (dma_world (side m)))
                  (sg_lists m) (irq_descs m) (dma_mutexes m)).

Definition load_dma (desc : ptr) : cmd mem no_os_dma_desc := on_descs (hload desc).

Definition update_dma (desc : ptr) (f : no_os_dma_desc -> no_os_dma_desc) : cmd mem unit :=
  d ← load_dma desc; on_descs (hstore desc (f d)).

Definition load_ch (ch : ch_ptr) : cmd mem no_os_dma_ch :=
  x ← the ch;
  a ← on_chs (hload (Some x.1));
  if x.2 <? 0 then undef else the (a !! Z.to_nat x.2).

Definition update_ch (ch : ch_ptr) (f : no_os_dma_ch -> no_os_dma_ch) : cmd mem unit :=
  c ← load_ch ch;
  x ← the ch;
  a ← on_chs (hload (Some x.1));
  on_chs (hstore (Some x.1) (<[Z.to_nat x.2 := f c]> a)).

Definition load_xfer (xfer : Z) : cmd mem no_os_dma_xfer_desc := fun m =>
  the (dma_xfers (side m) !! xfer) m.

(** [context] points to the [irq_ctx] of a channel. *)
Definition load_data (context : ptr) : cmd mem no_os_dma_default_handler_data :=
  ch ← the (context ≫= decode);
  c ← load_ch (Some ch);
  mret (ch_irq_ctx c).

(** [desc->platform_ops->op], without a check. *)
Definition dma_op {F} (sel : no_os_dma_platform_ops W -> option F) (desc : ptr) : cmd mem F :=
  d ← load_dma desc;
  ops ← the (dd_platform_ops d);
  the (sel (driver ops)).

Definition ch_lock (ch : ch_ptr) : cmd mem unit :=
  c ← load_ch ch; on_mutex (no_os_mutex_lock (ch_mutex c)).

Definition ch_unlock (ch : ch_ptr) : cmd mem unit :=
  c ← load_ch ch; on_mutex (no_os_mutex_unlock (ch_mutex c)).

Definition dma_dispatch {F} (sel : no_os_dma_platform_ops W -> option F) (desc : ptr)
    (valid : bool) (k : F -> cmd mem Z) : cmd mem Z :=
  dispatch load_dma dd_platform_ops driver sel desc valid k.

Definition no_os_dma_xfer_start (desc : ptr) (ch : ch_ptr) : cmd mem Z :=
  dma_dispatch dma_xfer_start desc (present ch) (fun f =>
    _ ← ch_lock ch;
    d ← load_dma desc;
    _ ← match dd_irq_ctrl d with
        | Some _ =>
            c ← load_ch ch;
            on_irq (no_os_irq_enable irq_driver (dd_irq_ctrl d) (ch_irq_num c))
        | None => mret 0
        end;
    ret ← on_side (f desc ch);
    _ ← ch_unlock ch;
    mret ret).

(** [do ret = no_os_list_get_first(...); while (!ret);] *)
Definition discard_step (ch : ch_ptr) (_ : unit) : cmd mem (unit + unit) :=
  c ← load_ch ch;
  r ← on_sg (no_os_list_get_first (ch_sg_list c) false);
  mret (if truthy r.1 then inr tt else inl tt).

Definition no_os_dma_xfer_abort (fuel : nat) (desc : ptr) (ch : ch_ptr) : cmd mem Z :=
  dma_dispatch dma_xfer_abort desc (present ch) (fun f =>
    _ ← ch_lock ch;
    d ← load_dma desc;
    _ ← match dd_irq_ctrl d with
        | Some _ =>
            c ← load_ch ch;
            on_irq (no_os_irq_disable irq_driver (dd_irq_ctrl d) (ch_irq_num c))
        | None => mret 0
        end;
    _ ← loop fuel (discard_step ch) tt;
    ret ← on_side (f desc ch);
    _ ← ch_unlock ch;
    mret ret).

(** The handler of the interrupt that tells that a transfer is complete. *)
Definition default_sg_callback (fuel : nat) (context : ptr) : cmd mem unit :=
  data ← load_data context;
  c ← load_ch (hd_channel data);
  r ← on_sg (no_os_list_get_first (ch_sg_list c) false);
  if truthy r.1
  then _ ← no_os_dma_xfer_abort fuel (hd_desc data) (hd_channel data); mret tt
  else
  old_xfer ← the r.2;
  r ← on_sg (no_os_list_read_first (ch_sg_list c) false);
  next_xfer ← the r.2;
  r ← on_sg (no_os_list_get_size (ch_sg_list c) false);
  list_size ← the r.2;
  x ← load_xfer old_xfer;
  _ ← match xf_complete_cb x with
      | Some f => on_side (complete f old_xfer next_xfer (xf_complete_ctx x))
      | None => mret tt
      end;
  data ← load_data context;
  if negb (truthy list_size) then
    d ← load_dma (hd_desc data);
    c ← load_ch (hd_channel data);
    _ ← on_irq (no_os_irq_disable irq_driver (dd_irq_ctrl d) (ch_irq_num c));
    update_ch (hd_channel data) (set_free true)
  else
    f ← dma_op dma_config_xfer (hd_desc data);
    _ ← on_side (f (hd_channel data) next_xfer);
    data ← load_data context;
    _ ← no_os_dma_xfer_start (hd_desc data) (hd_channel data);
    mret tt.

(** The loop of [no_os_dma_remove] has the list of the first channel for every
    channel. *)
Fixpoint remove_channels (fuel n : nat) (i : Z) (desc : ptr) : cmd mem Z :=
  match n with
  | O => mret 0
  | S n =>
      d ← load_dma desc;
      c ← load_ch (chan_at (dd_channels d) 0);
      ret ← on_sg (no_os_list_remove fuel (ch_sg_list c));
      if truthy ret then mret ret else
      c ← load_ch (chan_at (dd_channels d) i);
      _ ← on_mutex (no_os_mutex_remove (ch_mutex c));
      remove_channels fuel n (i + 1) desc
  end.

Definition no_os_dma_remove (fuel : nat) (desc : ptr) : cmd mem Z :=
  match desc with
  | None => mret (- EINVAL)
  | Some _ =>
      d ← load_dma desc;
      if negb (truthy (dd_ref d)) then mret 0 else
      ret ← remove_channels fuel (Z.to_nat (dd_num_ch d)) 0 desc;
      if truthy ret then mret ret else
      d ← load_dma desc;
      _ ← on_mutex (no_os_mutex_remove (dd_mutex d));
      f ← dma_op dma_remove desc;
      ret ← on_side (f desc);
      if truthy ret then mret ret else
      _ ← update_dma desc (fun d => set_dd_ref (u32 (dd_ref d - 1)) d);
      mret 0
  end.

(** The loop of [no_os_dma_init]: the return code and the index it ends at. *)
Fixpoint init_channels (n : nat) (i : Z) (desc : ptr) : cmd mem (Z * Z) :=
  match n with
  | O => mret (0, i)
  | S n =>
      d ← load_dma desc;
      r ← on_sg (no_os_list_init false NO_OS_LIST_QUEUE None);
      if truthy r.1 then mret (r.1, i) else
      _ ← update_ch (chan_at (dd_channels d) i) (set_sg_list r.2);
      c ← load_ch (chan_at (dd_channels d) i);
      mutex ← on_mutex (no_os_mutex_init (ch_mutex c));
      _ ← update_ch (chan_at (dd_channels d) i) (set_ch_mutex mutex);
      init_channels n (i + 1) desc
  end.

(** The result is the return code and what [*desc] was set to. *)
Definition no_os_dma_init (fuel : nat) (param : option no_os_dma_init_param) : cmd mem (Z * ptr) :=
  dispatch_init dp_platform_ops driver dma_init param (fun _ => true) (fun param init =>
    mutex ← on_mutex (no_os_mutex_init garbage);
    _ ← on_mutex (no_os_mutex_lock mutex);
    r ← on_side (init param);
    let desc := r.2 in
    if truthy r.1 then _ ← on_mutex (no_os_mutex_unlock mutex); mret r else
    d ← load_dma desc;
    dmutex ← on_mutex (no_os_mutex_init (dd_mutex d));
    _ ← update_dma desc (set_dd_mutex dmutex);
    _ ← update_dma desc (set_dd_ops (dp_platform_ops param));
    l ← init_channels (Z.to_nat (dp_num_ch param)) 0 desc;
    if truthy l.1 then
      _ ← for_up (Z.to_nat l.2) 0 (fun _ =>
            d ← load_dma desc;
            c ← load_ch (chan_at (dd_channels d) l.2);
            _ ← on_sg (no_os_list_remove fuel (ch_sg_list c)); mret tt);
      _ ← no_os_dma_remove fuel desc;
      _ ← on_mutex (no_os_mutex_unlock mutex);
      mret (l.1, desc)
    else
    _ ← update_dma desc (fun d => set_dd_ref (u32 (dd_ref d + 1)) d);
    _ ← on_mutex (no_os_mutex_unlock mutex);
    mret (0, desc)).

(** The result is the return code and what [*channel] was set to. *)
Definition no_os_dma_acquire_channel (desc : ptr) : cmd mem (Z * option ch_ptr) :=
  match desc with
  | None => mret (- EINVAL, None)
  | Some _ =>
      d ← load_dma desc;
      match dd_platform_ops d with
      | None => mret (- EINVAL, None)
      | Some ops =>
          match dma_acquire_ch (driver ops) with
          | None => mret (- ENOSYS, None)
          | Some f =>
              _ ← on_mutex (no_os_mutex_lock (dd_mutex d));
              r ← on_side (f desc);
              d ← load_dma desc;
              let channel := if truthy r.1 then None else Some (chan_at (dd_channels d) r.2) in
              _ ← on_mutex (no_os_mutex_unlock (dd_mutex d));
              mret (r.1, channel)
          end
      end
  end.

Definition no_os_dma_release_channel (desc : ptr) (ch : ch_ptr) : cmd mem Z :=
  dma_dispatch dma_release_ch desc (present ch) (fun f =>
    _ ← ch_lock ch;
    c ← load_ch ch;
    ret ← on_side (f desc (ch_id c));
    _ ← ch_unlock ch;
    mret ret).

(** The event of a type of transfer. *)
Definition xfer_event (type : Z) : option no_os_irq_event :=
  if (type =? MEM_TO_DEV) || (type =? MEM_TO_MEM) then Some NO_OS_EVT_DMA_TX_COMPLETE
  else if type =? DEV_TO_MEM then Some NO_OS_EVT_DMA_RX_COMPLETE
  else None.

(** [abort_xfer:] and [unlock:] *)
Definition abort_unlock (fuel : nat) (desc : ptr) (ch : ch_ptr) (ret : Z) : cmd mem Z :=
  _ ← no_os_dma_xfer_abort fuel desc ch;
  _ ← ch_unlock ch;
  mret ret.

(** [no_os_list_add_last(ch->sg_list, &xfer[i])], whose result is not looked
    at. *)
Definition queue_xfer (ch : ch_ptr) (xfer i : Z) : cmd mem unit :=
  c ← load_ch ch;
  _ ← on_sg (no_os_list_add_last (ch_sg_list c) (xfer + i));
  mret tt.

Definition no_os_dma_config_xfer (fuel : nat) (desc : ptr) (xfer len : Z) (ch : ch_ptr) :
  cmd mem Z :=
  if negb (present desc && truthy xfer && truthy len && present ch) then mret (- EINVAL) else
  _ ← ch_lock ch;
  x ← load_xfer xfer;
  match xfer_event (xf_type x) with
  | None => _ ← ch_unlock ch; mret (- EINVAL)
  | Some event =>
      _ ← for_up (Z.to_nat len) 0 (queue_xfer ch xfer);
      d ← load_dma desc;
      match dd_irq_ctrl d with
      | None => mret 0
      | Some _ =>
          _ ← update_ch ch (set_irq_ctx desc ch);
          f ← dma_op dma_config_xfer desc;
          ret ← on_side (f ch xfer);
          if truthy ret then abort_unlock fuel desc ch ret else
          d ← load_dma desc;
          c ← load_ch ch;
          let handler := match dd_sg_handler d with Some h => h | None => default_handler end in
          ret ← on_irq (no_os_irq_register_callback irq_driver (dd_irq_ctrl d) (ch_irq_num c)
                  (Some (CallbackDesc (Some handler) (irq_ctx_addr ch) event (xf_periph x)
                           (ch_id c))));
          if truthy ret then abort_unlock fuel desc ch ret else
          d ← load_dma desc;
          c ← load_ch ch;
          x ← load_xfer xfer;
          _ ← on_irq (no_os_irq_set_priority irq_driver (dd_irq_ctrl d) (ch_irq_num c)
                  (xf_irq_priority x));
          mret 0
      end
  end.

(** [ch->mutex] is read before [ch] is compared with [NULL]. *)
Definition no_os_dma_chan_lock (ch : ch_ptr) : cmd mem Z :=
  _ ← ch_lock ch;
  match ch with
  | None => mret (- EINVAL)
  | Some _ => _ ← update_ch ch (set_sync_lock true); _ ← ch_unlock ch; mret 0
  end.

Definition no_os_dma_chan_unlock (ch : ch_ptr) : cmd mem Z :=
  _ ← ch_lock ch;
  match ch with
  | None => mret (- EINVAL)
  | Some _ => _ ← update_ch ch (set_sync_lock false); _ ← ch_unlock ch; mret 0
  end.

(** An error code converted to [bool] is [true]. *)
Definition no_os_dma_is_completed (desc : ptr) (ch : ch_ptr) : cmd mem bool :=
  match ch with
  | None => mret (truthy (- EINVAL))
  | Some _ => c ← load_ch ch; mret (ch_free c)
  end.

Definition no_os_dma_in_progress (desc : ptr) (ch : ch_ptr) : cmd mem bool :=
  r ← dma_dispatch dma_ch_in_progress desc (present ch) (fun f =>
        _ ← ch_lock ch;
        ret ← on_side (f desc ch);
        _ ← ch_unlock ch;
        mret (if ret : bool then 1 else 0));
  mret (truthy r).

(** ** A batch of transfers

    The transfers at [xfer] are configured and started, and the interrupt comes
    when each of them is complete. *)

Fixpoint interrupts (fuel n : nat) (context : ptr) : cmd mem unit :=
  match n with
  | O => mret tt
  | S n => _ ← default_sg_callback fuel context; interrupts fuel n context
  end.

Definition dma_batch (fuel : nat) (desc : ptr) (ch : ch_ptr) (xfer len : Z) : cmd mem Z :=
  ret ← no_os_dma_config_xfer fuel desc xfer len ch;
  if truthy ret then mret ret else
  ret ← no_os_dma_xfer_start desc ch;
  if truthy ret then mret ret else
  _ ← interrupts fuel (Z.to_nat len) (irq_ctx_addr ch);
  mret 0.

Fixpoint dma_batches (fuel : nat) (desc : ptr) (ch : ch_ptr) (bs : list (Z * Z)) : cmd mem (list Z) :=
  match bs with
  | [] => mret []
  | b :: bs => r ← dma_batch fuel desc ch b.1 b.2; rs ← dma_batches fuel desc ch bs; mret (r :: rs)
  end.
End dma.

(** ** The queue of a channel *)

(** The list behind [d] holds [ds] and no allocation of an element fails. *)
Definition queue (L : list_mem) (d : desc_ref) (l : positive) (ds : list Z) (F : gset positive) :
  Prop :=
  (exists cmp n, list_rep L d l cmp n ds F) /\ Forall (fun b => b = false) (oom (m_elems L)).

Lemma same_rest_refl l L : same_rest l L L.
Proof. done. Qed.

Lemma same_rest_trans l L1 L2 L3 : same_rest l L1 L2 -> same_rest l L2 L3 -> same_rest l L1 L3.
Proof. unfold same_rest. intros (-> & -> & ->) (-> & -> & ->). done. Qed.

Lemma no_oom_alloc L : Forall (fun b => b = false) (oom (m_elems L)) -> alloc_fails (m_elems L) = false.
Proof. unfold alloc_fails. intros H. destruct H as [| x o -> H]; done. Qed.

Lemma queue_add L d l ds F x :
  queue L d l ds F -> Z.of_nat (length ds) + 1 < 2 ^ 32 ->
  exists L', no_os_list_add_last d x L = Done (0, L') /\ queue L' d l (ds ++ [x]) F /\
    same_rest l L L'.
Proof.
  intros [(cmp & n & Li & ps & HL & Hd & H & Hc & Hn) Ho] Hlen.
  pose proof (no_oom_alloc L Ho) as Ha.
  destruct (add_last_run L l Li (m_elems L) (m_iters L) ps ds F H d x Hd Hlen)
    as (L' & h' & Hr & Hadd).
  unfold added in Hadd. rewrite Ha in Hr, Hadd. rewrite (st_id _ _ _ HL) in Hr.
  destruct Hadd as (_ & Hh & Hl). rewrite (lst_length _ _ _ _ _ _ H), linsert_length_end in Hl.
  destruct (st_rep L d l L' h' _ _ F Li HL Hd Hl) as [Hrep Hs].
  eexists. split; [exact Hr |]. split; [| exact Hs]. split; [by eexists _, _ |].
  subst h'. cbn. by destruct Ho.
Qed.

Lemma queue_get L d l x ds F :
  queue L d l (x :: ds) F ->
  exists L', no_os_list_get_first d false L = Done ((0, Some x), L') /\ queue L' d l ds F /\
    same_rest l L L'.
Proof.
  intros [(cmp & n & Li & ps & HL & Hd & H & Hc & Hn) Ho].
  pose proof (get_first_run L l Li (m_elems L) (m_iters L) ps (x :: ds) F H d Hd) as Hr.
  cbn [head] in Hr. destruct Hr as (L' & h' & Hr & e & _ & _ & Hh & Hl).
  rewrite (st_id _ _ _ HL) in Hr.
  destruct (st_rep L d l L' h' _ _ F Li HL Hd Hl) as [Hrep Hs].
  eexists. split; [exact Hr |]. split; [| exact Hs]. split; [by eexists _, _ | by subst h'].
Qed.

Lemma queue_start {A} L d l ds F (k : ptr -> list_desc_priv -> cmd list_mem A) :
  queue L d l ds F -> exists Li ps, lst l Li (m_elems L) ps ds F /\
    (list ← priv_of d; x ← load_list list; k list x) L = k (Some l) Li L /\
    forall x y : cmd list_mem A, match d with DescNull => x | _ => y end = y.
Proof.
  intros [(cmp & n & Li & ps & HL & Hd & H & Hc & Hn) Ho]. exists Li, ps. split; [done |].
  split; [| intros; by rewrite (desc_match _ _ _ _ _ Hd)]. rewrite <- (st_id _ _ _ HL).
  rewrite (bind_done _ _ _ _ _ (priv_of_run _ _ _ _ _ _ Hd)).
  by rewrite (bind_done _ _ _ _ _ (load_list_run _ _ _ _ _)).
Qed.

Lemma queue_read L d l ds F :
  queue L d l ds F ->
  exists c, no_os_list_read_first d false L = Done ((c, Some (hd 0 ds)), L).
Proof.
  intros HQ. unfold no_os_list_read_first.
  destruct (queue_start L d l ds F (fun list x =>
    match ld_first x with
    | None => mret (-1, Some 0)
    | Some _ => e ← load_elem (ld_first x); mret (0, Some (el_data e))
    end) HQ) as (Li & ps & H & Hk & Hm).
  rewrite Hm, Hk, (lst_first _ _ _ _ _ _ H).
  pose proof (lst_length _ _ _ _ _ _ H) as Hlen. destruct ds as [| x ds].
  - destruct ps; [by eexists | done].
  - destruct (look_at l Li (m_elems L) ps (x :: ds) F H 0 x eq_refl) as (e & He & Hlook).
    rewrite He. unfold load_elem, NoosList.on_elems.
    erewrite bind_done by by apply zoom_done, hload_done. eexists. by destruct L.
Qed.

Lemma queue_size L d l ds F :
  queue L d l ds F ->
  no_os_list_get_size d false L = Done ((0, Some (Z.of_nat (length ds))), L).
Proof.
  intros HQ. unfold no_os_list_get_size.
  destruct (queue_start L d l ds F (fun _ x => mret (0, Some (nb_elements x))) HQ)
    as (Li & ps & H & Hk & Hm).
  by rewrite Hm, Hk, (nb_eq _ _ _ _ _ _ H).
Qed.

(** ** Runs

    The platform is seen through the effect [eff] of its operations on the
    world. *)

Inductive dma_event : Type :=
  | EvConfigure (xfer : Z)
  | EvRegister (cb : no_os_callback_desc)
  | EvPriority (priority : Z)
  | EvEnable
  | EvStart
  | EvComplete (f : positive) (old next : Z) (ctx : ptr)
  | EvDisable.

(** The fields the layer changes. *)
Definition ch_cfg (c : no_os_dma_ch) : Z * desc_ref * Z * ptr :=
  (ch_id c, ch_sg_list c, ch_irq_num c, ch_mutex c).

(** What the platform and the users should see of a batch of the transfers [xs],
    [T] being what is at their addresses: the first is configured and started;
    when one is complete its callback is told which is next, and that one is
    configured and started; the interrupt is disabled after the last. *)
Section plan.
  Context (T : gmap Z no_os_dma_xfer_desc).

Definition callback_events (old next : Z) : list dma_event :=
  match T !! old with
  | Some x =>
      match xf_complete_cb x with
      | Some f => [EvComplete f old next (xf_complete_ctx x)]
      | None => []
      end
  | None => []
  end.

Definition completion (a : Z) (rest : list Z) : list dma_event :=
  callback_events a (hd 0 rest) ++
  match rest with [] => [EvDisable] | next :: _ => [EvConfigure next; EvEnable; EvStart] end.

Fixpoint completions (xs : list Z) : list dma_event :=
  match xs with [] => [] | a :: rest => completion a rest ++ completions rest end.

Definition config_plan (handler : positive) (ctx : ptr) (id a : Z) : list dma_event :=
  match T !! a with
  | Some x =>
      match xfer_event (xf_type x) with
      | Some event => [EvConfigure a;
                       EvRegister (CallbackDesc (Some handler) ctx event (xf_periph x) id);
                       EvPriority (xf_irq_priority x)]
      | None => []
      end
  | None => []
  end.

(** The addresses of an array of transfers. *)
Definition xfer_addrs (a n : Z) : list Z := Z.add a <$> seqZ 0 n.

Definition batch_plan (handler : positive) (ctx : ptr) (id : Z) (batch : Z * Z) : list dma_event :=
  config_plan handler ctx id batch.1 ++ [EvEnable; EvStart] ++
  completions (xfer_addrs batch.1 batch.2).

(** An array of transfers that exist, the first of a type that exists. *)
Definition batch_ok (batch : Z * Z) : Prop :=
  batch.1 <> 0 /\ 0 < batch.2 < 2 ^ 32 /\
  Forall (fun a => is_Some (T !! a)) (xfer_addrs batch.1 batch.2) /\
  exists x, T !! batch.1 = Some x /\ is_Some (xfer_event (xf_type x)).
End plan.

Section runs.
  Context {M W : Type} {MM : Mutex M} {ML : MutexLaws M}.
  Context (driver : positive -> no_os_dma_platform_ops W).
  Context (irq_driver : positive -> no_os_irq_platform_ops W).
  Context (complete : positive -> Z -> Z -> ptr -> cmd (dma_side W) unit).
  Context (default_handler : positive).
  Abbreviation mem := (dma_mem M W).

  (** A channel of a controller, at the memory [m]. *)
  Context (m : mem) (desc b : positive) (i : Z) (A : list no_os_dma_ch) (C0 : no_os_dma_ch).
  Context (D : no_os_dma_desc) (p q iq : positive) (Q : no_os_irq_ctrl_desc).
  Abbreviation ch := (Some (b, i)).
  Context (eff : dma_event -> W -> W).

(** What is assumed of the platform: its operations succeed and change their
    world only. *)
Record dma_platform_ok : Prop := DmaPlatformOk {
  ok_configure : exists f, dma_config_xfer (driver p) = Some f /\
    forall x s, f ch x s = Done (0, set_world (eff (EvConfigure x) (dma_world s)) s);
  ok_start : exists f, dma_xfer_start (driver p) = Some f /\
    forall s, f (Some desc) ch s = Done (0, set_world (eff EvStart (dma_world s)) s);
  ok_register : exists f, irq_ops_register_callback (irq_driver iq) = Some f /\
    forall cb s, f (Some q) (ch_irq_num C0) (Some cb) s = Done (0, (s.1, eff (EvRegister cb) s.2));
  ok_priority : exists f, irq_ops_set_priority (irq_driver iq) = Some f /\
    forall n s, f (Some q) (ch_irq_num C0) n s = Done (0, (s.1, eff (EvPriority n) s.2));
  ok_enable : exists f, irq_ops_enable (irq_driver iq) = Some f /\
    forall s, f (Some q) (ch_irq_num C0) s = Done (0, (s.1, eff EvEnable s.2));
  ok_disable : exists f, irq_ops_disable (irq_driver iq) = Some f /\
    forall s, f (Some q) (ch_irq_num C0) s = Done (0, (s.1, eff EvDisable s.2));
  ok_complete : forall f old next ctx s,
    complete f old next ctx s = Done (tt, set_world (eff (EvComplete f old next ctx) (dma_world s)) s)
}.

(** The controller and its channel, and its interrupt controller. *)
Record dma_channel_ok : Prop := DmaChannelOk {
  ok_desc : cells (dma_descs (side m)) !! desc = Some D;
  ok_array : cells (dma_chs (side m)) !! b = Some A;
  ok_index : 0 <= i;
  ok_chan : A !! Z.to_nat i = Some C0;
  ok_ops : dd_platform_ops D = Some p
}.

Record dma_irq_ok : Prop := DmaIrqOk {
  ok_ctrl : dd_irq_ctrl D = Some q;
  ok_irq : cells (irq_descs m) !! q = Some Q;
  ok_irq_ops : qd_platform_ops Q = Some iq
}.

Context (HP : dma_platform_ok) (HC : dma_channel_ok) (HI : dma_irq_ok).

(** The memory [m] with the channel [C], the lists [L], the world [w] and the
    mutexes [x]. *)
Definition dst (C : no_os_dma_ch) (L : list_mem) (w : W) (x : M) : mem :=
  DmaMem
    (DmaSide (dma_descs (side m))
       (Heap (<[b := <[Z.to_nat i := C]> A]> (cells (dma_chs (side m)))) (next_block (dma_chs (side m)))
          (oom (dma_chs (side m))))
       (dma_xfers (side m)) w)
    L (irq_descs m) x.

Lemma dst_id : dst C0 (sg_lists m) (dma_world (side m)) (dma_mutexes m) = m.
Proof using HC.
  destruct HC. unfold dst. rewrite (list_insert_id A) by done. rewrite insert_id by done.
  by destruct m as [[? [? ? ?] ? ?] ? ? ?].
Qed.

Lemma load_dma_run C L w x : load_dma (Some desc) (dst C L w x) = Done (D, dst C L w x).
Proof using HC.
  unfold load_dma, on_descs. erewrite zoom_done by by apply hload_done, (ok_desc HC). done.
Qed.

Lemma array_run C L w x :
  on_chs (hload (Some b)) (dst C L w x) = Done (<[Z.to_nat i := C]> A, dst C L w x).
Proof. unfold on_chs. by erewrite zoom_done by by apply hload_done, lookup_insert_eq. Qed.

Lemma load_ch_run C L w x : load_ch ch (dst C L w x) = Done (C, dst C L w x).
Proof using HC.
  unfold load_ch. erewrite bind_done by done. cbn [fst snd].
  rewrite (bind_done _ _ _ _ _ (array_run C L w x)).
  rewrite (proj2 (Z.ltb_ge _ _)) by apply (ok_index HC).
  rewrite list_lookup_insert_eq; [done |]. by eapply lookup_lt_Some, (ok_chan HC).
Qed.

Lemma update_ch_run f C L w x : update_ch ch f (dst C L w x) = Done (tt, dst (f C) L w x).
Proof using HC.
  unfold update_ch. rewrite (bind_done _ _ _ _ _ (load_ch_run C L w x)).
  erewrite bind_done by done. cbn [fst snd]. rewrite (bind_done _ _ _ _ _ (array_run C L w x)).
  unfold on_chs. erewrite zoom_done by by eapply hstore_done, lookup_insert_eq.
  unfold dst. cbn [side dma_descs dma_chs dma_xfers dma_world sg_lists irq_descs dma_mutexes cells
    next_block oom]. by rewrite insert_insert_eq, list_insert_insert_eq.
Qed.

Lemma load_data_run C L w x :
  load_data (irq_ctx_addr ch) (dst C L w x) = Done (ch_irq_ctx C, dst C L w x).
Proof using HC.
  unfold load_data. cbn. rewrite decode_encode.
  erewrite bind_done by done. by rewrite (bind_done _ _ _ _ _ (load_ch_run C L w x)).
Qed.

Lemma on_side_run {B} (c : cmd (dma_side W) B) C L w x a e :
  (forall s, c s = Done (a, set_world (eff e (dma_world s)) s)) ->
  on_side c (dst C L w x) = Done (a, dst C L (eff e w) x).
Proof. intros Hc. unfold on_side. by erewrite zoom_done by apply Hc. Qed.

Lemma on_irq_run {F} sel (f : F) k C L w x e :
  sel (irq_driver iq) = Some f ->
  (forall s : platform no_os_irq_ctrl_desc W, k f s = Done (0, (s.1, eff e s.2))) ->
  on_irq (irq_dispatch irq_driver sel (Some q) k) (dst C L w x) = Done (0, dst C L (eff e w) x).
Proof using HC HI.
  intros Hsel Hk. unfold on_irq. rewrite (zoom_done _ _ _ _ 0 (irq_descs m, eff e w)); [done |].
  unfold irq_dispatch. rewrite (dispatch_run _ _ _ _ _ _ _ _ Q).
  - unfold dispatch_result. rewrite (ok_irq_ops HI), Hsel. by rewrite Hk.
  - by apply dev_load_done, (ok_irq HI).
Qed.

Lemma on_sg_run {B} (c : cmd list_mem B) C L L' w x a :
  c L = Done (a, L') -> on_sg c (dst C L w x) = Done (a, dst C L' w x).
Proof. intros Hc. unfold on_sg. by erewrite zoom_done by apply Hc. Qed.

Lemma dma_op_run {F} (sel : no_os_dma_platform_ops W -> option F) f C L w x :
  sel (driver p) = Some f -> dma_op driver sel (Some desc) (dst C L w x) = Done (f, dst C L w x).
Proof using HC.
  intros Hf. unfold dma_op. rewrite (bind_done _ _ _ _ _ (load_dma_run C L w x)).
  rewrite (ok_ops HC). erewrite bind_done by done. by rewrite Hf.
Qed.

Definition run_events (es : list dma_event) (w : W) : W := foldl (fun w e => eff e w) w es.

Lemma run_events_app es fs w : run_events (es ++ fs) w = run_events fs (run_events es w).
Proof. apply foldl_app. Qed.

Lemma load_xfer_run a X C L w x :
  dma_xfers (side m) !! a = Some X -> load_xfer a (dst C L w x) = Done (X, dst C L w x).
Proof. intros HX. unfold load_xfer. cbn. by rewrite HX. Qed.

Lemma lock_run C L w x x' :
  no_os_mutex_lock (ch_mutex C) x = Done (tt, x') ->
  ch_lock ch (dst C L w x) = Done (tt, dst C L w x').
Proof using HC.
  intros Hx. unfold ch_lock. rewrite (bind_done _ _ _ _ _ (load_ch_run C L w x)).
  unfold on_mutex. by erewrite zoom_done by apply Hx.
Qed.

Lemma unlock_run C L w x x' :
  no_os_mutex_unlock (ch_mutex C) x = Done (tt, x') ->
  ch_unlock ch (dst C L w x) = Done (tt, dst C L w x').
Proof using HC.
  intros Hx. unfold ch_unlock. rewrite (bind_done _ _ _ _ _ (load_ch_run C L w x)).
  unfold on_mutex. by erewrite zoom_done by apply Hx.
Qed.

(** A call of the platform with the checks of the layer. *)
Lemma dma_dispatch_run {F} (sel : no_os_dma_platform_ops W -> option F) f k C L w x :
  sel (driver p) = Some f ->
  dma_dispatch driver sel (Some desc) true k (dst C L w x) = k f (dst C L w x).
Proof using HC.
  intros Hf. unfold dma_dispatch.
  rewrite (dispatch_run _ _ _ _ _ _ _ _ D) by by apply load_dma_run.
  unfold dispatch_result. by rewrite (ok_ops HC), Hf.
Qed.

(** The calls of the interrupt controller. *)
Lemma enable_run C L w x :
  on_irq (no_os_irq_enable irq_driver (Some q) (ch_irq_num C0)) (dst C L w x) = Done (0, dst C L (eff EvEnable w) x).
Proof using HP HC HI.
  destruct (ok_enable HP) as (f & Hf & Hr). by apply (on_irq_run _ f).
Qed.

Lemma disable_run C L w x :
  on_irq (no_os_irq_disable irq_driver (Some q) (ch_irq_num C0)) (dst C L w x) = Done (0, dst C L (eff EvDisable w) x).
Proof using HP HC HI.
  destruct (ok_disable HP) as (f & Hf & Hr). by apply (on_irq_run _ f).
Qed.

Lemma priority_run n C L w x :
  on_irq (no_os_irq_set_priority irq_driver (Some q) (ch_irq_num C0) n) (dst C L w x) = Done (0, dst C L (eff (EvPriority n) w) x).
Proof using HP HC HI.
  destruct (ok_priority HP) as (f & Hf & Hr). by apply (on_irq_run _ f).
Qed.

Lemma register_run cb C L w x :
  on_irq (no_os_irq_register_callback irq_driver (Some q) (ch_irq_num C0) (Some cb)) (dst C L w x) = Done (0, dst C L (eff (EvRegister cb) w) x).
Proof using HP HC HI.
  destruct (ok_register HP) as (f & Hf & Hr). by apply (on_irq_run _ f).
Qed.

Lemma start_run C L w x :
  ch_irq_num C = ch_irq_num C0 -> ch_mutex C = None ->
  no_os_dma_xfer_start driver irq_driver (Some desc) ch (dst C L w x)
  = Done (0, dst C L (run_events [EvEnable; EvStart] w) x).
Proof using HP HC HI ML.
  intros Hn Hm. destruct (ok_start HP) as (f & Hf & Hr). unfold no_os_dma_xfer_start.
  rewrite (dma_dispatch_run _ f) by done.
  rewrite (bind_done _ _ _ _ _ (lock_run C L w x x ltac:(rewrite Hm; apply null_lock))).
  rewrite (bind_done _ _ _ _ _ (load_dma_run C L w x)), (ok_ctrl HI), bind_assoc.
  rewrite (bind_done _ _ _ _ _ (load_ch_run C L w x)), Hn.
  rewrite (bind_done _ _ _ _ _ (enable_run C L w x)).
  rewrite (bind_done _ _ _ _ _ (on_side_run _ C L _ x _ EvStart Hr)).
  by rewrite (bind_done _ _ _ _ _ (unlock_run C L _ x x ltac:(rewrite Hm; apply null_unlock))).
Qed.

Lemma queue_xfer_run C L w x l ds F a j :
  queue L (ch_sg_list C) l ds F -> Z.of_nat (length ds) + 1 < 2 ^ 32 ->
  exists L', queue_xfer ch a j (dst C L w x) = Done (tt, dst C L' w x) /\
    queue L' (ch_sg_list C) l (ds ++ [a + j]) F /\ same_rest l L L'.
Proof using HC.
  intros HQ Hlen. destruct (queue_add L _ l ds F (a + j) HQ Hlen) as (L1 & H1 & HQ1 & Hs1).
  exists L1. split; [| done]. unfold queue_xfer.
  rewrite (bind_done _ _ _ _ _ (load_ch_run C L w x)).
  by rewrite (bind_done _ _ _ _ _ (on_sg_run _ C L L1 w x _ H1)).
Qed.

Lemma queue_xfers_run n : forall C L w x l ds F a j,
  queue L (ch_sg_list C) l ds F -> Z.of_nat (length ds + n) < 2 ^ 32 ->
  exists L', for_up n j (queue_xfer ch a) (dst C L w x) = Done (tt, dst C L' w x) /\
    queue L' (ch_sg_list C) l (ds ++ (Z.add a <$> seqZ j (Z.of_nat n))) F /\ same_rest l L L'.
Proof using HC.
  induction n as [| n IH]; intros C L w x l ds F a j HQ Hlen; cbn [for_up].
  - exists L. rewrite app_nil_r. by splits.
  - destruct (queue_xfer_run C L w x l ds F a j HQ ltac:(lia)) as (L1 & H1 & HQ1 & Hs1).
    rewrite (bind_done _ _ _ _ _ H1).
    destruct (IH C L1 w x l _ F a (j + 1) HQ1) as (L2 & H2 & HQ2 & Hs2).
    { rewrite length_app. cbn. lia. }
    exists L2. rewrite H2. split; [done |]. split; [| by eapply same_rest_trans].
    rewrite seqZ_cons by lia. rewrite <- app_assoc in HQ2. cbn in *.
    replace (Z.pred (Z.of_nat (S n))) with (Z.of_nat n) by lia.
    by replace (Z.succ j) with (j + 1) by lia.
Qed.

(** Configuring a batch leaves the mutex locked: [x'] is after the lock. *)
Lemma config_run fuel C L w x x' l F batch :
  ch_cfg C = ch_cfg C0 -> dd_sg_handler D = None -> batch_ok (dma_xfers (side m)) batch ->
  queue L (ch_sg_list C0) l [] F -> no_os_mutex_lock (ch_mutex C0) x = Done (tt, x') ->
  exists L', no_os_dma_config_xfer driver irq_driver default_handler fuel (Some desc) batch.1 batch.2
      ch (dst C L w x)
    = Done (0, dst (set_irq_ctx (Some desc) ch C) L'
        (run_events (config_plan (dma_xfers (side m)) default_handler (irq_ctx_addr ch) (ch_id C0)
                       batch.1) w) x') /\
    queue L' (ch_sg_list C0) l (xfer_addrs batch.1 batch.2) F /\ same_rest l L L'.
Proof using HP HC HI.
  destruct batch as [a n]. unfold ch_cfg, batch_ok. cbn [fst snd].
  intros [= Hid Hsg Hnum Hmu] Hh (Ha & Hn & _ & X & HX & [event He]) HQ Hx.
  unfold no_os_dma_config_xfer, config_plan. rewrite HX, He.
  rewrite (proj2 (truthy_true a) Ha), (proj2 (truthy_true n)) by lia. cbn [present andb negb].
  rewrite (bind_done _ _ _ _ _ (lock_run C L w x x' ltac:(by rewrite Hmu))).
  rewrite (bind_done _ _ _ _ _ (load_xfer_run a X C L w x' HX)), He.
  rewrite <- Hsg in HQ.
  destruct (queue_xfers_run (Z.to_nat n) C L w x' l [] F a 0 HQ) as (L1 & H1 & HQ1 & Hs1);
    [cbn; lia |].
  rewrite (bind_done _ _ _ _ _ H1), (bind_done _ _ _ _ _ (load_dma_run _ _ _ _)), (ok_ctrl HI).
  rewrite (bind_done _ _ _ _ _ (update_ch_run _ _ _ _ _)).
  destruct (ok_configure HP) as (f & Hf & Hr).
  rewrite (bind_done _ _ _ _ _ (dma_op_run _ f _ _ _ _ Hf)).
  rewrite (bind_done _ _ _ _ _ (on_side_run _ _ _ _ _ _ (EvConfigure a) (Hr a))).
  change (truthy 0) with false. cbn iota.
  rewrite (bind_done _ _ _ _ _ (load_dma_run _ _ _ _)), (bind_done _ _ _ _ _ (load_ch_run _ _ _ _)).
  rewrite (ok_ctrl HI), Hh. cbv zeta. cbn [ch_irq_num ch_id set_irq_ctx]. rewrite Hnum, Hid.
  rewrite (bind_done _ _ _ _ _ (register_run _ _ _ _ _)).
  change (truthy 0) with false. cbn iota.
  rewrite (bind_done _ _ _ _ _ (load_dma_run _ _ _ _)), (bind_done _ _ _ _ _ (load_ch_run _ _ _ _)).
  rewrite (bind_done _ _ _ _ _ (load_xfer_run _ X _ _ _ _ HX)), (ok_ctrl HI).
  cbn [ch_irq_num set_irq_ctx]. rewrite Hnum.
  rewrite (bind_done _ _ _ _ _ (priority_run _ _ _ _ _)).
  exists L1. split; [done |]. rewrite Hsg in HQ1. split; [| done].
  unfold xfer_addrs. by rewrite Z2Nat.id in HQ1 by lia.
Qed.

(** A channel that its interrupts find: configured before, its mutex null. *)
Definition wired (C : no_os_dma_ch) : Prop :=
  ch_cfg C = ch_cfg C0 /\ hd_desc (ch_irq_ctx C) = Some desc /\ hd_channel (ch_irq_ctx C) = ch.

Definition after_interrupt (rest : list Z) (C : no_os_dma_ch) : no_os_dma_ch :=
  match rest with [] => set_free true C | _ => C end.

Lemma callback_run a next X C L w x :
  dma_xfers (side m) !! a = Some X ->
  match xf_complete_cb X with
  | Some f => on_side (complete f a next (xf_complete_ctx X))
  | None => mret tt
  end (dst C L w x)
  = Done (tt, dst C L (run_events (callback_events (dma_xfers (side m)) a next) w) x).
Proof using HP.
  intros HX. unfold callback_events. rewrite HX. destruct (xf_complete_cb X) as [f |]; [| done].
  by rewrite (on_side_run _ C L w x _ (EvComplete f a next (xf_complete_ctx X)) (ok_complete HP _ _ _ _)).
Qed.

Lemma interrupt_run fuel C L w x l F a ds :
  wired C -> ch_mutex C0 = None -> is_Some (dma_xfers (side m) !! a) ->
  queue L (ch_sg_list C0) l (a :: ds) F ->
  exists L', default_sg_callback driver irq_driver complete fuel (irq_ctx_addr ch) (dst C L w x)
    = Done (tt, dst (after_interrupt ds C) L'
        (run_events (completion (dma_xfers (side m)) a ds) w) x) /\
    queue L' (ch_sg_list C0) l ds F /\ same_rest l L L'.
Proof using HP HC HI ML.
  intros ([= Hid Hsg Hnum Hmu] & Hd & Hch) Hnull [X HX] HQ. rewrite <- Hsg in HQ.
  destruct (queue_get _ _ _ _ _ _ HQ) as (L1 & H1 & HQ1 & Hs1).
  destruct (queue_read _ _ _ _ _ HQ1) as (c & H2).
  exists L1. rewrite <- Hsg. split; [| done].
  unfold default_sg_callback, completion. rewrite run_events_app.
  rewrite (bind_done _ _ _ _ _ (load_data_run _ _ _ _)), Hch.
  rewrite (bind_done _ _ _ _ _ (load_ch_run _ _ _ _)).
  rewrite (bind_done _ _ _ _ _ (on_sg_run _ _ _ _ _ _ _ H1)). cbn [fst snd].
  change (truthy 0) with false. cbn iota. erewrite bind_done by done.
  rewrite (bind_done _ _ _ _ _ (on_sg_run _ _ _ _ _ _ _ H2)). cbn [fst snd].
  erewrite bind_done by done.
  rewrite (bind_done _ _ _ _ _ (on_sg_run _ _ _ _ _ _ _ (queue_size _ _ _ _ _ HQ1))). cbn [fst snd].
  erewrite bind_done by done.
  rewrite (bind_done _ _ _ _ _ (load_xfer_run _ X _ _ _ _ HX)).
  rewrite (bind_done _ _ _ _ _ (callback_run _ _ X _ _ _ _ HX)).
  rewrite (bind_done _ _ _ _ _ (load_data_run _ _ _ _)), Hd, Hch.
  destruct ds as [| next ds].
  - change (negb (truthy (Z.of_nat (length (@nil Z))))) with true. cbn iota.
    rewrite (bind_done _ _ _ _ _ (load_dma_run _ _ _ _)), (ok_ctrl HI).
    rewrite (bind_done _ _ _ _ _ (load_ch_run _ _ _ _)), Hnum.
    rewrite (bind_done _ _ _ _ _ (disable_run _ _ _ _)). by rewrite update_ch_run.
  - rewrite (proj2 (truthy_true _)) by (cbn; lia). cbn [negb hd].
    destruct (ok_configure HP) as (f & Hf & Hr).
    rewrite (bind_done _ _ _ _ _ (dma_op_run _ f _ _ _ _ Hf)).
    rewrite (bind_done _ _ _ _ _ (on_side_run _ _ _ _ _ _ (EvConfigure next) (Hr next))).
    rewrite (bind_done _ _ _ _ _ (load_data_run _ _ _ _)), Hd, Hch.
    rewrite (bind_done _ _ _ _ _ (start_run _ _ _ _ Hnum ltac:(congruence))). done.
Qed.

Lemma interrupts_run fuel : forall xs C L w x l F,
  wired C -> ch_mutex C0 = None -> Forall (fun a => is_Some (dma_xfers (side m) !! a)) xs ->
  queue L (ch_sg_list C0) l xs F ->
  exists L', interrupts driver irq_driver complete fuel (length xs) (irq_ctx_addr ch) (dst C L w x)
    = Done (tt, dst (if decide (xs = []) then C else set_free true C) L'
        (run_events (completions (dma_xfers (side m)) xs) w) x) /\
    queue L' (ch_sg_list C0) l [] F /\ same_rest l L L'.
Proof using HP HC HI ML.
  induction xs as [| a xs IH]; intros C L w x l F Hw Hnull Hall HQ; cbn [length interrupts completions].
  - exists L. by splits.
  - inversion_clear Hall as [| ? ? Ha Hxs].
    destruct (interrupt_run fuel C L w x l F a xs Hw Hnull Ha HQ) as (L1 & H1 & HQ1 & Hs1).
    rewrite (bind_done _ _ _ _ _ H1), run_events_app.
    destruct (IH (after_interrupt xs C) L1 (run_events (completion (dma_xfers (side m)) a xs) w) x l F)
      as (L2 & H2 & HQ2 & Hs2); [by destruct xs | done.. |].
    exists L2. rewrite H2. split; [| split; [done | by eapply same_rest_trans]].
    by destruct xs.
Qed.

(** The channel after a batch. *)
Definition served (C : no_os_dma_ch) : no_os_dma_ch := set_free true (set_irq_ctx (Some desc) ch C).

Lemma batch_run fuel C L w x l F batch :
  ch_cfg C = ch_cfg C0 -> dd_sg_handler D = None -> ch_mutex C0 = None ->
  batch_ok (dma_xfers (side m)) batch -> queue L (ch_sg_list C0) l [] F ->
  exists L', dma_batch driver irq_driver complete default_handler fuel (Some desc) ch batch.1 batch.2
      (dst C L w x)
    = Done (0, dst (served C) L'
        (run_events (batch_plan (dma_xfers (side m)) default_handler (irq_ctx_addr ch) (ch_id C0) batch)
           w) x) /\
    queue L' (ch_sg_list C0) l [] F /\ same_rest l L L'.
Proof using HP HC HI ML.
  intros Hcfg Hh Hnull Hb HQ.
  destruct (config_run fuel C L w x x l F batch Hcfg Hh Hb HQ) as (L1 & H1 & HQ1 & Hs1).
  { rewrite Hnull. apply null_lock. }
  unfold dma_batch, batch_plan. rewrite (bind_done _ _ _ _ _ H1).
  change (truthy 0) with false. cbn iota. pose proof Hcfg as [= Hid Hsg Hnum Hmu].
  rewrite (bind_done _ _ _ _ _ (start_run _ _ _ _ (Hnum : ch_irq_num (set_irq_ctx _ _ C) = _)
    ltac:(cbn; congruence))).
  change (truthy 0) with false. cbn iota.
  destruct Hb as (_ & Hn & Hall & _).
  assert (length (xfer_addrs batch.1 batch.2) = Z.to_nat batch.2) as Hlen.
  { unfold xfer_addrs. by rewrite length_fmap, length_seqZ. }
  edestruct (interrupts_run fuel (xfer_addrs batch.1 batch.2) (set_irq_ctx (Some desc) ch C) L1)
    as (L2 & H2 & HQ2 & Hs2); [by split | done.. |].
  rewrite Hlen in H2. rewrite (bind_done _ _ _ _ _ H2), !run_events_app.
  exists L2. split; [| split; [done | by eapply same_rest_trans]].
  rewrite decide_False; [done |]. intros E. rewrite E in Hlen. cbn in Hlen. lia.
Qed.

Lemma batches_run fuel bs : forall C L w x l F,
  ch_cfg C = ch_cfg C0 -> dd_sg_handler D = None -> ch_mutex C0 = None ->
  Forall (batch_ok (dma_xfers (side m))) bs -> queue L (ch_sg_list C0) l [] F ->
  exists L', dma_batches driver irq_driver complete default_handler fuel (Some desc) ch bs (dst C L w x)
    = Done (replicate (length bs) 0, dst (if decide (bs = []) then C else served C) L'
        (run_events (bs ≫= batch_plan (dma_xfers (side m)) default_handler (irq_ctx_addr ch)
                             (ch_id C0)) w) x) /\
    queue L' (ch_sg_list C0) l [] F /\ same_rest l L L'.
Proof using HP HC HI ML.
  induction bs as [| batch bs IH]; intros C L w x l F Hcfg Hh Hnull Hbs HQ; cbn [dma_batches].
  - exists L. by splits.
  - inversion_clear Hbs as [| ? ? Hb Hrest].
    destruct (batch_run fuel C L w x l F batch Hcfg Hh Hnull Hb HQ) as (L1 & H1 & HQ1 & Hs1).
    rewrite (bind_done _ _ _ _ _ H1).
    destruct (IH (served C) L1 (run_events (batch_plan (dma_xfers (side m)) default_handler
      (irq_ctx_addr ch) (ch_id C0) batch) w) x l F) as (L2 & H2 & HQ2 & Hs2); [done.. |].
    rewrite (bind_done _ _ _ _ _ H2). exists L2.
    split; [| split; [done | by eapply same_rest_trans]].
    cbn [length replicate]. rewrite bind_cons, run_events_app. by destruct bs.
Qed.

(** *** Removing a controller *)

Definition with_desc (d : no_os_dma_desc) (s : mem) : mem :=
  DmaMem (DmaSide (Heap (<[desc := d]> (cells (dma_descs (side s)))) (next_block (dma_descs (side s)))
                     (oom (dma_descs (side s)))) (dma_chs (side s)) (dma_xfers (side s))
            (dma_world (side s))) (sg_lists s) (irq_descs s) (dma_mutexes s).

Lemma update_dma_run f C L w x :
  update_dma (Some desc) f (dst C L w x) = Done (tt, with_desc (f D) (dst C L w x)).
Proof using HC.
  unfold update_dma. rewrite (bind_done _ _ _ _ _ (load_dma_run _ _ _ _)).
  unfold on_descs. by erewrite zoom_done by by eapply hstore_done, (ok_desc HC).
Qed.

Definition mutex_del (mutex : ptr) (v : gmap positive bool) : gmap positive bool :=
  match mutex with None => v | Some q => base.delete q v end.

(** A mutex that can be removed: null, or one that exists. *)
Definition removable (mutex : ptr) (v : gmap positive bool) : Prop :=
  match mutex with None => True | Some q => is_Some (v !! q) end.

Lemma mutex_remove_run mutex C L w x :
  removable mutex (mview x) ->
  exists x', on_mutex (no_os_mutex_remove mutex) (dst C L w x) = Done (tt, dst C L w x') /\
    mview x' = mutex_del mutex (mview x).
Proof.
  intros Hr. destruct mutex as [q0 |]; cbn in *.
  - destruct (remove_any q0 x Hr) as (x' & Hx & Hv). exists x'. split; [| done].
    unfold on_mutex. by erewrite zoom_done by apply Hx.
  - exists x. split; [| done]. unfold on_mutex. by erewrite zoom_done by apply null_remove.
Qed.

(** The channel's array starts with the channel, and its list. *)
Lemma remove_channel_run fuel ld l cmp ds F C L w x :
  chan_at (dd_channels D) 0 = ch -> ch_sg_list C = DescAt ld -> removable (ch_mutex C) (mview x) ->
  list_rep L (DescAt ld) l cmp 0 ds F -> (length ds < fuel)%nat ->
  Z.of_nat (length ds) + 1 < 2 ^ 32 ->
  exists L' x', (forall n, remove_channels fuel (S n) 0 (Some desc) (dst C L w x)
                 = remove_channels fuel n 1 (Some desc) (dst C L' w x')) /\
    dom (cells (m_elems L')) = F /\ cells (m_lists L') = base.delete l (cells (m_lists L)) /\
    cells (m_descs L') = base.delete ld (cells (m_descs L)) /\
    mview x' = mutex_del (ch_mutex C) (mview x).
Proof using HC.
  intros Hch Hsg Hmu Hl Hf Hlen.
  destruct (list_remove_run L ld l cmp 0 ds F fuel Hl Hlen Hf) as (L' & Hr & He & Hli & Hde & _).
  destruct (mutex_remove_run (ch_mutex C) C L' w x Hmu) as (x' & Hx & Hv).
  exists L', x'. split; [| done]. intros n. cbn [remove_channels].
  rewrite (bind_done _ _ _ _ _ (load_dma_run _ _ _ _)), Hch.
  rewrite (bind_done _ _ _ _ _ (load_ch_run _ _ _ _)), Hsg.
  rewrite (bind_done _ _ _ _ _ (on_sg_run _ _ _ _ _ _ _ Hr)). change (truthy 0) with false.
  cbn iota. rewrite (bind_done _ _ _ _ _ (load_ch_run _ _ _ _)).
  by rewrite (bind_done _ _ _ _ _ Hx).
Qed.

(** The list of the first channel is gone when the second is at turn. *)
Lemma remove_again_run fuel ld C L w x n j :
  chan_at (dd_channels D) 0 = ch -> ch_sg_list C = DescAt ld -> cells (m_descs L) !! ld = None ->
  remove_channels fuel (S n) j (Some desc) (dst C L w x) = Undef.
Proof using HC.
  intros Hch Hsg Hld. cbn [remove_channels].
  rewrite (bind_done _ _ _ _ _ (load_dma_run _ _ _ _)), Hch.
  rewrite (bind_done _ _ _ _ _ (load_ch_run _ _ _ _)), Hsg.
  apply bind_undef. unfold on_sg, zoom. cbn [sg_lists dst].
  unfold no_os_list_remove, priv_of. rewrite bind_undef; [done |]. apply bind_undef.
  unfold NoosList.on_descs, zoom, hload. cbn. by rewrite Hld.
Qed.

(** What the platform's [dma_remove] does to the descriptor: most free it. *)
Definition platform_removed (frees : bool) (s : dma_side W) : dma_side W :=
  let h := dma_descs s in
  if frees then DmaSide (Heap (base.delete desc (cells h)) (next_block h) (oom h)) (dma_chs s)
                  (dma_xfers s) (dma_world s)
  else s.

(** ** Properties *)

(** C29: without a real mutex, whatever batches of transfers are configured and
    started on a channel one after the other, each interrupted as often as it
    has transfers: the platform and the users' callbacks see exactly the calls
    of the batches' plans, in order; every call returns 0; the queue is empty
    again, the channel is marked free, and nothing else changes. *)
Theorem dma_batches_in_order fuel bs l F :
  dd_sg_handler D = None -> ch_mutex C0 = None ->
  Forall (batch_ok (dma_xfers (side m))) bs -> queue (sg_lists m) (ch_sg_list C0) l [] F ->
  exists L', dma_batches driver irq_driver complete default_handler fuel (Some desc) ch bs m
    = Done (replicate (length bs) 0, dst (if decide (bs = []) then C0 else served C0) L'
        (run_events (bs ≫= batch_plan (dma_xfers (side m)) default_handler (irq_ctx_addr ch)
                             (ch_id C0)) (dma_world (side m))) (dma_mutexes m)) /\
    queue L' (ch_sg_list C0) l [] F /\ same_rest l (sg_lists m) L'.
Proof using HP HC HI ML.
  intros Hh Hnull Hbs HQ.
  pose proof (batches_run fuel bs C0 (sg_lists m) (dma_world (side m)) (dma_mutexes m) l F
    eq_refl Hh Hnull Hbs HQ) as Hr.
  by rewrite dst_id in Hr.
Qed.

(** With a real mutex the first batch never ends: configuring it returns 0
    with the channel's mutex still locked, and starting it waits for that
    mutex. *)
Theorem dma_start_deadlock fuel batch mtx l F :
  dd_sg_handler D = None -> ch_mutex C0 = Some mtx -> mview (dma_mutexes m) !! mtx = Some false ->
  batch_ok (dma_xfers (side m)) batch -> queue (sg_lists m) (ch_sg_list C0) l [] F ->
  (exists m', no_os_dma_config_xfer driver irq_driver default_handler fuel (Some desc) batch.1 batch.2
      ch m = Done (0, m') /\ mview (dma_mutexes m') !! mtx = Some true /\
      no_os_dma_xfer_start driver irq_driver (Some desc) ch m' = NoFuel) /\
  dma_batch driver irq_driver complete default_handler fuel (Some desc) ch batch.1 batch.2 m = NoFuel.
Proof using HP HC HI.
  intros Hh Hmu Hfree Hb HQ. destruct (lock_free mtx _ Hfree) as (x' & Hl & Hv).
  destruct (config_run fuel C0 (sg_lists m) (dma_world (side m)) (dma_mutexes m) x' l F batch)
    as (L' & Hr & _); [done.. | by rewrite Hmu |]. rewrite dst_id in Hr.
  match type of Hr with _ = Done (0, ?s) => set (m' := s) in * end.
  assert (mview (dma_mutexes m') !! mtx = Some true) as Hheld.
  { unfold m'. cbn. by rewrite Hv, lookup_insert_eq. }
  assert (no_os_dma_xfer_start driver irq_driver (Some desc) ch m' = NoFuel) as Hs.
  { destruct (ok_start HP) as (f & Hf & _). unfold no_os_dma_xfer_start.
    unfold m'. rewrite (dma_dispatch_run _ f) by done. apply bind_nofuel. unfold ch_lock.
    rewrite (bind_done _ _ _ _ _ (load_ch_run _ _ _ _)). cbn [ch_mutex set_irq_ctx]. rewrite Hmu.
    unfold on_mutex, zoom. by rewrite lock_held. }
  split; [by exists m' |]. unfold dma_batch. rewrite (bind_done _ _ _ _ _ Hr).
  change (truthy 0) with false. cbn iota. by rewrite (bind_nofuel _ _ _ Hs).
Qed.

(** Removing a controller with one channel, on a platform that keeps the
    descriptor, frees the channel's list and removes both mutexes; but with
    more channels the list of the first is freed twice, and on a platform that
    frees the descriptor its counter is written afterwards: undefined
    behaviour. *)
Theorem no_os_dma_remove_correct fuel ld l cmp ds F f (frees : bool) :
  chan_at (dd_channels D) 0 = ch -> 1 <= dd_num_ch D -> 0 < dd_ref D < 2 ^ 32 ->
  ch_sg_list C0 = DescAt ld -> list_rep (sg_lists m) (DescAt ld) l cmp 0 ds F ->
  (length ds < fuel)%nat -> Z.of_nat (length ds) + 1 < 2 ^ 32 ->
  removable (ch_mutex C0) (mview (dma_mutexes m)) ->
  removable (dd_mutex D) (mutex_del (ch_mutex C0) (mview (dma_mutexes m))) ->
  dma_remove (driver p) = Some f ->
  (forall s, f (Some desc) s = Done (0, platform_removed frees s)) ->
  if (dd_num_ch D =? 1) && negb frees then
    exists m', no_os_dma_remove driver fuel (Some desc) m = Done (0, m') /\
      dom (cells (m_elems (sg_lists m'))) = F /\
      cells (m_lists (sg_lists m')) = base.delete l (cells (m_lists (sg_lists m))) /\
      cells (m_descs (sg_lists m')) = base.delete ld (cells (m_descs (sg_lists m))) /\
      mview (dma_mutexes m')
      = mutex_del (dd_mutex D) (mutex_del (ch_mutex C0) (mview (dma_mutexes m))) /\
      cells (dma_descs (side m')) !! desc = Some (set_dd_ref (dd_ref D - 1) D)
  else no_os_dma_remove driver fuel (Some desc) m = Undef.
Proof using HC ML.
  intros Hch Hn Href Hsg Hl Hf Hlen Hm1 Hm2 Hfs Hrun.
  destruct (remove_channel_run fuel ld l cmp ds F C0 (sg_lists m) (dma_world (side m)) (dma_mutexes m)
    Hch Hsg Hm1 Hl Hf Hlen) as (L1 & x1 & H1 & HE & HL & HD & Hx1).
  rewrite dst_id in H1. set (s1 := dst C0 L1 (dma_world (side m)) x1) in H1.
  assert (load_dma (Some desc) m = Done (D, m)) as Hload.
  { rewrite <- dst_id. apply load_dma_run. }
  unfold no_os_dma_remove. rewrite (bind_done _ _ _ _ _ Hload).
  rewrite (proj2 (truthy_true _)) by lia. cbn [negb].
  replace (Z.to_nat (dd_num_ch D)) with (S (Z.to_nat (dd_num_ch D - 1))) by lia.
  destruct (Z.eqb_spec (dd_num_ch D) 1) as [E | E].
  2: { cbn [andb]. apply bind_undef. rewrite H1.
       replace (Z.to_nat (dd_num_ch D - 1)) with (S (Z.to_nat (dd_num_ch D - 2))) by lia.
       unfold s1. apply (remove_again_run _ ld); [done.. |]. rewrite HD. apply lookup_delete_eq. }
  rewrite E. change (Z.to_nat (1 - 1)) with 0%nat.
  rewrite (bind_done _ _ m 0 s1) by by rewrite H1. change (truthy 0) with false. cbn iota.
  unfold s1. rewrite (bind_done _ _ _ _ _ (load_dma_run _ _ _ _)).
  destruct (mutex_remove_run (dd_mutex D) C0 L1 (dma_world (side m)) x1) as (x2 & H2 & Hx2).
  { by rewrite Hx1. }
  rewrite (bind_done _ _ _ _ _ H2), (bind_done _ _ _ _ _ (dma_op_run _ f _ _ _ _ Hfs)).
  set (s2 := dst C0 L1 (dma_world (side m)) x2).
  assert (on_side (f (Some desc)) s2
    = Done (0, DmaMem (platform_removed frees (side s2)) L1 (irq_descs m) x2)) as Hside.
  { unfold on_side. by rewrite (zoom_done _ _ _ _ _ _ (Hrun _)). }
  rewrite (bind_done _ _ _ _ _ Hside). change (truthy 0) with false. cbn [andb negb].
  destruct frees; cbn [negb].
  - apply bind_undef. unfold update_dma, load_dma. apply bind_undef. unfold on_descs, zoom, hload.
    cbn. by rewrite lookup_delete_eq.
  - change (DmaMem (platform_removed false (side s2)) L1 (irq_descs m) x2) with s2. unfold s2.
    rewrite (bind_done _ _ _ _ _ (update_dma_run _ _ _ _ _)), (wrap_small 32) by ulia.
    eexists. split; [done |]. cbn [sg_lists dma_mutexes side dma_descs with_desc dst cells].
    rewrite lookup_insert_eq, Hx2, Hx1. by splits.
Qed.
End runs.

(** ** An example: a platform that writes down its calls *)

Definition log (e : dma_event) (w : list dma_event) : list dma_event := w ++ [e].

Definition log_side (e : dma_event) : cmd (dma_side (list dma_event)) Z := fun s =>
  Done (0, set_world (log e (dma_world s)) s).

Definition log_irq (e : dma_event) : cmd (platform no_os_irq_ctrl_desc (list dma_event)) Z := fun s =>
  Done (0, (s.1, log e s.2)).

Definition dma_sim_driver (p : positive) : no_os_dma_platform_ops (list dma_event) :=
  DmaOps None (Some (fun desc s => Done (0, s))) None None (Some (fun _ x => log_side (EvConfigure x)))
    (Some (fun _ _ => log_side EvStart)) None None.

Definition dma_sim_irq (p : positive) : no_os_irq_platform_ops (list dma_event) :=
  IrqOps None (Some (fun _ _ cb => match cb with Some cb => log_irq (EvRegister cb) | None => undef end))
    None None None None (Some (fun _ _ => log_irq EvEnable)) (Some (fun _ _ => log_irq EvDisable))
    (Some (fun _ _ n => log_irq (EvPriority n))) None None.

Definition dma_sim_complete (f : positive) (old next : Z) (ctx : ptr) :
  cmd (dma_side (list dma_event)) unit := fun s =>
  Done (tt, set_world (log (EvComplete f old next ctx) (dma_world s)) s).

Section example.
  Context {M : Type} (x : M) (mutex : ptr).

Definition ex_chan : no_os_dma_ch :=
  DmaCh 0 false (DescAt 1) 7 (HandlerData None None None) None mutex false.

Definition ex_desc : no_os_dma_desc :=
  DmaDesc 0 1 (Some 1%positive) (Some 1%positive) (Some 1%positive) None 1 None None.

Definition ex_xfer (cb : ptr) (type : Z) : no_os_dma_xfer_desc :=
  XferDesc 0 0 16 type cb None 3 NO_OS_SPI_DMA_IRQ None.

Definition ex_lists : list_mem :=
  ListMem (Heap ∅ 1%positive [])
    (Heap {[1%positive := ListDesc None None 0 no_os_default_comparator 0 (Iter (Some 1%positive) None)]}
       2%positive [])
    (Heap {[1%positive := no_os_set_adapter NO_OS_LIST_QUEUE (Some 1%positive)]} 2%positive [])
    (Heap ∅ 1%positive []).

Definition ex_irq : no_os_irq_ctrl_desc := IrqDesc 0 (Some 1%positive) 1 None.

(** Transfers at 10, 11 and 20. *)
Definition ex_dma : dma_mem M (list dma_event) :=
  DmaMem
    (DmaSide (Heap {[1%positive := ex_desc]} 2%positive []) (Heap {[1%positive := [ex_chan]]} 2%positive [])
       (<[10 := ex_xfer (Some 5%positive) MEM_TO_DEV]> (<[11 := ex_xfer None MEM_TO_DEV]>
          {[20 := ex_xfer (Some 6%positive) DEV_TO_MEM]})) [])
    ex_lists (Heap {[1%positive := ex_irq]} 2%positive []) x.

Lemma ex_list_rep : list_rep ex_lists (DescAt 1) 1 no_os_default_comparator 0 [] ∅.
Proof.
  eexists _, []. split; [reflexivity |]. split; [by eexists |]. split; [| done].
  unfold lst, lrep, dll. splits; try done; [constructor | by intros ? [? ?]].
Qed.

Lemma ex_queue : queue ex_lists (DescAt 1) 1 [] ∅.
Proof. split; [| constructor]. eexists _, _. apply ex_list_rep. Qed.

Lemma ex_channel_ok : dma_channel_ok ex_dma 1 1 0 [ex_chan] ex_chan ex_desc 1.
Proof. by split. Qed.

Lemma ex_irq_ok : dma_irq_ok ex_dma ex_desc 1 1 ex_irq.
Proof. by split. Qed.

Lemma ex_platform_ok :
  dma_platform_ok dma_sim_driver dma_sim_irq dma_sim_complete 1 1 0 ex_chan 1 1 1 log.
Proof. split; try (eexists; split; [reflexivity | done]). done. Qed.

Lemma ex_batch_ok a n :
  (a, n) = (10, 2) \/ (a, n) = (20, 1) -> batch_ok (dma_xfers (side ex_dma)) (a, n).
Proof.
  intros [[= -> ->] | [= -> ->]]; unfold batch_ok; cbn [fst snd]; (split; [done |]); (split; [lia |]);
    (split; [repeat constructor; eexists; reflexivity |]); eexists; split; try reflexivity; by eexists.
Qed.
End example.

Definition ex_ctx : ptr := irq_ctx_addr (Some (1%positive, 0)).

(** Two batches, of two transfers and of one. *)
Lemma dma_batches_in_order_witness :
  exists m', dma_batches dma_sim_driver dma_sim_irq dma_sim_complete 2 0 (Some 1%positive)
      (Some (1%positive, 0)) [(10, 2); (20, 1)] (ex_dma tt None) = Done ([0; 0], m') /\
    dma_world (side m') =
      [EvConfigure 10;
       EvRegister (CallbackDesc (Some 2%positive) ex_ctx NO_OS_EVT_DMA_TX_COMPLETE NO_OS_SPI_DMA_IRQ 0);
       EvPriority 3; EvEnable; EvStart; EvComplete 5 10 11 None; EvConfigure 11; EvEnable; EvStart;
       EvDisable;
       EvConfigure 20;
       EvRegister (CallbackDesc (Some 2%positive) ex_ctx NO_OS_EVT_DMA_RX_COMPLETE NO_OS_SPI_DMA_IRQ 0);
       EvPriority 3; EvEnable; EvStart; EvComplete 6 20 0 None; EvDisable].
Proof.
  destruct (dma_batches_in_order dma_sim_driver dma_sim_irq dma_sim_complete 2 (ex_dma tt None) 1 1 0
    [ex_chan None] (ex_chan None) ex_desc 1 1 1 ex_irq log (ex_platform_ok None) (ex_channel_ok tt None)
    (ex_irq_ok tt None) 0 [(10, 2); (20, 1)] 1 ∅ eq_refl eq_refl) as (L' & Hr & _ & _).
  - apply Forall_cons_2; [| apply Forall_singleton]; apply ex_batch_ok; auto.
  - apply ex_queue.
  - eexists. split; [exact Hr | vm_compute; reflexivity].
Defined.

Definition ex_rtos : freertos sim_kernel :=
  Freertos (Heap {[1%positive := tt]} 2%positive []) (SimKernel {[1%positive := true]}).

Lemma dma_start_deadlock_witness :
  dma_batch dma_sim_driver dma_sim_irq dma_sim_complete 2 0 (Some 1%positive) (Some (1%positive, 0))
    10 2 (ex_dma ex_rtos (Some 1%positive)) = NoFuel.
Proof.
  refine (proj2 (dma_start_deadlock dma_sim_driver dma_sim_irq dma_sim_complete 2
    (ex_dma ex_rtos (Some 1%positive)) 1 1 0 [ex_chan (Some 1%positive)] (ex_chan (Some 1%positive)) ex_desc
    1 1 1 ex_irq log (ex_platform_ok _) (ex_channel_ok _ _) (ex_irq_ok _ _) 0 (10, 2) 1 1 ∅
    eq_refl eq_refl eq_refl _ (ex_queue))).
  apply ex_batch_ok. auto.
Defined.

Lemma no_os_dma_remove_correct_witness :
  exists m', no_os_dma_remove dma_sim_driver 1 (Some 1%positive) (ex_dma tt None) = Done (0, m') /\
    cells (m_descs (sg_lists m')) = ∅.
Proof.
  destruct (no_os_dma_remove_correct dma_sim_driver (ex_dma tt None) 1 1 0 [ex_chan None]
    (ex_chan None) ex_desc 1 (ex_channel_ok tt None) 1 1 1 no_os_default_comparator [] ∅
    (fun desc s => Done (0, s)) false) as (m' & Hr & _ & _ & HD & _);
    try done; [apply ex_list_rep | cbn; lia |].
  exists m'. split; [exact Hr |]. by rewrite HD.
Defined.
