(* ===== verification/Pid.v ===== *)
(** * PID controller: [util/no_os_pid.c]

    The controller over machine integers, whose overflows are undefined, and
    the ideal controller it computes within stated bounds. *)
From S2P Require Import Prelude.

(** ** Data *)

Record no_os_pid_range : Type := PidRange { high : Z; low : Z }.

Record no_os_pid_config : Type := PidConfig {
  Kp : Z;
  Ki : Z;
  Kd : Z;
  hysteresis : Z;
  i_clip : no_os_pid_range;
  output_clip : no_os_pid_range;
  initial : Z
}.

Record no_os_pid : Type := Pid {
  iacc : Z;
  dacc : Z;
  output : Z;
  config : no_os_pid_config
}.

(** ** Operations *)

(** [pid_is_null] tells whether the double pointer is null; the result is the
    return code and what [*pid] was set to. *)
Definition no_os_pid_init (pid_is_null : bool) (cfg : no_os_pid_config) :
  cmd (heap no_os_pid) (Z * ptr) :=
  if pid_is_null then mret (- EINVAL, None) else
  if high (output_clip cfg) <? low (output_clip cfg) then mret (- EINVAL, None) else
  pid ← halloc (Pid 0 0 (initial cfg) cfg);
  match pid with
  | None => mret (- ENOMEM, None)
  | Some _ => mret (0, pid)
  end.

(** [if (clip->high > clip->low)] the two limits apply. *)
Definition clip (r : no_os_pid_range) (x : Z) : Z :=
  if low r <? high r then
    if high r <? x then high r else if x <? low r then low r else x
  else x.

(** The new controller: every operation on [int] and [int64_t] that overflows
    is undefined. *)
Definition pid_update (p : no_os_pid) (SP PV : Z) : outcome no_os_pid :=
  let cfg := config p in
  err ← ssigned 32 (SP - PV);
  a ← ssigned 32 (Z.abs err);
  if a <? hysteresis cfg then mret p else
  pp ← ssigned 64 (Kp cfg * err);
  let acc := clip (i_clip cfg) (iacc p) in
  i ← ssigned 64 (Ki cfg * acc);
  diff ← ssigned 32 (dacc p - err);
  d ← ssigned 64 (Kd cfg * diff);
  scaled ← ssigned 64 (output p * 1000000);
  s ← ssigned 64 (pp + i);
  s ← ssigned 64 (s + d);
  n ← ssigned 64 (scaled - s);
  let out := clip (output_clip cfg) (Z.quot n 1000000) in
  acc ← ssigned 32 (acc + err);
  mret (Pid acc err out cfg).

(** [output_is_null] for a null [output]; the result is the return code and
    what [*output] was set to. *)
Definition no_os_pid_control (pid : ptr) (SP PV : Z) (output_is_null : bool) :
  cmd (heap no_os_pid) (Z * option Z) :=
  match pid with
  | None => mret (- EINVAL, None)
  | Some _ =>
      if output_is_null then mret (- EINVAL, None) else
      p ← hload pid;
      p ← lift (pid_update p SP PV);
      _ ← hstore pid p;
      mret (0, Some (s32 (output p)))
  end.

Definition no_os_pid_hysteresis (pid : ptr) (hyst : Z) : cmd (heap no_os_pid) Z :=
  match pid with
  | None => mret (- EINVAL)
  | Some _ =>
      p ← hload pid;
      let c := config p in
      _ ← hstore pid (Pid (iacc p) (dacc p) (output p)
            (PidConfig (Kp c) (Ki c) (Kd c) hyst (i_clip c) (output_clip c) (initial c)));
      mret 0
  end.

Definition no_os_pid_reset (pid : ptr) : cmd (heap no_os_pid) Z :=
  match pid with
  | None => mret (- EINVAL)
  | Some _ =>
      p ← hload pid;
      _ ← hstore pid (Pid 0 0 (output p) (config p));
      mret 0
  end.

Definition no_os_pid_remove (pid : ptr) : cmd (heap no_os_pid) Z :=
  match pid with
  | None => mret (- EINVAL)
  | Some _ => _ ← hfree pid; mret 0
  end.

(** ** The ideal controller *)

Definition clamp (r : no_os_pid_range) (x : Z) : Z :=
  if low r <? high r then Z.max (low r) (Z.min (high r) x) else x.

(** One step of a controller in velocity form, with gains in millionths. *)
Definition ideal_step (p : no_os_pid) (SP PV : Z) : no_os_pid :=
  let c := config p in
  let e := SP - PV in
  if Z.abs e <? hysteresis c then p else
  let i := clamp (i_clip c) (iacc p) in
  let delta := Kp c * e + Ki c * i + Kd c * (dacc p - e) in
  Pid (i + e) e (clamp (output_clip c) (Z.quot (output p * 1000000 - delta) 1000000)) c.

Fixpoint ideal_run (p : no_os_pid) (l : list (Z * Z)) : list Z * no_os_pid :=
  match l with
  | [] => ([], p)
  | (SP, PV) :: l =>
      let p := ideal_step p SP PV in
      let '(outs, p') := ideal_run p l in (output p :: outs, p')
  end.

(** The controller called with the set points and process variables in turn. *)
Fixpoint pid_run (pid : ptr) (l : list (Z * Z)) : cmd (heap no_os_pid) (list (Z * option Z)) :=
  match l with
  | [] => mret []
  | (SP, PV) :: l =>
      r ← no_os_pid_control pid SP PV false;
      rs ← pid_run pid l;
      mret (r :: rs)
  end.

(** ** Bounds *)

(** Gains up to 1000, limits of the accumulator within 2^30 and an output
    range, both enabled. *)
Record config_ok (c : no_os_pid_config) : Prop := ConfigOk {
  ok_Kp : 0 <= Kp c <= 1000000000;
  ok_Ki : 0 <= Ki c <= 1000000000;
  ok_Kd : 0 <= Kd c <= 1000000000;
  ok_i_clip : - 2 ^ 30 < low (i_clip c) < high (i_clip c) /\ high (i_clip c) < 2 ^ 30;
  ok_output : - 2 ^ 31 <= low (output_clip c) < high (output_clip c) /\ high (output_clip c) < 2 ^ 31
}.

Record pid_ok (p : no_os_pid) : Prop := PidOk {
  ok_config : config_ok (config p);
  ok_dacc : - 2 ^ 30 < dacc p < 2 ^ 30;
  ok_iacc : - 2 ^ 31 <= iacc p < 2 ^ 31;
  ok_out : low (output_clip (config p)) <= output p <= high (output_clip (config p))
}.

Lemma clip_clamp r x : clip r x = clamp r x.
Proof. unfold clip, clamp. repeat case_match; zify_cmp; lia. Qed.

Lemma clamp_range r x : low r < high r -> low r <= clamp r x <= high r.
Proof. intros H. unfold clamp. destruct (Z.ltb_spec (low r) (high r)); lia. Qed.

Lemma ssigned_bind {A} w x (k : Z -> outcome A) : sint w x -> (ssigned w x ≫= k) = k x.
Proof. intros Hx. by rewrite ssigned_done. Qed.

Lemma mul_bound a x n : 0 <= a <= 1000000000 -> - n <= x <= n -> - (1000000000 * n) <= a * x <= 1000000000 * n.
Proof. nia. Qed.

(** Within the bounds nothing overflows. *)
Lemma pid_update_ok p SP PV :
  pid_ok p -> - 2 ^ 30 < SP - PV < 2 ^ 30 ->
  pid_update p SP PV = Done (ideal_step p SP PV) /\ pid_ok (ideal_step p SP PV) /\
  config (ideal_step p SP PV) = config p.
Proof.
  intros [[HP HI HD Hi Ho] Hd Ha Hout] He. unfold pid_update, ideal_step.
  set (c := config p) in *. set (e := SP - PV) in *.
  change (2 ^ 30) with 1073741824 in *. change (2 ^ 31) with 2147483648 in *.
  rewrite !ssigned_bind by ulia. destruct (Z.abs e <? hysteresis c) eqn:Hh; [by splits |].
  pose proof (clamp_range (i_clip c) (iacc p) (proj2 (proj1 Hi))) as Hcl.
  pose proof (mul_bound (Kp c) e 1073741824 HP ltac:(lia)) as H1.
  pose proof (mul_bound (Ki c) (clamp (i_clip c) (iacc p)) 1073741824 HI ltac:(lia)) as H2.
  pose proof (mul_bound (Kd c) (dacc p - e) 2147483648 HD ltac:(lia)) as H3.
  rewrite !clip_clamp. rewrite !ssigned_bind by ulia. rewrite clip_clamp.
  set (y := Z.quot _ 1000000). splits; [done | | done].
  pose proof (clamp_range (output_clip c) y (proj2 (proj1 Ho))).
  split; cbn [config dacc iacc output]; change (2 ^ 30) with 1073741824;
    change (2 ^ 31) with 2147483648; [by split | lia..].
Qed.

(** C36: with gains of at most 1000, errors below 2^30 and both limits enabled
    and in range, the controller run over any sequence of set points and
    process variables overflows nowhere, computes the ideal controller over
    the integers and never leaves its output range. *)
Theorem pid_run_correct q p l h :
  cells h !! q = Some p -> pid_ok p -> Forall (fun x => - 2 ^ 30 < x.1 - x.2 < 2 ^ 30) l ->
  exists outs p' h', ideal_run p l = (outs, p') /\
    pid_run (Some q) l h = Done ((fun x => (0, Some x)) <$> outs, h') /\
    cells h' = <[q := p']> (cells h) /\ pid_ok p' /\
    Forall (fun x => low (output_clip (config p)) <= x <= high (output_clip (config p))) outs.
Proof.
  revert p h. induction l as [| [SP PV] l IH]; intros p h Hq Hp Hl; cbn [ideal_run pid_run].
  - exists [], p, h. splits; try done. by rewrite insert_id.
  - apply Forall_cons in Hl as [He Hl]. cbn in He.
    destruct (pid_update_ok p SP PV Hp He) as (Hu & Hp1 & Hc). set (p1 := ideal_step p SP PV) in *.
    set (h1 := Heap (<[q := p1]> (cells h)) (next_block h) (oom h)).
    assert (cells h1 !! q = Some p1) as Hq1 by (cbn; by rewrite lookup_insert_eq).
    destruct (IH p1 h1 Hq1 Hp1 Hl) as (outs & p' & h' & -> & Hrun & Hcells & Hp' & Houts).
    exists (output p1 :: outs), p', h'. splits; try done.
    + rewrite (bind_done _ _ _ (0, Some (output p1)) h1); [by rewrite (bind_done _ _ _ _ _ Hrun) |].
      cbn [no_os_pid_control]. rewrite (bind_done _ _ _ _ _ (hload_done _ _ _ Hq)).
      rewrite (bind_done _ _ _ _ _ (lift_done _ _ _ Hu)).
      rewrite (bind_done _ _ _ _ _ (hstore_done _ _ p1 _ Hq)). do 3 f_equal.
      rewrite swrap_small; [done | done |]. destruct Hp1 as [[] ? ? ?]. ulia.
    + rewrite Hcells. cbn. by rewrite insert_insert_eq.
    + rewrite Hc in Houts. constructor; [| done]. rewrite <- Hc. apply Hp1.
Qed.

(** ** An example *)

Definition ex_pid : no_os_pid :=
  Pid 0 0 50 (PidConfig 2000000 500000 100000 2 (PidRange 1000 (-1000)) (PidRange 100 0) 50).

Lemma pid_run_correct_witness :
  exists h', pid_run (Some 1%positive) [(30, 20); (30, 29); (30, 60)] (Heap {[ 1%positive := ex_pid ]} 2 [])
    = Done ([(0, Some 31); (0, Some 31); (0, Some 82)], h').
Proof.
  destruct (pid_run_correct 1 ex_pid [(30, 20); (30, 29); (30, 60)] (Heap {[ 1%positive := ex_pid ]} 2 []))
    as (outs & p' & h' & Ho & Hr & _).
  - reflexivity.
  - split; [split | | |]; cbn; lia.
  - repeat constructor; cbn; lia.
  - exists h'. rewrite Hr. vm_compute in Ho. by injection Ho as <- <-.
Defined.
