(* ===== verification/CString.v ===== *)
(** * C strings

    The functions of the C library that the text protocols use, on strings as
    lists of bytes without their terminator: [strtok_r], [strtoul], [strncpy],
    and the [%d], [%x] and [%08x] conversions of [sprintf]. *)
From Stdlib Require Import String Ascii.
From S2P Require Import Prelude.

(** The bytes of a literal. *)
Definition str (s : string) : list Z :=
  (fun c => Z.of_N (N_of_ascii c)) <$> list_ascii_of_string s.

(** The string in a buffer: the bytes before the terminator; a buffer
    without one has no string. *)
Fixpoint c_str (l : list Z) : option (list Z) :=
  match l with
  | [] => None
  | c :: l => if c =? 0 then Some [] else cons c <$> c_str l
  end.

Definition strcmp_eq (a b : list Z) : bool := bool_decide (a = b).

(** [strncpy] into an array of [n] bytes: padded with zeros, and not
    terminated when the string has [n] bytes or more. *)
Definition strncpy (n : nat) (s : list Z) : list Z := take n s ++ replicate (n - length s) 0.

(** ** Tokens *)

Section tokens.
  Context (delim : list Z).

Definition is_delim (c : Z) : bool := bool_decide (c ∈ delim).

Fixpoint skip_delims (s : list Z) : list Z :=
  match s with
  | c :: s' => if is_delim c then skip_delims s' else s
  | [] => []
  end.

(** A token and what follows the delimiter that ends it. *)
Fixpoint token_of (s : list Z) : list Z * list Z :=
  match s with
  | [] => ([], [])
  | c :: s => if is_delim c then ([], s) else let '(t, r) := token_of s in (c :: t, r)
  end.

(** [strtok_r]: the next token, if there is one, and the new context. *)
Definition strtok_r (s : list Z) : option (list Z) * list Z :=
  match skip_delims s with
  | [] => (None, [])
  | s => let '(t, r) := token_of s in (Some t, r)
  end.

(** A word: what a token can be. *)
Definition word (t : list Z) : Prop := t <> [] /\ Forall (fun c => is_delim c = false) t.

Lemma token_of_word t s : Forall (fun c => is_delim c = false) t ->
  token_of (t ++ s) = let '(u, r) := token_of s in (t ++ u, r).
Proof.
  induction 1 as [| c t Hc Ht IH]; cbn; [by destruct (token_of s) |].
  rewrite Hc, IH. by destruct (token_of s).
Qed.

(** A word before a delimiter, and one at the end. *)
Lemma strtok_word t d s : word t -> is_delim d = true -> strtok_r (t ++ d :: s) = (Some t, s).
Proof.
  intros [Hne Ht] Hd. unfold strtok_r. destruct t as [| c t]; [done |].
  assert (is_delim c = false) as Hc by by inversion Ht. cbn [app skip_delims]. rewrite Hc.
  change (c :: t ++ d :: s) with ((c :: t) ++ d :: s). rewrite token_of_word by done.
  cbn [token_of]. rewrite Hd. by rewrite app_nil_r.
Qed.

Lemma strtok_end t : word t -> strtok_r t = (Some t, []).
Proof.
  intros [Hne Ht]. unfold strtok_r. destruct t as [| c t]; [done |].
  assert (is_delim c = false) as Hc by by inversion Ht. cbn [skip_delims]. rewrite Hc.
  pose proof (token_of_word (c :: t) [] Ht) as E. rewrite app_nil_r in E. rewrite E. cbn.
  by rewrite app_nil_r.
Qed.

(** Nothing but delimiters is left. *)
Lemma strtok_none s : Forall (fun c => is_delim c = true) s -> strtok_r s = (None, []).
Proof. intros Hs. unfold strtok_r. induction Hs as [| c s Hc Hs IH]; [done |]. cbn. by rewrite Hc. Qed.
End tokens.

(** ** Numbers *)

Definition is_space (c : Z) : bool := ((9 <=? c) && (c <=? 13)) || (c =? 32).

Definition digit_val (base c : Z) : option Z :=
  let v := if (48 <=? c) && (c <=? 57) then c - 48
           else if (97 <=? c) && (c <=? 122) then c - 87
           else if (65 <=? c) && (c <=? 90) then c - 55
           else base in
  if v <? base then Some v else None.

Fixpoint skip_spaces (s : list Z) : list Z :=
  match s with
  | c :: s' => if is_space c then skip_spaces s' else s
  | [] => []
  end.

(** The value of the digits at the start, and the rest. *)
Fixpoint read_digits (base acc : Z) (s : list Z) : Z * list Z :=
  match s with
  | c :: s' =>
      match digit_val base c with
      | Some v => read_digits base (acc * base + v) s'
      | None => (acc, s)
      end
  | [] => (acc, [])
  end.

Definition sign_of (s : list Z) : bool * list Z :=
  match s with
  | c :: s' => if c =? 45 then (true, s') else if c =? 43 then (false, s') else (false, s)
  | [] => (false, [])
  end.

(** The prefix [0x] of a hexadecimal number. *)
Definition skip_0x (base : Z) (s : list Z) : list Z :=
  match s with
  | z :: x :: d :: _ =>
      if (base =? 16) && (z =? 48) && ((x =? 120) || (x =? 88)) && bool_decide (is_Some (digit_val 16 d))
      then drop 2 s else s
  | _ => s
  end.

(** [strtoul] with an [unsigned long] of [w] bits: the value and the string at
    [end_ptr]. *)
Definition strtoul (w : Z) (s : list Z) (base : Z) : Z * list Z :=
  let '(neg, s1) := sign_of (skip_spaces s) in
  let s2 := skip_0x base s1 in
  match s2 with
  | c :: _ =>
      match digit_val base c with
      | Some _ =>
          let '(v, r) := read_digits base 0 s2 in
          (if 2 ^ w <=? v then 2 ^ w - 1 else if (neg : bool) then wrap w (- v) else v, r)
      | None => (0, s)
      end
  | [] => (0, s)
  end.

(** [%u], [%x]: the digits of a number. *)
Definition digit_char (d : Z) : Z := if d <? 10 then 48 + d else 87 + d.

Fixpoint digits (fuel : nat) (base n : Z) : list Z :=
  match fuel with
  | O => []
  | S fuel =>
      if n <? base then [digit_char n]
      else (digits fuel base (n / base) ++ [digit_char (n mod base)])%list
  end.

(** 64 digits are enough for any 64-bit number in any base. *)
Definition print_num (base n : Z) : list Z := digits 64 base n.

(** [%PRIi32] *)
Definition print_int (n : Z) : list Z := if n <? 0 then 45 :: print_num 10 (- n) else print_num 10 n.

(** [%08PRIx32] *)
Definition print_hex8 (n : Z) : list Z :=
  let s := print_num 16 n in (replicate (8 - length s) 48 ++ s)%list.

Lemma digit_val_char base d : 2 <= base <= 36 -> 0 <= d < base -> digit_val base (digit_char d) = Some d.
Proof.
  intros Hb Hd. unfold digit_val, digit_char.
  destruct (Z.ltb_spec d 10); repeat (case_match; zify_cmp; try lia); f_equal; try lia;
    repeat match goal with H : (_ && _)%bool = false |- _ => apply andb_false_iff in H end;
    lia.
Qed.

Lemma digits_fuel base n fuel :
  2 <= base -> 0 <= n < base ^ Z.of_nat (S fuel) -> base <= n -> 0 <= n / base < base ^ Z.of_nat fuel.
Proof.
  intros Hb Hn Hge. split; [apply Z.div_pos; lia |]. apply Z.div_lt_upper_bound; [lia |].
  rewrite <- Z.pow_succ_r by lia. replace (Z.succ (Z.of_nat fuel)) with (Z.of_nat (S fuel)) by lia. lia.
Qed.

(** Reading the digits of a number after others. *)
Lemma read_digits_print base fuel : 2 <= base <= 36 -> forall n acc s,
  0 <= n < base ^ Z.of_nat fuel ->
  exists k : nat, read_digits base acc (digits fuel base n ++ s)
    = read_digits base (acc * base ^ Z.of_nat k + n) s.
Proof.
  intros Hb. induction fuel as [| fuel IH]; intros n acc s Hn.
  - change (base ^ Z.of_nat 0) with 1 in Hn. exists 0%nat. cbn. f_equal. lia.
  - cbn [digits]. destruct (Z.ltb_spec n base).
    + exists 1%nat. cbn [app read_digits]. rewrite digit_val_char by lia. f_equal. lia.
    + destruct (IH (n / base) acc (digit_char (n mod base) :: s)) as [k Hk];
        [by apply digits_fuel; lia |].
      rewrite <- app_assoc. cbn [app]. rewrite Hk. cbn [read_digits].
      rewrite digit_val_char by (pose proof (Z.mod_pos_bound n base); lia).
      exists (S k). f_equal. pose proof (Z.div_mod n base).
      rewrite Nat2Z.inj_succ, Z.pow_succ_r by lia. lia.
Qed.

(** The characters of a number. *)
Definition digit_of (base c : Z) : Prop := exists d, 0 <= d < base /\ c = digit_char d.

Lemma digit_of_range base c : base <= 36 -> digit_of base c -> 48 <= c <= 57 \/ 97 <= c < 87 + base.
Proof. intros Hb (d & Hd & ->). unfold digit_char. destruct (Z.ltb_spec d 10); lia. Qed.

Lemma digits_chars base fuel : 2 <= base -> forall n, 0 <= n -> Forall (digit_of base) (digits fuel base n).
Proof.
  intros Hb. induction fuel as [| fuel IH]; intros n Hn; cbn [digits]; [constructor |].
  destruct (Z.ltb_spec n base).
  - constructor; [by exists n | constructor].
  - apply Forall_app. split; [apply IH, Z.div_pos; lia |]. constructor; [| constructor].
    exists (n mod base). split; [apply Z.mod_pos_bound; lia | done].
Qed.

Lemma digits_not_nil base fuel n : digits (S fuel) base n <> [].
Proof. cbn [digits]. destruct (n <? base); [done |]. by destruct (digits fuel base (n / base)). Qed.

(** Printing a number and reading it back. *)
Lemma strtoul_print w base n :
  2 <= base <= 36 -> 0 <= n < 2 ^ 64 -> n < 2 ^ w -> strtoul w (print_num base n) base = (n, []).
Proof.
  intros Hb Hn Hw. unfold print_num.
  assert (n < base ^ Z.of_nat 64) as Hlt.
  { eapply Z.lt_le_trans; [apply Hn |]. change (Z.of_nat 64) with 64. apply Z.pow_le_mono_l. lia. }
  destruct (read_digits_print base 64 Hb n 0 [] (conj (proj1 Hn) Hlt)) as [k Hk].
  rewrite app_nil_r in Hk.
  pose proof (digits_chars base 64 (proj1 Hb) n (proj1 Hn)) as Hch.
  pose proof (digits_not_nil base 63 n) as Hne.
  destruct (digits 64 base n) as [| c s] eqn:E; [done |]. apply Forall_cons in Hch as [Hc Hs].
  pose proof (digit_of_range base c (proj2 Hb) Hc) as Hr. unfold strtoul.
  assert (skip_spaces (c :: s) = c :: s) as ->.
  { cbn [skip_spaces]. replace (is_space c) with false; [done |]. symmetry. unfold is_space.
    apply orb_false_iff. split; [apply andb_false_iff | apply Z.eqb_neq]; lia. }
  assert (sign_of (c :: s) = (false, c :: s)) as ->.
  { cbn [sign_of]. destruct (Z.eqb_spec c 45), (Z.eqb_spec c 43); (done || lia). }
  assert (skip_0x base (c :: s) = c :: s) as ->.
  { unfold skip_0x. destruct s as [| x [| y s]]; [done.. |]. apply Forall_cons in Hs as [Hx _].
    apply digit_of_range in Hx; [| lia]. destruct (Z.eqb_spec base 16) as [-> |]; [| done].
    destruct (Z.eqb_spec x 120), (Z.eqb_spec x 88); try lia. by rewrite andb_false_r. }
  destruct Hc as (d & Hd & ->). rewrite digit_val_char, Hk by lia. cbn [read_digits].
  replace (0 * base ^ Z.of_nat k + n) with n by lia. by destruct (Z.leb_spec (2 ^ w) n); [lia |].
Qed.

(** A printed number is a word where neither digits nor small letters are
    delimiters. *)
Lemma print_num_word delim base n :
  2 <= base <= 36 -> 0 <= n -> (forall c, 48 <= c < 123 -> is_delim delim c = false) ->
  word delim (print_num base n).
Proof.
  intros Hb Hn Hd. split; [apply (digits_not_nil base 63) |].
  eapply Forall_impl; [by apply digits_chars; lia |]. intros c Hc. apply Hd.
  apply digit_of_range in Hc; lia.
Qed.

(** The number of digits. *)
Lemma length_digits_le base k : 2 <= base -> forall fuel n,
  0 <= n < base ^ Z.of_nat (S k) -> (length (digits fuel base n) <= S k)%nat.
Proof.
  intros Hb. induction k as [| k IH]; intros [| fuel] n Hn; cbn [digits length]; try lia.
  - change (Z.of_nat 1) with 1 in Hn. rewrite Z.pow_1_r in Hn. by destruct (Z.ltb_spec n base); [| lia].
  - destruct (Z.ltb_spec n base); [cbn; lia |]. rewrite length_app. cbn [length].
    assert (length (digits fuel base (n / base)) <= S k)%nat; [| lia].
    by apply IH, digits_fuel; [| | ].
Qed.

Lemma length_print_hex8 n : uint 32 n -> length (print_hex8 n) = 8%nat.
Proof.
  intros Hn. unfold print_hex8. rewrite length_app, length_replicate.
  pose proof (length_digits_le 16 7 ltac:(lia) 64 n) as H. unfold print_num.
  assert (length (digits 64 16 n) <= 8)%nat; [apply H; ulia | lia].
Qed.

Lemma length_print_int n : sint 32 n -> (0 < length (print_int n) <= 11)%nat.
Proof.
  intros Hn. unfold print_int, print_num.
  assert (forall m, 0 <= m <= 2 ^ 31 -> (0 < length (digits 64 10 m) <= 10)%nat) as H.
  { intros m Hm. split; [| apply (length_digits_le 10 9); [lia | ulia]].
    pose proof (digits_not_nil 10 63 m). destruct (digits 64 10 m); [done | cbn; lia]. }
  destruct (Z.ltb_spec n 0); cbn [length]; [specialize (H (- n) ltac:(ulia)) | specialize (H n ltac:(ulia))];
    lia.
Qed.

(** ** Strings in fields *)

Lemma c_str_app l r : 0 ∉ l -> c_str (l ++ 0 :: r) = Some l.
Proof.
  induction l as [| x l IH]; [done |]. intros [Hx Hl]%not_elem_of_cons. cbn [app c_str].
  destruct (Z.eqb_spec x 0); [by subst |]. by rewrite (IH Hl).
Qed.

Lemma c_str_strncpy n (w : list Z) : 0 ∉ w -> (length w < n)%nat -> c_str (strncpy n w) = Some w.
Proof.
  intros H0 Hn. unfold strncpy. rewrite take_ge by lia.
  destruct (n - length w)%nat as [| k] eqn:E; [lia |]. cbn [replicate]. by apply c_str_app.
Qed.

(** A field of [n] bytes and a terminator, which [strncpy] leaves alone. *)
Lemma c_str_field n (w : list Z) : 0 ∉ w -> c_str (strncpy n w ++ [0]) = Some (take n w).
Proof.
  intros H0. assert (0 ∉ take n w) as Ht by (intros H; apply H0; eapply subseteq_take, H).
  unfold strncpy. rewrite <- app_assoc. destruct (n - length w)%nat as [| k]; cbn [replicate app]; by apply c_str_app.
Qed.
