(* ===== verification/StrConv.v ===== *)
(** * Strings to numbers: the two parsers of [util/no_os_util.c]

    [strtol] and [strtoul] in base 0, where the string chooses its base, for a
    [long] of [w] bits; and what the two functions make of them. *)
From Stdlib Require Import String.
From S2P Require Import Prelude CString.

(** ** The C library *)

(** Base 0: [0x] for hexadecimal, [0] for octal, decimal otherwise. *)
Definition auto_base (s : list Z) : Z :=
  match (sign_of (skip_spaces s)).2 with
  | z :: x :: d :: _ =>
      if z =? 48 then
        if ((x =? 120) || (x =? 88)) && bool_decide (is_Some (digit_val 16 d)) then 16 else 8
      else 10
  | z :: _ => if z =? 48 then 8 else 10
  | [] => 10
  end.

(** [strtol] with a [long] of [w] bits: out of range it is the nearest end. *)
Definition strtol (w : Z) (s : list Z) (base : Z) : Z * list Z :=
  let '(neg, s1) := sign_of (skip_spaces s) in
  let s2 := skip_0x base s1 in
  match s2 with
  | c :: _ =>
      match digit_val base c with
      | Some _ =>
          let '(v, r) := read_digits base 0 s2 in
          let v := if neg : bool then - v else v in
          (Z.max (- 2 ^ (w - 1)) (Z.min v (2 ^ (w - 1) - 1)), r)
      | None => (0, s)
      end
  | [] => (0, s)
  end.

(** ** The code *)

Section conv.
  Context (w : Z).

(** [end == str]: nothing was read. *)
Definition no_os_str_to_int32 (s : list Z) : Z :=
  let '(value, rest) := strtol w s (auto_base s) in
  if bool_decide (rest = s) then - EINVAL else s32 value.

Definition no_os_str_to_uint32 (s : list Z) : Z :=
  let '(value, rest) := strtoul w s (auto_base s) in
  if bool_decide (rest = s) then u32 (- EINVAL) else u32 value.

(** ** Numbers that were printed *)

(** The digits of a positive number do not start with a zero. *)
Lemma digits_start fuel : forall n, 0 < n < 10 ^ Z.of_nat (S fuel) ->
  exists c s, digits (S fuel) 10 n = c :: s /\ 49 <= c <= 57.
Proof.
  induction fuel as [| fuel IH]; intros n Hn; cbn [digits]; destruct (Z.ltb_spec n 10) as [Hlt | Hge].
  1, 3: exists (digit_char n), []; split; [done |]; unfold digit_char;
    rewrite (proj2 (Z.ltb_lt n 10)) by done; lia.
  - change (10 ^ Z.of_nat 1) with 10 in Hn. lia.
  - destruct (IH (n / 10)) as (c & s & E & Hc).
    { split; [apply Z.div_str_pos; lia |]. apply (digits_fuel 10 n (S fuel)); lia. }
    cbn [digits] in E. rewrite E. by eexists c, _.
Qed.

Lemma print_num_start n : 0 < n < 2 ^ 64 -> exists c s, print_num 10 n = c :: s /\ 49 <= c <= 57.
Proof.
  intros Hn. apply digits_start. split; [lia |]. eapply Z.lt_le_trans; [apply Hn |].
  vm_compute. discriminate.
Qed.

(** A string that starts with a digit other than 0: no space, no sign, and in
    decimal. *)
Lemma start_digit c s : 49 <= c <= 57 ->
  sign_of (skip_spaces (c :: s)) = (false, c :: s) /\ auto_base (c :: s) = 10 /\
  sign_of (skip_spaces (45 :: c :: s)) = (true, c :: s) /\ auto_base (45 :: c :: s) = 10.
Proof.
  intros Hc. assert (sign_of (skip_spaces (c :: s)) = (false, c :: s)) as E.
  { cbn [skip_spaces]. replace (is_space c) with false.
    - cbn [sign_of]. by destruct (Z.eqb_spec c 45), (Z.eqb_spec c 43); try lia.
    - symmetry. unfold is_space. apply orb_false_iff.
      split; [apply andb_false_iff | apply Z.eqb_neq]; lia. }
  assert (sign_of (skip_spaces (45 :: c :: s)) = (true, c :: s)) as E' by done.
  unfold auto_base. rewrite E, E'. cbn [snd].
  destruct (Z.eqb_spec c 48); [lia |]. by destruct s as [| x [| y s]].
Qed.

Lemma strtol_print n (neg : bool) :
  0 < n < 2 ^ 32 -> 32 < w \/ 32 <= w /\ n <= 2 ^ 31 - (if neg then 0 else 1) ->
  let s := if neg then 45 :: print_num 10 n else print_num 10 n in
  auto_base s = 10 /\ strtol w s 10 = ((if neg then - n else n), []) /\ s <> [].
Proof.
  intros Hn Hw s. pose proof (strtoul_print 64 10 n ltac:(lia) ltac:(ulia) ltac:(ulia)) as Hu.
  destruct (print_num_start n ltac:(ulia)) as (c & t & E & Hc).
  destruct (start_digit c t Hc) as (H1 & H2 & H3 & H4).
  assert (- 2 ^ (w - 1) <= (if neg then - n else n) <= 2 ^ (w - 1) - 1) as Hr.
  { destruct Hw as [Hw | [Hw Hn']].
    - pose proof (Z.pow_le_mono_r 2 32 (w - 1)). destruct neg; ulia.
    - pose proof (Z.pow_le_mono_r 2 31 (w - 1)). destruct neg; ulia. }
  subst s. rewrite E in *. splits; [by destruct neg | | by destruct neg].
  unfold strtoul in Hu. rewrite H1 in Hu.
  assert (skip_0x 10 (c :: t) = c :: t) as E0 by by destruct t as [| x [| y t]].
  rewrite E0 in Hu. unfold strtol.
  destruct neg; rewrite ?H1, ?H3, E0; destruct (digit_val 10 c); try (simplify_eq; lia);
    destruct (read_digits 10 0 (c :: t)) as [v r]; destruct (Z.leb_spec (2 ^ 64) v); simplify_eq;
    f_equal; lia.
Qed.

Lemma zero_print : 32 <= w -> strtol w [48] 8 = (0, []) /\ strtoul w [48] 8 = (0, []).
Proof.
  intros Hw. assert (2 ^ 31 <= 2 ^ (w - 1)) by (apply Z.pow_le_mono_r; lia).
  assert (2 ^ 32 <= 2 ^ w) by (apply Z.pow_le_mono_r; lia).
  assert (strtol w [48] 8 = (Z.max (- 2 ^ (w - 1)) (Z.min 0 (2 ^ (w - 1) - 1)), [])) as -> by done.
  assert (strtoul w [48] 8 = (if 2 ^ w <=? 0 then 2 ^ w - 1 else 0, [])) as -> by done.
  destruct (Z.leb_spec (2 ^ w) 0); [ulia |]. split; [f_equal; ulia | done].
Qed.

(** Every [int32_t] printed in decimal, as [strtol] reads it. *)
Lemma strtol_print_int n : 32 <= w -> sint 32 n ->
  strtol w (print_int n) (auto_base (print_int n)) = (n, []).
Proof.
  intros Hw Hn. destruct (decide (n = 0)) as [-> |].
  { change (print_int 0) with [48]. change (auto_base [48]) with 8. by apply zero_print. }
  destruct (strtol_print (Z.abs n) (n <? 0)) as (Hb & Hs & _);
    [ulia | right; split; [lia |]; des_if; zify_cmp; ulia |].
  unfold print_int.
  replace (if n <? 0 then 45 :: print_num 10 (- n) else print_num 10 n)
    with (if n <? 0 then 45 :: print_num 10 (Z.abs n) else print_num 10 (Z.abs n))
    by (destruct (Z.ltb_spec n 0); do 2 f_equal; lia).
  rewrite Hb, Hs. f_equal. destruct (Z.ltb_spec n 0); lia.
Qed.

(** The functions read back what was printed in decimal: every [int32_t], and
    every [uint32_t] (with a [long] of at least 32 bits). *)
Theorem str_conv_print n :
  32 <= w ->
  (sint 32 n -> no_os_str_to_int32 (print_int n) = n) /\
  (uint 32 n -> no_os_str_to_uint32 (print_num 10 n) = n).
Proof.
  intros Hw. split; intros Hn.
  - pose proof (length_print_int n Hn). unfold no_os_str_to_int32.
    rewrite strtol_print_int by done.
    rewrite bool_decide_false; [by apply swrap_small |]. intros E. rewrite <- E in *. cbn in *. lia.
  - assert (2 ^ 32 <= 2 ^ w) by (apply Z.pow_le_mono_r; lia).
    unfold no_os_str_to_uint32. destruct (decide (n = 0)) as [-> |].
    { change (print_num 10 0) with [48]. change (auto_base [48]) with 8.
      by rewrite (proj2 (zero_print Hw)). }
    destruct (print_num_start n ltac:(ulia)) as (c & t & E & Hc).
    rewrite E. destruct (start_digit c t Hc) as (_ & -> & _). rewrite <- E.
    rewrite strtoul_print by ulia. rewrite bool_decide_false; [by apply wrap_small |].
    rewrite E. discriminate.
Qed.

(** A string without a number is an error, which the string ["-22"] is taken
    for as well. *)
Lemma str_conv_error s :
  digit_val (auto_base s) (hd 0 (sign_of (skip_spaces s)).2) = None ->
  no_os_str_to_int32 s = - EINVAL /\ no_os_str_to_uint32 s = 2 ^ 32 - EINVAL.
Proof.
  unfold no_os_str_to_int32, no_os_str_to_uint32, strtol, strtoul.
  destruct (sign_of (skip_spaces s)) as [neg s1] eqn:E. cbn [snd]. intros Hd.
  assert (skip_0x (auto_base s) s1 = s1) as ->.
  { unfold skip_0x. destruct s1 as [| z [| x [| d r]]]; try done. cbn [hd] in Hd.
    destruct (Z.eqb_spec z 48) as [-> |]; [| by rewrite andb_false_r].
    destruct (Z.eqb_spec (auto_base s) 16) as [Eb |]; [| done]. by rewrite Eb in Hd. }
  destruct s1 as [| c r]; cbn [hd] in Hd; rewrite ?Hd, bool_decide_true by done; by vm_compute.
Qed.
End conv.

Example str_conv_ex :
  no_os_str_to_int32 64 (str " -0x10z") = -16 /\ no_os_str_to_int32 64 (str "-22") = - EINVAL /\
  no_os_str_to_int32 32 (str "4294967297") = 2147483647 /\
  no_os_str_to_int32 64 (str "4294967297") = 1 /\ no_os_str_to_uint32 64 (str "x") = 4294967274.
Proof. vm_compute. by splits. Qed.
