(* ===== verification/Iiod.v ===== *)
(** * The IIO daemon's command lines: [iio/iiod.c], [iiod_private.h]

    The data of a command and the parser of its line.  A token that is missing
    where the code passes it on unchecked is a null pointer in [strncpy] or
    [strtoul]: undefined. *)
From Stdlib Require Import String.
From S2P Require Import Prelude CString.

(** ** Data *)

Inductive iiod_cmd : Type :=
  | IIOD_CMD_HELP
  | IIOD_CMD_EXIT
  | IIOD_CMD_PRINT
  | IIOD_CMD_VERSION
  | IIOD_CMD_TIMEOUT
  | IIOD_CMD_OPEN
  | IIOD_CMD_CLOSE
  | IIOD_CMD_READ
  | IIOD_CMD_WRITE
  | IIOD_CMD_READBUF
  | IIOD_CMD_WRITEBUF
  | IIOD_CMD_GETTRIG
  | IIOD_CMD_SETTRIG
  | IIOD_CMD_SET.

#[export] Instance iiod_cmd_eq : EqDecision iiod_cmd.
Proof. solve_decision. Defined.

Inductive iio_attr_type : Type :=
  | IIO_ATTR_TYPE_DEBUG
  | IIO_ATTR_TYPE_BUFFER
  | IIO_ATTR_TYPE_CH_OUT
  | IIO_ATTR_TYPE_CH_IN
  | IIO_ATTR_TYPE_DEVICE.

#[export] Instance iio_attr_type_eq : EqDecision iio_attr_type.
Proof. solve_decision. Defined.

Definition MAX_DEV_ID : nat := 64.
Definition MAX_TRIG_ID : nat := 64.
Definition MAX_CHN_ID : nat := 64.
Definition MAX_ATTR_NAME : nat := 256.

Record comand_desc : Type := ComandDesc {
  cd_cmd : iiod_cmd;
  cd_mask : Z;
  cd_timeout : Z;
  cd_sample_count : Z;
  cd_bytes_count : Z;
  cd_count : Z;
  cd_cyclic : bool;
  cd_device : list Z;
  cd_channel : list Z;
  cd_attr : list Z;
  cd_trigger : list Z;
  cd_type : iio_attr_type
}.

(** What [memset] makes of it. *)
Definition comand_zero : comand_desc :=
  ComandDesc IIOD_CMD_HELP 0 0 0 0 0 false (replicate MAX_DEV_ID 0) (replicate MAX_CHN_ID 0)
    (replicate MAX_ATTR_NAME 0) (replicate MAX_TRIG_ID 0) IIO_ATTR_TYPE_DEBUG.

Definition set_cmd c d := ComandDesc c (cd_mask d) (cd_timeout d) (cd_sample_count d)
  (cd_bytes_count d) (cd_count d) (cd_cyclic d) (cd_device d) (cd_channel d) (cd_attr d)
  (cd_trigger d) (cd_type d).
Definition set_mask n d := ComandDesc (cd_cmd d) n (cd_timeout d) (cd_sample_count d)
  (cd_bytes_count d) (cd_count d) (cd_cyclic d) (cd_device d) (cd_channel d) (cd_attr d)
  (cd_trigger d) (cd_type d).
Definition set_timeout n d := ComandDesc (cd_cmd d) (cd_mask d) n (cd_sample_count d)
  (cd_bytes_count d) (cd_count d) (cd_cyclic d) (cd_device d) (cd_channel d) (cd_attr d)
  (cd_trigger d) (cd_type d).
Definition set_sample_count n d := ComandDesc (cd_cmd d) (cd_mask d) (cd_timeout d) n
  (cd_bytes_count d) (cd_count d) (cd_cyclic d) (cd_device d) (cd_channel d) (cd_attr d)
  (cd_trigger d) (cd_type d).
Definition set_bytes_count n d := ComandDesc (cd_cmd d) (cd_mask d) (cd_timeout d)
  (cd_sample_count d) n (cd_count d) (cd_cyclic d) (cd_device d) (cd_channel d) (cd_attr d)
  (cd_trigger d) (cd_type d).
Definition set_count n d := ComandDesc (cd_cmd d) (cd_mask d) (cd_timeout d)
  (cd_sample_count d) (cd_bytes_count d) n (cd_cyclic d) (cd_device d) (cd_channel d) (cd_attr d)
  (cd_trigger d) (cd_type d).
Definition set_cyclic b d := ComandDesc (cd_cmd d) (cd_mask d) (cd_timeout d)
  (cd_sample_count d) (cd_bytes_count d) (cd_count d) b (cd_device d) (cd_channel d) (cd_attr d)
  (cd_trigger d) (cd_type d).
Definition set_device s d := ComandDesc (cd_cmd d) (cd_mask d) (cd_timeout d)
  (cd_sample_count d) (cd_bytes_count d) (cd_count d) (cd_cyclic d) s (cd_channel d) (cd_attr d)
  (cd_trigger d) (cd_type d).
Definition set_channel s d := ComandDesc (cd_cmd d) (cd_mask d) (cd_timeout d)
  (cd_sample_count d) (cd_bytes_count d) (cd_count d) (cd_cyclic d) (cd_device d) s (cd_attr d)
  (cd_trigger d) (cd_type d).
Definition set_attr s d := ComandDesc (cd_cmd d) (cd_mask d) (cd_timeout d)
  (cd_sample_count d) (cd_bytes_count d) (cd_count d) (cd_cyclic d) (cd_device d) (cd_channel d) s
  (cd_trigger d) (cd_type d).
Definition set_trigger s d := ComandDesc (cd_cmd d) (cd_mask d) (cd_timeout d)
  (cd_sample_count d) (cd_bytes_count d) (cd_count d) (cd_cyclic d) (cd_device d) (cd_channel d)
  (cd_attr d) s (cd_type d).
Definition set_type t d := ComandDesc (cd_cmd d) (cd_mask d) (cd_timeout d)
  (cd_sample_count d) (cd_bytes_count d) (cd_count d) (cd_cyclic d) (cd_device d) (cd_channel d)
  (cd_attr d) (cd_trigger d) t.

(** [" \r\n"] *)
Definition delim : list Z := [32; 13; 10].

Definition cmd_str (c : iiod_cmd) : list Z :=
  match c with
  | IIOD_CMD_HELP => str "HELP"
  | IIOD_CMD_EXIT => str "EXIT"
  | IIOD_CMD_PRINT => str "PRINT"
  | IIOD_CMD_VERSION => str "VERSION"
  | IIOD_CMD_TIMEOUT => str "TIMEOUT"
  | IIOD_CMD_OPEN => str "OPEN"
  | IIOD_CMD_CLOSE => str "CLOSE"
  | IIOD_CMD_READ => str "READ"
  | IIOD_CMD_WRITE => str "WRITE"
  | IIOD_CMD_READBUF => str "READBUF"
  | IIOD_CMD_WRITEBUF => str "WRITEBUF"
  | IIOD_CMD_GETTRIG => str "GETTRIG"
  | IIOD_CMD_SETTRIG => str "SETTRIG"
  | IIOD_CMD_SET => str "SET"
  end.

Definition priority_array : list iiod_cmd :=
  [IIOD_CMD_READBUF; IIOD_CMD_WRITEBUF; IIOD_CMD_READ; IIOD_CMD_WRITE; IIOD_CMD_OPEN;
   IIOD_CMD_CLOSE; IIOD_CMD_PRINT; IIOD_CMD_EXIT; IIOD_CMD_TIMEOUT; IIOD_CMD_VERSION;
   IIOD_CMD_GETTRIG; IIOD_CMD_SETTRIG; IIOD_CMD_HELP; IIOD_CMD_SET].

Definition attr_types_strs : list (iio_attr_type * list Z) :=
  [(IIO_ATTR_TYPE_DEBUG, str "DEBUG"); (IIO_ATTR_TYPE_BUFFER, str "BUFFER");
   (IIO_ATTR_TYPE_CH_OUT, str "OUTPUT"); (IIO_ATTR_TYPE_CH_IN, str "INPUT")].

(** ** The parser *)

Section parser.
  (** The width of [unsigned long]. *)
  Context (long_bits : Z).

(** The state of the parser: the rest of the line, which [strtok_r] keeps in
    its context, and the command. *)
Record parse_state : Type := PState { p_rest : list Z; p_res : comand_desc }.

Definition next_token : cmd parse_state (option (list Z)) := fun s =>
  let '(t, rest) := strtok_r delim (p_rest s) in Done (t, PState rest (p_res s)).

Definition upd (f : comand_desc -> comand_desc) : cmd parse_state unit :=
  modify (fun s => PState (p_rest s) (f (p_res s))).

Fixpoint find_cmd (token : list Z) (l : list iiod_cmd) : option iiod_cmd :=
  match l with
  | [] => None
  | c :: l => if strcmp_eq token (cmd_str c) then Some c else find_cmd token l
  end.

Definition parse_cmd (token : option (list Z)) : cmd parse_state Z :=
  match token with
  | None => mret (- EINVAL)
  | Some token =>
      match find_cmd token priority_array with
      | Some c => _ ← upd (set_cmd c); mret 0
      | None => mret (- EINVAL)
      end
  end.

(** [*res] is set by [set] whatever the result. *)
Definition parse_num (token : option (list Z)) (set : Z -> comand_desc -> comand_desc) (base : Z) :
  cmd parse_state Z :=
  token ← the token;
  let '(v, rest) := strtoul long_bits token base in
  let v := u32 v in
  _ ← upd (set v);
  mret (if (v =? 0) && negb (bool_decide (rest = [])) then - EINVAL else 0).

Definition iiod_parse_open (token : option (list Z)) : cmd parse_state Z :=
  match token with
  | None => mret (- EINVAL)
  | Some _ =>
      ret ← parse_num token set_sample_count 10;
      if NO_OS_IS_ERR_VALUE ret then mret ret else
      token ← next_token;
      match token with
      | None => mret (- EINVAL)
      | Some _ =>
          ret ← parse_num token set_mask 16;
          if NO_OS_IS_ERR_VALUE ret then mret ret else
          _ ← upd (set_cyclic false);
          token ← next_token;
          match token with
          | None => mret 0
          | Some t =>
              if strcmp_eq t (str "CYCLIC") then _ ← upd (set_cyclic true); mret 0
              else mret (- EINVAL)
          end
      end
  end.

Definition iiod_parse_set (token : option (list Z)) : cmd parse_state Z :=
  match token with
  | None => mret (- EINVAL)
  | Some t =>
      if negb (strcmp_eq t (str "BUFFERS_COUNT")) then mret (- EINVAL) else
      token ← next_token;
      match token with
      | None => mret (- EINVAL)
      | Some _ => parse_num token set_count 10
      end
  end.

Fixpoint find_type (token : list Z) (l : list (iio_attr_type * list Z)) : option iio_attr_type :=
  match l with
  | [] => None
  | (t, s) :: l => if strcmp_eq token s then Some t else find_type token l
  end.

Definition is_channel (t : iio_attr_type) : bool :=
  match t with IIO_ATTR_TYPE_CH_IN | IIO_ATTR_TYPE_CH_OUT => true | _ => false end.

(** [*token >= '0' && *token <= '9'] of a token, which is not empty *)
Definition starts_with_digit (t : list Z) : bool :=
  match t with c :: _ => (48 <=? c) && (c <=? 57) | [] => false end.

(** The kind of attribute, [DEVICE] when the token is no kind; the next token
    to look at. *)
Definition attr_kind (token : option (list Z)) : cmd parse_state (option (list Z)) :=
  _ ← upd (set_type IIO_ATTR_TYPE_DEVICE);
  match token ≫= (fun t => find_type t attr_types_strs) with
  | Some ty => token ← next_token; _ ← upd (set_type ty); mret token
  | None => mret token
  end.

(** The channel, where the kind has one; the next token, or the error. *)
Definition attr_channel (token : option (list Z)) : cmd parse_state (option (list Z) + Z) :=
  s ← get;
  if is_channel (cd_type (p_res s)) then
    match token with
    | None => mret (inr (- EINVAL))
    | Some t => _ ← upd (set_channel (strncpy MAX_CHN_ID t)); token ← next_token; mret (inl token)
    end
  else mret (inl token).

(** The name, and the length of what is written. *)
Definition attr_name (token : option (list Z)) : cmd parse_state Z :=
  s ← get;
  if decide (cd_cmd (p_res s) = IIOD_CMD_WRITE) then
    match token with
    | None => mret (- EINVAL)
    | Some t =>
        if starts_with_digit t then
          _ ← upd (set_attr (replicate MAX_ATTR_NAME 0));
          parse_num token set_bytes_count 10
        else
          _ ← upd (set_attr (strncpy MAX_ATTR_NAME t));
          token ← next_token;
          match token with
          | None => mret (- EINVAL)
          | Some _ => parse_num token set_bytes_count 10
          end
    end
  else
    _ ← upd (set_attr (match token with
                       | Some t => strncpy MAX_ATTR_NAME t
                       | None => replicate MAX_ATTR_NAME 0
                       end));
    mret 0.

Definition iiod_parse_rw_attr (token : option (list Z)) : cmd parse_state Z :=
  token ← attr_kind token;
  r ← attr_channel token;
  match r with
  | inr ret => mret ret
  | inl token => attr_name token
  end.

(** The two switches, [token] being the one after the command. *)
Definition parse_args (token : option (list Z)) : cmd parse_state Z :=
  s ← get;
  match cd_cmd (p_res s) with
  | IIOD_CMD_HELP | IIOD_CMD_EXIT | IIOD_CMD_PRINT | IIOD_CMD_VERSION => mret 0
  | IIOD_CMD_TIMEOUT => parse_num token set_timeout 10
  | c =>
      t ← the token;
      _ ← upd (set_device (strncpy MAX_DEV_ID t));
      token ← next_token;
      match c with
      | IIOD_CMD_CLOSE | IIOD_CMD_GETTRIG => mret 0
      | IIOD_CMD_OPEN => iiod_parse_open token
      | IIOD_CMD_READ | IIOD_CMD_WRITE => iiod_parse_rw_attr token
      | IIOD_CMD_READBUF | IIOD_CMD_WRITEBUF => parse_num token set_bytes_count 10
      | IIOD_CMD_SETTRIG =>
          _ ← upd (set_trigger (match token with
                                | Some t => strncpy MAX_TRIG_ID t
                                | None => replicate MAX_TRIG_ID 0
                                end));
          mret 0
      | IIOD_CMD_SET => iiod_parse_set token
      | _ => mret (- EINVAL)
      end
  end.

(** The line without its terminator is the first context. *)
Definition iiod_parse_line : cmd parse_state Z :=
  token ← next_token;
  ret ← parse_cmd token;
  if NO_OS_IS_ERR_VALUE ret then mret ret else
  token ← next_token;
  parse_args token.

(** ** What a client sends *)

Inductive attr_sel : Type :=
  | SelDevice
  | SelDebug
  | SelBuffer
  | SelOut (channel : list Z)
  | SelIn (channel : list Z).

Inductive client_cmd : Type :=
  | QHelp
  | QExit
  | QPrint
  | QVersion
  | QTimeout (n : Z)
  | QOpen (device : list Z) (samples mask : Z) (cyclic : bool)
  | QClose (device : list Z)
  | QRead (device : list Z) (sel : attr_sel) (attr : option (list Z))
  | QWrite (device : list Z) (sel : attr_sel) (attr : option (list Z)) (n : Z)
  | QReadbuf (device : list Z) (n : Z)
  | QWritebuf (device : list Z) (n : Z)
  | QGettrig (device : list Z)
  | QSettrig (device : list Z) (trigger : option (list Z))
  | QSet (device : list Z) (n : Z).

Definition sel_words (sel : attr_sel) : list (list Z) :=
  match sel with
  | SelDevice => []
  | SelDebug => [str "DEBUG"]
  | SelBuffer => [str "BUFFER"]
  | SelOut ch => [str "OUTPUT"; ch]
  | SelIn ch => [str "INPUT"; ch]
  end.

Definition num (n : Z) : list Z := print_num 10 n.

Definition opt_words (w : option (list Z)) : list (list Z) :=
  match w with Some w => [w] | None => [] end.

(** The words of a command, numbers in decimal and masks in hexadecimal. *)
Definition cmd_words (q : client_cmd) : list (list Z) :=
  match q with
  | QHelp => [str "HELP"]
  | QExit => [str "EXIT"]
  | QPrint => [str "PRINT"]
  | QVersion => [str "VERSION"]
  | QTimeout n => [str "TIMEOUT"; num n]
  | QOpen d n m c => [str "OPEN"; d; num n; print_num 16 m] ++ if c then [str "CYCLIC"] else []
  | QClose d => [str "CLOSE"; d]
  | QRead d sel a => [str "READ"; d] ++ sel_words sel ++ opt_words a
  | QWrite d sel a n => [str "WRITE"; d] ++ sel_words sel ++ opt_words a ++ [num n]
  | QReadbuf d n => [str "READBUF"; d; num n]
  | QWritebuf d n => [str "WRITEBUF"; d; num n]
  | QGettrig d => [str "GETTRIG"; d]
  | QSettrig d t => [str "SETTRIG"; d] ++ opt_words t
  | QSet d n => [str "SET"; d; str "BUFFERS_COUNT"; num n]
  end.

(** Words separated by blanks, with [\r\n] at the end. *)
Fixpoint line (ws : list (list Z)) : list Z :=
  match ws with
  | [] => [10]
  | [w] => w ++ [13; 10]
  | w :: ws => w ++ 32 :: line ws
  end.

Definition set_sel (sel : attr_sel) (d : comand_desc) : comand_desc :=
  match sel with
  | SelDevice => set_type IIO_ATTR_TYPE_DEVICE d
  | SelDebug => set_type IIO_ATTR_TYPE_DEBUG d
  | SelBuffer => set_type IIO_ATTR_TYPE_BUFFER d
  | SelOut ch => set_channel (strncpy MAX_CHN_ID ch) (set_type IIO_ATTR_TYPE_CH_OUT d)
  | SelIn ch => set_channel (strncpy MAX_CHN_ID ch) (set_type IIO_ATTR_TYPE_CH_IN d)
  end.

Definition copy_or_zero (n : nat) (s : option (list Z)) : list Z :=
  match s with Some s => strncpy n s | None => replicate n 0 end.

(** The command that the daemon should understand. *)
Definition understood (q : client_cmd) (d : comand_desc) : comand_desc :=
  let dev s := set_device (strncpy MAX_DEV_ID s) in
  match q with
  | QHelp => set_cmd IIOD_CMD_HELP d
  | QExit => set_cmd IIOD_CMD_EXIT d
  | QPrint => set_cmd IIOD_CMD_PRINT d
  | QVersion => set_cmd IIOD_CMD_VERSION d
  | QTimeout n => set_timeout n (set_cmd IIOD_CMD_TIMEOUT d)
  | QOpen s n m c =>
      set_cyclic c (set_mask m (set_sample_count n (dev s (set_cmd IIOD_CMD_OPEN d))))
  | QClose s => dev s (set_cmd IIOD_CMD_CLOSE d)
  | QRead s sel a =>
      set_attr (copy_or_zero MAX_ATTR_NAME a) (set_sel sel (dev s (set_cmd IIOD_CMD_READ d)))
  | QWrite s sel a n =>
      set_bytes_count n (set_attr (copy_or_zero MAX_ATTR_NAME a)
        (set_sel sel (dev s (set_cmd IIOD_CMD_WRITE d))))
  | QReadbuf s n => set_bytes_count n (dev s (set_cmd IIOD_CMD_READBUF d))
  | QWritebuf s n => set_bytes_count n (dev s (set_cmd IIOD_CMD_WRITEBUF d))
  | QGettrig s => dev s (set_cmd IIOD_CMD_GETTRIG d)
  | QSettrig s t => set_trigger (copy_or_zero MAX_TRIG_ID t) (dev s (set_cmd IIOD_CMD_SETTRIG d))
  | QSet s n => set_count n (dev s (set_cmd IIOD_CMD_SET d))
  end.

Definition is_word (w : list Z) : Prop := word delim w.

(** Names are words; an attribute of a device must not be called like a kind
    of attribute, and one that is written must not start with a digit. *)
Definition attr_ok (sel : attr_sel) (a : option (list Z)) : Prop :=
  match a with
  | None => True
  | Some a => is_word a /\ match sel with SelDevice => find_type a attr_types_strs = None | _ => True end
  end /\
  match sel with SelOut ch | SelIn ch => is_word ch | _ => True end.

Definition client_ok (q : client_cmd) : Prop :=
  match q with
  | QHelp | QExit | QPrint | QVersion => True
  | QTimeout n => uint 32 n
  | QOpen d n m c => is_word d /\ uint 32 n /\ uint 32 m
  | QClose d | QGettrig d => is_word d
  | QRead d sel a => is_word d /\ attr_ok sel a
  | QWrite d sel a n => is_word d /\ attr_ok sel a /\ uint 32 n /\
      match a with Some a => starts_with_digit a = false | None => True end
  | QReadbuf d n | QWritebuf d n | QSet d n => is_word d /\ uint 32 n
  | QSettrig d t => is_word d /\ match t with Some t => is_word t | None => True end
  end.

(** ** Reading back *)

Lemma next_word w ws d :
  is_word w -> next_token (PState (line (w :: ws)) d) = Done (Some w, PState (line ws) d).
Proof.
  intros Hw. unfold next_token. cbn [p_rest p_res].
  destruct ws as [| w' ws]; cbn [line]; by rewrite strtok_word.
Qed.

Lemma next_end d : next_token (PState (line []) d) = Done (None, PState [] d).
Proof. done. Qed.

Lemma delim_low c : 48 <= c < 123 -> is_delim delim c = false.
Proof.
  intros Hc. unfold is_delim. apply bool_decide_false. unfold delim.
  rewrite !elem_of_cons, elem_of_nil. lia.
Qed.

Lemma num_word base n : 2 <= base <= 36 -> 0 <= n -> is_word (print_num base n).
Proof. intros. apply print_num_word; [done | done | apply delim_low]. Qed.

Lemma upd_done f s : upd f s = Done (tt, PState (p_rest s) (f (p_res s))).
Proof. done. Qed.

Lemma parse_num_print set base n s :
  2 <= base <= 36 -> uint 32 n -> 32 <= long_bits ->
  parse_num (Some (print_num base n)) set base s = Done (0, PState (p_rest s) (set n (p_res s))).
Proof.
  intros Hb Hn Hl. unfold parse_num. rewrite (bind_done _ _ _ (print_num base n) s) by done.
  assert (2 ^ 32 <= 2 ^ long_bits) by (apply Z.pow_le_mono_r; lia).
  rewrite strtoul_print by (done || ulia).
  rewrite wrap_small by done. rewrite (bind_done _ _ _ _ _ (upd_done (set n) s)).
  rewrite bool_decide_true by done. cbn [negb]. by rewrite andb_false_r.
Qed.

Lemma starts_with_num n : 0 <= n < 2 ^ 64 -> starts_with_digit (num n) = true.
Proof.
  intros Hn. unfold num, print_num.
  pose proof (digits_chars 10 64 ltac:(lia) n (proj1 Hn)) as Hch.
  pose proof (digits_not_nil 10 63 n) as Hne.
  destruct (digits 64 10 n) as [| c s]; [done |]. apply Forall_cons in Hch as [Hc _].
  apply digit_of_range in Hc; [| lia]. cbn. destruct Hc as [Hc | Hc]; [| lia].
  apply andb_true_iff. split; apply Z.leb_le; lia.
Qed.

Lemma find_type_digit t : starts_with_digit t = true -> find_type t attr_types_strs = None.
Proof.
  intros Ht. cbn [find_type attr_types_strs]. unfold strcmp_eq.
  rewrite !bool_decide_false; [done |..]; intros ->; vm_compute in Ht; discriminate.
Qed.

Context (Hlong : 32 <= long_bits).

(** What is left after the first word. *)
Definition after (ws : list (list Z)) : list Z :=
  match ws with [] => [] | _ :: ws => line ws end.

Lemma next_fetch ws d :
  Forall is_word ws -> next_token (PState (line ws) d) = Done (head ws, PState (after ws) d).
Proof. destruct ws as [| w ws]; [done |]. intros [Hw _]%Forall_cons. by apply next_word. Qed.

Lemma get_done {S} (s : S) : get s = Done (s, s).
Proof. done. Qed.

Definition sel_type (sel : attr_sel) : iio_attr_type :=
  match sel with
  | SelDevice => IIO_ATTR_TYPE_DEVICE
  | SelDebug => IIO_ATTR_TYPE_DEBUG
  | SelBuffer => IIO_ATTR_TYPE_BUFFER
  | SelOut _ => IIO_ATTR_TYPE_CH_OUT
  | SelIn _ => IIO_ATTR_TYPE_CH_IN
  end.

Definition sel_channel (sel : attr_sel) : list (list Z) :=
  match sel with SelOut ch | SelIn ch => [ch] | _ => [] end.

(** The words of the kind fit the ones that follow. *)
Definition sel_fits (sel : attr_sel) (ws : list (list Z)) : Prop :=
  Forall is_word (sel_channel sel ++ ws) /\
  (sel = SelDevice -> head ws ≫= (fun t => find_type t attr_types_strs) = None).

Lemma attr_kind_run sel ws d :
  sel_fits sel ws ->
  attr_kind (head (sel_words sel ++ ws)) (PState (after (sel_words sel ++ ws)) d)
  = Done (head (sel_channel sel ++ ws),
          PState (after (sel_channel sel ++ ws)) (set_type (sel_type sel) d)).
Proof.
  intros [Hw Hd]. unfold attr_kind. rewrite (bind_done _ _ _ _ _ (upd_done _ _)). cbn [p_rest p_res].
  destruct sel as [| | | ch | ch]; cbn [sel_words sel_channel app head after sel_type] in *;
    [by rewrite Hd | ..].
  all: match goal with |- context [Some ?s ≫= ?f] =>
         let r := eval vm_compute in (Some s ≫= f) in change (Some s ≫= f) with r end; cbv iota beta.
  all: first [rewrite (bind_done _ _ _ _ _ (next_fetch ws _ Hw))
             | rewrite (bind_done _ _ _ _ _ (next_fetch (ch :: ws) _ Hw))]; done.
Qed.

Lemma attr_channel_run sel ws d :
  sel_fits sel ws ->
  attr_channel (head (sel_channel sel ++ ws))
    (PState (after (sel_channel sel ++ ws)) (set_type (sel_type sel) d))
  = Done (inl (head ws), PState (after ws) (set_sel sel d)).
Proof.
  intros [Hw _]. unfold attr_channel. rewrite (bind_done _ _ _ _ _ (get_done _)). cbn [p_rest p_res].
  destruct sel as [| | | ch | ch]; cbn [sel_channel app head after sel_type set_sel] in *;
    [done | done | done | |];
    cbn [set_type cd_type is_channel]; rewrite (bind_done _ _ _ _ _ (upd_done _ _)); cbn [p_rest p_res];
    apply Forall_cons in Hw as [_ Hw]; by rewrite (bind_done _ _ _ _ _ (next_fetch ws _ Hw)).
Qed.

Lemma rw_attr_run sel ws d :
  sel_fits sel ws ->
  iiod_parse_rw_attr (head (sel_words sel ++ ws)) (PState (after (sel_words sel ++ ws)) d)
  = attr_name (head ws) (PState (after ws) (set_sel sel d)).
Proof.
  intros Hs. unfold iiod_parse_rw_attr. rewrite (bind_done _ _ _ _ _ (attr_kind_run sel ws d Hs)).
  by rewrite (bind_done _ _ _ _ _ (attr_channel_run sel ws d Hs)).
Qed.

Lemma set_sel_cmd sel d : cd_cmd (set_sel sel d) = cd_cmd d.
Proof. by destruct sel. Qed.

(** Reading an attribute: the name or nothing. *)
Lemma attr_name_read a ws d :
  cd_cmd d <> IIOD_CMD_WRITE ->
  attr_name a (PState ws d) = Done (0, PState ws (set_attr (copy_or_zero MAX_ATTR_NAME a) d)).
Proof.
  intros Hc. unfold attr_name. rewrite (bind_done _ _ _ _ _ (get_done _)). cbn [p_res].
  rewrite decide_False by done. by destruct a.
Qed.

(** Writing one: the name or nothing, and the length. *)
Lemma attr_name_write a n d :
  cd_cmd d = IIOD_CMD_WRITE -> uint 32 n ->
  match a with Some a => is_word a /\ starts_with_digit a = false | None => True end ->
  let ws := opt_words a ++ [num n] in
  exists rest, attr_name (head ws) (PState (after ws) d)
    = Done (0, PState rest (set_bytes_count n (set_attr (copy_or_zero MAX_ATTR_NAME a) d))).
Proof using Hlong.
  intros Hc Hn Ha ws. unfold attr_name. rewrite (bind_done _ _ _ _ _ (get_done _)). cbn [p_res].
  rewrite decide_True by done. destruct a as [a |]; unfold ws; cbn [opt_words app head after].
  - destruct Ha as [Ha ->]. rewrite (bind_done _ _ _ _ _ (upd_done _ _)). cbn [p_rest p_res].
    rewrite (bind_done _ _ _ _ _ (next_word (num n) [] _ (num_word 10 n ltac:(lia) (proj1 Hn)))).
    eexists. by apply parse_num_print.
  - rewrite starts_with_num by ulia. rewrite (bind_done _ _ _ _ _ (upd_done _ _)). cbn [p_rest p_res].
    eexists. by apply parse_num_print.
Qed.

Lemma cmd_word c : is_word (cmd_str c).
Proof. destruct c; (split; [done | repeat constructor]). Qed.

Lemma find_cmd_str c : find_cmd (cmd_str c) priority_array = Some c.
Proof. by destruct c. Qed.

(** The command word is understood whatever follows. *)
Lemma parse_line_cmd c ws d :
  Forall is_word ws ->
  iiod_parse_line (PState (line (cmd_str c :: ws)) d)
  = parse_args (head ws) (PState (after ws) (set_cmd c d)).
Proof.
  intros Hws. unfold iiod_parse_line.
  rewrite (bind_done _ _ _ _ _ (next_word (cmd_str c) ws d (cmd_word c))).
  rewrite (bind_done _ _ _ 0 (PState (line ws) (set_cmd c d))).
  - change (NO_OS_IS_ERR_VALUE 0) with false. cbv iota.
    by rewrite (bind_done _ _ _ _ _ (next_fetch ws _ Hws)).
  - unfold parse_cmd. by rewrite find_cmd_str.
Qed.

(** And the device, for the commands that have one; [k] is the rest. *)
Lemma parse_line_device c dev ws (k : option (list Z) -> cmd parse_state Z) d d1 :
  is_word dev -> Forall is_word ws ->
  (forall t s, cd_cmd (p_res s) = c -> parse_args t s
     = (t ← the t; _ ← upd (set_device (strncpy MAX_DEV_ID t)); token ← next_token; k token) s) ->
  (exists rest, k (head ws) (PState (after ws) (set_device (strncpy MAX_DEV_ID dev) (set_cmd c d)))
     = Done (0, PState rest d1)) ->
  exists rest, iiod_parse_line (PState (line (cmd_str c :: dev :: ws)) d) = Done (0, PState rest d1).
Proof.
  intros Hd Hws Hk [rest Hr]. exists rest. rewrite (parse_line_cmd c (dev :: ws)) by by constructor.
  rewrite Hk by done. cbn [head after].
  rewrite (bind_done (the (Some dev)) _ _ dev (PState (line ws) (set_cmd c d))) by done.
  rewrite (bind_done _ _ _ _ _ (upd_done _ _)). cbn [p_rest p_res].
  by rewrite (bind_done _ _ _ _ _ (next_fetch ws _ Hws)).
Qed.

Lemma num_ok n : uint 32 n -> is_word (num n).
Proof. intros [Hn _]. apply num_word; lia. Qed.

Lemma open_run n m (c : bool) d :
  uint 32 n -> uint 32 m ->
  exists rest, iiod_parse_open (Some (num n))
    (PState (line (print_num 16 m :: (if c then [str "CYCLIC"] else [])%list)) d)
  = Done (0, PState rest (set_cyclic c (set_mask m (set_sample_count n d)))).
Proof using Hlong.
  intros Hn Hm. assert (is_word (print_num 16 m)) as Hw by (apply num_word; ulia).
  unfold iiod_parse_open.
  rewrite (bind_done _ _ _ _ _ (parse_num_print set_sample_count 10 n _ ltac:(lia) Hn Hlong)).
  change (NO_OS_IS_ERR_VALUE 0) with false. cbv iota. cbn [p_rest p_res].
  rewrite (bind_done _ _ _ _ _ (next_word _ _ _ Hw)).
  rewrite (bind_done _ _ _ _ _ (parse_num_print set_mask 16 m _ ltac:(lia) Hm Hlong)).
  change (NO_OS_IS_ERR_VALUE 0) with false. cbv iota. cbn [p_rest p_res].
  rewrite (bind_done _ _ _ _ _ (upd_done _ _)). cbn [p_rest p_res]. destruct c.
  - assert (is_word (str "CYCLIC")) as Hc by (split; [done | repeat constructor]).
    rewrite (bind_done _ _ _ _ _ (next_word _ _ _ Hc)).
    unfold strcmp_eq. rewrite bool_decide_true by done. by eexists.
  - rewrite (bind_done _ _ _ _ _ (next_end _)). by eexists.
Qed.

Lemma set_run n d :
  uint 32 n ->
  exists rest, iiod_parse_set (Some (str "BUFFERS_COUNT")) (PState (line [num n]) d)
  = Done (0, PState rest (set_count n d)).
Proof using Hlong.
  intros Hn. unfold iiod_parse_set, strcmp_eq. rewrite bool_decide_true by done. cbn [negb].
  rewrite (bind_done _ _ _ _ _ (next_word _ _ _ (num_ok n Hn))).
  eexists. by apply parse_num_print; [lia | | ].
Qed.

Lemma sel_fits_attr sel a ws :
  attr_ok sel a -> Forall is_word ws ->
  (a = None -> head ws ≫= (fun t => find_type t attr_types_strs) = None) ->
  sel_fits sel (opt_words a ++ ws).
Proof.
  intros [Ha Hs] Hws Hh. split.
  - assert (Forall is_word (opt_words a ++ ws)) as Haw
      by (destruct a; [apply Forall_cons; naive_solver | done]).
    destruct sel; cbn [sel_channel app]; try done; by constructor.
  - intros ->. destruct a as [a |]; [apply Ha | by apply Hh].
Qed.

Lemma sel_words_ok sel ws : sel_fits sel ws -> Forall is_word (sel_words sel ++ ws).
Proof.
  intros [Hw _]. destruct sel; cbn [sel_words sel_channel app] in *; try done;
    (constructor; [by split; [done | repeat constructor] | done]).
Qed.

Lemma sel_words_app sel a ws :
  attr_ok sel a -> Forall is_word ws -> Forall is_word (sel_words sel ++ ws).
Proof.
  intros [_ Hs] Hws. destruct sel; cbn [sel_words app]; try done;
    (repeat (apply Forall_cons_2; [first [done | by split; [done | repeat constructor]] |])); done.
Qed.

(** Lists of words, and the first step of [parse_args]. *)
Local Ltac words :=
  repeat (apply Forall_cons_2; [first [done | by split; [done | repeat constructor]] |]);
  apply Forall_nil_2.
Local Ltac args :=
  intros t' s' Hc'; unfold parse_args; by rewrite (bind_done _ _ _ _ _ (get_done _)), Hc'.

Lemma parse_print q d :
  client_ok q ->
  exists rest, iiod_parse_line (PState (line (cmd_words q)) d) = Done (0, PState rest (understood q d)).
Proof using Hlong.
  intros Hq. destruct q as [| | | | n | dev n m c | dev | dev sel a | dev sel a n | dev n | dev n | dev
    | dev t | dev n]; cbn [client_ok understood cmd_words] in *.
  - exists []. exact (parse_line_cmd IIOD_CMD_HELP [] d (Forall_nil_2 _)).
  - exists []. exact (parse_line_cmd IIOD_CMD_EXIT [] d (Forall_nil_2 _)).
  - exists []. exact (parse_line_cmd IIOD_CMD_PRINT [] d (Forall_nil_2 _)).
  - exists []. exact (parse_line_cmd IIOD_CMD_VERSION [] d (Forall_nil_2 _)).
  - eexists. pose proof (num_ok n Hq) as Hw.
    etransitivity; [apply (parse_line_cmd IIOD_CMD_TIMEOUT [num n]); words |].
    unfold parse_args. rewrite (bind_done _ _ _ _ _ (get_done _)). by apply parse_num_print; [lia | |].
  - destruct Hq as (Hd & Hn & Hm). apply (parse_line_device IIOD_CMD_OPEN dev _ iiod_parse_open);
      [done | | args | by apply open_run].
    pose proof (num_ok n Hn). assert (is_word (print_num 16 m)) by (apply num_word; ulia).
    destruct c; words.
  - apply (parse_line_device IIOD_CMD_CLOSE dev [] (fun _ => mret 0)); [done | done | args | by eexists].
  - destruct Hq as (Hd & Ha). pose proof (sel_fits_attr sel a [] Ha (Forall_nil_2 _) (fun _ => eq_refl)) as Hf.
    rewrite app_nil_r in Hf. pose proof (sel_words_ok _ _ Hf).
    apply (parse_line_device IIOD_CMD_READ dev _ iiod_parse_rw_attr); [done | done | args |].
    rewrite rw_attr_run by done. eexists. replace (head (opt_words a)) with a by by destruct a.
    apply attr_name_read. by rewrite set_sel_cmd.
  - destruct Hq as (Hd & Ha & Hn & Hdig). pose proof (num_ok n Hn) as Hw.
    assert (sel_fits sel (opt_words a ++ [num n])) as Hf.
    { apply sel_fits_attr; [done | words |]. intros _. cbn [head mbind option_bind].
      apply find_type_digit, starts_with_num. ulia. }
    pose proof (sel_words_ok _ _ Hf).
    apply (parse_line_device IIOD_CMD_WRITE dev _ iiod_parse_rw_attr); [done | done | args |].
    rewrite rw_attr_run by done. apply attr_name_write; [by rewrite set_sel_cmd | done |].
    destruct a; [by split; [apply Ha |] | done].
  - destruct Hq as (Hd & Hn). pose proof (num_ok n Hn).
    apply (parse_line_device IIOD_CMD_READBUF dev [num n] (fun t => parse_num t set_bytes_count 10));
      [done | words | args | eexists; by apply parse_num_print; [lia | |]].
  - destruct Hq as (Hd & Hn). pose proof (num_ok n Hn).
    apply (parse_line_device IIOD_CMD_WRITEBUF dev [num n] (fun t => parse_num t set_bytes_count 10));
      [done | words | args | eexists; by apply parse_num_print; [lia | |]].
  - apply (parse_line_device IIOD_CMD_GETTRIG dev [] (fun _ => mret 0)); [done | done | args | by eexists].
  - destruct Hq as (Hd & Ht).
    apply (parse_line_device IIOD_CMD_SETTRIG dev (opt_words t) (fun t =>
      _ ← upd (set_trigger (match t with Some t => strncpy MAX_TRIG_ID t
                                       | None => replicate MAX_TRIG_ID 0 end)); mret 0));
      [done | destruct t; words | args |].
    replace (head (opt_words t)) with t by by destruct t. by eexists.
  - destruct Hq as (Hd & Hn). pose proof (num_ok n Hn).
    apply (parse_line_device IIOD_CMD_SET dev _ iiod_parse_set); [done | | args | by apply set_run].
    constructor; [by split; [done | repeat constructor] | words].
Qed.

(** What a client sends are words. *)
Lemma cmd_words_ok q : client_ok q -> Forall is_word (cmd_words q).
Proof using Hlong.
  intros Hq. destruct q as [| | | | n | dev n m c | dev | dev sel a | dev sel a n | dev n | dev n | dev
    | dev t | dev n]; cbn [client_ok cmd_words] in *.
  all: repeat match goal with
       | H : _ /\ _ |- _ => destruct H
       | H : uint 32 ?n |- _ => pose proof (num_ok n H); pose proof (num_word 16 n ltac:(lia) (proj1 H));
           clear H
       end.
  all: repeat (apply Forall_cons_2; [first [done | by split; [done | repeat constructor]] |]).
  all: try apply Forall_nil_2.
  - destruct c; words.
  - apply (sel_words_app sel a); [done |].
    destruct a as [w |]; [| done]. assert (is_word w) by by destruct H0 as [[? _] _]. words.
  - apply (sel_words_app sel a); [done |]. cbn [opt_words app].
    destruct a as [w |]; [| words]. assert (is_word w) by by destruct H0 as [[? _] _]. words.
  - destruct t; words.
Qed.

(** C37: whatever command a client sends, with names that are words of the
    protocol and numbers of 32 bits, the daemon's parser accepts the line and
    understands exactly that command: every argument ends up in its field, and
    the other fields keep their values. *)
Theorem iiod_parse_print q d :
  client_ok q ->
  exists rest, iiod_parse_line (PState (line (cmd_words q)) d) = Done (0, PState rest (understood q d)).
Proof using Hlong. apply parse_print. Qed.

(** A line without the argument its command needs is not refused: the
    daemon passes a null pointer to the C library. *)
Theorem iiod_parse_missing c d :
  c ∉ [IIOD_CMD_HELP; IIOD_CMD_EXIT; IIOD_CMD_PRINT; IIOD_CMD_VERSION] ->
  iiod_parse_line (PState (line [cmd_str c]) d) = Undef.
Proof using Hlong.
  intros Hc. rewrite (parse_line_cmd c []) by done. unfold parse_args.
  rewrite (bind_done _ _ _ _ _ (get_done _)). cbn [p_res set_cmd cd_cmd head].
  destruct c; try done; exfalso; apply Hc; set_solver.
Qed.
End parser.

(** ** Examples *)

Lemma iiod_parse_print_witness :
  line (cmd_words (QOpen (str "adc") 400 15 true)) = (str "OPEN adc 400 f CYCLIC" ++ [13; 10])%list /\
  exists rest, iiod_parse_line 64 (PState (line (cmd_words (QOpen (str "adc") 400 15 true))) comand_zero)
    = Done (0, PState rest (understood (QOpen (str "adc") 400 15 true) comand_zero)).
Proof.
  split; [vm_compute; reflexivity |]. apply (iiod_parse_print 64); [lia |].
  split; [split; [discriminate | repeat constructor] | split; ulia].
Defined.

Lemma iiod_parse_missing_witness :
  iiod_parse_line 32 (PState (line [str "OPEN"]) comand_zero) = Undef.
Proof.
  refine (iiod_parse_missing 32 _ IIOD_CMD_OPEN comand_zero _); [lia |].
  rewrite !elem_of_cons, elem_of_nil. intros [H | [H | [H | [H | []]]]]; discriminate H.
Defined.
