(* ===== verification/IiodConn.v ===== *)
(** * The IIO daemon's connections: [iio/iiod.c], [iiod_private.h]

    The pool of connections, the non-blocking transfers, the commands and the
    state machine of a connection.  The application and the transport are the
    operations of [iiod_ops], parameters over a world of their own. *)
From Stdlib Require Import String.
From S2P Require Import Prelude Util CString Iiod.

(** ** Data *)

Definition IIOD_PARSER_MAX_BUF_SIZE : Z := 128.
Definition IIOD_MAX_CONNECTIONS : Z := 10.
Definition IIOD_VERSION : list Z := str "1.1.0000000".

Inductive physical_link_type : Type :=
  | USE_UART
  | USE_LOCAL_BACKEND
  | USE_NETWORK.

(** Where a buffer's address points to. *)
Inductive buf_ref : Type :=
  | BNull
  | BParser
  | BPayload
  | BMask
  | BXml
  | BVersion.

#[export] Instance buf_ref_eq : EqDecision buf_ref.
Proof. solve_decision. Defined.

Record iiod_buff : Type := Buff { b_buf : buf_ref; b_idx : Z; b_len : Z }.

Record iiod_run_cmd_result : Type := CmdResult {
  res_val : Z;
  write_val : bool;
  res_buf : iiod_buff
}.

Inductive iiod_state : Type :=
  | IIOD_READING_LINE
  | IIOD_RUNNING_CMD
  | IIOD_WRITING_CMD_RESULT
  | IIOD_RW_BUF
  | IIOD_READING_WRITE_DATA
  | IIOD_LINE_DONE
  | IIOD_PUSH_CYCLIC_BUFFER.

#[export] Instance iiod_state_eq : EqDecision iiod_state.
Proof. solve_decision. Defined.

(** [payload] is the memory that [payload_buf] points to.  [strtok_ctx], which
    holds nothing between two lines, is the context of the parser. *)
Record iiod_conn_priv : Type := Conn {
  conn : ptr;
  used : bool;
  cmd_data : comand_desc;
  res : iiod_run_cmd_result;
  state : iiod_state;
  parser_buf : list Z;
  parser_idx : Z;
  payload : list Z;
  payload_buf_len : Z;
  nb_buf : iiod_buff;
  mask : Z;
  buf_mask : list Z;
  is_cyclic_buffer : bool
}.

Record iiod_conn_data : Type := ConnData { data_conn : ptr; data_buf : list Z; data_len : Z }.

Record iiod_attr : Type := Attr { attr_type : iio_attr_type; attr_nm : list Z; attr_ch : list Z }.

(** [instance] and [conn] *)
Definition iiod_ctx : Type := (ptr * ptr)%type.

(** The operations that fill a buffer return what they wrote to it. *)
Record iiod_ops (W : Type) : Type := IiodOps {
  send : option (iiod_ctx -> list Z -> cmd W Z);
  recv : option (iiod_ctx -> Z -> cmd W (Z * list Z));
  open : option (iiod_ctx -> list Z -> Z -> Z -> bool -> cmd W Z);
  close : option (iiod_ctx -> list Z -> cmd W Z);
  read_buffer : option (iiod_ctx -> list Z -> Z -> cmd W (Z * list Z));
  refill_buffer : option (iiod_ctx -> list Z -> cmd W Z);
  write_buffer : option (iiod_ctx -> list Z -> list Z -> cmd W Z);
  push_buffer : option (iiod_ctx -> list Z -> cmd W Z);
  read_attr : option (iiod_ctx -> list Z -> iiod_attr -> Z -> cmd W (Z * list Z));
  write_attr : option (iiod_ctx -> list Z -> iiod_attr -> list Z -> Z -> cmd W Z);
  get_trigger : option (iiod_ctx -> list Z -> Z -> cmd W (Z * list Z));
  set_trigger_op : option (iiod_ctx -> list Z -> list Z -> Z -> cmd W Z);
  set_timeout_op : option (iiod_ctx -> Z -> cmd W Z);
  set_buffers_count : option (iiod_ctx -> list Z -> Z -> cmd W Z)
}.
Arguments IiodOps {W} _ _ _ _ _ _ _ _ _ _ _ _ _ _.
Arguments send {W} _.
Arguments recv {W} _.
Arguments open {W} _.
Arguments close {W} _.
Arguments read_buffer {W} _.
Arguments refill_buffer {W} _.
Arguments write_buffer {W} _.
Arguments push_buffer {W} _.
Arguments read_attr {W} _.
Arguments write_attr {W} _.
Arguments get_trigger {W} _.
Arguments set_trigger_op {W} _.
Arguments set_timeout_op {W} _.
Arguments set_buffers_count {W} _.

Record iiod_desc (W : Type) : Type := IiodDesc {
  conns : list iiod_conn_priv;
  ops : iiod_ops W;
  app_instance : ptr;
  xml : list Z;
  xml_len : Z;
  phy_type : physical_link_type
}.
Arguments IiodDesc {W} _ _ _ _ _ _.
Arguments conns {W} _.
Arguments ops {W} _.
Arguments app_instance {W} _.
Arguments xml {W} _.
Arguments xml_len {W} _.
Arguments phy_type {W} _.

Record iiod_init_param (W : Type) : Type := IiodParam {
  ip_ops : option (iiod_ops W);
  ip_instance : ptr;
  ip_xml : list Z;
  ip_xml_len : Z;
  ip_phy_type : physical_link_type
}.
Arguments IiodParam {W} _ _ _ _ _.
Arguments ip_ops {W} _.
Arguments ip_instance {W} _.
Arguments ip_xml {W} _.
Arguments ip_xml_len {W} _.
Arguments ip_phy_type {W} _.

(** What [memset] makes of a connection. *)
Definition buff0 : iiod_buff := Buff BNull 0 0.
Definition result0 : iiod_run_cmd_result := CmdResult 0 false buff0.
Definition conn0 : iiod_conn_priv :=
  Conn None false comand_zero result0 IIOD_READING_LINE
    (replicate (Z.to_nat IIOD_PARSER_MAX_BUF_SIZE) 0) 0 [] 0 buff0 0 (replicate 10 0) false.

Definition with_cmd x c := Conn (conn c) (used c) x (res c) (state c) (parser_buf c) (parser_idx c)
  (payload c) (payload_buf_len c) (nb_buf c) (mask c) (buf_mask c) (is_cyclic_buffer c).
Definition with_res x c := Conn (conn c) (used c) (cmd_data c) x (state c) (parser_buf c)
  (parser_idx c) (payload c) (payload_buf_len c) (nb_buf c) (mask c) (buf_mask c) (is_cyclic_buffer c).
Definition with_state x c := Conn (conn c) (used c) (cmd_data c) (res c) x (parser_buf c)
  (parser_idx c) (payload c) (payload_buf_len c) (nb_buf c) (mask c) (buf_mask c) (is_cyclic_buffer c).
Definition with_parser_buf x c := Conn (conn c) (used c) (cmd_data c) (res c) (state c) x
  (parser_idx c) (payload c) (payload_buf_len c) (nb_buf c) (mask c) (buf_mask c) (is_cyclic_buffer c).
Definition with_parser_idx x c := Conn (conn c) (used c) (cmd_data c) (res c) (state c)
  (parser_buf c) x (payload c) (payload_buf_len c) (nb_buf c) (mask c) (buf_mask c)
  (is_cyclic_buffer c).
Definition with_payload x c := Conn (conn c) (used c) (cmd_data c) (res c) (state c) (parser_buf c)
  (parser_idx c) x (payload_buf_len c) (nb_buf c) (mask c) (buf_mask c) (is_cyclic_buffer c).
Definition with_nb x c := Conn (conn c) (used c) (cmd_data c) (res c) (state c) (parser_buf c)
  (parser_idx c) (payload c) (payload_buf_len c) x (mask c) (buf_mask c) (is_cyclic_buffer c).
Definition with_mask x c := Conn (conn c) (used c) (cmd_data c) (res c) (state c) (parser_buf c)
  (parser_idx c) (payload c) (payload_buf_len c) (nb_buf c) x (buf_mask c) (is_cyclic_buffer c).
Definition with_buf_mask x c := Conn (conn c) (used c) (cmd_data c) (res c) (state c) (parser_buf c)
  (parser_idx c) (payload c) (payload_buf_len c) (nb_buf c) (mask c) x (is_cyclic_buffer c).
Definition with_cyclic x c := Conn (conn c) (used c) (cmd_data c) (res c) (state c) (parser_buf c)
  (parser_idx c) (payload c) (payload_buf_len c) (nb_buf c) (mask c) (buf_mask c) x.
Definition with_used x c := Conn (conn c) x (cmd_data c) (res c) (state c) (parser_buf c)
  (parser_idx c) (payload c) (payload_buf_len c) (nb_buf c) (mask c) (buf_mask c) (is_cyclic_buffer c).

Definition set_val v r := CmdResult v (write_val r) (res_buf r).
Definition set_write_val b r := CmdResult (res_val r) b (res_buf r).
Definition set_res_buf b r := CmdResult (res_val r) (write_val r) b.

Definition set_val_of v c := with_res (set_val v (res c)) c.
Definition set_write_val_of b c := with_res (set_write_val b (res c)) c.
Definition set_res_buf_of b c := with_res (set_res_buf b (res c)) c.

(** ** Operations of the application that are not there *)

Section dummies.
  Context {W : Type}.

Definition dummy_open (_ : iiod_ctx) (_ : list Z) (_ _ : Z) (_ : bool) : cmd W Z := mret (- EINVAL).

Definition dummy_close (_ : iiod_ctx) (_ : list Z) : cmd W Z := mret (- EINVAL).

(** [dummy_rw_attr] and [dummy_rd_data] as operations that fill a buffer, and
    as operations that do not. *)
Definition dummy_rd_attr (_ : iiod_ctx) (_ : list Z) (_ : iiod_attr) (_ : Z) : cmd W (Z * list Z) :=
  mret (- EINVAL, []).

Definition dummy_wr_attr (_ : iiod_ctx) (_ : list Z) (_ : iiod_attr) (_ : list Z) (_ : Z) : cmd W Z :=
  mret (- EINVAL).

Definition dummy_rd_data (_ : iiod_ctx) (_ : list Z) (_ : Z) : cmd W (Z * list Z) :=
  mret (- EINVAL, []).

Definition dummy_wr_buffer (_ : iiod_ctx) (_ _ : list Z) : cmd W Z := mret (- EINVAL).

Definition dummy_wr_data (_ : iiod_ctx) (_ _ : list Z) (_ : Z) : cmd W Z := mret (- EINVAL).

Definition dummy_set_timeout (_ : iiod_ctx) (_ : Z) : cmd W Z := mret (- EINVAL).

Definition dummy_set_buffers_count (_ : iiod_ctx) (_ : list Z) (_ : Z) : cmd W Z := mret (- EINVAL).

Definition SET_DUMMY_IF_NULL {A} (func : option A) (dummy : A) : option A :=
  match func with
  | Some _ => func
  | None => Some dummy
  end.

(** The result, and what [*ops] holds then. *)
Definition iiod_copy_ops (ops new_ops : iiod_ops W) : Z * iiod_ops W :=
  match recv new_ops, send new_ops with
  | Some _, Some _ =>
      (0, IiodOps (send new_ops) (recv new_ops)
            (SET_DUMMY_IF_NULL (open new_ops) dummy_open)
            (SET_DUMMY_IF_NULL (close new_ops) dummy_close)
            (SET_DUMMY_IF_NULL (read_buffer new_ops) dummy_rd_data)
            (SET_DUMMY_IF_NULL (refill_buffer new_ops) dummy_close)
            (SET_DUMMY_IF_NULL (write_buffer new_ops) dummy_wr_buffer)
            (SET_DUMMY_IF_NULL (push_buffer new_ops) dummy_close)
            (SET_DUMMY_IF_NULL (read_attr new_ops) dummy_rd_attr)
            (SET_DUMMY_IF_NULL (write_attr new_ops) dummy_wr_attr)
            (SET_DUMMY_IF_NULL (get_trigger new_ops) dummy_rd_data)
            (SET_DUMMY_IF_NULL (set_trigger_op new_ops) dummy_wr_data)
            (SET_DUMMY_IF_NULL (set_timeout_op new_ops) dummy_set_timeout)
            (SET_DUMMY_IF_NULL (set_buffers_count new_ops) dummy_set_buffers_count))
  | _, _ => (- EINVAL, ops)
  end.
End dummies.

(** ** The pool of connections *)

Section pool.
  Context {W : Type}.

Definition no_ops : iiod_ops W :=
  IiodOps None None None None None None None None None None None None None None.

(** What [calloc] makes of a descriptor. *)
Definition desc0 : iiod_desc W :=
  IiodDesc (replicate (Z.to_nat IIOD_MAX_CONNECTIONS) conn0) no_ops None [] 0 USE_UART.

Definition set_conns cs (d : iiod_desc W) : iiod_desc W :=
  IiodDesc cs (ops d) (app_instance d) (xml d) (xml_len d) (phy_type d).

(** The result, and the descriptor where it was set. *)
Definition iiod_init (desc_is_null : bool) (param : option (iiod_init_param W)) :
  cmd (heap (iiod_desc W)) (Z * ptr) :=
  match param with
  | Some p =>
      match ip_ops p with
      | Some new_ops =>
          if desc_is_null then mret (- EINVAL, None) else
          ldesc ← halloc desc0;
          match ldesc with
          | None => mret (- ENOMEM, None)
          | Some _ =>
              d ← hload ldesc;
              let '(ret, o) := iiod_copy_ops (ops d) new_ops in
              if NO_OS_IS_ERR_VALUE ret then _ ← hfree ldesc; mret (ret, None) else
              _ ← hstore ldesc
                    (IiodDesc (conns d) o (ip_instance p) (ip_xml p) (ip_xml_len p) (ip_phy_type p));
              mret (0, ldesc)
          end
      | None => mret (- EINVAL, None)
      end
  | None => mret (- EINVAL, None)
  end.

Definition iiod_remove (desc : ptr) : cmd (heap (iiod_desc W)) unit := hfree desc.

(** The parser's buffer, the payload, the mask and the cyclic flag stay. *)
Definition conn_clean_state (c : iiod_conn_priv) : iiod_conn_priv :=
  Conn (conn c) (used c) comand_zero result0 IIOD_READING_LINE (parser_buf c) 0
    (payload c) (payload_buf_len c) buff0 (mask c) (buf_mask c) (is_cyclic_buffer c).

(** A connection of the pool for what the application passes. *)
Definition new_conn (data : iiod_conn_data) : iiod_conn_priv :=
  Conn (data_conn data) true comand_zero result0 IIOD_READING_LINE (parser_buf conn0) 0
    (data_buf data) (data_len data) buff0 0 (buf_mask conn0) false.

(** The first connection from index [i] on that is not used. *)
Fixpoint first_unused (i : Z) (cs : list iiod_conn_priv) : option Z :=
  match cs with
  | [] => None
  | c :: cs => if used c then first_unused (i + 1) cs else Some i
  end.

(** The result, and [*new_conn_id] where it was set. *)
Definition iiod_conn_add (desc : ptr) (data : option iiod_conn_data) (new_conn_id_is_null : bool) :
  cmd (heap (iiod_desc W)) (Z * option Z) :=
  match desc with
  | None => mret (- EINVAL, None)
  | Some _ =>
      if new_conn_id_is_null then mret (- EINVAL, None) else
      d ← hload desc;
      match first_unused 0 (conns d) with
      | None => mret (- EBUSY, None)
      | Some i =>
          data ← the data;
          _ ← hstore desc (set_conns (<[Z.to_nat i := new_conn data]> (conns d)) d);
          mret (0, Some i)
      end
  end.

(** The guard lets index 10 through, which is outside the array. *)
Definition conn_of (desc : ptr) (conn_id : Z) : cmd (heap (iiod_desc W)) (option iiod_conn_priv) :=
  match desc with
  | None => mret None
  | Some _ =>
      if IIOD_MAX_CONNECTIONS <? conn_id then mret None else
      d ← hload desc;
      c ← the (conns d !! Z.to_nat conn_id);
      mret (if used c then Some c else None)
  end.

Definition conn_store (desc : ptr) (conn_id : Z) (c : iiod_conn_priv) :
  cmd (heap (iiod_desc W)) unit :=
  d ← hload desc;
  hstore desc (set_conns (<[Z.to_nat conn_id := c]> (conns d)) d).

(** The result, and [*data] where it was set; [data] is not null. *)
Definition iiod_conn_remove (desc : ptr) (conn_id : Z) :
  cmd (heap (iiod_desc W)) (Z * option iiod_conn_data) :=
  c ← conn_of desc conn_id;
  match c with
  | None => mret (- EINVAL, None)
  | Some c =>
      _ ← conn_store desc conn_id (with_used false c);
      mret (0, Some (ConnData (conn c) (payload c) (payload_buf_len c)))
  end.
End pool.

(** ** A connection *)

Section conn.
  (** The width of [unsigned long], for the parser. *)
  Context {W : Type} (long_bits : Z).

Local Abbreviation st := (iiod_conn_priv * W)%type.

Definition getc {A} (f : iiod_conn_priv -> A) : cmd st A := gets (fun s => f (fst s)).

Definition setc (f : iiod_conn_priv -> iiod_conn_priv) : cmd st unit :=
  modify (fun s => (f (fst s), snd s)).

(** A call of an operation, which must not be null. *)
Definition call {F A} (op : option F) (k : F -> cmd W A) : cmd st A :=
  f ← the op; zoom snd (fun w s => (fst s, w)) (k f).

Definition IIOD_CTX (d : iiod_desc W) (c : iiod_conn_priv) : iiod_ctx := (app_instance d, conn c).

(** *** Memory that is sent from and received into *)

Definition mem_of (d : iiod_desc W) (r : buf_ref) (c : iiod_conn_priv) : option (list Z) :=
  match r with
  | BNull => None
  | BParser => Some (parser_buf c)
  | BPayload => Some (payload c)
  | BMask => Some (buf_mask c)
  | BXml => Some (xml d)
  | BVersion => Some IIOD_VERSION
  end.

(** Nothing is received into the XML or the version. *)
Definition set_mem (r : buf_ref) (x : list Z) (c : iiod_conn_priv) : option iiod_conn_priv :=
  match r with
  | BParser => Some (with_parser_buf x c)
  | BPayload => Some (with_payload x c)
  | BMask => Some (with_buf_mask x c)
  | BNull | BXml | BVersion => None
  end.

Definition store_bytes (d : iiod_desc W) (r : buf_ref) (off : Z) (bytes : list Z) : cmd st unit :=
  match bytes with
  | [] => mret tt
  | _ =>
      m ← getc (mem_of d r);
      m ← the m;
      m ← the (mem_write m off bytes);
      c ← getc (set_mem r m);
      c ← the c;
      setc (fun _ => c)
  end.

Definition load_bytes (d : iiod_desc W) (r : buf_ref) (off len : Z) : cmd st (list Z) :=
  m ← getc (mem_of d r);
  m ← the m;
  the (mem_read m off len).

(** An operation that fills memory. *)
Definition fill {F} (d : iiod_desc W) (r : buf_ref) (off : Z) (op : option F)
    (k : F -> cmd W (Z * list Z)) : cmd st Z :=
  x ← call op k;
  _ ← store_bytes d r off (snd x);
  mret (fst x).

(** *** Transfers *)

Definition IIOD_WR : Z := 1.
Definition IIOD_ENDL : Z := 2.
Definition IIOD_RD : Z := 4.

(** The two buffers that are passed by address. *)
Inductive which_buf : Type :=
  | NbBuf
  | ResBuf.

Definition buff_of (b : which_buf) (c : iiod_conn_priv) : iiod_buff :=
  match b with NbBuf => nb_buf c | ResBuf => res_buf (res c) end.

Definition with_buff (b : which_buf) (x : iiod_buff) : iiod_conn_priv -> iiod_conn_priv :=
  match b with NbBuf => with_nb x | ResBuf => set_res_buf_of x end.

(** The bytes of [buf] that are left, without blocking. *)
Definition rw_data (d : iiod_desc W) (b : which_buf) (flags : Z) : cmd st Z :=
  buf ← getc (buff_of b);
  ctx ← getc (IIOD_CTX d);
  let len := s32 (b_len buf - b_idx buf) in
  if truthy len then
    ret ← (if truthy (Z.land flags IIOD_WR) then
             bytes ← load_bytes d (b_buf buf) (b_idx buf) (u32 len);
             call (send (ops d)) (fun f => f ctx bytes)
           else fill d (b_buf buf) (b_idx buf) (recv (ops d)) (fun f => f ctx (u32 len)));
    if NO_OS_IS_ERR_VALUE ret then mret ret else
    buf ← getc (buff_of b);
    _ ← setc (with_buff b (Buff (b_buf buf) (u32 (b_idx buf + ret)) (b_len buf)));
    mret (if ret <? len then - EAGAIN else 0)
  else mret 0.

(** The newline. *)
Definition send_endl (d : iiod_desc W) : cmd st Z :=
  ctx ← getc (IIOD_CTX d);
  ret ← call (send (ops d)) (fun f => f ctx [10]);
  if NO_OS_IS_ERR_VALUE ret then mret ret else
  mret (if ret =? 1 then 0 else - EAGAIN).

Definition rw_iiod_buff (d : iiod_desc W) (b : which_buf) (flags : Z) : cmd st Z :=
  ret ← rw_data d b flags;
  if NO_OS_IS_ERR_VALUE ret then mret ret else
  if truthy (Z.land flags IIOD_ENDL) then send_endl d else mret 0.

(** [no_os_min(conn->payload_buf_len, conn->cmd_data.bytes_count)] *)
Definition chunk (c : iiod_conn_priv) : Z :=
  s32 (no_os_min (payload_buf_len c) (cd_bytes_count (cmd_data c))).

Definition set_nb_len (n : Z) (c : iiod_conn_priv) : iiod_conn_priv :=
  with_nb (Buff (b_buf (nb_buf c)) (b_idx (nb_buf c)) n) c.

(** [conn->nb_buf.buf = conn->payload_buf] *)
Definition nb_payload (c : iiod_conn_priv) : iiod_conn_priv :=
  with_nb (Buff BPayload (b_idx (nb_buf c)) (b_len (nb_buf c))) c.

Definition device (c : iiod_conn_priv) : list Z := cd_device (cmd_data c).

Definition do_read_buff_delayed (d : iiod_desc W) : cmd st Z :=
  ctx ← getc (IIOD_CTX d);
  dev ← getc device;
  _ ← setc nb_payload;
  len ← getc chunk;
  n ← getc (fun c => b_len (nb_buf c));
  let max_to_read := u32 (len - n) in
  ret ← fill d BPayload n (read_buffer (ops d)) (fun f => f ctx dev max_to_read);
  if ret <? 0 then mret ret else
  _ ← setc (set_nb_len (u32 (n + ret)));
  c ← getc id;
  if b_len (nb_buf c) <? cd_bytes_count (cmd_data c) then mret (- EAGAIN) else
  ret ← rw_iiod_buff d NbBuf IIOD_WR;
  if ret <? 0 then mret ret else
  _ ← setc (fun c => with_nb (Buff (b_buf (nb_buf c)) 0 0) c);
  mret 0.

(** [bytes_count -= nb_buf.len; nb_buf.len = 0;] *)
Definition chunk_done (c : iiod_conn_priv) : iiod_conn_priv :=
  set_nb_len 0 (with_cmd (set_bytes_count
    (u32 (cd_bytes_count (cmd_data c) - b_len (nb_buf c))) (cmd_data c)) c).

(** [if (bytes_count) return -EAGAIN;] and what follows. *)
Definition again_or_done : cmd st Z :=
  n ← getc (fun c => cd_bytes_count (cmd_data c));
  mret (if truthy n then - EAGAIN else 0).

(** Reading from the device when [nb_buf] is empty; an error is negative. *)
Definition read_chunk (d : iiod_desc W) : cmd st Z :=
  ctx ← getc (IIOD_CTX d);
  c ← getc id;
  if b_len (nb_buf c) =? 0 then
    _ ← setc nb_payload;
    ret ← fill d BPayload 0 (read_buffer (ops d)) (fun f => f ctx (device c) (u32 (chunk c)));
    if NO_OS_IS_ERR_VALUE ret then mret ret else
    _ ← setc (fun c => with_nb (Buff (b_buf (nb_buf c)) 0 (u32 ret)) c);
    mret 0
  else mret 0.

Definition do_read_buff (d : iiod_desc W) : cmd st Z :=
  match phy_type d with
  | USE_NETWORK => do_read_buff_delayed d
  | _ =>
      ret ← read_chunk d;
      if NO_OS_IS_ERR_VALUE ret then mret ret else
      c ← getc id;
      if b_idx (nb_buf c) <? b_len (nb_buf c) then
        ret ← rw_iiod_buff d NbBuf IIOD_WR;
        if NO_OS_IS_ERR_VALUE ret then mret ret else
        _ ← setc chunk_done;
        again_or_done
      else mret 0
  end.

Definition do_write_buff (d : iiod_desc W) : cmd st Z :=
  ctx ← getc (IIOD_CTX d);
  _ ← setc (fun c =>
        if b_len (nb_buf c) =? 0 then with_nb (Buff BPayload 0 (u32 (chunk c))) c else c);
  c ← getc id;
  ret ← (if b_idx (nb_buf c) <? b_len (nb_buf c) then rw_iiod_buff d NbBuf IIOD_RD else mret 0);
  if NO_OS_IS_ERR_VALUE ret then mret ret else
  c ← getc id;
  bytes ← load_bytes d (b_buf (nb_buf c)) 0 (b_len (nb_buf c));
  ret ← call (write_buffer (ops d)) (fun f => f ctx (device c) bytes);
  if NO_OS_IS_ERR_VALUE ret then mret ret else
  _ ← setc chunk_done;
  again_or_done.

(** *** Commands *)

Definition call_op (d : iiod_desc W) : cmd st Z :=
  ctx ← getc (IIOD_CTX d);
  data ← getc cmd_data;
  match cd_cmd data with
  | IIOD_CMD_TIMEOUT => call (set_timeout_op (ops d)) (fun f => f ctx (cd_timeout data))
  | IIOD_CMD_OPEN => call (open (ops d)) (fun f =>
      f ctx (cd_device data) (cd_sample_count data) (cd_mask data) (cd_cyclic data))
  | IIOD_CMD_CLOSE => call (close (ops d)) (fun f => f ctx (cd_device data))
  | IIOD_CMD_SETTRIG =>
      t ← the (c_str (cd_trigger data));
      call (set_trigger_op (ops d)) (fun f =>
        f ctx (cd_device data) (cd_trigger data) (Z.of_nat (length t)))
  | IIOD_CMD_SET => call (set_buffers_count (ops d)) (fun f => f ctx (cd_device data) (cd_count data))
  | _ => mret (- EINVAL)
  end.

(** [conn->res.val = ret; conn->res.write_val = 1;] *)
Definition set_result (ret : Z) : cmd st unit :=
  setc (fun c => set_write_val_of true (set_val_of (u32 ret) c)).

Definition set_res_data (r : buf_ref) (n : Z) : cmd st unit :=
  setc (fun c => set_res_buf_of (Buff r (b_idx (res_buf (res c))) (u32 n)) c).

Definition run_open_close (d : iiod_desc W) : cmd st Z :=
  data ← getc cmd_data;
  _ ← (match cd_cmd data with
       | IIOD_CMD_OPEN =>
           _ ← setc (with_mask (cd_mask data));
           if cd_cyclic data then setc (with_cyclic true) else mret tt
       | IIOD_CMD_CLOSE => setc (with_cyclic false)
       | _ => mret tt
       end);
  ret ← call_op d;
  _ ← set_result ret;
  mret 0.

Definition run_read (d : iiod_desc W) : cmd st Z :=
  ctx ← getc (IIOD_CTX d);
  c ← getc id;
  let data := cmd_data c in
  let attr := Attr (cd_type data) (cd_attr data) (cd_channel data) in
  ret ← (match cd_cmd data with
         | IIOD_CMD_READ => fill d BPayload 0 (read_attr (ops d))
                              (fun f => f ctx (cd_device data) attr (payload_buf_len c))
         | _ => fill d BPayload 0 (get_trigger (ops d))
                  (fun f => f ctx (cd_device data) (payload_buf_len c))
         end);
  _ ← set_result ret;
  if NO_OS_IS_ERR_VALUE ret then mret 0 else
  _ ← set_res_data BPayload ret;
  mret 0.

(** [write_attr] gets the whole payload, terminated after the value. *)
Definition run_write (d : iiod_desc W) : cmd st Z :=
  ctx ← getc (IIOD_CTX d);
  data ← getc cmd_data;
  let attr := Attr (cd_type data) (cd_attr data) (cd_channel data) in
  _ ← store_bytes d BPayload (cd_bytes_count data) [0];
  p ← getc payload;
  ret ← call (write_attr (ops d)) (fun f => f ctx (cd_device data) attr p (cd_bytes_count data));
  _ ← setc (set_nb_len 0);
  _ ← set_result ret;
  mret 0.

Definition run_readbuf (d : iiod_desc W) : cmd st Z :=
  ctx ← getc (IIOD_CTX d);
  data ← getc cmd_data;
  _ ← setc (set_write_val_of true);
  ret ← call (refill_buffer (ops d)) (fun f => f ctx (cd_device data));
  if NO_OS_IS_ERR_VALUE ret then _ ← setc (set_val_of (u32 ret)); mret 0 else
  _ ← setc (set_val_of (cd_bytes_count data));
  s ← getc (fun c => print_hex8 (mask c));
  _ ← store_bytes d BMask 0 (s ++ [0])%list;
  _ ← set_res_data BMask (Z.of_nat (length s));
  mret 0.

Definition iiod_run_cmd (d : iiod_desc W) : cmd st Z :=
  data ← getc cmd_data;
  match cd_cmd data with
  | IIOD_CMD_HELP | IIOD_CMD_TIMEOUT | IIOD_CMD_OPEN | IIOD_CMD_CLOSE | IIOD_CMD_SETTRIG
  | IIOD_CMD_SET => run_open_close d
  | IIOD_CMD_EXIT => _ ← set_result 0; mret (- ENOTCONN)
  | IIOD_CMD_PRINT => _ ← set_result (xml_len d); _ ← set_res_data BXml (xml_len d); mret 0
  | IIOD_CMD_VERSION => _ ← set_res_data BVersion (Z.of_nat (length IIOD_VERSION)); mret 0
  | IIOD_CMD_READ | IIOD_CMD_GETTRIG => run_read d
  | IIOD_CMD_WRITE => run_write d
  | IIOD_CMD_READBUF => run_readbuf d
  | IIOD_CMD_WRITEBUF => _ ← set_result (cd_bytes_count data); mret 0
  end.

(** *** Lines *)

(** One turn of the loop; [inr] leaves it. *)
Definition read_line_step (d : iiod_desc W) (_ : unit) : cmd st (unit + Z) :=
  ctx ← getc (IIOD_CTX d);
  i ← getc parser_idx;
  if i <? IIOD_PARSER_MAX_BUF_SIZE - 1 then
    ret ← fill d BParser i (recv (ops d)) (fun f => f ctx 1);
    if (ret =? - EAGAIN) || (ret =? 0) then mret (inr (- EAGAIN)) else
    if NO_OS_IS_ERR_VALUE ret then _ ← setc (with_parser_idx 0); mret (inr ret) else
    ch ← getc (fun c => parser_buf c !! Z.to_nat i);
    ch ← the ch;
    if (i =? 0) && ((ch =? 10) || (ch =? 13)) then mret (inl tt) else
    _ ← setc (with_parser_idx (u32 (i + 1)));
    if ch =? 10 then
      _ ← store_bytes d BParser (i + 1) [0];
      _ ← setc (with_parser_idx 0);
      mret (inr 0)
    else mret (inl tt)
  else
    _ ← setc (with_parser_idx 0);
    mret (inr (- EIO)).

Definition iiod_read_line (fuel : nat) (d : iiod_desc W) : cmd st Z :=
  loop fuel (read_line_step d) tt.

(** [iiod_parse_line(conn->parser_buf, &conn->cmd_data, &conn->strtok_ctx)].
    The zeros that [strtok_r] writes into the line are left out: whatever uses
    [parser_buf] next writes it first. *)
Definition parse_conn_line : cmd st Z :=
  c ← getc id;
  line ← the (c_str (parser_buf c));
  x ← lift (iiod_parse_line long_bits (PState line (cmd_data c)));
  _ ← setc (with_cmd (p_res (snd x)));
  mret (fst x).

(** *** The states *)

Definition state_reading_line (fuel : nat) (d : iiod_desc W) : cmd st Z :=
  ret ← iiod_read_line fuel d;
  if NO_OS_IS_ERR_VALUE ret then mret ret else
  ret ← parse_conn_line;
  if NO_OS_IS_ERR_VALUE ret then
    _ ← set_result ret;
    _ ← setc (with_state IIOD_WRITING_CMD_RESULT);
    mret 0
  else
    data ← getc cmd_data;
    if decide (cd_cmd data = IIOD_CMD_WRITE) then
      _ ← setc (with_nb (Buff BPayload 0 (cd_bytes_count data)));
      _ ← setc (with_state IIOD_READING_WRITE_DATA);
      mret 0
    else _ ← setc (with_state IIOD_RUNNING_CMD); mret 0.

Definition state_running_cmd (d : iiod_desc W) : cmd st Z :=
  ret ← iiod_run_cmd d;
  if NO_OS_IS_ERR_VALUE ret then mret ret else
  _ ← setc (with_state IIOD_WRITING_CMD_RESULT);
  mret 0.

(** The value as text in [parser_buf]. *)
Definition write_val_text (d : iiod_desc W) : cmd st unit :=
  c ← getc id;
  if b_len (nb_buf c) =? 0 then
    let s := print_int (s32 (res_val (res c))) in
    _ ← store_bytes d BParser 0 (s ++ [0])%list;
    setc (with_nb (Buff BParser 0 (Z.of_nat (length s))))
  else mret tt.

Definition rw_if_left (d : iiod_desc W) (b : which_buf) : cmd st Z :=
  buf ← getc (buff_of b);
  if b_idx buf <? b_len buf then rw_iiod_buff d b (Z.lor IIOD_WR IIOD_ENDL) else mret 0.

Definition send_val (d : iiod_desc W) : cmd st Z :=
  r ← getc res;
  if write_val r then _ ← write_val_text d; rw_if_left d NbBuf else mret 0.

Definition send_res_buf (d : iiod_desc W) : cmd st Z :=
  r ← getc res;
  if decide (b_buf (res_buf r) = BNull) then mret 0 else rw_if_left d ResBuf.

(** The state after the result was written. *)
Definition after_result (c : iiod_conn_priv) : iiod_conn_priv :=
  let cmd := cd_cmd (cmd_data c) in
  if decide (cmd = IIOD_CMD_READBUF \/ cmd = IIOD_CMD_WRITEBUF) then
    with_state IIOD_RW_BUF (with_nb buff0 c)
  else if is_cyclic_buffer c && negb (bool_decide (cmd = IIOD_CMD_OPEN)) then
    with_state IIOD_PUSH_CYCLIC_BUFFER c
  else with_state IIOD_LINE_DONE c.

Definition state_writing_result (d : iiod_desc W) : cmd st Z :=
  ret ← send_val d;
  if NO_OS_IS_ERR_VALUE ret then mret ret else
  ret ← send_res_buf d;
  if NO_OS_IS_ERR_VALUE ret then mret ret else
  _ ← setc after_result;
  mret 0.

(** What follows the last chunk of a [WRITEBUF]. *)
Definition push_written (d : iiod_desc W) : cmd st Z :=
  ctx ← getc (IIOD_CTX d);
  c ← getc id;
  _ ← setc (set_write_val_of true);
  ret ← call (push_buffer (ops d)) (fun f => f ctx (device c));
  if NO_OS_IS_ERR_VALUE ret then
    _ ← setc (set_val_of (u32 ret));
    _ ← setc (with_state IIOD_LINE_DONE);
    mret 0
  else
    _ ← setc (set_res_buf_of buff0);
    _ ← setc (fun c => set_val_of (cd_bytes_count (cmd_data c)) c);
    _ ← setc (fun c => with_cmd (set_cmd IIOD_CMD_PRINT (cmd_data c)) c);
    _ ← setc (with_state IIOD_WRITING_CMD_RESULT);
    mret 0.

Definition state_rw_buf (d : iiod_desc W) : cmd st Z :=
  c ← getc id;
  if decide (cd_cmd (cmd_data c) = IIOD_CMD_READBUF) then
    ret ← do_read_buff d;
    if NO_OS_IS_ERR_VALUE ret then mret ret else
    _ ← setc (with_state IIOD_LINE_DONE); mret 0
  else
    ret ← do_write_buff d;
    if ret =? 0 then push_written d else
    if NO_OS_IS_ERR_VALUE ret then mret ret else
    _ ← setc (with_state IIOD_LINE_DONE); mret 0.

Definition state_reading_write_data (d : iiod_desc W) : cmd st Z :=
  ret ← rw_iiod_buff d NbBuf IIOD_RD;
  if NO_OS_IS_ERR_VALUE ret then mret ret else
  _ ← setc (with_state IIOD_RUNNING_CMD);
  mret 0.

Definition state_push_cyclic (fuel : nat) (d : iiod_desc W) : cmd st Z :=
  ctx ← getc (IIOD_CTX d);
  dev ← getc device;
  ret ← call (push_buffer (ops d)) (fun f => f ctx dev);
  if NO_OS_IS_ERR_VALUE ret then
    _ ← setc (set_val_of (u32 ret));
    _ ← call (close (ops d)) (fun f => f ctx dev);
    _ ← setc (with_state IIOD_LINE_DONE);
    _ ← setc (with_cyclic false);
    mret 0
  else
    ret ← iiod_read_line fuel d;
    if NO_OS_IS_ERR_VALUE ret then mret 0 else
    ret ← parse_conn_line;
    c ← getc id;
    if negb (NO_OS_IS_ERR_VALUE ret) && bool_decide (cd_cmd (cmd_data c) = IIOD_CMD_CLOSE) then
      _ ← setc (set_nb_len 0);
      _ ← setc (with_state IIOD_RUNNING_CMD);
      _ ← setc (with_cyclic false);
      mret 0
    else mret 0.

Definition iiod_run_state (fuel : nat) (d : iiod_desc W) : cmd st Z :=
  s ← getc state;
  match s with
  | IIOD_READING_LINE => state_reading_line fuel d
  | IIOD_RUNNING_CMD => state_running_cmd d
  | IIOD_WRITING_CMD_RESULT => state_writing_result d
  | IIOD_RW_BUF => state_rw_buf d
  | IIOD_READING_WRITE_DATA => state_reading_write_data d
  | IIOD_PUSH_CYCLIC_BUFFER => state_push_cyclic fuel d
  | IIOD_LINE_DONE => mret (- EINVAL)
  end.

(** One turn of the loop of a step; [true] asks for [conn_clean_state]. *)
Definition run_step (fuel : nat) (d : iiod_desc W) (_ : unit) : cmd st (unit + (Z * bool)) :=
  ret ← iiod_run_state fuel d;
  if ret =? - EAGAIN then mret (inr (ret, false)) else
  s ← getc state;
  if NO_OS_IS_ERR_VALUE ret || bool_decide (s = IIOD_LINE_DONE) then mret (inr (ret, true))
  else mret (inl tt).

Definition run_conn (fuel : nat) (d : iiod_desc W) : cmd st Z :=
  x ← loop fuel (run_step fuel d) tt;
  let '(ret, clean) := x in
  if (clean : bool) then _ ← setc conn_clean_state; mret ret else mret ret.

Definition iiod_conn_step (fuel : nat) (desc : ptr) (conn_id : Z) :
  cmd (heap (iiod_desc W) * W) Z := fun s =>
  match conn_of desc conn_id (fst s) with
  | Done (None, h) => Done (- EINVAL, (h, snd s))
  | Done (Some c, h) =>
      match hload desc h with
      | Done (d, _) =>
          match run_conn fuel d (c, snd s) with
          | Done (ret, (c', w)) =>
              match conn_store desc conn_id c' h with
              | Done (_, h') => Done (ret, (h', w))
              | Undef => Undef
              | NoFuel => NoFuel
              end
          | Undef => Undef
          | NoFuel => NoFuel
          end
      | Undef => Undef
      | NoFuel => NoFuel
      end
  | Undef => Undef
  | NoFuel => NoFuel
  end.
End conn.
