(* ===== verification/IiodSafety.v ===== *)
(** * Memory safety of the IIO daemon's connections: [iio/iiod.c]

    What the daemon asks of the application's operations, as a class; the
    invariant of a connection; and that whatever a client sends, every access
    is within its buffer, but for four mistakes of the client that the daemon
    does not check. *)
From Stdlib Require Import String.
From S2P Require Import Prelude Util CString Iiod IiodConn.

(** ** The contract of the operations *)

Section contract.
  Context {W : Type}.

(** At most [max]. *)
Definition returns (max : Z) (c : cmd W Z) : Prop :=
  forall w, exists ret w', c w = Done (ret, w') /\ ret <= max.

(** An operation that is undefined only where [ok] fails, and fills at most [max]
    bytes. *)
Definition fills (ok : Prop) (max : Z) (c : cmd W (Z * list Z)) : Prop :=
  forall w, match c w with
            | Done ((ret, bytes), _) => ret <= max /\ Z.of_nat (length bytes) <= max
            | Undef => ~ ok
            | NoFuel => False
            end.

Definition ends (ok : Prop) (c : cmd W Z) : Prop :=
  forall w, match c w with Done _ => True | Undef => ~ ok | NoFuel => False end.

(** Fields that end within their 64 bytes, as the names of an attribute must. *)
Definition attr_ends (attr : iiod_attr) : Prop := 0 ∈ attr_nm attr /\ 0 ∈ attr_ch attr.

(** [P] of an operation, [absent] where it is null. *)
Definition on_op {F} (absent : Prop) (op : option F) (P : F -> Prop) : Prop :=
  match op with Some f => P f | None => absent end.

Record ops_within (absent : Prop) (o : iiod_ops W) : Prop := OpsWithin {
  send_within : on_op False (send o) (fun f => forall ctx bytes,
    returns (Z.of_nat (length bytes)) (f ctx bytes));
  recv_within : on_op False (recv o) (fun f => forall ctx len, 0 <= len -> fills True len (f ctx len));
  open_within : on_op absent (open o) (fun f => forall ctx dev n m c, ends (0 ∈ dev) (f ctx dev n m c));
  close_within : on_op absent (close o) (fun f => forall ctx dev, ends (0 ∈ dev) (f ctx dev));
  read_buffer_within : on_op absent (read_buffer o) (fun f => forall ctx dev len,
    0 <= len -> fills (0 ∈ dev) len (f ctx dev len));
  refill_buffer_within : on_op absent (refill_buffer o) (fun f => forall ctx dev, ends (0 ∈ dev) (f ctx dev));
  write_buffer_within : on_op absent (write_buffer o) (fun f => forall ctx dev bytes,
    ends (0 ∈ dev) (f ctx dev bytes));
  push_buffer_within : on_op absent (push_buffer o) (fun f => forall ctx dev, ends (0 ∈ dev) (f ctx dev));
  read_attr_within : on_op absent (read_attr o) (fun f => forall ctx dev attr len,
    0 <= len -> fills (0 ∈ dev /\ attr_ends attr) len (f ctx dev attr len));
  write_attr_within : on_op absent (write_attr o) (fun f => forall ctx dev attr p len,
    ends (0 ∈ dev /\ attr_ends attr) (f ctx dev attr p len));
  get_trigger_within : on_op absent (get_trigger o) (fun f => forall ctx dev len,
    0 <= len -> fills (0 ∈ dev) len (f ctx dev len));
  set_trigger_within : on_op absent (set_trigger_op o) (fun f => forall ctx dev t len,
    ends (0 ∈ dev /\ 0 ∈ t) (f ctx dev t len));
  set_timeout_within : on_op absent (set_timeout_op o) (fun f => forall ctx n, ends True (f ctx n));
  set_buffers_count_within : on_op absent (set_buffers_count o) (fun f => forall ctx dev n,
    ends (0 ∈ dev) (f ctx dev n))
}.

(** What [iiod.h] asks of the application, whose operations may be null, and
    what a descriptor relies on: bounds, and that they return; but what a name
    makes them do whose field has no terminator is left open.  What the
    operations of [iio.c] do is proved in [IioDevice] and [IioBuffer]. *)
Class AppOps (o : iiod_ops W) : Prop := app_ops : ops_within True o.
Class OpsOk (o : iiod_ops W) : Prop := ops_ok : ops_within False o.

Lemma ends_mret ok ret : ends ok (mret ret).
Proof. by intros w. Qed.

Lemma fills_einval ok max : 0 <= max -> fills ok max (mret (- EINVAL, [])).
Proof. intros Hm w. unfold EINVAL. cbn. lia. Qed.

Lemma on_op_dummy {F} (op : option F) (dummy : F) P :
  on_op True op P -> P dummy -> on_op False (SET_DUMMY_IF_NULL op dummy) P.
Proof. by destruct op. Qed.

(** The dummies keep the contract. *)
Lemma copied_ops_ok ops new_ops o :
  AppOps new_ops -> iiod_copy_ops ops new_ops = (0, o) -> OpsOk o.
Proof.
  intros H. unfold iiod_copy_ops. destruct (recv new_ops) eqn:Er; [| done].
  destruct (send new_ops) eqn:Es; [| done]. intros [= <-]. destruct H.
  constructor; cbn [send recv open close read_buffer refill_buffer write_buffer push_buffer
    read_attr write_attr get_trigger set_trigger_op set_timeout_op set_buffers_count];
    [by rewrite <- Es | by rewrite <- Er | ..]; apply on_op_dummy; try done; intros;
    (apply ends_mret || by apply fills_einval).
Qed.
End contract.

(** ** The parser's numbers *)

Section parser.
  Context (long_bits : Z).

Definition cmd_wf (x : comand_desc) : Prop := uint 32 (cd_mask x) /\ uint 32 (cd_bytes_count x).

(** Every way through [c] keeps the numbers in range. *)
Definition keeps {A} (c : cmd parse_state A) : Prop :=
  forall s, cmd_wf (p_res s) -> sat True c (fun _ s' => cmd_wf (p_res s')) s.

Lemma keeps_ret {A} (a : A) : keeps (mret a).
Proof. by intros s Hs. Qed.

Lemma keeps_bind {A B} (c : cmd parse_state A) (k : A -> cmd parse_state B) :
  keeps c -> (forall a, keeps (k a)) -> keeps (c ≫= k).
Proof. intros Hc Hk s Hs. apply sat_bind. eapply sat_mono; [by apply Hc |]. intros a s'. apply Hk. Qed.

Lemma keeps_next_token : keeps next_token.
Proof. intros [rest x] Hs. unfold triple, next_token. cbn. by destruct (strtok_r delim rest). Qed.

Lemma keeps_the {A} (o : option A) : keeps (the o).
Proof. intros s Hs. by destruct o. Qed.

Lemma keeps_get : keeps get.
Proof. by intros s Hs. Qed.

Lemma keeps_upd f : (forall x, cmd_wf x -> cmd_wf (f x)) -> keeps (upd f).
Proof. intros Hf s Hs. by apply Hf. Qed.

Lemma keeps_num token set base :
  (forall n x, uint 32 n -> cmd_wf x -> cmd_wf (set n x)) -> keeps (parse_num long_bits token set base).
Proof.
  intros Hs. apply keeps_bind; [apply keeps_the |]. intros t. destruct (strtoul long_bits t base).
  apply keeps_bind; [| intros; apply keeps_ret]. apply keeps_upd. intros x. by apply Hs, wrap_uint.
Qed.

Local Ltac keeps :=
  repeat first
    [ progress intros
    | apply keeps_ret | apply keeps_the | apply keeps_get | apply keeps_next_token
    | apply keeps_num; intros ? ? ? []; by split
    | apply keeps_bind
    | apply keeps_upd; intros ? []; by split
    | case_match ].

Lemma parse_args_keeps token : keeps (parse_args long_bits token).
Proof.
  unfold parse_args, iiod_parse_open, iiod_parse_set, iiod_parse_rw_attr, attr_kind, attr_channel, attr_name.
  keeps.
Qed.

Lemma iiod_parse_line_keeps : keeps (iiod_parse_line long_bits).
Proof. 
  unfold iiod_parse_line, parse_cmd. apply keeps_bind; [apply keeps_next_token |]. intros token.
  apply keeps_bind; [keeps |]. intros ret. destruct (NO_OS_IS_ERR_VALUE ret); [apply keeps_ret |].
  apply keeps_bind; [apply keeps_next_token | apply parse_args_keeps].
Qed.
End parser.

(** ** The lines that lack an argument *)

(** The words of a line, between its delimiters. *)
Fixpoint split_line (l : list Z) : list (list Z) :=
  match l with
  | [] => [[]]
  | c :: l =>
      if bool_decide (c ∈ delim) then [] :: split_line l
      else match split_line l with w :: ws => (c :: w) :: ws | [] => [[c]] end
  end.

Definition words (l : list Z) : list (list Z) := filter (fun w => w <> []) (split_line l).

(** The commands that need an argument, and those that need two, which the
    parser does not check. *)
Definition needs_one : list (list Z) :=
  str <$> ["TIMEOUT"; "OPEN"; "CLOSE"; "READ"; "WRITE"; "READBUF"; "WRITEBUF"; "GETTRIG"; "SETTRIG"; "SET"]%string.

Definition needs_two : list (list Z) := str <$> ["READBUF"; "WRITEBUF"]%string.

Definition lacks_argument (line : list Z) : Prop :=
  match words line with
  | [w] => w ∈ needs_one
  | [w; _] => w ∈ needs_two
  | _ => False
  end.

Section lines.
  Context (long_bits : Z).

Lemma words_skip s : words (skip_delims delim s) = words s.
Proof.
  induction s as [| c s IH]; [done |]. cbn [skip_delims]. unfold is_delim.
  destruct (bool_decide (c ∈ delim)) eqn:E; [| done]. rewrite IH. unfold words. cbn [split_line]. by rewrite E.
Qed.

Lemma split_token s : exists ws, split_line s = (token_of delim s).1 :: ws /\
  filter (fun w => w <> []) ws = words (token_of delim s).2.
Proof.
  induction s as [| c s (ws & E & Ew)]; [by exists [] |]. cbn [token_of split_line]. unfold is_delim.
  destruct (bool_decide (c ∈ delim)); [by exists (split_line s) |].
  destruct (token_of delim s) as [t r]. exists ws. by rewrite E.
Qed.

(** [strtok_r] takes the words one by one. *)
Lemma strtok_words s : words s = match strtok_r delim s with (None, _) => [] | (Some t, r) => t :: words r end.
Proof.
  rewrite <- words_skip. unfold strtok_r.
  assert (match skip_delims delim s with c :: _ => bool_decide (c ∈ delim) = false | [] => True end) as Hc.
  { induction s as [| c s IH]; [done |]. cbn [skip_delims]. unfold is_delim. by destruct (bool_decide (c ∈ delim)) eqn:E. }
  destruct (skip_delims delim s) as [| c l]; [done |].
  destruct (split_token (c :: l)) as (ws & E & Ew). unfold words at 1. rewrite E. cbn [token_of] in *.
  unfold is_delim in *. rewrite Hc in *. destruct (token_of delim l) as [t r]. cbn [fst snd] in *.
  by rewrite filter_cons_True, Ew.
Qed.

(** Commands of the parser that read no null pointer. *)
Definition total {A} (c : cmd parse_state A) : Prop := forall s, sat False c (fun _ _ => True) s.

Lemma total_ret {A} (a : A) : total (mret a).
Proof. by intros s. Qed.

Lemma total_bind {A B} (c : cmd parse_state A) (k : A -> cmd parse_state B) :
  total c -> (forall a, total (k a)) -> total (c ≫= k).
Proof. intros Hc Hk s. apply sat_bind. eapply sat_mono; [apply Hc |]. intros a s' _. apply Hk. Qed.

Lemma total_next_token : total next_token.
Proof. intros [rest x]. unfold triple, next_token. cbn. by destruct (strtok_r delim rest). Qed.

Lemma total_get : total get.
Proof. by intros s. Qed.

Lemma total_upd f : total (upd f).
Proof. by intros s. Qed.

Lemma total_num t set base : total (parse_num long_bits (Some t) set base).
Proof. intros s. apply sat_bind, sat_the; [done |]. intros t' [= <-]. by destruct (strtoul long_bits t base). Qed.

Local Ltac totals :=
  repeat first
    [ progress intros
    | apply total_ret | apply total_get | apply total_next_token | apply total_num | apply total_upd
    | apply total_bind | case_match ].

Lemma total_some {A} (a : A) : total (the (Some a)).
Proof. by intros s. Qed.

Lemma total_open t : total (iiod_parse_open long_bits t).
Proof. unfold iiod_parse_open. totals. Qed.

Lemma total_set t : total (iiod_parse_set long_bits t).
Proof. unfold iiod_parse_set. totals. Qed.

Lemma total_rw t : total (iiod_parse_rw_attr long_bits t).
Proof. unfold iiod_parse_rw_attr, attr_kind, attr_channel, attr_name. totals. Qed.

Lemma total_sat {A} (U : Prop) (c : cmd parse_state A) s : total c -> sat U c (fun _ _ => True) s.
Proof. intros H. specialize (H s). unfold triple in *. by destruct (c s). Qed.

Lemma found_cmd_str t l c : find_cmd t l = Some c -> t = cmd_str c.
Proof.
  induction l as [| c' l IH]; [done |]. cbn [find_cmd]. unfold strcmp_eq.
  destruct (bool_decide (t = cmd_str c')) eqn:E; [| done]. intros [= <-]. by apply bool_decide_eq_true in E.
Qed.

Local Ltac totals ::=
  repeat first
    [ progress intros
    | apply total_ret | apply total_get | apply total_next_token | apply total_num | apply total_upd
    | apply total_some | apply total_open | apply total_set | apply total_rw
    | apply total_bind | case_match ].

(** The parser reads a null pointer only on such a line. *)
Lemma parse_line_checks line x :
  iiod_parse_line long_bits (PState line x) = Undef -> lacks_argument line.
Proof.
  enough (sat (lacks_argument line) (iiod_parse_line long_bits) (fun _ _ => True) (PState line x)) as H
    by exact (sat_undef _ _ _ H).
  unfold lacks_argument. rewrite (strtok_words line). apply sat_bind. unfold triple at 1, next_token at 1. cbn [p_rest p_res].
  destruct (strtok_r delim line) as [[t |] r1]; [| by apply total_sat; totals].
  unfold parse_cmd. destruct (find_cmd t priority_array) as [c |] eqn:Ec; [| by apply total_sat; totals].
  apply found_cmd_str in Ec. subst t. apply sat_bind, sat_bind. unfold triple at 1. cbn [upd modify p_rest p_res].
  apply sat_ret. change (NO_OS_IS_ERR_VALUE 0) with false. cbv iota.
  apply sat_bind. rewrite (strtok_words r1). unfold triple at 1, next_token at 1. cbn [p_rest p_res].
  destruct (strtok_r delim r1) as [[t1 |] r2]; unfold parse_args; apply sat_bind; unfold triple at 1;
    cbn [get p_rest p_res set_cmd cd_cmd].
  2: { destruct c; try (by apply total_sat; totals); (apply sat_bind, sat_the;
       [intros _; by apply (bool_decide_unpack _); vm_compute | done]). }
  destruct c; try (by apply total_sat; totals).
  all: apply sat_bind, sat_the; [done |]; intros t [= <-]; apply sat_bind; unfold triple at 1; cbn [upd modify p_rest p_res];
    apply sat_bind; unfold triple at 1, next_token at 1; cbn [p_rest p_res]; rewrite (strtok_words r2);
    destruct (strtok_r delim r2) as [[t2 |] r3]; [by apply total_sat, total_num |];
    apply sat_bind, sat_the; [intros _; by apply (bool_decide_unpack _); vm_compute | done].
Qed.
End lines.

(** ** The invariant of a connection *)

Section safety.
  Context {W : Type} (long_bits : Z) (d : iiod_desc W).

(** The bytes that a buffer's address points to. *)
Definition size (r : buf_ref) (c : iiod_conn_priv) : Z :=
  match r with
  | BNull => 0
  | BParser => IIOD_PARSER_MAX_BUF_SIZE
  | BPayload => payload_buf_len c
  | BMask => 10
  | BXml => Z.of_nat (length (xml d))
  | BVersion => Z.of_nat (length IIOD_VERSION)
  end.

Record conn_wf (c : iiod_conn_priv) : Prop := ConnWf {
  wf_parser_buf : Z.of_nat (length (parser_buf c)) = IIOD_PARSER_MAX_BUF_SIZE;
  wf_parser_idx : 0 <= parser_idx c < IIOD_PARSER_MAX_BUF_SIZE;
  wf_payload : Z.of_nat (length (payload c)) = payload_buf_len c;
  wf_payload_len : payload_buf_len c < 2 ^ 31;
  wf_buf_mask : length (buf_mask c) = 10%nat;
  wf_mask : uint 32 (mask c);
  wf_cmd_mask : uint 32 (cd_mask (cmd_data c));
  wf_bytes_count : uint 32 (cd_bytes_count (cmd_data c))
}.

(** A buffer is within its memory. *)
Definition within (b : iiod_buff) (c : iiod_conn_priv) : Prop :=
  0 <= b_idx b <= b_len b /\ b_len b <= size (b_buf b) c /\ b_len b < 2 ^ 31.

Definition res_within (c : iiod_conn_priv) : Prop :=
  b_buf (res_buf (res c)) = BNull \/ within (res_buf (res c)) c.

Definition command (c : iiod_conn_priv) : iiod_cmd := cd_cmd (cmd_data c).

(** [do_read_buff_delayed] is in charge. *)
Definition delayed (c : iiod_conn_priv) : Prop :=
  phy_type d = USE_NETWORK /\ command c = IIOD_CMD_READBUF.

Definition state_inv (c : iiod_conn_priv) : Prop :=
  match state c with
  | IIOD_READING_LINE => nb_buf c = buff0 /\ res_buf (res c) = buff0
  | IIOD_READING_WRITE_DATA =>
      command c = IIOD_CMD_WRITE /\ res_buf (res c) = buff0 /\
      b_buf (nb_buf c) = BPayload /\ b_len (nb_buf c) = cd_bytes_count (cmd_data c) /\
      0 <= b_idx (nb_buf c) <= b_len (nb_buf c)
  | IIOD_RUNNING_CMD =>
      (command c = IIOD_CMD_WRITE \/ b_len (nb_buf c) = 0) /\
      (res_buf (res c) = buff0 \/ command c = IIOD_CMD_CLOSE /\ res_within c)
  | IIOD_WRITING_CMD_RESULT =>
      (b_len (nb_buf c) = 0 \/ b_buf (nb_buf c) = BParser /\ within (nb_buf c) c) /\ res_within c
  | IIOD_RW_BUF =>
      b_len (nb_buf c) = 0 /\ 0 <= b_idx (nb_buf c) /\ (delayed c -> b_idx (nb_buf c) = 0) \/
      b_buf (nb_buf c) = BPayload /\ within (nb_buf c) c /\
        b_len (nb_buf c) <= cd_bytes_count (cmd_data c)
  | IIOD_PUSH_CYCLIC_BUFFER => res_within c
  | IIOD_LINE_DONE => True
  end.

Definition conn_ok (c : iiod_conn_priv) : Prop := conn_wf c /\ state_inv c.

(** ** Rules for the steps of a connection *)

Section rules.
  Context {U F : Prop}.

Lemma sat_getc {A} (f : iiod_conn_priv -> A) (Q : A -> iiod_conn_priv * W -> Prop) c w :
  Q (f c) (c, w) -> triple U F (getc f) Q (c, w).
Proof. done. Qed.

Lemma sat_setc f (Q : unit -> iiod_conn_priv * W -> Prop) c w :
  Q tt (f c, w) -> triple U F (setc f) Q (c, w).
Proof. done. Qed.

Lemma sat_call {O A} (op : option O) (P : O -> Prop) (k : O -> cmd W A) (R : A -> Prop) Q c w :
  on_op False op P ->
  (forall f, P f -> forall w, exists a w', k f w = Done (a, w') /\ R a) ->
  (forall a w', R a -> Q a (c, w')) -> triple U F (call op k) Q (c, w).
Proof.
  intros Ho Hk HQ. destruct op as [f |]; [| done]. destruct (Hk f Ho w) as (a & w' & E & Ha).
  eapply sat_done; [| by apply (HQ a w')]. unfold call, the, mbind, cmd_bind, zoom. cbn. by rewrite E.
Qed.

Lemma sat_call_ends {O} (op : option O) (P : O -> Prop) (ok : Prop) (k : O -> cmd W Z) Q c w :
  on_op False op P -> (forall f, P f -> ends ok (k f)) -> (~ ok -> U) ->
  (forall ret w', Q ret (c, w')) -> triple U F (call op k) Q (c, w).
Proof.
  intros Ho Hk HU HQ. destruct op as [f |]; [| done]. specialize (Hk f Ho w).
  unfold triple, call, the, mbind, cmd_bind, zoom. cbn. destruct (k f w) as [[ret w'] | |]; [apply HQ | auto | done].
Qed.

Lemma set_mem_same r m c : mem_of d r c = Some m -> is_Some (set_mem r m c) -> set_mem r m c = Some c.
Proof. destruct r, c; cbn; intros [= <-] [? [= <-]]; done. Qed.

Lemma sat_store r off bytes Q c w m :
  mem_of d r c = Some m -> is_Some (set_mem r m c) -> 0 <= off ->
  (Z.of_nat (length m) < off + Z.of_nat (length bytes) -> U) ->
  (forall c', set_mem r (list_inserts (Z.to_nat off) bytes m) c = Some c' -> Q tt (c', w)) ->
  triple U F (store_bytes d r off bytes) Q (c, w).
Proof.
  intros Hm Hr Hoff HU HQ. unfold store_bytes. destruct bytes as [| x bytes].
  { by apply sat_ret, HQ, set_mem_same. }
  apply sat_bind, sat_getc, sat_bind, sat_the; [by rewrite Hm |]. intros m1. rewrite Hm. intros [= <-].
  apply sat_bind, sat_the.
  - intros E. apply HU.
    destruct (Z_lt_le_dec (Z.of_nat (length m)) (off + Z.of_nat (length (x :: bytes)))); [done |].
    by rewrite mem_write_done in E.
  - intros m' E. unfold mem_write in E. destruct (_ && _)%bool; [| done]. injection E as <-.
    apply sat_bind, sat_getc, sat_bind, sat_the.
    + intros E. destruct r, Hr; cbn in *; congruence.
    + intros c' Hc'. by apply sat_setc, HQ.
Qed.

Lemma sat_load r off len Q c w m :
  mem_of d r c = Some m -> 0 <= off -> 0 <= len -> off + len <= Z.of_nat (length m) ->
  (forall bytes, Z.of_nat (length bytes) = len -> Q bytes (c, w)) ->
  triple U F (load_bytes d r off len) Q (c, w).
Proof.
  intros Hm Ho Hl Hle HQ. apply sat_bind, sat_getc, sat_bind, sat_the; rewrite Hm; [done |].
  intros m1 [= <-]. rewrite mem_read_done by done. apply sat_the; [done |]. intros bytes [= <-].
  apply HQ. rewrite length_take, length_drop. lia.
Qed.

Lemma sat_fill {O} (op : option O) (P : O -> Prop) (ok : Prop) (k : O -> cmd W (Z * list Z)) max r off Q c w m :
  on_op False op P -> (forall f, P f -> fills ok max (k f)) -> (~ ok -> U) ->
  mem_of d r c = Some m -> is_Some (set_mem r m c) -> 0 <= off ->
  (Z.of_nat (length m) < off + max -> U) ->
  (forall ret m' c' w', ret <= max -> length m' = length m -> set_mem r m' c = Some c' -> Q ret (c', w')) ->
  triple U F (fill d r off op k) Q (c, w).
Proof.
  intros Ho Hk Hok Hm Hr Hoff HU HQ. apply sat_bind. destruct op as [f |]; [| done]. specialize (Hk f Ho w).
  unfold triple, call, the, mbind, cmd_bind, zoom. cbn.
  destruct (k f w) as [[[ret bytes] w'] | |]; [| auto | done]. destruct Hk as [Hret Hb]. cbn [fst snd].
  apply sat_bind, (sat_store _ _ _ _ _ _ m); [done.. | intros ?; apply HU; lia |].
  intros c' Hc'. eapply sat_ret, (HQ ret); [done | apply length_inserts | done].
Qed.

End rules.

Section moves.
  Context {U : Prop}.

Lemma mem_size r c :
  conn_wf c -> r <> BNull -> exists m, mem_of d r c = Some m /\ Z.of_nat (length m) = size r c.
Proof.
  intros [] Hr. destruct r; [done | ..]; (eexists; split; [done |]); cbn [size]; lia || done.
Qed.

Lemma with_buff_same b c : with_buff b (buff_of b c) c = c.
Proof. by destruct b, c as [? ? ? [] ? ? ? ? ? ? ? ? ?]. Qed.

Lemma buff_eta b : Buff (b_buf b) (b_idx b) (b_len b) = b.
Proof. by destruct b. Qed.

Context {Hops : OpsOk (ops d)}.

Lemma sat_send_endl Q c w :
  (forall ret w', Q ret (c, w')) -> sat U (send_endl d) Q (c, w).
Proof using Hops.
  intros HQ. apply sat_bind, sat_getc, sat_bind.
  eapply (sat_call _ _ _ (fun _ => True)); [apply (send_within _ _ Hops) | |].
  - intros f Hf w1. destruct (Hf (IIOD_CTX d c) [10] w1) as (ret & w' & E & _). eauto.
  - intros ret w' _. destruct (NO_OS_IS_ERR_VALUE ret); by apply sat_ret.
Qed.

(** Sending moves the index, within the buffer. *)
Lemma sat_rw_send b flags Q c w :
  let buf := buff_of b c in
  truthy (Z.land flags IIOD_WR) = true -> conn_wf c -> within buf c ->
  (forall ret i w', b_idx buf <= i <= b_len buf ->
    Q ret (with_buff b (Buff (b_buf buf) i (b_len buf)) c, w')) ->
  sat U (rw_iiod_buff d b flags) Q (c, w).
Proof using Hops.
  intros buf Hf Hwf (Hi & Hl & Hs) HQ.
  assert (forall ret w', Q ret (c, w')) as Hsame.
  { intros ret w'. specialize (HQ ret (b_idx buf) w' ltac:(lia)).
    unfold buf in HQ. by rewrite buff_eta, with_buff_same in HQ. }
  apply sat_bind, sat_bind, sat_getc, sat_bind, sat_getc. fold buf.
  cbv beta zeta. rewrite swrap_small by (done || ulia).
  destruct (truthy (b_len buf - b_idx buf)) eqn:Ht; rewrite ?Hf.
  - apply truthy_true in Ht.
    destruct (mem_size (b_buf buf) c Hwf) as (m & Hm & Hlm); [by intros E; rewrite E in Hl; cbn in Hl; lia |].
    apply sat_bind, sat_bind. rewrite wrap_small by ulia.
    apply (sat_load _ _ _ _ _ _ m); [done | lia.. |]. intros bytes Hb.
    eapply (sat_call _ _ _ (fun r => r <= Z.of_nat (length bytes))); [apply (send_within _ _ Hops) | |].
    { intros f Hfo w1. apply (Hfo _ bytes w1). }
    intros ret w' Hret. unfold NO_OS_IS_ERR_VALUE. destruct (Z.ltb_spec ret 0).
    + apply sat_ret. destruct (Z.ltb_spec ret 0); [by apply sat_ret | lia].
    + apply sat_bind, sat_getc, sat_bind, sat_setc, sat_ret. fold buf.
      rewrite wrap_small by ulia.
      destruct (ret <? b_len buf - b_idx buf); cbn; [by apply sat_ret, HQ; lia |].
      destruct (truthy (Z.land flags IIOD_ENDL)); [apply sat_send_endl; intros; apply HQ; lia | apply sat_ret, HQ; lia].
  - apply sat_ret. cbn. destruct (truthy (Z.land flags IIOD_ENDL)); [by apply sat_send_endl | by apply sat_ret].
Qed.

(** Receiving into the payload, too. *)
Lemma sat_rw_recv Q c w :
  let buf := nb_buf c in
  conn_wf c -> b_buf buf = BPayload -> 0 <= b_idx buf <= b_len buf -> uint 32 (b_len buf) ->
  (payload_buf_len c < b_len buf -> U) ->
  (forall ret i p w', b_idx buf <= i <= b_len buf -> length p = length (payload c) ->
    Q ret (with_nb (Buff BPayload i (b_len buf)) (with_payload p c), w')) ->
  sat U (rw_iiod_buff d NbBuf IIOD_RD) Q (c, w).
Proof using Hops.
  intros buf Hwf Hb Hi Hl HU HQ.
  assert (forall ret p w', length p = length (payload c) -> Q ret (with_payload p c, w')) as Hsame.
  { intros ret p w' Hp. specialize (HQ ret (b_idx buf) p w' ltac:(lia) Hp).
    rewrite <- Hb in HQ. unfold buf in HQ. rewrite buff_eta in HQ. by destruct c. }
  assert (u32 (s32 (b_len buf - b_idx buf)) = b_len buf - b_idx buf) as Hlen.
  { unfold wrap. rewrite swrap_cases by done. change (32 - 1) with 31.
    rewrite (Z.mod_small (b_len buf - _)) by ulia. destruct (_ <? _); [apply Z.mod_small; ulia |].
    rewrite <- (Z.mod_unique _ _ (-1) (b_len buf - b_idx buf)); ulia. }
  apply sat_bind, sat_bind, sat_getc, sat_bind, sat_getc. cbn [buff_of]. fold buf.
  cbv beta zeta. destruct (truthy (s32 _)).
  - change (truthy (Z.land IIOD_RD IIOD_WR)) with false. apply sat_bind. rewrite Hlen, Hb.
    eapply (sat_fill _ _ True _ (b_len buf - b_idx buf) BPayload _ _ _ _ (payload c));
      [apply (recv_within _ _ Hops) | intros f Hf; apply Hf; lia | by intros [] | done | by eexists | lia | |].
    { intros ?. apply HU. rewrite <- (wf_payload c Hwf). lia. }
    intros ret p c' w' Hret Hp [= <-]. unfold NO_OS_IS_ERR_VALUE. destruct (Z.ltb_spec ret 0).
    + apply sat_ret. destruct (Z.ltb_spec ret 0); [by apply sat_ret, Hsame | lia].
    + apply sat_bind, sat_getc, sat_bind, sat_setc, sat_ret. cbn [buff_of with_payload nb_buf]. fold buf.
      rewrite Hb, wrap_small by ulia.
      destruct (ret <? _); by apply sat_ret, HQ; [lia |].
  - apply sat_ret. cbn. replace c with (with_payload (payload c) c) by by destruct c.
    by apply sat_ret, Hsame.
Qed.

(** *** Lines *)

Lemma sat_eqn {S A} (c : cmd S A) Q s :
  sat U c (fun a s' => c s = Done (a, s') -> Q a s') s -> sat U c Q s.
Proof. unfold triple. destruct (c s) as [[]| |]; auto. Qed.

(** [c] but for the parser's buffer and index. *)
Definition parsing (c c' : iiod_conn_priv) : Prop :=
  exists pb i, c' = with_parser_idx i (with_parser_buf pb c) /\
    Z.of_nat (length pb) = IIOD_PARSER_MAX_BUF_SIZE /\ 0 <= i < IIOD_PARSER_MAX_BUF_SIZE.

Lemma parsing_refl c : conn_wf c -> parsing c c.
Proof. intros []. exists (parser_buf c), (parser_idx c). by destruct c. Qed.

Lemma parsing_idx c c' i : parsing c c' -> 0 <= i < IIOD_PARSER_MAX_BUF_SIZE ->
  parsing c (with_parser_idx i c').
Proof. intros (pb & j & -> & Hpb & _) Hi. by exists pb, i. Qed.

Lemma parsing_buf c c' pb : parsing c c' -> length pb = length (parser_buf c') ->
  parsing c (with_parser_buf pb c').
Proof. intros (pb' & j & -> & Hpb & ?) Hl. exists pb, j. by rewrite Hl. Qed.

Lemma parsing_facts c c' : parsing c c' ->
  Z.of_nat (length (parser_buf c')) = IIOD_PARSER_MAX_BUF_SIZE /\
  0 <= parser_idx c' < IIOD_PARSER_MAX_BUF_SIZE.
Proof. by intros (pb & j & -> & ? & ?). Qed.

Lemma sat_read_line fuel Q c w :
  conn_wf c ->
  (forall ret c' w', parsing c c' -> (NO_OS_IS_ERR_VALUE ret = false -> 0 ∈ parser_buf c') ->
    Q ret (c', w')) ->
  sat U (iiod_read_line fuel d) Q (c, w).
Proof using Hops.
  intros Hwf HQ. apply (sat_loop (fun _ s => parsing c (fst s))); [done | | by apply parsing_refl].
  intros [] [c1 w1] Hp. cbn [fst] in Hp. pose proof (parsing_facts c c1 Hp) as [Hl Hi].
  assert (0 <= 0 < IIOD_PARSER_MAX_BUF_SIZE) as H0 by done.
  apply sat_bind, sat_getc, sat_bind, sat_getc.
  destruct (Z.ltb_spec (parser_idx c1) (IIOD_PARSER_MAX_BUF_SIZE - 1)) as [Hlt |];
    [| by apply sat_bind, sat_setc, sat_ret, HQ; [apply parsing_idx |]].
  apply sat_bind. eapply (sat_fill _ _ True _ 1 BParser _ _ _ _ (parser_buf c1));
    [apply (recv_within _ _ Hops) | intros f Hf; by apply Hf | by intros [] | done | by eexists | lia | lia |].
  intros ret pb c2 w2 _ Hpb [= <-]. apply (parsing_buf _ _ pb Hp) in Hpb as Hp2.
  destruct (_ || _)%bool; [by apply sat_ret, HQ |].
  destruct (NO_OS_IS_ERR_VALUE ret) eqn:Ee;
    [apply sat_bind, sat_setc, sat_ret, HQ; [by apply parsing_idx | by rewrite Ee] |].
  apply sat_bind, sat_getc, sat_bind, sat_the.
  { cbn. intros E. apply lookup_ge_None in E. lia. }
  intros ch _. destruct (_ && _)%bool; [by apply sat_ret |].
  apply sat_bind, sat_setc. rewrite wrap_small by (unfold IIOD_PARSER_MAX_BUF_SIZE in *; ulia).
  assert (parsing c (with_parser_idx (parser_idx c1 + 1) (with_parser_buf pb c1))) as Hp3
    by (apply parsing_idx; [done | lia]).
  destruct (ch =? 10); [| by apply sat_ret].
  apply sat_bind, (sat_store _ _ _ _ _ _ pb);
    [done | by eexists | lia | cbn; lia |].
  intros c3 [= <-]. apply sat_bind, sat_setc, sat_ret, HQ.
  - apply parsing_idx; [| done]. by apply (parsing_buf c _ _ Hp3), length_insert.
  - intros _. apply list_elem_of_lookup. exists (Z.to_nat (parser_idx c1 + 1)).
    apply list_lookup_insert_eq. cbn in Hl. lia.
Qed.

Lemma c_str_elem l : 0 ∈ l -> is_Some (c_str l).
Proof.
  induction l as [| x l IH]; [by intros ?%elem_of_nil |]. intros H. cbn [c_str].
  destruct (Z.eqb_spec x 0); [by eexists |]. apply elem_of_cons in H as [E | H]; [lia |].
  destruct (IH H) as [t ->]. by eexists.
Qed.

Lemma sat_parse (Q : Z -> iiod_conn_priv * W -> Prop) c w :
  conn_wf c -> 0 ∈ parser_buf c ->
  (forall line, c_str (parser_buf c) = Some line ->
    lacks_argument line -> U) ->
  (forall ret x, cmd_wf x -> Q ret (with_cmd x c, w)) ->
  sat U (parse_conn_line long_bits) Q (c, w).
Proof.
  intros Hwf H0 HU HQ. apply sat_bind, sat_getc, sat_bind, sat_the.
  { intros E. unfold id in E. by destruct (c_str_elem _ H0) as [? E']; rewrite E in E'. }
  intros line E. apply sat_bind, sat_lift; [by intros E2%parse_line_checks; apply (HU line) | done |]. intros [ret [rest x]] Ep.
  apply sat_bind, sat_setc, sat_ret, HQ. cbn [fst snd p_res].
  assert (cmd_wf (cmd_data c)) as Hc by by destruct Hwf.
  exact (sat_inv _ _ _ _ _ (iiod_parse_line_keeps long_bits (PState line (cmd_data c)) Hc) Ep).
Qed.

(** *** Commands *)

Local Ltac wf := match goal with H : conn_wf _ |- conn_wf _ => destruct H; by constructor end.

(** After a command its result is in place, or the connection ends. *)
Definition run_post (ret : Z) (s : iiod_conn_priv * W) : Prop :=
  let c := fst s in
  conn_wf c /\ state c = IIOD_RUNNING_CMD /\
  if NO_OS_IS_ERR_VALUE ret then state_inv c else b_len (nb_buf c) = 0 /\ res_within c.

Lemma c_str_end l t : c_str l = Some t -> 0 ∈ l.
Proof.
  revert t. induction l as [| x l IH]; [done |]. intros t. cbn [c_str].
  destruct (Z.eqb_spec x 0) as [-> |]; [left |]. destruct (c_str l) as [t' |]; [right; by eapply IH | done].
Qed.

(** The names that the parser copied end within their fields. *)
Definition names_end (x : comand_desc) : Prop :=
  0 ∈ cd_device x /\ attr_ends (Attr (cd_type x) (cd_attr x) (cd_channel x)).

(** What an operation needs of them. *)
Local Ltac names := unfold device, names_end in *; cbn [cmd_data with_nb with_payload] in *; tauto.

Lemma sat_call_op Q c w :
  (command c = IIOD_CMD_SETTRIG -> c_str (cd_trigger (cmd_data c)) = None -> U) ->
  (~ names_end (cmd_data c) -> U) ->
  (forall ret w', Q ret (c, w')) -> sat U (call_op d) Q (c, w).
Proof using Hops.
  intros HU HN HQ. apply sat_bind, sat_getc, sat_bind, sat_getc. unfold command in HU.
  destruct (cd_cmd (cmd_data c)); try (by apply sat_ret).
  - eapply sat_call_ends; [apply (set_timeout_within _ _ Hops) | by intros f Hf | names | done].
  - eapply sat_call_ends; [apply (open_within _ _ Hops) | by intros f Hf | names | done].
  - eapply sat_call_ends; [apply (close_within _ _ Hops) | by intros f Hf | names | done].
  - apply sat_bind, sat_the; [by apply HU |]. intros t Ht%c_str_end.
    eapply sat_call_ends; [apply (set_trigger_within _ _ Hops) | by intros f Hf | names | done].
  - eapply sat_call_ends; [apply (set_buffers_count_within _ _ Hops) | by intros f Hf | names | done].
Qed.

Lemma sat_open_close c w :
  conn_wf c -> state c = IIOD_RUNNING_CMD -> b_len (nb_buf c) = 0 -> res_within c ->
  (command c = IIOD_CMD_SETTRIG -> c_str (cd_trigger (cmd_data c)) = None -> U) ->
  (~ names_end (cmd_data c) -> U) ->
  sat U (run_open_close d) run_post (c, w).
Proof using Hops.
  intros Hwf Hs Hn Hr HU HN. apply sat_bind, sat_getc, sat_bind.
  assert (forall c', conn_wf c' -> state c' = IIOD_RUNNING_CMD -> b_len (nb_buf c') = 0 ->
    res_within c' -> cmd_data c' = cmd_data c ->
    sat U (ret ← call_op d; _ ← set_result ret; mret 0) run_post (c', w)) as Hcall.
  { intros c' Hwf' Hs' Hn' Hr' Ed. apply sat_bind, sat_call_op; [unfold command; by rewrite Ed | by rewrite Ed |].
    intros ret w'. apply sat_bind, sat_setc, sat_ret. split; [wf | done]. }
  destruct (cd_cmd (cmd_data c)); try (by apply sat_ret, Hcall).
  - apply sat_bind, sat_setc.
    destruct (cd_cyclic (cmd_data c)); [apply sat_setc | apply sat_ret]; apply Hcall; (done || wf).
  - apply sat_setc, Hcall; (done || wf).
Qed.

Lemma within_res r n c :
  res_buf (res c) = buff0 -> 0 <= n <= size r c -> n < 2 ^ 31 ->
  res_within (set_res_buf_of (Buff r (b_idx (res_buf (res c))) (u32 n)) c).
Proof.
  intros -> Hn Hlt. right. unfold within. cbn [set_res_buf_of with_res res set_res_buf res_buf b_idx b_len
    b_buf buff0]. rewrite wrap_small by ulia.
  assert (size r (set_res_buf_of (Buff r 0 n) c) = size r c) as -> by by destruct r. lia.
Qed.

Lemma sat_run_read c w :
  conn_wf c -> state c = IIOD_RUNNING_CMD -> b_len (nb_buf c) = 0 -> res_buf (res c) = buff0 ->
  (~ names_end (cmd_data c) -> U) -> sat U (run_read d) run_post (c, w).
Proof using Hops.
  intros Hwf Hs Hn Hr HN. pose proof (wf_payload c Hwf) as Hp. pose proof (wf_payload_len c Hwf) as Hlt.
  apply sat_bind, sat_getc, sat_bind, sat_getc, sat_bind. unfold id.
  assert (forall ret p w', ret <= payload_buf_len c -> length p = length (payload c) ->
    sat U (_ ← set_result ret; if NO_OS_IS_ERR_VALUE ret then mret 0 else
           _ ← set_res_data BPayload ret; mret 0) run_post (with_payload p c, w')) as Hend.
  { intros ret p w' Hret Hlp. apply sat_bind, sat_setc.
    assert (conn_wf (with_payload p c)) as Hwf' by (destruct Hwf; constructor; by cbn; rewrite ?Hlp).
    unfold NO_OS_IS_ERR_VALUE. destruct (Z.ltb_spec ret 0).
    - apply sat_ret. split; [wf |]. split; [done |]. split; [done |]. left. cbn. by rewrite Hr.
    - apply sat_bind, sat_setc, sat_ret. split; [wf |]. split; [done |]. split; [done |].
      by apply within_res; [| cbn [size]; cbn; lia | lia]. }
  destruct (cd_cmd (cmd_data c)).
  all: eapply (sat_fill _ _ _ _ (payload_buf_len c) BPayload _ _ _ _ (payload c));
    [first [apply (read_attr_within _ _ Hops) | apply (get_trigger_within _ _ Hops)]
    | intros f Hf; apply Hf; lia | names | done | by eexists | lia | lia |].
  all: intros ret p c' w' Hret Hlp [= <-]; by apply Hend.
Qed.

Lemma sat_run_write c w :
  conn_wf c -> state c = IIOD_RUNNING_CMD -> res_buf (res c) = buff0 ->
  (payload_buf_len c <= cd_bytes_count (cmd_data c) -> U) ->
  (~ names_end (cmd_data c) -> U) -> sat U (run_write d) run_post (c, w).
Proof using Hops.
  intros Hwf Hs Hr HU HN. pose proof (wf_payload c Hwf) as Hp. pose proof (wf_bytes_count c Hwf) as [Hb _].
  apply sat_bind, sat_getc, sat_bind, sat_getc, sat_bind.
  apply (sat_store _ _ _ _ _ _ (payload c)); [done | by eexists | done | cbn [length]; intros; apply HU; lia |].
  intros c' [= <-]. apply sat_bind, sat_getc, sat_bind.
  eapply sat_call_ends; [apply (write_attr_within _ _ Hops) | by intros f Hf | names |]. intros ret w'.
  apply sat_bind, sat_setc, sat_bind, sat_setc, sat_ret. split; [| split; [done |]].
  - destruct Hwf. constructor; cbn -[list_inserts]; by rewrite ?length_insert.
  - split; [done |]. left. cbn. by rewrite Hr.
Qed.

Lemma sat_run_readbuf c w :
  conn_wf c -> state c = IIOD_RUNNING_CMD -> b_len (nb_buf c) = 0 -> res_buf (res c) = buff0 ->
  (~ names_end (cmd_data c) -> U) -> sat U (run_readbuf d) run_post (c, w).
Proof using Hops.
  intros Hwf Hs Hn Hr HN. apply sat_bind, sat_getc, sat_bind, sat_getc, sat_bind, sat_setc, sat_bind.
  eapply sat_call_ends; [apply (refill_buffer_within _ _ Hops) | by intros f Hf | names |]. intros ret w'.
  destruct (NO_OS_IS_ERR_VALUE ret).
  - apply sat_bind, sat_setc, sat_ret. split; [wf |]. split; [done |]. split; [done |]. left. cbn. by rewrite Hr.
  - apply sat_bind, sat_setc, sat_bind, sat_getc, sat_bind.
    pose proof (length_print_hex8 (mask c) (wf_mask c Hwf)) as Hl. cbn [mask with_res].
    apply (sat_store _ _ _ _ _ _ (buf_mask c)); [done | by eexists | done | |].
    { rewrite length_app, (wf_buf_mask c Hwf). cbn [mask set_val_of set_write_val_of with_res]. rewrite Hl. cbn. lia. }
    intros c' [= <-]. apply sat_bind, sat_setc, sat_ret.
    assert (conn_wf (with_buf_mask (list_inserts (Z.to_nat 0) (print_hex8 (mask c) ++ [0])%list (buf_mask c)) c))
      as Hwf' by (destruct Hwf; constructor; cbn -[list_inserts]; by rewrite ?length_inserts).
    split; [wf |]. split; [done |]. split; [done |]. apply within_res; [done | |].
    + cbn [mask set_val_of set_write_val_of with_res size]. rewrite Hl. lia.
    + cbn [mask set_val_of set_write_val_of with_res size]. rewrite Hl. lia.
Qed.

Context {Hxml : 0 <= xml_len d <= Z.of_nat (length (xml d)) /\ xml_len d < 2 ^ 31}.

Local Ltac names ::= clear Hxml; unfold device, names_end in *; cbn [cmd_data with_nb with_payload] in *; tauto.

(** What a command is run with. *)
Definition run_pre (c : iiod_conn_priv) : Prop :=
  conn_wf c /\ state c = IIOD_RUNNING_CMD /\ state_inv c.

(** The client's mistakes that no check stops. *)
Definition unchecked_cmd (c : iiod_conn_priv) : Prop :=
  command c = IIOD_CMD_WRITE /\ payload_buf_len c <= cd_bytes_count (cmd_data c) \/
  command c = IIOD_CMD_SETTRIG /\ c_str (cd_trigger (cmd_data c)) = None \/
  ~ names_end (cmd_data c).

Lemma sat_run_cmd c w :
  run_pre c -> (unchecked_cmd c -> U) -> sat U (iiod_run_cmd d) run_post (c, w).
Proof using Hops Hxml.
  intros (Hwf & Hs & Hi) HU. unfold state_inv in Hi. rewrite Hs in Hi. destruct Hi as [Hn Hr].
  apply sat_bind, sat_getc. unfold unchecked_cmd, command in *.
  assert (~ names_end (cmd_data c) -> U) as HN by (intros; apply HU; tauto).
  assert (res_within c) as Hrw.
  { destruct Hr as [Hr | [_ Hr]]; [left; by rewrite Hr | done]. }
  destruct (decide (cd_cmd (cmd_data c) = IIOD_CMD_WRITE)) as [Ew | Hw].
  { rewrite Ew in *. apply sat_run_write; [done.. | by destruct Hr as [? | [? _]] | | done].
    intros. apply HU. by left. }
  destruct Hn as [? | Hn]; [done |].
  destruct (decide (cd_cmd (cmd_data c) = IIOD_CMD_CLOSE)) as [Ew' | Hw'].
  { rewrite Ew' in *. apply sat_open_close; [done.. | | done]. unfold command. by rewrite Ew'. }
  destruct Hr as [Hr | [? _]]; [| done].
  destruct (cd_cmd (cmd_data c)) eqn:Ec; try done;
    try (apply sat_open_close; try done; unfold command; rewrite Ec; intros; apply HU; right; by left).
  - apply sat_bind, sat_setc, sat_ret. split; [wf |]. split; [done |]. unfold state_inv.
    cbn [fst set_write_val_of set_val_of with_res state]. rewrite Hs. split; [by right | by left].
  - apply sat_bind, sat_setc, sat_bind, sat_setc, sat_ret. split; [wf |]. split; [done |]. split; [done |].
    by apply within_res; [| cbn [size]; lia | lia].
  - apply sat_bind, sat_setc, sat_ret. split; [wf |]. split; [done |]. split; [done |].
    by apply within_res; [| vm_compute | vm_compute].
  - by apply sat_run_read.
  - by apply sat_run_readbuf.
  - apply sat_bind, sat_setc, sat_ret. split; [wf | done].
  - by apply sat_run_read.
Qed.

(** *** States *)

Definition conn_post (_ : Z) (s : iiod_conn_priv * W) : Prop := conn_ok (fst s).

(** The connection is as before but for a line half read. *)
Lemma parsing_ok c c' : conn_ok c -> parsing c c' -> conn_ok c'.
Proof.
  intros [Hwf Hi] (pb & j & -> & Hpb & Hj). split; [destruct Hwf; by constructor |].
  unfold state_inv, res_within, within, delayed, command in *. by destruct c as [? ? ? ? [] ? ? ? ? ? ? ? ?].
Qed.

Lemma parsing_wf c c' : conn_wf c -> parsing c c' -> conn_wf c'.
Proof. intros Hwf (pb & j & -> & Hpb & Hj). destruct Hwf; by constructor. Qed.

Lemma with_cmd_wf c x : conn_wf c -> cmd_wf x -> conn_wf (with_cmd x c).
Proof. intros [] []. by constructor. Qed.

(** The line that comes lacks an argument. *)
Definition bad_line (fuel : nat) (s : iiod_conn_priv * W) : Prop :=
  exists ret c w line, iiod_read_line fuel d s = Done (ret, (c, w)) /\
    c_str (parser_buf c) = Some line /\ lacks_argument line.

Lemma sat_line_parse fuel (Q : Z -> iiod_conn_priv * W -> Prop) c w :
  conn_wf c -> (bad_line fuel (c, w) -> U) ->
  (forall ret c' w', parsing c c' -> NO_OS_IS_ERR_VALUE ret = true -> Q ret (c', w')) ->
  forall k, (forall ret c' x w', parsing c c' -> cmd_wf x -> sat U (k ret) Q (with_cmd x c', w')) ->
  sat U (ret ← iiod_read_line fuel d; if NO_OS_IS_ERR_VALUE ret then mret ret else
         ret ← parse_conn_line long_bits; k ret) Q (c, w).
Proof using Hops.
  intros Hwf HU HQ k Hk. apply sat_bind, sat_eqn, sat_read_line; [done |].
  intros ret c' w' Hp H0 E. destruct (NO_OS_IS_ERR_VALUE ret) eqn:Ee; [by apply sat_ret, HQ |].
  apply sat_bind, sat_parse; [by apply (parsing_wf c) | by apply H0 | | by intros; apply Hk].
  intros line Hl Hu. apply HU. by exists ret, c', w', line.
Qed.

Lemma sat_state_reading_line fuel c w :
  conn_ok c -> state c = IIOD_READING_LINE -> (bad_line fuel (c, w) -> U) ->
  sat U (state_reading_line long_bits fuel d) conn_post (c, w).
Proof using Hops.
  intros [Hwf Hi] Hs HU. apply sat_line_parse; [done | done | |].
  { intros ret c' w' Hp _. by apply (parsing_ok c). }
  unfold state_inv in Hi. rewrite Hs in Hi. destruct Hi as [Hn Hr].
  intros ret c' x w' Hp Hx. pose proof (with_cmd_wf c' x (parsing_wf c c' Hwf Hp) Hx) as Hwf'.
  assert (nb_buf c' = buff0 /\ res_buf (res c') = buff0) as [Hn' Hr'] by by destruct Hp as (? & ? & -> & _).
  destruct (NO_OS_IS_ERR_VALUE ret).
  - apply sat_bind, sat_setc, sat_bind, sat_setc, sat_ret. split; [wf |]. split; [left | left]; cbn;
      by rewrite ?Hn', ?Hr'.
  - apply sat_bind, sat_getc. case_decide as Ec.
    + apply sat_bind, sat_setc, sat_bind, sat_setc, sat_ret. split; [wf |]. cbn in *.
      split; [done |]. split; [done |]. destruct Hx as [_ []]. done.
    + apply sat_bind, sat_setc, sat_ret. split; [wf |]. split; [right; cbn; by rewrite Hn' | by left].
Qed.

Lemma sat_state_running c w :
  conn_ok c -> state c = IIOD_RUNNING_CMD -> (unchecked_cmd c -> U) ->
  sat U (state_running_cmd d) conn_post (c, w).
Proof using Hops Hxml.
  intros [Hwf Hi] Hs HU. apply sat_bind. eapply sat_mono; [by apply sat_run_cmd |].
  intros ret [c' w'] (Hwf' & Hs' & Hp). cbn [fst] in *. destruct (NO_OS_IS_ERR_VALUE ret).
  - by apply sat_ret.
  - apply sat_bind, sat_setc, sat_ret. split; [wf |]. destruct Hp. split; [by left | done].
Qed.

Lemma within_idx b i c : within b c -> b_idx b <= i <= b_len b -> within (Buff (b_buf b) i (b_len b)) c.
Proof. intros (? & ? & ?) ?. split; cbn; [lia | done]. Qed.

(** What is kept while a result is written. *)
Definition writing (c : iiod_conn_priv) : Prop :=
  conn_ok c /\ state c = IIOD_WRITING_CMD_RESULT.

Lemma writing_buff b c i :
  writing c -> within (buff_of b c) c -> b_idx (buff_of b c) <= i <= b_len (buff_of b c) ->
  b = ResBuf \/ b_buf (nb_buf c) = BParser ->
  writing (with_buff b (Buff (b_buf (buff_of b c)) i (b_len (buff_of b c))) c).
Proof.
  intros [[Hwf Hi] Hs] Hb Hle Hp. unfold state_inv in Hi. rewrite Hs in Hi. destruct Hi as [Hn Hr].
  split; [split; [destruct b; wf |] | by destruct b]. unfold state_inv.
  destruct b; cbn -[within]; rewrite Hs; (split; [| ]).
  - right. destruct Hp as [|Hp]; [done |]. split; [done |]. by apply within_idx.
  - done.
  - done.
  - right. by apply within_idx.
Qed.

Lemma sat_rw_if_left b (Q : Z -> iiod_conn_priv * W -> Prop) c w :
  writing c -> b = ResBuf \/ b_buf (nb_buf c) = BParser -> within (buff_of b c) c ->
  (forall ret c' w', writing c' -> Q ret (c', w')) ->
  sat U (rw_if_left d b) Q (c, w).
Proof using Hops.
  intros Hw Hb Hin HQ. apply sat_bind, sat_getc. destruct (_ <? _); [| by apply sat_ret, HQ].
  apply sat_rw_send; [done | apply Hw | done |]. intros. by apply HQ, writing_buff.
Qed.

Lemma sat_send_val (Q : Z -> iiod_conn_priv * W -> Prop) c w :
  writing c -> (forall ret c' w', writing c' -> Q ret (c', w')) ->
  sat U (send_val d) Q (c, w).
Proof using Hops.
  intros Hw HQ. apply sat_bind, sat_getc. destruct (write_val (res c)); [| by apply sat_ret, HQ].
  pose proof Hw as [[Hwf Hi] Hs]. unfold state_inv in Hi. rewrite Hs in Hi. destruct Hi as [Hn Hr].
  apply sat_bind, sat_bind, sat_getc. unfold id. destruct (Z.eqb_spec (b_len (nb_buf c)) 0) as [H0 | H0].
  - pose proof (length_print_int (s32 (res_val (res c))) (swrap_sint 32 _ eq_refl)) as Hl.
    pose proof (wf_parser_buf c Hwf) as Hpb. unfold IIOD_PARSER_MAX_BUF_SIZE in Hpb.
    apply sat_bind, (sat_store _ _ _ _ _ _ (parser_buf c)); [done | by eexists | done | |].
    { rewrite length_app. cbn [length]. lia. }
    intros c' [= <-]. apply sat_setc.
    set (s := print_int (s32 (res_val (res c)))) in *.
    assert (within (Buff BParser 0 (Z.of_nat (length s))) c) as Hin
      by (unfold within; cbn; unfold IIOD_PARSER_MAX_BUF_SIZE; lia).
    apply sat_rw_if_left; [| by right | done | done]. split; [split; [| by unfold state_inv; cbn; rewrite Hs; split;
      [right |]] | done].
    destruct Hwf. constructor; cbn -[list_inserts]; by rewrite ?length_inserts.
  - apply sat_ret. destruct Hn as [| [Hp Hin]]; [done |]. by apply sat_rw_if_left; [| right | |].
Qed.

Lemma sat_state_writing c w :
  conn_ok c -> state c = IIOD_WRITING_CMD_RESULT -> sat U (state_writing_result d) conn_post (c, w).
Proof using Hops.
  intros Hok Hs. apply sat_bind, sat_send_val; [done |]. intros ret c1 w1 Hw1.
  destruct (NO_OS_IS_ERR_VALUE ret); [by apply sat_ret, Hw1 |].
  assert (forall ret c2 w2, writing c2 -> sat U (if NO_OS_IS_ERR_VALUE ret then mret ret else
    _ ← setc after_result; mret 0) conn_post (c2, w2)) as Hend.
  { intros ret2 c2 w2 [[Hwf Hi] Hs2]. destruct (NO_OS_IS_ERR_VALUE ret2); [by apply sat_ret |].
    apply sat_bind, sat_setc, sat_ret. unfold state_inv in Hi. rewrite Hs2 in Hi. destruct Hi as [_ Hr].
    unfold after_result, conn_post, conn_ok. cbn [fst].
    case_decide; [split; [wf | by left] |].
    destruct (_ && _)%bool; (split; [wf | done]). }
  apply sat_bind, sat_bind, sat_getc. case_decide as Eb; [by apply sat_ret, Hend |].
  pose proof Hw1 as [[Hwf Hi] Hs1]. unfold state_inv in Hi. rewrite Hs1 in Hi.
  destruct Hi as [_ [Hr | Hr]]; [done |]. by apply sat_rw_if_left; [| left | |].
Qed.

Lemma sat_state_reading_write c w :
  conn_ok c -> state c = IIOD_READING_WRITE_DATA ->
  (payload_buf_len c < cd_bytes_count (cmd_data c) -> U) ->
  sat U (state_reading_write_data d) conn_post (c, w).
Proof using Hops.
  intros [Hwf Hi] Hs HU. unfold state_inv in Hi. rewrite Hs in Hi. destruct Hi as (Hc & Hr & Hb & Hl & Hle).
  apply sat_bind, sat_rw_recv; [done | done | done | rewrite Hl; apply Hwf | by rewrite Hl |].
  intros ret i p w' Hi Hp.
  assert (conn_wf (with_nb (Buff BPayload i (b_len (nb_buf c))) (with_payload p c))) as Hwf'
    by (destruct Hwf; constructor; by cbn; rewrite ?Hp).
  destruct (NO_OS_IS_ERR_VALUE ret).
  - apply sat_ret. split; [done |]. unfold state_inv. cbn. rewrite Hs. repeat split; by (done || lia).
  - apply sat_bind, sat_setc, sat_ret. split; [wf |]. split; by left.
Qed.

(** *** The data of a buffer *)

Definition moving (c : iiod_conn_priv) : Prop := conn_ok c /\ state c = IIOD_RW_BUF.

Lemma chunk_min c : conn_wf c ->
  chunk c = Z.min (payload_buf_len c) (cd_bytes_count (cmd_data c)) /\ 0 <= chunk c < 2 ^ 31 /\
  u32 (chunk c) = chunk c.
Proof.
  intros []. unfold chunk, no_os_min. pose proof (Nat2Z.is_nonneg (length (payload c))).
  assert (forall x, 0 <= x < 2 ^ 31 -> s32 x = x /\ u32 x = x) as H32.
  { intros x Hx. by split; [apply swrap_small | apply wrap_small]; ulia. }
  destruct (Z.ltb_spec (payload_buf_len c) (cd_bytes_count (cmd_data c))).
  - destruct (H32 (payload_buf_len c) ltac:(lia)) as [-> ->]. lia.
  - destruct (H32 (cd_bytes_count (cmd_data c)) ltac:(ulia)) as [-> ->]. ulia.
Qed.

Lemma moving_chunk c i n :
  conn_wf c -> state c = IIOD_RW_BUF -> nb_buf c = Buff BPayload i n ->
  0 <= i <= n -> n <= chunk c -> moving c.
Proof.
  intros Hwf Hs Hn Hi Hle. destruct (chunk_min c Hwf) as (Hc & Hlt & _).
  split; [| done]. split; [done |]. unfold state_inv. rewrite Hs, Hn. right.
  split; [done |]. unfold within. cbn [b_idx b_len b_buf size]. lia.
Qed.

Lemma moving_empty c :
  conn_wf c -> state c = IIOD_RW_BUF -> b_len (nb_buf c) = 0 -> 0 <= b_idx (nb_buf c) ->
  (delayed c -> b_idx (nb_buf c) = 0) -> moving c.
Proof. intros Hwf Hs Hn Hj Hd. split; [| done]. split; [done |]. unfold state_inv. rewrite Hs. by left. Qed.

Lemma moving_cases c : moving c ->
  b_len (nb_buf c) = 0 /\ 0 <= b_idx (nb_buf c) /\ (delayed c -> b_idx (nb_buf c) = 0) \/
  b_buf (nb_buf c) = BPayload /\ within (nb_buf c) c /\
    0 <= b_idx (nb_buf c) <= b_len (nb_buf c) /\ b_len (nb_buf c) <= chunk c.
Proof.
  intros [[Hwf Hi] Hs]. destruct (chunk_min c Hwf) as (Hc & Hlt & _). unfold state_inv in Hi.
  rewrite Hs in Hi. destruct Hi as [Hi | (Hb & (H1 & H2 & H3) & H4)]; [by left | right].
  split; [done |]. split; [done |]. rewrite Hb in H2. cbn in H2. lia.
Qed.

Lemma with_payload_wf c p : conn_wf c -> length p = length (payload c) -> conn_wf (with_payload p c).
Proof. intros [] Hp. by constructor; cbn; rewrite ?Hp. Qed.

(** The payload filled from the end of [nb_buf]. *)
Lemma sat_fill_chunk n max dev ctx (Q : Z -> iiod_conn_priv * W -> Prop) c w :
  conn_wf c -> 0 <= n -> 0 <= max -> n + max <= payload_buf_len c -> (~ 0 ∈ dev -> U) ->
  (forall ret p w', ret <= max -> length p = length (payload c) -> Q ret (with_payload p c, w')) ->
  sat U (fill d BPayload n (read_buffer (ops d)) (fun f => f ctx dev max)) Q (c, w).
Proof using Hops.
  intros Hwf Hn Hm Hle HN HQ. pose proof (wf_payload c Hwf).
  eapply (sat_fill _ _ _ _ max BPayload _ _ _ _ (payload c)); [apply (read_buffer_within _ _ Hops)
    | intros f Hf; by apply Hf | done | done | by eexists | done | lia |].
  intros ret p c' w' Hr Hp [= <-]. by apply HQ.
Qed.

Lemma sat_read_delayed c w :
  moving c -> delayed c -> (~ names_end (cmd_data c) -> U) -> sat U (do_read_buff_delayed d) (fun _ s => moving (fst s)) (c, w).
Proof using Hops.
  intros Hm Hd HN. pose proof Hm as [[Hwf _] Hs]. destruct (chunk_min c Hwf) as (Hc & Hlt & Hu).
  set (n := b_len (nb_buf c)). set (i := b_idx (nb_buf c)).
  assert (0 <= i <= n /\ n <= chunk c) as [Hi Hn].
  { unfold i, n. destruct (moving_cases c Hm) as [(-> & _ & H) | (_ & _ & H)]; [rewrite H by done |]; lia. }
  apply sat_bind, sat_getc, sat_bind, sat_getc, sat_bind, sat_setc, sat_bind, sat_getc, sat_bind, sat_getc.
  cbn [nb_payload with_nb nb_buf b_len]. fold n i.
  assert (conn_wf (nb_payload c)) as Hwf1 by wf.
  change (chunk (nb_payload c)) with (chunk c). cbv zeta. rewrite (wrap_small 32 (chunk c - n)) by ulia.
  apply sat_bind, sat_fill_chunk; [done | lia | lia | cbn; lia | names |].
  intros ret p w' Hret Hp. pose proof (with_payload_wf _ p Hwf1 Hp) as Hwf2.
  destruct (Z.ltb_spec ret 0).
  { by apply sat_ret, (moving_chunk _ i n). }
  apply sat_bind, sat_setc. rewrite wrap_small by ulia.
  set (c3 := set_nb_len (n + ret) (with_payload p (nb_payload c))).
  assert (conn_wf c3) as Hwf3 by wf.
  assert (forall j, i <= j <= n + ret -> moving (with_nb (Buff BPayload j (n + ret)) c3)) as Hok.
  { intros j Hj. apply (moving_chunk _ j (n + ret)); [wf | done | done | lia |].
    change (chunk (with_nb _ c3)) with (chunk c). lia. }
  apply sat_bind, sat_getc. unfold id. destruct (_ <? _); [by apply sat_ret, (Hok i); lia |].
  apply sat_bind, sat_rw_send; [done | done | |].
  { change (within (Buff BPayload i (n + ret)) c3). unfold within. cbn. lia. }
  intros ret2 j w2 Hj. destruct (ret2 <? 0); [by apply sat_ret, Hok |]. apply sat_bind, sat_setc, sat_ret, moving_empty; (done || wf).
Qed.

Lemma moving_send_buf c : moving c -> 0 < b_len (nb_buf c) ->
  within (nb_buf c) c /\
  forall i, b_idx (nb_buf c) <= i <= b_len (nb_buf c) ->
    moving (with_nb (Buff (b_buf (nb_buf c)) i (b_len (nb_buf c))) c).
Proof.
  intros Hm Hlt. pose proof Hm as [[Hwf _] Hs].
  destruct (moving_cases c Hm) as [(H0 & _) | (Hb & Hin & Hi & Hn)]; [lia |]. split; [done |].
  intros i Hle. rewrite Hb. apply (moving_chunk _ i (b_len (nb_buf c))); (done || wf || lia || done).
Qed.

Lemma chunk_done_wf c : conn_wf c -> conn_wf (chunk_done c).
Proof. intros []. constructor; try done. by apply wrap_uint. Qed.

Lemma sat_read_chunk (Q : Z -> iiod_conn_priv * W -> Prop) c w :
  moving c -> ~ delayed c -> (~ names_end (cmd_data c) -> U) -> (forall ret c' w', moving c' -> ~ delayed c' -> Q ret (c', w')) ->
  sat U (read_chunk d) Q (c, w).
Proof using Hops.
  intros Hm Hd HN HQ. pose proof Hm as [[Hwf _] Hs]. destruct (chunk_min c Hwf) as (Hc & Hlt & Hu).
  apply sat_bind, sat_getc, sat_bind, sat_getc. unfold id. destruct (Z.eqb_spec (b_len (nb_buf c)) 0) as [H0 |];
    [| by apply sat_ret, HQ].
  apply sat_bind, sat_setc, sat_bind. rewrite Hu.
  assert (conn_wf (nb_payload c)) as Hwf1 by wf.
  apply sat_fill_chunk; [done | done | lia | cbn; lia | names |]. intros ret p w' Hret Hp.
  pose proof (with_payload_wf _ p Hwf1 Hp) as Hwf2. unfold NO_OS_IS_ERR_VALUE.
  destruct (Z.ltb_spec ret 0); [apply sat_ret, HQ; [| done] |].
  { assert (0 <= b_idx (nb_buf c)) by (destruct (moving_cases c Hm) as [(_ & ? & _) | (_ & _ & ? & _)]; lia).
    by apply moving_empty. }
  apply sat_bind, sat_setc, sat_ret, HQ; [| done].
  apply (moving_chunk _ 0 (u32 ret)); [wf | done | done | ..]; rewrite wrap_small by ulia; [lia |].
  change (chunk (with_nb _ _)) with (chunk c). lia.
Qed.

Lemma sat_do_read c w :
  moving c -> command c = IIOD_CMD_READBUF -> (~ names_end (cmd_data c) -> U) ->
  sat U (do_read_buff d) (fun _ s => moving (fst s)) (c, w).
Proof using Hops.
  intros Hm Hcmd HN. unfold do_read_buff.
  assert (phy_type d <> USE_NETWORK -> sat U (
    ret ← read_chunk d;
    if NO_OS_IS_ERR_VALUE ret then mret ret else
    c ← getc id;
    if b_idx (nb_buf c) <? b_len (nb_buf c) then
      ret ← rw_iiod_buff d NbBuf IIOD_WR;
      if NO_OS_IS_ERR_VALUE ret then mret ret else
      _ ← setc chunk_done; again_or_done
    else mret 0) (fun _ s => moving (fst s)) (c, w)) as H.
  { intros Hp. apply sat_bind, sat_read_chunk; [done | by intros [] | done |]. intros ret c1 w1 Hm1 Hd1.
    destruct (NO_OS_IS_ERR_VALUE ret); [by apply sat_ret |].
    apply sat_bind, sat_getc. unfold id. destruct (Z.ltb_spec (b_idx (nb_buf c1)) (b_len (nb_buf c1)));
      [| by apply sat_ret].
    assert (0 < b_len (nb_buf c1)) as Hpos.
    { destruct (moving_cases c1 Hm1) as [(_ & ? & _) | (_ & _ & ? & _)]; lia. }
    destruct (moving_send_buf c1 Hm1 Hpos) as [Hin Hok].
    apply sat_bind, sat_rw_send; [done | apply Hm1 | done |]. intros ret2 i w2 Hi.
    specialize (Hok i Hi). cbn [buff_of with_buff] in *.
    set (c2 := with_nb _ c1) in *. assert (~ delayed c2) as Hd2 by done.
    assert (0 <= b_idx (nb_buf c2)) as Hj by (destruct Hin as [? _]; cbn; lia). clearbody c2.
    destruct (NO_OS_IS_ERR_VALUE ret2); [by apply sat_ret |].
    apply sat_bind, sat_setc, sat_bind, sat_getc, sat_ret. destruct Hok as [[Hwf2 _] Hs2].
    by apply moving_empty; [apply chunk_done_wf | ..]. }
  destruct (phy_type d) eqn:Ep; [by apply H | by apply H | by apply sat_read_delayed].
Qed.

Lemma sat_do_write (Q : Z -> iiod_conn_priv * W -> Prop) c w :
  moving c -> command c <> IIOD_CMD_READBUF -> (~ names_end (cmd_data c) -> U) ->
  (forall ret c' w', moving c' -> (names_end (cmd_data c) -> names_end (cmd_data c')) -> (ret = 0 -> b_len (nb_buf c') = 0) ->
    Q ret (c', w')) ->
  sat U (do_write_buff d) Q (c, w).
Proof using Hops.
  intros Hm Hcmd HN HQ. apply sat_bind, sat_getc, sat_bind, sat_setc, sat_bind, sat_getc. unfold id.
  set (c1 := if b_len (nb_buf c) =? 0 then _ else c).
  assert (exists i n, nb_buf c1 = Buff BPayload i n /\ 0 <= i <= n /\ n <= chunk c1 /\
    conn_wf c1 /\ state c1 = IIOD_RW_BUF /\ command c1 <> IIOD_CMD_READBUF /\ cmd_data c1 = cmd_data c) as (i & n & Hn & Hi & Hle & H1).
  { unfold c1. pose proof Hm as [[Hwf _] Hs]. destruct (chunk_min c Hwf) as (_ & Hlt & Hu).
    destruct (Z.eqb_spec (b_len (nb_buf c)) 0) as [H0 | H0].
    - exists 0, (chunk c). rewrite Hu. do 3 (split; [done || lia |]). split; [wf | done].
    - destruct (moving_cases c Hm) as [(? & _) | (Hb & _ & ? & ?)]; [done |].
      exists (b_idx (nb_buf c)), (b_len (nb_buf c)). rewrite <- Hb, buff_eta. done. }
  clearbody c1. clear Hm Hcmd. destruct H1 as (Hwf & Hs & Hcmd & Ed).
  destruct (chunk_min c1 Hwf) as (Hc & Hlt & _).
  assert (forall p j, length p = length (payload c1) -> i <= j <= n ->
    moving (with_nb (Buff BPayload j n) (with_payload p c1))) as Hok.
  { intros p j Hp Hj. pose proof (with_payload_wf _ p Hwf Hp).
    apply (moving_chunk _ j n); (done || wf || lia || done). }
  assert (forall ret p j w', length p = length (payload c1) -> i <= j <= n ->
    sat U (if NO_OS_IS_ERR_VALUE ret then mret ret else
      c2 ← getc id;
      bytes ← load_bytes d (b_buf (nb_buf c2)) 0 (b_len (nb_buf c2));
      ret ← call (write_buffer (ops d)) (fun f => f (IIOD_CTX d c) (device c2) bytes);
      if NO_OS_IS_ERR_VALUE ret then mret ret else
      _ ← setc chunk_done; again_or_done) Q (with_nb (Buff BPayload j n) (with_payload p c1), w')) as Hend.
  { intros ret p j w' Hp Hj. specialize (Hok p j Hp Hj). set (c2 := with_nb _ _) in *.
    assert (forall r w2, r < 0 -> Q r (c2, w2)) as Herr by (intros; apply HQ; [done | by rewrite <- Ed | lia]).
    unfold NO_OS_IS_ERR_VALUE. destruct (Z.ltb_spec ret 0); [by apply sat_ret, Herr |].
    apply sat_bind, sat_getc. unfold id. cbn [c2 with_nb nb_buf b_buf b_len].
    pose proof (wf_payload c1 Hwf) as Hpl.
    apply sat_bind, (sat_load _ _ _ _ _ _ p); [done | lia | lia | lia |]. intros bytes _. apply sat_bind.
    eapply sat_call_ends; [apply (write_buffer_within _ _ Hops) | by intros f Hf | unfold c2; rewrite <- Ed in HN; names |]. intros ret2 w2.
    destruct (Z.ltb_spec ret2 0); [by apply sat_ret, Herr |].
    apply sat_bind, sat_setc, sat_bind, sat_getc, sat_ret, HQ; [| by rewrite <- Ed | done].
    apply moving_empty; [apply chunk_done_wf, Hok | done | done | cbn; lia | by intros [_ Hx]]. }
  apply sat_bind. rewrite Hn. cbn [b_idx b_len]. destruct (Z.ltb_spec i n).
  - apply sat_rw_recv; rewrite ?Hn; cbn [b_buf b_idx b_len]; [done | done | done | ulia | lia |].
    intros ret j p w' Hj Hp. by apply Hend.
  - apply sat_ret. pose proof (Hend 0 (payload c1) i w eq_refl ltac:(lia)) as H2.
    replace (with_nb _ _) with c1 in H2; [done |]. rewrite <- Hn. by destruct c1.
Qed.

Lemma sat_state_rw_buf c w :
  conn_ok c -> state c = IIOD_RW_BUF -> (~ names_end (cmd_data c) -> U) -> sat U (state_rw_buf d) conn_post (c, w).
Proof using Hops.
  intros Hok Hs HN. assert (moving c) as Hm by done. apply sat_bind, sat_getc. unfold id.
  case_decide as Hc.
  - apply sat_bind. eapply sat_mono; [by apply sat_do_read |]. intros ret [c1 w1] Hm1. cbn [fst] in Hm1.
    destruct (NO_OS_IS_ERR_VALUE ret); [by apply sat_ret, Hm1 |].
    apply sat_bind, sat_setc, sat_ret. destruct Hm1 as [[Hwf _] _]. split; [wf | done].
  - apply sat_bind, sat_do_write; [done | done | done |]. intros ret c1 w1 Hm1 Ed H0.
    pose proof Hm1 as [[Hwf _] _]. destruct (Z.eqb_spec ret 0) as [E |].
    + apply sat_bind, sat_getc, sat_bind, sat_getc, sat_bind, sat_setc, sat_bind.
      eapply sat_call_ends; [apply (push_buffer_within _ _ Hops) | by intros f Hf | names |]. intros ret2 w2.
      destruct (NO_OS_IS_ERR_VALUE ret2).
      * apply sat_bind, sat_setc, sat_bind, sat_setc, sat_ret. split; [wf | done].
      * apply sat_bind, sat_setc, sat_bind, sat_setc, sat_bind, sat_setc, sat_bind, sat_setc, sat_ret.
        split; [wf |]. split; left; [by apply H0 | done].
    + destruct (NO_OS_IS_ERR_VALUE ret); [by apply sat_ret, Hm1 |].
      apply sat_bind, sat_setc, sat_ret. split; [wf | done].
Qed.

Lemma sat_state_push fuel c w :
  conn_ok c -> state c = IIOD_PUSH_CYCLIC_BUFFER ->
  ((exists f ret w', push_buffer (ops d) = Some f /\
      f (IIOD_CTX d c) (device c) w = Done (ret, w') /\ bad_line fuel (c, w')) -> U) ->
  (~ names_end (cmd_data c) -> U) ->
  sat U (state_push_cyclic long_bits fuel d) conn_post (c, w).
Proof using Hops.
  intros [Hwf Hi] Hs HU HN. apply sat_bind, sat_getc, sat_bind, sat_getc, sat_bind, sat_eqn.
  eapply sat_call_ends; [apply (push_buffer_within _ _ Hops) | by intros f Hf | names |]. intros ret w1 Ecall.
  destruct (NO_OS_IS_ERR_VALUE ret).
  { apply sat_bind, sat_setc, sat_bind.
    eapply sat_call_ends; [apply (close_within _ _ Hops) | by intros f Hf | names |]. intros _ w2.
    apply sat_bind, sat_setc, sat_bind, sat_setc, sat_ret. split; [wf | done]. }
  apply sat_bind, sat_eqn, sat_read_line; [done |]. intros ret2 c2 w2 Hp H0 Eline.
  destruct (NO_OS_IS_ERR_VALUE ret2) eqn:Ee; [by apply sat_ret, (parsing_ok c) |].
  apply sat_bind, sat_parse; [by apply (parsing_wf c) | by apply H0 | |].
  - intros line Hl Hu. apply HU. unfold call, the, mbind, cmd_bind, zoom in Ecall.
    destruct (push_buffer (ops d)) as [f |] eqn:Ef; [| done]. cbn [snd fst] in Ecall.
    destruct (f (IIOD_CTX d c) (device c) w) as [[r1 w1'] | |] eqn:Ec; [| done..].
    injection Ecall as -> <-. exists f, ret, w1'. do 2 (split; [done |]). by exists ret2, c2, w2, line.
  - intros ret3 x Hx. apply sat_bind, sat_getc. unfold id.
    pose proof (with_cmd_wf c2 x (parsing_wf c c2 Hwf Hp) Hx) as Hwf2.
    unfold state_inv in Hi. rewrite Hs in Hi.
    assert (res_within (with_cmd x c2) /\ state (with_cmd x c2) = IIOD_PUSH_CYCLIC_BUFFER) as [Hr Hs2]
      by by destruct Hp as (? & ? & -> & _).
    destruct (negb _ && _)%bool eqn:Eb.
    + apply andb_true_iff in Eb as [_ Eb]. apply bool_decide_eq_true in Eb.
      apply sat_bind, sat_setc, sat_bind, sat_setc, sat_bind, sat_setc, sat_ret.
      split; [wf |]. split; [by right | right]. done.
    + apply sat_ret. split; [done |]. unfold state_inv. cbn [fst]. by rewrite Hs2.
Qed.

(** What no check stops, by the state. *)
Definition unchecked (fuel : nat) (s : iiod_conn_priv * W) : Prop :=
  let '(c, w) := s in
  match state c with
  | IIOD_READING_LINE => bad_line fuel (c, w)
  | IIOD_READING_WRITE_DATA => payload_buf_len c < cd_bytes_count (cmd_data c)
  | IIOD_RUNNING_CMD => unchecked_cmd c
  | IIOD_RW_BUF => ~ names_end (cmd_data c)
  | IIOD_PUSH_CYCLIC_BUFFER => ~ names_end (cmd_data c) \/
      exists f ret w', push_buffer (ops d) = Some f /\
        f (IIOD_CTX d c) (device c) w = Done (ret, w') /\ bad_line fuel (c, w')
  | IIOD_WRITING_CMD_RESULT | IIOD_LINE_DONE => False
  end.

Lemma sat_run_state fuel c w :
  conn_ok c -> (unchecked fuel (c, w) -> U) ->
  sat U (iiod_run_state long_bits fuel d) conn_post (c, w).
Proof using Hops Hxml.
  intros Hok HU. cbn [unchecked] in HU. apply sat_bind, sat_getc. destruct (state c) eqn:Es.
  - by apply sat_state_reading_line.
  - by apply sat_state_running.
  - by apply sat_state_writing.
  - by apply sat_state_rw_buf.
  - by apply sat_state_reading_write.
  - by apply sat_ret.
  - apply sat_state_push; [done | done | ..]; intros; apply HU; [by right | by left].
Qed.

Lemma conn_ok_clean c : conn_ok c -> conn_ok (conn_clean_state c).
Proof. intros [[] _]. by split; [constructor |]. Qed.

Lemma conn_ok_new data :
  Z.of_nat (length (data_buf data)) = data_len data -> data_len data < 2 ^ 31 -> conn_ok (new_conn data).
Proof. intros Hl Hlt. split; [by constructor | done]. Qed.
End moves.

(** The connections that come about: what is added is run state by state, with
    anything happening to the world in between, and cleaned after a line. *)
Inductive conn_reach : iiod_conn_priv -> Prop :=
  | reach_add data :
      Z.of_nat (length (data_buf data)) = data_len data -> data_len data < 2 ^ 31 ->
      conn_reach (new_conn data)
  | reach_state fuel c w ret c' w' :
      conn_reach c -> iiod_run_state long_bits fuel d (c, w) = Done (ret, (c', w')) -> conn_reach c'
  | reach_clean c : conn_reach c -> conn_reach (conn_clean_state c).

Context {Hops : OpsOk (ops d)}.
Context (Hxml : 0 <= xml_len d <= Z.of_nat (length (xml d)) /\ xml_len d < 2 ^ 31).

Lemma reach_ok c : conn_reach c -> conn_ok c.
Proof using Hops Hxml.
  induction 1 as [data Hl Hlt | fuel c w ret c' w' _ IH E | c _ IH].
  - by apply conn_ok_new.
  - exact (sat_inv _ _ _ _ _ (@sat_run_state True Hops Hxml fuel c w IH (fun _ => I)) E).
  - by apply conn_ok_clean.
Qed.

(** C12: for an application that keeps the contract of its operations, whatever
    a client sends and however the transport splits it, every buffer of a
    connection stays within its memory, and no state of the daemon's state
    machine has undefined behaviour but for four things that it does not check:
    a line whose command lacks an argument, a value to write that does not fit
    the payload with its terminator, a trigger's name of 64 characters or more,
    and a name of a device, channel or attribute that fills its 64 bytes, which
    it passes on without a terminator. *)
Theorem iiod_conn_safe fuel c w :
  conn_reach c ->
  conn_ok c /\ (iiod_run_state long_bits fuel d (c, w) = Undef -> unchecked fuel (c, w)).
Proof using Hops Hxml.
  intros Hr. pose proof (reach_ok c Hr) as Hok. split; [done |]. intros E.
  exact (sat_undef _ _ _ (@sat_run_state (unchecked fuel (c, w)) Hops Hxml fuel c w Hok (fun H => H)) E).
Qed.
End safety.

(** ** Examples *)

(** A client's bytes; what is sent to it is dropped. *)
Definition inbox_ops : iiod_ops (list Z) :=
  IiodOps (Some (fun _ bytes => mret (Z.of_nat (length bytes))))
    (Some (fun _ len w => let n := take (Z.to_nat len) w in
             Done ((Z.of_nat (length n), n), drop (Z.to_nat len) w)))
    None None None None None None None None None None None None.

#[export] Instance inbox_app_ops : AppOps inbox_ops.
Proof.
  constructor; try done.
  - intros ctx bytes w. by exists (Z.of_nat (length bytes)), w.
  - intros ctx len Hlen w. pose proof (length_take w (Z.to_nat len)). cbn. lia.
Qed.

Definition inbox_desc : iiod_desc (list Z) :=
  IiodDesc [] (snd (iiod_copy_ops no_ops inbox_ops)) None (str "<context/>") 10 USE_UART.

#[export] Instance inbox_ops_ok : OpsOk (ops inbox_desc).
Proof. exact (copied_ops_ok no_ops inbox_ops _ inbox_app_ops eq_refl). Qed.

Lemma iiod_conn_safe_witness :
  let c := new_conn (ConnData None (replicate 16 0) 16) in
  let w := (str "OPEN" ++ [10])%list in
  iiod_run_state 64 10 inbox_desc (c, w) = Undef /\
  conn_ok inbox_desc c /\ unchecked inbox_desc 10 (c, w).
Proof.
  intros c w. assert (iiod_run_state 64 10 inbox_desc (c, w) = Undef) as E by (vm_compute; reflexivity).
  destruct (iiod_conn_safe 64 inbox_desc ltac:(vm_compute; split; [split |]; congruence) 10 c w) as [H1 H2].
  - by apply reach_add.
  - split; [exact E |]. split; [exact H1 | exact (H2 E)].
Defined.
