(* ===== verification/IiodPoll.v ===== *)
(** * Polling a connection of the IIO daemon: [iio/iiod.c]

    The application calls [iiod_conn_step] again and again.  A description of
    the states that a connection goes through on its way to an end, with what
    it still waits for in each, is enough to know that polling gets there. *)
From S2P Require Import Prelude Util CString Iiod IiodConn IiodSafety.

Section polling.
  Context {W : Type} (long_bits : Z) (d : iiod_desc W).

Lemma conn_of_run p id (h : heap (iiod_desc W)) dd c :
  cells h !! p = Some dd -> conns dd !! Z.to_nat id = Some c -> used c = true -> id <= IIOD_MAX_CONNECTIONS ->
  conn_of (Some p) id h = Done (Some c, h).
Proof.
  intros Hp Hc Hu Hid. unfold conn_of. destruct (Z.ltb_spec IIOD_MAX_CONNECTIONS id); [lia |].
  rewrite (bind_done _ _ _ _ _ (hload_done h p _ Hp)), Hc. rewrite (bind_done _ _ _ c h) by done. by rewrite Hu.
Qed.

Lemma conn_step_run fuel p id h cs c s ret c' s' :
  cells h !! p = Some (set_conns cs d) -> cs !! Z.to_nat id = Some c -> used c = true ->
  id <= IIOD_MAX_CONNECTIONS -> run_conn long_bits fuel d (c, s) = Done (ret, (c', s')) ->
  iiod_conn_step long_bits fuel (Some p) id (h, s) =
    Done (ret, (Heap (<[p := set_conns (<[Z.to_nat id := c']> cs) d]> (cells h)) (next_block h) (oom h), s')).
Proof.
  intros Hp Hc Hu Hid Hrun. unfold iiod_conn_step. cbn [fst snd].
  rewrite (conn_of_run p id h (set_conns cs d) c) by done.
  rewrite (hload_done h p _ Hp).
  change (run_conn long_bits fuel (set_conns cs d) (c, s)) with (run_conn long_bits fuel d (c, s)).
  rewrite Hrun. unfold conn_store. rewrite (bind_done _ _ _ _ _ (hload_done h p _ Hp)).
  by rewrite (hstore_done h p _ _ Hp).
Qed.

(** The application calls the step until there is nothing to wait for. *)
Fixpoint poll (n fuel : nat) (desc : ptr) (id : Z) : cmd (heap (iiod_desc W) * W) Z :=
  match n with
  | O => fun _ => NoFuel
  | S n =>
      ret ← iiod_conn_step long_bits fuel desc id;
      if ret =? - EAGAIN then poll n fuel desc id else mret ret
  end.

(** At most [n] steps, the last of which does not ask for another one, between
    states of the world that satisfy [P]. *)
Inductive polled (P : W -> Prop) (fuel : nat) (desc : ptr) (id : Z) :
    nat -> heap (iiod_desc W) * W -> Z -> heap (iiod_desc W) * W -> Prop :=
  | polled_last n s ret s' :
      P s.2 -> iiod_conn_step long_bits fuel desc id s = Done (ret, s') -> ret <> - EAGAIN ->
      polled P fuel desc id (S n) s ret s'
  | polled_more n s s1 ret s' :
      P s.2 -> iiod_conn_step long_bits fuel desc id s = Done (- EAGAIN, s1) ->
      polled P fuel desc id n s1 ret s' -> polled P fuel desc id (S n) s ret s'.

Lemma polled_poll P fuel desc id n s ret s' :
  polled P fuel desc id n s ret s' -> poll n fuel desc id s = Done (ret, s').
Proof.
  induction 1 as [n s ret s' _ Hs Hr | n s s1 ret s' _ Hs _ IH]; cbn [poll];
    rewrite (bind_done _ _ _ _ _ Hs); [by destruct (Z.eqb_spec ret (- EAGAIN)) | done].
Qed.

(** A course: the states of a connection with a stage, which goes down within a
    step, and a measure, which goes down when a step has to wait; and how it
    ends, once the connection was cleaned. *)
Context (fuel : nat) (I : nat -> nat -> iiod_conn_priv -> W -> Prop).
Context (E : Z -> iiod_conn_priv -> W -> Prop).

Definition goes (k m : nat) (ret : Z) (s : iiod_conn_priv * W) : Prop :=
  let '(c, w) := s in
  ret = - EAGAIN /\ (exists j n, (n < m)%nat /\ I j n c w) \/
  ret = 0 /\ state c <> IIOD_LINE_DONE /\ (exists j n, (j < k)%nat /\ (n <= m)%nat /\ I j n c w) \/
  (ret < 0 \/ state c = IIOD_LINE_DONE) /\ ret <> - EAGAIN /\ E ret (conn_clean_state c) w.

Record course (P : W -> Prop) (stages : nat) : Prop := Course {
  course_state k m c w : I k m c w -> (k < stages)%nat /\ used c = true /\ P w;
  course_goes k m c w : I k m c w -> wp (iiod_run_state long_bits fuel d) (goes k m) (c, w)
}.

Context (P : W -> Prop) (stages : nat) (HI : course P stages) (Hfuel : (stages <= fuel)%nat).

Lemma wp_run_course k m c w :
  I k m c w ->
  wp (run_conn long_bits fuel d) (fun ret s =>
    ret = - EAGAIN /\ (exists j n, (n < m)%nat /\ I j n (fst s) (snd s)) \/
    ret <> - EAGAIN /\ E ret (fst s) (snd s)) (c, w).
Proof using HI Hfuel.
  intros Hk. apply sat_bind.
  apply (sat_while (fun j _ s => exists n, (n <= m)%nat /\ I j n (fst s) (snd s))) with (n := k);
    [| pose proof (course_state _ _ HI _ _ _ _ Hk); lia | by exists m].
  intros j [] [c1 w1] (n & Hn & Hj). apply sat_bind.
  eapply sat_mono; [by apply (course_goes _ _ HI j n) |].
  intros ret [c2 w2] [(-> & i & n2 & Hlt & Hi) | [(-> & Hst & i & n2 & Hlt & Hle & Hi) | (Hend & Hret & He)]].
  - change (- EAGAIN =? - EAGAIN) with true. apply sat_ret, sat_ret. left. split; [done |].
    exists i, n2. split; [lia | done].
  - change (0 =? - EAGAIN) with false. change (NO_OS_IS_ERR_VALUE 0) with false. apply sat_bind, sat_getc.
    rewrite bool_decide_false by done. apply sat_ret. exists i. split; [done |]. exists n2. split; [cbn; lia | done].
  - destruct (Z.eqb_spec ret (- EAGAIN)); [done |]. apply sat_bind, sat_getc.
    assert (NO_OS_IS_ERR_VALUE ret || bool_decide (state c2 = IIOD_LINE_DONE) = true)%bool as ->.
    { unfold NO_OS_IS_ERR_VALUE. destruct Hend as [H | ->]; [| by rewrite orb_true_r].
      by destruct (Z.ltb_spec ret 0); [| lia]. }
    apply sat_ret, sat_bind, sat_setc, sat_ret. by right.
Qed.

Lemma poll_course p id : forall m k n h cs c w,
  (m < n)%nat -> cells h !! p = Some (set_conns cs d) -> cs !! Z.to_nat id = Some c ->
  id <= IIOD_MAX_CONNECTIONS -> I k m c w ->
  exists ret c' w',
    polled P fuel (Some p) id n (h, w) ret
      (Heap (<[p := set_conns (<[Z.to_nat id := c']> cs) d]> (cells h)) (next_block h) (oom h), w') /\
    E ret c' w'.
Proof using HI Hfuel.
  intros m k n. revert m k. induction n as [| n IH]; intros m k h cs c w Hn Hp Hc Hid Hk; [lia |].
  destruct (course_state _ _ HI _ _ _ _ Hk) as (_ & Hu & HP).
  pose proof (wp_run_course k m c w Hk) as Hrun. unfold triple in Hrun.
  destruct (run_conn long_bits fuel d (c, w)) as [[ret [c1 w1]] | |] eqn:Erun; [| done..]. cbn [fst snd] in Hrun.
  pose proof (conn_step_run fuel p id h cs c _ ret c1 _ Hp Hc Hu Hid Erun) as Hstep.
  destruct Hrun as [(-> & j & m' & Hlt & Hj) | (Hret & Hend)].
  - destruct (IH m' j (Heap (<[p := set_conns (<[Z.to_nat id := c1]> cs) d]> (cells h)) (next_block h) (oom h))
      (<[Z.to_nat id := c1]> cs) c1 w1) as (ret & c' & w' & Hpoll & He); try done; [lia | | |].
    + cbn [cells]. by rewrite lookup_insert_eq.
    + apply list_lookup_insert_eq. by eapply lookup_lt_Some.
    + exists ret, c', w'. split; [| done]. cbn [cells next_block oom] in Hpoll.
      rewrite insert_insert_eq, list_insert_insert_eq in Hpoll. by eapply polled_more.
  - exists ret, c1, w1. split; [| done]. by apply polled_last.
Qed.
End polling.
