(* ===== verification/IiodFrame.v ===== *)
(** * What a step of a connection leaves alone: [iio/iiod.c]

    Whatever a client sends, a connection keeps its transport and its place in
    the pool until it is removed, and the daemon changes the rest of the program
    only through its operations. *)
From S2P Require Import Prelude Util CString Iiod IiodConn IiodPoll.

Create HintDb iiod_frame.

Section frame.
  Context {W : Type} (R : W -> W -> Prop) {HR : PreOrder R}.
  Abbreviation st := (iiod_conn_priv * W)%type.

(** The operations change the world by [R]. *)
Definition changes {A} (c : cmd W A) : Prop := forall w a w', c w = Done (a, w') -> R w w'.

Record ops_change (o : iiod_ops W) : Prop := OpsChange {
  ch_send : forall f, send o = Some f -> forall ctx bytes, changes (f ctx bytes);
  ch_recv : forall f, recv o = Some f -> forall ctx n, changes (f ctx n);
  ch_open : forall f, open o = Some f -> forall ctx dev n m c, changes (f ctx dev n m c);
  ch_close : forall f, close o = Some f -> forall ctx dev, changes (f ctx dev);
  ch_read_buffer : forall f, read_buffer o = Some f -> forall ctx dev n, changes (f ctx dev n);
  ch_refill_buffer : forall f, refill_buffer o = Some f -> forall ctx dev, changes (f ctx dev);
  ch_write_buffer : forall f, write_buffer o = Some f -> forall ctx dev b, changes (f ctx dev b);
  ch_push_buffer : forall f, push_buffer o = Some f -> forall ctx dev, changes (f ctx dev);
  ch_read_attr : forall f, read_attr o = Some f -> forall ctx dev a n, changes (f ctx dev a n);
  ch_write_attr : forall f, write_attr o = Some f -> forall ctx dev a p n, changes (f ctx dev a p n);
  ch_get_trigger : forall f, get_trigger o = Some f -> forall ctx dev n, changes (f ctx dev n);
  ch_set_trigger : forall f, set_trigger_op o = Some f -> forall ctx dev t n, changes (f ctx dev t n);
  ch_set_timeout : forall f, set_timeout_op o = Some f -> forall ctx n, changes (f ctx n);
  ch_set_buffers_count : forall f, set_buffers_count o = Some f -> forall ctx dev n, changes (f ctx dev n)
}.

(** ** Commands of a connection *)

Definition kept (c c' : iiod_conn_priv) : Prop := used c' = used c /\ conn c' = conn c.

Definition framed_cmd {A} (c : cmd st A) : Prop :=
  forall s a s', c s = Done (a, s') -> kept s.1 s'.1 /\ R s.2 s'.2.

Context (d : iiod_desc W) (Hops : ops_change (ops d)) (long_bits : Z).

Lemma frame_ret {A} (a : A) : framed_cmd (mret a).
Proof using HR. intros s x s' [= <- <-]. split; [done | apply HR]. Qed.

Lemma frame_bind {A B} (c : cmd st A) (k : A -> cmd st B) :
  framed_cmd c -> (forall a, framed_cmd (k a)) -> framed_cmd (c ≫= k).
Proof using HR.
  intros Hc Hk s b s' E. unfold mbind, cmd_bind in E. destruct (c s) as [[a s1] | |] eqn:Ec; try done.
  destruct (Hc s a s1 Ec) as [[H1 H2] H3], (Hk a s1 b s' E) as [[H4 H5] H6].
  split; [split; congruence | by etransitivity].
Qed.

Lemma frame_getc {A} (f : iiod_conn_priv -> A) : framed_cmd (getc f).
Proof using HR. intros s x s' [= <- <-]. split; [done | apply HR]. Qed.

Lemma frame_setc f : (forall c, kept c (f c)) -> framed_cmd (setc f).
Proof using HR. intros H s x s' [= <- <-]. split; [apply H | cbn; apply HR]. Qed.

Lemma frame_the {A} (o : option A) : framed_cmd (the o).
Proof using HR. intros s x s' E. destruct o; [| done]. injection E as <- <-. split; [done | apply HR]. Qed.

Lemma frame_lift {A} (o : outcome A) : framed_cmd (lift o).
Proof using HR.
  intros s x s' E. unfold lift in E. destruct o; try done. injection E as <- <-. split; [done | apply HR].
Qed.

Lemma frame_call {F A} (op : option F) (k : F -> cmd W A) :
  (forall f, op = Some f -> changes (k f)) -> framed_cmd (call op k).
Proof using HR.
  intros H s x s' E. unfold call in E. destruct op as [f |]; [| done].
  unfold mbind, cmd_bind in E. cbn in E. unfold zoom in E. destruct (k f s.2) as [[a w] | |] eqn:Ek; try done.
  injection E as <- <-. split; [done | by apply (H f eq_refl _ _ _ Ek)].
Qed.

Lemma frame_loop {A B} (f : A -> cmd st (A + B)) n : (forall a, framed_cmd (f a)) -> forall a, framed_cmd (loop n f a).
Proof using HR.
  intros H. induction n as [| n IH]; intros a; [done |]. cbn [loop]. apply frame_bind; [done |].
  intros [x | x]; [apply IH | apply frame_ret].
Qed.

Lemma frame_set_mem r m c c' : set_mem r m c = Some c' -> kept c c'.
Proof using. by destruct r; intros [= <-]. Qed.

Lemma frame_store r off bytes : framed_cmd (store_bytes d r off bytes).
Proof using HR.
  unfold store_bytes. destruct bytes as [| b bytes]; [apply frame_ret |].
  intros s [] s' E. unfold getc, gets, mbind, cmd_bind in E. cbn beta iota in E.
  destruct (mem_of d r s.1) as [m |]; [| done]. cbn in E. destruct (mem_write m off (b :: bytes)) as [m' |]; [| done].
  cbn in E. destruct (set_mem r m' s.1) as [c |] eqn:Es; [| done]. injection E as <-.
  split; [by apply (frame_set_mem r m') | cbn; apply HR].
Qed.

Lemma frame_load r off len : framed_cmd (load_bytes d r off len).
Proof using HR. unfold load_bytes. apply frame_bind; [apply frame_getc | intros m].
  apply frame_bind; [apply frame_the | intros m']. apply frame_the. Qed.

Lemma frame_fill {F} r off (op : option F) k :
  (forall f, op = Some f -> changes (k f)) -> framed_cmd (fill d r off op k).
Proof using HR. intros H. unfold fill. apply frame_bind; [by apply frame_call |]. intros x. 
  apply frame_bind; [apply frame_store | intros []; apply frame_ret]. Qed.

Ltac done_op := first [by eapply ch_send | by eapply ch_recv | by eapply ch_open | by eapply ch_close
  | by eapply ch_read_buffer | by eapply ch_refill_buffer | by eapply ch_write_buffer | by eapply ch_push_buffer
  | by eapply ch_read_attr | by eapply ch_write_attr | by eapply ch_get_trigger | by eapply ch_set_trigger
  | by eapply ch_set_timeout | by eapply ch_set_buffers_count].

(** Following the structure of a command. *)
Ltac frame :=
  repeat match goal with
  | |- framed_cmd (mret _) => apply frame_ret
  | |- framed_cmd (_ ≫= _) => apply frame_bind; [| intros ?]
  | |- framed_cmd (getc _) => apply frame_getc
  | |- framed_cmd (the _) => apply frame_the
  | |- framed_cmd (lift _) => apply frame_lift
  | |- framed_cmd (setc _) => apply frame_setc; intros ?
  | |- framed_cmd (store_bytes _ _ _ _) => apply frame_store
  | |- framed_cmd (load_bytes _ _ _ _) => apply frame_load
  | |- framed_cmd (fill _ _ _ _ _) => apply frame_fill; intros ? ?; done_op
  | |- framed_cmd (call _ _) => apply frame_call; intros ? ?; done_op
  | |- framed_cmd (loop _ _ _) => apply frame_loop; intros ?
  | |- framed_cmd (match ?x with _ => _ end) => destruct x
  | |- framed_cmd _ => solve [eauto 1 with iiod_frame]
  | |- kept _ _ => repeat case_match; done
  end.

Lemma frame_rw b flags : framed_cmd (rw_iiod_buff d b flags).
Proof using HR Hops. unfold rw_iiod_buff, rw_data, send_endl. destruct b; frame. Qed.

Lemma frame_read_line fuel : framed_cmd (iiod_read_line fuel d).
Proof using HR Hops. unfold iiod_read_line, read_line_step. frame. Qed.

Lemma frame_parse : framed_cmd (parse_conn_line long_bits).
Proof using HR. unfold parse_conn_line. frame. Qed.

#[local] Hint Resolve frame_rw frame_read_line frame_parse : iiod_frame.

Lemma frame_read_buff : framed_cmd (do_read_buff d).
Proof using HR Hops. unfold do_read_buff, do_read_buff_delayed, read_chunk, again_or_done. frame. Qed.

Lemma frame_write_buff : framed_cmd (do_write_buff d).
Proof using HR Hops. unfold do_write_buff, again_or_done. frame. Qed.

Lemma frame_run_cmd : framed_cmd (iiod_run_cmd d).
Proof using HR Hops.
  unfold iiod_run_cmd, run_open_close, run_read, run_write, run_readbuf, call_op, set_result, set_res_data. frame.
Qed.

#[local] Hint Resolve frame_read_buff frame_write_buff frame_run_cmd : iiod_frame.

Lemma frame_run_state fuel : framed_cmd (iiod_run_state long_bits fuel d).
Proof using HR Hops.
  unfold iiod_run_state, state_reading_line, state_running_cmd, state_writing_result, state_rw_buf,
    state_reading_write_data, state_push_cyclic, send_val, send_res_buf, write_val_text, rw_if_left, push_written,
    set_result, after_result. frame.
Qed.

Lemma frame_run_conn fuel : framed_cmd (run_conn long_bits fuel d).
Proof using HR Hops.
  unfold run_conn, run_step. apply frame_bind.
  - apply frame_loop. intros []. apply frame_bind; [apply frame_run_state | intros ret]. frame.
  - intros [ret []]; frame.
Qed.
End frame.

(** ** A step *)

(** A step of a connection that is used changes that connection only, which
    keeps its transport and its place. *)
Lemma conn_step_frame {W} (R : W -> W -> Prop) `{!PreOrder R} long_bits fuel p id (h : heap (iiod_desc W)) dd c s :
  cells h !! p = Some dd -> conns dd !! Z.to_nat id = Some c -> used c = true -> id <= IIOD_MAX_CONNECTIONS ->
  ops_change R (ops dd) ->
  match iiod_conn_step long_bits fuel (Some p) id (h, s) with
  | Done (ret, (h', s')) => exists c', kept c c' /\ R s s' /\
      h' = Heap (<[p := set_conns (<[Z.to_nat id := c']> (conns dd)) dd]> (cells h)) (next_block h) (oom h)
  | _ => True
  end.
Proof.
  intros Hp Hc Hu Hid Hops.
  destruct (run_conn long_bits fuel dd (c, s)) as [[ret [c' s']] | |] eqn:E.
  - destruct dd as [cs o a x n ph]. cbn [conns] in *.
    rewrite (conn_step_run long_bits (IiodDesc cs o a x n ph) fuel p id h cs c s ret c' s' Hp Hc Hu Hid E).
    destruct (frame_run_conn R (IiodDesc cs o a x n ph) Hops long_bits fuel _ _ _ E) as [Hk HR]. by exists c'.
  - unfold iiod_conn_step. cbn [fst snd]. by rewrite (conn_of_run p id h dd c), (hload_done h p _ Hp), E.
  - unfold iiod_conn_step. cbn [fst snd]. by rewrite (conn_of_run p id h dd c), (hload_done h p _ Hp), E.
Qed.
