(* ===== verification/IiodSession.v ===== *)
(** * What a client of the IIO daemon gets: [iio/iiod.c]

    A transport that at each call takes or gives as many bytes as it likes, none
    included, or [-EAGAIN], an application, and the answer that each command is
    due.  The daemon, polled until it has nothing more to do, sends that answer,
    all of it, but it can lose a newline that the transport refused. *)
From Stdlib Require Import String.
From S2P Require Import Prelude Util CString Iiod IiodConn IiodSafety IiodPoll.

(** ** The transport *)

(** The bytes to come from the client, what became of the bytes that were sent to
    it, and what each of the next calls may do: move at most so many bytes,
    which can be none, or return [-EAGAIN].  Calls past the end of the schedule
    move all they can.  The record of the sent bytes has the bytes that the
    client got and a [None] for each time that the transport was offered a
    single byte and took nothing. *)
Record wire : Type := Wire { inp : list Z; out : list (option Z); sched : list (option nat) }.

Definition quota (n : nat) (w : wire) : nat :=
  match sched w with
  | Some k :: _ => Nat.min k n
  | None :: _ => 0
  | [] => n
  end.

Definition io_result (n : nat) (w : wire) : Z :=
  match sched w with
  | None :: _ => - EAGAIN
  | _ => Z.of_nat n
  end.

Definition taken (n : nat) (bytes : list Z) : list (option Z) :=
  match n, bytes with
  | O, [_] => [None]
  | _, _ => Some <$> take n bytes
  end.

Definition wire_send (bytes : list Z) (w : wire) : Z * wire :=
  let n := quota (length bytes) w in
  (io_result n w, Wire (inp w) (out w ++ taken n bytes) (tail (sched w))).

Definition wire_recv (len : Z) (w : wire) : (Z * list Z) * wire :=
  let n := quota (Nat.min (Z.to_nat len) (length (inp w))) w in
  ((io_result n w, take n (inp w)), Wire (drop n (inp w)) (out w) (tail (sched w))).

(** A text that was sent: the client got its bytes in order, but a newline can
    be missing where the transport refused a byte. *)
Inductive delivered : list (option Z) -> list Z -> Prop :=
  | delivered_nil : delivered [] []
  | delivered_byte x t bytes : delivered t bytes -> delivered (Some x :: t) (x :: bytes)
  | delivered_refused t bytes : delivered t bytes -> delivered (None :: t) bytes
  | delivered_lost t bytes : delivered t bytes -> delivered (None :: t) (10 :: bytes).

Lemma delivered_app t1 b1 t2 b2 :
  delivered t1 b1 -> delivered t2 b2 -> delivered (t1 ++ t2) (b1 ++ b2).
Proof. intros H1 H2. induction H1; cbn; [done | by constructor ..]. Qed.

Lemma delivered_all bytes : delivered (Some <$> bytes) bytes.
Proof. induction bytes; by constructor. Qed.

(** Where nothing was refused nothing is missing. *)
Lemma delivered_whole t bytes : delivered t bytes -> None ∉ t -> t = Some <$> bytes.
Proof.
  induction 1 as [| x t bytes _ IH | t bytes _ _ | t bytes _ _]; intros Hn; [done | | ..].
  - cbn. f_equal. apply IH. intros Hin. by apply Hn, elem_of_cons; right.
  - destruct Hn. by apply elem_of_cons; left.
  - destruct Hn. by apply elem_of_cons; left.
Qed.

Lemma taken_delivered n bytes : delivered (taken n bytes) (take n bytes).
Proof.
  unfold taken. destruct n; [| apply delivered_all]. cbn [take].
  destruct bytes as [| x [| y l]]; repeat constructor.
Qed.

(** What was sent since [o], and what is still to be sent, make up a text. *)
Definition owes (o o' : list (option Z)) (left bytes : list Z) : Prop :=
  exists t done, o' = (o ++ t)%list /\ delivered t done /\ bytes = (done ++ left)%list.

Lemma owes_start o bytes : owes o o bytes bytes.
Proof. exists [], []. split; [by rewrite app_nil_r | by split; [constructor |]]. Qed.

Lemma owes_sent o o' o2 left left2 t bytes some :
  owes o o' left bytes -> o2 = (o' ++ t)%list -> delivered t some -> left = (some ++ left2)%list ->
  owes o o2 left2 bytes.
Proof.
  intros (t1 & d1 & -> & H1 & ->) -> H2 ->. exists (t1 ++ t)%list, (d1 ++ some)%list.
  rewrite !app_assoc. split; [done |]. split; [by apply delivered_app | done].
Qed.

Lemma owes_more o o' bytes more : owes o o' [] bytes -> owes o o' more (bytes ++ more).
Proof. intros (t & d & -> & H & ->). exists t, d. by rewrite app_nil_r. Qed.

Lemma owes_end o o' bytes : owes o o' [] bytes -> exists t, o' = (o ++ t)%list /\ delivered t bytes.
Proof. intros (t & d & -> & H & ->). exists t. by rewrite app_nil_r. Qed.

(** ** The application *)

(** Its functions on its own state, which need not be defined everywhere; those
    that fill a buffer return what they wrote to it. *)
Record application (A : Type) : Type := App {
  app_open : list Z -> Z -> Z -> bool -> cmd A Z;
  app_close : list Z -> cmd A Z;
  app_read_attr : list Z -> iiod_attr -> Z -> cmd A (Z * list Z);
  app_write_attr : list Z -> iiod_attr -> list Z -> cmd A Z;
  app_get_trigger : list Z -> Z -> cmd A (Z * list Z);
  app_set_trigger : list Z -> list Z -> Z -> cmd A Z;
  app_set_timeout : Z -> cmd A Z;
  app_set_buffers_count : list Z -> Z -> cmd A Z
}.
Arguments app_open {A} _.
Arguments app_close {A} _.
Arguments app_read_attr {A} _.
Arguments app_write_attr {A} _.
Arguments app_get_trigger {A} _.
Arguments app_set_trigger {A} _.
Arguments app_set_timeout {A} _.
Arguments app_set_buffers_count {A} _.

Section serve.
  Context {A : Type} (ap : iiod_ctx -> application A).

Definition on_app {X} : cmd A X -> cmd (A * wire) X := zoom fst (fun a s => (a, snd s)).

Definition on_wire {X} (f : wire -> X * wire) : cmd (A * wire) X := fun s =>
  let '(x, w) := f (snd s) in Done (x, (fst s, w)).

(** The operations of a descriptor that are the transport's and the
    application's; those for the data of a buffer can be any. *)
Record serves (o : iiod_ops (A * wire)) : Prop := Serves {
  serve_send : send o = Some (fun _ bytes => on_wire (wire_send bytes));
  serve_recv : recv o = Some (fun _ len => on_wire (wire_recv len));
  serve_open : open o = Some (fun ctx dev n m c => on_app (app_open (ap ctx) dev n m c));
  serve_close : close o = Some (fun ctx dev => on_app (app_close (ap ctx) dev));
  serve_read_attr : read_attr o = Some (fun ctx dev attr len =>
    on_app (app_read_attr (ap ctx) dev attr len));
  serve_write_attr : write_attr o = Some (fun ctx dev attr p len =>
    on_app (app_write_attr (ap ctx) dev attr (take (Z.to_nat len) p)));
  serve_get_trigger : get_trigger o = Some (fun ctx dev len =>
    on_app (app_get_trigger (ap ctx) dev len));
  serve_set_trigger : set_trigger_op o = Some (fun ctx dev t len =>
    on_app (app_set_trigger (ap ctx) dev t len));
  serve_set_timeout : exists f, set_timeout_op o = Some f /\
    forall ctx n a w, f ctx n (a, w) = on_app (app_set_timeout (ap ctx) n) (a, w);
  serve_set_buffers_count : set_buffers_count o = Some (fun ctx dev n =>
    on_app (app_set_buffers_count (ap ctx) dev n))
}.
End serve.

#[export] Instance attr_sel_eq : EqDecision attr_sel.
Proof. solve_decision. Defined.

#[export] Instance client_cmd_eq : EqDecision client_cmd.
Proof. solve_decision. Defined.

(** ** Answers *)

(** A number on a line of its own, and a block of bytes, which an empty one is
    not sent as. *)
Definition text (n : Z) : list Z := (print_int (s32 n) ++ [10])%list.

Definition block (v : list Z) : list Z := match v with [] => [] | _ => (v ++ [10])%list end.

(** What the daemon relies on for a value in a buffer of [len] bytes: an error,
    or the length of what was written. *)
Definition value_ok (len : Z) (r : Z * list Z) : bool :=
  if fst r <? 0 then bool_decide (snd r = [])
  else (fst r =? Z.of_nat (length (snd r))) && (fst r <=? len).

Section answer.
  Context {A : Type} (ap : application A) (xml : list Z) (len : Z).

Definition dev_field (s : list Z) : list Z := strncpy MAX_DEV_ID s.

Definition attr_of (sel : attr_sel) (a : option (list Z)) : iiod_attr :=
  Attr (sel_type sel) (copy_or_zero MAX_ATTR_NAME a)
    (match sel with SelOut ch | SelIn ch => strncpy MAX_CHN_ID ch | _ => replicate MAX_CHN_ID 0 end).

Definition number (c : cmd A Z) : cmd A (list Z) := r ← c; mret (text r).

Definition value (c : cmd A (Z * list Z)) : cmd A (list Z) :=
  r ← c; if value_ok len r then mret (text (fst r) ++ block (snd r))%list else undef.

(** What the client of command [q] gets, computed by the application on its
    state; [data] is the value it sends after a [WRITE], [len] the size of the
    payload.  The two commands that move the data of a buffer are not here. *)
Definition answer (q : client_cmd) (data : list Z) : cmd A (list Z) :=
  match q with
  | QHelp => mret (text (- EINVAL))
  | QExit | QReadbuf _ _ | QWritebuf _ _ => mret []
  | QPrint => mret (text (Z.of_nat (length xml)) ++ block xml)%list
  | QVersion => mret (str "1.1.0000000" ++ [10])%list
  | QTimeout n => number (app_set_timeout ap n)
  | QOpen dev n m c => number (app_open ap (dev_field dev) n m c)
  | QClose dev => number (app_close ap (dev_field dev))
  | QRead dev sel at_ => value (app_read_attr ap (dev_field dev) (attr_of sel at_) len)
  | QWrite dev sel at_ _ => number (app_write_attr ap (dev_field dev) (attr_of sel at_) data)
  | QGettrig dev => value (app_get_trigger ap (dev_field dev) len)
  | QSettrig dev t =>
      let trig := copy_or_zero MAX_TRIG_ID t in
      s ← the (c_str trig);
      number (app_set_trigger ap (dev_field dev) trig (Z.of_nat (length s)))
  | QSet dev n => number (app_set_buffers_count ap (dev_field dev) n)
  end.
End answer.

(** The commands of [answer], with what the daemon relies on: a value that fits
    the payload and its terminator, and a trigger's name that fits its field. *)
Definition one_shot (len : Z) (q : client_cmd) (data : list Z) : Prop :=
  match q with
  | QReadbuf _ _ | QWritebuf _ _ => False
  | QWrite _ _ _ n => n = Z.of_nat (length data) /\ n < len
  | QSettrig _ (Some t) => data = [] /\ (length t < MAX_TRIG_ID)%nat
  | _ => data = []
  end.

(** ** The daemon answers *)

(** A line ends with its only newline, and does not start with a delimiter. *)
Lemma line_shape ws : Forall is_word ws -> ws <> [] ->
  (exists body, line ws = (body ++ [10])%list /\ 10 ∉ body) /\
  (exists x l, line ws = x :: l /\ x <> 10 /\ x <> 13).
Proof.
  assert (forall w, is_word w -> Forall (fun c => is_delim delim c = false) w) as Hw by by intros w [].
  assert (forall w, Forall (fun c => is_delim delim c = false) w -> 10 ∉ w) as H10.
  { intros w Hf Hin. rewrite Forall_forall in Hf. by specialize (Hf 10 Hin). }
  intros Hws Hne. split.
  - induction Hws as [| w ws Hword Hws IH]; [done |]. specialize (H10 w (Hw w Hword)).
    destruct ws as [| w' ws].
    + exists (w ++ [13])%list. cbn [line]. split; [by rewrite <- app_assoc |].
      intros [? | [? | []%elem_of_nil]%elem_of_cons]%elem_of_app; done.
    + destruct (IH ltac:(done)) as (body & E & Hb). exists (w ++ 32 :: body)%list.
      change (line (w :: w' :: ws)) with (w ++ 32 :: line (w' :: ws))%list. rewrite E.
      split; [by rewrite <- app_assoc |].
      intros [? | [? | ?]%elem_of_cons]%elem_of_app; done.
  - destruct Hws as [| w ws [Hn Hf] _]; [done |]. destruct w as [| x w]; [done |].
    apply Forall_cons in Hf as [Hx _].
    exists x. assert (x <> 10 /\ x <> 13) as Hx2 by by split; intros ->.
    destruct ws; (eexists; split; [done | done]).
Qed.

Lemma cmd_words_cons q : cmd_words q <> [].
Proof. by destruct q. Qed.

Lemma understood_wf q : client_ok q -> cmd_wf (understood q comand_zero).
Proof.
  intros Hq. unfold client_ok in Hq.
  assert (forall x, cd_mask x = 0 -> uint 32 (cd_mask x)) as H0 by (intros x ->; done).
  assert (forall x, cd_bytes_count x = 0 -> uint 32 (cd_bytes_count x)) as H1 by (intros x ->; done).
  destruct q as [| | | | n | dev n m cyc | dev | dev sel at_ | dev sel at_ n | dev n | dev n | dev | dev t | dev n];
    split; try (by apply H0); try (by apply H1); try (by destruct sel); try apply Hq.
Qed.

Lemma list_inserts_start {X} (l k : list X) :
  (length l <= length k)%nat -> list_inserts 0 l k = (l ++ drop (length l) k)%list.
Proof.
  intros H. rewrite <- (take_drop (length l) k) at 1. apply list_inserts_0_r.
  rewrite length_take. lia.
Qed.

Lemma take_inserts {X} i (l k : list X) :
  (i + length l <= length k)%nat -> take (i + length l) (list_inserts i l k) = (take i k ++ l)%list.
Proof.
  intros H. rewrite <- (take_drop i k) at 1.
  assert (i = (length (take i k) + 0)%nat) as Ei by (rewrite length_take; lia).
  rewrite Ei at 2. rewrite list_inserts_app_r, list_inserts_start by (rewrite length_drop; lia).
  rewrite app_assoc. apply take_app_length'. rewrite length_app, length_take. lia.
Qed.

Section session.
  Context {A : Type} (ap : iiod_ctx -> application A) (long_bits : Z) (d : iiod_desc (A * wire)).
  Context (Hlong : 32 <= long_bits) (Hserve : serves ap (ops d)).
  Context (Hxml : xml_len d = Z.of_nat (length (xml d))) (Hxml31 : xml_len d < 2 ^ 31).

Local Abbreviation st := (iiod_conn_priv * (A * wire))%type.

Lemma wp_call {O X} (op : option O) f (k : O -> cmd (A * wire) X) (Q : X -> st -> Prop) c s x s' :
  op = Some f -> k f s = Done (x, s') -> Q x (c, s') -> wp (call op k) Q (c, s).
Proof.
  intros -> E HQ. eapply sat_done; [| exact HQ]. unfold call, the, mbind, cmd_bind, zoom. cbn. by rewrite E.
Qed.

(** The rest of a schedule. *)
Definition later (w' w : wire) : Prop := (length (sched w') <= length (sched w))%nat.
Definition strictly_later (w' w : wire) : Prop := (length (sched w') < length (sched w))%nat.

(** The result of a call that moved [n] of [len] bytes. *)
Definition io_moved (n len : nat) (ret : Z) (w' w : wire) : Prop :=
  (n <= len)%nat /\ later w' w /\ ((n < len)%nat -> strictly_later w' w) /\
  (ret = Z.of_nat n \/ ret = - EAGAIN /\ n = 0%nat /\ strictly_later w' w).

Lemma quota_moved n i o w : io_moved (quota n w) n (io_result (quota n w) w) (Wire i o (tail (sched w))) w.
Proof.
  unfold io_moved, later, strictly_later, quota, io_result.
  destruct (sched w) as [| [k |] l]; cbn; (split; [lia |]; split; [lia |]; split; [lia |]); auto with lia.
Qed.

(** *** Sending *)

(** What is left of a buffer, and the same with its newline. *)
Definition unsent (m : list Z) (b : iiod_buff) : list Z :=
  drop (Z.to_nat (b_idx b)) (take (Z.to_nat (b_len b)) m).

Definition pending (m : list Z) (b : iiod_buff) : list Z :=
  if b_idx b <? b_len b then (unsent m b ++ [10])%list else [].

Lemma unsent_take m b :
  0 <= b_idx b <= b_len b ->
  unsent m b = take (Z.to_nat (b_len b - b_idx b)) (drop (Z.to_nat (b_idx b)) m).
Proof. intros H. unfold unsent. rewrite skipn_firstn_comm. f_equal. lia. Qed.

Lemma length_unsent m b :
  0 <= b_idx b <= b_len b -> b_len b <= Z.of_nat (length m) ->
  length (unsent m b) = Z.to_nat (b_len b - b_idx b).
Proof. intros H Hm. rewrite unsent_take, length_take, length_drop by done. lia. Qed.

Lemma unsent_none m b : b_len b <= b_idx b -> unsent m b = [].
Proof. intros H. apply drop_ge. rewrite length_take. lia. Qed.

Lemma unsent_step m b n :
  0 <= b_idx b -> b_idx b + Z.of_nat n <= b_len b ->
  unsent m b = (take n (unsent m b) ++ unsent m (Buff (b_buf b) (b_idx b + Z.of_nat n) (b_len b)))%list.
Proof.
  intros Hi Hn. rewrite <- (take_drop n (unsent m b)) at 1. f_equal. unfold unsent. cbn [b_idx b_len].
  rewrite drop_drop. f_equal. lia.
Qed.

Lemma wp_send bytes (Q : Z -> st -> Prop) c a w :
  (forall ret n w', io_moved n (length bytes) ret w' w ->
    inp w' = inp w -> out w' = (out w ++ taken n bytes)%list -> Q ret (c, (a, w'))) ->
  wp (call (send (ops d)) (fun f => f (IIOD_CTX d c) bytes)) Q (c, (a, w)).
Proof using Hserve.
  intros HQ. eapply wp_call; [apply (serve_send _ _ Hserve) | done |]. cbn [fst snd].
  eapply HQ; [apply quota_moved | done | done].
Qed.

(** A newline: sent, or refused and then lost. *)
Lemma wp_send_endl (Q : Z -> st -> Prop) c a w :
  (forall ret w' t, (ret = 0 /\ later w' w \/ ret = - EAGAIN /\ strictly_later w' w) -> inp w' = inp w ->
    out w' = (out w ++ t)%list -> delivered t [10] -> Q ret (c, (a, w'))) ->
  wp (send_endl d) Q (c, (a, w)).
Proof using Hserve.
  intros HQ. apply sat_bind, sat_getc, sat_bind, wp_send. intros ret n w' (Hn & Hl & Hs & Hr) Hi Ho.
  cbn [length] in *. destruct Hr as [-> | (-> & -> & Hs')].
  - destruct n as [| [| n]]; [| | lia].
    + apply sat_ret. apply (HQ _ _ [None]); [right; split; [done | apply Hs; lia] | done | done |]. by constructor; constructor.
    + apply sat_ret. apply (HQ _ _ [Some 10]); [by left | done | done |]. by constructor; constructor.
  - apply sat_ret. apply (HQ _ _ [None]); [by right | done | done |]. by constructor; constructor.
Qed.

(** A call after which [left'] is left to be sent of [left]. *)
Definition sends (left left' : list Z) (w w' : wire) : Prop :=
  exists t some, out w' = (out w ++ t)%list /\ delivered t some /\ left = (some ++ left')%list.

Lemma sends_nothing left w w' : out w' = out w -> sends left left w w'.
Proof. intros E. exists [], []. rewrite E, app_nil_r. split; [done |]. by split; [constructor |]. Qed.

Lemma sends_more l1 l2 l3 w w' w2 : sends l1 l2 w w' -> sends l2 l3 w' w2 -> sends l1 l3 w w2.
Proof.
  intros (t1 & s1 & E1 & H1 & ->) (t2 & s2 & E2 & H2 & ->). exists (t1 ++ t2)%list, (s1 ++ s2)%list.
  rewrite E2, E1, !app_assoc. split; [done |]. split; [by apply delivered_app | done].
Qed.

Lemma sends_app left left' l w w' : sends left left' w w' -> sends (left ++ l) (left' ++ l) w w'.
Proof. intros (t & s & E & H & ->). exists t, s. by rewrite app_assoc. Qed.

Lemma owes_sends o bytes left left' w w' :
  owes o (out w) left bytes -> sends left left' w w' -> owes o (out w') left' bytes.
Proof. intros Ho (t & s & E & H & El). by eapply owes_sent. Qed.

(** Sending the bytes that are left, without a newline: some of them, or all. *)
Lemma wp_send_data b flags m (Q : Z -> st -> Prop) c a w :
  conn_wf c -> within d (buff_of b c) c -> mem_of d (b_buf (buff_of b c)) c = Some m ->
  truthy (Z.land flags IIOD_WR) = true ->
  let buf := buff_of b c in
  (forall i w', b_idx buf <= i < b_len buf -> strictly_later w' w -> inp w' = inp w ->
    let buf' := Buff (b_buf buf) i (b_len buf) in
    sends (unsent m buf) (unsent m buf') w w' ->
    Q (- EAGAIN) (with_buff b buf' c, (a, w'))) ->
  (forall w', later w' w -> inp w' = inp w -> sends (unsent m buf) [] w w' ->
    Q 0 (with_buff b (Buff (b_buf buf) (b_len buf) (b_len buf)) c, (a, w'))) ->
  wp (rw_data d b flags) Q (c, (a, w)).
Proof using Hserve.
  intros Hwf (Hi & Hl & Hs) Hm Hf buf Hagain Hdone. fold buf in Hm, Hi, Hl, Hs.
  assert (b_len buf <= Z.of_nat (length m)) as Hlm.
  { destruct (mem_size d (b_buf buf) c Hwf) as (m' & Hm' & E'); [by intros E; rewrite E in Hm |].
    rewrite Hm in Hm'. injection Hm' as <-. lia. }
  apply sat_bind, sat_getc, sat_bind, sat_getc. fold buf. cbv beta zeta. rewrite Hf.
  rewrite swrap_small by (done || ulia). destruct (truthy (b_len buf - b_idx buf)) eqn:Et.
  - apply truthy_true in Et. apply sat_bind, sat_bind. rewrite wrap_small by ulia.
    apply sat_bind, sat_getc. rewrite Hm. apply sat_bind, sat_the; [done |]. intros m1 [= <-].
    rewrite mem_read_done by lia. apply sat_the; [done |]. intros bytes [= <-].
    rewrite <- unsent_take by done. assert (length (unsent m buf) = Z.to_nat (b_len buf - b_idx buf)) as Hlen
      by by apply length_unsent.
    apply wp_send. intros ret n w' (Hn & Hw & Hw' & Hr) Hinp Hout. rewrite Hlen in Hn, Hw'.
    assert (forall left, unsent m buf = (take n (unsent m buf) ++ left)%list -> sends (unsent m buf) left w w') as Hsends.
    { intros left E. exists (taken n (unsent m buf)), (take n (unsent m buf)). by split; [| split; [apply taken_delivered |]]. }
    unfold NO_OS_IS_ERR_VALUE. destruct Hr as [-> | (-> & -> & Hs')].
    + destruct (Z.ltb_spec (Z.of_nat n) 0); [lia |].
      apply sat_bind, sat_getc, sat_bind, sat_setc. fold buf. rewrite wrap_small by ulia. apply sat_ret.
      destruct (Z.ltb_spec (Z.of_nat n) (b_len buf - b_idx buf)).
      * apply Hagain; [lia | apply Hw'; lia | done |]. apply Hsends, unsent_step; lia.
      * replace (b_idx buf + Z.of_nat n) with (b_len buf) by lia. apply Hdone; [done | done |].
        apply Hsends. by rewrite app_nil_r, take_ge by lia.
    + apply sat_ret. specialize (Hagain (b_idx buf) w' ltac:(lia) Hs' Hinp).
      rewrite buff_eta in Hagain. unfold buf in Hagain. rewrite with_buff_same in Hagain. by apply Hagain, Hsends.
  - apply truthy_false in Et. apply sat_ret. specialize (Hdone w ltac:(unfold later; lia) eq_refl).
    rewrite unsent_none in Hdone by lia. specialize (Hdone (sends_nothing [] w w eq_refl)).
    replace (b_len buf) with (b_idx buf) in Hdone at 1 by lia.
    rewrite buff_eta in Hdone. unfold buf in Hdone. by rewrite with_buff_same in Hdone.
Qed.

(** Sending what is left: some of it, or all with the newline, which the
    transport can refuse; then it is lost, and the buffer has been sent. *)
Lemma wp_rw_if_left b m (Q : Z -> st -> Prop) c a w :
  conn_wf c -> within d (buff_of b c) c -> mem_of d (b_buf (buff_of b c)) c = Some m ->
  let buf := buff_of b c in
  (forall i w', b_idx buf <= i <= b_len buf -> strictly_later w' w -> inp w' = inp w ->
    let buf' := Buff (b_buf buf) i (b_len buf) in
    sends (pending m buf) (pending m buf') w w' ->
    Q (- EAGAIN) (with_buff b buf' c, (a, w'))) ->
  (forall i w', b_idx buf <= i <= b_len buf -> later w' w -> inp w' = inp w ->
    let buf' := Buff (b_buf buf) i (b_len buf) in
    pending m buf' = [] -> sends (pending m buf) [] w w' ->
    Q 0 (with_buff b buf' c, (a, w'))) ->
  wp (rw_if_left d b) Q (c, (a, w)).
Proof using Hserve.
  intros Hwf Hin Hm buf Hagain Hdone. pose proof Hin as (Hi & _). fold buf in Hi.
  apply sat_bind, sat_getc. fold buf. destruct (Z.ltb_spec (b_idx buf) (b_len buf)) as [Hlt | Hge].
  - assert (pending m buf = (unsent m buf ++ [10])%list) as Hp0
      by (unfold pending; destruct (Z.ltb_spec (b_idx buf) (b_len buf)); [done | lia]).
    apply sat_bind, (wp_send_data b _ m); [done | done | done | done | ..]; fold buf.
    + intros i w' Hle Hl Hinp buf' Hout. apply sat_ret, Hagain; [lia | done | done |].
      rewrite Hp0. unfold pending. cbn [b_idx b_len]. destruct (Z.ltb_spec i (b_len buf)); [| lia].
      by apply sends_app.
    + intros w' Hl Hinp Hout. change (NO_OS_IS_ERR_VALUE 0) with false.
      change (truthy (Z.land (Z.lor IIOD_WR IIOD_ENDL) IIOD_ENDL)) with true. cbv iota.
      assert (pending m (Buff (b_buf buf) (b_len buf) (b_len buf)) = []) as Hp1
        by (unfold pending; cbn [b_idx b_len]; by destruct (Z.ltb_spec (b_len buf) (b_len buf)); [lia |]).
      apply wp_send_endl. intros ret w2 t Hret Hi2 Ho2 Ht.
      assert (sends (pending m buf) [] w w2) as Hs.
      { rewrite Hp0. apply (sends_more _ [10] _ w w'); [exact (sends_app _ _ [10] _ _ Hout) |]. by exists t, [10]. }
      destruct Hret as [[-> Hw2] | [-> Hw2]].
      * apply Hdone; [lia | unfold later in *; lia | congruence | done | done].
      * apply Hagain; [lia | unfold strictly_later, later in *; lia | congruence | by rewrite Hp1].
  - assert (pending m buf = []) as Hp by (unfold pending; destruct (Z.ltb_spec (b_idx buf) (b_len buf)); [lia | done]).
    apply sat_ret. specialize (Hdone (b_idx buf) w ltac:(lia) ltac:(unfold later; lia) eq_refl).
    cbv zeta in Hdone. rewrite buff_eta, Hp in Hdone. specialize (Hdone eq_refl (sends_nothing [] w w eq_refl)).
    unfold buf in Hdone. by rewrite with_buff_same in Hdone.
Qed.

(** *** A command on its way

    A client that sends [q], then [data], then [rest], to the connection [c0]
    of an application in state [a0]; [out0] was sent before. *)

Context (c0 : iiod_conn_priv) (q : client_cmd) (data rest : list Z) (a0 : A) (out0 : list (option Z)).

Definition understood0 : comand_desc := understood q comand_zero.

Context (due : list Z * A).

(** The device is left open with the cyclic flag. *)
Definition opened : bool := match q with QOpen _ _ _ c => c | _ => false end.

(** The channels that [READBUF] announces. *)
Definition mask_after : Z := match q with QOpen _ _ m _ => m | _ => mask c0 end.

(** The flag and the mask before the command was run, and after. *)
Definition unset (c : iiod_conn_priv) : Prop := is_cyclic_buffer c = false /\ mask c = mask c0.

Definition settled (c : iiod_conn_priv) : Prop := is_cyclic_buffer c = opened /\ mask c = mask_after.

Lemma unset_settled c : unset c -> match q with QOpen _ _ _ _ => False | _ => True end -> settled c.
Proof. intros [H1 H2] Hq. unfold settled, opened, mask_after. by destruct q. Qed.

Definition same (c : iiod_conn_priv) : Prop :=
  conn_wf c /\ conn c = conn c0 /\ used c = used c0 /\ payload_buf_len c = payload_buf_len c0.

(** What is still to be sent of a result. *)
Definition value_left (c : iiod_conn_priv) : list Z :=
  if write_val (res c) then
    if b_len (nb_buf c) =? 0 then text (res_val (res c)) else pending (parser_buf c) (nb_buf c)
  else [].

Definition block_left (c : iiod_conn_priv) : list Z :=
  match mem_of d (b_buf (res_buf (res c))) c with
  | Some m => pending m (res_buf (res c))
  | None => []
  end.

(** [x] is what was understood of the command. *)
Definition st_result (x : comand_desc) (c : iiod_conn_priv) (a : A) (w : wire) : Prop :=
  same c /\ state c = IIOD_WRITING_CMD_RESULT /\ cmd_data c = x /\
  settled c /\ a = snd due /\ inp w = rest /\
  owes out0 (out w) (value_left c ++ block_left c) (fst due) /\
  (b_len (nb_buf c) = 0 \/ b_buf (nb_buf c) = BParser /\ within d (nb_buf c) c) /\
  (b_buf (res_buf (res c)) = BNull \/ b_buf (res_buf (res c)) <> BParser /\ within d (res_buf (res c)) c).

Definition st_done (c : iiod_conn_priv) (a : A) (w : wire) : Prop :=
  same c /\ state c = IIOD_LINE_DONE /\ settled c /\
  a = snd due /\ inp w = rest /\ owes out0 (out w) [] (fst due).

(** A state that goes on from [P] to [Q], or waits for the transport. *)
Definition advance (P Q : iiod_conn_priv -> A -> wire -> Prop) (w : wire) (ret : Z) (s : st) : Prop :=
  let '(c, (a, w')) := s in
  ret = - EAGAIN /\ P c a w' /\ strictly_later w' w \/ ret = 0 /\ Q c a w' /\ later w' w.

Local Ltac wf := match goal with H : conn_wf _ |- conn_wf _ => destruct H; by constructor end.

Lemma block_left_with_nb b c : block_left (with_nb b c) = block_left c.
Proof. unfold block_left. cbn. by destruct (b_buf (res_buf (res c))). Qed.

Lemma block_left_with_parser pb c :
  b_buf (res_buf (res c)) <> BParser -> block_left (with_parser_buf pb c) = block_left c.
Proof. unfold block_left. cbn. by destruct (b_buf (res_buf (res c))). Qed.

Lemma not_parser c :
  b_buf (res_buf (res c)) = BNull \/ b_buf (res_buf (res c)) <> BParser /\ within d (res_buf (res c)) c ->
  b_buf (res_buf (res c)) <> BParser.
Proof. by intros [-> | [? _]]. Qed.

Lemma wp_send_text x c a w :
  st_result x c a w -> write_val (res c) = true -> b_len (nb_buf c) <> 0 ->
  wp (rw_if_left d NbBuf) (advance (st_result x) (fun c a w => st_result x c a w /\ value_left c = []) w) (c, (a, w)).
Proof using Hserve.
  intros (Hs & Hst & Hc & Hy & Ha & Hi & Ho & Hn & Hr) Hv H0. pose proof Hs as [Hwf _].
  destruct Hn as [| [Hb Hin]]; [done |].
  assert (forall i, value_left (with_nb (Buff (b_buf (nb_buf c)) i (b_len (nb_buf c))) c)
    = pending (parser_buf c) (Buff (b_buf (nb_buf c)) i (b_len (nb_buf c)))) as Hval.
  { intros i. unfold value_left. cbn [with_nb res nb_buf b_len parser_buf]. rewrite Hv.
    by destruct (Z.eqb_spec (b_len (nb_buf c)) 0). }
  assert (value_left c = pending (parser_buf c) (nb_buf c)) as Hval0.
  { unfold value_left. rewrite Hv. by destruct (Z.eqb_spec (b_len (nb_buf c)) 0). }
  assert (forall i w', b_idx (nb_buf c) <= i <= b_len (nb_buf c) -> inp w' = inp w ->
    let c' := with_nb (Buff (b_buf (nb_buf c)) i (b_len (nb_buf c))) c in
    sends (value_left c) (value_left c') w w' -> st_result x c' a w') as Hok.
  { intros i w' Hle Hi' c' Ho'. split; [split; [wf | apply Hs] |]. do 3 (split; [done |]).
    split; [done |]. split; [congruence |]. split; [| split; [right; split; [done | by apply within_idx] | done]].
    eapply owes_sends; [exact Ho |]. unfold c'. rewrite block_left_with_nb. by apply sends_app. }
  apply (wp_rw_if_left NbBuf (parser_buf c)); [done | done | cbn; by rewrite Hb | ..]; cbn [buff_of with_buff].
  - intros i w' Hle Hl Hi' Ho'. left. split; [done |]. split; [| done]. apply Hok; [lia | done |].
    by rewrite Hval, Hval0.
  - intros i w' Hle Hl Hi' Hp Ho'. right. split; [done |]. split; [| done]. split; [| by rewrite Hval].
    apply Hok; [lia | done |]. by rewrite Hval, Hp, Hval0.
Qed.

Lemma wp_send_val x c a w :
  st_result x c a w ->
  wp (send_val d) (advance (st_result x) (fun c a w => st_result x c a w /\ value_left c = []) w) (c, (a, w)).
Proof using Hserve.
  intros H. apply sat_bind, sat_getc. destruct (write_val (res c)) eqn:Hv.
  2: { apply sat_ret. right. split; [done |]. unfold later, value_left. by rewrite Hv. }
  apply sat_bind, sat_bind, sat_getc. unfold id. destruct (Z.eqb_spec (b_len (nb_buf c)) 0) as [H0 | H0];
    [| by apply sat_ret, wp_send_text].
  destruct H as (Hs & Hst & Hc & Hy & Ha & Hi & Ho & Hn & Hr). pose proof Hs as [Hwf _].
  pose proof (length_print_int (s32 (res_val (res c))) (swrap_sint 32 _ eq_refl)) as Hl.
  pose proof (wf_parser_buf c Hwf) as Hpb. unfold IIOD_PARSER_MAX_BUF_SIZE in Hpb.
  set (t := print_int (s32 (res_val (res c)))) in *.
  apply sat_bind, (sat_store _ _ _ _ _ _ _ (parser_buf c)); [done | by eexists | done | |].
  { rewrite length_app. cbn [length]. lia. }
  intros c' [= <-]. apply sat_setc. set (pb := list_inserts _ _ _).
  assert (take (length t) pb = t) as Ht.
  { unfold pb. change (Z.to_nat 0) with 0%nat. rewrite list_inserts_start by (rewrite length_app; cbn; lia).
    by rewrite <- app_assoc, take_app_length. }
  assert (length pb = length (parser_buf c)) as Hlpb by apply length_inserts.
  apply wp_send_text; [| done | cbn; lia].
  split; [split; [destruct Hwf; constructor; try done; cbn [with_nb with_parser_buf parser_buf]; by rewrite Hlpb | apply Hs] |].
  do 3 (split; [done |]). split; [done |]. split; [done |].
  split; [| split; [right; split; [done |] | done]].
  - replace (value_left _ ++ block_left _)%list with (value_left c ++ block_left c)%list; [done |].
    rewrite block_left_with_nb, block_left_with_parser by by apply not_parser.
    f_equal. unfold value_left. cbn [with_nb with_parser_buf res nb_buf b_len parser_buf]. rewrite Hv, H0.
    destruct (Z.eqb_spec (Z.of_nat (length t)) 0); [lia |]. unfold pending, unsent. cbn [b_idx b_len].
    destruct (Z.ltb_spec 0 (Z.of_nat (length t))); [| lia]. rewrite Nat2Z.id, Ht. done.
  - unfold within. cbn. unfold IIOD_PARSER_MAX_BUF_SIZE. lia.
Qed.

Lemma wp_send_res x c a w :
  st_result x c a w -> value_left c = [] ->
  wp (send_res_buf d)
    (advance (st_result x) (fun c a w => st_result x c a w /\ (value_left c ++ block_left c)%list = []) w) (c, (a, w)).
Proof using Hserve.
  intros H Hval. pose proof H as (Hs & Hst & Hc & Hy & Ha & Hi & Ho & Hn & Hr). pose proof Hs as [Hwf _].
  apply sat_bind, sat_getc. case_decide as E.
  { apply sat_ret. right. split; [done |]. split; [| unfold later; lia]. split; [done |].
    unfold block_left. by rewrite Hval, E. }
  destruct Hr as [| [Hp Hin]]; [done |].
  destruct (mem_size d (b_buf (res_buf (res c))) c Hwf E) as (m & Hm & _).
  assert (forall b, b_buf b = b_buf (res_buf (res c)) -> block_left (set_res_buf_of b c) = pending m b) as Hblk.
  { intros b Eb. unfold block_left. cbn [set_res_buf_of with_res res set_res_buf res_buf]. rewrite Eb.
    replace (mem_of d _ (set_res_buf_of b c)) with (mem_of d (b_buf (res_buf (res c))) c)
      by by destruct (b_buf (res_buf (res c))). by rewrite Hm. }
  assert (block_left c = pending m (res_buf (res c))) as Hblk0 by (unfold block_left; by rewrite Hm).
  assert (forall i w', b_idx (res_buf (res c)) <= i <= b_len (res_buf (res c)) -> inp w' = inp w ->
    let b := Buff (b_buf (res_buf (res c))) i (b_len (res_buf (res c))) in
    sends (pending m (res_buf (res c))) (pending m b) w w' ->
    st_result x (set_res_buf_of b c) a w') as Hok.
  { intros i w' Hle Hi' b Ho'. split; [split; [wf | apply Hs] |]. do 3 (split; [done |]).
    split; [done |]. split; [congruence |].
    split; [| split; [done |]; right; split; [done | by apply within_idx]].
    change (value_left (set_res_buf_of b c)) with (value_left c).
    rewrite Hval, Hblk by done. cbn [app]. eapply owes_sends; [exact Ho |]. by rewrite Hval, Hblk0. }
  apply (wp_rw_if_left ResBuf m); [done | done | done | ..]; cbn [buff_of with_buff].
  - intros i w' Hle Hl Hi' Ho'. left. split; [done |]. split; [| done]. apply Hok; [lia | done | done].
  - intros i w' Hle Hl Hi' Hpe Ho'. right. split; [done |]. split; [| done]. split.
    + apply Hok; [lia | done |]. by rewrite Hpe.
    + rewrite Hblk by done. rewrite Hpe, app_nil_r. exact Hval.
Qed.

(** The result, all of it. *)
Lemma wp_result_sent x c a w :
  st_result x c a w ->
  wp (state_writing_result d) (advance (st_result x) (fun c a w => exists c1, c = after_result c1 /\
    st_result x c1 a w /\ (value_left c1 ++ block_left c1)%list = []) w) (c, (a, w)).
Proof using Hserve.
  intros H. apply sat_bind. eapply sat_mono; [by apply wp_send_val |].
  intros ret [c1 [a1 w1]] [(-> & H1 & Hl) | (-> & [H1 Hv] & Hl)]; [by apply sat_ret; left |].
  change (NO_OS_IS_ERR_VALUE 0) with false. apply sat_bind.
  eapply sat_mono; [by apply wp_send_res |]. unfold strictly_later, later in Hl.
  intros ret [c2 [a2 w2]] [(-> & H2 & Hl2) | (-> & [H2 Hv2] & Hl2)]; unfold strictly_later, later in Hl2;
    [apply sat_ret; left; unfold strictly_later; split; [done | split; [done | lia]] |].
  change (NO_OS_IS_ERR_VALUE 0) with false. apply sat_bind, sat_setc, sat_ret. right.
  split; [done |]. split; [by exists c2 | unfold later; lia].
Qed.

(** The commands that move the data of a buffer are not followed here. *)
Context (Hshot : one_shot (payload_buf_len c0) q data).

Lemma shot_cmd : cd_cmd understood0 <> IIOD_CMD_READBUF /\ cd_cmd understood0 <> IIOD_CMD_WRITEBUF /\
  (opened = true -> cd_cmd understood0 = IIOD_CMD_OPEN).
Proof using Hshot.
  unfold understood0, opened. destruct q as [| | | | | | | dev sel at_ | dev sel at_ n | | | | |]; try done;
    cbn; by destruct sel.
Qed.

Lemma wp_writing c a w :
  st_result understood0 c a w -> wp (state_writing_result d) (advance (st_result understood0) st_done w) (c, (a, w)).
Proof using Hserve Hshot.
  intros H. eapply sat_mono; [by apply wp_result_sent |].
  intros ret [c2 [a2 w2]] [(-> & H2 & Hl) | (-> & (c1 & -> & H1 & Hv) & Hl)]; [by left | right].
  split; [done |]. split; [| done]. destruct H1 as (Hs & Hst & Hc & Hy & Ha & Hi & Ho & _).
  rewrite Hv in Ho. destruct shot_cmd as (Hc1 & Hc2 & Hc3). unfold after_result. unfold command in Hc.
  rewrite Hc. rewrite decide_False by tauto. replace (_ && _)%bool with false.
  - split; [destruct Hs as [Hwf Hs]; split; [wf | done] |]. done.
  - symmetry. rewrite (proj1 Hy). destruct opened; [| done]. by rewrite Hc3.
Qed.

(** *** Running the command *)

Hypothesis Hdue : answer (ap (IIOD_CTX d c0)) (xml d) (payload_buf_len c0) q data a0 = Done due.

Definition st_running (c : iiod_conn_priv) (a : A) (w : wire) : Prop :=
  same c /\ state c = IIOD_RUNNING_CMD /\ cmd_data c = understood0 /\ res c = result0 /\
  unset c /\ a = a0 /\ inp w = rest /\ out w = out0 /\
  (cd_cmd understood0 <> IIOD_CMD_WRITE -> b_len (nb_buf c) = 0) /\
  (cd_cmd understood0 = IIOD_CMD_WRITE -> take (length data) (payload c) = data).

(** The command was run, and its result is what is due. *)
Definition ran (w : wire) (ret : Z) (s : st) : Prop :=
  let '(c, (a, w')) := s in
  ret = 0 /\ w' = w /\ st_result understood0 (with_state IIOD_WRITING_CMD_RESULT c) a w'.

Lemma to_result c a w :
  same c -> cmd_data c = understood0 -> settled c ->
  a = snd due -> inp w = rest -> out w = out0 -> b_len (nb_buf c) = 0 ->
  fst due = ((if write_val (res c) then text (res_val (res c)) else []) ++ block_left c)%list ->
  (b_buf (res_buf (res c)) = BNull \/ b_buf (res_buf (res c)) <> BParser /\ within d (res_buf (res c)) c) ->
  st_result understood0 (with_state IIOD_WRITING_CMD_RESULT c) a w.
Proof.
  intros [Hwf Hs] Hc Hy Ha Hi Ho Hn Hd Hr. split; [split; [wf | done] |].
  split; [done |]. split; [unfold command; cbn; by rewrite Hc |]. do 2 (split; [done |]). split; [done |].
  split; [| split; [by left | done]]. rewrite Ho, Hd.
  replace (value_left _) with (if write_val (res c) then text (res_val (res c)) else []); [apply owes_start |].
  unfold value_left. cbn [with_state res nb_buf]. by rewrite Hn.
Qed.

Lemma text_wrap n : text (u32 n) = text n.
Proof. unfold text. by rewrite swrap_wrap. Qed.

Lemma wp_set_number c w r a' :
  same c -> cmd_data c = understood0 -> settled c -> res c = result0 ->
  b_len (nb_buf c) = 0 -> inp w = rest -> out w = out0 -> due = (text r, a') ->
  wp (_ ← set_result r; mret 0) (ran w) (c, (a', w)).
Proof.
  intros [Hwf Hs] Hc Hy Hr Hn Hi Ho Hd. apply sat_bind, sat_setc, sat_ret. do 2 (split; [done |]).
  apply to_result; try done.
  - split; [wf | done].
  - by rewrite Hd.
  - rewrite Hd. unfold block_left. cbn. by rewrite text_wrap, Hr, app_nil_r.
  - left. cbn. by rewrite Hr.
Qed.

Lemma wp_call_tail c w r a' :
  same c -> cmd_data c = understood0 -> settled c -> res c = result0 ->
  b_len (nb_buf c) = 0 -> inp w = rest -> out w = out0 ->
  call_op d (c, (a0, w)) = Done (r, (c, (a', w))) -> due = (text r, a') ->
  wp (ret ← call_op d; _ ← set_result ret; mret 0) (ran w) (c, (a0, w)).
Proof.
  intros. apply sat_bind. eapply sat_done; [done |]. by apply wp_set_number.
Qed.

(** The operations as a descriptor's functions. *)
Lemma on_app_run {X} (g : cmd A X) a w x a' : g a = Done (x, a') -> on_app g (a, w) = Done (x, (a', w)).
Proof. intros H. unfold on_app, zoom. cbn. by rewrite H. Qed.

Lemma call_app {O X} (op : option O) f (k : O -> cmd (A * wire) X) (g : cmd A X) c a w x a' :
  op = Some f -> k f (a, w) = on_app g (a, w) -> g a = Done (x, a') -> call op k (c, (a, w)) = Done (x, (c, (a', w))).
Proof.
  intros -> E Hg. unfold call, the, mbind, cmd_bind, zoom. cbn.
  by rewrite E, (on_app_run g a w x a' Hg).
Qed.

(** What a number that is due says of the function that gives it. *)
Lemma number_due (g : cmd A Z) : number g a0 = Done due -> exists r a', g a0 = Done (r, a') /\ due = (text r, a').
Proof using. intros (r & a' & Hg & [= Hd])%bind_inv. by exists r, a'. Qed.

Lemma ctx_same c : same c -> IIOD_CTX d c = IIOD_CTX d c0.
Proof. intros (_ & E & _). unfold IIOD_CTX. by rewrite E. Qed.

Lemma c_str_short (t : list Z) n :
  (length t < n)%nat -> is_Some (c_str (strncpy n t)).
Proof.
  intros H. apply c_str_elem. unfold strncpy. apply elem_of_app. right.
  destruct (n - length t)%nat eqn:E; [lia |]. apply elem_of_cons. by left.
Qed.

Definition plain : Prop :=
  match q with
  | QHelp | QTimeout _ | QOpen _ _ _ _ | QClose _ | QSettrig _ _ | QSet _ _ => True
  | _ => False
  end.

Lemma call_op_run c w :
  same c -> cmd_data c = understood0 -> plain ->
  exists r a', call_op d (c, (a0, w)) = Done (r, (c, (a', w))) /\ due = (text r, a').
Proof using Hdue Hserve Hshot.
  intros Hs Hc Hq. unfold call_op.
  rewrite (bind_done _ _ _ (IIOD_CTX d c0) (c, (a0, w))) by by rewrite <- (ctx_same c Hs).
  rewrite (bind_done _ _ _ understood0 (c, (a0, w))) by by rewrite <- Hc.
  unfold plain, understood0 in *. pose proof Hshot as Ht. unfold one_shot in Ht. pose proof Hdue as Hd.
  destruct q as [| | | | n | dev n m cyc | dev | | | | | | dev t | dev n]; try done;
    cbn [understood cd_cmd set_cmd set_timeout set_device set_cyclic set_mask set_sample_count set_count
      set_trigger cd_timeout cd_device cd_sample_count cd_mask cd_cyclic cd_trigger cd_count answer] in *.
  - injection Hd as Hd. by eexists _, _.
  - apply number_due in Hd as (r & a' & Hg & ->). exists r, a'. split; [| done].
    destruct (serve_set_timeout _ _ Hserve) as (f & Hf & Ef). by eapply call_app; [apply Hf | apply Ef |].
  - apply number_due in Hd as (r & a' & Hg & ->). exists r, a'. split; [| done].
    by eapply call_app; [apply (serve_open _ _ Hserve) | |].
  - apply number_due in Hd as (r & a' & Hg & ->). exists r, a'. split; [| done].
    by eapply call_app; [apply (serve_close _ _ Hserve) | |].
  - apply bind_inv in Hd as (t' & a1 & Ht' & Hd).
    destruct (c_str (copy_or_zero MAX_TRIG_ID t)) as [t2 |]; [| done]. injection Ht' as <- <-.
    apply number_due in Hd as (r & a' & Hg & ->). exists r, a'. split; [| done].
    rewrite (bind_done _ _ _ t2 (c, (a0, w))) by done.
    by eapply call_app; [apply (serve_set_trigger _ _ Hserve) | |].
  - apply number_due in Hd as (r & a' & Hg & ->). exists r, a'. split; [| done].
    by eapply call_app; [apply (serve_set_buffers_count _ _ Hserve) | |].
Qed.

Lemma wp_open_close c w :
  st_running c a0 w -> plain -> wp (run_open_close d) (ran w) (c, (a0, w)).
Proof using Hdue Hserve Hshot Hlong.
  intros (Hs & Hst & Hc & Hr & Hy & _ & Hi & Ho & Hn & _) Hq.
  assert (forall c', same c' -> cmd_data c' = understood0 -> settled c' ->
    res c' = result0 -> b_len (nb_buf c') = 0 ->
    wp (ret ← call_op d; _ ← set_result ret; mret 0) (ran w) (c', (a0, w))) as Hcall.
  { intros c' Hs' Hc' Hy' Hr' Hn'. destruct (call_op_run c' w Hs' Hc' Hq) as (r & a' & E & Hd).
    by eapply wp_call_tail. }
  apply sat_bind, sat_getc, sat_bind. rewrite Hc. unfold plain in Hq. unfold understood0 in *.
  assert (b_len (nb_buf c) = 0) as Hn0 by (apply Hn; by destruct q).
  unfold settled, unset, opened, mask_after in *. destruct Hy as [Hy1 Hy2]. pose proof (wf_mask c (proj1 Hs)) as Hm.
  destruct q as [| | | | n | dev n m cyc | dev | | | | | | dev t | dev n] eqn:Eq; try done; cbn; try by apply Hcall.
  - apply sat_bind, sat_setc.
    assert (same (with_mask m c)) as Hs1.
    { destruct Hs as [Hwf Hs]. split; [| done]. pose proof (wf_cmd_mask c Hwf) as Hm1. rewrite Hc in Hm1.
      cbn in Hm1. by destruct Hwf; constructor. }
    destruct cyc.
    + apply sat_setc, Hcall; try done. destruct Hs1 as [Hwf Hs1]. split; [wf | done].
    + by apply sat_ret, Hcall.
  - apply Hcall; try done. destruct Hs as [Hwf Hs]. split; [wf | done].
Qed.

(** *** Values *)

Lemma value_ok_spec len r :
  value_ok len r = true -> snd r = [] /\ fst r < 0 \/ fst r = Z.of_nat (length (snd r)) /\ 0 <= fst r <= len.
Proof using.
  clear. unfold value_ok. destruct (Z.ltb_spec (fst r) 0).
  - intros H1%bool_decide_eq_true. by left.
  - intros H1. zify_cmp. right. lia.
Qed.

Lemma value_due (g : cmd A (Z * list Z)) :
  value (payload_buf_len c0) g a0 = Done due -> exists r bytes a', g a0 = Done ((r, bytes), a') /\
    due = ((text r ++ block bytes)%list, a') /\
    (bytes = [] /\ r < 0 \/ r = Z.of_nat (length bytes) /\ 0 <= r <= payload_buf_len c0).
Proof using.
  intros ([r bytes] & a' & Hg & H)%bind_inv. destruct (value_ok _ _) eqn:E; [| done].
  injection H as Hd. exists r, bytes, a'. split; [done |]. split; [done |]. by apply value_ok_spec in E.
Qed.

(** The value that was put into the payload. *)
Lemma wp_value_tail c w ret bytes a' :
  same c -> state c = IIOD_RUNNING_CMD -> cmd_data c = understood0 -> settled c ->
  res c = result0 -> b_len (nb_buf c) = 0 -> inp w = rest -> out w = out0 ->
  bytes = [] /\ ret < 0 \/ ret = Z.of_nat (length bytes) /\ 0 <= ret <= payload_buf_len c0 ->
  due = ((text ret ++ block bytes)%list, a') ->
  wp (_ ← store_bytes d BPayload 0 bytes; _ ← set_result ret;
      if NO_OS_IS_ERR_VALUE ret then mret 0 else _ ← set_res_data BPayload ret; mret 0)
    (ran w) (c, (a', w)).
Proof.
  intros Hs Hst Hc Hy Hr Hn Hi Ho Hv Hd. pose proof Hs as (Hwf & _ & _ & Hpl).
  pose proof (wf_payload c Hwf) as Hp. pose proof (wf_payload_len c Hwf) as Hlt.
  destruct Hv as [[-> Hneg] | [Hret Hle]].
  - apply sat_bind, sat_ret, sat_bind, sat_setc. unfold NO_OS_IS_ERR_VALUE.
    destruct (Z.ltb_spec ret 0); [| lia]. cbn [block] in Hd. rewrite app_nil_r in Hd.
    change (wp (mret 0) (ran w) (set_write_val_of true (set_val_of (u32 ret) c), (a', w))).
    exact (wp_set_number c w ret a' Hs Hc Hy Hr Hn Hi Ho Hd).
  - apply sat_bind, (sat_store _ _ _ _ _ _ _ (payload c)); [done | by eexists | done | lia |].
    intros c' [= <-]. set (p := list_inserts _ _ _). apply sat_bind, sat_setc. unfold NO_OS_IS_ERR_VALUE.
    destruct (Z.ltb_spec ret 0); [lia |]. apply sat_bind, sat_setc, sat_ret. do 2 (split; [done |]).
    assert (take (Z.to_nat ret) p = bytes) as Hpre.
    { unfold p. change (Z.to_nat 0) with 0%nat. rewrite list_inserts_start by lia.
      rewrite Hret, Nat2Z.id. by rewrite take_app_length. }
    assert (length p = length (payload c)) as Hlp by apply length_inserts.
    apply to_result; try done.
    + split; [destruct Hwf; constructor; try done; cbn; by rewrite Hlp | apply Hs].
    + by rewrite Hd.
    + rewrite Hd. cbn [fst]. unfold block_left, pending, unsent. cbn. rewrite Hr. cbn [b_idx b_buf].
      rewrite text_wrap, (wrap_small 32 ret) by ulia. f_equal.
      change (b_idx (res_buf result0)) with 0. change (Z.to_nat 0) with 0%nat. rewrite drop_0, Hpre.
      destruct (Z.ltb_spec 0 ret); [by destruct bytes; [cbn in *; lia |] |].
      destruct bytes; [done | cbn in *; lia].
    + right. split; [done |]. unfold within. cbn. rewrite Hr, (wrap_small 32 ret) by ulia. cbn. lia.
Qed.

Lemma sat_unbind {S X Y} (c : cmd S X) (k : X -> cmd S Y) Q s :
  wp (c ≫= k) Q s -> wp c (fun x => wp (k x) Q) s.
Proof. unfold triple, mbind, cmd_bind. by destruct (c s) as [[]| |]. Qed.

Lemma wp_fill_value {O} (op : option O) f (k : O -> cmd (A * wire) (Z * list Z)) g c w :
  op = Some f -> k f = on_app g ->
  same c -> state c = IIOD_RUNNING_CMD -> cmd_data c = understood0 -> settled c ->
  res c = result0 -> b_len (nb_buf c) = 0 -> inp w = rest -> out w = out0 ->
  value (payload_buf_len c0) g a0 = Done due ->
  wp (ret ← fill d BPayload 0 op k; _ ← set_result ret;
      if NO_OS_IS_ERR_VALUE ret then mret 0 else _ ← set_res_data BPayload ret; mret 0)
    (ran w) (c, (a0, w)).
Proof using d.
  intros Hop Hk Hs Hst Hc Hy Hr Hn Hi Ho (ret & bytes & a' & Hg & Hd & Hv)%value_due.
  apply sat_bind, sat_bind. eapply wp_call; [done | rewrite Hk; by apply on_app_run |].
  apply sat_bind. cbn [fst snd].
  by apply (sat_unbind _ _ _ _ (wp_value_tail c w ret bytes a' Hs Hst Hc Hy Hr Hn Hi Ho Hv Hd)).
Qed.

(** The fields of the command as the operations see them. *)
Lemma attr_fields dev sel a n :
  (let x := understood (QRead dev sel a) comand_zero in
   cd_device x = dev_field dev /\ Attr (cd_type x) (cd_attr x) (cd_channel x) = attr_of sel a /\
   cd_cmd x = IIOD_CMD_READ) /\
  (let x := understood (QWrite dev sel a n) comand_zero in
   cd_device x = dev_field dev /\ Attr (cd_type x) (cd_attr x) (cd_channel x) = attr_of sel a /\
   cd_cmd x = IIOD_CMD_WRITE /\ cd_bytes_count x = n).
Proof. by destruct sel, a. Qed.

Lemma wp_run_write c w dev sel at_ n :
  q = QWrite dev sel at_ n -> st_running c a0 w -> wp (run_write d) (ran w) (c, (a0, w)).
Proof using Hdue Hserve Hshot.
  intros Eq (Hs & Hst & Hc & Hr & Hy & _ & Hi & Ho & _ & Hdata). pose proof Hs as (Hwf & _ & _ & Hpl).
  pose proof Hshot as Ht. unfold one_shot in Ht. rewrite Eq in Ht. destruct Ht as [Hn Hlt].
  destruct (attr_fields dev sel at_ n) as [_ (Hdev & Hattr & Hcmd & Hbc)].
  rewrite <- Eq in *. fold understood0 in Hdev, Hattr, Hcmd, Hbc.
  pose proof (wf_payload c Hwf) as Hp. specialize (Hdata Hcmd).
  apply sat_bind, sat_getc, sat_bind, sat_getc, sat_bind. rewrite Hc, Hbc, Hattr, Hdev, (ctx_same c Hs).
  apply (sat_store _ _ _ _ _ _ _ (payload c)); [done | by eexists | lia | cbn [length]; lia |].
  intros c' [= <-]. apply sat_bind, sat_getc, sat_bind. cbn [with_payload payload].
  set (p := <[Z.to_nat n := 0]> (payload c)).
  assert (take (Z.to_nat n) p = data) as Hpre.
  { unfold p. rewrite take_insert_ge by lia. by rewrite Hn, Nat2Z.id. }
  assert (same (with_payload p c)) as [Hwf1 Hs1].
  { split; [by apply with_payload_wf; [| apply length_insert] | apply Hs]. }
  pose proof Hdue as Hd. rewrite Eq in Hd. cbn [answer] in Hd. apply number_due in Hd as (r & a' & Hg & Hd).
  eapply sat_done; [eapply call_app; [apply (serve_write_attr _ _ Hserve) | done | by rewrite Hpre] |].
  apply sat_bind, sat_setc. apply (wp_set_number _ w r a'); try done.
  - split; [wf | done].
  - by apply (unset_settled c); [| rewrite Eq].
Qed.

Lemma wp_run_read c w :
  st_running c a0 w -> match q with QRead _ _ _ | QGettrig _ => True | _ => False end ->
  wp (run_read d) (ran w) (c, (a0, w)).
Proof using Hdue Hserve Hshot.
  intros (Hs & Hst & Hc & Hr & Hy & _ & Hi & Ho & Hn & _) Hq.
  apply sat_bind, sat_getc, sat_bind, sat_getc. unfold id. rewrite Hc, (ctx_same c Hs).
  assert (settled c) as Hop by (apply unset_settled; [done | by destruct q]).
  destruct q as [| | | | | | | dev sel at_ | | | | dev | |] eqn:Eq; try done.
  - destruct (attr_fields dev sel at_ 0) as [(Hdev & Hattr & Hcmd) _].
    rewrite <- Eq in *. fold understood0 in Hdev, Hattr, Hcmd. rewrite Hcmd, Hattr, Hdev in *.
    eapply wp_fill_value; [apply (serve_read_attr _ _ Hserve) | done | done.. | by apply Hn | done | done |].
    pose proof Hdue as Hd. rewrite Eq in Hd. cbn [answer] in Hd.
    by replace (payload_buf_len c) with (payload_buf_len c0) by (symmetry; apply Hs).
  - assert (cd_cmd understood0 = IIOD_CMD_GETTRIG /\ cd_device understood0 = dev_field dev) as [Hcmd Hdev]
      by (unfold understood0; by rewrite Eq).
    rewrite <- Eq in *. rewrite Hcmd, Hdev in *.
    eapply wp_fill_value; [apply (serve_get_trigger _ _ Hserve) | done | done.. | by apply Hn | done | done |].
    pose proof Hdue as Hd. rewrite Eq in Hd. cbn [answer] in Hd.
    by replace (payload_buf_len c) with (payload_buf_len c0) by (symmetry; apply Hs).
Qed.

(** The two answers that are the daemon's own. *)
Lemma wp_run_print c w :
  st_running c a0 w -> q = QPrint ->
  wp (_ ← set_result (xml_len d); _ ← set_res_data BXml (xml_len d); mret 0) (ran w) (c, (a0, w)).
Proof using Hdue Hxml Hxml31.
  intros (Hs & Hst & Hc & Hr & Hy & _ & Hi & Ho & Hn & _) Eq. pose proof Hs as [Hwf Hs'].
  apply sat_bind, sat_setc, sat_bind, sat_setc, sat_ret. do 2 (split; [done |]).
  assert (due = ((text (xml_len d) ++ block (xml d))%list, a0)) as Hd
    by (pose proof Hdue as Hd; rewrite Eq in Hd; rewrite Hxml; by injection Hd).
  apply to_result; try done.
  - split; [wf | done].
  - by apply (unset_settled c); [| rewrite Eq].
  - by rewrite Hd.
  - cbn. apply Hn. unfold understood0. by rewrite Eq.
  - rewrite Hd. cbn [fst]. unfold block_left, pending, unsent. cbn. rewrite Hr, text_wrap, (wrap_small 32 (xml_len d)) by ulia.
    change (b_idx (res_buf result0)) with 0. change (Z.to_nat 0) with 0%nat. rewrite drop_0, take_ge by lia.
    f_equal. destruct (xml d) eqn:Ex; cbn [block length] in *; [by rewrite Hxml |].
    destruct (Z.ltb_spec 0 (xml_len d)); [done | lia].
  - right. split; [done |]. unfold within. cbn. rewrite Hr, (wrap_small 32 (xml_len d)) by ulia. cbn. lia.
Qed.

Lemma wp_run_version c w :
  st_running c a0 w -> q = QVersion ->
  wp (_ ← set_res_data BVersion (Z.of_nat (length IIOD_VERSION)); mret 0) (ran w) (c, (a0, w)).
Proof.
  intros (Hs & Hst & Hc & Hr & Hy & _ & Hi & Ho & Hn & _) Eq. pose proof Hs as [Hwf Hs'].
  apply sat_bind, sat_setc, sat_ret. do 2 (split; [done |]).
  assert (due = ((IIOD_VERSION ++ [10])%list, a0)) as Hd
    by (pose proof Hdue as Hd; rewrite Eq in Hd; by injection Hd).
  apply to_result; try done.
  - split; [wf | done].
  - by apply (unset_settled c); [| rewrite Eq].
  - by rewrite Hd.
  - cbn. apply Hn. unfold understood0. by rewrite Eq.
  - rewrite Hd. unfold block_left. cbn -[pending IIOD_VERSION]. rewrite Hr. done.
  - right. split; [done |]. unfold within. cbn. rewrite Hr. done.
Qed.

(** The connection of a client that said [EXIT]. *)
Definition st_exit (c : iiod_conn_priv) (a : A) (w : wire) : Prop :=
  same c /\ settled c /\ a = snd due /\ inp w = rest /\ owes out0 (out w) [] (fst due).

Local Ltac plain_case Hcm cm Eq :=
  rewrite (Hcm cm) by (unfold understood0; by rewrite Eq);
  apply wp_open_close; [done | unfold plain; by rewrite Eq].

Lemma wp_running c a w :
  st_running c a w ->
  wp (state_running_cmd d) (fun ret s => if decide (q = QExit)
    then let '(c, (a, w')) := s in ret = - ENOTCONN /\ st_exit c a w' /\ later w' w
    else advance st_running (st_result understood0) w ret s) (c, (a, w)).
Proof using Hdue Hserve Hshot Hxml Hxml31 Hlong.
  intros H. pose proof H as (Hs & Hst & Hc & Hr & Hy & -> & Hi & Ho & Hn & _).
  assert (q <> QExit -> wp (iiod_run_cmd d) (ran w) (c, (a0, w)) ->
    wp (state_running_cmd d) (advance st_running (st_result understood0) w) (c, (a0, w))) as Hend.
  { intros _ Hrun. apply sat_bind. eapply sat_mono; [exact Hrun |].
    intros ret [c' [a' w']] (-> & -> & Hres). change (NO_OS_IS_ERR_VALUE 0) with false.
    apply sat_bind, sat_setc, sat_ret. right. split; [done |]. split; [done |]. unfold later. lia. }
  assert (forall cm, cd_cmd understood0 = cm -> cd_cmd (cmd_data c) = cm) as Hcm by (intros cm E; by rewrite Hc).
  case_decide as Ex.
  - assert (due = ([], a0)) as Hd by (pose proof Hdue as Hd; rewrite Ex in Hd; by injection Hd).
    apply sat_bind, sat_bind, sat_getc. rewrite (Hcm IIOD_CMD_EXIT) by (unfold understood0; by rewrite Ex).
    apply sat_bind, sat_setc, sat_ret, sat_ret. split; [done |]. split; [| unfold later; lia].
    destruct Hs as [Hwf Hs]. split; [split; [wf | done] |]. cbn. rewrite Hd, Ho.
    split; [apply unset_settled; [done | by rewrite Ex] |]. split; [done |]. split; [done |]. apply owes_start.
  - apply Hend; [done |]. apply sat_bind, sat_getc. pose proof Hshot as Ht. unfold one_shot in Ht.
    assert (exists k, k = q) as [k Ek] by eauto. rewrite <- Ek in Ht, Ex.
    destruct k as [| | | | n | dev n m cyc | dev | dev sel at_ | dev sel at_ n | | | dev | dev t | dev n];
      try done; symmetry in Ek; rename Ek into Eq.
    + plain_case Hcm IIOD_CMD_HELP Eq.
    + rewrite (Hcm IIOD_CMD_PRINT) by (unfold understood0; by rewrite Eq). by apply wp_run_print.
    + rewrite (Hcm IIOD_CMD_VERSION) by (unfold understood0; by rewrite Eq). by apply wp_run_version.
    + plain_case Hcm IIOD_CMD_TIMEOUT Eq.
    + plain_case Hcm IIOD_CMD_OPEN Eq.
    + plain_case Hcm IIOD_CMD_CLOSE Eq.
    + rewrite (Hcm IIOD_CMD_READ) by (unfold understood0; rewrite Eq; by destruct sel).
      apply wp_run_read; [done | by rewrite Eq].
    + rewrite (Hcm IIOD_CMD_WRITE) by (unfold understood0; rewrite Eq; by destruct sel).
      by apply (wp_run_write c w dev sel at_ n).
    + rewrite (Hcm IIOD_CMD_GETTRIG) by (unfold understood0; by rewrite Eq).
      apply wp_run_read; [done | by rewrite Eq].
    + plain_case Hcm IIOD_CMD_SETTRIG Eq.
    + plain_case Hcm IIOD_CMD_SET Eq.
Qed.

(** *** Receiving *)

Lemma wp_recv r off len ctx (Q : Z -> st -> Prop) c a w m :
  mem_of d r c = Some m -> is_Some (set_mem r m c) -> 0 <= off -> 0 <= len ->
  off + len <= Z.of_nat (length m) ->
  (forall ret n w' c', io_moved n (Nat.min (Z.to_nat len) (length (inp w))) ret w' w ->
    inp w' = drop n (inp w) -> out w' = out w ->
    set_mem r (list_inserts (Z.to_nat off) (take n (inp w)) m) c = Some c' ->
    Q ret (c', (a, w'))) ->
  wp (fill d r off (recv (ops d)) (fun f => f ctx len)) Q (c, (a, w)).
Proof using Hserve.
  intros Hm Hr Hoff Hlen Hle HQ.
  pose proof (quota_moved (Nat.min (Z.to_nat len) (length (inp w)))
    (drop (quota (Nat.min (Z.to_nat len) (length (inp w))) w) (inp w)) (out w) w) as H. pose proof H as (H1 & _).
  apply sat_bind. eapply wp_call; [apply (serve_recv _ _ Hserve) | done |]. cbn [fst snd].
  set (n := quota _ w) in *. apply sat_bind, (sat_store _ _ _ _ _ _ _ m); [done | done | done | |].
  { rewrite length_take. lia. }
  intros c' Hc'. apply sat_ret. by apply (HQ _ n _ c').
Qed.

(** Receiving [want] into the payload, [i] bytes of which have come. *)
Lemma wp_recv_data i want more (Q : Z -> st -> Prop) c a w :
  conn_wf c -> nb_buf c = Buff BPayload (Z.of_nat i) (Z.of_nat (length want)) ->
  Z.of_nat (length want) <= payload_buf_len c -> (i <= length want)%nat ->
  take i (payload c) = take i want -> inp w = (drop i want ++ more)%list ->
  (forall j p w', (j < length want)%nat -> length p = length (payload c) ->
    take j p = take j want -> strictly_later w' w -> inp w' = (drop j want ++ more)%list -> out w' = out w ->
    Q (- EAGAIN) (with_nb (Buff BPayload (Z.of_nat j) (Z.of_nat (length want))) (with_payload p c), (a, w'))) ->
  (forall p w', length p = length (payload c) -> take (length want) p = want ->
    later w' w -> inp w' = more -> out w' = out w ->
    Q 0 (with_nb (Buff BPayload (Z.of_nat (length want)) (Z.of_nat (length want))) (with_payload p c), (a, w'))) ->
  wp (rw_iiod_buff d NbBuf IIOD_RD) Q (c, (a, w)).
Proof using Hserve.
  clear Hdue Hshot. intros Hwf Hn Hlt Hi Hp Hinp Hagain Hdone.
  pose proof (wf_payload c Hwf) as Hlen. pose proof (wf_payload_len c Hwf) as H31.
  apply sat_bind, sat_bind, sat_getc, sat_bind, sat_getc. cbn [buff_of]. rewrite Hn. cbn [b_len b_idx b_buf].
  cbv zeta. rewrite swrap_small by (done || ulia).
  change (truthy (Z.land IIOD_RD IIOD_WR)) with false. change (truthy (Z.land IIOD_RD IIOD_ENDL)) with false.
  destruct (truthy (Z.of_nat (length want) - Z.of_nat i)) eqn:Et.
  - apply truthy_true in Et. apply sat_bind. rewrite wrap_small by ulia.
    apply (wp_recv _ _ _ _ _ _ _ _ (payload c)); [done | by eexists | lia | lia | lia |].
    intros ret n w' c' (Hni & Hl & Hsl & Hret) Hi' Ho' [= <-]. unfold NO_OS_IS_ERR_VALUE.
    destruct Hret as [-> | (-> & -> & Hs')].
    2: { rewrite take_0. apply sat_ret, sat_ret. rewrite drop_0 in Hi'.
      specialize (Hagain i (payload c) w' ltac:(lia) eq_refl Hp Hs' ltac:(congruence) Ho').
      replace (with_nb _ _) with c in Hagain by (destruct c; cbn in *; by rewrite Hn). by destruct c. }
    destruct (Z.ltb_spec (Z.of_nat n) 0); [lia |].
    set (p := list_inserts _ _ _).
    assert (length (take n (inp w)) = n) as Hln by (rewrite length_take; lia).
    assert (take (i + n) p = take (i + n) want) as Htp.
    { pose proof (take_inserts i (take n (inp w)) (payload c) ltac:(lia)) as E. rewrite Hln in E.
      unfold p. rewrite Nat2Z.id, E, Hp, Hinp. rewrite take_app_le by (rewrite length_drop; lia). apply take_take_drop. }
    assert (inp w' = (drop (i + n) want ++ more)%list) as Hdi.
    { rewrite Hi', Hinp, drop_app_le by (rewrite length_drop; lia). by rewrite drop_drop. }
    assert (length p = length (payload c)) as Hlp by apply length_inserts.
    apply sat_bind, sat_getc, sat_bind, sat_setc. cbn [buff_of with_buff with_payload nb_buf]. rewrite Hn.
    cbn [b_buf b_idx b_len]. rewrite wrap_small by ulia. apply sat_ret.
    destruct (Z.ltb_spec (Z.of_nat n) (Z.of_nat (length want) - Z.of_nat i)).
    + apply sat_ret. rewrite <- Nat2Z.inj_add.
      apply Hagain; [lia | done | done | apply Hsl; rewrite Hinp, length_app, length_drop; lia | done | done].
    + apply sat_ret. assert (i + n = length want)%nat as E by lia. rewrite E in Htp, Hdi.
      rewrite drop_all in Hdi. rewrite <- Nat2Z.inj_add, E. apply Hdone; try done. by rewrite Htp, take_ge.
  - apply truthy_false in Et. apply sat_ret, sat_ret.
    assert (i = length want) as E by lia. rewrite E in Hp, Hinp. rewrite drop_all in Hinp.
    specialize (Hdone (payload c) w eq_refl ltac:(by rewrite Hp, take_ge) ltac:(unfold later; lia) Hinp eq_refl).
    replace (with_nb _ _) with c in Hdone; [done |]. destruct c; cbn in *. by rewrite Hn, E.
Qed.

(** *** The value of a [WRITE] *)

Definition st_data (c : iiod_conn_priv) (a : A) (w : wire) : Prop :=
  same c /\ state c = IIOD_READING_WRITE_DATA /\ cmd_data c = understood0 /\ res c = result0 /\
  unset c /\ a = a0 /\ out w = out0 /\ cd_cmd understood0 = IIOD_CMD_WRITE /\
  exists i, nb_buf c = Buff BPayload (Z.of_nat i) (Z.of_nat (length data)) /\ (i <= length data)%nat /\
    Z.of_nat (length data) < payload_buf_len c0 /\
    take i (payload c) = take i data /\ inp w = (drop i data ++ rest)%list.

Lemma wp_data c a w :
  st_data c a w -> wp (state_reading_write_data d) (advance st_data st_running w) (c, (a, w)).
Proof using Hserve.
  clear Hdue Hshot. intros (Hs & Hst & Hc & Hr & Hy & -> & Ho & Hcmd & i & Hn & Hi & Hlt & Hp & Hinp).
  pose proof Hs as (Hwf & _ & _ & Hpl).
  assert (forall p b, length p = length (payload c) -> same (with_nb b (with_payload p c))) as Hsame.
  { intros p b Hlp. split; [| apply Hs]. pose proof (with_payload_wf c p Hwf Hlp). wf. }
  apply sat_bind, (wp_recv_data i data rest); [done | done | lia | done | done | done | |].
  - intros j p w' Hj Hlp Htp Hl Hi' Ho'. apply sat_ret. left. split; [done |]. split; [| done].
    split; [by apply Hsame |]. do 5 (split; [done |]). split; [congruence |]. split; [done |].
    exists j. split; [done |]. split; [lia |]. done.
  - intros p w' Hlp Htp Hl Hi' Ho'. apply sat_bind, sat_setc, sat_ret. right. split; [done |]. split; [| done].
    split; [destruct (Hsame p (Buff BPayload (Z.of_nat (length data)) (Z.of_nat (length data))) Hlp); split; [wf | done] |].
    do 5 (split; [done |]). split; [done |]. split; [congruence |]. split; [by rewrite Hcmd |]. done.
Qed.

(** *** The line *)

Definition the_line : list Z := line (cmd_words q).

Context (Hclient : client_ok q).

(** Reading the line, [i] characters of which have come. *)
Definition half_read (c : iiod_conn_priv) (a : A) (w : wire) : Prop :=
  same c /\ state c = IIOD_READING_LINE /\ nb_buf c = buff0 /\ res c = result0 /\
  cmd_data c = comand_zero /\ unset c /\ a = a0 /\ out w = out0.

Definition st_reading_at (i : nat) (c : iiod_conn_priv) (a : A) (w : wire) : Prop :=
  half_read c a w /\ parser_idx c = Z.of_nat i /\ (i < length the_line)%nat /\
  take i (parser_buf c) = take i the_line /\ inp w = (drop i the_line ++ data ++ rest)%list.

Definition st_reading (c : iiod_conn_priv) (a : A) (w : wire) : Prop :=
  exists i, st_reading_at i c a w.

(** The whole line is there. *)
Definition st_line (c : iiod_conn_priv) (a : A) (w : wire) : Prop :=
  half_read c a w /\ c_str (parser_buf c) = Some the_line /\ inp w = (data ++ rest)%list.

Lemma the_line_shape :
  (exists body, the_line = (body ++ [10])%list /\ 10 ∉ body) /\
  (exists x l, the_line = x :: l /\ x <> 10 /\ x <> 13).
Proof using Hclient Hlong.
  apply line_shape; [by apply (cmd_words_ok long_bits) | apply cmd_words_cons].
Qed.

Lemma newline_last i x : the_line !! i = Some x -> x = 10 <-> S i = length the_line.
Proof using Hclient Hlong.
  clear Hxml Hxml31. intros Hx. destruct the_line_shape as [(body & E & Hb) _]. rewrite E in Hx |- *.
  rewrite length_app. cbn [length]. apply lookup_app_Some in Hx as [Hx | [Hle Hx]].
  - split; [| apply lookup_lt_Some in Hx; lia]. intros ->. by apply list_elem_of_lookup_2 in Hx.
  - apply list_lookup_singleton_Some in Hx as [? <-]. lia.
Qed.

Context (Hline : (length the_line < 128)%nat) (Hnul : 0 ∉ the_line).

Lemma half_read_parser pb j c a w :
  half_read c a w -> length pb = length (parser_buf c) -> 0 <= j < IIOD_PARSER_MAX_BUF_SIZE ->
  half_read (with_parser_idx j (with_parser_buf pb c)) a w.
Proof.
  intros ([Hwf Hs] & H) Hl Hj. split; [| done]. split; [| done].
  by destruct Hwf; constructor; cbn [with_parser_idx with_parser_buf parser_buf]; rewrite ?Hl.
Qed.

Lemma half_read_wire c a w w' : half_read c a w -> out w' = out w -> half_read c a w'.
Proof. unfold half_read. intros H ->. exact H. Qed.

(** One character. *)
Lemma wp_read_char i c a w w0 :
  st_reading_at i c a w -> later w w0 ->
  wp (read_line_step d tt) (fun r s => let '(c, (a, w')) := s in
    match r with
    | inl _ => st_reading_at (S i) c a w' /\ later w' w0
    | inr ret => advance st_reading st_line w0 ret s
    end) (c, (a, w)).
Proof using Hserve Hclient Hline Hnul Hlong.
  clear Hdue Hshot.  intros (Hh & Hidx & Hi & Hpre & Hinp) Hw0. pose proof Hh as ((Hwf & _) & _).
  pose proof (wf_parser_buf c Hwf) as Hlen. unfold IIOD_PARSER_MAX_BUF_SIZE in Hlen.
  destruct (lookup_lt_is_Some_2 the_line i Hi) as [x Hx].
  assert (inp w = x :: drop (S i) the_line ++ data ++ rest)%list as Hinp'
    by by rewrite Hinp, (drop_S _ _ _ Hx).
  apply sat_bind, sat_getc, sat_bind, sat_getc. rewrite Hidx. unfold IIOD_PARSER_MAX_BUF_SIZE.
  destruct (Z.ltb_spec (Z.of_nat i) (128 - 1)); [| lia].
  apply sat_bind, (wp_recv _ _ _ _ _ _ _ _ (parser_buf c)); [done | by eexists | lia | lia | lia |].
  intros r n w' c' (Hn & Hl & Hsl & Hr) Hi' Ho' [= <-]. rewrite Hinp' in Hi', Hn, Hsl |- *. cbn [length] in Hn, Hsl.
  destruct n as [| [| n]]; [| | lia].
  - replace (_ || _)%bool with true by by destruct Hr as [-> | [-> _]]. specialize (Hsl ltac:(lia)). cbn [take list_inserts]. apply sat_ret. left. split; [done |]. split; [| unfold strictly_later, later in *; lia].
    exists i. assert (with_parser_buf (parser_buf c) c = c) as -> by by destruct c.
    split; [by apply (half_read_wire c a w) |]. rewrite Hi'. cbn [drop]. by rewrite <- Hinp', Hinp.
  - destruct Hr as [-> | (_ & ? & _)]; [| done]. cbn [take list_inserts drop] in *. rewrite Nat2Z.id. set (pb := <[i := x]> (parser_buf c)).
    change (Z.of_nat 1) with 1. change ((1 =? - EAGAIN) || (1 =? 0))%bool with false.
    change (NO_OS_IS_ERR_VALUE 1) with false. cbv iota.
    assert (length pb = length (parser_buf c)) as Hlp by apply length_insert.
    assert (take (S i) pb = take (S i) the_line) as Hpre'.
    { rewrite (take_S_r _ _ _ Hx). unfold pb. erewrite take_S_r by (apply list_lookup_insert_eq; lia).
      by rewrite take_insert_ge, Hpre by lia. }
    apply sat_bind, sat_getc. cbn [with_parser_buf parser_buf].
    replace (pb !! i) with (Some x) by (unfold pb; rewrite list_lookup_insert_eq by lia; done).
    apply sat_bind, sat_the; [done |]. intros ch [= <-].
    assert ((Z.of_nat i =? 0) && ((x =? 10) || (x =? 13)) = false)%bool as ->.
    { destruct the_line_shape as [_ (y & l & E & Hy)]. destruct i as [| i]; [| done].
      rewrite E in Hx. injection Hx as <-. destruct (Z.eqb_spec y 10), (Z.eqb_spec y 13); (done || lia). }
    apply sat_bind, sat_setc. rewrite wrap_small by ulia.
    pose proof (newline_last i x Hx) as Hlast. pose proof (half_read_wire _ _ _ w' Hh Ho') as Hh'.
    destruct (Z.eqb_spec x 10) as [E10 | E10].
    + assert (S i = length the_line) as Ei by by apply Hlast.
      apply sat_bind, (sat_store _ _ _ _ _ _ _ pb); [done | by eexists | lia | cbn [length]; lia |].
      intros c' [= <-]. apply sat_bind, sat_setc, sat_ret. right. split; [done |].
      split; [| unfold later in *; lia]. cbn [list_inserts].
      assert (length (<[Z.to_nat (Z.of_nat i + 1) := 0]> pb) = length (parser_buf c)) as Hlp2
        by by rewrite length_insert.
      split; [by apply (half_read_parser _ 0 c a w' Hh' Hlp2) |]. split.
      * cbn. replace (Z.to_nat (Z.of_nat i + 1)) with (S i) by lia.
        rewrite (insert_take_drop _ (S i)) by lia. rewrite Hpre', Ei, take_ge by lia. by apply c_str_app.
      * rewrite Hi', Ei, drop_all. done.
    + assert (S i < length the_line)%nat as Hlt by (assert (S i <> length the_line) by (intros E; apply E10, Hlast, E); lia).
      apply sat_ret. split; [| unfold later in *; lia].
      split; [apply (half_read_parser pb (Z.of_nat i + 1) c a w' Hh' Hlp); unfold IIOD_PARSER_MAX_BUF_SIZE; lia |].
      split; [cbn; lia | done].
Qed.

Lemma wp_read_line fuel c a w :
  st_reading c a w -> (length the_line < fuel)%nat ->
  wp (iiod_read_line fuel d) (advance st_reading st_line w) (c, (a, w)).
Proof using Hserve Hclient Hline Hnul Hlong.
  clear Hdue Hshot.  intros [i Hi] Hf.
  apply (sat_while (fun n _ s => let '(c, (a, w')) := s in
    exists i, st_reading_at i c a w' /\ later w' w /\ n = (length the_line - i)%nat))
    with (n := (length the_line - i)%nat); [| lia | exists i; split; [done |]; split; [unfold later; lia | done]].
  intros n [] [c1 [a1 w1]] (j & Hj & Hl & ->). eapply sat_mono; [by apply wp_read_char |].
  intros [[] | ret] [c2 [a2 w2]]; [| done]. intros [Hs Hl2].
  exists (length the_line - S j)%nat. destruct Hj as (_ & _ & Hlt & _). split; [lia |]. by exists (S j).
Qed.

(** The line was understood. *)
Definition st_parsed (c : iiod_conn_priv) (a : A) (w : wire) : Prop :=
  same c /\ cmd_data c = understood0 /\ res c = result0 /\ unset c /\ a = a0 /\
  inp w = (data ++ rest)%list /\ out w = out0 /\
  if decide (cd_cmd understood0 = IIOD_CMD_WRITE)
  then state c = IIOD_READING_WRITE_DATA /\ nb_buf c = Buff BPayload 0 (cd_bytes_count understood0)
  else state c = IIOD_RUNNING_CMD /\ nb_buf c = buff0.

Lemma wp_parsed fuel c a w :
  st_reading c a w -> (length the_line < fuel)%nat ->
  wp (state_reading_line long_bits fuel d) (advance st_reading st_parsed w) (c, (a, w)).
Proof using Hserve Hclient Hline Hnul Hlong.
  clear Hdue Hshot. intros Hr Hf. apply sat_bind. eapply sat_mono; [by apply wp_read_line |].
  intros ret [c1 [a1 w1]] [(-> & H1 & Hl) | (-> & (Hh & Hstr & Hinp) & Hl)]; [by apply sat_ret; left |].
  change (NO_OS_IS_ERR_VALUE 0) with false. cbv iota.
  destruct Hh as ([Hwf Hs] & Hst & Hn & Hres & Hc & Hy & -> & Ho).
  destruct (parse_print long_bits Hlong q comand_zero Hclient) as [r Hp].
  apply sat_bind, sat_bind, sat_getc, sat_bind, sat_the; [by unfold id; rewrite Hstr |].
  unfold id. rewrite Hstr, Hc. intros l [= <-]. fold the_line in Hp. rewrite Hp.
  apply sat_bind, sat_lift; [done | done |]. intros v [= <-]. apply sat_bind, sat_setc, sat_ret.
  change (NO_OS_IS_ERR_VALUE (fst (0, _))) with false. cbn [snd p_res]. fold understood0.
  pose proof (with_cmd_wf c1 understood0 Hwf (understood_wf q Hclient)) as Hwf'.
  apply sat_bind, sat_getc. cbn [with_cmd cmd_data]. unfold st_parsed.
  case_decide.
  - apply sat_bind, sat_setc, sat_bind, sat_setc, sat_ret. right. split; [done |]. split; [| done].
    split; [split; [wf | done] |]. done.
  - apply sat_bind, sat_setc, sat_ret. right. split; [done |]. split; [| done].
    split; [split; [wf | done] |]. done.
Qed.

Lemma wp_reading fuel c a w :
  st_reading c a w -> (length the_line < fuel)%nat ->
  wp (state_reading_line long_bits fuel d)
    (advance st_reading (fun c a w => st_data c a w \/ st_running c a w) w) (c, (a, w)).
Proof using Hserve Hclient Hline Hnul Hlong Hshot.
  clear Hdue. intros Hr Hf. eapply sat_mono; [by apply wp_parsed |]. unfold st_parsed.
  intros ret [c1 [a1 w1]] [(-> & H1 & Hl) | (-> & (Hs & Hc & Hres & Hy & -> & Hi & Ho & Hn) & Hl)]; [by left |].
  right. split; [done |]. split; [| done]. pose proof Hshot as Ht. unfold one_shot in Ht.
  case_decide as Ew; destruct Hn as [Hst Hn]; [left | right].
  - assert (cd_bytes_count understood0 = Z.of_nat (length data) /\
      Z.of_nat (length data) < payload_buf_len c0) as [Hb Hlt].
    { assert (exists k, k = q) as [k Ek] by eauto. unfold understood0 in *. rewrite <- Ek in *.
      destruct k as [| | | | | | | dev sel at_ | dev sel at_ n | | | | |]; try done; try (by destruct sel).
      destruct Ht as [-> Ht]. by split. }
    do 6 (split; [done |]). split; [done |]. split; [done |]. exists 0%nat.
    rewrite Hn, Hb. split; [done |]. split; [lia |]. done.
  - assert (data = []) as E.
    { assert (exists k, k = q) as [k Ek] by eauto. unfold understood0 in *. rewrite <- Ek in *.
      destruct k as [| | | | | | | dev sel at_ | dev sel at_ n | | | | dev [t |] |]; try done; try (by destruct sel).
      apply Ht. }
    rewrite E in Hi. do 8 (split; [done |]). split; [by rewrite Hn | done].
Qed.

(** *** A step of the connection *)

Definition at_stage (k : nat) : iiod_conn_priv -> A -> wire -> Prop :=
  match k with
  | 4 => st_reading
  | 3 => st_data
  | 2 => st_running
  | 1 => (st_result understood0)
  | _ => fun _ _ _ => False
  end%nat.

Lemma stage_not_done k c a w : at_stage k c a w -> state c <> IIOD_LINE_DONE.
Proof.
  destruct k as [| [| [| [| [| k]]]]]; [done | | | | | done]; cbn [at_stage].
  - intros (_ & -> & _). done.
  - intros (_ & -> & _). done.
  - intros (_ & -> & _). done.
  - intros (i & (_ & -> & _) & _). done.
Qed.

(** A stage, which [EXIT] does not get to the end of. *)
Definition waiting (k : nat) (c : iiod_conn_priv) (a : A) (w : wire) : Prop :=
  at_stage k c a w /\ (k = 1%nat -> q <> QExit).

(** What a state leads to: waiting, a later stage, or the end. *)
Definition stage_post (k : nat) (w0 : wire) (ret : Z) (s : st) : Prop :=
  let '(c, (a, w)) := s in
  ret = - EAGAIN /\ waiting k c a w /\ strictly_later w w0 \/
  ret = 0 /\ later w w0 /\ ((exists j, (j < k)%nat /\ waiting j c a w) \/ q <> QExit /\ st_done c a w) \/
  ret = - ENOTCONN /\ q = QExit /\ later w w0 /\ st_exit c a w.

Lemma advance_stage k w0 (P Q : iiod_conn_priv -> A -> wire -> Prop) c s :
  (forall c a w, P c a w -> waiting k c a w) ->
  (forall c a w, Q c a w -> (exists j, (j < k)%nat /\ waiting j c a w) \/ q <> QExit /\ st_done c a w) ->
  wp c (advance P Q w0) s -> wp c (stage_post k w0) s.
Proof.
  intros HP HQ H. eapply sat_mono; [exact H |]. intros ret [c' [a w]] [(? & ? & ?) | (? & ? & ?)].
  - left. auto.
  - right. left. auto.
Qed.

Lemma wp_stage k fuel c a w :
  waiting k c a w -> (length the_line < fuel)%nat ->
  wp (iiod_run_state long_bits fuel d) (stage_post k w) (c, (a, w)).
Proof using Hdue Hserve Hclient Hline Hnul Hlong Hshot Hxml Hxml31.
  intros [Hk Hx] Hf. apply sat_bind, sat_getc.
  destruct k as [| [| [| [| [| k]]]]]; [done | | | | | done]; cbn [at_stage] in Hk.
  - pose proof Hk as (_ & -> & _). apply (advance_stage _ _ (st_result understood0) st_done); [by intros; split | | by apply wp_writing].
    intros; right. split; [by apply Hx | done].
  - pose proof Hk as (_ & -> & _). eapply sat_mono; [by apply wp_running |].
    intros ret [c1 [a1 w1]]. case_decide as E.
    + intros (-> & ? & ?). right. right. done.
    + intros [(? & ? & ?) | (? & ? & ?)]; [by left | right; left]. split; [done |]. split; [done |].
      left. exists 1%nat. split; [lia |]. by split.
  - pose proof Hk as (_ & -> & _). apply (advance_stage _ _ st_data st_running); [by intros; split | | by apply wp_data].
    intros; left. exists 2%nat. split; [lia |]. by split.
  - assert (state c = IIOD_READING_LINE) as -> by by destruct Hk as (i & (_ & ? & _) & _).
    apply (advance_stage _ _ st_reading (fun c a w => st_data c a w \/ st_running c a w));
      [by intros; split | | by apply wp_reading].
    intros c1 a1 w1 [H | H]; left; [exists 3%nat | exists 2%nat]; (split; [lia | by split]).
Qed.

Definition final_ret : Z := if decide (q = QExit) then - ENOTCONN else 0.

(** A connection between two lines. *)
Definition idle (c : iiod_conn_priv) : Prop :=
  conn_wf c /\ used c = true /\ state c = IIOD_READING_LINE /\ nb_buf c = buff0 /\ res c = result0 /\
  cmd_data c = comand_zero /\ parser_idx c = 0.

Context (Hused : used c0 = true).

Definition st_end (c : iiod_conn_priv) (a : A) (w : wire) : Prop :=
  idle c /\ conn c = conn c0 /\ payload_buf_len c = payload_buf_len c0 /\ settled c /\
  a = snd due /\ inp w = rest /\ owes out0 (out w) [] (fst due).

Lemma exit_end c a w : st_exit c a w -> st_end (conn_clean_state c) a w.
Proof using Hused.
  intros ((Hwf & Hc & Hu & Hp) & Hy & ?). split; [| done].
  split; [destruct Hwf; by constructor |]. split; [cbn; congruence | done].
Qed.

(** *** Polling *)

Lemma waiting_used k c a w : waiting k c a w -> used c = true.
Proof using Hused.
  assert (same c -> used c = true) as H by (intros (_ & _ & -> & _); done).
  intros [Hk _]. destruct k as [| [| [| [| [| k]]]]]; [done | | | | | done]; cbn [at_stage] in Hk.
  - apply H, Hk.
  - apply H, Hk.
  - apply H, Hk.
  - destruct Hk as (i & (Hs & _) & _). by apply H.
Qed.

(** The application was not called yet, or has given its answer. *)
Definition before_or_after (s : A * wire) : Prop := s.1 = a0 \/ s.1 = snd due.

Lemma waiting_app k c a w : waiting k c a w -> before_or_after (a, w).
Proof.
  unfold before_or_after. cbn [fst]. intros [Hk _].
  destruct k as [| [| [| [| [| k]]]]]; [done | | | | | done]; cbn [at_stage] in Hk.
  - destruct Hk as (_ & _ & _ & _ & -> & _). by right.
  - destruct Hk as (_ & _ & _ & _ & _ & -> & _). by left.
  - destruct Hk as (_ & _ & _ & _ & _ & -> & _). by left.
  - destruct Hk as (i & (_ & _ & _ & _ & _ & _ & -> & _) & _). by left.
Qed.

(** The stages, and the turns for which the transport can still stall. *)
Definition on_way (k m : nat) (c : iiod_conn_priv) (s : A * wire) : Prop :=
  waiting k c s.1 s.2 /\ m = length (sched s.2).

(** The end of a command with result [r]. *)
Definition at_end (r ret : Z) (c : iiod_conn_priv) (s : A * wire) : Prop :=
  ret = r /\ st_end c s.1 s.2.

Lemma on_way_course fuel :
  (length the_line < fuel)%nat -> course long_bits d fuel on_way (at_end final_ret) before_or_after 5.
Proof using Hdue Hserve Hclient Hline Hnul Hlong Hshot Hxml Hxml31 Hused.
  intros Hf. split; intros k m c [a w] [Hk ->]; cbn [fst snd] in *.
  - split; [| split; [by eapply waiting_used | by eapply waiting_app]].
    destruct Hk as [Hk _]. destruct k as [| [| [| [| [| k]]]]]; (lia || done).
  - eapply sat_mono; [by apply (wp_stage k) |].
    intros ret [c2 [a2 w2]] [(-> & Hw2 & Hl2) | [(-> & Hl2 & Hnext) | (-> & Hq & Hl2 & He)]];
      unfold strictly_later, later, goes, on_way, at_end in *.
    + left. split; [done |]. exists k, (length (sched w2)). by split.
    + right. destruct Hnext as [(i & Hi & Hw2) | [Hq (Hs & Hst & He)]]; [left | right].
      * split; [done |]. split; [by apply (stage_not_done i c2 a2 w2), Hw2 |].
        exists i, (length (sched w2)). by split.
      * split; [by right |]. split; [done |]. split; [unfold final_ret; by rewrite decide_False |].
        apply exit_end. by split.
    + do 2 right. split; [by left |]. split; [done |]. split; [unfold final_ret; by rewrite decide_True |].
      by apply exit_end.
Qed.

(** A course from a connection that is idle, to the end of the command. *)
Lemma idle_reading w :
  idle c0 -> is_cyclic_buffer c0 = false -> inp w = (the_line ++ data ++ rest)%list -> out w = out0 ->
  st_reading c0 a0 w.
Proof using Hlong Hclient.
  clear Hxml Hxml31 Hline. intros (Hwf & Hu & Hst & Hn & Hr & Hcd & Hpi) Hy Hi Ho. exists 0%nat.
  split; [done |]. split; [done |]. split; [| done].
  destruct the_line_shape as [_ (x & l & -> & _)]. cbn [length]. lia.
Qed.

Lemma polled_to_end fuel I P stages r k m p id h s :
  course long_bits d fuel I (at_end r) P stages -> (stages <= fuel)%nat ->
  cells h !! p = Some d -> id <= IIOD_MAX_CONNECTIONS -> conns d !! Z.to_nat id = Some c0 -> I k m c0 s ->
  exists c' t left,
    polled long_bits P fuel (Some p) id (S m) (h, s) r
      (Heap (<[p := set_conns (<[Z.to_nat id := c']> (conns d)) d]> (cells h)) (next_block h) (oom h),
       (snd due, Wire rest (out0 ++ t) left)) /\
    delivered t (fst due) /\
    idle c' /\ conn c' = conn c0 /\ payload_buf_len c' = payload_buf_len c0 /\ settled c'.
Proof using.
  clear Hxml Hxml31 Hline Hdue Hshot Hnul Hserve. intros HI Hst Hp Hid Hc Hk. assert (set_conns (conns d) d = d) as Ed by by destruct d.
  destruct (poll_course long_bits d fuel I (at_end r) P stages HI Hst p id m k (S m) h (conns d) c0 s)
    as (ret & c' & [a' w'] & E & -> & He); try done; try lia; [by rewrite Ed |].
  destruct He as (Hid' & Hc' & Hp' & Hy' & Ha & Hi' & (t & Ho' & Ht)%owes_end). exists c', t, (sched w').
  split; [| done]. cbn [fst snd] in *. rewrite <- Ha, <- Hi', <- Ho'. by destruct w'.
Qed.

Lemma client_answered fuel p id h w :
  (128 <= fuel)%nat -> cells h !! p = Some d -> id <= IIOD_MAX_CONNECTIONS ->
  conns d !! Z.to_nat id = Some c0 -> idle c0 -> is_cyclic_buffer c0 = false ->
  inp w = (the_line ++ data ++ rest)%list -> out w = out0 ->
  exists c' t left,
    polled long_bits before_or_after fuel (Some p) id (S (length (sched w))) (h, (a0, w)) final_ret
      (Heap (<[p := set_conns (<[Z.to_nat id := c']> (conns d)) d]> (cells h)) (next_block h) (oom h),
       (snd due, Wire rest (out0 ++ t) left)) /\
    delivered t (fst due) /\
    idle c' /\ conn c' = conn c0 /\ payload_buf_len c' = payload_buf_len c0 /\ settled c'.
Proof using Hdue Hserve Hclient Hline Hnul Hlong Hshot Hxml Hxml31 Hused.
  intros Hf Hp Hid Hc Hi Hy Hin Ho.
  apply (polled_to_end fuel on_way _ 5 _ 4 (length (sched w))); try done; [apply on_way_course; lia | lia |].
  split; [| done]. by split; [apply idle_reading |].
Qed.
End session.

(** C7: whatever part of the bytes a transport moves at each call, none of them
    included, polling the connection ends, and the client that sends a command
    other than [READBUF] and [WRITEBUF], and the value of a [WRITE], while the
    connection has no cyclic buffer, gets the answer that the application gives:
    a number on a line of its own, and for what is read the bytes and a newline.
    Where the transport refuses a newline the client may not get that newline,
    but all the rest; where it refuses no single byte the client gets exactly
    the answer.  The answer of [EXIT] is empty.  The bytes after the command are
    left for the next one, the connection is ready for it, and the other
    connections are as they were. *)
Theorem iiod_client_answered {A} (ap : iiod_ctx -> application A) long_bits (d : iiod_desc (A * wire))
    fuel p id h c q data rest a w bytes a' :
  32 <= long_bits -> serves ap (ops d) ->
  xml_len d = Z.of_nat (length (xml d)) -> xml_len d < 2 ^ 31 -> (128 <= fuel)%nat ->
  cells h !! p = Some d -> 0 <= id < IIOD_MAX_CONNECTIONS -> conns d !! Z.to_nat id = Some c ->
  idle c -> is_cyclic_buffer c = false ->
  client_ok q -> one_shot (payload_buf_len c) q data ->
  (length (line (cmd_words q)) < 128)%nat -> 0 ∉ line (cmd_words q) ->
  inp w = (line (cmd_words q) ++ data ++ rest)%list ->
  answer (ap (IIOD_CTX d c)) (xml d) (payload_buf_len c) q data a = Done (bytes, a') ->
  exists c' t left,
    poll long_bits (S (length (sched w))) fuel (Some p) id (h, (a, w)) =
      Done (if decide (q = QExit) then - ENOTCONN else 0,
        (Heap (<[p := set_conns (<[Z.to_nat id := c']> (conns d)) d]> (cells h)) (next_block h) (oom h),
         (a', Wire rest (out w ++ t) left))) /\
    delivered t bytes /\ (None ∉ t -> t = Some <$> bytes) /\
    idle c' /\ conn c' = conn c /\ payload_buf_len c' = payload_buf_len c /\
    is_cyclic_buffer c' = (match q with QOpen _ _ _ cyclic => cyclic | _ => false end) /\
    mask c' = match q with QOpen _ _ m _ => m | _ => mask c end.
Proof.
  intros Hl Hserve Hx Hx31 Hf Hp Hid Hc Hi Hy Hq Hs Hlen H0 Hin Hdue.
  edestruct (client_answered ap long_bits d Hl Hserve Hx Hx31 c q data rest a (out w) (bytes, a') Hs Hdue Hq Hlen H0
    (proj1 (proj2 Hi)) fuel p id h w) as (c' & t & left & Hpoll & Ht & H'); try (done || lia).
  exists c', t, left. split; [by apply (polled_poll _ _ _ _ _ _ _ _ _ Hpoll) |].
  split; [done |]. split; [by apply delivered_whole | done].
Qed.

(** ** Example *)

Definition served_ops {A} (ap : iiod_ctx -> application A) : iiod_ops (A * wire) :=
  IiodOps (Some (fun _ bytes => on_wire (wire_send bytes))) (Some (fun _ len => on_wire (wire_recv len)))
    (Some (fun ctx dev n m c => on_app (app_open (ap ctx) dev n m c)))
    (Some (fun ctx dev => on_app (app_close (ap ctx) dev))) None None None None
    (Some (fun ctx dev attr len => on_app (app_read_attr (ap ctx) dev attr len)))
    (Some (fun ctx dev attr p len => on_app (app_write_attr (ap ctx) dev attr (take (Z.to_nat len) p))))
    (Some (fun ctx dev len => on_app (app_get_trigger (ap ctx) dev len)))
    (Some (fun ctx dev t len => on_app (app_set_trigger (ap ctx) dev t len)))
    (Some (fun ctx n => on_app (app_set_timeout (ap ctx) n)))
    (Some (fun ctx dev n => on_app (app_set_buffers_count (ap ctx) dev n))).

Lemma served_ops_serves {A} (ap : iiod_ctx -> application A) : serves ap (served_ops ap).
Proof. constructor; try done. by eexists. Qed.

(** One attribute, which can be written. *)
Definition demo_app (_ : iiod_ctx) : application (list Z) :=
  App _ (fun _ _ _ _ => mret 0) (fun _ => mret 0) (fun _ _ _ a => Done ((Z.of_nat (length a), a), a))
    (fun _ _ v _ => Done (Z.of_nat (length v), v)) (fun _ _ => mret (-22, [])) (fun _ _ _ => mret (-22))
    (fun _ => mret 0) (fun _ _ => mret 0).

Definition demo_conn : iiod_conn_priv := new_conn (ConnData None (replicate 16 0) 16).

Definition demo_desc : iiod_desc (list Z * wire) :=
  IiodDesc (demo_conn :: replicate 9 conn0) (served_ops demo_app) None (str "<context/>") 10 USE_UART.

(** A read through a transport that stalls and splits, and in the end refuses
    the last newline. *)
Definition demo_sched : list (option nat) :=
  (Some <$> [0; 1; 1; 0; 5; 0; 1; 1; 1; 1; 1; 1; 1; 1; 1; 1; 1; 1]%nat) ++ [None; Some 4%nat; None].

Lemma iiod_client_answered_witness :
  exists c' t left,
    poll 64 22 128 (Some 1%positive) 0
      (Heap {[1%positive := demo_desc]} 2 [], (str "42.5",
        Wire (str "READ adc gain" ++ [13; 10] ++ str "EXIT") [] demo_sched)) =
    Done (0, (Heap {[1%positive := set_conns (c' :: replicate 9 conn0) demo_desc]} 2 [],
      (str "42.5", Wire (str "EXIT") t left))) /\
    delivered t (str "4" ++ [10] ++ str "42.5" ++ [10]) /\ idle c'.
Proof.
  destruct (iiod_client_answered demo_app 64 demo_desc 128 1%positive 0
    (Heap {[1%positive := demo_desc]} 2 []) demo_conn (QRead (str "adc") SelDevice (Some (str "gain"))) []
    (str "EXIT") (str "42.5")
    (Wire (str "READ adc gain" ++ [13; 10] ++ str "EXIT") [] demo_sched)
    (str "4" ++ [10] ++ str "42.5" ++ [10]) (str "42.5")) as (c' & t & left & E & Ht & _ & Hi & _).
  - lia.
  - apply served_ops_serves.
  - done.
  - done.
  - lia.
  - done.
  - done.
  - done.
  - split; [by constructor | done].
  - done.
  - split; [by split; [done | repeat constructor] |]. split; [| done].
    split; [by split; [done | repeat constructor] | done].
  - done.
  - vm_compute. lia.
  - vm_compute. intros H. repeat (apply elem_of_cons in H as [H | H]; [discriminate H |]).
    by apply elem_of_nil in H.
  - done.
  - by vm_compute.
  - exists c', t, left. split; [exact E | split; [exact Ht | exact Hi]].
Defined.

(** What this client gets: the newline after the value is missing. *)
Example refused_newline_lost :
  match poll 64 22 128 (Some 1%positive) 0
      (Heap {[1%positive := demo_desc]} 2 [], (str "42.5",
        Wire (str "READ adc gain" ++ [13; 10]) [] demo_sched)) with
  | Done (_, (_, (_, w))) => omap id (out w) = (str "4" ++ str "42.5" ++ [10])%list
  | _ => False
  end.
Proof. by vm_compute. Qed.
