(* ===== verification/IiodTransfer.v ===== *)
(** * The data of a buffer over a connection: [iio/iiod.c], READBUF and WRITEBUF

    The two commands that move data in pieces of at most the payload's size.
    What the application's functions do with the pieces is a relation, because
    they may ask the daemon to wait, and fail between two pieces; polling sends
    or takes exactly the bytes of that relation. *)
From Stdlib Require Import String.
From S2P Require Import Prelude Util CString Iiod IiodConn IiodSafety IiodPoll IiodSession.

(** ** The application *)

Record buffer_app (A : Type) : Type := BufApp {
  bf_refill : list Z -> cmd A Z;
  bf_read : list Z -> Z -> cmd A (Z * list Z);
  bf_write : list Z -> list Z -> cmd A Z;
  bf_push : list Z -> cmd A Z
}.
Arguments BufApp {A} _ _ _ _.
Arguments bf_refill {A} _.
Arguments bf_read {A} _.
Arguments bf_write {A} _.
Arguments bf_push {A} _.

Record transfers {A} (bp : iiod_ctx -> buffer_app A) (o : iiod_ops (A * wire)) : Prop := Transfers {
  tr_refill : refill_buffer o = Some (fun ctx dev => on_app (bf_refill (bp ctx) dev));
  tr_read : read_buffer o = Some (fun ctx dev n => on_app (bf_read (bp ctx) dev n));
  tr_write : write_buffer o = Some (fun ctx dev bytes => on_app (bf_write (bp ctx) dev bytes));
  tr_push : push_buffer o = Some (fun ctx dev => on_app (bf_push (bp ctx) dev))
}.

(** ** What the two commands do *)

Section course.
  (** The states of the application in between satisfy [P]; [len] is the size
      of the payload. *)
  Context {A : Type} (P : A -> Prop) (bp : buffer_app A) (len : Z) (dev : list Z).

(** Reading [n] more bytes: the data, the result of the daemon's last step, the
    application's state then, and the number of calls.  The application may ask
    to wait; an error, or a piece without bytes, ends the command early. *)
Inductive drained : Z -> A -> list Z -> Z -> A -> nat -> Prop :=
  | dr_wait n a a1 data ret a2 k :
      bf_read bp dev (Z.min len n) a = Done ((- EAGAIN, []), a1) -> P a1 ->
      drained n a1 data ret a2 k -> drained n a data ret a2 (S k)
  | dr_error n a r a1 :
      bf_read bp dev (Z.min len n) a = Done ((r, []), a1) -> r < 0 -> r <> - EAGAIN ->
      drained n a [] r a1 1
  | dr_empty n a a1 : bf_read bp dev (Z.min len n) a = Done ((0, []), a1) -> drained n a [] 0 a1 1
  | dr_last n a bytes a1 :
      0 < n -> n = Z.of_nat (length bytes) -> n <= len ->
      bf_read bp dev (Z.min len n) a = Done ((n, bytes), a1) -> P a1 -> drained n a bytes 0 a1 1
  | dr_more n a r bytes a1 data ret a2 k :
      0 < r < n -> r = Z.of_nat (length bytes) -> r <= len ->
      bf_read bp dev (Z.min len n) a = Done ((r, bytes), a1) -> P a1 ->
      drained (n - r) a1 data ret a2 k -> drained n a (bytes ++ data) ret a2 (S k).

(** What the client of a [READBUF] of [n] bytes gets, if it opened the channels
    of [m]: the number and the mask, or the error of [refill_buffer], and in
    any case the data. *)
Inductive read_answer (m n : Z) (a : A) : list Z -> Z -> A -> nat -> Prop :=
  | ra_filled r a1 data ret a2 k :
      bf_refill bp dev a = Done (r, a1) -> 0 <= r -> P a1 -> drained n a1 data ret a2 k ->
      read_answer m n a (text n ++ print_hex8 m ++ [10] ++ data)%list ret a2 k
  | ra_failed r a1 data ret a2 k :
      bf_refill bp dev a = Done (r, a1) -> r < 0 -> P a1 -> drained n a1 data ret a2 k ->
      read_answer m n a (text r ++ data)%list ret a2 k.

(** Writing [todo]: the result, what is left of the data when the command ends
    before it was all taken, the application's state, and the number of calls. *)
Inductive filled : list Z -> A -> Z -> list Z -> A -> nat -> Prop :=
  | fi_wait todo a a1 ret left a2 k :
      bf_write bp dev (take (Z.to_nat len) todo) a = Done (- EAGAIN, a1) -> P a1 ->
      filled todo a1 ret left a2 k -> filled todo a ret left a2 (S k)
  | fi_error todo a r a1 :
      bf_write bp dev (take (Z.to_nat len) todo) a = Done (r, a1) -> r < 0 -> r <> - EAGAIN ->
      filled todo a r (drop (Z.to_nat len) todo) a1 1
  | fi_last todo a r a1 :
      Z.of_nat (length todo) <= len ->
      bf_write bp dev (take (Z.to_nat len) todo) a = Done (r, a1) -> 0 <= r -> filled todo a 0 [] a1 1
  | fi_more todo a r a1 ret left a2 k :
      0 < len < Z.of_nat (length todo) ->
      bf_write bp dev (take (Z.to_nat len) todo) a = Done (r, a1) -> 0 <= r -> P a1 ->
      filled (drop (Z.to_nat len) todo) a1 ret left a2 k -> filled todo a ret left a2 (S k).

(** What the client of a [WRITEBUF] gets that sends [todo] after it: the number
    of bytes at once, and 0 when all was taken and pushed. *)
Inductive write_answer (todo : list Z) (a : A) : list Z -> Z -> list Z -> A -> nat -> Prop :=
  | wa_failed ret left a1 k :
      filled todo a ret left a1 k -> ret < 0 ->
      write_answer todo a (text (Z.of_nat (length todo))) ret left a1 k
  | wa_refused r left a1 a2 k :
      filled todo a 0 left a1 k -> bf_push bp dev a1 = Done (r, a2) -> r < 0 ->
      write_answer todo a (text (Z.of_nat (length todo))) 0 left a2 k
  | wa_pushed r left a1 a2 k :
      filled todo a 0 left a1 k -> bf_push bp dev a1 = Done (r, a2) -> 0 <= r -> P a2 ->
      write_answer todo a (text (Z.of_nat (length todo)) ++ text 0)%list 0 left a2 k.
End course.

(** ** Reading *)

Section reading.
  Context {A : Type} (P : A -> Prop) (ap : iiod_ctx -> application A) (bp : iiod_ctx -> buffer_app A).
  Context (long_bits : Z) (d : iiod_desc (A * wire)).
  Context (Hlong : 32 <= long_bits) (Hserve : serves ap (ops d)) (Htr : transfers bp (ops d)).
  Context (Hphy : phy_type d <> USE_NETWORK).
  Context (c0 : iiod_conn_priv) (name : list Z) (n : Z) (rest : list Z) (a0 : A) (out0 : list (option Z)).
  Context (sent : list Z) (ret0 : Z) (a' : A) (calls : nat).
  Context (Hused : used c0 = true).

Local Abbreviation q := (QReadbuf name n).
Local Abbreviation dev := (dev_field name).
Local Abbreviation len := (payload_buf_len c0).
Local Abbreviation its := (bp (IIOD_CTX d c0)).
Local Abbreviation drained := (drained P its len dev).

(** What is still to be read after a piece. *)
Definition left_over (n : Z) (a : A) (data : list Z) (k : nat) : Prop :=
  n = 0 /\ data = [] /\ ret0 = 0 /\ a = a' /\ k = 0%nat \/ 0 < n /\ drained n a data ret0 a' k.

(** A connection that moves the data, before it reads a piece or sending one. *)
Definition moves (c : iiod_conn_priv) (a : A) (w : wire) : Prop :=
  same c0 c /\ state c = IIOD_RW_BUF /\ command c = IIOD_CMD_READBUF /\ cd_device (cmd_data c) = dev /\
  unset c0 c /\ inp w = rest /\ P a.

Definition st_read (m : nat) (c : iiod_conn_priv) (a : A) (w : wire) : Prop :=
  moves c a w /\ b_len (nb_buf c) = 0 /\
  exists data k, owes out0 (out w) data sent /\ m = (length (sched w) + k)%nat /\
    drained (cd_bytes_count (cmd_data c)) a data ret0 a' k.

Definition st_send (m : nat) (c : iiod_conn_priv) (a : A) (w : wire) : Prop :=
  moves c a w /\ b_buf (nb_buf c) = BPayload /\ within d (nb_buf c) c /\ b_idx (nb_buf c) < b_len (nb_buf c) /\
  b_len (nb_buf c) <= cd_bytes_count (cmd_data c) /\
  exists data k, owes out0 (out w) (unsent (payload c) (nb_buf c) ++ data) sent /\
    m = (length (sched w) + S k)%nat /\
    left_over (cd_bytes_count (cmd_data c) - b_len (nb_buf c)) a data k.

(** The data was sent, or the application has failed. *)
Definition st_over (c : iiod_conn_priv) (a : A) (w : wire) : Prop :=
  same c0 c /\ unset c0 c /\ inp w = rest /\ a = a' /\ owes out0 (out w) [] sent.

Local Ltac wf := match goal with H : conn_wf _ |- conn_wf _ => destruct H; by constructor end.

(** The daemon waits, and goes on with less to do; or it is over. *)
Definition moved (m : nat) (ret : Z) (s : iiod_conn_priv * (A * wire)) : Prop :=
  let '(c, (a, w)) := s in
  ret = - EAGAIN /\ (exists i, (i < m)%nat /\ (st_read i c a w \/ st_send i c a w)) \/
  ret <> - EAGAIN /\ ret <= 0 /\ ret = ret0 /\ st_over c a w.

Lemma wp_send_piece m c a w :
  st_send m c a w ->
  wp (ret ← rw_iiod_buff d NbBuf IIOD_WR;
      if NO_OS_IS_ERR_VALUE ret then mret ret else _ ← setc chunk_done; again_or_done)
    (moved m) (c, (a, w)).
Proof using Hserve.
  intros ((Hs & Hst & Hc & Hdv & Hu & Hi & HP) & Hb & Hin & Hpos & Hle & data & k & Ho & -> & Hleft).
  pose proof Hs as [Hwf Hs']. pose proof (wf_bytes_count c Hwf) as Hbc. pose proof Hin as (Hidx & _).
  assert (forall i w', inp w' = inp w -> moves (with_nb (Buff (b_buf (nb_buf c)) i (b_len (nb_buf c))) c) a w') as Hm.
  { intros i w' Hi'. split; [split; [wf | done] |]. do 3 (split; [done |]). split; [done |]. split; [congruence | done]. }
  apply sat_bind, sat_bind, (wp_send_data ap d Hserve NbBuf _ (payload c)); cbn [buff_of with_buff];
    [done | done | by rewrite Hb | done | |].
  - intros i w' Hli Hl Hi' Ho'. apply sat_ret, sat_ret. left. split; [done |].
    exists (length (sched w') + S k)%nat. unfold strictly_later in Hl. split; [lia |]. right.
    split; [by apply Hm |]. split; [done |]. split; [by apply within_idx; [| lia] |]. split; [cbn; lia |].
    split; [done |]. exists data, k. cbn [with_nb payload nb_buf]. split; [| done].
    by eapply owes_sends, sends_app.
  - intros w' Hl Hi' Ho'. apply sat_ret, sat_bind, sat_setc, sat_bind, sat_getc, sat_ret. unfold later in Hl.
    cbn [chunk_done set_nb_len with_nb with_cmd cmd_data set_bytes_count cd_bytes_count nb_buf b_len].
    rewrite wrap_small by ulia. set (c1 := chunk_done _).
    assert (same c0 c1) as Hs1.
    { split; [| apply Hs']. apply chunk_done_wf. wf. }
    pose proof (owes_sends _ _ _ _ _ _ Ho (sends_app _ _ data _ _ Ho')) as Ho2. cbn [app] in Ho2.
    destruct Hleft as [(H0 & -> & Hr & Ha & ->) | [Hgt Hdr]].
    + rewrite H0. right. split; [done |]. split; [done |]. split; [done |]. split; [done |]. split; [done |].
      split; [congruence |]. by split.
    + destruct (truthy _) eqn:Et; [| apply truthy_false in Et; lia]. left. split; [done |].
      exists (length (sched w') + k)%nat. split; [lia |]. left. split; [| split; [done |]].
      * split; [done |]. do 3 (split; [done |]). split; [done |]. split; [congruence | done].
      * exists data, k. split; [done |]. split; [done |].
        unfold c1. cbn [chunk_done set_nb_len with_nb with_cmd cmd_data set_bytes_count cd_bytes_count nb_buf b_len].
        by rewrite wrap_small by ulia.
Qed.

(** One call of the application: it has nothing yet, or has failed; or it has no
    more; or there is a piece to send. *)
Definition called (m : nat) (ret : Z) (s : iiod_conn_priv * (A * wire)) : Prop :=
  let '(c, (a, w)) := s in
  ret < 0 /\ moved m ret s \/
  ret = 0 /\ (0 = ret0 /\ st_over c a w /\ b_len (nb_buf c) <= b_idx (nb_buf c) \/ st_send m c a w).

Lemma wp_store_piece c a w bytes ret (Q : Z -> iiod_conn_priv * (A * wire) -> Prop) :
  conn_wf c -> Z.of_nat (length bytes) <= payload_buf_len c ->
  (forall p, length p = length (payload c) -> take (length bytes) p = bytes -> Q ret (with_payload p c, (a, w))) ->
  wp (_ ← store_bytes d BPayload 0 bytes; mret ret) Q (c, (a, w)).
Proof using.
  intros Hwf Hb HQ. pose proof (wf_payload c Hwf) as Hlen.
  apply sat_bind, (sat_store _ _ _ _ _ _ _ (payload c)); [done | by eexists | done | lia |].
  intros c' [= <-]. apply sat_ret, HQ; [apply length_inserts |].
  change (Z.to_nat 0) with 0%nat. rewrite list_inserts_start by lia. by rewrite take_app_length.
Qed.

Lemma wp_read_chunk m c a w :
  st_read m c a w -> wp (read_chunk d) (called m) (c, (a, w)).
Proof using Hserve Htr.
  intros (Hm & H0 & data & k & Ho & -> & Hdr). pose proof Hm as ([Hwf (Hs1 & Hs2 & Hpl)] & Hst & Hc & Hdv & Hu & Hi & HP).
  destruct (chunk_min d c Hwf) as (Hck & Hckl & Hcku). pose proof (wf_bytes_count c Hwf) as Hbc.
  assert (forall p b, length p = length (payload c) -> same c0 (with_nb b (with_payload p (nb_payload c)))) as Hsame.
  { intros p b Hp. split; [| done]. pose proof (with_payload_wf c p Hwf Hp). wf. }
  assert (forall p b a1, length p = length (payload c) -> P a1 ->
    moves (with_nb b (with_payload p (nb_payload c))) a1 w) as Hmv.
  { intros p b a1 Hp Ha1. split; [by apply Hsame |]. done. }
  assert (forall ret bytes a1,
    bf_read its dev (Z.min len (cd_bytes_count (cmd_data c))) a = Done ((ret, bytes), a1) ->
    Z.of_nat (length bytes) <= len ->
    (forall p, length p = length (payload c) -> take (length bytes) p = bytes ->
      if NO_OS_IS_ERR_VALUE ret then called (length (sched w) + k) ret (with_payload p (nb_payload c), (a1, w))
      else called (length (sched w) + k) 0
        (with_nb (Buff BPayload 0 (u32 ret)) (with_payload p (nb_payload c)), (a1, w))) ->
    wp (read_chunk d) (called (length (sched w) + k)) (c, (a, w))) as Hcall.
  { intros ret bytes a1 Hrun Hb HQ. apply sat_bind, sat_getc, sat_bind, sat_getc. unfold id. rewrite H0.
    change (0 =? 0) with true. cbv iota. apply sat_bind, sat_setc, sat_bind, sat_bind.
    eapply wp_call; [apply (tr_read _ _ Htr) | |].
    - apply on_app_run. change (chunk (nb_payload c)) with (chunk c). unfold device.
      replace (IIOD_CTX d c) with (IIOD_CTX d c0) by (unfold IIOD_CTX; by rewrite Hs1).
      rewrite Hcku, Hck, Hpl, Hdv. exact Hrun.
    - apply wp_store_piece; [wf | cbn; lia |]. intros p Hp Htk. specialize (HQ p Hp Htk). cbn [fst].
      destruct (NO_OS_IS_ERR_VALUE ret); [by apply sat_ret | by apply sat_bind, sat_setc, sat_ret]. }
  assert (forall r bytes a1 data' k', 0 < r <= cd_bytes_count (cmd_data c) -> r = Z.of_nat (length bytes) -> r <= len ->
    bf_read its dev (Z.min len (cd_bytes_count (cmd_data c))) a = Done ((r, bytes), a1) -> P a1 ->
    data = (bytes ++ data')%list -> k = S k' -> left_over (cd_bytes_count (cmd_data c) - r) a1 data' k' ->
    wp (read_chunk d) (called (length (sched w) + k)) (c, (a, w))) as Hpiece.
  { intros r bytes a1 data' k' Hr -> Hle Hrun HP1 Hd Hk Hl. pose proof (wf_payload_len c Hwf).
    eapply Hcall; [exact Hrun | done |]. intros p Hp Htk. unfold NO_OS_IS_ERR_VALUE.
    destruct (Z.ltb_spec (Z.of_nat (length bytes)) 0); [lia |]. rewrite wrap_small by ulia.
    right. split; [done |]. right. split; [by apply Hmv |]. split; [done |].
    cbn [with_nb nb_buf b_len]. split; [unfold within; cbn; lia |]. split; [cbn; lia |]. split; [cbn; lia |].
    exists data', k'. split; [| by rewrite Hk]. cbn [with_nb with_payload payload nb_buf]. unfold unsent.
    cbn [b_idx b_len]. change (Z.to_nat 0) with 0%nat. rewrite drop_0, Nat2Z.id, Htk. by rewrite <- Hd. }
  inversion Hdr as [m1 x a1 dt rt a2 k1 Hrun HP1 Hrest | m1 x r a1 Hrun Hneg Hne | m1 x a1 Hrun
    | m1 x bytes a1 Hpos Hlen Hle Hrun HP1 | m1 x r bytes a1 dt rt a2 k1 Hpos Hlen Hle Hrun HP1 Hrest]; subst.
  - eapply Hcall; [exact Hrun | cbn; lia |]. intros p Hp _. change (NO_OS_IS_ERR_VALUE (- EAGAIN)) with true.
    left. split; [done |]. left. split; [done |]. exists (length (sched w) + k1)%nat. split; [lia |]. left.
    split; [by apply (Hmv p (nb_buf (nb_payload c))) |]. split; [done |]. by exists data, k1.
  - eapply Hcall; [exact Hrun | cbn; lia |]. intros p Hp _. unfold NO_OS_IS_ERR_VALUE.
    destruct (Z.ltb_spec ret0 0); [| lia]. left. split; [done |]. right. split; [done |]. split; [lia |].
    split; [done |]. split; [by apply (Hsame p (nb_buf (nb_payload c))) |]. done.
  - eapply Hcall; [exact Hrun | cbn; lia |]. intros p Hp _. change (NO_OS_IS_ERR_VALUE 0) with false.
    right. split; [done |]. left. split; [done |]. split; [| done]. split; [by apply Hsame | done].
  - eapply (Hpiece _ data a' [] 0%nat); [| done | done | exact Hrun | done | by rewrite app_nil_r | done |]; [lia |].
    left. split; [lia | done].
  - eapply (Hpiece _ bytes a1 dt k1); [| done | done | exact Hrun | done | done | done |]; [lia |].
    right. split; [lia | done].
Qed.

Lemma wp_do_read m c a w :
  st_read m c a w \/ st_send m c a w -> wp (do_read_buff d) (moved m) (c, (a, w)).
Proof using Hserve Htr Hphy.
  intros H. assert (wp (read_chunk d) (called m) (c, (a, w))) as Hcall.
  { destruct H as [H | H]; [by apply wp_read_chunk |].
    apply sat_bind, sat_getc, sat_bind, sat_getc. unfold id.
    pose proof H as (_ & _ & (? & _) & ? & _). destruct (Z.eqb_spec (b_len (nb_buf c)) 0); [lia |].
    apply sat_ret. right. split; [done |]. by right. }
  assert (wp (ret ← read_chunk d;
      if NO_OS_IS_ERR_VALUE ret then mret ret else
      c ← getc id;
      if b_idx (nb_buf c) <? b_len (nb_buf c) then
        ret ← rw_iiod_buff d NbBuf IIOD_WR;
        if NO_OS_IS_ERR_VALUE ret then mret ret else
        _ ← setc chunk_done;
        again_or_done
      else mret 0) (moved m) (c, (a, w))) as Hrun; [| unfold do_read_buff; by destruct (phy_type d)].
  apply sat_bind. eapply sat_mono; [exact Hcall |].
  intros ret [c1 [a1 w1]] [[Hneg Hm] | (-> & [(Hr & Ho & Hge) | Hs])].
  - unfold NO_OS_IS_ERR_VALUE. destruct (Z.ltb_spec ret 0); [by apply sat_ret | lia].
  - change (NO_OS_IS_ERR_VALUE 0) with false. apply sat_bind, sat_getc. unfold id.
    destruct (Z.ltb_spec (b_idx (nb_buf c1)) (b_len (nb_buf c1))); [lia |]. apply sat_ret. by right.
  - change (NO_OS_IS_ERR_VALUE 0) with false. apply sat_bind, sat_getc. unfold id.
    pose proof Hs as (_ & _ & _ & Hlt & _).
    destruct (Z.ltb_spec (b_idx (nb_buf c1)) (b_len (nb_buf c1))); [by apply wp_send_piece | lia].
Qed.

(** *** The command *)

Context (header data : list Z) (r : Z) (a1 : A).
Context (Hrefill : bf_refill its dev a0 = Done (r, a1)) (Hsent : sent = (header ++ data)%list).
Context (Hheader : header = (if r <? 0 then text r else text n ++ print_hex8 (mask c0) ++ [10])%list).
Context (Hdrain : drained n a1 data ret0 a' calls) (HP0 : P a0) (HP1 : P a1).

Local Abbreviation st_parsed := (st_parsed c0 q [] rest a0 out0).
Local Abbreviation st_header := (st_result d c0 q rest out0 (header, a1) (understood0 q)).

Lemma wp_readbuf_running c w :
  st_parsed c a0 w -> wp (state_running_cmd d) (fun ret s => let '(c, (a, w')) := s in
    ret = 0 /\ w' = w /\ st_header c a w') (c, (a0, w)).
Proof using Htr Hrefill Hheader.
  intros (Hs & Hc & Hr & Hu & _ & Hi & Ho & Hst & Hn). pose proof Hs as [Hwf Hs'].
  assert (settled c0 q c) as Hset by by apply unset_settled.
  assert (understood q comand_zero = cmd_data c) as Hq by done.
  apply sat_bind, sat_bind, sat_getc. rewrite Hc. cbn [understood cd_cmd]. cbv iota.
  unfold run_readbuf. apply sat_bind, sat_getc, sat_bind, sat_getc, sat_bind, sat_setc, sat_bind.
  eapply sat_done.
  { eapply call_app; [apply (tr_refill _ _ Htr) | done |].
    cbn [set_write_val_of with_res cmd_data]. rewrite Hc, (ctx_same d c0 c Hs). exact Hrefill. }
  destruct (Z.ltb_spec r 0) as [Hneg | Hpos].
  - assert (NO_OS_IS_ERR_VALUE r = true) as -> by (unfold NO_OS_IS_ERR_VALUE; by destruct (Z.ltb_spec r 0); [| lia]).
    apply sat_bind, sat_setc, sat_ret. change (NO_OS_IS_ERR_VALUE 0) with false. apply sat_bind, sat_setc, sat_ret.
    split; [done |]. split; [done |]. apply to_result; try done; [split; [wf | done] | cbn; by rewrite Hn | | ].
    + cbn [fst]. rewrite Hheader. unfold block_left. cbn. by rewrite Hr, text_wrap, app_nil_r.
    + left. cbn. by rewrite Hr.
  - assert (NO_OS_IS_ERR_VALUE r = false) as -> by (unfold NO_OS_IS_ERR_VALUE; by destruct (Z.ltb_spec r 0); [lia |]).
    pose proof (wf_mask c Hwf) as Hm. pose proof (length_print_hex8 (mask c) Hm) as Hl.
    pose proof (wf_buf_mask c Hwf) as Hbm.
    apply sat_bind, sat_setc, sat_bind, sat_getc. cbn [set_val_of set_write_val_of with_res mask].
    apply sat_bind, (sat_store _ _ _ _ _ _ _ (buf_mask c)); [done | by eexists | done | |].
    { rewrite length_app, Hl, Hbm. cbn. lia. }
    intros c' [= <-]. apply sat_bind, sat_setc, sat_ret. change (NO_OS_IS_ERR_VALUE 0) with false.
    apply sat_bind, sat_setc, sat_ret. split; [done |]. split; [done |].
    set (bm := list_inserts _ _ _).
    assert (take 8 bm = print_hex8 (mask c)) as Htk.
    { unfold bm. change (Z.to_nat 0) with 0%nat.
      rewrite list_inserts_start by (rewrite length_app, Hl, Hbm; cbn; lia).
      rewrite <- app_assoc, take_app_le by lia. by rewrite take_ge by lia. }
    apply to_result; try done.
    + split; [| done]. destruct Hwf; constructor; try done. cbn. unfold bm. by rewrite length_inserts.
    + cbn. by rewrite Hn.
    + cbn [fst]. rewrite Hheader. cbn -[pending print_hex8]. rewrite Hr. unfold block_left. cbn -[pending print_hex8].
      rewrite Hl. change (u32 (Z.of_nat 8)) with 8. unfold pending, unsent. cbn [b_idx b_len].
      change (0 <? 8) with true. change (Z.to_nat 0) with 0%nat. change (Z.to_nat 8) with 8%nat. cbv iota.
      rewrite drop_0, Htk, (proj2 Hu), Hc. done.
    + right. split; [done |]. rewrite Hl. change (u32 (Z.of_nat 8)) with 8. unfold within. cbn. rewrite Hr. cbn. lia.
Qed.

(** *** The course of the command *)

Definition read_course (k m : nat) (c : iiod_conn_priv) (s : A * wire) : Prop :=
  let w := s.2 in
  match k with
  | 3 => st_reading c0 q [] rest a0 out0 c s.1 w /\ m = (length (sched w) + calls)%nat
  | 2 => st_parsed c s.1 w /\ m = (length (sched w) + calls)%nat
  | 1 => st_header c s.1 w /\ m = (length (sched w) + calls)%nat
  | 0 => st_read m c s.1 w \/ st_send m c s.1 w
  | _ => False
  end%nat.

Local Abbreviation read_end := (at_end c0 q rest out0 (sent, a') ret0).

Lemma st_over_end c a w : st_over c a w -> st_end c0 q rest out0 (sent, a') (conn_clean_state c) a w.
Proof using Hused.
  intros ((Hwf & Hc & Hu & Hp) & Hset & Hi & Ha & Ho).
  split; [| split; [done | split; [done | split; [by apply (unset_settled c0 q c) |]]]].
  - split; [destruct Hwf; by constructor |]. split; [cbn; congruence | done].
  - done.
Qed.

Lemma readbuf_data_stage fuel m c a w :
  st_read m c a w \/ st_send m c a w ->
  wp (iiod_run_state long_bits fuel d) (goes read_course read_end 0 m) (c, (a, w)).
Proof using Hserve Htr Hphy Hused.
  intros H. assert (state c = IIOD_RW_BUF /\ command c = IIOD_CMD_READBUF) as [Hst Hc]
    by (destruct H as [((_ & ? & ? & _) & _) | ((_ & ? & ? & _) & _)]; done).
  apply sat_bind, sat_getc. rewrite Hst. apply sat_bind, sat_getc. unfold id. unfold command in Hc.
  rewrite decide_True by done. apply sat_bind. eapply sat_mono; [by apply (wp_do_read m) |].
  intros ret [c1 [a2 w1]] [(-> & i & Hi & H1) | (Hne & Hle & Hr & Ho)].
  - apply sat_ret. left. split; [done |]. by exists 0%nat, i.
  - unfold NO_OS_IS_ERR_VALUE. destruct (Z.ltb_spec ret 0).
    + apply sat_ret. do 2 right. split; [by left |]. split; [done |]. split; [done |]. by apply st_over_end.
    + apply sat_bind, sat_setc, sat_ret. do 2 right. split; [by right |]. split; [done |]. split; [cbn; lia |].
      apply st_over_end. destruct Ho as ([Hwf Hs] & Ho). split; [split; [wf | done] | done].
Qed.

Lemma readbuf_header_stage fuel c a w :
  st_header c a w ->
  wp (iiod_run_state long_bits fuel d) (goes read_course read_end 1 (length (sched w) + calls)) (c, (a, w)).
Proof using Hserve Hsent Hdrain HP1.
  intros H. apply sat_bind, sat_getc. assert (state c = IIOD_WRITING_CMD_RESULT) as -> by apply H.
  eapply sat_mono; [by apply (wp_result_sent ap) |].
  intros ret [c1 [a2 w1]] [(-> & H1 & Hl) | (-> & (c2 & -> & H2 & Hv) & Hl)]; unfold strictly_later, later in Hl.
  - left. split; [done |]. exists 1%nat, (length (sched w1) + calls)%nat. split; [lia |]. done.
  - right. left. destruct H2 as (Hs & Hst & Hc & Hset & Ha & Hi & Ho & _). rewrite Hv in Ho.
    unfold after_result. rewrite Hc, decide_True by by left. split; [done |]. split; [done |].
    exists 0%nat, (length (sched w1) + calls)%nat. split; [lia |]. split; [lia |]. left.
    destruct Hs as [Hwf Hs']. split; [| split; [done |]].
    + split; [split; [wf | done] |]. split; [done |]. unfold command. cbn [with_state with_nb cmd_data]. rewrite Hc.
      split; [done |]. split; [done |]. split; [exact Hset |]. split; [done |]. cbn [fst snd] in *. by rewrite Ha.
    + exists data, calls. cbn [with_state with_nb cmd_data fst snd] in *. rewrite Hc, Ha.
      split; [by rewrite Hsent; apply owes_more |]. done.
Qed.

Context (Hclient : client_ok q) (Hline : (length (the_line q) < 128)%nat) (Hnul : 0 ∉ the_line q).

Lemma read_course_ok fuel :
  (length (the_line q) < fuel)%nat -> course long_bits d fuel read_course read_end (fun s => P s.1) 4.
Proof using Hlong Hserve Htr Hphy Hused Hrefill Hsent Hheader Hdrain HP0 HP1 Hclient Hline Hnul.
  intros Hf. split; intros k m c [a w].
  - destruct k as [| [| [| [| k]]]]; cbn [read_course fst snd].
    + intros [((Hs & _ & _ & _ & _ & _ & HP) & _) | ((Hs & _ & _ & _ & _ & _ & HP) & _)];
        (split; [lia |]; split; [| done]); destruct Hs as (_ & _ & -> & _); done.
    + intros [((_ & _ & -> & _) & _ & _ & _ & -> & _) ->]. split; [lia | done].
    + intros [((_ & _ & -> & _) & _ & _ & _ & -> & _) ->]. split; [lia | done].
    + intros [(i & (((_ & _ & -> & _) & _ & _ & _ & _ & _ & -> & _) & _)) ->]. split; [lia | done].
    + done.
  - destruct k as [| [| [| [| k]]]]; cbn [read_course fst snd].
    + apply readbuf_data_stage.
    + intros [H ->]. by apply readbuf_header_stage.
    + intros [H ->]. apply sat_bind, sat_getc. pose proof H as (_ & _ & _ & _ & -> & _ & _ & Hst & _).
      cbn in Hst. rewrite Hst. eapply sat_mono; [by apply wp_readbuf_running |].
      intros ret [c1 [a2 w1]] (-> & -> & H1). right. left. split; [done |].
      split; [destruct H1 as (_ & -> & _); done |]. exists 1%nat, (length (sched w) + calls)%nat. split; [lia |]. done.
    + intros [H ->]. apply sat_bind, sat_getc. assert (state c = IIOD_READING_LINE) as -> by by destruct H as (i & (_ & ? & _) & _).
      eapply sat_mono; [by apply (wp_parsed ap) |].
      intros ret [c1 [a2 w1]] [(-> & H1 & Hl) | (-> & H1 & Hl)]; unfold strictly_later, later in Hl.
      * left. split; [done |]. exists 3%nat, (length (sched w1) + calls)%nat. split; [lia |]. done.
      * right. left. split; [done |]. split; [by destruct H1 as (_ & _ & _ & _ & _ & _ & _ & -> & _) |].
        exists 2%nat, (length (sched w1) + calls)%nat. split; [lia |]. split; [lia |]. done.
    + done.
Qed.
End reading.

(** The header of an answer, and the rest of it. *)
Lemma read_answer_inv {A} (P : A -> Prop) bp len dev m n a bytes ret a' k :
  read_answer P bp len dev m n a bytes ret a' k ->
  exists r a1 data, bf_refill bp dev a = Done (r, a1) /\ P a1 /\ drained P bp len dev n a1 data ret a' k /\
    bytes = ((if r <? 0 then text r else text n ++ print_hex8 m ++ [10]) ++ data)%list.
Proof.
  intros [r a1 data ret1 a2 k1 Hr Hle HP Hd | r a1 data ret1 a2 k1 Hr Hlt HP Hd]; exists r, a1, data;
    (split; [done |]; split; [done |]; split; [done |]); destruct (Z.ltb_spec r 0); try lia; [| done].
  by rewrite <- !app_assoc.
Qed.

Lemma readbuf_answered {A} P (ap : iiod_ctx -> application A) bp long_bits (d : iiod_desc (A * wire))
    fuel p id h c dev n rest a w bytes ret a' k :
  32 <= long_bits -> serves ap (ops d) -> transfers bp (ops d) -> phy_type d <> USE_NETWORK -> (128 <= fuel)%nat ->
  cells h !! p = Some d -> id <= IIOD_MAX_CONNECTIONS -> conns d !! Z.to_nat id = Some c ->
  idle c -> is_cyclic_buffer c = false ->
  let q := QReadbuf dev n in
  client_ok q -> (length (line (cmd_words q)) < 128)%nat -> 0 ∉ line (cmd_words q) ->
  inp w = (line (cmd_words q) ++ rest)%list -> P a ->
  read_answer P (bp (IIOD_CTX d c)) (payload_buf_len c) (dev_field dev) (mask c) n a bytes ret a' k ->
  exists c' t left,
    polled long_bits (fun s => P s.1) fuel (Some p) id (S (length (sched w) + k)) (h, (a, w)) ret
      (Heap (<[p := set_conns (<[Z.to_nat id := c']> (conns d)) d]> (cells h)) (next_block h) (oom h),
       (a', Wire rest (out w ++ t) left)) /\
    delivered t bytes /\
    idle c' /\ conn c' = conn c /\ payload_buf_len c' = payload_buf_len c /\ settled c q c'.
Proof.
  intros Hl Hserve Htr Hphy Hf Hp Hid Hc Hi Hy q Hq Hlen H0 Hin HP (r & a1 & data & Hr & HP1 & Hd & Hb)%read_answer_inv.
  pose proof (read_course_ok P ap bp long_bits d Hl Hserve Htr Hphy c dev n rest a (out w) bytes ret a' k
    (proj1 (proj2 Hi)) _ data r a1 Hr Hb eq_refl Hd HP HP1 Hq Hlen H0 fuel (Nat.lt_le_trans _ _ _ Hlen Hf)) as Hcourse.
  apply (polled_to_end _ _ _ _ _ _ _ fuel _ _ _ _ 3 _ p id h (a, w) Hcourse); [lia | done | done | done |].
  split; [| done]. by apply (idle_reading long_bits Hl).
Qed.

(** ** Writing *)

Section writing.
  Context {A : Type} (P : A -> Prop) (ap : iiod_ctx -> application A) (bp : iiod_ctx -> buffer_app A).
  Context (long_bits : Z) (d : iiod_desc (A * wire)).
  Context (Hserve : serves ap (ops d)) (Htr : transfers bp (ops d)).
  Context (c0 : iiod_conn_priv) (name : list Z) (todo rest : list Z) (a0 : A) (out0 : list (option Z)).
  Context (sent : list Z) (ret0 fret : Z) (left : list Z) (a1 a' : A) (calls : nat).
  Context (Hused : used c0 = true).

Local Abbreviation n := (Z.of_nat (length todo)).
Local Abbreviation q := (QWritebuf name n).
Local Abbreviation dev := (dev_field name).
Local Abbreviation len := (payload_buf_len c0).
Local Abbreviation its := (bp (IIOD_CTX d c0)).
Local Abbreviation filled := (filled P its len dev).

Local Ltac wf := match goal with H : conn_wf _ |- conn_wf _ => destruct H; by constructor end.

Definition takes (c : iiod_conn_priv) (w : wire) : Prop :=
  same c0 c /\ state c = IIOD_RW_BUF /\ command c = IIOD_CMD_WRITEBUF /\ cd_device (cmd_data c) = dev /\
  unset c0 c /\ owes out0 (out w) [] (text n).

(** A connection with [more] to take, the first piece of which is in part in the
    payload. *)
Definition st_fill (more : list Z) (c : iiod_conn_priv) (w : wire) : Prop :=
  takes c w /\ cd_bytes_count (cmd_data c) = Z.of_nat (length more) /\
  let piece := take (Z.to_nat len) more in
  exists i, nb_buf c = Buff BPayload (Z.of_nat i) (Z.of_nat (length piece)) /\ (i <= length piece)%nat /\
    take i (payload c) = take i piece /\
    inp w = (drop i piece ++ drop (Z.to_nat len) more ++ rest)%list.

Definition st_write (m : nat) (c : iiod_conn_priv) (a : A) (w : wire) : Prop :=
  P a /\ exists more k, m = (length (sched w) + k)%nat /\ filled more a fret left a1 k /\
    (st_fill more c w \/
     takes c w /\ cd_bytes_count (cmd_data c) = Z.of_nat (length more) /\ b_len (nb_buf c) = 0 /\
     inp w = (more ++ rest)%list).

(** All was taken. *)
Definition st_full (c : iiod_conn_priv) (a : A) (w : wire) : Prop :=
  takes c w /\ cd_bytes_count (cmd_data c) = 0 /\ b_len (nb_buf c) = 0 /\ inp w = (left ++ rest)%list /\
  a = a1 /\ fret = 0.

Definition written (m : nat) (ret : Z) (s : iiod_conn_priv * (A * wire)) : Prop :=
  let '(c, (a, w)) := s in
  ret = - EAGAIN /\ (exists i, (i < m)%nat /\ st_write i c a w) \/
  ret < 0 /\ ret <> - EAGAIN /\ ret = fret /\ takes c w /\ inp w = (left ++ rest)%list /\ a = a1 \/
  ret = 0 /\ st_full c a w /\ (length (sched w) <= m)%nat.

(** The piece is there: the application takes it, or not. *)
Lemma wp_write_piece more k w0 c a w :
  st_fill more c w -> b_idx (nb_buf c) = b_len (nb_buf c) -> filled more a fret left a1 k -> P a -> later w w0 ->
  wp (c ← getc id;
      bytes ← load_bytes d (b_buf (nb_buf c)) 0 (b_len (nb_buf c));
      ret ← call (write_buffer (ops d)) (fun f => f (IIOD_CTX d c0) (device c) bytes);
      if NO_OS_IS_ERR_VALUE ret then mret ret else
      _ ← setc chunk_done;
      again_or_done) (written (length (sched w0) + k)) (c, (a, w)).
Proof using Htr.
  intros (Hm & Hbc & i & Hn & Hi & Hp & Hinp) Hfull Hfill HP Hl.
  pose proof Hm as ([Hwf Hs'] & Hst & Hc & Hdv & Hu & Ho). unfold later in Hl.
  set (piece := take (Z.to_nat len) more) in *. pose proof (wf_payload c Hwf) as Hlen.
  pose proof (wf_bytes_count c Hwf) as Hbw. rewrite Hbc in Hbw.
  assert (length piece <= length more)%nat as Hlm by (unfold piece; rewrite length_take; lia).
  assert (Z.of_nat (length piece) <= len) as Hpl by (unfold piece; rewrite length_take; destruct Hs' as (_ & _ & ?); lia).
  assert (i = length piece) as -> by (rewrite Hn in Hfull; cbn in Hfull; lia).
  rewrite drop_all in Hinp. cbn [app] in Hinp. rewrite (take_ge piece) in Hp by lia.
  apply sat_bind, sat_getc. unfold id. rewrite Hn. cbn [b_buf b_len]. apply sat_bind, sat_bind, sat_getc.
  cbn [mem_of]. apply sat_bind, sat_the; [done |]. intros m1 [= <-].
  destruct Hs' as (Hs1 & Hs2 & Hs3). rewrite mem_read_done by lia. change (Z.to_nat 0) with 0%nat.
  rewrite drop_0, Nat2Z.id, Hp. apply sat_the; [done |]. intros bytes [= <-].
  assert (forall r a2, bf_write its dev piece a = Done (r, a2) ->
    (if NO_OS_IS_ERR_VALUE r then written (length (sched w0) + k) r (c, (a2, w))
     else written (length (sched w0) + k) (if truthy (Z.of_nat (length more) - Z.of_nat (length piece)) then - EAGAIN else 0)
            (chunk_done c, (a2, w))) ->
    wp (ret ← call (write_buffer (ops d)) (fun f => f (IIOD_CTX d c0) (device c) piece);
      if NO_OS_IS_ERR_VALUE ret then mret ret else
      _ ← setc chunk_done;
      again_or_done) (written (length (sched w0) + k)) (c, (a, w))) as Hcall.
  { intros r a2 Hrun HQ. apply sat_bind. eapply wp_call; [apply (tr_write _ _ Htr) | |].
    - apply on_app_run. unfold device. rewrite Hdv. exact Hrun.
    - destruct (NO_OS_IS_ERR_VALUE r); [by apply sat_ret |]. apply sat_bind, sat_setc, sat_bind, sat_getc, sat_ret.
      cbn [chunk_done set_nb_len with_nb with_cmd cmd_data set_bytes_count cd_bytes_count nb_buf b_len].
      rewrite Hn, Hbc. cbn [b_len]. rewrite wrap_small by ulia. exact HQ. }
  assert (takes (chunk_done c) w /\ b_len (nb_buf (chunk_done c)) = 0 /\
    cd_bytes_count (cmd_data (chunk_done c)) = Z.of_nat (length more) - Z.of_nat (length piece)) as (Hd1 & Hd2 & Hd3).
  { split; [split; [split; [by apply chunk_done_wf | done] | done] |]. split; [done |].
    cbn [chunk_done set_nb_len with_nb with_cmd cmd_data set_bytes_count cd_bytes_count nb_buf b_len].
    rewrite Hn, Hbc. cbn [b_len]. by rewrite wrap_small by ulia. }
  inversion Hfill as [t x b1 rt lf a2 k1 Hrun HP1 Hrest | t x r b1 Hrun Hneg Hne | t x r b1 Hle Hrun Hpos
    | t x r b1 rt lf a2 k1 Hle Hrun Hpos HP1 Hrest]; subst; eapply Hcall; try exact Hrun.
  - change (NO_OS_IS_ERR_VALUE (- EAGAIN)) with true. left. split; [done |].
    exists (length (sched w) + k1)%nat. split; [lia |]. split; [done |]. exists more, k1.
    split; [done |]. split; [done |]. left. split; [done |]. split; [done |]. exists (length piece). fold piece.
    rewrite drop_all. split; [done |]. split; [done |]. split; [by rewrite Hp, take_ge | done].
  - unfold NO_OS_IS_ERR_VALUE. destruct (Z.ltb_spec fret 0); [| lia]. right. left.
    do 4 (split; [done |]). split; [| done]. match goal with H : _ = left |- _ => by rewrite <- H end.
  - unfold NO_OS_IS_ERR_VALUE. destruct (Z.ltb_spec r 0); [lia |].
    assert (piece = more) as E by (unfold piece; rewrite take_ge; [done | lia]).
    rewrite E, Z.sub_diag in *. right. right. split; [done |]. split; [| lia]. do 3 (split; [done |]).
    split; [| done]. match goal with H : _ = left |- _ => rewrite <- H end. by rewrite Hinp, drop_ge by lia.
  - unfold NO_OS_IS_ERR_VALUE. destruct (Z.ltb_spec r 0); [lia |].
    assert (Z.of_nat (length piece) = len) as E by (unfold piece; rewrite length_take; lia).
    destruct (truthy _) eqn:Et; [| apply truthy_false in Et; lia]. left. split; [done |].
    exists (length (sched w) + k1)%nat. split; [lia |]. split; [done |]. exists (drop (Z.to_nat len) more), k1.
    split; [done |]. split; [done |]. right. split; [done |]. split; [rewrite Hd3, length_drop; lia |]. done.
Qed.

Lemma same_payload c p b :
  same c0 c -> length p = length (payload c) -> same c0 (with_nb b (with_payload p c)).
Proof using. intros [Hwf Hs] Hp. split; [| done]. pose proof (with_payload_wf c p Hwf Hp). wf. Qed.

(** What is left of the piece comes from the client first. *)
Lemma wp_fill_piece more c w a (Q : Z -> iiod_conn_priv * (A * wire) -> Prop) :
  st_fill more c w ->
  (forall c' w', st_fill more c' w' -> strictly_later w' w -> Q (- EAGAIN) (c', (a, w'))) ->
  (forall c' w', st_fill more c' w' -> b_idx (nb_buf c') = b_len (nb_buf c') -> later w' w -> Q 0 (c', (a, w'))) ->
  wp (c ← getc id; if b_idx (nb_buf c) <? b_len (nb_buf c) then rw_iiod_buff d NbBuf IIOD_RD else mret 0) Q
    (c, (a, w)).
Proof using Hserve.
  intros (Hm & Hbc & i & Hn & Hi & Hp & Hinp) Hagain Hdone. set (piece := take (Z.to_nat len) more) in *.
  pose proof Hm as ([Hwf Hs'] & Hst & Hc & Hdv & Hu & Ho). pose proof (wf_payload c Hwf) as Hlen.
  assert (Z.of_nat (length piece) <= payload_buf_len c) as Hpl
    by (unfold piece; rewrite length_take; destruct Hs' as (_ & _ & ?); lia).
  apply sat_bind, sat_getc. unfold id. rewrite Hn. cbn [b_idx b_len].
  destruct (Z.ltb_spec (Z.of_nat i) (Z.of_nat (length piece))).
  - assert (forall p b w', length p = length (payload c) -> out w' = out w -> takes (with_nb b (with_payload p c)) w') as Hok.
    { intros p b w' Hlp Ho'. split; [by apply same_payload |]. do 3 (split; [done |]). split; [done | congruence]. }
    apply (wp_recv_data ap d Hserve i piece (drop (Z.to_nat len) more ++ rest)); [done | done | lia | done | done | done | |].
    + intros j p w' Hj Hlp Htp Hl Hi' Ho'. apply Hagain; [| done]. split; [by apply Hok |]. split; [done |].
      exists j. fold piece. split; [done |]. split; [lia | done].
    + intros p w' Hlp Htp Hl Hi' Ho'. apply Hdone; [| done | done]. split; [by apply Hok |]. split; [done |].
      exists (length piece). fold piece. rewrite drop_all. split; [done |]. split; [lia |].
      split; [by rewrite (take_ge piece) by lia | done].
  - apply sat_ret, Hdone; [| rewrite Hn; cbn; lia | unfold later; lia]. split; [done |]. split; [done |]. exists i.
    fold piece. by rewrite Hn.
Qed.

Lemma wp_do_write m c a w :
  st_write m c a w -> wp (do_write_buff d) (written m) (c, (a, w)).
Proof using Hserve Htr.
  intros (HP & more & k & -> & Hfill & Hst).
  set (c1 := if b_len (nb_buf c) =? 0 then with_nb (Buff BPayload 0 (u32 (chunk c))) c else c).
  assert (st_fill more c1 w) as H1.
  { unfold c1. destruct Hst as [H | (Hm & Hbc & -> & Hi)].
    - pose proof H as (Hm & Hbc & i & Hn & Hle & _). destruct (Z.eqb_spec (b_len (nb_buf c)) 0) as [E |]; [| done].
      rewrite Hn in E. cbn in E. assert (with_nb (Buff BPayload 0 (u32 (chunk c))) c = c) as ->; [| done].
      destruct Hm as ([Hwf (_ & _ & Hpl)] & _). destruct (chunk_min d c Hwf) as (Hck & _ & ->). pose proof (wf_payload c Hwf).
      rewrite length_take in *. replace (Buff _ _ _) with (nb_buf c); [exact (with_buff_same NbBuf c) |].
      rewrite Hn, Hck, Hpl, Hbc. f_equal; lia.
    - change (0 =? 0) with true. cbv iota. pose proof Hm as ([Hwf Hs'] & Hst & Hc & Hdv & Hu & Ho).
      destruct (chunk_min d c Hwf) as (Hck & _ & ->). split; [split; [split; [wf | done] | done] |]. split; [done |].
      exists 0%nat. cbn [with_nb nb_buf payload]. destruct Hs' as (_ & _ & Hpl). rewrite Hck, Hpl, Hbc, length_take.
      split; [f_equal; pose proof (wf_payload c Hwf); lia |]. split; [lia |]. split; [done |].
      rewrite drop_0, app_assoc, take_drop. done. }
  pose proof H1 as (((Hwf1 & Hs1 & _) & _) & _).
  apply sat_bind, sat_getc, sat_bind, sat_setc. fold c1. replace (IIOD_CTX d c) with (IIOD_CTX d c0).
  2:{ unfold IIOD_CTX. rewrite <- Hs1. unfold c1. by destruct (_ =? 0). }
  assert (forall Q, wp (ret ← (c ← getc id; if b_idx (nb_buf c) <? b_len (nb_buf c)
                                            then rw_iiod_buff d NbBuf IIOD_RD else mret 0); Q ret)
    (written (length (sched w) + k)) (c1, (a, w)) ->
    wp (c ← getc id; ret ← (if b_idx (nb_buf c) <? b_len (nb_buf c) then rw_iiod_buff d NbBuf IIOD_RD else mret 0); Q ret)
    (written (length (sched w) + k)) (c1, (a, w))) as Hbind by by intros Q.
  apply Hbind, sat_bind, (wp_fill_piece more); [done | |].
  - intros c2 w2 H2 Hl. unfold strictly_later in Hl. apply sat_ret. left. split; [done |].
    exists (length (sched w2) + k)%nat. split; [lia |]. split; [done |]. exists more, k. split; [done |]. split; [done | by left].
  - intros c2 w2 H2 Hfull Hl. change (NO_OS_IS_ERR_VALUE 0) with false. by apply (wp_write_piece more).
Qed.

(** *** The course of the command *)

Context (Hlong : 32 <= long_bits) (Hfill : filled todo a0 fret left a1 calls) (HP0 : P a0).

(** How the command ends: an error of the application, or its answer to the
    push. *)
Inductive outcome_of : Prop :=
  | out_failed : fret < 0 -> sent = text n -> ret0 = fret -> a' = a1 -> outcome_of
  | out_refused r : fret = 0 -> bf_push its dev a1 = Done (r, a') -> r < 0 -> sent = text n -> ret0 = 0 -> outcome_of
  | out_pushed r : fret = 0 -> bf_push its dev a1 = Done (r, a') -> 0 <= r -> P a' ->
      sent = (text n ++ text 0)%list -> ret0 = 0 -> outcome_of.

Context (Hout : outcome_of).

Local Abbreviation st_header := (st_result d c0 q (todo ++ rest) out0 (text n, a0) (understood0 q)).
Local Abbreviation st_answer x := (st_result d c0 QPrint (left ++ rest) out0 (sent, a') x).
Local Abbreviation write_end := (at_end c0 q (left ++ rest) out0 (sent, a') ret0).

Definition write_course (k m : nat) (c : iiod_conn_priv) (s : A * wire) : Prop :=
  let w := s.2 in
  match k with
  | 4 => st_reading c0 q [] (todo ++ rest) a0 out0 c s.1 w /\ m = (length (sched w) + calls)%nat
  | 3 => st_parsed c0 q [] (todo ++ rest) a0 out0 c s.1 w /\ m = (length (sched w) + calls)%nat
  | 2 => st_header c s.1 w /\ m = (length (sched w) + calls)%nat
  | 1 => st_write m c s.1 w
  | 0 => P a' /\ (exists x, cd_cmd x = IIOD_CMD_PRINT /\ st_answer x c s.1 w) /\ (ret0 = 0)%Z /\ m = length (sched w)
  | _ => False
  end%nat.

Lemma write_over c w :
  same c0 c -> unset c0 c -> inp w = (left ++ rest)%list -> owes out0 (out w) [] sent ->
  st_end c0 q (left ++ rest) out0 (sent, a') (conn_clean_state c) a' w.
Proof using Hused.
  intros (Hwf & Hc & Hu & Hp) Hset Hi Ho.
  split; [| split; [done | split; [done | split; [by apply (unset_settled c0 q c) | done]]]].
  split; [destruct Hwf; by constructor |]. split; [cbn; congruence | done].
Qed.

Lemma wp_push_written m c a w :
  st_full c a w -> (length (sched w) <= m)%nat ->
  wp (push_written d) (goes write_course write_end 1 m) (c, (a, w)).
Proof using Htr Hout Hused.
  intros (Hm & Hbc & Hn & Hi & -> & Hf) Hle. pose proof Hm as ([Hwf Hs'] & Hst & Hc & Hdv & Hu & Ho).
  assert (forall r, bf_push its dev a1 = Done (r, a') ->
    (if NO_OS_IS_ERR_VALUE r then r < 0 /\ sent = text n /\ ret0 = 0
     else P a' /\ sent = (text n ++ text 0)%list /\ ret0 = 0) ->
    wp (push_written d) (goes write_course write_end 1 m) (c, (a1, w))) as Hcall.
  { intros r Hrun HQ. apply sat_bind, sat_getc, sat_bind, sat_getc, sat_bind, sat_setc, sat_bind. unfold id.
    eapply sat_done; [eapply call_app; [apply (tr_push _ _ Htr) | done |] |].
    { unfold device. rewrite (ctx_same d c0 c) by done. rewrite Hdv. exact Hrun. }
    destruct (NO_OS_IS_ERR_VALUE r).
    - destruct HQ as (Hr & Hsent & Hret). apply sat_bind, sat_setc, sat_bind, sat_setc, sat_ret.
      do 2 right. split; [by right |]. split; [done |]. split; [done |].
      apply write_over; [split; [wf | done] | done | done | by rewrite Hsent].
    - destruct HQ as (HP1 & Hsent & Hret).
      apply sat_bind, sat_setc, sat_bind, sat_setc, sat_bind, sat_setc, sat_bind, sat_setc, sat_ret.
      right. left. split; [done |]. split; [done |]. exists 0%nat, (length (sched w)). split; [lia |]. split; [lia |].
      split; [done |]. split; [| done]. eexists. split; [| split; [split; [wf | done] |]; split; [done |]; split; [done |]].
      + done.
      + split; [exact Hu |]. split; [done |]. split; [done |]. cbn [fst snd].
        split; [| split; [by left | by left]]. unfold value_left, block_left. cbn -[text]. rewrite Hn, Hbc.
        change (0 =? 0) with true. cbv iota. rewrite Hsent. by apply owes_more. }
  destruct Hout as [? | r ? Hrun Hr | r ? Hrun Hr]; [lia | |]; apply (Hcall r Hrun); unfold NO_OS_IS_ERR_VALUE;
    destruct (Z.ltb_spec r 0); (lia || done).
Qed.

Lemma writebuf_data_stage fuel m c a w :
  st_write m c a w -> wp (iiod_run_state long_bits fuel d) (goes write_course write_end 1 m) (c, (a, w)).
Proof using Hserve Htr Hused Hout.
  intros H. assert (state c = IIOD_RW_BUF /\ command c = IIOD_CMD_WRITEBUF) as [Hst Hc]
    by (destruct H as (_ & ? & ? & _ & _ & [((_ & ? & ? & _) & _) | ((_ & ? & ? & _) & _)]); done).
  apply sat_bind, sat_getc. rewrite Hst. apply sat_bind, sat_getc. unfold id. unfold command in Hc.
  rewrite decide_False by (by rewrite Hc). apply sat_bind. eapply sat_mono; [by apply (wp_do_write m) |].
  intros ret [c1 [a2 w1]] [(-> & i & Hi & H1) | [(Hneg & Hne & Hr & Hm & Hinp & Ha) | (-> & Hfull & Hle)]].
  - change (- EAGAIN =? 0) with false. change (NO_OS_IS_ERR_VALUE (- EAGAIN)) with true. apply sat_ret. left.
    split; [done |]. by exists 1%nat, i.
  - destruct (Z.eqb_spec ret 0); [lia |]. unfold NO_OS_IS_ERR_VALUE. destruct (Z.ltb_spec ret 0); [| lia].
    apply sat_ret. do 2 right. split; [by left |]. split; [done |].
    destruct Hout as [? Hsent Hret Ha' | |]; [| lia..]. split; [congruence |]. destruct Hm as (Hs & _ & _ & _ & Hu & Ho).
    cbn [fst snd]. rewrite Ha, <- Ha'. apply write_over; [done | done | done | by rewrite Hsent].
  - change (0 =? 0) with true. cbv iota.
    by apply wp_push_written.
Qed.

Lemma writebuf_header_stage fuel c a w :
  st_header c a w ->
  wp (iiod_run_state long_bits fuel d) (goes write_course write_end 2 (length (sched w) + calls)) (c, (a, w)).
Proof using Hserve Hfill HP0.
  intros H. apply sat_bind, sat_getc. assert (state c = IIOD_WRITING_CMD_RESULT) as -> by apply H.
  eapply sat_mono; [by apply (wp_result_sent ap) |].
  intros ret [c1 [a2 w1]] [(-> & H1 & Hl) | (-> & (c2 & -> & H2 & Hv) & Hl)]; unfold strictly_later, later in Hl.
  - left. split; [done |]. exists 2%nat, (length (sched w1) + calls)%nat. split; [lia |]. done.
  - right. left. destruct H2 as (Hs & Hst & Hc & Hset & Ha & Hi & Ho & _). rewrite Hv in Ho.
    cbn [fst snd] in *. unfold after_result. rewrite Hc, decide_True by by right. split; [done |]. split; [done |].
    exists 1%nat, (length (sched w1) + calls)%nat. split; [lia |]. split; [lia |].
    destruct Hs as [Hwf Hs']. split; [by rewrite Ha |]. exists todo, calls. split; [done |]. split; [by rewrite Ha |].
    right. split.
    + split; [split; [wf | done] |]. split; [done |]. unfold command. cbn [with_state with_nb cmd_data]. by rewrite Hc.
    + cbn [with_state with_nb cmd_data]. by rewrite Hc.
Qed.

Lemma writebuf_answer_stage fuel x c a w :
  cd_cmd x = IIOD_CMD_PRINT -> st_answer x c a w -> P a' -> ret0 = 0 ->
  wp (iiod_run_state long_bits fuel d) (goes write_course write_end 0 (length (sched w))) (c, (a, w)).
Proof using Hserve Hused.
  intros Hx H HP Hr. apply sat_bind, sat_getc. assert (state c = IIOD_WRITING_CMD_RESULT) as -> by apply H.
  eapply sat_mono; [by apply (wp_result_sent ap) |].
  intros ret [c1 [a2 w1]] [(-> & H1 & Hl) | (-> & (c2 & -> & H2 & Hv) & Hl)]; unfold strictly_later, later in Hl.
  - left. split; [done |]. exists 0%nat, (length (sched w1)). split; [lia |]. split; [done |]. split; [| done].
    by exists x.
  - do 2 right. destruct H2 as (Hs & Hst & Hc & [Hy Hmk] & Ha & Hi & Ho & _). rewrite Hv in Ho.
    cbn [fst snd] in *. unfold after_result. rewrite Hc, Hx, decide_False by (intros [E | E]; discriminate E).
    unfold opened in Hy. rewrite Hy. cbn [andb]. split; [by right |]. split; [done |]. split; [done |].
    cbn [fst snd]. rewrite Ha. destruct Hs as [Hwf Hs']. apply write_over; [split; [wf | done] | done | done | done].
Qed.

Lemma writebuf_running_stage fuel c w :
  st_parsed c0 q [] (todo ++ rest) a0 out0 c a0 w ->
  wp (iiod_run_state long_bits fuel d) (goes write_course write_end 3 (length (sched w) + calls)) (c, (a0, w)).
Proof using.
  intros (Hs & Hc & Hr & Hu & _ & Hi & Ho & Hst & Hn). apply sat_bind, sat_getc. rewrite Hst.
  apply sat_bind, sat_bind, sat_getc. rewrite Hc. cbn [understood0 understood cd_cmd]. cbv iota.
  change (cd_bytes_count (understood0 q)) with n.
  eapply sat_mono.
  - apply (wp_set_number d c0 q (todo ++ rest) out0 (text n, a0) c w n a0); try done. by rewrite Hn.
  - intros ret [c1 [a2 w1]] (-> & -> & Hres). change (NO_OS_IS_ERR_VALUE 0) with false. apply sat_bind, sat_setc, sat_ret.
    right. left. split; [done |]. split; [done |]. exists 2%nat, (length (sched w) + calls)%nat. split; [lia |].
    split; [lia |]. done.
Qed.

Context (Hclient : client_ok q) (Hline : (length (the_line q) < 128)%nat) (Hnul : 0 ∉ the_line q).

Lemma write_course_ok fuel :
  (length (the_line q) < fuel)%nat -> course long_bits d fuel write_course write_end (fun s => P s.1) 5.
Proof using Hlong Hserve Htr Hused Hfill HP0 Hout Hclient Hline Hnul.
  intros Hf. split; intros k m c [a w].
  - destruct k as [| [| [| [| [| k]]]]]; cbn [write_course fst snd].
    + intros (HP & (x & _ & ((_ & _ & -> & _) & _ & _ & _ & -> & _)) & _). split; [lia | done].
    + intros (HP & _ & _ & _ & _ & [(((_ & _ & -> & _) & _) & _) | (((_ & _ & -> & _) & _) & _)]); (split; [lia | done]).
    + intros [((_ & _ & -> & _) & _ & _ & _ & -> & _) ->]. split; [lia | done].
    + intros [((_ & _ & -> & _) & _ & _ & _ & -> & _) ->]. split; [lia | done].
    + intros [(i & (((_ & _ & -> & _) & _ & _ & _ & _ & _ & -> & _) & _)) ->]. split; [lia | done].
    + done.
  - destruct k as [| [| [| [| [| k]]]]]; cbn [write_course fst snd].
    + intros (HP & (x & Hx & H) & Hr & ->). by eapply writebuf_answer_stage.
    + apply writebuf_data_stage.
    + intros [H ->]. by apply writebuf_header_stage.
    + intros [H ->]. pose proof H as (_ & _ & _ & _ & -> & _). by apply writebuf_running_stage.
    + intros [H ->]. apply sat_bind, sat_getc. assert (state c = IIOD_READING_LINE) as -> by by destruct H as (i & (_ & ? & _) & _).
      eapply sat_mono; [by apply (wp_parsed ap) |].
      intros ret [c1 [a2 w1]] [(-> & H1 & Hl) | (-> & H1 & Hl)]; unfold strictly_later, later in Hl.
      * left. split; [done |]. exists 4%nat, (length (sched w1) + calls)%nat. split; [lia |]. done.
      * right. left. split; [done |]. split; [by destruct H1 as (_ & _ & _ & _ & _ & _ & _ & -> & _) |].
        exists 3%nat, (length (sched w1) + calls)%nat. split; [lia |]. split; [lia |]. done.
    + done.
Qed.
End writing.

Lemma write_answer_inv {A} (P : A -> Prop) ap len dev todo a bytes ret left a' k :
  write_answer P ap len dev todo a bytes ret left a' k ->
  exists fret a1, filled P ap len dev todo a fret left a1 k /\
    (fret < 0 /\ bytes = text (Z.of_nat (length todo)) /\ ret = fret /\ a' = a1 \/
     exists r, fret = 0 /\ bf_push ap dev a1 = Done (r, a') /\ ret = 0 /\
       (r < 0 /\ bytes = text (Z.of_nat (length todo)) \/
        0 <= r /\ P a' /\ bytes = (text (Z.of_nat (length todo)) ++ text 0)%list)).
Proof.
  intros [r lf a1 k1 Hf Hr | r lf a1 a2 k1 Hf Hp Hr | r lf a1 a2 k1 Hf Hp Hr HP]; eexists _, a1; (split; [exact Hf |]).
  - by left.
  - right. exists r. do 3 (split; [done |]). by left.
  - right. exists r. do 3 (split; [done |]). by right.
Qed.

Lemma writebuf_answered {A} P (ap : iiod_ctx -> application A) bp long_bits (d : iiod_desc (A * wire))
    fuel p id h c dev todo rest a w bytes ret left a' k :
  32 <= long_bits -> serves ap (ops d) -> transfers bp (ops d) -> (128 <= fuel)%nat ->
  cells h !! p = Some d -> id <= IIOD_MAX_CONNECTIONS -> conns d !! Z.to_nat id = Some c ->
  idle c -> is_cyclic_buffer c = false ->
  let q := QWritebuf dev (Z.of_nat (length todo)) in
  client_ok q -> (length (line (cmd_words q)) < 128)%nat -> 0 ∉ line (cmd_words q) ->
  inp w = (line (cmd_words q) ++ todo ++ rest)%list -> P a ->
  write_answer P (bp (IIOD_CTX d c)) (payload_buf_len c) (dev_field dev) todo a bytes ret left a' k ->
  exists c' t sched',
    polled long_bits (fun s => P s.1) fuel (Some p) id (S (length (sched w) + k)) (h, (a, w)) ret
      (Heap (<[p := set_conns (<[Z.to_nat id := c']> (conns d)) d]> (cells h)) (next_block h) (oom h),
       (a', Wire (left ++ rest) (out w ++ t) sched')) /\
    delivered t bytes /\
    idle c' /\ conn c' = conn c /\ payload_buf_len c' = payload_buf_len c /\ settled c q c'.
Proof.
  intros Hl Hserve Htr Hf Hp Hid Hc Hi Hy q Hq Hlen H0 Hin HP (fret & a1 & Hfill & Hend)%write_answer_inv.
  assert (outcome_of P bp d c dev todo bytes ret fret a1 a') as Hout.
  { destruct Hend as [(? & ? & ? & ?) | (r & Hfr & Hr & Hret & [[? ?] | (? & ? & ?)])];
      [by apply out_failed | by eapply out_refused | by eapply out_pushed]. }
  pose proof (write_course_ok P ap bp long_bits d Hserve Htr c dev todo rest a (out w) bytes ret fret left a1 a' k
    (proj1 (proj2 Hi)) Hl Hfill HP Hout Hq Hlen H0 fuel (Nat.lt_le_trans _ _ _ Hlen Hf)) as Hcourse.
  apply (polled_to_end _ _ _ _ _ _ _ fuel _ _ _ _ 4 _ p id h (a, w) Hcourse); [lia | done | done | done |].
  split; [| done]. by apply (idle_reading long_bits Hl).
Qed.

(** C5: whatever part of the bytes the transport moves at each call, a client of
    a connection without a cyclic buffer, and not over a network, that asks for
    [n] bytes of a buffer gets the number, the mask of the channels it opened,
    and then exactly the data that the application's function reads, piece after
    piece, no piece longer than the payload; a function that has nothing yet is
    asked again, and an error, or a piece without bytes, ends the data early and
    unannounced. After a failed refill the error is sent instead of the number,
    and data all the same.  Where the transport refuses a newline the client
    may not get that newline, and the rest follows.  The daemon then waits for
    the next command. *)
Theorem iiod_readbuf_answered {A} (ap : iiod_ctx -> application A) bp long_bits (d : iiod_desc (A * wire))
    fuel p id h c dev n rest a w bytes ret a' k :
  32 <= long_bits -> serves ap (ops d) -> transfers bp (ops d) -> phy_type d <> USE_NETWORK -> (128 <= fuel)%nat ->
  cells h !! p = Some d -> 0 <= id < IIOD_MAX_CONNECTIONS -> conns d !! Z.to_nat id = Some c ->
  idle c -> is_cyclic_buffer c = false ->
  let q := QReadbuf dev n in
  client_ok q -> (length (line (cmd_words q)) < 128)%nat -> 0 ∉ line (cmd_words q) ->
  inp w = (line (cmd_words q) ++ rest)%list ->
  read_answer (fun _ => True) (bp (IIOD_CTX d c)) (payload_buf_len c) (dev_field dev) (mask c) n a bytes ret a' k ->
  exists c' t left,
    poll long_bits (S (length (sched w) + k)) fuel (Some p) id (h, (a, w)) =
      Done (ret, (Heap (<[p := set_conns (<[Z.to_nat id := c']> (conns d)) d]> (cells h)) (next_block h) (oom h),
        (a', Wire rest (out w ++ t) left))) /\
    delivered t bytes /\ (None ∉ t -> t = Some <$> bytes) /\
    idle c' /\ conn c' = conn c /\ payload_buf_len c' = payload_buf_len c /\
    is_cyclic_buffer c' = false /\ mask c' = mask c.
Proof.
  intros Hl Hserve Htr Hphy Hf Hp Hid Hc Hi Hy q Hq Hlen H0 Hin Hans.
  destruct (readbuf_answered (fun _ => True) ap bp long_bits d fuel p id h c dev n rest a w bytes ret a' k)
    as (c' & t & left & Hpoll & Ht & H'); try (done || lia).
  exists c', t, left. split; [by apply (polled_poll _ _ _ _ _ _ _ _ _ Hpoll) |].
  split; [done |]. split; [by apply delivered_whole | done].
Qed.

(** C6: whatever part of the bytes the transport moves at each call, a client of
    a connection without a cyclic buffer that announces bytes for a buffer is
    told their number, and the application's function is given exactly these
    bytes, in pieces of the payload's size, each again until it is taken; then
    the buffer is pushed and, if that succeeds, the client is told 0.  When the
    function fails nothing is pushed, the client is told nothing, and what it
    sent after the piece is left to be read as commands; nor is it told when
    pushing fails.  Where the transport refuses a newline the client may not
    get that newline. *)
Theorem iiod_writebuf_answered {A} (ap : iiod_ctx -> application A) bp long_bits (d : iiod_desc (A * wire))
    fuel p id h c dev todo rest a w bytes ret left a' k :
  32 <= long_bits -> serves ap (ops d) -> transfers bp (ops d) -> (128 <= fuel)%nat ->
  cells h !! p = Some d -> 0 <= id < IIOD_MAX_CONNECTIONS -> conns d !! Z.to_nat id = Some c ->
  idle c -> is_cyclic_buffer c = false ->
  let q := QWritebuf dev (Z.of_nat (length todo)) in
  client_ok q -> (length (line (cmd_words q)) < 128)%nat -> 0 ∉ line (cmd_words q) ->
  inp w = (line (cmd_words q) ++ todo ++ rest)%list ->
  write_answer (fun _ => True) (bp (IIOD_CTX d c)) (payload_buf_len c) (dev_field dev) todo a bytes ret left a' k ->
  exists c' t sched',
    poll long_bits (S (length (sched w) + k)) fuel (Some p) id (h, (a, w)) =
      Done (ret, (Heap (<[p := set_conns (<[Z.to_nat id := c']> (conns d)) d]> (cells h)) (next_block h) (oom h),
        (a', Wire (left ++ rest) (out w ++ t) sched'))) /\
    delivered t bytes /\ (None ∉ t -> t = Some <$> bytes) /\
    idle c' /\ conn c' = conn c /\ payload_buf_len c' = payload_buf_len c /\
    is_cyclic_buffer c' = false /\ mask c' = mask c.
Proof.
  intros Hl Hserve Htr Hf Hp Hid Hc Hi Hy q Hq Hlen H0 Hin Hans.
  destruct (writebuf_answered (fun _ => True) ap bp long_bits d fuel p id h c dev todo rest a w bytes ret left a' k)
    as (c' & t & left' & Hpoll & Ht & H'); try (done || lia).
  exists c', t, left'. split; [by apply (polled_poll _ _ _ _ _ _ _ _ _ Hpoll) |].
  split; [done |]. split; [by apply delivered_whole | done].
Qed.

(** ** Example *)

(** Pieces to be read, an empty one for a wait, and pieces that were written. *)
Definition piece_app (_ : iiod_ctx) : buffer_app (list (list Z)) :=
  BufApp (fun _ => mret 0)
    (fun _ _ s => match s with
                  | [] => Done ((0, []), [])
                  | [] :: s => Done ((- EAGAIN, []), s)
                  | x :: s => Done ((Z.of_nat (length x), x), s)
                  end)
    (fun _ bytes s => Done (Z.of_nat (length bytes), (s ++ [bytes])%list)) (fun _ => mret 0).

Definition no_app (_ : iiod_ctx) : application (list (list Z)) :=
  App _ (fun _ _ _ _ => mret 0) (fun _ => mret 0) (fun _ _ _ => mret (-22, [])) (fun _ _ _ => mret (-22))
    (fun _ _ => mret (-22, [])) (fun _ _ _ => mret (-22)) (fun _ => mret 0) (fun _ _ => mret 0).

Definition piece_ops : iiod_ops (list (list Z) * wire) :=
  let o := served_ops no_app in
  IiodOps (send o) (recv o) (open o) (close o)
    (Some (fun ctx dev n => on_app (bf_read (piece_app ctx) dev n)))
    (Some (fun ctx dev => on_app (bf_refill (piece_app ctx) dev)))
    (Some (fun ctx dev bytes => on_app (bf_write (piece_app ctx) dev bytes)))
    (Some (fun ctx dev => on_app (bf_push (piece_app ctx) dev)))
    (read_attr o) (write_attr o) (get_trigger o) (set_trigger_op o) (set_timeout_op o) (set_buffers_count o).

Definition piece_desc : iiod_desc (list (list Z) * wire) :=
  IiodDesc (demo_conn :: replicate 9 conn0) piece_ops None (str "<context/>") 10 USE_UART.

Lemma piece_serves : serves no_app piece_ops /\ transfers piece_app piece_ops.
Proof. split; constructor; try done. by eexists. Qed.

Lemma demo_idle : idle demo_conn.
Proof. split; [by constructor | done]. Qed.

Lemma nul_free (l : list Z) : bool_decide (0 ∈ l) = false -> 0 ∉ l.
Proof. apply bool_decide_eq_false. Qed.

Definition split4 : list (option nat) := [Some 0%nat; Some 1%nat; None; Some 0%nat].

(** Three bytes in two pieces, between which the application has to wait. *)
Lemma iiod_readbuf_answered_witness :
  let inp := (str "READBUF adc 3" ++ [13; 10])%list in
  exists c' t left,
    poll 64 8 128 (Some 1%positive) 0
      (Heap {[1%positive := piece_desc]} 2 [], ([[1; 2]; []; [3]], Wire inp [] split4)) =
    Done (0, (Heap {[1%positive := set_conns (c' :: replicate 9 conn0) piece_desc]} 2 [],
      ([], Wire [] t left))) /\
    delivered t (str "3" ++ [10] ++ str "00000000" ++ [10; 1; 2; 3]) /\ idle c'.
Proof.
  intros inp.
  destruct (iiod_readbuf_answered no_app piece_app 64 piece_desc 128 1%positive 0
    (Heap {[1%positive := piece_desc]} 2 []) demo_conn (str "adc") 3 [] [[1; 2]; []; [3]]
    (Wire inp [] split4)
    (text 3 ++ print_hex8 0 ++ [10] ++ [1; 2] ++ [3]) 0 [] 3) as (c' & t & left & E & Ht & _ & Hi & _).
  - lia.
  - apply piece_serves.
  - apply piece_serves.
  - discriminate.
  - lia.
  - reflexivity.
  - split; [lia | reflexivity].
  - reflexivity.
  - apply demo_idle.
  - reflexivity.
  - split; [split; [done | repeat constructor] | done].
  - apply Nat.ltb_lt. reflexivity.
  - apply nul_free. reflexivity.
  - reflexivity.
  - apply (ra_filled _ _ _ _ _ _ _ 0 [[1; 2]; []; [3]]); [done | lia | done |].
    apply (dr_more _ _ _ _ 3 [[1; 2]; []; [3]] 2 [1; 2] [[]; [3]]); [lia | done | vm_compute; done | done | done |].
    eapply dr_wait; [done | done |]. apply dr_last; [lia | done | vm_compute; done | done | done].
  - exists c', t, left. split; [exact E | split; [exact Ht | exact Hi]].
Defined.

(** Twenty bytes in pieces of the payload's size, 16. *)
Lemma iiod_writebuf_answered_witness :
  let inp := (str "WRITEBUF adc 20" ++ [13; 10] ++ replicate 20 7 ++ str "EXIT")%list in
  exists c' t left,
    poll 64 7 128 (Some 1%positive) 0
      (Heap {[1%positive := piece_desc]} 2 [], ([], Wire inp [] split4)) =
    Done (0, (Heap {[1%positive := set_conns (c' :: replicate 9 conn0) piece_desc]} 2 [],
      ([replicate 16 7; replicate 4 7], Wire (str "EXIT") t left))) /\
    delivered t (str "20" ++ [10] ++ str "0" ++ [10]) /\ idle c'.
Proof.
  intros inp.
  destruct (iiod_writebuf_answered no_app piece_app 64 piece_desc 128 1%positive 0
    (Heap {[1%positive := piece_desc]} 2 []) demo_conn (str "adc") (replicate 20 7) (str "EXIT") []
    (Wire inp [] split4) (text 20 ++ text 0) 0 [] [replicate 16 7; replicate 4 7] 2)
    as (c' & t & left & E & Ht & _ & Hi & _).
  - lia.
  - apply piece_serves.
  - apply piece_serves.
  - lia.
  - reflexivity.
  - split; [lia | reflexivity].
  - reflexivity.
  - apply demo_idle.
  - reflexivity.
  - split; [split; [done | repeat constructor] | done].
  - apply Nat.ltb_lt. reflexivity.
  - apply nul_free. reflexivity.
  - reflexivity.
  - apply (wa_pushed _ _ _ _ (replicate 20 7) [] 0 [] [replicate 16 7; replicate 4 7]); [| done | lia | done].
    apply (fi_more _ _ _ _ (replicate 20 7) [] 16 [replicate 16 7]); [cbn; lia | done | lia | done |].
    apply (fi_last _ _ _ _ _ _ 4); [vm_compute; discriminate | done | lia].
  - exists c', t, left. split; [exact E | split; [exact Ht | exact Hi]].
Defined.
