(* ===== verification/IioValue.v ===== *)
(** * Values of attributes as text: [iio/iio.c], [iio_format_value] and
    [iio_parse_value]

    How the IIO application prints the value of an attribute for a client and
    reads one from it. *)
From Stdlib Require Import String.
From S2P Require Import Prelude Util CString StrConv.

(** ** The C library *)

(** [snprintf] of the text [s] into [len] bytes: the length of [s], and the
    string that the buffer holds. *)
Definition snprintf (len : Z) (s : list Z) : Z * list Z :=
  (Z.of_nat (length s), take (Z.to_nat (len - 1)) s).

(** [%0nu] of an unsigned number. *)
Definition print_pad (n : nat) (x : Z) : list Z :=
  let s := print_num 10 x in (replicate (n - length s) 48 ++ s)%list.

(** ** Data *)

Inductive iio_val : Type :=
  | IIO_VAL_INT
  | IIO_VAL_INT_PLUS_MICRO
  | IIO_VAL_INT_PLUS_NANO
  | IIO_VAL_INT_PLUS_MICRO_DB
  | IIO_VAL_INT_MULTIPLE
  | IIO_VAL_FRACTIONAL
  | IIO_VAL_FRACTIONAL_LOG2
  | IIO_VAL_CHAR.

(** ** Printing *)

(** [vals[i]] *)
Definition val_at (vals : list Z) (i : nat) : outcome Z :=
  match vals !! i with Some v => Done v | None => Undef end.

(** [no_os_shift_right] on an [int64_t]: towards zero. *)
Definition no_os_shift_right (x s : Z) : outcome Z :=
  if x <? 0 then
    y ← ssigned 64 (- x); y ← shr 64 y s; Done (- y)
  else shr 64 x s.

(** The end of the two fractional formats, on billionths. *)
Definition format_nano (len tmp : Z) : outcome (Z * list Z) :=
  qr ← no_os_div_s64_rem tmp 1000000000;
  let integer := s32 qr.1 in
  let fractional := qr.2 in
  a ← ssigned 32 (Z.abs fractional);
  Done (snprintf len
    (if (integer =? 0) && (fractional <? 0) then [45; 48; 46] ++ print_pad 9 a
     else print_int integer ++ [46] ++ print_pad 9 a)%list).

(** The loop of [IIO_VAL_INT_MULTIPLE] from value [i] on, with [l] bytes
    printed, which the buffer holds as [s]. *)
Fixpoint format_multiple (n i : nat) (len : Z) (vals : list Z) (l : Z) (s : list Z) :
  outcome (Z * list Z) :=
  match n with
  | O => Done (l, s)
  | S n =>
      v ← val_at vals i;
      let '(r, t) := snprintf (u32 (len - l)) (print_int v ++ [32]) in
      let l := u32 (l + r) in
      if len <=? l then Done (l, s ++ t) else format_multiple n (S i) len vals l (s ++ t)
  end%list.

(** The result and the string in the buffer; every [vals[i]] is an [int32_t]. *)
Definition iio_format_value (len : Z) (fmt : iio_val) (size : Z) (vals : list Z) :
  outcome (Z * list Z) :=
  match fmt with
  | IIO_VAL_INT => v ← val_at vals 0; Done (snprintf len (print_int v))
  | IIO_VAL_INT_PLUS_MICRO_DB =>
      v ← val_at vals 0; v2 ← val_at vals 1;
      Done (snprintf len (print_int v ++ [46] ++ print_pad 6 (u32 v2) ++ str " dB")%list)
  | IIO_VAL_INT_PLUS_MICRO =>
      v ← val_at vals 0; v2 ← val_at vals 1;
      Done (snprintf len (print_int v ++ [46] ++ print_pad 6 (u32 v2))%list)
  | IIO_VAL_INT_PLUS_NANO =>
      v ← val_at vals 0; v2 ← val_at vals 1;
      Done (snprintf len (print_int v ++ [46] ++ print_pad 9 (u32 v2))%list)
  | IIO_VAL_FRACTIONAL =>
      v ← val_at vals 0; v2 ← val_at vals 1;
      x ← ssigned 64 (v * 1000000000);
      tmp ← no_os_div_s64 x v2;
      format_nano len tmp
  | IIO_VAL_FRACTIONAL_LOG2 =>
      v ← val_at vals 0; v2 ← val_at vals 1;
      x ← ssigned 64 (v * 1000000000);
      tmp ← no_os_shift_right x v2;
      format_nano len tmp
  | IIO_VAL_INT_MULTIPLE => format_multiple (Z.to_nat size) 0 len vals 0 []
  | IIO_VAL_CHAR => v ← val_at vals 0; Done (snprintf len [u8 v])
  end.

(** ** Reading *)

Section parse.
  (** The width of [long], and whether [char] is signed. *)
  Context (w : Z) (char_signed : bool).

(** The integer and the digits after the point; [inl] is an error. *)
Definition iio_str_parse (buf : list Z) (scale_db : bool) : Z + (Z * Z) :=
  let '(p, ctx) := strtok_r (str ".") buf in
  match p with
  | None => inl (- EINVAL)
  | Some p =>
      let integer := s32 (strtol w p (auto_base p)).1 in
      let p :=
        if scale_db then
          match strtok_r (str "db") ctx with
          | (None, ctx) => (strtok_r (str " db") ctx).1
          | (p, _) => p
          end
        else (strtok_r [10] ctx).1 in
      match p with
      | None => inl (- EINVAL)
      | Some p => inr (integer, s32 (strtol w p 10).1)
      end
  end.

(** The loop: [fract] and [subunits] when it ends. *)
Fixpoint fract_loop (fuel : nat) (fract temp subunits : Z) : outcome (Z * Z) :=
  match fuel with
  | O => NoFuel
  | S fuel =>
      if (subunits =? 0) && (temp =? 0) then Done (fract, subunits) else
      let temp := Z.quot temp 10 in
      let subunits := Z.quot subunits 10 in
      if temp =? 0 then Done (fract, subunits) else
      fract_loop fuel (if subunits <=? 1 then Z.quot fract 10 else fract) temp subunits
  end.

Definition iio_fract_interpret (fract subunits : Z) : outcome Z :=
  r ← fract_loop 12 fract fract subunits;
  ssigned 32 (r.1 * r.2).

(** [*val] and [*val2], or an error. *)
Definition parse_fract (buf : list Z) (scale_db : bool) (subunits : Z) : outcome (Z + (Z * Z)) :=
  match iio_str_parse buf scale_db with
  | inl e => Done (inl e)
  | inr (integer, fract) => f ← iio_fract_interpret fract subunits; Done (inr (integer, f))
  end.

Definition iio_parse_value (buf : list Z) (fmt : iio_val) : outcome (Z + (Z * Z)) :=
  match fmt with
  | IIO_VAL_INT => Done (inr (s32 (strtol w buf (auto_base buf)).1, 0))
  | IIO_VAL_INT_PLUS_MICRO_DB => parse_fract buf true 1000000
  | IIO_VAL_INT_PLUS_MICRO => parse_fract buf false 1000000
  | IIO_VAL_INT_PLUS_NANO => parse_fract buf false 1000000000
  | IIO_VAL_FRACTIONAL => Done (iio_str_parse buf false)
  | IIO_VAL_CHAR =>
      match buf with
      | [] => Done (inl (- EINVAL))
      | ch :: _ => Done (inr (if char_signed then swrap 8 ch else u8 ch, 0))
      end
  | IIO_VAL_INT_MULTIPLE | IIO_VAL_FRACTIONAL_LOG2 => Done (inl (- EINVAL))
  end.
End parse.

Example parse_micro :
  iio_parse_value 32 false (str "1.5") IIO_VAL_INT_PLUS_MICRO = Done (inr (1, 500000)) /\
  iio_parse_value 32 false (str "1.000005") IIO_VAL_INT_PLUS_MICRO = Done (inr (1, 500000)) /\
  iio_parse_value 32 false (str "1.1234567") IIO_VAL_INT_PLUS_MICRO = Done (inr (1, 0)) /\
  iio_parse_value 32 false (str "-2.500000 dB") IIO_VAL_INT_PLUS_MICRO_DB = Done (inr (-2, 500000)) /\
  iio_parse_value 32 false (str "3") IIO_VAL_INT_PLUS_MICRO = Done (inl (- EINVAL)) /\
  iio_format_value 64 IIO_VAL_FRACTIONAL 2 [-1; 3] = Done (12, str "-0.333333333") /\
  iio_format_value 64 IIO_VAL_FRACTIONAL_LOG2 2 [-7; 1] = Done (12, str "-3.500000000") /\
  iio_format_value 6 IIO_VAL_INT_MULTIPLE 3 [12; -3; 4] = Done (6, str "12 -3").
Proof. vm_compute. splits; reflexivity. Qed.

(** ** Properties *)

(** *** Fractions

    Dividing [fract] down to its first digit scales it as if that digit came
    right after the point. *)

Lemma pow10_step k : 10 ^ Z.of_nat (S k) = 10 * 10 ^ Z.of_nat k.
Proof. rewrite Nat2Z.inj_succ, Z.pow_succ_r by lia. lia. Qed.

Lemma quot_pow10 m : Z.quot (10 ^ Z.of_nat (S m)) 10 = 10 ^ Z.of_nat m.
Proof. rewrite pow10_step, Z.mul_comm. by apply Z.quot_mul. Qed.

Lemma quot_digits k x : 10 ^ Z.of_nat (S k) <= x < 10 ^ Z.of_nat (S (S k)) ->
  10 ^ Z.of_nat k <= Z.quot x 10 < 10 ^ Z.of_nat (S k).
Proof.
  intros Hx. pose proof (pow10_step k). pose proof (pow10_step (S k)).
  assert (0 < 10 ^ Z.of_nat k) by (apply Z.pow_pos_nonneg; lia).
  rewrite Z.quot_div_nonneg by lia.
  split; [apply Z.div_le_lower_bound | apply Z.div_lt_upper_bound]; lia.
Qed.

(** [k + 1] digits, no more than [subunits] has zeros. *)
Lemma fract_loop_short k : forall fuel m fract temp,
  (k < fuel)%nat -> (k < m)%nat -> 10 ^ Z.of_nat k <= temp < 10 ^ Z.of_nat (S k) ->
  fract_loop fuel fract temp (10 ^ Z.of_nat m) = Done (fract, 10 ^ Z.of_nat (m - S k)).
Proof.
  induction k as [| k IH]; intros [| fuel] m fract temp Hf Hm Ht; try lia; cbn [fract_loop];
    assert (0 < 10 ^ Z.of_nat m) by (apply Z.pow_pos_nonneg; lia);
    destruct (Z.eqb_spec (10 ^ Z.of_nat m) 0); try lia; cbn [andb];
    (destruct m as [| m]; [lia |]); rewrite quot_pow10.
  - change (10 ^ Z.of_nat 0) with 1 in Ht. change (10 ^ Z.of_nat 1) with 10 in Ht.
    rewrite Z.quot_small by lia. cbn [Z.eqb]. by rewrite Nat.sub_succ, Nat.sub_0_r.
  - pose proof (quot_digits k temp Ht) as Hq.
    assert (0 < 10 ^ Z.of_nat k) by (apply Z.pow_pos_nonneg; lia).
    destruct (Z.eqb_spec (Z.quot temp 10) 0); [lia |].
    destruct m as [| m]; [lia |]. pose proof (pow10_step m).
    assert (0 < 10 ^ Z.of_nat m) by (apply Z.pow_pos_nonneg; lia).
    destruct (Z.leb_spec (10 ^ Z.of_nat (S m)) 1); [lia |]. by apply IH; lia.
Qed.

(** More digits: nothing is left of [subunits]. *)
Lemma fract_loop_long k : forall fuel m fract temp,
  (k < fuel)%nat -> (m <= k)%nat -> 10 ^ Z.of_nat k <= temp < 10 ^ Z.of_nat (S k) ->
  forall sub, sub = 10 ^ Z.of_nat m \/ sub = 0 ->
  exists fract', fract_loop fuel fract temp sub = Done (fract', 0).
Proof.
  induction k as [| k IH]; intros [| fuel] m fract temp Hf Hm Ht sub Hs; try lia; cbn [fract_loop];
    assert (0 < 10 ^ Z.of_nat 0) by done.
  - change (10 ^ Z.of_nat 0) with 1 in Ht. change (10 ^ Z.of_nat 1) with 10 in Ht.
    destruct (Z.eqb_spec temp 0); [lia |]. rewrite andb_false_r, (Z.quot_small temp) by lia.
    cbn [Z.eqb]. exists fract. assert (m = 0%nat) as -> by lia.
    by destruct Hs as [-> | ->].
  - pose proof (quot_digits k temp Ht) as Hq.
    assert (0 < 10 ^ Z.of_nat k) by (apply Z.pow_pos_nonneg; lia).
    pose proof (pow10_step k).
    destruct (Z.eqb_spec temp 0); [lia |]. rewrite andb_false_r.
    destruct (Z.eqb_spec (Z.quot temp 10) 0); [lia |].
    apply (IH fuel (pred m)); [lia | lia | done |].
    destruct Hs as [-> | ->]; [| by right]. destruct m as [| m]; [by right | left].
    apply quot_pow10.
Qed.

(** A fraction of [k + 1] digits, of units of which [10 ^ m] make one. *)
Lemma fract_interpret_run f k m :
  (k <= 9)%nat -> (m <= 9)%nat -> 10 ^ Z.of_nat k <= f < 10 ^ Z.of_nat (S k) ->
  iio_fract_interpret f (10 ^ Z.of_nat m)
  = Done (if decide (k < m)%nat then f * 10 ^ Z.of_nat (m - S k) else 0).
Proof.
  intros Hk Hm Hf. unfold iio_fract_interpret. case_decide.
  - rewrite (fract_loop_short k) by lia. cbn. apply ssigned_done.
    assert (10 ^ Z.of_nat (S k) * 10 ^ Z.of_nat (m - S k) = 10 ^ Z.of_nat m) as E.
    { rewrite <- Z.pow_add_r by lia. f_equal. lia. }
    assert (0 < 10 ^ Z.of_nat (m - S k)) by (apply Z.pow_pos_nonneg; lia).
    assert (0 < 10 ^ Z.of_nat k) by (apply Z.pow_pos_nonneg; lia).
    assert (10 ^ Z.of_nat m <= 10 ^ 9) by (apply Z.pow_le_mono_r; lia).
    change (10 ^ 9) with 1000000000 in *. unfold sint. change (2 ^ (32 - 1)) with 2147483648. nia.
  - destruct (fract_loop_long k 12 m f f) with (sub := 10 ^ Z.of_nat m) as [f' E]; [lia.. | by left |].
    rewrite E. cbn [mbind outcome_bind fst snd]. rewrite Z.mul_0_r. by apply ssigned_done.
Qed.

Lemma fract_interpret_0 m : (m <= 9)%nat -> iio_fract_interpret 0 (10 ^ Z.of_nat m) = Done 0.
Proof. intros Hm. do 10 (destruct m as [| m]; [done |]). lia. Qed.

(** *** Printed numbers *)

(** The digits of a number are as many as its size says. *)
Lemma length_print_num k n : (k < 64)%nat -> 10 ^ Z.of_nat k <= n < 10 ^ Z.of_nat (S k) ->
  length (print_num 10 n) = S k.
Proof.
  unfold print_num. enough (forall fuel k n, (k < fuel)%nat ->
    10 ^ Z.of_nat k <= n < 10 ^ Z.of_nat (S k) -> length (digits fuel 10 n) = S k) as H by apply H.
  clear k n. induction fuel as [| fuel IH]; intros k n Hk Hn; [lia |]. cbn [digits].
  destruct k as [| k].
  - change (10 ^ Z.of_nat 0) with 1 in Hn. change (10 ^ Z.of_nat 1) with 10 in Hn.
    by rewrite (proj2 (Z.ltb_lt n 10)) by lia.
  - pose proof (quot_digits k n Hn) as Hq. pose proof (pow10_step k).
    assert (0 < 10 ^ Z.of_nat k) by (apply Z.pow_pos_nonneg; lia).
    rewrite Z.quot_div_nonneg in Hq by lia.
    destruct (Z.ltb_spec n 10); [lia |]. rewrite length_app. cbn [length].
    rewrite (IH k) by (done || lia). lia.
Qed.

Lemma digits_size p x : 0 < x < 10 ^ Z.of_nat p ->
  exists k, (k < p)%nat /\ 10 ^ Z.of_nat k <= x < 10 ^ Z.of_nat (S k).
Proof.
  induction p as [| p IH]; intros Hx; [change (10 ^ Z.of_nat 0) with 1 in Hx; lia |].
  destruct (Z_lt_le_dec x (10 ^ Z.of_nat p)) as [Hlt | Hge].
  - destruct IH as (k & ? & ?); [lia |]. exists k. split; [lia | done].
  - exists p. split; [lia |]. split; [done | apply Hx].
Qed.

Lemma print_num_digits n : 0 <= n -> Forall (fun c => 48 <= c <= 57) (print_num 10 n).
Proof.
  intros Hn. eapply Forall_impl; [by apply (digits_chars 10 64) |]. intros c Hc.
  apply digit_of_range in Hc; lia.
Qed.

Lemma print_pad_digits p n : 0 <= n -> Forall (fun c => 48 <= c <= 57) (print_pad p n).
Proof.
  intros Hn. apply Forall_app. split; [| by apply print_num_digits].
  apply Forall_replicate. lia.
Qed.

Lemma print_pad_not_nil p n : print_pad p n <> [].
Proof.
  unfold print_pad. intros E. apply app_eq_nil in E as [_ E]. by apply (digits_not_nil 10 63 n).
Qed.

Lemma read_zeros n acc s : acc = 0 -> read_digits 10 acc (replicate n 48 ++ s) = read_digits 10 0 s.
Proof. intros ->. by induction n. Qed.

(** [strtol] reads a padded number up to a character that is no digit. *)
Lemma strtol_pad w p n tail :
  32 <= w -> 0 <= n < 2 ^ 31 -> (forall c, head tail = Some c -> digit_val 10 c = None) ->
  (strtol w (print_pad p n ++ tail)%list 10).1 = n.
Proof.
  intros Hw Hn Ht. pose proof (print_pad_digits p n (proj1 Hn)) as Hd.
  destruct (read_digits_print 10 64 ltac:(lia) n 0 tail) as [k Hk].
  { split; [lia |]. eapply Z.lt_le_trans; [apply Hn |]. vm_compute. discriminate. }
  assert (read_digits 10 0 (print_pad p n ++ tail)%list = (n, tail)) as Hr.
  { unfold print_pad. rewrite <- app_assoc, read_zeros by done. unfold print_num. rewrite Hk.
    replace (0 * 10 ^ Z.of_nat k + n) with n by lia. destruct tail as [| c tail]; [done |].
    cbn [read_digits]. by rewrite (Ht c eq_refl). }
  destruct (print_pad p n) as [| c s] eqn:E; [by apply print_pad_not_nil in E |].
  apply Forall_cons in Hd as [Hc _]. cbn [app] in *. unfold strtol.
  assert (sign_of (skip_spaces (c :: s ++ tail)) = (false, c :: s ++ tail)%list) as ->.
  { cbn [skip_spaces]. replace (is_space c) with false.
    - cbn [sign_of]. by destruct (Z.eqb_spec c 45), (Z.eqb_spec c 43); try lia.
    - symmetry. unfold is_space. apply orb_false_iff.
      split; [apply andb_false_iff | apply Z.eqb_neq]; lia. }
  assert (skip_0x 10 (c :: s ++ tail) = c :: s ++ tail)%list as ->
    by by destruct (s ++ tail)%list as [| x [| y t]].
  assert (digit_val 10 c = Some (c - 48)) as ->.
  { unfold digit_val. rewrite (proj2 (Z.leb_le 48 c)), (proj2 (Z.leb_le c 57)) by lia. cbn [andb].
    by rewrite (proj2 (Z.ltb_lt (c - 48) 10)) by lia. }
  rewrite Hr. cbn [fst]. assert (2 ^ 31 <= 2 ^ (w - 1)) by (apply Z.pow_le_mono_r; lia). lia.
Qed.

(** *** Round trips *)

(** The formats of an integer and a fraction: its digits, and what follows. *)
Definition plus_format (fmt : iio_val) : option (nat * list Z) :=
  match fmt with
  | IIO_VAL_INT_PLUS_MICRO => Some (6%nat, [])
  | IIO_VAL_INT_PLUS_NANO => Some (9%nat, [])
  | IIO_VAL_INT_PLUS_MICRO_DB => Some (6%nat, str " dB")
  | _ => None
  end.

(** The number [x] as if its first digit were the first after the point. *)
Definition to_the_point (p : nat) (x : Z) : Z :=
  x * 10 ^ (Z.of_nat p - Z.of_nat (length (print_num 10 x))).

Lemma print_int_chars v : sint 32 v -> Forall (fun c => c = 45 \/ 48 <= c <= 57) (print_int v).
Proof.
  intros Hv. unfold print_int. destruct (Z.ltb_spec v 0).
  - constructor; [by left |]. eapply Forall_impl; [apply print_num_digits; lia | by right].
  - eapply Forall_impl; [by apply print_num_digits | by right].
Qed.

Lemma word_of delim (P : Z -> Prop) t :
  (forall c, P c -> is_delim delim c = false) -> t <> [] -> Forall P t -> word delim t.
Proof. intros HP Hne Ht. split; [done |]. eapply Forall_impl; [exact Ht | exact HP]. Qed.

Lemma not_delim delim (P : Z -> Prop) : Forall (fun d => ~ P d) delim ->
  forall c, P c -> is_delim delim c = false.
Proof.
  intros Hd c Hc. unfold is_delim. apply bool_decide_false. intros Hin.
  rewrite Forall_forall in Hd. by apply (Hd c).
Qed.

Ltac not_delims :=
  apply not_delim; vm_compute str; repeat (apply Forall_cons_2; [cbv beta; lia |]); apply Forall_nil_2.

(** The parts of a printed value. *)
Lemma str_parse_print w fmt p suffix v v2 :
  32 <= w -> sint 32 v -> 0 <= v2 < 2 ^ 31 -> plus_format fmt = Some (p, suffix) ->
  iio_str_parse w (print_int v ++ [46] ++ print_pad p v2 ++ suffix)%list
    (bool_decide (suffix <> [])) = inr (v, v2).
Proof.
  intros Hw Hv H2 Hfmt. unfold iio_str_parse. cbn [app].
  pose proof (length_print_int v Hv) as Hlen.
  rewrite (strtok_word (str ".") (print_int v) 46).
  2: { apply (word_of _ (fun c => c = 45 \/ 48 <= c <= 57)); [| | by apply print_int_chars].
       - not_delims.
       - intros E. rewrite E in Hlen. cbn in Hlen. lia. }
  2: done.
  rewrite strtol_print_int by done. cbn [fst].
  assert (suffix = [] \/ suffix = str " dB") as [-> | ->] by (destruct fmt; simplify_eq/=; auto).
  - rewrite bool_decide_false by (intros E; by apply E). rewrite app_nil_r.
    rewrite strtok_end by (apply (word_of _ (fun c => 48 <= c <= 57));
      [not_delims | apply print_pad_not_nil | apply print_pad_digits; lia]).
    cbn [fst]. rewrite <- (app_nil_r (print_pad p v2)), strtol_pad by (done || lia).
    by rewrite !swrap_small by ulia.
  - rewrite bool_decide_true by done. change (str " dB") with ([32] ++ 100 :: [66])%list.
    rewrite app_assoc, (strtok_word (str "db") (print_pad p v2 ++ [32]) 100).
    2: { apply (word_of _ (fun c => 48 <= c <= 57 \/ c = 32)).
         - not_delims.
         - by intros [_ ?]%app_eq_nil.
         - apply Forall_app. split; [| repeat constructor; by right].
           eapply Forall_impl; [apply print_pad_digits; lia | by left]. }
    2: done.
    rewrite strtol_pad by (done || intros c [= <-]; done). by rewrite !swrap_small by ulia.
Qed.

(** Where the digits of [x] end, for a number below [10 ^ p]. *)
Lemma to_the_point_run p x : (p <= 9)%nat -> 0 <= x < 10 ^ Z.of_nat p ->
  iio_fract_interpret x (10 ^ Z.of_nat p) = Done (to_the_point p x) /\
  (to_the_point p x = x <-> x = 0 \/ 10 ^ (Z.of_nat p - 1) <= x).
Proof.
  intros Hp Hx. unfold to_the_point. destruct (decide (x = 0)) as [-> | Hne].
  { rewrite fract_interpret_0 by done. split; [done |]. split; [by left | done]. }
  destruct (digits_size p x) as (k & Hk & Hxk); [lia |].
  rewrite (length_print_num k), (fract_interpret_run x k p) by lia. rewrite decide_True by done.
  split; [do 3 f_equal; lia |]. split.
  - intros E. right. assert (Z.of_nat p - Z.of_nat (S k) = 0) as E0.
    { destruct (decide (Z.of_nat p - Z.of_nat (S k) = 0)) as [| Hn]; [done |].
      assert (10 ^ 1 <= 10 ^ (Z.of_nat p - Z.of_nat (S k))) by (apply Z.pow_le_mono_r; lia). nia. }
    replace (Z.of_nat p - 1) with (Z.of_nat k) by lia. lia.
  - intros [? | Hge]; [done |]. assert (S k = p) as <-.
    { destruct (decide (S k = p)) as [| Hn]; [done |].
      assert (10 ^ Z.of_nat (S k) <= 10 ^ (Z.of_nat p - 1)) by (apply Z.pow_le_mono_r; lia). lia. }
    rewrite Z.sub_diag. lia.
Qed.

Lemma length_print_pad p x : (p <= 9)%nat -> 0 <= x < 10 ^ Z.of_nat p ->
  (length (print_pad p x) <= 9)%nat.
Proof.
  intros Hp Hx. unfold print_pad. rewrite length_app, length_replicate.
  destruct (decide (x = 0)) as [-> |]; [change (length (print_num 10 0)) with 1%nat |].
  - lia.
  - destruct (digits_size p x) as (k & Hk & Hxk); [lia |]. rewrite (length_print_num k); lia.
Qed.

Lemma snprintf_fits len s : Z.of_nat (length s) < len -> snprintf len s = (Z.of_nat (length s), s).
Proof. intros Hs. unfold snprintf. by rewrite take_ge by lia. Qed.

(** C38: a value with a fraction that is printed for a client and read back has
    its integer, but its fraction is read as if its first digit other than 0
    came right after the point: it is the same exactly when the fraction is 0
    or has no zeros after the point. *)
Theorem iio_value_roundtrip w cs fmt p suffix len size v v2 :
  32 <= w -> plus_format fmt = Some (p, suffix) -> 32 <= len ->
  sint 32 v -> 0 <= v2 < 10 ^ Z.of_nat p ->
  exists s, iio_format_value len fmt size [v; v2] = Done (Z.of_nat (length s), s) /\
    iio_parse_value w cs s fmt = Done (inr (v, to_the_point p v2)) /\
    (to_the_point p v2 = v2 <-> v2 = 0 \/ 10 ^ (Z.of_nat p - 1) <= v2).
Proof.
  intros Hw Hfmt Hlen Hv H2.
  assert ((p <= 9)%nat /\ (length suffix <= 3)%nat) as [Hp Hsuf]
    by (destruct fmt; simplify_eq/=; lia).
  assert (10 ^ Z.of_nat p <= 10 ^ 9) as Hpow by (apply Z.pow_le_mono_r; lia).
  change (10 ^ 9) with 1000000000 in Hpow.
  exists (print_int v ++ [46] ++ print_pad p v2 ++ suffix)%list.
  pose proof (length_print_int v Hv). pose proof (length_print_pad p v2 Hp H2).
  destruct (to_the_point_run p v2 Hp H2) as [Hr Hiff]. split; [| split; [| done]].
  - rewrite <- snprintf_fits with (len := len) by (rewrite !length_app; cbn [length]; lia).
    destruct fmt; simplify_eq/=; rewrite wrap_small by ulia; by rewrite ?app_nil_r.
  - pose proof (str_parse_print w fmt p suffix v v2 Hw Hv ltac:(ulia) Hfmt) as Hs.
    assert (forall b, bool_decide (suffix <> []) = b -> parse_fract w
      (print_int v ++ [46] ++ print_pad p v2 ++ suffix)%list b (10 ^ Z.of_nat p)
      = Done (inr (v, to_the_point p v2))) as Hpf.
    { intros b <-. unfold parse_fract. by rewrite Hs, Hr. }
    destruct fmt; simplify_eq/=; by apply Hpf.
Qed.

(** *** Fractions in decimal *)

(** The number of billionths [q], in decimal. *)
Definition decimal (q : Z) : list Z :=
  ((if q <? 0 then [45] else []) ++ print_num 10 (Z.abs q / 10 ^ 9) ++ [46] ++
   print_pad 9 (Z.abs q mod 10 ^ 9))%list.

Lemma format_nano_run len q : - 2 ^ 31 <= Z.quot q (10 ^ 9) < 2 ^ 31 -> sint 64 q ->
  format_nano len q = Done (snprintf len (decimal q)).
Proof.
  intros Hq Hq64. unfold format_nano, no_os_div_s64_rem, decimal. cbn [Z.eqb].
  change 1000000000 with (10 ^ 9).
  assert (Z.abs (Z.rem q (10 ^ 9)) < Z.abs (10 ^ 9)) as Hr by (apply Z.rem_bound_abs; done).
  assert (Z.abs (Z.rem q (10 ^ 9)) = Z.abs q mod 10 ^ 9) as <-.
  { rewrite <- Z.rem_abs by done. apply Z.rem_mod_nonneg; [lia | done]. }
  assert (Z.abs (Z.quot q (10 ^ 9)) = Z.abs q / 10 ^ 9) as <-.
  { rewrite <- Z.quot_abs by done. apply Z.quot_div_nonneg; [lia | done]. }
  pose proof (Z.quot_rem' q (10 ^ 9)) as Hqr. pose proof (Z.rem_sign_mul q (10 ^ 9) ltac:(done)) as Hs.
  change (Z.abs (10 ^ 9)) with 1000000000 in Hr.
  set (i := Z.quot q (10 ^ 9)) in *. set (f := Z.rem q (10 ^ 9)) in *. clearbody i f.
  change (10 ^ 9) with 1000000000 in *.
  rewrite ssigned_done by ulia. cbn [mbind outcome_bind fst snd].
  rewrite (swrap_small 32 f), (swrap_small 32 i), ssigned_done by ulia. cbn [mbind outcome_bind].
  f_equal. f_equal. unfold print_int. destruct (Z.ltb_spec q 0).
  - assert (f <= 0) by nia. assert (i <= 0) by lia. destruct (Z.eqb_spec i 0) as [-> |].
    + destruct (Z.ltb_spec f 0); [done | lia].
    + cbn [andb]. destruct (Z.ltb_spec i 0); [| lia]. by rewrite (Z.abs_neq i) by lia.
  - assert (0 <= f) by (destruct (decide (q = 0)) as [-> |]; nia).
    destruct (Z.ltb_spec f 0); [lia |]. rewrite andb_false_r.
    destruct (Z.ltb_spec i 0); [lia |]. by rewrite (Z.abs_eq i) by lia.
Qed.

Lemma quot_abs_le x d : d <> 0 -> Z.abs (Z.quot x d) <= Z.abs x.
Proof.
  intros Hd. rewrite <- Z.quot_abs by done. rewrite Z.quot_div_nonneg by lia.
  apply Z.div_le_upper_bound; nia.
Qed.

(** A quotient of [int32_t] overflows in one case only. *)
Lemma quot_int32 v d : sint 32 v -> d <> 0 -> v <> - 2 ^ 31 \/ d <> -1 ->
  - 2 ^ 31 <= Z.quot v d < 2 ^ 31.
Proof.
  intros Hv Hd Hmin. pose proof (quot_abs_le v d Hd) as Hle.
  destruct (decide (v = - 2 ^ 31)) as [-> |]; [| ulia].
  destruct (decide (Z.quot (- 2 ^ 31) d = 2 ^ 31)) as [E |]; [| ulia].
  pose proof (Z.quot_rem' (- 2 ^ 31) d) as Hqr. pose proof (Z.rem_bound_abs (- 2 ^ 31) d Hd).
  rewrite E in Hqr. ulia || (change (2 ^ 31) with 2147483648 in *; nia).
Qed.

Lemma shift_right_run x s : sint 64 x -> x <> - 2 ^ 63 -> 0 <= s < 64 ->
  no_os_shift_right x s = Done (Z.quot x (2 ^ s)).
Proof.
  intros Hx Hmin Hs. assert (0 < 2 ^ s) by (apply Z.pow_pos_nonneg; lia).
  unfold no_os_shift_right. destruct (Z.ltb_spec x 0).
  - rewrite ssigned_done by ulia. cbn [mbind outcome_bind]. rewrite shr_done by done.
    cbn [mbind outcome_bind]. f_equal. rewrite Z.shiftr_div_pow2 by lia.
    rewrite <- Z.quot_div_nonneg, Z.quot_opp_l by lia. lia.
  - rewrite shr_done by done. f_equal. rewrite Z.shiftr_div_pow2 by lia.
    by rewrite Z.quot_div_nonneg by lia.
Qed.

(** A fraction is printed as its quotient in decimal, to nine places,
    rounded towards zero, with its sign even when the integer is 0; and the same
    for a fraction of a power of two. *)
Theorem iio_format_fractional len size v d :
  sint 32 v -> sint 32 d ->
  (d <> 0 -> (v <> - 2 ^ 31 \/ d <> -1) ->
   iio_format_value len IIO_VAL_FRACTIONAL size [v; d]
   = Done (snprintf len (decimal (Z.quot (v * 10 ^ 9) d)))) /\
  (0 <= d < 64 ->
   iio_format_value len IIO_VAL_FRACTIONAL_LOG2 size [v; d]
   = Done (snprintf len (decimal (Z.quot (v * 10 ^ 9) (2 ^ d))))).
Proof.
  intros Hv Hd. assert (sint 64 (v * 10 ^ 9) /\ v * 10 ^ 9 <> - 2 ^ 63) as [Hx Hmin].
  { change (10 ^ 9) with 1000000000. ulia. }
  assert (forall c, c <> 0 -> v <> - 2 ^ 31 \/ c <> -1 ->
    format_nano len (Z.quot (v * 10 ^ 9) c) = Done (snprintf len (decimal (Z.quot (v * 10 ^ 9) c))))
    as Hrun.
  { intros c Hc Hc1. apply format_nano_run.
    - rewrite Z.quot_quot, Z.quot_mul_cancel_r by done. by apply quot_int32.
    - pose proof (quot_abs_le (v * 10 ^ 9) c Hc). set (x := v * 10 ^ 9) in *. clearbody x.
      set (y := Z.quot x c) in *. clearbody y. ulia. }
  assert (forall fmt k,
      iio_format_value len fmt size [v; d] = (x ← ssigned 64 (v * 10 ^ 9); k x) ->
      iio_format_value len fmt size [v; d] = k (v * 10 ^ 9)) as Hstart.
  { intros fmt k ->. by rewrite ssigned_done. }
  split.
  - intros Hd0 Hd1. rewrite (Hstart _ (fun x => tmp ← no_os_div_s64 x d; format_nano len tmp)) by done.
    unfold no_os_div_s64, no_os_div_s64_rem. rewrite (proj2 (Z.eqb_neq d 0)) by done.
    pose proof (quot_abs_le (v * 10 ^ 9) d Hd0).
    rewrite ssigned_done by (set (x := v * 10 ^ 9) in *; clearbody x; set (y := Z.quot x d) in *;
      clearbody y; ulia).
    by apply Hrun.
  - intros Hd0. rewrite (Hstart _ (fun x => tmp ← no_os_shift_right x d; format_nano len tmp)) by done.
    rewrite shift_right_run by done. apply Hrun; [| right];
      assert (0 < 2 ^ d) by (apply Z.pow_pos_nonneg; lia); lia.
Qed.

(** *** Instances *)

(** Five millionths come back as half a unit. *)
Lemma iio_value_roundtrip_witness :
  exists s, iio_format_value 64 IIO_VAL_INT_PLUS_MICRO 2 [1; 5] = Done (Z.of_nat (length s), s) /\
    iio_parse_value 32 false s IIO_VAL_INT_PLUS_MICRO = Done (inr (1, 500000)).
Proof.
  destruct (iio_value_roundtrip 32 false IIO_VAL_INT_PLUS_MICRO 6 [] 64 2 1 5) as (s & Hf & Hp & _);
    [lia | done | lia | done | done |]. exists s. split; [exact Hf | exact Hp].
Defined.

Lemma iio_format_fractional_witness :
  iio_format_value 64 IIO_VAL_FRACTIONAL 2 [-2; 3] = Done (12, str "-0.666666666") /\
  iio_format_value 64 IIO_VAL_FRACTIONAL_LOG2 2 [5; 3] = Done (11, str "0.625000000").
Proof.
  split.
  - rewrite (proj1 (iio_format_fractional 64 2 (-2) 3 ltac:(done) ltac:(done))); [reflexivity | done |].
    left. done.
  - rewrite (proj2 (iio_format_fractional 64 2 5 3 ltac:(done) ltac:(done))); [reflexivity | done].
Defined.
