(* ===== verification/IioDevice.v ===== *)
(** * The devices of the IIO application: [iio/iio.c], [iio/iio_types.h]

    What [iio.c] keeps for every device and trigger, and the operations behind
    the daemon's commands that are about attributes and triggers.  The drivers'
    callbacks are parameters: commands on the whole state, since they may use
    the buffers of [IioBuffer]. *)
From Stdlib Require Import String.
From S2P Require Import Prelude Util CircularBuffer CString StrConv Iiod IioValue.

Definition ENOENT : Z := 2.
Definition ENODEV : Z := 19.

(** ** Data *)

Inductive iio_chan_type : Type :=
  | IIO_VOLTAGE | IIO_CURRENT | IIO_ALTVOLTAGE | IIO_ANGL_VEL | IIO_TEMP | IIO_CAPACITANCE
  | IIO_ACCEL | IIO_RESISTANCE | IIO_MAGN | IIO_INCLI | IIO_VELOCITY | IIO_ANGL | IIO_ROT
  | IIO_COUNT | IIO_DELTA_ANGL | IIO_DELTA_VELOCITY.

Definition iio_chan_type_string (t : iio_chan_type) : list Z :=
  str match t with
      | IIO_VOLTAGE => "voltage"
      | IIO_CURRENT => "current"
      | IIO_ALTVOLTAGE => "altvoltage"
      | IIO_ANGL_VEL => "anglvel"
      | IIO_TEMP => "temp"
      | IIO_CAPACITANCE => "capacitance"
      | IIO_ACCEL => "accel"
      | IIO_RESISTANCE => "resistance"
      | IIO_MAGN => "magn"
      | IIO_INCLI => "incli"
      | IIO_VELOCITY => "velocity"
      | IIO_ANGL => "angl"
      | IIO_ROT => "rot"
      | IIO_COUNT => "count"
      | IIO_DELTA_ANGL => "deltaangl"
      | IIO_DELTA_VELOCITY => "deltavelocity"
      end.

(** [iio_modifier_names]: nothing at 0, [IIO_NO_MOD], and past the end. *)
Definition iio_modifier_names (m : Z) : option (list Z) :=
  match m with
  | 1 => Some (str "x")
  | 2 => Some (str "y")
  | 3 => Some (str "z")
  | 4 => Some (str "ambient")
  | 5 => Some (str "pitch")
  | 6 => Some (str "yaw")
  | 7 => Some (str "roll")
  | _ => None
  end.

Record iio_ch_info : Type := ChInfo {
  ci_num : Z;
  ci_out : bool;
  ci_type : iio_chan_type;
  ci_differential : bool;
  ci_address : Z
}.

Inductive iio_attribute_shared : Type :=
  | IIO_SEPARATE
  | IIO_SHARED_BY_TYPE
  | IIO_SHARED_BY_DIR
  | IIO_SHARED_BY_ALL.

(** [show] returns what it wrote to the buffer as well. *)
Record iio_attribute (S : Type) : Type := IioAttribute {
  at_name : list Z;
  at_priv : Z;
  at_shared : iio_attribute_shared;
  show : option (ptr -> Z -> option iio_ch_info -> Z -> cmd S (Z * list Z));
  store : option (ptr -> list Z -> Z -> option iio_ch_info -> Z -> cmd S Z)
}.
Arguments IioAttribute {S} _ _ _ _ _.
Arguments at_name {S} _.
Arguments at_priv {S} _.
Arguments at_shared {S} _.
Arguments show {S} _.
Arguments store {S} _.

Record scan_type : Type := ScanType {
  sign : Z;
  realbits : Z;
  storagebits : Z;
  shift : Z;
  is_big_endian : bool
}.

(** An array of attributes is the list before its end mark, or null. *)
Record iio_channel (S : Type) : Type := IioChannel {
  ic_name : option (list Z);
  ic_type : iio_chan_type;
  channel : Z;
  channel2 : Z;
  ic_address : Z;
  scan_index : Z;
  ic_scan : option scan_type;
  ic_attributes : option (list (iio_attribute S));
  ic_out : bool;
  modified : bool;
  indexed : bool;
  diferential : bool
}.
Arguments IioChannel {S} _ _ _ _ _ _ _ _ _ _ _ _.
Arguments ic_name {S} _.
Arguments ic_type {S} _.
Arguments channel {S} _.
Arguments channel2 {S} _.
Arguments ic_address {S} _.
Arguments scan_index {S} _.
Arguments ic_scan {S} _.
Arguments ic_attributes {S} _.
Arguments ic_out {S} _.
Arguments modified {S} _.
Arguments indexed {S} _.
Arguments diferential {S} _.

Inductive iio_buffer_direction : Type :=
  | IIO_DIRECTION_INPUT
  | IIO_DIRECTION_OUTPUT.

#[export] Instance iio_buffer_direction_eq : EqDecision iio_buffer_direction.
Proof. solve_decision. Defined.

Record iio_cyclic_buffer_info : Type := CyclicInfo { is_cyclic : bool; buff_index : Z }.

(** [ib_buf] is the address of the circular buffer. *)
Record iio_buffer : Type := IioBuffer {
  active_mask : Z;
  ib_size : Z;
  ib_bytes_per_scan : Z;
  samples : Z;
  dir : iio_buffer_direction;
  ib_buf : ptr;
  cyclic_info : iio_cyclic_buffer_info
}.

(** [cb] is the address of the circular buffer inside the structure. *)
Record iio_buffer_priv : Type := BufferPriv {
  public : iio_buffer;
  cb : ptr;
  raw_buf : ptr;
  raw_buf_len : Z;
  initalized : bool;
  allocated : bool
}.

(** A [struct iio_device_data] and the [struct iio_buffer] it points to belong
    to a device, and are passed to the callbacks as its index. *)
Record iio_trigger (S : Type) : Type := IioTrigger {
  is_synchronous : bool;
  it_attributes : option (list (iio_attribute S));
  enable : option (ptr -> cmd S Z);
  disable : option (ptr -> cmd S Z)
}.
Arguments IioTrigger {S} _ _ _ _.
Arguments is_synchronous {S} _.
Arguments it_attributes {S} _.
Arguments enable {S} _.
Arguments disable {S} _.

(** [read_dev] returns the bytes it wrote to the block; [write_dev] gets those
    of the block. *)
Record iio_device (S : Type) : Type := IioDevice {
  num_ch : Z;
  channels : list (iio_channel S);
  attributes : option (list (iio_attribute S));
  debug_attributes : option (list (iio_attribute S));
  buffer_attributes : option (list (iio_attribute S));
  read_dev : option (ptr -> Z -> cmd S (Z * list Z));
  write_dev : option (ptr -> list Z -> Z -> cmd S Z);
  pre_enable : option (ptr -> Z -> cmd S Z);
  post_disable : option (ptr -> cmd S Z);
  submit : option (nat -> cmd S Z);
  trigger_handler : option (nat -> cmd S Z);
  debug_reg_read_op : option (ptr -> Z -> cmd S (Z * Z));
  debug_reg_write_op : option (ptr -> Z -> Z -> cmd S Z)
}.
Arguments IioDevice {S} _ _ _ _ _ _ _ _ _ _ _ _ _.
Arguments num_ch {S} _.
Arguments channels {S} _.
Arguments attributes {S} _.
Arguments debug_attributes {S} _.
Arguments buffer_attributes {S} _.
Arguments read_dev {S} _.
Arguments write_dev {S} _.
Arguments pre_enable {S} _.
Arguments post_disable {S} _.
Arguments submit {S} _.
Arguments trigger_handler {S} _.
Arguments debug_reg_read_op {S} _.
Arguments debug_reg_write_op {S} _.

Record iio_dev_priv : Type := DevPriv {
  dev_id : list Z;
  dp_name : list Z;
  dev_instance : ptr;
  active_reg_addr : Z;
  dev_descriptor : positive;
  buffer : iio_buffer_priv;
  trig_idx : Z
}.

Record iio_trig_priv : Type := TrigPriv {
  tp_id : list Z;
  tp_name : list Z;
  tp_instance : ptr;
  tp_descriptor : positive;
  triggered : bool
}.

Definition NO_TRIGGER : Z := u32 (-1).

(** The arrays [devs] and [trigs] with their counts, the circular buffers, and
    the world of the callbacks. *)
Record iio_mem (W : Type) : Type := IioMem {
  devs : list iio_dev_priv;
  trigs : list iio_trig_priv;
  iio_cbs : cb_mem;
  iio_world : W
}.
Arguments IioMem {W} _ _ _ _.
Arguments devs {W} _.
Arguments trigs {W} _.
Arguments iio_cbs {W} _.
Arguments iio_world {W} _.

(** ** Channels *)

(** [_print_ch_id]; [%s] of a null pointer is undefined. *)
Definition print_ch_id {S} (ch : iio_channel S) : outcome (list Z) :=
  let type := iio_chan_type_string (ic_type ch) in
  if modified ch then
    match iio_modifier_names (channel2 ch) with
    | Some m => Done (type ++ [95] ++ m)%list
    | None => Undef
    end
  else if indexed ch then
    if diferential ch
    then Done (type ++ print_int (channel ch) ++ [45] ++ type ++ print_int (channel2 ch))%list
    else Done (type ++ print_int (channel ch))%list
  else Done type.

(** The loop of [iio_get_channel] over the [n] channels from [i] on. *)
Fixpoint get_channel {S} (n i : nat) (name : list Z) (chs : list (iio_channel S)) (out : bool) :
  outcome (option (iio_channel S)) :=
  match n with
  | O => Done None
  | S n =>
      match chs !! i with
      | None => Undef
      | Some ch =>
          ch_id ← print_ch_id ch;
          if strcmp_eq name ch_id && eqb (ic_out ch) out then Done (Some ch)
          else get_channel n (Datatypes.S i) name chs out
      end
  end.

Definition iio_get_channel {S} (name : list Z) (desc : iio_device S) (out : bool) :
  outcome (option (iio_channel S)) :=
  get_channel (Z.to_nat (num_ch desc)) 0 name (channels desc) out.

(** ** Registers *)

(** What [sscanf] does for [%u] and [%x]: nothing is assigned if there is no
    number. *)
Definition scan_num (w : Z) (base : Z) (s : list Z) : option (Z * list Z) :=
  let '(v, rest) := strtoul w s base in
  if bool_decide (rest = s) then None else Some (u32 v, rest).

Fixpoint scan_lit (lit s : list Z) : option (list Z) :=
  match lit, s with
  | [], _ => Some s
  | c :: lit, d :: s => if c =? d then scan_lit lit s else None
  | _ :: _, [] => None
  end.

(** [sscanf(buf, "0x%x 0x%x", &addr, &value)] with both assigned. *)
Definition scan_write (w : Z) (s : list Z) : option (Z * Z) :=
  s ← scan_lit (str "0x") s;
  r ← scan_num w 16 s;
  s ← scan_lit (str "0x") (skip_spaces r.2);
  r2 ← scan_num w 16 s;
  Some (r.1, r2.1).

(** ** Devices and triggers by name *)

Fixpoint index_where {A} (f : A -> bool) (l : list A) (i : nat) : option nat :=
  match l with
  | [] => None
  | x :: l => if f x then Some i else index_where f l (S i)
  end.

(** [struct attr_fun_params] *)
Record attr_fun_params : Type := AttrParams {
  pf_dev_instance : ptr;
  pf_buf : list Z;
  pf_len : Z;
  pf_ch_info : option iio_ch_info
}.

Section iio.
  (** The widths of [long], the drivers' descriptors, and the triggers'. *)
  Context {W : Type} (w : Z).
  Context (device : positive -> iio_device (iio_mem W)) (trigger : positive -> iio_trigger (iio_mem W)).
  Abbreviation mem := (iio_mem W).

Definition load_dev (i : nat) : cmd mem iio_dev_priv := fun m => the (devs m !! i) m.

Definition load_trig (i : nat) : cmd mem iio_trig_priv := fun m => the (trigs m !! i) m.

Definition set_dev (i : nat) (d : iio_dev_priv) : cmd mem unit := fun m =>
  match devs m !! i with
  | Some _ => Done (tt, IioMem (<[i := d]> (devs m)) (trigs m) (iio_cbs m) (iio_world m))
  | None => Undef
  end.

Definition set_trig (i : nat) (t : iio_trig_priv) : cmd mem unit := fun m =>
  match trigs m !! i with
  | Some _ => Done (tt, IioMem (devs m) (<[i := t]> (trigs m)) (iio_cbs m) (iio_world m))
  | None => Undef
  end.

Definition with_trig_idx (n : Z) (d : iio_dev_priv) : iio_dev_priv :=
  DevPriv (dev_id d) (dp_name d) (dev_instance d) (active_reg_addr d) (dev_descriptor d) (buffer d) n.

Definition with_reg_addr (n : Z) (d : iio_dev_priv) : iio_dev_priv :=
  DevPriv (dev_id d) (dp_name d) (dev_instance d) n (dev_descriptor d) (buffer d) (trig_idx d).

Definition with_triggered (b : bool) (t : iio_trig_priv) : iio_trig_priv :=
  TrigPriv (tp_id t) (tp_name t) (tp_instance t) (tp_descriptor t) b.

(** The index stands for the address in the array. *)
Definition get_iio_device (name : list Z) : cmd mem (option nat) :=
  gets (fun m => index_where (fun d => strcmp_eq (dev_id d) name) (devs m) 0).

Definition get_iio_trig_device (id : list Z) : cmd mem (option nat) :=
  gets (fun m => index_where (fun t => strcmp_eq (tp_id t) id) (trigs m) 0).

Definition iio_set_buffers_count (dev : list Z) (buffers_count : Z) : cmd mem Z :=
  d ← get_iio_device dev;
  match d with
  | None => mret (- ENODEV)
  | Some _ => mret (if buffers_count =? 1 then 0 else - EINVAL)
  end.

(** ** Attributes *)

(** The name of the first attribute is looked at even if the array is null. *)
Definition iio_rd_wr_attribute (params : attr_fun_params)
    (attrs : option (list (iio_attribute mem))) (attr_name : list Z) (is_write : bool) :
  cmd mem (Z * list Z) :=
  l ← the attrs;
  match index_where (fun a => strcmp_eq attr_name (at_name a)) l 0 ≫= (l !!.) with
  | None => mret (- ENOENT, [])
  | Some a =>
      if is_write then
        match store a with
        | None => mret (- ENOENT, [])
        | Some f =>
            r ← f (pf_dev_instance params) (pf_buf params) (pf_len params) (pf_ch_info params)
                  (at_priv a);
            mret (r, [])
        end
      else
        match show a with
        | None => mret (- ENOENT, [])
        | Some f => f (pf_dev_instance params) (pf_len params) (pf_ch_info params) (at_priv a)
        end
  end.

Definition debug_reg_read (dev : iio_dev_priv) (f : ptr -> Z -> cmd mem (Z * Z)) (len : Z) :
  cmd mem (Z * list Z) :=
  r ← f (dev_instance dev) (active_reg_addr dev);
  if NO_OS_IS_ERR_VALUE r.1 then mret (r.1, []) else mret (snprintf len (print_num 10 r.2)).

Definition debug_reg_write (i : nat) (dev : iio_dev_priv) (f : ptr -> Z -> Z -> cmd mem Z)
    (buf : list Z) (len : Z) : cmd mem Z :=
  match scan_write w buf with
  | Some (addr, value) =>
      ret ← f (dev_instance dev) addr value;
      if NO_OS_IS_ERR_VALUE ret then mret ret else mret (s32 len)
  | None =>
      match scan_num w 10 buf with
      | Some (addr, _) =>
          d ← load_dev i; _ ← set_dev i (with_reg_addr addr d); mret (s32 len)
      | None => mret (- EINVAL)
      end
  end.

Definition get_attributes (type : iio_attr_type) (d : iio_device mem) (ch : option (iio_channel mem)) :
  outcome (option (list (iio_attribute mem))) :=
  match type with
  | IIO_ATTR_TYPE_DEBUG => Done (debug_attributes d)
  | IIO_ATTR_TYPE_DEVICE => Done (attributes d)
  | IIO_ATTR_TYPE_BUFFER => Done (buffer_attributes d)
  | IIO_ATTR_TYPE_CH_IN | IIO_ATTR_TYPE_CH_OUT =>
      match ch with Some ch => Done (ic_attributes ch) | None => Undef end
  end.

Definition get_trig_attributes (type : iio_attr_type) (t : iio_trigger mem) :
  option (list (iio_attribute mem)) :=
  match type with IIO_ATTR_TYPE_DEVICE => it_attributes t | _ => None end.

Definition REG_ACCESS_ATTRIBUTE : list Z := str "direct_reg_access".

Definition is_reg_access (type : iio_attr_type) (name : list Z) : bool :=
  bool_decide (type = IIO_ATTR_TYPE_DEBUG) && strcmp_eq name REG_ACCESS_ATTRIBUTE.

(** The channel that an attribute belongs to: an error, or what is passed of
    it, if there is one. *)
Definition channel_of_attr (type : iio_attr_type) (name : list Z) (d : iio_device mem) :
  outcome (Z + option (iio_channel mem)) :=
  match name with
  | [] => Done (inr None)
  | _ =>
      ch ← iio_get_channel name d (bool_decide (type = IIO_ATTR_TYPE_CH_OUT));
      match ch with
      | None => Done (inl (- ENOENT))
      | Some ch => Done (inr (Some ch))
      end
  end.

Definition ch_info (out : bool) (ch : iio_channel mem) : iio_ch_info :=
  ChInfo (s16 (channel ch)) out (ic_type ch) (diferential ch) (u32 (ic_address ch)).

(** The second halves of [iio_read_attr] and [iio_write_attr], for a device and
    for a trigger. *)
Definition dev_attr (dev : iio_dev_priv) (type : iio_attr_type) (name chn buf : list Z) (len : Z)
    (is_write : bool) : cmd mem (Z * list Z) :=
  let D := device (dev_descriptor dev) in
  c ← lift (channel_of_attr type chn D);
  match c with
  | inl e => mret (e, [])
  | inr ch =>
      attrs ← lift (get_attributes type D ch);
      let info := ch_info (bool_decide (type = IIO_ATTR_TYPE_CH_OUT)) <$> ch in
      if strcmp_eq name [] then mret (- EINVAL, []) else
      iio_rd_wr_attribute (AttrParams (dev_instance dev) buf len info) attrs name is_write
  end.

Definition trig_attr (id : list Z) (type : iio_attr_type) (name buf : list Z) (len : Z)
    (is_write : bool) : cmd mem (Z * list Z) :=
  t ← get_iio_trig_device id;
  match t with
  | None => mret (- ENODEV, [])
  | Some t =>
      t ← load_trig t;
      let attrs := get_trig_attributes type (trigger (tp_descriptor t)) in
      if strcmp_eq name [] then mret (- EINVAL, []) else
      iio_rd_wr_attribute (AttrParams (tp_instance t) buf len None) attrs name is_write
  end.

Definition iio_read_attr (dev : list Z) (type : iio_attr_type) (name chn : list Z) (len : Z) :
  cmd mem (Z * list Z) :=
  d ← get_iio_device dev;
  match d with
  | Some i =>
      d ← load_dev i;
      if is_reg_access type name then
        match debug_reg_read_op (device (dev_descriptor d)) with
        | Some f => debug_reg_read d f len
        | None => mret (- ENOENT, [])
        end
      else dev_attr d type name chn [] len false
  | None => trig_attr dev type name [] len false
  end.

Definition iio_write_attr (dev : list Z) (type : iio_attr_type) (name chn buf : list Z) (len : Z) :
  cmd mem Z :=
  d ← get_iio_device dev;
  match d with
  | Some i =>
      d ← load_dev i;
      if is_reg_access type name then
        match debug_reg_write_op (device (dev_descriptor d)) with
        | Some f => debug_reg_write i d f buf len
        | None => mret (- ENOENT)
        end
      else r ← dev_attr d type name chn buf len true; mret r.1
  | None => r ← trig_attr dev type name buf len true; mret r.1
  end.

(** ** Triggers *)

Definition idx_or_none (i : option nat) : Z :=
  match i with Some i => Z.of_nat i | None => NO_TRIGGER end.

Definition iio_get_trig_idx_by_id (id : option (list Z)) : cmd mem Z :=
  match id with
  | None => mret NO_TRIGGER
  | Some id => gets (fun m => idx_or_none (index_where (fun t => strcmp_eq (tp_id t) id) (trigs m) 0))
  end.

Definition iio_get_trig_idx_by_name (name : option (list Z)) : cmd mem Z :=
  match name with
  | None => mret NO_TRIGGER
  | Some name =>
      gets (fun m => idx_or_none (index_where (fun t => strcmp_eq (tp_name t) name) (trigs m) 0))
  end.

(** The device that a trigger command names, which is not a trigger. *)
Definition trig_target (dev : list Z) : cmd mem (Z + nat) :=
  n ← gets (fun m => length (trigs m));
  if (n =? 0)%nat then mret (inl (- ENOENT)) else
  t ← get_iio_trig_device dev;
  match t with
  | Some _ => mret (inl (- ENOENT))
  | None =>
      d ← get_iio_device dev;
      match d with None => mret (inl (- ENODEV)) | Some i => mret (inr i) end
  end.

Definition iio_get_trigger (dev : list Z) (len : Z) : cmd mem (Z * list Z) :=
  r ← trig_target dev;
  match r with
  | inl e => mret (e, [])
  | inr i =>
      d ← load_dev i;
      if trig_idx d =? NO_TRIGGER then mret (0, []) else
      t ← load_trig (Z.to_nat (trig_idx d));
      mret (snprintf len (tp_name t))
  end.

Definition iio_set_trigger (dev trig : list Z) (len : Z) : cmd mem Z :=
  r ← trig_target dev;
  match r with
  | inl e => mret e
  | inr i =>
      d ← load_dev i;
      if strcmp_eq trig [] then _ ← set_dev i (with_trig_idx NO_TRIGGER d); mret 0 else
      n ← iio_get_trig_idx_by_id (Some trig);
      if n =? NO_TRIGGER then mret (- EINVAL) else
      _ ← set_dev i (with_trig_idx n d);
      mret (s32 len)
  end.

(** One turn of the loop: the flag that is cleared is the one at the index of
    the device. *)
Definition async_turn (i : nat) : cmd mem unit :=
  d ← load_dev i;
  if trig_idx d =? NO_TRIGGER then mret tt else
  t ← load_trig (Z.to_nat (trig_idx d));
  if negb (triggered t) then mret tt else
  match trigger_handler (device (dev_descriptor d)) with
  | None => mret tt
  | Some f =>
      _ ← f i;
      t ← load_trig i;
      set_trig i (with_triggered false t)
  end.

Definition iio_process_async_triggers : cmd mem unit :=
  n ← gets (fun m => length (devs m));
  for_up n 0 (fun i => async_turn (Z.to_nat i)).

Definition trigger_turn (trig_id : Z) (i : nat) : cmd mem unit :=
  d ← load_dev i;
  if trig_idx d =? trig_id then
    t ← load_trig (Z.to_nat trig_id);
    if is_synchronous (trigger (tp_descriptor t)) then
      match trigger_handler (device (dev_descriptor d)) with
      | None => mret tt
      | Some f => _ ← f i; mret tt
      end
    else set_trig (Z.to_nat trig_id) (with_triggered true t)
  else mret tt.

Definition iio_process_trigger_type (trigger_name : option (list Z)) : cmd mem Z :=
  trig_id ← iio_get_trig_idx_by_name trigger_name;
  if trig_id =? NO_TRIGGER then mret (- EINVAL) else
  n ← gets (fun m => length (devs m));
  _ ← for_up n 0 (fun i => trigger_turn trig_id (Z.to_nat i));
  mret 0.
End iio.

(** ** The identifiers of channels *)

(** Two splits of a string at the first character outside a class agree. *)
Lemma span_inj {A} (P : A -> Prop) (a b s t : list A) :
  Forall P a -> Forall P b ->
  (forall c r, s = c :: r -> ~ P c) -> (forall c r, t = c :: r -> ~ P c) ->
  a ++ s = b ++ t -> a = b /\ s = t.
Proof.
  intros Ha. revert b. induction Ha as [| x a Hx Ha IH]; intros [| y b] Hb Hs Ht E; cbn [app] in E.
  - done.
  - apply Forall_cons in Hb as [Hy _]. by destruct (Hs _ _ E).
  - apply eq_sym in E. by destruct (Ht _ _ E).
  - apply Forall_cons in Hb as [Hy Hb]. injection E as <- E.
    by destruct (IH b Hb Hs Ht E) as [<- <-].
Qed.

Definition is_digit (c : Z) : Prop := 48 <= c <= 57.
Definition is_letter (c : Z) : Prop := 97 <= c <= 122.

Lemma print_num_is_digit n : 0 <= n -> Forall is_digit (print_num 10 n).
Proof. apply print_num_digits. Qed.

Lemma print_num_inj n k s t :
  0 <= n < 2 ^ 64 -> 0 <= k < 2 ^ 64 ->
  (forall c r, s = c :: r -> ~ is_digit c) -> (forall c r, t = c :: r -> ~ is_digit c) ->
  print_num 10 n ++ s = print_num 10 k ++ t -> n = k /\ s = t.
Proof.
  intros Hn Hk Hs Ht E.
  destruct (span_inj is_digit _ _ _ _ (print_num_is_digit n ltac:(lia)) (print_num_is_digit k ltac:(lia))
              Hs Ht E) as [E1 E2]. split; [| done].
  pose proof (strtoul_print 64 10 n ltac:(lia) Hn ltac:(lia)) as Hp.
  rewrite E1, strtoul_print in Hp by lia. congruence.
Qed.

Lemma print_num_head n : exists c r, print_num 10 n = c :: r.
Proof.
  pose proof (digits_not_nil 10 63 n) as H. unfold print_num.
  destruct (digits 64 10 n) as [| c r]; [done | eauto].
Qed.

(** A printed number can be cut off the text it is followed by. *)
Lemma print_int_inj n k s t :
  sint 32 n -> sint 32 k ->
  (forall c r, s = c :: r -> ~ is_digit c) -> (forall c r, t = c :: r -> ~ is_digit c) ->
  print_int n ++ s = print_int k ++ t -> n = k /\ s = t.
Proof.
  intros Hn Hk Hs Ht.
  assert (forall j u v, 0 <= j -> 45 :: u = print_num 10 j ++ v -> False) as Hsign.
  { intros j u v Hj E. pose proof (print_num_is_digit j Hj) as Hd.
    destruct (print_num_head j) as (c & r & Ej). rewrite Ej in *. apply Forall_cons in Hd as [Hd _].
    injection E as <- _. unfold is_digit in Hd. lia. }
  unfold print_int. destruct (Z.ltb_spec n 0), (Z.ltb_spec k 0); cbn [app]; intros E.
  - injection E as E. apply print_num_inj in E as [E1 E2]; [| ulia.. | done | done].
    split; [lia | done].
  - by destruct (Hsign k _ _ ltac:(lia) E).
  - by destruct (Hsign n _ _ ltac:(lia) (eq_sym E)).
  - apply print_num_inj in E; [done | ulia.. | done | done].
Qed.

Lemma iio_chan_type_letters t : Forall is_letter (iio_chan_type_string t).
Proof. unfold is_letter. destruct t; cbv - [Z.le]; repeat (apply Forall_cons_2; [lia |]); apply Forall_nil_2. Qed.

Lemma iio_chan_type_inj t u : iio_chan_type_string t = iio_chan_type_string u -> t = u.
Proof. destruct t, u; intros E; vm_compute in E; discriminate || reflexivity. Qed.

Lemma iio_modifier_inj a b m : iio_modifier_names a = Some m -> iio_modifier_names b = Some m -> a = b.
Proof.
  unfold iio_modifier_names. intros Ha Hb.
  repeat (case_match; try discriminate); simplify_eq; reflexivity.
Qed.

(** What tells the channels of one direction apart. *)
Inductive ch_index : Type :=
  | NotIndexed
  | Indexed (n : Z)
  | Differential (n m : Z)
  | Modified (n : Z).

Definition ch_index_of {S} (ch : iio_channel S) : ch_index :=
  if modified ch then Modified (channel2 ch)
  else if indexed ch then
    if diferential ch then Differential (channel ch) (channel2 ch) else Indexed (channel ch)
  else NotIndexed.

Definition ch_key {S} (ch : iio_channel S) : iio_chan_type * ch_index * bool :=
  (ic_type ch, ch_index_of ch, ic_out ch).

Definition index_ok (i : ch_index) : Prop :=
  match i with
  | NotIndexed => True
  | Indexed n => sint 32 n
  | Differential n m => sint 32 n /\ sint 32 m
  | Modified n => is_Some (iio_modifier_names n)
  end.

(** The text after the type. *)
Definition print_index (t : iio_chan_type) (i : ch_index) : list Z :=
  match i with
  | NotIndexed => []
  | Indexed n => print_int n
  | Differential n m => print_int n ++ [45] ++ iio_chan_type_string t ++ print_int m
  | Modified n => 95 :: default [] (iio_modifier_names n)
  end.

Definition print_key (k : iio_chan_type * ch_index) : list Z :=
  iio_chan_type_string k.1 ++ print_index k.1 k.2.

Definition ch_id {S} (ch : iio_channel S) : list Z := print_key (ic_type ch, ch_index_of ch).

Lemma print_ch_id_eq {S} (ch : iio_channel S) :
  index_ok (ch_index_of ch) -> print_ch_id ch = Done (ch_id ch).
Proof.
  unfold print_ch_id, ch_id, ch_index_of, print_key. cbn [fst snd].
  destruct (modified ch); cbn [index_ok print_index].
  - by intros [m ->].
  - destruct (indexed ch), (diferential ch); cbn [index_ok print_index]; intros _; try done;
      by rewrite app_nil_r.
Qed.

Lemma print_int_head n : exists c r, print_int n = c :: r /\ (c = 45 \/ is_digit c).
Proof.
  unfold print_int. destruct (Z.ltb_spec n 0); [eauto |].
  pose proof (print_num_is_digit n ltac:(lia)) as Hd. destruct (print_num_head n) as (c & r & E).
  rewrite E in *. apply Forall_cons in Hd as [Hd _]. eauto.
Qed.

Lemma print_index_head t i c r : print_index t i = c :: r -> ~ is_letter c.
Proof.
  unfold is_letter.
  destruct i as [| n | n m | n]; cbn [print_index]; try (destruct (print_int_head n) as (d & u & -> & Hd));
    cbn [app]; intros E; simplify_eq; unfold is_digit in *; lia.
Qed.

(** The identifier determines the type and the index. *)
Lemma print_key_inj t i u j :
  index_ok i -> index_ok j -> print_key (t, i) = print_key (u, j) -> t = u /\ i = j.
Proof.
  intros Hi Hj E. unfold print_key in E. cbn [fst snd] in E.
  destruct (span_inj is_letter _ _ _ _ (iio_chan_type_letters t) (iio_chan_type_letters u)
    (print_index_head t i) (print_index_head u j) E) as [Et Ei].
  apply iio_chan_type_inj in Et as <-. split; [done |].
  assert (forall n (s : list Z), 95 :: s = print_int n -> False) as Hm.
  { intros n s En. destruct (print_int_head n) as (c & r & Ec & Hc). rewrite Ec in En.
    injection En as <- _. unfold is_digit in Hc. lia. }
  assert (forall n m (s : list Z), 95 :: s = print_int n ++ m -> False) as Hm'.
  { intros n m s En. destruct (print_int_head n) as (c & r & Ec & Hc). rewrite Ec in En.
    injection En as <- _. unfold is_digit in Hc. lia. }
  assert (forall c (s r : list Z), 45 :: s = c :: r -> ~ is_digit c) as Hs.
  { intros c s r Ec. injection Ec as <- _. unfold is_digit. lia. }
  assert (forall n, [] = print_int n -> False) as Hnil.
  { intros n En. destruct (print_int_head n) as (c & r & Ec & _). by rewrite Ec in En. }
  destruct i as [| n | n m | n], j as [| k | k l | k]; cbn [print_index index_ok app] in *; try done;
    try (by destruct (Hnil _ Ei)); try (by destruct (Hnil _ (eq_sym Ei)));
    try (by destruct (Hm _ _ Ei)); try (by destruct (Hm _ _ (eq_sym Ei)));
    try (by destruct (Hm' _ _ _ Ei)); try (by destruct (Hm' _ _ _ (eq_sym Ei)));
    try (destruct (print_int_head n) as (? & ? & En & _); rewrite En in Ei; discriminate);
    try (destruct (print_int_head k) as (? & ? & Ek & _); rewrite Ek in Ei; discriminate).
  - destruct (print_int_inj n k [] [] Hi Hj) as [-> _]; [done.. | by rewrite !app_nil_r | done].
  - destruct (print_int_inj n k [] (45 :: iio_chan_type_string t ++ print_int l) Hi (proj1 Hj))
      as [_ Ex]; [done | intros c r; apply Hs | by rewrite app_nil_r | done].
  - destruct (print_int_inj n k (45 :: iio_chan_type_string t ++ print_int m) [] (proj1 Hi) Hj)
      as [_ Ex]; [intros c r; apply Hs | done | by rewrite app_nil_r | done].
  - destruct Hi as [Hn Hm0], Hj as [Hk Hl].
    destruct (print_int_inj n k (45 :: iio_chan_type_string t ++ print_int m)
      (45 :: iio_chan_type_string t ++ print_int l) Hn Hk) as [-> Ex]; [intros c r; apply Hs.. | done |].
    injection Ex as Ex. apply app_inv_head in Ex.
    destruct (print_int_inj m l [] [] Hm0 Hl) as [-> _]; [done.. | by rewrite !app_nil_r | done].
  - injection Ei as Ei. destruct Hi as [a Ha], Hj as [b Hb]. rewrite Ha, Hb in Ei. cbn in Ei.
    subst b. by rewrite (iio_modifier_inj n k a Ha Hb).
Qed.

(** A device whose channels can be told apart; the code counts them with an
    [int16_t]. *)
Record channels_ok {S} (D : iio_device S) : Prop := ChannelsOk {
  cho_count : num_ch D = Z.of_nat (length (channels D));
  cho_bound : num_ch D < 2 ^ 15;
  cho_index : Forall (fun ch => index_ok (ch_index_of ch)) (channels D);
  cho_keys : NoDup (ch_key <$> channels D)
}.

Lemma get_channel_skip {S} name out (chs : list (iio_channel S)) k : forall i n,
  Forall (fun ch => index_ok (ch_index_of ch)) chs -> (i + k <= length chs)%nat ->
  (forall j ch, (i <= j < i + k)%nat -> chs !! j = Some ch ->
     ch_id ch = name -> ic_out ch = out -> False) ->
  get_channel (k + n) i name chs out = get_channel n (i + k) name chs out.
Proof.
  induction k as [| k IH]; intros i n Hok Hk Hno; cbn [Nat.add]; [by rewrite Nat.add_0_r |].
  cbn [get_channel]. destruct (lookup_lt_is_Some_2 chs i) as [ch Hch]; [lia |].
  rewrite Hch, print_ch_id_eq by apply (Forall_lookup_1 _ _ _ _ Hok Hch).
  cbn beta iota delta [mbind outcome_bind].
  assert (strcmp_eq name (ch_id ch) && eqb (ic_out ch) out = false) as E.
  { apply not_true_is_false. intros [E1 E2]%andb_true_iff.
    apply bool_decide_eq_true in E1. apply eqb_prop in E2.
    apply (Hno i ch); (done || lia || congruence). }
  rewrite E, IH; [by rewrite Nat.add_succ_comm | done | lia |].
  intros j. specialize (Hno j). intros ch' Hj. apply Hno. lia.
Qed.

(** Looking up an identifier finds the channel that has it, and no channel
    under any other name. *)
Lemma iio_get_channel_found {S} (D : iio_device S) i ch :
  channels_ok D -> channels D !! i = Some ch ->
  iio_get_channel (ch_id ch) D (ic_out ch) = Done (Some ch).
Proof.
  intros [Hc _ Hok Hnd] Hch. unfold iio_get_channel. rewrite Hc, Nat2Z.id.
  pose proof (lookup_lt_Some _ _ _ Hch).
  replace (length (channels D)) with (i + Datatypes.S (length (channels D) - i - 1))%nat by lia.
  rewrite get_channel_skip; [| done | lia |].
  - cbn [Nat.add get_channel]. rewrite Hch, print_ch_id_eq by apply (Forall_lookup_1 _ _ _ _ Hok Hch).
    cbn beta iota delta [mbind outcome_bind]. unfold strcmp_eq. by rewrite bool_decide_true, eqb_reflx.
  - intros j ch' Hj Hch' Hid Hout.
    apply print_key_inj in Hid as [Ht Hi]; [| by eapply (Forall_lookup_1 _ _ _ _ Hok)..].
    assert (ch_key ch' = ch_key ch) as Hk by (unfold ch_key; congruence).
    enough (j = i) by lia. eapply (NoDup_lookup _ _ _ _ Hnd); rewrite list_lookup_fmap.
    + by rewrite Hch'.
    + rewrite Hch, Hk. done.
Qed.

Lemma iio_get_channel_missing {S} (D : iio_device S) name out :
  channels_ok D -> Forall (fun ch => ch_id ch <> name \/ ic_out ch <> out) (channels D) ->
  iio_get_channel name D out = Done None.
Proof.
  intros [Hc _ Hok _] Hno. unfold iio_get_channel. rewrite Hc, Nat2Z.id.
  rewrite <- (Nat.add_0_r (length (channels D))). rewrite get_channel_skip; [done | done | lia |].
  intros j ch _ Hch. destruct (Forall_lookup_1 _ _ _ _ Hno Hch); done.
Qed.

Lemma ch_id_not_nil {S} (ch : iio_channel S) : ch_id ch <> [].
Proof. unfold ch_id, print_key. cbn. destruct (ic_type ch); discriminate. Qed.

(** An identifier fits [char ch_id[MAX_CHN_ID]] with its terminator. *)
Lemma length_ch_id {S} (ch : iio_channel S) :
  index_ok (ch_index_of ch) -> (length (ch_id ch) < MAX_CHN_ID)%nat.
Proof.
  change MAX_CHN_ID with 64%nat. intros H. unfold ch_id, print_key. cbn [fst snd].
  assert (length (iio_chan_type_string (ic_type ch)) <= 13)%nat as Ht.
  { destruct (ic_type ch); apply Nat.leb_le; reflexivity. }
  rewrite length_app. destruct (ch_index_of ch) as [| n | n m | n]; cbn [index_ok print_index] in *.
  - cbn. lia.
  - pose proof (length_print_int n H). lia.
  - destruct H as [Hn Hm]. pose proof (length_print_int n Hn). pose proof (length_print_int m Hm).
    rewrite !length_app. cbn [length]. lia.
  - destruct H as [m Hm]. rewrite Hm. cbn [default from_option id length].
    assert (length m <= 7)%nat; [| lia]. unfold iio_modifier_names in Hm.
    repeat (case_match; try discriminate); simplify_eq; apply Nat.leb_le; reflexivity.
Qed.

Lemma index_where_found {A} (f : A -> bool) l i k x :
  l !! i = Some x -> f x = true -> (forall j y, l !! j = Some y -> f y = true -> j = i) ->
  index_where f l k = Some (k + i)%nat.
Proof.
  revert i k. induction l as [| y l IH]; intros [| i] k Hx Hf Hu; cbn [index_where]; try done.
  - injection Hx as ->. by rewrite Hf, Nat.add_0_r.
  - destruct (f y) eqn:E; [by specialize (Hu 0%nat y eq_refl E) |].
    rewrite (IH i); [f_equal; lia | done.. |]. intros j z Hz Hfz.
    specialize (Hu (S j) z Hz Hfz). lia.
Qed.

Lemma index_where_none {A} (f : A -> bool) l k :
  Forall (fun x => f x = false) l -> index_where f l k = None.
Proof. intros H. revert k. induction H as [| x l E _ IH]; intros k; [done |]. cbn. by rewrite E. Qed.

Lemma index_where_bound {A} (f : A -> bool) l k j :
  index_where f l k = Some j -> is_Some (l !! (j - k)%nat) /\ (k <= j)%nat.
Proof.
  revert k. induction l as [| y l IH]; intros k; [done |]. cbn [index_where]. destruct (f y).
  - intros [= <-]. rewrite Nat.sub_diag. split; [by eexists | lia].
  - intros [H1 H2]%IH. replace (j - k)%nat with (S (j - S k)) by lia. split; [done | lia].
Qed.

(** The entry with a name, where names differ. *)
Lemma index_where_name {A} (name : A -> list Z) l i x :
  NoDup (name <$> l) -> l !! i = Some x ->
  index_where (fun y => strcmp_eq (name x) (name y)) l 0 = Some i /\
  index_where (fun y => strcmp_eq (name y) (name x)) l 0 = Some i.
Proof.
  intros Hnd Hx. unfold strcmp_eq.
  split; apply (index_where_found _ l i 0 x Hx); try (by apply bool_decide_true);
    intros j y Hy E; apply bool_decide_eq_true in E;
    apply (NoDup_lookup _ _ _ (name x) Hnd); rewrite list_lookup_fmap, ?Hy, ?Hx; cbn; congruence.
Qed.

Lemma index_where_no_name {A} (name : A -> list Z) l n :
  n ∉ name <$> l ->
  index_where (fun y => strcmp_eq n (name y)) l 0 = None /\
  index_where (fun y => strcmp_eq (name y) n) l 0 = None.
Proof.
  intros Hn. unfold strcmp_eq. split; apply index_where_none; apply Forall_forall; intros x Hx;
    apply bool_decide_false; intros E; apply Hn; subst; by apply list_elem_of_fmap_2.
Qed.

(** ** Attributes *)

Section attributes.
  Context {W : Type} (w : Z).
  Context (device : positive -> iio_device (iio_mem W)) (trigger : positive -> iio_trigger (iio_mem W)).
  Abbreviation mem := (iio_mem W).

(** The attributes that a type and the name of a channel stand for, and what
    their functions are told about the channel. *)
Inductive attrs_of (D : iio_device mem) :
  iio_attr_type -> list Z -> list (iio_attribute mem) -> option iio_ch_info -> Prop :=
  | of_device l : attributes D = Some l -> attrs_of D IIO_ATTR_TYPE_DEVICE [] l None
  | of_debug l : debug_attributes D = Some l -> attrs_of D IIO_ATTR_TYPE_DEBUG [] l None
  | of_buffer l : buffer_attributes D = Some l -> attrs_of D IIO_ATTR_TYPE_BUFFER [] l None
  | of_channel k ch l :
      channels D !! k = Some ch -> ic_attributes ch = Some l ->
      attrs_of D (if ic_out ch then IIO_ATTR_TYPE_CH_OUT else IIO_ATTR_TYPE_CH_IN) (ch_id ch) l
        (Some (ch_info (ic_out ch) ch)).

Lemma channel_of_attr_run D type chn l info :
  channels_ok D -> attrs_of D type chn l info ->
  exists ch, channel_of_attr type chn D = Done (inr ch) /\ get_attributes type D ch = Done (Some l) /\
    ch_info (bool_decide (type = IIO_ATTR_TYPE_CH_OUT)) <$> ch = info.
Proof using.
  intros Hok [l' <- | l' <- | l' <- | k ch l' Hch Hl]; [by exists None.. |].
  exists (Some ch). unfold channel_of_attr.
  replace (bool_decide ((if ic_out ch then IIO_ATTR_TYPE_CH_OUT else IIO_ATTR_TYPE_CH_IN)
             = IIO_ATTR_TYPE_CH_OUT)) with (ic_out ch)
    by (destruct (ic_out ch); symmetry; [by apply bool_decide_true | by apply bool_decide_false]).
  rewrite (iio_get_channel_found D k ch Hok Hch). destruct (ch_id ch) eqn:E; [by apply ch_id_not_nil in E |].
  splits; [done | | done]. destruct (ic_out ch); cbn; by rewrite Hl.
Qed.

(** The attribute with a name is the one that is called. *)
Lemma rd_wr_found params (l : list (iio_attribute mem)) k a (m : mem) :
  NoDup (at_name <$> l) -> l !! k = Some a ->
  iio_rd_wr_attribute params (Some l) (at_name a) false m
    = (match show a with
       | Some f => f (pf_dev_instance params) (pf_len params) (pf_ch_info params) (at_priv a)
       | None => mret (- ENOENT, [])
       end) m /\
  iio_rd_wr_attribute params (Some l) (at_name a) true m
    = (r ← match store a with
           | Some f => f (pf_dev_instance params) (pf_buf params) (pf_len params)
                         (pf_ch_info params) (at_priv a)
           | None => mret (- ENOENT)
           end;
       mret (r, [])) m.
Proof using.
  intros Hnd Ha. unfold iio_rd_wr_attribute.
  change ((the (Some l) : cmd mem _) ≫= ?f) with (fun s => f l s). cbv beta.
  rewrite (proj1 (index_where_name at_name l k a Hnd Ha)). cbn [mbind option_bind]. rewrite Ha.
  split; [by destruct (show a) | by destruct (store a)].
Qed.

Lemma rd_wr_missing params (l : list (iio_attribute mem)) n b (m : mem) :
  n ∉ at_name <$> l -> iio_rd_wr_attribute params (Some l) n b m = Done ((- ENOENT, []), m).
Proof using.
  intros Hn. unfold iio_rd_wr_attribute.
  change ((the (Some l) : cmd mem _) ≫= ?f) with (fun s => f l s). cbv beta.
  by rewrite (proj1 (index_where_no_name at_name l n Hn)).
Qed.

Lemma get_iio_device_run (m : mem) i d :
  NoDup (dev_id <$> devs m) -> devs m !! i = Some d ->
  get_iio_device (dev_id d) m = Done (Some i, m).
Proof using. intros Hnd Hd. unfold get_iio_device, gets. by rewrite (proj2 (index_where_name dev_id _ i d Hnd Hd)). Qed.

Lemma load_dev_run (m : mem) i d : devs m !! i = Some d -> load_dev i m = Done (d, m).
Proof using. intros Hd. unfold load_dev. by rewrite Hd. Qed.

Lemma dev_attr_run d type chn l info name buf len b (m : mem) :
  channels_ok (device (dev_descriptor d)) -> attrs_of (device (dev_descriptor d)) type chn l info ->
  name <> [] ->
  dev_attr device d type name chn buf len b m
  = iio_rd_wr_attribute (AttrParams (dev_instance d) buf len info) (Some l) name b m.
Proof using.
  intros Hok Hl Hne. destruct (channel_of_attr_run _ _ _ _ _ Hok Hl) as (ch & H1 & H2 & H3).
  unfold dev_attr. rewrite (bind_done _ _ _ _ _ (lift_done _ m _ H1)).
  rewrite (bind_done _ _ _ _ _ (lift_done _ m _ H2)). unfold strcmp_eq.
  by rewrite bool_decide_false, H3.
Qed.

Lemma bind_fst (c : cmd mem Z) (s : list Z) m : (r ← (r ← c; mret (r, s)); mret r.1) m = c m.
Proof using. unfold mbind, cmd_bind. by destruct (c m) as [[r m'] | |]. Qed.

Lemma iio_attr_run (m : mem) i d type chn l info name buf len :
  NoDup (dev_id <$> devs m) -> devs m !! i = Some d ->
  channels_ok (device (dev_descriptor d)) -> attrs_of (device (dev_descriptor d)) type chn l info ->
  NoDup (at_name <$> l) -> name <> [] -> is_reg_access type name = false ->
  (forall k a, l !! k = Some a -> at_name a = name ->
     iio_read_attr device trigger (dev_id d) type name chn len m
       = match show a with
         | Some f => f (dev_instance d) len info (at_priv a) m
         | None => Done ((- ENOENT, []), m)
         end /\
     iio_write_attr w device trigger (dev_id d) type name chn buf len m
       = match store a with
         | Some f => f (dev_instance d) buf len info (at_priv a) m
         | None => Done (- ENOENT, m)
         end) /\
  (name ∉ at_name <$> l ->
     iio_read_attr device trigger (dev_id d) type name chn len m = Done ((- ENOENT, []), m) /\
     iio_write_attr w device trigger (dev_id d) type name chn buf len m = Done (- ENOENT, m)).
Proof using.
  intros Hnd Hd Hok Hl Hndl Hne Hreg. unfold iio_read_attr, iio_write_attr.
  rewrite !(bind_done _ _ _ _ _ (get_iio_device_run m i d Hnd Hd)).
  rewrite !(bind_done _ _ _ _ _ (load_dev_run m i d Hd)), Hreg.
  rewrite (dev_attr_run _ _ _ _ _ _ _ _ _ _ Hok Hl Hne). split.
  - intros k a Ha <-. destruct (rd_wr_found (AttrParams (dev_instance d) [] len info) l k a m Hndl Ha) as [-> _].
    cbn [pf_dev_instance pf_len pf_ch_info]. split; [by destruct (show a) |].
    unfold mbind at 1, cmd_bind at 1. rewrite (dev_attr_run _ _ _ _ _ _ _ _ _ _ Hok Hl Hne).
    destruct (rd_wr_found (AttrParams (dev_instance d) buf len info) l k a m Hndl Ha) as [_ ->].
    cbn [pf_dev_instance pf_buf pf_len pf_ch_info]. destruct (store a); [apply bind_fst | done].
  - intros Hn. rewrite rd_wr_missing by done. split; [done |].
    erewrite bind_done; [| by rewrite (dev_attr_run _ _ _ _ _ _ _ _ _ _ Hok Hl Hne), rd_wr_missing]. done.
Qed.

(** C24: reading or writing an attribute of a device, or of the channel that an
    identifier names, is exactly the call of that attribute's function with the
    device, the buffer and the channel's description, and of no other; a name
    that is not in the list, or an attribute without the function, gives
    -ENOENT and changes nothing. *)
Theorem iio_attr_correct (m : mem) i d type chn l info name buf len :
  NoDup (dev_id <$> devs m) -> devs m !! i = Some d ->
  channels_ok (device (dev_descriptor d)) -> attrs_of (device (dev_descriptor d)) type chn l info ->
  NoDup (at_name <$> l) -> name <> [] -> is_reg_access type name = false ->
  (forall k a, l !! k = Some a -> at_name a = name ->
     iio_read_attr device trigger (dev_id d) type name chn len m
       = match show a with
         | Some f => f (dev_instance d) len info (at_priv a) m
         | None => Done ((- ENOENT, []), m)
         end /\
     iio_write_attr w device trigger (dev_id d) type name chn buf len m
       = match store a with
         | Some f => f (dev_instance d) buf len info (at_priv a) m
         | None => Done (- ENOENT, m)
         end) /\
  (name ∉ at_name <$> l ->
     iio_read_attr device trigger (dev_id d) type name chn len m = Done ((- ENOENT, []), m) /\
     iio_write_attr w device trigger (dev_id d) type name chn buf len m = Done (- ENOENT, m)).
Proof using. apply iio_attr_run. Qed.

(** The other errors: no such channel, no such device or trigger, and the
    attributes that are read all at once. *)
Lemma iio_attr_no_channel (m : mem) i d type chn name len :
  NoDup (dev_id <$> devs m) -> devs m !! i = Some d -> channels_ok (device (dev_descriptor d)) ->
  chn <> [] -> is_reg_access type name = false ->
  Forall (fun ch => ch_id ch <> chn \/ ic_out ch <> bool_decide (type = IIO_ATTR_TYPE_CH_OUT))
    (channels (device (dev_descriptor d))) ->
  iio_read_attr device trigger (dev_id d) type name chn len m = Done ((- ENOENT, []), m).
Proof using.
  intros Hnd Hd Hok Hne Hreg Hno. unfold iio_read_attr.
  rewrite (bind_done _ _ _ _ _ (get_iio_device_run m i d Hnd Hd)).
  rewrite (bind_done _ _ _ _ _ (load_dev_run m i d Hd)), Hreg. unfold dev_attr, channel_of_attr.
  rewrite (iio_get_channel_missing _ _ _ Hok Hno). by destruct chn.
Qed.

Lemma iio_attr_no_device (m : mem) dev type chn name buf len :
  dev ∉ dev_id <$> devs m -> dev ∉ tp_id <$> trigs m ->
  iio_read_attr device trigger dev type name chn len m = Done ((- ENODEV, []), m) /\
  iio_write_attr w device trigger dev type name chn buf len m = Done (- ENODEV, m).
Proof using.
  intros Hd Ht. unfold iio_read_attr, iio_write_attr, trig_attr, get_iio_device, get_iio_trig_device.
  unfold gets, mbind, cmd_bind.
  rewrite (proj2 (index_where_no_name dev_id _ _ Hd)), (proj2 (index_where_no_name tp_id _ _ Ht)). done.
Qed.
End attributes.

(** ** Triggers *)

Section triggers.
  Context {W : Type}.
  Context (device : positive -> iio_device (iio_mem W)) (trigger : positive -> iio_trigger (iio_mem W)).
  Abbreviation mem := (iio_mem W).
  Abbreviation async_turn := (async_turn device).
  Abbreviation trigger_turn := (trigger_turn device trigger).
  Abbreviation iio_process_async_triggers := (iio_process_async_triggers device).
  Abbreviation iio_process_trigger_type := (iio_process_trigger_type device trigger).

(** The steps of the application between two events. *)
Fixpoint polls (k : nat) : cmd mem unit :=
  match k with
  | O => mret tt
  | S k => _ ← iio_process_async_triggers; polls k
  end.

Definition trig_mem (D : list iio_dev_priv) (T : list iio_trig_priv) (s : cb_mem * W) : mem :=
  IioMem D T s.1 s.2.

(** A handler that leaves the devices and the triggers alone. *)
Definition handler_ok (f : cmd mem Z) (h : cb_mem * W -> cb_mem * W) : Prop :=
  forall D T s, exists r, f (trig_mem D T s) = Done (r, trig_mem D T (h s)).

(** A trigger [j] with one device [i], and a device for every index that is
    not [NO_TRIGGER]. *)
Record one_user (D : list iio_dev_priv) (T : list iio_trig_priv) (i j : nat)
    (d : iio_dev_priv) (t : iio_trig_priv) : Prop := OneUser {
  ou_dev : D !! i = Some d;
  ou_trig : T !! j = Some t;
  ou_idx : trig_idx d = Z.of_nat j;
  ou_count : Z.of_nat (length T) < NO_TRIGGER;
  ou_names : NoDup (tp_name <$> T);
  ou_others : forall k e, D !! k = Some e -> k <> i ->
    trig_idx e = NO_TRIGGER \/ exists n, trig_idx e = Z.of_nat n /\ (n < length T)%nat /\ n <> j;
  ou_quiet : Forall (fun t => triggered t = false) T
}.

Section run.
  Context (D : list iio_dev_priv) (T : list iio_trig_priv) (i j : nat).
  Context (d : iio_dev_priv) (t : iio_trig_priv) (f : nat -> cmd mem Z) (h : cb_mem * W -> cb_mem * W).
  Hypothesis Hone : one_user D T i j d t.
  Hypothesis Hf : trigger_handler (device (dev_descriptor d)) = Some f.
  Hypothesis Hh : handler_ok (f i) h.

(** The triggers once the event is recorded. *)
Definition marked : list iio_trig_priv := <[j := with_triggered true t]> T.

Lemma load_trig_run E (U : list iio_trig_priv) s n u :
  U !! n = Some u -> load_trig n (trig_mem E U s) = Done (u, trig_mem E U s).
Proof using. intros H. unfold load_trig. cbn [trigs trig_mem]. by rewrite H. Qed.

Lemma load_dev_trig_mem U s k e : D !! k = Some e -> load_dev k (trig_mem D U s) = Done (e, trig_mem D U s).
Proof using. by apply (load_dev_run (trig_mem D U s)). Qed.

Lemma set_trig_run U s n u v :
  U !! n = Some u -> set_trig n v (trig_mem D U s) = Done (tt, trig_mem D (<[n := v]> U) s).
Proof using. intros H. unfold set_trig. cbn [trigs trig_mem]. by rewrite H. Qed.

Lemma trig_j : T !! j = Some t /\ triggered t = false /\ Z.of_nat j <> NO_TRIGGER /\ (j < length T)%nat.
Proof using Hone.
  destruct Hone as [_ Ht _ Hc _ _ Hq]. pose proof (lookup_lt_Some _ _ _ Ht).
  splits; [done | by eapply (Forall_lookup_1 _ _ _ _ Hq) | lia | done].
Qed.

(** A device whose trigger did not fire. *)
Lemma async_turn_quiet U s k e :
  D !! k = Some e ->
  (trig_idx e = NO_TRIGGER \/
   exists n u, trig_idx e = Z.of_nat n /\ U !! n = Some u /\ triggered u = false) ->
  async_turn k (trig_mem D U s) = Done (tt, trig_mem D U s).
Proof using.
  intros He Hn. unfold async_turn. rewrite (bind_done _ _ _ _ _ (load_dev_trig_mem U s k e He)).
  destruct (Z.eqb_spec (trig_idx e) NO_TRIGGER) as [E | E]; [done |].
  destruct Hn as [Hn | (n & u & Hn & Hu & Hq)]; [done |].
  rewrite Hn, Nat2Z.id, (bind_done _ _ _ _ _ (load_trig_run D U s n u Hu)), Hq. done.
Qed.

Lemma other_quiet k e b :
  D !! k = Some e -> k <> i ->
  trig_idx e = NO_TRIGGER \/
  exists n u, trig_idx e = Z.of_nat n /\ <[j := with_triggered b t]> T !! n = Some u /\
    triggered u = false.
Proof using Hone.
  intros He Hk. destruct Hone as [_ _ _ _ _ Ho Hq].
  destruct (Ho k e He Hk) as [? | (n & Hn & Hlt & Hnj)]; [by left |]. right.
  destruct (lookup_lt_is_Some_2 T n Hlt) as [u Hu]. exists n, u.
  rewrite list_lookup_insert_ne by done. splits; try done. by eapply (Forall_lookup_1 _ _ _ _ Hq).
Qed.

(** The turn of the device: its handler, and the flag at its own index. *)
Lemma async_turn_fired s :
  async_turn i (trig_mem D marked s)
  = if decide (i < length T)%nat
    then Done (tt, trig_mem D (if decide (i = j) then T else marked) (h s)) else Undef.
Proof using Hf Hh Hone.
  destruct trig_j as (Ht & Hq & Hno & Hj). destruct Hone as [Hd _ Hidx _ _ _ HQ].
  unfold async_turn. rewrite (bind_done _ _ _ _ _ (load_dev_trig_mem marked s i d Hd)), Hidx.
  destruct (Z.eqb_spec (Z.of_nat j) NO_TRIGGER); [done |].
  assert (marked !! j = Some (with_triggered true t)) as Hm by by apply list_lookup_insert_eq.
  rewrite Nat2Z.id, (bind_done _ _ _ _ _ (load_trig_run D marked s j _ Hm)).
  cbn [with_triggered triggered negb]. rewrite Hf. destruct (Hh D marked s) as [r Hr].
  rewrite (bind_done _ _ _ _ _ Hr). destruct (decide (i < length T)%nat) as [Hi | Hi].
  - destruct (decide (i = j)) as [-> | Hij].
    + rewrite (bind_done _ _ _ _ _ (load_trig_run D marked (h s) j _ Hm)).
      rewrite (set_trig_run marked (h s) j _ _ Hm). unfold marked. rewrite list_insert_insert_eq.
      rewrite list_insert_id; [done |]. rewrite Ht. f_equal. destruct t. cbn in *. by subst.
    + destruct (lookup_lt_is_Some_2 T i Hi) as [u Hu].
      assert (marked !! i = Some u) as Hmi by (unfold marked; by rewrite list_lookup_insert_ne).
      rewrite (bind_done _ _ _ _ _ (load_trig_run D marked (h s) i u Hmi)).
      rewrite (set_trig_run marked (h s) i u _ Hmi). rewrite list_insert_id; [done |].
      rewrite Hmi. f_equal. pose proof (Forall_lookup_1 _ _ _ _ HQ Hu). destruct u. cbn in *. by subst.
  - unfold mbind, cmd_bind, load_trig. cbn [trigs trig_mem]. unfold marked.
    by rewrite lookup_ge_None_2 by (rewrite length_insert; lia).
Qed.

Lemma quiet_again : <[j := with_triggered false t]> T = T.
Proof using Hone.
  destruct trig_j as (Ht & Hq & _). apply list_insert_id. rewrite Ht. f_equal. destruct t. cbn in *. by subst.
Qed.

(** One step: nothing if no trigger fired, otherwise the device's turn. *)
Lemma poll_quiet s : iio_process_async_triggers (trig_mem D T s) = Done (tt, trig_mem D T s).
Proof using Hone.
  destruct trig_j as (Ht & Hq & _). unfold IioDevice.iio_process_async_triggers.
  unfold gets, mbind at 1, cmd_bind at 1. cbn [devs trig_mem].
  rewrite <- (Nat.add_0_r (length D)), for_up_skip; [done |]. intros k Hk.
  destruct (lookup_lt_is_Some_2 D (Z.to_nat k)) as [e He]; [lia |].
  apply (async_turn_quiet T s _ e He). destruct (decide (Z.to_nat k = i)) as [Ek | Ek].
  - rewrite Ek in He. right. exists j, t. splits; try done.
    rewrite (ou_dev _ _ _ _ _ _ Hone) in He. injection He as <-. apply (ou_idx _ _ _ _ _ _ Hone).
  - pose proof (other_quiet _ e false He Ek) as H. by rewrite quiet_again in H.
Qed.

Lemma poll_fired s :
  iio_process_async_triggers (trig_mem D marked s)
  = if decide (i < length T)%nat
    then Done (tt, trig_mem D (if decide (i = j) then T else marked) (h s)) else Undef.
Proof using Hf Hh Hone.
  pose proof (lookup_lt_Some _ _ _ (ou_dev _ _ _ _ _ _ Hone)) as Hi.
  pose proof (async_turn_fired s) as Hturn. unfold IioDevice.iio_process_async_triggers.
  unfold gets, mbind at 1, cmd_bind at 1. cbn [devs trig_mem].
  assert (forall (b : bool) k s, 0 <= k < Z.of_nat (length D) -> k <> Z.of_nat i ->
    async_turn (Z.to_nat k) (trig_mem D (<[j := with_triggered b t]> T) s)
    = Done (tt, trig_mem D (<[j := with_triggered b t]> T) s)) as Hskip.
  { intros b k s' Hk Hne. destruct (lookup_lt_is_Some_2 D (Z.to_nat k)) as [e He]; [lia |].
    apply (async_turn_quiet _ s' _ e He). apply (other_quiet _ e b He). lia. }
  destruct (decide (i < length T)%nat).
  - apply (for_up_one _ _ i); [done | by rewrite Nat2Z.id | intros; apply (Hskip true); lia |].
    intros k Hk. destruct (decide (i = j)).
    + rewrite <- quiet_again. apply (Hskip false); lia.
    + apply (Hskip true); lia.
  - rewrite (for_up_at _ _ i) by (done || intros; apply (Hskip true); lia).
    rewrite Nat2Z.id. by rewrite (bind_undef _ _ _ Hturn).
Qed.

Lemma polls_quiet k s : polls k (trig_mem D T s) = Done (tt, trig_mem D T s).
Proof using Hone. induction k as [| k IH]; [done |]. cbn [polls]. by rewrite (bind_done _ _ _ _ _ (poll_quiet s)). Qed.

(** *** The event *)

Lemma trigger_turn_other U s k e :
  D !! k = Some e -> k <> i -> trigger_turn (Z.of_nat j) k (trig_mem D U s) = Done (tt, trig_mem D U s).
Proof using Hone.
  intros He Hk. unfold IioDevice.trigger_turn. rewrite (bind_done _ _ _ _ _ (load_dev_trig_mem U s k e He)).
  destruct trig_j as (_ & _ & Hno & _).
  destruct (Z.eqb_spec (trig_idx e) (Z.of_nat j)) as [E |]; [| done].
  destruct (ou_others _ _ _ _ _ _ Hone k e He Hk) as [? | (n & Hn & _ & Hnj)]; [congruence | lia].
Qed.

Lemma event_run s :
  iio_process_trigger_type (Some (tp_name t)) (trig_mem D T s)
  = Done (0, if is_synchronous (trigger (tp_descriptor t))
             then trig_mem D T (h s) else trig_mem D marked s).
Proof using Hf Hh Hone.
  destruct trig_j as (Ht & Hq & Hno & Hj). pose proof (lookup_lt_Some _ _ _ (ou_dev _ _ _ _ _ _ Hone)) as Hi.
  unfold IioDevice.iio_process_trigger_type, iio_get_trig_idx_by_name.
  unfold gets, mbind at 1, cmd_bind at 1. cbn [trigs trig_mem].
  rewrite (proj2 (index_where_name tp_name T j t (ou_names _ _ _ _ _ _ Hone) Ht)). cbn [idx_or_none].
  destruct (Z.eqb_spec (Z.of_nat j) NO_TRIGGER); [done |].
  unfold mbind at 1, cmd_bind at 1. cbn [devs trig_mem].
  erewrite bind_done; [done |]. apply (for_up_one _ _ i); [done | | |].
  - rewrite Nat2Z.id. unfold IioDevice.trigger_turn.
    rewrite (bind_done _ _ _ _ _ (load_dev_trig_mem T s i d (ou_dev _ _ _ _ _ _ Hone))).
    rewrite (ou_idx _ _ _ _ _ _ Hone), Z.eqb_refl, Nat2Z.id.
    rewrite (bind_done _ _ _ _ _ (load_trig_run D T s j t Ht)).
    destruct (is_synchronous _); [| by apply (set_trig_run T s j t)].
    rewrite Hf. destruct (Hh D T s) as [r Hr]. by rewrite (bind_done _ _ _ _ _ Hr).
  - intros k Hk. destruct (lookup_lt_is_Some_2 D (Z.to_nat k)) as [e He]; [lia |].
    apply (trigger_turn_other _ _ _ e He). lia.
  - intros k Hk. destruct (lookup_lt_is_Some_2 D (Z.to_nat k)) as [e He]; [lia |].
    destruct (is_synchronous _); apply (trigger_turn_other _ _ _ e He); lia.
Qed.

(** The number of times the handler runs in [k] steps after an event that it
    was recorded for. *)
Lemma polls_marked k s : (i < length T)%nat -> i <> j ->
  polls k (trig_mem D marked s) = Done (tt, trig_mem D marked (Nat.iter k h s)).
Proof using Hf Hh Hone.
  intros Hi Hij. revert s. induction k as [| k IH]; intros s; [done |]. cbn [polls].
  pose proof (poll_fired s) as Hp. rewrite decide_True, decide_False in Hp by done.
  rewrite (bind_done _ _ _ _ _ Hp), IH. by rewrite Nat.iter_succ_r.
Qed.
End run.

(** C39: an event of a trigger, followed by [k] steps of the application, makes
    the handler of the one device that uses the trigger run: exactly once if
    the trigger is synchronous, or if the trigger and the device happen to
    have the same index (and [k] is not 0); but in every step, for ever,
    otherwise, because the flag that is cleared is the one at the index of the
    device; and where there is no trigger of that index the first step is
    undefined: after the handler the flag is written past the end of the
    triggers. *)
Theorem iio_event_handled D T i j d t f h s k :
  one_user D T i j d t -> trigger_handler (device (dev_descriptor d)) = Some f -> handler_ok (f i) h ->
  let run := (_ ← iio_process_trigger_type (Some (tp_name t)); polls k) (trig_mem D T s) in
  if is_synchronous (trigger (tp_descriptor t)) then run = Done (tt, trig_mem D T (h s)) else
  (i = j -> (0 < k)%nat -> run = Done (tt, trig_mem D T (h s))) /\
  (i <> j -> (i < length T)%nat ->
     run = Done (tt, trig_mem D (<[j := with_triggered true t]> T) (Nat.iter k h s))) /\
  ((length T <= i)%nat -> (0 < k)%nat -> run = Undef).
Proof using.
  intros Hone Hf Hh run. subst run.
  rewrite (bind_done _ _ _ _ _ (event_run D T i j d t f h Hone Hf Hh s)).
  pose proof (poll_fired D T i j d t f h Hone Hf Hh s) as Hp.
  destruct (trig_j D T i j d t Hone) as (_ & _ & _ & Hj).
  destruct (is_synchronous _); [by apply (polls_quiet D T i j d t Hone) |]. splits.
  - intros <- Hk. destruct k as [| k]; [lia |]. cbn [polls]. rewrite !decide_True in Hp by done.
    rewrite (bind_done _ _ _ _ _ Hp). by apply (polls_quiet D T i i d t Hone).
  - intros Hij Hi. by apply (polls_marked D T i j d t f h Hone Hf Hh).
  - intros Hi Hk. destruct k as [| k]; [lia |]. cbn [polls]. rewrite decide_False in Hp by lia.
    apply (bind_undef _ _ _ Hp).
Qed.
End triggers.

(** ** Instances *)

(** Two differential channels, whose identifiers have a common prefix, and an
    attribute of each. *)
Definition ex_attr (name : string) (v : Z) : iio_attribute (iio_mem nat) :=
  IioAttribute (str name) v IIO_SEPARATE
    (Some (fun _ len ch p => mret (p + default 0 (ci_num <$> ch), [48 + len]))) None.

Definition ex_channel (n m : Z) (v : Z) : iio_channel (iio_mem nat) :=
  IioChannel None IIO_VOLTAGE n m 0 0 None (Some [ex_attr "raw" v; ex_attr "scale" (v + 1)])
    false false true true.

Definition ex_device (handler : option (nat -> cmd (iio_mem nat) Z)) : iio_device (iio_mem nat) :=
  IioDevice 2 [ex_channel 1 2 10; ex_channel 1 20 30] None None None None None None None None handler
    None None.

Definition ex_dev (idx : Z) : iio_dev_priv :=
  DevPriv (str "iio:device0") [] None 0 1
    (BufferPriv (IioBuffer 0 0 0 0 IIO_DIRECTION_INPUT None (CyclicInfo false 0)) None None 0 false false) idx.

Definition ex_trigger (sync : bool) : iio_trigger (iio_mem nat) := IioTrigger sync None None None.

Definition ex_trig (name : string) : iio_trig_priv :=
  TrigPriv (str "trigger" ++ str name) (str name) None 1 false.

Definition ex_world (n : nat) : cb_mem * nat :=
  (CbMem (Heap ∅ 1%positive []) (Heap ∅ 1%positive []), n).

Lemma ex_device_ok h : channels_ok (ex_device h).
Proof.
  split; [done | done | |].
  { apply Forall_cons_2; [| apply Forall_singleton]; cbn; unfold sint; lia. }
  apply NoDup_cons_2; [| apply NoDup_singleton]. rewrite list_elem_of_singleton. discriminate.
Qed.

Lemma iio_attr_correct_witness :
  iio_read_attr (fun _ => ex_device None) (fun _ => ex_trigger false) (str "iio:device0")
    IIO_ATTR_TYPE_CH_IN (str "scale") (str "voltage1-voltage20") 7
    (trig_mem [ex_dev NO_TRIGGER] [] (ex_world 0))
  = Done ((32, [55]), trig_mem [ex_dev NO_TRIGGER] [] (ex_world 0)).
Proof.
  refine (proj1 (proj1 (iio_attr_correct 64 (fun _ => ex_device None) (fun _ => ex_trigger false)
    (trig_mem [ex_dev NO_TRIGGER] [] (ex_world 0)) 0 (ex_dev NO_TRIGGER) IIO_ATTR_TYPE_CH_IN
    (str "voltage1-voltage20") [ex_attr "raw" 30; ex_attr "scale" 31] _ (str "scale") [] 7
    _ _ (ex_device_ok None) (of_channel _ 1 (ex_channel 1 20 30) _ _ _) _ _ _) 1%nat (ex_attr "scale" 31) _ _));
    try reflexivity; apply (bool_decide_unpack _); by vm_compute.
Defined.

(** The handler counts its calls. *)
Definition ex_handler : nat -> cmd (iio_mem nat) Z := fun _ =>
  _ ← modify (fun m => IioMem (devs m) (trigs m) (iio_cbs m) (S (iio_world m))); mret 0.

Lemma ex_handler_ok i : handler_ok (ex_handler i) (fun s => (s.1, S s.2)).
Proof. intros D T s. by exists 0. Qed.

Lemma ex_one_user :
  one_user [ex_dev 1] [ex_trig "a"; ex_trig "b"] 0 1 (ex_dev 1) (ex_trig "b").
Proof.
  split; [done | done | done | by vm_compute | apply (bool_decide_unpack _); by vm_compute | |
    repeat constructor].
  intros [| k] e He Hk; [done |]. by apply lookup_lt_Some in He; cbn in He; lia.
Qed.

(** The only device uses the second trigger: one event, three calls. *)
Lemma iio_event_handled_witness :
  (_ ← iio_process_trigger_type (fun _ => ex_device (Some ex_handler)) (fun _ => ex_trigger false)
         (Some (str "b"));
   polls (fun _ => ex_device (Some ex_handler)) 3)
    (trig_mem [ex_dev 1] [ex_trig "a"; ex_trig "b"] (ex_world 0))
  = Done (tt, trig_mem [ex_dev 1] [ex_trig "a"; with_triggered true (ex_trig "b")] (ex_world 3)).
Proof.
  refine (proj1 (proj2 (iio_event_handled (fun _ => ex_device (Some ex_handler)) (fun _ => ex_trigger false)
    _ _ 0 1 (ex_dev 1) (ex_trig "b") ex_handler _ (ex_world 0) 3 ex_one_user _ (ex_handler_ok 0))) _ _);
    [reflexivity | discriminate | apply Nat.ltb_lt; reflexivity].
Defined.
