(* ===== verification/IioTrigger.v ===== *)
(** * Hardware and software triggers: [iio/iio_trigger.c]

    What joins the interrupts of [drivers/api/no_os_irq.c] to the triggers of
    [iio/iio.c].  A hardware trigger registers [iio_hw_trig_handler] with its
    controller, with itself as the context; the interrupt makes the application
    process the trigger of its name. *)
From Stdlib Require Import String.
From S2P Require Import Prelude Bus Dispatch Irq CString CircularBuffer IioDevice.

(** ** Data *)

Definition TRIG_MAX_NAME_SIZE : nat := 20.

Record iio_hw_trig : Type := HwTrig {
  ht_iio_desc : ptr;
  ht_irq_ctrl : ptr;
  ht_irq_id : Z;
  ht_irq_trig_lvl : no_os_irq_trig_level;
  ht_name : list Z
}.

Record iio_hw_trig_cb_info : Type := TrigCbInfo {
  ci_event : no_os_irq_event;
  ci_peripheral : no_os_irq_peripheral;
  ci_handle : Z
}.

Record iio_hw_trig_init_param : Type := HwTrigInit {
  hi_iio_desc : ptr;
  hi_irq_ctrl : ptr;
  hi_irq_id : Z;
  hi_irq_trig_lvl : no_os_irq_trig_level;
  hi_cb_info : iio_hw_trig_cb_info;
  hi_name : option (list Z)
}.

Record iio_sw_trig : Type := SwTrig { st_iio_desc : ptr; st_name : list Z }.

Record iio_sw_trig_init_param : Type := SwTrigInit { si_iio_desc : ptr; si_name : option (list Z) }.

(** What [calloc] gives. *)
Definition hw_trig0 : iio_hw_trig :=
  HwTrig None None 0 NO_OS_IRQ_LEVEL_LOW (replicate (S TRIG_MAX_NAME_SIZE) 0).

Definition sw_trig0 : iio_sw_trig := SwTrig None (replicate (S TRIG_MAX_NAME_SIZE) 0).

(** [strncpy(name, s, TRIG_MAX_NAME_SIZE)] into a field with one byte more. *)
Definition copy_name (s field : list Z) : list Z :=
  (strncpy TRIG_MAX_NAME_SIZE s ++ drop TRIG_MAX_NAME_SIZE field)%list.

(** The triggers, the controllers with their platform's state, and the
    application, which is the one that every [iio_desc] points to. *)
Record trig_env (V W : Type) : Type := TrigEnv {
  te_hw : heap iio_hw_trig;
  te_sw : heap iio_sw_trig;
  te_irq : platform no_os_irq_ctrl_desc V;
  te_app : iio_mem W
}.
Arguments TrigEnv {V W} _ _ _ _.
Arguments te_hw {V W} _.
Arguments te_sw {V W} _.
Arguments te_irq {V W} _.
Arguments te_app {V W} _.

(** ** Operations *)

Section triggers.
  (** The drivers of the controllers and of the application, and the address of
      [iio_hw_trig_handler]. *)
  Context {V W : Type} (driver : positive -> no_os_irq_platform_ops V) (handler : positive).
  Context (device : positive -> iio_device (iio_mem W)) (trigger : positive -> iio_trigger (iio_mem W)).
  Abbreviation st := (trig_env V W).

Definition on_hw {A} : cmd (heap iio_hw_trig) A -> cmd st A :=
  zoom te_hw (fun h s => TrigEnv h (te_sw s) (te_irq s) (te_app s)).
Definition on_sw {A} : cmd (heap iio_sw_trig) A -> cmd st A :=
  zoom te_sw (fun h s => TrigEnv (te_hw s) h (te_irq s) (te_app s)).
Definition on_irq {A} : cmd (platform no_os_irq_ctrl_desc V) A -> cmd st A :=
  zoom te_irq (fun p s => TrigEnv (te_hw s) (te_sw s) p (te_app s)).
Definition on_application {A} : cmd (iio_mem W) A -> cmd st A :=
  zoom te_app (fun m s => TrigEnv (te_hw s) (te_sw s) (te_irq s) m).

Definition is_gpio (e : no_os_irq_event) : bool := match e with NO_OS_EVT_GPIO => true | _ => false end.

(** The label [error]. *)
Definition drop_hw (trig_desc : ptr) (ret : Z) : cmd st (Z * ptr) :=
  _ ← on_hw (hfree trig_desc); mret (ret, None).

Definition iio_hw_trig_init (init_param : iio_hw_trig_init_param) : cmd st (Z * ptr) :=
  match hi_name init_param with
  | None => mret (- EINVAL, None)
  | Some name =>
      trig_desc ← on_hw (halloc hw_trig0);
      match trig_desc with
      | None => mret (- ENOMEM, None)
      | Some _ =>
          t ← on_hw (hload trig_desc);
          _ ← on_hw (hstore trig_desc
                (HwTrig (hi_iio_desc init_param) (hi_irq_ctrl init_param) (hi_irq_id init_param)
                   (hi_irq_trig_lvl init_param) (copy_name name (ht_name t))));
          d ← on_hw (hload trig_desc);
          let info := hi_cb_info init_param in
          let irq_cb := CallbackDesc (Some handler) trig_desc (ci_event info) (ci_peripheral info)
                          (ci_handle info) in
          ret ← on_irq (no_os_irq_register_callback driver (ht_irq_ctrl d) (ht_irq_id d) (Some irq_cb));
          if truthy ret then drop_hw trig_desc ret else
          ret ← (if is_gpio (ci_event info)
                 then on_irq (no_os_irq_trigger_level_set driver (ht_irq_ctrl d) (ht_irq_id d) (ht_irq_trig_lvl d))
                 else mret 0);
          if truthy ret then drop_hw trig_desc ret else
          mret (0, trig_desc)
      end
  end.

Definition iio_trig_enable (trig : ptr) : cmd st Z :=
  match trig with
  | None => mret (- EINVAL)
  | Some _ =>
      desc ← on_hw (hload trig);
      on_irq (no_os_irq_enable driver (ht_irq_ctrl desc) (ht_irq_id desc))
  end.

Definition iio_trig_disable (trig : ptr) : cmd st Z :=
  match trig with
  | None => mret (- EINVAL)
  | Some _ =>
      desc ← on_hw (hload trig);
      on_irq (no_os_irq_disable driver (ht_irq_ctrl desc) (ht_irq_id desc))
  end.

(** [iio_process_trigger_type] reads the application without a check. *)
Definition process (iio_desc : ptr) (name : list Z) : cmd st Z :=
  match iio_desc with
  | None => undef
  | Some _ => name ← the (c_str name); on_application (iio_process_trigger_type device trigger (Some name))
  end.

Definition iio_hw_trig_handler (trig : ptr) : cmd st unit :=
  match trig with
  | None => mret tt
  | Some _ => desc ← on_hw (hload trig); _ ← process (ht_iio_desc desc) (ht_name desc); mret tt
  end.

Definition iio_hw_trig_remove (trig : ptr) : cmd st Z :=
  match trig with
  | None => mret 0
  | Some _ => _ ← on_hw (hfree trig); mret 0
  end.

Definition iio_sw_trig_init (init_param : iio_sw_trig_init_param) : cmd st (Z * ptr) :=
  match si_iio_desc init_param, si_name init_param with
  | Some _, Some name =>
      trig_desc ← on_sw (halloc sw_trig0);
      match trig_desc with
      | None => mret (- ENOMEM, None)
      | Some _ =>
          t ← on_sw (hload trig_desc);
          _ ← on_sw (hstore trig_desc (SwTrig (si_iio_desc init_param) (copy_name name (st_name t))));
          mret (0, trig_desc)
      end
  | _, _ => mret (- EINVAL, None)
  end.

(** The attribute [trigger_now]: what is written does not matter. *)
Definition iio_sw_trig_handler (trig : ptr) : cmd st Z :=
  match trig with
  | None => mret (- EINVAL)
  | Some _ => desc ← on_sw (hload trig); process (st_iio_desc desc) (st_name desc)
  end.

Definition iio_sw_trig_remove (trig : ptr) : cmd st Z :=
  match trig with
  | None => mret 0
  | Some _ => _ ← on_sw (hfree trig); mret 0
  end.
End triggers.

(** ** What a controller's platform does *)

(** It keeps the callback of an interrupt from a registration that succeeds,
    and its other functions leave the callbacks alone. *)
Class IrqLaws {V} (ops : no_os_irq_platform_ops V) (callbacks : V -> gmap Z no_os_callback_desc) : Prop := {
  register_law : exists f, irq_ops_register_callback ops = Some f /\
    forall ctrl id cb s, exists r v, f ctrl id (Some cb) s = Done (r, (s.1, v)) /\
      callbacks v = if decide (r = 0) then <[id := cb]> (callbacks s.2) else callbacks s.2;
  level_law : exists f, irq_ops_trigger_level_set ops = Some f /\
    forall ctrl id lvl s, exists r v, f ctrl id lvl s = Done (r, (s.1, v)) /\ callbacks v = callbacks s.2;
  enable_law : exists f, irq_ops_enable ops = Some f /\
    forall ctrl id s, exists r v, f ctrl id s = Done (r, (s.1, v)) /\ callbacks v = callbacks s.2;
  disable_law : exists f, irq_ops_disable ops = Some f /\
    forall ctrl id s, exists r v, f ctrl id s = Done (r, (s.1, v)) /\ callbacks v = callbacks s.2
}.

Section events.
  Context {V W : Type} (driver : positive -> no_os_irq_platform_ops V) (handler : positive).
  Context (device : positive -> iio_device (iio_mem W)) (trigger : positive -> iio_trigger (iio_mem W)).
  Context (callbacks : V -> gmap Z no_os_callback_desc).
  Abbreviation st := (trig_env V W).
  Abbreviation iio_hw_trig_init := (iio_hw_trig_init (W := W) driver handler).
  Abbreviation iio_hw_trig_handler := (iio_hw_trig_handler (V := V) device trigger).

(** An interrupt: the controller calls the function that was registered, if it
    is the handler of triggers. *)
Definition interrupt (id : Z) : cmd st unit :=
  cbs ← gets (fun s => callbacks (te_irq s).2);
  match cbs !! id with
  | Some cb => if decide (cb_callback cb = Some handler) then iio_hw_trig_handler (cb_ctx cb) else mret tt
  | None => mret tt
  end.

(** The controller of a trigger. *)
Definition controlled (s : st) (c ops : positive) : Prop :=
  exists cd, cells (te_irq s).1 !! c = Some cd /\ qd_platform_ops cd = Some ops.

Definition with_app (m : iio_mem W) (s : st) : st := TrigEnv (te_hw s) (te_sw s) (te_irq s) m.

(** The trigger that [prm] makes, and what is registered for it. *)
Definition made (prm : iio_hw_trig_init_param) (name : list Z) : iio_hw_trig :=
  HwTrig (hi_iio_desc prm) (hi_irq_ctrl prm) (hi_irq_id prm) (hi_irq_trig_lvl prm)
    (strncpy TRIG_MAX_NAME_SIZE name ++ [0]).

Definition its_callback (prm : iio_hw_trig_init_param) (p : positive) : no_os_callback_desc :=
  CallbackDesc (Some handler) (Some p) (ci_event (hi_cb_info prm)) (ci_peripheral (hi_cb_info prm))
    (ci_handle (hi_cb_info prm)).

Context (ops : positive) {HL : IrqLaws (driver ops) callbacks}.

Lemma irq_dispatch_run {F} (sel : no_os_irq_platform_ops V -> option F) (s : st) c f (k : F -> cmd _ Z) :
  controlled s c ops -> sel (driver ops) = Some f -> irq_dispatch driver sel (Some c) k (te_irq s) = k f (te_irq s).
Proof using.
  intros (cd & Hc & Ho) Hs. unfold irq_dispatch.
  rewrite (dispatch_run _ _ _ _ _ _ _ _ _ (dev_load_done _ _ _ Hc)).
  unfold dispatch_result. by rewrite Ho, Hs.
Qed.

Lemma line_register_run (s : st) c id cb :
  controlled s c ops ->
  exists r v, no_os_irq_register_callback driver (Some c) id (Some cb) (te_irq s) = Done (r, ((te_irq s).1, v)) /\
    callbacks v = if decide (r = 0) then <[id := cb]> (callbacks (te_irq s).2) else callbacks (te_irq s).2.
Proof using HL.
  intros Hc. destruct register_law as (f & Hf & H). destruct (H (Some c) id cb (te_irq s)) as (r & v & E & Hv).
  exists r, v. split; [| done]. unfold no_os_irq_register_callback. by rewrite (irq_dispatch_run _ s c f _ Hc Hf).
Qed.

Lemma level_run (s : st) c id lvl :
  controlled s c ops ->
  exists r v, no_os_irq_trigger_level_set driver (Some c) id lvl (te_irq s) = Done (r, ((te_irq s).1, v)) /\
    callbacks v = callbacks (te_irq s).2.
Proof using HL.
  intros Hc. destruct level_law as (f & Hf & H). destruct (H (Some c) id lvl (te_irq s)) as (r & v & E & Hv).
  exists r, v. split; [| done]. unfold no_os_irq_trigger_level_set. by rewrite (irq_dispatch_run _ s c f _ Hc Hf).
Qed.

(** There is no memory for the trigger, or the controller does not take its
    callback. *)
Definition refused (prm : iio_hw_trig_init_param) (s : st) : Prop :=
  alloc_fails (te_hw s) = true \/
  exists r v, no_os_irq_register_callback driver (hi_irq_ctrl prm) (hi_irq_id prm)
      (Some (its_callback prm (next_block (te_hw s)))) (te_irq s) = Done (r, v) /\ r <> 0.

(** A trigger that was made, and what is left when it was not: nothing, but its
    callback if that was taken. *)
Definition init_outcome (prm : iio_hw_trig_init_param) (name : list Z) (s : st) (r : Z) (q : ptr) (s1 : st) : Prop :=
  let p := next_block (te_hw s) in
  let registered := callbacks (te_irq s1).2 = <[hi_irq_id prm := its_callback prm p]> (callbacks (te_irq s).2) in
  te_sw s1 = te_sw s /\ te_app s1 = te_app s /\ (te_irq s1).1 = (te_irq s).1 /\
  if decide (r = 0)
  then q = Some p /\ cells (te_hw s1) = <[p := made prm name]> (cells (te_hw s)) /\ registered
  else q = None /\ cells (te_hw s1) = cells (te_hw s) /\
       (refused prm s /\ callbacks (te_irq s1).2 = callbacks (te_irq s).2 \/
        ~ refused prm s /\ ci_event (hi_cb_info prm) = NO_OS_EVT_GPIO /\ registered).

Lemma iio_hw_trig_init_run prm name s c :
  hi_name prm = Some name -> hi_irq_ctrl prm = Some c -> heap_ok (te_hw s) -> controlled s c ops ->
  exists r q s1, iio_hw_trig_init prm s = Done ((r, q), s1) /\ init_outcome prm name s r q s1.
Proof using HL.
  intros Hname Hctrl Hheap Hc. unfold IioTrigger.iio_hw_trig_init. rewrite Hname. destruct (alloc_fails (te_hw s)) eqn:Ea.
  { erewrite bind_done by (eapply zoom_done, halloc_fail, Ea). eexists _, _, _. split; [done |].
    repeat split. left. split; [by left | done]. }
  set (p := next_block (te_hw s)).
  erewrite bind_done by (eapply zoom_done, halloc_done, Ea). cbv beta iota.
  erewrite bind_done by (eapply zoom_done, hload_done; apply lookup_insert_eq).
  erewrite bind_done by (eapply zoom_done, hstore_done; apply lookup_insert_eq).
  erewrite bind_done by (eapply zoom_done, hload_done; apply lookup_insert_eq).
  cbn [te_hw te_sw te_irq te_app cells next_block oom ht_irq_ctrl ht_irq_id ht_irq_trig_lvl]. rewrite Hctrl.
  destruct (line_register_run s c (hi_irq_id prm) (its_callback prm p) Hc) as (r & v & E & Hv).
  erewrite bind_done by (eapply zoom_done, E). cbn [te_hw te_sw te_irq te_app].
  replace (HwTrig _ (Some c) _ _ _) with (made prm name) by (unfold made; by rewrite Hctrl).
  set (s2 := TrigEnv _ _ _ _).
  assert (forall v' e, let s3 : st := TrigEnv (te_hw s2) (te_sw s) ((te_irq s).1, v') (te_app s) in
    exists s4, drop_hw (Some p) e s3 = Done ((e, None), s4) /\ te_sw s4 = te_sw s /\ te_app s4 = te_app s /\
      te_irq s4 = ((te_irq s).1, v') /\ cells (te_hw s4) = cells (te_hw s)) as Hdrop.
  { intros v' e s3. unfold drop_hw. erewrite bind_done by (eapply zoom_done, hfree_done; apply lookup_insert_eq).
    eexists. split; [done |]. splits; try done. cbn. rewrite insert_insert_eq.
    apply delete_insert_id. by apply heap_ok_fresh. }
  unfold truthy at 1. destruct (Z.eqb_spec r 0) as [-> | Hr]; cbn [negb].
  2:{ destruct (Hdrop v r) as (s4 & E4 & H1 & H2 & H3 & H4). eexists _, _, _. split; [exact E4 |].
      unfold init_outcome. rewrite H1, H2, H3, H4, decide_False by done. rewrite decide_False in Hv by done.
      repeat split; try done. left. split; [right; exists r, ((te_irq s).1, v); by rewrite Hctrl | done]. }
  rewrite decide_True in Hv by done.
  assert (exists r2 v2, (if is_gpio (ci_event (hi_cb_info prm))
      then on_irq (no_os_irq_trigger_level_set driver (Some c) (hi_irq_id prm) (hi_irq_trig_lvl prm))
      else mret 0) s2 = Done (r2, TrigEnv (te_hw s2) (te_sw s) ((te_irq s).1, v2) (te_app s)) /\
      callbacks v2 = callbacks v /\ (r2 = 0 \/ ci_event (hi_cb_info prm) = NO_OS_EVT_GPIO)) as (r2 & v2 & E2 & Hv2 & Hr2).
  { destruct (is_gpio _) eqn:Eg; [| exists 0, v; splits; [done | done | by left]].
    destruct (level_run s2 c (hi_irq_id prm) (hi_irq_trig_lvl prm) Hc) as (r2 & v2 & E2 & Hv2). exists r2, v2.
    splits; [by apply zoom_done with (1 := E2) | done | right; by destruct (ci_event _)]. }
  rewrite (bind_done _ _ _ _ _ E2). unfold truthy. destruct (Z.eqb_spec r2 0) as [-> | Hr0]; cbn [negb].
  - eexists _, _, _. split; [done |]. unfold init_outcome. cbn. rewrite Hv2, Hv, insert_insert_eq. by splits.
  - destruct (Hdrop v2 r2) as (s4 & E4 & H1 & H2 & H3 & H4). eexists _, _, _. split; [exact E4 |].
    destruct Hr2 as [? | Hg]; [done |]. unfold init_outcome. rewrite H1, H2, H3, H4, decide_False by done.
    cbn [fst snd]. rewrite Hv2, Hv. repeat split; try done. right. split; [| done].
    intros [? | (r & v' & E' & Hr)]; [congruence |]. rewrite Hctrl in E'. fold p in E'. rewrite E in E'. by injection E' as <- _.
Qed.

(** *** The interrupt *)

Lemma process_run a field name (s : st) r m :
  c_str field = Some name -> iio_process_trigger_type device trigger (Some name) (te_app s) = Done (r, m) ->
  process device trigger (Some a) field s = Done (r, with_app m s).
Proof using.
  intros Hf Hm. unfold process. rewrite Hf. erewrite bind_done by done. by apply zoom_done with (1 := Hm).
Qed.

Lemma interrupt_handler (s : st) id prm p :
  callbacks (te_irq s).2 !! id = Some (its_callback prm p) -> interrupt id s = iio_hw_trig_handler (Some p) s.
Proof using.
  intros Hc. unfold interrupt. erewrite bind_done by done. rewrite Hc. cbn [its_callback cb_callback cb_ctx].
  by rewrite decide_True.
Qed.

Lemma interrupt_made (s : st) prm p name a r m :
  callbacks (te_irq s).2 !! hi_irq_id prm = Some (its_callback prm p) ->
  cells (te_hw s) !! p = Some (made prm name) -> hi_iio_desc prm = Some a -> 0 ∉ name ->
  iio_process_trigger_type device trigger (Some (take TRIG_MAX_NAME_SIZE name)) (te_app s) = Done (r, m) ->
  interrupt (hi_irq_id prm) s = Done (tt, with_app m s).
Proof using.
  intros Hc Hp Ha H0 Hm. rewrite (interrupt_handler s _ prm p Hc). unfold IioTrigger.iio_hw_trig_handler.
  rewrite (bind_done _ _ s (made prm name) s).
  2:{ unfold on_hw. rewrite (zoom_done _ _ _ _ _ _ (hload_done _ _ _ Hp)). by destruct s. }
  cbn [made ht_iio_desc ht_name]. rewrite Ha.
  by rewrite (bind_done _ _ _ _ _ (process_run a _ _ s r m (c_str_field _ _ H0) Hm)).
Qed.

(** The context of a callback that outlives its trigger. *)
Lemma interrupt_dangling (s : st) prm p :
  callbacks (te_irq s).2 !! hi_irq_id prm = Some (its_callback prm p) -> cells (te_hw s) !! p = None ->
  interrupt (hi_irq_id prm) s = Undef.
Proof using.
  intros Hc Hp. rewrite (interrupt_handler s _ prm p Hc). unfold IioTrigger.iio_hw_trig_handler.
  apply bind_undef. unfold on_hw, zoom, hload. cbn. by rewrite Hp.
Qed.

Lemma process_unknown name (m : iio_mem W) :
  name ∉ tp_name <$> trigs m -> iio_process_trigger_type device trigger (Some name) m = Done (- EINVAL, m).
Proof using.
  intros Hn. unfold iio_process_trigger_type, iio_get_trig_idx_by_name.
  erewrite bind_done by done. by rewrite (proj2 (index_where_no_name tp_name _ _ Hn)).
Qed.

(** What an interrupt does once a trigger of the name [name] is there. *)
Definition fires (name : list Z) (j : nat) (D : list iio_dev_priv) (T : list iio_trig_priv) (t : iio_trig_priv)
    (h : cb_mem * W -> cb_mem * W) (x : cb_mem * W) : iio_mem W :=
  if decide (length name <= TRIG_MAX_NAME_SIZE)%nat
  then if is_synchronous (trigger (tp_descriptor t)) then trig_mem D T (h x)
       else trig_mem D (<[j := with_triggered true t]> T) x
  else trig_mem D T x.

Lemma iio_hw_trig_event_run prm s c a r q s1 D T i j d t f h x :
  hi_name prm = Some (tp_name t) -> hi_iio_desc prm = Some a -> heap_ok (te_hw s) ->
  0 ∉ tp_name t -> te_app s = trig_mem D T x -> one_user D T i j d t ->
  trigger_handler (device (dev_descriptor d)) = Some f -> handler_ok (f i) h ->
  ((TRIG_MAX_NAME_SIZE < length (tp_name t))%nat -> take TRIG_MAX_NAME_SIZE (tp_name t) ∉ tp_name <$> T) ->
  hi_irq_ctrl prm = Some c -> init_outcome prm (tp_name t) s r q s1 ->
  if decide (r = 0)
  then interrupt (hi_irq_id prm) s1 = Done (tt, with_app (fires (tp_name t) j D T t h x) s1) /\
       exists s2, iio_hw_trig_remove q s1 = Done (0, s2) /\ cells (te_hw s2) = cells (te_hw s) /\
         interrupt (hi_irq_id prm) s2 = Undef
  else cells (te_hw s1) = cells (te_hw s) /\
       (refused prm s -> callbacks (te_irq s1).2 = callbacks (te_irq s).2) /\
       (~ refused prm s -> ci_event (hi_cb_info prm) = NO_OS_EVT_GPIO /\ interrupt (hi_irq_id prm) s1 = Undef).
Proof using.
  intros Hname Ha Hheap H0 Happ Hone Hf Hh Hlong Hctrl (Hsw & Happ1 & Hirq & H).
  pose proof (heap_ok_fresh _ Hheap) as Hfresh. destruct (decide (r = 0)) as [-> | Hr].
  - destruct H as (-> & Hcells & Hreg).
    assert (callbacks (te_irq s1).2 !! hi_irq_id prm = Some (its_callback prm (next_block (te_hw s)))) as Hcb
      by (rewrite Hreg; apply lookup_insert_eq).
    assert (cells (te_hw s1) !! next_block (te_hw s) = Some (made prm (tp_name t))) as Hp
      by (rewrite Hcells; apply lookup_insert_eq).
    split.
    + unfold fires. destruct (decide _) as [Hle | Hgt].
      * eapply interrupt_made; [exact Hcb | exact Hp | exact Ha | exact H0 |]. rewrite take_ge by done.
        rewrite Happ1, Happ, (event_run device trigger D T i j d t f h Hone Hf Hh x).
        by destruct (is_synchronous _).
      * eapply interrupt_made; [exact Hcb | exact Hp | exact Ha | exact H0 |].
        rewrite Happ1, Happ. apply process_unknown, Hlong. lia.
    + unfold iio_hw_trig_remove. erewrite bind_done by (eapply zoom_done, hfree_done; exact Hp).
      eexists. split; [done |]. split.
      * cbn. rewrite Hcells. by apply delete_insert_id.
      * apply (interrupt_dangling _ prm (next_block (te_hw s))); [exact Hcb | apply lookup_delete_eq].
  - destruct H as (-> & Hcells & [[Href Hold] | (Hnot & Hgpio & Hreg)]); (split; [done |]); [done |].
    split; [done |]. intros _. split; [done |].
    apply (interrupt_dangling _ prm (next_block (te_hw s))); [rewrite Hreg; apply lookup_insert_eq |].
    by rewrite Hcells.
Qed.

(** C25: initialising a hardware trigger succeeds, or gives its memory back.
    When it succeeded, the interrupt of its line makes the one device that uses
    the trigger of its name handle the event, or marks the trigger if that is
    not synchronous; a name of more than 20 characters is cut off, and nothing
    happens.  But the callback stays registered: an interrupt after
    [iio_hw_trig_remove] uses the freed trigger, and so does one after an
    initialisation that failed, unless there was no memory or the controller
    did not take the callback: then it failed at the level of a GPIO. *)
Theorem iio_hw_trig_event prm s c a D T i j d t f h x :
  hi_name prm = Some (tp_name t) -> hi_iio_desc prm = Some a -> hi_irq_ctrl prm = Some c ->
  heap_ok (te_hw s) -> controlled s c ops -> 0 ∉ tp_name t -> te_app s = trig_mem D T x ->
  one_user D T i j d t -> trigger_handler (device (dev_descriptor d)) = Some f -> handler_ok (f i) h ->
  ((TRIG_MAX_NAME_SIZE < length (tp_name t))%nat -> take TRIG_MAX_NAME_SIZE (tp_name t) ∉ tp_name <$> T) ->
  exists r q s1, iio_hw_trig_init prm s = Done ((r, q), s1) /\
    if decide (r = 0)
    then interrupt (hi_irq_id prm) s1 = Done (tt, with_app (fires (tp_name t) j D T t h x) s1) /\
         exists s2, iio_hw_trig_remove q s1 = Done (0, s2) /\ cells (te_hw s2) = cells (te_hw s) /\
           interrupt (hi_irq_id prm) s2 = Undef
    else cells (te_hw s1) = cells (te_hw s) /\
           (refused prm s -> callbacks (te_irq s1).2 = callbacks (te_irq s).2) /\
         (~ refused prm s -> ci_event (hi_cb_info prm) = NO_OS_EVT_GPIO /\ interrupt (hi_irq_id prm) s1 = Undef).
Proof using HL.
  intros Hname Ha Hctrl Hheap Hc H0 Happ Hone Hf Hh Hlong.
  destruct (iio_hw_trig_init_run prm _ s c Hname Hctrl Hheap Hc) as (r & q & s1 & E & Ho).
  exists r, q, s1. split; [done |]. by eapply (iio_hw_trig_event_run prm s c a).
Qed.

(** A software trigger is processed whenever [trigger_now] is written, whatever
    is written, under the first characters of its name; after its removal the
    attribute's handler uses the freed trigger. *)
Lemma iio_sw_trig_run prm name a (s : st) :
  si_iio_desc prm = Some a -> si_name prm = Some name -> heap_ok (te_sw s) -> 0 ∉ name ->
  exists r q s1, iio_sw_trig_init prm s = Done ((r, q), s1) /\ te_app s1 = te_app s /\
    if decide (r = 0)
    then (forall r' m,
            iio_process_trigger_type device trigger (Some (take TRIG_MAX_NAME_SIZE name)) (te_app s) = Done (r', m) ->
            iio_sw_trig_handler device trigger q s1 = Done (r', with_app m s1)) /\
         exists s2, iio_sw_trig_remove q s1 = Done (0, s2) /\ cells (te_sw s2) = cells (te_sw s) /\
           iio_sw_trig_handler device trigger q s2 = Undef
    else q = None /\ cells (te_sw s1) = cells (te_sw s).
Proof using.
  intros Ha Hname Hheap H0. unfold iio_sw_trig_init. rewrite Ha, Hname. destruct (alloc_fails (te_sw s)) eqn:Ea.
  { erewrite bind_done by (eapply zoom_done, halloc_fail, Ea). by eexists _, _, _. }
  erewrite bind_done by (eapply zoom_done, halloc_done, Ea). cbv beta iota.
  erewrite bind_done by (eapply zoom_done, hload_done; apply lookup_insert_eq).
  erewrite bind_done by (eapply zoom_done, hstore_done; apply lookup_insert_eq).
  eexists _, _, _. split; [done |]. split; [done |]. rewrite decide_True by done. split.
  - intros r' m Hm. unfold iio_sw_trig_handler.
    erewrite bind_done by (eapply zoom_done, hload_done; apply lookup_insert_eq). cbn [st_iio_desc st_name].
    cbn [te_hw te_sw te_irq te_app].
    by apply (process_run a _ (take TRIG_MAX_NAME_SIZE name) _ r' m (c_str_field _ _ H0)).
  - unfold iio_sw_trig_remove. erewrite bind_done by (eapply zoom_done, hfree_done; apply lookup_insert_eq).
    eexists. split; [done |]. cbn [te_sw te_hw te_irq te_app cells next_block oom]. split.
    + rewrite insert_insert_eq. apply delete_insert_id. by apply heap_ok_fresh.
    + unfold iio_sw_trig_handler. apply bind_undef. unfold on_sw, zoom, hload. cbn. by rewrite lookup_delete_eq.
Qed.

(** A trigger is enabled and disabled as its line. *)
Lemma iio_trig_enable_run (s : st) p t c :
  cells (te_hw s) !! p = Some t -> ht_irq_ctrl t = Some c -> controlled s c ops ->
  exists r v r' v',
    iio_trig_enable driver (Some p) s = Done (r, TrigEnv (te_hw s) (te_sw s) ((te_irq s).1, v) (te_app s)) /\
    iio_trig_disable driver (Some p) s = Done (r', TrigEnv (te_hw s) (te_sw s) ((te_irq s).1, v') (te_app s)) /\
    callbacks v = callbacks (te_irq s).2 /\ callbacks v' = callbacks (te_irq s).2.
Proof using HL.
  intros Hp Hctrl Hc. destruct enable_law as (f & Hf & H). destruct disable_law as (g & Hg & H').
  destruct (H (Some c) (ht_irq_id t) (te_irq s)) as (r & v & E & Hv).
  destruct (H' (Some c) (ht_irq_id t) (te_irq s)) as (r' & v' & E' & Hv').
  exists r, v, r', v'. unfold iio_trig_enable, iio_trig_disable.
  assert (on_hw (hload (Some p)) s = Done (t, s)) as El.
  { unfold on_hw. rewrite (zoom_done _ _ _ _ _ _ (hload_done _ _ _ Hp)). by destruct s. }
  rewrite !(bind_done _ _ _ _ _ El), Hctrl. splits; try done.
  - unfold on_irq, zoom, no_os_irq_enable. by rewrite (irq_dispatch_run _ s c f _ Hc Hf), E.
  - unfold on_irq, zoom, no_os_irq_disable. by rewrite (irq_dispatch_run _ s c g _ Hc Hg), E'.
Qed.
End events.

(** ** An instance *)

(** A controller that has a place for every line, and refuses levels. *)
Definition tx_driver (_ : positive) : no_os_irq_platform_ops (gmap Z no_os_callback_desc) :=
  IrqOps None
    (Some (fun _ id cb s => Done (0, (s.1, match cb with Some cb => <[id := cb]> s.2 | None => s.2 end))))
    None None None (Some (fun _ _ _ s => Done (- EINVAL, (s.1, s.2))))
    (Some (fun _ _ s => Done (0, (s.1, s.2)))) (Some (fun _ _ s => Done (0, (s.1, s.2)))) None None None.

#[export] Instance tx_laws : IrqLaws (tx_driver 1) id.
Proof.
  split; eexists; (split; [reflexivity |]).
  - intros ctrl i cb s. by exists 0, (<[i := cb]> s.2).
  - intros ctrl i lvl s. by exists (- EINVAL), s.2.
  - intros ctrl i s. by exists 0, s.2.
  - intros ctrl i s. by exists 0, s.2.
Qed.

Definition tx_param (e : no_os_irq_event) : iio_hw_trig_init_param :=
  HwTrigInit (Some 1%positive) (Some 1%positive) 5 NO_OS_IRQ_EDGE_RISING (TrigCbInfo e NO_OS_TIM_IRQ 0)
    (Some (str "b")).

Definition tx_env : trig_env (gmap Z no_os_callback_desc) nat :=
  TrigEnv (Heap ∅ 1 []) (Heap ∅ 1 []) (Heap {[1%positive := IrqDesc 0 (Some 1%positive) 1 None]} 2 [], ∅)
    (trig_mem [ex_dev 1] [ex_trig "a"; ex_trig "b"] (ex_world 0)).

(** A timer's interrupt: the synchronous trigger's handler runs. *)
Lemma iio_hw_trig_event_witness :
  exists r q s1,
    iio_hw_trig_init tx_driver 7 (tx_param NO_OS_EVT_TIM_ELAPSED) tx_env = Done ((r, q), s1) /\
    r = 0 /\ interrupt 7 (fun _ => ex_device (Some ex_handler)) (fun _ => ex_trigger true) id 5 s1
      = Done (tt, with_app (trig_mem [ex_dev 1] [ex_trig "a"; ex_trig "b"] (ex_world 1)) s1).
Proof.
  destruct (iio_hw_trig_event tx_driver 7 (fun _ => ex_device (Some ex_handler)) (fun _ => ex_trigger true) id 1
    (tx_param NO_OS_EVT_TIM_ELAPSED) tx_env 1 1 [ex_dev 1] [ex_trig "a"; ex_trig "b"] 0 1 (ex_dev 1) (ex_trig "b")
    ex_handler (fun s => (s.1, S s.2)) (ex_world 0)) as (r & q & s1 & E & H); try reflexivity.
  - by intros p [? ?].
  - by eexists.
  - apply (bool_decide_unpack _). by vm_compute.
  - apply ex_one_user.
  - apply ex_handler_ok.
  - intros Hl. apply Nat.ltb_lt in Hl. discriminate Hl.
  - exists r, q, s1. split; [exact E |]. assert (r = 0) as -> by (vm_compute in E; congruence).
    split; [done |]. apply H.
Defined.
