(* ===== verification/IioBuffer.v ===== *)
(** * The buffers of the IIO application: [iio/iio.c]

    Opening and closing the buffer of a device, the transfers between the
    client, the circular buffer and the driver, and the calls that drivers make
    themselves. *)
From Stdlib Require Import String.
From S2P Require Import Prelude Util CircularBuffer CString Iiod IioValue IioDevice.

(** ** The size of a scan *)

Section scan.
  Context {S : Type}.

(** The turn of the loop for an active channel: the count and the largest
    length so far. *)
Definition scan_add (chs : list (iio_channel S)) (i cnt largest : Z) : outcome (Z * Z) :=
  match chs !! Z.to_nat i with
  | None => Undef
  | Some ch =>
      match ic_scan ch with
      | None => Undef
      | Some t =>
          let length := storagebits t / 8 in
          let largest := if largest <? length then length else largest in
          r ← umod cnt length;
          Done (if truthy r then u32 (cnt + u32 (2 * length - r)) else u32 (cnt + length), largest)
      end
  end.

Fixpoint scan_loop (fuel : nat) (chs : list (iio_channel S)) (mask i cnt largest : Z) :
  outcome (Z * Z) :=
  if negb (truthy mask) then Done (cnt, largest) else
  match fuel with
  | O => NoFuel
  | Datatypes.S fuel =>
      r ← (if truthy (Z.land mask 1) then scan_add chs i cnt largest else Done (cnt, largest));
      scan_loop fuel chs (Z.shiftr mask 1) (i + 1) r.1 r.2
  end.

(** A mask has 32 bits. *)
Definition bytes_per_scan (chs : list (iio_channel S)) (mask : Z) : outcome Z :=
  r ← scan_loop 32 chs mask 0 0 1;
  x ← umod r.1 r.2;
  Done (if truthy x then u32 (r.1 + (r.2 - x)) else r.1).
End scan.

(** ** The operations *)

Definition with_buffer (b : iio_buffer_priv) (d : iio_dev_priv) : iio_dev_priv :=
  DevPriv (dev_id d) (dp_name d) (dev_instance d) (active_reg_addr d) (dev_descriptor d) b (trig_idx d).

Definition with_public (p : iio_buffer) (b : iio_buffer_priv) : iio_buffer_priv :=
  BufferPriv p (cb b) (raw_buf b) (raw_buf_len b) (initalized b) (allocated b).

Definition with_allocated (a : bool) (b : iio_buffer_priv) : iio_buffer_priv :=
  BufferPriv (public b) (cb b) (raw_buf b) (raw_buf_len b) (initalized b) a.

Definition with_dir (x : iio_buffer_direction) (p : iio_buffer) : iio_buffer :=
  IioBuffer (active_mask p) (ib_size p) (ib_bytes_per_scan p) (samples p) x (ib_buf p) (cyclic_info p).

Definition with_mask (x : Z) (p : iio_buffer) : iio_buffer :=
  IioBuffer x (ib_size p) (ib_bytes_per_scan p) (samples p) (dir p) (ib_buf p) (cyclic_info p).

Section buffers.
  (** The waits and turns of the circular buffer's loops, and the drivers. *)
  Context {W : Type} (spins fuel : nat).
  Context (device : positive -> iio_device (iio_mem W)) (trigger : positive -> iio_trigger (iio_mem W)).
  Abbreviation mem := (iio_mem W).

Definition on_cbs {A} : cmd cb_mem A -> cmd mem A :=
  zoom iio_cbs (fun c m => IioMem (devs m) (trigs m) c (iio_world m)).

Definition load_buf (i : nat) : cmd mem iio_buffer_priv := d ← load_dev i; mret (buffer d).

Definition upd_buf (i : nat) (f : iio_buffer_priv -> iio_buffer_priv) : cmd mem unit :=
  d ← load_dev i; set_dev i (with_buffer (f (buffer d)) d).

Definition upd_public (i : nat) (f : iio_buffer -> iio_buffer) : cmd mem unit :=
  upd_buf i (fun b => with_public (f (public b)) b).

(** [if (allocated) { free(cb.buff); allocated = 0; }] *)
Definition free_cb (i : nat) : cmd mem unit :=
  b ← load_buf i;
  if allocated b then
    c ← on_cbs (on_descs (hload (cb b)));
    _ ← on_cbs (on_arrs (hfree (cb_buff c)));
    upd_buf i (with_allocated false)
  else mret tt.

(** The memory for [size] bytes: an error, or the address and the size. *)
Definition open_memory (i : nat) (size : Z) : cmd mem (Z + ptr * Z) :=
  b ← load_buf i;
  if bool_decide (is_Some (raw_buf b)) && truthy (raw_buf_len b) then
    if raw_buf_len b <? size then mret (inl (- ENOMEM)) else
    r ← lift (umod (raw_buf_len b) size);
    mret (inr (raw_buf b, raw_buf_len b - r))
  else
    _ ← free_cb i;
    buf ← on_cbs (on_arrs (halloc (replicate (Z.to_nat size) 0)));
    match buf with
    | None => mret (inl (- ENOMEM))
    | Some _ => _ ← upd_buf i (with_allocated true); mret (inr (buf, size))
    end.

(** Calling a trigger's function, if the device has a trigger. *)
Definition on_trigger (i : nat) (f : iio_trigger mem -> option (ptr -> cmd mem Z)) (ret : Z) :
  cmd mem Z :=
  d ← load_dev i;
  if trig_idx d =? NO_TRIGGER then mret ret else
  t ← load_trig (Z.to_nat (trig_idx d));
  match f (trigger (tp_descriptor t)) with
  | None => mret ret
  | Some f => f (tp_instance t)
  end.

(** The end of [iio_open_dev]: the driver and the trigger. *)
Definition open_enable (i : nat) (d : iio_dev_priv) (mask ret : Z) : cmd mem Z :=
  ret ← match pre_enable (device (dev_descriptor d)) with
        | None => mret ret
        | Some f => f (dev_instance d) mask
        end;
  if NO_OS_IS_ERR_VALUE ret then _ ← free_cb i; mret ret
  else on_trigger i enable ret.

Definition iio_open_dev (dev : list Z) (samples mask : Z) (cyclic : bool) : cmd mem Z :=
  i ← get_iio_device dev;
  match i with
  | None => mret (- ENODEV)
  | Some i =>
      d ← load_dev i;
      if negb (initalized (buffer d)) then mret (- EINVAL) else
      let D := device (dev_descriptor d) in
      ch_mask ← lift (shr 32 0xFFFFFFFF (32 - num_ch D));
      let mask := Z.land mask ch_mask in
      if negb (truthy mask) then mret (- ENOENT) else
      n ← lift (bytes_per_scan (channels D) mask);
      let size := u32 (n * samples) in
      _ ← upd_public i (fun p =>
            IioBuffer mask size n samples (dir p) (ib_buf p) (CyclicInfo cyclic 0));
      r ← open_memory i size;
      match r with
      | inl e => mret e
      | inr (buf, buf_size) =>
          b ← load_buf i;
          ret ← on_cbs (no_os_cb_cfg (cb b) buf buf_size);
          if NO_OS_IS_ERR_VALUE ret then _ ← free_cb i; mret ret
          else open_enable i d mask ret
      end
  end.

Definition iio_close_dev (dev : list Z) : cmd mem Z :=
  i ← get_iio_device dev;
  match i with
  | None => mret (-1)
  | Some i =>
      d ← load_dev i;
      if negb (initalized (buffer d)) then mret (- EINVAL) else
      _ ← free_cb i;
      ret ← on_trigger i disable 0;
      if truthy ret then mret ret else
      _ ← upd_public i (with_mask 0);
      match post_disable (device (dev_descriptor d)) with
      | None => mret ret
      | Some f => f (dev_instance d)
      end
  end.

(** *** Blocks and scans, for the drivers *)

(** The result and where [*addr] points if it was set; the size that the
    circular buffer gives is not passed on. *)
Definition iio_buffer_get_block (buffer : option nat) : cmd mem (Z * option (ptr * Z)) :=
  match buffer with
  | None => mret (- EINVAL, None)
  | Some i =>
      b ← load_buf i;
      let p := public b in
      r ← on_cbs (if decide (dir p = IIO_DIRECTION_INPUT)
                  then no_os_cb_prepare_async_write (ib_buf p) (ib_size p) false
                  else no_os_cb_prepare_async_read (ib_buf p) (ib_size p) false);
      mret (r.1, fst <$> r.2)
  end.

Definition iio_buffer_block_done (buffer : option nat) : cmd mem Z :=
  match buffer with
  | None => mret (- EINVAL)
  | Some i =>
      b ← load_buf i;
      let p := public b in
      on_cbs (if decide (dir p = IIO_DIRECTION_INPUT)
              then no_os_cb_end_async_write (ib_buf p) else no_os_cb_end_async_read (ib_buf p))
  end.

Definition iio_buffer_push_scan (buffer : option nat) (data : list Z) : cmd mem Z :=
  match buffer with
  | None => mret (- EINVAL)
  | Some i =>
      b ← load_buf i;
      let p := public b in
      r ← on_cbs (no_os_cb_write spins fuel (ib_buf p) (Some data) (ib_bytes_per_scan p));
      mret r.1
  end.

(** The result and what [data] holds then. *)
Definition iio_buffer_pop_scan (buffer : option nat) (data : list Z) : cmd mem (Z * list Z) :=
  match buffer with
  | None => mret (- EINVAL, data)
  | Some i =>
      b ← load_buf i;
      let p := public b in
      r ← on_cbs (no_os_cb_read spins fuel (ib_buf p) (Some data) (ib_bytes_per_scan p));
      _ ← (if is_cyclic (cyclic_info p) then
             c ← on_cbs (on_descs (hload (ib_buf p)));
             if idx (read c) =? idx (write c) then
               on_cbs (on_descs (hstore (ib_buf p)
                 (cb_upd true (CbPtr 0 (spin_count (read c)) (async_started (read c))
                                 (async_size (read c))) c)))
             else mret tt
           else mret tt);
      mret r
  end.

(** *** Transfers *)

(** What the driver stores from the address of a block on. *)
Definition store_block (a : option (ptr * Z)) (bytes : list Z) : cmd mem unit :=
  match a with
  | None => undef
  | Some (blk, off) =>
      arr ← on_cbs (on_arrs (hload blk));
      arr ← the (mem_write arr off bytes);
      on_cbs (on_arrs (hstore blk arr))
  end.

(** The bytes from the address of a block to the end of the array. *)
Definition load_block (a : option (ptr * Z)) : cmd mem (list Z) :=
  match a with
  | None => undef
  | Some (blk, off) => arr ← on_cbs (on_arrs (hload blk)); mret (drop (Z.to_nat off) arr)
  end.

(** The transfer for drivers with [read_dev] or [write_dev]. *)
Definition legacy_transfer (i : nat) (f : option (ptr * Z) -> cmd mem Z) :
  cmd mem Z :=
  r ← iio_buffer_get_block (Some i);
  if NO_OS_IS_ERR_VALUE r.1 then mret r.1 else
  ret ← f r.2;
  if NO_OS_IS_ERR_VALUE ret then mret ret else
  iio_buffer_block_done (Some i).

Definition iio_call_submit (dev : list Z) (x : iio_buffer_direction) : cmd mem Z :=
  i ← get_iio_device dev;
  match i with
  | None => mret (- EINVAL)
  | Some i =>
      d ← load_dev i;
      if negb (initalized (buffer d)) then mret (- EINVAL) else
      _ ← upd_public i (with_dir x);
      let D := device (dev_descriptor d) in
      if negb (trig_idx d =? NO_TRIGGER) then mret 0 else
      match submit D with
      | Some f => f i
      | None =>
          let n := samples (public (buffer d)) in
          match x with
          | IIO_DIRECTION_INPUT =>
              match read_dev D with
              | None => mret 0
              | Some f =>
                  legacy_transfer i (fun a =>
                    r ← f (dev_instance d) n; _ ← store_block a r.2; mret r.1)
              end
          | IIO_DIRECTION_OUTPUT =>
              match write_dev D with
              | None => mret 0
              | Some f =>
                  legacy_transfer i (fun a => bytes ← load_block a; f (dev_instance d) bytes n)
              end
          end
      end
  end.

Definition iio_push_buffer (dev : list Z) : cmd mem Z := iio_call_submit dev IIO_DIRECTION_OUTPUT.

Definition iio_refill_buffer (dev : list Z) : cmd mem Z := iio_call_submit dev IIO_DIRECTION_INPUT.

(** The result and the bytes at [buf]; without [IIO_IGNORE_BUFF_OVERRUN_ERR]. *)
Definition iio_read_buffer (dev : list Z) (bytes : Z) : cmd mem (Z * list Z) :=
  i ← get_iio_device dev;
  match i with
  | None => mret (- EINVAL, [])
  | Some i =>
      b ← load_buf i;
      if negb (initalized b) then mret (- EINVAL, []) else
      r ← on_cbs (no_os_cb_size (cb b) false);
      if NO_OS_IS_ERR_VALUE r.1 then mret (r.1, []) else
      let bytes := Z.min (default 0 r.2) bytes in
      if negb (truthy bytes) then mret (- EAGAIN, []) else
      r ← on_cbs (no_os_cb_read spins fuel (cb b) (Some (replicate (Z.to_nat bytes) 0)) bytes);
      if NO_OS_IS_ERR_VALUE r.1 then mret r else mret (s32 bytes, r.2)
  end.

Definition iio_write_buffer (dev : list Z) (buf : list Z) (bytes : Z) : cmd mem Z :=
  i ← get_iio_device dev;
  match i with
  | None => mret (- EINVAL)
  | Some i =>
      b ← load_buf i;
      if negb (initalized b) then mret (- EINVAL) else
      r ← on_cbs (no_os_cb_size (cb b) false);
      if NO_OS_IS_ERR_VALUE r.1 then mret r.1 else
      let available := u32 (ib_size (public b) - default 0 r.2) in
      let bytes := Z.min available bytes in
      r ← on_cbs (no_os_cb_write spins fuel (cb b) (Some buf) bytes);
      if NO_OS_IS_ERR_VALUE r.1 then mret r.1 else mret (s32 bytes)
  end.
End buffers.

(** ** The layout of a scan

    Every active channel starts at the next multiple of its length, and a scan
    ends at a multiple of the largest one. *)

(** The first multiple of [n] from [o] on. *)
Definition align_up (n o : Z) : Z := o + (- o) mod n.

Fixpoint scan_offsets (o : Z) (lens : list Z) : list Z :=
  match lens with
  | [] => []
  | n :: lens => align_up n o :: scan_offsets (align_up n o + n) lens
  end.

Definition scan_end (o : Z) (lens : list Z) : Z := fold_left (fun o n => align_up n o + n) lens o.

Definition scan_size (lens : list Z) : Z := align_up (foldr Z.max 1 lens) (scan_end 0 lens).

(** The lengths of the channels in the mask. *)
Definition ch_length {S} (ch : iio_channel S) : Z :=
  match ic_scan ch with Some t => storagebits t / 8 | None => 0 end.

Fixpoint active_lengths {S} (mask : Z) (chs : list (iio_channel S)) : list Z :=
  match chs with
  | [] => []
  | ch :: chs => ((if Z.odd mask then [ch_length ch] else []) ++ active_lengths (Z.shiftr mask 1) chs)%list
  end.

(** What a layout owes its client: aligned channels, in order and apart, as
    close as the alignment allows, in scans that can follow each other. *)
Record layout_ok (lens offs : list Z) (size : Z) : Prop := LayoutOk {
  lay_length : length offs = length lens;
  lay_aligned : forall k n o, lens !! k = Some n -> offs !! k = Some o -> (n | o);
  lay_apart : forall k n o n' o', lens !! k = Some n -> offs !! k = Some o ->
    lens !! S k = Some n' -> offs !! S k = Some o' -> o + n <= o' < o + n + n';
  lay_first : forall o, offs !! 0%nat = Some o -> o = 0;
  lay_next : Forall (fun n => n <= foldr Z.max 1 lens) lens /\ (foldr Z.max 1 lens | size);
  lay_end : forall k n o, S k = length lens -> lens !! k = Some n -> offs !! k = Some o ->
    o + n <= size < o + n + foldr Z.max 1 lens
}.

Lemma align_up_spec n o : 0 < n -> (n | align_up n o) /\ o <= align_up n o < o + n.
Proof.
  intros Hn. unfold align_up. pose proof (Z.mod_pos_bound (- o) n Hn).
  split; [| lia]. apply Z.mod_divide; [lia |].
  rewrite Zplus_mod_idemp_r. by rewrite Z.add_opp_diag_r, Z.mod_0_l by lia.
Qed.

(** The code's computation of it. *)
Lemma align_up_code n o : 0 < n ->
  align_up n o = if truthy (o mod n) then o + (n - o mod n) else o.
Proof.
  intros Hn. unfold align_up, truthy. destruct (Z.eqb_spec (o mod n) 0) as [E | E]; cbn [negb].
  - rewrite Z_mod_zero_opp_full by done. lia.
  - by rewrite Z_mod_nz_opp_full.
Qed.

Lemma scan_end_bound lens : forall o, Forall (fun n => 1 <= n <= 31) lens ->
  o <= scan_end o lens <= o + 62 * Z.of_nat (length lens).
Proof.
  induction lens as [| n lens IH]; intros o H; [cbn; lia |].
  apply Forall_cons in H as [Hn H]. cbn [scan_end fold_left length].
  pose proof (align_up_spec n o ltac:(lia)) as [_ Ha].
  specialize (IH (align_up n o + n) H). unfold scan_end in IH. lia.
Qed.

Lemma scan_add_run {S} (chs : list (iio_channel S)) i ch cnt largest :
  chs !! Z.to_nat i = Some ch -> 1 <= ch_length ch <= 31 -> 0 <= cnt < 2 ^ 32 - 62 ->
  scan_add chs i cnt largest = Done (align_up (ch_length ch) cnt + ch_length ch, Z.max largest (ch_length ch)).
Proof.
  intros Hch Hl Hc. unfold scan_add. rewrite Hch. unfold ch_length in *.
  destruct (ic_scan ch) as [t |]; [| lia]. rewrite umod_done by lia. cbn [mbind outcome_bind].
  rewrite align_up_code by lia. set (n := storagebits t / 8) in *. clearbody n.
  pose proof (Z.mod_pos_bound cnt n ltac:(lia)).
  f_equal. f_equal; [| destruct (Z.ltb_spec largest n); lia].
  destruct (truthy (cnt mod n)); rewrite ?(wrap_small 32 (2 * n - _)), wrap_small by ulia; lia.
Qed.

Lemma scan_loop_run {S} (all : list (iio_channel S)) chs : forall fuel i mask cnt largest,
  drop i all = chs -> 0 <= mask < 2 ^ Z.of_nat (length chs) -> (length chs <= fuel)%nat ->
  Forall (fun n => 1 <= n <= 31) (active_lengths mask chs) ->
  0 <= cnt -> cnt + 62 * Z.of_nat (length chs) < 2 ^ 32 ->
  scan_loop fuel all mask (Z.of_nat i) cnt largest
  = Done (scan_end cnt (active_lengths mask chs), fold_left Z.max (active_lengths mask chs) largest).
Proof.
  induction chs as [| ch chs IH]; intros fuel i mask cnt largest Hd Hm Hf Hl Hc Hb.
  - change (2 ^ Z.of_nat (length [])) with 1 in Hm. assert (mask = 0) as -> by lia. by destruct fuel.
  - assert (all !! i = Some ch) as Hch by (rewrite <- (Nat.add_0_r i), <- lookup_drop, Hd; done).
    assert (drop (Datatypes.S i) all = chs) as Hd'.
    { replace (Datatypes.S i) with (i + 1)%nat by lia. by rewrite <- drop_drop, Hd. }
    assert (0 <= Z.shiftr mask 1 < 2 ^ Z.of_nat (length chs)) as Hm'.
    { rewrite Z.shiftr_div_pow2 by lia. change (2 ^ 1) with 2. cbn [length] in Hm.
      rewrite Nat2Z.inj_succ, Z.pow_succ_r in Hm by lia.
      split; [apply Z.div_pos; lia | apply Z.div_lt_upper_bound; lia]. }
    cbn [length] in Hf, Hb. destruct fuel as [| fuel]; [lia |]. cbn [scan_loop].
    destruct (truthy mask) eqn:Em; cbn [negb].
    2: { apply truthy_false in Em as ->. cbn [active_lengths]. change (Z.odd 0) with false.
         change (Z.shiftr 0 1) with 0. rewrite app_nil_l.
         assert (forall l : list (iio_channel S), active_lengths 0 l = []) as ->; [| done].
         induction l as [| ? l IHl]; [done |]. cbn [active_lengths]. exact IHl. }
    rewrite truthy_land1, Z.bit0_odd. cbn [active_lengths] in *.
    replace (Z.of_nat i + 1) with (Z.of_nat (Datatypes.S i)) by lia.
    destruct (Z.odd mask).
    + apply Forall_app in Hl as [H1 Hl]. apply Forall_cons in H1 as [H1 _].
      rewrite (scan_add_run all _ ch) by (rewrite ?Nat2Z.id; done || ulia).
      cbn [mbind outcome_bind fst snd]. pose proof (align_up_spec (ch_length ch) cnt ltac:(lia)) as [_ Ha].
      rewrite (IH fuel (Datatypes.S i)) by (done || lia). done.
    + cbn [mbind outcome_bind fst snd app] in *. apply (IH fuel (Datatypes.S i)); done || lia.
Qed.

Lemma fold_max l : forall a, fold_left Z.max l a = Z.max a (foldr Z.max 1 l) \/ a < 1.
Proof.
  induction l as [| x l IH]; intros a; cbn [fold_left foldr]; [lia |].
  destruct (IH (Z.max a x)) as [-> | ?]; lia.
Qed.

Lemma foldr_max l : 1 <= foldr Z.max 1 l /\ Forall (fun n => n <= foldr Z.max 1 l) l.
Proof.
  induction l as [| x l [IH1 IH2]]; cbn [foldr]; [split; [lia | constructor] |].
  split; [lia |]. constructor; [lia |]. eapply Forall_impl; [exact IH2 |]. cbn. lia.
Qed.

Lemma scan_offsets_length lens : forall o, length (scan_offsets o lens) = length lens.
Proof. induction lens as [| n lens IH]; intros o; cbn; [done | by rewrite IH]. Qed.

Lemma scan_offsets_aligned lens : forall o k n x, Forall (fun n => 1 <= n) lens ->
  lens !! k = Some n -> scan_offsets o lens !! k = Some x -> (n | x).
Proof.
  induction lens as [| n lens IH]; intros o [| k] n' x H Hk Hx; cbn in *; try done;
    apply Forall_cons in H as [Hn H].
  - simplify_eq. apply align_up_spec. lia.
  - by eapply IH.
Qed.

Lemma scan_offsets_apart lens : forall o k n x n' x', Forall (fun n => 1 <= n) lens ->
  lens !! k = Some n -> scan_offsets o lens !! k = Some x ->
  lens !! S k = Some n' -> scan_offsets o lens !! S k = Some x' -> x + n <= x' < x + n + n'.
Proof.
  induction lens as [| n lens IH]; intros o [| k] m x m' x' H Hk Hx Hk' Hx'; cbn in *; try done;
    apply Forall_cons in H as [Hn H].
  - destruct lens as [| n2 lens]; [done |]. cbn in *. simplify_eq.
    apply Forall_cons in H as [Hn2 H]. pose proof (align_up_spec m' (align_up m o + m) ltac:(lia)). lia.
  - by eapply IH.
Qed.

Lemma scan_offsets_end lens : forall o k n x, S k = length lens ->
  lens !! k = Some n -> scan_offsets o lens !! k = Some x -> scan_end o lens = x + n.
Proof.
  induction lens as [| m lens IH]; intros o [| k] n x Hk Hn Hx; cbn in *; try done; simplify_eq.
  - by destruct lens.
  - by eapply IH.
Qed.

Lemma scan_layout_ok lens :
  Forall (fun n => 1 <= n) lens -> layout_ok lens (scan_offsets 0 lens) (scan_size lens).
Proof.
  intros H. destruct (foldr_max lens) as [Hm Hf].
  pose proof (align_up_spec (foldr Z.max 1 lens) (scan_end 0 lens) ltac:(lia)) as [Hd He]. split.
  - apply scan_offsets_length.
  - intros k n o. by apply scan_offsets_aligned.
  - intros k n o n' o'. by apply scan_offsets_apart.
  - intros o Ho. destruct lens as [| n lens]; [done |]. cbn in Ho. injection Ho as <-.
    unfold align_up. apply Forall_cons in H as [Hn _]. by rewrite Z.mod_0_l by lia.
  - done.
  - intros k n o Hk Hn Ho. unfold scan_size. by rewrite <- (scan_offsets_end lens 0 k n o Hk Hn Ho).
Qed.

(** The computation, without the layout. *)
Lemma bytes_per_scan_run {S} (chs : list (iio_channel S)) mask :
  (length chs <= 32)%nat -> 0 <= mask < 2 ^ Z.of_nat (length chs) ->
  Forall (fun n => 1 <= n <= 31) (active_lengths mask chs) ->
  bytes_per_scan chs mask = Done (scan_size (active_lengths mask chs)) /\
  0 <= scan_size (active_lengths mask chs) < 2 ^ 11.
Proof.
  intros Hc Hm Hl. set (lens := active_lengths mask chs) in *.
  assert (length lens <= length chs)%nat as Hlen.
  { subst lens. clear. revert mask. induction chs as [| ch chs IH]; intros mask; [done |].
    cbn [active_lengths]. rewrite length_app. specialize (IH (Z.shiftr mask 1)).
    destruct (Z.odd mask); cbn [length]; lia. }
  pose proof (scan_end_bound lens 0 Hl) as Hend. destruct (foldr_max lens) as [Hmax _].
  assert (foldr Z.max 1 lens <= 31) as Hmax31.
  { clear -Hl. induction Hl as [| n l Hn _ IH]; cbn; lia. }
  pose proof (align_up_spec (foldr Z.max 1 lens) (scan_end 0 lens) ltac:(lia)) as [_ Ha].
  change (2 ^ 11) with 2048. split; [| unfold scan_size; lia].
  unfold bytes_per_scan. change 0 with (Z.of_nat 0) at 1. rewrite (scan_loop_run chs chs); [| done || ulia..].
  cbn [mbind outcome_bind fst snd]. fold lens.
  assert (fold_left Z.max lens 1 = foldr Z.max 1 lens) as -> by (destruct (fold_max lens 1); lia).
  rewrite umod_done by lia. cbn [mbind outcome_bind]. unfold scan_size. rewrite align_up_code by lia.
  pose proof (Z.mod_pos_bound (scan_end 0 lens) (foldr Z.max 1 lens) ltac:(lia)).
  rewrite wrap_small by ulia. done.
Qed.

(** C40: the size that the code computes for a mask is that of the layout that
    clients assume of a scan: every active channel at the next multiple of its
    length, and the whole a multiple of the largest, no gap longer than the
    alignment needs; and nothing overflows. *)
Theorem bytes_per_scan_correct {S} (chs : list (iio_channel S)) mask :
  (length chs <= 32)%nat -> 0 <= mask < 2 ^ Z.of_nat (length chs) ->
  let lens := active_lengths mask chs in
  Forall (fun n => 1 <= n <= 31) lens ->
  bytes_per_scan chs mask = Done (scan_size lens) /\
  layout_ok lens (scan_offsets 0 lens) (scan_size lens) /\ 0 <= scan_size lens < 2 ^ 11.
Proof.
  intros Hc Hm lens Hl. destruct (bytes_per_scan_run chs mask Hc Hm Hl). split; [done |]. split; [| done].
  apply scan_layout_ok. eapply Forall_impl; [exact Hl | cbn; lia].
Qed.

(** ** An open buffer is a queue of bytes *)

Section queue.
  Context {W : Type} (spins fuel : nat).
  Context (device : positive -> iio_device (iio_mem W)) (trigger : positive -> iio_trigger (iio_mem W)).
  Abbreviation mem := (iio_mem W).
  Abbreviation iio_read_buffer := (iio_read_buffer (W := W) (S spins) fuel).
  Abbreviation iio_write_buffer := (iio_write_buffer (W := W) (S spins) fuel).

Definition with_cbs (c : cb_mem) (m : mem) : mem := IioMem (devs m) (trigs m) c (iio_world m).

(** The device [i] is [d]; its buffer, a ring of [s] bytes, has taken [h], of
    which [R] bytes were read. *)
Record buf_open (m : mem) (i : nat) (d : iio_dev_priv) (p blk : positive) (s : Z) (h : list Z) (R : Z) :
  Prop := BufOpen {
  bo_ids : NoDup (dev_id <$> devs m);
  bo_dev : devs m !! i = Some d;
  bo_init : initalized (buffer d) = true;
  bo_cb : cb (buffer d) = Some p;
  bo_buf : ib_buf (public (buffer d)) = Some p;
  bo_rep : cb_rep (iio_cbs m) p blk s h R None None
}.

Lemma on_cbs_run {A} (c : cmd cb_mem A) m x c' :
  c (iio_cbs m) = Done (x, c') -> on_cbs c m = Done (x, with_cbs c' m).
Proof using. intros H. unfold on_cbs. by rewrite (zoom_done _ _ _ _ _ _ H). Qed.

Lemma with_cbs_id m : with_cbs (iio_cbs m) m = m.
Proof using. by destruct m. Qed.

Lemma load_buf_run (m : mem) i d : devs m !! i = Some d -> load_buf i m = Done (buffer d, m).
Proof using. intros Hd. unfold load_buf. by rewrite (bind_done _ _ _ _ _ (load_dev_run m i d Hd)). Qed.

Lemma buf_open_rep m i d p blk s h R c h' R' :
  buf_open m i d p blk s h R -> cb_rep c p blk s h' R' None None ->
  buf_open (with_cbs c m) i d p blk s h' R'.
Proof using. intros [] Hc. by constructor. Qed.

Lemma cb_rep_range c p blk s h R a r :
  cb_rep c p blk s h R a r -> 0 < s <= 2 ^ 31 /\ 0 <= R <= Z.of_nat (length h).
Proof using. by intros (arr & _ & _ & ? & _ & ? & _). Qed.

(** What a read gives: the next bytes, as many as there are. *)
Lemma iio_read_run m i d p blk s h R n :
  buf_open m i d p blk s h R -> Z.of_nat (length h) - R <= s -> s < Z.of_nat fuel -> 0 < n < 2 ^ 31 ->
  let k := Z.min (Z.of_nat (length h) - R) n in
  exists m', buf_open m' i d p blk s h (R + k) /\ m' = with_cbs (iio_cbs m') m /\
    framed p blk (iio_cbs m) (iio_cbs m') /\
    iio_read_buffer (dev_id d) n m = Done (if decide (k = 0) then (- EAGAIN, [])
      else (k, take (Z.to_nat k) (drop (Z.to_nat R) h)), m').
Proof using.
  intros Ho Hd Hf Hn k. destruct (Ho) as [Hids Hdev Hinit Hcb _ Hrep].
  destruct (cb_rep_range _ _ _ _ _ _ _ _ Hrep) as [Hs HR]. pose proof (cb_rep_framed _ _ _ _ _ _ _ _ Hrep) as Hfr.
  unfold IioBuffer.iio_read_buffer.
  rewrite (bind_done _ _ _ _ _ (get_iio_device_run m i d Hids Hdev)).
  rewrite (bind_done _ _ _ _ _ (load_buf_run m i d Hdev)), Hinit, Hcb. cbn [negb].
  rewrite (bind_done _ _ _ _ _ (on_cbs_run _ m _ _ (cb_size_run _ p blk s h R None None Hrep Hd))).
  rewrite with_cbs_id. cbn [fst snd default from_option id]. change (NO_OS_IS_ERR_VALUE 0) with false.
  fold k. unfold truthy. destruct (decide (k = 0)) as [E | E].
  - rewrite E, Z.eqb_refl. exists m. rewrite with_cbs_id, Z.add_0_r. by splits.
  - pose proof E as E0. apply Z.eqb_neq in E0 as ->. cbn [negb]. assert (0 < k <= s) by lia.
    destruct (cb_read_run (iio_cbs m) p blk s h R None (replicate (Z.to_nat k) 0) k spins fuel Hrep)
      as (c & Hr & Hc); [ulia | rewrite length_replicate; lia | lia | done | lia | cbn; lia |].
    rewrite (bind_done _ _ _ _ _ (on_cbs_run _ m _ _ Hr)). cbn [fst snd].
    exists (with_cbs c m). split; [by apply (buf_open_rep m i d p blk s h R) |]. split; [done |].
    split; [exact (sat_inv _ _ _ _ _ (framed_operation p blk _ _ _ _ _ _ _ Hfr) Hr) |].
    change (NO_OS_IS_ERR_VALUE 0) with false. rewrite (swrap_small 32) by ulia.
    rewrite inserts_all; [done |]. rewrite length_take, length_drop, length_replicate. lia.
Qed.

(** What a write takes: as many bytes as there is room for; none is an error. *)
Lemma iio_write_run m i d p blk s h R data n :
  buf_open m i d p blk s h R -> 0 < n < 2 ^ 31 -> n <= Z.of_nat (length data) -> s < Z.of_nat fuel ->
  Z.of_nat (length h) - R <= s -> Z.of_nat (length h) - R <= ib_size (public (buffer d)) < 2 ^ 32 ->
  ib_size (public (buffer d)) <= s ->
  let k := Z.min (ib_size (public (buffer d)) - (Z.of_nat (length h) - R)) n in
  exists m', buf_open m' i d p blk s (h ++ take (Z.to_nat k) data) R /\ m' = with_cbs (iio_cbs m') m /\
    framed p blk (iio_cbs m) (iio_cbs m') /\
    iio_write_buffer (dev_id d) data n m = Done (if decide (k = 0) then - EINVAL else k, m').
Proof using.
  intros Ho Hn Hl Hf Hd Hsz Hle k. destruct (Ho) as [Hids Hdev Hinit Hcb _ Hrep].
  destruct (cb_rep_range _ _ _ _ _ _ _ _ Hrep) as [Hs HR]. pose proof (cb_rep_framed _ _ _ _ _ _ _ _ Hrep) as Hfr.
  unfold IioBuffer.iio_write_buffer.
  rewrite (bind_done _ _ _ _ _ (get_iio_device_run m i d Hids Hdev)).
  rewrite (bind_done _ _ _ _ _ (load_buf_run m i d Hdev)), Hinit, Hcb. cbn [negb].
  rewrite (bind_done _ _ _ _ _ (on_cbs_run _ m _ _ (cb_size_run _ p blk s h R None None Hrep Hd))).
  rewrite with_cbs_id. cbn [fst snd default from_option id]. change (NO_OS_IS_ERR_VALUE 0) with false.
  rewrite (wrap_small 32) by ulia. fold k. destruct (decide (k = 0)) as [E | E].
  - exists m. rewrite E. change (Z.to_nat 0) with 0%nat. rewrite app_nil_r, with_cbs_id. splits; [done | done | exact Hfr |].
    erewrite bind_done by by apply on_cbs_run. by rewrite with_cbs_id.
  - assert (0 < k <= s) by lia.
    destruct (cb_write_run (iio_cbs m) p blk s h R None data k spins fuel Hrep)
      as (c & Hr & Hc); [ulia | lia | lia |].
    rewrite (bind_done _ _ _ _ _ (on_cbs_run _ m _ _ Hr)). cbn [fst snd].
    exists (with_cbs c m). split; [by apply (buf_open_rep m i d p blk s h R) |]. split; [done |].
    split; [exact (sat_inv _ _ _ _ _ (framed_operation p blk _ _ _ _ _ _ _ Hfr) Hr) |].
    change (NO_OS_IS_ERR_VALUE 0) with false. by rewrite (swrap_small 32) by ulia.
Qed.
End queue.

(** ** The memory of a buffer *)

Section life.
  Context {W : Type}.
  Context (device : positive -> iio_device (iio_mem W)) (trigger : positive -> iio_trigger (iio_mem W)).
  Abbreviation mem := (iio_mem W).
  Abbreviation iio_open_dev := (iio_open_dev device trigger).
  Abbreviation iio_close_dev := (iio_close_dev device trigger).

Definition with_world (w : W) (m : mem) : mem := IioMem (devs m) (trigs m) (iio_cbs m) w.

Definition with_dev (i : nat) (d : iio_dev_priv) (m : mem) : mem :=
  IioMem (<[i := d]> (devs m)) (trigs m) (iio_cbs m) (iio_world m).

(** A function of a driver that returns, and leaves the application alone. *)
Definition world_op (c : cmd mem Z) : Prop := forall m, exists r w, c m = Done (r, with_world w m).

(** What no operation on a buffer changes of its device. *)
Definition fixed_part (d : iio_dev_priv) :=
  (dev_id d, dev_instance d, dev_descriptor d, trig_idx d, cb (buffer d), raw_buf (buffer d),
   raw_buf_len (buffer d), initalized (buffer d), ib_buf (public (buffer d))).

Lemma fixed_driver d d' : fixed_part d' = fixed_part d ->
  dev_id d' = dev_id d /\ dev_instance d' = dev_instance d /\ dev_descriptor d' = dev_descriptor d.
Proof using. unfold fixed_part. by intros [=]. Qed.

(** The device [i] with the block of its buffer, if it has one, apart from the
    blocks of everything else. *)
Record buf_wf (m : mem) (i : nat) (d : iio_dev_priv) (p : positive) (base : gmap positive (list Z)) :
  Prop := BufWf {
  bw_ids : NoDup (dev_id <$> devs m);
  bw_dev : devs m !! i = Some d;
  bw_init : initalized (buffer d) = true;
  bw_cb : cb (buffer d) = Some p;
  bw_buf : ib_buf (public (buffer d)) = Some p;
  bw_raw : raw_buf (buffer d) = None;
  bw_heap : heap_ok (arrs (iio_cbs m));
  bw_desc : is_Some (cells (descs (iio_cbs m)) !! p);
  bw_trig : trig_idx d = NO_TRIGGER \/ is_Some (trigs m !! Z.to_nat (trig_idx d));
  bw_block :
    if allocated (buffer d)
    then exists c blk arr, cells (descs (iio_cbs m)) !! p = Some c /\ cb_buff c = Some blk /\
      base !! blk = None /\ cells (arrs (iio_cbs m)) = <[blk := arr]> base
    else cells (arrs (iio_cbs m)) = base
}.

(** The rest of the application. *)
Definition others_kept (i : nat) (p : positive) (m m' : mem) : Prop :=
  trigs m' = trigs m /\ (forall k, k <> i -> devs m' !! k = devs m !! k) /\
  length (devs m') = length (devs m) /\
  (forall q, q <> p -> cells (descs (iio_cbs m')) !! q = cells (descs (iio_cbs m)) !! q).

Lemma others_kept_refl i p m : others_kept i p m m.
Proof using. done. Qed.

Lemma others_kept_trans i p m1 m2 m3 : others_kept i p m1 m2 -> others_kept i p m2 m3 -> others_kept i p m1 m3.
Proof using.
  intros (H1 & H2 & H3 & H4) (K1 & K2 & K3 & K4). unfold others_kept.
  splits; [congruence | | congruence |]; intros k Hk; [rewrite K2, H2 | rewrite K4, H4]; done.
Qed.

Lemma with_cbs_rest i p blk (m : mem) c : framed p blk (iio_cbs m) c -> others_kept i p m (with_cbs c m).
Proof using.
  intros Hfr. unfold others_kept. splits; [done | done | done |]. intros q Hq. by apply (fr_descs _ _ _ _ Hfr).
Qed.

Lemma ids_with_dev (m : mem) i d d' :
  devs m !! i = Some d -> dev_id d' = dev_id d -> dev_id <$> <[i := d']> (devs m) = dev_id <$> devs m.
Proof using.
  intros Hd Hid. rewrite list_fmap_insert, Hid. apply list_insert_id. by rewrite list_lookup_fmap, Hd.
Qed.

Lemma upd_buf_run i f m d : devs m !! i = Some d ->
  upd_buf i f m = Done (tt, with_dev i (with_buffer (f (buffer d)) d) m).
Proof using.
  intros Hd. unfold upd_buf. rewrite (bind_done _ _ _ _ _ (load_dev_run m i d Hd)).
  unfold set_dev. by rewrite Hd.
Qed.

Lemma with_dev_look (m : mem) i d d' : devs m !! i = Some d -> devs (with_dev i d' m) !! i = Some d'.
Proof using. intros Hd. cbn. apply list_lookup_insert_eq. by eapply lookup_lt_Some. Qed.

Lemma with_dev_rest i p (m : mem) d : others_kept i p m (with_dev i d m).
Proof using.
  unfold others_kept. splits; [done | | by cbn; rewrite length_insert | done]. intros k Hk. cbn. by apply list_lookup_insert_ne.
Qed.

(** Changing what is not fixed. *)
Lemma with_dev_wf (m : mem) i d d' p base :
  buf_wf m i d p base -> fixed_part d' = fixed_part d -> allocated (buffer d') = allocated (buffer d) ->
  buf_wf (with_dev i d' m) i d' p base.
Proof using.
  intros [Hids Hd Hi Hc Hb Hr Hh Hp Ht Hblk] Hf Ha. unfold fixed_part in Hf. simplify_eq.
  constructor; cbn [devs trigs iio_cbs with_dev]; try done; try congruence.
  - by rewrite (ids_with_dev m i d).
  - by apply (with_dev_look m i d).
  - by rewrite Ha.
Qed.

(** Changing the public part of a buffer. *)
Lemma upd_public_run i f m d p base :
  buf_wf m i d p base -> (forall x, ib_buf (f x) = ib_buf x) ->
  let d' := with_buffer (with_public (f (public (buffer d))) (buffer d)) d in
  upd_public i f m = Done (tt, with_dev i d' m) /\ buf_wf (with_dev i d' m) i d' p base /\
  fixed_part d' = fixed_part d.
Proof using.
  intros Hwf Hf d'. assert (fixed_part d' = fixed_part d) as Hfix by (unfold fixed_part; cbn; by rewrite Hf).
  split; [apply (upd_buf_run i (fun b => with_public (f (public b)) b) m d), Hwf |].
  split; [| done]. by apply (with_dev_wf m i d).
Qed.

(** Freeing the block leaves only the base. *)
Lemma free_cb_run i m d p base :
  buf_wf m i d p base ->
  exists m', let d' := if allocated (buffer d) then with_buffer (with_allocated false (buffer d)) d else d in
    free_cb i m = Done (tt, m') /\ buf_wf m' i d' p base /\ others_kept i p m m' /\
    fixed_part d' = fixed_part d /\ public (buffer d') = public (buffer d) /\
    allocated (buffer d') = false /\ descs (iio_cbs m') = descs (iio_cbs m).
Proof using.
  intros Hwf. destruct (Hwf) as [Hids Hd Hi Hc Hb Hr Hh Hp Ht Hblk]. unfold free_cb.
  rewrite (bind_done _ _ _ _ _ (load_buf_run m i d Hd)).
  destruct (allocated (buffer d)) eqn:Ea.
  2: { exists m. by splits; try apply others_kept_refl. }
  destruct Hblk as (c & blk & arr & Hpc & Hcb & Hnb & Hcells). rewrite Hc.
  rewrite (bind_done _ _ _ _ _ (on_cbs_run _ m _ _ (desc_load _ p c Hpc))), with_cbs_id, Hcb.
  assert (cells (arrs (iio_cbs m)) !! blk = Some arr) as Harr by (rewrite Hcells; apply lookup_insert_eq).
  assert (on_arrs (hfree (Some blk)) (iio_cbs m) = Done (tt, CbMem (descs (iio_cbs m))
    (Heap base (next_block (arrs (iio_cbs m))) (oom (arrs (iio_cbs m)))))) as Hfree.
  { unfold on_arrs. erewrite zoom_done by by eapply hfree_done. by rewrite Hcells, delete_insert_id. }
  rewrite (bind_done _ _ _ _ _ (on_cbs_run _ m _ _ Hfree)).
  eexists. split; [apply upd_buf_run; exact Hd |]. split; [| split; [| done]].
  - constructor; cbn [devs trigs iio_cbs with_dev with_cbs arrs descs cells next_block]; try done.
    + by rewrite (ids_with_dev m i d).
    + apply list_lookup_insert_eq. by eapply lookup_lt_Some.
    + pose proof (heap_ok_delete _ blk (oom (arrs (iio_cbs m))) Hh) as Hok.
      by rewrite Hcells, delete_insert_id in Hok.
  - eapply others_kept_trans; [| apply with_dev_rest]. done.
Qed.

(** A new block of [size] bytes, and the circular buffer on it; or none. *)
Lemma open_memory_run i m d p base size :
  buf_wf m i d p base -> 0 <= size ->
  exists m' d' r, open_memory i size m = Done (r, m') /\ others_kept i p m m' /\
    fixed_part d' = fixed_part d /\ public (buffer d') = public (buffer d) /\
    match r with
    | inl e => e = - ENOMEM /\ buf_wf m' i d' p base /\ allocated (buffer d') = false
    | inr (buf, n) => n = size /\ devs m' !! i = Some d' /\
        exists blk m2, buf = Some blk /\
        on_cbs (no_os_cb_cfg (Some p) buf size) m' = Done (0, m2) /\
        others_kept i p m' m2 /\ buf_wf m2 i d' p base /\ allocated (buffer d') = true /\
        (0 < size <= 2 ^ 31 -> cb_rep (iio_cbs m2) p blk size [] 0 None None)
    end.
Proof using.
  intros Hwf Hsz. destruct (free_cb_run i m d p base Hwf) as (m1 & Hfree & Hwf1 & Hrest1 & Hfix1 & Hpub1 & Ha1 & _).
  set (d1 := if allocated (buffer d) then _ else d) in *. unfold open_memory.
  rewrite (bind_done _ _ _ _ _ (load_buf_run m i d (bw_dev _ _ _ _ _ Hwf))), (bw_raw _ _ _ _ _ Hwf).
  rewrite bool_decide_false by by intros []. cbn [andb]. rewrite (bind_done _ _ _ _ _ Hfree).
  destruct (Hwf1) as [Hids Hd Hi Hc Hb Hr Hh Hp Ht Hblk]. rewrite Ha1 in Hblk.
  assert (forall H h, arrs (iio_cbs m1) = H -> halloc (replicate (Z.to_nat size) 0) H = Done h ->
    on_cbs (on_arrs (halloc (replicate (Z.to_nat size) 0))) m1
    = Done (h.1, with_cbs (CbMem (descs (iio_cbs m1)) h.2) m1)) as Hal.
  { intros H [x h] <- Hx. apply on_cbs_run. unfold on_arrs. by rewrite (zoom_done _ _ _ _ _ _ Hx). }
  destruct (alloc_fails (arrs (iio_cbs m1))) eqn:Ef.
  - rewrite (bind_done _ _ _ _ _ (Hal _ _ eq_refl (halloc_fail _ _ Ef))). cbn [fst snd].
    eexists _, d1, (inl _). split; [done |]. split; [exact Hrest1 |]. split; [done |]. split; [done |].
    split; [done |]. split; [| done]. constructor; try done. cbn. by rewrite Ha1.
  - rewrite (bind_done _ _ _ _ _ (Hal _ _ eq_refl (halloc_done _ _ Ef))). cbn [fst snd].
    pose proof (heap_ok_fresh _ Hh) as Hfresh. set (blk := next_block (arrs (iio_cbs m1))) in *.
    set (d2 := with_buffer (with_allocated true (buffer d1)) d1).
    erewrite bind_done by (apply upd_buf_run; exact Hd). fold d2.
    eexists _, d2, (inr _). split; [done |].
    split; [eapply others_kept_trans; [exact Hrest1 | eapply others_kept_trans; [| apply with_dev_rest]]; done |].
    split; [done |]. split; [done |]. split; [done |].
    split; [cbn; apply list_lookup_insert_eq; by eapply lookup_lt_Some |].
    destruct Hp as [c Hp]. exists blk. eexists. split; [done |]. split.
    { apply on_cbs_run. cbn [with_dev with_cbs iio_cbs]. unfold no_os_cb_cfg.
      erewrite bind_done by (eapply desc_store; exact Hp). done. }
    split; [split; [done |]; split; [done |]; split; [done |] |].
    { intros q Hq. cbn. by rewrite lookup_insert_ne. }
    split; [| split; [done |]].
    + constructor; cbn [devs trigs iio_cbs with_dev with_cbs set_desc arrs descs cells next_block]; try done.
      * by rewrite (ids_with_dev m1 i d1).
      * apply list_lookup_insert_eq. by eapply lookup_lt_Some.
      * apply heap_ok_insert; [done | lia | lia].
      * rewrite lookup_insert_eq. by eexists.
      * cbn. eexists _, blk, _. split; [apply lookup_insert_eq |]. split; [done |].
        rewrite Hblk in *. done.
    + intros Hs. eexists. cbn. rewrite !lookup_insert_eq. unfold cb_pos.
      rewrite Z.mod_0_l, Z.div_0_l, length_replicate by lia.
      splits; try (done || simpl; lia). intros k ? Hk. simpl in Hk. lia.
Qed.

(** *** Opening and closing *)

(** What the drivers and the triggers are relied on for. *)
Record drivers_ok : Prop := DriversOk {
  dr_pre : forall q f inst n, pre_enable (device q) = Some f -> world_op (f inst n);
  dr_post : forall q f inst, post_disable (device q) = Some f -> world_op (f inst);
  dr_enable : forall q f inst, enable (trigger q) = Some f -> world_op (f inst);
  dr_disable : forall q f inst, disable (trigger q) = Some f -> world_op (f inst)
}.

(** A device with 1 to 32 channels of 8 to 255 bits. *)
Record scans_ok (D : iio_device mem) : Prop := ScansOk {
  so_count : num_ch D = Z.of_nat (length (channels D));
  so_range : 1 <= num_ch D <= 32;
  so_lengths : Forall (fun ch => 1 <= ch_length ch <= 31) (channels D)
}.

Hypothesis Hdrivers : drivers_ok.

Lemma with_world_wf m i d p base w : buf_wf m i d p base -> buf_wf (with_world w m) i d p base.
Proof using. intros []. by constructor. Qed.

Lemma with_world_rest i p m w : others_kept i p m (with_world w m).
Proof using. done. Qed.

Lemma on_trigger_run i m d p base f ret :
  buf_wf m i d p base ->
  (forall q g inst, f (trigger q) = Some g -> world_op (g inst)) ->
  exists r w, on_trigger trigger i f ret m = Done (r, with_world w m).
Proof using.
  intros Hwf Hf. assert (with_world (iio_world m) m = m) as Em by by destruct m. unfold on_trigger.
  rewrite (bind_done _ _ _ _ _ (load_dev_run m i d (bw_dev _ _ _ _ _ Hwf))).
  destruct (Z.eqb_spec (trig_idx d) NO_TRIGGER); [exists ret, (iio_world m); by rewrite Em |].
  destruct (bw_trig _ _ _ _ _ Hwf) as [? | [t Ht]]; [done |].
  assert (load_trig (Z.to_nat (trig_idx d)) m = Done (t, m)) as Hl by (unfold load_trig; by rewrite Ht).
  rewrite (bind_done _ _ _ _ _ Hl).
  destruct (f (trigger (tp_descriptor t))) as [g |] eqn:E; [| exists ret, (iio_world m); by rewrite Em].
  apply (Hf _ _ _ E).
Qed.

Lemma active_lengths_ok (chs : list (iio_channel mem)) n :
  Forall (fun ch => 1 <= ch_length ch <= 31) chs -> Forall (fun n => 1 <= n <= 31) (active_lengths n chs).
Proof using.
  intros H. revert n. induction H as [| ch chs Hch _ IH]; intros n; [constructor |].
  cbn [active_lengths]. destruct (Z.odd n); [by constructor |]. apply IH.
Qed.

(** [0xFFFFFFFF >> (32 - num_ch)] keeps the bits of the channels. *)
Lemma ch_mask_run n : 1 <= n <= 32 -> shr 32 0xFFFFFFFF (32 - n) = Done (Z.ones n).
Proof using.
  intros Hn. rewrite shr_done by lia. f_equal. change 0xFFFFFFFF with (Z.ones 32).
  rewrite Z.shiftr_div_pow2 by lia. rewrite Z.ones_div_pow2 by lia. f_equal. lia.
Qed.

Definition opened_mask (D : iio_device mem) (mask : Z) : Z := mask mod 2 ^ num_ch D.
Definition opened_scan (D : iio_device mem) (mask : Z) : Z :=
  scan_size (active_lengths (opened_mask D mask) (channels D)).

Lemma open_enable_run i m d p base mask ret :
  buf_wf m i d p base -> 0 <= ret ->
  exists r d' m', open_enable device trigger i d mask ret m = Done (r, m') /\ buf_wf m' i d' p base /\
    others_kept i p m m' /\ fixed_part d' = fixed_part d /\ public (buffer d') = public (buffer d) /\
    (0 <= r -> d' = d /\ iio_cbs m' = iio_cbs m).
Proof using Hdrivers.
  intros Hwf Hret. unfold open_enable.
  assert (exists r1 w, match pre_enable (device (dev_descriptor d)) with
    | None => mret ret | Some f => f (dev_instance d) mask end m = Done (r1, with_world w m)) as (r1 & w & Hpre).
  { destruct (pre_enable _) eqn:E; [by apply (dr_pre Hdrivers _ _ _ _ E) |].
    exists ret, (iio_world m). by destruct m. }
  rewrite (bind_done _ _ _ _ _ Hpre). pose proof (with_world_wf m i d p base w Hwf) as Hwf1.
  destruct (NO_OS_IS_ERR_VALUE r1) eqn:Ee.
  - destruct (free_cb_run i _ d p base Hwf1) as (m2 & Hfree & Hwf2 & Hrest & Hfix & Hpub & _).
    rewrite (bind_done _ _ _ _ _ Hfree). exists r1. eexists _, m2. split; [done |]. split; [exact Hwf2 |].
    split; [by eapply others_kept_trans |]. split; [done |]. split; [done |].
    unfold NO_OS_IS_ERR_VALUE in Ee. zify_cmp. lia.
  - destruct (on_trigger_run i _ d p base enable r1 Hwf1 (dr_enable Hdrivers)) as (r & w2 & ->).
    exists r, d, (with_world w2 (with_world w m)). split; [done |]. split; [by apply with_world_wf |]. done.
Qed.

Lemma iio_open_run i m d p base samples mask cyclic :
  buf_wf m i d p base -> scans_ok (device (dev_descriptor d)) -> 0 <= mask -> 0 <= samples ->
  let D := device (dev_descriptor d) in
  let size := u32 (opened_scan D mask * samples) in
  exists r d' m', iio_open_dev (dev_id d) samples mask cyclic m = Done (r, m') /\
    buf_wf m' i d' p base /\ others_kept i p m m' /\ fixed_part d' = fixed_part d /\
    (0 <= r -> allocated (buffer d') = true /\
       public (buffer d') = IioBuffer (opened_mask D mask) size (opened_scan D mask) samples
         (dir (public (buffer d))) (Some p) (CyclicInfo cyclic 0) /\
       (0 < size <= 2 ^ 31 -> exists blk, buf_open m' i d' p blk size [] 0)).
Proof using Hdrivers.
  intros Hwf [Hcnt Hrange Hlens] Hmask Hsamples D size. fold D in Hcnt, Hrange, Hlens.
  pose proof (bw_dev _ _ _ _ _ Hwf) as Hd. unfold IioBuffer.iio_open_dev.
  rewrite (bind_done _ _ _ _ _ (get_iio_device_run m i d (bw_ids _ _ _ _ _ Hwf) Hd)).
  rewrite (bind_done _ _ _ _ _ (load_dev_run m i d Hd)), (bw_init _ _ _ _ _ Hwf). cbn [negb]. fold D.
  rewrite (bind_done _ _ _ _ _ (lift_done _ m _ (ch_mask_run _ Hrange))).
  rewrite Z.land_ones by lia. fold (opened_mask D mask). set (am := opened_mask D mask) in *.
  unfold truthy. destruct (Z.eqb_spec am 0) as [E | E]; cbn [negb].
  { exists (- ENOENT), d, m. split; [done |]. split; [done |]. split; [done |]. split; [done |]. unfold ENOENT. lia. }
  assert (0 <= am < 2 ^ Z.of_nat (length (channels D))) as Ham.
  { unfold am, opened_mask. rewrite <- Hcnt. apply Z.mod_pos_bound. lia. }
  destruct (bytes_per_scan_run (channels D) am ltac:(lia) Ham (active_lengths_ok _ _ Hlens)) as [Hbps Hb].
  change (scan_size (active_lengths am (channels D))) with (opened_scan D mask) in Hbps, Hb.
  rewrite (bind_done _ _ _ _ _ (lift_done _ m _ Hbps)). set (n := opened_scan D mask) in *. fold size.
  destruct (upd_public_run i (fun p => IioBuffer am size n samples (dir p) (ib_buf p) (CyclicInfo cyclic 0))
    m d p base Hwf ltac:(done)) as (Hupd & Hwf1 & Hfix1).
  set (d1 := with_buffer _ d) in *. rewrite (bind_done _ _ _ _ _ Hupd).
  destruct (open_memory_run i _ d1 p base size Hwf1) as (m2 & d2 & r & Hmem & Hrest2 & Hfix2 & Hpub2 & Hr);
    [apply wrap_uint; lia |].
  rewrite (bind_done _ _ _ _ _ Hmem). destruct r as [e | [buf n2]].
  - destruct Hr as (-> & Hwf2 & _). exists (- ENOMEM), d2, m2. split; [done |]. split; [done |].
    split; [eapply others_kept_trans; [apply with_dev_rest | exact Hrest2] |]. split; [congruence |].
    unfold ENOMEM. lia.
  - destruct Hr as (-> & Hd2 & blk & m3 & -> & Hcfg & Hrest3 & Hwf3 & Ha3 & Hrep).
    rewrite (bind_done _ _ _ _ _ (load_buf_run m2 i d2 Hd2)), (bw_cb _ _ _ _ _ Hwf3).
    rewrite (bind_done _ _ _ _ _ Hcfg). change (NO_OS_IS_ERR_VALUE 0) with false. cbv iota.
    assert (open_enable device trigger i d am 0 = open_enable device trigger i d2 am 0) as ->.
    { assert (fixed_part d2 = fixed_part d) as Hfix by congruence.
      apply fixed_driver in Hfix as (_ & H1 & H2). unfold open_enable. by rewrite H1, H2. }
    destruct (open_enable_run i m3 d2 p base am 0 Hwf3 ltac:(lia)) as (r & d4 & m4 & -> & Hwf4 & Hrest4 & Hfix4 & Hpub4 & Hr).
    exists r, d4, m4. split; [done |]. split; [done |]. split.
    { eapply others_kept_trans; [apply with_dev_rest |]. eapply others_kept_trans; [exact Hrest2 |].
      by eapply others_kept_trans. }
    split; [congruence |]. intros Hr0. destruct (Hr Hr0) as [-> Hcbs]. split; [done |].
    pose proof (bw_buf _ _ _ _ _ Hwf) as Hbuf. split; [rewrite Hpub2; cbn; by rewrite Hbuf |].
    intros Hsize. exists blk. destruct Hwf4. constructor; try done. rewrite Hcbs. by apply Hrep.
Qed.

(** Closing leaves no block, whatever the driver and the trigger return. *)
Lemma iio_close_run i m d p base :
  buf_wf m i d p base ->
  exists r d' m', iio_close_dev (dev_id d) m = Done (r, m') /\ buf_wf m' i d' p base /\
    others_kept i p m m' /\ fixed_part d' = fixed_part d /\ allocated (buffer d') = false /\
    descs (iio_cbs m') = descs (iio_cbs m) /\
    ib_size (public (buffer d')) = ib_size (public (buffer d)).
Proof using Hdrivers.
  intros Hwf. pose proof (bw_dev _ _ _ _ _ Hwf) as Hd. unfold IioBuffer.iio_close_dev.
  rewrite (bind_done _ _ _ _ _ (get_iio_device_run m i d (bw_ids _ _ _ _ _ Hwf) Hd)).
  rewrite (bind_done _ _ _ _ _ (load_dev_run m i d Hd)), (bw_init _ _ _ _ _ Hwf). cbn [negb].
  destruct (free_cb_run i m d p base Hwf) as (m1 & Hfree & Hwf1 & Hrest1 & Hfix1 & Hpub1 & Ha1 & Hds1).
  set (d1 := if allocated (buffer d) then _ else d) in *. rewrite (bind_done _ _ _ _ _ Hfree).
  destruct (on_trigger_run i m1 d1 p base disable 0 Hwf1 (dr_disable Hdrivers)) as (r & w & Ht).
  rewrite (bind_done _ _ _ _ _ Ht). pose proof (with_world_wf m1 i d1 p base w Hwf1) as Hwf2.
  destruct (truthy r).
  { exists r, d1, (with_world w m1). split; [done |]. by rewrite Hpub1. }
  destruct (upd_public_run i (with_mask 0) _ d1 p base Hwf2 ltac:(done)) as (Hupd & Hwf3 & Hfix3).
  rewrite (bind_done _ _ _ _ _ Hupd). set (d3 := with_buffer _ d1) in *. set (m3 := with_dev _ _ _) in *.
  assert (others_kept i p m m3) as Hrest3.
  { eapply others_kept_trans; [exact Hrest1 | eapply others_kept_trans; [apply (with_world_rest i p m1 w) | apply with_dev_rest]]. }
  destruct (post_disable (device (dev_descriptor d))) as [f |] eqn:E.
  - destruct (dr_post Hdrivers _ _ (dev_instance d) E m3) as (r2 & w2 & ->).
    exists r2, d3, (with_world w2 m3). split; [done |]. split; [by apply with_world_wf |]. split; [| split; [congruence | split; [done | by cbn; rewrite Hpub1]]].
    eapply others_kept_trans; [exact Hrest3 | apply with_world_rest].
  - exists r, d3, m3. split; [done |]. split; [done |]. split; [done |]. split; [congruence | split; [done | by cbn; rewrite Hpub1]].
Qed.

(** A client that opens and closes the device as it likes. *)
Inductive buf_call : Type :=
  | Open (samples mask : Z) (cyclic : bool)
  | Close.

Definition run_call (dev : list Z) (c : buf_call) : cmd mem Z :=
  match c with
  | Open n k cyclic => iio_open_dev dev n k cyclic
  | Close => iio_close_dev dev
  end.

Fixpoint run_calls (dev : list Z) (cs : list buf_call) : cmd mem (list Z) :=
  match cs with
  | [] => mret []
  | c :: cs => r ← run_call dev c; rs ← run_calls dev cs; mret (r :: rs)
  end.

Definition call_ok (c : buf_call) : Prop :=
  match c with Open n k _ => uint 32 n /\ uint 32 k | Close => True end.

Lemma run_calls_wf cs : forall i m d p base,
  buf_wf m i d p base -> scans_ok (device (dev_descriptor d)) -> Forall call_ok cs ->
  exists rs d' m', run_calls (dev_id d) cs m = Done (rs, m') /\ buf_wf m' i d' p base /\
    others_kept i p m m' /\ fixed_part d' = fixed_part d /\
    (last cs = Some Close -> allocated (buffer d') = false).
Proof using Hdrivers.
  induction cs as [| c cs IH]; intros i m d p base Hwf Hs Hcs.
  { exists [], d, m. split; [done |]. split; [done |]. split; [done |]. by split. }
  apply Forall_cons in Hcs as [Hc Hcs]. cbn [run_calls].
  assert (exists r d1 m1, run_call (dev_id d) c m = Done (r, m1) /\ buf_wf m1 i d1 p base /\
    others_kept i p m m1 /\ fixed_part d1 = fixed_part d /\ (c = Close -> allocated (buffer d1) = false))
    as (r & d1 & m1 & Hrun & Hwf1 & Hrest1 & Hfix1 & Ha1).
  { destruct c as [n k cyclic |]; cbn [run_call call_ok] in *.
    - destruct (iio_open_run i m d p base n k cyclic Hwf Hs) as (r & d1 & m1 & ? & ? & ? & ? & _); [ulia.. |].
      by exists r, d1, m1.
    - destruct (iio_close_run i m d p base Hwf) as (r & d1 & m1 & ? & ? & ? & ? & ? & _). by exists r, d1, m1. }
  rewrite (bind_done _ _ _ _ _ Hrun).
  destruct (fixed_driver _ _ Hfix1) as (Eid & _ & Edesc). rewrite <- Eid. destruct (IH i m1 d1 p base Hwf1) as (rs & d2 & m2 & Hruns & Hwf2 & Hrest2 & Hfix2 & Ha2);
    [by rewrite Edesc | done |].
  rewrite (bind_done _ _ _ _ _ Hruns). exists (r :: rs), d2, m2. split; [done |]. split; [done |].
  split; [by eapply others_kept_trans |]. split; [congruence |]. destruct cs as [| c2 cs]; [| exact Ha2].
  cbn. intros [= ->]. cbn [run_calls] in Hruns. injection Hruns as _ <-.
  assert (d2 = d1) as -> by (pose proof (bw_dev _ _ _ _ _ Hwf1); pose proof (bw_dev _ _ _ _ _ Hwf2); congruence).
  by apply Ha1.
Qed.
End life.

(** ** Sessions *)

Section session.
  Context {W : Type} (spins fuel : nat).
  Context (device : positive -> iio_device (iio_mem W)) (trigger : positive -> iio_trigger (iio_mem W)).
  Abbreviation mem := (iio_mem W).

(** An open buffer that the code allocated. *)
Record buf_live (m : mem) (i : nat) (d : iio_dev_priv) (p blk : positive) (s : Z) (h : list Z) (R : Z)
    (base : gmap positive (list Z)) : Prop := BufLive {
  bl_wf : buf_wf m i d p base;
  bl_allocated : allocated (buffer d) = true;
  bl_open : buf_open m i d p blk s h R
}.

(** A step of the circular buffer. *)
Lemma buf_live_cbs m i d p blk s h R base c h' R' :
  buf_live m i d p blk s h R base -> framed p blk (iio_cbs m) c -> cb_rep c p blk s h' R' None None ->
  buf_live (with_cbs c m) i d p blk s h' R' base.
Proof using.
  intros [Hwf Ha Ho] Hfr Hc. split; [| done | by eapply buf_open_rep].
  destruct Hwf as [Hids Hd Hi Hcb Hb Hr Hh Hp Ht Hblk]. rewrite Ha in Hblk.
  destruct Hblk as (c0 & blk0 & arr0 & Hp0 & Hb0 & Hn0 & Hcells).
  destruct (bo_rep _ _ _ _ _ _ _ _ Ho) as (arr1 & Hp1 & _). rewrite Hp1 in Hp0. injection Hp0 as <-.
  injection Hb0 as <-. destruct Hfr as [F1 F2 F3 F4 F5]. destruct Hc as (arr & Hpc & Hbc & _).
  assert (cells (arrs c) = <[blk := arr]> base) as Hcells'.
  { apply map_eq. intros q. destruct (decide (q = blk)) as [-> |]; [by rewrite lookup_insert_eq |].
    rewrite F2, Hcells, !lookup_insert_ne by done. done. }
  constructor; cbn [devs trigs iio_cbs with_cbs]; try done.
  - intros q Hq. rewrite F3. apply Hh. destruct (decide (q = blk)) as [-> | Hne].
    + rewrite Hcells, lookup_insert_eq. by eexists.
    + by rewrite <- F2.
  - rewrite Ha. by eexists _, blk, arr.
Qed.

(** What a change of the device's direction keeps. *)
Definition turned (x : iio_buffer_direction) (d : iio_dev_priv) : iio_dev_priv :=
  with_buffer (with_public (with_dir x (public (buffer d))) (buffer d)) d.

Lemma turned_turned x y d : turned x (turned y d) = turned x d.
Proof using. done. Qed.

Lemma buf_live_turned m i d p blk s h R base x :
  buf_live m i d p blk s h R base ->
  upd_public i (with_dir x) m = Done (tt, with_dev i (turned x d) m) /\
  buf_live (with_dev i (turned x d) m) i (turned x d) p blk s h R base.
Proof using.
  intros [Hwf Ha Ho]. destruct (upd_public_run i (with_dir x) m d p base Hwf ltac:(done)) as (Hu & Hwf' & Hfix).
  split; [exact Hu |]. destruct (Hwf') as [], Ho. by constructor.
Qed.

Lemma buf_live_world m i d p blk s h R base w :
  buf_live m i d p blk s h R base -> buf_live (with_world w m) i d p blk s h R base.
Proof using. intros [? ? []]. constructor; [by apply with_world_wf | done | by constructor]. Qed.

(** A driver that fills a block: what it returns and delivers is a function of
    the world. *)
Definition reads (f : ptr -> Z -> cmd mem (Z * list Z)) (g : W -> list Z * W) (inst : ptr) (n size : Z) :
  Prop :=
  forall m, let '(bytes, w) := g (iio_world m) in
    Z.of_nat (length bytes) = size /\
    exists r, 0 <= r /\ f inst n m = Done ((r, bytes), with_world w m).

(** The start of a transfer, up to the driver. *)
Lemma submit_start m i d p blk s h R base x :
  buf_live m i d p blk s h R base -> trig_idx d = NO_TRIGGER ->
  submit (device (dev_descriptor d)) = None ->
  iio_call_submit device (dev_id d) x m
  = (let n := samples (public (buffer d)) in
     match x with
     | IIO_DIRECTION_INPUT =>
         match read_dev (device (dev_descriptor d)) with
         | None => mret 0
         | Some f => legacy_transfer i (fun a =>
             r ← f (dev_instance d) n; _ ← store_block a r.2; mret r.1)
         end
     | IIO_DIRECTION_OUTPUT =>
         match write_dev (device (dev_descriptor d)) with
         | None => mret 0
         | Some f => legacy_transfer i (fun a => bytes ← load_block a; f (dev_instance d) bytes n)
         end
     end) (with_dev i (turned x d) m).
Proof using.
  intros Hl Ht Hs. pose proof (bl_wf _ _ _ _ _ _ _ _ _ Hl) as Hwf. pose proof (bw_dev _ _ _ _ _ Hwf) as Hd.
  unfold iio_call_submit. rewrite (bind_done _ _ _ _ _ (get_iio_device_run m i d (bw_ids _ _ _ _ _ Hwf) Hd)).
  rewrite (bind_done _ _ _ _ _ (load_dev_run m i d Hd)), (bw_init _ _ _ _ _ Hwf). cbn [negb].
  rewrite (bind_done _ _ _ _ _ (proj1 (buf_live_turned m i d p blk s h R base x Hl))).
  rewrite Ht, Z.eqb_refl. cbn [negb]. by rewrite Hs.
Qed.

(** A refill appends the block of the driver. *)
Lemma iio_refill_run m i d p blk s h R base f g :
  buf_live m i d p blk s h R base -> trig_idx d = NO_TRIGGER ->
  submit (device (dev_descriptor d)) = None -> read_dev (device (dev_descriptor d)) = Some f ->
  reads f g (dev_instance d) (samples (public (buffer d))) (ib_size (public (buffer d))) ->
  0 < ib_size (public (buffer d)) -> Z.of_nat (length h) mod s + ib_size (public (buffer d)) <= s ->
  exists m', iio_refill_buffer device (dev_id d) m = Done (0, m') /\
    buf_live m' i (turned IIO_DIRECTION_INPUT d) p blk s (h ++ (g (iio_world m)).1) R base /\
    iio_world m' = (g (iio_world m)).2 /\ others_kept i p m m'.
Proof using.
  intros Hl Ht Hs Hf Hg Hsz Hroom. unfold iio_refill_buffer.
  rewrite (submit_start m i d p blk s h R base IIO_DIRECTION_INPUT Hl Ht Hs), Hf.
  destruct (buf_live_turned m i d p blk s h R base IIO_DIRECTION_INPUT Hl) as [_ Hl1].
  set (d1 := turned IIO_DIRECTION_INPUT d) in *. set (m1 := with_dev i d1 m) in *.
  destruct (g (iio_world m)) as [bytes w] eqn:Eg. cbn [fst snd].
  assert (Z.of_nat (length bytes) = ib_size (public (buffer d))) as Hlen.
  { specialize (Hg m). rewrite Eg in Hg. apply Hg. }
  pose proof (bo_rep _ _ _ _ _ _ _ _ (bl_open _ _ _ _ _ _ _ _ _ Hl1)) as Hrep.
  destruct (cb_block_write _ p blk s h R None bytes Hrep) as (c1 & arr & c2 & Hp & Harr & Hmw & He & Hfr & Hrep2);
    [intros ->; cbn in Hlen; lia | lia |].
  set (c1' := set_arr c1 blk _) in *.
  pose proof (bw_dev _ _ _ _ _ (bl_wf _ _ _ _ _ _ _ _ _ Hl1)) as Hd1.
  assert (ib_buf (public (buffer d1)) = Some p) as Hib by apply (bl_wf _ _ _ _ _ _ _ _ _ Hl1).
  assert (ib_size (public (buffer d1)) = Z.of_nat (length bytes)) as Hsz1 by (cbn; lia).
  unfold legacy_transfer, iio_buffer_get_block. rewrite bind_assoc, (bind_done _ _ _ _ _ (load_buf_run m1 i d1 Hd1)).
  rewrite decide_True by done. rewrite Hib, Hsz1.
  rewrite bind_assoc, (bind_done _ _ _ _ _ (on_cbs_run _ m1 _ _ Hp)).
  set (m2 := with_cbs c1 m1) in *. erewrite (bind_done (mret _)) by done.
  cbn [fst snd fmap option_fmap option_map]. change (NO_OS_IS_ERR_VALUE 0) with false. cbv iota.
  specialize (Hg m2). change (iio_world m2) with (iio_world m) in Hg. rewrite Eg in Hg.
  destruct Hg as (_ & r & Hr & Hrun). rewrite bind_assoc, (bind_done _ _ _ _ _ Hrun).
  set (m3 := with_world w m2). cbn [fst snd store_block].
  rewrite bind_assoc. unfold store_block. rewrite bind_assoc.
  rewrite (bind_done _ _ _ _ _ (on_cbs_run _ m3 _ _ (arr_load c1 blk arr Harr))).
  change (with_cbs c1 m3) with m3. rewrite bind_assoc, Hmw.
  erewrite bind_done by done. rewrite (bind_done _ _ _ _ _ (on_cbs_run _ m3 _ _ (arr_store c1 blk arr _ Harr))).
  erewrite (bind_done (mret _)) by done.
  replace (NO_OS_IS_ERR_VALUE r) with false by (symmetry; unfold NO_OS_IS_ERR_VALUE; apply Z.ltb_ge; lia).
  set (m4 := with_cbs c1' m3). change (with_cbs (set_arr c1 blk _) m3) with m4.
  unfold iio_buffer_block_done. rewrite (bind_done _ _ _ _ _ (load_buf_run m4 i d1 Hd1)).
  rewrite decide_True by done. rewrite Hib. rewrite (on_cbs_run _ m4 _ _ He).
  eexists. split; [done |]. split; [| split; [done |]].
  - change (with_cbs c2 m4) with (with_cbs c2 (with_world w m1)).
    eapply buf_live_cbs; [by apply buf_live_world | done | done].
  - split; [done |]. split; [intros k Hk; cbn; by apply list_lookup_insert_ne |].
    split; [cbn; by rewrite length_insert |]. intros q Hq. by apply (fr_descs _ _ _ _ Hfr).
Qed.

(** *** A capture *)

(** The client reads pieces of the sizes [ns]; what it gets. *)
Fixpoint drain (dev : list Z) (ns : list Z) : cmd mem (list Z) :=
  match ns with
  | [] => mret []
  | n :: ns =>
      r ← iio_read_buffer (W := W) (S spins) fuel dev n;
      rest ← drain dev ns;
      mret (r.2 ++ rest)
  end.

(** A refill, and the reads up to the next one. *)
Fixpoint capture (dev : list Z) (rounds : list (list Z)) : cmd mem (list Z) :=
  match rounds with
  | [] => mret []
  | ns :: rounds =>
      _ ← iio_refill_buffer device dev;
      bytes ← drain dev ns;
      rest ← capture dev rounds;
      mret (bytes ++ rest)
  end.

Definition capture_session (dev : list Z) (samples mask : Z) (rounds : list (list Z)) :
  cmd mem (Z * list Z) :=
  r ← iio_open_dev device trigger dev samples mask false;
  if NO_OS_IS_ERR_VALUE r then mret (r, []) else
  bytes ← capture dev rounds;
  _ ← iio_close_dev device trigger dev;
  mret (r, bytes).

(** The blocks of a driver. *)
Fixpoint produced (g : W -> list Z * W) (n : nat) (w : W) : list Z :=
  match n with
  | O => []
  | S n => let '(bytes, w) := g w in bytes ++ produced g n w
  end.

Definition total (ns : list Z) : Z := foldr Z.add 0 ns.

Lemma drain_run ns : forall m i d p blk s h R base,
  buf_live m i d p blk s h R base -> Z.of_nat (length h) - R <= s -> s < Z.of_nat fuel ->
  Forall (fun n => 0 < n < 2 ^ 31) ns ->
  let k := Z.min (Z.of_nat (length h) - R) (total ns) in
  exists m', drain (dev_id d) ns m = Done (take (Z.to_nat k) (drop (Z.to_nat R) h), m') /\
    buf_live m' i d p blk s h (R + k) base /\ iio_world m' = iio_world m /\ others_kept i p m m'.
Proof using.
  induction ns as [| n ns IH]; intros m i d p blk s h R base Hl Hd Hf Hns k;
    pose proof (cb_rep_range _ _ _ _ _ _ _ _ (bo_rep _ _ _ _ _ _ _ _ (bl_open _ _ _ _ _ _ _ _ _ Hl))) as [Hs HR].
  { exists m. assert (k = 0) as -> by (subst k; cbn; lia). rewrite Z.add_0_r. by splits. }
  apply Forall_cons in Hns as [Hn Hns]. cbn [drain].
  destruct (iio_read_run spins fuel m i d p blk s h R n (bl_open _ _ _ _ _ _ _ _ _ Hl) Hd Hf Hn)
    as (m1 & Ho1 & Em1 & Hfr1 & Hr1).
  set (k1 := Z.min (Z.of_nat (length h) - R) n) in *.
  assert (buf_live m1 i d p blk s h (R + k1) base) as Hl1.
  { rewrite Em1. eapply buf_live_cbs; [done | done | apply (bo_rep _ _ _ _ _ _ _ _ Ho1)]. }
  rewrite (bind_done _ _ _ _ _ Hr1).
  destruct (IH m1 i d p blk s h (R + k1) base Hl1 ltac:(lia) Hf Hns) as (m2 & Hr2 & Hl2 & Hw2 & Hrest2).
  set (k2 := Z.min (Z.of_nat (length h) - (R + k1)) (total ns)) in *.
  assert (0 <= total ns) as Htot.
  { clear -Hns. induction Hns as [| x l Hx _ IHl]; [done |]. unfold total in *. cbn. lia. }
  assert (k = k1 + k2) as Ek by (subst k k1 k2; unfold total in *; cbn [foldr]; lia).
  rewrite (bind_done _ _ _ _ _ Hr2). exists m2. split; [| split; [| split]].
  - unfold mret, cmd_ret. do 2 f_equal. rewrite Ek. destruct (decide (k1 = 0)) as [E | E]; cbn [snd].
    + rewrite E, Z.add_0_r, Z.add_0_l. done.
    + rewrite !Z2Nat.inj_add by lia. rewrite <- drop_drop. apply take_take_drop.
  - by rewrite Ek, Z.add_assoc.
  - rewrite Hw2, Em1. done.
  - eapply others_kept_trans; [| exact Hrest2]. rewrite Em1. by eapply with_cbs_rest.
Qed.

Lemma capture_run f g rounds : forall m i d p blk s h base,
  buf_live m i d p blk s h (Z.of_nat (length h)) base -> trig_idx d = NO_TRIGGER ->
  submit (device (dev_descriptor d)) = None -> read_dev (device (dev_descriptor d)) = Some f ->
  reads f g (dev_instance d) (samples (public (buffer d))) s -> ib_size (public (buffer d)) = s ->
  s < Z.of_nat fuel -> Z.of_nat (length h) mod s = 0 ->
  Forall (fun ns => Forall (fun n => 0 < n < 2 ^ 31) ns /\ s <= total ns) rounds ->
  exists m' d' h', capture (dev_id d) rounds m = Done (produced g (length rounds) (iio_world m), m') /\
    buf_live m' i d' p blk s h' (Z.of_nat (length h')) base /\ fixed_part d' = fixed_part d /\ others_kept i p m m'.
Proof using.
  induction rounds as [| ns rounds IH]; intros m i d p blk s h base Hl Ht Hs Hf Hg Hsz Hfuel Hmod Hrounds.
  { by exists m, d, h. }
  apply Forall_cons in Hrounds as [[Hns Htot] Hrounds]. cbn [capture length produced].
  pose proof (cb_rep_range _ _ _ _ _ _ _ _ (bo_rep _ _ _ _ _ _ _ _ (bl_open _ _ _ _ _ _ _ _ _ Hl))) as [Hsr HR].
  destruct (iio_refill_run m i d p blk s h _ base f g Hl Ht Hs Hf) as (m1 & Hr1 & Hl1 & Hw1 & Hrest1);
    [by rewrite Hsz | lia.. |].
  set (d1 := turned IIO_DIRECTION_INPUT d) in *.
  destruct (g (iio_world m)) as [bytes w] eqn:Eg. cbn [fst snd] in *.
  assert (Z.of_nat (length bytes) = s) as Hlen by (specialize (Hg m); rewrite Eg in Hg; apply Hg).
  rewrite (bind_done _ _ _ _ _ Hr1). change (dev_id d) with (dev_id d1).
  destruct (drain_run ns m1 i d1 p blk s (h ++ bytes) _ base Hl1) as (m2 & Hr2 & Hl2 & Hw2 & Hrest2);
    [rewrite length_app; lia | done | done |].
  rewrite length_app in Hr2, Hl2.
  replace (Z.min (Z.of_nat (length h + length bytes) - Z.of_nat (length h)) (total ns)) with s in Hr2, Hl2 by lia.
  rewrite (bind_done _ _ _ _ _ Hr2).
  destruct (IH m2 i d1 p blk s (h ++ bytes) base) as (m3 & d3 & h3 & Hr3 & Hl3 & Hfix3 & Hrest3); try done.
  - rewrite length_app. by replace (Z.of_nat (length h + length bytes)) with (Z.of_nat (length h) + s) by lia.
  - rewrite length_app. replace (Z.of_nat (length h + length bytes)) with (Z.of_nat (length h) + 1 * s) by lia.
    by rewrite Z.mod_add by lia.
  - rewrite (bind_done _ _ _ _ _ Hr3). exists m3, d3, h3. split; [| split; [done |]; split; [done |]].
    + unfold mret, cmd_ret. do 2 f_equal. rewrite Hw2, Hw1. f_equal.
      rewrite Nat2Z.id, drop_app_length, take_ge; [done | lia].
    + eapply others_kept_trans; [exact Hrest1 |]. by eapply others_kept_trans.
Qed.

Hypothesis Hdrivers : drivers_ok device trigger.

Lemma capture_session_run m i d p base n mask rounds f g :
  buf_wf m i d p base -> scans_ok (device (dev_descriptor d)) -> trig_idx d = NO_TRIGGER ->
  submit (device (dev_descriptor d)) = None -> read_dev (device (dev_descriptor d)) = Some f ->
  0 <= mask -> 0 <= n ->
  let size := opened_scan (device (dev_descriptor d)) mask * n in
  0 < size <= 2 ^ 31 -> size < Z.of_nat fuel -> reads f g (dev_instance d) n size ->
  Forall (fun ns => Forall (fun n => 0 < n < 2 ^ 31) ns /\ size <= total ns) rounds ->
  exists r w d' m',
    capture_session (dev_id d) n mask rounds m
      = Done ((r, if NO_OS_IS_ERR_VALUE r then [] else produced g (length rounds) w), m') /\
    buf_wf m' i d' p base /\ others_kept i p m m' /\
    (0 <= r -> cells (arrs (iio_cbs m')) = base).
Proof using Hdrivers.
  intros Hwf Hscan Ht Hs Hf Hmask Hn size Hsize Hfuel Hg Hrounds. unfold capture_session.
  destruct (iio_open_run device trigger Hdrivers i m d p base n mask false Hwf Hscan Hmask Hn)
    as (r & d1 & m1 & Hopen & Hwf1 & Hrest1 & Hfix1 & Hr).
  rewrite (bind_done _ _ _ _ _ Hopen). unfold NO_OS_IS_ERR_VALUE in *. destruct (Z.ltb_spec r 0) as [Hr0 | Hr0].
  { exists r, (iio_world m1), d1, m1. rewrite (proj2 (Z.ltb_lt r 0) Hr0). splits; try done. lia. }
  destruct (Hr Hr0) as (Ha1 & Hpub1 & Hopen1).
  rewrite wrap_small in Hpub1, Hopen1 by (fold size; ulia). fold size in Hpub1, Hopen1.
  destruct (Hopen1 Hsize) as [blk Ho1].
  destruct (fixed_driver _ _ Hfix1) as (Eid & Einst & Edesc).
  assert (trig_idx d1 = trig_idx d) as Etrig by (unfold fixed_part in Hfix1; by injection Hfix1).
  destruct (capture_run f g rounds m1 i d1 p blk size [] base) as (m2 & d2 & h2 & Hcap & Hl2 & Hfix2 & Hrest2).
  - by split.
  - by rewrite Etrig.
  - by rewrite Edesc.
  - by rewrite Edesc.
  - by rewrite Einst, Hpub1.
  - by rewrite Hpub1.
  - done.
  - apply Z.mod_0_l. lia.
  - done.
  - rewrite <- Eid, (bind_done _ _ _ _ _ Hcap).
    destruct (fixed_driver _ _ Hfix2) as (Eid2 & _). rewrite <- Eid2.
    destruct (iio_close_run device trigger Hdrivers i m2 d2 p base (bl_wf _ _ _ _ _ _ _ _ _ Hl2))
      as (rc & d3 & m3 & Hclose & Hwf3 & Hrest3 & _ & Ha3 & _).
    rewrite (bind_done _ _ _ _ _ Hclose). exists r, (iio_world m1), d3, m3.
    replace (r <? 0) with false by (symmetry; apply Z.ltb_ge; lia). split; [done |]. split; [done |]. split.
    + eapply others_kept_trans; [exact Hrest1 |]. by eapply others_kept_trans.
    + intros _. pose proof (bw_block _ _ _ _ _ Hwf3) as Hb. by rewrite Ha3 in Hb.
Qed.
End session.

(** C8: a client that opens a device, reads each block in pieces of any sizes
    that make it up, and closes, gets the driver's blocks, every byte once and
    in order, or the error of the open; nothing is undefined, no memory is
    left, and the other devices, triggers and buffers are as they were. *)
Theorem iio_capture_correct {W} spins fuel (device : positive -> iio_device (iio_mem W)) trigger
    m i d p base n mask rounds f g :
  drivers_ok device trigger -> buf_wf m i d p base -> scans_ok (device (dev_descriptor d)) ->
  trig_idx d = NO_TRIGGER -> submit (device (dev_descriptor d)) = None ->
  read_dev (device (dev_descriptor d)) = Some f -> 0 <= mask -> 0 <= n ->
  let size := opened_scan (device (dev_descriptor d)) mask * n in
  0 < size <= 2 ^ 31 -> size < Z.of_nat fuel -> reads f g (dev_instance d) n size ->
  Forall (fun ns => Forall (fun n => 0 < n < 2 ^ 31) ns /\ size <= total ns) rounds ->
  exists r w d' m',
    capture_session spins fuel device trigger (dev_id d) n mask rounds m
      = Done ((r, if NO_OS_IS_ERR_VALUE r then [] else produced g (length rounds) w), m') /\
    buf_wf m' i d' p base /\ others_kept i p m m' /\ (0 <= r -> cells (arrs (iio_cbs m')) = base).
Proof. intros Hd. by apply capture_session_run. Qed.

(** C14: whatever a client opens and closes, in whatever order, and whichever
    allocations, drivers and triggers fail, every call returns, the device and
    its buffer stay well formed, with exactly one block while the buffer is
    allocated and none otherwise, so nothing leaks and nothing is freed twice,
    and everything else is as it was. *)
Theorem iio_buffer_wf_kept {W} (device : positive -> iio_device (iio_mem W)) trigger m i d p base cs :
  drivers_ok device trigger -> buf_wf m i d p base -> scans_ok (device (dev_descriptor d)) ->
  Forall call_ok cs ->
  exists rs d' m',
    run_calls device trigger (dev_id d) cs m = Done (rs, m') /\ buf_wf m' i d' p base /\
    others_kept i p m m' /\ fixed_part d' = fixed_part d /\
    (last cs = Some Close -> cells (arrs (iio_cbs m')) = base).
Proof.
  intros Hdr Hwf Hs Hcs.
  destruct (run_calls_wf device trigger Hdr cs i m d p base Hwf Hs Hcs) as (rs & d' & m' & ? & Hwf' & ? & ? & Ha).
  exists rs, d', m'. splits; try done. intros Hc. pose proof (bw_block _ _ _ _ _ Hwf') as Hb.
  by rewrite (Ha Hc) in Hb.
Qed.

(** Closing frees the block of the circular buffer but leaves the buffer
    usable: reading after it, when bytes were unread, and writing, when there
    was room, use the freed block. *)
Theorem iio_use_after_close {W} spins fuel (device : positive -> iio_device (iio_mem W)) trigger
    m i d p blk s h R base n data :
  drivers_ok device trigger -> buf_live m i d p blk s h R base -> 0 < n < 2 ^ 31 ->
  let unread := Z.of_nat (length h) - R in
  unread <= s -> unread <= ib_size (public (buffer d)) < 2 ^ 32 ->
  exists r m', iio_close_dev device trigger (dev_id d) m = Done (r, m') /\
    (0 < unread -> iio_read_buffer (S spins) (S fuel) (dev_id d) n m' = Undef) /\
    (unread < ib_size (public (buffer d)) ->
       iio_write_buffer (S spins) (S fuel) (dev_id d) data n m' = Undef).
Proof.
  intros Hdr [Hwf Ha Ho] Hn unread Hu Hsz.
  destruct (iio_close_run device trigger Hdr i m d p base Hwf)
    as (r & d' & m' & Hclose & Hwf' & _ & Hfix & Ha' & Hds & Hsize).
  exists r, m'. split; [done |]. destruct (fixed_driver _ _ Hfix) as (Eid & _). rewrite <- Eid.
  destruct Hwf' as [Hids' Hd' Hi' Hc' Hb' _ _ _ _ Hblk']. rewrite Ha' in Hblk'.
  pose proof (bo_rep _ _ _ _ _ _ _ _ Ho) as Hrep.
  assert (cells (arrs (iio_cbs m')) !! blk = None) as HB.
  { rewrite Hblk'. pose proof (bw_block _ _ _ _ _ Hwf) as Hb. rewrite Ha in Hb.
    destruct Hb as (c & blk0 & arr & Hpc & Hcb & Hnone & _). destruct Hrep as (arr1 & Hp1 & _).
    rewrite Hp1 in Hpc. injection Hpc as <-. by injection Hcb as <-. }
  assert (iio_cbs m' = CbMem (descs (iio_cbs m)) (arrs (iio_cbs m'))) as Ec by (rewrite <- Hds; by destruct (iio_cbs m')).
  assert (on_cbs (no_os_cb_size (Some p) false) m' = Done ((0, Some unread), m')) as Hsize'.
  { pose proof (cb_size_run _ p blk s h R None None Hrep Hu) as Hr.
    assert (no_os_cb_size (Some p) false (iio_cbs m') = Done ((0, Some unread), iio_cbs m')) as Hr'.
    { unfold no_os_cb_size in *. apply bind_inv in Hr as (c & m1 & Hl & Hr). rewrite Ec.
      rewrite (bind_done _ _ _ _ _ (on_descs_arrs _ _ _ _ (arrs (iio_cbs m')) Hl)).
      injection Hr as H1 H2 H3. unfold unread. by rewrite <- H1, <- H2, H3. }
    rewrite (on_cbs_run _ _ _ _ Hr'). by rewrite with_cbs_id. }
  destruct (cb_rep_range _ _ _ _ _ _ _ _ Hrep) as [Hs HR].
  assert (forall A (c : cmd cb_mem A), c (CbMem (descs (iio_cbs m)) (arrs (iio_cbs m'))) = Undef -> on_cbs c m' = Undef) as Hundef.
  { intros A c Hc. unfold on_cbs, zoom. by rewrite Ec, Hc. }
  split; intros Hx; unfold iio_read_buffer, iio_write_buffer;
    rewrite (bind_done _ _ _ _ _ (get_iio_device_run m' i d' Hids' Hd'));
    rewrite (bind_done _ _ _ _ _ (load_buf_run m' i d' Hd')), Hi', Hc'; cbn [negb];
    rewrite (bind_done _ _ _ _ _ Hsize'); cbn [fst snd default from_option id];
    change (NO_OS_IS_ERR_VALUE 0) with false; cbv iota.
  - unfold truthy. destruct (Z.eqb_spec (Z.min unread n) 0); [lia |]. cbn [negb].
    apply bind_undef, Hundef. eapply freed_read; [exact Hrep | done | ulia | fold unread; lia].
  - rewrite Hsize, (wrap_small 32) by ulia.
    apply bind_undef, Hundef. eapply freed_write; [exact Hrep | done | ulia].
Qed.

(** *** Cyclic buffers *)

Section cyclic.
  Context {W : Type} (spins fuel : nat).
  Abbreviation mem := (iio_mem W).
  Abbreviation pop := (iio_buffer_pop_scan (W := W) (S spins) (S fuel)).

(** A driver that takes [count] scans of [n] bytes, one after the other. *)
Fixpoint pops (count i : nat) (n : Z) : cmd mem (list (Z * list Z)) :=
  match count with
  | O => mret []
  | S count =>
      r ← pop (Some i) (replicate (Z.to_nat n) 0);
      rs ← pops count i n;
      mret (r :: rs)
  end.

Definition nth_scan (h : list Z) (n : Z) (j : nat) : list Z :=
  take (Z.to_nat n) (drop (j * Z.to_nat n) h).

(** The index of the reader goes back when it meets the writer's. *)
Lemma rewind_run (m : mem) i d p blk s h R :
  buf_open m i d p blk s h R -> Z.of_nat (length h) <= s ->
  let R' := if decide (R = Z.of_nat (length h) /\ R < s) then 0 else R in
  exists m', (c ← on_cbs (on_descs (hload (Some p)));
    if idx (read c) =? idx (write c) then
      on_cbs (on_descs (hstore (Some p)
        (cb_upd true (CbPtr 0 (spin_count (read c)) (async_started (read c)) (async_size (read c))) c)))
    else mret tt) m = Done (tt, m') /\
    (0 < R -> buf_open m' i d p blk s h R').
Proof using.
  intros Ho Hle R'. destruct (bo_rep _ _ _ _ _ _ _ _ Ho) as (arr & Hp & Hb & Hs & Hl & HR & Hh).
  rewrite (bind_done _ _ _ _ _ (on_cbs_run _ m _ _ (desc_load _ p _ Hp))), with_cbs_id.
  cbn [read write cb_pos idx spin_count async_started async_size].
  set (n := Z.of_nat (length h)) in *.
  destruct (Z.eqb_spec (R mod s) (n mod s)) as [E | E].
  - rewrite (on_cbs_run _ m _ _ (desc_store _ p _ _ Hp)). eexists. split; [done |]. intros HR0.
    eapply buf_open_rep; [exact Ho |]. exists arr. rewrite set_desc_look. cbn [cb_upd cb_sz cb_buff write].
    assert (R = n /\ (n < s \/ n = s)) as [HRn Hn].
    { destruct (decide (n < s)) as [Hlt | Hlt].
      - rewrite (Z.mod_small n), (Z.mod_small R) in E by lia. split; [done | by left].
      - assert (n = s) as -> by lia. rewrite Z.mod_same in E by lia.
        destruct (decide (R < s)); [rewrite Z.mod_small in E by lia; lia |]. split; lia. }
    assert (CbPtr 0 (u32 (R / s)) (bool_decide (is_Some (@None Z))) (default 0 (@None Z)) = cb_pos s R' None) as ->.
    { unfold cb_pos, R'. case_decide as Hd; destruct Hn as [Hn | Hn]; try lia.
      - rewrite Z.mod_0_l, Z.div_0_l by lia. by rewrite Z.div_small by lia.
      - rewrite HRn, Hn, Z.mod_same by lia. done. }
    assert (0 <= R' <= n) by (unfold R'; case_decide; lia). splits; done || lia.
  - exists m. split; [done |]. intros HR0. unfold R'. rewrite decide_False; [done |]. intros [-> _]. done.
Qed.

Lemma pop_run (m : mem) i d p blk s h R :
  buf_open m i d p blk s h R -> is_cyclic (cyclic_info (public (buffer d))) = true ->
  let n := ib_bytes_per_scan (public (buffer d)) in
  0 < n < 2 ^ 32 -> n < Z.of_nat (S fuel) -> R + n <= Z.of_nat (length h) <= s ->
  let R' := if decide (R + n = Z.of_nat (length h) /\ R + n < s) then 0 else R + n in
  exists m', pop (Some i) (replicate (Z.to_nat n) 0) m = Done ((0, take (Z.to_nat n) (drop (Z.to_nat R) h)), m') /\
    buf_open m' i d p blk s h R'.
Proof using.
  intros Ho Hc n Hn Hf Hle R'. unfold iio_buffer_pop_scan.
  rewrite (bind_done _ _ _ _ _ (load_buf_run m i d (bo_dev _ _ _ _ _ _ _ _ Ho))).
  rewrite (bo_buf _ _ _ _ _ _ _ _ Ho). fold n. rewrite Hc.
  pose proof (bo_rep _ _ _ _ _ _ _ _ Ho) as Hrep. destruct (cb_rep_range _ _ _ _ _ _ _ _ Hrep) as [Hs HR].
  destruct (cb_read_run (iio_cbs m) p blk s h R None (replicate (Z.to_nat n) 0) n spins (S fuel) Hrep)
    as (c & Hr & Hc1); [done | rewrite length_replicate; lia | done | done | lia | cbn; lia |].
  rewrite (bind_done _ _ _ _ _ (on_cbs_run _ m _ _ Hr)).
  rewrite inserts_all by (rewrite length_take, length_drop, length_replicate; lia).
  pose proof (buf_open_rep m i d p blk s h R c h (R + n) Ho Hc1) as Ho1.
  destruct (rewind_run _ i d p blk s h (R + n) Ho1) as (m2 & Hw & Ho2); [lia |].
  rewrite (bind_done _ _ _ _ _ Hw). exists m2. split; [done |]. apply Ho2. lia.
Qed.

(** The pop of a buffer that was read to the end of its ring. *)
Lemma pop_empty (m : mem) i d p blk s h data :
  buf_open m i d p blk s h s -> is_cyclic (cyclic_info (public (buffer d))) = true ->
  let n := ib_bytes_per_scan (public (buffer d)) in
  0 < n < 2 ^ 32 -> Z.of_nat (length h) = s ->
  exists m', pop (Some i) data m = Done ((-1, data), m').
Proof using.
  intros Ho Hc n Hn Hle. unfold iio_buffer_pop_scan.
  rewrite (bind_done _ _ _ _ _ (load_buf_run m i d (bo_dev _ _ _ _ _ _ _ _ Ho))).
  rewrite (bo_buf _ _ _ _ _ _ _ _ Ho). fold n. rewrite Hc.
  pose proof (bo_rep _ _ _ _ _ _ _ _ Ho) as Hrep.
  rewrite <- Hle in Hrep at 2. destruct (cb_read_empty _ p blk s h data n spins fuel Hrep Hn) as (c & Hr & Hc1).
  rewrite (bind_done _ _ _ _ _ (on_cbs_run _ m _ _ Hr)). rewrite Hle in Hc1.
  pose proof (buf_open_rep m i d p blk s h s c h s Ho Hc1) as Ho1.
  destruct (rewind_run _ i d p blk s h s Ho1) as (m2 & Hw & _); [lia |].
  rewrite (bind_done _ _ _ _ _ Hw). by exists m2.
Qed.

Lemma pops_laps k i d p blk s h count : forall j (m : mem),
  let n := ib_bytes_per_scan (public (buffer d)) in
  buf_open m i d p blk s h (Z.of_nat j * n) -> is_cyclic (cyclic_info (public (buffer d))) = true ->
  0 < n < 2 ^ 32 -> n < Z.of_nat (S fuel) -> Z.of_nat (length h) = Z.of_nat k * n ->
  Z.of_nat (length h) < s -> (j < k)%nat ->
  exists m', pops count i n m
    = Done ((fun x => (0, nth_scan h n ((j + x) mod k))) <$> seq 0 count, m').
Proof using.
  induction count as [| count IH]; intros j m n Ho Hc Hn Hf Hl Hs Hj; [by exists m |].
  assert ((Z.of_nat j + 1) * n <= Z.of_nat k * n) as Hle by (apply Z.mul_le_mono_nonneg_r; lia).
  destruct (pop_run m i d p blk s h _ Ho Hc Hn Hf) as (m1 & Hr & Ho1); [lia |].
  assert (exists j', (j' < k)%nat /\ (forall x, (j' + x) mod k = (j + S x) mod k)%nat /\
    buf_open m1 i d p blk s h (Z.of_nat j' * n)) as (j' & Hj' & Hx & Ho1').
  { destruct (decide (S j = k)) as [<- | Hne].
    - exists 0%nat. split; [lia |]. split.
      + intros x. replace (j + S x)%nat with (x + 1 * S j)%nat by lia. by rewrite Nat.Div0.mod_add.
      + rewrite decide_True in Ho1 by (fold n; lia). exact Ho1.
    - exists (S j). split; [lia |]. split; [intros x; f_equal; lia |].
      assert ((Z.of_nat j + 2) * n <= Z.of_nat k * n) by (apply Z.mul_le_mono_nonneg_r; lia).
      rewrite decide_False in Ho1 by (fold n; lia).
      by replace (Z.of_nat (S j) * n) with (Z.of_nat j * n + n) by lia. }
  destruct (IH j' m1 Ho1' Hc Hn Hf Hl Hs Hj') as [m2 Hr2]. exists m2. cbn [pops].
  rewrite (bind_done _ _ _ _ _ Hr). rewrite (bind_done _ _ _ _ _ Hr2).
  unfold mret, cmd_ret. do 2 f_equal. cbn [seq]. rewrite fmap_cons. f_equal.
  - rewrite Nat.add_0_r, Nat.mod_small by done. unfold nth_scan. do 3 f_equal. fold n. lia.
  - rewrite <- fmap_S_seq, <- list_fmap_compose. apply list_fmap_ext. intros ? x _. cbn. by rewrite Hx.
Qed.

Lemma pops_once k i d p blk s h count : forall j (m : mem),
  let n := ib_bytes_per_scan (public (buffer d)) in
  buf_open m i d p blk s h (Z.of_nat j * n) -> is_cyclic (cyclic_info (public (buffer d))) = true ->
  0 < n < 2 ^ 32 -> n < Z.of_nat (S fuel) -> Z.of_nat (length h) = Z.of_nat k * n ->
  Z.of_nat (length h) = s -> (j + count = k)%nat ->
  exists m', pops (S count) i n m
    = Done (((fun x => (0, nth_scan h n (j + x))) <$> seq 0 count) ++ [(-1, replicate (Z.to_nat n) 0)], m').
Proof using.
  induction count as [| count IH]; intros j m n Ho Hc Hn Hf Hl Hs Hj.
  - assert (Z.of_nat j * n = s) as Ej by (rewrite <- Hs, Hl; f_equal; lia). rewrite Ej in Ho.
    destruct (pop_empty m i d p blk s h (replicate (Z.to_nat n) 0) Ho Hc Hn Hs) as [m1 Hr].
    exists m1. cbn [pops]. rewrite (bind_done _ _ _ _ _ Hr). done.
  - assert ((Z.of_nat j + 1) * n <= Z.of_nat k * n) as Hle by (apply Z.mul_le_mono_nonneg_r; lia).
    destruct (pop_run m i d p blk s h _ Ho Hc Hn Hf) as (m1 & Hr & Ho1); [lia |].
    rewrite decide_False in Ho1 by (fold n; lia).
    fold n in Ho1. replace (Z.of_nat j * n + n) with (Z.of_nat (S j) * n) in Ho1 by lia.
    destruct (IH (S j) m1 Ho1 Hc Hn Hf Hl Hs) as [m2 Hr2]; [lia |]. exists m2.
    change (pops (S (S count)) i n) with (r ← pop (Some i) (replicate (Z.to_nat n) 0); rs ← pops (S count) i n; mret (r :: rs)).
    rewrite (bind_done _ _ _ _ _ Hr). fold n in Hr2. rewrite (bind_done _ _ _ _ _ Hr2).
    unfold mret, cmd_ret. do 2 f_equal. cbn [seq]. rewrite fmap_cons. cbn [app]. f_equal.
    + rewrite Nat.add_0_r. unfold nth_scan. do 3 f_equal. fold n. lia.
    + f_equal. rewrite <- fmap_S_seq, <- list_fmap_compose. apply list_fmap_ext. intros ? x _. cbn.
      by rewrite Nat.add_succ_r.
Qed.
End cyclic.

(** A driver that takes scans from a cyclic buffer gets the client's scans
    over and over when the ring is larger than the data; but when the data
    fills the ring, as in every buffer that the code allocates and the client
    fills, it gets them once, and the pop after that fails. *)
Theorem iio_cyclic_pops {W} spins fuel (m : iio_mem W) i d p blk s h k :
  let n := ib_bytes_per_scan (public (buffer d)) in
  buf_open m i d p blk s h 0 -> is_cyclic (cyclic_info (public (buffer d))) = true ->
  0 < n < 2 ^ 32 -> n < Z.of_nat (S fuel) -> (0 < k)%nat -> Z.of_nat (length h) = Z.of_nat k * n ->
  (Z.of_nat (length h) < s -> forall count, exists m', pops spins fuel count i n m
     = Done ((fun x => (0, nth_scan h n (x mod k))) <$> seq 0 count, m')) /\
  (Z.of_nat (length h) = s -> exists m', pops spins fuel (S k) i n m
     = Done (((fun x => (0, nth_scan h n x)) <$> seq 0 k) ++ [(-1, replicate (Z.to_nat n) 0)], m')).
Proof.
  intros n Ho Hc Hn Hf Hk Hl. split.
  - intros Hs count. by apply (pops_laps spins fuel k i d p blk s h count 0 m).
  - intros Hs. by apply (pops_once spins fuel k i d p blk s h k 0 m).
Qed.

(** ** Instances *)

Definition bx_channel (bits : Z) : iio_channel (iio_mem Z) :=
  IioChannel None IIO_VOLTAGE 0 0 0 0 (Some (ScanType 115 bits bits 0 false)) None false false true false.

(** Two bytes, four bytes and one byte. *)
Lemma bytes_per_scan_correct_witness :
  bytes_per_scan [bx_channel 16; bx_channel 24; bx_channel 32; bx_channel 8] 13 = Done 12 /\
  layout_ok [2; 4; 1] [0; 4; 8] 12.
Proof.
  destruct (bytes_per_scan_correct [bx_channel 16; bx_channel 24; bx_channel 32; bx_channel 8] 13)
    as (H1 & H2 & _).
  - apply Nat.leb_le. reflexivity.
  - cbn. lia.
  - apply (bool_decide_unpack _). by vm_compute.
  - by split.
Defined.

(** A driver that counts: each block is the next two numbers. *)
Definition bx_block (w : Z) : list Z * Z := ([w mod 256; (w + 1) mod 256], w + 2).

Definition bx_read : ptr -> Z -> cmd (iio_mem Z) (Z * list Z) := fun _ _ m =>
  let '(bytes, w) := bx_block (iio_world m) in Done ((0, bytes), with_world w m).

Definition bx_device : iio_device (iio_mem Z) :=
  IioDevice 1 [bx_channel 8] None None None (Some bx_read) None None None None None None None.

Definition bx_buffer (al cyc : bool) (size : Z) : iio_buffer_priv :=
  BufferPriv (IioBuffer 1 size 1 size IIO_DIRECTION_INPUT (Some 1%positive) (CyclicInfo cyc 0)) (Some 1%positive)
    None 0 true al.

Definition bx_dev (al cyc : bool) (size : Z) : iio_dev_priv :=
  DevPriv (str "iio:device0") [] None 0 1 (bx_buffer al cyc size) NO_TRIGGER.

Definition bx_trigger (_ : positive) : iio_trigger (iio_mem Z) := IioTrigger false None None None.

Definition bx_mem : iio_mem Z :=
  IioMem [bx_dev false false 0] []
    (CbMem (Heap {[1%positive := Cb 0 None cb_ptr0 cb_ptr0]} 2 []) (Heap ∅ 1 [false; true])) 7.

Lemma bx_drivers : drivers_ok (fun _ => bx_device) bx_trigger.
Proof. by constructor. Qed.

Lemma bx_scans : scans_ok bx_device.
Proof. split; [done | cbn; lia |]. apply Forall_cons_2; [by split | apply Forall_nil_2]. Qed.

Lemma bx_wf : buf_wf bx_mem 0 (bx_dev false false 0) 1 ∅.
Proof.
  constructor; try done.
  - apply NoDup_singleton.
  - by intros q [? ?].
  - by left.
Qed.

(** The buffer is opened twice, and the second call of [calloc] fails. *)
Lemma iio_buffer_wf_kept_witness :
  exists rs d' m', run_calls (fun _ => bx_device) bx_trigger (str "iio:device0")
    [Open 2 1 false; Open 3 1 true; Close] bx_mem = Done (rs, m') /\ buf_wf m' 0 d' 1 ∅ /\
    cells (arrs (iio_cbs m')) = ∅.
Proof.
  destruct (iio_buffer_wf_kept (fun _ => bx_device) bx_trigger bx_mem 0 (bx_dev false false 0) 1 ∅
    [Open 2 1 false; Open 3 1 true; Close] bx_drivers bx_wf bx_scans) as (rs & d' & m' & H1 & H2 & _ & _ & H3).
  - repeat (apply Forall_cons_2; [cbn; unfold uint; lia |]). apply Forall_nil_2.
  - exists rs, d', m'. split; [exact H1 |]. split; [exact H2 |]. by apply H3.
Defined.

(** Two blocks, one of them read a byte at a time. *)
Lemma iio_capture_correct_witness :
  exists r w d' m', capture_session 0 8 (fun _ => bx_device) bx_trigger (str "iio:device0") 2 1 [[1; 1; 1]; [5]] bx_mem
    = Done ((r, if NO_OS_IS_ERR_VALUE r then [] else produced bx_block 2 w), m') /\
    buf_wf m' 0 d' 1 ∅ /\ (0 <= r -> cells (arrs (iio_cbs m')) = ∅).
Proof.
  destruct (iio_capture_correct 0 8 (fun _ => bx_device) bx_trigger bx_mem 0 (bx_dev false false 0) 1 ∅ 2 1
    [[1; 1; 1]; [5]] bx_read bx_block bx_drivers bx_wf bx_scans)
    as (r & w & d' & m' & H1 & H2 & _ & H3).
  - reflexivity.
  - reflexivity.
  - reflexivity.
  - lia.
  - lia.
  - vm_compute. split; [reflexivity | discriminate].
  - vm_compute. reflexivity.
  - intros m. split; [reflexivity |]. exists 0. split; [lia | reflexivity].
  - repeat (apply Forall_cons_2; [split; [repeat (apply Forall_cons_2; [lia |]); apply Forall_nil_2 | vm_compute; discriminate] |]).
    apply Forall_nil_2.
  - exists r, w, d', m'. split; [exact H1 |]. by split.
Defined.

(** An open buffer of [s] bytes in which [h] is unread. *)
Definition bx_open (cyc : bool) (size s : Z) (h arr : list Z) : iio_mem Z :=
  IioMem [bx_dev true cyc size] []
    (CbMem (Heap {[1%positive := Cb s (Some 1%positive) (cb_pos s (Z.of_nat (length h)) None) (cb_pos s 0 None)]} 2 [])
       (Heap {[1%positive := arr]} 2 [])) 7.

Lemma bx_opened cyc size s h arr :
  0 < s <= 2 ^ 31 -> Z.of_nat (length arr) = s -> cb_holds s arr h (Z.of_nat (length h) - s) ->
  buf_open (bx_open cyc size s h arr) 0 (bx_dev true cyc size) 1 1 s h 0.
Proof.
  intros Hs Hl Hh. constructor; try done; [apply NoDup_singleton |].
  exists arr. cbn. rewrite !lookup_singleton_eq, Z.add_0_r. splits; done || lia.
Qed.

Lemma iio_use_after_close_witness :
  exists r m', iio_close_dev (fun _ => bx_device) bx_trigger (str "iio:device0") (bx_open false 4 4 [1; 2] [1; 2; 0; 0])
      = Done (r, m') /\
    iio_read_buffer 1 1 (str "iio:device0") 2 m' = Undef /\
    iio_write_buffer 1 1 (str "iio:device0") [5; 6] 2 m' = Undef.
Proof.
  assert (buf_live (bx_open false 4 4 [1; 2] [1; 2; 0; 0]) 0 (bx_dev true false 4) 1 1 4 [1; 2] 0 ∅) as Hl.
  { assert (buf_open (bx_open false 4 4 [1; 2] [1; 2; 0; 0]) 0 (bx_dev true false 4) 1 1 4 [1; 2] 0) as Ho.
    { apply bx_opened; [lia | done |]. intros k Hk0 Hk. cbn in Hk. assert (k = 0 \/ k = 1) as [-> | ->] by lia; done. }
    split; [| done | exact Ho]. constructor; try done; [apply NoDup_singleton | | by left |].
    - intros q [x Hq]. cbn in Hq |- *. apply lookup_singleton_Some in Hq as [<- _]. lia.
    - cbn. by eexists _, 1%positive, [1; 2; 0; 0]. }
  destruct (iio_use_after_close 0 0 (fun _ => bx_device) bx_trigger _ 0 _ 1 1 4 [1; 2] 0 ∅ 2 [5; 6] bx_drivers Hl)
    as (r & m' & H1 & H2 & H3).
  - lia.
  - cbn. lia.
  - cbn. lia.
  - exists r, m'. split; [exact H1 |]. split; [apply H2; cbn; lia | apply H3; cbn; lia].
Defined.

(** Two scans of a byte in a ring of three, and in a ring of two. *)
Lemma iio_cyclic_pops_witness :
  (exists m', pops 0 1 5 0 1 (bx_open true 2 3 [1; 2] [1; 2; 0])
     = Done ([(0, [1]); (0, [2]); (0, [1]); (0, [2]); (0, [1])], m')) /\
  (exists m', pops 0 1 3 0 1 (bx_open true 2 2 [1; 2] [1; 2]) = Done ([(0, [1]); (0, [2]); (-1, [0])], m')).
Proof.
  assert (forall s arr, 2 <= s <= 3 -> Z.of_nat (length arr) = s -> take 2 arr = [1; 2] ->
    buf_open (bx_open true 2 s [1; 2] arr) 0 (bx_dev true true 2) 1 1 s [1; 2] 0) as Ho.
  { intros s arr Hs Hl Ht. apply bx_opened; [lia | done |]. intros k Hk0 Hk. cbn in Hk.
    rewrite Z.mod_small by lia. rewrite <- Ht, lookup_take_lt by lia. done. }
  split.
  - refine (proj1 (iio_cyclic_pops 0 1 _ 0 (bx_dev true true 2) 1 1 3 [1; 2] 2 (Ho 3 [1; 2; 0] _ _ _) _ _ _ _ _) _ 5%nat);
      done || (vm_compute; split; done) || lia.
  - refine (proj2 (iio_cyclic_pops 0 1 _ 0 (bx_dev true true 2) 1 1 2 [1; 2] 2 (Ho 2 [1; 2] _ _ _) _ _ _ _ _) _);
      done || (vm_compute; split; done) || lia.
Defined.
