(* ===== verification/IioXml.v ===== *)
(** * The description of a context: [iio/iio.c], the XML

    [iio_init_xml] makes the text that a client reads with PRINT: it computes
    the size, allocates, and prints.  The model keeps the printing into a
    buffer whose bounds matter; the theorem gives the tree of elements that the
    text is. *)
From Stdlib Require Import String.
From S2P Require Import Prelude Util CString StrConv Iiod IioValue IioDevice.

(** A format string, with ['] for the double quotes of the code. *)
Definition quoted (s : string) : list Z := (fun c => if c =? 39 then 34 else c) <$> str s.

(** [key="v"] *)
Definition kv (key : string) (v : list Z) : list Z := (str key ++ [61; 34] ++ v ++ [34])%list.

(** ** Printing *)

(** [i += snprintf(buff + i, no_os_max(n - i, 0), text)] on the memory and [i];
    [buff] is an offset, or the dummy that only counts: it has 50 bytes, and
    the code writes none there. *)
Definition emit (buff : option Z) (n : Z) (text : list Z) : cmd (list Z * Z) unit := fun s =>
  let '(mem, i) := s in
  room ← ssigned 32 (n - i);
  let room := Z.max room 0 in
  let '(r, t) := snprintf room text in
  match (if room =? 0 then Some mem else off ← buff; mem_write mem (off + i) (t ++ [0])%list) with
  | Some mem => i ← ssigned 32 (i + r); Done (tt, (mem, i))
  | None => Undef
  end.

(** The value of [n], which is an [int32_t]. *)
Definition emit_bound (buff_size : Z) : Z := if s32 buff_size =? -1 then 0 else s32 buff_size.

(** The result for an [i] that starts at 0; [false] is an early return. *)
Definition printed (c : cmd (list Z * Z) bool) : cmd (list Z) Z := fun mem =>
  match c (mem, 0) with
  | Done (ok, (mem, i)) => Done (if ok then u32 i else u32 (- EINVAL), mem)
  | Undef => Undef
  | NoFuel => NoFuel
  end.

(** *** Attributes of the context *)

Record iio_ctx_attr : Type := CtxAttr { ca_name : list Z; ca_value : list Z }.

Fixpoint ctx_attrs_xml (buff : option Z) (n : Z) (l : list iio_ctx_attr) : cmd (list Z * Z) bool :=
  match l with
  | [] => mret true
  | a :: l =>
      _ ← emit buff n (str "<context-attribute " ++ kv "name" (ca_name a) ++ str " ")%list;
      _ ← emit buff n (kv "value" (ca_value a) ++ str " />")%list;
      ctx_attrs_xml buff n l
  end.

(** The array with its count, which is empty if it is null. *)
Definition iio_add_ctx_attr_in_xml (attrs : list iio_ctx_attr) (buff : option Z) (buff_size : Z) :
  cmd (list Z) Z :=
  printed (ctx_attrs_xml buff (emit_bound buff_size) attrs).

(** *** Devices *)

Section device.
  Context {S : Type}.

Definition in_out (ch : iio_channel S) : list Z := str (if ic_out ch then "out" else "in").

(** The file name of an attribute, or the early return. *)
Definition filename (ch : iio_channel S) (attr : iio_attribute S) : option (list Z) :=
  let t := iio_chan_type_string (ic_type ch) in
  let name := at_name attr in
  match at_shared attr with
  | IIO_SHARED_BY_ALL => Some name
  | IIO_SHARED_BY_DIR => Some (in_out ch ++ [95] ++ name)%list
  | IIO_SHARED_BY_TYPE =>
      if diferential ch then Some (in_out ch ++ [95] ++ t ++ [45] ++ t ++ [95] ++ name)%list
      else Some (in_out ch ++ [95] ++ t ++ [95] ++ name)%list
  | IIO_SEPARATE =>
      if diferential ch then
        if negb (indexed ch) then None
        else Some (in_out ch ++ [95] ++ t ++ print_int (channel ch) ++ [45] ++ t ++
                   print_int (channel2 ch) ++ [95] ++ name)%list
      else if indexed ch then Some (in_out ch ++ [95] ++ t ++ print_int (channel ch) ++ [95] ++ name)%list
      else Some (in_out ch ++ [95] ++ t ++ [95] ++ name)%list
  end.

Fixpoint ch_attrs_xml (buff : option Z) (n : Z) (ch : iio_channel S) (l : list (iio_attribute S)) :
  cmd (list Z * Z) bool :=
  match l with
  | [] => mret true
  | attr :: l =>
      _ ← emit buff n (str "<attribute " ++ kv "name" (at_name attr) ++ str " ")%list;
      match filename ch attr with
      | None => mret false
      | Some f =>
          _ ← emit buff n (kv "filename" f);
          _ ← emit buff n (str " />");
          ch_attrs_xml buff n ch l
      end
  end.

Definition scan_format (t : scan_type) : list Z :=
  (str (if is_big_endian t then "be" else "le") ++ [58; u8 (sign t)] ++ print_int (realbits t) ++ [47] ++
   print_int (storagebits t) ++ [62; 62] ++ print_int (shift t))%list.

Definition ch_xml (buff : option Z) (n : Z) (ch : iio_channel S) : cmd (list Z * Z) bool :=
  id ← lift (print_ch_id ch);
  _ ← emit buff n (str "<channel " ++ kv "id" id)%list;
  _ ← match ic_name ch with
      | Some name => emit buff n (str " " ++ kv "name" name)%list
      | None => mret tt
      end;
  _ ← emit buff n (str " " ++ kv "type" (str (if ic_out ch then "output" else "input")) ++ str " >")%list;
  _ ← match ic_scan ch with
      | Some t =>
          emit buff n (str "<scan-element " ++ kv "index" (print_int (scan_index ch)) ++ str " " ++
                       kv "format" (scan_format t) ++ str " />")%list
      | None => mret tt
      end;
  ok ← match ic_attributes ch with
       | Some l => ch_attrs_xml buff n ch l
       | None => mret true
       end;
  if negb ok then mret false else
  _ ← emit buff n (str "</channel>");
  mret true.

(** The [k] channels from [j] on. *)
Fixpoint chs_xml (buff : option Z) (n : Z) (k j : nat) (chs : list (iio_channel S)) :
  cmd (list Z * Z) bool :=
  match k with
  | O => mret true
  | Datatypes.S k =>
      ch ← the (chs !! j);
      ok ← ch_xml buff n ch;
      if negb ok then mret false else chs_xml buff n k (Datatypes.S j) chs
  end.

(** The attributes of an array that may be null. *)
Fixpoint names_xml (buff : option Z) (n : Z) (tag : string) (l : list (iio_attribute S)) :
  cmd (list Z * Z) unit :=
  match l with
  | [] => mret tt
  | a :: l =>
      _ ← emit buff n (str "<" ++ str tag ++ str " " ++ kv "name" (at_name a) ++ str " />")%list;
      names_xml buff n tag l
  end.

Definition attrs_xml (buff : option Z) (n : Z) (tag : string) (l : option (list (iio_attribute S))) :
  cmd (list Z * Z) unit :=
  match l with Some l => names_xml buff n tag l | None => mret tt end.

Definition has_reg_access (D : iio_device S) : bool :=
  bool_decide (is_Some (debug_reg_read_op D)) || bool_decide (is_Some (debug_reg_write_op D)).

(** A null array of channels is the empty list. *)
Definition device_xml (D : iio_device S) (name id : list Z) (buff : option Z) (n : Z) :
  cmd (list Z * Z) bool :=
  _ ← emit buff n (str "<device " ++ kv "id" id ++ str " " ++ kv "name" name ++ str ">")%list;
  ok ← match channels D with
       | [] => mret true
       | _ => chs_xml buff n (Z.to_nat (num_ch D)) 0 (channels D)
       end;
  if negb ok then mret false else
  _ ← attrs_xml buff n "attribute" (attributes D);
  _ ← attrs_xml buff n "debug-attribute" (debug_attributes D);
  _ ← (if has_reg_access D
       then emit buff n (str "<debug-attribute " ++ kv "name" REG_ACCESS_ATTRIBUTE ++ str " />")%list
       else mret tt);
  _ ← attrs_xml buff n "buffer-attribute" (buffer_attributes D);
  _ ← emit buff n (str "</device>");
  mret true.

Definition iio_generate_device_xml (D : iio_device S) (name id : list Z) (buff : option Z)
    (buff_size : Z) : cmd (list Z) Z :=
  printed (device_xml D name id buff (emit_bound buff_size)).

(** A device that is only a trigger's attributes. *)
Definition trigger_device (l : option (list (iio_attribute S))) : iio_device S :=
  IioDevice 0 [] l None None None None None None None None None None.
End device.

(** *** The context *)

Definition prolog : list Z := quoted
  "<?xml version='1.0' encoding='utf-8'?><!DOCTYPE context [<!ELEMENT context (device | context-attribute)*><!ELEMENT context-attribute EMPTY><!ELEMENT device (channel | attribute | debug-attribute | buffer-attribute)*><!ELEMENT channel (scan-element?, attribute*)><!ELEMENT attribute EMPTY><!ELEMENT scan-element EMPTY><!ELEMENT debug-attribute EMPTY><!ELEMENT buffer-attribute EMPTY><!ATTLIST context name CDATA #REQUIRED description CDATA #IMPLIED><!ATTLIST context-attribute name CDATA #REQUIRED value CDATA #REQUIRED><!ATTLIST device id CDATA #REQUIRED name CDATA #IMPLIED><!ATTLIST channel id CDATA #REQUIRED type (input|output) #REQUIRED name CDATA #IMPLIED><!ATTLIST scan-element index CDATA #REQUIRED format CDATA #REQUIRED scale CDATA #IMPLIED><!ATTLIST attribute name CDATA #REQUIRED filename CDATA #IMPLIED><!ATTLIST debug-attribute name CDATA #REQUIRED><!ATTLIST buffer-attribute name CDATA #REQUIRED>]>".

Definition header_end : list Z := str "</context>".

Section context.
  (** The build's [NO_OS_PROJECT] and [NO_OS_VERSION], and the drivers. *)
  Context {S : Type} (project version : list Z).
  Context (device : positive -> iio_device S) (trigger : positive -> iio_trigger S).

Definition description : list Z := (str "no-OS/projects/" ++ project ++ str " " ++ version)%list.

Definition header : list Z :=
  (prolog ++ str "<context " ++ kv "name" (str "xml") ++ str " " ++ kv "description" description ++
   str " >")%list.

(** What is described of a device and of a trigger. *)
Definition dev_args (d : iio_dev_priv) : iio_device S * list Z * list Z :=
  (device (dev_descriptor d), dp_name d, dev_id d).

Definition trig_args (t : iio_trig_priv) : iio_device S * list Z * list Z :=
  (trigger_device (it_attributes (trigger (tp_descriptor t))), tp_name t, tp_id t).

(** The loops, with the call for each: [x] is the size so far or the offset. *)
Fixpoint sum_devices (g : iio_device S -> list Z -> list Z -> Z -> cmd (list Z) Z)
    (l : list (iio_device S * list Z * list Z)) (x : Z) : cmd (list Z) Z :=
  match l with
  | [] => mret x
  | (D, name, id) :: l => r ← g D name id x; sum_devices g l (u32 (x + r))
  end.

Definition no_buff (D : iio_device S) (name id : list Z) (_ : Z) : cmd (list Z) Z :=
  iio_generate_device_xml D name id None (u32 (-1)).

Definition to_buff (size : Z) (D : iio_device S) (name id : list Z) (off : Z) : cmd (list Z) Z :=
  iio_generate_device_xml D name id (Some off) (u32 (size - off)).

(** The first pass. *)
Definition xml_size_of (attrs : list iio_ctx_attr) (ds : list iio_dev_priv) (ts : list iio_trig_priv) :
  cmd (list Z) Z :=
  let size := u32 (Z.of_nat (length header) + Z.of_nat (length header_end)) in
  r ← iio_add_ctx_attr_in_xml attrs None (u32 (-1));
  size ← sum_devices no_buff (dev_args <$> ds) (u32 (size + r));
  sum_devices no_buff (trig_args <$> ts) size.

(** [strcpy] to an offset. *)
Definition copy_str (off : Z) (s : list Z) : cmd (list Z) unit := fun mem =>
  match mem_write mem off (s ++ [0])%list with Some mem => Done (tt, mem) | None => Undef end.

(** The second pass. *)
Definition xml_fill (attrs : list iio_ctx_attr) (ds : list iio_dev_priv) (ts : list iio_trig_priv)
    (size : Z) : cmd (list Z) unit :=
  _ ← copy_str 0 header;
  let off := Z.of_nat (length header) in
  r ← iio_add_ctx_attr_in_xml attrs (Some off) (u32 (size - off));
  off ← sum_devices (to_buff size) (dev_args <$> ds) (u32 (off + r));
  off ← sum_devices (to_buff size) (trig_args <$> ts) off;
  copy_str off header_end.

(** On the blocks of the allocator: an error, or the text and its size. *)
Definition iio_init_xml (attrs : list iio_ctx_attr) (ds : list iio_dev_priv)
    (ts : list iio_trig_priv) : cmd (heap (list Z)) (Z + ptr * Z) :=
  size ← lift (r ← xml_size_of attrs ds ts []; Done r.1);
  p ← halloc (replicate (Z.to_nat (u32 (size + 1))) 0);
  match p with
  | None => mret (inl (- ENOMEM))
  | Some _ =>
      mem ← hload p;
      mem ← lift (r ← xml_fill attrs ds ts size mem; Done r.2);
      _ ← hstore p mem;
      mret (inr (p, size))
  end.
End context.

(** ** The tree

    What the text is: elements with attributes, without or with children. *)

Inductive xml : Type :=
  | Leaf (tag : string) (attrs : list (string * list Z))
  | Node (tag : string) (attrs : list (string * list Z)) (children : list xml).

Definition render_attrs (l : list (string * list Z)) : list Z :=
  flat_map (fun a => str " " ++ kv a.1 a.2)%list l.

(** The tag of a device is closed without a blank. *)
Definition open_end (tag : string) : list Z := str (if String.eqb tag "device" then ">" else " >").

Fixpoint render (e : xml) : list Z :=
  match e with
  | Leaf tag attrs => str "<" ++ str tag ++ render_attrs attrs ++ str " />"
  | Node tag attrs children =>
      str "<" ++ str tag ++ render_attrs attrs ++ open_end tag ++
      flat_map render children ++ str "</" ++ str tag ++ str ">"
  end%list.

Definition name_leaf (tag : string) (name : list Z) : xml := Leaf tag [("name"%string, name)].

Section trees.
  Context {S : Type} (device : positive -> iio_device S) (trigger : positive -> iio_trigger S).

Definition ch_attr_tree (ch : iio_channel S) (a : iio_attribute S) : xml :=
  Leaf "attribute" [("name"%string, at_name a); ("filename"%string, default [] (filename ch a))].

Definition ch_tree (ch : iio_channel S) : xml :=
  Node "channel"
    ([("id"%string, ch_id ch)] ++ match ic_name ch with Some n => [("name"%string, n)] | None => [] end ++
     [("type"%string, str (if ic_out ch then "output" else "input"))])
    (match ic_scan ch with
     | Some t => [Leaf "scan-element" [("index"%string, print_int (scan_index ch)); ("format"%string, scan_format t)]]
     | None => []
     end ++ (ch_attr_tree ch <$> default [] (ic_attributes ch))).

Definition names_tree (tag : string) (l : option (list (iio_attribute S))) : list xml :=
  (fun a => name_leaf tag (at_name a)) <$> default [] l.

Definition device_tree (D : iio_device S) (name id : list Z) : xml :=
  Node "device" [("id"%string, id); ("name"%string, name)]
    ((ch_tree <$> channels D) ++ names_tree "attribute" (attributes D) ++
     names_tree "debug-attribute" (debug_attributes D) ++
     (if has_reg_access D then [name_leaf "debug-attribute" REG_ACCESS_ATTRIBUTE] else []) ++
     names_tree "buffer-attribute" (buffer_attributes D)).

Definition context_tree (project version : list Z) (attrs : list iio_ctx_attr)
    (ds : list iio_dev_priv) (ts : list iio_trig_priv) : xml :=
  Node "context" [("name"%string, str "xml"); ("description"%string, description project version)]
    (((fun a => Leaf "context-attribute" [("name"%string, ca_name a); ("value"%string, ca_value a)]) <$> attrs) ++
     ((fun d => device_tree (device (dev_descriptor d)) (dp_name d) (dev_id d)) <$> ds) ++
     ((fun t => device_tree (trigger_device (it_attributes (trigger (tp_descriptor t))))
                  (tp_name t) (tp_id t)) <$> ts)).

(** Every channel can be named, and an attribute of a differential channel that
    is not shared has the numbers of the channel. *)
Record xml_ok (D : iio_device S) : Prop := XmlOk {
  xo_count : num_ch D = Z.of_nat (length (channels D));
  xo_index : Forall (fun ch => index_ok (ch_index_of ch)) (channels D);
  xo_files : Forall (fun ch => Forall (fun a => is_Some (filename ch a)) (default [] (ic_attributes ch)))
               (channels D)
}.
End trees.

(** ** Emitting *)

(** A command that emits the text [t] counts its length, or puts it into a
    buffer that has room for it and a terminator. *)
Record emits {A} (c : option Z -> Z -> cmd (list Z * Z) A) (x : A) (t : list Z) : Prop := Emits {
  emits_count mem i : 0 <= i -> i + Z.of_nat (length t) < 2 ^ 31 ->
    c None 0 (mem, i) = Done (x, (mem, i + Z.of_nat (length t)));
  emits_write off n pre rest i : 0 <= i -> 0 <= off -> Z.of_nat (length pre) = off + i ->
    i + Z.of_nat (length t) < n < 2 ^ 31 -> off + n <= Z.of_nat (length pre + length rest) ->
    exists rest', (length t + length rest' = length rest)%nat /\
      c (Some off) n (pre ++ rest, i)%list = Done (x, (pre ++ t ++ rest', i + Z.of_nat (length t))%list)
}.

Lemma emits_emit t : emits (fun b n => emit b n t) tt t.
Proof.
  split.
  - intros mem i Hi Ht. unfold emit. rewrite ssigned_done by ulia. cbn [mbind outcome_bind].
    rewrite Z.max_r by lia. unfold snprintf. cbn [Z.eqb]. rewrite ssigned_done by ulia. done.
  - intros off n pre rest i Hi Ho Hp Hn Hr. unfold emit. rewrite ssigned_done by ulia.
    cbn [mbind outcome_bind]. rewrite Z.max_l by lia. unfold snprintf.
    rewrite take_ge by lia. destruct (Z.eqb_spec (n - i) 0); [lia |]. cbn [mbind option_bind].
    exists (0 :: drop (S (length t)) rest). split; [cbn [length]; rewrite length_drop; lia |].
    rewrite mem_write_done by (rewrite ?length_app; cbn [length]; lia).
    rewrite ssigned_done by ulia. cbn [mbind outcome_bind]. do 4 f_equal.
    rewrite <- (take_drop (S (length t)) rest) at 1.
    replace (Z.to_nat (off + i)) with (length pre + 0)%nat by lia. rewrite list_inserts_app_r.
    rewrite list_inserts_0_r; [by rewrite <- app_assoc |].
    rewrite length_app, length_take. cbn [length]. lia.
Qed.

Lemma emits_ret {A} (x : A) : emits (fun _ _ => mret x) x [].
Proof.
  split; cbn [length]; intros; [by rewrite Z.add_0_r |]. exists rest. split; [done |]. by rewrite Z.add_0_r.
Qed.

Lemma emits_bind {A B} c (k : A -> option Z -> Z -> cmd (list Z * Z) B) x y t1 t2 :
  emits c x t1 -> emits (k x) y t2 ->
  emits (fun b n => c b n ≫= fun a => k a b n) y (t1 ++ t2)%list.
Proof.
  intros [C1 W1] [C2 W2]. split; rewrite length_app.
  - intros mem i Hi Ht. rewrite (bind_done _ _ _ _ _ (C1 mem i Hi ltac:(lia))).
    rewrite C2 by lia. do 3 f_equal. lia.
  - intros off n pre rest i Hi Ho Hp Hn Hr.
    destruct (W1 off n pre rest i) as (r1 & L1 & E1); [lia.. |].
    destruct (W2 off n (pre ++ t1)%list r1 (i + Z.of_nat (length t1))) as (r2 & L2 & E2);
      [rewrite ?length_app; lia.. |].
    exists r2. split; [lia |]. rewrite (bind_done _ _ _ _ _ E1), app_assoc, E2.
    rewrite <- !app_assoc. do 3 f_equal. lia.
Qed.

Lemma emits_eq {A} c (x : A) t t' : emits c x t -> t = t' -> emits c x t'.
Proof. by intros H <-. Qed.

Lemma emits_skip {A} (c : cmd (list Z * Z) A) x : (forall s, c s = Done (x, s)) -> emits (fun _ _ => c) x [].
Proof.
  intros H. split; cbn [length].
  - intros. by rewrite H, Z.add_0_r.
  - intros off n pre rest i _ _ _ _ _. exists rest. by rewrite H, Z.add_0_r.
Qed.

Lemma emits_option {A X} (o : option X) (f : X -> option Z -> Z -> cmd (list Z * Z) A) y (t : X -> list Z) :
  (forall x, o = Some x -> emits (f x) y (t x)) ->
  emits (fun b n => match o with Some x => f x b n | None => mret y end) y
    (match o with Some x => t x | None => [] end).
Proof. intros H. destruct o; [by apply H | apply emits_ret]. Qed.

(** Runs through a sequence of commands that emit. *)
Ltac emits_with tac :=
  repeat first
    [ tac
    | apply emits_emit
    | apply emits_ret
    | apply emits_skip; (by intros) || (intros; by apply lift_done)
    | eapply (emits_bind _ (fun a b n => _)); cbv beta ].

Lemma render_fmap_cons {A} (f : A -> xml) x l :
  flat_map render (f <$> x :: l) = (render (f x) ++ flat_map render (f <$> l))%list.
Proof. done. Qed.

Lemma render_leaf tag a l :
  render (Leaf tag (a :: l))
  = (str "<" ++ str tag ++ str " " ++ kv a.1 a.2 ++ render_attrs l ++ str " />")%list.
Proof. cbn [render]. unfold render_attrs. cbn [flat_map]. by rewrite <- !app_assoc. Qed.

Lemma render_node tag a l cs :
  render (Node tag (a :: l) cs)
  = (str "<" ++ str tag ++ str " " ++ kv a.1 a.2 ++ render_attrs l ++ open_end tag ++
     flat_map render cs ++ str "</" ++ str tag ++ str ">")%list.
Proof. cbn [render]. unfold render_attrs. cbn [flat_map]. by rewrite <- !app_assoc. Qed.

(** Equal texts, up to the nesting of [++] and the characters of literals. *)
Ltac text_eq :=
  unfold render_attrs, kv; cbn [flat_map fst snd]; rewrite ?app_nil_r, <- ?app_assoc; reflexivity.

Section emitting.
  Context {S : Type}.

Lemma emits_names tag (l : list (iio_attribute S)) :
  emits (fun b n => names_xml b n tag l) tt
    (flat_map render ((fun a => name_leaf tag (at_name a)) <$> l)).
Proof using.
  induction l as [| a l IH]; [apply emits_ret |]. cbn [names_xml]. eapply emits_eq.
  { emits_with ltac:(exact IH). }
  rewrite render_fmap_cons. unfold name_leaf at 2. rewrite render_leaf. text_eq.
Qed.

Lemma emits_attrs tag (l : option (list (iio_attribute S))) :
  emits (fun b n => attrs_xml b n tag l) tt (flat_map render (names_tree tag l)).
Proof using. destruct l as [l |]; [apply emits_names | apply emits_ret]. Qed.

Lemma emits_ch_attrs (ch : iio_channel S) l :
  Forall (fun a => is_Some (filename ch a)) l ->
  emits (fun b n => ch_attrs_xml b n ch l) true (flat_map render (ch_attr_tree ch <$> l)).
Proof using.
  induction 1 as [| a l [f Hf] _ IH]; [apply emits_ret |]. cbn [ch_attrs_xml]. eapply emits_eq.
  { rewrite Hf. emits_with ltac:(exact IH). }
  rewrite render_fmap_cons. unfold ch_attr_tree at 2. rewrite Hf. cbn [default from_option id].
  rewrite render_leaf. text_eq.
Qed.

Lemma emits_ch (ch : iio_channel S) :
  index_ok (ch_index_of ch) ->
  Forall (fun a => is_Some (filename ch a)) (default [] (ic_attributes ch)) ->
  emits (fun b n => ch_xml b n ch) true (render (ch_tree ch)).
Proof using.
  intros Hi Hf. unfold ch_xml.
  eapply emits_eq.
  { emits_with ltac:(first [apply emits_skip; intros; apply lift_done, (print_ch_id_eq _ Hi)
      | apply emits_option; intros ? _; apply emits_emit
      | apply emits_option; intros l E; rewrite E in Hf; by apply emits_ch_attrs]). }
  unfold ch_tree. rewrite app_nil_r.
  destruct (ic_name ch), (ic_scan ch), (ic_attributes ch); cbn [app default from_option id];
    rewrite render_node; cbn [flat_map app]; rewrite ?render_leaf; text_eq.
Qed.

Lemma emits_chs (chs : list (iio_channel S)) k j :
  (j + k = length chs)%nat -> Forall (fun ch => index_ok (ch_index_of ch)) chs ->
  Forall (fun ch => Forall (fun a => is_Some (filename ch a)) (default [] (ic_attributes ch))) chs ->
  emits (fun b n => chs_xml b n k j chs) true (flat_map render (ch_tree <$> drop j chs)).
Proof using.
  intros Hj Hi Hf. revert j Hj. induction k as [| k IH]; intros j Hj; cbn [chs_xml].
  - rewrite drop_ge by lia. apply emits_ret.
  - destruct (lookup_lt_is_Some_2 chs j) as [ch Hch]; [lia |]. rewrite (drop_S _ _ _ Hch).
    eapply emits_eq.
    { emits_with ltac:(first [apply emits_skip; intros; by rewrite Hch
        | apply emits_ch; [apply (Forall_lookup_1 _ _ _ _ Hi Hch) | apply (Forall_lookup_1 _ _ _ _ Hf Hch)]
        | apply (IH (Datatypes.S j)); lia]). }
    by rewrite render_fmap_cons.
Qed.

Lemma emits_device (D : iio_device S) name id :
  xml_ok D -> emits (fun b n => device_xml D name id b n) true (render (device_tree D name id)).
Proof using.
  intros [Hc Hi Hf]. unfold device_xml.
  assert (emits (fun b n => match channels D with
                            | [] => mret true
                            | _ => chs_xml b n (Z.to_nat (num_ch D)) 0 (channels D)
                            end) true (flat_map render (ch_tree <$> channels D))) as Hchs.
  { rewrite Hc, Nat2Z.id. pose proof (emits_chs (channels D) (length (channels D)) 0 eq_refl Hi Hf).
    destruct (channels D); [apply emits_ret | done]. }
  assert (emits (fun b n => if has_reg_access D
                            then emit b n (str "<debug-attribute " ++ kv "name" REG_ACCESS_ATTRIBUTE ++ str " />")%list
                            else mret tt) tt
            (flat_map render (if has_reg_access D then [name_leaf "debug-attribute" REG_ACCESS_ATTRIBUTE] else [])))
    as Hreg.
  { destruct (has_reg_access D); [| apply emits_ret]. eapply emits_eq; [apply emits_emit |].
    cbn [flat_map]. unfold name_leaf. rewrite render_leaf. text_eq. }
  eapply emits_eq.
  { emits_with ltac:(first [exact Hchs | exact Hreg | apply emits_attrs]). }
  unfold device_tree. rewrite render_node, !flat_map_app. text_eq.
Qed.
End emitting.

Lemma emits_ctx_attrs l :
  emits (fun b n => ctx_attrs_xml b n l) true
    (flat_map render ((fun a => Leaf "context-attribute"
       [("name"%string, ca_name a); ("value"%string, ca_value a)]) <$> l)).
Proof.
  induction l as [| a l IH]; [apply emits_ret |]. cbn [ctx_attrs_xml]. eapply emits_eq.
  { emits_with ltac:(exact IH). }
  rewrite render_fmap_cons, render_leaf. text_eq.
Qed.

(** ** The two passes *)

Lemma printed_count c t mem :
  emits c true t -> Z.of_nat (length t) < 2 ^ 31 ->
  printed (c None (emit_bound (u32 (-1)))) mem = Done (Z.of_nat (length t), mem).
Proof.
  intros [Hc _] Ht. unfold printed. change (emit_bound (u32 (-1))) with 0.
  rewrite Hc by lia. rewrite wrap_small by ulia. done.
Qed.

Lemma printed_write c t n pre rest :
  emits c true t -> Z.of_nat (length t) < n < 2 ^ 31 ->
  Z.of_nat (length pre) + n <= Z.of_nat (length pre + length rest) ->
  exists rest', (length t + length rest' = length rest)%nat /\
    printed (c (Some (Z.of_nat (length pre))) (emit_bound (u32 n))) (pre ++ rest)%list
    = Done (Z.of_nat (length t), (pre ++ t ++ rest')%list).
Proof.
  intros [_ Hw] Hn Hr. destruct (Hw (Z.of_nat (length pre)) n pre rest 0) as (rest' & Hl & E); [lia.. |].
  exists rest'. split; [done |]. unfold printed, emit_bound.
  rewrite (wrap_small 32 n), (swrap_small 32 n) by ulia. destruct (Z.eqb_spec n (-1)); [lia |].
  rewrite E, wrap_small by ulia. done.
Qed.

Section passes.
  Context {S : Type}.

Definition args_tree (a : iio_device S * list Z * list Z) : xml := device_tree a.1.1 a.1.2 a.2.

Lemma sum_devices_count l : forall x mem,
  Forall (fun a => xml_ok a.1.1) l -> 0 <= x ->
  x + Z.of_nat (length (flat_map render (args_tree <$> l))) < 2 ^ 31 ->
  sum_devices no_buff l x mem = Done (x + Z.of_nat (length (flat_map render (args_tree <$> l))), mem).
Proof using.
  induction l as [| [[D name] id] l IH]; intros x mem Hok Hx Hl.
  - cbn. by rewrite Z.add_0_r.
  - rewrite render_fmap_cons, length_app in *. apply Forall_cons in Hok as [Hok1 Hok].
    change (render (args_tree (D, name, id))) with (render (device_tree D name id)) in *.
    set (t := render (device_tree D name id)) in *. cbn [sum_devices].
    rewrite (bind_done _ _ _ _ _ (printed_count _ t mem (emits_device D name id Hok1) ltac:(lia))).
    rewrite wrap_small by ulia. rewrite IH by (done || lia). do 2 f_equal. lia.
Qed.

Lemma sum_devices_write size l : forall pre rest,
  Forall (fun a => xml_ok a.1.1) l -> size < 2 ^ 31 ->
  Z.of_nat (length pre + length rest) = size + 1 ->
  Z.of_nat (length pre + length (flat_map render (args_tree <$> l))) < size ->
  exists rest', (length (flat_map render (args_tree <$> l)) + length rest' = length rest)%nat /\
    sum_devices (to_buff size) l (Z.of_nat (length pre)) (pre ++ rest)%list
    = Done (Z.of_nat (length pre + length (flat_map render (args_tree <$> l))),
            (pre ++ flat_map render (args_tree <$> l) ++ rest')%list).
Proof using.
  induction l as [| [[D name] id] l IH]; intros pre rest Hok Hs Hr Hl.
  - exists rest. split; [done |]. cbn. by rewrite Nat.add_0_r.
  - rewrite render_fmap_cons, length_app in *. apply Forall_cons in Hok as [Hok1 Hok].
    change (render (args_tree (D, name, id))) with (render (device_tree D name id)) in *.
    set (t := render (device_tree D name id)) in *.
    destruct (printed_write _ t (size - Z.of_nat (length pre)) pre rest (emits_device D name id Hok1))
      as (r1 & L1 & E1); [lia.. |].
    destruct (IH (pre ++ t)%list r1 Hok Hs) as (r2 & L2 & E2); [rewrite length_app; lia.. |].
    exists r2. split; [lia |]. cbn [sum_devices]. rewrite (bind_done _ _ _ _ _ E1).
    rewrite wrap_small by ulia. rewrite length_app, Nat2Z.inj_add in E2. rewrite app_assoc, E2.
    rewrite <- !app_assoc. do 2 f_equal. lia.
Qed.
End passes.

(** ** The description of a context *)

Section description.
  Context {S : Type} (project version : list Z).
  Context (device : positive -> iio_device S) (trigger : positive -> iio_trigger S).

Definition context_text (attrs : list iio_ctx_attr) (ds : list iio_dev_priv) (ts : list iio_trig_priv) :
  list Z :=
  (prolog ++ render (context_tree device trigger project version attrs ds ts))%list.

Definition contents (attrs : list iio_ctx_attr) (ds : list iio_dev_priv) (ts : list iio_trig_priv) :
  list (list Z) :=
  [flat_map render ((fun a => Leaf "context-attribute"
     [("name"%string, ca_name a); ("value"%string, ca_value a)]) <$> attrs);
   flat_map render (args_tree <$> (dev_args device <$> ds));
   flat_map render (args_tree <$> (trig_args trigger <$> ts))].

Lemma context_text_eq attrs ds ts :
  context_text attrs ds ts
  = (header project version ++ concat (contents attrs ds ts) ++ header_end)%list.
Proof using.
  unfold context_text, context_tree, header, contents. rewrite render_node, !flat_map_app.
  rewrite <- !list_fmap_compose. cbn [concat]. unfold header_end. text_eq.
Qed.

Definition devs_ok (ds : list iio_dev_priv) : Prop :=
  Forall (fun d => xml_ok (device (dev_descriptor d))) ds.

Lemma devs_ok_args ds : devs_ok ds -> Forall (fun a => xml_ok a.1.1) (dev_args device <$> ds).
Proof using. intros H. by apply Forall_fmap. Qed.

Lemma trigs_ok_args ts : Forall (fun a => xml_ok a.1.1) (trig_args trigger <$> ts).
Proof using. apply Forall_fmap, Forall_forall. intros t _. by split. Qed.

Lemma xml_size_run attrs ds ts mem :
  devs_ok ds -> Z.of_nat (length (context_text attrs ds ts)) < 2 ^ 31 ->
  xml_size_of project version device trigger attrs ds ts mem
  = Done (Z.of_nat (length (context_text attrs ds ts)), mem).
Proof using.
  intros Hok Hlen. rewrite context_text_eq in *. unfold contents in *. cbn [concat] in *.
  rewrite app_nil_r, !length_app in *. unfold xml_size_of, iio_add_ctx_attr_in_xml.
  set (H := header project version) in *. set (A := flat_map render (_ <$> attrs)) in *.
  rewrite (bind_done _ _ _ _ _ (printed_count _ A mem (emits_ctx_attrs attrs) ltac:(lia))).
  clearbody H A. rewrite wrap_add_l, wrap_small by ulia.
  erewrite bind_done; [| apply sum_devices_count; [by apply devs_ok_args | lia..]].
  rewrite sum_devices_count by (apply trigs_ok_args || lia). do 2 f_equal. lia.
Qed.

Lemma copy_str_run pre rest s :
  (length s < length rest)%nat ->
  copy_str (Z.of_nat (length pre)) s (pre ++ rest)
  = Done (tt, pre ++ s ++ 0 :: drop (Datatypes.S (length s)) rest)%list.
Proof using.
  intros H. unfold copy_str. rewrite mem_write_done by (rewrite ?length_app; cbn [length]; lia).
  rewrite <- (take_drop (Datatypes.S (length s)) rest) at 1.
  replace (Z.to_nat (Z.of_nat (length pre))) with (length pre + 0)%nat by lia. rewrite list_inserts_app_r.
  rewrite list_inserts_0_r; [by rewrite <- app_assoc |].
  rewrite length_app, length_take. cbn [length]. lia.
Qed.

Lemma xml_fill_run attrs ds ts mem :
  devs_ok ds -> Z.of_nat (length (context_text attrs ds ts)) < 2 ^ 31 - 1 ->
  length mem = (length (context_text attrs ds ts) + 1)%nat ->
  xml_fill project version device trigger attrs ds ts (Z.of_nat (length (context_text attrs ds ts))) mem
  = Done (tt, context_text attrs ds ts ++ [0])%list.
Proof using.
  intros Hok Hlen Hmem. rewrite context_text_eq in *. unfold contents in *. cbn [concat] in *.
  rewrite app_nil_r in *. set (size := Z.of_nat (length _)) in *.
  assert (length header_end = 10%nat) as Hend by reflexivity.
  set (H := header project version) in *. set (A := flat_map render (_ <$> attrs)) in *.
  set (D := flat_map render (args_tree <$> (dev_args device <$> ds))) in *.
  set (T := flat_map render (args_tree <$> (trig_args trigger <$> ts))) in *.
  assert (size = Z.of_nat (length H + length A + length D + length T + 10)) as Hsize.
  { unfold size. rewrite !length_app, Hend. lia. }
  assert (Z.of_nat (length mem) = size + 1) as Hm by (unfold size; lia). clear Hmem.
  unfold xml_fill. fold H. rewrite (bind_done _ _ _ _ _ (copy_str_run [] mem H ltac:(lia))).
  cbn [app]. set (r0 := 0 :: drop _ mem).
  assert (length r0 = (length mem - length H)%nat) as L0 by (cbn [r0 length]; rewrite length_drop; lia).
  unfold iio_add_ctx_attr_in_xml.
  destruct (printed_write _ A (size - Z.of_nat (length H)) H r0 (emits_ctx_attrs attrs)) as (r1 & L1 & E1); [lia.. |].
  rewrite (bind_done _ _ _ _ _ E1), wrap_small by ulia.
  destruct (sum_devices_write size (dev_args device <$> ds) (H ++ A) r1 (devs_ok_args ds Hok))
    as (r2 & L2 & E2); [lia | rewrite length_app; lia | rewrite length_app; fold D; lia |].
  fold D in L2, E2. rewrite length_app, !Nat2Z.inj_add, <- app_assoc in E2. rewrite (bind_done _ _ _ _ _ E2).
  destruct (sum_devices_write size (trig_args trigger <$> ts) (H ++ A ++ D) r2 (trigs_ok_args ts))
    as (r3 & L3 & E3); [lia | rewrite !length_app; lia | rewrite !length_app; fold T; lia |].
  fold T in L3, E3. rewrite !length_app, !Nat2Z.inj_add in E3. rewrite <- !app_assoc in E3.
  rewrite <- !app_assoc, !Z.add_assoc in *.
  rewrite (bind_done _ _ _ _ _ E3).
  pose proof (copy_str_run (H ++ A ++ D ++ T) r3 header_end ltac:(lia)) as E4.
  rewrite !length_app, !Nat2Z.inj_add, <- !app_assoc, !Z.add_assoc in E4. rewrite E4.
  rewrite drop_ge by lia. done.
Qed.

Lemma init_xml_run attrs ds ts h :
  devs_ok ds -> Z.of_nat (length (context_text attrs ds ts)) < 2 ^ 31 - 1 ->
  iio_init_xml project version device trigger attrs ds ts h =
    Done (if alloc_fails h then (inl (- ENOMEM), Heap (cells h) (next_block h) (tail (oom h)))
          else (inr (Some (next_block h), Z.of_nat (length (context_text attrs ds ts))),
                Heap (<[next_block h := (context_text attrs ds ts ++ [0])%list]> (cells h))
                  (Pos.succ (next_block h)) (tail (oom h)))).
Proof using.
  intros Hok Hlen. set (doc := context_text attrs ds ts) in *. unfold iio_init_xml.
  pose proof (xml_size_run attrs ds ts [] Hok ltac:(fold doc; lia)) as Es. fold doc in Es.
  erewrite bind_done; [| apply lift_done; rewrite Es; reflexivity]. cbn [fst].
  rewrite wrap_small by ulia. destruct (alloc_fails h) eqn:Ea.
  { by rewrite (bind_done _ _ _ _ _ (halloc_fail _ h Ea)). }
  rewrite (bind_done _ _ _ _ _ (halloc_done _ h Ea)).
  erewrite bind_done by (apply hload_done; cbn [cells]; apply lookup_insert_eq).
  pose proof (xml_fill_run attrs ds ts (replicate (Z.to_nat (Z.of_nat (length doc) + 1)) 0) Hok
    ltac:(fold doc; lia) ltac:(rewrite length_replicate; fold doc; lia)) as Ef. fold doc in Ef.
  erewrite bind_done; [| apply lift_done; rewrite Ef; reflexivity]. cbn [snd]. erewrite bind_done by (eapply hstore_done; cbn [cells]; apply lookup_insert_eq).
  cbn [cells next_block oom snd]. by rewrite insert_insert_eq.
Qed.
(** C15: the size that is computed for the description of a context is its
    length; the block that is allocated for it is filled to its last byte and
    never past it; and the text is the document that describes every attribute
    of the context, every device with its channels and attributes, and every
    trigger, in order. When the allocation fails nothing is left. *)
Theorem iio_init_xml_correct attrs ds ts h :
  devs_ok ds -> Z.of_nat (length (context_text attrs ds ts)) < 2 ^ 31 - 1 ->
  iio_init_xml project version device trigger attrs ds ts h =
    Done (if alloc_fails h then (inl (- ENOMEM), Heap (cells h) (next_block h) (tail (oom h)))
          else (inr (Some (next_block h), Z.of_nat (length (context_text attrs ds ts))),
                Heap (<[next_block h := (context_text attrs ds ts ++ [0])%list]> (cells h))
                  (Pos.succ (next_block h)) (tail (oom h)))).
Proof using. apply init_xml_run. Qed.
End description.

(** ** Example *)

(** A device with two channels, one of them differential, and a trigger. *)
Definition xx_attr (name : string) : iio_attribute unit := IioAttribute (str name) 0 IIO_SEPARATE None None.

Definition xx_device : iio_device unit :=
  IioDevice 2
    [IioChannel (Some (str "vin")) IIO_VOLTAGE 0 0 0 0 (Some (ScanType 115 12 16 4 true))
       (Some [xx_attr "raw"]) false false true false;
     IioChannel None IIO_VOLTAGE 1 2 0 1 None (Some [xx_attr "raw"; xx_attr "scale"]) false false true true]
    (Some [xx_attr "mode"]) None None None None None None None None None
    (Some (fun _ _ _ => mret 0)).

Definition xx_dev : iio_dev_priv :=
  DevPriv (str "iio:device0") (str "adc") None 0 1
    (BufferPriv (IioBuffer 0 0 0 0 IIO_DIRECTION_INPUT None (CyclicInfo false 0)) None None 0 false false)
    NO_TRIGGER.

Definition xx_trig : iio_trig_priv := TrigPriv (str "trigger0") (str "timer") None 1 false.

Definition xx_text : list Z :=
  context_text (str "demo") (str "1.0") (fun _ => xx_device) (fun _ => IioTrigger false None None None)
    [CtxAttr (str "uri") (str "serial")] [xx_dev] [xx_trig].

(** What follows the prolog. *)
Example xx_text_ex : drop (length prolog) xx_text = quoted
  "<context name='xml' description='no-OS/projects/demo 1.0' ><context-attribute name='uri' value='serial' /><device id='iio:device0' name='adc'><channel id='voltage0' name='vin' type='input' ><scan-element index='0' format='be:s12/16>>4' /><attribute name='raw' filename='in_voltage0_raw' /></channel><channel id='voltage1-voltage2' type='input' ><attribute name='raw' filename='in_voltage1-voltage2_raw' /><attribute name='scale' filename='in_voltage1-voltage2_scale' /></channel><attribute name='mode' /><debug-attribute name='direct_reg_access' /></device><device id='trigger0' name='timer'></device></context>".
Proof. vm_compute. reflexivity. Qed.

Lemma iio_init_xml_correct_witness :
  iio_init_xml (str "demo") (str "1.0") (fun _ => xx_device) (fun _ => IioTrigger false None None None)
    [CtxAttr (str "uri") (str "serial")] [xx_dev] [xx_trig] (Heap ∅ 1%positive [])
  = Done (inr (Some 1%positive, Z.of_nat (length xx_text)),
          Heap {[1%positive := (xx_text ++ [0])%list]} 2 []).
Proof.
  refine (iio_init_xml_correct (str "demo") (str "1.0") (fun _ => xx_device) _
    [CtxAttr (str "uri") (str "serial")] [xx_dev] [xx_trig] (Heap ∅ 1%positive []) _ _).
  - apply Forall_cons_2; [| apply Forall_nil_2]. split; [reflexivity | |].
    + repeat apply Forall_cons_2; try apply Forall_nil_2; cbn; unfold sint; lia.
    + repeat apply Forall_cons_2; try apply Forall_nil_2; cbn [ic_attributes default from_option id];
        repeat apply Forall_cons_2; try apply Forall_nil_2; eexists; reflexivity.
  - apply Z.ltb_lt. vm_compute. reflexivity.
Defined.
