(* ===== verification/IioApp.v ===== *)
(** * The IIO application: [iio/iio.c], from [iio_init] to [iio_step]

    The application starts the daemon of [IiodConn] with the operations of
    [IioDevice] and [IioBuffer] and the description of [IioXml], and then runs
    it step by step.  Builds without a network are modelled: the transport is a
    UART or the functions of a local backend.  The theorems compose what the
    other files prove into what a client gets from a program that runs. *)
From Stdlib Require Import String.
From S2P Require Import Prelude Util CircularBuffer CString StrConv Iiod IiodConn IiodSafety IiodPoll IiodSession IiodTransfer.
From S2P Require Import IioValue IioDevice IioBuffer IioXml.

(** ** Data *)

(** The two functions of a transport, on the connection that they are given. *)
Record link (X : Type) : Type := Link {
  link_send : ptr -> list Z -> cmd X Z;
  link_recv : ptr -> Z -> cmd X (Z * list Z)
}.
Arguments Link {X} _ _.
Arguments link_send {X} _.
Arguments link_recv {X} _.

Record iio_device_init : Type := DeviceInit {
  di_name : list Z;
  di_dev : ptr;
  di_descriptor : positive;
  di_raw_buf : ptr;
  di_raw_buf_len : Z;
  di_trigger_id : option (list Z)
}.

Record iio_trigger_init : Type := TriggerInit {
  ti_name : list Z;
  ti_trig : ptr;
  ti_descriptor : positive
}.

Record iio_local_backend (X : Type) : Type := LocalBackend {
  lb_link : link X;
  lb_buff : list Z;
  lb_buff_len : Z
}.
Arguments LocalBackend {X} _ _ _.
Arguments lb_link {X} _.
Arguments lb_buff {X} _.
Arguments lb_buff_len {X} _.

(** An array with its count is a list. *)
Record iio_init_param (X : Type) : Type := IioInitParam {
  ii_phy_type : physical_link_type;
  ii_uart_desc : ptr;
  ii_local_backend : option (iio_local_backend X);
  ii_ctx_attrs : list iio_ctx_attr;
  ii_devs : list iio_device_init;
  ii_trigs : list iio_trigger_init
}.
Arguments IioInitParam {X} _ _ _ _ _ _.
Arguments ii_phy_type {X} _.
Arguments ii_uart_desc {X} _.
Arguments ii_local_backend {X} _.
Arguments ii_ctx_attrs {X} _.
Arguments ii_devs {X} _.
Arguments ii_trigs {X} _.

(** The pointers of [struct iio_desc]; what the tables hold is in [iio_mem]. *)
Record iio_desc : Type := IioDesc {
  ia_iiod : ptr;
  ia_xml_desc : ptr;
  ia_xml_size : Z;
  ia_devs : ptr;
  ia_trigs : ptr;
  ia_uart_desc : ptr;
  ia_conns : ptr
}.

Definition iio_desc0 : iio_desc := IioDesc None None 0 None None None None.

(** The blocks of the descriptors, of the tables of devices and triggers and of
    the texts, the queue of connections, the daemon's descriptors, and what the
    daemon's operations work on: the devices and the transport. *)
Record app_state (W X : Type) : Type := AppState {
  st_descs : heap iio_desc;
  st_tables : heap unit;
  st_texts : heap (list Z);
  st_queue : cb_mem;
  st_iiod : heap (iiod_desc (iio_mem W * X));
  st_mem : iio_mem W;
  st_link : X
}.
Arguments AppState {W X} _ _ _ _ _ _ _.
Arguments st_descs {W X} _.
Arguments st_tables {W X} _.
Arguments st_texts {W X} _.
Arguments st_queue {W X} _.
Arguments st_iiod {W X} _.
Arguments st_mem {W X} _.
Arguments st_link {W X} _.

(** A [uint32_t] as bytes; the order is that of the platform. *)
Definition u32_bytes (n : Z) : list Z :=
  [n mod 256; n / 256 mod 256; n / 65536 mod 256; n / 16777216 mod 256].

Definition bytes_u32 (l : list Z) : Z :=
  match l with
  | [a; b; c; d] => a + 256 * b + 65536 * c + 16777216 * d
  | _ => 0
  end.

Section app.
  (** The width of [long], the waits and turns of the circular buffers and of
      the daemon, the build's names, the drivers, the UART's functions and the
      static buffer [uart_buff]. *)
  Context {W X : Type} (long_bits : Z) (spins fuel : nat) (project version : list Z).
  Context (device : positive -> iio_device (iio_mem W)) (trigger : positive -> iio_trigger (iio_mem W)).
  Context (uart : link X) (uart_buff : list Z).
  Abbreviation mem := (iio_mem W).
  Abbreviation st := (app_state W X).

Definition on_st_descs {A} : cmd (heap iio_desc) A -> cmd st A :=
  zoom st_descs (fun h s => AppState h (st_tables s) (st_texts s) (st_queue s) (st_iiod s) (st_mem s) (st_link s)).
Definition on_tables {A} : cmd (heap unit) A -> cmd st A :=
  zoom st_tables (fun h s => AppState (st_descs s) h (st_texts s) (st_queue s) (st_iiod s) (st_mem s) (st_link s)).
Definition on_texts {A} : cmd (heap (list Z)) A -> cmd st A :=
  zoom st_texts (fun h s => AppState (st_descs s) (st_tables s) h (st_queue s) (st_iiod s) (st_mem s) (st_link s)).
Definition on_queue {A} : cmd cb_mem A -> cmd st A :=
  zoom st_queue (fun h s => AppState (st_descs s) (st_tables s) (st_texts s) h (st_iiod s) (st_mem s) (st_link s)).
Definition on_iiod {A} : cmd (heap (iiod_desc (mem * X))) A -> cmd st A :=
  zoom st_iiod (fun h s => AppState (st_descs s) (st_tables s) (st_texts s) (st_queue s) h (st_mem s) (st_link s)).
Definition on_mem {A} : cmd mem A -> cmd st A :=
  zoom st_mem (fun m s => AppState (st_descs s) (st_tables s) (st_texts s) (st_queue s) (st_iiod s) m (st_link s)).
Definition on_daemon {A} : cmd (heap (iiod_desc (mem * X)) * (mem * X)) A -> cmd st A :=
  zoom (fun s => (st_iiod s, (st_mem s, st_link s)))
    (fun x s => AppState (st_descs s) (st_tables s) (st_texts s) (st_queue s) x.1 x.2.1 x.2.2).

(** ** The operations of the daemon *)

(** The functions on the fields of a command, which must be terminated; there
    is no [set_timeout], so the daemon puts its dummy in. *)
Definition iio_application : application mem :=
  App mem
    (fun dev n m c => dev ← the (c_str dev); iio_open_dev device trigger dev n m c)
    (fun dev => dev ← the (c_str dev); iio_close_dev device trigger dev)
    (fun dev attr len =>
       dev ← the (c_str dev); name ← the (c_str (attr_nm attr)); chn ← the (c_str (attr_ch attr));
       iio_read_attr device trigger dev (attr_type attr) name chn len)
    (fun dev attr buf =>
       dev ← the (c_str dev); name ← the (c_str (attr_nm attr)); chn ← the (c_str (attr_ch attr));
       iio_write_attr long_bits device trigger dev (attr_type attr) name chn buf (Z.of_nat (length buf)))
    (fun dev len => dev ← the (c_str dev); iio_get_trigger dev len)
    (fun dev t len => dev ← the (c_str dev); t ← the (c_str t); iio_set_trigger dev t len)
    (fun _ => mret (- EINVAL))
    (fun dev n => dev ← the (c_str dev); iio_set_buffers_count dev n).

(** The functions for the data of a buffer. *)
Definition iio_buffer_app : buffer_app mem :=
  BufApp
    (fun dev => dev ← the (c_str dev); iio_refill_buffer device dev)
    (fun dev n => dev ← the (c_str dev); iio_read_buffer spins fuel dev n)
    (fun dev buf => dev ← the (c_str dev); iio_write_buffer spins fuel dev buf (Z.of_nat (length buf)))
    (fun dev => dev ← the (c_str dev); iio_push_buffer device dev).

Definition on_devices {A} : cmd mem A -> cmd (mem * X) A := zoom fst (fun m s => (m, snd s)).

(** [desc->send] and [desc->recv], which are null without a transport. *)
Definition iio_send (l : option (link X)) (ctx : iiod_ctx) (bytes : list Z) : cmd (mem * X) Z :=
  zoom snd (fun x s => (fst s, x)) (match l with Some l => link_send l (snd ctx) bytes | None => undef end).

Definition iio_recv (l : option (link X)) (ctx : iiod_ctx) (len : Z) : cmd (mem * X) (Z * list Z) :=
  zoom snd (fun x s => (fst s, x)) (match l with Some l => link_recv l (snd ctx) len | None => undef end).

(** The table that [iio_init] fills. *)
Definition iio_ops (l : option (link X)) : iiod_ops (mem * X) :=
  IiodOps (Some (iio_send l)) (Some (iio_recv l))
    (Some (fun _ dev n m c => on_devices (app_open iio_application dev n m c)))
    (Some (fun _ dev => on_devices (app_close iio_application dev)))
    (Some (fun _ dev n => on_devices (bf_read iio_buffer_app dev n)))
    (Some (fun _ dev => on_devices (bf_refill iio_buffer_app dev)))
    (Some (fun _ dev buf => on_devices (bf_write iio_buffer_app dev buf)))
    (Some (fun _ dev => on_devices (bf_push iio_buffer_app dev)))
    (Some (fun _ dev attr len => on_devices (app_read_attr iio_application dev attr len)))
    (Some (fun _ dev attr p len => on_devices (app_write_attr iio_application dev attr (take (Z.to_nat len) p))))
    (Some (fun _ dev len => on_devices (app_get_trigger iio_application dev len)))
    (Some (fun _ dev t len => on_devices (app_set_trigger iio_application dev t len)))
    None
    (Some (fun _ dev n => on_devices (app_set_buffers_count iio_application dev n))).

(** ** Starting and stopping *)

Definition upd_desc (p : ptr) (f : iio_desc -> iio_desc) : cmd st unit :=
  d ← on_st_descs (hload p); on_st_descs (hstore p (f d)).

(** The circular buffer inside an entry of the table of devices: it has an
    address but no block of its own that could fail. *)
Definition place_cb : cmd mem ptr := fun m =>
  let h := descs (iio_cbs m) in
  Done (Some (next_block h),
        IioMem (devs m) (trigs m)
          (CbMem (Heap (<[next_block h := Cb 0 None cb_ptr0 cb_ptr0]> (cells h))
                    (Pos.succ (next_block h)) (oom h)) (arrs (iio_cbs m))) (iio_world m)).

Definition has_buffer (D : iio_device mem) : bool :=
  bool_decide (is_Some (read_dev D)) || bool_decide (is_Some (write_dev D)) ||
  bool_decide (is_Some (submit D)) || bool_decide (is_Some (trigger_handler D)).

(** Entry [i] of the table. *)
Definition new_dev (i : nat) (n : iio_device_init) (trig : Z) (c : ptr) : iio_dev_priv :=
  let public := IioBuffer 0 0 0 0 IIO_DIRECTION_INPUT in
  DevPriv (str "iio:device" ++ print_num 10 (Z.of_nat i)) (di_name n) (di_dev n) 0 (di_descriptor n)
    (if has_buffer (device (di_descriptor n))
     then BufferPriv (public c (CyclicInfo false 0)) c (di_raw_buf n) (di_raw_buf_len n) true false
     else BufferPriv (public None (CyclicInfo false 0)) c None 0 false false) trig.

Definition set_devs (l : list iio_dev_priv) (m : mem) : mem :=
  IioMem l (trigs m) (iio_cbs m) (iio_world m).

Definition set_trigs (l : list iio_trig_priv) (m : mem) : mem :=
  IioMem (devs m) l (iio_cbs m) (iio_world m).

Fixpoint init_devs (i : nat) (l : list iio_device_init) : cmd mem unit :=
  match l with
  | [] => mret tt
  | n :: l =>
      c ← place_cb;
      trig ← iio_get_trig_idx_by_id (di_trigger_id n);
      _ ← modify (fun m => set_devs (devs m ++ [new_dev i n trig c]) m);
      init_devs (S i) l
  end.

Definition with_devs (t : ptr) (d : iio_desc) : iio_desc :=
  IioDesc (ia_iiod d) (ia_xml_desc d) (ia_xml_size d) t (ia_trigs d) (ia_uart_desc d) (ia_conns d).
Definition with_trigs (t : ptr) (d : iio_desc) : iio_desc :=
  IioDesc (ia_iiod d) (ia_xml_desc d) (ia_xml_size d) (ia_devs d) t (ia_uart_desc d) (ia_conns d).
Definition with_xml (x : ptr) (size : Z) (d : iio_desc) : iio_desc :=
  IioDesc (ia_iiod d) x size (ia_devs d) (ia_trigs d) (ia_uart_desc d) (ia_conns d).
Definition with_iiod (x : ptr) (d : iio_desc) : iio_desc :=
  IioDesc x (ia_xml_desc d) (ia_xml_size d) (ia_devs d) (ia_trigs d) (ia_uart_desc d) (ia_conns d).
Definition with_conns (x : ptr) (d : iio_desc) : iio_desc :=
  IioDesc (ia_iiod d) (ia_xml_desc d) (ia_xml_size d) (ia_devs d) (ia_trigs d) (ia_uart_desc d) x.
Definition with_uart (x : ptr) (d : iio_desc) : iio_desc :=
  IioDesc (ia_iiod d) (ia_xml_desc d) (ia_xml_size d) (ia_devs d) (ia_trigs d) x (ia_conns d).

(** [calloc] of no elements may return null as well. *)
Definition iio_init_devs (p : ptr) (l : list iio_device_init) : cmd st Z :=
  t ← on_tables (halloc tt);
  _ ← upd_desc p (with_devs t);
  match t with
  | None => mret (- ENOMEM)
  | Some _ => _ ← on_mem (modify (set_devs [])); _ ← on_mem (init_devs 0 l); mret 0
  end.

Definition new_trig (i : nat) (n : iio_trigger_init) : iio_trig_priv :=
  TrigPriv (str "trigger" ++ print_num 10 (Z.of_nat i)) (ti_name n) (ti_trig n) (ti_descriptor n) false.

Definition iio_init_trigs (p : ptr) (l : list iio_trigger_init) : cmd st Z :=
  t ← on_tables (halloc tt);
  _ ← upd_desc p (with_trigs t);
  match t with
  | None => mret (- ENOMEM)
  | Some _ => _ ← on_mem (modify (set_trigs (imap new_trig l))); mret 0
  end.

Definition app_init_xml (p : ptr) (attrs : list iio_ctx_attr) : cmd st Z :=
  m ← gets st_mem;
  r ← on_texts (iio_init_xml project version device trigger attrs (devs m) (trigs m));
  match r with
  | inl e => mret e
  | inr (x, size) => _ ← upd_desc p (with_xml x size); mret 0
  end.

(** [_push_conn] and [_pop_conn]; a result and an identifier. *)
Definition push_conn (p : ptr) (conn_id : Z) : cmd st Z :=
  d ← on_st_descs (hload p);
  r ← on_queue (no_os_cb_write spins fuel (ia_conns d) (Some (u32_bytes conn_id)) 4);
  mret r.1.

Definition pop_conn (p : ptr) : cmd st (Z * Z) :=
  d ← on_st_descs (hload p);
  s ← on_queue (no_os_cb_size (ia_conns d) false);
  if default 0 s.2 <? 4 then mret (- EAGAIN, 0) else
  r ← on_queue (no_os_cb_read spins fuel (ia_conns d) (Some [0; 0; 0; 0]) 4);
  mret (r.1, bytes_u32 r.2).

(** The labels at the end of [iio_init], each of which falls into the next. *)
Definition free_desc (p : ptr) : cmd st unit := on_st_descs (hfree p).

(** The circular buffers go with the table. *)
Definition drop_devs (m : mem) : mem :=
  let h := descs (iio_cbs m) in
  let cells' := foldr (fun d c => match cb (buffer d) with Some q => delete q c | None => c end)
                  (cells h) (devs m) in
  IioMem [] (trigs m) (CbMem (Heap cells' (next_block h) (oom h)) (arrs (iio_cbs m))) (iio_world m).

Definition free_devs (p : ptr) : cmd st unit :=
  d ← on_st_descs (hload p);
  _ ← on_tables (hfree (ia_devs d));
  _ ← on_mem (modify drop_devs);
  free_desc p.

Definition free_trigs (p : ptr) : cmd st unit :=
  d ← on_st_descs (hload p);
  _ ← on_tables (hfree (ia_trigs d));
  _ ← on_mem (modify (set_trigs []));
  free_devs p.

Definition free_xml (p : ptr) : cmd st unit :=
  d ← on_st_descs (hload p); _ ← on_texts (hfree (ia_xml_desc d)); free_trigs p.

Definition free_iiod (p : ptr) : cmd st unit :=
  d ← on_st_descs (hload p); _ ← on_iiod (iiod_remove (ia_iiod d)); free_xml p.

Definition free_conns (p : ptr) : cmd st unit :=
  d ← on_st_descs (hload p); _ ← on_queue (no_os_cb_remove (ia_conns d)); free_iiod p.

Definition IIOD_CONN_BUFFER_SIZE : Z := 0x1000.

(** The transport of a build without a network. *)
Definition the_link (prm : iio_init_param X) : option (link X) :=
  match ii_phy_type prm with
  | USE_UART => Some uart
  | USE_LOCAL_BACKEND => lb_link <$> ii_local_backend prm
  | USE_NETWORK => None
  end.

Definition add_conn (p : ptr) (data : iiod_conn_data) : cmd st Z :=
  d ← on_st_descs (hload p);
  r ← on_iiod (iiod_conn_add (ia_iiod d) (Some data) false);
  if NO_OS_IS_ERR_VALUE r.1 then mret r.1 else
  _ ← push_conn p (default 0 r.2);
  mret r.1.

Definition init_link (p : ptr) (prm : iio_init_param X) : cmd st Z :=
  match ii_phy_type prm with
  | USE_UART =>
      _ ← upd_desc p (with_uart (ii_uart_desc prm));
      add_conn p (ConnData (ii_uart_desc prm) uart_buff IIOD_CONN_BUFFER_SIZE)
  | USE_LOCAL_BACKEND =>
      b ← the (ii_local_backend prm);
      add_conn p (ConnData None (lb_buff b) (lb_buff_len b))
  | USE_NETWORK => mret (- EINVAL)
  end.

(** [goto] a label with an error. *)
Definition fail (ret : Z) (label : cmd st unit) : cmd st (Z * ptr) := _ ← label; mret (ret, None).

Definition init_daemon (p : ptr) (prm : iio_init_param X) : cmd st Z :=
  d ← on_st_descs (hload p);
  text ← on_texts (hload (ia_xml_desc d));
  r ← on_iiod (iiod_init false (Some
        (IiodParam (Some (iio_ops (the_link prm))) p (take (Z.to_nat (ia_xml_size d)) text)
           (ia_xml_size d) (ii_phy_type prm))));
  _ ← upd_desc p (with_iiod r.2);
  mret r.1.

Definition init_queue (p : ptr) : cmd st Z :=
  q ← on_queue (no_os_cb_init false (4 * (IIOD_MAX_CONNECTIONS + 1)));
  _ ← upd_desc p (with_conns (default None q.2));
  mret q.1.

(** The last part: the daemon, its queue and the first connection. *)
Definition init_running (p : ptr) (prm : iio_init_param X) : cmd st (Z * ptr) :=
  ret ← init_daemon p prm;
  if NO_OS_IS_ERR_VALUE ret then fail ret (free_xml p) else
  ret ← init_queue p;
  if NO_OS_IS_ERR_VALUE ret then fail ret (free_iiod p) else
  ret ← init_link p prm;
  if NO_OS_IS_ERR_VALUE ret then fail ret (free_conns p) else
  mret (0, p).

(** The result, and [*desc] where it was set. *)
Definition iio_init (desc_is_null : bool) (init_param : option (iio_init_param X)) : cmd st (Z * ptr) :=
  match init_param with
  | None => mret (- EINVAL, None)
  | Some prm =>
      if desc_is_null then mret (- EINVAL, None) else
      p ← on_st_descs (halloc iio_desc0);
      match p with
      | None => mret (- ENOMEM, None)
      | Some _ =>
          ret ← iio_init_trigs p (ii_trigs prm);
          if NO_OS_IS_ERR_VALUE ret then fail ret (free_devs p) else
          ret ← iio_init_devs p (ii_devs prm);
          if NO_OS_IS_ERR_VALUE ret then fail ret (free_desc p) else
          ret ← app_init_xml p (ii_ctx_attrs prm);
          if NO_OS_IS_ERR_VALUE ret then fail ret (free_trigs p) else
          init_running p prm
      end
  end.

Definition iio_remove (desc : ptr) : cmd st Z :=
  match desc with
  | None => mret (- EINVAL)
  | Some _ =>
      d ← on_st_descs (hload desc);
      _ ← on_queue (no_os_cb_remove (ia_conns d));
      _ ← on_iiod (iiod_remove (ia_iiod d));
      _ ← on_tables (hfree (ia_devs d));
      _ ← on_mem (modify drop_devs);
      _ ← on_tables (hfree (ia_trigs d));
      _ ← on_mem (modify (set_trigs []));
      _ ← on_texts (hfree (ia_xml_desc d));
      _ ← free_desc desc;
      mret 0
  end.

(** ** Running *)

(** A connection that is gone stays in the pool, but is not asked again. *)
Definition iio_step (desc : ptr) : cmd st Z :=
  _ ← on_mem (iio_process_async_triggers device);
  c ← pop_conn desc;
  if NO_OS_IS_ERR_VALUE c.1 then mret c.1 else
  d ← on_st_descs (hload desc);
  ret ← on_daemon (iiod_conn_step long_bits fuel (ia_iiod d) c.2);
  if ret =? - ENOTCONN then mret ret else
  _ ← push_conn desc c.2;
  mret ret.
End app.

Lemma u32_bytes_inv n : uint 32 n -> bytes_u32 (u32_bytes n) = n.
Proof.
  intros Hn. unfold u32_bytes, bytes_u32.
  pose proof (Z.div_mod n 256). pose proof (Z.div_mod (n / 256) 256).
  pose proof (Z.div_mod (n / 65536) 256).
  rewrite (Z.mod_small (n / 16777216)) by (split; [apply Z.div_pos; ulia | apply Z.div_lt_upper_bound; ulia]).
  replace (n / 16777216) with (n / 65536 / 256) by (rewrite Z.div_div by lia; done).
  replace (n / 65536) with (n / 256 / 256) in * by (rewrite Z.div_div by lia; done). lia.
Qed.

(** ** The tables *)

Section tables.
  Context {W : Type} (device : positive -> iio_device (iio_mem W)).
  Abbreviation mem := (iio_mem W).

Definition placed (h : heap no_os_circular_buffer) : heap no_os_circular_buffer :=
  Heap (<[next_block h := Cb 0 None cb_ptr0 cb_ptr0]> (cells h)) (Pos.succ (next_block h)) (oom h).

Definition trig_of (ts : list iio_trig_priv) (n : iio_device_init) : Z :=
  match di_trigger_id n with
  | Some id => idx_or_none (index_where (fun t => strcmp_eq (tp_id t) id) ts 0)
  | None => NO_TRIGGER
  end.

(** The entries from [i] on, with their circular buffers placed in [h]. *)
Fixpoint made_devs (ts : list iio_trig_priv) (i : nat) (l : list iio_device_init)
    (h : heap no_os_circular_buffer) : list iio_dev_priv :=
  match l with
  | [] => []
  | n :: l => new_dev device i n (trig_of ts n) (Some (next_block h)) :: made_devs ts (S i) l (placed h)
  end.

Fixpoint placed_cbs (n : nat) (h : heap no_os_circular_buffer) : heap no_os_circular_buffer :=
  match n with O => h | S n => placed_cbs n (placed h) end.

Lemma init_devs_run l : forall i (m : mem),
  init_devs device i l m
  = Done (tt, IioMem (devs m ++ made_devs (trigs m) i l (descs (iio_cbs m))) (trigs m)
                (CbMem (placed_cbs (length l) (descs (iio_cbs m))) (arrs (iio_cbs m))) (iio_world m)).
Proof using.
  induction l as [| n l IH]; intros i m.
  - cbn [init_devs made_devs placed_cbs length]. rewrite app_nil_r. by destruct m as [? ? [] ?].
  - cbn [init_devs]. rewrite (bind_done _ _ m (Some (next_block (descs (iio_cbs m)))) _ eq_refl).
    set (m1 := IioMem _ _ _ _).
    assert (iio_get_trig_idx_by_id (di_trigger_id n) m1 = Done (trig_of (trigs m) n, m1)) as E.
    { unfold iio_get_trig_idx_by_id, trig_of. by destruct (di_trigger_id n). }
    rewrite (bind_done _ _ _ _ _ E). erewrite bind_done by done. rewrite IH.
    cbn [m1 set_devs devs trigs iio_cbs iio_world descs arrs]. by rewrite <- app_assoc.
Qed.

Lemma heap_ok_placed h : heap_ok h -> heap_ok (placed h).
Proof using. intros H. apply heap_ok_insert; (done || lia). Qed.

Lemma drop_cbs_placed ts l : forall i h,
  heap_ok h ->
  foldr (fun d c => match cb (buffer d) with Some q => delete q c | None => c end)
    (cells (placed_cbs (length l) h)) (made_devs ts i l h) = cells h.
Proof using.
  induction l as [| n l IH]; intros i h Hh; [done |]. cbn [length placed_cbs made_devs foldr].
  rewrite IH by by apply heap_ok_placed.
  assert (cb (buffer (new_dev device i n (trig_of ts n) (Some (next_block h)))) = Some (next_block h)) as ->
    by (unfold new_dev; by destruct (has_buffer _)).
  cbn [placed cells]. apply delete_insert_id. by apply heap_ok_fresh.
Qed.

(** What is described of the entries does not depend on the buffers. *)
Lemma made_devs_args ts i l h k :
  dev_args device <$> made_devs ts i l h = dev_args device <$> made_devs ts i l k.
Proof using.
  revert i h k. induction l as [| n l IH]; intros i h k; [done |]. cbn [made_devs fmap list_fmap].
  f_equal. apply IH.
Qed.
End tables.

(** ** Starting *)

Section start.
  Context {W X : Type} (long_bits : Z) (spins fuel : nat) (project version : list Z).
  Context (device : positive -> iio_device (iio_mem W)) (trigger : positive -> iio_trigger (iio_mem W)).
  Context (uart : link X) (uart_buff : list Z) (D0 : heap iio_desc).
  Hypothesis HD0 : heap_ok D0.
  Abbreviation mem := (iio_mem W).
  Abbreviation st := (app_state W X).
  Abbreviation p := (next_block D0).

(** The state while the descriptor is [d], and when it was freed. *)
Definition with_desc (d : iio_desc) (T : heap unit) (Y : heap (list Z)) (Q : cb_mem)
    (I : heap (iiod_desc (mem * X))) (m : mem) (l : X) : st :=
  AppState (Heap (<[p := d]> (cells D0)) (Pos.succ p) (tail (oom D0))) T Y Q I m l.

Definition without_desc (T : heap unit) (Y : heap (list Z)) (Q : cb_mem)
    (I : heap (iiod_desc (mem * X))) (m : mem) (l : X) : st :=
  AppState (Heap (cells D0) (Pos.succ p) (tail (oom D0))) T Y Q I m l.

Lemma load_desc_run d T Y Q I m l :
  on_st_descs (hload (Some p)) (with_desc d T Y Q I m l) = Done (d, with_desc d T Y Q I m l).
Proof using. unfold on_st_descs. by erewrite zoom_done by (apply hload_done, lookup_insert_eq). Qed.

Lemma alloc_desc_run T Y Q I m l :
  alloc_fails D0 = false ->
  on_st_descs (halloc iio_desc0) (AppState D0 T Y Q I m l) = Done (Some p, with_desc iio_desc0 T Y Q I m l).
Proof using. intros E. unfold on_st_descs. by erewrite zoom_done by by apply halloc_done. Qed.

Lemma upd_desc_run f d T Y Q I m l :
  upd_desc (Some p) f (with_desc d T Y Q I m l) = Done (tt, with_desc (f d) T Y Q I m l).
Proof using.
  unfold upd_desc. rewrite (bind_done _ _ _ _ _ (load_desc_run d T Y Q I m l)).
  unfold on_st_descs. erewrite zoom_done by (eapply hstore_done; apply lookup_insert_eq).
  unfold with_desc. cbn [st_descs st_tables st_texts st_queue st_iiod st_mem st_link cells next_block oom].
  by rewrite insert_insert_eq.
Qed.

Lemma free_desc_run d T Y Q I m l :
  free_desc (Some p) (with_desc d T Y Q I m l) = Done (tt, without_desc T Y Q I m l).
Proof using HD0.
  unfold free_desc, on_st_descs. erewrite zoom_done by (eapply hfree_done; apply lookup_insert_eq).
  unfold with_desc. cbn [st_descs st_tables st_texts st_queue st_iiod st_mem st_link cells next_block oom].
  by rewrite delete_insert_id by by apply heap_ok_fresh.
Qed.

(** A block of a heap, given back. *)
Definition freed {V} (q : positive) (h : heap V) : heap V := Heap (delete q (cells h)) (next_block h) (oom h).

Definition freed_opt {V} (q : ptr) (h : heap V) : heap V :=
  match q with Some q => freed q h | None => h end.

Lemma hfree_opt {V} (q : ptr) (h : heap V) :
  (forall x, q = Some x -> is_Some (cells h !! x)) -> hfree q h = Done (tt, freed_opt q h).
Proof using. intros H. destruct q as [x |]; [| done]. destruct (H x eq_refl) as [v Hv]. by apply (hfree_done h x v). Qed.

Lemma free_devs_run d T Y Q I m l :
  (forall x, ia_devs d = Some x -> is_Some (cells T !! x)) ->
  free_devs (Some p) (with_desc d T Y Q I m l)
  = Done (tt, without_desc (freed_opt (ia_devs d) T) Y Q I (drop_devs m) l).
Proof using HD0.
  intros Hd. unfold free_devs. rewrite (bind_done _ _ _ _ _ (load_desc_run d T Y Q I m l)).
  erewrite bind_done by by eapply zoom_done, hfree_opt.
  erewrite bind_done by by eapply zoom_done. apply free_desc_run.
Qed.

Lemma free_trigs_run d T Y Q I m l :
  (forall x, ia_trigs d = Some x -> is_Some (cells T !! x)) ->
  (forall x, ia_devs d = Some x -> is_Some (cells (freed_opt (ia_trigs d) T) !! x)) ->
  free_trigs (Some p) (with_desc d T Y Q I m l)
  = Done (tt, without_desc (freed_opt (ia_devs d) (freed_opt (ia_trigs d) T)) Y Q I
                (drop_devs (set_trigs [] m)) l).
Proof using HD0.
  intros Ht Hd. unfold free_trigs. rewrite (bind_done _ _ _ _ _ (load_desc_run d T Y Q I m l)).
  erewrite bind_done by by eapply zoom_done, hfree_opt.
  erewrite bind_done by by eapply zoom_done. by apply free_devs_run.
Qed.

Lemma free_xml_run d T Y Q I m l :
  (forall x, ia_xml_desc d = Some x -> is_Some (cells Y !! x)) ->
  (forall x, ia_trigs d = Some x -> is_Some (cells T !! x)) ->
  (forall x, ia_devs d = Some x -> is_Some (cells (freed_opt (ia_trigs d) T) !! x)) ->
  free_xml (Some p) (with_desc d T Y Q I m l)
  = Done (tt, without_desc (freed_opt (ia_devs d) (freed_opt (ia_trigs d) T))
                (freed_opt (ia_xml_desc d) Y) Q I (drop_devs (set_trigs [] m)) l).
Proof using HD0.
  intros Hx Ht Hd. unfold free_xml. rewrite (bind_done _ _ _ _ _ (load_desc_run d T Y Q I m l)).
  erewrite bind_done by by eapply zoom_done, hfree_opt. by apply free_trigs_run.
Qed.

Lemma free_iiod_run d T Y Q I m l :
  (forall x, ia_iiod d = Some x -> is_Some (cells I !! x)) ->
  (forall x, ia_xml_desc d = Some x -> is_Some (cells Y !! x)) ->
  (forall x, ia_trigs d = Some x -> is_Some (cells T !! x)) ->
  (forall x, ia_devs d = Some x -> is_Some (cells (freed_opt (ia_trigs d) T) !! x)) ->
  free_iiod (Some p) (with_desc d T Y Q I m l)
  = Done (tt, without_desc (freed_opt (ia_devs d) (freed_opt (ia_trigs d) T))
                (freed_opt (ia_xml_desc d) Y) Q (freed_opt (ia_iiod d) I)
                (drop_devs (set_trigs [] m)) l).
Proof using HD0.
  intros Hi Hx Ht Hd. unfold free_iiod. rewrite (bind_done _ _ _ _ _ (load_desc_run d T Y Q I m l)).
  erewrite bind_done by by eapply zoom_done, hfree_opt. by apply free_xml_run.
Qed.

(** *** The stages *)

Definition grown {V} (v : V) (h : heap V) : heap V :=
  Heap (<[next_block h := v]> (cells h)) (Pos.succ (next_block h)) (tail (oom h)).

Definition refused {V} (h : heap V) : heap V := Heap (cells h) (next_block h) (tail (oom h)).

Lemma halloc_run {V} (v : V) (h : heap V) :
  halloc v h = if alloc_fails h then Done (None, refused h) else Done (Some (next_block h), grown v h).
Proof using. destruct (alloc_fails h) eqn:E; [by apply halloc_fail | by apply halloc_done]. Qed.

Lemma on_tables_run d T Y Q I m l :
  on_tables (halloc tt) (with_desc d T Y Q I m l)
  = if alloc_fails T then Done (None, with_desc d (refused T) Y Q I m l)
    else Done (Some (next_block T), with_desc d (grown tt T) Y Q I m l).
Proof using. unfold on_tables, zoom. cbn [st_tables with_desc]. rewrite halloc_run. by destruct (alloc_fails T). Qed.

Lemma init_trigs_run trigs d T Y Q I m l :
  iio_init_trigs (Some p) trigs (with_desc d T Y Q I m l)
  = if alloc_fails T then Done (- ENOMEM, with_desc (with_trigs None d) (refused T) Y Q I m l)
    else Done (0, with_desc (with_trigs (Some (next_block T)) d) (grown tt T) Y Q I
                    (set_trigs (imap new_trig trigs) m) l).
Proof using.
  unfold iio_init_trigs, mbind at 1, cmd_bind at 1. rewrite on_tables_run. destruct (alloc_fails T);
    rewrite (bind_done _ _ _ _ _ (upd_desc_run _ d _ Y Q I m l)); [done |].
  by erewrite bind_done by by eapply zoom_done.
Qed.

Lemma iio_init_devs_run devs0 d T Y Q I (m : mem) l :
  iio_init_devs device (Some p) devs0 (with_desc d T Y Q I m l)
  = if alloc_fails T then Done (- ENOMEM, with_desc (with_devs None d) (refused T) Y Q I m l)
    else Done (0, with_desc (with_devs (Some (next_block T)) d) (grown tt T) Y Q I
                    (IioMem (made_devs device (trigs m) 0 devs0 (descs (iio_cbs m))) (trigs m)
                       (CbMem (placed_cbs (length devs0) (descs (iio_cbs m))) (arrs (iio_cbs m)))
                       (iio_world m)) l).
Proof using.
  unfold iio_init_devs, mbind at 1, cmd_bind at 1. rewrite on_tables_run. destruct (alloc_fails T);
    rewrite (bind_done _ _ _ _ _ (upd_desc_run _ d _ Y Q I m l)); [done |].
  erewrite bind_done by by eapply zoom_done.
  erewrite bind_done by (eapply zoom_done; apply init_devs_run). done.
Qed.

(** The text for a table. *)
Abbreviation text := (context_text project version device trigger).

Lemma app_init_xml_run attrs d T Y Q I (m : mem) l :
  devs_ok device (devs m) -> Z.of_nat (length (text attrs (devs m) (trigs m))) < 2 ^ 31 - 1 ->
  app_init_xml project version device trigger (Some p) attrs (with_desc d T Y Q I m l)
  = if alloc_fails Y then Done (- ENOMEM, with_desc d T (refused Y) Q I m l)
    else Done (0, with_desc (with_xml (Some (next_block Y))
                    (Z.of_nat (length (text attrs (devs m) (trigs m)))) d) T
                    (grown (text attrs (devs m) (trigs m) ++ [0])%list Y) Q I m l).
Proof using.
  intros Hok Hlen. unfold app_init_xml.
  rewrite (bind_done (gets st_mem) _ _ m (with_desc d T Y Q I m l)) by done.
  pose proof (init_xml_run project version device trigger attrs (devs m) (trigs m) Y Hok Hlen) as E.
  destruct (alloc_fails Y); erewrite bind_done by (eapply zoom_done; exact E); [done |].
  cbv iota. change (AppState _ _ _ _ _ _ _)
    with (with_desc d T (grown (text attrs (devs m) (trigs m) ++ [0])%list Y) Q I m l).
  by rewrite (bind_done _ _ _ _ _ (upd_desc_run _ d T _ Q I m l)).
Qed.

Lemma iiod_init_run {V} (o : iiod_ops V) a x n phy (I : heap (iiod_desc V)) :
  is_Some (recv o) -> is_Some (send o) ->
  iiod_init false (Some (IiodParam (Some o) a x n phy)) I
  = if alloc_fails I then Done ((- ENOMEM, None), refused I)
    else Done ((0, Some (next_block I)),
               grown (IiodDesc (replicate (Z.to_nat IIOD_MAX_CONNECTIONS) conn0)
                        (iiod_copy_ops no_ops o).2 a x n phy) I).
Proof using.
  intros [r Hr] [f Hf]. unfold iiod_init. cbn [ip_ops ip_instance ip_xml ip_xml_len ip_phy_type].
  unfold mbind at 1, cmd_bind at 1. rewrite halloc_run. destruct (alloc_fails I); [done |].
  erewrite bind_done by (apply hload_done; apply lookup_insert_eq).
  cbn [desc0 ops conns]. unfold iiod_copy_ops. rewrite Hr, Hf. change (NO_OS_IS_ERR_VALUE 0) with false.
  cbv iota. erewrite bind_done by (eapply hstore_done; apply lookup_insert_eq).
  unfold grown. cbn [cells next_block oom]. by rewrite insert_insert_eq.
Qed.

Lemma init_daemon_run prm d T Y Q I (m : mem) l txt px :
  ia_xml_desc d = Some px -> cells Y !! px = Some (txt ++ [0])%list -> ia_xml_size d = Z.of_nat (length txt) ->
  init_daemon long_bits spins fuel device trigger uart (Some p) prm (with_desc d T Y Q I m l)
  = if alloc_fails I then Done (- ENOMEM, with_desc (with_iiod None d) T Y Q (refused I) m l)
    else Done (0, with_desc (with_iiod (Some (next_block I)) d) T Y Q
           (grown (IiodDesc (replicate (Z.to_nat IIOD_MAX_CONNECTIONS) conn0)
              (iiod_copy_ops no_ops (iio_ops long_bits spins fuel device trigger (the_link uart prm))).2
              (Some p) txt (Z.of_nat (length txt)) (ii_phy_type prm)) I) m l).
Proof using.
  intros Hx Hy Hs. unfold init_daemon. rewrite (bind_done _ _ _ _ _ (load_desc_run d T Y Q I m l)), Hx.
  erewrite bind_done by by eapply zoom_done, hload_done.
  rewrite Hs, Nat2Z.id, take_app_length.
  pose proof (iiod_init_run (iio_ops long_bits spins fuel device trigger (the_link uart prm)) (Some p) txt
    (Z.of_nat (length txt)) (ii_phy_type prm) I ltac:(by eexists) ltac:(by eexists)) as E.
  destruct (alloc_fails I); erewrite bind_done by (eapply zoom_done; exact E).
  - change (AppState _ _ _ _ _ _ _) with (with_desc d T Y Q (refused I) m l).
    by rewrite (bind_done _ _ _ _ _ (upd_desc_run _ d T Y Q (refused I) m l)).
  - change (AppState _ _ _ _ ?i _ _) with (with_desc d T Y Q i m l).
    by rewrite (bind_done _ _ _ _ _ (upd_desc_run _ d T Y Q _ m l)).
Qed.

Lemma init_queue_run d T Y Q I (m : mem) l :
  heap_ok (descs Q) -> heap_ok (arrs Q) ->
  exists q Q', init_queue (Some p) (with_desc d T Y Q I m l)
    = Done (if alloc_fails (descs Q) || alloc_fails (arrs Q) then - ENOMEM else 0,
            with_desc (with_conns q d) T Y Q' I m l) /\
    if alloc_fails (descs Q) || alloc_fails (arrs Q)
    then cells (descs Q') = cells (descs Q) /\ cells (arrs Q') = cells (arrs Q)
    else q = Some (next_block (descs Q)) /\ Q' = new_cb Q 44.
Proof using.
  intros HQ HA. assert (0 < 44 <= 2 ^ 31) as H44 by lia.
  assert (forall r Q', no_os_cb_init false 44 Q = Done (r, Q') ->
    init_queue (Some p) (with_desc d T Y Q I m l)
    = Done (r.1, with_desc (with_conns (default None r.2) d) T Y Q' I m l)) as Hrun.
  { intros r Q' E. unfold init_queue. change (4 * (IIOD_MAX_CONNECTIONS + 1)) with 44.
    erewrite bind_done by (eapply zoom_done; exact E).
    change (AppState _ _ _ _ _ _ _) with (with_desc d T Y Q' I m l).
    by rewrite (bind_done _ _ _ _ _ (upd_desc_run _ d T Y Q' I m l)). }
  destruct (alloc_fails (descs Q) || alloc_fails (arrs Q)) eqn:E.
  - destruct (no_os_cb_init_correct Q 44 HQ HA H44) as (Q' & out & Hi & Hc). rewrite E in Hi, Hc.
    eexists _, Q'. split; [by apply (Hrun _ _ Hi) | done].
  - apply orb_false_iff in E as [ED EA]. destruct (cb_init_run Q 44 ED EA H44) as [Hi _].
    eexists _, _. split; [by apply (Hrun _ _ Hi) |]. done.
Qed.

(** *** The queue of connections *)

Context (Hspins : (0 < spins)%nat) (Hfuel : (4 < fuel)%nat).

Lemma push_conn_run d T Y Q I (m : mem) l id h R pq pb :
  ia_conns d = Some pq -> cb_rep Q pq pb 44 h R None None ->
  exists Q', push_conn spins fuel (Some p) id (with_desc d T Y Q I m l) = Done (0, with_desc d T Y Q' I m l) /\
    cb_rep Q' pq pb 44 (h ++ u32_bytes id) R None None /\ framed pq pb Q Q'.
Proof using Hspins Hfuel.
  intros Hd Hrep. destruct spins as [| n]; [lia |].
  destruct (cb_write_run Q pq pb 44 h R None (u32_bytes id) 4 n fuel Hrep) as (Q' & E & Hrep');
    [lia | done | lia |].
  exists Q'. split; [| split].
  - unfold push_conn. rewrite (bind_done _ _ _ _ _ (load_desc_run d T Y Q I m l)), Hd.
    by erewrite bind_done by (eapply zoom_done; exact E).
  - done.
  - exact (sat_inv _ _ _ _ _ (framed_operation pq pb Q Q (S n) fuel (Some (u32_bytes id)) 4 false
      (cb_rep_framed _ _ _ _ _ _ _ _ Hrep)) E).
Qed.

Lemma pop_conn_run d T Y Q I (m : mem) l id h rest pq pb :
  ia_conns d = Some pq -> uint 32 id -> (length rest <= 40)%nat ->
  cb_rep Q pq pb 44 (h ++ u32_bytes id ++ rest) (Z.of_nat (length h)) None None ->
  exists Q', pop_conn spins fuel (Some p) (with_desc d T Y Q I m l) = Done ((0, id), with_desc d T Y Q' I m l) /\
    cb_rep Q' pq pb 44 ((h ++ u32_bytes id) ++ rest) (Z.of_nat (length (h ++ u32_bytes id))) None None.
Proof using Hspins Hfuel.
  intros Hd Hid Hrest Hrep. destruct spins as [| n]; [lia |].
  assert (Z.of_nat (length (h ++ u32_bytes id ++ rest)) = Z.of_nat (length h) + 4 + Z.of_nat (length rest)) as Hlen
    by (rewrite !length_app; cbn [u32_bytes length]; lia).
  destruct (cb_read_run Q pq pb 44 _ (Z.of_nat (length h)) None [0; 0; 0; 0] 4 n fuel Hrep)
    as (Q' & E & Hrep'); try (cbn [default length]; lia).
  exists Q'. split.
  - unfold pop_conn. rewrite (bind_done _ _ _ _ _ (load_desc_run d T Y Q I m l)), Hd.
    erewrite bind_done by (eapply zoom_done, (cb_size_run _ _ _ _ _ _ _ _ Hrep); lia).
    rewrite Hlen. cbn [snd]. change (default 0 (Some ?x)) with x.
    destruct (Z.ltb_spec (Z.of_nat (length h) + 4 + Z.of_nat (length rest) - Z.of_nat (length h)) 4); [lia |].
    erewrite bind_done by (eapply zoom_done; exact E).
    cbn [fst snd]. rewrite Nat2Z.id, drop_app_length. change (Z.to_nat 4) with (length (u32_bytes id)).
    rewrite take_app_length, inserts_all by done. by rewrite u32_bytes_inv.
  - rewrite <- app_assoc. rewrite length_app. cbn [u32_bytes length] in *. by rewrite Nat2Z.inj_add.
Qed.

Lemma pop_conn_none d T Y Q I (m : mem) l h pq pb :
  ia_conns d = Some pq -> cb_rep Q pq pb 44 h (Z.of_nat (length h)) None None ->
  pop_conn spins fuel (Some p) (with_desc d T Y Q I m l) = Done ((- EAGAIN, 0), with_desc d T Y Q I m l).
Proof using Hspins Hfuel.
  intros Hd Hrep. unfold pop_conn. rewrite (bind_done _ _ _ _ _ (load_desc_run d T Y Q I m l)), Hd.
  erewrite bind_done by (eapply zoom_done, (cb_size_run _ _ _ _ _ _ _ _ Hrep); lia).
  by rewrite Z.sub_diag.
Qed.

(** What a connection is added for. *)
Definition link_data (prm : iio_init_param X) : option iiod_conn_data :=
  match ii_phy_type prm with
  | USE_UART => Some (ConnData (ii_uart_desc prm) uart_buff IIOD_CONN_BUFFER_SIZE)
  | USE_LOCAL_BACKEND => (fun b => ConnData None (lb_buff b) (lb_buff_len b)) <$> ii_local_backend prm
  | USE_NETWORK => None
  end.

Definition linked (prm : iio_init_param X) (d : iio_desc) : iio_desc :=
  match ii_phy_type prm with USE_UART => with_uart (ii_uart_desc prm) d | _ => d end.

Definition stored {V} (q : positive) (v : V) (h : heap V) : heap V :=
  Heap (<[q := v]> (cells h)) (next_block h) (oom h).

Lemma add_conn_run data d T Y Q I (m : mem) l pi dd pq pb :
  ia_iiod d = Some pi -> cells I !! pi = Some dd ->
  conns dd = replicate (Z.to_nat IIOD_MAX_CONNECTIONS) conn0 ->
  ia_conns d = Some pq -> cb_rep Q pq pb 44 [] 0 None None ->
  exists Q', add_conn spins fuel (Some p) data (with_desc d T Y Q I m l)
    = Done (0, with_desc d T Y Q'
        (stored pi (set_conns (<[0%nat := new_conn data]> (conns dd)) dd) I) m l) /\
    cb_rep Q' pq pb 44 (u32_bytes 0) 0 None None /\ framed pq pb Q Q'.
Proof using Hspins Hfuel.
  intros Hd HI Hcs Hq Hrep. unfold add_conn.
  rewrite (bind_done _ _ _ _ _ (load_desc_run d T Y Q I m l)), Hd.
  assert (iiod_conn_add (Some pi) (Some data) false I
    = Done ((0, Some 0), stored pi (set_conns (<[0%nat := new_conn data]> (conns dd)) dd) I)) as E.
  { unfold iiod_conn_add. rewrite (bind_done _ _ _ _ _ (hload_done I pi _ HI)), Hcs.
    change (first_unused 0 (replicate (Z.to_nat IIOD_MAX_CONNECTIONS) conn0)) with (Some 0). cbv iota.
    rewrite (bind_done (the (Some data)) _ I data I) by done.
    by rewrite (bind_done _ _ _ _ _ (hstore_done I pi _ _ HI)). }
  erewrite bind_done by (eapply zoom_done; exact E).
  change (NO_OS_IS_ERR_VALUE (0, Some 0).1) with false. cbv iota.
  change (AppState _ _ _ _ ?i _ _) with (with_desc d T Y Q i m l).
  destruct (push_conn_run d T Y Q (stored pi (set_conns (<[0%nat := new_conn data]> (conns dd)) dd) I) m l
    0 [] 0 pq pb Hq Hrep) as (Q' & Ep & Hrep' & Hf).
  exists Q'. split; [| done]. change (default 0 (0, Some 0).2) with 0. by rewrite (bind_done _ _ _ _ _ Ep).
Qed.

Lemma init_link_run prm data d T Y Q I (m : mem) l pi dd pq pb :
  link_data prm = Some data -> ia_iiod d = Some pi -> cells I !! pi = Some dd ->
  conns dd = replicate (Z.to_nat IIOD_MAX_CONNECTIONS) conn0 ->
  ia_conns d = Some pq -> cb_rep Q pq pb 44 [] 0 None None ->
  exists Q', init_link spins fuel uart_buff (Some p) prm (with_desc d T Y Q I m l)
    = Done (0, with_desc (linked prm d) T Y Q'
        (stored pi (set_conns (<[0%nat := new_conn data]> (conns dd)) dd) I) m l) /\
    cb_rep Q' pq pb 44 (u32_bytes 0) 0 None None /\ framed pq pb Q Q'.
Proof using Hspins Hfuel.
  unfold link_data, init_link, linked. intros Hl Hd HI Hcs Hq Hrep. destruct (ii_phy_type prm); [| | done].
  - injection Hl as <-. rewrite (bind_done _ _ _ _ _ (upd_desc_run _ d T Y Q I m l)).
    by apply add_conn_run.
  - destruct (ii_local_backend prm) as [b |]; [| done]. injection Hl as <-.
    rewrite (bind_done (the (Some b)) _ _ b (with_desc d T Y Q I m l)) by done. by apply add_conn_run.
Qed.
End start.

(** *** Starting and stopping *)

Section life.
  Context {W X : Type} (long_bits : Z) (spins fuel : nat) (project version : list Z).
  Context (device : positive -> iio_device (iio_mem W)) (trigger : positive -> iio_trigger (iio_mem W)).
  Context (uart : link X) (uart_buff : list Z).
  Abbreviation mem := (iio_mem W).
  Abbreviation st := (app_state W X).

(** The tables, and the description of the context, of a program. *)
Definition its_trigs (prm : iio_init_param X) : list iio_trig_priv := imap new_trig (ii_trigs prm).

Definition its_devs (prm : iio_init_param X) (s : st) : list iio_dev_priv :=
  made_devs device (its_trigs prm) 0 (ii_devs prm) (descs (iio_cbs (st_mem s))).

Definition its_text (prm : iio_init_param X) (s : st) : list Z :=
  context_text project version device trigger (ii_ctx_attrs prm) (its_devs prm s) (its_trigs prm).

Record can_start (prm : iio_init_param X) (s : st) : Prop := CanStart {
  cs_devs : devs (st_mem s) = [];
  cs_trigs : trigs (st_mem s) = [];
  cs_descs : heap_ok (st_descs s);
  cs_tables : heap_ok (st_tables s);
  cs_texts : heap_ok (st_texts s);
  cs_iiod : heap_ok (st_iiod s);
  cs_queue : heap_ok (descs (st_queue s)) /\ heap_ok (arrs (st_queue s));
  cs_cbs : heap_ok (descs (iio_cbs (st_mem s)));
  cs_devices : Forall (fun n => xml_ok (device (di_descriptor n))) (ii_devs prm);
  cs_text : Z.of_nat (length (its_text prm s)) < 2 ^ 31 - 1;
  cs_link : is_Some (link_data uart_buff prm)
}.

(** The state of a program that was started; [Q] is its queue. *)
Definition started_desc (prm : iio_init_param X) (s : st) : iio_desc :=
  linked prm (IioDesc (Some (next_block (st_iiod s))) (Some (next_block (st_texts s)))
    (Z.of_nat (length (its_text prm s))) (Some (Pos.succ (next_block (st_tables s))))
    (Some (next_block (st_tables s))) None (Some (next_block (descs (st_queue s))))).

Definition started_iiod (prm : iio_init_param X) (data : iiod_conn_data) (s : st) :
  iiod_desc (mem * X) :=
  IiodDesc (<[0%nat := new_conn data]> (replicate (Z.to_nat IIOD_MAX_CONNECTIONS) conn0))
    (iiod_copy_ops no_ops (iio_ops long_bits spins fuel device trigger (the_link uart prm))).2
    (Some (next_block (st_descs s))) (its_text prm s) (Z.of_nat (length (its_text prm s)))
    (ii_phy_type prm).

Definition started_mem (prm : iio_init_param X) (s : st) : mem :=
  IioMem (its_devs prm s) (its_trigs prm)
    (CbMem (placed_cbs (length (ii_devs prm)) (descs (iio_cbs (st_mem s)))) (arrs (iio_cbs (st_mem s))))
    (iio_world (st_mem s)).

Definition started (prm : iio_init_param X) (data : iiod_conn_data) (s : st) (Q : cb_mem) : st :=
  with_desc (st_descs s) (started_desc prm s) (grown tt (grown tt (st_tables s)))
    (grown (its_text prm s ++ [0])%list (st_texts s)) Q
    (grown (started_iiod prm data s) (st_iiod s)) (started_mem prm s) (st_link s).

Definition queue_of_one (s : st) (Q : cb_mem) : Prop :=
  cb_rep Q (next_block (descs (st_queue s))) (next_block (arrs (st_queue s))) 44 (u32_bytes 0) 0 None None /\
  framed (next_block (descs (st_queue s))) (next_block (arrs (st_queue s))) (new_cb (st_queue s) 44) Q.

(** The allocations of [iio_init], in the order it makes them. *)
Definition second_fails {V} (h : heap V) : bool := match oom h with _ :: true :: _ => true | _ => false end.

Definition lacks_memory (s : st) : bool :=
  alloc_fails (st_descs s) || alloc_fails (st_tables s) || second_fails (st_tables s) ||
  alloc_fails (st_texts s) || alloc_fails (st_iiod s) || alloc_fails (descs (st_queue s)) ||
  alloc_fails (arrs (st_queue s)).

(** The table of triggers is lost when that of devices cannot be allocated. *)
Definition loses_table (s : st) : bool :=
  negb (alloc_fails (st_descs s)) && negb (alloc_fails (st_tables s)) && second_fails (st_tables s).

(** Nothing but [T] is allocated that was not. *)
Definition nothing_left (s s' : st) (T : gmap positive unit) : Prop :=
  cells (st_descs s') = cells (st_descs s) /\ cells (st_tables s') = T /\
  cells (st_texts s') = cells (st_texts s) /\ cells (st_iiod s') = cells (st_iiod s) /\
  cells (descs (st_queue s')) = cells (descs (st_queue s)) /\
  cells (arrs (st_queue s')) = cells (arrs (st_queue s)) /\
  devs (st_mem s') = [] /\ cells (descs (iio_cbs (st_mem s'))) = cells (descs (iio_cbs (st_mem s))) /\
  arrs (iio_cbs (st_mem s')) = arrs (iio_cbs (st_mem s)) /\ st_link s' = st_link s.

Lemma second_alloc {V} (v : V) h : alloc_fails (grown v h) = second_fails h.
Proof using. unfold alloc_fails, second_fails, grown. cbn [oom]. by destruct (oom h) as [| ? [| [] ?]]. Qed.

(** The two tables, given back. *)
Lemma tables_back T :
  heap_ok T ->
  cells (freed (Pos.succ (next_block T)) (freed (next_block T) (grown tt (grown tt T)))) = cells T.
Proof using.
  intros HT. pose proof (heap_ok_fresh T HT) as H1.
  assert (cells T !! Pos.succ (next_block T) = None) as H2.
  { destruct (cells T !! Pos.succ (next_block T)) eqn:E; [| done].
    specialize (HT (Pos.succ (next_block T))). rewrite E in HT. specialize (HT (mk_is_Some _ _ eq_refl)). lia. }
  cbn [freed grown cells next_block]. rewrite (delete_insert_ne _ (next_block T)) by lia.
  rewrite delete_insert_id; [by apply delete_insert_id |].
  rewrite lookup_delete_ne, lookup_insert_ne by lia. done.
Qed.

Lemma freed_grown {V} (v : V) h : heap_ok h -> cells (freed (next_block h) (grown v h)) = cells h.
Proof using. intros H. cbn [freed grown cells]. by apply delete_insert_id, heap_ok_fresh. Qed.

Lemma tables_there T d :
  ia_trigs d = Some (next_block T) -> ia_devs d = Some (Pos.succ (next_block T)) ->
  (forall x, ia_trigs d = Some x -> is_Some (cells (grown tt (grown tt T)) !! x)) /\
  (forall x, ia_devs d = Some x -> is_Some (cells (freed_opt (ia_trigs d) (grown tt (grown tt T))) !! x)).
Proof using.
  intros Ht Hd. rewrite Ht, Hd. split; intros x [= <-]; cbn [freed_opt freed grown cells next_block].
  - rewrite lookup_insert_ne by lia. by rewrite lookup_insert_eq.
  - rewrite lookup_delete_ne by lia. by rewrite lookup_insert_eq.
Qed.

(** The blocks of a descriptor that was staged are there to be freed. *)
Lemma free_staged_run (D : heap iio_desc) d T Y Q I (m : mem) (l : X) v :
  heap_ok D -> heap_ok T -> heap_ok Y ->
  ia_xml_desc d = Some (next_block Y) -> ia_trigs d = Some (next_block T) ->
  ia_devs d = Some (Pos.succ (next_block T)) ->
  exists T' Y', cells T' = cells T /\ cells Y' = cells Y /\
    free_xml (Some (next_block D)) (with_desc D d (grown tt (grown tt T)) (grown v Y) Q I m l)
    = Done (tt, without_desc D T' Y' Q I (drop_devs (set_trigs [] m)) l) /\
    forall h, (forall x, ia_iiod d = Some x -> is_Some (cells h !! x)) ->
      free_iiod (Some (next_block D)) (with_desc D d (grown tt (grown tt T)) (grown v Y) Q h m l)
      = Done (tt, without_desc D T' Y' Q (freed_opt (ia_iiod d) h) (drop_devs (set_trigs [] m)) l).
Proof using.
  intros HD HT HY Hx Ht Hd. destruct (tables_there T d Ht Hd) as [H1 H2].
  assert (forall x, ia_xml_desc d = Some x -> is_Some (cells (grown v Y) !! x)) as H3.
  { rewrite Hx. intros x [= <-]. cbn [grown cells]. by rewrite lookup_insert_eq. }
  eexists _, _. split; [| split; [| split]].
  3: { by apply (free_xml_run D HD). }
  3: { intros h Hh. by apply (free_iiod_run D HD). }
  - rewrite Hd, Ht. by apply tables_back.
  - rewrite Hx. by apply (freed_grown v Y).
Qed.

Lemma mem_back prm s :
  heap_ok (descs (iio_cbs (st_mem s))) ->
  let m := drop_devs (set_trigs [] (started_mem prm s)) in
  devs m = [] /\ cells (descs (iio_cbs m)) = cells (descs (iio_cbs (st_mem s))) /\
  arrs (iio_cbs m) = arrs (iio_cbs (st_mem s)).
Proof using. intros H m. splits; [done | by apply drop_cbs_placed | done]. Qed.

Lemma its_devs_ok prm s : can_start prm s -> devs_ok device (its_devs prm s).
Proof using.
  intros H. unfold devs_ok, its_devs. pose proof (cs_devices _ _ H) as Hd. clear H.
  generalize (descs (iio_cbs (st_mem s))) as h. generalize 0%nat as i.
  induction Hd as [| n l Hn _ IH]; intros i h; constructor; [exact Hn | apply IH].
Qed.

(** The part of [iio_init] up to the daemon, when the tables and the text can
    be allocated. *)
Definition staged (prm : iio_init_param X) (s : st) : iio_desc :=
  IioDesc None (Some (next_block (st_texts s)))
    (Z.of_nat (length (its_text prm s))) (Some (Pos.succ (next_block (st_tables s))))
    (Some (next_block (st_tables s))) None None.

Context (Hspins : (0 < spins)%nat) (Hfuel : (4 < fuel)%nat).

Abbreviation init := (iio_init long_bits spins fuel project version device trigger uart uart_buff).

(** The state before the last part. *)
Definition half_started (prm : iio_init_param X) (s : st) : st :=
  with_desc (st_descs s) (staged prm s) (grown tt (grown tt (st_tables s)))
    (grown (its_text prm s ++ [0])%list (st_texts s)) (st_queue s) (st_iiod s)
    (started_mem prm s) (st_link s).

Lemma nothing_left_of D T Y Q I m l T' prm T1 Y1 Q1 I1 :
  heap_ok (descs (iio_cbs m)) -> cells T1 = T' -> cells Y1 = cells Y ->
  cells (descs Q1) = cells (descs Q) -> cells (arrs Q1) = cells (arrs Q) -> cells I1 = cells I ->
  nothing_left (AppState D T Y Q I m l)
    (without_desc D T1 Y1 Q1 I1 (drop_devs (set_trigs [] (started_mem prm (AppState D T Y Q I m l)))) l) T'.
Proof using.
  intros Hm HT HY HQ HA HI. destruct (mem_back prm (AppState D T Y Q I m l) Hm) as (H1 & H2 & H3).
  by unfold nothing_left; splits.
Qed.

Lemma init_running_run prm s :
  can_start prm s ->
  exists s', init_running long_bits spins fuel device trigger uart uart_buff (Some (next_block (st_descs s))) prm
      (half_started prm s)
    = Done (if alloc_fails (st_iiod s) || alloc_fails (descs (st_queue s)) || alloc_fails (arrs (st_queue s))
            then (- ENOMEM, None) else (0, Some (next_block (st_descs s))), s') /\
    if alloc_fails (st_iiod s) || alloc_fails (descs (st_queue s)) || alloc_fails (arrs (st_queue s))
    then nothing_left s s' (cells (st_tables s))
    else exists data Q, link_data uart_buff prm = Some data /\ queue_of_one s Q /\ s' = started prm data s Q.
Proof using Hspins Hfuel.
  intros Hs. destruct Hs as [_ _ HD HT HY HI [HQ HA] HC _ _ [data Hdata]].
  destruct s as [D T Y Q I m l]. cbn [st_descs st_tables st_texts st_queue st_iiod st_mem st_link] in *.
  unfold half_started, init_running, fail. cbn [st_descs st_tables st_texts st_queue st_iiod st_mem st_link].
  set (s0 := AppState D T Y Q I m l) in *. set (m1 := started_mem prm s0). set (txt := its_text prm s0).
  unfold mbind at 1, cmd_bind at 1.
  rewrite (init_daemon_run long_bits spins fuel device trigger uart D prm _ _ _ _ _ _ _ txt (next_block Y));
    [| done | apply lookup_insert_eq | done].
  destruct (alloc_fails I) eqn:EI; cbn [orb].
  { change (NO_OS_IS_ERR_VALUE (- ENOMEM)) with true. cbv iota.
    destruct (free_staged_run D (with_iiod None (staged prm s0)) T Y Q (refused I) m1 l (txt ++ [0])%list)
      as (T' & Y' & HT' & HY' & E & _); try done.
    rewrite (bind_done _ _ _ _ _ E). eexists. split; [done |]. by apply nothing_left_of. }
  change (NO_OS_IS_ERR_VALUE 0) with false. cbv iota.
  set (dd := IiodDesc _ _ _ _ _ _). set (d1 := with_iiod _ _).
  destruct (init_queue_run D d1 (grown tt (grown tt T)) (grown (txt ++ [0])%list Y) Q (grown dd I) m1 l HQ HA)
    as (q & Q' & Eq & Hq).
  rewrite (bind_done _ _ _ _ _ Eq).
  destruct (alloc_fails (descs Q) || alloc_fails (arrs Q)) eqn:EQ.
  { change (NO_OS_IS_ERR_VALUE (- ENOMEM)) with true. cbv iota.
    destruct (free_staged_run D (with_conns q d1) T Y Q' (grown dd I) m1 l (txt ++ [0])%list)
      as (T' & Y' & HT' & HY' & _ & E); try done.
    rewrite (bind_done _ _ _ (tt) _ (E (grown dd I) ltac:(intros x [= <-]; cbn; by rewrite lookup_insert_eq))).
    eexists. split; [done |]. destruct Hq. apply nothing_left_of; try done. by apply (freed_grown dd I). }
  change (NO_OS_IS_ERR_VALUE 0) with false. cbv iota. destruct Hq as [-> ->].
  apply orb_false_iff in EQ as [EQ1 EQ2].
  destruct (init_link_run spins fuel uart_buff D Hspins Hfuel prm data (with_conns (Some (next_block (descs Q))) d1)
    (grown tt (grown tt T)) (grown (txt ++ [0])%list Y) (new_cb Q 44) (grown dd I) m1 l (next_block I) dd
    (next_block (descs Q)) (next_block (arrs Q)))
    as (Q2 & El & Hrep & Hf); try done; [apply lookup_insert_eq | by apply cb_init_run |].
  rewrite (bind_done _ _ _ _ _ El). change (NO_OS_IS_ERR_VALUE 0) with false. cbv iota.
  eexists. split; [done |]. exists data, Q2. split; [done |]. split; [done |].
  unfold started, stored, grown. cbn [cells next_block oom st_iiod]. rewrite insert_insert_eq. done.
Qed.

Lemma iio_init_run prm s :
  can_start prm s ->
  exists s', init false (Some prm) s
    = Done (if lacks_memory s then (- ENOMEM, None) else (0, Some (next_block (st_descs s))), s') /\
    if lacks_memory s
    then nothing_left s s' (if loses_table s then <[next_block (st_tables s) := tt]> (cells (st_tables s))
                            else cells (st_tables s))
    else exists data Q, link_data uart_buff prm = Some data /\ queue_of_one s Q /\ s' = started prm data s Q.
Proof using Hspins Hfuel.
  intros Hs. pose proof (its_devs_ok prm s Hs) as Hdok. pose proof (init_running_run prm s Hs) as Hrest.
  pose proof (cs_text _ _ Hs) as Htext. destruct Hs as [Hdevs Htrigs HD HT HY HI [HQ HA] HC _ _ _].
  unfold iio_init, lacks_memory, loses_table, fail.
  destruct s as [D T Y Q I m l]. cbn [st_descs st_tables st_texts st_queue st_iiod st_mem st_link] in *.
  destruct (alloc_fails D) eqn:ED; cbn [orb negb andb].
  { erewrite bind_done by by eapply zoom_done, halloc_fail. eexists. split; [done |]. by repeat split. }
  rewrite (bind_done _ _ _ _ _ (alloc_desc_run D T Y Q I m l ED)).
  unfold mbind at 1, cmd_bind at 1. rewrite init_trigs_run.
  destruct (alloc_fails T) eqn:ET; cbn [orb negb andb].
  { change (NO_OS_IS_ERR_VALUE (- ENOMEM)) with true. cbv iota.
    erewrite bind_done by by apply (free_devs_run D HD). eexists. split; [done |].
    repeat split; cbn; by rewrite Hdevs. }
  change (NO_OS_IS_ERR_VALUE 0) with false. cbv iota.
  unfold mbind at 1, cmd_bind at 1. rewrite iio_init_devs_run, (second_alloc tt).
  destruct (second_fails T) eqn:ET2; cbn [orb negb andb].
  { change (NO_OS_IS_ERR_VALUE (- ENOMEM)) with true. cbv iota.
    erewrite bind_done by by apply (free_desc_run D HD). eexists. split; [done |]. by repeat split. }
  change (NO_OS_IS_ERR_VALUE 0) with false. cbv iota.
  unfold mbind at 1, cmd_bind at 1. rewrite app_init_xml_run by done.
  destruct (alloc_fails Y) eqn:EY; cbn [orb]; [| exact Hrest].
  change (NO_OS_IS_ERR_VALUE (- ENOMEM)) with true. cbv iota.
  edestruct (tables_there T) as [H1 H2]; cycle 2.
  - rewrite (bind_done _ _ _ _ _ (free_trigs_run D HD _ _ _ _ _ _ _ H1 H2)). eexists. split; [done |].
    apply (nothing_left_of D T Y Q I m l _ prm); try done. by apply tables_back.
  - done.
  - done.
Qed.

(** The queue goes back with its block. *)
Lemma queue_back Q Q' :
  heap_ok (descs Q) -> heap_ok (arrs Q) ->
  framed (next_block (descs Q)) (next_block (arrs Q)) (new_cb Q 44) Q' ->
  delete (next_block (descs Q)) (cells (descs Q')) = cells (descs Q) /\
  delete (next_block (arrs Q)) (cells (arrs Q')) = cells (arrs Q).
Proof using.
  intros HQ HA [H1 H2 _ _ _]. split; apply map_eq; intros k.
  - destruct (decide (k = next_block (descs Q))) as [-> | Hk].
    + by rewrite lookup_delete_eq, heap_ok_fresh.
    + rewrite lookup_delete_ne, H1 by done. cbn. by rewrite lookup_insert_ne.
  - destruct (decide (k = next_block (arrs Q))) as [-> | Hk].
    + by rewrite lookup_delete_eq, heap_ok_fresh.
    + rewrite lookup_delete_ne, H2 by done. cbn. by rewrite lookup_insert_ne.
Qed.

(** The parts of a state that was built step by step. *)
Ltac flat := cbn [st_descs st_tables st_texts st_queue st_iiod st_mem st_link with_desc].

Lemma iio_remove_run prm data s Q :
  can_start prm s -> queue_of_one s Q ->
  exists s', iio_remove (Some (next_block (st_descs s))) (started prm data s Q) = Done (0, s') /\
    nothing_left s s' (cells (st_tables s)).
Proof using Hspins Hfuel.
  intros Hs [Hrep Hfr]. destruct Hs as [_ _ HD HT HY HI [HQ HA] HC _ _ _].
  destruct s as [D T Y Qs I m l]. cbn [st_descs st_tables st_texts st_queue st_iiod st_mem st_link] in *.
  unfold started. cbn [st_descs st_tables st_texts st_queue st_iiod st_mem st_link].
  set (s0 := AppState D T Y Qs I m l) in *. set (d := started_desc prm s0).
  assert (ia_conns d = Some (next_block (descs Qs)) /\ ia_iiod d = Some (next_block I) /\
    ia_xml_desc d = Some (next_block Y) /\ ia_trigs d = Some (next_block T) /\
    ia_devs d = Some (Pos.succ (next_block T))) as (Hc & Hi & Hx & Ht & Hdv)
    by (unfold d, started_desc, linked; destruct (ii_phy_type prm); done).
  unfold iio_remove. rewrite (bind_done _ _ _ _ _ (load_desc_run D d _ _ _ _ _ _)), Hc, Hi, Hx, Ht, Hdv.
  erewrite bind_done by (eapply zoom_done, (cb_remove_run _ _ _ _ _ _ _ _ Hrep)). flat.
  erewrite bind_done by (eapply zoom_done, hfree_done; apply lookup_insert_eq). flat.
  erewrite bind_done by (eapply zoom_done, hfree_done; apply lookup_insert_eq). flat.
  erewrite bind_done by by eapply zoom_done. flat.
  erewrite bind_done.
  2:{ eapply zoom_done, hfree_done. cbn [st_tables cells grown next_block].
      rewrite lookup_delete_ne, lookup_insert_ne, lookup_insert_eq by lia. done. }
  flat. erewrite bind_done by by eapply zoom_done. flat.
  erewrite bind_done by (eapply zoom_done, hfree_done; apply lookup_insert_eq). flat.
  unfold free_desc. erewrite bind_done by (eapply zoom_done, hfree_done; apply lookup_insert_eq). flat.
  eexists. split; [done |]. destruct (queue_back Qs Q HQ HA Hfr) as [Hq1 Hq2].
  destruct (mem_back prm s0 HC) as (M1 & M2 & M3).
  unfold nothing_left. cbn [st_descs st_tables st_texts st_queue st_iiod st_mem st_link with_desc cells descs arrs].
  splits; try done.
  - apply delete_insert_id. by apply heap_ok_fresh.
  - rewrite delete_delete. by apply tables_back.
  - by apply (freed_grown _ Y).
  - by apply (freed_grown _ I).
Qed.

(** C16: whichever allocations fail, [iio_init] returns: with enough memory the
    program is started, its tables, description, daemon and connection as the
    parameters say, and stopping it leaves nothing allocated; otherwise the
    result is -ENOMEM and nothing is left, except the table of triggers, which
    is lost when that of devices cannot be allocated. *)
Theorem iio_init_correct prm s :
  can_start prm s ->
  exists s', init false (Some prm) s
    = Done (if lacks_memory s then (- ENOMEM, None) else (0, Some (next_block (st_descs s))), s') /\
    if lacks_memory s
    then nothing_left s s' (if loses_table s then <[next_block (st_tables s) := tt]> (cells (st_tables s))
                            else cells (st_tables s))
    else exists data Q, link_data uart_buff prm = Some data /\ queue_of_one s Q /\ s' = started prm data s Q /\
      exists s'', iio_remove (Some (next_block (st_descs s))) s' = Done (0, s'') /\
        nothing_left s s'' (cells (st_tables s)).
Proof using Hspins Hfuel.
  intros Hs. destruct (iio_init_run prm s Hs) as (s' & E & H). exists s'. split; [done |].
  destruct (lacks_memory s); [done |]. destruct H as (data & Q & Hd & HQ & ->). exists data, Q.
  split; [done |]. split; [done |]. split; [done |]. by apply (iio_remove_run prm data).
Qed.
End life.

(** ** Serving a client *)

(** A transport that at each call moves as many bytes as it likes, or none, or
    returns [-EAGAIN]. *)
Definition wire_link : link wire :=
  Link (fun _ bytes w => Done (wire_send bytes w)) (fun _ len w => Done (wire_recv len w)).

Section serve.
  Context {W : Type} (long_bits : Z) (spins fuel : nat).
  Context (device : positive -> iio_device (iio_mem W)) (trigger : positive -> iio_trigger (iio_mem W)).
  Abbreviation mem := (iio_mem W).
  Abbreviation st := (app_state W wire).
  Abbreviation ap := (iio_application long_bits device trigger).
  Abbreviation bp := (iio_buffer_app spins fuel device).

Lemma iio_ops_serve :
  serves (fun _ => ap) (iiod_copy_ops no_ops (iio_ops long_bits spins fuel device trigger (Some wire_link))).2.
Proof using. constructor; try done. by eexists. Qed.

Lemma iio_ops_transfers :
  transfers (fun _ => iio_buffer_app spins fuel device)
    (iiod_copy_ops no_ops (iio_ops long_bits spins fuel device trigger (Some wire_link))).2.
Proof using. by constructor. Qed.

(** No trigger has fired, and those that devices use are there. *)
Record quiet (m : mem) : Prop := Quiet {
  qu_flags : Forall (fun t => triggered t = false) (trigs m);
  qu_idx : Forall (fun d => trig_idx d = NO_TRIGGER \/ is_Some (trigs m !! Z.to_nat (trig_idx d))) (devs m)
}.

Lemma quiet_run m : quiet m -> iio_process_async_triggers device m = Done (tt, m).
Proof using.
  intros [Hf Hi]. unfold iio_process_async_triggers.
  rewrite (bind_done (gets _) _ m (length (devs m)) m) by done.
  rewrite <- (Nat.add_0_r (length (devs m))), for_up_skip; [done |]. intros k Hk.
  destruct (lookup_lt_is_Some_2 (devs m) (Z.to_nat k)) as [d Hd]; [lia |].
  unfold async_turn. rewrite (bind_done _ _ _ _ _ (load_dev_run m _ d Hd)).
  destruct (Z.eqb_spec (trig_idx d) NO_TRIGGER); [done |].
  destruct (Forall_lookup_1 _ _ _ _ Hi Hd) as [| [t Ht]]; [done |].
  erewrite bind_done by (unfold load_trig; by rewrite Ht).
  by rewrite (Forall_lookup_1 _ _ _ _ Hf Ht).
Qed.

Fixpoint steps (n : nat) (desc : ptr) : cmd st unit :=
  match n with
  | O => mret tt
  | S n => _ ← iio_step long_bits spins fuel device desc; steps n desc
  end.

Lemma steps_add k n desc s : steps (k + n) desc s = (_ ← steps k desc; steps n desc) s.
Proof using.
  revert s. induction k as [| k IH]; intros s; [done |]. cbn [Nat.add steps].
  rewrite bind_assoc. unfold mbind, cmd_bind. destruct (iio_step _ _ _ _ _ s) as [[r s'] | |]; [apply IH | done..].
Qed.

(** *** A step is a step of the daemon *)

Section desc.
  Context (D0 : heap iio_desc) (d : iio_desc) (T : heap unit) (Y : heap (list Z)) (pi pq pb : positive).
  Context (Hspins : (0 < spins)%nat) (Hfuel : (4 < fuel)%nat).
  Context (Hi : ia_iiod d = Some pi) (Hq : ia_conns d = Some pq).
  Abbreviation at_ := (with_desc D0 d T Y).
  Abbreviation p := (next_block D0).

(** The queue has the connection, after everything else that was put there. *)
Definition one_queued (Q : cb_mem) : Prop :=
  exists h, cb_rep Q pq pb 44 (h ++ u32_bytes 0) (Z.of_nat (length h)) None None.

Lemma iio_step_run Q I (m : mem) (l : wire) ret I' m' l' :
  quiet m -> one_queued Q ->
  iiod_conn_step long_bits fuel (Some pi) 0 (I, (m, l)) = Done (ret, (I', (m', l'))) -> ret <> - ENOTCONN ->
  exists Q', iio_step long_bits spins fuel device (Some p) (at_ Q I m l) = Done (ret, at_ Q' I' m' l') /\
    one_queued Q'.
Proof using Hspins Hfuel Hi Hq.
  intros Hm [h Hrep] Hstep Hret. unfold iio_step.
  erewrite bind_done by (eapply zoom_done; by apply quiet_run).
  change (AppState _ _ _ _ _ _ _) with (at_ Q I m l).
  destruct (pop_conn_run spins fuel D0 Hspins Hfuel d T Y Q I m l 0 h [] pq pb Hq ltac:(unfold uint; lia) ltac:(cbn; lia) Hrep)
    as (Q1 & E1 & Hrep1).
  rewrite app_nil_r in Hrep1.
  rewrite (bind_done _ _ _ _ _ E1). change (NO_OS_IS_ERR_VALUE (0, 0).1) with false. cbv iota.
  rewrite (bind_done _ _ _ _ _ (load_desc_run D0 d T Y Q1 I m l)), Hi.
  erewrite bind_done by (eapply zoom_done; exact Hstep).
  destruct (Z.eqb_spec ret (- ENOTCONN)); [done |].
  change (AppState _ _ _ _ _ _ _) with (at_ Q1 I' m' l').
  destruct (push_conn_run spins fuel D0 Hspins Hfuel d T Y Q1 I' m' l' 0 _ _ pq pb Hq Hrep1) as (Q2 & E2 & Hrep2 & _).
  rewrite (bind_done _ _ _ _ _ E2). exists Q2. split; [done | by eexists].
Qed.

Lemma polled_steps (P : mem * wire -> Prop) n s ret s' :
  polled long_bits P fuel (Some pi) 0 n s ret s' -> (forall x, P x -> quiet x.1) -> ret <> - ENOTCONN ->
  forall Q, one_queued Q ->
  exists k Q', (k <= n)%nat /\
    steps k (Some p) (at_ Q s.1 s.2.1 s.2.2) = Done (tt, at_ Q' s'.1 s'.2.1 s'.2.2) /\ one_queued Q'.
Proof using Hspins Hfuel Hi Hq.
  intros H HP Hret. induction H as [n s ret s' Hs Hstep _ | n s s1 ret s' Hs Hstep _ IH]; intros Q HQ.
  - destruct s as [I [m l]], s' as [I' [m' l']].
    destruct (iio_step_run Q I m l ret I' m' l' (HP _ Hs) HQ Hstep Hret) as (Q' & E & HQ').
    exists 1%nat, Q'. split; [lia |]. split; [| done]. cbn [steps fst snd]. by rewrite (bind_done _ _ _ _ _ E).
  - destruct s as [I [m l]], s1 as [I1 [m1 l1]].
    destruct (iio_step_run Q I m l (- EAGAIN) I1 m1 l1 (HP _ Hs) HQ Hstep ltac:(done)) as (Q1 & E & HQ1).
    destruct (IH Hret Q1 HQ1) as (k & Q' & Hk & E' & HQ').
    exists (S k), Q'. split; [lia |]. split; [| done]. cbn [steps fst snd] in *.
    by rewrite (bind_done _ _ _ _ _ E).
Qed.

(** *** Commands one after the other *)

(** A line that a client can send. *)
Record line_ok (q : client_cmd) : Prop := LineOk {
  lo_ok : client_ok q;
  lo_line : (length (line (cmd_words q)) < 128)%nat;
  lo_nul : 0 ∉ line (cmd_words q)
}.

(** A command with the value of a [WRITE]; [EXIT] ends the session, and a cyclic
    [OPEN] changes what the commands after it do. *)
Record sends (len : Z) (q : client_cmd) (data : list Z) : Prop := Sends {
  se_line : line_ok q;
  se_shot : one_shot len q data;
  se_stay : q <> QExit;
  se_cyclic : match q with QOpen _ _ _ c => c = false | _ => True end
}.

Definition sent (c : client_cmd * list Z) : list Z := (line (cmd_words c.1) ++ c.2)%list.

(** The channels that are open after a command. *)
Definition mask_of (q : client_cmd) (mk : Z) : Z := match q with QOpen _ _ x _ => x | _ => mk end.

(** What a client gets for a command, with the data of a buffer or without, and
    what the command does, when no trigger interrupts it. *)
Inductive exchange (txt : list Z) (len mk : Z) : client_cmd * list Z -> mem -> list Z -> mem -> Prop :=
  | ex_answer q data m bytes m1 :
      sends len q data -> quiet m -> quiet m1 -> answer ap txt len q data m = Done (bytes, m1) ->
      exchange txt len mk (q, data) m bytes m1
  | ex_read dev n m bytes ret m1 k :
      line_ok (QReadbuf dev n) -> quiet m ->
      read_answer quiet bp len (dev_field dev) mk n m bytes ret m1 k -> ret <> - ENOTCONN ->
      exchange txt len mk (QReadbuf dev n, []) m bytes m1
  | ex_write dev data m bytes ret m1 k :
      line_ok (QWritebuf dev (Z.of_nat (length data))) -> quiet m ->
      write_answer quiet bp len (dev_field dev) data m bytes ret [] m1 k -> ret <> - ENOTCONN ->
      exchange txt len mk (QWritebuf dev (Z.of_nat (length data)), data) m bytes m1.

Inductive session (txt : list Z) (len : Z) : Z -> list (client_cmd * list Z) -> mem -> list Z -> mem -> Prop :=
  | session_nil mk m : session txt len mk [] m [] m
  | session_cons mk c qs m bytes m1 out m2 :
      exchange txt len mk c m bytes m1 -> session txt len (mask_of c.1 mk) qs m1 out m2 ->
      session txt len mk (c :: qs) m (bytes ++ out) m2.

(** The daemon, ready for a command. *)
Record ready (txt : list Z) (len mk : Z) (I : heap (iiod_desc (mem * wire))) : Prop := Ready {
  rd_desc : exists dd c, cells I !! pi = Some dd /\ serves (fun _ => ap) (ops dd) /\ transfers (fun _ => bp) (ops dd) /\
    phy_type dd <> USE_NETWORK /\
    IiodConn.xml dd = txt /\ xml_len dd = Z.of_nat (length txt) /\ conns dd !! 0%nat = Some c /\
    idle c /\ is_cyclic_buffer c = false /\ payload_buf_len c = len /\ IiodConn.mask c = mk
}.

Context (Hlong : 32 <= long_bits) (Hbig : (128 <= fuel)%nat).

Lemma exchange_polled txt len mk c rest I (m : mem) (l : wire) bytes m1 :
  ready txt len mk I -> Z.of_nat (length txt) < 2 ^ 31 ->
  exchange txt len mk c m bytes m1 -> inp l = (sent c ++ rest)%list ->
  exists P n ret I' l', polled long_bits P fuel (Some pi) 0 n (I, (m, l)) ret (I', (m1, l')) /\
    (forall x, P x -> quiet x.1) /\ ret <> - ENOTCONN /\
    ready txt len (mask_of c.1 mk) I' /\ inp l' = rest /\
    exists t, out l' = (out l ++ t)%list /\ delivered t bytes.
Proof using Hlong Hbig.
  intros [(dd & c0 & HI & Hserve & Htr & Hphy & Hx & Hxl & Hc & Hidle & Hy & Hp & Hmk)] Htxt Hex Hin.
  assert (forall q c' h b, idle c' /\ conn c' = conn c0 /\ payload_buf_len c' = payload_buf_len c0 /\ settled c0 q c' ->
    opened q = false -> ready txt len (mask_of q mk)
      (Heap (<[pi := set_conns (<[Z.to_nat 0 := c']> (conns dd)) dd]> (cells I)) h b)) as Hready.
  { intros q c' h b (Hi' & Hc' & Hp' & Hy' & Hm') Hop. constructor. eexists _, c'.
    split; [apply lookup_insert_eq |]. cbn [set_conns ops phy_type IiodConn.xml xml_len conns].
    splits; try done; [| congruence.. |].
    - apply list_lookup_insert_eq. by eapply lookup_lt_Some.
    - rewrite Hm'. unfold mask_after, mask_of. destruct q; done || by rewrite Hmk. }
  destruct Hex as [q data m bytes m1 [[Hok Hline Hnul] Hshot Hne Hcyc] Hm Hm1 Hans
    | dev n m bytes ret m1 k [Hok Hline Hnul] Hm Hans Hret | dev data m bytes ret m1 k [Hok Hline Hnul] Hm Hans Hret];
    unfold sent in Hin; cbn [fst snd] in *; rewrite <- app_assoc in Hin.
  - rewrite <- Hx in Htxt, Hans. rewrite <- Hp in Hshot, Hans.
    destruct (client_answered (fun _ => ap) long_bits dd Hlong Hserve ltac:(congruence) ltac:(congruence) c0 q data rest
      m (out l) (bytes, m1) Hshot Hans Hok Hline Hnul (proj1 (proj2 Hidle)) fuel pi 0 I l)
      as (c' & t & left & Hpoll & Ht & H'); try done.
    cbn [fst snd] in Hpoll, Ht. unfold final_ret in Hpoll. rewrite decide_False in Hpoll by done.
    eexists _, _, _, _, _. split; [exact Hpoll |]. split; [by intros x [-> | ->] |]. split; [done |].
    split; [| split; [done | by exists t]]. apply Hready; [done |]. by destruct q.
  - rewrite <- Hp in Hans. rewrite <- Hmk in Hans.
    destruct (readbuf_answered quiet (fun _ => ap) (fun _ => bp) long_bits dd fuel pi 0 I c0 dev n rest m l bytes ret m1 k)
      as (c' & t & left & Hpoll & Ht & H'); try done.
    eexists _, _, _, _, _. split; [exact Hpoll |]. split; [done |]. split; [done |].
    split; [| split; [done | by exists t]]. by apply Hready.
  - rewrite <- Hp in Hans.
    destruct (writebuf_answered quiet (fun _ => ap) (fun _ => bp) long_bits dd fuel pi 0 I c0 dev data rest m l bytes
      ret [] m1 k) as (c' & t & left & Hpoll & Ht & H'); try done.
    eexists _, _, _, _, _. split; [exact Hpoll |]. split; [done |]. split; [done |].
    split; [| split; [done | by exists t]]. by apply Hready.
Qed.

Lemma session_served txt len mk qs m o m2 :
  session txt len mk qs m o m2 -> Z.of_nat (length txt) < 2 ^ 31 ->
  forall I Q (l : wire) rest, ready txt len mk I -> one_queued Q -> inp l = (flat_map sent qs ++ rest)%list ->
  exists k Q' I' l', steps k (Some p) (at_ Q I m l) = Done (tt, at_ Q' I' m2 l') /\
    one_queued Q' /\ inp l' = rest /\ exists t, out l' = (out l ++ t)%list /\ delivered t o.
Proof using Hspins Hfuel Hi Hq Hlong Hbig.
  intros H Htxt. induction H as [mk m | mk c qs m bytes m1 o m2 Hex _ IH]; intros I Q l rest HI HQ Hin.
  - exists 0%nat, Q, I, l. splits; try done. exists []. rewrite app_nil_r. split; [done | constructor].
  - cbn [flat_map] in Hin. rewrite <- app_assoc in Hin.
    destruct (exchange_polled txt len mk c _ I m l bytes m1 HI Htxt Hex Hin)
      as (P & n & ret & I1 & l1 & Hpoll & HP & Hret & HI1 & Hin1 & t1 & Hout1 & Ht1).
    destruct (polled_steps P _ _ _ _ Hpoll HP Hret Q HQ) as (k1 & Q1 & _ & E1 & HQ1).
    destruct (IH I1 Q1 l1 rest HI1 HQ1 Hin1) as (k2 & Q2 & I2 & l2 & E2 & HQ2 & Hin2 & t2 & Hout2 & Ht2).
    exists (k1 + k2)%nat, Q2, I2, l2. splits; try done.
    + rewrite steps_add. cbn [fst snd] in E1. by rewrite (bind_done _ _ _ _ _ E1).
    + exists (t1 ++ t2)%list. rewrite Hout2, Hout1, app_assoc. split; [done | by apply delivered_app].
Qed.
End desc.
End serve.

(** ** A program that runs *)

Section program.
  Context {W : Type} (long_bits : Z) (spins fuel : nat) (project version : list Z).
  Context (device : positive -> iio_device (iio_mem W)) (trigger : positive -> iio_trigger (iio_mem W)).
  Context (uart : link wire) (uart_buff : list Z).
  Context (Hspins : (0 < spins)%nat) (Hlong : 32 <= long_bits) (Hbig : (128 <= fuel)%nat).
  Abbreviation mem := (iio_mem W).
  Abbreviation st := (app_state W wire).
  Abbreviation its_text := (its_text project version device trigger).

(** A program with a transport that can lag, and enough memory. *)
Record can_serve (prm : iio_init_param wire) (data : iiod_conn_data) (s : st) : Prop := CanServe {
  cv_start : can_start project version device trigger uart_buff prm s;
  cv_memory : lacks_memory s = false;
  cv_link : the_link uart prm = Some wire_link;
  cv_data : link_data uart_buff prm = Some data;
  cv_len : Z.of_nat (length (data_buf data)) = data_len data;
  cv_small : data_len data < 2 ^ 31
}.

Lemma new_conn_idle data :
  Z.of_nat (length (data_buf data)) = data_len data -> data_len data < 2 ^ 31 -> idle (new_conn data).
Proof using.
  intros H1 H2. split; [| done].
  constructor; cbn [new_conn parser_buf parser_idx payload payload_buf_len buf_mask mask cmd_data];
    try done; unfold uint; cbn; lia.
Qed.

(** The program, from its start, after [k] steps. *)
Definition program (prm : iio_init_param wire) (k : nat) : cmd st unit :=
  r ← iio_init long_bits spins fuel project version device trigger uart uart_buff false (Some prm);
  steps long_bits spins fuel device k r.2.

Lemma program_served prm data s qs o m2 rest :
  can_serve prm data s ->
  session long_bits spins fuel device trigger (its_text prm s) (data_len data) 0 qs (started_mem device prm s) o m2 ->
  inp (st_link s) = (flat_map sent qs ++ rest)%list ->
  exists k s', program prm k s = Done (tt, s') /\ st_mem s' = m2 /\
    inp (st_link s') = rest /\ exists t, out (st_link s') = (out (st_link s) ++ t)%list /\ delivered t o.
Proof using Hspins Hlong Hbig.
  intros [Hs Hmem Hlink Hdata Hlen Hsmall] Hses Hin.
  destruct (iio_init_run long_bits spins fuel project version device trigger uart uart_buff Hspins ltac:(lia) prm s Hs)
    as (s1 & Einit & H1).
  rewrite Hmem in Einit, H1. destruct H1 as (data' & Q & Hdata' & [HQ _] & ->).
  assert (data' = data) as -> by congruence. pose proof (cs_text _ _ _ _ _ _ _ Hs) as Htext.
  set (d := started_desc project version device trigger prm s).
  assert (ia_iiod d = Some (next_block (st_iiod s)) /\ ia_conns d = Some (next_block (descs (st_queue s))))
    as [Hi Hq] by (unfold d, started_desc, linked; by destruct (ii_phy_type prm)).
  set (I := grown (started_iiod long_bits spins fuel project version device trigger uart prm data s) (st_iiod s)).
  assert (ready long_bits spins fuel device trigger (next_block (st_iiod s)) (its_text prm s) (data_len data) 0 I) as HI.
  { constructor. eexists _, (new_conn data). split; [apply lookup_insert_eq |].
    cbn [started_iiod ops phy_type IiodConn.xml xml_len conns]. rewrite Hlink.
    split; [apply iio_ops_serve |]. split; [apply iio_ops_transfers |].
    split; [| do 3 (split; [done |]); split; [by apply new_conn_idle | done]].
    clear -Hdata. unfold link_data in Hdata. by destruct (ii_phy_type prm). }
  destruct (session_served long_bits spins fuel device trigger (st_descs s) d
    (grown tt (grown tt (st_tables s))) (grown (its_text prm s ++ [0])%list (st_texts s)) _ _
    (next_block (arrs (st_queue s))) Hspins ltac:(lia) Hi Hq Hlong Hbig _ _ _ _ _ _ _ Hses ltac:(lia)
    I Q (st_link s) rest HI ltac:(by exists []) Hin) as (k & Q' & I' & l' & E & _ & Hin' & Hout').
  exists k. eexists. unfold program. rewrite (bind_done _ _ _ _ _ Einit). cbn [snd].
  split; [exact E |]. by splits.
Qed.

(** C4: a program that was started over a UART or a local backend, and runs
    step by step, serves a client: after finitely many steps the client has got
    the answers that the application's functions give to its commands, one after
    the other, whatever part of the bytes the transport moves at each call; the
    devices are as the commands leave them, and what the client sends after that
    is still to be read.  Where the transport refuses a newline the client may
    not get that newline; where it refuses no single byte the client gets exactly
    the answers.  The commands are any but [EXIT] and an [OPEN] of a cyclic
    buffer, and no trigger fires in between. *)
Theorem iio_program_serves prm data s qs o m2 rest :
  can_serve prm data s ->
  session long_bits spins fuel device trigger (its_text prm s) (data_len data) 0 qs (started_mem device prm s) o m2 ->
  inp (st_link s) = (flat_map sent qs ++ rest)%list ->
  exists k s', program prm k s = Done (tt, s') /\ st_mem s' = m2 /\
    inp (st_link s') = rest /\
    exists t, out (st_link s') = (out (st_link s) ++ t)%list /\ delivered t o /\ (None ∉ t -> t = Some <$> o).
Proof using Hspins Hlong Hbig.
  intros Hv Hses Hin.
  destruct (program_served prm data s qs o m2 rest Hv Hses Hin) as (k & s' & E & Hm & Hi & t & Ho & Ht).
  exists k, s'. splits; try done. exists t. splits; [done | done | by apply delivered_whole].
Qed.
End program.

(** *** An attribute that a client reads *)

Section names.
  Context {W : Type} (device : positive -> iio_device (iio_mem W)).
  Abbreviation st := (app_state W wire).

Definition sel_of (type : iio_attr_type) (chn : list Z) : attr_sel :=
  match type with
  | IIO_ATTR_TYPE_DEVICE => SelDevice
  | IIO_ATTR_TYPE_DEBUG => SelDebug
  | IIO_ATTR_TYPE_BUFFER => SelBuffer
  | IIO_ATTR_TYPE_CH_OUT => SelOut chn
  | IIO_ATTR_TYPE_CH_IN => SelIn chn
  end.

Lemma dev_name_inj i j :
  Z.of_nat i < 2 ^ 64 -> Z.of_nat j < 2 ^ 64 ->
  (str "iio:device" ++ print_num 10 (Z.of_nat i) = str "iio:device" ++ print_num 10 (Z.of_nat j))%list -> i = j.
Proof using.
  intros Hi Hj E. apply app_inv_head in E.
  destruct (print_num_inj (Z.of_nat i) (Z.of_nat j) [] []) as [? _]; try done; [lia.. | by rewrite !app_nil_r | lia].
Qed.

Lemma made_devs_lookup ts l : forall i h k n,
  l !! k = Some n ->
  exists q, made_devs device ts i l h !! k = Some (new_dev device (i + k) n (trig_of ts n) (Some q)).
Proof using.
  induction l as [| n' l IH]; intros i h [| k] n Hn; try done; cbn [made_devs] in *.
  - injection Hn as ->. eexists. cbn. by rewrite Nat.add_0_r.
  - destruct (IH (S i) (placed h) k n Hn) as [q Hq]. exists q. etransitivity; [exact Hq |].
    by rewrite Nat.add_succ_comm.
Qed.

Lemma length_made_devs ts l i h : length (made_devs device ts i l h) = length l.
Proof using. revert i h. induction l as [| n l IH]; intros i h; [done |]. cbn. by rewrite IH. Qed.

Lemma its_devs_names (prm : iio_init_param wire) (s : st) :
  Z.of_nat (length (ii_devs prm)) < 2 ^ 32 -> NoDup (dev_id <$> its_devs device prm s).
Proof using.
  intros Hn. apply NoDup_alt. intros i j x. rewrite !list_lookup_fmap.
  destruct (its_devs device prm s !! i) as [d |] eqn:Ei; [| done].
  destruct (its_devs device prm s !! j) as [e |] eqn:Ej; [| done]. cbn. intros [= <-] [= E].
  unfold its_devs in *. pose proof (lookup_lt_Some _ _ _ Ei) as Hi. pose proof (lookup_lt_Some _ _ _ Ej) as Hj.
  rewrite length_made_devs in Hi, Hj.
  destruct (lookup_lt_is_Some_2 (ii_devs prm) i) as [ni Hni]; [done |].
  destruct (lookup_lt_is_Some_2 (ii_devs prm) j) as [nj Hnj]; [done |].
  destruct (made_devs_lookup (its_trigs prm) (ii_devs prm) 0 (descs (iio_cbs (st_mem s))) i ni Hni) as [qi Hqi].
  destruct (made_devs_lookup (its_trigs prm) (ii_devs prm) 0 (descs (iio_cbs (st_mem s))) j nj Hnj) as [qj Hqj].
  rewrite Hqi in Ei. rewrite Hqj in Ej. injection Ei as <-. injection Ej as <-.
  cbn [new_dev dev_id Nat.add] in E. symmetry in E. apply dev_name_inj in E; [done | lia..].
Qed.

Lemma in_line ws w c : w ∈ ws -> c ∈ w -> c ∈ line ws.
Proof using.
  induction ws as [| v [| u ws] IH]; intros Hw Hc; [by apply elem_of_nil in Hw | |].
  - apply list_elem_of_singleton in Hw as ->. cbn [line]. apply elem_of_app. by left.
  - change (line (v :: u :: ws)) with (v ++ 32 :: line (u :: ws))%list. apply elem_of_app.
    apply elem_of_cons in Hw as [-> | Hw]; [by left | right]. apply elem_of_cons. right. by apply IH.
Qed.

Lemma length_in_line ws w : w ∈ ws -> (length w <= length (line ws))%nat.
Proof using.
  induction ws as [| v [| u ws] IH]; intros Hw; [by apply elem_of_nil in Hw | |].
  - apply list_elem_of_singleton in Hw as ->. cbn [line]. rewrite length_app. lia.
  - change (line (v :: u :: ws)) with (v ++ 32 :: line (u :: ws))%list. rewrite length_app. cbn [length].
    apply elem_of_cons in Hw as [-> | Hw]; [lia |]. specialize (IH Hw). lia.
Qed.

(** The words of a [READ] come back out of the fields of the command. *)
Lemma read_fields len dev type chn name :
  sends len (QRead dev (sel_of type chn) (Some name)) [] ->
  (length dev < MAX_DEV_ID)%nat -> (length chn < MAX_CHN_ID)%nat ->
  (chn = [] \/ type = IIO_ATTR_TYPE_CH_OUT \/ type = IIO_ATTR_TYPE_CH_IN) ->
  c_str (dev_field dev) = Some dev /\
  attr_type (attr_of (sel_of type chn) (Some name)) = type /\
  c_str (attr_nm (attr_of (sel_of type chn) (Some name))) = Some name /\
  c_str (attr_ch (attr_of (sel_of type chn) (Some name))) = Some chn.
Proof using.
  intros [[_ Hline Hnul] _ _ _] Hdev Hchn Htype.
  assert (forall w, w ∈ cmd_words (QRead dev (sel_of type chn) (Some name)) -> 0 ∉ w) as H0.
  { intros w Hw Hc. apply Hnul. by eapply in_line. }
  assert (name ∈ cmd_words (QRead dev (sel_of type chn) (Some name))) as Hname.
  { cbn [cmd_words opt_words]. rewrite !elem_of_app. right. right. by apply list_elem_of_singleton. }
  assert (type = IIO_ATTR_TYPE_CH_OUT \/ type = IIO_ATTR_TYPE_CH_IN ->
    chn ∈ cmd_words (QRead dev (sel_of type chn) (Some name))) as Hch.
  { intros [-> | ->]; cbn [cmd_words sel_of sel_words]; rewrite !elem_of_app; right; left;
      apply elem_of_cons; right; by apply list_elem_of_singleton. }
  pose proof (length_in_line _ _ Hname) as Hnlen.
  splits.
  - apply c_str_strncpy; [| done]. apply H0. cbn [cmd_words]. apply elem_of_app. left.
    apply elem_of_cons. right. by apply list_elem_of_singleton.
  - by destruct type.
  - apply c_str_strncpy; [by apply H0 | unfold MAX_ATTR_NAME; lia].
  - destruct (decide (chn = [])) as [-> | Hc]; [by destruct type |].
    destruct Htype as [? | Ht]; [done |]. assert (attr_ch (attr_of (sel_of type chn) (Some name)) = strncpy MAX_CHN_ID chn)
      as -> by by destruct Ht as [-> | ->].
    apply c_str_strncpy; [apply H0; auto | done].
Qed.

(** At first no trigger has fired. *)
Lemma started_quiet (prm : iio_init_param wire) (s : st) : quiet (started_mem device prm s).
Proof using.
  split; cbn [started_mem trigs devs].
  - apply Forall_forall. intros t Ht. apply elem_of_lookup_imap in Ht as (i & n & -> & _). done.
  - unfold its_devs. generalize (descs (iio_cbs (st_mem s))) as h. generalize 0%nat as i.
    induction (ii_devs prm) as [| n l IH]; intros i h; constructor; [| apply IH].
    cbn [new_dev trig_idx]. unfold trig_of. destruct (di_trigger_id n) as [id |]; [| by left].
    destruct (index_where _ (its_trigs prm) 0) as [j |] eqn:E; [| by left]. right. cbn [idx_or_none].
    rewrite Nat2Z.id. apply index_where_bound in E as [E _]. by rewrite Nat.sub_0_r in E.
Qed.

Lemma length_dev_name (i : nat) :
  Z.of_nat i < 2 ^ 31 -> (length (str "iio:device" ++ print_num 10 (Z.of_nat i)) < MAX_DEV_ID)%nat.
Proof using.
  intros Hi. rewrite length_app. change (length (str "iio:device")) with 10%nat.
  pose proof (length_print_int (Z.of_nat i) ltac:(ulia)) as H. unfold print_int in H.
  destruct (Z.ltb_spec (Z.of_nat i) 0); [lia |]. unfold MAX_DEV_ID. lia.
Qed.
End names.

Section reading.
  Context {W : Type} (long_bits : Z) (spins fuel : nat) (project version : list Z).
  Context (device : positive -> iio_device (iio_mem W)) (trigger : positive -> iio_trigger (iio_mem W)).
  Context (uart : link wire) (uart_buff : list Z).
  Context (Hspins : (0 < spins)%nat) (Hlong : 32 <= long_bits) (Hbig : (128 <= fuel)%nat).
  Abbreviation mem := (iio_mem W).
  Abbreviation st := (app_state W wire).
  Abbreviation program := (program long_bits spins fuel project version device trigger uart uart_buff).
  Abbreviation can_serve := (can_serve project version device trigger uart uart_buff).

(** C3: a client that asks a program that was started for an attribute of a
    device, or of one of its channels, by the names that its description gives
    them, gets the result and the text that the driver's function for that
    attribute gives, called with the device and the channel; and nothing else
    of the program is touched.  A newline that the transport refuses may be missing
    in what the client gets; where it refuses no single byte nothing is. *)
Theorem iio_client_reads prm data s i n type chn l info k a f r bytes m1 rest :
  can_serve prm data s -> Z.of_nat (length (ii_devs prm)) < 2 ^ 31 -> ii_devs prm !! i = Some n ->
  let D := device (di_descriptor n) in
  let q := QRead (str "iio:device" ++ print_num 10 (Z.of_nat i)) (sel_of type chn) (Some (at_name a)) in
  channels_ok D -> attrs_of D type chn l info -> NoDup (at_name <$> l) -> l !! k = Some a ->
  at_name a <> [] -> is_reg_access type (at_name a) = false ->
  sends (data_len data) q [] -> inp (st_link s) = (sent (q, []) ++ rest)%list ->
  show a = Some f ->
  f (di_dev n) (data_len data) info (at_priv a) (started_mem device prm s) = Done ((r, bytes), m1) ->
  value_ok (data_len data) (r, bytes) = true -> quiet m1 ->
  exists k s', program prm k s = Done (tt, s') /\ st_mem s' = m1 /\ inp (st_link s') = rest /\
    exists t, out (st_link s') = (out (st_link s) ++ t)%list /\
      delivered t (text r ++ block bytes) /\ (None ∉ t -> t = Some <$> (text r ++ block bytes)%list).
Proof using Hspins Hlong Hbig.
  intros Hv Hn Hi D q Hok Hl Hnd Ha Hne Hreg Hsend Hin Hf Hrun Hval Hq1.
  enough (session long_bits spins fuel device trigger (its_text project version device trigger prm s) (data_len data) 0
    [(q, [])] (started_mem device prm s) (text r ++ block bytes) m1) as Hses.
  { destruct (program_served _ _ _ _ _ _ _ _ _ Hspins Hlong Hbig prm data s [(q, [])] _ m1 rest Hv Hses
      ltac:(by cbn [flat_map]; rewrite app_nil_r)) as (k1 & s' & E & Hm & Hi' & t & Ho & Ht).
    exists k1, s'. splits; try done. exists t. splits; [done | done | by apply delivered_whole]. }
  rewrite <- (app_nil_r (text r ++ block bytes)).
  eapply session_cons; [apply ex_answer; [done | apply started_quiet | exact Hq1 |] | apply session_nil].
  destruct (made_devs_lookup device (its_trigs prm) (ii_devs prm) 0 (descs (iio_cbs (st_mem s))) i n Hi) as [c Hc].
  set (d := new_dev device (0 + i) n (trig_of (its_trigs prm) n) (Some c)) in Hc.
  assert ((length chn < MAX_CHN_ID)%nat /\
    (chn = [] \/ type = IIO_ATTR_TYPE_CH_OUT \/ type = IIO_ATTR_TYPE_CH_IN)) as [Hchn Htype].
  { destruct Hl as [| | | j ch l Hch Hl]; try (split; [unfold MAX_CHN_ID; cbn; lia | by left]).
    split; [| right; destruct (ic_out ch); auto].
    apply length_ch_id. by apply (Forall_lookup_1 _ _ _ _ (cho_index _ Hok) Hch). }
  pose proof (lookup_lt_Some _ _ _ Hi) as Hlt.
  destruct (read_fields _ _ _ _ _ Hsend ltac:(by apply length_dev_name; lia) Hchn Htype) as (F1 & F2 & F3 & F4).
  unfold answer, q, value. cbn [app_read_attr iio_application].
  assert (forall {A} (x : A) (g : A -> cmd mem (Z * list Z)) m, (the (Some x) ≫= g) m = g x m) as Hthe by done.
  erewrite bind_done.
  2:{ rewrite F1, Hthe, F3, Hthe, F4, Hthe, F2.
      destruct (iio_attr_run long_bits device trigger (started_mem device prm s) i d type chn l info (at_name a) []
        (data_len data) (its_devs_names device prm s ltac:(lia)) Hc Hok Hl Hnd Hne Hreg) as [Hread _].
      destruct (Hread k a Ha eq_refl) as [Er _]. rewrite Hf in Er.
      change (dev_id d) with (str "iio:device" ++ print_num 10 (Z.of_nat i))%list in Er.
      rewrite Er. exact Hrun. }
  by rewrite Hval.
Qed.
End reading.

(** ** Instances *)

(** A device with one channel, over a UART that splits and stalls. *)
Definition ax_attr : iio_attribute (iio_mem unit) :=
  IioAttribute (str "raw") 1234 IIO_SEPARATE
    (Some (fun _ len _ v => mret (snprintf len (print_int v)))) None.

Definition ax_channel : iio_channel (iio_mem unit) :=
  IioChannel None IIO_VOLTAGE 0 0 0 0 None (Some [ax_attr]) false false true false.

Definition ax_device : iio_device (iio_mem unit) :=
  IioDevice 1 [ax_channel] None None None None None None None None None None None.

Definition ax_prm : iio_init_param wire :=
  IioInitParam USE_UART None None [] [DeviceInit (str "adc") None 1 None 0 None] [].

Definition ax_state (inp : list Z) (sched : list (option nat)) (tables : list bool) : app_state unit wire :=
  let E := fun {V} (o : list bool) => Heap (∅ : gmap positive V) 1%positive o in
  AppState (E []) (E tables) (E []) (CbMem (E []) (E [])) (E [])
    (IioMem [] [] (CbMem (E []) (E [])) tt) (Wire inp [] sched).

Definition ax_buff : list Z := replicate 4096 0.

Lemma heap_ok_empty {V} o : heap_ok (Heap (∅ : gmap positive V) 1%positive o).
Proof. intros q [v Hv]. done. Qed.

Lemma ax_can_start inp sched tables :
  can_start (str "demo") (str "1.0") (fun _ => ax_device) (fun _ => IioTrigger false None None None) ax_buff
    ax_prm (ax_state inp sched tables).
Proof.
  split; try done; try apply heap_ok_empty.
  - by split; apply heap_ok_empty.
  - apply Forall_singleton. split; [done | |]; apply Forall_singleton; [cbn; unfold sint; lia |].
    apply Forall_singleton. by eexists.
Qed.

Definition ax_sched : list (option nat) := [Some 3%nat; Some 0%nat; None; Some 1%nat].

(** The table of devices cannot be allocated: that of triggers is lost. *)
Lemma iio_init_correct_witness :
  exists s', iio_init 64 1 128 (str "demo") (str "1.0") (fun _ => ax_device)
      (fun _ => IioTrigger false None None None) wire_link ax_buff false (Some ax_prm)
      (ax_state [] [] [false; true]) = Done ((- ENOMEM, None), s') /\
    nothing_left (ax_state [] [] [false; true]) s' {[1%positive := tt]}.
Proof.
  exact (iio_init_correct 64 1 128 (str "demo") (str "1.0") (fun _ => ax_device)
    (fun _ => IioTrigger false None None None) wire_link ax_buff ltac:(lia) ltac:(lia) ax_prm
    (ax_state [] [] [false; true]) (ax_can_start [] [] [false; true])).
Defined.

Lemma ax_can_serve inp sched :
  can_serve (str "demo") (str "1.0") (fun _ => ax_device) (fun _ => IioTrigger false None None None) wire_link
    ax_buff ax_prm (ConnData None ax_buff 4096) (ax_state inp sched []).
Proof. split; try done. apply ax_can_start. Qed.

Definition ax_read : client_cmd := QRead (str "iio:device0") (SelIn (str "voltage0")) (Some (str "raw")).

Lemma ax_read_sends : sends 4096 ax_read [].
Proof.
  split; try done. split; [| apply Nat.ltb_lt; reflexivity | by apply nul_free].
  split; [| split; [split |]]; try (split; [discriminate | repeat constructor; by vm_compute]).
  all: try done.
Qed.

Definition ax_started (inp : list Z) (sched : list (option nat)) : iio_mem unit :=
  started_mem (fun _ => ax_device) ax_prm (ax_state inp sched []).

Lemma ax_quiet inp sched : quiet (ax_started inp sched).
Proof. apply started_quiet. Qed.

(** Two commands: the version, and a device that is not there. *)
Lemma iio_program_serves_witness :
  let inp := (str "VERSION" ++ [13; 10] ++ str "CLOSE adc" ++ [13; 10])%list in
  exists k s',
    program 64 1 128 (str "demo") (str "1.0") (fun _ => ax_device) (fun _ => IioTrigger false None None None)
      wire_link ax_buff ax_prm k (ax_state inp ax_sched []) = Done (tt, s') /\
    IioApp.st_mem s' = ax_started inp ax_sched /\ IiodSession.inp (st_link s') = [] /\
    let answers := (str "1.1.0000000" ++ [10] ++ str "-1" ++ [10])%list in
    exists t, out (st_link s') = t /\ delivered t answers /\ (None ∉ t -> t = Some <$> answers).
Proof.
  intros inp.
  refine (iio_program_serves 64 1 128 (str "demo") (str "1.0") (fun _ => ax_device)
    (fun _ => IioTrigger false None None None) wire_link ax_buff ltac:(lia) ltac:(lia) ltac:(lia) ax_prm
    (ConnData None ax_buff 4096) (ax_state inp ax_sched []) [(QVersion, []); (QClose (str "adc"), [])]
    _ _ [] (ax_can_serve _ _) _ _).
  - apply (session_cons _ _ _ _ _ _ _ _ (QVersion, []) _ _ (str "1.1.0000000" ++ [10])%list (ax_started inp ax_sched)
      (str "-1" ++ [10])%list).
    + apply ex_answer; [| apply ax_quiet.. | reflexivity].
      split; try done. split; [done | apply Nat.ltb_lt; reflexivity | by apply nul_free].
    + apply (session_cons _ _ _ _ _ _ _ _ (QClose (str "adc"), []) [] _ (str "-1" ++ [10])%list
        (ax_started inp ax_sched) []); [| apply session_nil].
      apply ex_answer; [| apply ax_quiet.. | vm_compute; reflexivity].
      split; try done. split; [| apply Nat.ltb_lt; reflexivity | by apply nul_free].
      split; [discriminate | repeat constructor].
  - reflexivity.
Defined.

Lemma iio_client_reads_witness :
  exists k s',
    program 64 1 128 (str "demo") (str "1.0") (fun _ => ax_device) (fun _ => IioTrigger false None None None)
      wire_link ax_buff ax_prm k (ax_state (sent (ax_read, [])) ax_sched []) = Done (tt, s') /\
    IioApp.st_mem s' = ax_started (sent (ax_read, [])) ax_sched /\
    inp (st_link s') = [] /\
    let answer := (str "4" ++ [10] ++ str "1234" ++ [10])%list in
    exists t, out (st_link s') = t /\ delivered t answer /\ (None ∉ t -> t = Some <$> answer).
Proof.
  refine (iio_client_reads 64 1 128 (str "demo") (str "1.0") (fun _ => ax_device)
    (fun _ => IioTrigger false None None None) wire_link ax_buff ltac:(lia) ltac:(lia) ltac:(lia) ax_prm
    (ConnData None ax_buff 4096) (ax_state (sent (ax_read, [])) ax_sched []) 0
    (DeviceInit (str "adc") None 1 None 0 None) IIO_ATTR_TYPE_CH_IN (str "voltage0") [ax_attr]
    (Some (ch_info false ax_channel)) 0 ax_attr _ 4 (str "1234") _ []
    (ax_can_serve _ _) _ _ _ (of_channel ax_device 0 ax_channel [ax_attr] eq_refl eq_refl)
    _ eq_refl _ _ ax_read_sends _ eq_refl _ _ (ax_quiet _ _)); try reflexivity.
  - split; [done | done | apply Forall_singleton; cbn; unfold sint; lia |].
    apply NoDup_singleton.
  - apply NoDup_singleton.
  - discriminate.
Defined.
