(* ===== verification/IioCapture.v ===== *)
(** * A client that captures blocks over a connection: [iio/iio.c], [iio/iiod.c]

    The composition of the whole: a client opens a device of a program that was
    started, asks for a number of blocks and closes the device.  What it gets
    are the driver's blocks, through the circular buffer of the device, the
    pieces that the daemon reads into its payload, and a transport that splits
    and stalls. *)
From Stdlib Require Import String.
From S2P Require Import Prelude Util CircularBuffer CString StrConv Iiod IiodConn IiodSession IiodTransfer.
From S2P Require Import IioDevice IioBuffer IioXml IioApp.

Section capture.
  Context {W : Type} (long_bits : Z) (spins fuel : nat).
  Context (device : positive -> iio_device (iio_mem W)) (trigger : positive -> iio_trigger (iio_mem W)).
  Context (len : Z) (name : list Z).
  Abbreviation dev := (dev_field name).
  Abbreviation mem := (iio_mem W).
  Abbreviation ap := (iio_application long_bits device trigger).
  Abbreviation bp := (iio_buffer_app (S spins) fuel device).
  Abbreviation drained := (drained quiet bp len dev).
  Abbreviation read_answer := (read_answer quiet bp len dev).

Lemma fixed_trig (d d' : iio_dev_priv) : fixed_part d' = fixed_part d -> trig_idx d' = trig_idx d.
Proof using. unfold fixed_part. by intros [=]. Qed.

(** Operations on a buffer fire no trigger. *)
Lemma quiet_kept i p (m m' : mem) d d' :
  quiet m -> others_kept i p m m' -> devs m !! i = Some d -> devs m' !! i = Some d' ->
  fixed_part d' = fixed_part d -> quiet m'.
Proof using.
  intros [Hf Hi] (Ht & Hd & _) E E' Hfix. split; [by rewrite Ht |]. rewrite Ht.
  apply Forall_lookup. intros k x Hk. destruct (decide (k = i)) as [-> | Hne].
  - rewrite E' in Hk. injection Hk as <-. rewrite (fixed_trig _ _ Hfix). by apply (Forall_lookup_1 _ _ _ _ Hi E).
  - rewrite Hd in Hk by done. by apply (Forall_lookup_1 _ _ _ _ Hi Hk).
Qed.

Lemma live_dev (m : mem) i d p blk s h R base : buf_live m i d p blk s h R base -> devs m !! i = Some d.
Proof using. intros Hl. apply Hl. Qed.

(** *** A block *)

(** The bytes of the buffer that were not read go to the client. *)
Lemma block_drained k : forall (m : mem) i d p blk s h R base,
  let n := Z.of_nat (length h) - R in
  buf_live m i d p blk s h R base -> c_str dev = Some (dev_id d) -> 0 < len -> (Z.to_nat n <= k)%nat ->
  0 < n -> n <= s < 2 ^ 31 -> s < Z.of_nat fuel -> quiet m ->
  exists calls m', drained n m (drop (Z.to_nat R) h) 0 m' calls /\
    buf_live m' i d p blk s h (Z.of_nat (length h)) base /\ iio_world m' = iio_world m /\ others_kept i p m m' /\
    quiet m'.
Proof using.
  induction k as [| k IH]; intros m i d p blk s h R base n Hl Hdev Hlen Hk Hn Hs Hfuel Hq; [lia |].
  pose proof (cb_rep_range _ _ _ _ _ _ _ _ (bo_rep _ _ _ _ _ _ _ _ (bl_open _ _ _ _ _ _ _ _ _ Hl))) as [_ HR].
  set (c := Z.min len n).
  destruct (iio_read_run spins fuel m i d p blk s h R c (bl_open _ _ _ _ _ _ _ _ _ Hl)) as (m1 & Ho1 & Em1 & Hfr1 & Hr1);
    [lia.. |].
  replace (Z.min (Z.of_nat (length h) - R) c) with c in * by lia. rewrite decide_False in Hr1 by lia.
  assert (buf_live m1 i d p blk s h (R + c) base) as Hl1.
  { rewrite Em1. eapply buf_live_cbs; [done | done | apply (bo_rep _ _ _ _ _ _ _ _ Ho1)]. }
  assert (others_kept i p m m1) as Hrest1.
  { rewrite Em1. by eapply with_cbs_rest. }
  pose proof (quiet_kept i p m m1 d d Hq Hrest1 (live_dev _ _ _ _ _ _ _ _ _ Hl) (live_dev _ _ _ _ _ _ _ _ _ Hl1) eq_refl) as Hq1.
  set (bytes := take (Z.to_nat c) (drop (Z.to_nat R) h)) in *.
  assert (Z.of_nat (length bytes) = c) as Hb by (unfold bytes; rewrite length_take, length_drop; lia).
  assert (bf_read bp dev c m = Done ((c, bytes), m1)) as Hread.
  { cbn [bf_read iio_buffer_app]. by rewrite Hdev. }
  destruct (Z.leb_spec n len) as [Hle | Hgt].
  - assert (c = n) as Ec by lia. exists 1%nat, m1.
    assert (drop (Z.to_nat R) h = bytes) as ->.
    { unfold bytes. rewrite take_ge; [done |]. rewrite length_drop. lia. }
    split; [apply dr_last; try done; [lia | fold c; by rewrite Hread, Ec] |].
    replace (R + c) with (Z.of_nat (length h)) in Hl1 by lia. splits; try done. by rewrite Em1.
  - assert (c = len) as Ec by lia.
    destruct (IH m1 i d p blk s h (R + c) base Hl1 Hdev Hlen) as (calls & m2 & Hdr & Hl2 & Hw2 & Hrest2 & Hq2); [lia.. | done |].
    exists (S calls), m2. splits; try done.
    + replace (drop (Z.to_nat R) h) with (bytes ++ drop (Z.to_nat (R + c)) h)%list.
      2:{ unfold bytes. rewrite Z2Nat.inj_add by lia. rewrite <- drop_drop. apply take_drop. }
      apply (dr_more quiet bp len dev n m c bytes m1 _ 0 m2 calls); try done; [lia.. |].
      by replace (n - c) with (Z.of_nat (length h) - (R + c)) by lia.
    + rewrite Hw2. by rewrite Em1.
    + by eapply others_kept_trans.
Qed.

(** *** A READBUF *)

(** What the answer to one starts with. *)
Definition heading (size mk : Z) : list Z := (text size ++ print_hex8 mk ++ [10])%list.

Context (f : ptr -> Z -> cmd mem (Z * list Z)) (g : W -> list Z * W).
Context (p blk : positive) (i : nat) (base : gmap positive (list Z)) (n size mk : Z) (D : iio_device mem).
Context (Hlen : 0 < len) (Hsize : 0 < size < 2 ^ 31) (Hfuel : size < Z.of_nat fuel).
Context (Hs : submit D = None) (Hf : read_dev D = Some f).

(** The device between two commands: everything in its buffer was read. *)
Record between (m : mem) (d : iio_dev_priv) (h : list Z) : Prop := Between {
  be_live : buf_live m i d p blk size h (Z.of_nat (length h)) base;
  be_name : c_str dev = Some (dev_id d);
  be_device : device (dev_descriptor d) = D;
  be_trig : trig_idx d = NO_TRIGGER;
  be_reads : reads f g (dev_instance d) n size;
  be_samples : samples (public (buffer d)) = n;
  be_size : ib_size (public (buffer d)) = size;
  be_mod : Z.of_nat (length h) mod size = 0;
  be_quiet : quiet m
}.

Lemma readbuf_block m d h :
  between m d h ->
  exists calls m' d' h', read_answer mk size m (heading size mk ++ (g (iio_world m)).1) 0 m' calls /\
    between m' d' h' /\ iio_world m' = (g (iio_world m)).2 /\ others_kept i p m m' /\ fixed_part d' = fixed_part d.
Proof using Hlen Hsize Hfuel Hs Hf.
  intros [Hl Hn HD Ht Hg Hsam Hsz Hmod Hq].
  destruct (iio_refill_run device m i d p blk size h _ base f g Hl Ht) as (m1 & Hr1 & Hl1 & Hw1 & Hrest1);
    [by rewrite HD | by rewrite HD | by rewrite Hsam, Hsz | lia | lia |].
  set (d1 := turned IIO_DIRECTION_INPUT d) in *.
  destruct (g (iio_world m)) as [bytes w] eqn:Eg. cbn [fst snd] in *.
  assert (Z.of_nat (length bytes) = size) as Hb by (specialize (Hg m); rewrite Eg in Hg; apply Hg).
  pose proof (quiet_kept i p m m1 d d1 Hq Hrest1 (live_dev _ _ _ _ _ _ _ _ _ Hl) (live_dev _ _ _ _ _ _ _ _ _ Hl1) eq_refl) as Hq1.
  destruct (block_drained (Z.to_nat size) m1 i d1 p blk size (h ++ bytes) (Z.of_nat (length h)) base Hl1)
    as (calls & m2 & Hdr & Hl2 & Hw2 & Hrest2 & Hq2); try done; try (rewrite length_app; lia).
  rewrite length_app in Hdr. replace (Z.of_nat (length h + length bytes) - Z.of_nat (length h)) with size in Hdr by lia.
  rewrite Nat2Z.id, drop_app_length in Hdr.
  exists calls, m2, d1, (h ++ bytes)%list. splits; try done.
  - unfold heading. rewrite <- !app_assoc. apply (ra_filled quiet bp len dev mk size m 0 m1); try done.
    cbn [bf_refill iio_buffer_app]. by rewrite Hn.
  - constructor; try done. rewrite length_app. replace (Z.of_nat (length h + length bytes)) with (Z.of_nat (length h) + 1 * size) by lia.
    by rewrite Z.mod_add by lia.
  - by rewrite Hw2.
  - by eapply others_kept_trans.
Qed.

(** *** The commands up to the end *)

(** The answers to [rounds] of them. *)
Fixpoint replies (rounds : nat) (w : W) : list Z :=
  match rounds with
  | O => []
  | S rounds => (heading size mk ++ (g w).1) ++ replies rounds (g w).2
  end.

Definition read_commands (rounds : nat) : list (client_cmd * list Z) :=
  replicate rounds (QReadbuf name size, []) ++ [(QClose name, [])].

Abbreviation session := (session long_bits (S spins) fuel device trigger).

Context (Hdrivers : drivers_ok device trigger).
Context (Hread : line_ok (QReadbuf name size)) (Hclose : line_ok (QClose name)).

Lemma close_session txt m d h :
  between m d h ->
  exists rc m', session txt len mk [(QClose name, [])] m (text rc) m' /\ others_kept i p m m' /\
    cells (arrs (iio_cbs m')) = base.
Proof using Hdrivers Hclose.
  intros [Hl Hn _ _ _ _ _ _ Hq].
  destruct (iio_close_run device trigger Hdrivers i m d p base (bl_wf _ _ _ _ _ _ _ _ _ Hl))
    as (rc & d' & m' & E & Hwf & Hrest & Hfix & Ha & _).
  exists rc, m'. splits; [| done | pose proof (bw_block _ _ _ _ _ Hwf) as Hb; by rewrite Ha in Hb].
  rewrite <- (app_nil_r (text rc)). eapply session_cons; [apply ex_answer | apply session_nil]; try done.
  - by apply (quiet_kept i p m m' d d' Hq Hrest (live_dev _ _ _ _ _ _ _ _ _ Hl) (bw_dev _ _ _ _ _ Hwf)).
  - unfold answer, number. cbn [app_close iio_application]. rewrite Hn. by rewrite (bind_done _ _ _ _ _ E).
Qed.

Lemma blocks_session txt rounds : forall m d h,
  between m d h ->
  exists rc m', session txt len mk (read_commands rounds) m (replies rounds (iio_world m) ++ text rc) m' /\
    others_kept i p m m' /\ cells (arrs (iio_cbs m')) = base.
Proof using Hlen Hsize Hfuel Hs Hf Hdrivers Hread Hclose.
  unfold read_commands. induction rounds as [| rounds IH]; intros m d h Hb; [by eapply close_session |].
  destruct (readbuf_block m d h Hb) as (calls & m1 & d1 & h1 & Hans & Hb1 & Hw1 & Hrest1 & _).
  destruct (IH m1 d1 h1 Hb1) as (rc & m2 & Hses & Hrest2 & Hcells). exists rc, m2.
  splits; [| by eapply others_kept_trans | done]. cbn [replicate replies app].
  rewrite <- app_assoc, <- Hw1. eapply session_cons; [| exact Hses].
  eapply ex_read; [done | by apply Hb | exact Hans | done].
Qed.

End capture.

(** ** From the open to the close *)

Section wire.
  Context {W : Type} (long_bits : Z) (spins fuel : nat).
  Context (device : positive -> iio_device (iio_mem W)) (trigger : positive -> iio_trigger (iio_mem W)).
  Context (len : Z) (name : list Z) (f : ptr -> Z -> cmd (iio_mem W) (Z * list Z)) (g : W -> list Z * W).
  Context (n size mk : Z).
  Abbreviation mem := (iio_mem W).
  Abbreviation session := (session long_bits (S spins) fuel device trigger).
  Abbreviation opening := (QOpen name n mk false).

(** A device that delivers blocks of [size] bytes, [n] samples of the channels
    [mk] each, and the commands of a client that captures them. *)
Record captures (D : iio_device mem) (inst : ptr) : Prop := Captures {
  ca_scans : scans_ok D;
  ca_legacy : submit D = None;
  ca_read : read_dev D = Some f;
  ca_counts : 0 <= mk /\ 0 <= n;
  ca_size : size = opened_scan D mk * n;
  ca_range : 0 < size < 2 ^ 31 /\ size < Z.of_nat fuel;
  ca_blocks : reads f g inst n size;
  ca_lines : Forall line_ok [opening; QReadbuf name size; QClose name]
}.

Context (Hdrivers : drivers_ok device trigger) (Hlen : 0 < len).

(** The open leaves the device ready for the first block. *)
Lemma open_between (m : mem) i d p base r m1 :
  captures (device (dev_descriptor d)) (dev_instance d) ->
  buf_wf m i d p base -> c_str (dev_field name) = Some (dev_id d) -> trig_idx d = NO_TRIGGER -> quiet m ->
  iio_open_dev device trigger (dev_id d) n mk false m = Done (r, m1) -> 0 <= r ->
  exists blk d1, between device name f g p blk i base n size (device (dev_descriptor d)) m1 d1 [] /\
    others_kept i p m m1.
Proof using Hdrivers.
  intros [Hscan Hs Hf [Hmk Hn] Hsz [Hsize Hfuel] Hg _] Hwf Hname Ht Hq Hopen Hr0.
  destruct (iio_open_run device trigger Hdrivers i m d p base n mk false Hwf Hscan Hmk Hn)
    as (r' & d1 & m1' & Hopen' & Hwf1 & Hrest1 & Hfix1 & Hr).
  rewrite Hopen in Hopen'. injection Hopen' as <- <-. destruct (Hr Hr0) as (Ha1 & Hpub1 & Hopen1).
  rewrite wrap_small in Hpub1, Hopen1 by ulia. rewrite <- Hsz in Hpub1, Hopen1.
  destruct (Hopen1 ltac:(lia)) as [blk Ho1]. destruct (fixed_driver _ _ Hfix1) as (Eid & Einst & Edesc).
  exists blk, d1. split; [| done]. constructor; rewrite ?Eid, ?Einst, ?Edesc; try done.
  - by rewrite (fixed_trig _ _ Hfix1).
  - by rewrite Hpub1.
  - by rewrite Hpub1.
  - by apply (quiet_kept i p m m1 d d1 Hq Hrest1 (bw_dev _ _ _ _ _ Hwf) (bw_dev _ _ _ _ _ Hwf1)).
Qed.

Lemma captured txt (m : mem) i d p base r m1 rounds :
  captures (device (dev_descriptor d)) (dev_instance d) ->
  buf_wf m i d p base -> c_str (dev_field name) = Some (dev_id d) -> trig_idx d = NO_TRIGGER -> quiet m ->
  iio_open_dev device trigger (dev_id d) n mk false m = Done (r, m1) -> 0 <= r ->
  exists rc m2,
    session txt len 0 ((opening, []) :: read_commands name size rounds) m
      (text r ++ replies g size mk rounds (iio_world m1) ++ text rc) m2 /\
    others_kept i p m m2 /\ cells (arrs (iio_cbs m2)) = base.
Proof using Hdrivers Hlen.
  intros Hcap Hwf Hname Ht Hq Hopen Hr.
  destruct (open_between m i d p base r m1 Hcap Hwf Hname Ht Hq Hopen Hr) as (blk & d1 & Hb & Hrest1).
  destruct Hcap as [_ Hs Hf _ _ [Hsize Hfuel] _ Hlines].
  apply Forall_cons in Hlines as [Ho Hlines]. apply Forall_cons in Hlines as [Hrd Hlines].
  apply Forall_cons in Hlines as [Hcl _].
  destruct (blocks_session long_bits spins fuel device trigger len name f g p blk i base n size mk
    (device (dev_descriptor d)) Hlen Hsize Hfuel Hs Hf Hdrivers Hrd Hcl txt rounds m1 d1 [] Hb)
    as (rc & m2 & Hses & Hrest2 & Hcells).
  exists rc, m2. splits; [| by eapply others_kept_trans | done].
  eapply session_cons; [apply ex_answer | exact Hses]; try done; [by apply Hb |].
  unfold answer, number. cbn [app_open iio_application]. rewrite Hname.
  change (the (Some (dev_id d)) ≫= (fun dev => iio_open_dev device trigger dev n mk false))
    with (iio_open_dev device trigger (dev_id d) n mk false).
  by rewrite (bind_done _ _ _ _ _ Hopen).
Qed.
End wire.

(** ** The device of a program that was started *)

Lemma name_terminated name : line_ok (QClose name) -> 0 ∉ name.
Proof. intros [_ _ H0] H. apply H0, (in_line _ name); [cbn [cmd_words]; set_solver | done]. Qed.

Section started.
  Context {W : Type} (device : positive -> iio_device (iio_mem W)).
  Abbreviation st := (app_state W wire).

Lemma placed_kept k q : forall h, is_Some (cells h !! q) -> is_Some (cells (placed_cbs k h) !! q).
Proof using.
  induction k as [| k IH]; intros h Hq; [done |]. apply IH. cbn. by apply lookup_insert_is_Some'; right.
Qed.

(** The circular buffer of an entry is there. *)
Lemma made_devs_placed ts l : forall i h k n,
  l !! k = Some n ->
  exists q, made_devs device ts i l h !! k = Some (new_dev device (i + k) n (trig_of ts n) (Some q)) /\
    is_Some (cells (placed_cbs (length l) h) !! q).
Proof using.
  induction l as [| n' l IH]; intros i h [| k] n Hn; try done; cbn [made_devs length placed_cbs] in *.
  - injection Hn as ->. eexists. split; [cbn; by rewrite Nat.add_0_r |].
    apply placed_kept. cbn. by rewrite lookup_insert_eq.
  - destruct (IH (S i) (placed h) k n Hn) as (q & Hq & Hp). exists q. split; [| done].
    etransitivity; [exact Hq |]. by rewrite Nat.add_succ_comm.
Qed.

(** A device without a trigger that the program allocates the buffer of. *)
Lemma started_wf (prm : iio_init_param wire) (s : st) i nd :
  Z.of_nat (length (ii_devs prm)) < 2 ^ 31 -> ii_devs prm !! i = Some nd ->
  has_buffer (device (di_descriptor nd)) = true -> di_raw_buf nd = None -> di_trigger_id nd = None ->
  heap_ok (arrs (iio_cbs (st_mem s))) ->
  exists d p, buf_wf (started_mem device prm s) i d p (cells (arrs (iio_cbs (st_mem s)))) /\
    dev_id d = (str "iio:device" ++ print_num 10 (Z.of_nat i))%list /\ dev_instance d = di_dev nd /\
    dev_descriptor d = di_descriptor nd /\ trig_idx d = NO_TRIGGER.
Proof using.
  intros Hn Hi Hbuf Hraw Htrig Hheap.
  destruct (made_devs_placed (its_trigs prm) (ii_devs prm) 0 (descs (iio_cbs (st_mem s))) i nd Hi) as (q & Hd & Hq).
  unfold new_dev, trig_of in Hd. rewrite Hbuf, Hraw, Htrig in Hd. cbn [Nat.add] in Hd.
  match type of Hd with _ = Some ?d => exists d, q end. split; [| by splits]. constructor; cbn [started_mem devs trigs iio_cbs descs arrs]; try done.
  - apply its_devs_names. lia.
  - by left.
Qed.
End started.

Section client.
  Context {W : Type} (long_bits : Z) (spins fuel : nat) (project version : list Z).
  Context (device : positive -> iio_device (iio_mem W)) (trigger : positive -> iio_trigger (iio_mem W)).
  Context (uart : link wire) (uart_buff : list Z).
  Context (Hlong : 32 <= long_bits) (Hbig : (128 <= fuel)%nat).
  Abbreviation st := (app_state W wire).
  Abbreviation program := (program long_bits (S spins) fuel project version device trigger uart uart_buff).
  Abbreviation can_serve := (can_serve project version device trigger uart uart_buff).

(** C1: a client of a program that was started opens a device, asks for any
    number of blocks and closes the device.  When the open succeeds, what it
    gets is the result of the open, then the driver's blocks, each after its
    length and the mask that was asked for, every byte once and in order, and
    the result of the close; whatever part of the bytes the transport moves at
    each call, and whatever the sizes of the daemon's payload and of the blocks.
    Where the transport refuses a newline the client may not get that newline;
    where it refuses no single byte it gets exactly these bytes.  No memory of
    the buffers is left. *)
Theorem iio_client_captures prm data (s : st) i nd f g n size mk r m1 rounds rest :
  can_serve prm data s -> drivers_ok device trigger -> heap_ok (arrs (iio_cbs (st_mem s))) ->
  Z.of_nat (length (ii_devs prm)) < 2 ^ 31 -> ii_devs prm !! i = Some nd ->
  di_raw_buf nd = None -> di_trigger_id nd = None -> 0 < data_len data ->
  let name := (str "iio:device" ++ print_num 10 (Z.of_nat i))%list in
  captures fuel name f g n size mk (device (di_descriptor nd)) (di_dev nd) ->
  iio_open_dev device trigger name n mk false (started_mem device prm s) = Done (r, m1) -> 0 <= r ->
  inp (st_link s) = (flat_map sent ((QOpen name n mk false, []) :: read_commands name size rounds) ++ rest)%list ->
  exists k s' rc, program prm k s = Done (tt, s') /\ inp (st_link s') = rest /\
    let answers := (text r ++ replies g size mk rounds (iio_world m1) ++ text rc)%list in
    (exists t, out (st_link s') = (out (st_link s) ++ t)%list /\
      delivered t answers /\ (None ∉ t -> t = Some <$> answers)) /\
    cells (arrs (iio_cbs (st_mem s'))) = cells (arrs (iio_cbs (st_mem s))).
Proof using Hlong Hbig.
  intros Hv Hdr Hheap Hn Hi Hraw Htrig Hlen name Hcap Hopen Hr Hin.
  assert (has_buffer (device (di_descriptor nd)) = true) as Hbuf.
  { unfold has_buffer. rewrite (ca_read _ _ _ _ _ _ _ _ _ Hcap). done. }
  destruct (started_wf device prm s i nd Hn Hi Hbuf Hraw Htrig Hheap) as (d & p & Hwf & Eid & Einst & Edesc & Ht).
  assert (c_str (dev_field name) = Some (dev_id d)) as Hname.
  { rewrite Eid. apply c_str_strncpy; [| apply length_dev_name; pose proof (lookup_lt_Some _ _ _ Hi); lia].
    apply name_terminated, (Forall_lookup_1 _ _ 2 _ (ca_lines _ _ _ _ _ _ _ _ _ Hcap) eq_refl). }
  rewrite <- Edesc, <- Einst in Hcap. fold name in Eid. rewrite <- Eid in Hopen.
  destruct (captured long_bits spins fuel device trigger (data_len data) name f g n size mk Hdr Hlen
    (its_text project version device trigger prm s) _ i d p _ r m1 rounds Hcap Hwf Hname Ht (started_quiet _ _ _) Hopen Hr)
    as (rc & m2 & Hses & _ & Hcells).
  destruct (program_served _ (S spins) _ _ _ _ _ _ _ ltac:(lia) Hlong Hbig prm data s _ _ m2 rest Hv Hses Hin)
    as (k & s' & E & Hm & Hin' & t & Hout & Hgot).
  exists k, s', rc. split; [done |]. split; [done |]. cbv zeta. split; [| by rewrite Hm].
  exists t. splits; [done | done | by apply delivered_whole].
Qed.
End client.

(** ** An instance *)

(** The driver that counts, in blocks of two samples of one byte. *)
Definition cx_prm : iio_init_param wire :=
  IioInitParam USE_UART None None [] [DeviceInit (str "adc") None 1 None 0 None] [].

Definition cx_state (inp : list Z) (sched : list (option nat)) : app_state Z wire :=
  let E := fun {V} => Heap (∅ : gmap positive V) 1%positive [] in
  AppState E E E (CbMem E E) E (IioMem [] [] (CbMem E E) 7) (Wire inp [] sched).

Definition cx_name : list Z := (str "iio:device" ++ print_num 10 (Z.of_nat 0))%list.

Definition cx_commands : list (client_cmd * list Z) :=
  (QOpen cx_name 2 1 false, []) :: read_commands cx_name 2 2.

Lemma cx_can_serve inp sched :
  can_serve (str "demo") (str "1.0") (fun _ => bx_device) bx_trigger wire_link ax_buff cx_prm
    (ConnData None ax_buff 4096) (cx_state inp sched).
Proof.
  split; try done. split; try done; try apply heap_ok_empty.
  - by split; apply heap_ok_empty.
  - apply Forall_singleton. split; [done | |]; apply Forall_singleton; [cbn; unfold sint; lia |].
    apply Forall_nil_2.
Qed.

Lemma cx_word : is_word cx_name.
Proof. split; [discriminate | repeat constructor; by vm_compute]. Qed.

Lemma cx_captures : captures 128 cx_name bx_read bx_block 2 2 1 bx_device None.
Proof.
  constructor; try done; try lia; [apply bx_scans | |].
  - intros [? ? ? w]. cbn. split; [done |]. by exists 0.
  - repeat apply Forall_cons_2; try apply Forall_nil_2.
    all: split; [| apply Nat.ltb_lt; reflexivity | by apply nul_free].
    all: cbn [client_ok]; splits; apply cx_word || done.
Qed.

Definition cx_sched : list (option nat) := [Some 5%nat; Some 0%nat; None; Some 0%nat; Some 3%nat].

(** Two blocks over a transport that splits and stalls. *)
Lemma iio_client_captures_witness :
  exists k s' rc,
    program 64 1 128 (str "demo") (str "1.0") (fun _ => bx_device) bx_trigger wire_link ax_buff cx_prm k
      (cx_state (flat_map sent cx_commands) cx_sched) = Done (tt, s') /\
    inp (st_link s') = [] /\
    let answers := ((str "0" ++ [10]) ++ ((str "2" ++ [10] ++ str "00000001" ++ [10; 7; 8]) ++
          (str "2" ++ [10] ++ str "00000001" ++ [10; 9; 10])) ++ text rc)%list in
    (exists t, out (st_link s') = t /\ delivered t answers /\ (None ∉ t -> t = Some <$> answers)) /\
    cells (arrs (iio_cbs (IioApp.st_mem s'))) = ∅.
Proof.
  destruct (iio_client_captures 64 0 128 (str "demo") (str "1.0") (fun _ => bx_device) bx_trigger wire_link ax_buff
    ltac:(lia) ltac:(lia) cx_prm (ConnData None ax_buff 4096) (cx_state (flat_map sent cx_commands) cx_sched)
    0 (DeviceInit (str "adc") None 1 None 0 None) bx_read bx_block 2 2 1 0
    (ltac:(let x := eval vm_compute in (iio_open_dev (fun _ => bx_device) bx_trigger cx_name 2 1 false
       (started_mem (fun _ => bx_device) cx_prm (cx_state [] []))) in
     match x with Done (_, ?m) => exact m end)) 2 [] (cx_can_serve _ _) bx_drivers (heap_ok_empty _))
    as (k & s' & rc & H); try done.
  - apply cx_captures.
  - exists k, s', rc. exact H.
Defined.
