(* ===== verification/IioNetwork.v ===== *)
(** * Clients over a network: the branches of [iio/iio.c] for a server

    The program listens on a socket, gives every client that it accepts a
    buffer and a connection of the daemon, and serves the connections in turn.
    A build with [NO_OS_NETWORKING], whose interface is an argument. *)
From Stdlib Require Import String.
From S2P Require Import Prelude Util Bus Dispatch Socket CircularBuffer CString Iiod IiodConn IiodPoll IiodFrame.
From S2P Require Import IiodSession IioDevice IioBuffer IioXml IioApp.

(** ** The state *)

(** The program over sockets, the blocks of the clients' buffers with the
    address of the one that each connection has (its contents are the payload
    of the connection), and the server's socket. *)
Record net_state (W V : Type) : Type := NetState {
  ns_app : app_state W (platform tcp_socket_desc V);
  ns_bufs : heap unit;
  ns_addrs : gmap Z ptr;
  ns_server : ptr
}.
Arguments NetState {W V} _ _ _ _.
Arguments ns_app {W V} _.
Arguments ns_bufs {W V} _.
Arguments ns_addrs {W V} _.
Arguments ns_server {W V} _.

Definition IIOD_PORT : Z := 30431.

(** ** Operations *)

Section network.
  Context {W V : Type} (long_bits : Z) (spins fuel : nat) (net : network_interface V) (default_size : Z).
  Context (device : positive -> iio_device (iio_mem W)) (trigger : positive -> iio_trigger (iio_mem W)).
  Abbreviation mem := (iio_mem W).
  Abbreviation link_state := (platform tcp_socket_desc V).
  Abbreviation st := (net_state W V).
  Abbreviation nets := (fun _ : positive => net).

Definition on_prog {A} : cmd (app_state W link_state) A -> cmd st A :=
  zoom ns_app (fun a s => NetState a (ns_bufs s) (ns_addrs s) (ns_server s)).
Definition on_bufs {A} : cmd (heap unit) A -> cmd st A :=
  zoom ns_bufs (fun h s => NetState (ns_app s) h (ns_addrs s) (ns_server s)).

Definition on_link {A} (c : cmd link_state A) : cmd st A :=
  on_prog (zoom st_link (fun x s =>
    AppState (st_descs s) (st_tables s) (st_texts s) (st_queue s) (st_iiod s) (st_mem s) x) c).

Definition set_addr (id : Z) (a : ptr) (s : st) : st :=
  NetState (ns_app s) (ns_bufs s) (<[id := a]> (ns_addrs s)) (ns_server s).

Definition set_server (p : ptr) (s : st) : st := NetState (ns_app s) (ns_bufs s) (ns_addrs s) p.

(** [socket_send] and [socket_recv] as the functions of the descriptor. *)
Definition net_link : link link_state :=
  Link (fun conn bytes => socket_send nets conn bytes) (fun conn len => socket_recv nets conn len).

(** The transport of [iio_init]: an error leaves no socket. *)
Definition init_network (prm : option tcp_socket_init_param) : cmd st Z :=
  r ← on_link (socket_init nets default_size prm);
  _ ← modify (set_server r.2);
  if NO_OS_IS_ERR_VALUE r.1 then mret r.1 else
  server ← gets ns_server;
  ret ← on_link (socket_bind nets server IIOD_PORT);
  if NO_OS_IS_ERR_VALUE ret then _ ← on_link (socket_remove nets server); mret ret else
  ret ← on_link (socket_listen nets server 0xFFFFFFFF);
  if NO_OS_IS_ERR_VALUE ret then _ ← on_link (socket_remove nets server); mret ret else
  mret 0.

(** The labels of [accept_network_clients]. *)
Definition close_socket (sock : ptr) (ret : Z) : cmd st (unit + Z) :=
  _ ← on_link (socket_remove nets sock); mret (inr ret).

Definition free_buf (buf sock : ptr) (ret : Z) : cmd st (unit + Z) :=
  _ ← on_bufs (hfree buf); close_socket sock ret.

Definition remove_conn (iiod : ptr) (id : Z) (buf sock : ptr) (ret : Z) : cmd st (unit + Z) :=
  _ ← on_prog (on_iiod (iiod_conn_remove iiod id)); free_buf buf sock ret.

Definition accept_turn (desc : ptr) (_ : unit) : cmd st (unit + Z) :=
  server ← gets ns_server;
  r ← on_link (socket_accept nets server);
  if NO_OS_IS_ERR_VALUE r.1 then mret (inr r.1) else
  buf ← on_bufs (halloc tt);
  match buf with
  | None => close_socket r.2 (- ENOMEM)
  | Some _ =>
      let len := IIOD_CONN_BUFFER_SIZE in
      d ← on_prog (on_st_descs (hload desc));
      a ← on_prog (on_iiod (iiod_conn_add (ia_iiod d)
            (Some (ConnData r.2 (replicate (Z.to_nat len) 0) len)) false));
      if NO_OS_IS_ERR_VALUE a.1 then free_buf buf r.2 a.1 else
      let id := default 0 a.2 in
      _ ← modify (set_addr id buf);
      ret ← on_prog (push_conn spins fuel desc id);
      if NO_OS_IS_ERR_VALUE ret then remove_conn (ia_iiod d) id buf r.2 ret else mret (inl tt)
  end.

Definition accept_network_clients (desc : ptr) : cmd st Z := loop fuel (accept_turn desc) tt.

(** What follows when the clients were accepted. *)
Definition serve_next (desc : ptr) : cmd st Z :=
  c ← on_prog (pop_conn spins fuel desc);
  if NO_OS_IS_ERR_VALUE c.1 then mret c.1 else
  d ← on_prog (on_st_descs (hload desc));
  ret ← on_prog (on_daemon (iiod_conn_step long_bits fuel (ia_iiod d) c.2));
  if ret =? - ENOTCONN then
    x ← on_prog (on_iiod (iiod_conn_remove (ia_iiod d) c.2));
    data ← the x.2;
    _ ← on_link (socket_remove nets (data_conn data));
    a ← gets (fun s => default None (ns_addrs s !! c.2));
    _ ← on_bufs (hfree a);
    mret ret
  else _ ← on_prog (push_conn spins fuel desc c.2); mret ret.

Definition iio_step_network (desc : ptr) : cmd st Z :=
  _ ← on_prog (on_mem (iio_process_async_triggers device));
  server ← gets ns_server;
  ret ← (match server with None => mret 0 | Some _ => accept_network_clients desc end);
  if NO_OS_IS_ERR_VALUE ret && negb (ret =? - EAGAIN) then mret ret else
  serve_next desc.

(** The sockets and buffers of [iio_remove]. *)
Definition remove_client (iiod : ptr) (i : Z) : cmd st unit :=
  x ← on_prog (on_iiod (iiod_conn_remove iiod i));
  match x.2 with
  | None => mret tt
  | Some data =>
      a ← gets (fun s => default None (ns_addrs s !! i));
      _ ← on_bufs (hfree a);
      _ ← on_link (socket_remove nets (data_conn data));
      mret tt
  end.

Definition remove_network (desc : ptr) : cmd st unit :=
  d ← on_prog (on_st_descs (hload desc));
  _ ← for_up (Z.to_nat IIOD_MAX_CONNECTIONS) 0 (remove_client (ia_iiod d));
  server ← gets ns_server;
  _ ← on_link (socket_remove nets server);
  mret tt.
End network.

(** A command that is known to return, and what follows it. *)
Lemma sat_run {S A B} {U F : Prop} (c : cmd S A) (k : A -> cmd S B) (Q : B -> S -> Prop) s a s' :
  c s = Done (a, s') -> triple U F (k a) Q s' -> triple U F (c ≫= k) Q s.
Proof. intros E H. by eapply sat_bind, sat_done. Qed.

(** ** Who owns what *)

(** A client: its connection of the daemon, the descriptor of its socket and
    the block of its buffer. *)
Record client : Type := Client { cl_id : Z; cl_sock : positive; cl_buf : positive }.

Section pool.
(** What a connection must be in the pool. *)
Definition pool_conn (cs : list iiod_conn_priv) (x : client) : Prop :=
    0 <= cl_id x /\ exists c, cs !! Z.to_nat (cl_id x) = Some c /\ used c = true /\ conn c = Some (cl_sock x).

(** The connections that are used are those of the clients. *)
Record pool_of (l : list client) (cs : list iiod_conn_priv) : Prop := PoolOf {
  po_length : length cs = Z.to_nat IIOD_MAX_CONNECTIONS;
  po_conns : Forall (pool_conn cs) l;
  po_used : forall i c, cs !! i = Some c -> used c = true -> Z.of_nat i ∈ cl_id <$> l;
  po_ids : NoDup (cl_id <$> l)
}.

Lemma pool_id l cs x : pool_of l cs -> x ∈ l -> 0 <= cl_id x < IIOD_MAX_CONNECTIONS.
Proof.
  intros Hp Hx. destruct (proj1 (Forall_forall _ _) (po_conns _ _ Hp) x Hx) as (H0 & c & Hc & _).
  apply lookup_lt_Some in Hc. rewrite (po_length _ _ Hp) in Hc. lia.
Qed.

Lemma pool_size l cs : pool_of l cs -> (length l <= Z.to_nat IIOD_MAX_CONNECTIONS)%nat.
Proof.
  intros Hp. rewrite <- (length_fmap cl_id l), <- (length_seqZ 0 IIOD_MAX_CONNECTIONS).
  apply submseteq_length, NoDup_submseteq; [apply Hp |].
  intros i (x & -> & Hx)%list_elem_of_fmap. apply elem_of_seqZ.
  pose proof (pool_id _ _ _ Hp Hx). lia.
Qed.

Lemma pool_perm l l' cs : l ≡ₚ l' -> pool_of l cs -> pool_of l' cs.
Proof.
  intros E [Hl Hc Hu Hi]. split; [done | by rewrite <- E | | by rewrite <- E].
  intros i c H1 H2. rewrite <- E. by apply (Hu i c).
Qed.

(** A free connection is not a client's; if there is none, all ten are. *)
Lemma first_unused_spec cs : forall i,
  match first_unused i cs with
  | Some j => i <= j /\ exists c, cs !! Z.to_nat (j - i) = Some c /\ used c = false
  | None => Forall (fun c => used c = true) cs
  end.
Proof.
  induction cs as [| c cs IH]; intros i; cbn [first_unused]; [by constructor |].
  destruct (used c) eqn:Eu.
  - specialize (IH (i + 1)). destruct (first_unused (i + 1) cs) as [j |]; [| by constructor].
    destruct IH as (Hj & c' & Hc' & Hu). split; [lia |]. exists c'. split; [| done].
    by replace (Z.to_nat (j - i)) with (S (Z.to_nat (j - (i + 1)))) by lia.
  - split; [lia |]. exists c. by replace (Z.to_nat (i - i)) with 0%nat by lia.
Qed.

Lemma pool_full l cs : pool_of l cs -> first_unused 0 cs = None -> length l = Z.to_nat IIOD_MAX_CONNECTIONS.
Proof.
  intros Hp E. pose proof (first_unused_spec cs 0) as Hall. rewrite E in Hall.
  apply Nat.le_antisymm; [by apply (pool_size l cs) |].
  rewrite <- (length_fmap cl_id l), <- (length_seqZ 0 IIOD_MAX_CONNECTIONS).
  apply submseteq_length, NoDup_submseteq; [apply NoDup_seqZ |].
  intros i Hi%elem_of_seqZ. pose proof (po_length _ _ Hp) as Hlen.
  destruct (lookup_lt_is_Some_2 cs (Z.to_nat i)) as [c Hc]; [lia |].
  replace i with (Z.of_nat (Z.to_nat i)) by lia. eapply (po_used _ _ Hp); [done |].
  by eapply (Forall_lookup_1 _ _ _ _ Hall).
Qed.

Lemma pool_conn_other cs i c x :
  0 <= i -> cl_id x <> i -> pool_conn cs x -> pool_conn (<[Z.to_nat i := c]> cs) x.
Proof.
  intros Hi Hne (H0 & c' & Hc & H). split; [done |]. exists c'.
  rewrite list_lookup_insert_ne by lia. done.
Qed.

Lemma pool_add l cs i q b data :
  pool_of l cs -> first_unused 0 cs = Some i -> data_conn data = Some q ->
  pool_of (l ++ [Client i q b]) (<[Z.to_nat i := new_conn data]> cs).
Proof.
  intros Hp E Hq. pose proof (first_unused_spec cs 0) as Hf. rewrite E in Hf.
  destruct Hf as (Hi & c & Hc & Hu). rewrite Z.sub_0_r in Hc.
  assert (Forall (fun x => cl_id x <> i) l) as Hne.
  { apply (Forall_impl _ _ _ (po_conns _ _ Hp)). intros x (H0 & c' & Hc' & Hu' & _) <-. congruence. }
  split.
  - by rewrite length_insert, (po_length _ _ Hp).
  - apply Forall_app_2.
    + apply Forall_forall. intros x Hx. rewrite Forall_forall in Hne.
      apply pool_conn_other; [done | by apply Hne |].
      by apply (proj1 (Forall_forall _ _) (po_conns _ _ Hp)).
    + constructor; [| done]. split; [done |]. exists (new_conn data). splits; [| done | done].
      apply list_lookup_insert_eq. by eapply lookup_lt_Some.
  - intros j c' Hj Hu'. rewrite fmap_app, elem_of_app. cbn [fmap list_fmap cl_id].
    apply list_lookup_insert_Some in Hj as [(<- & _ & _) | (Hne' & Hj)].
    + right. rewrite Z2Nat.id by done. by apply list_elem_of_singleton.
    + left. by eapply (po_used _ _ Hp).
  - rewrite fmap_app. apply NoDup_app. splits; [apply Hp | | apply NoDup_singleton].
    intros j (x & -> & Hx)%list_elem_of_fmap Hj%list_elem_of_singleton. rewrite Forall_forall in Hne. by apply (Hne x Hx).
Qed.

Lemma pool_del x l cs c : pool_of (x :: l) cs -> pool_of l (<[Z.to_nat (cl_id x) := with_used false c]> cs).
Proof.
  intros Hp. pose proof (po_ids _ _ Hp) as [Hx Hl]%NoDup_cons. pose proof (po_conns _ _ Hp) as [Hc Hcs]%Forall_cons.
  destruct Hc as (H0 & cx & Hcx & _). split; [by rewrite length_insert, (po_length _ _ Hp) | | | done].
  - apply Forall_forall. intros y Hy. apply pool_conn_other; [done | |].
    + intros Ey. apply Hx. rewrite <- Ey. by apply list_elem_of_fmap_2.
    + by apply (proj1 (Forall_forall _ _) Hcs).
  - intros j c' Hj Hu. apply list_lookup_insert_Some in Hj as [(_ & <- & _) | (Hne & Hj)]; [done |].
    pose proof (po_used _ _ Hp j c' Hj Hu) as [Hj' | Hj']%elem_of_cons; [| done]. exfalso. apply Hne. cbn in Hj'. lia.
Qed.

Lemma pool_keep x l cs c c' :
  pool_of (x :: l) cs -> cs !! Z.to_nat (cl_id x) = Some c -> kept c c' ->
  pool_of (x :: l) (<[Z.to_nat (cl_id x) := c']> cs).
Proof.
  intros Hp Hc [Hu Hconn]. pose proof (po_ids _ _ Hp) as [Hx _]%NoDup_cons.
  pose proof (po_conns _ _ Hp) as [(H0 & cx & Hcx & Hux & Hqx) Hcs]%Forall_cons.
  assert (cx = c) as -> by congruence. split; [by rewrite length_insert, (po_length _ _ Hp) | | | apply Hp].
  - constructor.
    + split; [done |]. exists c'. splits; [| congruence | congruence].
      apply list_lookup_insert_eq. by eapply lookup_lt_Some.
    + apply Forall_forall. intros y Hy. apply pool_conn_other; [done | |].
      * intros Ey. apply Hx. rewrite <- Ey. by apply list_elem_of_fmap_2.
      * by apply (proj1 (Forall_forall _ _) Hcs).
  - intros j d Hj Hd. apply list_lookup_insert_Some in Hj as [(<- & _ & _) | (_ & Hj)].
    + cbn. rewrite Z2Nat.id by done. by left.
    + by eapply (po_used _ _ Hp).
Qed.
End pool.

Lemma length_concat_ids (l : list Z) : length (concat (u32_bytes <$> l)) = (4 * length l)%nat.
Proof. induction l as [| i l IH]; [done |]. rewrite fmap_cons. cbn [concat]. rewrite length_app, IH. cbn. lia. Qed.

Section owned.
  Context {W V : Type} (long_bits : Z) (spins fuel : nat) (net : network_interface V).
  Context (device : positive -> iio_device (iio_mem W)) (trigger : positive -> iio_trigger (iio_mem W)).
  Context (opened : V -> gset Z).
  Context (D0 : heap iio_desc) (d : iio_desc) (T : heap unit) (Y : heap (list Z)) (pi pq pb sv k : positive).
  Abbreviation mem := (iio_mem W).
  Abbreviation link_state := (platform tcp_socket_desc V).
  Abbreviation st := (net_state W V).
  Abbreviation nets := (fun _ : positive => net).
  Abbreviation p := (next_block D0).
  Abbreviation daemons := (heap (iiod_desc (mem * link_state))).

(** The table that the daemon was given. *)
Definition net_ops : iiod_ops (mem * link_state) :=
  (iiod_copy_ops no_ops (iio_ops long_bits spins fuel device trigger (Some (net_link net)))).2.

(** The descriptors of the sockets that are in use. *)
Definition in_use (l : list client) : gset positive := list_to_set (sv :: (cl_sock <$> l)).

(** The connections that are used, the sockets and the buffers are those of the
    clients, each with one of each, and of the server.  [G] are the descriptors
    of clients that have left whose socket the network did not close. *)
Record held (l : list client) (G : gset positive) (I : daemons) (sk : link_state) (B : heap unit) (A : gmap Z ptr) :
    Prop := Held {
  he_pool : exists dd, cells I !! pi = Some dd /\ ops dd = net_ops /\ pool_of l (conns dd);
  he_socks : exists own, sockets_ok k opened own ∅ sk /\ in_use l ⊆ own;
  he_live : dom (cells sk.1) = in_use l ∪ G;
  he_gone : G ## in_use l;
  he_distinct : NoDup (sv :: (cl_sock <$> l));
  he_memory : Forall (eq false) (oom sk.1);
  he_heap : heap_ok B;
  he_bufs : dom (cells B) = list_to_set (cl_buf <$> l);
  he_own : NoDup (cl_buf <$> l);
  he_addrs : Forall (fun x => A !! cl_id x = Some (Some (cl_buf x))) l
}.

(** More descriptors are left, but none where the network closes what it is
    asked to. *)
Definition more_left (G G' : gset positive) : Prop := G ⊆ G' /\ (always_closes net opened -> G' = G).

(** The identifiers wait in the queue, after everything that was there. *)
Definition queued (l : list client) (Q : cb_mem) : Prop :=
  exists h, cb_rep Q pq pb 44 (h ++ concat (u32_bytes <$> (cl_id <$> l))) (Z.of_nat (length h)) None None.

Definition net_at (Q : cb_mem) (I : daemons) (m : mem) (sk : link_state) (B : heap unit) (A : gmap Z ptr) : st :=
  NetState (with_desc D0 d T Y Q I m sk) B A (Some sv).

(** A program that serves the clients [l], the first of which is next. *)
Inductive owned (l : list client) (G : gset positive) (m : mem) : st -> Prop :=
  | Owned Q I sk B A : queued l Q -> held l G I sk B A -> owned l G m (net_at Q I m sk B A).

(** *** Clients come and go *)

#[local] Instance more_left_preorder : PreOrder more_left.
Proof. split; [done |]. intros x y z [H1 H2] [H3 H4]. split; [set_solver | intros H; by rewrite H4, H2]. Qed.

Lemma in_use_perm l l' : l ≡ₚ l' -> in_use l = in_use l'.
Proof using. intros E. apply leibniz_equiv, list_to_set_perm. by rewrite E. Qed.

Lemma held_perm l l' G I sk B A : l ≡ₚ l' -> held l G I sk B A -> held l' G I sk B A.
Proof using.
  intros E [(dd & H1 & H2 & H3) Hs Hl Hg Hd Hm Hb Hbl Ho Ha].
  split; rewrite <- ?(in_use_perm _ _ E), <- ?E; try done.
  exists dd. splits; [done | done |]. by eapply pool_perm.
Qed.

Lemma held_sock x l G I sk B A :
  held (x :: l) G I sk B A -> exists own e, sockets_ok k opened own ∅ sk /\ in_use (x :: l) ⊆ own /\
    cl_sock x ∈ own /\ cells sk.1 !! cl_sock x = Some e.
Proof using.
  intros H. destruct (he_socks _ _ _ _ _ _ H) as (own & Hs & Hi). exists own.
  assert (cl_sock x ∈ own) as Hx by (apply Hi; unfold in_use; cbn; set_solver).
  destruct (sockets_ok_live k opened _ _ _ _ Hs Hx) as [e He]. by exists e.
Qed.

Lemma held_buf x l G I sk B A : held (x :: l) G I sk B A -> cells B !! cl_buf x = Some tt.
Proof using.
  intros H. assert (is_Some (cells B !! cl_buf x)) as [[] ->]; [| done].
  apply elem_of_dom. rewrite (he_bufs _ _ _ _ _ _ H). set_solver.
Qed.

Lemma held_server l G I sk B A :
  held l G I sk B A -> exists own e, sockets_ok k opened own ∅ sk /\ in_use l ⊆ own /\ sv ∈ own /\ cells sk.1 !! sv = Some e.
Proof using.
  intros H. destruct (he_socks _ _ _ _ _ _ H) as (own & Hs & Hi). exists own.
  assert (sv ∈ own) as Hx by (apply Hi; unfold in_use; cbn; set_solver).
  destruct (sockets_ok_live k opened _ _ _ _ Hs Hx) as [e He]. by exists e.
Qed.

(** What was taken and given back leaves the rest as it was. *)
Lemma held_back l G G' I sk B A own sk' B' :
  held l G I sk B A -> sockets_ok k opened own ∅ sk' -> in_use l ⊆ own ->
  dom (cells sk'.1) = in_use l ∪ G' -> G' ## in_use l -> Forall (eq false) (oom sk'.1) ->
  heap_ok B' -> cells B' = cells B -> held l G' I sk' B' A.
Proof using.
  intros [Hp Hs Hl Hg Hd Hm Hb Hbl Ho Ha] Hs' Hi' El Hg' Hm' Hb' EB.
  split; try done; [by exists own | by rewrite EB].
Qed.

Lemma held_add l G I sk B A dd i own v sk' data :
  held l G I sk B A -> cells I !! pi = Some dd -> first_unused 0 (conns dd) = Some i ->
  data_conn data = Some (next_block sk.1) -> sockets_ok k opened ({[next_block sk.1]} ∪ own) ∅ sk' -> in_use l ⊆ own ->
  cells sk'.1 = <[next_block sk.1 := v]> (cells sk.1) -> oom sk'.1 = tail (oom sk.1) ->
  held (l ++ [Client i (next_block sk.1) (next_block B)]) G
    (stored pi (set_conns (<[Z.to_nat i := new_conn data]> (conns dd)) dd) I) sk' (grown tt B)
    (<[i := Some (next_block B)]> A).
Proof using.
  intros [(dd' & H1 & H2 & H3) (own0 & Hs & _) Hl Hg Hd Hm Hb Hbl Ho Ha] Hdd Hf Hq Hs' Hin E Eo.
  assert (dd' = dd) as -> by congruence.
  pose proof (pool_add _ _ i _ (next_block B) data H3 Hf Hq) as Hpool.
  pose proof (heap_ok_fresh _ Hb) as Hfb. apply not_elem_of_dom in Hfb. rewrite Hbl in Hfb.
  pose proof (heap_ok_fresh _ (so_heap _ _ _ _ _ Hs)) as Hfs. apply not_elem_of_dom in Hfs. rewrite Hl in Hfs.
  apply not_elem_of_union in Hfs as [Hfs HfG]. rewrite elem_of_list_to_set in Hfb.
  pose proof Hfs as Hfs'. unfold in_use in Hfs'. rewrite elem_of_list_to_set in Hfs'.
  assert (in_use (l ++ [Client i (next_block sk.1) (next_block B)]) = {[next_block sk.1]} ∪ in_use l) as Euse.
  { unfold in_use. rewrite fmap_app, app_comm_cons, list_to_set_app_L. cbn. set_solver. }
  split; rewrite ?Euse, ?fmap_app.
  - exists (set_conns (<[Z.to_nat i := new_conn data]> (conns dd)) dd).
    split; [apply lookup_insert_eq |]. by destruct dd.
  - eexists. split; [exact Hs' |]. set_solver.
  - rewrite E, dom_insert_L, Hl. set_solver.
  - set_solver.
  - rewrite app_comm_cons. apply NoDup_app. splits; [done | | apply NoDup_singleton].
    intros q Hq' ->%list_elem_of_singleton. done.
  - rewrite Eo. destruct Hm; [done | by cbn].
  - apply (heap_ok_insert B); [done | lia..].
  - cbn [grown cells]. rewrite dom_insert_L, Hbl, list_to_set_app_L. cbn. set_solver.
  - apply NoDup_app. splits; [done | | apply NoDup_singleton].
    intros q Hq' ->%list_elem_of_singleton. done.
  - pose proof (po_ids _ _ Hpool) as Hids. rewrite fmap_app in Hids. apply NoDup_app in Hids as (_ & Hids & _).
    apply Forall_app_2; [| constructor; [apply lookup_insert_eq | done]].
    apply Forall_forall. intros x Hx. rewrite lookup_insert_ne; [by apply (proj1 (Forall_forall _ _) Ha) |].
    intros Ex. apply (Hids (cl_id x)); [by apply list_elem_of_fmap_2 | cbn; rewrite Ex; apply list_elem_of_here].
Qed.

Lemma in_use_cons x l : in_use (x :: l) = {[cl_sock x]} ∪ in_use l.
Proof using. clear -sv. unfold in_use. cbn. set_solver. Qed.

Lemma in_use_next x l : NoDup (sv :: (cl_sock <$> (x :: l))) -> cl_sock x ∉ in_use l.
Proof using.
  intros [Hd1 Hd2]%NoDup_cons. cbn [fmap list_fmap] in *. apply NoDup_cons in Hd2 as [Hd2 _].
  apply not_elem_of_cons in Hd1 as [Hd0 _]. unfold in_use.
  rewrite elem_of_list_to_set. intros [->%symmetry | H]%elem_of_cons; done.
Qed.

(** Without its client, whose descriptor is freed or left. *)
Lemma held_del x l G G' I sk B A dd c own sk' :
  held (x :: l) G I sk B A -> cells I !! pi = Some dd -> sockets_ok k opened own ∅ sk' -> in_use l ⊆ own ->
  dom (cells sk'.1) = in_use l ∪ G' -> G' ## in_use l -> oom sk'.1 = oom sk.1 ->
  held l G' (stored pi (set_conns (<[Z.to_nat (cl_id x) := with_used false c]> (conns dd)) dd) I) sk'
    (freed (cl_buf x) B) A.
Proof using.
  intros [(dd' & H1 & H2 & H3) Hs Hl Hg Hd Hm Hb Hbl Ho Ha] Hdd Hs' Hin El Hg' Eo.
  assert (dd' = dd) as -> by congruence. cbn [fmap list_fmap] in *.
  apply NoDup_cons in Hd as [Hd1 Hd2]. apply NoDup_cons in Hd2 as [Hd2 Hd3]. apply NoDup_cons in Ho as [Ho1 Ho2].
  rewrite not_elem_of_cons in Hd1. destruct Hd1 as [Hd0 Hd1].
  split; try done.
  - exists (set_conns (<[Z.to_nat (cl_id x) := with_used false c]> (conns dd)) dd).
    split; [apply lookup_insert_eq |]. pose proof (pool_del _ _ _ c H3). by destruct dd.
  - by exists own.
  - by constructor.
  - by rewrite Eo.
  - by apply heap_ok_delete.
  - cbn [freed cells]. rewrite dom_delete_L, Hbl. cbn.
    rewrite <- (elem_of_list_to_set (C := gset positive)) in Ho1. set_solver.
  - by apply Forall_cons in Ha as [_ Ha].
Qed.

(** A connection that took a step. *)
Lemma held_step x l G I sk B A dd c c' sk' :
  held (x :: l) G I sk B A -> cells I !! pi = Some dd -> conns dd !! Z.to_nat (cl_id x) = Some c -> kept c c' ->
  sk'.1 = sk.1 -> opened sk'.2 = opened sk.2 ->
  held (x :: l) G (stored pi (set_conns (<[Z.to_nat (cl_id x) := c']> (conns dd)) dd) I) sk' B A.
Proof using.
  intros [(dd' & H1 & H2 & H3) (own & Hs & Hin) Hl Hg Hd Hm Hb Hbl Ho Ha] Hdd Hc Hk E Eo.
  assert (dd' = dd) as -> by congruence. split; rewrite ?E; try done.
  - exists (set_conns (<[Z.to_nat (cl_id x) := c']> (conns dd)) dd).
    split; [apply lookup_insert_eq |]. pose proof (pool_keep _ _ _ _ _ H3 Hc Hk). by destruct dd.
  - exists own. split; [| done].
    destruct sk as [h w], sk' as [h' w']. cbn in E, Eo. subst h'. by apply (sockets_ok_world k opened own ∅ h w w').
Qed.

(** *** The parts of the state *)

Lemma on_link_run {X} (c : cmd link_state X) Q I m sk B A x sk' :
  c sk = Done (x, sk') -> on_link c (net_at Q I m sk B A) = Done (x, net_at Q I m sk' B A).
Proof using. intros E. unfold on_link, on_prog. by erewrite zoom_done by (eapply zoom_done; exact E). Qed.

Lemma on_bufs_run {X} (c : cmd (heap unit) X) Q I m sk B A x B' :
  c B = Done (x, B') -> on_bufs c (net_at Q I m sk B A) = Done (x, net_at Q I m sk B' A).
Proof using. intros E. unfold on_bufs. by erewrite zoom_done by exact E. Qed.

Lemma on_prog_run {X} (c : cmd (app_state W link_state) X) Q I m sk B A x Q' I' m' sk' :
  c (with_desc D0 d T Y Q I m sk) = Done (x, with_desc D0 d T Y Q' I' m' sk') ->
  on_prog c (net_at Q I m sk B A) = Done (x, net_at Q' I' m' sk' B A).
Proof using. intros E. unfold on_prog. by erewrite zoom_done by exact E. Qed.

Lemma iiod_run {X} (c : cmd daemons X) Q I m sk B A x I' :
  c I = Done (x, I') -> on_prog (on_iiod c) (net_at Q I m sk B A) = Done (x, net_at Q I' m sk B A).
Proof using. intros E. apply on_prog_run. unfold on_iiod. by erewrite zoom_done by exact E. Qed.

Lemma load_run Q I m sk B A :
  on_prog (on_st_descs (hload (Some p))) (net_at Q I m sk B A) = Done (d, net_at Q I m sk B A).
Proof using. apply on_prog_run, load_desc_run. Qed.

Context (Hi : ia_iiod d = Some pi) (Hq : ia_conns d = Some pq).
Context (Hspins : (0 < spins)%nat) (Hfuel : (10 < fuel)%nat) {HN : NetLaws net opened}.

Lemma push_run l x Q I m sk B A :
  queued l Q ->
  exists Q', on_prog (push_conn spins fuel (Some p) (cl_id x)) (net_at Q I m sk B A)
      = Done (0, net_at Q' I m sk B A) /\ queued (l ++ [x]) Q'.
Proof using Hspins Hfuel Hq.
  intros [h Hh].
  destruct (push_conn_run spins fuel D0 Hspins ltac:(lia) d T Y Q I m sk (cl_id x) _ _ pq pb Hq Hh) as (Q' & E & Hrep & _).
  exists Q'. split; [by apply on_prog_run |]. exists h.
  by rewrite !fmap_app, concat_app, app_assoc; cbn [fmap list_fmap concat]; rewrite app_nil_r.
Qed.

Lemma pop_next_run x l Q I m sk B A cs :
  pool_of (x :: l) cs -> queued (x :: l) Q ->
  exists Q', on_prog (pop_conn spins fuel (Some p)) (net_at Q I m sk B A)
      = Done ((0, cl_id x), net_at Q' I m sk B A) /\ queued l Q'.
Proof using Hspins Hfuel Hq.
  intros Hp [h Hh]. pose proof (pool_size _ _ Hp) as Hs. pose proof (pool_id _ _ x Hp ltac:(by left)) as Hx.
  cbn [length] in Hs. unfold IIOD_MAX_CONNECTIONS in *.
  destruct (pop_conn_run spins fuel D0 Hspins ltac:(lia) d T Y Q I m sk (cl_id x) h
    (concat (u32_bytes <$> (cl_id <$> l))) pq pb Hq) as (Q' & E & Hrep).
  - unfold uint. lia.
  - rewrite length_concat_ids, length_fmap. lia.
  - exact Hh.
  - exists Q'. split; [by apply on_prog_run |]. by eexists.
Qed.

(** *** New clients *)

(** The removal of a descriptor that is in use, and what is left after it. *)
Lemma remove_sock_run Q I m (sk : link_state) B A own q e U G :
  sockets_ok k opened own ∅ sk -> {[q]} ∪ U ⊆ own -> q ∉ U -> cells sk.1 !! q = Some e ->
  dom (cells sk.1) = ({[q]} ∪ U) ∪ G -> G ## {[q]} ∪ U ->
  exists ret (sk2 : link_state) own2 G2, socket_remove nets (Some q) sk = Done (ret, sk2) /\
    on_link (socket_remove nets (Some q)) (net_at Q I m sk B A) = Done (ret, net_at Q I m sk2 B A) /\
    sockets_ok k opened own2 ∅ sk2 /\ U ⊆ own2 /\ dom (cells sk2.1) = U ∪ G2 /\ G2 ## U /\
    oom sk2.1 = oom sk.1 /\ more_left G G2 /\ G2 ⊆ {[q]} ∪ G.
Proof using HN.
  clear Hi Hq Hspins Hfuel device trigger. intros Hs Hin Hq He Hl Hg.
  destruct (socket_remove_run nets k opened own ∅ sk q e Hs He ltac:(left; set_solver))
    as (ret & sk2 & E & Eo & [(-> & Ec & Hs2) | (Hr & Ec & Hs2 & Hno)]).
  - exists 0, sk2, (own ∖ {[q]}), G. splits; try done; [by apply on_link_run | set_solver | | set_solver | set_solver].
    rewrite Ec, dom_delete_L, Hl. set_solver.
  - assert (exists own2, sockets_ok k opened own2 ∅ sk2 /\ U ⊆ own2) as (own2 & Hs3 & Hu).
    { destruct Hs2; eexists; (split; [done | set_solver]). }
    exists ret, sk2, own2, ({[q]} ∪ G). splits; try done; [by apply on_link_run | rewrite Ec, Hl; set_solver | set_solver |].
    split; [set_solver |]. intros Hall. destruct Hno. split; [set_solver | done].
Qed.

(** The network has a client for the server, and there is memory for its socket
    and its buffer. *)
Definition client_waits (s : st) : Prop :=
  match socket_accept nets (ns_server s) (st_link (ns_app s)) with
  | Done (r, _) => 0 <= r.1
  | _ => False
  end /\ alloc_fails (ns_bufs s) = false.

(** A turn: an error leaves everything as it was, otherwise there is one more
    client; where one waits, the only error is that all connections are used. *)
Definition turned (l : list client) (G : gset positive) (m : mem) (s : st) (r : unit + Z) (s' : st) : Prop :=
  match r with
  | inl _ => exists x, owned (l ++ [x]) G m s'
  | inr e => e < 0 /\ (exists G', more_left G G' /\ owned l G' m s') /\ (client_waits s -> e = - EBUSY)
  end.

(** The socket of a client that is not kept. *)
Lemma close_back_run l G Q I m (sk sk' : link_state) B B' A own v :
  sockets_ok k opened ({[next_block sk.1]} ∪ own) ∅ sk' -> in_use l ⊆ own ->
  cells sk'.1 = <[next_block sk.1 := v]> (cells sk.1) -> Forall (eq false) (oom sk'.1) ->
  heap_ok B' -> cells B' = cells B -> queued l Q -> held l G I sk B A ->
  forall ret s, ret < 0 -> (client_waits s -> ret = - EBUSY) ->
  wp (close_socket net (Some (next_block sk.1)) ret) (turned l G m s) (net_at Q I m sk' B' A).
Proof using HN.
  clear Hi Hq Hspins Hfuel. intros Hs' Hin E1 Hm' HB' EB HQ H ret s Hret Hbusy.
  destruct (he_socks _ _ _ _ _ _ H) as (own0 & Hs0 & _).
  pose proof (heap_ok_fresh _ (so_heap _ _ _ _ _ Hs0)) as Hf. apply not_elem_of_dom in Hf.
  rewrite (he_live _ _ _ _ _ _ H) in Hf. apply not_elem_of_union in Hf as [Hf HfG].
  destruct (remove_sock_run Q I m sk' B' A _ (next_block sk.1) v (in_use l) G Hs')
    as (rc & sk2 & own2 & G2 & _ & E2 & Hs2 & Hin2 & Hl2 & Hg2 & Eo2 & Hmore & _); try done.
  { set_solver. }
  { rewrite E1. apply lookup_insert_eq. }
  { rewrite E1, dom_insert_L, (he_live _ _ _ _ _ _ H). set_solver. }
  { pose proof (he_gone _ _ _ _ _ _ H). set_solver. }
  unfold close_socket. eapply sat_run; [exact E2 |]. apply sat_ret. split; [done | split; [| done]].
  exists G2. split; [done |]. constructor; [done |].
  eapply held_back; [done | done | done | done | done | by rewrite Eo2 | done | done].
Qed.

Lemma conn_add_run (I : daemons) dd data :
  cells I !! pi = Some dd ->
  iiod_conn_add (Some pi) (Some data) false I =
    match first_unused 0 (conns dd) with
    | None => Done ((- EBUSY, None), I)
    | Some i => Done ((0, Some i), stored pi (set_conns (<[Z.to_nat i := new_conn data]> (conns dd)) dd) I)
    end.
Proof using.
  intros H. unfold iiod_conn_add. rewrite (bind_done _ _ _ _ _ (hload_done I pi _ H)).
  destruct (first_unused 0 (conns dd)) as [i |]; [| done].
  rewrite (bind_done (the (Some data)) _ I data I) by done.
  by rewrite (bind_done _ _ _ _ _ (hstore_done I pi _ _ H)).
Qed.

Lemma accept_turn_run l G m s :
  owned l G m s ->
  wp (accept_turn spins fuel net (Some p) tt) (turned l G m s) s.
Proof using Hi Hq Hspins Hfuel HN.
  intros [Q I sk B A HQ H]. unfold accept_turn.
  eapply (sat_run (gets ns_server)); [done |].
  destruct (held_server _ _ _ _ _ _ H) as (own & e & Hs & Hin & Hsv & He).
  destruct (socket_accept_run nets k opened own ∅ sk sv Hs Hsv) as (r & q & sk' & E & Hc).
  eapply sat_run; [apply on_link_run; exact E |]. unfold NO_OS_IS_ERR_VALUE at 1. cbn [fst snd].
  destruct Hc as [(Hr & -> & E1 & Hs') | [(-> & -> & Hs' & Ha & Eo & id & E1) | (_ & _ & Ha & _)]].
  - rewrite (proj2 (Z.ltb_lt r 0) Hr). apply sat_ret. split; [done | split].
    + exists G. split; [done |]. constructor; [done |].
      eapply held_back; [done | exact Hs' | done | rewrite E1; apply H | apply H | rewrite E1; apply H | apply H | done].
    + intros [Hw _]. unfold client_waits in Hw. cbn in Hw. rewrite E in Hw. cbn in Hw. lia.
  - change (0 <? 0) with false. cbv iota.
    assert (Forall (eq false) (oom sk'.1)) as Hm'
      by (rewrite Eo; destruct (he_memory _ _ _ _ _ _ H); [done | by cbn]).
    pose proof (fun Q I B' => close_back_run l G Q I m sk sk' B B' A own _ Hs' Hin E1 Hm') as Hclose.
    destruct (alloc_fails B) eqn:Eb.
    { eapply sat_run; [apply on_bufs_run, halloc_fail, Eb |].
      apply (Hclose Q I (refused B)); [apply H | done.. |]. intros [_ Hb]. cbn in Hb. congruence. }
    eapply sat_run; [apply on_bufs_run, halloc_done, Eb |]. cbv zeta iota.
    eapply sat_run; [apply load_run |]. rewrite Hi.
    destruct (he_pool _ _ _ _ _ _ H) as (dd & Hdd & Hops & Hpool).
    set (data := ConnData _ _ _). pose proof (conn_add_run I dd data Hdd) as Eadd.
    destruct (first_unused 0 (conns dd)) as [i |] eqn:Ef;
      (eapply sat_run; [apply iiod_run; exact Eadd |]).
    + change (NO_OS_IS_ERR_VALUE (0, Some i).1) with false. change (default 0 (0, Some i).2) with i. cbv iota zeta.
      eapply (sat_run (modify _)); [done |].
      destruct (push_run l (Client i (next_block sk.1) (next_block B)) Q
        (stored pi (set_conns (<[Z.to_nat i := new_conn data]> (conns dd)) dd) I) m sk' (grown tt B)
        (<[i := Some (next_block B)]> A) HQ) as (Q' & E3 & HQ').
      cbn [cl_id] in E3. eapply sat_run; [exact E3 |]. apply sat_ret. eexists. constructor; [done |].
      by eapply held_add.
    + change (NO_OS_IS_ERR_VALUE (- EBUSY, None).1) with true. cbv iota. unfold free_buf.
      eapply sat_run; [apply on_bufs_run; eapply hfree_done; apply lookup_insert_eq |].
      apply (Hclose Q I (freed (next_block B) (grown tt B))); [| | done..].
      * apply heap_ok_delete, (heap_ok_insert B); [apply H | lia..].
      * apply freed_grown, H.
  - exfalso. revert Ha. unfold alloc_fails. by destruct (he_memory _ _ _ _ _ _ H) as [| ? ? <-].
Qed.

Lemma owned_size l G m s : owned l G m s -> (length l <= Z.to_nat IIOD_MAX_CONNECTIONS)%nat.
Proof using. intros [Q I sk B A _ H]. destruct (he_pool _ _ _ _ _ _ H) as (dd & _ & _ & Hp). by eapply pool_size. Qed.

(** There are at most ten turns that accept a client. *)
Lemma accept_run l G m s :
  owned l G m s ->
  wp (accept_network_clients spins fuel net (Some p)) (fun e s' =>
    e < 0 /\ exists new G', more_left G G' /\ owned (l ++ new) G' m s') s.
Proof using Hi Hq Hspins Hfuel HN.
  intros H. unfold accept_network_clients.
  apply (sat_while (fun n _ s => exists new, owned (l ++ new) G m s /\
    n = (Z.to_nat IIOD_MAX_CONNECTIONS - length (l ++ new))%nat)) with (n := (Z.to_nat IIOD_MAX_CONNECTIONS - length l)%nat).
  - intros n [] s1 (new & H1 & ->). eapply sat_mono; [by apply accept_turn_run |].
    intros [[] | e] s2.
    + intros [x H2]. pose proof (owned_size _ _ _ _ H2) as Hs. rewrite length_app in Hs. cbn [length] in Hs.
      rewrite <- app_assoc in H2. eexists. split; [| eexists; split; [exact H2 | done]].
      rewrite app_assoc, (length_app _ [x]). cbn [length]. lia.
    + intros (He & (G' & HG & H2) & _). eauto.
  - unfold IIOD_MAX_CONNECTIONS. lia.
  - exists []. by rewrite app_nil_r.
Qed.

(** *** A turn of a client *)

(** What the daemon changes: the devices, and the network without opening or
    closing a socket. *)
Definition links_kept (x y : mem * link_state) : Prop := y.2.1 = x.2.1 /\ opened y.2.2 = opened x.2.2.

#[local] Instance links_kept_preorder : PreOrder links_kept.
Proof. split; [done | intros x y z [H1 H2] [H3 H4]; split; congruence]. Qed.

Lemma changes_devices {X} (c : cmd mem X) : changes links_kept (on_devices (X := link_state) c).
Proof using.
  intros [m sk] x y E. unfold on_devices, zoom in E. cbn [fst snd] in E. destruct (c m) as [[a m'] | |]; [| done..].
  by injection E as <- <-.
Qed.

Lemma changes_net {X} (f : network_interface V -> Z -> cmd V X) desc :
  (forall id w x w', f net id w = Done (x, w') -> opened w' = opened w) ->
  forall (sk : link_state) x sk', (n ← net_of nets desc; on_net (f n.1 n.2)) sk = Done (x, sk') ->
  sk'.1 = sk.1 /\ opened sk'.2 = opened sk.2.
Proof using.
  intros Hf sk x sk' E.
  assert (forall n sk1, net_of nets desc sk = Done (n, sk1) -> n.1 = net /\ sk1 = sk) as Hn.
  { intros n sk1. unfold net_of, dev_load, zoom, hload, mbind, cmd_bind. destruct desc as [q |]; [| done]. cbn.
    destruct sk as [h w]. cbn. destruct (cells h !! q) as [e |]; [| done]. destruct (ts_net e); [| done].
    by intros [= <- <-]. }
  unfold mbind, cmd_bind in E. destruct (net_of nets desc sk) as [[n sk1] | |]; [| done..].
  destruct (Hn n sk1 eq_refl) as [E1 ->]. unfold on_net, zoom in E. rewrite E1 in E.
  destruct (f net n.2 sk.2) as [[y w'] | |] eqn:Ef; [| done..]. injection E as <- <-. split; [done | by eapply Hf].
Qed.

Lemma changes_link {X} (c : cmd link_state X) :
  (forall sk x sk', c sk = Done (x, sk') -> sk'.1 = sk.1 /\ opened sk'.2 = opened sk.2) ->
  changes links_kept (zoom snd (fun x (s : mem * link_state) => (s.1, x)) c).
Proof using.
  intros H [m sk] x y E. unfold zoom in E. cbn [fst snd] in E. destruct (c sk) as [[a sk'] | |] eqn:Ec; [| done..].
  injection E as <- <-. by apply (H sk a).
Qed.

Lemma net_ops_change : ops_change links_kept net_ops.
Proof using HN.
  unfold net_ops, iio_ops, iiod_copy_ops. split; cbn; intros f [= <-]; intros; try apply changes_devices.
  - apply changes_link. intros sk x sk' E. unfold net_link, socket_send in E. cbn in E.
    destruct ctx.2 as [q |]; [| by injection E as <- <-].
    eapply (changes_net (fun n id => net_send n id bytes)); [| exact E].
    intros i w y w' Ey. destruct (send_law (n := net) i bytes w) as (r & w2 & E2 & Eo & _). congruence.
  - apply changes_link. intros sk x sk' E. unfold net_link, socket_recv in E. cbn in E.
    destruct ctx.2 as [q |]; [| by injection E as <- <-].
    eapply (changes_net (fun n' id => net_recv n' id n)); [| exact E].
    intros i w y w' Ey. destruct (recv_law (n := net) i n w) as (r & w2 & E2 & Eo & _). congruence.
  - by intros s x y [= <- <-].
Qed.

(** What the daemon works on. *)
Definition daemon_state (s : st) : daemons * (mem * link_state) :=
  (st_iiod (ns_app s), (st_mem (ns_app s), st_link (ns_app s))).

(** The client that is next takes a step of its connection, and then waits
    behind the others, or it has left and everything of it is given back, but
    for a socket that the network does not close.  The step of the connection
    need not return: the client can send what nothing checks, and a cyclic
    buffer keeps the daemon from returning. *)
Definition turn_of (l : list client) (G : gset positive) (s : st) (step : outcome (Z * st)) : Prop :=
  match l with
  | [] => step = Done (- EAGAIN, s)
  | x :: rest =>
      match iiod_conn_step long_bits fuel (Some pi) (cl_id x) (daemon_state s) with
      | Done (ret, (J, (m, sk))) => exists s', step = Done (ret, s') /\
          if ret =? - ENOTCONN then exists G', more_left G G' /\ owned rest G' m s'
          else owned (rest ++ [x]) G m s' /\ daemon_state s' = (J, (m, sk))
      | Undef => step = Undef
      | NoFuel => step = NoFuel
      end
  end.

Lemma leave_run x l G Q I m sk B A dd c :
  queued l Q -> held (x :: l) G I sk B A -> cells I !! pi = Some dd -> conns dd !! Z.to_nat (cl_id x) = Some c ->
  exists G' s', more_left G G' /\ owned l G' m s' /\
  (x' ← on_prog (on_iiod (iiod_conn_remove (Some pi) (cl_id x)));
   data ← the x'.2;
   _ ← on_link (socket_remove nets (data_conn data));
   a ← gets (fun s => default None (ns_addrs s !! cl_id x));
   _ ← on_bufs (hfree a);
   mret (- ENOTCONN)) (net_at Q I m sk B A) = Done (- ENOTCONN, s').
Proof using HN.
  clear Hi Hq Hspins Hfuel.
  intros HQ H Hdd Hc. pose proof H as [(dd' & H1 & H2 & H3) _ Hl Hg Hd Hm Hb Hbl Ho Ha].
  assert (dd' = dd) as -> by congruence. pose proof (pool_id _ _ x H3 ltac:(by left)) as Hid.
  pose proof (po_conns _ _ H3) as [(_ & c' & Hc' & Hu & Hq') _]%Forall_cons. assert (c' = c) as -> by congruence.
  destruct (held_sock _ _ _ _ _ _ _ H) as (own & e & Hs & Hin & _ & He). rewrite in_use_cons in Hin, Hl, Hg.
  destruct (remove_sock_run Q (stored pi (set_conns (<[Z.to_nat (cl_id x) := with_used false c]> (conns dd)) dd) I)
    m sk B A own (cl_sock x) e (in_use l) G Hs Hin (in_use_next _ _ Hd) He Hl Hg)
    as (rc & sk2 & own2 & G2 & _ & Er & Hs2 & Hin2 & Hl2 & Hg2 & Eo2 & Hmore & _).
  exists G2. eexists. split; [exact Hmore |]. split.
  2:{ erewrite bind_done.
      2:{ apply iiod_run. unfold iiod_conn_remove. erewrite bind_done by (eapply conn_of_run; eauto; lia).
          unfold conn_store. erewrite bind_done; [done |]. erewrite bind_done by (apply hload_done; exact Hdd).
          eapply hstore_done. exact Hdd. }
      cbn [snd]. erewrite bind_done by done. cbn [data_conn]. rewrite Hq'.
      erewrite bind_done by exact Er.
      erewrite bind_done by done. cbn [ns_addrs net_at]. apply Forall_cons in Ha as [-> _]. cbn [default].
      erewrite bind_done by (apply on_bufs_run; eapply hfree_done, held_buf, H). done. }
  constructor; [done |]. by eapply held_del.
Qed.

Lemma serve_run l G m s : owned l G m s -> turn_of l G s (serve_next long_bits spins fuel net (Some p) s).
Proof using Hi Hq Hspins Hfuel HN.
  intros [Q I sk B A HQ H]. unfold turn_of, serve_next. destruct l as [| x l].
  - destruct HQ as [h Hh]. cbn [fmap list_fmap concat] in Hh. rewrite app_nil_r in Hh.
    erewrite bind_done by (eapply on_prog_run, pop_conn_none; [done | lia | done | exact Hh]). done.
  - destruct (he_pool _ _ _ _ _ _ H) as (dd & Hdd & Hops & Hp).
    destruct (pop_next_run x l Q I m sk B A _ Hp HQ) as (Q1 & E1 & HQ1).
    rewrite (bind_done _ _ _ _ _ E1). change (NO_OS_IS_ERR_VALUE (0, cl_id x).1) with false. cbn [snd].
    rewrite (bind_done _ _ _ _ _ (load_run Q1 I m sk B A)), Hi.
    pose proof (po_conns _ _ Hp) as [(H0 & c & Hc & Hu & Hconn) _]%Forall_cons.
    pose proof (pool_id _ _ x Hp ltac:(by left)) as Hid.
    pose proof (conn_step_frame links_kept long_bits fuel pi (cl_id x) I dd c (m, sk) Hdd Hc Hu ltac:(lia)
      ltac:(rewrite Hops; apply net_ops_change)) as Hfr.
    change (daemon_state (net_at Q I m sk B A)) with (I, (m, sk)).
    assert (forall y J m' sk', iiod_conn_step long_bits fuel (Some pi) (cl_id x) (I, (m, sk)) = Done (y, (J, (m', sk'))) ->
      on_prog (on_daemon (iiod_conn_step long_bits fuel (Some pi) (cl_id x))) (net_at Q1 I m sk B A)
      = Done (y, net_at Q1 J m' sk' B A)) as Hrun.
    { intros y J m' sk' E. apply on_prog_run. unfold on_daemon. by erewrite zoom_done by exact E. }
    destruct (iiod_conn_step long_bits fuel (Some pi) (cl_id x) (I, (m, sk))) as [[ret [J [m' sk']]] | |] eqn:E.
    + destruct Hfr as (c' & Hk & [HR1 HR2] & EJ). rewrite (bind_done _ _ _ _ _ (Hrun _ _ _ _ eq_refl)).
      pose proof (held_step x l G I sk B A dd c c' sk' H Hdd Hc Hk HR1 HR2) as H'.
      replace J with (stored pi (set_conns (<[Z.to_nat (cl_id x) := c']> (conns dd)) dd) I) in * by done.
      destruct (Z.eqb_spec ret (- ENOTCONN)) as [-> | Hne].
      * destruct (leave_run x l G Q1 _ m' sk' B A _ c' HQ1 H' (lookup_insert_eq _ _ _)) as (G' & s' & HG & Hs' & E').
        { apply list_lookup_insert_eq. by eapply lookup_lt_Some. }
        exists s'. split; [exact E' |]. by exists G'.
      * destruct (push_run l x Q1
          (stored pi (set_conns (<[Z.to_nat (cl_id x) := c']> (conns dd)) dd) I) m' sk' B A HQ1) as (Q2 & E2 & HQ2). rewrite (bind_done _ _ _ _ _ E2).
        eexists. split; [done |]. split; [| done]. constructor; [done |].
        eapply held_perm; [| exact H']. by rewrite Permutation_cons_append.
    + apply bind_undef. unfold on_prog, on_daemon, zoom. cbn. by rewrite E.
    + apply bind_nofuel. unfold on_prog, on_daemon, zoom. cbn. by rewrite E.
Qed.

(** *** A step of the program *)

Lemma triggers_run l G m m1 s :
  owned l G m s -> iio_process_async_triggers device m = Done (tt, m1) ->
  exists s0, on_prog (on_mem (iio_process_async_triggers device)) s = Done (tt, s0) /\ owned l G m1 s0 /\
    ns_server s0 = Some sv /\ (client_waits s -> client_waits s0).
Proof using.
  intros [Q I sk B A HQ H] E. exists (net_at Q I m1 sk B A). split; [| split; [by constructor | done]].
  apply on_prog_run. unfold on_mem. by erewrite zoom_done by exact E.
Qed.

(** C2: a step of the program with the clients [l] always ends the phase that
    accepts clients, with an error and perhaps more clients in the queue; unless
    the error is that nobody else waits the step returns it, and otherwise it is
    a step of the connection that is next: if that returns, the client then
    waits behind the others or, when it has left, gives back its connection, its
    buffer and its socket.  Connections, sockets and buffers stay those of the
    clients and of the server, whichever allocations of buffers fail; a socket
    that the network fails to close is left with its descriptor, in [G]. *)
Theorem iio_network_step_correct l G m m1 s :
  owned l G m s -> iio_process_async_triggers device m = Done (tt, m1) ->
  exists s0 e new G1 s1, owned l G m1 s0 /\
    accept_network_clients spins fuel net (Some p) s0 = Done (e, s1) /\ e < 0 /\
    more_left G G1 /\ owned (l ++ new) G1 m1 s1 /\
    let step := iio_step_network long_bits spins fuel net device (Some p) s in
    if e =? - EAGAIN then turn_of (l ++ new) G1 s1 step else step = Done (e, s1).
Proof using Hi Hq Hspins Hfuel HN.
  intros H Em. destruct (triggers_run l G m m1 s H Em) as (s0 & E0 & H0 & Hsv & _). exists s0.
  pose proof (accept_run l G m1 s0 H0) as Ha. unfold triple in Ha.
  destruct (accept_network_clients spins fuel net (Some p) s0) as [[e s1] | |] eqn:Ea; [| done..].
  destruct Ha as (He & new & G1 & HG & H1). exists e, new, G1, s1. splits; try done. unfold iio_step_network.
  rewrite (bind_done _ _ _ _ _ E0), (bind_done (gets ns_server) _ s0 (Some sv) s0) by (unfold gets; by rewrite Hsv).
  rewrite (bind_done _ _ _ _ _ Ea). unfold NO_OS_IS_ERR_VALUE. rewrite (proj2 (Z.ltb_lt e 0) He). cbn [andb].
  destruct (e =? - EAGAIN); [by eapply serve_run | done].
Qed.


(** *** A full pool *)

(** C17: while ten clients are connected and another one waits, a step returns
    [- EBUSY] and serves none of them: its socket is closed again, if the network
    does so, and all the rest is as it was. *)
Theorem iio_network_full l G m m1 s :
  owned l G m s -> iio_process_async_triggers device m = Done (tt, m1) ->
  length l = Z.to_nat IIOD_MAX_CONNECTIONS -> client_waits s ->
  exists G' s', iio_step_network long_bits spins fuel net device (Some p) s = Done (- EBUSY, s') /\
    owned l G' m1 s' /\ more_left G G'.
Proof using Hi Hq Hspins Hfuel HN.
  intros H Em Hl Hw. destruct (triggers_run l G m m1 s H Em) as (s0 & E0 & H0 & Hsv & Hw0).
  pose proof (accept_turn_run l G m1 s0 H0) as Ht. unfold triple in Ht.
  destruct (accept_turn spins fuel net (Some p) tt s0) as [[r s1] | |] eqn:Ea; [| done..].
  destruct r as [[] | e].
  { destruct Ht as [x Hx]. pose proof (owned_size _ _ _ _ Hx) as Hs. rewrite length_app in Hs. cbn [length] in Hs. lia. }
  destruct Ht as (_ & (G' & HG & H1) & He). rewrite (He (Hw0 Hw)) in Ea. exists G', s1. split; [| done]. unfold iio_step_network.
  rewrite (bind_done _ _ _ _ _ E0), (bind_done (gets ns_server) _ s0 (Some sv) s0) by (unfold gets; by rewrite Hsv).
  destruct fuel as [| n] eqn:Efuel; [lia |]. rewrite (bind_done _ _ s0 (- EBUSY) s1); [done |].
  unfold accept_network_clients. cbn [loop]. rewrite (bind_done _ _ _ _ _ Ea). done.
Qed.

(** *** Starting and stopping *)

(** A connection of the pool, of a client or not. *)
Lemma remove_client_run i l G Q I m sk B A :
  held l G I sk B A -> 0 <= i < IIOD_MAX_CONNECTIONS ->
  exists l' G' I' sk' B', remove_client net (Some pi) i (net_at Q I m sk B A) = Done (tt, net_at Q I' m sk' B' A) /\
    held l' G' I' sk' B' A /\ (forall x, x ∈ l' -> x ∈ l /\ cl_id x <> i) /\ more_left G G' /\ G' ⊆ G ∪ in_use l.
Proof using HN.
  clear Hi Hq Hspins Hfuel.
  intros H Hir. pose proof (he_pool _ _ _ _ _ _ H) as (dd & Hdd & Hops & Hp).
  destruct (lookup_lt_is_Some_2 (conns dd) (Z.to_nat i)) as [c Hc]; [rewrite (po_length _ _ Hp); lia |].
  destruct (used c) eqn:Hu.
  - pose proof (po_used _ _ Hp _ _ Hc Hu) as (x & Ex & Hx)%list_elem_of_fmap. rewrite Z2Nat.id in Ex by lia. subst i.
    apply elem_of_Permutation in Hx as [l' El]. apply (held_perm _ _ _ _ _ _ _ El) in H.
    rewrite (in_use_perm _ _ El).
    pose proof H as [(dd' & H1 & H2 & H3) _ Hl Hg Hd Hm Hb Hbl Ho Ha]. assert (dd' = dd) as -> by congruence.
    pose proof (po_conns _ _ H3) as [(_ & c' & Hc' & _ & Hq') _]%Forall_cons. assert (c' = c) as -> by congruence.
    destruct (held_sock _ _ _ _ _ _ _ H) as (own & e & Hs & Hin & _ & He). rewrite in_use_cons in Hin, Hl, Hg |- *.
    destruct (remove_sock_run Q (stored pi (set_conns (<[Z.to_nat (cl_id x) := with_used false c]> (conns dd)) dd) I)
      m sk (freed (cl_buf x) B) A own (cl_sock x) e (in_use l') G Hs Hin (in_use_next _ _ Hd) He Hl Hg)
      as (rc & sk2 & own2 & G2 & _ & Er & Hs2 & Hin2 & Hl2 & Hg2 & Eo2 & Hmore & Hsub).
    eexists l', G2, _, _, _. splits.
    + unfold remove_client. erewrite bind_done.
      2:{ apply iiod_run. unfold iiod_conn_remove. erewrite bind_done by (eapply conn_of_run; eauto; lia).
          unfold conn_store. erewrite bind_done; [done |]. erewrite bind_done by (apply hload_done; exact Hdd).
          eapply hstore_done. exact Hdd. }
      cbn [snd]. erewrite bind_done by done. cbn [data_conn ns_addrs net_at]. rewrite Hq'.
      apply Forall_cons in Ha as [-> _]. cbn [default].
      erewrite bind_done by (apply on_bufs_run; eapply hfree_done, held_buf, H).
      by erewrite bind_done by exact Er.
    + by eapply held_del.
    + intros y Hy. split; [rewrite El; by right |]. pose proof (po_ids _ _ H3) as [Hx _]%NoDup_cons.
      intros Ey. apply Hx. rewrite <- Ey. by apply list_elem_of_fmap_2.
    + done.
    + set_solver.
  - exists l, G, I, sk, B. splits; [| done | | done | set_solver].
    + unfold remove_client. erewrite bind_done; [| apply iiod_run; unfold iiod_conn_remove, conn_of].
      2:{ destruct (Z.ltb_spec IIOD_MAX_CONNECTIONS i); [lia |]. rewrite bind_assoc.
          erewrite bind_done by (apply hload_done; exact Hdd). rewrite Hc, bind_assoc.
          rewrite (bind_done (the (Some c)) _ I c I) by done. rewrite Hu. done. }
      done.
    + intros x Hx. split; [done |]. intros <-.
      destruct (proj1 (Forall_forall _ _) (po_conns _ _ Hp) x Hx) as (_ & c' & Hc' & Hu' & _). congruence.
Qed.

Lemma in_use_sub l l' : (forall x, x ∈ l' -> x ∈ l) -> in_use l' ⊆ in_use l.
Proof using.
  intros H q. unfold in_use. rewrite !elem_of_list_to_set, !elem_of_cons, !list_elem_of_fmap.
  intros [-> | (x & -> & Hx)]; [by left | right]. eauto.
Qed.

Lemma remove_clients_run n : forall i l G Q I m sk B A,
  held l G I sk B A -> 0 <= i -> i + Z.of_nat n <= IIOD_MAX_CONNECTIONS ->
  exists l' G' I' sk' B', for_up n i (remove_client net (Some pi)) (net_at Q I m sk B A)
      = Done (tt, net_at Q I' m sk' B' A) /\
    held l' G' I' sk' B' A /\ (forall x, x ∈ l' -> x ∈ l /\ ~ i <= cl_id x < i + Z.of_nat n) /\
    more_left G G' /\ G' ⊆ G ∪ in_use l.
Proof using HN.
  clear Hi Hq Hspins Hfuel.
  induction n as [| n IH]; intros i l G Q I m sk B A H H0 Hn; cbn [for_up].
  - exists l, G, I, sk, B. splits; [done | done | | done | set_solver]. intros x Hx. split; [done | lia].
  - destruct (remove_client_run i l G Q I m sk B A H) as (l1 & G1 & I1 & sk1 & B1 & E1 & H1 & Hl1 & HG1 & Hs1); [lia |].
    destruct (IH (i + 1) l1 G1 Q I1 m sk1 B1 A H1) as (l2 & G2 & I2 & sk2 & B2 & E2 & H2 & Hl2 & HG2 & Hs2); [lia.. |].
    pose proof (in_use_sub l l1 (fun x Hx => proj1 (Hl1 x Hx))) as Hsub.
    exists l2, G2, I2, sk2, B2. rewrite (bind_done _ _ _ _ _ E1). splits; [done | done | | by etransitivity | set_solver].
    intros x Hx. destruct (Hl2 x Hx) as [Hx1 Hi1]. destruct (Hl1 x Hx1) as [Hx2 Hi2]. split; [done | lia].
Qed.

(** C18: stopping the program closes the sockets of the clients and the server's
    and frees every buffer.  What is left of sockets are those that the network
    failed to close, with their descriptors: before, or now.  Where it closes
    what it is asked to nothing is left that was opened or allocated. *)
Theorem iio_network_removed l G m s :
  owned l G m s ->
  exists G' s', remove_network net (Some p) s = Done (tt, s') /\ cells (ns_bufs s') = ∅ /\
    dom (cells (st_link (ns_app s')).1) = G' /\
    (forall id, id ∈ opened (st_link (ns_app s')).2 ->
      exists q e, q ∈ G' /\ cells (st_link (ns_app s')).1 !! q = Some e /\ ts_id e = id) /\
    G ⊆ G' /\ G' ⊆ G ∪ in_use l /\ (always_closes net opened -> G' = G).
Proof using Hi HN.
  clear Hq Hspins Hfuel.
  intros [Q I sk B A HQ H]. unfold remove_network. rewrite (bind_done _ _ _ _ _ (load_run Q I m sk B A)), Hi.
  destruct (remove_clients_run (Z.to_nat IIOD_MAX_CONNECTIONS) 0 l G Q I m sk B A H)
    as (l' & G1 & I' & sk' & B' & E & H' & Hl' & HG1 & Hsub1);
    [unfold IIOD_MAX_CONNECTIONS; lia.. |].
  assert (l' = []) as ->.
  { destruct l' as [| x l']; [done |]. destruct (he_pool _ _ _ _ _ _ H') as (dd & _ & _ & Hp).
    pose proof (pool_id _ _ x Hp ltac:(by left)) as Hx. destruct (Hl' x ltac:(by left)) as [_ Hx']. lia. }
  rewrite (bind_done _ _ _ _ _ E). erewrite bind_done by done. cbn [ns_server net_at].
  destruct (held_server _ _ _ _ _ _ H') as (own & e & Hs & Hin & Hsv & He).
  assert (in_use [] = {[sv]} ∪ (∅ : gset positive)) as Euse by (unfold in_use; cbn; set_solver).
  pose proof (he_live _ _ _ _ _ _ H') as Hlive. pose proof (he_gone _ _ _ _ _ _ H') as Hgone.
  rewrite Euse in Hin, Hlive, Hgone.
  destruct (remove_sock_run Q I' m sk' B' A own sv e ∅ G1 Hs Hin ltac:(set_solver) He Hlive Hgone)
    as (rc & sk2 & own2 & G2 & _ & Er & Hs2 & _ & Hl2 & _ & _ & HG2 & Hsub2).
  erewrite bind_done by exact Er. exists G2. eexists. split; [done |].
  cbn [net_at ns_app ns_bufs with_desc st_link].
  pose proof (he_bufs _ _ _ _ _ _ H') as Hbufs. cbn in Hbufs. rewrite union_empty_l_L in Hl2.
  assert (sv ∈ in_use l) as Hsvl by (unfold in_use; cbn; set_solver).
  destruct (transitivity HG1 HG2 : more_left G G2) as [HG HGc].
  splits; [by apply dom_empty_inv_L | done | | done | set_solver | done].
  intros id [[]%elem_of_empty | (q & e' & Hq & He' & Eid)]%(so_open _ _ _ _ _ Hs2). exists q, e'. splits; try done.
  rewrite <- Hl2. by apply (so_live _ _ _ _ _ Hs2).
Qed.

(** The server of a program that has no clients yet. *)
Lemma held_none I sk B A dd own v :
  cells I !! pi = Some dd -> ops dd = net_ops -> pool_of [] (conns dd) ->
  sockets_ok k opened own ∅ sk -> sv ∈ own -> cells sk.1 = {[sv := v]} -> Forall (eq false) (oom sk.1) ->
  heap_ok B -> cells B = ∅ -> held [] ∅ I sk B A.
Proof using.
  clear HN Hi Hq Hspins Hfuel. intros Hdd Ho Hp Hs Hsv Hc Hm HB HcB.
  assert (in_use [] = {[sv]}) as Euse by (unfold in_use; cbn; set_solver).
  split; rewrite ?Euse; try done; [by exists dd | exists own; split; [done | set_solver] | | by apply NoDup_singleton | | by constructor].
  - rewrite Hc, dom_singleton_L. set_solver.
  - by rewrite HcB, dom_empty_L.
Qed.

Lemma net_bound_run {X} (f : network_interface V -> Z -> cmd V X) (c : cmd link_state X) Q I m sk B A own e :
  (forall s, c s = (n ← net_of nets (Some sv); on_net (f n.1 n.2)) s) ->
  sockets_ok k opened own ∅ sk -> cells sk.1 !! sv = Some e ->
  (exists a w', f net (ts_id e) sk.2 = Done (a, w') /\ opened w' = opened sk.2) ->
  exists a w', on_link c (net_at Q I m sk B A) = Done (a, net_at Q I m (sk.1, w') B A) /\
    sockets_ok k opened own ∅ (sk.1, w').
Proof using.
  intros Hc Hs He Hf. destruct (net_call_run nets k opened f own ∅ sk sv e Hs He Hf) as (a & w' & E & Hs' & _).
  exists a, w'. split; [| done]. apply on_link_run. by rewrite Hc.
Qed.

(** What is left of the server when the transport could not be started. *)
Definition server_left (s : st) : Prop :=
  dom (cells (st_link (ns_app s)).1) ⊆ {[sv]} /\
  (always_closes net opened -> cells (st_link (ns_app s)).1 = ∅ /\ opened (st_link (ns_app s)).2 = ∅).

Lemma no_sockets own (sk : link_state) : sockets_ok k opened own ∅ sk -> cells sk.1 = ∅ -> opened sk.2 = ∅.
Proof using.
  clear HN Hi Hq Hspins Hfuel. intros Hs E. apply set_eq. intros i. rewrite (so_open _ _ _ _ _ Hs i), E. split; [| set_solver].
  by intros [[]%elem_of_empty | (q & e & _ & [=] & _)].
Qed.

Lemma drop_server_run (Q : cb_mem) (I : daemons) (m : mem) (sk : link_state) (B : heap unit) (A : gmap Z ptr) own v (ret : Z) :
  sockets_ok k opened own ∅ sk -> sv ∈ own -> cells sk.1 = {[sv := v]} ->
  exists s', (_ ← on_link (socket_remove nets (Some sv)); mret ret : cmd st Z) (net_at Q I m sk B A) = Done (ret, s') /\
    server_left s'.
Proof using HN.
  clear Hi Hq Hspins Hfuel device trigger. intros Hs Hsv E.
  destruct (remove_sock_run Q I m sk B A own sv v ∅ ∅ Hs) as (rc & sk2 & own2 & G2 & _ & Er & Hs2 & _ & Hl2 & _ & _ & HG2 & Hsub);
    [set_solver | set_solver | rewrite E; apply lookup_singleton_eq | rewrite E, dom_singleton_L; set_solver | set_solver |].
  eexists. split; [by erewrite bind_done by exact Er |]. cbn. split; [set_solver |].
  intros Hall. destruct HG2 as [_ HG2]. rewrite (HG2 Hall), union_empty_l_L in Hl2.
  apply dom_empty_inv_L in Hl2. split; [done |]. by eapply no_sockets.
Qed.

(** With a daemon that has no connections and no socket open, the transport
    of [iio_init] is a server that listens and has no clients yet, or an error
    after which no socket is open and the server's descriptor is freed, unless
    the network fails to close it. *)
Theorem iio_network_started default_size size q Q I m (sk : link_state) B A dd own :
  cells I !! pi = Some dd -> ops dd = net_ops -> pool_of [] (conns dd) ->
  cb_rep Q pq pb 44 [] 0 None None ->
  sockets_ok k opened own ∅ sk -> cells sk.1 = ∅ -> Forall (eq false) (oom sk.1) -> sv = next_block sk.1 ->
  heap_ok B -> cells B = ∅ ->
  exists r s', init_network net default_size (Some (TcpSocketInit (Some k) size))
      (NetState (with_desc D0 d T Y Q I m sk) B A q) = Done (r, s') /\
    if r <? 0 then server_left s' else owned [] ∅ m s'.
Proof using HN.
  clear Hi Hq Hspins Hfuel.
  intros Hdd Hops Hp HQ Hs Hcells Hm Hsv HB HcB.
  destruct (socket_init_run nets default_size k opened own ∅ size sk Hs) as (r & q' & sk1 & E & Eo & Hr).
  unfold init_network, on_link at 1, on_prog at 1. erewrite bind_done by (eapply zoom_done, zoom_done; exact E).
  erewrite bind_done by done. unfold NO_OS_IS_ERR_VALUE. cbn [fst snd].
  destruct (Z.ltb_spec r 0) as [Hlt | Hge].
  { eexists _, _. split; [done |]. rewrite (proj2 (Z.ltb_lt r 0) Hlt). unfold server_left. cbn. destruct Hr as (_ & Hr & Hs1).
    rewrite Hcells in Hr. rewrite Hr, dom_empty_L. split; [set_solver |]. intros _. split; [done |]. by eapply no_sockets. }
  destruct Hr as (-> & -> & Hs1 & id & E1). rewrite Hcells, insert_empty, <- Hsv in E1. rewrite <- Hsv in Hs1. clear Hge.
  erewrite bind_done by done. rewrite <- Hsv. cbn [ns_server set_server].
  change (set_server _ _) with (net_at Q I m sk1 B A). set (own1 := {[sv]} ∪ own) in *.
  assert (sv ∈ own1) as Hown by (unfold own1; set_solver).
  assert (forall (sk' : link_state) ret, ret < 0 -> sockets_ok k opened own1 ∅ sk' -> cells sk'.1 = {[sv := TcpSocket id (Some k)]} ->
    exists r s', (_ ← on_link (socket_remove nets (Some sv)); mret ret : cmd st Z) (net_at Q I m sk' B A) = Done (r, s') /\
      if r <? 0 then server_left s' else owned [] ∅ m s') as Hdrop.
  { intros sk' ret Hret Hs' E'. destruct (drop_server_run Q I m sk' B A own1 _ ret Hs' Hown E') as (s2 & E2 & Hl2).
    exists ret. eexists. split; [exact E2 |]. by rewrite (proj2 (Z.ltb_lt ret 0) Hret). }
  assert (cells sk1.1 !! sv = Some (TcpSocket id (Some k))) as He by (rewrite E1; apply lookup_singleton_eq).
  destruct (net_bound_run (fun n i => net_bind n i IIOD_PORT) (socket_bind nets (Some sv) IIOD_PORT) Q I m sk1 B A own1 _
    (fun _ => eq_refl) Hs1 He (bind_law _ _ _)) as (rb & wb & Eb & Hsb).
  rewrite (bind_done _ _ _ _ _ Eb). destruct (Z.ltb_spec rb 0) as [Hlt | _]; [by apply Hdrop |].
  destruct (net_bound_run (fun n i => net_listen n i 0xFFFFFFFF) (socket_listen nets (Some sv) 0xFFFFFFFF) Q I m
    (sk1.1, wb) B A own1 _ (fun _ => eq_refl) Hsb He (listen_law _ _ _)) as (rl & wl & El & Hsl).
  rewrite (bind_done _ _ _ _ _ El). destruct (Z.ltb_spec rl 0) as [Hlt | _]; [by apply Hdrop |].
  eexists _, _. split; [done |]. constructor; [by exists [] |].
  eapply held_none; try done. cbn [fst]. rewrite Eo. by destruct Hm.
Qed.
End owned.

(** ** An instance *)

(** A network with so many clients that wait. *)
Definition nx_new (w : gset Z * nat) (n : nat) : outcome ((Z * Z) * (gset Z * nat)) :=
  Done ((0, fresh w.1), ({[fresh w.1]} ∪ w.1, n)).

Definition nx_net : network_interface (gset Z * nat) :=
  NetworkInterface (fun _ _ w => nx_new w w.2) (fun id w => Done (0, (w.1 ∖ {[id]}, w.2)))
    (fun _ _ => mret 0) (fun _ => mret 0) (fun _ _ => mret 0) (fun _ _ => mret (- EAGAIN, [])) (fun _ _ => mret 0)
    (fun _ _ => mret 0)
    (fun _ w => match w.2 with O => Done ((- EAGAIN, 0), w) | S n => nx_new w n end).

#[export] Instance nx_laws : NetLaws nx_net fst.
Proof.
  split; try (intros; eexists _, _; (split; [done |]); by auto).
  - intros proto size w. eexists _, _, _. split; [done |]. split; [apply is_fresh | done].
  - intros i data w. eexists _, _. split; [done |]. split; [done | lia].
  - intros i len w. eexists _, _. split; [done |]. split; [done |]. intros Hl. cbn. unfold EAGAIN. split; [lia |]. lia.
  - intros i [w [| n]]; eexists _, _, _; (split; [done |]); [done |]. split; [apply is_fresh | done].
Qed.

Definition nx_desc : iio_desc := IioDesc (Some 1%positive) None 0 None None None (Some 1%positive).

Definition nx_mem : iio_mem unit := IioMem [] [] (CbMem (Heap ∅ 1 []) (Heap ∅ 1 [])) tt.

Definition nx_trigger (_ : positive) : iio_trigger (iio_mem unit) := IioTrigger false None None None.

Abbreviation nx_ops := (net_ops (V := gset Z * nat) 32 1 64 nx_net (fun _ => ax_device) nx_trigger).

Definition nx_pool : heap (iiod_desc (iio_mem unit * platform tcp_socket_desc (gset Z * nat))) :=
  Heap {[1%positive := IiodDesc (replicate 10 conn0) nx_ops None [] 0 USE_NETWORK]} 2 [].

Definition nx_queue : cb_mem := new_cb (CbMem (Heap ∅ 1 []) (Heap ∅ 1 [])) 44.

(** A server, and [n] clients that wait for it. *)
Definition nx_state (n : nat) : net_state unit (gset Z * nat) :=
  net_at (Heap ∅ 1 []) nx_desc (Heap ∅ 1 []) (Heap ∅ 1 []) 1 nx_queue nx_pool nx_mem
    (Heap {[1%positive := TcpSocket 5 (Some 1%positive)]} 2 [], ({[5]}, n)) (Heap ∅ 1 []) ∅.

Abbreviation nx_owned := (owned 32 1 64 nx_net (fun _ => ax_device) nx_trigger fst (Heap ∅ 1 []) nx_desc
  (Heap ∅ 1 []) (Heap ∅ 1 []) 1 1 1 1 1).

Lemma nx_rep : cb_rep nx_queue 1 1 44 [] 0 None None.
Proof. by apply (cb_init_run (CbMem (Heap ∅ 1 []) (Heap ∅ 1 [])) 44). Qed.

Lemma nx_pool_ok : pool_of [] (replicate 10 conn0).
Proof.
  split; [done | done | | constructor]. intros i c Hc Hu. exfalso. revert i c Hc Hu.
  assert (Forall (fun c => used c = false) (replicate 10 conn0)) as H by by apply Forall_replicate.
  intros i c Hc Hu. pose proof (Forall_lookup_1 _ _ _ _ H Hc) as Hf. cbn in Hf. congruence.
Qed.

Lemma nx_closes : always_closes nx_net fst.
Proof. by intros id w r w' _ [= <- _]. Qed.

Lemma nx_start n : nx_owned [] ∅ nx_mem (nx_state n).
Proof.
  constructor; [exists []; exact nx_rep |].
  eapply held_none with (own := {[1%positive]}); try done;
    [exact nx_pool_ok | | apply heap_ok_empty].
  pose proof (sx_ok []) as [Hh Hn Hl Hi Hlo Ho]. by split.
Qed.

(** Turns of [accept_network_clients] that each have a client. *)
Fixpoint accept_turns (n : nat) : cmd (net_state unit (gset Z * nat)) bool :=
  match n with
  | O => mret true
  | S n => r ← accept_turn 1 64 nx_net (Some 1%positive) tt;
      match r with inl _ => accept_turns n | inr _ => mret false end
  end.

Lemma accept_turns_owned n : forall l s,
  nx_owned l ∅ nx_mem s ->
  wp (accept_turns n) (fun b s' => b = true -> exists l', length l' = (length l + n)%nat /\ nx_owned l' ∅ nx_mem s') s.
Proof.
  induction n as [| n IH]; intros l s H; cbn [accept_turns].
  - apply sat_ret. intros _. exists l. by rewrite Nat.add_0_r.
  - apply sat_bind. eapply sat_mono; [exact (accept_turn_run 32 1 64 nx_net (fun _ => ax_device) nx_trigger fst (Heap ∅ 1 [])
      nx_desc (Heap ∅ 1 []) (Heap ∅ 1 []) 1 1 1 1 1 eq_refl eq_refl ltac:(lia) ltac:(lia) l ∅ nx_mem s H) |].
    intros [[] | e] s' Ht; [| by apply sat_ret]. destruct Ht as [x Hx].
    eapply sat_mono; [by apply (IH _ _ Hx) |]. intros b s2 Hb Eb. destruct (Hb Eb) as (l' & Hl & H').
    exists l'. rewrite length_app in Hl. cbn [length] in Hl. split; [lia | done].
Qed.

(** Ten clients are connected, and another one waits. *)
Definition nx_full : net_state unit (gset Z * nat) :=
  match accept_turns 10 (nx_state 11) with Done (_, s) => s | _ => nx_state 0 end.

Lemma nx_full_ok : (exists l, nx_owned l ∅ nx_mem nx_full /\ length l = 10%nat) /\ client_waits nx_net nx_full.
Proof.
  split.
  - pose proof (accept_turns_owned 10 [] (nx_state 11) (nx_start 11)) as H.
    assert (match accept_turns 10 (nx_state 11) with Done (b, _) => b | _ => false end = true) as Hb
      by (vm_compute; reflexivity).
    unfold nx_full, triple in *. revert H Hb. generalize (accept_turns 10 (nx_state 11)). intros o H Hb.
    destruct o as [[b s'] | |]; [| discriminate Hb | discriminate Hb]. destruct (H Hb) as (l' & Hl & Hs). by exists l'.
  - vm_compute. split; [discriminate | done].
Qed.

(** A client waits: it is accepted, and served. *)
Lemma iio_network_step_correct_witness :
  exists s0 e new G1 s1, nx_owned [] ∅ nx_mem s0 /\
    accept_network_clients 1 64 nx_net (Some 1%positive) s0 = Done (e, s1) /\ e < 0 /\
    more_left nx_net fst ∅ G1 /\ nx_owned ([] ++ new) G1 nx_mem s1 /\
    let step := iio_step_network 32 1 64 nx_net (fun _ => ax_device) (Some 1%positive) (nx_state 1) in
    if e =? - EAGAIN
    then turn_of 32 1 64 nx_net (fun _ => ax_device) nx_trigger fst (Heap ∅ 1 []) nx_desc (Heap ∅ 1 []) (Heap ∅ 1 [])
           1 1 1 1 1 ([] ++ new) G1 s1 step
    else step = Done (e, s1).
Proof.
  exact (iio_network_step_correct 32 1 64 nx_net (fun _ => ax_device) nx_trigger fst (Heap ∅ 1 []) nx_desc
    (Heap ∅ 1 []) (Heap ∅ 1 []) 1 1 1 1 1 eq_refl eq_refl ltac:(lia) ltac:(lia) [] ∅ nx_mem nx_mem (nx_state 1)
    (nx_start 1) eq_refl).
Defined.

Lemma iio_network_full_witness :
  exists l G' s', iio_step_network 32 1 64 nx_net (fun _ => ax_device) (Some 1%positive) nx_full = Done (- EBUSY, s') /\
    nx_owned l G' nx_mem s' /\ more_left nx_net fst ∅ G'.
Proof.
  destruct nx_full_ok as [(l & Hl & Hlen) Hw]. exists l.
  exact (iio_network_full 32 1 64 nx_net (fun _ => ax_device) nx_trigger fst (Heap ∅ 1 []) nx_desc
    (Heap ∅ 1 []) (Heap ∅ 1 []) 1 1 1 1 1 eq_refl eq_refl ltac:(lia) ltac:(lia) l ∅ nx_mem nx_mem nx_full
    Hl eq_refl Hlen Hw).
Defined.

Lemma iio_network_removed_witness :
  exists l G' s', remove_network nx_net (Some 1%positive) nx_full = Done (tt, s') /\ cells (ns_bufs s') = ∅ /\
    dom (cells (st_link (ns_app s')).1) = G' /\
    (forall id, id ∈ (st_link (ns_app s')).2.1 ->
      exists q e, q ∈ G' /\ cells (st_link (ns_app s')).1 !! q = Some e /\ ts_id e = id) /\
    ∅ ⊆ G' /\ G' ⊆ ∅ ∪ in_use 1 l /\ (always_closes nx_net fst -> G' = ∅).
Proof.
  destruct nx_full_ok as [(l & Hl & _) _]. exists l.
  exact (iio_network_removed 32 1 64 nx_net (fun _ => ax_device) nx_trigger fst (Heap ∅ 1 []) nx_desc
    (Heap ∅ 1 []) (Heap ∅ 1 []) 1 1 1 1 1 eq_refl l ∅ nx_mem nx_full Hl).
Defined.

Lemma iio_network_started_witness :
  exists r s', init_network nx_net 256 (Some (TcpSocketInit (Some 1%positive) 0))
      (NetState (with_desc (Heap ∅ 1 []) nx_desc (Heap ∅ 1 []) (Heap ∅ 1 []) nx_queue nx_pool nx_mem
         (Heap ∅ 1 [], (∅, 0%nat))) (Heap ∅ 1 []) ∅ None) = Done (r, s') /\
    if r <? 0 then server_left nx_net fst 1 s' else nx_owned [] ∅ nx_mem s'.
Proof.
  eapply (iio_network_started 32 1 64 nx_net (fun _ => ax_device) nx_trigger fst (Heap ∅ 1 []) nx_desc
    (Heap ∅ 1 []) (Heap ∅ 1 []) 1 1 1 1 1 256 0 None nx_queue nx_pool nx_mem (Heap ∅ 1 [], (∅, 0%nat)));
    try done; [exact nx_pool_ok | exact nx_rep | | apply heap_ok_empty].
  split; [apply heap_ok_empty | done | | done | done |]; [exact (empty_subseteq _) |].
  intros i. cbn. split; [set_solver |]. by intros [[]%elem_of_empty | (q & d' & _ & [=] & _)].
Defined.
